(* ===== verification/_CoqProject ===== *)
-Q . S2P
Prelude.v
GoStrings.v
Base64.v
Breaker.v
KDomain.v
RichText.v
Json.v
KSchema.v
KTypes.v
KStore.v
KDocuments.v
KHistory.v
KPublication.v
KSharing.v
KOutbox.v
KCommits.v
KListing.v
KLogic.v
KWorker.v
KFrames.v
KSaga.v
KSagaSteps.v
KWorld.v
KSample.v
KCalls.v
KPages.v
KClaims.v
KAccess.v
KDelivery.v
KOutboxFacts.v
KHistoryFacts.v
KConditional.v
ISchema.v
IStore.v
ILogic.v
ITokens.v
IWorld.v
IClaims.v
ASchema.v
AStore.v
AService.v
AWorld.v
AClaims.v
GoText.v
Envelope.v
PSchema.v
PDomain.v
PStore.v
PService.v
PWorld.v
PSync.v
PClaims.v
PSyncFacts.v
PSample.v
CDrift.v
CReferences.v
CWorld.v
CClaims.v
CRevisions.v
AppError.v
AuthToken.v
GResponse.v
GLimit.v
GServer.v
GServerFacts.v
GInput.v
GContent.v
GCatalog.v
CContent.v
AppRuntime.v
WRichText.v
WKnowledge.v
IServe.v
IAccess.v
KServe.v
GKnowledge.v
CEndpoints.v
GIdentity.v
