(* ===== verification/Prelude.v ===== *)
(** * Knowledge Core: a verification library

    Knowledge Core is the back end of a knowledge base: documents with rich
    text, members and roles, folders and tags, publication with attachments,
    history and a trash, accounts with sessions, attachments that are
    uploaded, scanned and published, and runtime configuration.  This library
    models its knowledge, identity, attachment and platform services, the
    gateway in front of them, and what they share of [src/pkg/]: application
    errors, access tokens, the configuration envelope, the circuit breaker and
    the process runtime; and it proves the properties that make them correct.
    Files named [K*] model [src/services/knowledge/internal/], files named [I*]
    [src/services/identity/internal/], files named [A*]
    [src/services/attachment/internal/], files named [P*]
    [src/services/platform/internal/] and files named [G*]
    [src/services/gateway/]; files named [W*] model messages between services
    and files named [C*] several services together.  Paths below are relative
    to these.

    ** The program and its model

    The service keeps its state in one PostgreSQL schema.  Every request is a
    transaction on it; a background worker claims rows of two queue tables (the
    outbox and the publication jobs), calls the broker and the attachment
    service outside any transaction, and writes the outcome back in further
    transactions.  The model keeps that structure:

    - a database is the record [db] of [KSchema]: one finite map per table
      ([model/model.go]); [insert_*], [update_*] and [delete_*] are the
      statements the code issues, with the checks, unique keys, foreign keys
      and cascades of [migration/migrations/*.sql] as explicit errors; an insert
      replaces a zero value by the default its model declares, as GORM does;
    - an operation of [repository/*.go] is a definition of type [tx]: it reads
      and writes the database and returns a value or an error; [transaction]
      is GORM's: an error restores the state;
    - the clock, the identifiers drawn and the trace headers of a call are an
      argument [ctx];
    - the worker's external calls are the record [External] of answers, so a
      theorem about a pass holds for every behaviour of the other services.

    ** Files

    - [Prelude]: results, transactions, orderings, generic lemmas, tactics.
    - [GoStrings]: Go strings as bytes: runes, trimming, case, UTF-8 length.
    - [Breaker]: [pkg/circuit]: the circuit breaker and its client middleware.
    - [KDomain]: [domain/document.go]: validation, slugs, tags, access levels.
    - [RichText]: [domain/richtext.go]: the document tree and its validator.
    - [Json]: JSON values, the encoding of the tree and the removal of block
      identifiers ([repository/publication_hash.go]).
    - [KSchema], [KTypes]: tables with their constraints; the views the code
      returns.
    - [KStore]: [repository/store.go], [mapping.go], [idempotency.go],
      [notify.go], [outbox.go]: what the other operations share.
    - [KDocuments]: update, trash, restore, purge.
    - [Base64], [KListing]: listing and the opaque page cursors.
    - [KLogic]: [logic/*.go] and [client/directory.go]: the calls of the
      interface: validation, idempotency hashes, error mapping, composition
      with the identity service.
    - [KHistory], [KCommits]: checkpoints, differences, pruning; commits.
    - [KPublication]: [repository/publication_saga.go].
    - [KSharing], [KOutbox]: members, projections and folders; the outbox queue.
    - [KWorker]: [worker/worker.go], [worker/wake.go]: the lanes of a pass.
    - [KFrames], [KSaga], [KSagaSteps], [KWorld]: what each operation leaves
      alone, the invariant of the publication saga, its preservation by every
      operation, and the transition system of requests, workers and crashes.
    - [KSample]: a concrete codec and database, and the states the witnesses
      start from.
    - [KCalls], [KPages], [KClaims], [KAccess], [KDelivery], [KOutboxFacts],
      [KHistoryFacts], [KConditional]: the properties.

    - [ISchema], [IStore]: [model], [domain], [repository] and [security] of
      the identity service: users, sessions, action tokens, the mail outbox
      and one pass of its worker.
    - [ILogic]: its [logic/*.go]: registration, login with lockout, sessions
      and their refresh, verification, password reset, deactivation.
    - [IWorld]: its requests as a transition system, and what each of them keeps
      of sessions, accounts and action tokens ([life]).
    - [ITokens], [IClaims]: its properties; a concrete instance for the witnesses.

    - [ASchema], [AStore]: [model], [domain] and [repository] of the attachment
      service: quota, scan jobs with leases, trash, publication references.
    - [AService]: its [service/service.go], [domain/attachment.go] and the
      judgement of [scanner/clamav.go], over an object store that is the record
      [Objects] of answers; multipart uploads begun and aborted are logged.
    - [AWorld]: its invariant, requests and scan workers as a transition
      system; a worker that claimed a job may report at any later time, and a
      staging that has counted its attachments may write later, with anything
      but commands of its document in between.
    - [AClaims]: a concrete instance; the properties.

    - [GoText]: trimming on runes, well-formed UTF-8, decimal integers.
    - [Envelope]: [src/pkg/configcenter/envelope.go]: encrypted documents.
    - [PSchema], [PDomain], [PStore], [PService]: [model], [domain],
      [repository], [service] of the platform service, the administrator check
      of [transport] and one pass of [worker]: configurations with revisions,
      audit, events and the reports of consumers.
    - [PWorld]: its invariant and transition system; a report is a read and,
      later, a write.
    - [PSync]: [src/services/identity/internal/configsync/worker.go], the
      consumer, joined with the platform's database; a call may be refused or
      its answer lost.
    - [PClaims], [PSyncFacts]: the properties; [PSample]: a concrete instance.

    - [CDrift], [CReferences]: what the calls of the knowledge service keep of
      publication states, and those of the attachment service of references.
    - [CWorld]: the two services with [client/attachment.go] between them: calls
      that take effect, are answered, or are not; the joint invariant.
    - [CRevisions]: what happens to the metadata of a document meanwhile.
    - [CClaims]: the properties; a concrete run.

    - [AppError]: [src/pkg/error/], [src/pkg/metadata/context.go]: definitions,
      wrapping, RPC statuses, problem documents, request identifiers.
    - [AuthToken]: [src/pkg/auth/token.go]: issuing and verifying access tokens.
    - [AppRuntime]: [src/pkg/app/runner.go]: start-up, serving,
      shutdown and release of resources as a step relation.
    - [GResponse]: [internal/middleware/response.go]: problems sent to clients.
    - [GLimit]: [internal/ratelimit/redis.go] over a Redis with
      expiring keys, and the address of a client.
    - [GServer], [GServerFacts]: the middlewares, the routes and the chain;
      concrete requests.
    - [GInput]: [biz/handler/gateway/input.go]: headers, tags, paths, queries.
    - [GCatalog]: the error catalogues and boundaries of the services.
    - [GContent], [CContent]: the endpoint that discloses attachments, alone and
      over the joint state of the knowledge and attachment services.
    - [WRichText], [WKnowledge]: the messages of the knowledge service, their
      conversions in [transport/rpc/handler.go] and in the gateway's
      [knowledge_conversion.go].
    - [KServe], [IServe]: the RPC handlers of the knowledge and the identity
      service; [IAccess]: what access tokens are good for.
    - [GKnowledge]: [knowledge_handlers.go] and
      [folder_handlers.go]: the endpoints over a client of that service.
    - [CEndpoints]: those endpoints over those handlers in the joint state.
    - [GIdentity]: [gateway_service.go]: the endpoints over the identity service,
      alone and over its handlers; a concrete account.

    ** What the theorems show

    - Publication ([KClaims]): the saga's invariant in every reachable state;
      stale jobs are fenced off by every new request, keyed or not; a live
      publication is always a candidate that an authorised request stored, but
      for the defaults of its insert; readers see live publications only.
    - The interface ([KCalls], [KPages], [KListing]): a call is a run of at most
      two valid store requests, a failed one leaves no trace, following the
      cursors enumerates a collection, cursors round-trip.
    - Access and concurrency ([KAccess]): requests without the required role
      change nothing; updates are not lost; idempotency keys replay, conflict
      and expire; a retried creation answers with the first document.
    - Delivery ([KDelivery], [KOutboxFacts]): a worker pass refines the atomic
      steps; a handled job is completed, rescheduled or parked; unpublished
      events are kept; member changes are announced in their transaction.
    - History ([KHistoryFacts]): what pruning keeps and drops; the block
      difference is exact; recording the activity of a document is refused,
      because the model names a column the table does not have.
    - Domain ([KDomain], [RichText]): exact characterisations of slug and tag
      normalisation and of the tree validator.
    - Accounts ([IClaims], [ITokens]): sessions end and revocation is final;
      changed credentials raise the token version; wrong passwords lock an
      account; a reset token works once; refresh tokens round-trip.  Three
      theorems state defects: a rotated token names no session, a replay leaves
      the session unrevoked, a verification undoes a deactivation.
    - Attachments ([AClaims]): the reference commands implement a protocol of an
      active and a staged generation; what a publication refers to exists, its
      scan is over and it cannot be trashed from then on (it can have been
      trashed between the count and the writes of a staging, which
      [overtaken_reference] shows); a scan pass accounts for its job; an upload completes
      exactly with every part once.  Two theorems state defects: restoring makes
      a rejected attachment ready, a late scan result undoes the trash.
    - Configuration ([Envelope], [PClaims], [PSyncFacts]): an envelope opens
      where it was sealed and nowhere else; a put stores the next revision, which
      reads back with its instants cut to microseconds, or changes nothing; revisions, audit entries and events
      correspond one to one and never change; every stored configuration is
      valid; the identity service converges to the current revision
      when the platform has not recorded it yet and nothing comes between.  Three
      findings are theorems: an expired key blocks its request, a restart or a
      redelivery leaves the consumer on other options, two interleaved reports
      undo a final status.
    - [Breaker]: refinement of a streak specification; a single probe.
    - Knowledge and attachments together ([CClaims]): what the knowledge service
      authorises as published media the attachment service holds and no step
      trashes, and a draft holds nothing there, in every interleaving of the two
      services, stagings in two phases included.
    - The gateway ([GResponse], [GLimit], [GServerFacts]): errors reach
      clients as the problems of their catalogue entries; the limiter admits
      exactly by the counter that runs, which counts every call in time;
      protected endpoints run for verified callers only; a request reaches its
      endpoint exactly when every middleware admits it.
    - Requests from end to end ([CContent], [CEndpoints], [WRichText]): an
      attachment is disclosed when published or to its owner; rows change only
      under the entity tag of their revision; what is published is the draft as
      it was when the request came, which is the revision the client named
      unless the tag named one yet to come; content survives the way to
      a client and back but for the variants of callouts.  One theorem states a
      defect: a commit of another document is changed before it is refused.
    - Access ([IAccess], [GIdentity]): a token is accepted exactly as long as its
      account keeps the version it was issued at; a caller changes only its own
      account; after a change of credentials no endpoint takes an old token.
    - Shared packages ([AuthToken], [AppRuntime]): a token verifies exactly
      within its life; a process starts, serves, stops and releases in order,
      and always ends.

    ** Parameters, bounds and fuel

    Code outside the repository is a parameter with documented behaviour as
    named hypotheses: the tables of package unicode ([Unicode]), the uuid and
    net/url parsers ([Uuid], [Url]), the JSON packages and the hash ([Codec]),
    the JSON text of a cursor ([CursorCodec], [ACursorCodec]), the object
    store ([Objects]), the text functions and the jsonb
    rendering of PostgreSQL ([Pg]), bcrypt, HMAC, SHA-256, AES-GCM, net/mail and
    the token signer ([Crypto]), AES-GCM and the text of an envelope ([Gcm],
    [GcmLaws], [EnvelopeCodec]), strconv.ParseFloat, net/mail and net/url
    ([Parsers], [ParserLaws]), the body of a notification ([EventCodec]);
    [ConfigLaws] says what the encoders and jsonb columns keep of UTF-8 text;
    JWT and Ed25519 ([Jwt]), the RPC library ([Rpc], [RpcLaws]), the JSON of
    responses ([ProblemCodec], [DataCodec]), IP addresses ([Net]), the
    verifier and the limiter as the gateway sees them ([Backends]), query
    strings, identifiers and addresses ([Query], [UuidText], [Redirects],
    [Paths]), the text of instants ([TimeText]), the JSON of accounts
    ([IdentityCodec]).  What the collaboration service
    captures for a publication is an argument.
    [KSample], [KListing], [IClaims], [AClaims], [PSample], [GServerFacts],
    [CEndpoints] and [GIdentity] instantiate them concretely.  Integers are [Z]; where a width matters the wrap-around
    ([wrap64]) is explicit.  Loops that are not structural carry fuel: the
    folder walk uses the number of folders, the history lane the batch size of
    the source.

    ** Not modelled

    The collaboration service (Rust); the gateway's endpoints over the
    attachment, collaboration and platform services and its strict
    decoder of request bodies; the SMTP exchange, the ClamAV socket protocol and
    the S3 client; generated bindings; the message bus, logging, tracing,
    metrics and configuration loading; the SQL planner (a query is the set of
    rows it denotes, in the order it asks for); row locks, since a transaction is
    one atomic step, but for staging publication references, which reads rows it
    does not lock.  Instants are kept as the columns keep them in the platform
    service, whose answers are compared with what is read back; elsewhere they
    stay as computed. *)

From stdpp Require Import base gmap list strings sorting relations.
From Stdlib Require Import ZArith Lia Ascii.

Declare Scope kc_scope.
Delimit Scope kc_scope with kc.
Open Scope kc_scope.

(** ** Results and transactions *)

(** The outcome of fallible Go code: a value, or an error value. *)
Inductive result (E A : Type) : Type :=
| Ok (a : A)
| Err (e : E).

Arguments Ok {E A} a.
Arguments Err {E A} e.

#[export] Instance result_eq_dec {E A} `{EqDecision E, EqDecision A} : EqDecision (result E A).
Proof. solve_decision. Defined.

#[export] Instance result_ret {E} : MRet (result E) := λ A a, Ok a.

#[export] Instance result_bind {E} : MBind (result E) :=
  λ A B f r, match r with Ok a => f a | Err e => Err e end.

Lemma result_bind_ok {E A B} (m : result E A) (f : A → result E B) b :
  m ≫= f = Ok b ↔ ∃ a, m = Ok a ∧ f a = Ok b.
Proof. destruct m; simpl; naive_solver. Qed.

Lemma result_then_ok {E B} (m : result E unit) (k : result E B) b :
  (m ≫= λ _, k) = Ok b ↔ m = Ok tt ∧ k = Ok b.
Proof. rewrite result_bind_ok. split; [intros ([] & ?); done|naive_solver]. Qed.

(** Code that reads and writes a state [S] and may fail.  The state is kept on
    failure, so a write that precedes an error is visible to whoever catches
    it; [transaction] is what undoes it. *)
Definition tx (S E A : Type) : Type := S → S * result E A.

#[export] Instance tx_ret {S E} : MRet (tx S E) := λ A a s, (s, Ok a).

#[export] Instance tx_bind {S E} : MBind (tx S E) :=
  λ A B f m s, match m s with
               | (s', Ok a) => f a s'
               | (s', Err e) => (s', Err e)
               end.

Definition fail {S E A} (e : E) : tx S E A := λ s, (s, Err e).

Definition gets {S E A} (f : S → A) : tx S E A := λ s, (s, Ok (f s)).

Definition modify {S E} (f : S → S) : tx S E unit := λ s, (f s, Ok tt).

(** [require b e] is the guard [if !b { return e }]. *)
Definition require {S E} (b : bool) (e : E) : tx S E unit :=
  if b then mret tt else fail e.

(** [expect e o] is a lookup that must succeed. *)
Definition expect {S E A} (e : E) (o : option A) : tx S E A :=
  match o with Some a => mret a | None => fail e end.

(** A pure fallible computation run inside a transaction. *)
Definition lift {S E A} (r : result E A) : tx S E A := λ s, (s, r).

(** [wrap f m] translates the error of [m], as [fmt.Errorf] and the error
    mapping helpers of the repositories do. *)
Definition wrap {S E E' A} (f : E → E') (m : tx S E A) : tx S E' A :=
  λ s, match m s with
       | (s', Ok a) => (s', Ok a)
       | (s', Err e) => (s', Err (f e))
       end.

(** [attempt m] runs [m] and hands its outcome to the caller, keeping the
    writes: the Go idiom [err := f()] followed by a test of [err]. *)
Definition attempt {S E E' A} (m : tx S E A) : tx S E' (result E A) :=
  λ s, let '(s', r) := m s in (s', Ok r).

(** [gorm.DB.Transaction]: commit when the callback returns nil, roll every
    write back when it returns an error. *)
Definition transaction {S E A} (m : tx S E A) : tx S E A :=
  λ s, match m s with
       | (s', Ok a) => (s', Ok a)
       | (_, Err e) => (s, Err e)
       end.

(** [for _, x := range xs { if err := f(x); err != nil { return err } }] *)
Fixpoint for_each {S E A} (xs : list A) (f : A → tx S E unit) : tx S E unit :=
  match xs with
  | [] => mret tt
  | x :: xs' => f x ≫= λ _, for_each xs' f
  end.

(** The same loop when the body appends one element to the result. *)
Fixpoint collect {S E A B} (xs : list A) (f : A → tx S E B) : tx S E (list B) :=
  match xs with
  | [] => mret []
  | x :: xs' => f x ≫= λ y, collect xs' f ≫= λ ys, mret (y :: ys)
  end.

Notation "x |> f" := (f x) (at level 61, left associativity, only parsing) : kc_scope.

(** ** Inversion of runs *)

Section runs.
Context {S E : Type}.

Lemma bind_run_ok {A B} (m : tx S E A) (f : A → tx S E B) s s' b :
  (m ≫= f) s = (s', Ok b) ↔ ∃ s1 a, m s = (s1, Ok a) ∧ f a s1 = (s', Ok b).
Proof.
  unfold mbind, tx_bind. destruct (m s) as [s1 [a|e]]; naive_solver.
Qed.

Lemma bind_run_err {A B} (m : tx S E A) (f : A → tx S E B) s s' e :
  (m ≫= f) s = (s', Err e) ↔
  m s = (s', Err e) ∨ ∃ s1 a, m s = (s1, Ok a) ∧ f a s1 = (s', Err e).
Proof.
  unfold mbind, tx_bind. destruct (m s) as [s1 [a|e1]]; naive_solver.
Qed.

Lemma ret_run {A} (a : A) (s s' : S) r :
  (mret a : tx S E A) s = (s', r) ↔ s' = s ∧ r = Ok a.
Proof. unfold mret, tx_ret. naive_solver. Qed.

Lemma fail_run {A} (e : E) (s s' : S) (r : result E A) :
  fail e s = (s', r) ↔ s' = s ∧ r = Err e.
Proof. unfold fail. naive_solver. Qed.

Lemma gets_run {A} (f : S → A) (s s' : S) (r : result E A) :
  gets f s = (s', r) ↔ s' = s ∧ r = Ok (f s).
Proof. unfold gets. naive_solver. Qed.

Lemma modify_run (f : S → S) s s' (r : result E unit) :
  modify f s = (s', r) ↔ s' = f s ∧ r = Ok tt.
Proof. unfold modify. naive_solver. Qed.

Lemma require_run_ok b (e : E) (s s' : S) u :
  require b e s = (s', Ok u) ↔ b = true ∧ s' = s.
Proof. destruct b, u; unfold require, mret, tx_ret, fail; naive_solver. Qed.

Lemma require_run_err b (e e' : E) (s s' : S) :
  require b e s = (s', Err e') ↔ b = false ∧ s' = s ∧ e' = e.
Proof. destruct b; unfold require, mret, tx_ret, fail; naive_solver. Qed.

Lemma expect_run_ok {A} (e : E) (o : option A) (s s' : S) a :
  expect e o s = (s', Ok a) ↔ o = Some a ∧ s' = s.
Proof. destruct o; unfold expect, mret, tx_ret, fail; naive_solver. Qed.

Lemma expect_run_err {A} (e e' : E) (o : option A) (s s' : S) :
  expect e o s = (s', Err e') ↔ o = None ∧ s' = s ∧ e' = e.
Proof. destruct o; unfold expect, mret, tx_ret, fail; naive_solver. Qed.

Lemma lift_run {A} (r r' : result E A) (s s' : S) :
  lift r s = (s', r') ↔ s' = s ∧ r' = r.
Proof. unfold lift. naive_solver. Qed.

Lemma wrap_run_ok {E' A} (f : E → E') (m : tx S E A) s s' a :
  wrap f m s = (s', Ok a) ↔ m s = (s', Ok a).
Proof. unfold wrap. destruct (m s) as [s1 [a1|e1]]; naive_solver. Qed.

Lemma wrap_run_err {E' A} (f : E → E') (m : tx S E A) s s' e' :
  wrap f m s = (s', Err e') ↔ ∃ e, m s = (s', Err e) ∧ e' = f e.
Proof. unfold wrap. destruct (m s) as [s1 [a1|e1]]; naive_solver. Qed.

Lemma attempt_run_ok {E' A} (m : tx S E A) s s' r :
  (attempt m : tx S E' _) s = (s', Ok r) ↔ m s = (s', r).
Proof. unfold attempt. destruct (m s); naive_solver. Qed.

Lemma transaction_run_ok {A} (m : tx S E A) s s' a :
  transaction m s = (s', Ok a) ↔ m s = (s', Ok a).
Proof. unfold transaction. destruct (m s) as [s1 [a1|e1]]; naive_solver. Qed.

(** Atomicity: a failed transaction leaves the state as it was. *)
Lemma transaction_run_err {A} (m : tx S E A) s s' e :
  transaction m s = (s', Err e) ↔ s' = s ∧ ∃ s1, m s = (s1, Err e).
Proof. unfold transaction. destruct (m s) as [s1 [a1|e1]]; naive_solver. Qed.

Lemma transaction_ok {A} (m : tx S E A) s s' a : transaction m s = (s', Ok a) → m s = (s', Ok a).
Proof. apply transaction_run_ok. Qed.

Lemma wrap_ok {E' A} (f : E → E') (m : tx S E A) s s' a : wrap f m s = (s', Ok a) → m s = (s', Ok a).
Proof. apply wrap_run_ok. Qed.

Lemma attempt_ok {E' A} (m : tx S E A) s s' r : (attempt m : tx S E' _) s = (s', Ok r) → m s = (s', r).
Proof. apply attempt_run_ok. Qed.

Lemma transaction_keeps {A} (I : S → Prop) (m : tx S E A) s :
  I s → (∀ s' a, m s = (s', Ok a) → I s') → I (transaction m s).1.
Proof. unfold transaction. destruct (m s) as [s1 [a1|e1]]; naive_solver. Qed.

Lemma for_each_keeps {A} (I : S → Prop) (xs : list A) (f : A → tx S E unit) s s' u :
  (∀ x s1 s2 v, x ∈ xs → I s1 → f x s1 = (s2, Ok v) → I s2) →
  I s → for_each xs f s = (s', Ok u) → I s'.
Proof.
  revert s. induction xs as [|x xs IH]; intros s Hf Hs; simpl.
  - rewrite ret_run. naive_solver.
  - rewrite bind_run_ok. intros (s1 & v & Hx & Hrest).
    eapply IH; [|eapply (Hf x); eauto; set_solver|exact Hrest].
    intros y ?? w Hy. apply (Hf y); set_solver.
Qed.

Lemma collect_keeps {A B} (I : S → Prop) (xs : list A) (f : A → tx S E B) s s' ys :
  (∀ x s1 s2 v, x ∈ xs → I s1 → f x s1 = (s2, Ok v) → I s2) →
  I s → collect xs f s = (s', Ok ys) → I s'.
Proof.
  revert s ys. induction xs as [|x xs IH]; intros s ys Hf Hs; simpl.
  - rewrite ret_run. naive_solver.
  - rewrite bind_run_ok. intros (s1 & v & Hx & Hrest).
    apply bind_run_ok in Hrest as (s2 & ys' & Hrest & Hret).
    apply ret_run in Hret as [-> _].
    eapply IH; [|eapply (Hf x); eauto; set_solver|exact Hrest].
    intros y ?? w Hy. apply (Hf y); set_solver.
Qed.

End runs.

(** ** Bounds on what a computation changes

    [within R m]: whatever [m] does from a state, and whether it succeeds or
    fails, [R] relates the state before to the state after. *)
Section within.
Context {S E : Type} (R : relation S) `{!PreOrder R}.

Definition within {E A} (m : tx S E A) : Prop := ∀ s, R s (m s).1.

Lemma within_ret {A} (a : A) : within (E:=E) (mret a).
Proof. intros s. done. Qed.

Lemma within_fail {A} (e : E) : within (A:=A) (fail e).
Proof. intros s. done. Qed.

Lemma within_gets {A} (f : S → A) : within (E:=E) (gets f).
Proof. intros s. done. Qed.

Lemma within_lift {A} (r : result E A) : within (lift r).
Proof. intros s. done. Qed.

Lemma within_require b (e : E) : within (require b e).
Proof. intros s. unfold require. by destruct b. Qed.

Lemma within_expect {A} (e : E) (o : option A) : within (expect e o).
Proof. intros s. unfold expect. by destruct o. Qed.

Lemma within_modify (f : S → S) : (∀ s, R s (f s)) → within (E:=E) (modify f).
Proof. intros Hf s. apply Hf. Qed.

(** At one state, the continuation may use what the first part returned. *)
Lemma within_bind_at {A B} (m : tx S E A) (k : A → tx S E B) s :
  R s (m s).1 → (∀ s' a, m s = (s', Ok a) → R s' (k a s').1) → R s ((m ≫= k) s).1.
Proof.
  unfold mbind, tx_bind. destruct (m s) as [s' [a|e]]; simpl; [|done].
  intros Hm Hk. etrans; [exact Hm|by apply Hk].
Qed.

Lemma within_bind {A B} (m : tx S E A) (k : A → tx S E B) :
  within m → (∀ a, within (k a)) → within (m ≫= k).
Proof. intros Hm Hk s. apply within_bind_at; [apply Hm|]. intros s' a _. apply Hk. Qed.

Lemma wrap_at {E' A} (f : E → E') (m : tx S E A) s : R s (m s).1 → R s (wrap f m s).1.
Proof. unfold wrap. by destruct (m s) as [s' [a|e]]. Qed.

Lemma within_wrap {E' A} (f : E → E') (m : tx S E A) : within m → within (wrap f m).
Proof. intros Hm s. apply wrap_at, Hm. Qed.

Lemma within_attempt {E' A} (m : tx S E A) : within m → within (E:=E') (attempt m).
Proof. intros Hm s. specialize (Hm s). unfold attempt. by destruct (m s). Qed.

Lemma within_transaction {A} (m : tx S E A) : within m → within (transaction m).
Proof. intros Hm s. specialize (Hm s). unfold transaction. by destruct (m s) as [s' [a|e]]. Qed.

Lemma transaction_at {A} (m : tx S E A) s :
  (∀ s' a, m s = (s', Ok a) → R s s') → R s (transaction m s).1.
Proof. unfold transaction. destruct (m s) as [s' [a|e]]; simpl; naive_solver. Qed.

End within.

(** [run_inv] turns a hypothesis [m s = (s', r)] about monadic code into the
    facts each step contributes; [run_tidy] substitutes what they determine. *)
Ltac run_tidy :=
  repeat match goal with
  | H : Ok _ = Ok _ |- _ => injection H as H
  | H : Err _ = Err _ |- _ => injection H as H
  | H : Ok _ = Err _ |- _ => discriminate H
  | H : Err _ = Ok _ |- _ => discriminate H
  | H : Some _ = Some _ |- _ => injection H as H
  | H : ?x = ?x |- _ => clear H
  | H : ?x = _ |- _ => is_var x; subst x
  | H : _ = ?x |- _ => is_var x; subst x
  end.

Ltac run_step :=
  match goal with
  | H : (_ ≫= _) _ = (_, Ok _) |- _ =>
      apply bind_run_ok in H as (? & ? & ? & H); cbv beta iota zeta in H
  | H : (match (_, _) with _ => _ end) _ = (_, Ok _) |- _ => progress cbv beta iota zeta in H
  | H : mret _ _ = (_, _) |- _ => apply ret_run in H as [? H]
  | H : fail _ _ = (_, _) |- _ => apply fail_run in H as [? H]
  | H : gets _ _ = (_, _) |- _ => apply gets_run in H as [? H]; cbv beta delta [id] in H
  | H : modify _ _ = (_, _) |- _ => apply modify_run in H as [? H]
  | H : require _ _ _ = (_, Ok _) |- _ => apply require_run_ok in H as [H ?]
  | H : require _ _ _ = (_, Err _) |- _ => apply require_run_err in H as (H & ? & ?)
  | H : expect _ _ _ = (_, Ok _) |- _ => apply expect_run_ok in H as [H ?]
  | H : expect _ _ _ = (_, Err _) |- _ => apply expect_run_err in H as (H & ? & ?)
  | H : lift _ _ = (_, _) |- _ => apply lift_run in H as [? H]
  | H : wrap _ _ _ = (_, Ok _) |- _ => apply wrap_ok in H
  | H : attempt _ _ = (_, Ok _) |- _ => apply attempt_ok in H
  | H : transaction _ _ = (_, Ok _) |- _ => apply transaction_ok in H
  end.

Ltac run_inv := run_tidy; repeat (run_step; run_tidy).

(** ** Comparisons and sorting *)

(** Lexicographic composition of three-way comparisons, as in an SQL
    [ORDER BY a, b, c]. *)
Definition then_by {A} (c1 c2 : A → A → comparison) : A → A → comparison :=
  λ x y, match c1 x y with Eq => c2 x y | c => c end.

Definition by_key {A B} (f : A → B) (c : B → B → comparison) : A → A → comparison :=
  λ x y, c (f x) (f y).

Definition descending {A} (c : A → A → comparison) : A → A → comparison :=
  λ x y, CompOpp (c x y).

Definition cmp_le {A} (c : A → A → comparison) (x y : A) : Prop :=
  c x y ≠ Gt.

#[export] Instance cmp_le_dec {A} (c : A → A → comparison) : RelDecision (cmp_le c).
Proof. intros x y. unfold cmp_le. destruct (c x y); solve_decision. Defined.

(** [ORDER BY]: a stable sort of the rows by a comparison. *)
Definition order_by {A} (c : A → A → comparison) (l : list A) : list A :=
  merge_sort (cmp_le c) l.

Lemma order_by_perm {A} (c : A → A → comparison) l : order_by c l ≡ₚ l.
Proof. apply merge_sort_Permutation. Qed.

Lemma elem_of_order_by {A} (c : A → A → comparison) l x : x ∈ order_by c l ↔ x ∈ l.
Proof. by rewrite order_by_perm. Qed.

(** A three-way comparison that is a weak order: what [ORDER BY] needs. *)
Class Ordered {A} (c : A → A → comparison) : Prop := {
  ordered_sym : ∀ x y, c y x = CompOpp (c x y);
  ordered_trans : ∀ x y z, c x y = Lt → c y z = Lt → c x z = Lt;
  ordered_eq : ∀ x y z, c x y = Eq → c x z = c y z;
}.

#[export] Instance ordered_Z : Ordered Z.compare.
Proof.
  split.
  - intros x y. apply Z.compare_antisym.
  - intros x y z. rewrite !Z.compare_lt_iff. lia.
  - intros x y z ->%Z.compare_eq_iff. done.
Qed.

Lemma ascii_compare_trans a b c :
  Ascii.compare a b = Lt → Ascii.compare b c = Lt → Ascii.compare a c = Lt.
Proof. unfold Ascii.compare. rewrite !N.compare_lt_iff. lia. Qed.

Lemma string_compare_trans x y z :
  String.compare x y = Lt → String.compare y z = Lt → String.compare x z = Lt.
Proof.
  revert y z. induction x as [|a x IH]; intros [|b y] [|c z]; simpl; try done.
  destruct (Ascii.compare a b) eqn:E1; [|intros _|done];
    (destruct (Ascii.compare b c) eqn:E2; [|intros _|done]).
  - apply Ascii.compare_eq_iff in E1 as ->. rewrite E2. apply IH.
  - apply Ascii.compare_eq_iff in E1 as ->. by rewrite E2.
  - apply Ascii.compare_eq_iff in E2 as ->. rewrite E1. done.
  - by rewrite (ascii_compare_trans a b c).
Qed.

#[export] Instance ordered_string : Ordered String.compare.
Proof.
  split.
  - intros x y. apply String.compare_antisym.
  - apply string_compare_trans.
  - intros x y z ->%String.compare_eq_iff. done.
Qed.

#[export] Instance ordered_by_key {A B} (f : A → B) c : Ordered c → Ordered (by_key f c).
Proof.
  intros [Hs Ht He]. unfold by_key. split; intros; [apply Hs|by eapply Ht|by apply He].
Qed.

#[export] Instance ordered_descending {A} (c : A → A → comparison) : Ordered c → Ordered (descending c).
Proof.
  intros [Hs Ht He]. unfold descending. split.
  - intros x y. by rewrite Hs.
  - intros x y z. rewrite <-!Hs. intros Hxy Hyz. by eapply Ht.
  - intros x y z Hxy. f_equal. apply He. by destruct (c x y).
Qed.

#[export] Instance ordered_then_by {A} (c1 c2 : A → A → comparison) :
  Ordered c1 → Ordered c2 → Ordered (then_by c1 c2).
Proof.
  intros [S1 T1 E1] [S2 T2 E2]. unfold then_by. split.
  - intros x y. rewrite S1. destruct (c1 x y); simpl; auto.
  - intros x y z. destruct (c1 x y) eqn:H1; [|intros _|done].
    + rewrite (E1 x y z H1). destruct (c1 y z); [apply T2|done..].
    + destruct (c1 y z) eqn:H2; [|intros _|done].
      * assert (c1 x z = Lt) as ->; [|done]. rewrite S1, <-(E1 y z x H2), S1, H1. done.
      * by rewrite (T1 x y z).
  - intros x y z. destruct (c1 x y) eqn:H1; [|done..]. intros H2.
    rewrite (E1 x y z H1). destruct (c1 y z); [by apply E2|done..].
Qed.

Section ordered.
Context {A : Type} (c : A → A → comparison) `{!Ordered c}.

Lemma ordered_refl x : c x x = Eq.
Proof. pose proof (ordered_sym (c:=c) x x) as Hs. by destruct (c x x). Qed.

Lemma ordered_gt x y : c x y = Gt ↔ c y x = Lt.
Proof. rewrite (ordered_sym (c:=c) x y). destruct (c x y); simpl; naive_solver. Qed.

#[export] Instance cmp_le_total : Total (cmp_le c).
Proof. intros x y. unfold cmp_le. rewrite (ordered_sym (c:=c) x y). destruct (c x y); simpl; naive_solver. Qed.

#[export] Instance cmp_le_trans : Transitive (cmp_le c).
Proof.
  intros x y z. unfold cmp_le. destruct (c x y) eqn:Hxy; [|intros _|done].
  - by rewrite (ordered_eq (c:=c) x y z).
  - destruct (c y z) eqn:Hyz; [| |done]; intros _.
    + rewrite (ordered_sym (c:=c) z x), <-(ordered_eq (c:=c) y z x Hyz), (ordered_sym (c:=c) x y), Hxy. done.
    + by rewrite (ordered_trans (c:=c) x y z).
Qed.

Lemma order_by_sorted l : StronglySorted (cmp_le c) (order_by c l).
Proof. apply StronglySorted_merge_sort; apply _. Qed.

End ordered.

Lemma filter_all {A} (P : A → Prop) `{∀ x, Decision (P x)} (l : list A) :
  (∀ x, x ∈ l → P x) → filter P l = l.
Proof.
  induction l as [|x l IH]; intros Hall; [done|]. rewrite filter_cons.
  rewrite decide_True by (apply Hall; left). f_equal. apply IH. intros y Hy. apply Hall. by right.
Qed.

(** ** Tables *)

Section tables.
Context {K : Type} `{Countable K} {V : Type}.
Implicit Types m : gmap K V.

(** The rows of a table, in an order the caller must not rely on. *)
Definition rows (m : gmap K V) : list V := (map_to_list m).*2.

Definition rows_where (P : V → bool) (m : gmap K V) : list V :=
  filter (λ v, P v = true) (rows m).

(** [SELECT ... WHERE P ORDER BY c LIMIT 1] *)
Definition first_where (P : V → bool) (c : V → V → comparison) (m : gmap K V) : option V :=
  head (order_by c (rows_where P m)).

(** [SELECT EXISTS (... WHERE P)], and [COUNT( * )] *)
Definition exists_where (P : V → bool) (m : gmap K V) : bool := existsb P (rows m).

Definition count_where (P : V → bool) (m : gmap K V) : Z := Z.of_nat (length (rows_where P m)).

(** [DELETE ... WHERE P] and [UPDATE ... SET f WHERE P] *)
Definition delete_where (P : V → bool) (m : gmap K V) : gmap K V :=
  filter (λ kv, P kv.2 = false) m.

Definition update_where (P : V → bool) (f : V → V) (m : gmap K V) : gmap K V :=
  (λ v, if P v then f v else v) <$> m.

Lemma elem_of_rows m v : v ∈ rows m ↔ ∃ k, m !! k = Some v.
Proof.
  unfold rows. rewrite list_elem_of_fmap. split.
  - intros ([k v'] & -> & Hin). exists k. by apply elem_of_map_to_list in Hin.
  - intros [k Hk]. exists (k, v). split; [done|]. by apply elem_of_map_to_list.
Qed.

Lemma elem_of_rows_where P m v : v ∈ rows_where P m ↔ P v = true ∧ ∃ k, m !! k = Some v.
Proof. unfold rows_where. by rewrite list_elem_of_filter, elem_of_rows. Qed.

Lemma first_where_Some P c m v :
  first_where P c m = Some v → P v = true ∧ ∃ k, m !! k = Some v.
Proof.
  unfold first_where. intros Hh. apply elem_of_rows_where.
  apply (elem_of_order_by c).
  destruct (order_by c (rows_where P m)) as [|x l]; simplify_eq/=. set_solver.
Qed.

Lemma first_where_None P c m :
  first_where P c m = None ↔ ∀ k v, m !! k = Some v → P v = false.
Proof.
  unfold first_where. split.
  - intros Hh k v Hk. destruct (P v) eqn:HP; [|done].
    assert (v ∈ order_by c (rows_where P m)) as Hin.
    { apply elem_of_order_by, elem_of_rows_where; eauto. }
    destruct (order_by c (rows_where P m)); [set_solver|done].
  - intros Hall. destruct (order_by c (rows_where P m)) as [|x l] eqn:E; [done|].
    assert (x ∈ order_by c (rows_where P m)) as Hin by (rewrite E; set_solver).
    apply elem_of_order_by, elem_of_rows_where in Hin as [HP [k Hk]].
    rewrite (Hall k x Hk) in HP. done.
Qed.

Lemma exists_where_true P m :
  exists_where P m = true ↔ ∃ k v, m !! k = Some v ∧ P v = true.
Proof.
  unfold exists_where. rewrite existsb_exists. split.
  - intros (v & Hin & HP). apply list_elem_of_In, elem_of_rows in Hin as [k Hk]. eauto.
  - intros (k & v & Hk & HP). exists v. split; [|done].
    apply list_elem_of_In, elem_of_rows. eauto.
Qed.

Lemma exists_where_false P m :
  exists_where P m = false ↔ ∀ k v, m !! k = Some v → P v = false.
Proof.
  rewrite <-not_true_iff_false, exists_where_true. split.
  - intros Hn k v Hk. apply not_true_iff_false. naive_solver.
  - intros Hall (k & v & Hk & HP). rewrite (Hall k v Hk) in HP. done.
Qed.

Lemma lookup_delete_where P m k :
  delete_where P m !! k = (m !! k) ≫= λ v, if P v then None else Some v.
Proof.
  unfold delete_where. destruct (m !! k) as [v|] eqn:Hk; simpl.
  - destruct (P v) eqn:HP.
    + apply map_lookup_filter_None. right. intros v' ? ?. simplify_eq/=. congruence.
    + apply map_lookup_filter_Some. eauto.
  - apply map_lookup_filter_None. by left.
Qed.

Lemma lookup_delete_where_Some P m k v :
  delete_where P m !! k = Some v ↔ m !! k = Some v ∧ P v = false.
Proof.
  rewrite lookup_delete_where. destruct (m !! k) as [w|]; simpl; [|naive_solver].
  destruct (P w) eqn:?; naive_solver congruence.
Qed.

Lemma delete_where_subseteq P m : delete_where P m ⊆ m.
Proof. apply map_filter_subseteq. Qed.

Lemma lookup_update_where P f m k :
  update_where P f m !! k = (λ v, if P v then f v else v) <$> m !! k.
Proof. apply lookup_fmap. Qed.

Lemma lookup_update_where_Some P f m k w :
  update_where P f m !! k = Some w ↔
  ∃ v, m !! k = Some v ∧ w = if P v then f v else v.
Proof. rewrite lookup_update_where, fmap_Some. done. Qed.

End tables.

(** The first row of a selection is least, and the least row is first. *)
Section first.
Context {K V : Type} `{Countable K} (P : V → bool) (c : V → V → comparison) `{!Ordered c}.
Implicit Types m : gmap K V.

Lemma first_where_le m k v w :
  first_where P c m = Some v → m !! k = Some w → P w = true → c v w ≠ Gt.
Proof.
  unfold first_where. intros Hh Hk HP.
  assert (w ∈ order_by c (rows_where P m)) as Hin by (apply elem_of_order_by, elem_of_rows_where; eauto).
  pose proof (order_by_sorted c (rows_where P m)) as Hs.
  destruct (order_by c (rows_where P m)) as [|x l]; simplify_eq/=.
  apply elem_of_cons in Hin as [->|Hin]; [by rewrite ordered_refl|].
  apply StronglySorted_inv in Hs as [_ Hs]. rewrite Forall_forall in Hs. by apply Hs.
Qed.

Lemma first_where_least m k v :
  m !! k = Some v → P v = true →
  (∀ j w, m !! j = Some w → P w = true → j ≠ k → c v w = Lt) →
  first_where P c m = Some v.
Proof.
  intros Hk HP Hl. destruct (first_where P c m) as [x|] eqn:Hx.
  - pose proof (first_where_le m k x v Hx Hk HP) as Hle.
    apply first_where_Some in Hx as [HPx [j Hj]]. destruct (decide (j = k)) as [->|Hne]; [congruence|].
    exfalso. apply Hle. rewrite ordered_gt by apply _. by eapply Hl.
  - rewrite first_where_None in Hx. rewrite (Hx k v Hk) in HP. done.
Qed.

End first.

(** Every row of a table is still there, changed as [R] allows. *)
Definition kept {K} `{Countable K} {V} (R : V → V → Prop) (m m' : gmap K V) : Prop :=
  ∀ i r, m !! i = Some r → ∃ r', m' !! i = Some r' ∧ R r r'.

#[export] Instance kept_preorder {K} `{Countable K} {V} (R : V → V → Prop) `{!PreOrder R} :
  PreOrder (kept (K:=K) R).
Proof.
  split; [intros m i r Hr; by exists r|]. intros m1 m2 m3 H12 H23 i r Hr.
  destruct (H12 i r Hr) as (r2 & Hr2 & HR2). destruct (H23 i r2 Hr2) as (r3 & Hr3 & HR3).
  exists r3. split; [done|]. by etrans.
Qed.

Lemma kept_insert {K} `{Countable K} {V} (R : V → V → Prop) `{!PreOrder R} (m : gmap K V) i r :
  (∀ q, m !! i = Some q → R q r) → kept R m (<[i := r]> m).
Proof.
  intros HR j q Hq. rewrite lookup_insert. case_decide as Hj; [subst j; eauto|by exists q].
Qed.

(** The rows of a table whose rows know their key are distinct. *)
Lemma rows_where_NoDup {K V} `{Countable K} (key : V → K) (P : V → bool) (m : gmap K V) :
  (∀ k v, m !! k = Some v → key v = k) → NoDup (rows_where P m).
Proof.
  intros Hkey. unfold rows_where, rows. apply NoDup_filter.
  apply (NoDup_fmap_1 key). rewrite <-list_fmap_compose.
  rewrite (list_fmap_ext _ fst); [apply NoDup_fst_map_to_list|].
  intros i [k v] Hi. simpl. apply Hkey. apply elem_of_map_to_list. by eapply list_elem_of_lookup_2.
Qed.


(** ** Sorted selections *)

Lemma StronglySorted_filter {A} (R : relation A) (P : A → Prop) `{∀ x, Decision (P x)} l :
  StronglySorted R l → StronglySorted R (filter P l).
Proof.
  induction 1 as [|x l Hl IH Hx]; [constructor|]. rewrite filter_cons. case_decide; [|done].
  constructor; [done|]. rewrite Forall_forall in *. intros y [_ Hy]%list_elem_of_filter. by apply Hx.
Qed.

(** Selecting before or after sorting is the same when no two rows tie. *)
Lemma order_by_filter {A} (c : A → A → comparison) `{!Ordered c} (P : A → Prop) `{∀ x, Decision (P x)} l :
  (∀ x y, x ∈ l → y ∈ l → c x y = Eq → x = y) →
  order_by c (filter P l) = filter P (order_by c l).
Proof.
  intros Heq. eapply (StronglySorted_unique_strong (cmp_le c)).
  - intros x y Hx Hy Hxy Hyx. rewrite elem_of_order_by in Hx. apply list_elem_of_filter in Hx as [_ Hx].
    apply list_elem_of_filter in Hy as [_ Hy]. rewrite elem_of_order_by in Hy.
    apply Heq; [done..|]. unfold cmp_le in *. destruct (c x y) eqn:E; [done| |done].
    by apply (ordered_gt c) in E.
  - by apply order_by_sorted.
  - by apply StronglySorted_filter, order_by_sorted.
  - rewrite order_by_perm. by rewrite (order_by_perm c l).
Qed.

(** In a list sorted without ties, the elements after a given one are the rest. *)
Lemma filter_after {A} (c : A → A → comparison) `{!Ordered c} (P : A → Prop) `{∀ x, Decision (P x)} pre x rest :
  StronglySorted (cmp_le c) (pre ++ x :: rest) → NoDup (pre ++ x :: rest) →
  (∀ y z, y ∈ pre ++ x :: rest → z ∈ pre ++ x :: rest → c y z = Eq → y = z) →
  (∀ y, y ∈ pre ++ x :: rest → P y ↔ c x y = Lt) →
  filter P (pre ++ x :: rest) = rest.
Proof.
  intros Hs Hnd Heq HP. rewrite filter_app, filter_cons.
  assert (filter P pre = []) as ->.
  { apply elem_of_nil_inv. intros y [Py Hy]%list_elem_of_filter. apply HP in Py; [|set_solver].
    apply (StronglySorted_app_1_elem_of _ _ _ y x) in Hs; [|done|left].
    apply Hs. by apply (ordered_gt c). }
  rewrite decide_False; [|rewrite HP by set_solver; by rewrite (ordered_refl c)].
  apply filter_all. intros y Hy. apply HP; [set_solver|].
  apply StronglySorted_app_1_r in Hs. apply StronglySorted_inv in Hs as [_ Hx].
  rewrite Forall_forall in Hx. specialize (Hx y Hy). unfold cmp_le in Hx.
  destruct (c x y) eqn:E; [|done|done]. apply Heq in E as <-; [|set_solver..].
  apply NoDup_app in Hnd as (_ & _ & Hnd). by apply NoDup_cons in Hnd as [Hn _].
Qed.

Create HintDb kc discriminated.

#[export] Hint Rewrite
  @lookup_insert_eq @lookup_delete_eq @lookup_empty @lookup_fmap : kc.

(** ** Machine integers *)

(** Go's [int64] and [int32]: the value of an arithmetic result after
    two's-complement wrap-around. *)
Definition wrap64 (z : Z) : Z := (z + 2 ^ 63) mod 2 ^ 64 - 2 ^ 63.

Definition wrap32 (z : Z) : Z := (z + 2 ^ 31) mod 2 ^ 32 - 2 ^ 31.

Lemma wrap64_id z : (- 2 ^ 63 <= z < 2 ^ 63)%Z → wrap64 z = z.
Proof. intros. unfold wrap64. rewrite Z.mod_small; lia. Qed.

Lemma wrap32_id z : (- 2 ^ 31 <= z < 2 ^ 31)%Z → wrap32 z = z.
Proof. intros. unfold wrap32. rewrite Z.mod_small; lia. Qed.

(** Instants are nanoseconds since the Unix epoch, durations nanoseconds. *)
Definition Millisecond : Z := 1000000.

Definition Second : Z := 1000 * Millisecond.

Definition Minute : Z := 60 * Second.

Definition Hour : Z := 60 * Minute.

(** [time.Time{}]: 1 January of year 1. *)
Definition zero_time : Z := -62135596800 * Second.

(** [t.After(u)] *)
Definition after (t u : Z) : bool := (u <? t)%Z.

(** [t != nil && P( *t )] on an optional value *)
Definition opt_test {A} (P : A → bool) (o : option A) : bool :=
  match o with Some a => P a | None => false end.

Definition is_some {A} (o : option A) : bool :=
  match o with Some _ => true | None => false end.

Definition is_none {A} (o : option A) : bool := negb (is_some o).

Lemma is_some_true {A} (o : option A) : is_some o = true ↔ is_Some o.
Proof. destruct o; simpl; split; [by eauto|done|done|by intros [? ?]]. Qed.

Lemma is_none_true {A} (o : option A) : is_none o = true ↔ o = None.
Proof. by destruct o. Qed.

(** Boolean equality through a decidable one. *)
Notation "x =?= y" := (bool_decide (x = y)) (at level 70) : kc_scope.

(** ** Reachability *)

(** An invariant of a step relation holds along every run. *)
Lemma rtc_keeps {A} (R : relation A) (I : A → Prop) x y :
  (∀ a b, I a → R a b → I b) → I x → rtc R x y → I y.
Proof. intros Hstep Hx Hr. induction Hr; eauto. Qed.
