(* ===== verification/GoStrings.v ===== *)
(** Go strings: what the services use of the [strings] and [unicode/utf8]
    packages.

    A Go string is a sequence of bytes, here Stdlib's [string].  Functions that
    work on runes decode UTF-8 as [utf8.DecodeRune] does: an ill-formed byte is
    one rune U+FFFD of width 1.  Case mapping above U+007F is a table of the
    Unicode standard and is a parameter of the model ([Unicode]). *)

From stdpp Require Import base list sets strings.
From Stdlib Require Import ZArith Lia Ascii.
From S2P Require Import Prelude.

Open Scope Z_scope.

(** The Unicode tables behind [unicode.ToLower] and [strings.EqualFold] for
    runes outside ASCII, and [strconv.Quote] (the [%q] verb), which asks the
    tables which runes are printable. *)
Class Unicode := {
  unicode_lower : Z → Z;
  unicode_fold : Z → Z;
  strconv_quote : string → string;
}.

(** ** Bytes *)

Definition byte_of_ascii (c : ascii) : Z := Z.of_N (N_of_ascii c).

Definition ascii_of_byte (b : Z) : ascii := ascii_of_N (Z.to_N b).

Definition bytes (s : string) : list Z := byte_of_ascii <$> String.list_ascii_of_string s.

Definition of_bytes (l : list Z) : string :=
  String.string_of_list_ascii (ascii_of_byte <$> l).

(** [len(s)] *)
Definition len (s : string) : Z := Z.of_nat (length (bytes s)).

Definition is_byte (b : Z) : Prop := 0 <= b < 256.

Lemma ascii_of_byte_of_ascii c : ascii_of_byte (byte_of_ascii c) = c.
Proof. unfold ascii_of_byte, byte_of_ascii. by rewrite N2Z.id, ascii_N_embedding. Qed.

Lemma byte_of_ascii_of_byte b : is_byte b → byte_of_ascii (ascii_of_byte b) = b.
Proof.
  intros Hb. unfold byte_of_ascii, ascii_of_byte, is_byte in *.
  rewrite N_ascii_embedding by lia. lia.
Qed.

Lemma byte_of_ascii_range c : is_byte (byte_of_ascii c).
Proof.
  unfold byte_of_ascii, is_byte. pose proof (N_ascii_bounded c). lia.
Qed.

Lemma of_bytes_bytes s : of_bytes (bytes s) = s.
Proof.
  unfold of_bytes, bytes. rewrite <-list_fmap_compose.
  rewrite (list_fmap_ext (ascii_of_byte ∘ byte_of_ascii) id).
  - by rewrite list_fmap_id, String.string_of_list_ascii_of_string.
  - intros ? c _. apply ascii_of_byte_of_ascii.
Qed.

Lemma bytes_of_bytes l : Forall is_byte l → bytes (of_bytes l) = l.
Proof.
  intros Hl. unfold of_bytes, bytes.
  rewrite String.list_ascii_of_string_of_list_ascii, <-list_fmap_compose.
  rewrite (list_fmap_ext (byte_of_ascii ∘ ascii_of_byte) id).
  - apply list_fmap_id.
  - intros i b Hb. apply byte_of_ascii_of_byte. by eapply Forall_lookup_1.
Qed.

Lemma bytes_range s : Forall is_byte (bytes s).
Proof. unfold bytes. apply Forall_fmap, Forall_true. intros. apply byte_of_ascii_range. Qed.

#[export] Instance bytes_inj : Inj (=) (=) bytes.
Proof. intros s t E. rewrite <-(of_bytes_bytes s), <-(of_bytes_bytes t). by f_equal. Qed.

Lemma of_bytes_app l k : of_bytes (l ++ k) = (of_bytes l +:+ of_bytes k)%string.
Proof.
  unfold of_bytes. rewrite fmap_app.
  induction (ascii_of_byte <$> l) as [|c l' IH]; simpl; [done|]. by rewrite IH.
Qed.

Lemma bytes_app s t : bytes (s +:+ t) = bytes s ++ bytes t.
Proof.
  unfold bytes. rewrite <-fmap_app. f_equal.
  induction s as [|c s IH]; [done|].
  change ((String c s +:+ t)%string) with (String c (s +:+ t)). simpl. by rewrite IH.
Qed.

(** ** Runes *)

Definition rune_error : Z := 65533. (* U+FFFD *)

Definition in_range (lo hi b : Z) : bool := (lo <=? b) && (b <=? hi).

Definition cont (b : Z) : bool := in_range 128 191 b.

(** The second byte a three- or four-byte sequence may have (the accept ranges
    of package utf8 exclude overlong forms, surrogates and values above
    U+10FFFF). *)
Definition second3 (b0 b1 : Z) : bool :=
  if b0 =? 224 then in_range 160 191 b1
  else if b0 =? 237 then in_range 128 159 b1
  else cont b1.

Definition second4 (b0 b1 : Z) : bool :=
  if b0 =? 240 then in_range 144 191 b1
  else if b0 =? 244 then in_range 128 143 b1
  else cont b1.

(** The runes of a byte sequence, each with the bytes it was decoded from:
    the iteration order of [for _, r := range s]. *)
Fixpoint chunks (bs : list Z) : list (Z * list Z) :=
  match bs with
  | [] => []
  | b0 :: t0 =>
    if b0 <? 128 then (b0, [b0]) :: chunks t0
    else if in_range 194 223 b0 then
      match t0 with
      | b1 :: t1 =>
        if cont b1 then ((b0 - 192) * 64 + (b1 - 128), [b0; b1]) :: chunks t1
        else (rune_error, [b0]) :: chunks t0
      | _ => (rune_error, [b0]) :: chunks t0
      end
    else if in_range 224 239 b0 then
      match t0 with
      | b1 :: ((b2 :: t2) as t1) =>
        if second3 b0 b1 && cont b2
        then (((b0 - 224) * 64 + (b1 - 128)) * 64 + (b2 - 128), [b0; b1; b2]) :: chunks t2
        else (rune_error, [b0]) :: chunks t0
      | _ => (rune_error, [b0]) :: chunks t0
      end
    else if in_range 240 244 b0 then
      match t0 with
      | b1 :: ((b2 :: ((b3 :: t3) as t2)) as t1) =>
        if second4 b0 b1 && cont b2 && cont b3
        then ((((b0 - 240) * 64 + (b1 - 128)) * 64 + (b2 - 128)) * 64 + (b3 - 128),
              [b0; b1; b2; b3]) :: chunks t3
        else (rune_error, [b0]) :: chunks t0
      | _ => (rune_error, [b0]) :: chunks t0
      end
    else (rune_error, [b0]) :: chunks t0
  end.

(** [[]rune(s)] *)
Definition runes (s : string) : list Z := (chunks (bytes s)).*1.

(** [len([]rune(s))], [utf8.RuneCountInString] *)
Definition rune_count (s : string) : Z := Z.of_nat (length (runes s)).

Definition valid_rune (r : Z) : bool :=
  in_range 0 55295 r || in_range 57344 1114111 r.

(** [utf8.AppendRune] *)
Definition encode_rune (r : Z) : list Z :=
  let r := if valid_rune r then r else rune_error in
  if r <? 128 then [r]
  else if r <? 2048 then [192 + r / 64; 128 + r mod 64]
  else if r <? 65536 then [224 + r / 4096; 128 + (r / 64) mod 64; 128 + r mod 64]
  else [240 + r / 262144; 128 + (r / 4096) mod 64; 128 + (r / 64) mod 64; 128 + r mod 64].

(** [string(rs)] of a rune slice *)
Definition of_runes (rs : list Z) : string := of_bytes (rs ≫= encode_rune).

(** [unicode.IsSpace] *)
Definition is_space (r : Z) : bool :=
  in_range 9 13 r || (r =? 32) || (r =? 133) || (r =? 160) || (r =? 5760)
  || in_range 8192 8202 r || (r =? 8232) || (r =? 8233) || (r =? 8239)
  || (r =? 8287) || (r =? 12288).

Fixpoint drop_while {A} (P : A → bool) (l : list A) : list A :=
  match l with
  | [] => []
  | x :: l' => if P x then drop_while P l' else l
  end.

Definition trim_both {A} (P : A → bool) (l : list A) : list A :=
  rev (drop_while P (rev (drop_while P l))).

(** [strings.TrimSpace] *)
Definition TrimSpace (s : string) : string :=
  of_bytes (concat (trim_both (λ c, is_space c.1) (chunks (bytes s))).*2).

(** [strings.Fields] *)
Fixpoint fields_from (cs : list (Z * list Z)) (cur : list Z) : list string :=
  match cs with
  | [] => match cur with [] => [] | _ => [of_bytes cur] end
  | (r, b) :: cs' =>
    if is_space r
    then match cur with [] => [] | _ => [of_bytes cur] end ++ fields_from cs' []
    else fields_from cs' (cur ++ b)
  end.

Definition Fields (s : string) : list string := fields_from (chunks (bytes s)) [].

(** [strings.Join] *)
Fixpoint Join (l : list string) (sep : string) : string :=
  match l with
  | [] => EmptyString
  | [s] => s
  | s :: l' => (s +:+ sep +:+ Join l' sep)%string
  end.

(** [strings.Split] on a one-byte separator *)
Fixpoint split_bytes (sep : Z) (bs cur : list Z) : list (list Z) :=
  match bs with
  | [] => [cur]
  | b :: bs' => if b =? sep then cur :: split_bytes sep bs' [] else split_bytes sep bs' (cur ++ [b])
  end.

Definition SplitByte (s : string) (sep : Z) : list string :=
  of_bytes <$> split_bytes sep (bytes s) [].

(** [strings.ReplaceAll(s, "-", "")] and the like: removal of one byte value *)
Definition RemoveByte (b : Z) (s : string) : string :=
  of_bytes (filter (λ c, c ≠ b) (bytes s)).

(** [strings.Trim] and [strings.TrimRight] with a one-byte cutset *)
Definition TrimByte (b : Z) (s : string) : string := of_bytes (trim_both (Z.eqb b) (bytes s)).

Definition TrimRightByte (b : Z) (s : string) : string :=
  of_bytes (rev (drop_while (Z.eqb b) (rev (bytes s)))).

(** [s[:n]] for [0 <= n <= len(s)] *)
Definition slice_to (n : nat) (s : string) : string := of_bytes (take n (bytes s)).

(** [strings.ContainsAny(s, chars)] for ASCII [chars] *)
Definition ContainsAny (s : string) (chars : list Z) : bool :=
  existsb (λ b, existsb (Z.eqb b) chars) (bytes s).

Definition is_upper (r : Z) : bool := in_range 65 90 r.

Definition ascii_lower (r : Z) : Z := if is_upper r then r + 32 else r.

Section case_mapping.
Context `{Unicode}.

(** [unicode.ToLower] *)
Definition to_lower_rune (r : Z) : Z := if r <? 128 then ascii_lower r else unicode_lower r.

(** [strings.ToLower]: bytewise on ASCII strings, [strings.Map] otherwise,
    which drops negative results and replaces ill-formed bytes by U+FFFD. *)
Definition ToLower (s : string) : string :=
  if forallb (λ b, b <? 128) (bytes s)
  then of_bytes (ascii_lower <$> bytes s)
  else of_runes (filter (λ r, 0 <= r) (to_lower_rune <$> runes s)).

(** [strings.EqualFold] *)
Definition fold_rune (r : Z) : Z := if r <? 128 then ascii_lower r else unicode_fold r.

Definition EqualFold (s t : string) : bool :=
  bool_decide (fold_rune <$> runes s = fold_rune <$> runes t).

End case_mapping.

(** ** Plain strings

    Strings of lower-case ASCII letters, digits and hyphens: slugs and
    canonical UUIDs.  On them trimming and lowering do nothing. *)

Definition alnum (b : Z) : bool := in_range 97 122 b || in_range 48 57 b.

Definition plain_byte (b : Z) : bool := alnum b || (b =? 45).

Definition plain (s : string) : bool := forallb plain_byte (bytes s).

Ltac unfold_ranges := unfold ascii_lower, plain_byte, alnum, is_space, is_upper, in_range in *.

Lemma plain_byte_ascii b : plain_byte b = true → 45 <= b < 123.
Proof. unfold_ranges. lia. Qed.

Lemma plain_byte_lower b : plain_byte b = true → ascii_lower b = b.
Proof. intros Hb. unfold ascii_lower. case_match; [unfold_ranges; lia|done]. Qed.

Lemma chunks_ascii bs :
  forallb (λ b, b <? 128) bs = true → chunks bs = (λ b, (b, [b])) <$> bs.
Proof.
  induction bs as [|b bs IH]; [done|]. intros [Hb Hbs]%andb_prop.
  cbn [chunks fmap list_fmap]. rewrite Hb. f_equal. by apply IH.
Qed.

Lemma plain_all_ascii bs : forallb plain_byte bs = true → forallb (λ b, b <? 128) bs = true.
Proof.
  rewrite !forallb_forall. intros Hall b Hb.
  specialize (Hall b Hb). apply plain_byte_ascii in Hall. lia.
Qed.

Lemma drop_while_none {A} (P : A → bool) l : (∀ x, x ∈ l → P x = false) → drop_while P l = l.
Proof. destruct l as [|x l]; [done|]. intros Hl. simpl. rewrite Hl; [done|set_solver]. Qed.

Lemma trim_both_none {A} (P : A → bool) l : (∀ x, x ∈ l → P x = false) → trim_both P l = l.
Proof.
  intros Hl. unfold trim_both. rewrite (drop_while_none P l Hl).
  rewrite drop_while_none; [apply rev_involutive|].
  intros x Hx. apply Hl, list_elem_of_In, in_rev. by apply list_elem_of_In.
Qed.

Lemma concat_singletons {A} (l : list A) : concat ((λ b, [b]) <$> l) = l.
Proof. induction l as [|b l IH]; [done|]. simpl. by f_equal. Qed.

(** Trimming leaves a string of visible ASCII characters alone. *)
Lemma TrimSpace_visible s : forallb (in_range 33 126) (bytes s) = true → TrimSpace s = s.
Proof.
  intros Hs. rewrite forallb_forall in Hs. unfold TrimSpace. rewrite chunks_ascii.
  - rewrite trim_both_none.
    + rewrite <-list_fmap_compose.
      replace ((snd ∘ λ b : Z, (b, [b])) <$> bytes s) with ((λ b : Z, [b]) <$> bytes s) by done.
      by rewrite concat_singletons, of_bytes_bytes.
    + intros [r b] (b' & Heq & Hin)%list_elem_of_fmap. simplify_eq/=.
      apply list_elem_of_In, Hs in Hin. unfold_ranges. lia.
  - apply forallb_forall. intros b Hb%Hs. unfold_ranges. lia.
Qed.

Lemma TrimSpace_plain s : plain s = true → TrimSpace s = s.
Proof.
  intros Hs. apply TrimSpace_visible. unfold plain in Hs. rewrite forallb_forall in *.
  intros b Hb%Hs%plain_byte_ascii. unfold_ranges. lia.
Qed.

Lemma ToLower_plain `{Unicode} s : plain s = true → ToLower s = s.
Proof.
  intros Hs. unfold ToLower. rewrite plain_all_ascii by done.
  rewrite (list_fmap_ext ascii_lower id).
  - by rewrite list_fmap_id, of_bytes_bytes.
  - intros i b Hb. apply plain_byte_lower. unfold plain in Hs. rewrite forallb_forall in Hs.
    apply Hs, list_elem_of_In. by eapply list_elem_of_lookup_2.
Qed.

Lemma rune_count_le_len s : rune_count s <= len s.
Proof.
  unfold rune_count, len, runes. rewrite length_fmap.
  assert (∀ n bs, (length bs <= n)%nat → (length (chunks bs) <= length bs)%nat) as Hn.
  { induction n as [|n IH]; intros [|b0 t0] Hlen; simpl in Hlen; try (simpl; lia).
    cbn [chunks].
    repeat first [ case_match; simplify_eq; cbn [length] in *
                 | match goal with |- context [chunks ?t] =>
                     let Hq := fresh in
                     assert (length (chunks t) <= length t)%nat as Hq
                       by (apply IH; simpl in *; lia);
                     revert Hq; generalize (chunks t); intros end ];
    simpl in *; lia. }
  pose proof (Hn (length (bytes s)) (bytes s) (le_n _)). lia.
Qed.

(** The tables restricted to ASCII, for evaluating the model on concrete
    inputs. *)
Definition ascii_unicode : Unicode := {| unicode_lower := λ r, r; unicode_fold := λ r, r;
  strconv_quote := λ s, s |}.
