(* ===== verification/Base64.v ===== *)
(** Base64 of the Go standard library: [base64.RawURLEncoding], the URL-safe
    alphabet without padding, which tokens and page cursors use, and
    [base64.StdEncoding.Strict()], which the configuration envelopes use. *)

From stdpp Require Import base list strings.
From Stdlib Require Import ZArith Lia.
From S2P Require Import Prelude.
From S2P Require Import GoStrings.

Open Scope Z_scope.

(** The character of a 6-bit value: [A-Z a-z 0-9 - _]. *)
Definition enc_char (v : Z) : Z :=
  if v <? 26 then 65 + v
  else if v <? 52 then 71 + v
  else if v <? 62 then v - 4
  else if v =? 62 then 45
  else 95.

Definition dec_char (b : Z) : option Z :=
  if in_range 65 90 b then Some (b - 65)
  else if in_range 97 122 b then Some (b - 71)
  else if in_range 48 57 b then Some (b + 4)
  else if b =? 45 then Some 62
  else if b =? 95 then Some 63
  else None.

(** Three bytes give four characters; a rest of one or two bytes gives two or
    three. *)
Fixpoint encode64 (bs : list Z) : list Z :=
  match bs with
  | [] => []
  | [a] => [enc_char (a / 4); enc_char ((a mod 4) * 16)]
  | [a; b] => [enc_char (a / 4); enc_char ((a mod 4) * 16 + b / 16); enc_char ((b mod 16) * 4)]
  | a :: b :: c :: rest =>
    enc_char (a / 4) :: enc_char ((a mod 4) * 16 + b / 16)
      :: enc_char ((b mod 16) * 4 + c / 64) :: enc_char (c mod 64) :: encode64 rest
  end.

(** The decoder of package base64, which is not strict about the unused bits of
    the last character. *)
Fixpoint decode64 (cs : list Z) : option (list Z) :=
  match cs with
  | [] => Some []
  | [_] => None
  | [p; q] =>
    v ← dec_char p; w ← dec_char q;
    Some [v * 4 + w / 16]
  | [p; q; r] =>
    v ← dec_char p; w ← dec_char q; x ← dec_char r;
    Some [v * 4 + w / 16; (w mod 16) * 16 + x / 4]
  | p :: q :: r :: t :: rest =>
    v ← dec_char p; w ← dec_char q; x ← dec_char r; y ← dec_char t;
    l ← decode64 rest;
    Some (v * 4 + w / 16 :: (w mod 16) * 16 + x / 4 :: (x mod 4) * 64 + y :: l)
  end.

Definition EncodeToString (payload : string) : string := of_bytes (encode64 (bytes payload)).

(** Line breaks are skipped. *)
Definition DecodeString (text : string) : option string :=
  of_bytes <$> decode64 (filter (λ b, b ≠ 10 ∧ b ≠ 13) (bytes text)).

(** ** Round trip *)

Definition sextet (v : Z) : Prop := 0 <= v < 64.

Lemma dec_enc_char v : sextet v → dec_char (enc_char v) = Some v.
Proof.
  unfold sextet, enc_char, dec_char, in_range. intros Hv.
  repeat case_match; try (f_equal; lia); exfalso; lia.
Qed.

Lemma enc_char_visible v : sextet v → 45 <= enc_char v <= 122.
Proof. unfold sextet, enc_char. intros. repeat case_match; lia. Qed.

(** Induction three bytes at a time. *)
Lemma triple_ind (P : list Z → Prop) :
  P [] → (∀ a, P [a]) → (∀ a b, P [a; b]) → (∀ a b c l, P l → P (a :: b :: c :: l)) → ∀ l, P l.
Proof.
  intros H0 H1 H2 H3. fix IH 1. intros [|a [|b [|c l]]]; [done..|]. apply H3, IH.
Qed.

Ltac bytes_of H :=
  repeat match type of H with
  | Forall _ (_ :: _) => let Hb := fresh "Hb" in apply Forall_cons in H as [Hb H]; unfold is_byte in Hb
  end.

(** Turn divisions by constants into linear facts. *)
Ltac euclid := Z.to_euclidean_division_equations; lia.

Lemma decode_encode bs : Forall is_byte bs → decode64 (encode64 bs) = Some bs.
Proof.
  induction bs as [|a|a b|a b c l IH] using triple_ind; intros Hl; bytes_of Hl; cbn [encode64 decode64];
    rewrite ?dec_enc_char by (unfold sextet; euclid); cbn [mbind option_bind];
    try (rewrite IH by done; cbn [mbind option_bind]); repeat f_equal; euclid.
Qed.

Lemma encode64_visible bs : Forall is_byte bs → Forall (λ c, 45 <= c <= 122) (encode64 bs).
Proof.
  induction bs as [|a|a b|a b c l IH] using triple_ind; intros Hl; bytes_of Hl; cbn [encode64];
    repeat (constructor; [apply enc_char_visible; unfold sextet; euclid|]); auto.
Qed.

Lemma encode64_length bs : (3 * length (encode64 bs) <= 4 * length bs + 2)%nat.
Proof.
  induction bs as [|a|a b|a b c l IH] using triple_ind; cbn [encode64 length] in *; lia.
Qed.

Lemma bytes_EncodeToString p : bytes (EncodeToString p) = encode64 (bytes p).
Proof.
  unfold EncodeToString. apply bytes_of_bytes.
  eapply Forall_impl; [apply encode64_visible, bytes_range|]. unfold is_byte. intros; simpl in *; lia.
Qed.

Theorem DecodeString_EncodeToString p : DecodeString (EncodeToString p) = Some p.
Proof.
  pose proof (encode64_visible (bytes p) (bytes_range p)) as Hv.
  unfold DecodeString. rewrite bytes_EncodeToString, filter_all.
  - rewrite decode_encode by apply bytes_range. simpl. by rewrite of_bytes_bytes.
  - intros b Hb. rewrite Forall_forall in Hv. apply Hv in Hb. lia.
Qed.

Lemma TrimSpace_EncodeToString p : TrimSpace (EncodeToString p) = EncodeToString p.
Proof.
  apply TrimSpace_visible. rewrite bytes_EncodeToString. apply forallb_forall.
  intros b Hb%list_elem_of_In. pose proof (encode64_visible (bytes p) (bytes_range p)) as Hv.
  rewrite Forall_forall in Hv. apply Hv in Hb. unfold in_range. lia.
Qed.

Lemma EncodeToString_empty p : EncodeToString p = EmptyString → p = EmptyString.
Proof.
  intros He. pose proof (DecodeString_EncodeToString p) as Hd. rewrite He in Hd. by injection Hd as <-.
Qed.

(** ** The standard alphabet with padding *)

(** [+] and [/] stand for the characters 62 and 63 of the alphabet. *)
Definition to_std (c : Z) : Z := if c =? 45 then 43 else if c =? 95 then 47 else c.

Definition from_std (c : Z) : option Z :=
  if c =? 43 then Some 45 else if c =? 47 then Some 95
  else if (c =? 45) || (c =? 95) then None else Some c.

(** The padding of a text of [n] characters. *)
Definition padding (n : nat) : list Z := match (n mod 4)%nat with 2%nat => [61; 61] | 3%nat => [61] | _ => [] end.

Definition StdEncode (payload : string) : string :=
  let cs := encode64 (bytes payload) in of_bytes ((to_std <$> cs) ++ padding (length cs)).

(** The text without its padding, [None] when its length or padding is wrong. *)
Definition unpad (cs : list Z) : option (list Z) :=
  let body := rev (drop_while (Z.eqb 61) (rev cs)) in
  if bool_decide (cs = body ++ padding (length body)) then Some body else None.

(** [Strict]: the unused bits of the last character are zero, that is, the text
    is the encoding of what it decodes to. *)
Definition StdDecode (text : string) : option string :=
  body ← unpad (filter (λ b, b ≠ 10 ∧ b ≠ 13) (bytes text));
  cs ← mapM from_std body;
  bs ← decode64 cs;
  if bool_decide (encode64 bs = cs) then Some (of_bytes bs) else None.

Lemma enc_char_std v : sextet v → from_std (to_std (enc_char v)) = Some (enc_char v) ∧ to_std (enc_char v) ≠ 61
  ∧ 43 <= to_std (enc_char v) <= 122.
Proof.
  unfold sextet, enc_char, to_std, from_std. intros.
  repeat case_match; split_and?; try done; try lia; exfalso; rewrite ?orb_true_iff in *; lia.
Qed.

Lemma encode64_std bs : Forall is_byte bs →
  Forall (λ c, from_std (to_std c) = Some c ∧ to_std c ≠ 61 ∧ 43 <= to_std c <= 122) (encode64 bs).
Proof.
  induction bs as [|a|a b|a b c l IH] using triple_ind; intros Hl; bytes_of Hl; cbn [encode64];
    repeat (constructor; [apply enc_char_std; unfold sextet; euclid|]); auto.
Qed.

Lemma mapM_from_std cs : Forall (λ c, from_std (to_std c) = Some c) cs → mapM from_std (to_std <$> cs) = Some cs.
Proof. induction 1 as [|c cs Hc _ IH]; [done|]. cbn. rewrite Hc. cbn. by rewrite IH. Qed.

Lemma drop_padding n cs : Forall (λ c, c ≠ 61) cs → drop_while (Z.eqb 61) (rev (padding n) ++ cs) = cs.
Proof.
  intros Hc. assert (drop_while (Z.eqb 61) cs = cs) as Hd by (destruct Hc; cbn -[Z.eqb] in *; [done|by rewrite (proj2 (Z.eqb_neq 61 _)) by done]).
  unfold padding. by repeat case_match.
Qed.

Lemma unpad_padded cs : Forall (λ c, c ≠ 61) cs → unpad (cs ++ padding (length cs)) = Some cs.
Proof.
  intros Hc. unfold unpad. rewrite rev_app_distr, drop_padding by by apply Forall_rev.
  rewrite rev_involutive. by rewrite bool_decide_true.
Qed.

Lemma StdEncode_visible p :
  let cs := encode64 (bytes p) in Forall (λ c, 43 <= c <= 122) ((to_std <$> cs) ++ padding (length cs)).
Proof.
  intros cs. pose proof (encode64_std (bytes p) (bytes_range p)) as Hs. apply Forall_app. split.
  - apply Forall_fmap. eapply Forall_impl; [exact Hs|]. naive_solver.
  - unfold padding. repeat case_match; repeat constructor; lia.
Qed.

Theorem StdDecode_StdEncode p : StdDecode (StdEncode p) = Some p.
Proof.
  unfold StdDecode, StdEncode. pose proof (encode64_std (bytes p) (bytes_range p)) as Hs.
  pose proof (StdEncode_visible p) as Hv. cbv zeta in Hv. set (cs := encode64 (bytes p)) in *.
  rewrite bytes_of_bytes by (eapply Forall_impl; [exact Hv|]; unfold is_byte; cbn; lia).
  rewrite filter_all by (intros b Hb; rewrite Forall_forall in Hv; apply Hv in Hb; lia).
  replace (length cs) with (length (to_std <$> cs)) by apply length_fmap.
  rewrite unpad_padded by (apply Forall_fmap; eapply Forall_impl; [exact Hs|]; naive_solver). cbn.
  rewrite mapM_from_std by (eapply Forall_impl; [exact Hs|]; naive_solver). cbn. unfold cs.
  rewrite decode_encode by apply bytes_range. cbn. rewrite bool_decide_true by done. by rewrite of_bytes_bytes.
Qed.
