(* ===== verification/Breaker.v ===== *)
(** The circuit breaker of outbound RPC: [pkg/circuit/breaker.go] and the client
    middleware of [kitex.go].

    The mutex makes every method atomic, so a breaker is driven by a sequence of
    admissions ([Allow]) and reports ([Success], [Failure]) of calls that may
    overlap.  A nil breaker admits everything.  Time is the argument of the
    methods that read the clock. *)

From stdpp Require Import base list relations.
From Stdlib Require Import ZArith Lia.
From S2P Require Import Prelude.

Open Scope Z_scope.

Module Circuit.

Definition DefaultFailureThreshold : Z := 5.
Definition DefaultOpenDuration : Z := 5 * Second.
Definition DefaultHalfOpenProbes : Z := 1.

Inductive State := StateClosed | StateHalfOpen | StateOpen.

#[export] Instance State_eq_dec : EqDecision State.
Proof. solve_decision. Defined.

Record Breaker := MkBreaker {
  failureThreshold : Z;
  openDuration : Z;
  halfOpenProbes : Z;
  state : State;
  consecutiveFailures : Z;
  openedAt : Z;
  halfOpenInFlight : Z;
}.

Definition with_state (st : State) (failures opened inflight : Z) (b : Breaker) : Breaker :=
  MkBreaker (failureThreshold b) (openDuration b) (halfOpenProbes b) st failures opened inflight.

Definition New : Breaker :=
  MkBreaker DefaultFailureThreshold DefaultOpenDuration DefaultHalfOpenProbes StateClosed 0 zero_time 0.

(** [Allow]: the breaker afterwards and whether the call is admitted ([false] is
    [ErrOpen]). *)
Definition Allow (now : Z) (b : option Breaker) : option Breaker * bool :=
  match b with
  | None => (None, true)
  | Some b =>
    match state b with
    | StateOpen =>
      if now - openedAt b <? openDuration b then (Some b, false)
      else (Some (with_state StateHalfOpen (consecutiveFailures b) (openedAt b) 1 b), true)
    | StateHalfOpen =>
      if halfOpenProbes b <=? halfOpenInFlight b then (Some b, false)
      else (Some (with_state StateHalfOpen (consecutiveFailures b) (openedAt b)
                    (halfOpenInFlight b + 1) b), true)
    | StateClosed => (Some b, true)
    end
  end.

Definition Success (b : option Breaker) : option Breaker :=
  match b with
  | None => None
  | Some b => Some (with_state StateClosed 0 (openedAt b) 0 b)
  end.

Definition openLocked (now : Z) (b : Breaker) : Breaker :=
  with_state StateOpen (failureThreshold b) now 0 b.

Definition Failure (now : Z) (b : option Breaker) : option Breaker :=
  match b with
  | None => None
  | Some b =>
    match state b with
    | StateHalfOpen => Some (openLocked now b)
    | _ =>
      let b := with_state (state b) (consecutiveFailures b + 1) (openedAt b) (halfOpenInFlight b) b in
      if failureThreshold b <=? consecutiveFailures b then Some (openLocked now b) else Some b
    end
  end.

(** [State]: an open breaker whose time is over reports half open. *)
Definition Report (now : Z) (b : option Breaker) : State :=
  match b with
  | None => StateClosed
  | Some b =>
    match state b with
    | StateOpen => if openDuration b <=? now - openedAt b then StateHalfOpen else StateOpen
    | st => st
    end
  end.

(** The outcome of an RPC: no error, a business status, or another error. *)
Inductive outcome := NoError | BizStatus | OtherError.

Definition shouldTrip (o : outcome) : bool := match o with OtherError => true | _ => false end.

(** What the middleware does when the call it admitted returns. *)
Definition finish (now : Z) (o : outcome) (b : option Breaker) : option Breaker :=
  if shouldTrip o then Failure now b else Success b.

(** One call through [KitexClientMiddleware] with no other call in between: the
    breaker afterwards, and the outcome of the call or [None] when rejected. *)
Definition call (now later : Z) (next : outcome) (b : option Breaker) : option Breaker * option outcome :=
  match Allow now b with
  | (b, false) => (b, None)
  | (b, true) => (finish later next b, Some next)
  end.

(** ** The events of a breaker *)

Inductive event := EAllow (now : Z) | EFinish (now : Z) (o : outcome).

Definition apply (e : event) (b : option Breaker) : option Breaker :=
  match e with
  | EAllow now => (Allow now b).1
  | EFinish now o => finish now o b
  end.

Definition run (es : list event) (b : option Breaker) : option Breaker := foldl (λ b e, apply e b) b es.

(** ** What a breaker promises *)

(** The abstract breaker: how many calls in a row have failed, when the last one
    did, and whether a probe has been admitted since. *)
Record promise := MkPromise { streak : Z; last_failure : Z; probing : bool }.

Definition rejects (now : Z) (p : promise) : bool :=
  (DefaultFailureThreshold <=? streak p)
  && (probing p || (now - last_failure p <? DefaultOpenDuration)).

Definition promise_step (e : event) (p : promise) : promise :=
  match e with
  | EAllow now =>
    if (DefaultFailureThreshold <=? streak p) && negb (rejects now p)
    then MkPromise (streak p) (last_failure p) true else p
  | EFinish now o =>
    if shouldTrip o then MkPromise (streak p + 1) now false else MkPromise 0 (last_failure p) false
  end.

Definition promise_of (es : list event) : promise :=
  foldl (λ p e, promise_step e p) (MkPromise 0 zero_time false) es.

(** The breaker [b] keeps the promise [p]. *)
Record keeps_promise (b : Breaker) (p : promise) : Prop := {
  kp_threshold : failureThreshold b = DefaultFailureThreshold;
  kp_duration : openDuration b = DefaultOpenDuration;
  kp_probes : halfOpenProbes b = DefaultHalfOpenProbes;
  kp_streak : 0 <= streak p;
  kp_failures : consecutiveFailures b = Z.min (streak p) DefaultFailureThreshold;
  kp_state : state b =
    if streak p <? DefaultFailureThreshold then StateClosed
    else if probing p then StateHalfOpen else StateOpen;
  kp_opened : DefaultFailureThreshold <= streak p → openedAt b = last_failure p;
  kp_inflight : halfOpenInFlight b = if probing p then 1 else 0;
  kp_probing : probing p = true → DefaultFailureThreshold <= streak p;
}.

Ltac unfold_constants := unfold DefaultFailureThreshold, DefaultHalfOpenProbes in *.

Lemma New_keeps : keeps_promise New (MkPromise 0 zero_time false).
Proof. split; vm_compute; done. Qed.

(** Admission agrees with the promise, and keeps it. *)
Lemma Allow_keeps now b p :
  keeps_promise b p →
  (Allow now (Some b)).2 = negb (rejects now p) ∧
  ∃ b', (Allow now (Some b)).1 = Some b' ∧ keeps_promise b' (promise_step (EAllow now) p).
Proof.
  intros [K1 K2 K3 K4 K5 K6 K7 K8 K9]. unfold Allow, promise_step, rejects. unfold_constants.
  rewrite K6. destruct (Z.ltb_spec (streak p) 5) as [Hs|Hs].
  - rewrite (proj2 (Z.leb_gt 5 (streak p))) by lia. simpl. split; [done|]. exists b. split; [done|].
    split; unfold_constants; auto. rewrite K6. by rewrite (proj2 (Z.ltb_lt _ _)).
  - rewrite (proj2 (Z.leb_le 5 (streak p))) by lia. destruct (probing p) eqn:Hp; simpl.
    + rewrite K8, K3. simpl. split; [done|]. exists b. split; [done|].
      split; unfold_constants; auto; rewrite ?Hp; auto. by rewrite K6, (proj2 (Z.ltb_ge _ _)).
    + rewrite K2, K7 by lia. destruct (now - last_failure p <? DefaultOpenDuration); simpl.
      * split; [done|]. exists b. split; [done|].
        split; unfold_constants; auto; rewrite ?Hp; auto. by rewrite K6, (proj2 (Z.ltb_ge _ _)).
      * split; [done|]. eexists. split; [done|]. split; unfold_constants; simpl; auto.
        by rewrite (proj2 (Z.ltb_ge _ _)).
Qed.

Lemma finish_keeps now o b p :
  keeps_promise b p →
  ∃ b', finish now o (Some b) = Some b' ∧ keeps_promise b' (promise_step (EFinish now o) p).
Proof.
  intros [K1 K2 K3 K4 K5 K6 K7 K8 K9]. unfold finish, promise_step.
  destruct (shouldTrip o).
  - unfold Failure, openLocked. unfold_constants. rewrite K6.
    destruct (Z.ltb_spec (streak p) 5) as [Hs|Hs]; [|destruct (probing p) eqn:Hp].
    + cbn. rewrite K1, K5. assert (probing p = false) as Hp by (destruct (probing p); [lia|done]).
      rewrite Hp in K8. destruct (Z.leb_spec 5 (Z.min (streak p) 5 + 1)) as [Ht|Ht];
        (eexists; split; [done|]); split; unfold_constants; simpl; try done; try lia.
      * by rewrite (proj2 (Z.ltb_ge _ _)) by lia.
      * by rewrite (proj2 (Z.ltb_lt _ _)) by lia.
    + eexists. split; [done|]. split; unfold_constants; simpl; try done; try lia.
      by rewrite (proj2 (Z.ltb_ge _ _)) by lia.
    + cbn. rewrite K1, K5. rewrite (proj2 (Z.leb_le _ _)) by lia.
      eexists. split; [done|]. split; unfold_constants; simpl; try done; try lia.
      by rewrite (proj2 (Z.ltb_ge _ _)) by lia.
  - eexists. split; [done|]. split; unfold_constants; simpl; try done; try lia.
Qed.

Lemma run_keeps es b p :
  keeps_promise b p →
  ∃ b', run es (Some b) = Some b' ∧ keeps_promise b' (foldl (λ p e, promise_step e p) p es).
Proof.
  revert b p. induction es as [|e es IH]; intros b p Hk; [by exists b|].
  change (run (e :: es) (Some b)) with (run es (apply e (Some b))). cbn [foldl].
  destruct e as [now|now o]; cbn [apply].
  - destruct (Allow_keeps now b p Hk) as (_ & b' & -> & Hk'). by apply IH.
  - destruct (finish_keeps now o b p Hk) as (b' & -> & Hk'). by apply IH.
Qed.

(** C38: after any interleaving of admissions and outcomes, a new breaker
    rejects a call exactly when the last five or more calls to finish failed
    with something other than a business status and either the last failure is
    less than five seconds old or a probe is already under way; and it reports
    itself closed exactly while the streak is shorter than five. *)
Theorem breaker_refines_promise es now :
  let b := run es (Some New) in let p := promise_of es in
  (Allow now b).2 = negb (rejects now p) ∧
  (Report now b = StateClosed ↔ streak p < 5) ∧
  (Allow now b).1 = run (es ++ [EAllow now]) (Some New).
Proof.
  intros b p. destruct (run_keeps es New _ New_keeps) as (b' & Hb & Hk). fold (promise_of es) in Hk.
  unfold b, p. rewrite Hb. split_and!.
  - by destruct (Allow_keeps now b' _ Hk).
  - destruct Hk as [K1 K2 K3 K4 K5 K6 K7 K8 K9]. unfold Report. unfold_constants. rewrite K6.
    destruct (Z.ltb_spec (streak (promise_of es)) 5); [done|].
    destruct (probing (promise_of es)); cbv iota; [|case_match]; (split; [discriminate|intros; exfalso; lia]).
  - unfold run in *. by rewrite foldl_app, Hb.
Qed.

Lemma probing_stays p nows :
  probing p = true → DefaultFailureThreshold <= streak p →
  foldl (λ p e, promise_step e p) p (EAllow <$> nows) = p.
Proof.
  intros Hp Hs. induction nows as [|now nows IH]; [done|]. simpl. unfold rejects.
  rewrite Hp, (proj2 (Z.leb_le _ _) Hs). simpl. exact IH.
Qed.

Lemma allow_streak p nows : streak (foldl (λ p e, promise_step e p) p (EAllow <$> nows)) = streak p.
Proof.
  revert p. induction nows as [|now nows IH]; intros p; [done|]. simpl. rewrite IH. by case_match.
Qed.

(** When the breaker has tripped, at most one of any number of
    concurrent attempts gets through before an outcome is known: once one has
    been admitted, every further attempt is rejected, however late it comes. *)
Theorem single_probe es before now mid later :
  DefaultFailureThreshold <= streak (promise_of es) →
  (Allow now (run (EAllow <$> before) (run es (Some New)))).2 = true →
  (Allow later (run (EAllow <$> (before ++ now :: mid)) (run es (Some New)))).2 = false.
Proof.
  intros Hs Ha. destruct (run_keeps es New _ New_keeps) as (b & Hb & Hk).
  fold (promise_of es) in Hk. rewrite Hb in *.
  destruct (run_keeps (EAllow <$> before) b _ Hk) as (c & Hc & Hkc). rewrite Hc in Ha.
  set (q := foldl _ _ _) in Hkc.
  assert (DefaultFailureThreshold <= streak q) as Hq by (unfold q; by rewrite allow_streak).
  destruct (Allow_keeps now c q Hkc) as (Hadm & c' & Hc' & Hkc').
  rewrite Ha in Hadm. symmetry in Hadm. apply negb_true_iff in Hadm.
  assert (promise_step (EAllow now) q = MkPromise (streak q) (last_failure q) true) as Hprobe.
  { unfold promise_step. by rewrite Hadm, (proj2 (Z.leb_le _ _) Hq). }
  rewrite Hprobe in Hkc'. destruct (run_keeps (EAllow <$> mid) c' _ Hkc') as (d & Hd & Hkd).
  rewrite probing_stays in Hkd by done.
  assert (run (EAllow <$> (before ++ now :: mid)) (Some b) = Some d) as ->.
  { rewrite fmap_app, fmap_cons. unfold run in *. rewrite foldl_app, Hc. cbn [foldl apply]. by rewrite Hc'. }
  destruct (Allow_keeps later d _ Hkd) as [-> _]. unfold rejects. simpl.
  by rewrite (proj2 (Z.leb_le _ _) Hq).
Qed.

(** ** Examples *)

Definition five_failures : list event :=
  [EFinish 1 OtherError; EFinish 2 OtherError; EFinish 3 OtherError; EFinish 4 OtherError;
   EFinish 5 OtherError].

(** Six seconds after five failures one call is admitted as a probe; none is
    admitted after it until it has finished. *)
Lemma single_probe_witness :
  (Allow (60 * Second) (run (EAllow <$> [6 * Second; 7 * Second]) (run five_failures (Some New)))).2 = false.
Proof.
  apply (single_probe five_failures [] (6 * Second) [7 * Second] (60 * Second)).
  - vm_compute. discriminate.
  - vm_compute. reflexivity.
Defined.

End Circuit.
