(* ===== verification/KDomain.v ===== *)
(** The Knowledge service's domain rules:
    [services/knowledge/internal/domain/document.go].

    Validation and normalisation of identifiers, titles, tags, slugs, roles,
    pages and idempotency keys.  [uuid.Parse] of github.com/google/uuid is a
    parameter ([Uuid]). *)

From stdpp Require Import base gmap list sets strings.
From Stdlib Require Import ZArith Lia.
From S2P Require Import Prelude.
From S2P Require Import GoStrings.

Open Scope Z_scope.

(** [uuid.Parse] followed by [id.Version()]: [None] when the text is not a
    UUID. *)
Class Uuid := { uuid_version : string → option Z }.

(** ** Errors *)

Record ValidationError := MkValidationError { Field : string; Reason : string }.

#[export] Instance ValidationError_eq_dec : EqDecision ValidationError.
Proof. solve_decision. Defined.

(** The errors the Knowledge code passes around.  Wrapping with [%w] keeps the
    identity that [errors.Is] tests, so a wrapped error is the error itself;
    [EOther] is any error with no identity, by the operation that wrapped it. *)
Inductive kerror :=
| EValidation (es : list ValidationError)
| ErrNotFound
| ErrGone
| ErrConflict
| ErrPrecondition
| ErrForbidden
| ErrQuotaExceeded
| ErrDirectoryNotFound
| ErrDirectoryUnauthorized
| ErrDirectoryUnavailable
| EUnauthenticated
| EOther (operation : string).

#[export] Instance kerror_eq_dec : EqDecision kerror.
Proof. solve_decision. Defined.

Definition invalid {A} (field reason : string) : result kerror A :=
  Err (EValidation [MkValidationError field reason]).

Definition check (b : bool) (field reason : string) : result kerror unit :=
  if b then Ok tt else invalid field reason.

(** ** Constants *)

Definition AccessNone := "none".
Definition AccessViewer := "viewer".
Definition AccessEditor := "editor".
Definition AccessOwner := "owner".

Definition PublicationDraft := "draft".
Definition PublicationPublishing := "publishing".
Definition PublicationPublished := "published".
Definition PublicationPublishFailed := "publish_failed".
Definition PublicationUnpublishing := "unpublishing".
Definition PublicationUnpublishFailed := "unpublish_failed".

Definition MaxDocumentBytes : Z := Z.shiftl 1 30.
Definition MaxProjectionBytes : Z := Z.shiftl 16 20.

(** ** Patterns *)

(** [^[a-z0-9]+(?:-[a-z0-9]+)*$]: [prev] tells whether the byte before was a
    letter or a digit. *)
Fixpoint slug_from (prev : bool) (bs : list Z) : bool :=
  match bs with
  | [] => prev
  | b :: bs' =>
    if alnum b then slug_from true bs'
    else if (b =? 45) && prev then slug_from false bs'
    else false
  end.

Definition slugPattern (s : string) : bool := slug_from false (bytes s).

(** [^[\x21-\x7e]{1,128}$] *)
Definition idempotencyKeyPattern (s : string) : bool :=
  (1 <=? len s) && (len s <=? 128) && forallb (in_range 33 126) (bytes s).

Definition reservedSlugs : list string :=
  ["api"; "admin"; "studio"; "trash"; "health"; "attachments"].

(** ** Identities and access *)

Record PublicUser := MkPublicUser { pu_ID : Z; pu_Username : string; pu_Avatar : string }.

#[export] Instance PublicUser_eq_dec : EqDecision PublicUser.
Proof. solve_decision. Defined.

Section uuids.
Context `{Uuid}.

Definition is_uuid7 (value : string) : bool :=
  bool_decide (uuid_version (TrimSpace value) = Some 7).

Definition ValidateID (field value : string) : result kerror unit :=
  check (is_uuid7 value) field "must be a UUIDv7".

End uuids.

Definition ValidateRole (role : string) : result kerror unit :=
  check ((role =?= AccessViewer) || (role =?= AccessEditor)) "role" "must be viewer or editor".

Definition CanRead (access : string) : bool :=
  (access =?= AccessOwner) || (access =?= AccessEditor) || (access =?= AccessViewer).

Definition CanEdit (access : string) : bool :=
  (access =?= AccessOwner) || (access =?= AccessEditor).

Definition CanManageMembers (access : string) : bool := access =?= AccessOwner.

(** ** Text fields *)

Definition ValidateTitle (value : string) : result kerror unit :=
  let length := rune_count (TrimSpace value) in
  check ((1 <=? length) && (length <=? 200)) "title" "must contain between 1 and 200 characters".

Definition ValidateSummary (value : string) : result kerror unit :=
  check (rune_count (TrimSpace value) <=? 1000) "summary" "must contain at most 1000 characters".

Definition ValidatePage (limit : Z) (cursor query : string) : result kerror unit :=
  let joined :=
    (if (limit <? 0) || (100 <? limit)
     then [MkValidationError "limit" "must be between 1 and 100"] else [])
    ++ (if 1024 <? len cursor then [MkValidationError "cursor" "is too long"] else [])
    ++ (if 200 <? rune_count query
        then [MkValidationError "q" "must contain at most 200 characters"] else []) in
  match joined with [] => Ok tt | _ => Err (EValidation joined) end.

Definition ValidateIdempotencyKey (value : string) : result kerror unit :=
  if value =?= EmptyString then Ok tt
  else check ((value =?= TrimSpace value) && idempotencyKeyPattern value)
         "idempotency_key" "must contain 1-128 visible ASCII characters".

(** [jsoncodec.Valid] is the JSON library's syntax check. *)
Definition ValidateProjection (json_valid : string → bool) (content plainText : string)
  : result kerror unit :=
  if (len content =? 0) || (MaxProjectionBytes <? len content) || negb (json_valid content)
  then invalid "content" "must be a valid JSON document within the projection size limit"
  else check (len plainText <=? MaxDocumentBytes)
         "plain_text" "exceeds the document size limit".

(** [strings.Join(strings.Fields(strings.TrimSpace(value)), " ")] *)
Definition collapse_spaces (value : string) : string := Join (Fields (TrimSpace value)) " ".

Section normalisation.
Context `{Unicode}.

(** One iteration of the loop of [NormalizeTags] over the tags left, with the
    lower-cased keys seen and the result so far. *)
Fixpoint normalize_tags_loop (values : list string) (seen : gset string) (result : list string)
  : Prelude.result kerror (list string) :=
  match values with
  | [] => Ok result
  | value :: rest =>
    let value := collapse_spaces value in
    if (value =?= EmptyString) || (64 <? rune_count value)
    then invalid "tags" "each tag must contain 1-64 characters"
    else
      let key := ToLower value in
      if bool_decide (key ∈ seen) then normalize_tags_loop rest seen result
      else normalize_tags_loop rest ({[key]} ∪ seen) (result ++ [value])
  end.

Definition NormalizeTags (values : list string) : result kerror (list string) :=
  if 20 <? Z.of_nat (length values)
  then invalid "tags" "must contain at most 20 tags"
  else normalize_tags_loop values ∅ [].

Definition NormalizeSlug (value : string) : result kerror string :=
  let value := ToLower (TrimSpace value) in
  if (len value <? 3) || (80 <? len value) || negb (slugPattern value)
  then invalid "slug" "must be 3-80 lowercase ASCII letters, digits, or single hyphens"
  else if bool_decide (value ∈ reservedSlugs)
  then invalid "slug" "is reserved"
  else Ok value.

(** The loop of [SlugFromTitle]: the builder's bytes and [lastHyphen]. *)
Fixpoint slug_builder (rs : list Z) (builder : list Z) (lastHyphen : bool) : list Z :=
  match rs with
  | [] => builder
  | char :: rs' =>
    if alnum char then slug_builder rs' (builder ++ [char]) false
    else if (0 <? Z.of_nat (length builder)) && negb lastHyphen
    then slug_builder rs' (builder ++ [45]) true
    else slug_builder rs' builder lastHyphen
  end.

Definition SlugFromTitle (title id : string) : string :=
  let base := TrimByte 45 (of_bytes (slug_builder (runes (ToLower (TrimSpace title))) [] false)) in
  let base := if 60 <? len base then TrimRightByte 45 (slice_to 60 base) else base in
  let base := if len base <? 3 then "document" else base in
  let compact := RemoveByte 45 id in
  let compact := if 10 <? len compact then slice_to 10 compact else compact in
  (base +:+ "-" +:+ compact)%string.

End normalisation.

(** ** The slug pattern *)

(** A word of the slug language: a non-empty run of letters and digits. *)
Definition slug_word (w : list Z) : Prop := w ≠ [] ∧ forallb alnum w = true.

Fixpoint join_words (ws : list (list Z)) : list Z :=
  match ws with
  | [] => []
  | [w] => w
  | w :: ws' => w ++ 45 :: join_words ws'
  end.

Lemma slug_from_word w bs prev :
  forallb alnum w = true → slug_from prev (w ++ bs) = slug_from (prev || negb (w =?= [])) bs.
Proof.
  revert prev. induction w as [|b w IH]; intros prev Hw.
  - simpl. by rewrite orb_false_r.
  - apply andb_prop in Hw as [Hb Hw]. cbn [app slug_from]. rewrite Hb, IH by done.
    rewrite (bool_decide_false (b :: w = [])) by done. by rewrite orb_true_r.
Qed.

Lemma slug_from_words_true ws :
  ws ≠ [] → Forall slug_word ws → slug_from false (join_words ws) = true.
Proof.
  intros Hne Hall. induction Hall as [|w ws [Hw Hal] Hall IH]; [done|].
  destruct ws as [|w' ws]; cbn [join_words].
  - rewrite <-(app_nil_r w), slug_from_word by done. simpl.
    by rewrite bool_decide_false.
  - rewrite slug_from_word by done. rewrite bool_decide_false by done. simpl.
    apply IH. done.
Qed.

Lemma slug_from_split prev bs :
  slug_from prev bs = true →
  ∃ w ws, forallb alnum w = true ∧ Forall slug_word ws ∧ bs = join_words (w :: ws)
          ∧ (prev = false → w ≠ []).
Proof.
  revert prev. induction bs as [|b bs IH]; intros prev Hm; simpl in Hm.
  - exists [], []. subst prev. naive_solver.
  - destruct (alnum b) eqn:Hb.
    + destruct (IH true Hm) as (w & ws & Hw & Hws & -> & _).
      exists (b :: w), ws. split; [simpl; by rewrite Hb, Hw|]. split; [done|].
      split; [by destruct ws|done].
    + destruct ((b =? 45) && prev) eqn:Hp; [|done].
      apply andb_prop in Hp as [->%Z.eqb_eq ->].
      destruct (IH false Hm) as (w & ws & Hw & Hws & -> & Hne).
      exists [], (w :: ws). split; [done|]. split; [|done].
      constructor; [|done]. split; [by apply Hne|done].
Qed.

Lemma slugPattern_plain s : slugPattern s = true → plain s = true.
Proof.
  unfold slugPattern, plain. generalize false. induction (bytes s) as [|b bs IH]; [done|].
  intros prev Hm. simpl in *. unfold plain_byte at 1. destruct (alnum b); simpl.
  - by eapply IH.
  - destruct (b =? 45); [|done]. destruct prev; [|done]. simpl in *. by eapply IH.
Qed.

(** The pattern accepts exactly the hyphen-separated sequences of words. *)
Lemma slugPattern_words s :
  slugPattern s = true ↔ ∃ ws, ws ≠ [] ∧ Forall slug_word ws ∧ bytes s = join_words ws.
Proof.
  unfold slugPattern. split.
  - intros (w & ws & Hw & Hws & Hb & Hne)%slug_from_split.
    exists (w :: ws). split; [done|]. split; [|done]. constructor; [|done].
    split; [by apply Hne|done].
  - intros (ws & Hne & Hws & ->). by apply slug_from_words_true.
Qed.

(** The automaton of the pattern as a run: the state after the bytes, or
    [None] once it is stuck. *)
Fixpoint slug_run (prev : bool) (bs : list Z) : option bool :=
  match bs with
  | [] => Some prev
  | b :: bs' =>
    if alnum b then slug_run true bs'
    else if (b =? 45) && prev then slug_run false bs'
    else None
  end.

Lemma slug_from_run prev bs : slug_from prev bs = true ↔ slug_run prev bs = Some true.
Proof.
  revert prev. induction bs as [|b bs IH]; intros prev; simpl; [destruct prev; naive_solver|].
  repeat case_match; [apply IH|apply IH|naive_solver].
Qed.

Lemma slug_run_app prev bs cs :
  slug_run prev (bs ++ cs) = slug_run prev bs ≫= λ p, slug_run p cs.
Proof.
  revert prev. induction bs as [|b bs IH]; intros prev; simpl; [done|].
  repeat case_match; [apply IH|apply IH|done].
Qed.

Lemma slug_run_alnum prev w :
  forallb alnum w = true → slug_run prev w = Some (prev || negb (w =?= [])).
Proof.
  revert prev. induction w as [|b w IH]; intros prev Hw; [by destruct prev|].
  apply andb_prop in Hw as [Hb Hw]. cbn [slug_run]. rewrite Hb, IH by done.
  rewrite (bool_decide_false (b :: w = [])) by done. by rewrite orb_true_r.
Qed.

Lemma slug_run_snoc_hyphen bs p : slug_run false (bs ++ [45]) = Some p → slug_run false bs = Some true.
Proof. rewrite slug_run_app. destruct (slug_run false bs) as [[]|]; simpl; naive_solver. Qed.

Lemma slug_run_state bs p :
  slug_run false bs = Some p → p = false → bs = [] ∨ ∃ cs, bs = cs ++ [45].
Proof.
  destruct bs as [|b cs _] using rev_ind; [by left|]. rewrite slug_run_app.
  destruct (slug_run false cs) as [q|]; simpl; [|done].
  destruct (alnum b); [naive_solver|]. destruct (b =? 45) eqn:Hb; [|done].
  apply Z.eqb_eq in Hb as ->. destruct q; naive_solver.
Qed.

(** Cutting trailing hyphens off a live run leaves nothing or a match. *)
Lemma trim_right_run bs p :
  slug_run false bs = Some p →
  let t := rev (drop_while (Z.eqb 45) (rev bs)) in t = [] ∨ slug_run false t = Some true.
Proof.
  revert p. induction bs as [|b bs IH] using rev_ind; intros p Hrun; [by left|].
  rewrite rev_unit. cbn [drop_while]. destruct (45 =? b) eqn:Hb.
  - apply Z.eqb_eq in Hb as <-. apply (IH true). by eapply slug_run_snoc_hyphen.
  - right. cbn zeta. rewrite <-rev_unit, rev_involutive. destruct p; [done|].
    destruct (slug_run_state _ _ Hrun eq_refl) as [|[cs Hcs]]; [by destruct bs|].
    apply app_inj_tail in Hcs as [_ ->]. done.
Qed.

Lemma slug_run_prefix prev bs n p : slug_run prev bs = Some p → is_Some (slug_run prev (take n bs)).
Proof.
  intros Hrun. rewrite <-(take_drop n bs), slug_run_app in Hrun.
  destruct (slug_run prev (take n bs)); [by eauto|done].
Qed.

Lemma drop_while_head_run bs p :
  slug_run false bs = Some p → drop_while (Z.eqb 45) bs = bs.
Proof.
  destruct bs as [|b bs]; [done|]. cbn [drop_while]. destruct (45 =? b) eqn:Hb; [|done].
  apply Z.eqb_eq in Hb as <-. discriminate.
Qed.

Lemma slug_run_bytes bs p : slug_run false bs = Some p → Forall is_byte bs.
Proof.
  generalize false. induction bs as [|b bs IH]; intros prev; simpl; [constructor|].
  destruct (alnum b) eqn:Hb.
  - intros Hr. constructor; [|by eapply IH]. unfold is_byte. unfold_ranges. lia.
  - destruct ((b =? 45) && prev) eqn:Hc; [|done]. intros Hr.
    apply andb_prop in Hc as [->%Z.eqb_eq _]. constructor; [done|by eapply IH].
Qed.

Lemma slug_builder_run rs builder lastHyphen :
  (builder = [] ∨ slug_run false builder = Some (negb lastHyphen)) →
  is_Some (slug_run false (slug_builder rs builder lastHyphen)).
Proof.
  revert builder lastHyphen. induction rs as [|c rs IH]; intros builder lh Hb; simpl.
  { destruct Hb as [->| ->]; eauto. }
  destruct (alnum c) eqn:Hc.
  - apply IH. right. destruct Hb as [->|Hb]; simpl; [by rewrite Hc|].
    rewrite slug_run_app, Hb. simpl. by rewrite Hc.
  - destruct ((0 <? Z.of_nat (length builder)) && negb lh) eqn:Hh; [|by apply IH].
    apply andb_prop in Hh as [Hlen Hlh]. apply IH. right. destruct lh; [done|].
    destruct Hb as [->|Hb]; [done|]. by rewrite slug_run_app, Hb.
Qed.

(** A string the slug generator builds its base from: empty or a match. *)
Definition slug_or_empty (s : string) : Prop := s = EmptyString ∨ slug_run false (bytes s) = Some true.

Lemma slug_or_empty_of_bytes t : t = [] ∨ slug_run false t = Some true → slug_or_empty (of_bytes t).
Proof.
  intros [->|Ht]; [by left|right]. rewrite bytes_of_bytes; [done|by eapply slug_run_bytes].
Qed.

Lemma TrimByte_run bs p : slug_run false bs = Some p → slug_or_empty (TrimByte 45 (of_bytes bs)).
Proof.
  intros Hr. unfold TrimByte, trim_both. rewrite bytes_of_bytes by by eapply slug_run_bytes.
  rewrite (drop_while_head_run _ _ Hr). by eapply slug_or_empty_of_bytes, trim_right_run.
Qed.

Lemma slice_trim_run n s : slug_or_empty s → slug_or_empty (TrimRightByte 45 (slice_to n s)).
Proof.
  intros Hs. assert (∃ p, slug_run false (bytes s) = Some p) as [p Hp].
  { destruct Hs as [->|Hs]; eauto. }
  apply (slug_run_prefix _ _ n) in Hp as [q Hq].
  unfold TrimRightByte, slice_to. rewrite bytes_of_bytes by by eapply slug_run_bytes.
  by eapply slug_or_empty_of_bytes, trim_right_run.
Qed.

Lemma drop_while_length {A} (P : A → bool) l : (length (drop_while P l) <= length l)%nat.
Proof. induction l as [|x l IH]; simpl; [done|]. case_match; simpl; lia. Qed.

Lemma TrimRightByte_len b s n : (length (bytes s) <= n)%nat → len (TrimRightByte b s) <= Z.of_nat n.
Proof.
  intros Hs. unfold TrimRightByte, len.
  set (t := rev (drop_while (Z.eqb b) (rev (bytes s)))).
  assert (length t <= n)%nat as Ht.
  { unfold t. rewrite length_rev. etrans; [apply drop_while_length|]. by rewrite length_rev. }
  unfold bytes, of_bytes. rewrite String.list_ascii_of_string_of_list_ascii, !length_fmap. lia.
Qed.

Lemma len_of_bytes l : len (of_bytes l) = Z.of_nat (length l).
Proof.
  unfold len, bytes, of_bytes. by rewrite String.list_ascii_of_string_of_list_ascii, !length_fmap.
Qed.

Lemma NormalizeSlug_fixed `{Unicode} s :
  slugPattern s = true → 3 <= len s <= 80 → s ∉ reservedSlugs → NormalizeSlug s = Ok s.
Proof.
  intros Hs Hl Hr. unfold NormalizeSlug.
  rewrite TrimSpace_plain, ToLower_plain by by apply slugPattern_plain.
  rewrite Hs. rewrite bool_decide_false by done.
  destruct (len s <? 3) eqn:?; [lia|]. destruct (80 <? len s) eqn:?; [lia|]. done.
Qed.

(** The parts of a successful normalisation. *)
Lemma NormalizeSlug_parts `{Unicode} v s :
  NormalizeSlug v = Ok s →
  s = ToLower (TrimSpace v) ∧ 3 <= len s <= 80 ∧ s ∉ reservedSlugs ∧ slugPattern s = true.
Proof.
  unfold NormalizeSlug. set (t := ToLower (TrimSpace v)).
  destruct (len t <? 3) eqn:?; [done|]. destruct (80 <? len t) eqn:?; [done|].
  destruct (slugPattern t) eqn:Hp; [|done]. simpl. case_bool_decide as Hr; [done|].
  intros [= <-]. split_and!; [done|lia|lia|done|done].
Qed.

Lemma NormalizeSlug_idem `{Unicode} v s : NormalizeSlug v = Ok s → NormalizeSlug s = Ok s.
Proof. intros (_ & Hl & Hr & Hp)%NormalizeSlug_parts. by apply NormalizeSlug_fixed. Qed.

(** The identifier of a new document without its hyphens, as the slug uses it. *)
Definition compact_id (id : string) : list Z := filter (λ c, c ≠ 45) (bytes id).

Lemma bytes_RemoveByte id : bytes (RemoveByte 45 id) = compact_id id.
Proof.
  unfold RemoveByte. rewrite bytes_of_bytes; [done|]. apply Forall_forall.
  intros b [_ Hb]%list_elem_of_filter. pose proof (bytes_range id) as Hr.
  rewrite Forall_forall in Hr. by apply Hr.
Qed.

Section slug_theorems.
Context `{Unicode}.

Definition slug_base (title : string) : string :=
  let base := TrimByte 45 (of_bytes (slug_builder (runes (ToLower (TrimSpace title))) [] false)) in
  let base := if 60 <? len base then TrimRightByte 45 (slice_to 60 base) else base in
  if len base <? 3 then "document" else base.

Definition slug_suffix (id : string) : string :=
  let compact := RemoveByte 45 id in if 10 <? len compact then slice_to 10 compact else compact.

Lemma SlugFromTitle_parts title id :
  SlugFromTitle title id = (slug_base title +:+ "-" +:+ slug_suffix id)%string.
Proof. done. Qed.

Lemma slug_base_run title :
  slug_run false (bytes (slug_base title)) = Some true ∧ 3 <= len (slug_base title) <= 60.
Proof.
  unfold slug_base. set (b0 := TrimByte 45 _).
  assert (slug_or_empty b0) as H0.
  { destruct (slug_builder_run (runes (ToLower (TrimSpace title))) [] false) as [p Hp]; [by left|].
    by eapply TrimByte_run. }
  set (b1 := if 60 <? len b0 then _ else b0).
  assert (slug_or_empty b1 ∧ len b1 <= 60) as [H1 Hl].
  { unfold b1. destruct (60 <? len b0) eqn:Hc; [|split; [done|lia]].
    split; [by apply slice_trim_run|]. apply (TrimRightByte_len _ _ 60).
    unfold slice_to. pose proof (len_of_bytes (take 60 (bytes b0))) as Hlb.
    unfold len in Hlb. rewrite length_take in Hlb. lia. }
  destruct (len b1 <? 3) eqn:Hc; [by vm_compute|]. split; [|lia].
  destruct H1 as [->|H1]; [by vm_compute in Hc|done].
Qed.

Lemma slug_suffix_bytes id : bytes (slug_suffix id) = take 10 (compact_id id).
Proof.
  unfold slug_suffix, len, slice_to. rewrite bytes_RemoveByte.
  destruct (10 <? Z.of_nat (length (compact_id id))) eqn:Hc.
  - rewrite bytes_of_bytes; [done|]. apply Forall_take.
    rewrite <-bytes_RemoveByte. apply bytes_range.
  - rewrite bytes_RemoveByte, take_ge by lia. done.
Qed.

End slug_theorems.

Lemma slug_run_compact p id :
  plain id = true → slug_run p (take 10 (compact_id id)) = Some (p || negb (take 10 (compact_id id) =?= [])).
Proof.
  intros Hid. apply slug_run_alnum. unfold plain, compact_id in *.
  rewrite forallb_forall in *. intros b Hb.
  apply list_elem_of_In, elem_of_take in Hb as (i & Hi & _).
  apply list_elem_of_lookup_2, list_elem_of_filter in Hi as [Hne Hin].
  apply list_elem_of_In, Hid in Hin. unfold plain_byte in Hin.
  destruct (alnum b); [done|]. by apply Z.eqb_eq in Hin.
Qed.

Lemma reserved_no_hyphen s : s ∈ reservedSlugs → 45 ∉ bytes s.
Proof.
  assert (forallb (λ s, negb (bool_decide (45 ∈ bytes s))) reservedSlugs = true) as Hall
    by by vm_compute.
  rewrite forallb_forall in Hall. intros Hs%list_elem_of_In%Hall.
  intros Hin. rewrite bool_decide_true in Hs by done. done.
Qed.

(** Every slug the generator makes for a lower-case UUID is accepted unchanged
    by [NormalizeSlug] and has at most 71 bytes. *)
Lemma SlugFromTitle_shape `{Unicode} title id :
  plain id = true → compact_id id ≠ [] →
  slugPattern (SlugFromTitle title id) = true ∧ 3 <= len (SlugFromTitle title id) <= 71
  ∧ 45 ∈ bytes (SlugFromTitle title id).
Proof.
  intros Hid Hne. rewrite SlugFromTitle_parts.
  destruct (slug_base_run title) as [Hrun Hlen]. unfold len in *.
  assert (bytes "-" = [45]) as Hh by done.
  rewrite !bytes_app, slug_suffix_bytes, Hh, !length_app, length_take, length_cons, length_nil.
  split; [|split; [lia|apply elem_of_app; right; left]].
  unfold slugPattern. apply slug_from_run.
  rewrite !bytes_app, slug_suffix_bytes, Hh, slug_run_app, Hrun. simpl.
  rewrite slug_run_compact by done. simpl. f_equal.
  rewrite bool_decide_false; [done|]. by destruct (compact_id id).
Qed.

(** ** Tags *)

Section tags.
Context `{Unicode}.

Definition tag_ok (tag : string) : Prop := tag ≠ EmptyString ∧ rune_count tag <= 64.

(** What [NormalizeTags] promises of its result [r] on the input [vs]. *)
Record tags_normal (vs r : list string) : Prop := {
  tags_nodup : NoDup (ToLower <$> r);
  tags_sound : ∀ t, t ∈ r → tag_ok t ∧ t ∈ (collapse_spaces <$> vs);
  tags_complete : ∀ v, v ∈ vs → ∃ t, t ∈ r ∧ ToLower t = ToLower (collapse_spaces v);
  tags_all_ok : ∀ v, v ∈ vs → tag_ok (collapse_spaces v);
  tags_length : (length r <= length vs)%nat;
}.

Lemma normalize_tags_step_cases value rest seen r out :
  normalize_tags_loop (value :: rest) seen r = Ok out →
  tag_ok (collapse_spaces value) ∧
  ((ToLower (collapse_spaces value) ∈ seen ∧ normalize_tags_loop rest seen r = Ok out) ∨
   (ToLower (collapse_spaces value) ∉ seen ∧
    normalize_tags_loop rest ({[ToLower (collapse_spaces value)]} ∪ seen)
      (r ++ [collapse_spaces value]) = Ok out)).
Proof.
  cbn [normalize_tags_loop]. set (t := collapse_spaces value).
  destruct (bool_decide (t = EmptyString)) eqn:He; [done|].
  apply bool_decide_eq_false in He.
  destruct (64 <? rune_count t) eqn:Hc; [done|]. simpl. unfold tag_ok.
  case_bool_decide; intros; (split; [split; [done|lia]|]); naive_solver.
Qed.

Lemma normalize_tags_loop_normal values seen r done out :
  (∀ k, k ∈ seen ↔ k ∈ (ToLower <$> r)) →
  tags_normal done r → normalize_tags_loop values seen r = Ok out →
  tags_normal (done ++ values) out.
Proof.
  revert seen r done. induction values as [|v vs IH]; intros seen r dn Hseen Hn Hrun.
  { injection Hrun as <-. by rewrite app_nil_r. }
  destruct (normalize_tags_step_cases _ _ _ _ _ Hrun) as [Hok [[Hk Hrest]|[Hk Hrest]]];
    rewrite cons_middle, app_assoc.
  - apply (IH seen r); [done| |done]. destruct Hn as [Hnd Hs Hc Ha Hl]. split.
    + done.
    + intros t Ht. destruct (Hs t Ht). rewrite fmap_app, elem_of_app. auto.
    + intros w [Hw| ->%list_elem_of_singleton]%elem_of_app; [by apply Hc|].
      apply Hseen, list_elem_of_fmap in Hk as (t & Ht & Hin). by exists t.
    + intros w [Hw| ->%list_elem_of_singleton]%elem_of_app; [by apply Ha|done].
    + rewrite length_app. lia.
  - apply (IH ({[ToLower (collapse_spaces v)]} ∪ seen) (r ++ [collapse_spaces v])); [|split|done];
      destruct Hn as [Hnd Hs Hc Ha Hl].
    + intros k. rewrite elem_of_union, elem_of_singleton, fmap_app, elem_of_app, Hseen.
      rewrite list_fmap_singleton, list_elem_of_singleton. tauto.
    + rewrite fmap_app. apply NoDup_app. split; [done|]. split; [|apply NoDup_singleton].
      intros k Hin%Hseen. rewrite list_fmap_singleton, list_elem_of_singleton. by intros ->.
    + intros t. rewrite fmap_app, !elem_of_app, list_elem_of_singleton.
      rewrite list_fmap_singleton, list_elem_of_singleton.
      intros [Ht| ->]; [destruct (Hs t Ht); auto|auto].
    + intros w [Hw| ->%list_elem_of_singleton]%elem_of_app.
      * destruct (Hc w Hw) as (t & Ht & He). exists t. rewrite elem_of_app. auto.
      * exists (collapse_spaces v). rewrite elem_of_app, list_elem_of_singleton. auto.
    + intros w [Hw| ->%list_elem_of_singleton]%elem_of_app; [by apply Ha|done].
    + rewrite !length_app. simpl. lia.
Qed.

Lemma normalize_tags_loop_total values seen r :
  (∀ v, v ∈ values → tag_ok (collapse_spaces v)) → ∃ out, normalize_tags_loop values seen r = Ok out.
Proof.
  revert seen r. induction values as [|v vs IH]; intros seen r Hall; [by eexists|].
  destruct (Hall v) as [Hne Hle]; [set_solver|]. cbn [normalize_tags_loop].
  rewrite (bool_decide_false (_ = EmptyString)) by done.
  destruct (64 <? rune_count (collapse_spaces v)) eqn:?; [lia|]. simpl.
  case_bool_decide; apply IH; set_solver.
Qed.

(** Tags are normalised exactly when there are at most twenty and each,
    once its white space is collapsed, has between one and sixty-four
    characters; the result then holds every tag once up to case. *)
Theorem NormalizeTags_spec vs :
  (∀ r, NormalizeTags vs = Ok r → tags_normal vs r ∧ (length r <= 20)%nat) ∧
  ((∃ r, NormalizeTags vs = Ok r) ↔
   (length vs <= 20)%nat ∧ ∀ v, v ∈ vs → tag_ok (collapse_spaces v)).
Proof.
  assert (tags_normal [] []) as Hnil by (split; set_solver by constructor).
  assert (∀ r, NormalizeTags vs = Ok r → tags_normal vs r ∧ (length vs <= 20)%nat) as Hfwd.
  { intros r. unfold NormalizeTags. case_match eqn:Hc; [done|]. intros Hr. split; [|lia].
    by apply (normalize_tags_loop_normal vs ∅ [] [] r); [set_solver| |]. }
  split; [|split].
  - intros r Hr. destruct (Hfwd r Hr) as [Hn Hl]. split; [done|].
    pose proof (tags_length _ _ Hn). lia.
  - intros [r Hr]. destruct (Hfwd r Hr) as [Hn Hl]. split; [done|apply Hn].
  - intros [Hl Hall]. unfold NormalizeTags. case_match eqn:Hc; [lia|].
    by apply normalize_tags_loop_total.
Qed.

End tags.

(** ** Slugs *)

(** A slug generated from any title and a lower-case UUID is
    well formed, at most 71 bytes long, never reserved, and [NormalizeSlug]
    accepts it unchanged, so creating a document without an explicit slug
    cannot fail validation. *)
Theorem SlugFromTitle_normal `{Unicode} title id :
  plain id = true → compact_id id ≠ [] →
  NormalizeSlug (SlugFromTitle title id) = Ok (SlugFromTitle title id)
  ∧ len (SlugFromTitle title id) <= 71.
Proof.
  intros Hid Hne. destruct (SlugFromTitle_shape title id Hid Hne) as (Hp & Hl & Hh).
  split; [|lia]. apply NormalizeSlug_fixed; [done|lia|].
  intros Hr%reserved_no_hyphen. done.
Qed.

Lemma SlugFromTitle_normal_witness :
  let _ := ascii_unicode in
  plain "0198c0de-7000" = true ∧ compact_id "0198c0de-7000" ≠ [] ∧
  SlugFromTitle " Go & Rocq! " "0198c0de-7000" = "go-rocq-0198c0de70" ∧
  NormalizeSlug (SlugFromTitle " Go & Rocq! " "0198c0de-7000") = Ok "go-rocq-0198c0de70".
Proof.
  split; [by vm_compute|]. split; [by vm_compute|]. split; [by vm_compute|].
  apply (@SlugFromTitle_normal ascii_unicode); by vm_compute.
Defined.

(** [NormalizeSlug] succeeds exactly on the texts whose trimmed
    lower-case form is a hyphen-separated sequence of words of 3 to 80 bytes
    that is not reserved, and normalising its result again changes nothing. *)
Theorem NormalizeSlug_spec `{Unicode} v s :
  NormalizeSlug v = Ok s ↔
  s = ToLower (TrimSpace v) ∧ 3 <= len s <= 80 ∧ s ∉ reservedSlugs ∧
  (∃ ws, ws ≠ [] ∧ Forall slug_word ws ∧ bytes s = join_words ws) ∧ NormalizeSlug s = Ok s.
Proof.
  split.
  - intros Hn. pose proof (NormalizeSlug_idem v s Hn) as Hi.
    apply NormalizeSlug_parts in Hn as (-> & Hl & Hr & Hp). split_and!; auto; try lia.
    by apply slugPattern_words.
  - intros (-> & Hl & Hr & Hw & _). apply slugPattern_words in Hw.
    unfold NormalizeSlug. rewrite Hw, (bool_decide_false (_ ∈ reservedSlugs)) by done.
    destruct (_ <? 3) eqn:?; [lia|]. destruct (80 <? _) eqn:?; [lia|]. done.
Qed.
