(* ===== verification/RichText.v ===== *)
(** Rich text documents: [services/knowledge/internal/domain/richtext.go].

    The ProseMirror tree of a published or restored document and the
    validation every such tree passes.  [url.Parse] of package net/url is a
    parameter ([Url]); [Uuid] is the UUID parser. *)

From stdpp Require Import base gmap list sets strings.
From Stdlib Require Import ZArith Lia.
From S2P Require Import Prelude.
From S2P Require Import GoStrings.
From S2P Require Import KDomain.

Open Scope Z_scope.

(** [url.Parse(value)]: the scheme of the parsed URL, [None] on an error. *)
Class Url := { url_scheme : string → option string }.

(** ** The tree *)

Record RichTextAttrs := MkAttrs {
  Level : option Z;
  Start : option Z;
  Checked : option bool;
  Language : option string;
  Href : option string;
  AttachmentID : option string;
  Alt : option string;
  Title : option string;
  TextAlign : option string;
  Variant : option string;
  Colspan : option Z;
  Rowspan : option Z;
  Colwidth : list Z;
  BlockID : option string;
}.

Record RichTextMark := MkMark { mark_Type : string; mark_Attrs : option RichTextAttrs }.

(** A child is a pointer, so it may be null. *)
Inductive RichTextNode := Node {
  node_Type : string;
  node_Attrs : option RichTextAttrs;
  node_Content : list (option RichTextNode);
  node_Text : option string;
  node_Marks : list RichTextMark;
}.

(** [Content] of the document distinguishes a missing array from an empty
    one. *)
Record RichTextDocument := MkDocument {
  doc_Type : string;
  doc_Content : option (list (option RichTextNode));
}.

#[export] Instance RichTextAttrs_eq_dec : EqDecision RichTextAttrs.
Proof. solve_decision. Defined.

#[export] Instance RichTextMark_eq_dec : EqDecision RichTextMark.
Proof. solve_decision. Defined.

(** Induction over a tree through the pointers of its children. *)
Lemma node_ind (P : RichTextNode → Prop) :
  (∀ ty at_ content txt marks,
     (∀ c, Some c ∈ content → P c) → P (Node ty at_ content txt marks)) →
  ∀ n, P n.
Proof.
  intros Hstep.
  assert (∀ n, P n) as Hall; [|done].
  fix IH 1. intros [ty at_ content txt marks]. apply Hstep.
  enough (Forall (λ o, match o with Some c => P c | None => True end) content) as Hc.
  { rewrite Forall_forall in Hc. intros c Hin. exact (Hc (Some c) Hin). }
  induction content as [|[c|] content IHc]; constructor; [apply IH|exact IHc|exact I|exact IHc].
Qed.

Fixpoint RichTextNode_dec (n m : RichTextNode) {struct n} : {n = m} + {n ≠ m}.
Proof.
  destruct n as [t1 a1 c1 x1 m1], m as [t2 a2 c2 x2 m2].
  destruct (decide (t1 = t2 ∧ a1 = a2 ∧ x1 = x2 ∧ m1 = m2)) as [(-> & -> & -> & ->)|Hne].
  - assert ({c1 = c2} + {c1 ≠ c2}) as [->|Hc].
    { revert c2. induction c1 as [|[n|] c1 IH]; intros [|[m|] c2];
        try (left; reflexivity); try (right; discriminate).
      - destruct (RichTextNode_dec n m) as [->|Hn]; [|right; congruence].
        destruct (IH c2) as [->|Hc]; [by left|right; congruence].
      - destruct (IH c2) as [->|Hc]; [by left|right; congruence]. }
    + by left.
    + right. congruence.
  - right. intros [= -> -> -> -> ->]. naive_solver.
Defined.

#[export] Instance RichTextNode_eq_dec : EqDecision RichTextNode := RichTextNode_dec.

#[export] Instance RichTextDocument_eq_dec : EqDecision RichTextDocument.
Proof. solve_decision. Defined.

Definition allowedNodeTypes : list string :=
  ["paragraph"; "heading"; "bulletList"; "orderedList"; "listItem";
   "taskList"; "taskItem"; "blockquote"; "codeBlock"; "horizontalRule";
   "hardBreak"; "text"; "image"; "attachment"; "table"; "tableRow";
   "tableHeader"; "tableCell"; "callout"; "columns"; "column"; "formula"].

Definition allowedMarkTypes : list string :=
  ["bold"; "italic"; "strike"; "underline"; "code"; "link"].

(** ** Validation *)

Section validation.
Context `{Unicode, Uuid, Url}.

Definition validateLink (value : string) : bool :=
  if (2048 <? len value) || ContainsAny value [13; 10] then false
  else match url_scheme value with
       | None => false
       | Some scheme => bool_decide (ToLower scheme ∈ ["http"; "https"; "mailto"])
       end.

Definition content_error (reason : string) : ValidationError := MkValidationError "content" reason.

(** [joined = errors.Join(joined, e)] under a condition *)
Definition join_if (b : bool) (reason : string) : list ValidationError :=
  if b then [content_error reason] else [].

Definition outside (lo hi : Z) (o : option Z) : bool := opt_test (λ v, (v <? lo) || (hi <? v)) o.

Definition validateRichTextAttrs (nodeType : string) (attrs : RichTextAttrs)
  : result kerror unit :=
  let joined :=
    join_if (opt_test (λ id, let value := TrimSpace id in
                             (len value <? 1) || (128 <? len value)) (BlockID attrs))
      "contains an invalid block ID"
    ++ join_if (outside 1 6 (Level attrs)) "heading level must be between 1 and 6"
    ++ join_if (opt_test (λ v, v <? 1) (Start attrs)) "ordered list start must be positive"
    ++ join_if (opt_test (λ id, negb (is_uuid7 id)) (AttachmentID attrs))
         "contains an invalid attachment ID"
    ++ join_if (((nodeType =?= "image") || (nodeType =?= "attachment"))
                && is_none (AttachmentID attrs))
         "attachment nodes require attachmentId"
    ++ join_if (opt_test (λ a, negb (bool_decide (a ∈ ["left"; "center"; "right"; "justify"])))
                  (TextAlign attrs))
         "contains an invalid text alignment"
    ++ join_if (opt_test (λ v, negb (bool_decide (v ∈ ["info"; "success"; "warning"; "danger"])))
                  (Variant attrs))
         "contains an invalid callout variant"
    ++ join_if (outside 1 100 (Colspan attrs)) "table colspan is out of range"
    ++ join_if (outside 1 100 (Rowspan attrs)) "table rowspan is out of range" in
  match joined with [] => Ok tt | _ => Err (EValidation joined) end.

(** The loop over [node.Marks]. *)
Fixpoint validateMarks (marks : list RichTextMark) : result kerror unit :=
  match marks with
  | [] => Ok tt
  | mark :: rest =>
    if negb (bool_decide (mark_Type mark ∈ allowedMarkTypes))
    then invalid "content" ("contains unsupported mark type " +:+ strconv_quote (mark_Type mark))
    else if (mark_Type mark =?= "link")
            && negb (opt_test validateLink (mark_Attrs mark ≫= Href))
    then invalid "content" "contains an invalid link mark"
    else validateMarks rest
  end.

(** The checks of one node that look at the node alone. *)
Definition validateNodeFields (node : RichTextNode) : result kerror unit :=
  if negb (bool_decide (node_Type node ∈ allowedNodeTypes))
  then invalid "content" ("contains unsupported node type " +:+ strconv_quote (node_Type node))
  else
    (if node_Type node =?= "text"
     then check (negb (is_none (node_Text node) || negb (node_Content node =?= [])
                       || is_some (node_Attrs node)))
            "content" "contains an invalid text node"
     else check (is_none (node_Text node)) "content" "non-text nodes must not contain text")
    ≫= λ _, validateMarks (node_Marks node)
    ≫= λ _, match node_Attrs node with
            | Some attrs => validateRichTextAttrs (node_Type node) attrs
            | None => Ok tt
            end.

(** The result is the node counter after the subtree. *)
Fixpoint validateRichTextNode (node : RichTextNode) (depth count : Z) : result kerror Z :=
  if 64 <? depth then invalid "content" "exceeds the maximum nesting depth"
  else if 100000 <? count + 1 then invalid "content" "contains too many nodes"
  else
    validateNodeFields node ≫= λ _,
    (fix children (content : list (option RichTextNode)) (count : Z) : result kerror Z :=
       match content with
       | [] => Ok count
       | None :: _ => invalid "content" "contains a null node"
       | Some child :: rest =>
         validateRichTextNode child (depth + 1) count ≫= λ count', children rest count'
       end) (node_Content node) (count + 1).

Fixpoint validateChildren (content : list (option RichTextNode)) (depth count : Z)
  : result kerror Z :=
  match content with
  | [] => Ok count
  | None :: _ => invalid "content" "contains a null node"
  | Some child :: rest =>
    validateRichTextNode child depth count ≫= λ count', validateChildren rest depth count'
  end.

Definition Validate (d : RichTextDocument) : result kerror unit :=
  if negb (doc_Type d =?= "doc") then
    invalid "content" "must be a ProseMirror doc with a content array"
  else match doc_Content d with
       | None => invalid "content" "must be a ProseMirror doc with a content array"
       | Some content => validateChildren content 1 0 ≫= λ _, Ok tt
       end.

End validation.

(** ** What validation accepts *)

(** The pointers of a tree in document order, each with its nesting depth. *)
Fixpoint node_walk (n : RichTextNode) (depth : Z) : list (option RichTextNode * Z) :=
  (Some n, depth) ::
  (fix go (l : list (option RichTextNode)) :=
     match l with
     | [] => []
     | None :: l' => (None, depth + 1) :: go l'
     | Some c :: l' => node_walk c (depth + 1) ++ go l'
     end) (node_Content n).

Fixpoint content_walk (l : list (option RichTextNode)) (depth : Z)
  : list (option RichTextNode * Z) :=
  match l with
  | [] => []
  | None :: l' => (None, depth) :: content_walk l' depth
  | Some c :: l' => node_walk c depth ++ content_walk l' depth
  end.

Lemma node_walk_unfold n depth :
  node_walk n depth = (Some n, depth) :: content_walk (node_Content n) (depth + 1).
Proof.
  destruct n as [ty at_ content txt marks]. simpl. f_equal.
  induction content as [|[c|] content IH]; simpl; [done|by rewrite IH|by rewrite IH].
Qed.

Section accepted.
Context `{Unicode, Uuid, Url}.

Lemma validateRichTextNode_unfold node depth count :
  validateRichTextNode node depth count =
  if 64 <? depth then invalid "content" "exceeds the maximum nesting depth"
  else if 100000 <? count + 1 then invalid "content" "contains too many nodes"
  else validateNodeFields node ≫= λ _,
       validateChildren (node_Content node) (depth + 1) (count + 1).
Proof.
  destruct node as [ty at_ content txt marks]. cbn [validateRichTextNode node_Content].
  repeat (case_match; [done|]). destruct (validateNodeFields _); simpl; [|done].
  generalize (count + 1). induction content as [|[c|] content IH]; intros k; simpl; [done| |done].
  destruct (validateRichTextNode c (depth + 1) k); simpl; [apply IH|done].
Qed.

Definition within (lo hi : Z) (o : option Z) : Prop := ∀ v, o = Some v → lo <= v <= hi.

Definition attrs_ok (nodeType : string) (a : RichTextAttrs) : Prop :=
  (∀ id, BlockID a = Some id → 1 <= len (TrimSpace id) <= 128) ∧
  within 1 6 (Level a) ∧
  (∀ v, Start a = Some v → 1 <= v) ∧
  (∀ id, AttachmentID a = Some id → uuid_version (TrimSpace id) = Some 7) ∧
  (nodeType = "image" ∨ nodeType = "attachment" → is_Some (AttachmentID a)) ∧
  (∀ v, TextAlign a = Some v → v ∈ ["left"; "center"; "right"; "justify"]) ∧
  (∀ v, Variant a = Some v → v ∈ ["info"; "success"; "warning"; "danger"]) ∧
  within 1 100 (Colspan a) ∧
  within 1 100 (Rowspan a).

Definition link_ok (value : string) : Prop :=
  len value <= 2048 ∧ 13 ∉ bytes value ∧ 10 ∉ bytes value ∧
  ∃ scheme, url_scheme value = Some scheme ∧ ToLower scheme ∈ ["http"; "https"; "mailto"].

Definition mark_ok (m : RichTextMark) : Prop :=
  mark_Type m ∈ allowedMarkTypes ∧
  (mark_Type m = "link" → ∃ a href, mark_Attrs m = Some a ∧ Href a = Some href ∧ link_ok href).

Definition fields_ok (n : RichTextNode) : Prop :=
  node_Type n ∈ allowedNodeTypes ∧
  (node_Type n = "text" → is_Some (node_Text n) ∧ node_Content n = [] ∧ node_Attrs n = None) ∧
  (node_Type n ≠ "text" → node_Text n = None) ∧
  Forall mark_ok (node_Marks n) ∧
  (∀ a, node_Attrs n = Some a → attrs_ok (node_Type n) a).

(** A pointer met at some depth is acceptable. *)
Definition visit_ok (v : option RichTextNode * Z) : Prop :=
  v.2 <= 64 ∧ ∃ n, v.1 = Some n ∧ fields_ok n.

Lemma ContainsAny_false s l : ContainsAny s l = false ↔ ∀ c, c ∈ l → c ∉ bytes s.
Proof.
  unfold ContainsAny. rewrite <-not_true_iff_false, existsb_exists. split.
  - intros Hn c Hc Hin. apply Hn. exists c. split; [by apply list_elem_of_In|].
    apply existsb_exists. exists c. split; [by apply list_elem_of_In|by apply Z.eqb_refl].
  - intros Hall (b & Hb & Hex). apply existsb_exists in Hex as (c & Hc & ->%Z.eqb_eq).
    apply (Hall c); by apply list_elem_of_In.
Qed.

Lemma validateLink_ok value : validateLink value = true ↔ link_ok value.
Proof.
  unfold validateLink, link_ok. destruct (2048 <? len value) eqn:Hl; simpl.
  { split; [done|]. intros (? & _). lia. }
  destruct (ContainsAny value [13; 10]) eqn:Hc.
  - split; [done|]. intros (_ & H13 & H10 & _).
    apply not_false_iff_true in Hc. destruct Hc. apply ContainsAny_false. set_solver.
  - rewrite ContainsAny_false in Hc. destruct (url_scheme value) as [sch|]; [|naive_solver].
    rewrite bool_decide_eq_true. split; [|naive_solver].
    intros Hs. split_and!; [lia|set_solver|set_solver|by exists sch].
Qed.

Lemma validateMarks_ok marks : validateMarks marks = Ok tt ↔ Forall mark_ok marks.
Proof.
  induction marks as [|m marks IH]; simpl; [by split; [constructor|]|].
  rewrite Forall_cons, <-IH. unfold mark_ok at 1.
  case_bool_decide as Ht; simpl; [|naive_solver].
  case_bool_decide as Hlink; simpl; [|naive_solver].
  destruct (mark_Attrs m) as [a|] eqn:Ha; simpl; [|naive_solver].
  destruct (Href a) as [href|] eqn:Hh; simpl; [|naive_solver].
  pose proof (validateLink_ok href) as Hv.
  destruct (validateLink href); simpl; naive_solver.
Qed.

Lemma join_nil {A} (b : bool) (x : A) l : (if b then [x] else []) ++ l = [] ↔ b = false ∧ l = [].
Proof. destruct b; naive_solver. Qed.

Lemma opt_test_false {A} (P : A → bool) o : opt_test P o = false ↔ ∀ a, o = Some a → P a = false.
Proof. destruct o; simpl; naive_solver. Qed.

Lemma outside_false lo hi o : outside lo hi o = false ↔ within lo hi o.
Proof.
  unfold outside, within. rewrite opt_test_false.
  split; intros Hall v Hv; specialize (Hall v Hv); lia.
Qed.

Lemma validateRichTextAttrs_ok ty a : validateRichTextAttrs ty a = Ok tt ↔ attrs_ok ty a.
Proof.
  unfold validateRichTextAttrs. set (joined := _ ++ _).
  assert ((match joined with [] => Ok tt | _ => Err (EValidation joined) end : result kerror unit)
          = Ok tt ↔ joined = []) as -> by (destruct joined; split; intros Hj; by inversion Hj).
  unfold joined, join_if. rewrite !join_nil, !outside_false, !opt_test_false. unfold attrs_ok.
  assert ((if outside 1 100 (Rowspan a) then [content_error "table rowspan is out of range"] else [])
          = [] ↔ within 1 100 (Rowspan a)) as ->.
  { rewrite <-outside_false. destruct (outside 1 100 (Rowspan a)); by split. }
  setoid_rewrite orb_false_iff. setoid_rewrite negb_false_iff.
  unfold is_uuid7. setoid_rewrite bool_decide_eq_true.
  rewrite andb_false_iff, orb_false_iff, !bool_decide_eq_false.
  assert (is_none (AttachmentID a) = false ↔ is_Some (AttachmentID a)) as ->.
  { destruct (AttachmentID a); simpl; [by split; eauto|]. split; [done|by intros [? ?]]. }
  split; intros (HB & HL & HS & HA & HI & HT & HV & HC & HR); split_and!; try done.
  - intros id Hid. specialize (HB id Hid). lia.
  - intros v Hv. specialize (HS v Hv). lia.
  - naive_solver.
  - intros id Hid. specialize (HB id Hid). lia.
  - intros v Hv. specialize (HS v Hv). lia.
  - destruct (decide (ty = "image")); [right; naive_solver|].
    destruct (decide (ty = "attachment")); [right; naive_solver|by left].
Qed.

Lemma check_ok b field reason : check b field reason = Ok tt ↔ b = true.
Proof. unfold check, invalid. destruct b; naive_solver. Qed.

Lemma validateNodeFields_ok n u : validateNodeFields n = Ok u ↔ fields_ok n.
Proof.
  destruct u, n as [ty at_ content txt marks]. unfold validateNodeFields, fields_ok. simpl.
  case_bool_decide as Hty; simpl; [|unfold invalid; naive_solver].
  rewrite !result_then_ok.
  trans ((if ty =?= "text" then is_Some txt ∧ content = [] ∧ at_ = None else txt = None)
         ∧ Forall mark_ok marks ∧ (∀ a, at_ = Some a → attrs_ok ty a)).
  - rewrite <-validateMarks_ok.
    assert ((∀ a, at_ = Some a → attrs_ok ty a) ↔
            match at_ with Some attrs => validateRichTextAttrs ty attrs | None => Ok tt end = Ok tt)
      as -> by (destruct at_; [rewrite validateRichTextAttrs_ok|]; naive_solver).
    case_bool_decide; rewrite check_ok.
    + rewrite negb_true_iff, !orb_false_iff, negb_false_iff, bool_decide_eq_true.
      assert (is_none txt = false ↔ is_Some txt) as ->
        by (destruct txt; simpl; split; [by eauto|done|done|by intros [? ?]]).
      assert (is_some at_ = false ↔ at_ = None) as -> by (by destruct at_).
      naive_solver.
    + rewrite is_none_true. naive_solver.
  - case_bool_decide; naive_solver.
Qed.

Lemma validate_children_of content depth count :
  (∀ c, Some c ∈ content → ∀ k out, k <= 100000 →
     validateRichTextNode c depth k = Ok out ↔
     Forall visit_ok (node_walk c depth) ∧ out = k + Z.of_nat (length (node_walk c depth))
     ∧ out <= 100000) →
  count <= 100000 → ∀ out,
  validateChildren content depth count = Ok out ↔
  Forall visit_ok (content_walk content depth)
  ∧ out = count + Z.of_nat (length (content_walk content depth)) ∧ out <= 100000.
Proof.
  revert count. induction content as [|[c|] content IH]; intros count Hc Hk out; simpl.
  - split; [intros [= ->]; split_and!; [constructor|lia|done]|].
    intros (_ & -> & _). f_equal. lia.
  - rewrite result_bind_ok, Forall_app, length_app.
    assert (∀ d, Some d ∈ content → Some d ∈ Some c :: content) as Hsub by (by right).
    pose proof (λ k, Hc c ltac:(left) count k Hk) as Hhead. split.
    + intros (k & Hn & Hrest). apply Hhead in Hn as (Hf & -> & Hle).
      apply IH in Hrest as (Hfr & -> & Hle'); [|by auto|done].
      split_and!; [done|done|lia|lia].
    + intros ((Hf & Hfr) & -> & Hle). eexists. split; [apply Hhead; split_and!; [done|done|lia]|].
      apply IH; [by auto|lia|]. split_and!; [done|lia|lia].
  - split; [unfold invalid; naive_solver|]. intros (Hf & _).
    inversion Hf as [|? ? [_ (n & Hn & _)] _]. done.
Qed.

Lemma validate_node_ok n : ∀ depth count out,
  count <= 100000 →
  validateRichTextNode n depth count = Ok out ↔
  Forall visit_ok (node_walk n depth)
  ∧ out = count + Z.of_nat (length (node_walk n depth)) ∧ out <= 100000.
Proof.
  induction n as [ty at_ content txt marks IH] using node_ind. intros depth count out Hk.
  set (n := Node _ _ _ _ _).
  rewrite validateRichTextNode_unfold, node_walk_unfold, Forall_cons, length_cons.
  unfold visit_ok at 1. cbn [fst snd].
  destruct (64 <? depth) eqn:Hd; [split; [done|]; lia|].
  destruct (100000 <? count + 1) eqn:Hn; [split; [done|]; lia|].
  rewrite result_bind_ok. setoid_rewrite validateNodeFields_ok.
  assert (∀ o, validateChildren (node_Content n) (depth + 1) (count + 1) = Ok o ↔
    Forall visit_ok (content_walk (node_Content n) (depth + 1))
    ∧ o = count + 1 + Z.of_nat (length (content_walk (node_Content n) (depth + 1))) ∧ o <= 100000) as Hch.
  { apply validate_children_of; [|lia]. intros c Hin k o Hle. by apply IH. }
  split.
  - intros (_ & Hf & (Hw & -> & Hle)%Hch). split_and!; [lia|by eauto|done|lia|lia].
  - intros (((_ & n' & [= <-] & Hf) & Hw) & -> & Hle). exists tt.
    split; [done|]. apply Hch. split_and!; [done|lia|lia].
Qed.

Lemma Validate_walk d :
  Validate d = Ok tt ↔
  doc_Type d = "doc" ∧ ∃ content, doc_Content d = Some content ∧
    Forall visit_ok (content_walk content 1) ∧
    Z.of_nat (length (content_walk content 1)) <= 100000.
Proof.
  unfold Validate. case_bool_decide as Ht; simpl; [|unfold invalid; naive_solver].
  destruct (doc_Content d) as [content|]; [|unfold invalid; naive_solver].
  rewrite result_bind_ok.
  pose proof (validate_children_of content 1 0 (λ c _ k out, validate_node_ok c 1 k out)
                ltac:(lia)) as Hch.
  split.
  - intros (a & (Hf & -> & Hl)%Hch & _). split; [done|]. exists content. split_and!; [done|done|lia].
  - intros (_ & content' & [= <-] & Hf & Hl). eexists. split; [apply Hch; split_and!|]; [done|done|lia|done].
Qed.

(** C37: a document validates exactly when it is a [doc] with a content
    array whose tree has no null pointer, at most 64 levels and 100,000 nodes,
    and every node satisfies the field rules; the counter threaded through the
    recursion computes the size of the tree. *)
Theorem Validate_spec d :
  Validate d = Ok tt ↔
  doc_Type d = "doc" ∧ ∃ content, doc_Content d = Some content ∧
    Forall visit_ok (content_walk content 1) ∧
    Z.of_nat (length (content_walk content 1)) <= 100000.
Proof. apply Validate_walk. Qed.

End accepted.

(** ** Deviation *)

(** A URL parser for evaluating the model: every text has the scheme https. *)
Definition https_url : Url := {| url_scheme := λ _, Some "https" |}.

Definition no_uuid : Uuid := {| uuid_version := λ _, None |}.

(** An image with no [attrs] object at all passes, although an image whose
    [attrs] lack an [attachmentId] does not. *)
Theorem image_without_attrs_validates `{Unicode, Uuid, Url} :
  Validate (MkDocument "doc" (Some [Some (Node "image" None [] None [])])) = Ok tt ∧
  ∀ a, AttachmentID a = None →
    Validate (MkDocument "doc" (Some [Some (Node "image" (Some a) [] None [])])) ≠ Ok tt.
Proof.
  split; [done|]. intros a Ha Hv. unfold Validate in Hv. cbn [doc_Type doc_Content] in Hv.
  rewrite bool_decide_true in Hv by done. apply result_bind_ok in Hv as (k & Hv & _).
  cbn [validateChildren] in Hv. apply result_bind_ok in Hv as (k' & Hv & _).
  apply validate_node_ok in Hv as (Hf & _); [|lia].
  rewrite node_walk_unfold in Hf. apply Forall_cons in Hf as [[_ (n & [= <-] & Hok)] _].
  destruct Hok as (_ & _ & _ & _ & Hat). destruct (Hat a eq_refl) as (_ & _ & _ & _ & Hatt & _).
  destruct Hatt as [id Hid]; [by left|]. simpl in *. congruence.
Qed.
