(* ===== verification/Json.v ===== *)
(** JSON as the Knowledge service uses it.

    [pkg/codec/json] is a configuration of the sonic library, so text is
    turned into values and back by a parameter ([Codec]); what the service
    does with the values is defined here: the JSON form of rich text (the
    struct tags of [domain/richtext.go]), the removal of block identifiers and
    the publication hash ([repository/publication_hash.go]). *)

From stdpp Require Import base list sets strings.
From Stdlib Require Import ZArith Lia SpecFloat DecimalString.
From S2P Require Import Prelude.
From S2P Require Import GoStrings.
From S2P Require Import KDomain.
From S2P Require Import RichText.

Open Scope Z_scope.

(** Go's [float64]. *)
Definition float64 : Type := spec_float.

#[export] Instance float64_eq_dec : EqDecision float64.
Proof. unfold float64. solve_decision. Defined.

(** 50 as a [float64] *)
Definition float_fifty : float64 := S754_finite false 7036874417766400 (-47).

(** A decoded value of type [any]; an object is the list of its members, each
    key once.  Integers come from Go integers, [JNumber] is a [json.Number]
    with its literal. *)
Inductive json :=
| JNull
| JBool (b : bool)
| JInt (z : Z)
| JFloat (f : float64)
| JNumber (literal : string)
| JStr (s : string)
| JArr (items : list json)
| JObj (members : list (string * json)).

(** [Unmarshal(data, &v)] into an [any], a [RichTextDocument] and a
    [map[string]string]; [Marshal(v)]; [Valid]; SHA-256 in hexadecimal.
    [std_decode] and [std_encode] are the same for package encoding/json, which
    the block diff uses. *)
Class Codec := {
  json_decode : string → option json;
  json_encode : json → option string;
  json_valid : string → bool;
  decode_document : string → option RichTextDocument;
  decode_headers : string → option (list (string * string));
  std_decode : string → option json;
  std_encode : json → string;
  sha256_hex : string → string;
}.

(** What the statements use of PostgreSQL: [lower(text)], the comparison of
    texts under the database collation, [ILIKE] against a pattern, and the text
    a jsonb column gives back for a text written to it ([None]: not JSON). *)
Class Pg := {
  sql_lower : string → string;
  text_compare : string → string → comparison;
  ilike : string → string → bool;
  jsonb : string → option string;
}.

(** ** Message headers *)

(** [fmt.Sprintf("%d", n)] *)
Definition format_int (n : Z) : string := NilZero.string_of_int (Z.to_int n).

(** [headers[key] = value] *)
Definition set_header (key value : string) (headers : list (string * string)) : list (string * string) :=
  filter (λ kv, kv.1 ≠ key) headers ++ [(key, value)].

Definition headers_json (headers : list (string * string)) : json :=
  JObj ((λ kv, (kv.1, JStr kv.2)) <$> headers).

(** Induction over values through arrays and objects. *)
Lemma json_ind' (P : json → Prop) :
  P JNull → (∀ b, P (JBool b)) → (∀ z, P (JInt z)) → (∀ f, P (JFloat f)) →
  (∀ l, P (JNumber l)) → (∀ s, P (JStr s)) →
  (∀ items, Forall P items → P (JArr items)) →
  (∀ members, Forall (λ kv, P kv.2) members → P (JObj members)) →
  ∀ v, P v.
Proof.
  intros Hnull Hbool Hint Hfloat Hnum Hstr Harr Hobj. fix IH 1. intros [].
  - exact Hnull.
  - apply Hbool.
  - apply Hint.
  - apply Hfloat.
  - apply Hnum.
  - apply Hstr.
  - apply Harr. induction items as [|v items IHl]; constructor; [apply IH|exact IHl].
  - apply Hobj. induction members as [|[k v] members IHl]; constructor; [apply IH|exact IHl].
Qed.

(** [m[key]] of a map *)
Fixpoint member (key : string) (members : list (string * json)) : option json :=
  match members with
  | [] => None
  | (k, v) :: rest => if k =?= key then Some v else member key rest
  end.

(** [json.Unmarshal] of an array of strings: [null] is the nil slice, a [null]
    element the empty string. *)
Fixpoint strings_of (items : list json) : option (list string) :=
  match items with
  | [] => Some []
  | JStr s :: rest => (s ::.) <$> strings_of rest
  | JNull :: rest => (EmptyString ::.) <$> strings_of rest
  | _ => None
  end.

Definition string_slice (v : json) : option (list string) :=
  match v with
  | JNull => Some []
  | JArr items => strings_of items
  | _ => None
  end.

Definition JStrings (l : list string) : json := JArr (JStr <$> l).

Lemma string_slice_JStrings l : string_slice (JStrings l) = Some l.
Proof.
  unfold JStrings. cbn [string_slice]. induction l as [|s l IH]; [done|].
  rewrite fmap_cons. cbn [strings_of]. by rewrite IH.
Qed.

(** A slice of strings as the encoder writes it: a nil one, here [None], is
    [null]. *)
Definition JSlice (o : option (list string)) : json :=
  match o with Some l => JStrings l | None => JNull end.

(** [json.Unmarshal] into a nil slice of strings: [null] leaves it nil. *)
Definition slice_of (v : json) : option (option (list string)) :=
  match v with JNull => Some None | _ => Some <$> string_slice v end.

Lemma slice_of_string_slice v o : slice_of v = Some o → string_slice v = Some (default [] o).
Proof. destruct v; simpl; intros [=]; simplify_option_eq; naive_solver. Qed.

Definition JOptStr (o : option string) : json := match o with Some s => JStr s | None => JNull end.

(** ** Rich text *)

(** An [omitempty] member. *)
Definition omit {A} (key : string) (f : A → json) (o : option A) : list (string * json) :=
  match o with Some a => [(key, f a)] | None => [] end.

Definition attrs_json (a : RichTextAttrs) : json :=
  JObj (omit "level" JInt (Level a) ++ omit "start" JInt (Start a)
        ++ omit "checked" JBool (Checked a) ++ omit "language" JStr (Language a)
        ++ omit "href" JStr (Href a) ++ omit "attachmentId" JStr (AttachmentID a)
        ++ omit "alt" JStr (Alt a) ++ omit "title" JStr (Title a)
        ++ omit "textAlign" JStr (TextAlign a) ++ omit "variant" JStr (Variant a)
        ++ omit "colspan" JInt (Colspan a) ++ omit "rowspan" JInt (Rowspan a)
        ++ (match Colwidth a with [] => [] | l => [("colwidth", JArr (JInt <$> l))] end)
        ++ omit "blockId" JStr (BlockID a)).

Definition mark_json (m : RichTextMark) : json :=
  JObj (("type", JStr (mark_Type m)) :: omit "attrs" attrs_json (mark_Attrs m)).

Fixpoint node_json (n : RichTextNode) : json :=
  JObj (("type", JStr (node_Type n))
        :: omit "attrs" attrs_json (node_Attrs n)
        ++ (match node_Content n with
            | [] => []
            | l => [("content", JArr ((fix go l :=
                      match l with
                      | [] => []
                      | None :: l' => JNull :: go l'
                      | Some c :: l' => node_json c :: go l'
                      end) l))]
            end)
        ++ omit "text" JStr (node_Text n)
        ++ (match node_Marks n with [] => [] | l => [("marks", JArr (mark_json <$> l))] end)).

Definition pointer_json (o : option RichTextNode) : json :=
  match o with Some n => node_json n | None => JNull end.

Definition document_json (d : RichTextDocument) : json :=
  JObj [("type", JStr (doc_Type d));
        ("content", match doc_Content d with
                    | None => JNull
                    | Some l => JArr (pointer_json <$> l)
                    end)].

(** ** Block identifiers *)

Definition is_block_key (key : string) : bool := (key =?= "blockId") || (key =?= "block_id").

Fixpoint stripHistoryBlockIDs (value : json) : json :=
  match value with
  | JArr items => JArr (stripHistoryBlockIDs <$> items)
  | JObj members =>
    JObj ((fix go (l : list (string * json)) :=
             match l with
             | [] => []
             | (key, nested) :: l' =>
               if is_block_key key then go l' else (key, stripHistoryBlockIDs nested) :: go l'
             end) members)
  | _ => value
  end.

(** The members that survive stripping. *)
Definition strip_members (members : list (string * json)) : list (string * json) :=
  (λ kv, (kv.1, stripHistoryBlockIDs kv.2)) <$> filter (λ kv, is_block_key kv.1 = false) members.

Lemma strip_obj members : stripHistoryBlockIDs (JObj members) = JObj (strip_members members).
Proof.
  simpl. f_equal. unfold strip_members. induction members as [|[k v] l IH]; [done|].
  rewrite filter_cons. cbn [fst]. destruct (is_block_key k) eqn:Hk; [done|].
  rewrite decide_True by done. rewrite fmap_cons. cbn [fst snd]. by f_equal.
Qed.

(** No member anywhere in the value is a block identifier. *)
Fixpoint block_free (v : json) : bool :=
  match v with
  | JArr items => forallb block_free items
  | JObj members => forallb (λ kv, negb (is_block_key kv.1) && block_free kv.2) members
  | _ => true
  end.

Lemma strip_block_free v : block_free (stripHistoryBlockIDs v) = true.
Proof.
  induction v using json_ind'; try done.
  - simpl. rewrite forallb_forall. intros x Hx%list_elem_of_In.
    apply list_elem_of_fmap in Hx as (y & -> & Hy). rewrite Forall_forall in H. by apply H.
  - rewrite strip_obj. simpl. rewrite forallb_forall. intros x Hx%list_elem_of_In.
    apply list_elem_of_fmap in Hx as ([k v] & -> & Hy). apply list_elem_of_filter in Hy as [Hk Hy].
    rewrite Forall_forall in H. simpl in *. rewrite Hk. simpl. by apply (H (k, v)).
Qed.

Lemma strip_fixed v : block_free v = true → stripHistoryBlockIDs v = v.
Proof.
  induction v as [| | | | | |items IH|members IH] using json_ind'; try done.
  - simpl. rewrite forallb_forall. intros Hall. f_equal.
    rewrite <-(list_fmap_id items) at 2. apply list_fmap_ext. intros i x Hx.
    rewrite Forall_forall in IH. apply list_elem_of_lookup_2 in Hx.
    apply IH; [done|]. by apply Hall, list_elem_of_In.
  - rewrite strip_obj. cbn [block_free]. rewrite forallb_forall. intros Hall. f_equal.
    unfold strip_members. rewrite Forall_forall in IH.
    assert (filter (λ kv, is_block_key kv.1 = false) members = members) as ->.
    { apply filter_all. intros kv Hkv%list_elem_of_In%Hall.
      apply andb_prop in Hkv as [Hk _]. by apply negb_true_iff. }
    rewrite <-(list_fmap_id members) at 2. apply list_fmap_ext. intros i [k v] Hx.
    apply list_elem_of_lookup_2 in Hx. simpl. f_equal. apply (IH (k, v)); [done|].
    apply list_elem_of_In, Hall, andb_prop in Hx as [_ Hx]. done.
Qed.
