(* ===== verification/KSchema.v ===== *)
(** The tables of the Knowledge database: [services/knowledge/internal/model/
    model.go] and the constraints of [internal/migration/migrations].

    A row is a record with the fields of the gorm model, a table a finite map
    from its primary key, and [KDB] the database.  [set_x] is the assignment of
    one column.  The statements below (insert, update, upsert, delete) check
    what PostgreSQL checks: primary keys, unique indexes, foreign keys with
    their [ON DELETE] action, and check constraints.  Column widths and
    connection failures are not modelled. *)

From stdpp Require Import base gmap list sets strings.
From Stdlib Require Import ZArith Lia SpecFloat.
From S2P Require Import Prelude.
From S2P Require Import GoStrings.
From S2P Require Import KDomain.
From S2P Require Import RichText.
From S2P Require Import Json.

Open Scope Z_scope.

(** ** Rows *)

(** [model.Document] *)
Record DocumentRow := MkDocumentRow {
  d_ID : string;
  d_Title : string;
  d_Summary : string;
  d_Slug : string;
  d_Language : string;
  d_OwnerID : Z;
  d_OwnerUsername : string;
  d_OwnerAvatar : string;
  d_PublicationStatus : string;
  d_PublicationError : option string;
  d_PublicationGeneration : Z;
  d_PublicationHash : string;
  d_Icon : string;
  d_CoverAttachmentID : option string;
  d_CoverFocalX : float64;
  d_CoverFocalY : float64;
  d_MetadataRevision : Z;
  d_ContentRevision : Z;
  d_PermissionRevision : Z;
  d_PublishedAt : option Z;
  d_DeletedAt : option Z;
  d_PurgeAfter : option Z;
  d_CreatedAt : Z;
  d_UpdatedAt : Z;
}.

#[export] Instance DocumentRow_eq_dec : EqDecision DocumentRow.
Proof. solve_decision. Defined.

Definition set_d_Title (v : string) (r : DocumentRow) : DocumentRow :=
  MkDocumentRow
    (d_ID r) v (d_Summary r) (d_Slug r) (d_Language r) (d_OwnerID r) (d_OwnerUsername r)
    (d_OwnerAvatar r) (d_PublicationStatus r) (d_PublicationError r)
    (d_PublicationGeneration r) (d_PublicationHash r) (d_Icon r) (d_CoverAttachmentID r)
    (d_CoverFocalX r) (d_CoverFocalY r) (d_MetadataRevision r) (d_ContentRevision r)
    (d_PermissionRevision r) (d_PublishedAt r) (d_DeletedAt r) (d_PurgeAfter r) (d_CreatedAt
    r) (d_UpdatedAt r).

Definition set_d_Summary (v : string) (r : DocumentRow) : DocumentRow :=
  MkDocumentRow
    (d_ID r) (d_Title r) v (d_Slug r) (d_Language r) (d_OwnerID r) (d_OwnerUsername r)
    (d_OwnerAvatar r) (d_PublicationStatus r) (d_PublicationError r)
    (d_PublicationGeneration r) (d_PublicationHash r) (d_Icon r) (d_CoverAttachmentID r)
    (d_CoverFocalX r) (d_CoverFocalY r) (d_MetadataRevision r) (d_ContentRevision r)
    (d_PermissionRevision r) (d_PublishedAt r) (d_DeletedAt r) (d_PurgeAfter r) (d_CreatedAt
    r) (d_UpdatedAt r).

Definition set_d_Slug (v : string) (r : DocumentRow) : DocumentRow :=
  MkDocumentRow
    (d_ID r) (d_Title r) (d_Summary r) v (d_Language r) (d_OwnerID r) (d_OwnerUsername r)
    (d_OwnerAvatar r) (d_PublicationStatus r) (d_PublicationError r)
    (d_PublicationGeneration r) (d_PublicationHash r) (d_Icon r) (d_CoverAttachmentID r)
    (d_CoverFocalX r) (d_CoverFocalY r) (d_MetadataRevision r) (d_ContentRevision r)
    (d_PermissionRevision r) (d_PublishedAt r) (d_DeletedAt r) (d_PurgeAfter r) (d_CreatedAt
    r) (d_UpdatedAt r).

Definition set_d_Language (v : string) (r : DocumentRow) : DocumentRow :=
  MkDocumentRow
    (d_ID r) (d_Title r) (d_Summary r) (d_Slug r) v (d_OwnerID r) (d_OwnerUsername r)
    (d_OwnerAvatar r) (d_PublicationStatus r) (d_PublicationError r)
    (d_PublicationGeneration r) (d_PublicationHash r) (d_Icon r) (d_CoverAttachmentID r)
    (d_CoverFocalX r) (d_CoverFocalY r) (d_MetadataRevision r) (d_ContentRevision r)
    (d_PermissionRevision r) (d_PublishedAt r) (d_DeletedAt r) (d_PurgeAfter r) (d_CreatedAt
    r) (d_UpdatedAt r).

Definition set_d_PublicationStatus (v : string) (r : DocumentRow) : DocumentRow :=
  MkDocumentRow
    (d_ID r) (d_Title r) (d_Summary r) (d_Slug r) (d_Language r) (d_OwnerID r)
    (d_OwnerUsername r) (d_OwnerAvatar r) v (d_PublicationError r) (d_PublicationGeneration
    r) (d_PublicationHash r) (d_Icon r) (d_CoverAttachmentID r) (d_CoverFocalX r)
    (d_CoverFocalY r) (d_MetadataRevision r) (d_ContentRevision r) (d_PermissionRevision r)
    (d_PublishedAt r) (d_DeletedAt r) (d_PurgeAfter r) (d_CreatedAt r) (d_UpdatedAt r).

Definition set_d_PublicationError (v : option string) (r : DocumentRow) : DocumentRow :=
  MkDocumentRow
    (d_ID r) (d_Title r) (d_Summary r) (d_Slug r) (d_Language r) (d_OwnerID r)
    (d_OwnerUsername r) (d_OwnerAvatar r) (d_PublicationStatus r) v (d_PublicationGeneration
    r) (d_PublicationHash r) (d_Icon r) (d_CoverAttachmentID r) (d_CoverFocalX r)
    (d_CoverFocalY r) (d_MetadataRevision r) (d_ContentRevision r) (d_PermissionRevision r)
    (d_PublishedAt r) (d_DeletedAt r) (d_PurgeAfter r) (d_CreatedAt r) (d_UpdatedAt r).

Definition set_d_PublicationGeneration (v : Z) (r : DocumentRow) : DocumentRow :=
  MkDocumentRow
    (d_ID r) (d_Title r) (d_Summary r) (d_Slug r) (d_Language r) (d_OwnerID r)
    (d_OwnerUsername r) (d_OwnerAvatar r) (d_PublicationStatus r) (d_PublicationError r) v
    (d_PublicationHash r) (d_Icon r) (d_CoverAttachmentID r) (d_CoverFocalX r)
    (d_CoverFocalY r) (d_MetadataRevision r) (d_ContentRevision r) (d_PermissionRevision r)
    (d_PublishedAt r) (d_DeletedAt r) (d_PurgeAfter r) (d_CreatedAt r) (d_UpdatedAt r).

Definition set_d_PublicationHash (v : string) (r : DocumentRow) : DocumentRow :=
  MkDocumentRow
    (d_ID r) (d_Title r) (d_Summary r) (d_Slug r) (d_Language r) (d_OwnerID r)
    (d_OwnerUsername r) (d_OwnerAvatar r) (d_PublicationStatus r) (d_PublicationError r)
    (d_PublicationGeneration r) v (d_Icon r) (d_CoverAttachmentID r) (d_CoverFocalX r)
    (d_CoverFocalY r) (d_MetadataRevision r) (d_ContentRevision r) (d_PermissionRevision r)
    (d_PublishedAt r) (d_DeletedAt r) (d_PurgeAfter r) (d_CreatedAt r) (d_UpdatedAt r).

Definition set_d_Icon (v : string) (r : DocumentRow) : DocumentRow :=
  MkDocumentRow
    (d_ID r) (d_Title r) (d_Summary r) (d_Slug r) (d_Language r) (d_OwnerID r)
    (d_OwnerUsername r) (d_OwnerAvatar r) (d_PublicationStatus r) (d_PublicationError r)
    (d_PublicationGeneration r) (d_PublicationHash r) v (d_CoverAttachmentID r)
    (d_CoverFocalX r) (d_CoverFocalY r) (d_MetadataRevision r) (d_ContentRevision r)
    (d_PermissionRevision r) (d_PublishedAt r) (d_DeletedAt r) (d_PurgeAfter r) (d_CreatedAt
    r) (d_UpdatedAt r).

Definition set_d_CoverAttachmentID (v : option string) (r : DocumentRow) : DocumentRow :=
  MkDocumentRow
    (d_ID r) (d_Title r) (d_Summary r) (d_Slug r) (d_Language r) (d_OwnerID r)
    (d_OwnerUsername r) (d_OwnerAvatar r) (d_PublicationStatus r) (d_PublicationError r)
    (d_PublicationGeneration r) (d_PublicationHash r) (d_Icon r) v (d_CoverFocalX r)
    (d_CoverFocalY r) (d_MetadataRevision r) (d_ContentRevision r) (d_PermissionRevision r)
    (d_PublishedAt r) (d_DeletedAt r) (d_PurgeAfter r) (d_CreatedAt r) (d_UpdatedAt r).

Definition set_d_CoverFocalX (v : float64) (r : DocumentRow) : DocumentRow :=
  MkDocumentRow
    (d_ID r) (d_Title r) (d_Summary r) (d_Slug r) (d_Language r) (d_OwnerID r)
    (d_OwnerUsername r) (d_OwnerAvatar r) (d_PublicationStatus r) (d_PublicationError r)
    (d_PublicationGeneration r) (d_PublicationHash r) (d_Icon r) (d_CoverAttachmentID r) v
    (d_CoverFocalY r) (d_MetadataRevision r) (d_ContentRevision r) (d_PermissionRevision r)
    (d_PublishedAt r) (d_DeletedAt r) (d_PurgeAfter r) (d_CreatedAt r) (d_UpdatedAt r).

Definition set_d_CoverFocalY (v : float64) (r : DocumentRow) : DocumentRow :=
  MkDocumentRow
    (d_ID r) (d_Title r) (d_Summary r) (d_Slug r) (d_Language r) (d_OwnerID r)
    (d_OwnerUsername r) (d_OwnerAvatar r) (d_PublicationStatus r) (d_PublicationError r)
    (d_PublicationGeneration r) (d_PublicationHash r) (d_Icon r) (d_CoverAttachmentID r)
    (d_CoverFocalX r) v (d_MetadataRevision r) (d_ContentRevision r) (d_PermissionRevision
    r) (d_PublishedAt r) (d_DeletedAt r) (d_PurgeAfter r) (d_CreatedAt r) (d_UpdatedAt r).

Definition set_d_MetadataRevision (v : Z) (r : DocumentRow) : DocumentRow :=
  MkDocumentRow
    (d_ID r) (d_Title r) (d_Summary r) (d_Slug r) (d_Language r) (d_OwnerID r)
    (d_OwnerUsername r) (d_OwnerAvatar r) (d_PublicationStatus r) (d_PublicationError r)
    (d_PublicationGeneration r) (d_PublicationHash r) (d_Icon r) (d_CoverAttachmentID r)
    (d_CoverFocalX r) (d_CoverFocalY r) v (d_ContentRevision r) (d_PermissionRevision r)
    (d_PublishedAt r) (d_DeletedAt r) (d_PurgeAfter r) (d_CreatedAt r) (d_UpdatedAt r).

Definition set_d_ContentRevision (v : Z) (r : DocumentRow) : DocumentRow :=
  MkDocumentRow
    (d_ID r) (d_Title r) (d_Summary r) (d_Slug r) (d_Language r) (d_OwnerID r)
    (d_OwnerUsername r) (d_OwnerAvatar r) (d_PublicationStatus r) (d_PublicationError r)
    (d_PublicationGeneration r) (d_PublicationHash r) (d_Icon r) (d_CoverAttachmentID r)
    (d_CoverFocalX r) (d_CoverFocalY r) (d_MetadataRevision r) v (d_PermissionRevision r)
    (d_PublishedAt r) (d_DeletedAt r) (d_PurgeAfter r) (d_CreatedAt r) (d_UpdatedAt r).

Definition set_d_PermissionRevision (v : Z) (r : DocumentRow) : DocumentRow :=
  MkDocumentRow
    (d_ID r) (d_Title r) (d_Summary r) (d_Slug r) (d_Language r) (d_OwnerID r)
    (d_OwnerUsername r) (d_OwnerAvatar r) (d_PublicationStatus r) (d_PublicationError r)
    (d_PublicationGeneration r) (d_PublicationHash r) (d_Icon r) (d_CoverAttachmentID r)
    (d_CoverFocalX r) (d_CoverFocalY r) (d_MetadataRevision r) (d_ContentRevision r) v
    (d_PublishedAt r) (d_DeletedAt r) (d_PurgeAfter r) (d_CreatedAt r) (d_UpdatedAt r).

Definition set_d_PublishedAt (v : option Z) (r : DocumentRow) : DocumentRow :=
  MkDocumentRow
    (d_ID r) (d_Title r) (d_Summary r) (d_Slug r) (d_Language r) (d_OwnerID r)
    (d_OwnerUsername r) (d_OwnerAvatar r) (d_PublicationStatus r) (d_PublicationError r)
    (d_PublicationGeneration r) (d_PublicationHash r) (d_Icon r) (d_CoverAttachmentID r)
    (d_CoverFocalX r) (d_CoverFocalY r) (d_MetadataRevision r) (d_ContentRevision r)
    (d_PermissionRevision r) v (d_DeletedAt r) (d_PurgeAfter r) (d_CreatedAt r) (d_UpdatedAt
    r).

Definition set_d_DeletedAt (v : option Z) (r : DocumentRow) : DocumentRow :=
  MkDocumentRow
    (d_ID r) (d_Title r) (d_Summary r) (d_Slug r) (d_Language r) (d_OwnerID r)
    (d_OwnerUsername r) (d_OwnerAvatar r) (d_PublicationStatus r) (d_PublicationError r)
    (d_PublicationGeneration r) (d_PublicationHash r) (d_Icon r) (d_CoverAttachmentID r)
    (d_CoverFocalX r) (d_CoverFocalY r) (d_MetadataRevision r) (d_ContentRevision r)
    (d_PermissionRevision r) (d_PublishedAt r) v (d_PurgeAfter r) (d_CreatedAt r)
    (d_UpdatedAt r).

Definition set_d_PurgeAfter (v : option Z) (r : DocumentRow) : DocumentRow :=
  MkDocumentRow
    (d_ID r) (d_Title r) (d_Summary r) (d_Slug r) (d_Language r) (d_OwnerID r)
    (d_OwnerUsername r) (d_OwnerAvatar r) (d_PublicationStatus r) (d_PublicationError r)
    (d_PublicationGeneration r) (d_PublicationHash r) (d_Icon r) (d_CoverAttachmentID r)
    (d_CoverFocalX r) (d_CoverFocalY r) (d_MetadataRevision r) (d_ContentRevision r)
    (d_PermissionRevision r) (d_PublishedAt r) (d_DeletedAt r) v (d_CreatedAt r)
    (d_UpdatedAt r).

Definition set_d_UpdatedAt (v : Z) (r : DocumentRow) : DocumentRow :=
  MkDocumentRow
    (d_ID r) (d_Title r) (d_Summary r) (d_Slug r) (d_Language r) (d_OwnerID r)
    (d_OwnerUsername r) (d_OwnerAvatar r) (d_PublicationStatus r) (d_PublicationError r)
    (d_PublicationGeneration r) (d_PublicationHash r) (d_Icon r) (d_CoverAttachmentID r)
    (d_CoverFocalX r) (d_CoverFocalY r) (d_MetadataRevision r) (d_ContentRevision r)
    (d_PermissionRevision r) (d_PublishedAt r) (d_DeletedAt r) (d_PurgeAfter r) (d_CreatedAt
    r) v.

(** [model.SlugAlias] *)
Record SlugAliasRow := MkSlugAliasRow {
  sa_Slug : string;
  sa_DocumentID : option string;
  sa_GoneAt : option Z;
  sa_CreatedAt : Z;
}.

#[export] Instance SlugAliasRow_eq_dec : EqDecision SlugAliasRow.
Proof. solve_decision. Defined.

Definition set_sa_DocumentID (v : option string) (r : SlugAliasRow) : SlugAliasRow :=
  MkSlugAliasRow
    (sa_Slug r) v (sa_GoneAt r) (sa_CreatedAt r).

Definition set_sa_GoneAt (v : option Z) (r : SlugAliasRow) : SlugAliasRow :=
  MkSlugAliasRow
    (sa_Slug r) (sa_DocumentID r) v (sa_CreatedAt r).

(** [model.Member] *)
Record MemberRow := MkMemberRow {
  m_DocumentID : string;
  m_UserID : Z;
  m_Username : string;
  m_Avatar : string;
  m_Role : string;
  m_Revision : Z;
  m_CreatedBy : Z;
  m_CreatedAt : Z;
  m_UpdatedAt : Z;
}.

#[export] Instance MemberRow_eq_dec : EqDecision MemberRow.
Proof. solve_decision. Defined.

Definition set_m_Role (v : string) (r : MemberRow) : MemberRow :=
  MkMemberRow
    (m_DocumentID r) (m_UserID r) (m_Username r) (m_Avatar r) v (m_Revision r) (m_CreatedBy
    r) (m_CreatedAt r) (m_UpdatedAt r).

Definition set_m_Revision (v : Z) (r : MemberRow) : MemberRow :=
  MkMemberRow
    (m_DocumentID r) (m_UserID r) (m_Username r) (m_Avatar r) (m_Role r) v (m_CreatedBy r)
    (m_CreatedAt r) (m_UpdatedAt r).

Definition set_m_UpdatedAt (v : Z) (r : MemberRow) : MemberRow :=
  MkMemberRow
    (m_DocumentID r) (m_UserID r) (m_Username r) (m_Avatar r) (m_Role r) (m_Revision r)
    (m_CreatedBy r) (m_CreatedAt r) v.

(** [model.Projection]; [Content] is the text of a jsonb value *)
Record ProjectionRow := MkProjectionRow {
  pr_DocumentID : string;
  pr_Sequence : Z;
  pr_Content : string;
  pr_PlainText : string;
  pr_ProjectedAt : Z;
}.

#[export] Instance ProjectionRow_eq_dec : EqDecision ProjectionRow.
Proof. solve_decision. Defined.

(** [model.Folder] *)
Record FolderRow := MkFolderRow {
  f_ID : string;
  f_OwnerID : Z;
  f_ParentID : option string;
  f_Name : string;
  f_Depth : Z;
  f_Revision : Z;
  f_CreatedAt : Z;
  f_UpdatedAt : Z;
}.

#[export] Instance FolderRow_eq_dec : EqDecision FolderRow.
Proof. solve_decision. Defined.

Definition set_f_ParentID (v : option string) (r : FolderRow) : FolderRow :=
  MkFolderRow
    (f_ID r) (f_OwnerID r) v (f_Name r) (f_Depth r) (f_Revision r) (f_CreatedAt r)
    (f_UpdatedAt r).

Definition set_f_Name (v : string) (r : FolderRow) : FolderRow :=
  MkFolderRow
    (f_ID r) (f_OwnerID r) (f_ParentID r) v (f_Depth r) (f_Revision r) (f_CreatedAt r)
    (f_UpdatedAt r).

Definition set_f_Depth (v : Z) (r : FolderRow) : FolderRow :=
  MkFolderRow
    (f_ID r) (f_OwnerID r) (f_ParentID r) (f_Name r) v (f_Revision r) (f_CreatedAt r)
    (f_UpdatedAt r).

Definition set_f_Revision (v : Z) (r : FolderRow) : FolderRow :=
  MkFolderRow
    (f_ID r) (f_OwnerID r) (f_ParentID r) (f_Name r) (f_Depth r) v (f_CreatedAt r)
    (f_UpdatedAt r).

Definition set_f_UpdatedAt (v : Z) (r : FolderRow) : FolderRow :=
  MkFolderRow
    (f_ID r) (f_OwnerID r) (f_ParentID r) (f_Name r) (f_Depth r) (f_Revision r) (f_CreatedAt
    r) v.

(** [model.DocumentPlacement] *)
Record PlacementRow := MkPlacementRow {
  pl_OwnerID : Z;
  pl_DocumentID : string;
  pl_FolderID : option string;
  pl_Revision : Z;
  pl_CreatedAt : Z;
  pl_UpdatedAt : Z;
}.

#[export] Instance PlacementRow_eq_dec : EqDecision PlacementRow.
Proof. solve_decision. Defined.

Definition set_pl_FolderID (v : option string) (r : PlacementRow) : PlacementRow :=
  MkPlacementRow
    (pl_OwnerID r) (pl_DocumentID r) v (pl_Revision r) (pl_CreatedAt r) (pl_UpdatedAt r).

Definition set_pl_Revision (v : Z) (r : PlacementRow) : PlacementRow :=
  MkPlacementRow
    (pl_OwnerID r) (pl_DocumentID r) (pl_FolderID r) v (pl_CreatedAt r) (pl_UpdatedAt r).

Definition set_pl_UpdatedAt (v : Z) (r : PlacementRow) : PlacementRow :=
  MkPlacementRow
    (pl_OwnerID r) (pl_DocumentID r) (pl_FolderID r) (pl_Revision r) (pl_CreatedAt r) v.

(** [model.Tag] *)
Record TagRow := MkTagRow {
  t_ID : string;
  t_OwnerID : Z;
  t_Name : string;
  t_Slug : string;
  t_CreatedAt : Z;
  t_UpdatedAt : Z;
}.

#[export] Instance TagRow_eq_dec : EqDecision TagRow.
Proof. solve_decision. Defined.

(** [model.DocumentTag] *)
Record DocumentTagRow := MkDocumentTagRow {
  dt_DocumentID : string;
  dt_TagID : string;
  dt_CreatedAt : Z;
}.

#[export] Instance DocumentTagRow_eq_dec : EqDecision DocumentTagRow.
Proof. solve_decision. Defined.

(** [model.DocumentPublication] *)
Record PublicationRow := MkPublicationRow {
  pb_DocumentID : string;
  pb_Title : string;
  pb_Summary : string;
  pb_Slug : string;
  pb_Language : string;
  pb_Tags : string;
  pb_OwnerID : Z;
  pb_OwnerUsername : string;
  pb_OwnerAvatar : string;
  pb_Content : string;
  pb_PlainText : string;
  pb_PublishedAt : Z;
  pb_UpdatedAt : Z;
  pb_PublicationHash : string;
  pb_Icon : string;
  pb_CoverAttachmentID : option string;
  pb_CoverFocalX : float64;
  pb_CoverFocalY : float64;
}.

#[export] Instance PublicationRow_eq_dec : EqDecision PublicationRow.
Proof. solve_decision. Defined.

(** [model.PublicationCandidate] *)
Record CandidateRow := MkCandidateRow {
  pc_DocumentID : string;
  pc_Generation : Z;
  pc_Title : string;
  pc_Summary : string;
  pc_Slug : string;
  pc_Language : string;
  pc_Tags : string;
  pc_OwnerID : Z;
  pc_OwnerUsername : string;
  pc_OwnerAvatar : string;
  pc_Content : string;
  pc_PlainText : string;
  pc_ContentSequence : Z;
  pc_MediaIDs : string;
  pc_PublicationHash : string;
  pc_Icon : string;
  pc_CoverAttachmentID : option string;
  pc_CoverFocalX : float64;
  pc_CoverFocalY : float64;
  pc_CreatedAt : Z;
  pc_UpdatedAt : Z;
}.

#[export] Instance CandidateRow_eq_dec : EqDecision CandidateRow.
Proof. solve_decision. Defined.

(** [model.DocumentCommit] *)
Record CommitRow := MkCommitRow {
  c_ID : string;
  c_DocumentID : string;
  c_Kind : string;
  c_Label : string;
  c_Description : string;
  c_ContributorID : Z;
  c_ContributorName : string;
  c_Sequence : Z;
  c_ContentHash : string;
  c_Content : string;
  c_PlainText : string;
  c_IsAnchor : bool;
  c_CreatedAt : Z;
  c_UpdatedAt : Z;
}.

#[export] Instance CommitRow_eq_dec : EqDecision CommitRow.
Proof. solve_decision. Defined.

Definition set_c_Label (v : string) (r : CommitRow) : CommitRow :=
  MkCommitRow
    (c_ID r) (c_DocumentID r) (c_Kind r) v (c_Description r) (c_ContributorID r)
    (c_ContributorName r) (c_Sequence r) (c_ContentHash r) (c_Content r) (c_PlainText r)
    (c_IsAnchor r) (c_CreatedAt r) (c_UpdatedAt r).

Definition set_c_Description (v : string) (r : CommitRow) : CommitRow :=
  MkCommitRow
    (c_ID r) (c_DocumentID r) (c_Kind r) (c_Label r) v (c_ContributorID r)
    (c_ContributorName r) (c_Sequence r) (c_ContentHash r) (c_Content r) (c_PlainText r)
    (c_IsAnchor r) (c_CreatedAt r) (c_UpdatedAt r).

Definition set_c_Content (v : string) (r : CommitRow) : CommitRow :=
  MkCommitRow
    (c_ID r) (c_DocumentID r) (c_Kind r) (c_Label r) (c_Description r) (c_ContributorID r)
    (c_ContributorName r) (c_Sequence r) (c_ContentHash r) v (c_PlainText r) (c_IsAnchor r)
    (c_CreatedAt r) (c_UpdatedAt r).

Definition set_c_UpdatedAt (v : Z) (r : CommitRow) : CommitRow :=
  MkCommitRow
    (c_ID r) (c_DocumentID r) (c_Kind r) (c_Label r) (c_Description r) (c_ContributorID r)
    (c_ContributorName r) (c_Sequence r) (c_ContentHash r) (c_Content r) (c_PlainText r)
    (c_IsAnchor r) (c_CreatedAt r) v.

(** [model.DocumentHistory] *)
Record HistoryRow := MkHistoryRow {
  h_ID : string;
  h_DocumentID : string;
  h_Kind : string;
  h_Sequence : Z;
  h_MetadataRevision : Z;
  h_SemanticHash : string;
  h_Content : string;
  h_PlainText : string;
  h_Metadata : string;
  h_Contributors : string;
  h_BlockDiff : string;
  h_IsAnchor : bool;
  h_CreatedAt : Z;
}.

#[export] Instance HistoryRow_eq_dec : EqDecision HistoryRow.
Proof. solve_decision. Defined.

Definition set_h_Kind (v : string) (r : HistoryRow) : HistoryRow :=
  MkHistoryRow
    (h_ID r) (h_DocumentID r) v (h_Sequence r) (h_MetadataRevision r) (h_SemanticHash r)
    (h_Content r) (h_PlainText r) (h_Metadata r) (h_Contributors r) (h_BlockDiff r)
    (h_IsAnchor r) (h_CreatedAt r).

Definition set_h_IsAnchor (v : bool) (r : HistoryRow) : HistoryRow :=
  MkHistoryRow
    (h_ID r) (h_DocumentID r) (h_Kind r) (h_Sequence r) (h_MetadataRevision r)
    (h_SemanticHash r) (h_Content r) (h_PlainText r) (h_Metadata r) (h_Contributors r)
    (h_BlockDiff r) v (h_CreatedAt r).

(** [model.HistoryActivity] *)
Record ActivityRow := MkActivityRow {
  a_DocumentID : string;
  a_FirstDirtyAt : Z;
  a_LastDirtyAt : Z;
  a_LastCheckpoint : option Z;
  a_Contributors : string;
  a_UpdatedAt : Z;
}.

#[export] Instance ActivityRow_eq_dec : EqDecision ActivityRow.
Proof. solve_decision. Defined.

Definition set_a_LastDirtyAt (v : Z) (r : ActivityRow) : ActivityRow :=
  MkActivityRow
    (a_DocumentID r) (a_FirstDirtyAt r) v (a_LastCheckpoint r) (a_Contributors r)
    (a_UpdatedAt r).

Definition set_a_UpdatedAt (v : Z) (r : ActivityRow) : ActivityRow :=
  MkActivityRow
    (a_DocumentID r) (a_FirstDirtyAt r) (a_LastDirtyAt r) (a_LastCheckpoint r)
    (a_Contributors r) v.

(** [model.PublishedMediaReference] *)
Record MediaRefRow := MkMediaRefRow {
  mr_DocumentID : string;
  mr_AttachmentID : string;
  mr_Generation : Z;
  mr_CreatedAt : Z;
}.

#[export] Instance MediaRefRow_eq_dec : EqDecision MediaRefRow.
Proof. solve_decision. Defined.

(** [model.PublicationReferenceJob] *)
Record JobRow := MkJobRow {
  j_ID : string;
  j_DocumentID : string;
  j_OwnerID : Z;
  j_Generation : Z;
  j_Action : string;
  j_AttachmentIDs : string;
  j_State : string;
  j_Attempts : Z;
  j_NextAttemptAt : Z;
  j_LeaseUntil : option Z;
  j_ParkedAt : option Z;
  j_LastErrorKey : string;
  j_TraceHeaders : string;
  j_CreatedAt : Z;
  j_UpdatedAt : Z;
}.

#[export] Instance JobRow_eq_dec : EqDecision JobRow.
Proof. solve_decision. Defined.

Definition set_j_State (v : string) (r : JobRow) : JobRow :=
  MkJobRow
    (j_ID r) (j_DocumentID r) (j_OwnerID r) (j_Generation r) (j_Action r) (j_AttachmentIDs
    r) v (j_Attempts r) (j_NextAttemptAt r) (j_LeaseUntil r) (j_ParkedAt r) (j_LastErrorKey
    r) (j_TraceHeaders r) (j_CreatedAt r) (j_UpdatedAt r).

Definition set_j_Attempts (v : Z) (r : JobRow) : JobRow :=
  MkJobRow
    (j_ID r) (j_DocumentID r) (j_OwnerID r) (j_Generation r) (j_Action r) (j_AttachmentIDs
    r) (j_State r) v (j_NextAttemptAt r) (j_LeaseUntil r) (j_ParkedAt r) (j_LastErrorKey r)
    (j_TraceHeaders r) (j_CreatedAt r) (j_UpdatedAt r).

Definition set_j_NextAttemptAt (v : Z) (r : JobRow) : JobRow :=
  MkJobRow
    (j_ID r) (j_DocumentID r) (j_OwnerID r) (j_Generation r) (j_Action r) (j_AttachmentIDs
    r) (j_State r) (j_Attempts r) v (j_LeaseUntil r) (j_ParkedAt r) (j_LastErrorKey r)
    (j_TraceHeaders r) (j_CreatedAt r) (j_UpdatedAt r).

Definition set_j_LeaseUntil (v : option Z) (r : JobRow) : JobRow :=
  MkJobRow
    (j_ID r) (j_DocumentID r) (j_OwnerID r) (j_Generation r) (j_Action r) (j_AttachmentIDs
    r) (j_State r) (j_Attempts r) (j_NextAttemptAt r) v (j_ParkedAt r) (j_LastErrorKey r)
    (j_TraceHeaders r) (j_CreatedAt r) (j_UpdatedAt r).

Definition set_j_ParkedAt (v : option Z) (r : JobRow) : JobRow :=
  MkJobRow
    (j_ID r) (j_DocumentID r) (j_OwnerID r) (j_Generation r) (j_Action r) (j_AttachmentIDs
    r) (j_State r) (j_Attempts r) (j_NextAttemptAt r) (j_LeaseUntil r) v (j_LastErrorKey r)
    (j_TraceHeaders r) (j_CreatedAt r) (j_UpdatedAt r).

Definition set_j_LastErrorKey (v : string) (r : JobRow) : JobRow :=
  MkJobRow
    (j_ID r) (j_DocumentID r) (j_OwnerID r) (j_Generation r) (j_Action r) (j_AttachmentIDs
    r) (j_State r) (j_Attempts r) (j_NextAttemptAt r) (j_LeaseUntil r) (j_ParkedAt r) v
    (j_TraceHeaders r) (j_CreatedAt r) (j_UpdatedAt r).

Definition set_j_UpdatedAt (v : Z) (r : JobRow) : JobRow :=
  MkJobRow
    (j_ID r) (j_DocumentID r) (j_OwnerID r) (j_Generation r) (j_Action r) (j_AttachmentIDs
    r) (j_State r) (j_Attempts r) (j_NextAttemptAt r) (j_LeaseUntil r) (j_ParkedAt r)
    (j_LastErrorKey r) (j_TraceHeaders r) (j_CreatedAt r) v.

(** [model.Outbox] *)
Record OutboxRow := MkOutboxRow {
  o_ID : string;
  o_Subject : string;
  o_Payload : string;
  o_TraceHeaders : string;
  o_Attempts : Z;
  o_NextAttemptAt : Z;
  o_LastErrorKey : string;
  o_ParkedAt : option Z;
  o_PublishedAt : option Z;
  o_CreatedAt : Z;
}.

#[export] Instance OutboxRow_eq_dec : EqDecision OutboxRow.
Proof. solve_decision. Defined.

Definition set_o_Attempts (v : Z) (r : OutboxRow) : OutboxRow :=
  MkOutboxRow
    (o_ID r) (o_Subject r) (o_Payload r) (o_TraceHeaders r) v (o_NextAttemptAt r)
    (o_LastErrorKey r) (o_ParkedAt r) (o_PublishedAt r) (o_CreatedAt r).

Definition set_o_NextAttemptAt (v : Z) (r : OutboxRow) : OutboxRow :=
  MkOutboxRow
    (o_ID r) (o_Subject r) (o_Payload r) (o_TraceHeaders r) (o_Attempts r) v (o_LastErrorKey
    r) (o_ParkedAt r) (o_PublishedAt r) (o_CreatedAt r).

Definition set_o_LastErrorKey (v : string) (r : OutboxRow) : OutboxRow :=
  MkOutboxRow
    (o_ID r) (o_Subject r) (o_Payload r) (o_TraceHeaders r) (o_Attempts r) (o_NextAttemptAt
    r) v (o_ParkedAt r) (o_PublishedAt r) (o_CreatedAt r).

Definition set_o_ParkedAt (v : option Z) (r : OutboxRow) : OutboxRow :=
  MkOutboxRow
    (o_ID r) (o_Subject r) (o_Payload r) (o_TraceHeaders r) (o_Attempts r) (o_NextAttemptAt
    r) (o_LastErrorKey r) v (o_PublishedAt r) (o_CreatedAt r).

Definition set_o_PublishedAt (v : option Z) (r : OutboxRow) : OutboxRow :=
  MkOutboxRow
    (o_ID r) (o_Subject r) (o_Payload r) (o_TraceHeaders r) (o_Attempts r) (o_NextAttemptAt
    r) (o_LastErrorKey r) (o_ParkedAt r) v (o_CreatedAt r).

(** [model.IdempotencyKey] *)
Record IdempotencyRow := MkIdempotencyRow {
  ik_ActorID : Z;
  ik_Operation : string;
  ik_Key : string;
  ik_ResourceID : string;
  ik_RequestHash : string;
  ik_ExpiresAt : Z;
  ik_CreatedAt : Z;
}.

#[export] Instance IdempotencyRow_eq_dec : EqDecision IdempotencyRow.
Proof. solve_decision. Defined.

(** ** The database *)

(** The database of the service: one finite map per table, keyed by its primary
    key, the [NOTIFY] payloads sent and the identifiers [NewID] will return. *)
Record KDB := MkKDB {
  documents : gmap string DocumentRow;
  slug_aliases : gmap string SlugAliasRow;
  members : gmap (string * Z) MemberRow;
  projections : gmap string ProjectionRow;
  folders : gmap string FolderRow;
  placements : gmap (Z * string) PlacementRow;
  tags : gmap string TagRow;
  document_tags : gmap (string * string) DocumentTagRow;
  publications : gmap string PublicationRow;
  candidates : gmap string CandidateRow;
  commits : gmap string CommitRow;
  history : gmap string HistoryRow;
  activity : gmap string ActivityRow;
  media_refs : gmap (string * string) MediaRefRow;
  jobs : gmap string JobRow;
  outbox : gmap string OutboxRow;
  idempotency_keys : gmap (Z * string * string) IdempotencyRow;
  notifications : list string;
  new_ids : list string;
}.

Definition set_documents (v : gmap string DocumentRow) (r : KDB) : KDB :=
  MkKDB
    v (slug_aliases r) (members r) (projections r) (folders r) (placements r) (tags r)
    (document_tags r) (publications r) (candidates r) (commits r) (history r) (activity r)
    (media_refs r) (jobs r) (outbox r) (idempotency_keys r) (notifications r) (new_ids r).

Definition set_slug_aliases (v : gmap string SlugAliasRow) (r : KDB) : KDB :=
  MkKDB
    (documents r) v (members r) (projections r) (folders r) (placements r) (tags r)
    (document_tags r) (publications r) (candidates r) (commits r) (history r) (activity r)
    (media_refs r) (jobs r) (outbox r) (idempotency_keys r) (notifications r) (new_ids r).

Definition set_members (v : gmap (string * Z) MemberRow) (r : KDB) : KDB :=
  MkKDB
    (documents r) (slug_aliases r) v (projections r) (folders r) (placements r) (tags r)
    (document_tags r) (publications r) (candidates r) (commits r) (history r) (activity r)
    (media_refs r) (jobs r) (outbox r) (idempotency_keys r) (notifications r) (new_ids r).

Definition set_projections (v : gmap string ProjectionRow) (r : KDB) : KDB :=
  MkKDB
    (documents r) (slug_aliases r) (members r) v (folders r) (placements r) (tags r)
    (document_tags r) (publications r) (candidates r) (commits r) (history r) (activity r)
    (media_refs r) (jobs r) (outbox r) (idempotency_keys r) (notifications r) (new_ids r).

Definition set_folders (v : gmap string FolderRow) (r : KDB) : KDB :=
  MkKDB
    (documents r) (slug_aliases r) (members r) (projections r) v (placements r) (tags r)
    (document_tags r) (publications r) (candidates r) (commits r) (history r) (activity r)
    (media_refs r) (jobs r) (outbox r) (idempotency_keys r) (notifications r) (new_ids r).

Definition set_placements (v : gmap (Z * string) PlacementRow) (r : KDB) : KDB :=
  MkKDB
    (documents r) (slug_aliases r) (members r) (projections r) (folders r) v (tags r)
    (document_tags r) (publications r) (candidates r) (commits r) (history r) (activity r)
    (media_refs r) (jobs r) (outbox r) (idempotency_keys r) (notifications r) (new_ids r).

Definition set_tags (v : gmap string TagRow) (r : KDB) : KDB :=
  MkKDB
    (documents r) (slug_aliases r) (members r) (projections r) (folders r) (placements r) v
    (document_tags r) (publications r) (candidates r) (commits r) (history r) (activity r)
    (media_refs r) (jobs r) (outbox r) (idempotency_keys r) (notifications r) (new_ids r).

Definition set_document_tags (v : gmap (string * string) DocumentTagRow) (r : KDB) : KDB :=
  MkKDB
    (documents r) (slug_aliases r) (members r) (projections r) (folders r) (placements r)
    (tags r) v (publications r) (candidates r) (commits r) (history r) (activity r)
    (media_refs r) (jobs r) (outbox r) (idempotency_keys r) (notifications r) (new_ids r).

Definition set_publications (v : gmap string PublicationRow) (r : KDB) : KDB :=
  MkKDB
    (documents r) (slug_aliases r) (members r) (projections r) (folders r) (placements r)
    (tags r) (document_tags r) v (candidates r) (commits r) (history r) (activity r)
    (media_refs r) (jobs r) (outbox r) (idempotency_keys r) (notifications r) (new_ids r).

Definition set_candidates (v : gmap string CandidateRow) (r : KDB) : KDB :=
  MkKDB
    (documents r) (slug_aliases r) (members r) (projections r) (folders r) (placements r)
    (tags r) (document_tags r) (publications r) v (commits r) (history r) (activity r)
    (media_refs r) (jobs r) (outbox r) (idempotency_keys r) (notifications r) (new_ids r).

Definition set_commits (v : gmap string CommitRow) (r : KDB) : KDB :=
  MkKDB
    (documents r) (slug_aliases r) (members r) (projections r) (folders r) (placements r)
    (tags r) (document_tags r) (publications r) (candidates r) v (history r) (activity r)
    (media_refs r) (jobs r) (outbox r) (idempotency_keys r) (notifications r) (new_ids r).

Definition set_history (v : gmap string HistoryRow) (r : KDB) : KDB :=
  MkKDB
    (documents r) (slug_aliases r) (members r) (projections r) (folders r) (placements r)
    (tags r) (document_tags r) (publications r) (candidates r) (commits r) v (activity r)
    (media_refs r) (jobs r) (outbox r) (idempotency_keys r) (notifications r) (new_ids r).

Definition set_activity (v : gmap string ActivityRow) (r : KDB) : KDB :=
  MkKDB
    (documents r) (slug_aliases r) (members r) (projections r) (folders r) (placements r)
    (tags r) (document_tags r) (publications r) (candidates r) (commits r) (history r) v
    (media_refs r) (jobs r) (outbox r) (idempotency_keys r) (notifications r) (new_ids r).

Definition set_media_refs (v : gmap (string * string) MediaRefRow) (r : KDB) : KDB :=
  MkKDB
    (documents r) (slug_aliases r) (members r) (projections r) (folders r) (placements r)
    (tags r) (document_tags r) (publications r) (candidates r) (commits r) (history r)
    (activity r) v (jobs r) (outbox r) (idempotency_keys r) (notifications r) (new_ids r).

Definition set_jobs (v : gmap string JobRow) (r : KDB) : KDB :=
  MkKDB
    (documents r) (slug_aliases r) (members r) (projections r) (folders r) (placements r)
    (tags r) (document_tags r) (publications r) (candidates r) (commits r) (history r)
    (activity r) (media_refs r) v (outbox r) (idempotency_keys r) (notifications r) (new_ids
    r).

Definition set_outbox (v : gmap string OutboxRow) (r : KDB) : KDB :=
  MkKDB
    (documents r) (slug_aliases r) (members r) (projections r) (folders r) (placements r)
    (tags r) (document_tags r) (publications r) (candidates r) (commits r) (history r)
    (activity r) (media_refs r) (jobs r) v (idempotency_keys r) (notifications r) (new_ids
    r).

Definition set_idempotency_keys (v : gmap (Z * string * string) IdempotencyRow) (r : KDB) : KDB :=
  MkKDB
    (documents r) (slug_aliases r) (members r) (projections r) (folders r) (placements r)
    (tags r) (document_tags r) (publications r) (candidates r) (commits r) (history r)
    (activity r) (media_refs r) (jobs r) (outbox r) v (notifications r) (new_ids r).

Definition set_notifications (v : list string) (r : KDB) : KDB :=
  MkKDB
    (documents r) (slug_aliases r) (members r) (projections r) (folders r) (placements r)
    (tags r) (document_tags r) (publications r) (candidates r) (commits r) (history r)
    (activity r) (media_refs r) (jobs r) (outbox r) (idempotency_keys r) v (new_ids r).

Definition set_new_ids (v : list string) (r : KDB) : KDB :=
  MkKDB
    (documents r) (slug_aliases r) (members r) (projections r) (folders r) (placements r)
    (tags r) (document_tags r) (publications r) (candidates r) (commits r) (history r)
    (activity r) (media_refs r) (jobs r) (outbox r) (idempotency_keys r) (notifications r) v.

(** ** PostgreSQL *)

(** [gorm.ErrRecordNotFound], or an error of the server by its SQLSTATE. *)
Inductive db_error := RecordNotFound | PgError (code : string).

#[export] Instance db_error_eq_dec : EqDecision db_error.
Proof. solve_decision. Defined.

Definition unique_violation := PgError "23505".
Definition foreign_key_violation := PgError "23503".
Definition check_violation := PgError "23514".
Definition invalid_text := PgError "22P02".
Definition undefined_column := PgError "42703".

Definition stmt (A : Type) : Type := tx KDB db_error A.

(** ** Check constraints *)

Definition publication_statuses : list string :=
  [PublicationDraft; PublicationPublishing; PublicationPublished; PublicationPublishFailed;
   PublicationUnpublishing; PublicationUnpublishFailed].

(** The check constraints of [knowledge.documents]. *)
Definition document_check (d : DocumentRow) : bool :=
  (0 <? d_MetadataRevision d) && (0 <=? d_ContentRevision d) && (0 <? d_PermissionRevision d)
  && (1 <=? rune_count (d_Title d)) && (rune_count (d_Title d) <=? 200)
  && slugPattern (d_Slug d)
  && bool_decide (d_PublicationStatus d ∈ publication_statuses)
  && (0 <=? d_PublicationGeneration d)
  && ((is_none (d_DeletedAt d) && is_none (d_PurgeAfter d))
      || (is_some (d_DeletedAt d) && is_some (d_PurgeAfter d)
          && negb (d_PublicationStatus d =?= PublicationPublished))).

Definition alias_check (a : SlugAliasRow) : bool :=
  (is_some (sa_DocumentID a) && is_none (sa_GoneAt a))
  || (is_none (sa_DocumentID a) && is_some (sa_GoneAt a)).

Definition member_check (m : MemberRow) : bool :=
  ((m_Role m =?= AccessViewer) || (m_Role m =?= AccessEditor)) && (0 <? m_Revision m).

Definition folder_check (f : FolderRow) : bool := (1 <=? f_Depth f) && (f_Depth f <=? 8).

Definition job_check (j : JobRow) : bool :=
  (0 <? j_Generation j) && bool_decide (j_Action j ∈ ["publish"; "clear"])
  && bool_decide (j_State j ∈ ["pending"; "staged"; "promoted"]) && (0 <=? j_Attempts j).

Definition history_check (h : HistoryRow) : bool :=
  bool_decide (h_Kind h ∈ ["automatic"; "publish"; "restore"]).

(** ** Statements *)

Section statements.
Context `{Pg}.

Definition to_jsonb (text : string) : stmt string := expect invalid_text (jsonb text).

Definition has_document (id : string) (db : KDB) : bool := is_some (documents db !! id).

(** Another row, by [other], holds the value a unique index covers. *)
Definition slug_taken (id slug : string) (db : KDB) : bool :=
  exists_where (λ d, negb (d_ID d =?= id) && (sql_lower (d_Slug d) =?= sql_lower slug)) (documents db).

(** gorm's [Create] sends the declared [default] of a column in place of a
    zero value, and writes it into the struct too. *)
Definition default_float (f : float64) : float64 :=
  match f with S754_zero _ => float_fifty | _ => f end.

Definition default_text (d text : string) : string := if text =?= EmptyString then d else text.

Definition default_int (n : Z) : Z := if n =? 0 then 1 else n.

Definition document_defaults (d : DocumentRow) : DocumentRow :=
  d |> set_d_Language (default_text "zh-CN" (d_Language d))
    |> set_d_PublicationStatus (default_text PublicationDraft (d_PublicationStatus d))
    |> set_d_CoverFocalX (default_float (d_CoverFocalX d))
    |> set_d_CoverFocalY (default_float (d_CoverFocalY d))
    |> set_d_MetadataRevision (default_int (d_MetadataRevision d))
    |> set_d_PermissionRevision (default_int (d_PermissionRevision d)).

(** [Create] of a document: the struct as it leaves it is the row. *)
Definition insert_document (d : DocumentRow) : stmt DocumentRow :=
  let d := document_defaults d in
  db ← gets id;
  require (document_check d) check_violation ≫= λ _,
  require (negb (has_document (d_ID d) db)) unique_violation ≫= λ _,
  require (negb (slug_taken (d_ID d) (d_Slug d) db)) unique_violation ≫= λ _,
  modify (λ db, set_documents (<[d_ID d := d]> (documents db)) db) ≫= λ _,
  mret d.

(** [UPDATE knowledge.documents SET f WHERE id = i AND P] *)
Definition update_document (i : string) (P : DocumentRow → bool) (f : DocumentRow → DocumentRow)
  : stmt unit :=
  db ← gets id;
  match documents db !! i with
  | None => mret tt
  | Some d =>
    if P d then
      require (document_check (f d)) check_violation ≫= λ _,
      require (negb (slug_taken i (d_Slug (f d)) db)) unique_violation ≫= λ _,
      modify (λ db, set_documents (<[i := f d]> (documents db)) db)
    else mret tt
  end.

(** [DELETE FROM knowledge.documents WHERE id = i] with its cascades.  A slug
    alias that still names the document would be left with neither a document
    nor a tombstone, which its check constraint refuses. *)
Definition delete_document (i : string) : stmt unit :=
  db ← gets id;
  require (negb (exists_where (λ a, sa_DocumentID a =?= Some i) (slug_aliases db))) check_violation
  ≫= λ _,
  modify (λ db, db
    |> set_documents (delete i (documents db))
    |> set_members (delete_where (λ m, m_DocumentID m =?= i) (members db))
    |> set_projections (delete i (projections db))
    |> set_placements (delete_where (λ p, pl_DocumentID p =?= i) (placements db))
    |> set_document_tags (delete_where (λ t, dt_DocumentID t =?= i) (document_tags db))
    |> set_publications (delete i (publications db))
    |> set_media_refs (delete_where (λ r, mr_DocumentID r =?= i) (media_refs db))
    |> set_candidates (delete i (candidates db))
    |> set_commits (delete_where (λ c, c_DocumentID c =?= i) (commits db))
    |> set_history (delete_where (λ h, h_DocumentID h =?= i) (history db))
    |> set_activity (delete i (activity db))
    |> set_jobs (delete_where (λ j, j_DocumentID j =?= i) (jobs db))).

Definition insert_alias (a : SlugAliasRow) : stmt unit :=
  db ← gets id;
  require (alias_check a) check_violation ≫= λ _,
  require (negb (exists_where (λ b, sql_lower (sa_Slug b) =?= sql_lower (sa_Slug a)) (slug_aliases db)))
    unique_violation ≫= λ _,
  require (is_none (slug_aliases db !! sa_Slug a)) unique_violation ≫= λ _,
  require (match sa_DocumentID a with Some i => has_document i db | None => true end)
    foreign_key_violation ≫= λ _,
  modify (λ db, set_slug_aliases (<[sa_Slug a := a]> (slug_aliases db)) db).

(** [UPDATE knowledge.slug_aliases SET f WHERE P] *)
Definition update_aliases (P : SlugAliasRow → bool) (f : SlugAliasRow → SlugAliasRow) : stmt unit :=
  db ← gets id;
  require (negb (exists_where (λ a, P a && negb (alias_check (f a))) (slug_aliases db)))
    check_violation ≫= λ _,
  require (negb (exists_where
             (λ a, P a && match sa_DocumentID (f a) with
                          | Some i => negb (has_document i db) | None => false end)
             (slug_aliases db))) foreign_key_violation ≫= λ _,
  modify (λ db, set_slug_aliases (update_where P f (slug_aliases db)) db).

Definition insert_projection (p : ProjectionRow) : stmt unit :=
  content ← to_jsonb (pr_Content p);
  db ← gets id;
  require (0 <=? pr_Sequence p) check_violation ≫= λ _,
  require (is_none (projections db !! pr_DocumentID p)) unique_violation ≫= λ _,
  require (has_document (pr_DocumentID p) db) foreign_key_violation ≫= λ _,
  modify (λ db, set_projections
    (<[pr_DocumentID p := MkProjectionRow (pr_DocumentID p) (pr_Sequence p) content
                            (pr_PlainText p) (pr_ProjectedAt p)]> (projections db)) db).

(** [UPDATE knowledge.document_projections] of the row of one document *)
Definition update_projection (p : ProjectionRow) : stmt unit :=
  content ← to_jsonb (pr_Content p);
  require (0 <=? pr_Sequence p) check_violation ≫= λ _,
  modify (λ db, set_projections
    (alter (λ _, MkProjectionRow (pr_DocumentID p) (pr_Sequence p) content
                   (pr_PlainText p) (pr_ProjectedAt p)) (pr_DocumentID p) (projections db)) db).

Definition insert_member (m : MemberRow) : stmt unit :=
  db ← gets id;
  require (member_check m) check_violation ≫= λ _,
  require (is_none (members db !! (m_DocumentID m, m_UserID m))) unique_violation ≫= λ _,
  require (has_document (m_DocumentID m) db) foreign_key_violation ≫= λ _,
  modify (λ db, set_members (<[(m_DocumentID m, m_UserID m) := m]> (members db)) db).

Definition update_member (k : string * Z) (f : MemberRow → MemberRow) : stmt unit :=
  db ← gets id;
  match members db !! k with
  | None => mret tt
  | Some m => require (member_check (f m)) check_violation ≫= λ _,
              modify (λ db, set_members (<[k := f m]> (members db)) db)
  end.

(** The unique indexes of [knowledge.folders]: a name once per owner and
    parent, up to case. *)
Definition folder_clash (f g : FolderRow) : bool :=
  (f_OwnerID f =? f_OwnerID g) && (f_ParentID f =?= f_ParentID g)
  && (sql_lower (f_Name f) =?= sql_lower (f_Name g)).

Definition folders_unique (m : gmap string FolderRow) : bool :=
  forallb (λ f, negb (exists_where (λ g, negb (f_ID g =?= f_ID f) && folder_clash f g) m)) (rows m).

Definition insert_folder (f : FolderRow) : stmt unit :=
  db ← gets id;
  require (folder_check f) check_violation ≫= λ _,
  require (is_none (folders db !! f_ID f)) unique_violation ≫= λ _,
  require (negb (exists_where (folder_clash f) (folders db))) unique_violation ≫= λ _,
  require (match f_ParentID f with Some p => is_some (folders db !! p) | None => true end)
    foreign_key_violation ≫= λ _,
  modify (λ db, set_folders (<[f_ID f := f]> (folders db)) db).

(** [UPDATE knowledge.folders SET u WHERE P] *)
Definition update_folders (P : FolderRow → bool) (u : FolderRow → FolderRow) : stmt unit :=
  db ← gets id;
  let new := update_where P u (folders db) in
  require (negb (exists_where (λ f, P f && negb (folder_check (u f))) (folders db)))
    check_violation ≫= λ _,
  require (folders_unique new) unique_violation ≫= λ _,
  require (negb (exists_where (λ f, match f_ParentID f with
                                    | Some p => is_none (new !! p) | None => false end) new))
    foreign_key_violation ≫= λ _,
  modify (set_folders new).

(** The folders below [i]: one round of [WITH RECURSIVE] adds the children of
    the folders found so far. *)
Definition folder_children (P : FolderRow → bool) (m : gmap string FolderRow) (found : list string)
  : list string :=
  f_ID <$> rows_where (λ f, P f && opt_test (λ p, bool_decide (p ∈ found)) (f_ParentID f)) m.

Fixpoint folder_descendants (fuel : nat) (P : FolderRow → bool) (m : gmap string FolderRow)
  (found : list string) : list string :=
  match fuel with
  | O => found
  | S fuel' => found ++ folder_descendants fuel' P m (folder_children P m found)
  end.

(** [DELETE FROM knowledge.folders WHERE id = i]: the folders below go with it
    and placements in them lose their folder. *)
Definition delete_folder (i : string) : stmt unit :=
  modify (λ db,
    let gone := folder_descendants (size (folders db)) (λ _, true) (folders db) [i] in
    db
    |> set_folders (delete_where (λ f, bool_decide (f_ID f ∈ gone)) (folders db))
    |> set_placements (update_where (λ p, opt_test (λ f, bool_decide (f ∈ gone)) (pl_FolderID p))
                         (set_pl_FolderID None) (placements db))).

Definition insert_placement (p : PlacementRow) : stmt unit :=
  db ← gets id;
  require (is_none (placements db !! (pl_OwnerID p, pl_DocumentID p))) unique_violation ≫= λ _,
  require (has_document (pl_DocumentID p) db
           && match pl_FolderID p with Some f => is_some (folders db !! f) | None => true end)
    foreign_key_violation ≫= λ _,
  modify (λ db, set_placements (<[(pl_OwnerID p, pl_DocumentID p) := p]> (placements db)) db).

Definition update_placements (P : PlacementRow → bool) (u : PlacementRow → PlacementRow) : stmt unit :=
  db ← gets id;
  require (negb (exists_where
             (λ p, P p && match pl_FolderID (u p) with
                          | Some f => is_none (folders db !! f) | None => false end)
             (placements db))) foreign_key_violation ≫= λ _,
  modify (λ db, set_placements (update_where P u (placements db)) db).

Definition insert_tag (t : TagRow) : stmt unit :=
  db ← gets id;
  require (is_none (tags db !! t_ID t)) unique_violation ≫= λ _,
  require (negb (exists_where (λ u, (t_OwnerID u =? t_OwnerID t) && (t_Slug u =?= t_Slug t)) (tags db)))
    unique_violation ≫= λ _,
  modify (λ db, set_tags (<[t_ID t := t]> (tags db)) db).

Definition insert_document_tag (t : DocumentTagRow) : stmt unit :=
  db ← gets id;
  require (is_none (document_tags db !! (dt_DocumentID t, dt_TagID t))) unique_violation ≫= λ _,
  require (has_document (dt_DocumentID t) db && is_some (tags db !! dt_TagID t))
    foreign_key_violation ≫= λ _,
  modify (λ db, set_document_tags (<[(dt_DocumentID t, dt_TagID t) := t]> (document_tags db)) db).

(** A publication row with the texts its jsonb columns hold. *)
Definition with_json (p : PublicationRow) (tags content : string) : PublicationRow :=
  MkPublicationRow (pb_DocumentID p) (pb_Title p) (pb_Summary p) (pb_Slug p) (pb_Language p)
    tags (pb_OwnerID p) (pb_OwnerUsername p) (pb_OwnerAvatar p) content (pb_PlainText p)
    (pb_PublishedAt p) (pb_UpdatedAt p) (pb_PublicationHash p) (pb_Icon p)
    (pb_CoverAttachmentID p) (pb_CoverFocalX p) (pb_CoverFocalY p).

Definition publication_defaults (p : PublicationRow) : PublicationRow :=
  MkPublicationRow (pb_DocumentID p) (pb_Title p) (pb_Summary p) (pb_Slug p)
    (default_text "zh-CN" (pb_Language p)) (pb_Tags p) (pb_OwnerID p) (pb_OwnerUsername p)
    (pb_OwnerAvatar p) (pb_Content p) (pb_PlainText p) (pb_PublishedAt p) (pb_UpdatedAt p)
    (pb_PublicationHash p) (pb_Icon p) (pb_CoverAttachmentID p)
    (default_float (pb_CoverFocalX p)) (default_float (pb_CoverFocalY p)).

(** What [Save] writes of a publication: all columns as they are when the
    document has one, else an insert, with its defaults. *)
Definition saved_publication (db : KDB) (p : PublicationRow) : PublicationRow :=
  if is_some (publications db !! pb_DocumentID p) then p else publication_defaults p.

Lemma saved_publication_texts db p :
  pb_DocumentID (saved_publication db p) = pb_DocumentID p ∧
  pb_Tags (saved_publication db p) = pb_Tags p ∧ pb_Content (saved_publication db p) = pb_Content p.
Proof. unfold saved_publication. by destruct (is_some _). Qed.

(** [Save] of a publication: update the row of the document or insert it *)
Definition save_publication (p : PublicationRow) : stmt unit :=
  db ← gets id;
  let p := saved_publication db p in
  tags ← to_jsonb (pb_Tags p);
  content ← to_jsonb (pb_Content p);
  require (negb (exists_where (λ q, negb (pb_DocumentID q =?= pb_DocumentID p)
                                    && (sql_lower (pb_Slug q) =?= sql_lower (pb_Slug p)))
                   (publications db))) unique_violation ≫= λ _,
  require (has_document (pb_DocumentID p) db) foreign_key_violation ≫= λ _,
  modify (λ db, set_publications
    (<[pb_DocumentID p := with_json p tags content]> (publications db)) db).

(** [DELETE FROM knowledge.document_publications]: the media references of the
    publication go with it *)
Definition delete_publication (i : string) : stmt unit :=
  modify (λ db, db
    |> set_publications (delete i (publications db))
    |> set_media_refs (delete_where (λ r, mr_DocumentID r =?= i) (media_refs db))).

Definition candidate_defaults (c : CandidateRow) : CandidateRow :=
  MkCandidateRow (pc_DocumentID c) (pc_Generation c) (pc_Title c) (pc_Summary c) (pc_Slug c)
    (pc_Language c) (pc_Tags c) (pc_OwnerID c) (pc_OwnerUsername c) (pc_OwnerAvatar c)
    (pc_Content c) (pc_PlainText c) (pc_ContentSequence c) (pc_MediaIDs c) (pc_PublicationHash c)
    (pc_Icon c) (pc_CoverAttachmentID c) (default_float (pc_CoverFocalX c))
    (default_float (pc_CoverFocalY c)) (pc_CreatedAt c) (pc_UpdatedAt c).

Definition saved_candidate (db : KDB) (c : CandidateRow) : CandidateRow :=
  if is_some (candidates db !! pc_DocumentID c) then c else candidate_defaults c.

Lemma saved_candidate_same db c :
  let c' := saved_candidate db c in
  pc_DocumentID c' = pc_DocumentID c ∧ pc_Generation c' = pc_Generation c ∧
  pc_Title c' = pc_Title c ∧ pc_Summary c' = pc_Summary c ∧ pc_Slug c' = pc_Slug c ∧
  pc_Language c' = pc_Language c ∧ pc_Tags c' = pc_Tags c ∧
  pc_PlainText c' = pc_PlainText c ∧ pc_Content c' = pc_Content c ∧ pc_MediaIDs c' = pc_MediaIDs c.
Proof. unfold saved_candidate. by destruct (is_some _). Qed.

(** [Save] of a candidate: update the row of the document or insert it *)
Definition save_candidate (c : CandidateRow) : stmt unit :=
  db ← gets id;
  let c := saved_candidate db c in
  tags ← to_jsonb (pc_Tags c);
  content ← to_jsonb (pc_Content c);
  media ← to_jsonb (pc_MediaIDs c);
  require (0 <? pc_Generation c) check_violation ≫= λ _,
  require (negb (exists_where (λ q, negb (pc_DocumentID q =?= pc_DocumentID c)
                                    && (sql_lower (pc_Slug q) =?= sql_lower (pc_Slug c)))
                   (candidates db))) unique_violation ≫= λ _,
  require (has_document (pc_DocumentID c) db) foreign_key_violation ≫= λ _,
  modify (λ db, set_candidates
    (<[pc_DocumentID c :=
       MkCandidateRow (pc_DocumentID c) (pc_Generation c) (pc_Title c) (pc_Summary c) (pc_Slug c)
         (pc_Language c) tags (pc_OwnerID c) (pc_OwnerUsername c) (pc_OwnerAvatar c) content
         (pc_PlainText c) (pc_ContentSequence c) media (pc_PublicationHash c) (pc_Icon c)
         (pc_CoverAttachmentID c) (pc_CoverFocalX c) (pc_CoverFocalY c) (pc_CreatedAt c)
         (pc_UpdatedAt c)]> (candidates db)) db).

Definition delete_candidate (i : string) : stmt unit :=
  modify (λ db, set_candidates (delete i (candidates db)) db).

Definition insert_commit (c : CommitRow) : stmt unit :=
  content ← to_jsonb (c_Content c);
  db ← gets id;
  require (is_none (commits db !! c_ID c)) unique_violation ≫= λ _,
  require (has_document (c_DocumentID c) db) foreign_key_violation ≫= λ _,
  modify (λ db, set_commits
    (<[c_ID c := MkCommitRow (c_ID c) (c_DocumentID c) (c_Kind c) (c_Label c) (c_Description c)
                   (c_ContributorID c) (c_ContributorName c) (c_Sequence c) (c_ContentHash c) content
                   (c_PlainText c) (c_IsAnchor c) (c_CreatedAt c) (c_UpdatedAt c)]> (commits db)) db).

Definition insert_history (h : HistoryRow) : stmt unit :=
  content ← to_jsonb (h_Content h);
  metadata ← to_jsonb (h_Metadata h);
  contributors ← to_jsonb (h_Contributors h);
  diff ← to_jsonb (h_BlockDiff h);
  db ← gets id;
  require (history_check h) check_violation ≫= λ _,
  require (is_none (history db !! h_ID h)) unique_violation ≫= λ _,
  require (negb (exists_where (λ g, (h_DocumentID g =?= h_DocumentID h)
                                    && (h_SemanticHash g =?= h_SemanticHash h)) (history db)))
    unique_violation ≫= λ _,
  require (has_document (h_DocumentID h) db) foreign_key_violation ≫= λ _,
  modify (λ db, set_history
    (<[h_ID h := MkHistoryRow (h_ID h) (h_DocumentID h) (h_Kind h) (h_Sequence h)
                   (h_MetadataRevision h) (h_SemanticHash h) content (h_PlainText h) metadata
                   contributors diff (h_IsAnchor h) (h_CreatedAt h)]> (history db)) db).

Definition insert_media_ref (r : MediaRefRow) : stmt unit :=
  db ← gets id;
  require (0 <? mr_Generation r) check_violation ≫= λ _,
  require (is_none (media_refs db !! (mr_DocumentID r, mr_AttachmentID r))) unique_violation ≫= λ _,
  require (is_some (publications db !! mr_DocumentID r)) foreign_key_violation ≫= λ _,
  modify (λ db, set_media_refs (<[(mr_DocumentID r, mr_AttachmentID r) := r]> (media_refs db)) db).

Definition insert_job (j : JobRow) : stmt unit :=
  ids ← to_jsonb (j_AttachmentIDs j);
  headers ← to_jsonb (j_TraceHeaders j);
  db ← gets id;
  require (job_check j) check_violation ≫= λ _,
  require (is_none (jobs db !! j_ID j)) unique_violation ≫= λ _,
  require (negb (exists_where (λ k, (j_DocumentID k =?= j_DocumentID j)
                                    && (j_Generation k =? j_Generation j)) (jobs db)))
    unique_violation ≫= λ _,
  require (has_document (j_DocumentID j) db) foreign_key_violation ≫= λ _,
  modify (λ db, set_jobs
    (<[j_ID j := MkJobRow (j_ID j) (j_DocumentID j) (j_OwnerID j) (j_Generation j) (j_Action j) ids
                   (j_State j) (j_Attempts j) (j_NextAttemptAt j) (j_LeaseUntil j) (j_ParkedAt j)
                   (j_LastErrorKey j) headers (j_CreatedAt j) (j_UpdatedAt j)]> (jobs db)) db).

Definition update_jobs (P : JobRow → bool) (f : JobRow → JobRow) : stmt Z :=
  db ← gets id;
  require (negb (exists_where (λ j, P j && negb (job_check (f j))) (jobs db))) check_violation ≫= λ _,
  modify (λ db, set_jobs (update_where P f (jobs db)) db) ≫= λ _,
  mret (count_where P (jobs db)).

Definition delete_jobs (P : JobRow → bool) : stmt unit :=
  modify (λ db, set_jobs (delete_where P (jobs db)) db).

Definition insert_outbox (o : OutboxRow) : stmt unit :=
  payload ← to_jsonb (o_Payload o);
  headers ← to_jsonb (o_TraceHeaders o);
  db ← gets id;
  require (0 <=? o_Attempts o) check_violation ≫= λ _,
  require (is_none (outbox db !! o_ID o)) unique_violation ≫= λ _,
  modify (λ db, set_outbox
    (<[o_ID o := MkOutboxRow (o_ID o) (o_Subject o) payload headers (o_Attempts o) (o_NextAttemptAt o)
                   (o_LastErrorKey o) (o_ParkedAt o) (o_PublishedAt o) (o_CreatedAt o)]> (outbox db)) db).

(** [UPDATE knowledge.outbox SET f WHERE P], with the number of rows *)
Definition update_outbox (P : OutboxRow → bool) (f : OutboxRow → OutboxRow) : stmt Z :=
  db ← gets id;
  require (negb (exists_where (λ o, P o && (o_Attempts (f o) <? 0)) (outbox db))) check_violation ≫= λ _,
  modify (λ db, set_outbox (update_where P f (outbox db)) db) ≫= λ _,
  mret (count_where P (outbox db)).

Definition insert_idempotency (k : IdempotencyRow) : stmt unit :=
  db ← gets id;
  let key := (ik_ActorID k, ik_Operation k, ik_Key k) in
  require (is_none (idempotency_keys db !! key)) unique_violation ≫= λ _,
  modify (λ db, set_idempotency_keys (<[key := k]> (idempotency_keys db)) db).

(** The columns of [knowledge.history_activity] as the migrations create it. *)
Definition history_activity_columns : list string :=
  ["document_id"; "first_dirty_at"; "last_dirty_at"; "last_checkpoint_at"; "contributors"; "updated_at"].

(** The columns gorm names for the fields of [model.HistoryActivity]. *)
Definition HistoryActivity_columns : list string :=
  ["document_id"; "first_dirty_at"; "last_dirty_at"; "last_checkpoint"; "contributors"; "updated_at"].

(** [INSERT INTO knowledge.history_activity ... ON CONFLICT (document_id) DO
    UPDATE SET last_dirty_at, updated_at].  The insert names every column of
    the model, and the server refuses a statement that names one the table
    does not have. *)
Definition upsert_activity (a : ActivityRow) : stmt unit :=
  require (bool_decide (HistoryActivity_columns ⊆ history_activity_columns)) undefined_column ≫= λ _,
  contributors ← to_jsonb (a_Contributors a);
  db ← gets id;
  require (has_document (a_DocumentID a) db) foreign_key_violation ≫= λ _,
  let row := match activity db !! a_DocumentID a with
             | Some old => old |> set_a_LastDirtyAt (a_LastDirtyAt a) |> set_a_UpdatedAt (a_UpdatedAt a)
             | None => MkActivityRow (a_DocumentID a) (a_FirstDirtyAt a) (a_LastDirtyAt a)
                         (a_LastCheckpoint a) contributors (a_UpdatedAt a)
             end in
  modify (λ db, set_activity (<[a_DocumentID a := row]> (activity db)) db).

End statements.
