(* ===== verification/KTypes.v ===== *)
(** The values the Knowledge service passes around: the structs of
    [internal/domain/document.go] and [internal/repository/store.go].  [v_x] is
    the field [x] of a document, [set_v_x] its assignment; the other records
    follow the same scheme. *)

From stdpp Require Import base list strings.
From Stdlib Require Import ZArith.
From S2P Require Import Prelude.
From S2P Require Import KDomain.
From S2P Require Import RichText.
From S2P Require Import Json.

(** [domain.Document]: what the service returns for a document *)
Record Document := MkDoc {
  v_ID : string;
  v_Title : string;
  v_Summary : string;
  v_Slug : string;
  v_Language : string;
  v_Tags : list string;
  v_FolderID : option string;
  v_Owner : PublicUser;
  v_Access : string;
  v_Published : bool;
  v_PublicationStatus : string;
  v_PublicationError : option string;
  v_PublicationGeneration : Z;
  v_PublicationHash : string;
  v_ActivePublicationHash : string;
  v_Icon : string;
  v_CoverAttachmentID : option string;
  v_CoverFocalX : float64;
  v_CoverFocalY : float64;
  v_MetadataRevision : Z;
  v_ContentRevision : Z;
  v_PermissionRevision : Z;
  v_PublishedAt : option Z;
  v_DeletedAt : option Z;
  v_PurgeAfter : option Z;
  v_ProjectedAt : option Z;
  v_CreatedAt : Z;
  v_UpdatedAt : Z;
}.

#[export] Instance Document_eq_dec : EqDecision Document.
Proof. solve_decision. Defined.

Definition set_v_Title (v : string) (r : Document) : Document :=
  MkDoc
    (v_ID r) v (v_Summary r) (v_Slug r) (v_Language r) (v_Tags r) (v_FolderID r) (v_Owner r)
    (v_Access r) (v_Published r) (v_PublicationStatus r) (v_PublicationError r)
    (v_PublicationGeneration r) (v_PublicationHash r) (v_ActivePublicationHash r) (v_Icon r)
    (v_CoverAttachmentID r) (v_CoverFocalX r) (v_CoverFocalY r) (v_MetadataRevision r)
    (v_ContentRevision r) (v_PermissionRevision r) (v_PublishedAt r) (v_DeletedAt r)
    (v_PurgeAfter r) (v_ProjectedAt r) (v_CreatedAt r) (v_UpdatedAt r).

Definition set_v_Summary (v : string) (r : Document) : Document :=
  MkDoc
    (v_ID r) (v_Title r) v (v_Slug r) (v_Language r) (v_Tags r) (v_FolderID r) (v_Owner r)
    (v_Access r) (v_Published r) (v_PublicationStatus r) (v_PublicationError r)
    (v_PublicationGeneration r) (v_PublicationHash r) (v_ActivePublicationHash r) (v_Icon r)
    (v_CoverAttachmentID r) (v_CoverFocalX r) (v_CoverFocalY r) (v_MetadataRevision r)
    (v_ContentRevision r) (v_PermissionRevision r) (v_PublishedAt r) (v_DeletedAt r)
    (v_PurgeAfter r) (v_ProjectedAt r) (v_CreatedAt r) (v_UpdatedAt r).

Definition set_v_Slug (v : string) (r : Document) : Document :=
  MkDoc
    (v_ID r) (v_Title r) (v_Summary r) v (v_Language r) (v_Tags r) (v_FolderID r) (v_Owner
    r) (v_Access r) (v_Published r) (v_PublicationStatus r) (v_PublicationError r)
    (v_PublicationGeneration r) (v_PublicationHash r) (v_ActivePublicationHash r) (v_Icon r)
    (v_CoverAttachmentID r) (v_CoverFocalX r) (v_CoverFocalY r) (v_MetadataRevision r)
    (v_ContentRevision r) (v_PermissionRevision r) (v_PublishedAt r) (v_DeletedAt r)
    (v_PurgeAfter r) (v_ProjectedAt r) (v_CreatedAt r) (v_UpdatedAt r).

Definition set_v_Language (v : string) (r : Document) : Document :=
  MkDoc
    (v_ID r) (v_Title r) (v_Summary r) (v_Slug r) v (v_Tags r) (v_FolderID r) (v_Owner r)
    (v_Access r) (v_Published r) (v_PublicationStatus r) (v_PublicationError r)
    (v_PublicationGeneration r) (v_PublicationHash r) (v_ActivePublicationHash r) (v_Icon r)
    (v_CoverAttachmentID r) (v_CoverFocalX r) (v_CoverFocalY r) (v_MetadataRevision r)
    (v_ContentRevision r) (v_PermissionRevision r) (v_PublishedAt r) (v_DeletedAt r)
    (v_PurgeAfter r) (v_ProjectedAt r) (v_CreatedAt r) (v_UpdatedAt r).

Definition set_v_Tags (v : list string) (r : Document) : Document :=
  MkDoc
    (v_ID r) (v_Title r) (v_Summary r) (v_Slug r) (v_Language r) v (v_FolderID r) (v_Owner
    r) (v_Access r) (v_Published r) (v_PublicationStatus r) (v_PublicationError r)
    (v_PublicationGeneration r) (v_PublicationHash r) (v_ActivePublicationHash r) (v_Icon r)
    (v_CoverAttachmentID r) (v_CoverFocalX r) (v_CoverFocalY r) (v_MetadataRevision r)
    (v_ContentRevision r) (v_PermissionRevision r) (v_PublishedAt r) (v_DeletedAt r)
    (v_PurgeAfter r) (v_ProjectedAt r) (v_CreatedAt r) (v_UpdatedAt r).

Definition set_v_FolderID (v : option string) (r : Document) : Document :=
  MkDoc
    (v_ID r) (v_Title r) (v_Summary r) (v_Slug r) (v_Language r) (v_Tags r) v (v_Owner r)
    (v_Access r) (v_Published r) (v_PublicationStatus r) (v_PublicationError r)
    (v_PublicationGeneration r) (v_PublicationHash r) (v_ActivePublicationHash r) (v_Icon r)
    (v_CoverAttachmentID r) (v_CoverFocalX r) (v_CoverFocalY r) (v_MetadataRevision r)
    (v_ContentRevision r) (v_PermissionRevision r) (v_PublishedAt r) (v_DeletedAt r)
    (v_PurgeAfter r) (v_ProjectedAt r) (v_CreatedAt r) (v_UpdatedAt r).

Definition set_v_Published (v : bool) (r : Document) : Document :=
  MkDoc
    (v_ID r) (v_Title r) (v_Summary r) (v_Slug r) (v_Language r) (v_Tags r) (v_FolderID r)
    (v_Owner r) (v_Access r) v (v_PublicationStatus r) (v_PublicationError r)
    (v_PublicationGeneration r) (v_PublicationHash r) (v_ActivePublicationHash r) (v_Icon r)
    (v_CoverAttachmentID r) (v_CoverFocalX r) (v_CoverFocalY r) (v_MetadataRevision r)
    (v_ContentRevision r) (v_PermissionRevision r) (v_PublishedAt r) (v_DeletedAt r)
    (v_PurgeAfter r) (v_ProjectedAt r) (v_CreatedAt r) (v_UpdatedAt r).

Definition set_v_PublicationHash (v : string) (r : Document) : Document :=
  MkDoc
    (v_ID r) (v_Title r) (v_Summary r) (v_Slug r) (v_Language r) (v_Tags r) (v_FolderID r)
    (v_Owner r) (v_Access r) (v_Published r) (v_PublicationStatus r) (v_PublicationError r)
    (v_PublicationGeneration r) v (v_ActivePublicationHash r) (v_Icon r)
    (v_CoverAttachmentID r) (v_CoverFocalX r) (v_CoverFocalY r) (v_MetadataRevision r)
    (v_ContentRevision r) (v_PermissionRevision r) (v_PublishedAt r) (v_DeletedAt r)
    (v_PurgeAfter r) (v_ProjectedAt r) (v_CreatedAt r) (v_UpdatedAt r).

Definition set_v_ActivePublicationHash (v : string) (r : Document) : Document :=
  MkDoc
    (v_ID r) (v_Title r) (v_Summary r) (v_Slug r) (v_Language r) (v_Tags r) (v_FolderID r)
    (v_Owner r) (v_Access r) (v_Published r) (v_PublicationStatus r) (v_PublicationError r)
    (v_PublicationGeneration r) (v_PublicationHash r) v (v_Icon r) (v_CoverAttachmentID r)
    (v_CoverFocalX r) (v_CoverFocalY r) (v_MetadataRevision r) (v_ContentRevision r)
    (v_PermissionRevision r) (v_PublishedAt r) (v_DeletedAt r) (v_PurgeAfter r)
    (v_ProjectedAt r) (v_CreatedAt r) (v_UpdatedAt r).

Definition set_v_Icon (v : string) (r : Document) : Document :=
  MkDoc
    (v_ID r) (v_Title r) (v_Summary r) (v_Slug r) (v_Language r) (v_Tags r) (v_FolderID r)
    (v_Owner r) (v_Access r) (v_Published r) (v_PublicationStatus r) (v_PublicationError r)
    (v_PublicationGeneration r) (v_PublicationHash r) (v_ActivePublicationHash r) v
    (v_CoverAttachmentID r) (v_CoverFocalX r) (v_CoverFocalY r) (v_MetadataRevision r)
    (v_ContentRevision r) (v_PermissionRevision r) (v_PublishedAt r) (v_DeletedAt r)
    (v_PurgeAfter r) (v_ProjectedAt r) (v_CreatedAt r) (v_UpdatedAt r).

Definition set_v_CoverAttachmentID (v : option string) (r : Document) : Document :=
  MkDoc
    (v_ID r) (v_Title r) (v_Summary r) (v_Slug r) (v_Language r) (v_Tags r) (v_FolderID r)
    (v_Owner r) (v_Access r) (v_Published r) (v_PublicationStatus r) (v_PublicationError r)
    (v_PublicationGeneration r) (v_PublicationHash r) (v_ActivePublicationHash r) (v_Icon r)
    v (v_CoverFocalX r) (v_CoverFocalY r) (v_MetadataRevision r) (v_ContentRevision r)
    (v_PermissionRevision r) (v_PublishedAt r) (v_DeletedAt r) (v_PurgeAfter r)
    (v_ProjectedAt r) (v_CreatedAt r) (v_UpdatedAt r).

Definition set_v_CoverFocalX (v : float64) (r : Document) : Document :=
  MkDoc
    (v_ID r) (v_Title r) (v_Summary r) (v_Slug r) (v_Language r) (v_Tags r) (v_FolderID r)
    (v_Owner r) (v_Access r) (v_Published r) (v_PublicationStatus r) (v_PublicationError r)
    (v_PublicationGeneration r) (v_PublicationHash r) (v_ActivePublicationHash r) (v_Icon r)
    (v_CoverAttachmentID r) v (v_CoverFocalY r) (v_MetadataRevision r) (v_ContentRevision r)
    (v_PermissionRevision r) (v_PublishedAt r) (v_DeletedAt r) (v_PurgeAfter r)
    (v_ProjectedAt r) (v_CreatedAt r) (v_UpdatedAt r).

Definition set_v_CoverFocalY (v : float64) (r : Document) : Document :=
  MkDoc
    (v_ID r) (v_Title r) (v_Summary r) (v_Slug r) (v_Language r) (v_Tags r) (v_FolderID r)
    (v_Owner r) (v_Access r) (v_Published r) (v_PublicationStatus r) (v_PublicationError r)
    (v_PublicationGeneration r) (v_PublicationHash r) (v_ActivePublicationHash r) (v_Icon r)
    (v_CoverAttachmentID r) (v_CoverFocalX r) v (v_MetadataRevision r) (v_ContentRevision r)
    (v_PermissionRevision r) (v_PublishedAt r) (v_DeletedAt r) (v_PurgeAfter r)
    (v_ProjectedAt r) (v_CreatedAt r) (v_UpdatedAt r).

Definition set_v_PublishedAt (v : option Z) (r : Document) : Document :=
  MkDoc
    (v_ID r) (v_Title r) (v_Summary r) (v_Slug r) (v_Language r) (v_Tags r) (v_FolderID r)
    (v_Owner r) (v_Access r) (v_Published r) (v_PublicationStatus r) (v_PublicationError r)
    (v_PublicationGeneration r) (v_PublicationHash r) (v_ActivePublicationHash r) (v_Icon r)
    (v_CoverAttachmentID r) (v_CoverFocalX r) (v_CoverFocalY r) (v_MetadataRevision r)
    (v_ContentRevision r) (v_PermissionRevision r) v (v_DeletedAt r) (v_PurgeAfter r)
    (v_ProjectedAt r) (v_CreatedAt r) (v_UpdatedAt r).

(** [domain.Commit] *)
Record Commit := MkCommit {
  cv_ID : string;
  cv_DocumentID : string;
  cv_Kind : string;
  cv_Label : string;
  cv_Description : string;
  cv_Contributor : string;
  cv_Sequence : Z;
  cv_ContentHash : string;
  cv_Content : RichTextDocument;
  cv_PlainText : string;
  cv_CreatedAt : Z;
  cv_UpdatedAt : Z;
}.

#[export] Instance Commit_eq_dec : EqDecision Commit.
Proof. solve_decision. Defined.

(** [domain.Folder] *)
Record Folder := MkFolder {
  fv_ID : string;
  fv_ParentID : option string;
  fv_Name : string;
  fv_Depth : Z;
  fv_Revision : Z;
  fv_CreatedAt : Z;
  fv_UpdatedAt : Z;
}.

#[export] Instance Folder_eq_dec : EqDecision Folder.
Proof. solve_decision. Defined.

(** [domain.Projection] *)
Record Projection := MkProjection {
  pv_DocumentID : string;
  pv_Sequence : Z;
  pv_Content : string;
  pv_PlainText : string;
  pv_ProjectedAt : Z;
}.

#[export] Instance Projection_eq_dec : EqDecision Projection.
Proof. solve_decision. Defined.

(** [domain.Member] *)
Record Member := MkMember {
  mv_DocumentID : string;
  mv_User : PublicUser;
  mv_Role : string;
  mv_Revision : Z;
  mv_CreatedAt : Z;
  mv_UpdatedAt : Z;
}.

#[export] Instance Member_eq_dec : EqDecision Member.
Proof. solve_decision. Defined.

(** [domain.PublicationReferenceJob]: a claimed job *)
Record Job := MkJob {
  jv_ID : string;
  jv_DocumentID : string;
  jv_OwnerID : Z;
  jv_Generation : Z;
  jv_Action : string;
  jv_AttachmentIDs : list string;
  jv_State : string;
  jv_Attempts : Z;
  jv_Headers : list (string * string);
}.

#[export] Instance Job_eq_dec : EqDecision Job.
Proof. solve_decision. Defined.

Definition set_jv_State (v : string) (r : Job) : Job :=
  MkJob
    (jv_ID r) (jv_DocumentID r) (jv_OwnerID r) (jv_Generation r) (jv_Action r)
    (jv_AttachmentIDs r) v (jv_Attempts r) (jv_Headers r).

(** [domain.OutboxMessage]: a claimed message *)
Record OutboxMessage := MkOutboxMessage {
  ov_ID : string;
  ov_Subject : string;
  ov_Payload : string;
  ov_Headers : list (string * string);
  ov_Attempts : Z;
}.

#[export] Instance OutboxMessage_eq_dec : EqDecision OutboxMessage.
Proof. solve_decision. Defined.

(** [repository.Cursor]: the position after the last row of a page *)
Record Cursor := MkCursor {
  cu_Version : Z;
  cu_Time : Z;
  cu_ID : string;
}.

#[export] Instance Cursor_eq_dec : EqDecision Cursor.
Proof. solve_decision. Defined.

Definition set_cu_Version (v : Z) (r : Cursor) : Cursor :=
  MkCursor
    v (cu_Time r) (cu_ID r).

(** [repository.Idempotency] *)
Record Idempotency := MkIdempotency {
  id_ActorID : Z;
  id_Operation : string;
  id_Key : string;
  id_RequestHash : string;
}.

#[export] Instance Idempotency_eq_dec : EqDecision Idempotency.
Proof. solve_decision. Defined.

(** [repository.ListOptions] *)
Record ListOptions := MkListOptions {
  lo_ActorID : Z;
  lo_Query : string;
  lo_Cursor : option Cursor;
  lo_Limit : Z;
  lo_Access : string;
  lo_Publication : string;
  lo_FolderID : string;
  lo_Published : bool;
  lo_Deleted : bool;
}.

#[export] Instance ListOptions_eq_dec : EqDecision ListOptions.
Proof. solve_decision. Defined.

(** [repository.PublicationSnapshotInput] *)
Record PublicationSnapshotInput := MkPublicationSnapshotInput {
  in_Title : string;
  in_Summary : string;
  in_Slug : string;
  in_Language : string;
  in_Tags : option (list string);
  in_Content : RichTextDocument;
  in_PlainText : string;
  in_ContentSequence : Z;
  in_PublicationHash : string;
  in_Icon : string;
  in_CoverAttachmentID : option string;
  in_CoverFocalX : float64;
  in_CoverFocalY : float64;
  in_MediaIDs : list string;
  in_Idempotency : Idempotency;
}.

#[export] Instance PublicationSnapshotInput_eq_dec : EqDecision PublicationSnapshotInput.
Proof. solve_decision. Defined.

(** [repository.HistoryCheckpoint] *)
Record HistoryCheckpoint := MkHistoryCheckpoint {
  hc_ID : string;
  hc_DocumentID : string;
  hc_Kind : string;
  hc_Sequence : Z;
  hc_MetadataRevision : Z;
  hc_SemanticHash : string;
  hc_Content : string;
  hc_PlainText : string;
  hc_Metadata : string;
  hc_Contributors : string;
  hc_BlockDiff : string;
  hc_IsAnchor : bool;
  hc_CreatedAt : Z;
}.

#[export] Instance HistoryCheckpoint_eq_dec : EqDecision HistoryCheckpoint.
Proof. solve_decision. Defined.
