(* ===== verification/KStore.v ===== *)
(** The Knowledge store, common part: [internal/repository/store.go],
    [mapping.go], [idempotency.go], [notify.go], [publication_hash.go] and
    [outbox.go]'s event producer.

    An operation of [*Store] is a [store] computation over [KDB]: it returns a
    value or a [kerror] and keeps its writes; [transaction] undoes them on an
    error.  [Ctx] is what an operation reads of its environment: the clock,
    read once per operation, and the trace headers of the request context. *)

From stdpp Require Import base gmap list sets strings.
From Stdlib Require Import ZArith Lia.
From S2P Require Import Prelude.
From S2P Require Import GoStrings.
From S2P Require Import KDomain.
From S2P Require Import RichText.
From S2P Require Import Json.
From S2P Require Import KSchema.
From S2P Require Import KTypes.

Open Scope Z_scope.

Record Ctx := MkCtx { now : Z; propagation : list (string * string) }.

Definition store (A : Type) : Type := tx KDB kerror A.

(** ** Errors *)

Definition mapNotFound (operation : string) (e : db_error) : kerror :=
  match e with RecordNotFound => ErrNotFound | _ => EOther operation end.

Definition mapWriteError (operation : string) (e : db_error) : kerror :=
  match e with
  | PgError code =>
    if (code =?= "23505") || (code =?= "23503") || (code =?= "23514") then ErrConflict
    else EOther operation
  | _ => EOther operation
  end.

(** [fmt.Errorf("operation: %w", err)] on an error of the database *)
Definition sql {A} (operation : string) (m : stmt A) : store A := wrap (λ _, EOther operation) m.

Definition sql_write {A} (operation : string) (m : stmt A) : store A :=
  wrap (mapWriteError operation) m.

(** [First(&record)] with [mapNotFound] *)
Definition first {A} (f : KDB → option A) : store A :=
  db ← gets id; expect ErrNotFound (f db).

(** ** Identifiers and notifications *)

(** [domain.NewID] *)
Definition NewID : store string :=
  db ← gets id;
  match new_ids db with
  | [] => fail (EOther "generate UUIDv7")
  | i :: rest => modify (set_new_ids rest) ≫= λ _, mret i
  end.

Definition WorkerWakePayloadOutbox := "outbox".
Definition WorkerWakePayloadPublication := "publication".

Definition notifyWorkers (payload : string) : store unit :=
  if (payload =?= WorkerWakePayloadOutbox) || (payload =?= WorkerWakePayloadPublication)
  then modify (λ db, set_notifications (notifications db ++ [payload]) db)
  else fail (EOther "notify knowledge workers").

(** ** Mapping *)

Definition documentToModel (v : Document) : DocumentRow :=
  MkDocumentRow (v_ID v) (v_Title v) (v_Summary v) (v_Slug v) (v_Language v)
    (pu_ID (v_Owner v)) (pu_Username (v_Owner v)) (pu_Avatar (v_Owner v))
    (v_PublicationStatus v) (v_PublicationError v) (v_PublicationGeneration v)
    (v_PublicationHash v) (v_Icon v) (v_CoverAttachmentID v) (v_CoverFocalX v) (v_CoverFocalY v)
    (v_MetadataRevision v) (v_ContentRevision v) (v_PermissionRevision v)
    (v_PublishedAt v) (v_DeletedAt v) (v_PurgeAfter v) (v_CreatedAt v) (v_UpdatedAt v).

Definition documentFromModel (d : DocumentRow) (access : string) (p : ProjectionRow) : Document :=
  MkDoc (d_ID d) (d_Title d) (d_Summary d) (d_Slug d) (d_Language d) [] None
    (MkPublicUser (d_OwnerID d) (d_OwnerUsername d) (d_OwnerAvatar d)) access
    (d_PublicationStatus d =?= PublicationPublished) (d_PublicationStatus d)
    (d_PublicationError d) (d_PublicationGeneration d) (d_PublicationHash d) EmptyString
    (d_Icon d) (d_CoverAttachmentID d) (d_CoverFocalX d) (d_CoverFocalY d)
    (d_MetadataRevision d) (d_ContentRevision d) (d_PermissionRevision d)
    (d_PublishedAt d) (d_DeletedAt d) (d_PurgeAfter d)
    (if pr_ProjectedAt p =? zero_time then None else Some (pr_ProjectedAt p))
    (d_CreatedAt d) (d_UpdatedAt d).

Definition projectionFromModel (p : ProjectionRow) : Projection :=
  MkProjection (pr_DocumentID p) (pr_Sequence p) (pr_Content p) (pr_PlainText p) (pr_ProjectedAt p).

Definition memberFromModel (m : MemberRow) : Member :=
  MkMember (m_DocumentID m) (MkPublicUser (m_UserID m) (m_Username m) (m_Avatar m))
    (m_Role m) (m_Revision m) (m_CreatedAt m) (m_UpdatedAt m).

Section common.
Context `{Unicode, Uuid, Codec, Pg}.

(** [jsoncodec.Marshal] and [Unmarshal] inside an operation *)
Definition marshal (operation : string) (v : json) : store string :=
  expect (EOther operation) (json_encode v).

Definition unmarshal (operation text : string) : store json :=
  expect (EOther operation) (json_decode text).

Definition unmarshal_strings (operation text : string) : store (list string) :=
  expect (EOther operation) (json_decode text ≫= string_slice).

(** [jsoncodec.Unmarshal] into a nil slice of strings *)
Definition unmarshal_slice (operation text : string) : store (option (list string)) :=
  expect (EOther operation) (json_decode text ≫= slice_of).

(** ** Idempotency *)

(** The resource an idempotency key already names, if any.  An expired key is
    dropped. *)
Definition idempotentResource (ctx : Ctx) (value : Idempotency) : store (option string) :=
  if id_Key value =?= EmptyString then mret None
  else
    db ← gets id;
    let key := (id_ActorID value, id_Operation value, id_Key value) in
    match idempotency_keys db !! key with
    | None => mret None
    | Some record =>
      if negb (after (ik_ExpiresAt record) (now ctx)) then
        modify (λ db, set_idempotency_keys (delete key (idempotency_keys db)) db) ≫= λ _,
        mret None
      else if negb (ik_RequestHash record =?= id_RequestHash value) then fail ErrConflict
      else mret (Some (ik_ResourceID record))
    end.

Definition saveIdempotency (ctx : Ctx) (value : Idempotency) (resourceID : string) : store unit :=
  if id_Key value =?= EmptyString then mret tt
  else sql_write "save idempotency key"
         (insert_idempotency
            (MkIdempotencyRow (id_ActorID value) (id_Operation value) (id_Key value) resourceID
               (id_RequestHash value) (now ctx + 24 * Hour) (now ctx))).

(** ** Access *)

Definition accessFor (db : KDB) (document : DocumentRow) (actorID : Z) : string :=
  if actorID <=? 0 then AccessNone
  else if d_OwnerID document =? actorID then AccessOwner
  else match members db !! (d_ID document, actorID) with
       | Some member => m_Role member
       | None => AccessNone
       end.

(** The document row visible to a query that may exclude the trash. *)
Definition visible_document (i : string) (includeDeleted : bool) (db : KDB) : option DocumentRow :=
  documents db !! i ≫= λ d,
  if includeDeleted || is_none (d_DeletedAt d) then Some d else None.

Definition lockDocument (i : string) (actorID : Z) (includeDeleted : bool)
  : store (DocumentRow * string) :=
  record ← first (visible_document i includeDeleted);
  access ← gets (λ db, accessFor db record actorID);
  mret (record, access).

Definition getProjection (i : string) : store ProjectionRow := first (λ db, projections db !! i).

(** ** Publication hash *)

Definition newline : Z := 10.

Fixpoint first_line (lines : list string) : string :=
  match lines with
  | [] => EmptyString
  | line :: rest =>
    let value := TrimSpace line in
    if value =?= EmptyString then first_line rest
    else let rs := runes value in
         if 1000 <? Z.of_nat (length rs) then of_runes (take 1000 rs) else value
  end.

Definition publicationSummary (summary plainText : string) : string :=
  let value := TrimSpace summary in
  if value =?= EmptyString then first_line (SplitByte plainText newline) else value.

Definition publicationTags (value : string) : list string :=
  if value =?= EmptyString then [] else default [] (json_decode value ≫= string_slice).

(** [publicationTags] as the encoder writes it: a nil slice is [null]. *)
Definition tags_json (value : string) : json :=
  if value =?= EmptyString then JNull
  else match json_decode value with
       | Some (JArr items) => match strings_of items with Some l => JStrings l | None => JNull end
       | _ => JNull
       end.

Definition publicationHashForSnapshot (p : PublicationRow) : option string :=
  content ← json_decode (pb_Content p);
  contentPayload ← json_encode (JArr [stripHistoryBlockIDs content; JStr (pb_PlainText p)]);
  payload ← json_encode (JObj [
    ("title", JStr (pb_Title p));
    ("summary", JStr (publicationSummary (pb_Summary p) (pb_PlainText p)));
    ("slug", JStr (pb_Slug p));
    ("language", JStr (pb_Language p));
    ("tags", tags_json (pb_Tags p));
    ("content_hash", JStr (sha256_hex contentPayload));
    ("icon", JStr (pb_Icon p));
    ("cover_attachment_id", JStr (default EmptyString (pb_CoverAttachmentID p)));
    ("cover_focal_x", JFloat (pb_CoverFocalX p));
    ("cover_focal_y", JFloat (pb_CoverFocalY p))]);
  Some (sha256_hex payload).

(** ** Reading documents *)

(** The names of a document's tags, in order. *)
Definition tag_names (db : KDB) (i : string) : list string :=
  order_by text_compare
    (t_Name <$> omap (λ t, tags db !! dt_TagID t)
                  (rows_where (λ t, dt_DocumentID t =?= i) (document_tags db))).

Definition loadDocumentStructure (db : KDB) (v : Document) : Document :=
  let v := match placements db !! (pu_ID (v_Owner v), v_ID v) with
           | Some placement => set_v_FolderID (pl_FolderID placement) v
           | None => v
           end in
  set_v_Tags (tag_names db (v_ID v)) v.

(** The hash of a published row written before hashes existed is computed from
    its snapshot. *)
Definition backfill_hash (db : KDB) (d : DocumentRow) : DocumentRow :=
  if (d_PublicationStatus d =?= PublicationPublished) && (d_PublicationHash d =?= EmptyString)
  then match publications db !! d_ID d ≫= publicationHashForSnapshot with
       | Some hash => set_d_PublicationHash hash d
       | None => d
       end
  else d.

Definition getDocument (i : string) (actorID : Z) (includeDeleted : bool) : store Document :=
  record ← first (visible_document i includeDeleted);
  access ← gets (λ db, accessFor db record actorID);
  record ← gets (λ db, backfill_hash db record);
  projection ← getProjection (d_ID record);
  db ← gets id;
  let document := documentFromModel record access projection in
  let document := match publications db !! d_ID record with
                  | Some active => set_v_ActivePublicationHash (pb_PublicationHash active) document
                  | None => document
                  end in
  mret (loadDocumentStructure db document).

Definition GetProjection (i : string) : store Projection :=
  p ← getProjection i; mret (projectionFromModel p).

(** [publishedSnapshot]: the document as its publication shows it, and whether
    the requested slug is not the current one. *)
Definition publishedSnapshot (publication : PublicationRow) (requestedSlug : string) (actorID : Z)
  : store (Document * Projection * bool) :=
  record ← first (λ db, documents db !! pb_DocumentID publication);
  if is_some (d_DeletedAt record) || negb (d_PublicationStatus record =?= PublicationPublished)
  then fail ErrNotFound
  else
    access ← gets (λ db, accessFor db record actorID);
    let projection := MkProjectionRow (pb_DocumentID publication) 0 (pb_Content publication)
                        (pb_PlainText publication) (pb_UpdatedAt publication) in
    let hash := if pb_PublicationHash publication =?= EmptyString
                then default EmptyString (publicationHashForSnapshot publication)
                else pb_PublicationHash publication in
    let document := documentFromModel record access projection
      |> set_v_Title (pb_Title publication)
      |> set_v_Summary (pb_Summary publication)
      |> set_v_Slug (pb_Slug publication)
      |> set_v_Language (pb_Language publication)
      |> set_v_PublishedAt (Some (pb_PublishedAt publication))
      |> set_v_Published true
      |> set_v_Tags (publicationTags (pb_Tags publication))
      |> set_v_PublicationHash hash
      |> set_v_Icon (pb_Icon publication)
      |> set_v_CoverAttachmentID (pb_CoverAttachmentID publication)
      |> set_v_CoverFocalX (pb_CoverFocalX publication)
      |> set_v_CoverFocalY (pb_CoverFocalY publication) in
    mret (document, projectionFromModel projection,
          negb (EqualFold (pb_Slug publication) requestedSlug)).

(** Rows are taken in primary key order when a query asks for the first. *)
Definition by_document_id : PublicationRow → PublicationRow → comparison :=
  by_key pb_DocumentID String.compare.

Definition GetPublishedDocument (ctx : Ctx) (slug : string) (actorID : Z)
  : store (Document * Projection * bool) :=
  db ← gets id;
  match first_where (λ p, sql_lower (pb_Slug p) =?= sql_lower slug) by_document_id (publications db) with
  | Some publication => publishedSnapshot publication slug actorID
  | None =>
    alias ← first (λ db, first_where (λ a, sql_lower (sa_Slug a) =?= sql_lower slug)
                           (by_key sa_Slug String.compare) (slug_aliases db));
    documentID ← expect ErrNotFound (sa_DocumentID alias);
    record ← first (λ db, documents db !! documentID);
    if is_some (d_DeletedAt record)
       || opt_test (λ purge, negb (after purge (now ctx))) (d_PurgeAfter record)
    then fail ErrGone
    else if negb (d_PublicationStatus record =?= PublicationPublished) then fail ErrNotFound
    else match publications db !! d_ID record with
         | Some publication => publishedSnapshot publication slug actorID
         | None => fail ErrNotFound
         end
  end.

(** ** Tags *)

Definition tag_slug (name : string) : string := ToLower (Join (Fields (TrimSpace name)) "-").

(** One iteration of the loop of [replaceDocumentTags]. *)
Definition attach_tag (ctx : Ctx) (ownerID : Z) (documentID name : string) : store unit :=
  db ← gets id;
  let slug := tag_slug name in
  tagID ← match first_where (λ t, (t_OwnerID t =? ownerID) && (t_Slug t =?= slug))
                  (by_key t_ID String.compare) (tags db) with
          | Some tag => mret (t_ID tag)
          | None =>
            i ← NewID;
            sql_write "create document tag"
              (insert_tag (MkTagRow i ownerID name slug (now ctx) (now ctx))) ≫= λ _, mret i
          end;
  sql_write "attach document tag" (insert_document_tag (MkDocumentTagRow documentID tagID (now ctx))).

Definition replaceDocumentTags (ctx : Ctx) (ownerID : Z) (documentID : string) (names : list string)
  : store unit :=
  modify (λ db, set_document_tags
            (delete_where (λ t, dt_DocumentID t =?= documentID) (document_tags db)) db) ≫= λ _,
  for_each names (attach_tag ctx ownerID documentID).

(** ** Events *)

Definition permissionChangedSubject := "knowledge.permissions.changed".

(** [permissionChangedEvent] *)
Definition permission_event (d : DocumentRow) : json :=
  JObj [("document_id", JStr (d_ID d)); ("permission_revision", JInt (d_PermissionRevision d));
        ("deleted", JBool (is_some (d_DeletedAt d)))].

Definition enqueuePermissionChanged (ctx : Ctx) (d : DocumentRow) : store unit :=
  i ← NewID;
  payload ← marshal "encode permission change event" (permission_event d);
  traceHeaders ← marshal "encode permission change trace context" (headers_json (propagation ctx));
  headers ← expect (EOther "decode permission change trace context") (decode_headers traceHeaders);
  let headers := headers
    |> set_header "X-Message-Type" permissionChangedSubject
    |> set_header "X-Schema-Version" "1"
    |> set_header "X-Aggregate-ID" (d_ID d)
    |> set_header "X-Aggregate-Version" (format_int (d_PermissionRevision d))
    |> set_header "X-Causation-ID" i in
  traceHeaders ← marshal "encode permission change message headers" (headers_json headers);
  sql "enqueue permission change event"
    (insert_outbox (MkOutboxRow i permissionChangedSubject payload traceHeaders 0 (now ctx)
                      EmptyString None None (now ctx))) ≫= λ _,
  notifyWorkers WorkerWakePayloadOutbox.

Definition decodeTraceHeaders (payload : string) : list (string * string) :=
  if payload =?= EmptyString then [] else default [] (decode_headers payload).

(** ** Publication reference jobs *)

Definition publicationActionPublish := "publish".
Definition publicationActionClear := "clear".
Definition publicationJobPending := "pending".
Definition publicationJobStaged := "staged".
Definition publicationJobPromoted := "promoted".

(** [attachmentIDs] is the JSON of the slice: [null] for a nil one. *)
Definition enqueuePublicationReferenceJob (ctx : Ctx) (d : DocumentRow) (generation : Z)
  (action : string) (attachmentIDs : json) : store unit :=
  i ← NewID;
  ids ← marshal "encode publication reference job" attachmentIDs;
  headers ← marshal "encode publication reference trace context" (headers_json (propagation ctx));
  sql_write "enqueue publication reference job"
    (insert_job (MkJobRow i (d_ID d) (d_OwnerID d) generation action ids publicationJobPending 0
                   (now ctx) None None EmptyString headers (now ctx) (now ctx))) ≫= λ _,
  notifyWorkers WorkerWakePayloadPublication.

(** ** Creating and changing documents *)

(** The content of a new document: a doc with one empty paragraph. *)
Definition initial_content : string :=
  of_bytes [123; 34; 116; 121; 112; 101; 34; 58; 34; 100; 111; 99; 34; 44; 34; 99; 111; 110; 116;
            101; 110; 116; 34; 58; 91; 123; 34; 116; 121; 112; 101; 34; 58; 34; 112; 97; 114; 97;
            103; 114; 97; 112; 104; 34; 125; 93; 125].

Definition CreateDocument (ctx : Ctx) (document : Document) (idempotency : Idempotency)
  : store Document :=
  let record := documentToModel document in
  let projection := MkProjectionRow (d_ID record) 0 initial_content EmptyString (d_CreatedAt record) in
  transaction (
    existing ← idempotentResource ctx idempotency;
    match existing with
    | Some existingID => getDocument existingID (id_ActorID idempotency) false
    | None =>
      record ← sql_write "insert document" (insert_document record);
      sql_write "reserve document slug"
        (insert_alias (MkSlugAliasRow (d_Slug record) (Some (d_ID record)) None (d_CreatedAt record)))
      ≫= λ _,
      sql "insert initial document projection" (insert_projection projection) ≫= λ _,
      saveIdempotency ctx idempotency (d_ID record) ≫= λ _,
      mret (documentFromModel record AccessOwner projection)
    end).

End common.
