(* ===== verification/KDocuments.v ===== *)
(** Changing, trashing and listing documents:
    [internal/repository/store.go] ([UpdateDocument], [SoftDeleteDocument],
    [RestoreDeletedDocument], [ListDocuments]), [purge.go] and
    [permanent_delete.go]. *)

From stdpp Require Import base gmap list sets strings.
From Stdlib Require Import ZArith Lia.
From S2P Require Import Prelude.
From S2P Require Import GoStrings.
From S2P Require Import KDomain.
From S2P Require Import RichText.
From S2P Require Import Json.
From S2P Require Import KSchema.
From S2P Require Import KTypes.
From S2P Require Import KStore.

Open Scope Z_scope.

(** The optional arguments of [UpdateDocument]: [None] is a nil pointer (or a
    nil tag slice). *)
Record Changes := MkChanges {
  ch_title : option string;
  ch_summary : option string;
  ch_slug : option string;
  ch_language : option string;
  ch_tags : option (list string);
  ch_folderID : option string;
  ch_icon : option string;
  ch_coverAttachmentID : option string;
  ch_coverFocalX : option float64;
  ch_coverFocalY : option float64;
}.

(** [if p != nil { updates[column] = *p }] *)
Definition assign {A R} (set : A → R → R) (o : option A) (r : R) : R :=
  match o with Some a => set a r | None => r end.

Definition bump_metadata (d : DocumentRow) : DocumentRow :=
  set_d_MetadataRevision (d_MetadataRevision d + 1) d.

Definition bump_permission (d : DocumentRow) : DocumentRow :=
  set_d_PermissionRevision (d_PermissionRevision d + 1) d.

Section documents.
Context `{Unicode, Uuid, Codec, Pg}.

(** The columns [UpdateDocument] writes. *)
Definition apply_changes (ctx : Ctx) (ch : Changes) (d : DocumentRow) : DocumentRow :=
  d |> bump_metadata
    |> set_d_UpdatedAt (now ctx)
    |> assign set_d_Title (ch_title ch)
    |> assign set_d_Summary (ch_summary ch)
    |> assign set_d_Language (ch_language ch)
    |> assign set_d_Icon (ch_icon ch)
    |> assign (λ c, set_d_CoverAttachmentID (if c =?= EmptyString then None else Some c))
         (ch_coverAttachmentID ch)
    |> assign set_d_CoverFocalX (ch_coverFocalX ch)
    |> assign set_d_CoverFocalY (ch_coverFocalY ch)
    |> assign set_d_Slug (ch_slug ch).

(** A new slug must be free or the document's own; a fresh one is reserved. *)
Definition reserve_slug (ctx : Ctx) (i slug : string) : store unit :=
  db ← gets id;
  match slug_aliases db !! slug with
  | Some alias =>
    if opt_test (λ owner, negb (owner =?= i)) (sa_DocumentID alias) then fail ErrConflict else mret tt
  | None =>
    sql_write "reserve updated document slug" (insert_alias (MkSlugAliasRow slug (Some i) None (now ctx)))
  end.

(** [folderID]: the empty text takes the document out of its folder, any other
    must name a folder of the owner. *)
Definition place_document (ctx : Ctx) (ownerID : Z) (i folderID : string) : store unit :=
  if folderID =?= EmptyString then
    modify (λ db, set_placements (delete (ownerID, i) (placements db)) db)
  else
    first (λ db, folders db !! folderID ≫= λ f, if f_OwnerID f =? ownerID then Some f else None)
    ≫= λ _,
    db ← gets id;
    sql_write "place document in folder"
      (match placements db !! (ownerID, i) with
       | Some _ =>
         update_placements (λ p, (pl_OwnerID p =? ownerID) && (pl_DocumentID p =?= i))
           (λ p, p |> set_pl_FolderID (Some folderID) |> set_pl_UpdatedAt (now ctx)
                   |> set_pl_Revision (pl_Revision p + 1))
       | None => insert_placement (MkPlacementRow ownerID i (Some folderID) 1 (now ctx) (now ctx))
       end).

Definition UpdateDocument (ctx : Ctx) (i : string) (actorID expected : Z) (ch : Changes)
  : store Document :=
  transaction (
    '(record, access) ← lockDocument i actorID false;
    require (CanEdit access) ErrForbidden ≫= λ _,
    require (d_MetadataRevision record =? expected) ErrPrecondition ≫= λ _,
    match ch_slug ch with
    | Some slug => if slug =?= d_Slug record then mret tt else reserve_slug ctx i slug
    | None => mret tt
    end ≫= λ _,
    match ch_folderID ch with
    | Some folderID => place_document ctx (d_OwnerID record) i folderID
    | None => mret tt
    end ≫= λ _,
    sql_write "update document" (update_document i (λ _, true) (apply_changes ctx ch)) ≫= λ _,
    record ← first (λ db, documents db !! i);
    match ch_tags ch with
    | Some names => replaceDocumentTags ctx (d_OwnerID record) i names
    | None => mret tt
    end ≫= λ _,
    projection ← getProjection i;
    mret (documentFromModel record access projection
          |> assign set_v_Tags (ch_tags ch)
          |> assign (λ f, set_v_FolderID (if f =?= EmptyString then None else Some f))
               (ch_folderID ch))).

(** ** The trash *)

Definition trash_period : Z := 30 * 24 * Hour.

Definition unparked_of (i : string) (j : JobRow) : bool :=
  (j_DocumentID j =?= i) && is_none (j_ParkedAt j).

(** The columns [SoftDeleteDocument] writes. *)
Definition trash_row (ctx : Ctx) (generation : Z) (d : DocumentRow) : DocumentRow :=
  d |> set_d_PublishedAt None
    |> set_d_DeletedAt (Some (now ctx))
    |> set_d_PurgeAfter (Some (now ctx + trash_period))
    |> set_d_PublicationStatus PublicationUnpublishing
    |> set_d_PublicationError None
    |> set_d_PublicationGeneration generation
    |> bump_metadata |> bump_permission
    |> set_d_UpdatedAt (now ctx).

Definition SoftDeleteDocument (ctx : Ctx) (i : string) (actorID expected : Z) : store Document :=
  transaction (
    '(record, access) ← lockDocument i actorID false;
    require (access =?= AccessOwner) ErrForbidden ≫= λ _,
    require (d_MetadataRevision record =? expected) ErrPrecondition ≫= λ _,
    let generation := d_PublicationGeneration record + 1 in
    sql "remove deleted publication candidate" (delete_candidate i) ≫= λ _,
    sql "remove deleted live publication" (delete_publication i) ≫= λ _,
    sql "supersede deleted publication job" (delete_jobs (unparked_of i)) ≫= λ _,
    enqueuePublicationReferenceJob ctx record generation publicationActionClear JNull ≫= λ _,
    sql "soft-delete document" (update_document i (λ _, true) (trash_row ctx generation)) ≫= λ _,
    record ← first (λ db, documents db !! i);
    enqueuePermissionChanged ctx record ≫= λ _,
    projection ← getProjection i;
    mret (documentFromModel record access projection)).

Definition restore_row (ctx : Ctx) (d : DocumentRow) : DocumentRow :=
  d |> set_d_DeletedAt None |> set_d_PurgeAfter None
    |> bump_metadata |> bump_permission
    |> set_d_UpdatedAt (now ctx).

Definition RestoreDeletedDocument (ctx : Ctx) (i : string) (actorID : Z) : store Document :=
  transaction (
    '(record, access) ← lockDocument i actorID true;
    require ((access =?= AccessOwner) && is_some (d_DeletedAt record)) ErrForbidden ≫= λ _,
    require (negb (opt_test (λ purge, negb (after purge (now ctx))) (d_PurgeAfter record))) ErrGone
    ≫= λ _,
    sql "restore deleted document" (update_document i (λ _, true) (restore_row ctx)) ≫= λ _,
    record ← first (λ db, documents db !! i);
    enqueuePermissionChanged ctx record ≫= λ _,
    projection ← getProjection i;
    mret (documentFromModel record access projection)).

(** [PurgeDeletedDocument]: the owner asks for immediate deletion. *)
Definition PurgeDeletedDocument (ctx : Ctx) (i : string) (actorID expected : Z)
  (idempotency : Idempotency) : store unit :=
  transaction (
    existing ← idempotentResource ctx idempotency;
    match existing with
    | Some existingID => require (existingID =?= i) ErrConflict
    | None =>
      record ← first (λ db, documents db !! i);
      access ← gets (λ db, accessFor db record actorID);
      require ((access =?= AccessOwner) && is_some (d_DeletedAt record)) ErrForbidden ≫= λ _,
      require (d_MetadataRevision record =? expected) ErrPrecondition ≫= λ _,
      require (negb (opt_test (λ purge, negb (after purge (now ctx))) (d_PurgeAfter record))) ErrGone
      ≫= λ _,
      sql "mark document for permanent deletion"
        (update_document i (λ _, true)
           (λ d, d |> set_d_PurgeAfter (Some (now ctx)) |> bump_metadata
                   |> set_d_UpdatedAt (now ctx))) ≫= λ _,
      saveIdempotency ctx idempotency i
    end).

(** ** Physical deletion *)

Definition purge_due (ctx : Ctx) (d : DocumentRow) : bool :=
  opt_test (λ purge, negb (after purge (now ctx))) (d_PurgeAfter d).

Definition ListPurgeCandidates (ctx : Ctx) (limit : Z) : store (list string) :=
  let limit := if limit <=? 0 then 20 else limit in
  db ← gets id;
  mret (d_ID <$> take (Z.to_nat limit)
                   (order_by (then_by (by_key (λ d, default 0 (d_PurgeAfter d)) Z.compare)
                                      (by_key d_ID String.compare))
                      (rows_where (purge_due ctx) (documents db)))).

Definition PurgeDocument (ctx : Ctx) (i : string) : store unit :=
  transaction (
    document ← first (λ db, documents db !! i);
    require (purge_due ctx document) ErrPrecondition ≫= λ _,
    sql "tombstone purged document slugs"
      (update_aliases (λ a, sa_DocumentID a =?= Some i)
         (λ a, a |> set_sa_DocumentID None |> set_sa_GoneAt (Some (now ctx)))) ≫= λ _,
    sql "purge document" (delete_document i)).

Definition PurgeMaintenanceData (ctx : Ctx) : store unit :=
  transaction (
    modify (λ db, set_idempotency_keys
              (delete_where (λ k, ik_ExpiresAt k <=? now ctx) (idempotency_keys db)) db) ≫= λ _,
    modify (λ db, set_outbox
              (delete_where (λ o, opt_test (λ at_, at_ <? now ctx - 7 * 24 * Hour) (o_PublishedAt o))
                 (outbox db)) db)).

End documents.
