(* ===== verification/KHistory.v ===== *)
(** Automatic history: [internal/repository/history.go].

    An accepted projection marks its document dirty; after five idle minutes or
    thirty minutes of activity a worker takes a checkpoint, unless the semantic
    content (without block identifiers) is already recorded.  Publishing and
    restoring leave anchors, which pruning never removes. *)

From stdpp Require Import base gmap list sets strings.
From Stdlib Require Import ZArith Lia.
From S2P Require Import Prelude.
From S2P Require Import GoStrings.
From S2P Require Import KDomain.
From S2P Require Import RichText.
From S2P Require Import Json.
From S2P Require Import KSchema.
From S2P Require Import KTypes.
From S2P Require Import KStore.

Open Scope Z_scope.

Definition historyIdleWindow : Z := 5 * Minute.

Definition historyMaxWindow : Z := 30 * Minute.

Definition historyFromModel (h : HistoryRow) : HistoryCheckpoint :=
  MkHistoryCheckpoint (h_ID h) (h_DocumentID h) (h_Kind h) (h_Sequence h) (h_MetadataRevision h)
    (h_SemanticHash h) (h_Content h) (h_PlainText h) (h_Metadata h) (h_Contributors h)
    (h_BlockDiff h) (h_IsAnchor h) (h_CreatedAt h).

(** Newest first. *)
Definition history_order : HistoryRow → HistoryRow → comparison :=
  then_by (descending (by_key h_CreatedAt Z.compare)) (descending (by_key h_ID String.compare)).

(** ** Block differences *)

(** The members of a map, a nil map for anything that is not an object. *)
Definition as_map (o : option json) : list (string * json) :=
  match o with Some (JObj members) => members | _ => [] end.

Definition as_string (o : option json) : string :=
  match o with Some (JStr s) => s | _ => EmptyString end.

Definition stable_id (index : Z) (block : list (string * json)) : string :=
  let attrs := as_map (member "attrs" block) in
  let blockID := as_string (member "blockId" attrs) in
  let blockID := if blockID =?= EmptyString then as_string (member "block_id" attrs) else blockID in
  if blockID =?= EmptyString then "legacy:" +:+ format_int index else blockID.

(** The loop of [blocksByStableID] from an index on: a later block with the
    same identifier replaces an earlier one. *)
Fixpoint blocks_from (index : Z) (blocks : list (list (string * json)))
  (result : gmap string (Z * list (string * json))) : gmap string (Z * list (string * json)) :=
  match blocks with
  | [] => result
  | block :: rest => blocks_from (index + 1) rest (<[stable_id index block := (index, block)]> result)
  end.

Definition blocksByStableID (blocks : list (list (string * json)))
  : gmap string (Z * list (string * json)) := blocks_from 0 blocks ∅.

(** The elements of a decoded [[]map[string]any]. *)
Fixpoint block_maps (items : list json) : option (list (list (string * json))) :=
  match items with
  | [] => Some []
  | JObj members :: rest => (members ::.) <$> block_maps rest
  | JNull :: rest => ([] ::.) <$> block_maps rest
  | _ => None
  end.

Definition sorted_keys {V} (m : gmap string V) : list string :=
  order_by String.compare (map_to_list m).*1.

Section history_ops.
Context `{Unicode, Uuid, Codec, Pg}.

(** The [content] of a document decoded with encoding/json, which matches
    names without regard to case; a missing or null one is empty. *)
Definition content_blocks (text : string) : option (list (list (string * json))) :=
  v ← std_decode text;
  match v with
  | JObj members =>
    match last (filter (λ kv, EqualFold kv.1 "content" = true) members) with
    | None | Some (_, JNull) => Some []
    | Some (_, JArr items) => block_maps items
    | Some _ => None
    end
  | JNull => Some []
  | _ => None
  end.

Definition diff_entry (blockID kind : string) (positions : list (string * Z)) : json :=
  JObj (("block_id", JStr blockID) :: ("kind", JStr kind) :: ((λ kv, (kv.1, JInt kv.2)) <$> positions)).

(** What happened to a block of the earlier version. *)
Definition diff_before (afterByID : gmap string (Z * list (string * json))) (blockID : string)
  (prior : Z * list (string * json)) : list json :=
  match afterByID !! blockID with
  | None => [diff_entry blockID "removed" [("from", prior.1)]]
  | Some current =>
    if negb (std_encode (JObj prior.2) =?= std_encode (JObj current.2))
    then [diff_entry blockID "modified" [("from", prior.1); ("to", current.1)]]
    else if negb (prior.1 =? current.1)
    then [diff_entry blockID "moved" [("from", prior.1); ("to", current.1)]]
    else []
  end.

Definition diff_added (beforeByID : gmap string (Z * list (string * json))) (blockID : string)
  (current : Z * list (string * json)) : list json :=
  if is_some (beforeByID !! blockID) then [] else [diff_entry blockID "added" [("to", current.1)]].

Definition block_diff (before after : list (list (string * json))) : list json :=
  let beforeByID := blocksByStableID before in
  let afterByID := blocksByStableID after in
  (sorted_keys beforeByID ≫= λ k, from_option (diff_before afterByID k) [] (beforeByID !! k))
  ++ (sorted_keys afterByID ≫= λ k, from_option (diff_added beforeByID k) [] (afterByID !! k)).

Definition empty_array : string := of_bytes [91; 93]. (* "[]" *)

Definition latestBlockDiff (documentID content : string) : store string :=
  db ← gets id;
  match first_where (λ h, h_DocumentID h =?= documentID) history_order (history db) with
  | None => mret empty_array
  | Some previous =>
    match content_blocks (h_Content previous), content_blocks content with
    | Some before, Some after => marshal "encode block diff" (JArr (block_diff before after))
    | _, _ => mret empty_array
    end
  end.

(** ** Checkpoints *)

Definition markHistoryDirty (documentID : string) (at_ : Z) : stmt unit :=
  upsert_activity (MkActivityRow documentID at_ at_ None empty_array at_).

Definition history_metadata (title summary language : string) (tags : option (list string)) (icon : string)
  (cover : option string) (x y : float64) : json :=
  JObj [("title", JStr title); ("summary", JStr summary); ("language", JStr language);
        ("tags", JSlice tags); ("icon", JStr icon); ("cover_attachment_id", JOptStr cover);
        ("cover_focal_x", JFloat x); ("cover_focal_y", JFloat y)].

(** The hash under which a state of a document is recorded. *)
Definition semantic_hash (operation content metadata : string) : store string :=
  value ← unmarshal operation content;
  canonical ← marshal operation (stripHistoryBlockIDs value);
  mret (sha256_hex (canonical +:+ metadata)).

Definition activity_due (ctx : Ctx) (a : ActivityRow) : bool :=
  (a_LastDirtyAt a <=? now ctx - historyIdleWindow)
  || (a_FirstDirtyAt a <=? now ctx - historyMaxWindow).

Definition activity_order : ActivityRow → ActivityRow → comparison :=
  then_by (by_key a_FirstDirtyAt Z.compare) (by_key a_DocumentID String.compare).

Definition delete_activity (i : string) : stmt unit :=
  modify (λ db, set_activity (delete i (activity db)) db).

Definition same_state (documentID hash : string) (h : HistoryRow) : bool :=
  (h_DocumentID h =?= documentID) && (h_SemanticHash h =?= hash).

Definition CreateDueHistoryCheckpoint (ctx : Ctx) : store (option HistoryCheckpoint) :=
  transaction (
    db ← gets id;
    match first_where (activity_due ctx) activity_order (activity db) with
    | None => mret None
    | Some act =>
      match visible_document (a_DocumentID act) false db with
      | None => sql "delete history activity" (delete_activity (a_DocumentID act)) ≫= λ _, mret None
      | Some document =>
        projection ← expect (EOther "load history projection") (projections db !! a_DocumentID act);
        metadata ← marshal "encode history metadata"
          (history_metadata (d_Title document) (d_Summary document) (d_Language document)
             (Some (tag_names db (a_DocumentID act))) (d_Icon document) (d_CoverAttachmentID document)
             (d_CoverFocalX document) (d_CoverFocalY document));
        hash ← semantic_hash "history content" (pr_Content projection) metadata;
        result ←
          (if exists_where (same_state (a_DocumentID act) hash) (history db) then mret None
           else
             i ← NewID;
             diff ← latestBlockDiff (a_DocumentID act) (pr_Content projection);
             let row := MkHistoryRow i (a_DocumentID act) "automatic" (pr_Sequence projection)
                          (d_MetadataRevision document) hash (pr_Content projection)
                          (pr_PlainText projection) metadata (a_Contributors act) diff false (now ctx) in
             sql "create history checkpoint" (insert_history row) ≫= λ _,
             mret (Some (historyFromModel row)));
        sql "delete history activity" (delete_activity (a_DocumentID act)) ≫= λ _,
        mret result
      end
    end).

(** Record the current state as an anchor, or turn the checkpoint that already
    records it into one. *)
Definition createHistoryAnchor (ctx : Ctx) (document : DocumentRow) (projection : ProjectionRow)
  (kind : string) (metadata : json) : store unit :=
  metadataJSON ← marshal "encode history metadata" metadata;
  hash ← semantic_hash "history content" (pr_Content projection) metadataJSON;
  db ← gets id;
  match first_where (same_state (d_ID document) hash) (by_key h_ID String.compare) (history db) with
  | Some existing =>
    require (bool_decide (kind ∈ ["automatic"; "publish"; "restore"])) (EOther "update history anchor")
    ≫= λ _,
    modify (λ db, set_history
              (alter (λ h, h |> set_h_Kind kind |> set_h_IsAnchor true) (h_ID existing) (history db)) db)
  | None =>
    i ← NewID;
    diff ← latestBlockDiff (d_ID document) (pr_Content projection);
    sql "create history anchor"
      (insert_history (MkHistoryRow i (d_ID document) kind (pr_Sequence projection)
                         (d_MetadataRevision document) hash (pr_Content projection)
                         (pr_PlainText projection) metadataJSON empty_array diff true (now ctx)))
  end.

(** ** Reading and pruning *)

Definition ListHistory (documentID : string) (actorID limit : Z) : store (list HistoryCheckpoint) :=
  let limit := if (limit <=? 0) || (100 <? limit) then 50 else limit in
  getDocument documentID actorID false ≫= λ _,
  db ← gets id;
  mret (historyFromModel <$>
          take (Z.to_nat limit)
            (order_by history_order (rows_where (λ h, h_DocumentID h =?= documentID) (history db)))).

Definition GetHistory (documentID revisionID : string) (actorID : Z) : store HistoryCheckpoint :=
  getDocument documentID actorID false ≫= λ _,
  row ← first (λ db, history db !! revisionID ≫= λ h,
                 if h_DocumentID h =?= documentID then Some h else None);
  mret (historyFromModel row).

Definition history_retention : Z := 180 * 24 * Hour.

(** [row_number() OVER (PARTITION BY document_id ORDER BY created_at DESC, id
    DESC)] among the checkpoints that are not anchors *)
Definition history_rank (m : gmap string HistoryRow) (h : HistoryRow) : Z :=
  1 + count_where (λ g, negb (h_IsAnchor g) && (h_DocumentID g =?= h_DocumentID h)
                        && match history_order g h with Lt => true | _ => false end) m.

Definition prune_old (ctx : Ctx) (m : gmap string HistoryRow) : gmap string HistoryRow :=
  delete_where (λ h, negb (h_IsAnchor h) && (h_CreatedAt h <? now ctx - history_retention)) m.

Definition prune_excess (m : gmap string HistoryRow) : gmap string HistoryRow :=
  delete_where (λ h, negb (h_IsAnchor h) && (500 <? history_rank m h)) m.

Definition PruneHistory (ctx : Ctx) : store unit :=
  transaction (
    modify (λ db, set_history (prune_old ctx (history db)) db) ≫= λ _,
    modify (λ db, set_history (prune_excess (history db)) db)).

End history_ops.
