(* ===== verification/KPublication.v ===== *)
(** The publication saga: [internal/repository/publication_saga.go].

    Publishing is asynchronous.  [PublishSnapshot] stores a candidate and a
    job under a new generation of the document; a worker claims the job, stages
    its attachment references, promotes the candidate to the live publication
    and finalises; unpublishing leaves a job that clears the references.  Every
    step compares the generation it works for with the document's. *)

From stdpp Require Import base gmap list sets strings.
From Stdlib Require Import ZArith Lia.
From S2P Require Import Prelude.
From S2P Require Import GoStrings.
From S2P Require Import KDomain.
From S2P Require Import RichText.
From S2P Require Import Json.
From S2P Require Import KSchema.
From S2P Require Import KTypes.
From S2P Require Import KStore.
From S2P Require Import KDocuments.
From S2P Require Import KHistory.

Open Scope Z_scope.

Section saga.
Context `{Unicode, Uuid, Codec, Pg}.

(** The candidate of a publication request. *)
Definition candidate_row (ctx : Ctx) (i : string) (record : DocumentRow) (input : PublicationSnapshotInput)
  (tags content mediaIDs : string) : CandidateRow :=
  MkCandidateRow i (d_PublicationGeneration record + 1)
    (in_Title input) (in_Summary input) (in_Slug input) (in_Language input) tags
    (d_OwnerID record) (d_OwnerUsername record) (d_OwnerAvatar record)
    content (in_PlainText input) (in_ContentSequence input) mediaIDs
    (in_PublicationHash input) (in_Icon input) (in_CoverAttachmentID input)
    (in_CoverFocalX input) (in_CoverFocalY input) (now ctx) (now ctx).

(** The columns [PublishSnapshot] writes. *)
Definition publishing_row (ctx : Ctx) (generation : Z) (input : PublicationSnapshotInput)
  (d : DocumentRow) : DocumentRow :=
  d |> set_d_PublicationStatus PublicationPublishing
    |> set_d_PublicationError None
    |> set_d_PublicationGeneration generation
    |> set_d_PublicationHash (in_PublicationHash input)
    |> set_d_Icon (in_Icon input)
    |> set_d_CoverAttachmentID (in_CoverAttachmentID input)
    |> set_d_CoverFocalX (in_CoverFocalX input)
    |> set_d_CoverFocalY (in_CoverFocalY input)
    |> bump_metadata
    |> set_d_UpdatedAt (now ctx).

(** Reload the document after a change and build the reply. *)
Definition reply (i access : string) : store Document :=
  record ← first (λ db, documents db !! i);
  projection ← getProjection i;
  db ← gets id;
  mret (loadDocumentStructure db (documentFromModel record access projection)).

Definition PublishSnapshot (ctx : Ctx) (i : string) (actorID expected : Z)
  (input : PublicationSnapshotInput) : store Document :=
  content ← marshal "encode publication candidate content" (document_json (in_Content input));
  tags ← marshal "encode publication candidate tags" (JSlice (in_Tags input));
  mediaIDs ← marshal "encode publication candidate media" (JStrings (in_MediaIDs input));
  transaction (
    existing ← idempotentResource ctx (in_Idempotency input);
    match existing with
    | Some existingID => getDocument existingID actorID false
    | None =>
      '(record, access) ← lockDocument i actorID false;
      require (CanEdit access) ErrForbidden ≫= λ _,
      require (d_MetadataRevision record =? expected) ErrPrecondition ≫= λ _,
      db ← gets id;
      require (negb (exists_where (λ p, (sql_lower (pb_Slug p) =?= sql_lower (in_Slug input))
                                        && negb (pb_DocumentID p =?= i)) (publications db)))
        ErrConflict ≫= λ _,
      require (negb (exists_where (λ c, (sql_lower (pc_Slug c) =?= sql_lower (in_Slug input))
                                        && negb (pc_DocumentID c =?= i)) (candidates db)))
        ErrConflict ≫= λ _,
      let generation := d_PublicationGeneration record + 1 in
      sql_write "save publication candidate"
        (save_candidate (candidate_row ctx i record input tags content mediaIDs)) ≫= λ _,
      sql "supersede publication reference job" (delete_jobs (unparked_of i)) ≫= λ _,
      enqueuePublicationReferenceJob ctx record generation publicationActionPublish
        (JStrings (in_MediaIDs input)) ≫= λ _,
      sql "mark publication pending"
        (update_document i (λ _, true) (publishing_row ctx generation input)) ≫= λ _,
      saveIdempotency ctx (in_Idempotency input) i ≫= λ _,
      reply i access
    end).

(** The columns [SetPublication] writes. *)
Definition unpublishing_row (ctx : Ctx) (generation : Z) (d : DocumentRow) : DocumentRow :=
  d |> set_d_PublishedAt None
    |> set_d_PublicationStatus PublicationUnpublishing
    |> set_d_PublicationError None
    |> set_d_PublicationGeneration generation
    |> bump_metadata
    |> set_d_UpdatedAt (now ctx).

Definition SetPublication (ctx : Ctx) (i : string) (actorID expected : Z) (published : bool)
  (idempotency : Idempotency) : store Document :=
  if published then fail ErrPrecondition
  else transaction (
    existing ← idempotentResource ctx idempotency;
    match existing with
    | Some existingID => getDocument existingID actorID false
    | None =>
      '(record, access) ← lockDocument i actorID false;
      require (CanEdit access) ErrForbidden ≫= λ _,
      require (d_MetadataRevision record =? expected) ErrPrecondition ≫= λ _,
      let generation := d_PublicationGeneration record + 1 in
      sql "remove publication candidate" (delete_candidate i) ≫= λ _,
      sql "remove live publication" (delete_publication i) ≫= λ _,
      sql "supersede publication cleanup job" (delete_jobs (unparked_of i)) ≫= λ _,
      enqueuePublicationReferenceJob ctx record generation publicationActionClear JNull ≫= λ _,
      sql "mark document unpublishing"
        (update_document i (λ _, true) (unpublishing_row ctx generation)) ≫= λ _,
      saveIdempotency ctx idempotency i ≫= λ _,
      reply i access
    end).

(** ** Claiming *)

Definition job_due (ctx : Ctx) (j : JobRow) : bool :=
  is_none (j_ParkedAt j) && (j_NextAttemptAt j <=? now ctx)
  && match j_LeaseUntil j with None => true | Some lease => lease <=? now ctx end.

Definition job_order : JobRow → JobRow → comparison :=
  then_by (by_key j_NextAttemptAt Z.compare)
    (then_by (by_key j_CreatedAt Z.compare) (by_key j_ID String.compare)).

(** One iteration of the claim loop: lease the row, decode it. *)
Definition claim_job (ctx : Ctx) (lease : Z) (j : JobRow) : store Job :=
  sql "lease publication reference job"
    (update_jobs (λ k, j_ID k =?= j_ID j)
       (λ k, k |> set_j_Attempts (j_Attempts k + 1) |> set_j_LeaseUntil (Some (now ctx + lease))
               |> set_j_UpdatedAt (now ctx))) ≫= λ _,
  ids ← unmarshal_strings "decode publication reference job attachments" (j_AttachmentIDs j);
  mret (MkJob (j_ID j) (j_DocumentID j) (j_OwnerID j) (j_Generation j) (j_Action j) ids (j_State j)
          (j_Attempts j + 1) (decodeTraceHeaders (j_TraceHeaders j))).

Definition ClaimPublicationReferenceJobs (ctx : Ctx) (limit lease : Z) : store (list Job) :=
  let limit := if limit <=? 0 then 20 else limit in
  transaction (
    db ← gets id;
    let due := take (Z.to_nat limit) (order_by job_order (rows_where (job_due ctx) (jobs db))) in
    collect due (claim_job ctx lease)).

(** ** Steps of a job *)

Definition live_job (i : string) (j : JobRow) : bool := (j_ID j =?= i) && is_none (j_ParkedAt j).

Definition updatePublicationJob (ctx : Ctx) (i state errorKey : string) : store unit :=
  n ← sql "update publication reference job"
        (update_jobs (live_job i)
           (λ j, j |> set_j_State state |> set_j_LastErrorKey errorKey |> set_j_LeaseUntil None
                   |> set_j_NextAttemptAt (now ctx) |> set_j_UpdatedAt (now ctx)));
  require (negb (n =? 0)) ErrNotFound.

Definition MarkPublicationReferencesStaged (ctx : Ctx) (i : string) : store unit :=
  updatePublicationJob ctx i publicationJobStaged EmptyString.

Definition MarkPublicationPromoted (ctx : Ctx) (i : string) : store unit :=
  updatePublicationJob ctx i publicationJobPromoted EmptyString.

(** The publication a candidate becomes. *)
Definition publication_of (ctx : Ctx) (c : CandidateRow) : PublicationRow :=
  MkPublicationRow (pc_DocumentID c) (pc_Title c) (pc_Summary c) (pc_Slug c) (pc_Language c)
    (pc_Tags c) (pc_OwnerID c) (pc_OwnerUsername c) (pc_OwnerAvatar c) (pc_Content c) (pc_PlainText c)
    (now ctx) (now ctx) (pc_PublicationHash c) (pc_Icon c) (pc_CoverAttachmentID c)
    (pc_CoverFocalX c) (pc_CoverFocalY c).

(** The slug of a promoted candidate must be free or the document's own. *)
Definition activate_slug (ctx : Ctx) (i slug : string) : store unit :=
  db ← gets id;
  match slug_aliases db !! slug with
  | None =>
    sql_write "reserve publication slug" (insert_alias (MkSlugAliasRow slug (Some i) None (now ctx)))
  | Some alias =>
    if opt_test (λ owner, negb (owner =?= i)) (sa_DocumentID alias) then fail ErrConflict
    else sql "activate publication slug"
           (update_aliases (λ a, sa_Slug a =?= slug)
              (λ a, a |> set_sa_DocumentID (Some i) |> set_sa_GoneAt None))
  end.

Definition published_row (ctx : Ctx) (d : DocumentRow) : DocumentRow :=
  d |> set_d_PublishedAt (Some (now ctx))
    |> set_d_PublicationStatus PublicationPublished
    |> set_d_PublicationError None
    |> set_d_UpdatedAt (now ctx).

(** The metadata recorded with a published checkpoint. *)
Definition publish_metadata (c : CandidateRow) (tags : option (list string)) : json :=
  history_metadata (pc_Title c) (pc_Summary c) (pc_Language c) tags (pc_Icon c)
    (pc_CoverAttachmentID c) (pc_CoverFocalX c) (pc_CoverFocalY c).

Definition PromotePublication (ctx : Ctx) (job : Job) : store unit :=
  transaction (
    stored ← first (λ db, jobs db !! jv_ID job);
    if j_State stored =?= publicationJobPromoted then mret tt
    else
      require ((j_State stored =?= publicationJobStaged) && (j_Generation stored =? jv_Generation job))
        ErrPrecondition ≫= λ _,
      '(record, _) ← lockDocument (jv_DocumentID job) (jv_OwnerID job) false;
      require ((d_PublicationGeneration record =? jv_Generation job)
               && (d_PublicationStatus record =?= PublicationPublishing)) ErrPrecondition ≫= λ _,
      candidate ← first (λ db, candidates db !! jv_DocumentID job ≫= λ c,
                           if pc_Generation c =? jv_Generation job then Some c else None);
      candidateTags ← unmarshal_slice "decode publication candidate tags" (pc_Tags candidate);
      sql_write "promote publication candidate" (save_publication (publication_of ctx candidate)) ≫= λ _,
      replaceDocumentTags ctx (d_OwnerID record) (jv_DocumentID job) (default [] candidateTags) ≫= λ _,
      modify (λ db, set_media_refs
                (delete_where (λ r, mr_DocumentID r =?= jv_DocumentID job) (media_refs db)) db) ≫= λ _,
      for_each (jv_AttachmentIDs job) (λ attachmentID,
        sql_write "create published media reference"
          (insert_media_ref (MkMediaRefRow (jv_DocumentID job) attachmentID (jv_Generation job) (now ctx))))
      ≫= λ _,
      activate_slug ctx (jv_DocumentID job) (pc_Slug candidate) ≫= λ _,
      sql "activate publication" (update_document (d_ID record) (λ _, true) (published_row ctx)) ≫= λ _,
      record ← first (λ db, documents db !! d_ID record);
      createHistoryAnchor ctx record
        (MkProjectionRow (d_ID record) (pc_ContentSequence candidate) (pc_Content candidate)
           (pc_PlainText candidate) (now ctx))
        "publish" (publish_metadata candidate candidateTags) ≫= λ _,
      sql "remove promoted publication candidate" (delete_candidate (jv_DocumentID job)) ≫= λ _,
      sql "mark publication promoted"
        (update_jobs (λ j, j_ID j =?= j_ID stored)
           (λ j, j |> set_j_State publicationJobPromoted |> set_j_LeaseUntil None
                   |> set_j_NextAttemptAt (now ctx) |> set_j_UpdatedAt (now ctx))) ≫= λ _,
      mret tt).

(** [WHERE publication_generation = g] *)
Definition at_generation (generation : Z) (d : DocumentRow) : bool :=
  d_PublicationGeneration d =? generation.

Definition cleared_row (ctx : Ctx) (d : DocumentRow) : DocumentRow :=
  d |> set_d_PublicationStatus PublicationDraft |> set_d_PublicationError None
    |> set_d_UpdatedAt (now ctx).

Definition CompletePublicationReferenceJob (ctx : Ctx) (i : string) (clear : bool) : store unit :=
  transaction (
    job ← first (λ db, jobs db !! i);
    (if clear then
       modify (λ db, set_media_refs
                 (delete_where (λ r, (mr_DocumentID r =?= j_DocumentID job)
                                     && (mr_Generation r =? j_Generation job)) (media_refs db)) db)
       ≫= λ _,
       sql "complete publication cleanup"
         (update_document (j_DocumentID job) (at_generation (j_Generation job)) (cleared_row ctx))
     else mret tt) ≫= λ _,
    sql "complete publication reference job" (delete_jobs (λ j, j_ID j =?= i))).

Definition clear_job_of (documentID : string) (j : JobRow) : bool :=
  (j_DocumentID j =?= documentID) && (j_Action j =?= publicationActionClear).

Definition HasPendingPublicationReferenceClear (documentID : string) : store bool :=
  gets (λ db, 0 <? count_where (clear_job_of documentID) (jobs db)).

Definition RedrivePublicationReferenceClear (ctx : Ctx) (documentID : string) : store unit :=
  transaction (
    n ← sql "redrive publication reference cleanup"
          (update_jobs (λ j, clear_job_of documentID j && is_some (j_ParkedAt j))
             (λ j, j |> set_j_ParkedAt None |> set_j_Attempts 0 |> set_j_LeaseUntil None
                     |> set_j_NextAttemptAt (now ctx)
                     |> set_j_LastErrorKey "purge_reference_redrive" |> set_j_UpdatedAt (now ctx)));
    if 0 <? n then notifyWorkers WorkerWakePayloadPublication else mret tt).

(** ** Retry and park *)

(** [attempt] clamped to 1..8 *)
Definition clamp_attempt (attempt : Z) : Z :=
  let attempt := if attempt <? 1 then 1 else attempt in
  if 8 <? attempt then 8 else attempt.

Definition publicationRetryDelay (attempt : Z) : Z :=
  let attempt := clamp_attempt attempt in
  Z.shiftl 1 (attempt - 1) * Second + (attempt * 7919) mod 1000 * Millisecond.

Definition RetryPublicationReferenceJob (ctx : Ctx) (i errorKey : string) (attempts : Z) : store unit :=
  sql "retry publication reference job"
    (update_jobs (live_job i)
       (λ j, j |> set_j_NextAttemptAt (now ctx + publicationRetryDelay attempts)
               |> set_j_LeaseUntil None |> set_j_LastErrorKey errorKey
               |> set_j_UpdatedAt (now ctx))) ≫= λ _,
  mret tt.

Definition ParkPublicationReferenceJob (ctx : Ctx) (i errorKey : string) (publish : bool) : store unit :=
  transaction (
    job ← first (λ db, jobs db !! i);
    sql "park publication reference job"
      (update_jobs (λ j, j_ID j =?= i)
         (λ j, j |> set_j_ParkedAt (Some (now ctx)) |> set_j_LeaseUntil None
                 |> set_j_LastErrorKey errorKey |> set_j_UpdatedAt (now ctx))) ≫= λ _,
    let status := if publish then PublicationPublishFailed else PublicationUnpublishFailed in
    sql "park publication reference job"
      (update_document (j_DocumentID job) (at_generation (j_Generation job))
         (λ d, d |> set_d_PublicationStatus status |> set_d_PublicationError (Some errorKey)
                 |> set_d_UpdatedAt (now ctx)))).

Definition IsMediaPublished (attachmentID : string) : store bool :=
  gets (λ db, exists_where
    (λ r, (mr_AttachmentID r =?= attachmentID)
          && opt_test (λ d, (d_PublicationStatus d =?= PublicationPublished)
                            && is_none (d_DeletedAt d))
               (documents db !! mr_DocumentID r)) (media_refs db)).

End saga.
