(* ===== verification/KSharing.v ===== *)
(** Members, projections and folders: [internal/repository/members.go],
    [collaboration.go] and [folders.go].

    Every change of a document's members advances its permission revision and
    queues an event for the collaboration service in the same transaction. *)

From stdpp Require Import base gmap list sets strings.
From Stdlib Require Import ZArith Lia.
From S2P Require Import Prelude.
From S2P Require Import GoStrings.
From S2P Require Import KDomain.
From S2P Require Import RichText.
From S2P Require Import Json.
From S2P Require Import KSchema.
From S2P Require Import KTypes.
From S2P Require Import KStore.
From S2P Require Import KDocuments.
From S2P Require Import KHistory.

Open Scope Z_scope.

Section members.
Context `{Unicode, Uuid, Codec, Pg}.

Definition member_order : MemberRow → MemberRow → comparison :=
  then_by (by_key m_CreatedAt Z.compare) (by_key m_UserID Z.compare).

Definition ListMembers (documentID : string) (actorID : Z) : store (list Member) :=
  '(_, access) ← lockDocument documentID actorID false;
  require (access =?= AccessOwner) ErrForbidden ≫= λ _,
  db ← gets id;
  mret (memberFromModel <$>
          order_by member_order (rows_where (λ m, m_DocumentID m =?= documentID) (members db))).

(** The event carries the revision the statement has just written. *)
Definition advancePermissionRevision (ctx : Ctx) (document : DocumentRow) : store unit :=
  sql "advance document permission revision"
    (update_document (d_ID document) (λ _, true)
       (λ d, d |> bump_permission |> set_d_UpdatedAt (now ctx))) ≫= λ _,
  enqueuePermissionChanged ctx (document |> bump_permission |> set_d_UpdatedAt (now ctx)).

Definition AddMember (ctx : Ctx) (documentID : string) (actorID : Z) (user : PublicUser)
  (role : string) (idempotency : Idempotency) : store Member :=
  transaction (
    '(document, access) ← lockDocument documentID actorID false;
    require (access =?= AccessOwner) ErrForbidden ≫= λ _,
    require (negb (pu_ID user =? d_OwnerID document)) ErrConflict ≫= λ _,
    existing ← idempotentResource ctx idempotency;
    match existing with
    | Some _ =>
      record ← first (λ db, members db !! (documentID, pu_ID user));
      mret (memberFromModel record)
    | None =>
      let record := MkMemberRow documentID (pu_ID user) (pu_Username user) (pu_Avatar user) role 1
                      actorID (now ctx) (now ctx) in
      sql_write "add document member" (insert_member record) ≫= λ _,
      advancePermissionRevision ctx document ≫= λ _,
      saveIdempotency ctx idempotency documentID ≫= λ _,
      mret (memberFromModel record)
    end).

Definition change_role (ctx : Ctx) (role : string) (m : MemberRow) : MemberRow :=
  m |> set_m_Role role |> set_m_Revision (m_Revision m + 1) |> set_m_UpdatedAt (now ctx).

Definition UpdateMember (ctx : Ctx) (documentID : string) (actorID userID expected : Z) (role : string)
  : store Member :=
  transaction (
    '(document, access) ← lockDocument documentID actorID false;
    require (access =?= AccessOwner) ErrForbidden ≫= λ _,
    record ← first (λ db, members db !! (documentID, userID));
    require (m_Revision record =? expected) ErrPrecondition ≫= λ _,
    sql_write "update document member"
      (update_member (documentID, userID) (change_role ctx role)) ≫= λ _,
    advancePermissionRevision ctx document ≫= λ _,
    mret (memberFromModel (change_role ctx role record))).

Definition DeleteMember (ctx : Ctx) (documentID : string) (actorID userID expected : Z) : store unit :=
  transaction (
    '(document, access) ← lockDocument documentID actorID false;
    require (access =?= AccessOwner) ErrForbidden ≫= λ _,
    db ← gets id;
    match members db !! (documentID, userID) with
    | None => fail ErrNotFound
    | Some record =>
      require (m_Revision record =? expected) ErrPrecondition ≫= λ _,
      modify (λ db, set_members (delete (documentID, userID) (members db)) db) ≫= λ _,
      advancePermissionRevision ctx document
    end).

(** ** Collaboration *)

Definition AuthorizeCollaboration (documentID : string) (actorID : Z) : store Document :=
  document ← getDocument documentID actorID false;
  if CanRead (v_Access document) then mret document else fail ErrForbidden.

Definition UpsertProjection (p : Projection) : store unit :=
  transaction (
    '(document, _) ← lockDocument (pv_DocumentID p) 0 false;
    current ← first (λ db, projections db !! pv_DocumentID p);
    if pv_Sequence p <? pr_Sequence current then fail ErrPrecondition
    else if pv_Sequence p =? pr_Sequence current then
      require ((pr_Content current =?= pv_Content p) && (pr_PlainText current =?= pv_PlainText p))
        ErrConflict
    else
      sql "update document projection"
        (update_projection (MkProjectionRow (pv_DocumentID p) (pv_Sequence p) (pv_Content p)
                              (pv_PlainText p) (pv_ProjectedAt p))) ≫= λ _,
      sql "advance projected document sequence"
        (update_document (d_ID document) (λ _, true)
           (λ d, d |> set_d_ContentRevision (pv_Sequence p)
                   |> set_d_UpdatedAt (pv_ProjectedAt p))) ≫= λ _,
      sql "schedule history checkpoint" (markHistoryDirty (pv_DocumentID p) (pv_ProjectedAt p))).

End members.

(** Folders: [internal/repository/folders.go]. *)

Definition folderFromModel (f : FolderRow) : Folder :=
  MkFolder (f_ID f) (f_ParentID f) (f_Name f) (wrap32 (f_Depth f)) (f_Revision f)
    (f_CreatedAt f) (f_UpdatedAt f).

Definition nullableFolderID (value : string) : option string :=
  if TrimSpace value =?= EmptyString then None else Some value.

Definition owned_folder (i : string) (ownerID : Z) (db : KDB) : option FolderRow :=
  folders db !! i ≫= λ f, if f_OwnerID f =? ownerID then Some f else None.

Definition depth_error {A} : store A :=
  fail (EValidation [MkValidationError "parent_id" "folder depth cannot exceed 8"]).

Section folders.
Context `{Unicode, Uuid, Codec, Pg}.

Definition folder_order : FolderRow → FolderRow → comparison :=
  then_by (by_key (λ f, sql_lower (f_Name f)) text_compare) (by_key f_ID String.compare).

Definition ListFolders (ownerID : Z) (parentID : option string) : store (list Folder) :=
  db ← gets id;
  mret (folderFromModel <$>
          order_by folder_order
            (rows_where (λ f, (f_OwnerID f =? ownerID) && (f_ParentID f =?= parentID)) (folders db))).

Definition CreateFolder (ctx : Ctx) (ownerID : Z) (name : string) (parentID : option string)
  (idempotency : Idempotency) : store Folder :=
  transaction (
    existing ← idempotentResource ctx idempotency;
    match existing with
    | Some existingID =>
      row ← first (owned_folder existingID ownerID);
      mret (folderFromModel row)
    | None =>
      depth ← match parentID with
              | None => mret 1
              | Some p =>
                parent ← first (owned_folder p ownerID);
                let depth := wrap32 (f_Depth parent + 1) in
                if 8 <? depth then depth_error else mret depth
              end;
      i ← NewID;
      let row := MkFolderRow i ownerID parentID name depth 1 (now ctx) (now ctx) in
      sql_write "create knowledge folder" (insert_folder row) ≫= λ _,
      saveIdempotency ctx idempotency i ≫= λ _,
      mret (folderFromModel row)
    end).

(** The recursive query of [UpdateFolder]: is [target] the folder [i] or below
    it?  As many rounds as there are folders reach every descendant. *)
Definition folder_cycle (db : KDB) (ownerID : Z) (i target : string) : bool :=
  is_some (owned_folder i ownerID db)
  && bool_decide (target ∈ folder_descendants (size (folders db)) (λ f, f_OwnerID f =? ownerID)
                             (folders db) [i]).

(** The parent and depth a move gives to a folder. *)
Definition move_target (ownerID : Z) (i parentID : string) : store (option string * Z) :=
  if parentID =?= i then fail ErrConflict
  else
    newDepth ← (if parentID =?= EmptyString then mret 1
                else
                  db ← gets id;
                  require (negb (folder_cycle db ownerID i parentID)) ErrConflict ≫= λ _,
                  parent ← first (owned_folder parentID ownerID);
                  mret (wrap32 (f_Depth parent + 1)));
    if 8 <? newDepth then depth_error else mret (nullableFolderID parentID, newDepth).

Definition UpdateFolder (ctx : Ctx) (ownerID : Z) (i : string) (expected : Z)
  (name parentID : option string) : store Folder :=
  transaction (
    row ← first (owned_folder i ownerID);
    require (f_Revision row =? expected) ErrPrecondition ≫= λ _,
    require (negb (is_none name && is_none parentID))
      (EValidation [MkValidationError "folder" "at least one field must be provided"]) ≫= λ _,
    move ← match parentID with
           | None => mret None
           | Some p => t ← move_target ownerID i p; mret (Some t)
           end;
    sql_write "update knowledge folder"
      (update_folders (λ f, f_ID f =?= i)
         (λ f, let f := f |> set_f_Revision (f_Revision f + 1) |> set_f_UpdatedAt (now ctx) in
               let f := match name with Some n => set_f_Name n f | None => f end in
               match move with
               | Some (parent, depth) => f |> set_f_ParentID parent |> set_f_Depth depth
               | None => f
               end)) ≫= λ _,
    row ← first (λ db, folders db !! i);
    mret (folderFromModel row)).

Definition DeleteFolder (ctx : Ctx) (ownerID : Z) (i : string) (expected : Z) : store unit :=
  transaction (
    row ← first (owned_folder i ownerID);
    require (f_Revision row =? expected) ErrPrecondition ≫= λ _,
    sql "reparent child folders"
      (update_folders (λ f, (f_OwnerID f =? ownerID) && (f_ParentID f =?= Some i))
         (λ f, f |> set_f_ParentID (f_ParentID row) |> set_f_Depth (Z.max (f_Depth f - 1) 1)
                 |> set_f_UpdatedAt (now ctx))) ≫= λ _,
    sql "reparent folder documents"
      (update_placements (λ p, (pl_OwnerID p =? ownerID) && (pl_FolderID p =?= Some i))
         (λ p, p |> set_pl_FolderID (f_ParentID row) |> set_pl_Revision (pl_Revision p + 1)
                 |> set_pl_UpdatedAt (now ctx))) ≫= λ _,
    sql "delete knowledge folder" (delete_folder i)).

End folders.
