(* ===== verification/KOutbox.v ===== *)
(** The transactional outbox: [internal/repository/outbox.go]. *)

From stdpp Require Import base gmap list sets strings.
From Stdlib Require Import ZArith Lia.
From S2P Require Import Prelude.
From S2P Require Import GoStrings.
From S2P Require Import KDomain.
From S2P Require Import RichText.
From S2P Require Import Json.
From S2P Require Import KSchema.
From S2P Require Import KTypes.
From S2P Require Import KStore.

Open Scope Z_scope.

Section outbox.
Context `{Unicode, Uuid, Codec, Pg}.

Definition outbox_due (ctx : Ctx) (o : OutboxRow) : bool :=
  is_none (o_PublishedAt o) && is_none (o_ParkedAt o) && (o_NextAttemptAt o <=? now ctx).

Definition outbox_order : OutboxRow → OutboxRow → comparison :=
  then_by (by_key o_NextAttemptAt Z.compare)
    (then_by (by_key o_CreatedAt Z.compare) (by_key o_ID String.compare)).

(** One iteration of the claim loop. *)
Definition claim_outbox (ctx : Ctx) (lease : Z) (o : OutboxRow) : store OutboxMessage :=
  sql "lease outbox message"
    (update_outbox (λ p, o_ID p =?= o_ID o)
       (λ p, p |> set_o_Attempts (o_Attempts p + 1) |> set_o_NextAttemptAt (now ctx + lease))) ≫= λ _,
  mret (MkOutboxMessage (o_ID o) (o_Subject o) (o_Payload o) (decodeTraceHeaders (o_TraceHeaders o))
          (o_Attempts o + 1)).

Definition ClaimOutbox (ctx : Ctx) (limit lease : Z) : store (list OutboxMessage) :=
  let limit := if limit <=? 0 then 50 else limit in
  transaction (
    db ← gets id;
    collect (take (Z.to_nat limit) (order_by outbox_order (rows_where (outbox_due ctx) (outbox db))))
      (claim_outbox ctx lease)).

(** An update that must reach a row. *)
Definition outbox_update (operation : string) (P : OutboxRow → bool) (f : OutboxRow → OutboxRow)
  : store unit :=
  n ← sql operation (update_outbox P f);
  require (negb (n =? 0)) ErrNotFound.

Definition unpublished (i : string) (o : OutboxRow) : bool := (o_ID o =?= i) && is_none (o_PublishedAt o).

Definition retriable (i : string) (o : OutboxRow) : bool := unpublished i o && is_none (o_ParkedAt o).

Definition MarkOutboxPublished (ctx : Ctx) (i : string) : store unit :=
  outbox_update "mark outbox message published" (unpublished i) (set_o_PublishedAt (Some (now ctx))).

Definition RetryOutbox (ctx : Ctx) (i : string) (delay : Z) : store unit :=
  outbox_update "schedule outbox retry" (retriable i)
    (λ o, o |> set_o_NextAttemptAt (now ctx + delay) |> set_o_LastErrorKey "publish_failed").

Definition ParkOutbox (ctx : Ctx) (i reason : string) : store unit :=
  outbox_update "park outbox message" (retriable i)
    (λ o, o |> set_o_ParkedAt (Some (now ctx)) |> set_o_LastErrorKey reason).

End outbox.
