(* ===== verification/KCommits.v ===== *)
(** Explicit commits: [internal/repository/commits.go]. *)

From stdpp Require Import base gmap list sets strings.
From Stdlib Require Import ZArith Lia.
From S2P Require Import Prelude.
From S2P Require Import GoStrings.
From S2P Require Import KDomain.
From S2P Require Import RichText.
From S2P Require Import Json.
From S2P Require Import KSchema.
From S2P Require Import KTypes.
From S2P Require Import KStore.

Open Scope Z_scope.

(** [repository.CommitInput] *)
Record CommitInput := MkCommitInput {
  ci_Kind : string;
  ci_Label : string;
  ci_Description : string;
  ci_Content : option RichTextDocument;
  ci_PlainText : string;
  ci_ContentHash : string;
  ci_Idempotency : Idempotency;
}.

Section commits.
Context `{Unicode, Uuid, Url, Codec, Pg}.

Definition contentHash (content : RichTextDocument) (plainText : string) : store string :=
  payload ← marshal "encode content hash"
    (JObj [("content", document_json content); ("plain_text", JStr plainText)]);
  mret (sha256_hex payload).

Definition commitFromModel (c : CommitRow) : store Commit :=
  content ← expect (EOther "decode commit content") (decode_document (c_Content c));
  mret (MkCommit (c_ID c) (c_DocumentID c) (c_Kind c) (c_Label c) (c_Description c)
          (c_ContributorName c) (c_Sequence c) (c_ContentHash c) content (c_PlainText c)
          (c_CreatedAt c) (c_UpdatedAt c)).

Definition commit_order : CommitRow → CommitRow → comparison :=
  then_by (descending (by_key c_CreatedAt Z.compare)) (descending (by_key c_ID String.compare)).

Definition latest_commit (db : KDB) (documentID : string) : option CommitRow :=
  first_where (λ c, c_DocumentID c =?= documentID) commit_order (commits db).

Definition or_default (value fallback : string) : string :=
  if TrimSpace value =?= EmptyString then fallback else value.

Definition CreateCommit (ctx : Ctx) (documentID : string) (actorID : Z) (input : CommitInput)
  : store Commit :=
  transaction (
    existing ← idempotentResource ctx (ci_Idempotency input);
    match existing with
    | Some existingID => row ← first (λ db, commits db !! existingID); commitFromModel row
    | None =>
      '(record, access) ← lockDocument documentID actorID false;
      require (CanEdit access) ErrForbidden ≫= λ _,
      projection ← getProjection documentID;
      '(content, plainText) ←
        match ci_Content input with
        | Some content => mret (content, ci_PlainText input)
        | None =>
          current ← expect (EOther "decode current projection") (decode_document (pr_Content projection));
          mret (current, pr_PlainText projection)
        end;
      lift (Validate content) ≫= λ _,
      let kind := or_default (ci_Kind input) "manual" in
      let label := or_default (ci_Label input) kind in
      hash ← (if TrimSpace (ci_ContentHash input) =?= EmptyString then contentHash content plainText
              else mret (TrimSpace (ci_ContentHash input)));
      db ← gets id;
      match latest_commit db documentID with
      | Some latest =>
        if c_ContentHash latest =?= hash then mret (Some latest) else mret None
      | None => mret None
      end ≫= λ unchanged,
      match unchanged with
      | Some latest => commitFromModel latest
      | None =>
        encoded ← marshal "encode commit content" (document_json content);
        i ← NewID;
        let commit := MkCommitRow i documentID kind label (ci_Description input) actorID
                        (d_OwnerUsername record) (pr_Sequence projection) hash encoded plainText
                        ((kind =?= "publish") || (kind =?= "restore")) (now ctx) (now ctx) in
        sql_write "create document commit" (insert_commit commit) ≫= λ _,
        saveIdempotency ctx (ci_Idempotency input) i ≫= λ _,
        commitFromModel commit
      end
    end).

Definition ListCommits (documentID : string) (actorID limit : Z) : store (list Commit) :=
  '(_, access) ← lockDocument documentID actorID false;
  require (CanRead access) ErrForbidden ≫= λ _,
  let limit := if (limit <=? 0) || (200 <? limit) then 50 else limit in
  db ← gets id;
  collect (take (Z.to_nat limit)
             (order_by commit_order (rows_where (λ c, c_DocumentID c =?= documentID) (commits db))))
    commitFromModel.

Definition GetCommit (commitID : string) (actorID : Z) : store Commit :=
  row ← first (λ db, commits db !! commitID);
  '(_, access) ← lockDocument (c_DocumentID row) actorID false;
  require (CanRead access) ErrForbidden ≫= λ _,
  commitFromModel row.

Definition RenameCommit (ctx : Ctx) (commitID : string) (actorID : Z) (label description : string)
  : store Commit :=
  transaction (
    row ← first (λ db, commits db !! commitID);
    '(_, access) ← lockDocument (c_DocumentID row) actorID false;
    require (CanEdit access) ErrForbidden ≫= λ _,
    require (negb ((TrimSpace label =?= EmptyString) || (160 <? rune_count label)
                   || (2000 <? rune_count description)))
      (EValidation [MkValidationError "commit" "label and description are invalid"]) ≫= λ _,
    let row := row |> set_c_Label (TrimSpace label) |> set_c_Description (TrimSpace description)
                   |> set_c_UpdatedAt (now ctx) in
    content ← sql_write "rename document commit" (to_jsonb (c_Content row));
    modify (λ db, set_commits (<[commitID := set_c_Content content row]> (commits db)) db) ≫= λ _,
    commitFromModel row).

(** The reply is built from the records in memory, whose counters the
    [sequence + 1] expressions do not touch. *)
Definition RestoreCommit (ctx : Ctx) (commitID : string) (actorID : Z) (idempotency : Idempotency)
  : store Document :=
  transaction (
    existing ← idempotentResource ctx idempotency;
    match existing with
    | Some existingID => getDocument existingID actorID false
    | None =>
      commit ← first (λ db, commits db !! commitID);
      '(record, access) ← lockDocument (c_DocumentID commit) actorID false;
      require (CanEdit access) ErrForbidden ≫= λ _,
      projection ← first (λ db, projections db !! c_DocumentID commit);
      sql "restore document projection"
        (update_projection (MkProjectionRow (c_DocumentID commit) (pr_Sequence projection + 1)
                              (c_Content commit) (c_PlainText commit) (now ctx))) ≫= λ _,
      sql "restore document revision"
        (update_document (d_ID record) (λ _, true)
           (λ d, d |> set_d_ContentRevision (d_ContentRevision d + 1)
                   |> set_d_UpdatedAt (now ctx))) ≫= λ _,
      i ← NewID;
      sql_write "create restore commit"
        (insert_commit
           (MkCommitRow i (c_DocumentID commit) "restore" ("Restored " +:+ c_Label commit)
              (c_Description commit) (c_ContributorID commit) (c_ContributorName commit)
              (c_Sequence commit) (c_ContentHash commit) (c_Content commit) (c_PlainText commit)
              (c_IsAnchor commit) (now ctx) (now ctx))) ≫= λ _,
      saveIdempotency ctx idempotency (d_ID record) ≫= λ _,
      mret (documentFromModel (set_d_UpdatedAt (now ctx) record) access
              (MkProjectionRow (c_DocumentID commit) (pr_Sequence projection) (c_Content commit)
                 (c_PlainText commit) (now ctx)))
    end).

End commits.
