(* ===== verification/KListing.v ===== *)
(** Listing documents: [ListDocuments] and [buildListDocumentsQuery] of
    [internal/repository/store.go].

    The query joins a document with the caller's membership, its projection,
    placement and publication, filters, orders by a time column and the
    identifier, newest first, and returns one row more than the page so that
    the caller can tell whether there is a next page. *)

From stdpp Require Import base gmap list sets strings sorting.
From Stdlib Require Import ZArith Lia Ascii.
From S2P Require Import Prelude.
From S2P Require Import GoStrings.
From S2P Require Import KDomain.
From S2P Require Import RichText.
From S2P Require Import Json.
From S2P Require Import KSchema.
From S2P Require Import KTypes.
From S2P Require Import KStore.
From S2P Require Import Base64.

Open Scope Z_scope.

(** [strings.NewReplacer] of the three pattern characters *)
Definition escapeLike (value : string) : string :=
  of_bytes (bytes (TrimSpace value) ≫= λ b,
              if (b =? 92) || (b =? 37) || (b =? 95) then [92; b] else [b]).

(** NULLs come first in a descending order. *)
Definition compare_nulls (x y : option Z) : comparison :=
  match x, y with
  | Some a, Some b => Z.compare a b
  | Some _, None => Lt
  | None, Some _ => Gt
  | None, None => Eq
  end.

Definition order_column (o : ListOptions) (d : DocumentRow) : option Z :=
  if lo_Published o then d_PublishedAt d
  else if lo_Deleted o then d_DeletedAt d
  else Some (d_UpdatedAt d).

Definition listing_order (o : ListOptions) : DocumentRow → DocumentRow → comparison :=
  then_by (descending (by_key (order_column o) compare_nulls))
    (descending (by_key d_ID String.compare)).

(** [(column, d.id) < (time, id)]; a NULL column is not smaller. *)
Definition after_cursor (o : ListOptions) (c : Cursor) (d : DocumentRow) : bool :=
  match order_column o d with
  | None => false
  | Some t => (t <? cu_Time c)
              || ((t =? cu_Time c)
                  && match String.compare (d_ID d) (cu_ID c) with Lt => true | _ => false end)
  end.

Section listing.
Context `{Unicode, Uuid, Codec, Pg}.

Definition membership (db : KDB) (o : ListOptions) (d : DocumentRow) : option MemberRow :=
  members db !! (d_ID d, lo_ActorID o).

(** The search join: title, summary or projected text matches the pattern. *)
Definition search_match (db : KDB) (query : string) (d : DocumentRow) : bool :=
  if query =?= EmptyString then true
  else
    let pattern := ("%" +:+ escapeLike query +:+ "%")%string in
    ilike (d_Title d) pattern || ilike (d_Summary d) pattern
    || opt_test (λ p, ilike (pr_PlainText p) pattern) (projections db !! d_ID d).

Definition scope_match (ctx : Ctx) (db : KDB) (o : ListOptions) (d : DocumentRow) : bool :=
  if lo_Published o then
    is_some (publications db !! d_ID d) && (d_PublicationStatus d =?= PublicationPublished)
    && is_none (d_DeletedAt d)
  else if lo_Deleted o then
    is_some (d_DeletedAt d) && (d_OwnerID d =? lo_ActorID o)
    && match d_PurgeAfter d with None => true | Some p => now ctx <? p end
  else
    is_none (d_DeletedAt d)
    && ((d_OwnerID d =? lo_ActorID o) || is_some (membership db o d)).

(** Every condition but the cursor. *)
Definition listing_match (ctx : Ctx) (db : KDB) (o : ListOptions) (d : DocumentRow) : bool :=
  search_match db (lo_Query o) d
  && scope_match ctx db o d
  && (if lo_Access o =?= AccessOwner then d_OwnerID d =? lo_ActorID o
      else if lo_Access o =?= "shared" then is_some (membership db o d) else true)
  && (if lo_Publication o =?= "published" then d_PublicationStatus d =?= PublicationPublished
      else if lo_Publication o =?= "draft" then negb (d_PublicationStatus d =?= PublicationPublished)
      else true)
  && (if lo_FolderID o =?= EmptyString then true
      else opt_test (λ p, pl_FolderID p =?= Some (lo_FolderID o))
             (placements db !! (d_OwnerID d, d_ID d))).

(** The rows of the query built by [buildListDocumentsQuery]. *)
Definition list_rows (ctx : Ctx) (db : KDB) (o : ListOptions) (limit : Z) : list DocumentRow :=
  take (Z.to_nat (limit + 1))
    (order_by (listing_order o)
       (rows_where (λ d, listing_match ctx db o d
                         && match lo_Cursor o with None => true | Some c => after_cursor o c d end)
          (documents db))).

(** [CASE WHEN d.owner_id = actor THEN 'owner' ELSE COALESCE(m.role, 'none')] *)
Definition listing_access (db : KDB) (o : ListOptions) (d : DocumentRow) : string :=
  if d_OwnerID d =? lo_ActorID o then AccessOwner
  else match membership db o d with Some m => m_Role m | None => AccessNone end.

(** The public columns of a listed publication replace the document's. *)
Definition overlay_publication (p : PublicationRow) (v : Document) : Document :=
  let v := v
    |> set_v_Title (pb_Title p)
    |> set_v_Summary (pb_Summary p)
    |> set_v_Slug (pb_Slug p)
    |> set_v_Language (pb_Language p)
    |> set_v_Tags (publicationTags (pb_Tags p))
    |> set_v_PublicationHash (pb_PublicationHash p)
    |> set_v_Icon (pb_Icon p)
    |> set_v_CoverAttachmentID (pb_CoverAttachmentID p)
    |> set_v_CoverFocalX (pb_CoverFocalX p)
    |> set_v_CoverFocalY (pb_CoverFocalY p) in
  if (v_PublicationHash v =?= EmptyString) && negb (pb_Content p =?= EmptyString)
  then match publicationHashForSnapshot p with
       | Some hash => set_v_PublicationHash hash v
       | None => v
       end
  else v.

(** One iteration of the loop over the rows.  The selected column
    [publication_hash] is the publication's, so the document's own is not
    read. *)
Definition listed_document (db : KDB) (o : ListOptions) (d : DocumentRow) : Document :=
  let projection := MkProjectionRow (d_ID d) (d_ContentRevision d) EmptyString EmptyString
                      (match projections db !! d_ID d with
                       | Some p => pr_ProjectedAt p
                       | None => zero_time
                       end) in
  let v := documentFromModel (set_d_PublicationHash EmptyString d) (listing_access db o d) projection in
  if lo_Published o then
    match publications db !! d_ID d with
    | Some p => overlay_publication p v
    | None => v
    end
  else v.

Definition ListDocuments (ctx : Ctx) (o : ListOptions) : store (list Document) :=
  let limit := if lo_Limit o <=? 0 then 20 else lo_Limit o in
  db ← gets id;
  mret (listed_document db o <$> list_rows ctx db o limit).

End listing.

(** Page cursors: [EncodeCursor] and [DecodeCursor] of
    [internal/repository/store.go].

    A cursor is the JSON text of a version, an instant and an identifier in
    URL-safe base64.  The JSON codec of that one structure is a parameter with
    the two facts the code relies on: a text it writes is read back, and an
    empty text is not a value. *)

(** [jsoncodec.Marshal] and [Unmarshal] at type [Cursor] *)
Class CursorCodec := {
  marshal_cursor : Cursor → option string;
  unmarshal_cursor : string → option Cursor;
  unmarshal_marshal c text : marshal_cursor c = Some text → unmarshal_cursor text = Some c;
  unmarshal_empty : unmarshal_cursor EmptyString = None;
}.

Section cursors.
Context `{Uuid, CursorCodec}.

Definition EncodeCursor (value : Cursor) : result kerror string :=
  match marshal_cursor (set_cu_Version 1 value) with
  | None => Err (EOther "encode cursor")
  | Some payload => Ok (EncodeToString payload)
  end.

Definition DecodeCursor (value : string) : result kerror (option Cursor) :=
  if TrimSpace value =?= EmptyString then Ok None
  else
    match DecodeString value with
    | None => Err (EOther "decode cursor")
    | Some payload =>
      match unmarshal_cursor payload with
      | None => Err (EOther "decode cursor: invalid cursor")
      | Some result =>
        if negb (cu_Version result =? 1) || (cu_Time result =? zero_time)
           || negb (is_uuid7 (cu_ID result))
        then Err (EOther "decode cursor: invalid cursor")
        else Ok (Some result)
      end
    end.

Lemma decode_encoded c text :
  EncodeCursor c = Ok text → cu_Time c ≠ zero_time → is_uuid7 (cu_ID c) = true →
  text ≠ EmptyString ∧ DecodeCursor text = Ok (Some (set_cu_Version 1 c)).
Proof.
  unfold EncodeCursor, DecodeCursor. intros He Ht Hi.
  destruct (marshal_cursor _) as [payload|] eqn:Hm; [|done]. injection He as <-.
  pose proof (unmarshal_marshal _ _ Hm) as Hu.
  assert (EncodeToString payload ≠ EmptyString) as Hne.
  { intros ->%EncodeToString_empty. by rewrite unmarshal_empty in Hu. }
  split; [done|]. rewrite TrimSpace_EncodeToString, bool_decide_false by done.
  rewrite DecodeString_EncodeToString, Hu. destruct c as [v t i]; simpl in *.
  rewrite Hi, (proj2 (Z.eqb_neq _ _)) by done. done.
Qed.

(** A cursor the service hands out is read back as the position it
    was made from, and whatever text a client sends, only a version 1 position
    with an instant and a UUIDv7 is accepted: every other text is the first
    page (when blank) or an error. *)
Theorem cursor_roundtrip c text :
  (EncodeCursor c = Ok text → cu_Time c ≠ zero_time → is_uuid7 (cu_ID c) = true →
   DecodeCursor text = Ok (Some (set_cu_Version 1 c))) ∧
  (∀ v p, DecodeCursor v = Ok (Some p) →
     cu_Version p = 1 ∧ cu_Time p ≠ zero_time ∧ is_uuid7 (cu_ID p) = true) ∧
  (∀ v, DecodeCursor v = Ok None ↔ TrimSpace v = EmptyString).
Proof.
  split_and!.
  - intros. by apply decode_encoded.
  - intros v p. unfold DecodeCursor. repeat case_match; try done. intros [= ->].
    match goal with Hg : _ || _ || _ = false |- _ => apply orb_false_iff in Hg as [[Hv Ht]%orb_false_iff Hi] end.
    rewrite negb_false_iff in *. split_and!; [lia|lia|done].
  - intros v. unfold DecodeCursor. case_bool_decide; [naive_solver|]. repeat case_match; naive_solver.
Qed.

End cursors.

(** ** A concrete codec

    Numbers in binary, least significant bit first, between a sign and a
    semicolon. *)

Fixpoint bits_text (p : positive) (rest : string) : string :=
  match p with
  | xH => String ";"%char rest
  | xO q => String "0"%char (bits_text q rest)
  | xI q => String "1"%char (bits_text q rest)
  end.

Fixpoint bits_from (s : string) : option (positive * string) :=
  match s with
  | EmptyString => None
  | String c s' =>
    if bool_decide (c = ";"%char) then Some (xH, s')
    else '(p, rest) ← bits_from s';
         Some (if bool_decide (c = "0"%char) then xO p else xI p, rest)
  end.

Definition int_text (z : Z) (rest : string) : string :=
  match z with
  | Z0 => String "z"%char rest
  | Zpos p => String "+"%char (bits_text p rest)
  | Zneg p => String "-"%char (bits_text p rest)
  end.

Definition int_from (s : string) : option (Z * string) :=
  match s with
  | EmptyString => None
  | String c s' =>
    if bool_decide (c = "z"%char) then Some (0, s')
    else '(p, rest) ← bits_from s';
         Some (if bool_decide (c = "+"%char) then Zpos p else Zneg p, rest)
  end.

Lemma bits_from_text p rest : bits_from (bits_text p rest) = Some (p, rest).
Proof. induction p as [p IH|p IH|]; simpl; rewrite ?IH; done. Qed.

Lemma int_from_text z rest : int_from (int_text z rest) = Some (z, rest).
Proof. destruct z; simpl; rewrite ?bits_from_text; done. Qed.

Definition binary_marshal (c : Cursor) : option string :=
  Some (int_text (cu_Version c) (int_text (cu_Time c) (cu_ID c))).

Definition binary_unmarshal (text : string) : option Cursor :=
  '(version, text) ← int_from text;
  '(time, i) ← int_from text;
  Some (MkCursor version time i).

Lemma binary_roundtrip c text : binary_marshal c = Some text → binary_unmarshal text = Some c.
Proof.
  unfold binary_marshal, binary_unmarshal. intros [= <-]. rewrite int_from_text. simpl.
  rewrite int_from_text. by destruct c.
Qed.

Definition binary_cursors : CursorCodec := {|
  marshal_cursor := binary_marshal;
  unmarshal_cursor := binary_unmarshal;
  unmarshal_marshal := binary_roundtrip;
  unmarshal_empty := eq_refl;
|}.

Definition every_uuid : Uuid := {| uuid_version := λ _, Some 7 |}.

Definition sample_cursor : Cursor := MkCursor 1 1700000000 "018f3b1e-7c00-7000-8000-000000000001".

Definition sample_cursor_text : string :=
  EncodeToString (default EmptyString (binary_marshal sample_cursor)).

Lemma cursor_roundtrip_witness :
  @DecodeCursor every_uuid binary_cursors sample_cursor_text = Ok (Some sample_cursor) ∧
  @DecodeCursor every_uuid binary_cursors "not a cursor" ≠ Ok None.
Proof.
  split.
  - apply (@cursor_roundtrip every_uuid binary_cursors sample_cursor sample_cursor_text); by vm_compute.
  - by vm_compute.
Defined.
