(* ===== verification/KLogic.v ===== *)
(** The request logic of the Knowledge service: [internal/logic/common.go],
    [documents.go], [members.go], [collaboration.go], [internal/errors/catalog.go]
    and the directory client [internal/client/directory.go].

    A call validates and normalises its input, asks the identity directory for
    users, and runs one store operation.  Every error but the ones of
    [buildDocumentPage] goes through [mapError], which gives it a definition of
    the error catalogue. *)

From stdpp Require Import base gmap list sets strings.
From Stdlib Require Import ZArith Lia SpecFloat.
From S2P Require Import Prelude.
From S2P Require Import GoStrings.
From S2P Require Import KDomain.
From S2P Require Import RichText.
From S2P Require Import Json.
From S2P Require Import KSchema.
From S2P Require Import KTypes.
From S2P Require Import KStore.
From S2P Require Import KDocuments.
From S2P Require Import KHistory.
From S2P Require Import KPublication.
From S2P Require Import KSharing.
From S2P Require Import KCommits.
From S2P Require Import KListing.

Open Scope Z_scope.

(** ** Errors *)

(** The definitions of [internal/errors/catalog.go] *)
Inductive app_code :=
| InvalidInput | NotFound | Conflict | Forbidden | Unauthenticated | Unavailable
| Precondition | Gone | QuotaExceeded | Internal.

(** An error of a call: a definition with the error it wraps, or an error that
    was returned as it is. *)
Inductive lerror :=
| App (code : app_code) (cause : option kerror)
| Raw (e : kerror).

#[export] Instance app_code_eq_dec : EqDecision app_code.
Proof. solve_decision. Defined.

#[export] Instance lerror_eq_dec : EqDecision lerror.
Proof. solve_decision. Defined.

Definition mapError (err : kerror) : lerror :=
  App (match err with
       | EValidation _ => InvalidInput
       | ErrNotFound | ErrDirectoryNotFound => NotFound
       | ErrGone => Gone
       | ErrForbidden => Forbidden
       | ErrPrecondition => Precondition
       | ErrQuotaExceeded => QuotaExceeded
       | ErrConflict => Conflict
       | ErrDirectoryUnauthorized => Unauthenticated
       | ErrDirectoryUnavailable => Unavailable
       | _ => Internal
       end) (Some err).

Definition logic (A : Type) : Type := tx KDB lerror A.

(** [result, err := ...; if err != nil { return mapError(err) }] *)
Definition mapped {A} (m : store A) : logic A := wrap mapError m.

Definition validated {A} (r : result kerror A) : logic A := mapped (lift r).

Definition positive_revision (expected : Z) : result kerror unit :=
  check (0 <? expected) "expected_revision" "must be positive".

(** ** The identity directory *)

(** A user as the identity service answers it ([None]: no user), or the failure
    of the call: the code of a business status, or any other error. *)
Inductive identity_answer :=
| Answer (user : option PublicUser)
| BizStatus (code : Z)
| CallFailed.

Definition CodeUserNotFound : Z := 20006.
Definition CodeUnauthenticated : Z := 20007.
Definition CodeForbidden : Z := 20008.

Definition mapDirectoryError (a : identity_answer) : kerror :=
  match a with
  | BizStatus code =>
    if code =? CodeUserNotFound then ErrDirectoryNotFound
    else if (code =? CodeUnauthenticated) || (code =? CodeForbidden) then ErrDirectoryUnauthorized
    else ErrDirectoryUnavailable
  | _ => ErrDirectoryUnavailable
  end.

(** The body [CurrentUser] and [ResolveUser] of the client share. *)
Definition directory_user (a : identity_answer) : result kerror PublicUser :=
  match a with
  | Answer (Some user) =>
    if (pu_ID user <=? 0) || (pu_Username user =?= EmptyString) then Err ErrDirectoryUnavailable
    else Ok user
  | Answer None => Err ErrDirectoryUnavailable
  | failure => Err (mapDirectoryError failure)
  end.

(** The answers of the identity service to one request. *)
Record Identity := MkIdentity {
  GetCurrentUser : identity_answer;
  IdentityResolveUser : string → identity_answer;
}.

Definition CurrentUser (identity : Identity) : result kerror PublicUser :=
  directory_user (GetCurrentUser identity).

Definition ResolveUser (identity : Identity) (username : string) : result kerror PublicUser :=
  directory_user (IdentityResolveUser identity username).

Section logic.
Context `{Unicode, Uuid, Url, Codec, Pg, CursorCodec}.

(** ** Common *)

Definition idempotency (actorID : Z) (operation key : string) (request : json) : result kerror Idempotency :=
  let key := TrimSpace key in
  ValidateIdempotencyKey key ≫= λ _,
  if key =?= EmptyString then Ok (MkIdempotency 0 EmptyString EmptyString EmptyString)
  else match json_encode request with
       | None => Err (EOther "hash idempotent request")
       | Some payload => Ok (MkIdempotency actorID operation key (sha256_hex payload))
       end.

Definition effectiveLimit (value : Z) : Z := if value <=? 0 then 20 else value.

(** [actorID <= 0] *)
Definition known_actor (actorID : Z) : result kerror unit :=
  if actorID <=? 0 then Err ErrForbidden else Ok tt.

Definition validateMutation (documentID : string) (expected : Z) : result kerror unit :=
  ValidateID "document_id" documentID ≫= λ _, positive_revision expected.

(** An optional identifier: [None] and the empty string are left alone. *)
Definition validate_optional_id (field : string) (value : option string) : result kerror unit :=
  match value with
  | Some v => if v =?= EmptyString then Ok tt else ValidateID field v
  | None => Ok tt
  end.

(** [parentID] with the empty string for no parent *)
Definition parent_pointer (parentID : option string) : option string :=
  match parentID with Some v => if v =?= EmptyString then None else Some v | None => None end.

Definition folder_name (name : string) : result kerror string :=
  let name := collapse_spaces name in
  check ((1 <=? rune_count name) && (rune_count name <=? 120)) "name" "must contain 1-120 characters"
  ≫= λ _, Ok name.

Definition language_of (value : string) : result kerror string :=
  let value := TrimSpace value in
  check ((2 <=? len value) && (len value <=? 16)) "language" "must contain 2-16 characters"
  ≫= λ _, Ok value.

(** [if p != nil { v, err := f( *p ); ...; p = &v }] *)
Definition normalize_opt {A} (f : A → result kerror A) (o : option A) : result kerror (option A) :=
  match o with
  | None => Ok None
  | Some a => b ← f a; Ok (Some b)
  end.

Definition title_of (value : string) : result kerror string :=
  let value := TrimSpace value in ValidateTitle value ≫= λ _, Ok value.

Definition summary_of (value : string) : result kerror string :=
  let value := TrimSpace value in ValidateSummary value ≫= λ _, Ok value.

(** ** Folders *)

Definition LogicListFolders (actorID : Z) (parentID : option string) : logic (list Folder) :=
  validated (known_actor actorID) ≫= λ _,
  validated (validate_optional_id "parent_id" parentID) ≫= λ _,
  mapped (ListFolders actorID (parent_pointer parentID)).

Definition LogicCreateFolder (ctx : Ctx) (actorID : Z) (name : string) (parentID : option string)
  (key : string) : logic Folder :=
  validated (known_actor actorID) ≫= λ _,
  name ← validated (folder_name name);
  validated (validate_optional_id "parent_id" parentID) ≫= λ _,
  let parentID := parent_pointer parentID in
  value ← validated (idempotency actorID "create_folder" key
                       (JObj [("name", JStr name); ("parent_id", JOptStr parentID)]));
  mapped (CreateFolder ctx actorID name parentID value).

Definition LogicUpdateFolder (ctx : Ctx) (actorID : Z) (i : string) (expected : Z)
  (name parentID : option string) : logic Folder :=
  validated (known_actor actorID) ≫= λ _,
  validated (ValidateID "folder_id" i) ≫= λ _,
  validated (positive_revision expected) ≫= λ _,
  name ← validated (normalize_opt folder_name name);
  validated (validate_optional_id "parent_id" parentID) ≫= λ _,
  validated (check (is_some name || is_some parentID) "folder" "at least one field must be provided")
  ≫= λ _,
  mapped (UpdateFolder ctx actorID i expected name parentID).

Definition LogicDeleteFolder (ctx : Ctx) (actorID : Z) (i : string) (expected : Z) : logic unit :=
  validated (known_actor actorID) ≫= λ _,
  validated (ValidateID "folder_id" i) ≫= λ _,
  validated (positive_revision expected) ≫= λ _,
  mapped (DeleteFolder ctx actorID i expected).

(** ** Reading documents *)

Record ListDocumentsInput := MkListDocumentsInput {
  li_ActorID : Z;
  li_Query : string;
  li_Cursor : string;
  li_Limit : Z;
  li_Access : string;
  li_Publication : string;
  li_FolderID : string;
}.

Record DocumentPage := MkDocumentPage {
  Items : list Document;
  NextCursor : option string;
  HasMore : bool;
}.

Record DocumentDetail := MkDocumentDetail {
  dd_Document : Document;
  dd_Content : RichTextDocument;
  dd_PlainText : string;
  dd_Redirect : bool;
}.

Definition validateListInput (input : ListDocumentsInput) (public : bool) : result kerror unit :=
  ValidatePage (li_Limit input) (li_Cursor input) (li_Query input) ≫= λ _,
  check (negb (public && (negb (li_Access input =?= EmptyString)
                          || negb (li_Publication input =?= EmptyString)
                          || negb (li_FolderID input =?= EmptyString))))
    "filters" "access, publication, and folder are not valid for the public collection" ≫= λ _,
  check ((li_Access input =?= EmptyString) || (li_Access input =?= AccessOwner)
         || (li_Access input =?= "shared")) "access" "must be owner or shared" ≫= λ _,
  check ((li_Publication input =?= EmptyString) || (li_Publication input =?= "published")
         || (li_Publication input =?= "draft")) "publication" "must be published or draft" ≫= λ _,
  if li_FolderID input =?= EmptyString then Ok tt else ValidateID "folder_id" (li_FolderID input).

Definition buildDocumentPage (documents : list Document) (limit : Z) (orderTime : Document → Z)
  : result kerror DocumentPage :=
  let hasMore := limit <? Z.of_nat (length documents) in
  let documents := if hasMore then take (Z.to_nat limit) documents else documents in
  match (if hasMore then last documents else None) with
  | None => Ok (MkDocumentPage documents None hasMore)
  | Some document =>
    encoded ← EncodeCursor (MkCursor 0 (orderTime document) (v_ID document));
    Ok (MkDocumentPage documents (Some encoded) hasMore)
  end.

(** [DecodeCursor] with its error replaced *)
Definition page_cursor (value : string) : result kerror (option Cursor) :=
  match DecodeCursor value with
  | Ok cursor => Ok cursor
  | Err _ => invalid "cursor" "is invalid"
  end.

Definition published_time (v : Document) : Z := default (v_UpdatedAt v) (v_PublishedAt v).

Definition deleted_time (v : Document) : Z := default (v_UpdatedAt v) (v_DeletedAt v).

(** The error of [buildDocumentPage] is returned as it is. *)
Definition page_of (documents : list Document) (limit : Z) (orderTime : Document → Z)
  : logic DocumentPage := wrap Raw (lift (buildDocumentPage documents limit orderTime)).

Definition ListPublished (ctx : Ctx) (input : ListDocumentsInput) : logic DocumentPage :=
  validated (validateListInput input true) ≫= λ _,
  cursor ← validated (page_cursor (li_Cursor input));
  let limit := effectiveLimit (li_Limit input) in
  documents ← mapped (ListDocuments ctx
    (MkListOptions (li_ActorID input) (TrimSpace (li_Query input)) cursor limit
       EmptyString EmptyString EmptyString true false));
  page_of documents limit published_time.

(** [DocumentLogic.List] *)
Definition ListDrafts (ctx : Ctx) (input : ListDocumentsInput) : logic DocumentPage :=
  validated (known_actor (li_ActorID input)) ≫= λ _,
  validated (validateListInput input false) ≫= λ _,
  cursor ← validated (page_cursor (li_Cursor input));
  let limit := effectiveLimit (li_Limit input) in
  documents ← mapped (ListDocuments ctx
    (MkListOptions (li_ActorID input) (TrimSpace (li_Query input)) cursor limit
       (li_Access input) (li_Publication input) (li_FolderID input) false false));
  page_of documents limit v_UpdatedAt.

Definition ListDeleted (ctx : Ctx) (input : ListDocumentsInput) : logic DocumentPage :=
  validated (known_actor (li_ActorID input)) ≫= λ _,
  validated (validateListInput input false) ≫= λ _,
  cursor ← validated (page_cursor (li_Cursor input));
  let limit := effectiveLimit (li_Limit input) in
  documents ← mapped (ListDocuments ctx
    (MkListOptions (li_ActorID input) (TrimSpace (li_Query input)) cursor limit
       EmptyString EmptyString EmptyString false true));
  page_of documents limit deleted_time.

Definition parseRichText (content : string) : result kerror RichTextDocument :=
  match decode_document content with
  | None => Err (EOther "decode document projection")
  | Some document => Validate document ≫= λ _, Ok document
  end.

Definition GetPublished (ctx : Ctx) (slug : string) (actorID : Z) : logic DocumentDetail :=
  let requested := TrimSpace slug in
  normalized ← validated (NormalizeSlug requested);
  '(document, projection, redirect) ← mapped (GetPublishedDocument ctx normalized actorID);
  content ← validated (parseRichText (pv_Content projection));
  mret (MkDocumentDetail document content (pv_PlainText projection)
          (redirect || negb (requested =?= normalized))).

Definition LogicIsMediaPublished (attachmentID : string) : logic bool :=
  validated (ValidateID "attachment_id" attachmentID) ≫= λ _,
  mapped (IsMediaPublished attachmentID).

(** [DocumentLogic.Get] *)
Definition GetDraft (documentID : string) (actorID : Z) : logic Document :=
  validated (ValidateID "document_id" documentID) ≫= λ _,
  document ← mapped (getDocument documentID actorID false);
  mapped (require (CanRead (v_Access document)) ErrForbidden) ≫= λ _,
  mret document.

Definition LogicListHistory (documentID : string) (actorID limit : Z) : logic (list HistoryCheckpoint) :=
  validated (ValidateID "document_id" documentID) ≫= λ _,
  validated (known_actor actorID) ≫= λ _,
  mapped (ListHistory documentID actorID limit).

Definition LogicGetHistory (documentID revisionID : string) (actorID : Z) : logic HistoryCheckpoint :=
  validated (ValidateID "document_id" documentID) ≫= λ _,
  validated (ValidateID "revision_id" revisionID) ≫= λ _,
  mapped (GetHistory documentID revisionID actorID).

(** ** Writing documents *)

Record CreateDocumentInput := MkCreateDocumentInput {
  cd_Title : string;
  cd_Summary : option string;
  cd_Slug : option string;
  cd_IdempotencyKey : string;
}.

Definition float_zero : float64 := S754_zero false.

(** A document as [Create] fills it in. *)
Definition new_document (ctx : Ctx) (i title summary slug : string) (owner : PublicUser) : Document :=
  MkDoc i title summary slug "zh-CN" [] None owner AccessOwner false PublicationDraft None 0
    EmptyString EmptyString EmptyString None float_zero float_zero 1 0 1 None None None None
    (now ctx) (now ctx).

Definition Create (identity : Identity) (ctx : Ctx) (input : CreateDocumentInput) : logic Document :=
  title ← validated (title_of (cd_Title input));
  summary ← validated (summary_of (default EmptyString (cd_Summary input)));
  owner ← validated (CurrentUser identity);
  i ← mapped NewID;
  slug ← validated (match cd_Slug input with
                    | Some value => NormalizeSlug value
                    | None => Ok (SlugFromTitle title i)
                    end);
  value ← validated (idempotency (pu_ID owner) "create_document" (cd_IdempotencyKey input)
                       (JObj [("title", JStr title); ("summary", JStr summary); ("slug", JStr slug)]));
  mapped (CreateDocument ctx (new_document ctx i title summary slug owner) value).

(** 100 as a [float64] *)
Definition float_hundred : float64 := S754_finite false 7036874417766400 (-46).

Definition focal_ok (value : option float64) : bool :=
  match value with
  | None => true
  | Some v => negb (SFltb v float_zero || SFltb float_hundred v)
  end.

Definition focal_check (field : string) (value : option float64) : result kerror unit :=
  check (focal_ok value) field "must be between 0 and 100".

Definition no_changes (ch : Changes) : bool :=
  is_none (ch_title ch) && is_none (ch_summary ch) && is_none (ch_slug ch) && is_none (ch_language ch)
  && is_none (ch_tags ch) && is_none (ch_folderID ch) && is_none (ch_icon ch)
  && is_none (ch_coverAttachmentID ch) && is_none (ch_coverFocalX ch) && is_none (ch_coverFocalY ch).

Definition icon_of (value : string) : result kerror string :=
  let value := TrimSpace value in
  check (rune_count value <=? 8) "icon" "must contain at most 8 characters" ≫= λ _, Ok value.

(** The normalised fields of an update.  The loop over the map of the two focal
    points visits them in an order Go does not fix: [y_first]. *)
Definition normalize_changes (y_first : bool) (input : Changes) : result kerror Changes :=
  title ← normalize_opt title_of (ch_title input);
  summary ← normalize_opt summary_of (ch_summary input);
  slug ← normalize_opt NormalizeSlug (ch_slug input);
  language ← normalize_opt language_of (ch_language input);
  tags ← normalize_opt NormalizeTags (ch_tags input);
  icon ← normalize_opt icon_of (ch_icon input);
  validate_optional_id "cover_attachment_id" (ch_coverAttachmentID input) ≫= λ _,
  (if y_first
   then focal_check "cover_focal_y" (ch_coverFocalY input) ≫= λ _,
        focal_check "cover_focal_x" (ch_coverFocalX input)
   else focal_check "cover_focal_x" (ch_coverFocalX input) ≫= λ _,
        focal_check "cover_focal_y" (ch_coverFocalY input)) ≫= λ _,
  let changes := MkChanges title summary slug language tags (ch_folderID input) icon
                   (ch_coverAttachmentID input) (ch_coverFocalX input) (ch_coverFocalY input) in
  check (negb (no_changes changes)) "document" "at least one field must be provided" ≫= λ _,
  Ok changes.

(** [DocumentLogic.Update] *)
Definition Update (y_first : bool) (ctx : Ctx) (documentID : string) (actorID expected : Z)
  (input : Changes) : logic Document :=
  validated (validateMutation documentID expected) ≫= λ _,
  changes ← validated (normalize_changes y_first input);
  mapped (UpdateDocument ctx documentID actorID expected changes).

(** [DocumentLogic.Delete] *)
Definition Delete (ctx : Ctx) (documentID : string) (actorID expected : Z) : logic Document :=
  validated (validateMutation documentID expected) ≫= λ _,
  mapped (SoftDeleteDocument ctx documentID actorID expected).

(** [DocumentLogic.Restore] *)
Definition Restore (ctx : Ctx) (documentID : string) (actorID : Z) : logic Document :=
  validated (ValidateID "document_id" documentID) ≫= λ _,
  mapped (RestoreDeletedDocument ctx documentID actorID).

Definition PurgeDeleted (ctx : Ctx) (documentID : string) (actorID expected : Z) (key : string) : logic unit :=
  validated (known_actor actorID) ≫= λ _,
  validated (validateMutation documentID expected) ≫= λ _,
  value ← validated (idempotency actorID "purge_deleted_document" key
                       (JObj [("document_id", JStr documentID); ("expected_revision", JInt expected)]));
  mapped (PurgeDeletedDocument ctx documentID actorID expected value).

(** ** Publication *)

Definition LogicSetPublication (ctx : Ctx) (documentID : string) (actorID expected : Z) (published : bool)
  (key : string) : logic Document :=
  validated (validateMutation documentID expected) ≫= λ _,
  value ← validated (idempotency actorID "set_publication" key
                       (JObj [("document_id", JStr documentID); ("expected_revision", JInt expected);
                              ("published", JBool published)]));
  mapped (SetPublication ctx documentID actorID expected published value).

Record PublishSnapshotInput := MkPublishSnapshotInput {
  ps_Title : string;
  ps_Summary : string;
  ps_Slug : string;
  ps_Language : string;
  ps_Tags : option (list string);
  ps_Content : RichTextDocument;
  ps_PlainText : string;
  ps_ContentSequence : Z;
  ps_PublicationHash : string;
  ps_Icon : string;
  ps_CoverAttachmentID : option string;
  ps_CoverFocalX : float64;
  ps_CoverFocalY : float64;
  ps_IdempotencyKey : string;
}.

(** The closure [visit] on one node, with the identifiers seen so far. *)
Fixpoint visit_node (node : RichTextNode) (seen : gset string) : gset string :=
  let seen := match node_Attrs node ≫= AttachmentID with
              | Some i => {[i]} ∪ seen
              | None => seen
              end in
  (fix visit (nodes : list (option RichTextNode)) (seen : gset string) : gset string :=
     match nodes with
     | [] => seen
     | None :: rest => visit rest seen
     | Some n :: rest => visit rest (visit_node n seen)
     end) (node_Content node) seen.

Fixpoint visit (nodes : list (option RichTextNode)) (seen : gset string) : gset string :=
  match nodes with
  | [] => seen
  | None :: rest => visit rest seen
  | Some n :: rest => visit rest (visit_node n seen)
  end.

Definition publicationMediaIDs (content : RichTextDocument) : list string :=
  order_by String.compare (elements (visit (default [] (doc_Content content)) ∅)).

(** [append([]string(nil), l...)]: nil when there is nothing to append. *)
Definition copied (l : list string) : option (list string) :=
  match l with [] => None | _ => Some l end.

Definition LogicPublishSnapshot (identity : Identity) (ctx : Ctx) (documentID : string)
  (actorID expected : Z) (input : PublishSnapshotInput) : logic Document :=
  validated (validateMutation documentID expected) ≫= λ _,
  title ← validated (title_of (ps_Title input));
  summary ← validated (summary_of (ps_Summary input));
  slug ← validated (NormalizeSlug (ps_Slug input));
  language ← validated (language_of (ps_Language input));
  validated (Validate (ps_Content input)) ≫= λ _,
  tags ← validated (match ps_Tags input with None => Ok [] | Some tags => NormalizeTags tags end);
  validated (check (len (ps_PlainText input) <=? MaxProjectionBytes) "plain_text" "is too large") ≫= λ _,
  owner ← validated (CurrentUser identity);
  value ← validated (idempotency (pu_ID owner) "publish_snapshot" (ps_IdempotencyKey input)
    (JObj [("document_id", JStr documentID); ("expected_revision", JInt expected);
           ("title", JStr title); ("summary", JStr summary); ("slug", JStr slug);
           ("language", JStr language); ("tags", JStrings tags);
           ("content", document_json (ps_Content input)); ("plain_text", JStr (ps_PlainText input))]));
  mapped (PublishSnapshot ctx documentID actorID expected
    (MkPublicationSnapshotInput title summary slug language (copied tags) (ps_Content input) (ps_PlainText input)
       (ps_ContentSequence input) (ps_PublicationHash input) (ps_Icon input) (ps_CoverAttachmentID input)
       (ps_CoverFocalX input) (ps_CoverFocalY input) (publicationMediaIDs (ps_Content input)) value)).

(** ** Commits *)

Record LogicCommitInput := MkLogicCommitInput {
  lc_DocumentID : string;
  lc_ActorID : Z;
  lc_Kind : string;
  lc_Label : string;
  lc_Description : string;
  lc_Content : option RichTextDocument;
  lc_PlainText : string;
  lc_ContentHash : string;
  lc_IdempotencyKey : string;
}.

Definition LogicCreateCommit (ctx : Ctx) (input : LogicCommitInput) : logic Commit :=
  validated (ValidateID "document_id" (lc_DocumentID input)) ≫= λ _,
  validated (known_actor (lc_ActorID input)) ≫= λ _,
  let kind := if TrimSpace (lc_Kind input) =?= EmptyString then "manual" else lc_Kind input in
  let label := if TrimSpace (lc_Label input) =?= EmptyString then kind else lc_Label input in
  validated (check ((rune_count label <=? 160) && (rune_count (lc_Description input) <=? 2000))
               "commit" "label and description are invalid") ≫= λ _,
  value ← validated (idempotency (lc_ActorID input) "create_commit" (lc_IdempotencyKey input)
    (JObj [("document_id", JStr (lc_DocumentID input)); ("kind", JStr kind); ("label", JStr label);
           ("content_hash", JStr (lc_ContentHash input))]));
  mapped (CreateCommit ctx (lc_DocumentID input) (lc_ActorID input)
    (MkCommitInput kind label (lc_Description input) (lc_Content input) (lc_PlainText input)
       (lc_ContentHash input) value)).

Definition LogicListCommits (documentID : string) (actorID limit : Z) : logic (list Commit) :=
  validated (ValidateID "document_id" documentID) ≫= λ _,
  validated (known_actor actorID) ≫= λ _,
  mapped (ListCommits documentID actorID limit).

Definition LogicGetCommit (commitID : string) (actorID : Z) : logic Commit :=
  validated (ValidateID "commit_id" commitID) ≫= λ _,
  mapped (GetCommit commitID actorID).

Definition LogicRenameCommit (ctx : Ctx) (commitID : string) (actorID : Z) (label description : string)
  : logic Commit :=
  validated (ValidateID "commit_id" commitID) ≫= λ _,
  mapped (RenameCommit ctx commitID actorID label description).

Definition LogicRestoreCommit (ctx : Ctx) (commitID : string) (actorID : Z) (key : string)
  : logic Document :=
  validated (ValidateID "commit_id" commitID) ≫= λ _,
  value ← validated (idempotency actorID "restore_commit" key (JObj [("commit_id", JStr commitID)]));
  mapped (RestoreCommit ctx commitID actorID value).

(** ** Members *)

Record AddMemberInput := MkAddMemberInput {
  am_DocumentID : string;
  am_ActorID : Z;
  am_Username : string;
  am_Role : string;
  am_IdempotencyKey : string;
}.

Definition validateMemberMutation (documentID : string) (userID expected : Z) (role : string)
  : result kerror unit :=
  ValidateID "document_id" documentID ≫= λ _,
  check (0 <? userID) "user_id" "must be positive" ≫= λ _,
  positive_revision expected ≫= λ _,
  ValidateRole role.

Definition LogicListMembers (documentID : string) (actorID : Z) : logic (list Member) :=
  validated (ValidateID "document_id" documentID) ≫= λ _,
  mapped (ListMembers documentID actorID).

Definition Add (identity : Identity) (ctx : Ctx) (input : AddMemberInput) : logic Member :=
  validated (ValidateID "document_id" (am_DocumentID input)) ≫= λ _,
  let username := TrimSpace (am_Username input) in
  validated (check (negb (username =?= EmptyString) && (len username <=? 32))
               "username" "must contain between 1 and 32 characters") ≫= λ _,
  validated (ValidateRole (am_Role input)) ≫= λ _,
  value ← validated (idempotency (am_ActorID input) "add_member" (am_IdempotencyKey input)
    (JObj [("document_id", JStr (am_DocumentID input)); ("username", JStr (ToLower username));
           ("role", JStr (am_Role input))]));
  user ← validated (ResolveUser identity username);
  mapped (AddMember ctx (am_DocumentID input) (am_ActorID input) user (am_Role input) value).

Definition LogicUpdateMember (ctx : Ctx) (documentID : string) (actorID userID expected : Z)
  (role : string) : logic Member :=
  validated (validateMemberMutation documentID userID expected role) ≫= λ _,
  mapped (UpdateMember ctx documentID actorID userID expected role).

Definition LogicDeleteMember (ctx : Ctx) (documentID : string) (actorID userID expected : Z)
  : logic unit :=
  validated (validateMemberMutation documentID userID expected AccessViewer) ≫= λ _,
  mapped (DeleteMember ctx documentID actorID userID expected).

(** ** Collaboration *)

(** [CollaborationLogic.Authorize] *)
Definition Authorize (identity : Identity) (documentID : string) (actorID : Z)
  : logic (Document * PublicUser) :=
  validated (ValidateID "document_id" documentID) ≫= λ _,
  require (0 <? actorID) (App Unauthenticated None) ≫= λ _,
  resolved ← validated (CurrentUser identity);
  mapped (require (pu_ID resolved =? actorID) ErrForbidden) ≫= λ _,
  document ← mapped (AuthorizeCollaboration documentID actorID);
  mret (document, resolved).

(** [CollaborationLogic.Project] *)
Definition Project (ctx : Ctx) (documentID : string) (sequence : Z) (content : RichTextDocument)
  (plainText : string) : logic unit :=
  validated (ValidateID "document_id" documentID) ≫= λ _,
  validated (check (0 <=? sequence) "sequence" "must not be negative") ≫= λ _,
  validated (Validate content) ≫= λ _,
  let plainText := TrimSpace plainText in
  payload ← validated (match json_encode (document_json content) with
                       | None => Err (EOther "encode document content")
                       | Some payload => Ok payload
                       end);
  validated (ValidateProjection json_valid payload plainText) ≫= λ _,
  mapped (UpsertProjection (MkProjection documentID sequence payload plainText (now ctx))).

End logic.
