(* ===== verification/KWorker.v ===== *)
(** The background workers: [internal/worker/worker.go] and the wake hints of
    [wake.go].

    [External] is what the other systems answer during a pass: whether the
    attachment service accepts a stage, finalize or clear command, whether NATS
    takes a message, whether the collaboration service purges a document.  One
    clock reading serves a whole pass. *)

From stdpp Require Import base gmap list sets strings.
From Stdlib Require Import ZArith Lia.
From S2P Require Import Prelude.
From S2P Require Import GoStrings.
From S2P Require Import KDomain.
From S2P Require Import RichText.
From S2P Require Import Json.
From S2P Require Import KSchema.
From S2P Require Import KTypes.
From S2P Require Import KStore.
From S2P Require Import KDocuments.
From S2P Require Import KHistory.
From S2P Require Import KPublication.
From S2P Require Import KOutbox.

Open Scope Z_scope.

Record External := MkExternal {
  Stage : Job → bool;
  Finalize : Job → bool;
  Clear : Job → bool;
  Publish : OutboxMessage → bool;
  PurgeCollaboration : string → bool;
}.

(** ** Wake hints *)

Definition WakeOutbox : Z := 1.
Definition WakePublication : Z := 2.
Definition WakeAll : Z := 4.

Definition parseWakePayload (payload : string) : Z :=
  if payload =?= WorkerWakePayloadOutbox then WakeOutbox
  else if payload =?= WorkerWakePayloadPublication then WakePublication
  else 0.

(** [queueWake]: hints accumulate in [pendingWake]. *)
Definition queueWake (pendingWake kind : Z) : Z :=
  if kind =? 0 then pendingWake else Z.lor pendingWake kind.

(** The lanes a pass runs, in order. *)
Inductive lane := LaneOutbox | LanePublication | LaneHistory | LanePurge.

#[export] Instance lane_eq_dec : EqDecision lane.
Proof. solve_decision. Defined.

Definition runOnce : list lane := [LaneOutbox; LanePublication; LaneHistory; LanePurge].

Definition drainWake (kind : Z) : list lane :=
  if kind =? 0 then []
  else if negb (Z.land kind WakeAll =? 0)
          || (Z.land kind (Z.lor WakeOutbox WakePublication) =? Z.lor WakeOutbox WakePublication)
  then runOnce
  else (if negb (Z.land kind WakeOutbox =? 0) then [LaneOutbox] else [])
       ++ (if negb (Z.land kind WakePublication =? 0) then [LanePublication] else []).

(** ** Lanes *)

Definition boundedBackoff (attempt : Z) : Z := Z.shiftl 1 (clamp_attempt attempt - 1) * Second.

Definition maxAttempts : Z := 8.

Section worker.
Context `{Unicode, Uuid, Codec, Pg}.

(** A remote call that may fail. *)
Definition remote (ok : bool) : store unit := require ok (EOther "remote call").

(** One iteration of [processOutbox]. *)
Definition deliver (ext : External) (ctx : Ctx) (message : OutboxMessage) : store unit :=
  if Publish ext message then MarkOutboxPublished ctx (ov_ID message)
  else if maxAttempts <=? ov_Attempts message then ParkOutbox ctx (ov_ID message) "publish_retry_exhausted"
  else RetryOutbox ctx (ov_ID message) (boundedBackoff (ov_Attempts message)).

Definition processOutbox (ext : External) (ctx : Ctx) (operationTimeout : Z) : store unit :=
  messages ← ClaimOutbox ctx 50 operationTimeout;
  for_each messages (deliver ext ctx).

(** The steps of a publish job from the state it was claimed in. *)
Definition publish_steps (ext : External) (ctx : Ctx) (job : Job) : store unit :=
  job ← (if jv_State job =?= "pending" then
           remote (Stage ext job) ≫= λ _,
           MarkPublicationReferencesStaged ctx (jv_ID job) ≫= λ _,
           mret (set_jv_State "staged" job)
         else mret job);
  job ← (if jv_State job =?= "staged" then
           PromotePublication ctx job ≫= λ _, mret (set_jv_State "promoted" job)
         else mret job);
  if jv_State job =?= "promoted" then
    remote (Finalize ext job) ≫= λ _,
    CompletePublicationReferenceJob ctx (jv_ID job) false
  else fail (EOther "unknown publication job state").

Definition clear_steps (ext : External) (ctx : Ctx) (job : Job) : store unit :=
  remote (Clear ext job) ≫= λ _, CompletePublicationReferenceJob ctx (jv_ID job) true.

Definition handlePublicationReferenceJob (ext : External) (ctx : Ctx) (job : Job) : store unit :=
  outcome ← attempt (if jv_Action job =?= "clear" then clear_steps ext ctx job
                     else publish_steps ext ctx job);
  match outcome with
  | Ok _ => mret tt
  | Err _ =>
    if maxAttempts <=? jv_Attempts job then
      ParkPublicationReferenceJob ctx (jv_ID job) "publication_reference_retry_exhausted"
        (jv_Action job =?= "publish")
    else RetryPublicationReferenceJob ctx (jv_ID job) "publication_reference_unavailable"
           (jv_Attempts job)
  end.

Definition processPublicationReferences (ext : External) (ctx : Ctx) (operationTimeout : Z) : store unit :=
  claimed ← ClaimPublicationReferenceJobs ctx 10 operationTimeout;
  for_each claimed (handlePublicationReferenceJob ext ctx).

(** One iteration of [processPurge]. *)
Definition purge_candidate (ext : External) (ctx : Ctx) (documentID : string) : store unit :=
  pendingClear ← HasPendingPublicationReferenceClear documentID;
  if pendingClear : bool then RedrivePublicationReferenceClear ctx documentID
  else
    remote (PurgeCollaboration ext documentID) ≫= λ _,
    PurgeDocument ctx documentID.

Definition processPurge (ext : External) (ctx : Ctx) : store unit :=
  candidates ← ListPurgeCandidates ctx 20;
  for_each candidates (purge_candidate ext ctx) ≫= λ _,
  PurgeMaintenanceData ctx.

(** At most twenty checkpoints a pass. *)
Fixpoint history_loop (n : nat) (ctx : Ctx) : store unit :=
  match n with
  | O => mret tt
  | S n' =>
    checkpoint ← CreateDueHistoryCheckpoint ctx;
    match checkpoint with None => mret tt | Some _ => history_loop n' ctx end
  end.

Definition processHistory (ctx : Ctx) : store unit :=
  history_loop 20 ctx ≫= λ _, PruneHistory ctx.

(** [runBounded]: the error of a lane is logged and dropped. *)
Definition run_lane (ext : External) (ctx : Ctx) (operationTimeout : Z) (l : lane) : store unit :=
  attempt (E' := kerror)
    (match l with
     | LaneOutbox => processOutbox ext ctx operationTimeout
     | LanePublication => processPublicationReferences ext ctx operationTimeout
     | LaneHistory => processHistory ctx
     | LanePurge => processPurge ext ctx
     end) ≫= λ _, mret tt.

Definition run_lanes (ext : External) (ctx : Ctx) (operationTimeout : Z) (lanes : list lane) : store unit :=
  for_each lanes (run_lane ext ctx operationTimeout).

End worker.
