(* ===== verification/KFrames.v ===== *)
(** What the shared steps of the store leave alone.

    [same_saga] relates two databases that agree on the tables of the
    publication saga (documents, projections, publications, candidates, media
    references and jobs) when identifiers may have been drawn.  Bookkeeping steps (identifiers, notifications,
    idempotency keys, tags, events, history) stay within it, so an operation's
    effect on the saga is the effect of its statements on those tables. *)

From stdpp Require Import base gmap list sets strings.
From Stdlib Require Import ZArith Lia.
From S2P Require Import Prelude.
From S2P Require Import GoStrings.
From S2P Require Import KDomain.
From S2P Require Import RichText.
From S2P Require Import Json.
From S2P Require Import KSchema.
From S2P Require Import KTypes.
From S2P Require Import KStore.
From S2P Require Import KDocuments.
From S2P Require Import KHistory.
From S2P Require Import KPublication.
From S2P Require Import KSharing.

Open Scope Z_scope.

Record same_saga (a b : KDB) : Prop := {
  same_documents : documents b = documents a;
  same_projections : projections b = projections a;
  same_publications : publications b = publications a;
  same_candidates : candidates b = candidates a;
  same_media_refs : media_refs b = media_refs a;
  same_jobs : jobs b = jobs a;
  same_ids : ∃ used, new_ids a = used ++ new_ids b;
}.

#[export] Instance same_saga_preorder : PreOrder same_saga.
Proof.
  split.
  - intros a. split; try done. by exists [].
  - intros a b c [????? ? [u Hu]] [????? ? [v Hv]]. split; try congruence.
    exists (u ++ v). by rewrite Hu, Hv, app_assoc.
Qed.

Create HintDb frames discriminated.

Ltac frame_done :=
  first [done | split; simpl; first [congruence | by exists [] | by eexists [_]]].

Section frames.
Context `{Unicode, Uuid, Codec, Pg}.

Lemma NewID_run s s' i :
  NewID s = (s', Ok i) → ∃ rest, new_ids s = i :: rest ∧ s' = set_new_ids rest s.
Proof.
  unfold NewID. intros Hr. run_inv. destruct (new_ids s) as [|j rest] eqn:E; run_inv. by exists rest.
Qed.

Lemma NewID_same s s' i : NewID s = (s', Ok i) → same_saga s s'.
Proof. intros (rest & Hn & ->)%NewID_run. split; simpl; try done. exists [i]. by rewrite Hn. Qed.

Lemma notify_same payload s s' u : notifyWorkers payload s = (s', Ok u) → same_saga s s'.
Proof. unfold notifyWorkers. intros Hr. case_match; run_inv; frame_done. Qed.

Lemma idempotentResource_same ctx v s s' r :
  idempotentResource ctx v s = (s', Ok r) → same_saga s s'.
Proof.
  unfold idempotentResource. intros Hr. case_match; run_inv; [done|].
  repeat (case_match; run_inv); frame_done.
Qed.

Lemma saveIdempotency_same ctx v i s s' u : saveIdempotency ctx v i s = (s', Ok u) → same_saga s s'.
Proof.
  unfold saveIdempotency, sql_write, insert_idempotency. intros Hr.
  case_match; run_inv; frame_done.
Qed.

Lemma first_run {A} (f : KDB → option A) s s' a :
  first f s = (s', Ok a) ↔ s' = s ∧ f s = Some a.
Proof.
  unfold first. rewrite bind_run_ok. split.
  - intros (s1 & db & Hg & He). run_inv. done.
  - intros [-> Hf]. exists s, s. split; [done|]. by rewrite Hf.
Qed.

Lemma lockDocument_run i actor deleted s s' d access :
  lockDocument i actor deleted s = (s', Ok (d, access)) ↔
  s' = s ∧ visible_document i deleted s = Some d ∧ access = accessFor s d actor.
Proof.
  unfold lockDocument. rewrite bind_run_ok. split.
  - intros (s1 & d' & [-> Hd]%first_run & Hr). run_inv. done.
  - intros (-> & Hd & ->). exists s, d. split; [by apply first_run|done].
Qed.

Lemma visible_document_Some i deleted s d :
  visible_document i deleted s = Some d ↔
  documents s !! i = Some d ∧ (deleted = false → d_DeletedAt d = None).
Proof.
  unfold visible_document. destruct (documents s !! i) as [e|]; simpl; [|naive_solver].
  destruct deleted; simpl; [naive_solver|].
  destruct (d_DeletedAt e) eqn:He; simpl; naive_solver congruence.
Qed.

Lemma getProjection_run i s s' p :
  getProjection i s = (s', Ok p) ↔ s' = s ∧ projections s !! i = Some p.
Proof. apply (first_run (λ db, projections db !! i)). Qed.

Lemma marshal_run op v s s' t : marshal op v s = (s', Ok t) ↔ s' = s ∧ json_encode v = Some t.
Proof. unfold marshal. rewrite expect_run_ok. naive_solver. Qed.

Lemma unmarshal_strings_run op v s s' l :
  unmarshal_strings op v s = (s', Ok l) ↔ s' = s ∧ json_decode v ≫= string_slice = Some l.
Proof. unfold unmarshal_strings. rewrite expect_run_ok. naive_solver. Qed.

Lemma unmarshal_slice_run op v s s' l :
  unmarshal_slice op v s = (s', Ok l) ↔ s' = s ∧ json_decode v ≫= slice_of = Some l.
Proof. unfold unmarshal_slice. rewrite expect_run_ok. naive_solver. Qed.

Lemma to_jsonb_run text s s' t : to_jsonb text s = (s', Ok t) ↔ s' = s ∧ jsonb text = Some t.
Proof. unfold to_jsonb. rewrite expect_run_ok. naive_solver. Qed.

Lemma getDocument_same i actor deleted s s' v : getDocument i actor deleted s = (s', Ok v) → s' = s.
Proof.
  unfold getDocument. intros Hr. run_inv.
  repeat match goal with
  | H : first _ _ = _ |- _ => apply first_run in H as [-> ?]
  | H : getProjection _ _ = _ |- _ => apply getProjection_run in H as [-> ?]
  end; run_inv. done.
Qed.

End frames.

(** [store_inv] inverts a successful run of store code down to the statements. *)
Ltac store_step :=
  match goal with
  | H : first _ _ = (_, Ok _) |- _ => apply first_run in H as [? H]
  | H : getProjection _ _ = (_, Ok _) |- _ => apply getProjection_run in H as [? H]
  | H : lockDocument _ _ _ _ = (_, Ok ?x) |- _ =>
      let d := fresh "d" in let a := fresh "access" in
      destruct x as [d a]; apply lockDocument_run in H as (? & H & ?);
      apply visible_document_Some in H as [? ?]
  | H : marshal _ _ _ = (_, Ok _) |- _ => apply marshal_run in H as [? H]
  | H : unmarshal_strings _ _ _ = (_, Ok _) |- _ => apply unmarshal_strings_run in H as [? H]
  | H : unmarshal_slice _ _ _ = (_, Ok _) |- _ => apply unmarshal_slice_run in H as [? H]
  | H : to_jsonb _ _ = (_, Ok _) |- _ => apply to_jsonb_run in H as [? H]
  | H : sql _ _ _ = (_, Ok _) |- _ => apply wrap_ok in H
  | H : sql_write _ _ _ = (_, Ok _) |- _ => apply wrap_ok in H
  end.

Ltac store_inv := run_tidy; repeat (first [run_step | store_step]; run_tidy).

Section frames2.
Context `{Unicode, Uuid, Codec, Pg}.

Lemma attach_tag_same ctx owner i name s s' u : attach_tag ctx owner i name s = (s', Ok u) → same_saga s s'.
Proof.
  unfold attach_tag. intros Hr. store_inv.
  case_match; store_inv; unfold insert_document_tag in *; store_inv; [frame_done|].
  match goal with H : NewID _ = _ |- _ => apply NewID_same in H end.
  unfold insert_tag in *. store_inv. etrans; [eassumption|]. frame_done.
Qed.

Lemma replaceDocumentTags_same ctx owner i names s s' u :
  replaceDocumentTags ctx owner i names s = (s', Ok u) → same_saga s s'.
Proof.
  unfold replaceDocumentTags. intros Hr. store_inv.
  eapply (for_each_keeps (same_saga s)) in Hr; [exact Hr| |frame_done].
  intros name s1 s2 v _ Hs ?%attach_tag_same. by etrans.
Qed.

Lemma enqueuePermissionChanged_same ctx d s s' u :
  enqueuePermissionChanged ctx d s = (s', Ok u) → same_saga s s'.
Proof.
  unfold enqueuePermissionChanged. intros Hr. store_inv.
  repeat match goal with
  | H : NewID _ = _ |- _ => apply NewID_same in H
  | H : notifyWorkers _ _ = _ |- _ => apply notify_same in H
  end.
  unfold insert_outbox in *. store_inv. etrans; [eassumption|]. etrans; [|eassumption]. frame_done.
Qed.

Lemma latestBlockDiff_run i content s s' t : latestBlockDiff i content s = (s', Ok t) → s' = s.
Proof. unfold latestBlockDiff. intros Hr. store_inv. repeat (case_match; store_inv); done. Qed.

Lemma semantic_hash_run op content metadata s s' t :
  semantic_hash op content metadata s = (s', Ok t) → s' = s.
Proof. unfold semantic_hash, unmarshal. intros Hr. store_inv. done. Qed.

Lemma createHistoryAnchor_same ctx d p kind metadata s s' u :
  createHistoryAnchor ctx d p kind metadata s = (s', Ok u) → same_saga s s'.
Proof.
  unfold createHistoryAnchor. intros Hr. store_inv.
  repeat match goal with
  | H : semantic_hash _ _ _ _ = _ |- _ => apply semantic_hash_run in H; simplify_eq/=
  end.
  case_match; store_inv; [frame_done|].
  repeat match goal with
  | H : latestBlockDiff _ _ _ = _ |- _ => apply latestBlockDiff_run in H; simplify_eq/=
  | H : NewID _ = _ |- _ => apply NewID_same in H
  end.
  unfold insert_history in *. store_inv. etrans; [eassumption|]. frame_done.
Qed.

Lemma insert_alias_same a s s' u : insert_alias a s = (s', Ok u) → same_saga s s'.
Proof. unfold insert_alias. intros Hr. store_inv. frame_done. Qed.

Lemma update_aliases_same P f s s' u : update_aliases P f s = (s', Ok u) → same_saga s s'.
Proof. unfold update_aliases. intros Hr. store_inv. frame_done. Qed.

Lemma reserve_slug_same ctx i slug s s' u : reserve_slug ctx i slug s = (s', Ok u) → same_saga s s'.
Proof.
  unfold reserve_slug. intros Hr. store_inv. repeat (case_match; store_inv); [done|].
  by eapply insert_alias_same.
Qed.

Lemma activate_slug_same ctx i slug s s' u : activate_slug ctx i slug s = (s', Ok u) → same_saga s s'.
Proof.
  unfold activate_slug. intros Hr. store_inv. repeat (case_match; store_inv).
  - by eapply update_aliases_same.
  - by eapply insert_alias_same.
Qed.

Lemma place_document_same ctx owner i f s s' u : place_document ctx owner i f s = (s', Ok u) → same_saga s s'.
Proof.
  unfold place_document. intros Hr. case_match; store_inv; [frame_done|].
  case_match; unfold update_placements, insert_placement in *; store_inv; frame_done.
Qed.

Lemma upsert_activity_same a s s' u : upsert_activity a s = (s', Ok u) → same_saga s s'.
Proof. unfold upsert_activity. intros Hr. store_inv. frame_done. Qed.

(** A replayed key changes nothing. *)
Lemma idempotentResource_run ctx v s s' r :
  idempotentResource ctx v s = (s', Ok r) →
  (∀ i, r = Some i → s' = s ∧ id_Key v ≠ EmptyString ∧
     ∃ k, idempotency_keys s !! (id_ActorID v, id_Operation v, id_Key v) = Some k ∧
          ik_ResourceID k = i ∧ ik_RequestHash k = id_RequestHash v ∧ now ctx < ik_ExpiresAt k) ∧
  (r = None → id_Key v = EmptyString ∧ s' = s ∨
     s' = set_idempotency_keys (delete (id_ActorID v, id_Operation v, id_Key v) (idempotency_keys s)) s ∨
     s' = s ∧ idempotency_keys s !! (id_ActorID v, id_Operation v, id_Key v) = None).
Proof.
  unfold idempotentResource. intros Hr. case_bool_decide as Hk; store_inv; [naive_solver|].
  destruct (idempotency_keys s !! _) as [k|] eqn:Hl; store_inv; [|naive_solver].
  destruct (after (ik_ExpiresAt k) (now ctx)) eqn:Ha; simpl in Hr; store_inv; [|naive_solver].
  case_bool_decide as Hh; simpl in Hr; store_inv. split; [|done].
  intros i [= <-]. split_and!; [done|done|]. exists k. split_and!; try done. by apply Z.ltb_lt.
Qed.

Lemma replay_same ctx v s s' i : idempotentResource ctx v s = (s', Ok (Some i)) → s' = s.
Proof. intros [Hs _]%idempotentResource_run. by destruct (Hs i eq_refl). Qed.

(** Access depends only on the document and the members. *)
Lemma accessFor_same s t d actor : members t = members s → accessFor t d actor = accessFor s d actor.
Proof. unfold accessFor. by intros ->. Qed.

Lemma idempotentResource_members ctx v s s' r :
  idempotentResource ctx v s = (s', Ok r) → members s' = members s ∧ documents s' = documents s.
Proof.
  intros [Hs Hn]%idempotentResource_run. destruct r as [i|].
  - by destruct (Hs i eq_refl) as [-> _].
  - by destruct (Hn eq_refl) as [[_ ->]|[->|[-> _]]].
Qed.

End frames2.
