(* ===== verification/KSaga.v ===== *)
(** The invariant of the publication saga.

    [saga_ok] says how a document's publication status, its live publication,
    its candidate and its jobs hang together; [flight_ok] what remains true of
    a job a worker has claimed, however long ago.  The lemmas of this file show
    that every operation of the store keeps both. *)

From stdpp Require Import base gmap list sets strings.
From Stdlib Require Import ZArith Lia.
From S2P Require Import Prelude.
From S2P Require Import GoStrings.
From S2P Require Import KDomain.
From S2P Require Import RichText.
From S2P Require Import Json.
From S2P Require Import KSchema.
From S2P Require Import KTypes.
From S2P Require Import KStore.
From S2P Require Import KDocuments.
From S2P Require Import KHistory.
From S2P Require Import KPublication.
From S2P Require Import KSharing.
From S2P Require Import KFrames.

Open Scope Z_scope.

(** ** The invariant *)

(** The statuses of a document that was asked to be public. *)
Definition live_statuses : list string :=
  [PublicationPublished; PublicationPublishing; PublicationPublishFailed].

Definition live (d : DocumentRow) : Prop := d_PublicationStatus d ∈ live_statuses.

(** A job of the document's current generation a worker can still run. *)
Definition runnable (i : string) (generation : Z) (j : JobRow) : Prop :=
  j_DocumentID j = i ∧ j_Generation j = generation ∧ j_Action j = publicationActionPublish ∧
  j_ParkedAt j = None.

Record doc_rule (s : KDB) (i : string) (d : DocumentRow) : Prop := {
  rule_deleted : d_DeletedAt d ≠ None → ¬ live d;
  rule_published : d_PublicationStatus d = PublicationPublished →
    is_Some (publications s !! i) ∧ is_Some (d_PublishedAt d);
  rule_publication : is_Some (publications s !! i) → live d;
  rule_candidate : ∀ c, candidates s !! i = Some c →
    pc_DocumentID c = i ∧ pc_Generation c = d_PublicationGeneration d ∧
    (d_PublicationStatus d = PublicationPublishing ∨ d_PublicationStatus d = PublicationPublishFailed);
  rule_publishing : d_PublicationStatus d = PublicationPublishing →
    is_Some (candidates s !! i) ∧
    ∃ k j, jobs s !! k = Some j ∧ runnable i (d_PublicationGeneration d) j;
}.

Record job_rule (s : KDB) (j : JobRow) (d : DocumentRow) : Prop := {
  rule_generation : 0 < j_Generation j <= d_PublicationGeneration d;
  rule_action : j_Action j = publicationActionPublish ∨ j_Action j = publicationActionClear;
  rule_current_publish : j_Generation j = d_PublicationGeneration d →
    j_Action j = publicationActionPublish → live d;
  rule_current_clear : j_Generation j = d_PublicationGeneration d →
    j_Action j = publicationActionClear → ¬ live d;
  rule_promoted : j_Generation j = d_PublicationGeneration d →
    j_State j = publicationJobPromoted → d_PublicationStatus d ≠ PublicationPublishing;
}.

Record saga_ok (s : KDB) : Prop := {
  ok_document_keys : ∀ i d, documents s !! i = Some d → d_ID d = i;
  ok_job_keys : ∀ k j, jobs s !! k = Some j → j_ID j = k ∧ k ∉ new_ids s;
  ok_documents : ∀ i d, documents s !! i = Some d → doc_rule s i d;
  ok_jobs : ∀ k j, jobs s !! k = Some j →
    ∃ d, documents s !! j_DocumentID j = Some d ∧ job_rule s j d;
  ok_publications : ∀ i, is_Some (publications s !! i) → is_Some (documents s !! i);
  ok_candidates : ∀ i, is_Some (candidates s !! i) → is_Some (documents s !! i);
  ok_media_refs : ∀ k r, media_refs s !! k = Some r →
    k = (mr_DocumentID r, mr_AttachmentID r) ∧ is_Some (publications s !! mr_DocumentID r);
  ok_ids : NoDup (new_ids s);
}.

(** What holds of a claimed job while its row exists. *)
Record flight_ok (s : KDB) (v : Job) : Prop := {
  flight_used : jv_ID v ∉ new_ids s;
  flight_row : ∀ j, jobs s !! jv_ID v = Some j →
    j_DocumentID j = jv_DocumentID v ∧ j_Generation j = jv_Generation v ∧ j_Action j = jv_Action v;
  flight_promoted : jv_State v = publicationJobPromoted →
    ∀ j d, jobs s !! jv_ID v = Some j → documents s !! j_DocumentID j = Some d →
    d_PublicationGeneration d = j_Generation j → d_PublicationStatus d ≠ PublicationPublishing;
}.

(** ** Calm changes *)

(** The metadata changes only together with its revision, which grows. *)
Definition revised (d e : DocumentRow) : Prop :=
  d_MetadataRevision d <= d_MetadataRevision e ∧
  (d_MetadataRevision e = d_MetadataRevision d →
   d_Title e = d_Title d ∧ d_Summary e = d_Summary d ∧ d_Slug e = d_Slug d ∧ d_Language e = d_Language d).

#[export] Instance revised_preorder : PreOrder revised.
Proof.
  split; [by split; [lia|]|]. intros a b c [Hab Eab] [Hbc Ebc]. split; [lia|]. intros E.
  destruct Ebc as (-> & -> & -> & ->); [lia|]. apply Eab. lia.
Qed.

Lemma revised_same d e :
  d_MetadataRevision e = d_MetadataRevision d → d_Title e = d_Title d → d_Summary e = d_Summary d →
  d_Slug e = d_Slug d → d_Language e = d_Language d → revised d e.
Proof. intros. split; [lia|done]. Qed.

Lemma revised_next d e : d_MetadataRevision e = d_MetadataRevision d + 1 → revised d e.
Proof. intros. split; lia. Qed.

(** The columns of a document the saga is about. *)
Definition same_doc (d e : DocumentRow) : Prop :=
  d_ID e = d_ID d ∧ d_PublicationStatus e = d_PublicationStatus d ∧
  d_PublicationGeneration e = d_PublicationGeneration d ∧ d_DeletedAt e = d_DeletedAt d ∧
  d_PublishedAt e = d_PublishedAt d ∧ revised d e.

(** A row keeps these columns, and its metadata or gets the next revision. *)
Ltac same_row := split_and!; try done; first [by apply revised_same|by apply revised_next].

(** The columns of a job that identify its work. *)
Definition same_job (j k : JobRow) : Prop :=
  j_ID k = j_ID j ∧ j_DocumentID k = j_DocumentID j ∧ j_Generation k = j_Generation j ∧
  j_Action k = j_Action j ∧ (j_ParkedAt j = None → j_ParkedAt k = None) ∧
  (j_State k = publicationJobPromoted → j_State j = publicationJobPromoted).

(** The columns of a job that say what it asks for and how far it came. *)
Definition steady_job (j k : JobRow) : Prop :=
  same_job j k ∧ j_State k = j_State j ∧ j_AttachmentIDs k = j_AttachmentIDs j.

(** A change that touches no saga column: rows of documents and jobs keep
    their identity, publications and candidates stay, media references may
    only go away.  What may happen to a job is the relation [R]. *)
Record calm_by (R : JobRow → JobRow → Prop) (s t : KDB) : Prop := {
  calm_documents : ∀ i, option_Forall2 same_doc (documents s !! i) (documents t !! i);
  calm_jobs : ∀ k, option_Forall2 R (jobs s !! k) (jobs t !! k);
  calm_publications : publications t = publications s;
  calm_candidates : candidates t = candidates s;
  calm_media_refs : media_refs t ⊆ media_refs s;
  calm_ids : ∃ used, new_ids s = used ++ new_ids t;
}.

Notation calm := (calm_by steady_job).

#[export] Instance same_doc_refl : Reflexive same_doc.
Proof. intros d. same_row. Qed.

#[export] Instance same_job_refl : Reflexive same_job.
Proof. by intros j. Qed.

#[export] Instance steady_job_refl : Reflexive steady_job.
Proof. by intros j. Qed.

#[export] Instance calm_preorder : PreOrder calm.
Proof.
  split.
  - intros s. split; try done. by exists [].
  - intros s t u [Ad Aj Ap Ac Am [x Ai]] [Bd Bj Bp Bc Bm [y Bi]]. split; try congruence.
    + intros i. specialize (Ad i). specialize (Bd i).
      inversion Ad as [d e [? (?&?&?&?&?)] E1 E2|E1 E2]; rewrite <-E2 in Bd;
        inversion Bd as [d' e' [? (?&?&?&?&?)] |]; simplify_eq; constructor.
      split_and!; try congruence. by etrans.
    + intros i. specialize (Aj i). specialize (Bj i).
      inversion Aj as [d e ((?&?&?&?&?&?)&?&?) E1 E2|E1 E2]; rewrite <-E2 in Bj;
        inversion Bj as [d' e' ((?&?&?&?&?&?)&?&?) |]; simplify_eq; constructor.
      repeat split; try congruence; auto.
    + by etrans.
    + exists (x ++ y). by rewrite Ai, Bi, app_assoc.
Qed.

Lemma same_saga_calm s t : same_saga s t → calm s t.
Proof.
  intros [Hd _ Hp Hc Hm Hj Hi]. split; try done.
  - intros i. rewrite Hd. destruct (documents s !! i); by constructor.
  - intros i. rewrite Hj. destruct (jobs s !! i); by constructor.
  - by rewrite Hm.
Qed.

(** Every calm change keeps the jobs' work. *)
Lemma calm_weaken s t : calm s t → calm_by same_job s t.
Proof.
  intros [Hd Hj Hp Hc Hm Hi]. split; try done. intros k. by destruct (Hj k) as [j j' [? _]|]; constructor.
Qed.

Lemma calm_document {R} s t i e :
  calm_by R s t → documents t !! i = Some e → ∃ d, documents s !! i = Some d ∧ same_doc d e.
Proof. intros Hc He. pose proof (calm_documents _ _ _ Hc i) as Hr. rewrite He in Hr. inversion Hr. eauto. Qed.

Lemma calm_document_fwd {R} s t i d :
  calm_by R s t → documents s !! i = Some d → ∃ e, documents t !! i = Some e ∧ same_doc d e.
Proof. intros Hc He. pose proof (calm_documents _ _ _ Hc i) as Hr. rewrite He in Hr. inversion Hr. eauto. Qed.

Lemma calm_job {R} s t i k :
  calm_by R s t → jobs t !! i = Some k → ∃ j, jobs s !! i = Some j ∧ (R j k : Prop).
Proof. intros Hc He. pose proof (calm_jobs _ _ _ Hc i) as Hr. rewrite He in Hr. inversion Hr. eauto. Qed.

Lemma calm_job_fwd {R} s t i j :
  calm_by R s t → jobs s !! i = Some j → ∃ k, jobs t !! i = Some k ∧ (R j k : Prop).
Proof. intros Hc He. pose proof (calm_jobs _ _ _ Hc i) as Hr. rewrite He in Hr. inversion Hr. eauto. Qed.

Lemma calm_no_id {R} s t x : calm_by R s t → x ∉ new_ids s → x ∉ new_ids t.
Proof. intros [_ _ _ _ _ [u Hu]]. rewrite Hu. set_solver. Qed.

Lemma same_doc_live d e : same_doc d e → live e ↔ live d.
Proof. unfold live. by intros (_ & -> & _). Qed.

Lemma calm_doc_rule s t i d e : calm_by same_job s t → same_doc d e → doc_rule s i d → doc_rule t i e.
Proof.
  intros Hc Hs [R1 R2 R3 R4 R5]. pose proof (same_doc_live _ _ Hs) as Hl.
  destruct Hs as (Hi & Hst & Hg & Hde & Hp & _).
  split; rewrite ?Hl, ?Hst, ?Hg, ?Hde, ?Hp, ?(calm_publications _ _ _ Hc), ?(calm_candidates _ _ _ Hc); try done.
  intros Hpub. destruct (R5 Hpub) as (Hcand & k & j & Hj & Hrun). split; [done|].
  destruct (calm_job_fwd _ _ _ _ Hc Hj) as (j' & Hj' & _ & E1 & E2 & E3 & E4 & _).
  exists k, j'. split; [done|]. destruct Hrun as (?&?&?&?). split_and!; try congruence. auto.
Qed.

Lemma calm_by_saga_ok s t : calm_by same_job s t → saga_ok s → saga_ok t.
Proof.
  intros Hc [Kd Kj Rd Rj Rp Rc Rm Ri]. split.
  - intros i e He. destruct (calm_document _ _ _ _ Hc He) as (d & Hd & Hs & _).
    rewrite Hs. by apply Kd.
  - intros k j Hj. destruct (calm_job _ _ _ _ Hc Hj) as (j0 & Hj0 & Hs & _).
    destruct (Kj k j0 Hj0) as [Hk Hn]. rewrite Hs. split; [done|by eapply calm_no_id].
  - intros i e He. destruct (calm_document _ _ _ _ Hc He) as (d & Hd & Hs).
    eapply calm_doc_rule; eauto.
  - intros k j Hj. destruct (calm_job _ _ _ _ Hc Hj) as (j0 & Hj0 & Hs).
    destruct (Rj k j0 Hj0) as (d & Hd & Hr).
    destruct (calm_document_fwd _ _ _ _ Hc Hd) as (e & He & Hse).
    destruct Hs as (_ & E1 & E2 & E3 & _ & E5). exists e. rewrite E1. split; [done|].
    pose proof (same_doc_live _ _ Hse) as Hl. destruct Hse as (_ & Hst & Hg & _), Hr as [G1 G2 G3 G4 G5].
    split; rewrite ?E2, ?E3, ?Hg, ?Hst, ?Hl; auto.
  - intros i. rewrite (calm_publications _ _ _ Hc). intros [d Hd]%Rp.
    destruct (calm_document_fwd _ _ _ _ Hc Hd) as (e & -> & _). by eauto.
  - intros i. rewrite (calm_candidates _ _ _ Hc). intros [d Hd]%Rc.
    destruct (calm_document_fwd _ _ _ _ Hc Hd) as (e & -> & _). by eauto.
  - intros k r Hr. rewrite (calm_publications _ _ _ Hc). apply Rm.
    by eapply lookup_weaken, calm_media_refs.
  - destruct (calm_ids _ _ _ Hc) as [u Hu]. rewrite Hu in Ri. by apply NoDup_app in Ri as (_ & _ & ?).
Qed.

Lemma calm_by_flight_ok s t v : calm_by same_job s t → flight_ok s v → flight_ok t v.
Proof.
  intros Hc [Fu Fr Fp]. split.
  - by eapply calm_no_id.
  - intros k Hk. destruct (calm_job _ _ _ _ Hc Hk) as (j & Hj & _ & E1 & E2 & E3 & _).
    destruct (Fr j Hj) as (?&?&?). split_and!; congruence.
  - intros Hst k e Hk He Hg.
    destruct (calm_job _ _ _ _ Hc Hk) as (j & Hj & _ & E1 & E2 & E3 & _). rewrite E1 in He.
    destruct (calm_document _ _ _ _ Hc He) as (d & Hd & _ & Hs & Hgd & _).
    rewrite Hs. apply (Fp Hst j d Hj Hd). congruence.
Qed.

Lemma calm_saga_ok s t : calm s t → saga_ok s → saga_ok t.
Proof. intros Hc. by apply calm_by_saga_ok, calm_weaken. Qed.

Lemma calm_flight_ok s t v : calm s t → flight_ok s v → flight_ok t v.
Proof. intros Hc. by apply calm_by_flight_ok, calm_weaken. Qed.

(** ** Statements on the saga tables *)

Section saga_statements.
Context `{Unicode, Uuid, Codec, Pg}.

Lemma update_document_run i P f s s' u :
  update_document i P f s = (s', Ok u) →
  (s' = s ∧ ∀ d, documents s !! i = Some d → P d = false) ∨
  ∃ d, documents s !! i = Some d ∧ P d = true ∧ document_check (f d) = true ∧
       s' = set_documents (<[i := f d]> (documents s)) s.
Proof.
  unfold update_document. intros Hr. store_inv.
  destruct (documents s !! i) as [d|] eqn:Hd; [|store_inv; left; naive_solver].
  destruct (P d) eqn:HP; store_inv; [right; eauto|left; naive_solver].
Qed.

Lemma calm_update_document i P f s s' u :
  (∀ d, same_doc d (f d)) → update_document i P f s = (s', Ok u) → calm s s'.
Proof.
  intros Hf [[-> _]|(d & Hd & _ & _ & ->)]%update_document_run; [done|].
  split; simpl; try done; [|by exists []].
  intros k. destruct (decide (k = i)) as [->|Hne].
  - rewrite lookup_insert_eq, Hd. by constructor.
  - by rewrite lookup_insert_ne.
Qed.

Lemma update_jobs_run P f s s' n :
  update_jobs P f s = (s', Ok n) →
  n = count_where P (jobs s) ∧ s' = set_jobs (update_where P f (jobs s)) s ∧
  ∀ k j, jobs s !! k = Some j → P j = true → job_check (f j) = true.
Proof.
  unfold update_jobs. intros Hr. store_inv. split_and!; [done|done|].
  intros k j Hj HP.
  match goal with H : negb _ = true |- _ => apply negb_true_iff in H; rename H into Hn end.
  rewrite exists_where_false in Hn. specialize (Hn k j Hj). rewrite HP in Hn. simpl in Hn.
  by apply negb_false_iff.
Qed.

Lemma calm_set_jobs (R : JobRow → JobRow → Prop) `{!Reflexive R} P f s :
  (∀ j, R j (f j)) → calm_by R s (set_jobs (update_where P f (jobs s)) s).
Proof.
  intros Hf. split; simpl; try done; [|by exists []].
  intros k. rewrite lookup_update_where. destruct (jobs s !! k) as [j|]; simpl; [|constructor].
  constructor. destruct (P j); [apply Hf|done].
Qed.

Lemma calm_update_jobs (R : JobRow → JobRow → Prop) `{!Reflexive R} P f s s' n :
  (∀ j, R j (f j)) → update_jobs P f s = (s', Ok n) → calm_by R s s'.
Proof. intros Hf (_ & -> & _)%update_jobs_run. by apply calm_set_jobs. Qed.

(** Changes outside the saga tables. *)
Lemma calm_outside s t :
  documents t = documents s → jobs t = jobs s → publications t = publications s →
  candidates t = candidates s → media_refs t = media_refs s → new_ids t = new_ids s → calm s t.
Proof.
  intros Hd Hj Hp Hc Hm Hi. split; rewrite ?Hd, ?Hj, ?Hm; try done. exists []. by rewrite Hi.
Qed.

End saga_statements.

#[export] Hint Resolve calm_outside same_saga_calm : frames.

(** [calm_chain] closes [calm s t] from the calm steps between them. *)
Ltac calm_chain :=
  first
    [ reflexivity
    | eassumption
    | match goal with
      | H : calm ?s ?x |- calm ?s ?t => transitivity x; [exact H|clear H; calm_chain]
      end ].

(** Facts about the bookkeeping steps of a run. *)
Ltac frame_facts :=
  repeat match goal with
  | H : NewID _ = (_, Ok _) |- _ => apply NewID_same, same_saga_calm in H
  | H : notifyWorkers _ _ = (_, Ok _) |- _ => apply notify_same, same_saga_calm in H
  | H : idempotentResource _ _ _ = (_, Ok _) |- _ => apply idempotentResource_same, same_saga_calm in H
  | H : saveIdempotency _ _ _ _ = (_, Ok _) |- _ => apply saveIdempotency_same, same_saga_calm in H
  | H : reserve_slug _ _ _ _ = (_, Ok _) |- _ => apply reserve_slug_same, same_saga_calm in H
  | H : activate_slug _ _ _ _ = (_, Ok _) |- _ => apply activate_slug_same, same_saga_calm in H
  | H : place_document _ _ _ _ _ = (_, Ok _) |- _ => apply place_document_same, same_saga_calm in H
  | H : replaceDocumentTags _ _ _ _ _ = (_, Ok _) |- _ =>
      apply replaceDocumentTags_same, same_saga_calm in H
  | H : enqueuePermissionChanged _ _ _ = (_, Ok _) |- _ =>
      apply enqueuePermissionChanged_same, same_saga_calm in H
  | H : createHistoryAnchor _ _ _ _ _ _ = (_, Ok _) |- _ =>
      apply createHistoryAnchor_same, same_saga_calm in H
  | H : upsert_activity _ _ = (_, Ok _) |- _ => apply upsert_activity_same, same_saga_calm in H
  | H : getDocument _ _ _ _ = (_, Ok _) |- _ => apply getDocument_same in H; subst
  end.

(** The branches of optional arguments. *)
Ltac split_options :=
  repeat match goal with
  | H : (match ?o with Some _ => _ | None => _ end) _ = (_, Ok _) |- _ => destruct o eqn:?; store_inv
  | H : (if ?b then _ else _) _ = (_, Ok _) |- _ => destruct b eqn:?; store_inv
  end.

Section calm_operations.
Context `{Unicode, Uuid, Codec, Pg}.

Lemma insert_member_calm m s s' u : insert_member m s = (s', Ok u) → calm s s'.
Proof. unfold insert_member. intros Hr. store_inv. by apply calm_outside. Qed.

Lemma update_member_calm k f s s' u : update_member k f s = (s', Ok u) → calm s s'.
Proof. unfold update_member. intros Hr. store_inv. case_match; store_inv; [by apply calm_outside|done]. Qed.

Lemma update_projection_calm p s s' u : update_projection p s = (s', Ok u) → calm s s'.
Proof. unfold update_projection. intros Hr. store_inv. by apply calm_outside. Qed.

Lemma apply_changes_same ctx ch d : same_doc d (apply_changes ctx ch d).
Proof.
  unfold apply_changes, assign. destruct ch; simpl.
  repeat match goal with |- context [match ?o with Some _ => _ | None => _ end] => destruct o end;
    same_row.
Qed.

Lemma advancePermissionRevision_calm ctx d s s' u :
  advancePermissionRevision ctx d s = (s', Ok u) → calm s s'.
Proof.
  unfold advancePermissionRevision. intros Hr. store_inv. frame_facts.
  match goal with H : update_document _ _ _ _ = _ |- _ =>
    apply calm_update_document in H; [|intros ?; same_row] end.
  calm_chain.
Qed.

Lemma UpdateDocument_calm ctx i actor expected ch s s' v :
  UpdateDocument ctx i actor expected ch s = (s', Ok v) → calm s s'.
Proof.
  unfold UpdateDocument. intros Hr. store_inv.
  match goal with H : update_document _ _ _ _ = _ |- _ =>
    apply calm_update_document in H; [|apply apply_changes_same] end.
  split_options; frame_facts; calm_chain.
Qed.

Lemma UpsertProjection_calm p s s' u : UpsertProjection p s = (s', Ok u) → calm s s'.
Proof.
  unfold UpsertProjection, markHistoryDirty. intros Hr. store_inv. split_options; [done|].
  match goal with H : update_document _ _ _ _ = _ |- _ =>
    apply calm_update_document in H; [|intros ?; same_row] end.
  match goal with H : update_projection _ _ = _ |- _ => apply update_projection_calm in H end.
  frame_facts. calm_chain.
Qed.

Lemma AddMember_calm ctx i actor user role idem s s' v :
  AddMember ctx i actor user role idem s = (s', Ok v) → calm s s'.
Proof.
  unfold AddMember. intros Hr. store_inv. split_options; frame_facts; [calm_chain|].
  repeat match goal with
  | H : insert_member _ _ = _ |- _ => apply insert_member_calm in H
  | H : advancePermissionRevision _ _ _ = _ |- _ => apply advancePermissionRevision_calm in H
  end.
  calm_chain.
Qed.

Lemma UpdateMember_calm ctx i actor user expected role s s' v :
  UpdateMember ctx i actor user expected role s = (s', Ok v) → calm s s'.
Proof.
  unfold UpdateMember. intros Hr. store_inv.
  repeat match goal with
  | H : update_member _ _ _ = _ |- _ => apply update_member_calm in H
  | H : advancePermissionRevision _ _ _ = _ |- _ => apply advancePermissionRevision_calm in H
  end. calm_chain.
Qed.

Lemma DeleteMember_calm ctx i actor user expected s s' v :
  DeleteMember ctx i actor user expected s = (s', Ok v) → calm s s'.
Proof.
  unfold DeleteMember. intros Hr. store_inv. split_options.
  apply advancePermissionRevision_calm in Hr. etrans; [|eassumption]. by apply calm_outside.
Qed.

Lemma PurgeDeletedDocument_calm ctx i actor expected idem s s' u :
  PurgeDeletedDocument ctx i actor expected idem s = (s', Ok u) → calm s s'.
Proof.
  unfold PurgeDeletedDocument. intros Hr. store_inv. split_options; frame_facts; [calm_chain|].
  match goal with H : update_document _ _ _ _ = _ |- _ =>
    apply calm_update_document in H; [|intros ?; same_row] end.
  calm_chain.
Qed.

Lemma claim_job_calm ctx lease j s s' v : claim_job ctx lease j s = (s', Ok v) → calm s s'.
Proof.
  unfold claim_job. intros Hr. store_inv.
  match goal with H : update_jobs _ _ _ = _ |- _ =>
    apply (calm_update_jobs steady_job) in H; [|by intros ?; repeat split; intros] end. done.
Qed.

Lemma update_jobs_err P f s s' e : update_jobs P f s = (s', Err e) → s' = s.
Proof.
  unfold update_jobs. intros Hr. apply bind_run_err in Hr as [Hr|(s1 & db & Hg & Hr)]; [done|].
  run_inv. apply bind_run_err in Hr as [Hr|(s1 & u & Hc & Hr)]; [run_inv; done|].
  run_inv. apply bind_run_err in Hr as [Hr|(s1 & w & Hm & Hr)]; [done|]. run_inv.
Qed.

Lemma calm_update_jobs_any (R : JobRow → JobRow → Prop) `{!Reflexive R} P f s :
  (∀ j, R j (f j)) → calm_by R s (update_jobs P f s).1.
Proof.
  intros Hf. destruct (update_jobs P f s) as [s' [n|e]] eqn:Hr; simpl.
  - by eapply calm_update_jobs.
  - apply update_jobs_err in Hr as ->. split; try done. by exists [].
Qed.

Lemma MarkStaged_calm ctx i s : calm_by same_job s (MarkPublicationReferencesStaged ctx i s).1.
Proof.
  unfold MarkPublicationReferencesStaged, updatePublicationJob, sql, wrap, mbind, tx_bind.
  match goal with |- context [update_jobs ?P ?f s] =>
    pose proof (calm_update_jobs_any same_job P f s ltac:(by intros ?; split_and!)) as Hc;
    destruct (update_jobs P f s) as [s' [n|e]] end; simpl in *; [|done].
  unfold require. by destruct (negb (n =? 0)).
Qed.

Lemma RetryPublicationReferenceJob_calm ctx i key n s : calm s (RetryPublicationReferenceJob ctx i key n s).1.
Proof.
  unfold RetryPublicationReferenceJob, sql, wrap, mbind, tx_bind.
  match goal with |- context [update_jobs ?P ?f s] =>
    pose proof (calm_update_jobs_any steady_job P f s ltac:(by intros ?; repeat split; intros)) as Hc;
    destruct (update_jobs P f s) as [s' [m|e]] end; simpl in *; done.
Qed.

Lemma RedrivePublicationReferenceClear_calm ctx i s s' u :
  RedrivePublicationReferenceClear ctx i s = (s', Ok u) → calm s s'.
Proof.
  unfold RedrivePublicationReferenceClear. intros Hr. store_inv.
  match goal with H : update_jobs _ _ _ = _ |- _ =>
    apply (calm_update_jobs steady_job) in H; [|by intros ?; repeat split; intros] end.
  split_options; frame_facts; calm_chain.
Qed.

End calm_operations.

(** ** Changes of one document

    [local_change] is a change of the saga columns of one document within its
    generation; [supersede] starts a new generation: pending jobs go, one new
    job comes. *)

Definition same_work (j k : JobRow) : Prop :=
  j_ID k = j_ID j ∧ j_DocumentID k = j_DocumentID j ∧ j_Generation k = j_Generation j ∧
  j_Action k = j_Action j.

Definition media_ok (s : KDB) : Prop :=
  ∀ k r, media_refs s !! k = Some r →
    k = (mr_DocumentID r, mr_AttachmentID r) ∧ is_Some (publications s !! mr_DocumentID r).

Record local_change (i : string) (d d' : DocumentRow) (s t : KDB) : Prop := {
  lc_before : documents s !! i = Some d;
  lc_documents : documents t = <[i := d']> (documents s);
  lc_id : d_ID d' = d_ID d;
  lc_generation : d_PublicationGeneration d' = d_PublicationGeneration d;
  lc_publishing : d_PublicationStatus d' = PublicationPublishing →
    d_PublicationStatus d = PublicationPublishing;
  lc_publications : ∀ x, x ≠ i → publications t !! x = publications s !! x;
  lc_candidates : ∀ x, x ≠ i → candidates t !! x = candidates s !! x;
  lc_jobs : ∀ k j', jobs t !! k = Some j' → ∃ j, jobs s !! k = Some j ∧ same_work j j';
  lc_other_jobs : ∀ k j, jobs s !! k = Some j → j_DocumentID j ≠ i →
    ∃ j', jobs t !! k = Some j' ∧ same_job j j';
  lc_media : media_ok t;
  lc_ids : ∃ used, new_ids s = used ++ new_ids t;
}.

(** The jobs of the document fit its status. *)
Definition jobs_fit (i : string) (d : DocumentRow) (t : KDB) : Prop :=
  ∀ k j, jobs t !! k = Some j → j_DocumentID j = i → j_Generation j = d_PublicationGeneration d →
    (j_Action j = publicationActionPublish → live d) ∧
    (j_Action j = publicationActionClear → ¬ live d) ∧
    (j_State j = publicationJobPromoted → d_PublicationStatus d ≠ PublicationPublishing).

Lemma suffix_no_id (s t : KDB) x : (∃ used, new_ids s = used ++ new_ids t) → x ∉ new_ids s → x ∉ new_ids t.
Proof. intros [u Hu]. rewrite Hu. set_solver. Qed.

Lemma suffix_nodup (s t : KDB) : (∃ used, new_ids s = used ++ new_ids t) → NoDup (new_ids s) → NoDup (new_ids t).
Proof. intros [u Hu]. rewrite Hu. by intros (_ & _ & ?)%NoDup_app. Qed.

(** The rule of a document depends on its own rows and jobs only. *)
Lemma doc_rule_other s t x e :
  publications t !! x = publications s !! x → candidates t !! x = candidates s !! x →
  (∀ k j, jobs s !! k = Some j → j_DocumentID j = x → j_ParkedAt j = None →
     ∃ j', jobs t !! k = Some j' ∧ same_job j j') →
  doc_rule s x e → doc_rule t x e.
Proof.
  intros Hp Hc Hj [R1 R2 R3 R4 R5]. split; rewrite ?Hp, ?Hc; try done.
  intros Hpub. destruct (R5 Hpub) as (Hcand & k & j & Hk & Hdoc & Hgen & Hact & Hpark).
  split; [done|]. destruct (Hj k j Hk Hdoc Hpark) as (j' & Hk' & _ & E1 & E2 & E3 & E4 & _).
  exists k, j'. split; [done|]. split_and!; try congruence. auto.
Qed.

Lemma local_change_ok i d d' s t :
  saga_ok s → local_change i d d' s t → doc_rule t i d' → jobs_fit i d' t → saga_ok t.
Proof.
  intros [Kd Kj Rd Rj Rp Rc Rm Ri] [Hb Hds Hid Hg Hpg Hps Hcs Hjs Hoj Hm Hids] Hrule Hfit.
  assert (∀ x e, documents t !! x = Some e → (x = i ∧ e = d') ∨ (x ≠ i ∧ documents s !! x = Some e)) as Hcase.
  { intros x e. rewrite Hds. destruct (decide (x = i)) as [->|]; [rewrite lookup_insert_eq; naive_solver|].
    rewrite lookup_insert_ne; naive_solver. }
  assert (∀ x, is_Some (documents s !! x) → is_Some (documents t !! x)) as Hdom.
  { intros x Hx. rewrite Hds. destruct (decide (x = i)) as [->|];
      [rewrite lookup_insert_eq; eauto|by rewrite lookup_insert_ne]. }
  split.
  - intros x e [[-> ->]|[_ Hx]]%Hcase; [rewrite Hid|]; by apply Kd.
  - intros k j' Hk. destruct (Hjs k j' Hk) as (j & Hj & Hw & _).
    destruct (Kj k j Hj) as [HK HN]. rewrite Hw. split; [done|by eapply suffix_no_id].
  - intros x e [[-> ->]|[Hx He]]%Hcase; [done|].
    eapply doc_rule_other; [by apply Hps|by apply Hcs| |by apply Rd].
    intros k j Hj Hdoc _. apply (Hoj k j Hj). congruence.
  - intros k j' Hk. destruct (Hjs k j' Hk) as (j & Hj & _ & E1 & E2 & E3).
    destruct (Rj k j Hj) as (e & He & [G1 G2 G3 G4 G5]). rewrite E1.
    destruct (decide (j_DocumentID j = i)) as [Hdoc|Hdoc].
    + exists d'. rewrite Hdoc, Hds, lookup_insert_eq. split; [done|].
      assert (e = d) as -> by congruence. rewrite <-E2, <-E3 in *. rewrite <-Hg in G1.
      split; [done|done| | |]; intros Heq; by apply (Hfit k j' Hk (eq_trans E1 Hdoc) Heq).
    + exists e. rewrite Hds, lookup_insert_ne by done. split; [done|].
      destruct (Hoj k j Hj Hdoc) as (j1 & Hj1 & _ & _ & _ & _ & _ & E5).
      assert (j1 = j') as -> by congruence. rewrite <-E2, <-E3 in *. split; auto.
  - intros x Hx. destruct (decide (x = i)) as [->|Hx']; [apply Hdom; eauto|].
    rewrite Hps in Hx by done. by apply Hdom, Rp.
  - intros x Hx. destruct (decide (x = i)) as [->|Hx']; [apply Hdom; eauto|].
    rewrite Hcs in Hx by done. by apply Hdom, Rc.
  - done.
  - by eapply suffix_nodup.
Qed.

Lemma local_change_flight i d d' s t v :
  local_change i d d' s t → flight_ok s v → flight_ok t v.
Proof.
  intros [Hb Hds Hid Hg Hpg Hps Hcs Hjs Hoj Hm Hids] [Fu Fr Fp]. split.
  - by eapply suffix_no_id.
  - intros j' Hk. destruct (Hjs _ j' Hk) as (j & Hj & _ & E1 & E2 & E3).
    destruct (Fr j Hj) as (?&?&?). split_and!; congruence.
  - intros Hst j' e Hk He Hgen Hpub. destruct (Hjs _ j' Hk) as (j & Hj & _ & E1 & E2 & E3).
    rewrite E1, Hds in He. destruct (decide (j_DocumentID j = i)) as [Hdoc|Hdoc].
    + rewrite Hdoc, lookup_insert_eq in He. injection He as <-.
      apply (Fp Hst j d Hj); [by rewrite Hdoc|congruence|by apply Hpg].
    + rewrite lookup_insert_ne in He by done. apply (Fp Hst j e Hj He); [congruence|done].
Qed.

Record supersede (i k : string) (j : JobRow) (d d' : DocumentRow) (s t : KDB) : Prop := {
  sp_before : documents s !! i = Some d;
  sp_documents : documents t = <[i := d']> (documents s);
  sp_id : d_ID d' = d_ID d;
  sp_generation : d_PublicationGeneration d' = d_PublicationGeneration d + 1;
  sp_publications : ∀ x, x ≠ i → publications t !! x = publications s !! x;
  sp_candidates : ∀ x, x ≠ i → candidates t !! x = candidates s !! x;
  sp_jobs : jobs t = <[k := j]> (delete_where (unparked_of i) (jobs s));
  sp_job_id : j_ID j = k;
  sp_job_document : j_DocumentID j = i;
  sp_job_generation : j_Generation j = d_PublicationGeneration d';
  sp_job_state : j_State j = publicationJobPending;
  sp_media : media_ok t;
  sp_ids : ∃ used, new_ids s = used ++ new_ids t ∧ k ∈ used;
  sp_revised : revised d d';
}.

Lemma supersede_ids i k j d d' s t :
  NoDup (new_ids s) → supersede i k j d d' s t → k ∉ new_ids t ∧ k ∈ new_ids s.
Proof.
  intros Hnd [_ _ _ _ _ _ _ _ _ _ _ _ (u & Hu & Hk)]. rewrite Hu in Hnd |- *.
  apply NoDup_app in Hnd as (_ & Hdis & _). split; [by apply Hdis|set_solver].
Qed.

Lemma supersede_job_cases i k j d d' s t x j' :
  supersede i k j d d' s t → jobs t !! x = Some j' →
  (x = k ∧ j' = j) ∨ (x ≠ k ∧ jobs s !! x = Some j' ∧ unparked_of i j' = false).
Proof.
  intros [_ _ _ _ _ _ -> _ _ _ _ _ _]. destruct (decide (x = k)) as [->|Hx].
  - rewrite lookup_insert_eq. naive_solver.
  - rewrite lookup_insert_ne by done. rewrite lookup_delete_where_Some. naive_solver.
Qed.

Lemma supersede_ok i k j d d' s t :
  saga_ok s → supersede i k j d d' s t → 0 <= d_PublicationGeneration d →
  doc_rule t i d' → (j_Action j = publicationActionPublish ∧ live d' ∨
                     j_Action j = publicationActionClear ∧ ¬ live d') →
  saga_ok t.
Proof.
  intros Hok Hsp Hpos Hrule Hact. pose proof Hok as [Kd Kj Rd Rj Rp Rc Rm Ri].
  destruct (supersede_ids _ _ _ _ _ _ _ Ri Hsp) as [Hk Hk'].
  pose proof (λ x j', supersede_job_cases _ _ _ _ _ _ _ x j' Hsp) as Hcases.
  destruct Hsp as [Hb Hds Hid Hg Hps Hcs Hjs Hji Hjd Hjg Hjst Hm Hids0].
  assert (∃ used, new_ids s = used ++ new_ids t) as Hids by (destruct Hids0 as (u & ? & _); eauto).
  assert (∀ x e, documents t !! x = Some e → (x = i ∧ e = d') ∨ (x ≠ i ∧ documents s !! x = Some e)) as Hcase.
  { intros x e. rewrite Hds. destruct (decide (x = i)) as [->|]; [rewrite lookup_insert_eq; naive_solver|].
    rewrite lookup_insert_ne; naive_solver. }
  assert (∀ x, is_Some (documents s !! x) → is_Some (documents t !! x)) as Hdom.
  { intros x Hx. rewrite Hds. destruct (decide (x = i)) as [->|];
      [rewrite lookup_insert_eq; eauto|by rewrite lookup_insert_ne]. }
  split.
  - intros x e [[-> ->]|[_ Hx]]%Hcase; [rewrite Hid|]; by apply Kd.
  - intros x j' [[-> ->]|(_ & Hx & _)]%Hcases; [done|].
    destruct (Kj x j' Hx) as [HK HN]. split; [done|by eapply suffix_no_id].
  - intros x e [[-> ->]|[Hx He]]%Hcase; [done|].
    eapply doc_rule_other; [by apply Hps|by apply Hcs| |by apply Rd].
    intros y j0 Hj Hdoc Hpark. exists j0. split; [|done]. rewrite Hjs.
    destruct (Kj y j0 Hj) as [_ HN]. rewrite lookup_insert_ne by congruence.
    apply lookup_delete_where_Some. split; [done|]. unfold unparked_of.
    by rewrite bool_decide_false by congruence.
  - intros x j' [[-> ->]|(_ & Hx & _)]%Hcases.
    + exists d'. rewrite Hjd, Hds, lookup_insert_eq. split; [done|].
      split; [lia|tauto| | |by rewrite Hjst];
        intros _ Ha; destruct Hact as [[Ha' Hl]|[Ha' Hl]]; try done; rewrite Ha' in Ha; discriminate.
    + destruct (Rj x j' Hx) as (e & He & [G1 G2 G3 G4 G5]).
      destruct (decide (j_DocumentID j' = i)) as [Hdoc|Hdoc].
      * exists d'. rewrite Hdoc, Hds, lookup_insert_eq. split; [done|].
        assert (e = d) as -> by congruence. split; [lia|done|lia|lia|lia].
      * exists e. by rewrite Hds, lookup_insert_ne.
  - intros x Hx. destruct (decide (x = i)) as [->|Hx']; [apply Hdom; eauto|].
    rewrite Hps in Hx by done. by apply Hdom, Rp.
  - intros x Hx. destruct (decide (x = i)) as [->|Hx']; [apply Hdom; eauto|].
    rewrite Hcs in Hx by done. by apply Hdom, Rc.
  - done.
  - by eapply suffix_nodup.
Qed.

Lemma supersede_flight i k j d d' s t v :
  saga_ok s → supersede i k j d d' s t → flight_ok s v → flight_ok t v.
Proof.
  intros Hok Hsp [Fu Fr Fp]. pose proof Hok as [Kd Kj Rd Rj _ _ _ Ri].
  destruct (supersede_ids _ _ _ _ _ _ _ Ri Hsp) as [Hk Hk'].
  assert (∀ j', jobs t !! jv_ID v = Some j' → jobs s !! jv_ID v = Some j') as Hsame.
  { intros j' [[Heq _]|(_ & ? & _)]%(supersede_job_cases _ _ _ _ _ _ _ _ _ Hsp); [|done].
    exfalso. apply Fu. by rewrite Heq. }
  pose proof Hsp as [Hb Hds Hid Hg _ _ _ _ _ _ _ _ Hids0].
  split.
  - eapply suffix_no_id; [|done]. destruct Hids0 as (u & ? & _). eauto.
  - eauto.
  - intros Hst j' e Hj'%Hsame He Hgen. rewrite Hds in He.
    destruct (Rj _ j' Hj') as (d0 & Hd0 & [G1 _ _ _ _]).
    destruct (decide (j_DocumentID j' = i)) as [Hdoc|Hdoc].
    + rewrite Hdoc, lookup_insert_eq in He. injection He as <-.
      rewrite Hdoc in Hd0. assert (d0 = d) as -> by congruence. lia.
    + rewrite lookup_insert_ne in He by done. by apply (Fp Hst j' e).
Qed.
