(* ===== verification/KSagaSteps.v ===== *)
(** Every operation of the store keeps the saga invariant.

    [keeps s t] says that whatever a worker has in flight, the invariant passes
    from [s] to [t].  The calm operations keep it by [calm_keeps]; publishing,
    unpublishing and trashing start a new generation; promoting, parking,
    completing and restoring change a document within its generation. *)

From stdpp Require Import base gmap list sets strings.
From Stdlib Require Import ZArith Lia.
From S2P Require Import Prelude.
From S2P Require Import GoStrings.
From S2P Require Import KDomain.
From S2P Require Import RichText.
From S2P Require Import Json.
From S2P Require Import KSchema.
From S2P Require Import KTypes.
From S2P Require Import KStore.
From S2P Require Import KDocuments.
From S2P Require Import KHistory.
From S2P Require Import KPublication.
From S2P Require Import KSharing.
From S2P Require Import KFrames.
From S2P Require Import KSaga.

Open Scope Z_scope.

Record world_ok (s : KDB) (F : list Job) : Prop := {
  world_saga : saga_ok s;
  world_flight : ∀ v, v ∈ F → flight_ok s v;
}.

Definition keeps (s t : KDB) : Prop := ∀ F, world_ok s F → world_ok t F.

#[export] Instance keeps_preorder : PreOrder keeps.
Proof. split; [by intros s F|]. intros s t u H1 H2 F H. by apply H2, H1. Qed.

Lemma calm_by_keeps s t : calm_by same_job s t → keeps s t.
Proof.
  intros Hc F [Hs Hf]. split; [by eapply calm_by_saga_ok|]. intros v Hv. eapply calm_by_flight_ok; eauto.
Qed.

Lemma calm_keeps s t : calm s t → keeps s t.
Proof. intros Hc. by apply calm_by_keeps, calm_weaken. Qed.

Lemma local_keeps i d d' s t :
  local_change i d d' s t → (saga_ok s → doc_rule t i d' ∧ jobs_fit i d' t) → keeps s t.
Proof.
  intros Hl Hr F [Hs Hf]. destruct (Hr Hs) as [Hd Hj].
  split; [by eapply local_change_ok|]. intros v Hv. eapply local_change_flight; eauto.
Qed.

Lemma supersede_keeps i k j d d' s t :
  supersede i k j d d' s t → 0 <= d_PublicationGeneration d →
  (saga_ok s → doc_rule t i d') →
  (j_Action j = publicationActionPublish ∧ live d' ∨ j_Action j = publicationActionClear ∧ ¬ live d') →
  keeps s t.
Proof.
  intros Hsp Hg Hr Ha F [Hs Hf]. split; [eapply supersede_ok; eauto|].
  intros v Hv. eapply supersede_flight; eauto.
Qed.

(** ** Statements *)

Section statements.
Context `{Unicode, Uuid, Codec, Pg}.

Lemma document_check_generation d : document_check d = true → 0 <= d_PublicationGeneration d.
Proof.
  unfold document_check. rewrite !andb_true_iff. intros [[_ Hg] _]. lia.
Qed.

Lemma enqueueJob_run ctx d g action ids s s' u :
  enqueuePublicationReferenceJob ctx d g action ids s = (s', Ok u) →
  0 < g ∧ ∃ k rest j, new_ids s = k :: rest ∧ jobs s' = <[k := j]> (jobs s) ∧
    j_ID j = k ∧ j_DocumentID j = d_ID d ∧ j_Generation j = g ∧ j_Action j = action ∧
    j_ParkedAt j = None ∧ j_State j = publicationJobPending ∧ new_ids s' = rest ∧
    documents s' = documents s ∧ publications s' = publications s ∧
    candidates s' = candidates s ∧ media_refs s' = media_refs s.
Proof.
  unfold enqueuePublicationReferenceJob, insert_job, notifyWorkers. intros Hr. store_inv.
  match goal with H : NewID _ = _ |- _ => apply NewID_run in H as (rest & Hn & ->) end.
  rewrite bool_decide_false in Hr by done. rewrite bool_decide_true in Hr by done.
  simpl in Hr. store_inv.
  match goal with H : job_check _ = true |- _ =>
    unfold job_check in H; cbn [j_Generation] in H; rewrite !andb_true_iff in H end.
  split; [lia|]. simpl. eexists _, _, _. split_and!; done.
Qed.

Lemma save_candidate_run c s s' u :
  save_candidate c s = (s', Ok u) →
  ∃ c', s' = set_candidates (<[pc_DocumentID c := c']> (candidates s)) s ∧
        (pc_Generation c' = pc_Generation c ∧ pc_DocumentID c' = pc_DocumentID c) ∧
        pc_Title c' = pc_Title c ∧ pc_Slug c' = pc_Slug c ∧ pc_PlainText c' = pc_PlainText c ∧
        (pc_Summary c' = pc_Summary c ∧ pc_Language c' = pc_Language c ∧
         pc_ContentSequence c' = pc_ContentSequence c ∧ pc_PublicationHash c' = pc_PublicationHash c) ∧
        jsonb (pc_Content c) = Some (pc_Content c').
Proof.
  unfold save_candidate, saved_candidate. intros Hr. store_inv. destruct (is_some (candidates s !! _)); eauto 20.
Qed.

Lemma save_publication_run p s s' u :
  save_publication p s = (s', Ok u) →
  ∃ tags content, jsonb (pb_Tags p) = Some tags ∧ jsonb (pb_Content p) = Some content ∧
    s' = set_publications
           (<[pb_DocumentID p := with_json (saved_publication s p) tags content]> (publications s)) s.
Proof.
  unfold save_publication. destruct (saved_publication_texts s p) as (Ei & Et & Ec). intros Hr. store_inv.
  rewrite Ei, <-?Et, <-?Ec. eauto.
Qed.

Lemma live_unpublishing d : d_PublicationStatus d = PublicationUnpublishing → ¬ live d.
Proof. unfold live. intros ->. vm_compute. set_solver. Qed.

(** A document that is not live satisfies its rule once it has neither a
    publication nor a candidate. *)
Lemma doc_rule_idle t i d :
  ¬ live d → publications t !! i = None → candidates t !! i = None → doc_rule t i d.
Proof.
  intros Hl Hp Hc.
  assert (∀ st, st ∈ live_statuses → d_PublicationStatus d ≠ st) as Hst.
  { intros st Hin Heq. apply Hl. unfold live. by rewrite Heq. }
  split; try done.
  - intros Hs. exfalso. eapply Hst; [|exact Hs]. left.
  - rewrite Hp. by intros [? ?].
  - rewrite Hc. done.
  - intros Hs. exfalso. eapply Hst; [|exact Hs]. right. left.
Qed.

(** The common part of unpublishing and trashing. *)
Lemma retire_run ctx i d (f : DocumentRow → DocumentRow) s s1 s2 s3 s4 s5 u1 u2 u3 u4 u5 :
  saga_ok s → documents s !! i = Some d →
  (∀ e, d_ID (f e) = d_ID e ∧ d_PublicationStatus (f e) = PublicationUnpublishing ∧
        d_PublicationGeneration (f e) = d_PublicationGeneration d + 1 ∧
        d_MetadataRevision (f e) = d_MetadataRevision e + 1) →
  delete_candidate i s = (s1, Ok u1) →
  delete_publication i s1 = (s2, Ok u2) →
  delete_jobs (unparked_of i) s2 = (s3, Ok u3) →
  enqueuePublicationReferenceJob ctx d (d_PublicationGeneration d + 1) publicationActionClear JNull s3
    = (s4, Ok u4) →
  update_document i (λ _, true) f s4 = (s5, Ok u5) →
  ∃ k j, supersede i k j d (f d) s s5 ∧ doc_rule s5 i (f d) ∧ d_PublicationStatus (f d) = PublicationUnpublishing ∧
    j_Action j = publicationActionClear ∧ 0 <= d_PublicationGeneration d ∧ media_refs s5 ⊆ media_refs s.
Proof.
  intros Hok Hd Hf Hc1 Hc2 Hc3 Hc4 Hr. unfold delete_candidate, delete_publication, delete_jobs in *.
  store_inv.
  match goal with H : enqueuePublicationReferenceJob _ _ _ _ _ _ = _ |- _ =>
    apply enqueueJob_run in H as (Hg & k & rest & j & Hn & Hj & E1 & E2 & E3 & E4 & E5 & E5' & E6 & E7 & E8 & E9 & E10) end.
  simpl in *. apply update_document_run in Hr as [[-> Hno]|(d0 & Hd0 & _ & _ & ->)].
  { rewrite E7 in Hno. by specialize (Hno d Hd). }
  rewrite E7 in Hd0. assert (d0 = d) as -> by congruence. destruct (Hf d) as (F1 & F2 & F3 & F4).
  assert (d_ID d = i) as Hid by by apply (ok_document_keys _ Hok).
  exists k, j. split_and!; [| |done|done|lia|].
  - split; simpl; rewrite ?E7, ?E8, ?E9, ?E10; simpl; try congruence.
    + intros x Hx. by rewrite lookup_delete_ne.
    + intros x Hx. by rewrite lookup_delete_ne.
    + intros x r. simpl. rewrite E8, E10. simpl. intros [Hr Hne]%lookup_delete_where_Some.
      destruct (ok_media_refs _ Hok x r Hr) as [-> Hs]. split; [done|].
      rewrite lookup_delete_ne; [done|]. by apply bool_decide_eq_false in Hne.
    + exists [k]. rewrite Hn, E6. split; [done|left].
    + by apply revised_next.
  - apply doc_rule_idle; [by apply live_unpublishing| |];
      simpl; rewrite ?E8, ?E9; simpl; by rewrite lookup_delete_eq.
  - simpl. rewrite E10. simpl. apply delete_where_subseteq.
Qed.

(** ** Operations that start a generation *)

(** A document is taken offline: a generation starts whose job clears. *)
Definition retires (i : string) (s t : KDB) : Prop :=
  ∃ s0 s1 k j d d', calm s s0 ∧ calm s1 t ∧ supersede i k j d d' s0 s1 ∧ doc_rule s1 i d' ∧
    d_PublicationStatus d' = PublicationUnpublishing ∧ j_Action j = publicationActionClear ∧ 0 <= d_PublicationGeneration d ∧ media_refs s1 ⊆ media_refs s0.

Lemma retires_keeps i s t : retires i s t → keeps s t.
Proof.
  intros (s0 & s1 & k & j & d & d' & Hc0 & Hc1 & Hsp & Hd & Hl & Ha & Hg & _).
  etrans; [by apply calm_keeps|]. etrans; [|by apply calm_keeps].
  eapply supersede_keeps; [done|done|done|]. right. split; [done|by apply live_unpublishing].
Qed.

Lemma SetPublication_run ctx i actor expected published idem s s' v :
  saga_ok s → SetPublication ctx i actor expected published idem s = (s', Ok v) → calm s s' ∨ retires i s s'.
Proof.
  unfold SetPublication, reply. intros Hsok Hr. destruct published; store_inv.
  split_options; frame_facts; [by left|]. right.
  match goal with H : calm s ?x |- _ => pose proof (calm_saga_ok _ _ H Hsok) as Hok; exists x end.
  match goal with H : enqueuePublicationReferenceJob _ ?d _ _ _ _ = _ |- _ =>
    eapply (retire_run ctx i d (unpublishing_row ctx _)) in Hok as (k & j & Hret); eauto;
    eexists _, k, j, d, _ end.
  split; [done|]. split; [eassumption|]. exact Hret.
Qed.

Lemma SoftDeleteDocument_run ctx i actor expected s s' v :
  saga_ok s → SoftDeleteDocument ctx i actor expected s = (s', Ok v) → retires i s s'.
Proof.
  unfold SoftDeleteDocument. intros Hok Hr. store_inv. frame_facts. exists s.
  match goal with H : enqueuePublicationReferenceJob _ ?d _ _ _ _ = _ |- _ =>
    eapply (retire_run ctx i d (trash_row ctx _)) in Hok as (k & j & Hret); eauto;
    eexists _, k, j, d, _ end.
  split; [done|]. split; [eassumption|]. exact Hret.
Qed.

Lemma SetPublication_keeps ctx i actor expected published idem s s' v :
  SetPublication ctx i actor expected published idem s = (s', Ok v) → keeps s s'.
Proof.
  intros Hr F HF. pose proof HF as [Hok _]. revert F HF. change (keeps s s').
  destruct (SetPublication_run _ _ _ _ _ _ _ _ _ Hok Hr); [by apply calm_keeps|by eapply retires_keeps].
Qed.

Lemma SoftDeleteDocument_keeps ctx i actor expected s s' v :
  SoftDeleteDocument ctx i actor expected s = (s', Ok v) → keeps s s'.
Proof.
  intros Hr F HF. pose proof HF as [Hok _]. revert F HF. change (keeps s s').
  by eapply retires_keeps, SoftDeleteDocument_run.
Qed.

Lemma publish_media_ok (s t : KDB) :
  media_ok s → media_refs t = media_refs s → publications t = publications s → media_ok t.
Proof. unfold media_ok. by intros Hm -> ->. Qed.

(** Publishing either replays an earlier request or starts a generation. *)
Lemma PublishSnapshot_run ctx i actor expected input s s' v :
  saga_ok s → PublishSnapshot ctx i actor expected input s = (s', Ok v) →
  (calm s s' ∧ ∃ k, (idempotentResource ctx (in_Idempotency input) s).2 = Ok (Some k)) ∨
  ∃ s0 s1 k j d, calm s s0 ∧ calm s1 s' ∧ 0 <= d_PublicationGeneration d ∧
    supersede i k j d (publishing_row ctx (d_PublicationGeneration d + 1) input d) s0 s1 ∧
    doc_rule s1 i (publishing_row ctx (d_PublicationGeneration d + 1) input d) ∧
    j_Action j = publicationActionPublish ∧
    d_MetadataRevision d = expected ∧ CanEdit (accessFor s0 d actor) = true ∧
    media_refs s1 = media_refs s0.
Proof.
  unfold PublishSnapshot, reply. intros Hsok Hr. store_inv. split_options.
  { left. split.
    - frame_facts. done.
    - match goal with H : idempotentResource _ _ _ = (_, Ok (Some ?k)) |- _ => exists k; by rewrite H end. }
  right. frame_facts.
  match goal with H : calm s ?x |- _ => exists x; pose proof (calm_saga_ok _ _ H Hsok) as Hok end.
  match goal with H : save_candidate _ _ = _ |- _ =>
    apply save_candidate_run in H as (c' & -> & [Hcg Hcd] & _) end.
  unfold delete_jobs in *. store_inv.
  match goal with H : enqueuePublicationReferenceJob _ _ _ _ _ _ = _ |- _ =>
    apply enqueueJob_run in H as (Hg & k & rest & j & Hn & Hj & E1 & E2 & E3 & E4 & E5 & E5' & E6 & E7 & E8 & E9 & E10) end.
  simpl in *.
  match goal with H : update_document _ _ _ _ = _ |- _ =>
    apply update_document_run in H as [[-> Hno]|(d0 & Hd0 & _ & Hck & ->)] end.
  { exfalso. rewrite E7 in Hno. naive_solver. }
  rewrite E7 in Hd0. match goal with H : documents _ !! i = Some ?e |- _ => assert (d0 = e) as -> by congruence end.
  assert (d_ID d = i) as Hid by by apply (ok_document_keys _ Hok).
  eexists _, k, j, d. split_and!; [eassumption|eassumption|lia| | |done|by apply Z.eqb_eq|done|by rewrite <-E10].
  - split; simpl; rewrite ?E7, ?E8, ?E9, ?E10; simpl; try congruence; try done.
    + intros x Hx. by rewrite lookup_insert_ne.
    + refine (publish_media_ok _ _ (ok_media_refs _ Hok) _ _); simpl; rewrite ?E8, ?E10; done.
    + exists [k]. rewrite Hn, E6. split; [done|left].
    + by apply revised_next.
  - split; simpl; rewrite ?E8, ?E9; simpl.
    + match goal with H : false = false → _ |- _ => rewrite (H eq_refl) end. done.
    + done.
    + intros _. right. left.
    + rewrite lookup_insert_eq. intros c [= <-]. split_and!; [done|by rewrite Hcg|by left].
    + intros _. rewrite lookup_insert_eq. split; [by eauto|]. exists k, j.
      rewrite Hj, lookup_insert_eq. split; [done|]. split_and!; congruence.
Qed.

Lemma PublishSnapshot_keeps ctx i actor expected input s s' v :
  PublishSnapshot ctx i actor expected input s = (s', Ok v) → keeps s s'.
Proof.
  intros Hr F HF. pose proof HF as [Hok _]. revert F HF. change (keeps s s').
  destruct (PublishSnapshot_run _ _ _ _ _ _ _ _ Hok Hr)
    as [[Hc _]|(s0 & s1 & k & j & d & Hc0 & Hc1 & Hg & Hsp & Hd & Ha & _)]; [by apply calm_keeps|].
  etrans; [by apply calm_keeps|]. etrans; [|by apply calm_keeps].
  eapply supersede_keeps; [done|done|done|]. left. split; [done|]. right. left.
Qed.

(** ** Operations within a generation *)

Lemma jobs_fit_same s t i d d' :
  saga_ok s → documents s !! i = Some d →
  (∀ k j', jobs t !! k = Some j' → ∃ j, jobs s !! k = Some j ∧ same_work j j') →
  d_PublicationGeneration d' = d_PublicationGeneration d → (live d' ↔ live d) →
  (d_PublicationStatus d' = PublicationPublishing → d_PublicationStatus d = PublicationPublishing ∧
     ∀ k j j', jobs t !! k = Some j' → jobs s !! k = Some j →
       j_State j' = publicationJobPromoted → j_State j = publicationJobPromoted) →
  jobs_fit i d' t.
Proof.
  intros Hok Hd Hjs Hg Hl Hst k j' Hk Hdoc Hgen. destruct (Hjs k j' Hk) as (j & Hj & _ & E1 & E2 & E3).
  destruct (ok_jobs _ Hok k j Hj) as (e & He & [_ _ G3 G4 G5]).
  assert (e = d) as -> by congruence. rewrite E3, Hl. split_and!; intros Ha.
  - apply G3; congruence.
  - apply G4; congruence.
  - intros Hs. destruct (Hst Hs) as [Hs' Hp]. apply (G5 ltac:(congruence)); [by eapply Hp|done].
Qed.

Lemma not_live_publishing d : ¬ live d → d_PublicationStatus d ≠ PublicationPublishing.
Proof. intros Hl Hs. apply Hl. unfold live. rewrite Hs. right. left. Qed.

Lemma same_work_refl s k j : jobs s !! k = Some j → ∃ j0, jobs s !! k = Some j0 ∧ same_work j0 j.
Proof. intros Hj. exists j. by split_and!. Qed.

Lemma RestoreDeletedDocument_keeps ctx i actor s s' v :
  RestoreDeletedDocument ctx i actor s = (s', Ok v) → keeps s s'.
Proof.
  unfold RestoreDeletedDocument. intros Hr. store_inv. frame_facts.
  etrans; [|apply calm_keeps; eassumption].
  match goal with H : update_document _ _ _ _ = _ |- _ =>
    apply update_document_run in H as [[-> _]|(d0 & Hd0 & _ & _ & ->)] end; [done|].
  assert (d0 = d) as -> by congruence.
  intros F HF. pose proof HF as [Hok _]. revert F HF.
  apply (local_keeps i d (restore_row ctx d)).
  - split; simpl; try done.
    + by apply same_work_refl.
    + intros k j Hj _. by exists j.
    + exact (ok_media_refs _ Hok).
    + by exists [].
  - intros _. destruct (ok_documents _ Hok i d Hd0) as [R1 R2 R3 R4 R5]. split.
    + by split.
    + eapply jobs_fit_same; eauto using same_work_refl.
      intros Hs. split; [done|]. simpl. congruence.
Qed.

(** Deleting rows of the job table one job at a time. *)
Lemma lookup_delete_job s k x j :
  saga_ok s → delete_where (λ j, j_ID j =?= k) (jobs s) !! x = Some j ↔ jobs s !! x = Some j ∧ x ≠ k.
Proof.
  intros Hok. rewrite lookup_delete_where_Some. split.
  - intros [Hj Hne%bool_decide_eq_false]. split; [done|]. intros ->.
    destruct (ok_job_keys _ Hok k j Hj). done.
  - intros [Hj Hne]. split; [done|]. apply bool_decide_eq_false.
    destruct (ok_job_keys _ Hok x j Hj). congruence.
Qed.

Lemma idle_rule s t i d d' :
  doc_rule s i d → publications t = publications s → candidates t = candidates s →
  ¬ live d → ¬ live d' → doc_rule t i d'.
Proof.
  intros [R1 R2 R3 R4 R5] Ep Ec Hl Hl'. apply doc_rule_idle; rewrite ?Ep, ?Ec; [done| |].
  - apply eq_None_not_Some. intros Hp. by apply Hl, R3.
  - apply eq_None_not_Some. intros [c Hc]. destruct (R4 c Hc) as (_ & _ & Hs). apply Hl. unfold live.
    destruct Hs as [-> | ->]; [right; left|do 2 right; left].
Qed.

(** Removing a job leaves the rule of its document, unless the document is
    publishing under that very job. *)
Lemma drop_job_rule s t k j d d' :
  saga_ok s → jobs s !! k = Some j → documents s !! j_DocumentID j = Some d →
  (∀ x j', jobs t !! x = Some j' ↔ jobs s !! x = Some j' ∧ x ≠ k) →
  publications t = publications s → candidates t = candidates s →
  (d' = d ∧ (d_PublicationStatus d = PublicationPublishing → d_PublicationGeneration d ≠ j_Generation j)
   ∨ ¬ live d' ∧ ¬ live d) → doc_rule t (j_DocumentID j) d'.
Proof.
  intros Hok Hj Hd Hjs Ep Ec Hcase.
  pose proof (ok_documents _ Hok _ d Hd) as Hrule. pose proof Hrule as [R1 R2 R3 R4 R5].
  destruct Hcase as [[-> Hpub]|[Hl Hl']].
  - split; rewrite ?Ep, ?Ec; try done. intros Hs. destruct (R5 Hs) as (Hc & x & jx & Hx & Hrun).
    split; [done|]. exists x, jx. split; [|done]. apply Hjs. split; [done|]. intros ->.
    assert (jx = j) as -> by congruence. destruct Hrun as (_ & Hg & _). by apply Hpub.
  - by eapply idle_rule.
Qed.

Lemma drop_job_keeps k j d d' s t :
  jobs s !! k = Some j → documents s !! j_DocumentID j = Some d →
  documents t = <[j_DocumentID j := d']> (documents s) →
  jobs t = delete_where (λ j, j_ID j =?= k) (jobs s) →
  publications t = publications s → candidates t = candidates s →
  media_refs t ⊆ media_refs s → new_ids t = new_ids s →
  d_ID d' = d_ID d → d_PublicationGeneration d' = d_PublicationGeneration d →
  (saga_ok s →
     d' = d ∧ (d_PublicationStatus d = PublicationPublishing → d_PublicationGeneration d ≠ j_Generation j)
     ∨ ¬ live d' ∧ ¬ live d) →
  keeps s t.
Proof.
  intros Hj Hd Ed Ej Ep Ec Em Ei Eid Eg Hcase F HF. pose proof HF as [Hok _]. revert F HF.
  specialize (Hcase Hok).
  assert (∀ x j', jobs t !! x = Some j' ↔ jobs s !! x = Some j' ∧ x ≠ k) as Hjs.
  { intros x j'. rewrite Ej. by apply lookup_delete_job. }
  assert (∀ x j', jobs t !! x = Some j' → ∃ j0, jobs s !! x = Some j0 ∧ same_work j0 j') as Hsw.
  { intros x j' [Hx _]%Hjs. by apply same_work_refl. }
  apply (local_keeps (j_DocumentID j) d d').
  - split; try done.
    + destruct Hcase as [[-> _]|[Hl _]]; [done|]. intros Hs. by apply not_live_publishing in Hl.
    + by rewrite Ep.
    + by rewrite Ec.
    + intros x j' Hx Hne. exists j'. split; [|done]. apply Hjs. split; [done|]. congruence.
    + intros x r Hx. rewrite Ep. apply (ok_media_refs _ Hok). by eapply lookup_weaken.
    + exists []. by rewrite Ei.
  - intros _. split; [by eapply drop_job_rule|]. eapply jobs_fit_same; eauto.
    { destruct Hcase as [[-> _]|[Hl Hl']]; tauto. }
    intros Hs. destruct Hcase as [[-> _]|[Hl _]]; [|by apply not_live_publishing in Hl].
    split; [done|]. intros x j1 j' [Hx _]%Hjs. congruence.
Qed.

Lemma complete_keeps ctx k clear s s' u :
  (∀ j, jobs s !! k = Some j → clear = true → j_Action j = publicationActionClear) →
  (∀ j d, jobs s !! k = Some j → clear = false → documents s !! j_DocumentID j = Some d →
     d_PublicationGeneration d = j_Generation j → d_PublicationStatus d ≠ PublicationPublishing) →
  CompletePublicationReferenceJob ctx k clear s = (s', Ok u) → keeps s s'.
Proof.
  unfold CompletePublicationReferenceJob, delete_jobs. intros Hclear Hpub Hr. store_inv.
  match goal with H : jobs s !! k = Some ?x |- _ => rename x into j, H into Hj end.
  intros F HF. pose proof HF as [Hok _]. revert F HF.
  destruct (ok_jobs _ Hok k j Hj) as (d & Hd & [G1 G2 G3 G4 G5]).
  destruct clear; store_inv.
  - specialize (Hclear j Hj eq_refl).
    match goal with H : update_document _ _ _ _ = _ |- _ =>
      apply update_document_run in H as [[-> Hno]|(d0 & Hd0 & Hat & _ & ->)] end; simpl in *.
    + specialize (Hno d Hd). unfold at_generation in Hno.
      eapply (drop_job_keeps k j d d); simpl; eauto using delete_where_subseteq.
      * by rewrite insert_id.
      * intros _. left. split; [done|]. intros _. lia.
    + assert (d0 = d) as -> by congruence. apply Z.eqb_eq in Hat.
      eapply (drop_job_keeps k j d (cleared_row ctx d)); simpl; eauto using delete_where_subseteq.
      intros _. right. split; [vm_compute; set_solver|]. by apply G4.
  - eapply (drop_job_keeps k j d d); simpl; eauto.
    + by rewrite insert_id.
    + intros _. left. split; [done|]. intros Hs Hg. by eapply Hpub.
Qed.

(** ** Parking *)

Definition park_row (ctx : Ctx) (key : string) (j : JobRow) : JobRow :=
  j |> set_j_ParkedAt (Some (now ctx)) |> set_j_LeaseUntil None
    |> set_j_LastErrorKey key |> set_j_UpdatedAt (now ctx).

Lemma lookup_update_job s k f x j' :
  saga_ok s → update_where (λ j, j_ID j =?= k) f (jobs s) !! x = Some j' ↔
  ∃ j, jobs s !! x = Some j ∧ j' = if decide (x = k) then f j else j.
Proof.
  intros Hok. rewrite lookup_update_where_Some.
  split; intros (j & Hj & ->); exists j; (split; [done|]); destruct (ok_job_keys _ Hok x j Hj) as [<- _];
    case_bool_decide; case_decide; congruence.
Qed.

(** The rule of a document whose job is parked. *)
Lemma park_rule s t k j d d' f :
  saga_ok s → jobs s !! k = Some j → documents s !! j_DocumentID j = Some d →
  jobs t = update_where (λ j, j_ID j =?= k) f (jobs s) →
  publications t = publications s → candidates t = candidates s →
  (d' = d ∧ d_PublicationGeneration d ≠ j_Generation j
   ∨ ¬ live d' ∧ ¬ live d
   ∨ d_PublicationStatus d' = PublicationPublishFailed ∧ live d ∧
     d_PublicationGeneration d' = d_PublicationGeneration d ∧ d_DeletedAt d' = d_DeletedAt d) →
  doc_rule t (j_DocumentID j) d'.
Proof.
  intros Hok Hj Hd Ej Ep Ec Hcase.
  pose proof (ok_documents _ Hok _ d Hd) as Hrule. pose proof Hrule as [R1 R2 R3 R4 R5].
  destruct Hcase as [[-> Hg]|[[Hl Hl']|(Hst & Hl & Eg & Ed)]].
  - split; rewrite ?Ep, ?Ec; try done.
    intros Hs. destruct (R5 Hs) as (Hc & x & jx & Hx & Hrun). split; [done|].
    exists x, jx. split; [|done]. rewrite Ej. apply (lookup_update_job s k f x jx Hok).
    exists jx. split; [done|]. rewrite decide_False; [done|]. intros ->.
    assert (jx = j) as -> by congruence. by destruct Hrun as (_ & ? & _).
  - by eapply idle_rule.
  - split; rewrite ?Ep, ?Ec, ?Hst, ?Eg, ?Ed; try done.
    + intros Hdel. by destruct (R1 Hdel).
    + intros _. unfold live. rewrite Hst. do 2 right. left.
    + intros c Hc. destruct (R4 c Hc) as (? & ? & _). auto.
Qed.

Lemma park_job_keeps k j d d' f s t :
  (∀ j, same_work j (f j) ∧ j_State (f j) = j_State j) →
  jobs s !! k = Some j → documents s !! j_DocumentID j = Some d →
  documents t = <[j_DocumentID j := d']> (documents s) →
  jobs t = update_where (λ j, j_ID j =?= k) f (jobs s) →
  publications t = publications s → candidates t = candidates s →
  media_refs t = media_refs s → new_ids t = new_ids s →
  d_ID d' = d_ID d → d_PublicationGeneration d' = d_PublicationGeneration d →
  (saga_ok s →
     d' = d ∧ d_PublicationGeneration d ≠ j_Generation j ∨ ¬ live d' ∧ ¬ live d ∨
     d_PublicationStatus d' = PublicationPublishFailed ∧ live d ∧
     d_PublicationGeneration d' = d_PublicationGeneration d ∧ d_DeletedAt d' = d_DeletedAt d) →
  keeps s t.
Proof.
  intros Hf Hj Hd Ed Ej Ep Ec Em Ei Eid Eg Hcase F HF. pose proof HF as [Hok _]. revert F HF.
  specialize (Hcase Hok). pose proof (λ x j', lookup_update_job s k f x j' Hok) as Hjs.
  assert (∀ x j', jobs t !! x = Some j' → ∃ j0, jobs s !! x = Some j0 ∧ same_work j0 j') as Hsw.
  { intros x j'. rewrite Ej. intros (j0 & Hx & ->)%Hjs. exists j0. split; [done|].
    case_decide; [apply Hf|by split_and!]. }
  assert (live d' ↔ live d) as Hlive.
  { destruct Hcase as [[-> _]|[[? ?]|(Hst & ? & _)]]; [done|tauto|]. unfold live at 1. rewrite Hst.
    split; [done|]. intros _. do 2 right. left. }
  apply (local_keeps (j_DocumentID j) d d').
  - split; try done.
    + destruct Hcase as [[-> _]|[[Hl _]|(Hst & _)]]; [done| |by rewrite Hst].
      intros Hs. by apply not_live_publishing in Hl.
    + by rewrite Ep.
    + by rewrite Ec.
    + intros x j' Hx Hne. exists j'. split; [|done]. rewrite Ej. apply Hjs. exists j'. split; [done|].
      rewrite decide_False; [done|]. congruence.
    + intros x r. rewrite Em, Ep. apply (ok_media_refs _ Hok).
    + exists []. by rewrite Ei.
  - intros _. split; [by eapply park_rule|]. eapply jobs_fit_same; eauto.
    intros Hs. destruct Hcase as [[-> _]|[[Hl _]|(Hst & _)]];
      [|by apply not_live_publishing in Hl|by rewrite Hst in Hs].
    split; [done|]. intros x j1 j'. rewrite Ej. intros (j0 & Hx & ->)%Hjs Hx'.
    assert (j0 = j1) as -> by congruence. case_decide; [|done]. by rewrite (proj2 (Hf j1)).
Qed.

Lemma park_keeps ctx k key publish s s' u :
  (∀ j, jobs s !! k = Some j → publish = (j_Action j =?= publicationActionPublish)) →
  ParkPublicationReferenceJob ctx k key publish s = (s', Ok u) → keeps s s'.
Proof.
  unfold ParkPublicationReferenceJob. intros Hact Hr. store_inv.
  match goal with H : jobs s !! k = Some ?x |- _ => rename x into j, H into Hj end.
  specialize (Hact j Hj). intros F HF. pose proof HF as [Hok _]. revert F HF.
  destruct (ok_jobs _ Hok k j Hj) as (d & Hd & [G1 G2 G3 G4 G5]).
  match goal with H : update_jobs _ _ _ = _ |- _ => apply update_jobs_run in H as (_ & -> & _) end.
  apply update_document_run in Hr as [[-> Hno]|(d0 & Hd0 & Hat & _ & ->)]; simpl in *.
  - specialize (Hno d Hd). unfold at_generation in Hno.
    eapply (park_job_keeps k j d d); simpl; eauto; [by intros ?; split_and!|by rewrite insert_id|].
    intros _. left. split; [done|lia].
  - assert (d0 = d) as -> by congruence. apply Z.eqb_eq in Hat. symmetry in Hat.
    eapply (park_job_keeps k j d); simpl; eauto; [by intros ?; split_and!|].
    intros _. right. subst publish. destruct G2 as [Ha|Ha]; rewrite Ha in *.
    + right. split_and!; [done|by apply G3|done|done].
    + left. split; [vm_compute; set_solver|by apply G4].
Qed.

(** ** Promotion *)

Definition ref_row (ctx : Ctx) (i a : string) (g : Z) : MediaRefRow := MkMediaRefRow i a g (now ctx).

(** The loop that records the media of a publication. *)
Lemma insert_refs_run ctx i g ids s s' u :
  for_each ids (λ a, sql_write "create published media reference"
                       (insert_media_ref (MkMediaRefRow i a g (now ctx)))) s = (s', Ok u) →
  (∀ k, media_refs s' !! k =
        if decide (k.1 = i ∧ k.2 ∈ ids) then Some (ref_row ctx i k.2 g) else media_refs s !! k) ∧
  documents s' = documents s ∧ publications s' = publications s ∧ candidates s' = candidates s ∧
  jobs s' = jobs s ∧ new_ids s' = new_ids s ∧ projections s' = projections s.
Proof.
  revert s. induction ids as [|a ids IH]; intros s Hr; cbn [for_each] in Hr; store_inv.
  - split_and!; try done. intros k. rewrite decide_False; [done|]. intros [_ ?%elem_of_nil]. done.
  - unfold insert_media_ref in *. store_inv. apply IH in Hr as (Hm & E1 & E2 & E3 & E4 & E5 & E6).
    simpl in *. split_and!; try done. intros [x y]. rewrite Hm. simpl.
    destruct (decide (x = i ∧ y ∈ ids)) as [[-> Hy]|Hn].
    + rewrite decide_True; [done|]. split; [done|by right].
    + destruct (decide ((x, y) = (i, a))) as [[= -> ->]|Hne].
      * rewrite lookup_insert_eq, decide_True; [done|]. split; [done|left].
      * rewrite lookup_insert_ne by done. rewrite decide_False; [done|].
        intros [-> [->|Hy]%elem_of_cons]; [done|]. by apply Hn.
Qed.

(** What a promotion does, when the job was not promoted before. *)
Record promoted (ctx : Ctx) (v : Job) (s t : KDB) (stored : JobRow) (d : DocumentRow)
  (c : CandidateRow) (tags content : string) : Prop := {
  pm_stored : jobs s !! jv_ID v = Some stored;
  pm_staged : j_State stored = publicationJobStaged;
  pm_job_generation : j_Generation stored = jv_Generation v;
  pm_document : documents s !! jv_DocumentID v = Some d;
  pm_deleted : d_DeletedAt d = None;
  pm_generation : d_PublicationGeneration d = jv_Generation v;
  pm_status : d_PublicationStatus d = PublicationPublishing;
  pm_candidate : candidates s !! jv_DocumentID v = Some c;
  pm_candidate_generation : pc_Generation c = jv_Generation v;
  pm_tags : jsonb (pc_Tags c) = Some tags;
  pm_content : jsonb (pc_Content c) = Some content;
  pm_documents : ∃ e, documents s !! d_ID d = Some e ∧
    documents t = <[d_ID d := published_row ctx e]> (documents s);
  pm_publications : publications t =
    <[pc_DocumentID c := with_json (saved_publication s (publication_of ctx c)) tags content]>
      (publications s);
  pm_candidates : candidates t = delete (jv_DocumentID v) (candidates s);
  pm_media_refs : ∀ k, media_refs t !! k =
    if decide (k.1 = jv_DocumentID v ∧ k.2 ∈ jv_AttachmentIDs v)
    then Some (ref_row ctx (jv_DocumentID v) k.2 (jv_Generation v))
    else delete_where (λ r, mr_DocumentID r =?= jv_DocumentID v) (media_refs s) !! k;
  pm_jobs : jobs t = update_where (λ j, j_ID j =?= j_ID stored)
    (λ j, j |> set_j_State publicationJobPromoted |> set_j_LeaseUntil None
            |> set_j_NextAttemptAt (now ctx) |> set_j_UpdatedAt (now ctx)) (jobs s);
  pm_projections : projections t = projections s;
  pm_ids : ∃ used, new_ids s = used ++ new_ids t;
}.

Lemma promote_run ctx v s s' u :
  PromotePublication ctx v s = (s', Ok u) →
  (s' = s ∧ ∃ j, jobs s !! jv_ID v = Some j ∧ j_State j = publicationJobPromoted) ∨
  ∃ stored d c tags content, promoted ctx v s s' stored d c tags content.
Proof.
  unfold PromotePublication. intros Hr. store_inv. split_options.
  { left. split; [done|]. eexists. split; [eassumption|]. by eapply bool_decide_eq_true. }
  right. unfold delete_candidate in *. store_inv.
  repeat match goal with
  | H : save_publication _ _ = _ |- _ => apply save_publication_run in H as (tags & content & Ht & Hc & ->)
  | H : replaceDocumentTags _ _ _ _ _ = _ |- _ => apply replaceDocumentTags_same in H as [A1 A0 A2 A3 A4 A5 A6]
  | H : for_each _ _ _ = _ |- _ => apply insert_refs_run in H as (B1 & B2 & B3 & B4 & B5 & B6 & B0)
  | H : activate_slug _ _ _ _ = _ |- _ => apply activate_slug_same in H as [C1 C0 C2 C3 C4 C5 C6]
  | H : createHistoryAnchor _ _ _ _ _ _ = _ |- _ => apply createHistoryAnchor_same in H as [D1 D0 D2 D3 D4 D5 D6]
  | H : update_jobs _ _ _ = _ |- _ => apply update_jobs_run in H as (_ & -> & _)
  end.
  match goal with H : (candidates s !! _ ≫= _) = Some ?x |- _ => rename H into Hcand, x into c end.
  destruct (candidates s !! jv_DocumentID v) as [c0|] eqn:Hc0; [|done]. simpl in Hcand.
  destruct (pc_Generation c0 =? jv_Generation v) eqn:Hcg; [|done]. injection Hcand as ->.
  match goal with H : update_document _ _ _ _ = _ |- _ =>
    apply update_document_run in H as [[-> Hno]|(e & He & _ & _ & ->)] end; simpl in *.
  - exfalso. match goal with H : documents _ !! d_ID d = Some ?y |- _ => specialize (Hno y H) end. done.
  - repeat match goal with
    | H : _ && _ = true |- _ => apply andb_prop in H as [? ?]
    | H : bool_decide _ = true |- _ => apply bool_decide_eq_true in H
    | H : (_ =? _) = true |- _ => apply Z.eqb_eq in H
    end.
    rewrite C1, B2, A1 in He.
    exists x0, d, c, tags, content. split; try done.
    all: simpl.
    all: try congruence; auto.
    + exists e. split; [done|]. congruence.
    + intros k. rewrite D4. simpl. rewrite C4, B1. simpl. by rewrite A4.
    + destruct A6 as [a6 A6], C6 as [c6 C6], D6 as [d6 D6]. simpl in *. exists (a6 ++ c6 ++ d6).
      rewrite A6, <-B6, C6, D6. by rewrite !app_assoc.
Qed.

Definition promote_job (ctx : Ctx) (j : JobRow) : JobRow :=
  j |> set_j_State publicationJobPromoted |> set_j_LeaseUntil None
    |> set_j_NextAttemptAt (now ctx) |> set_j_UpdatedAt (now ctx).

Lemma promoted_media ctx v s t stored d c tags content :
  saga_ok s → promoted ctx v s t stored d c tags content → media_ok t.
Proof.
  intros Hok Hp. destruct (ok_documents _ Hok _ d (pm_document _ _ _ _ _ _ _ _ _ Hp)) as [_ _ _ R4 _].
  destruct (R4 c (pm_candidate _ _ _ _ _ _ _ _ _ Hp)) as (Hcd & _).
  intros [x y] r. rewrite (pm_media_refs _ _ _ _ _ _ _ _ _ Hp), (pm_publications _ _ _ _ _ _ _ _ _ Hp), Hcd.
  simpl. case_decide as Hin.
  - intros [= <-]. destruct Hin as [-> _]. simpl. rewrite lookup_insert_eq. eauto.
  - intros [Hr Hne]%lookup_delete_where_Some. destruct (ok_media_refs _ Hok _ r Hr) as [-> Hs].
    apply bool_decide_eq_false in Hne. split; [done|]. by rewrite lookup_insert_ne.
Qed.

Lemma promoted_local ctx v s t stored d c tags content :
  saga_ok s → (∀ j, jobs s !! jv_ID v = Some j → j_DocumentID j = jv_DocumentID v) →
  promoted ctx v s t stored d c tags content →
  local_change (jv_DocumentID v) d (published_row ctx d) s t ∧
  doc_rule t (jv_DocumentID v) (published_row ctx d) ∧
  jobs_fit (jv_DocumentID v) (published_row ctx d) t.
Proof.
  intros Hok Hmatch Hp. pose proof (promoted_media _ _ _ _ _ _ _ _ _ Hok Hp) as Hm.
  destruct Hp as [P1 P2 P3 P4 P5 P6 P7 P8 P9 _ _ (e & P10 & P11) P12 P13 P14 P15 P16 P17].
  destruct (ok_documents _ Hok _ d P4) as [R1 R2 R3 R4 R5]. destruct (R4 c P8) as (Hcd & _ & _).
  rewrite (ok_document_keys _ Hok _ d P4) in P10, P11. assert (e = d) as -> by congruence.
  rewrite Hcd in P12. destruct (ok_job_keys _ Hok _ stored P1) as [Hk _]. rewrite Hk in P15.
  pose proof (λ x j', lookup_update_job s (jv_ID v) (promote_job ctx) x j' Hok) as Hjs.
  assert (∀ x j', jobs t !! x = Some j' → ∃ j0, jobs s !! x = Some j0 ∧ same_work j0 j') as Hsw.
  { intros x j'. rewrite P15. intros (j0 & Hx & ->)%Hjs. exists j0. split; [done|].
    by case_decide; split_and!. }
  split_and!.
  - split; simpl; try done.
    + intros x Hx. by rewrite P12, lookup_insert_ne.
    + intros x Hx. by rewrite P13, lookup_delete_ne.
    + intros x j Hx Hne. exists j. split; [|done]. rewrite P15. apply Hjs. exists j. split; [done|].
      rewrite decide_False; [done|]. intros ->. by apply Hne, Hmatch.
  - split; simpl; rewrite ?P5, ?P12, ?P13, ?lookup_insert_eq, ?lookup_delete_eq; try done.
    intros _. left.
  - eapply jobs_fit_same; eauto; [|done]. unfold live. simpl. rewrite P7.
    split; intros _; [right; left|left].
Qed.

Lemma promote_keeps ctx v s s' u :
  (∀ j, jobs s !! jv_ID v = Some j → j_DocumentID j = jv_DocumentID v) →
  PromotePublication ctx v s = (s', Ok u) → keeps s s'.
Proof.
  intros Hmatch [[-> _]|(stored & d & c & tags & content & Hp)]%promote_run; [done|].
  intros F HF. pose proof HF as [Hok _]. revert F HF.
  destruct (promoted_local _ _ _ _ _ _ _ _ _ Hok Hmatch Hp) as (Hl & Hd & Hj).
  by eapply local_keeps.
Qed.

(** The claim a worker holds after a successful promotion. *)
Lemma promote_flight ctx v s s' u :
  saga_ok s → flight_ok s v → PromotePublication ctx v s = (s', Ok u) →
  flight_ok s' (set_jv_State "promoted" v).
Proof.
  intros Hok Hv Hr. pose proof Hv as [Fu Fr Fp].
  assert (∀ j, jobs s !! jv_ID v = Some j → j_DocumentID j = jv_DocumentID v) as Hmatch
    by (intros j Hj; by destruct (Fr j Hj)).
  destruct (promote_run _ _ _ _ _ Hr) as [[-> (j & Hj & Hst)]|(stored & d & c & tags & content & Hp)].
  - split; [done|done|]. intros _ j' d Hj' Hd Hg. simpl in *. assert (j' = j) as -> by congruence.
    destruct (ok_jobs _ Hok _ j Hj) as (e & He & [_ _ _ _ G5]).
    assert (e = d) as -> by congruence. by apply G5.
  - destruct (promoted_local _ _ _ _ _ _ _ _ _ Hok Hmatch Hp) as (Hl & _ & _).
    destruct (local_change_flight _ _ _ _ _ v Hl Hv) as [Gu Gr Gp].
    split; [done|done|]. intros _ j' e Hj' He _ Hpub. simpl in *.
    destruct (Gr j' Hj') as (Hdoc & _). rewrite Hdoc, (lc_documents _ _ _ _ _ Hl), lookup_insert_eq in He.
    injection He as <-. done.
Qed.

(** ** Claiming *)

Lemma claim_flight ctx lease j s s1 s2 v :
  saga_ok s → jobs s !! j_ID j = Some j → claim_job ctx lease j s1 = (s2, Ok v) → flight_ok s v.
Proof.
  unfold claim_job. intros Hok Hj Hr. store_inv. destruct (ok_job_keys _ Hok _ j Hj) as [_ Hn].
  split; simpl; [done|naive_solver|].
  intros Hst j' d Hj' Hd Hg. assert (j' = j) as -> by congruence.
  destruct (ok_jobs _ Hok _ j Hj) as (e & He & [_ _ _ _ G5]). assert (e = d) as -> by congruence. by apply G5.
Qed.

Lemma collect_claims ctx lease s js s1 s2 vs :
  saga_ok s → calm s s1 → (∀ j, j ∈ js → jobs s !! j_ID j = Some j) →
  collect js (claim_job ctx lease) s1 = (s2, Ok vs) →
  calm s s2 ∧ ∀ v, v ∈ vs → flight_ok s v.
Proof.
  intros Hok. revert s1 vs. induction js as [|j js IH]; intros s1 vs Hc Hin Hr; cbn [collect] in Hr; store_inv.
  - split; [done|]. intros v ?%elem_of_nil. done.
  - match goal with H : claim_job _ _ _ _ = _ |- _ => rename H into Hclaim end.
    match goal with H : collect _ _ _ = _ |- _ => apply IH in H as [Hc2 Hvs] end.
    + split; [done|]. intros v [->|Hv]%elem_of_cons; [|by apply Hvs].
      eapply claim_flight; [done| |exact Hclaim]. apply Hin. left.
    + etrans; [exact Hc|]. by eapply claim_job_calm.
    + intros j' Hj'. apply Hin. by right.
Qed.

Lemma claim_run ctx limit lease s s' vs :
  saga_ok s → ClaimPublicationReferenceJobs ctx limit lease s = (s', Ok vs) →
  calm s s' ∧ ∀ v, v ∈ vs → flight_ok s' v.
Proof.
  unfold ClaimPublicationReferenceJobs. intros Hok Hr. store_inv.
  eapply (collect_claims ctx lease s) in Hr as [Hc Hv]; [|done|done|].
  - split; [done|]. intros v Hin. eapply calm_flight_ok; eauto.
  - intros j (y & Hj & _)%elem_of_take. apply list_elem_of_lookup_2 in Hj.
    apply elem_of_order_by, elem_of_rows_where in Hj as [_ [k Hk]].
    destruct (ok_job_keys _ Hok k j Hk) as [-> _]. done.
Qed.

(** ** Creating and purging *)

(** A document as the service creates it. *)
Definition fresh_document (v : Document) : Prop :=
  v_PublicationStatus v = PublicationDraft ∧ v_DeletedAt v = None.

Lemma insert_document_keeps d s t :
  documents s !! d_ID d = None → ¬ live d →
  documents t = <[d_ID d := d]> (documents s) → jobs t = jobs s →
  publications t = publications s → candidates t = candidates s → media_refs t = media_refs s →
  new_ids t = new_ids s → keeps s t.
Proof.
  intros Hnone Hl Ed Ej Ep Ec Em Ei F [Hok Hf].
  pose proof Hok as [Kd Kj Rd Rj Rp Rc Rm Ri].
  assert (∀ x, is_Some (documents s !! x) → x ≠ d_ID d) as Hne by (intros x [y Hy] ->; congruence).
  assert (∀ x, is_Some (documents s !! x) → documents t !! x = documents s !! x) as Hsame.
  { intros x Hx. rewrite Ed, lookup_insert_ne; [done|]. intros <-. by apply (Hne (d_ID d)). }
  split; [split|].
  - intros x e. rewrite Ed, lookup_insert_Some. intros [[<- <-]|[_ He]]; [done|by apply Kd].
  - intros k j. rewrite Ej, Ei. apply Kj.
  - intros x e. rewrite Ed, lookup_insert_Some. intros [[<- <-]|[_ He]].
    + apply doc_rule_idle; [done| |]; rewrite ?Ep, ?Ec; apply eq_None_not_Some.
      * intros Hx%Rp. by apply (Hne _ Hx).
      * intros Hx%Rc. by apply (Hne _ Hx).
    + apply (doc_rule_other s); [by rewrite Ep|by rewrite Ec| |by apply Rd].
      intros k j Hj _ _. exists j. by rewrite Ej.
  - intros k j. rewrite Ej. intros Hj. destruct (Rj k j Hj) as (e & He & [G1 G2 G3 G4 G5]).
    exists e. rewrite Hsame by eauto. split; [done|by split].
  - intros x. rewrite Ep. intros Hx. rewrite Hsame; by apply Rp.
  - intros x. rewrite Ec. intros Hx. rewrite Hsame; by apply Rc.
  - intros k r. rewrite Em, Ep. apply Rm.
  - by rewrite Ei.
  - intros v Hv. destruct (Hf v Hv) as [Fu Fr Fp]. split; rewrite ?Ei, ?Ej; [done|done|].
    intros Hst j e Hj He Hg. destruct (Rj _ j Hj) as (e' & He' & _).
    rewrite Hsame in He by eauto. by eapply Fp.
Qed.

Lemma CreateDocument_keeps ctx v idem s s' w :
  fresh_document v → CreateDocument ctx v idem s = (s', Ok w) → keeps s s'.
Proof.
  intros [Hst Hdel]. unfold CreateDocument. intros Hr. store_inv. split_options; frame_facts; [by apply calm_keeps|].
  etrans; [apply calm_keeps; eassumption|]. etrans; [|apply calm_keeps; eassumption].
  unfold insert_document, insert_alias, insert_projection in *. store_inv.
  eapply (insert_document_keeps (document_defaults (documentToModel v))); try done.
  - match goal with H : negb (has_document _ _) = true |- _ => unfold has_document in H; rename H into Hh end.
    apply negb_true_iff in Hh. by destruct (documents _ !! _).
  - unfold live. simpl. rewrite Hst. vm_compute. set_solver.
Qed.

Lemma PurgeDocument_keeps ctx i s s' u : PurgeDocument ctx i s = (s', Ok u) → keeps s s'.
Proof.
  unfold PurgeDocument. intros Hr. store_inv.
  match goal with H : update_aliases _ _ _ = _ |- _ => apply update_aliases_same, same_saga_calm in H end.
  etrans; [apply calm_keeps; eassumption|]. unfold delete_document in *. store_inv.
  match goal with |- keeps ?a _ => set (b := a) end.
  intros F [Hok Hf]. pose proof Hok as [Kd Kj Rd Rj Rp Rc Rm Ri].
  split; [split|]; simpl.
  - intros x e [_ He]%lookup_delete_Some. by apply Kd.
  - intros k j [Hj _]%lookup_delete_where_Some. by apply Kj.
  - intros x e [Hx He]%lookup_delete_Some. apply (doc_rule_other b); simpl; [by rewrite lookup_delete_ne
      |by rewrite lookup_delete_ne| |by apply Rd].
    intros k j Hj Hdoc _. exists j. split; [|done]. apply lookup_delete_where_Some. split; [done|].
    apply bool_decide_eq_false. congruence.
  - intros k j [Hj Hne%bool_decide_eq_false]%lookup_delete_where_Some.
    destruct (Rj k j Hj) as (e & He & [G1 G2 G3 G4 G5]). exists e.
    rewrite lookup_delete_ne by done. split; [done|by split].
  - intros x [p [Hx Hp]%lookup_delete_Some]. rewrite lookup_delete_ne by done. apply Rp. eauto.
  - intros x [p [Hx Hp]%lookup_delete_Some]. rewrite lookup_delete_ne by done. apply Rc. eauto.
  - intros k r [Hr Hne%bool_decide_eq_false]%lookup_delete_where_Some.
    rewrite lookup_delete_ne by done. by apply Rm.
  - done.
  - intros v Hv. destruct (Hf v Hv) as [Fu Fr Fp]. split; simpl; [done| |].
    + intros j [Hj _]%lookup_delete_where_Some. by apply Fr.
    + intros Hst j e [Hj _]%lookup_delete_where_Some [_ He]%lookup_delete_Some. by apply Fp.
Qed.

End statements.
