(* ===== verification/KWorld.v ===== *)
(** The Knowledge service as a transition system.

    A world is the database together with the jobs workers have claimed so far;
    a claim is never forgotten, so a worker may act on it arbitrarily late and
    several may hold the same job.  A step is one request of the service, one
    maintenance operation, or one repository call of the publication worker in
    the order [publish_steps] and [clear_steps] prescribe.  Every repository
    call is one transaction, so runs of the system are sequences of steps. *)

From stdpp Require Import base gmap list sets strings relations.
From Stdlib Require Import ZArith Lia.
From S2P Require Import Prelude.
From S2P Require Import GoStrings.
From S2P Require Import KDomain.
From S2P Require Import RichText.
From S2P Require Import Json.
From S2P Require Import KSchema.
From S2P Require Import KTypes.
From S2P Require Import KStore.
From S2P Require Import KDocuments.
From S2P Require Import KHistory.
From S2P Require Import KPublication.
From S2P Require Import KSharing.
From S2P Require Import KOutbox.
From S2P Require Import KCommits.
From S2P Require Import KWorker.
From S2P Require Import KFrames.
From S2P Require Import KSaga.
From S2P Require Import KSagaSteps.

Open Scope Z_scope.

Section quiet.
Context `{Unicode, Uuid, Url, Codec, Pg}.

(** ** Operations outside the saga *)

(** Runs whose statements touch no table of the saga. *)
Ltac quiet :=
  split_options;
  repeat match goal with
  | H : semantic_hash _ _ _ _ = _ |- _ => apply semantic_hash_run in H; subst
  | H : latestBlockDiff _ _ _ = _ |- _ => apply latestBlockDiff_run in H; subst
  end;
  frame_facts;
  unfold insert_history, insert_folder, update_folders, update_placements, delete_folder,
    insert_commit, update_outbox in *;
  store_inv;
  repeat first
    [ reflexivity
    | apply calm_outside; reflexivity
    | match goal with
      | H : calm ?s ?x |- calm ?s ?t => transitivity x; [exact H|clear H]
      | H : calm ?x ?t |- calm ?s ?t => transitivity x; [clear H|exact H]
      end ].

Lemma CreateDueHistoryCheckpoint_calm ctx s s' r :
  CreateDueHistoryCheckpoint ctx s = (s', Ok r) → calm s s'.
Proof. unfold CreateDueHistoryCheckpoint, delete_activity. intros Hr. store_inv. quiet. Qed.

Lemma PruneHistory_calm ctx s s' u : PruneHistory ctx s = (s', Ok u) → calm s s'.
Proof. unfold PruneHistory. intros Hr. store_inv. quiet. Qed.

Lemma PurgeMaintenanceData_calm ctx s s' u : PurgeMaintenanceData ctx s = (s', Ok u) → calm s s'.
Proof. unfold PurgeMaintenanceData. intros Hr. store_inv. quiet. Qed.

Lemma CreateFolder_calm ctx owner name parent idem s s' v :
  CreateFolder ctx owner name parent idem s = (s', Ok v) → calm s s'.
Proof. unfold CreateFolder, depth_error. intros Hr. store_inv. quiet. Qed.

Lemma UpdateFolder_calm ctx owner i expected name parent s s' v :
  UpdateFolder ctx owner i expected name parent s = (s', Ok v) → calm s s'.
Proof. unfold UpdateFolder, move_target, depth_error. intros Hr. store_inv. quiet. Qed.

Lemma DeleteFolder_calm ctx owner i expected s s' u :
  DeleteFolder ctx owner i expected s = (s', Ok u) → calm s s'.
Proof. unfold DeleteFolder. intros Hr. store_inv. quiet. Qed.

Lemma commitFromModel_run c s s' v : commitFromModel c s = (s', Ok v) → s' = s.
Proof. unfold commitFromModel. intros Hr. store_inv. done. Qed.

Lemma contentHash_run c t s s' h : contentHash c t s = (s', Ok h) → s' = s.
Proof. unfold contentHash. intros Hr. store_inv. done. Qed.

Ltac commit_facts :=
  repeat match goal with
  | H : commitFromModel _ _ = _ |- _ => apply commitFromModel_run in H; subst
  | H : contentHash _ _ _ = _ |- _ => apply contentHash_run in H; subst
  end.

Lemma CreateCommit_calm ctx i actor input s s' v : CreateCommit ctx i actor input s = (s', Ok v) → calm s s'.
Proof.
  unfold CreateCommit. intros Hr. store_inv. split_options; commit_facts; quiet;
  commit_facts; quiet.
Qed.

Lemma RenameCommit_calm ctx i actor label desc s s' v :
  RenameCommit ctx i actor label desc s = (s', Ok v) → calm s s'.
Proof. unfold RenameCommit. intros Hr. store_inv. commit_facts. quiet. Qed.

Lemma RestoreCommit_calm ctx i actor idem s s' v : RestoreCommit ctx i actor idem s = (s', Ok v) → calm s s'.
Proof.
  unfold RestoreCommit. intros Hr. store_inv. split_options; [quiet|].
  match goal with H : update_document _ _ _ _ = _ |- _ =>
    apply calm_update_document in H; [|intros ?; same_row] end.
  match goal with H : update_projection _ _ = _ |- _ => apply update_projection_calm in H end.
  quiet.
Qed.

Lemma ClaimOutbox_calm ctx limit lease s s' v : ClaimOutbox ctx limit lease s = (s', Ok v) → calm s s'.
Proof.
  unfold ClaimOutbox. intros Hr. store_inv.
  eapply (collect_keeps (calm s)) in Hr; [exact Hr| |done].
  intros o s1 s2 w _ Hc Hrun. etrans; [exact Hc|]. unfold claim_outbox in Hrun. store_inv. quiet.
Qed.

Lemma outbox_update_calm op P f s : calm s (outbox_update op P f s).1.
Proof.
  unfold outbox_update, sql, wrap, mbind, tx_bind.
  destruct (update_outbox P f s) as [s1 [n|e]] eqn:Hr; simpl.
  - unfold update_outbox in Hr. store_inv. unfold require. case_match; by apply calm_outside.
  - unfold update_outbox in Hr. apply bind_run_err in Hr as [Hr|(s2 & db & Hg & Hr)]; [done|].
    run_inv. apply bind_run_err in Hr as [Hr|(s2 & u & Hc & Hr)]; [run_inv; done|].
    run_inv. apply bind_run_err in Hr as [Hr|(s2 & w & Hm & Hr)]; [done|]. run_inv.
Qed.

(** ** Requests *)

(** The calls that change the database, other than the publication worker's. *)
Inductive request :=
| ReqCreateDocument (ctx : Ctx) (v : Document) (k : Idempotency)
| ReqUpdateDocument (ctx : Ctx) (i : string) (actor expected : Z) (ch : Changes)
| ReqSoftDelete (ctx : Ctx) (i : string) (actor expected : Z)
| ReqRestoreDeleted (ctx : Ctx) (i : string) (actor : Z)
| ReqPurgeDeleted (ctx : Ctx) (i : string) (actor expected : Z) (k : Idempotency)
| ReqPublish (ctx : Ctx) (i : string) (actor expected : Z) (input : PublicationSnapshotInput)
| ReqSetPublication (ctx : Ctx) (i : string) (actor expected : Z) (published : bool) (k : Idempotency)
| ReqAddMember (ctx : Ctx) (i : string) (actor : Z) (user : PublicUser) (role : string) (k : Idempotency)
| ReqUpdateMember (ctx : Ctx) (i : string) (actor user expected : Z) (role : string)
| ReqDeleteMember (ctx : Ctx) (i : string) (actor user expected : Z)
| ReqUpsertProjection (p : Projection)
| ReqCreateFolder (ctx : Ctx) (owner : Z) (name : string) (parent : option string) (k : Idempotency)
| ReqUpdateFolder (ctx : Ctx) (owner : Z) (i : string) (expected : Z) (name parent : option string)
| ReqDeleteFolder (ctx : Ctx) (owner : Z) (i : string) (expected : Z)
| ReqCreateCommit (ctx : Ctx) (i : string) (actor : Z) (input : CommitInput)
| ReqRenameCommit (ctx : Ctx) (i : string) (actor : Z) (label description : string)
| ReqRestoreCommit (ctx : Ctx) (i : string) (actor : Z) (k : Idempotency)
| ReqHistoryCheckpoint (ctx : Ctx)
| ReqPruneHistory (ctx : Ctx)
| ReqPurgeDocument (ctx : Ctx) (i : string)
| ReqPurgeMaintenance (ctx : Ctx)
| ReqRedriveClear (ctx : Ctx) (i : string)
| ReqClaimOutbox (ctx : Ctx) (limit lease : Z)
| ReqMarkOutboxPublished (ctx : Ctx) (i : string)
| ReqRetryOutbox (ctx : Ctx) (i : string) (delay : Z)
| ReqParkOutbox (ctx : Ctx) (i reason : string)
| ReqNewID.

Definition run_request (r : request) (s : KDB) : KDB :=
  match r with
  | ReqCreateDocument ctx v k => (CreateDocument ctx v k s).1
  | ReqUpdateDocument ctx i actor expected ch => (UpdateDocument ctx i actor expected ch s).1
  | ReqSoftDelete ctx i actor expected => (SoftDeleteDocument ctx i actor expected s).1
  | ReqRestoreDeleted ctx i actor => (RestoreDeletedDocument ctx i actor s).1
  | ReqPurgeDeleted ctx i actor expected k => (PurgeDeletedDocument ctx i actor expected k s).1
  | ReqPublish ctx i actor expected input => (PublishSnapshot ctx i actor expected input s).1
  | ReqSetPublication ctx i actor expected p k => (SetPublication ctx i actor expected p k s).1
  | ReqAddMember ctx i actor user role k => (AddMember ctx i actor user role k s).1
  | ReqUpdateMember ctx i actor user expected role => (UpdateMember ctx i actor user expected role s).1
  | ReqDeleteMember ctx i actor user expected => (DeleteMember ctx i actor user expected s).1
  | ReqUpsertProjection p => (UpsertProjection p s).1
  | ReqCreateFolder ctx owner name parent k => (CreateFolder ctx owner name parent k s).1
  | ReqUpdateFolder ctx owner i expected name parent =>
      (UpdateFolder ctx owner i expected name parent s).1
  | ReqDeleteFolder ctx owner i expected => (DeleteFolder ctx owner i expected s).1
  | ReqCreateCommit ctx i actor input => (CreateCommit ctx i actor input s).1
  | ReqRenameCommit ctx i actor label description => (RenameCommit ctx i actor label description s).1
  | ReqRestoreCommit ctx i actor k => (RestoreCommit ctx i actor k s).1
  | ReqHistoryCheckpoint ctx => (CreateDueHistoryCheckpoint ctx s).1
  | ReqPruneHistory ctx => (PruneHistory ctx s).1
  | ReqPurgeDocument ctx i => (PurgeDocument ctx i s).1
  | ReqPurgeMaintenance ctx => (PurgeMaintenanceData ctx s).1
  | ReqRedriveClear ctx i => (RedrivePublicationReferenceClear ctx i s).1
  | ReqClaimOutbox ctx limit lease => (ClaimOutbox ctx limit lease s).1
  | ReqMarkOutboxPublished ctx i => (MarkOutboxPublished ctx i s).1
  | ReqRetryOutbox ctx i delay => (RetryOutbox ctx i delay s).1
  | ReqParkOutbox ctx i reason => (ParkOutbox ctx i reason s).1
  | ReqNewID => (NewID s).1
  end.

(** Documents are created as drafts outside the trash. *)
Definition request_ok (r : request) : Prop :=
  match r with ReqCreateDocument _ v _ => fresh_document v | _ => True end.

(** An operation that leaves the database alone when it fails. *)
Definition atomic {A} (op : store A) : Prop := ∀ s s' e, op s = (s', Err e) → s' = s.

Lemma atomic_transaction {A} (m : store A) : atomic (transaction m).
Proof. intros s s' e [-> _]%transaction_run_err. done. Qed.

Lemma atomic_keeps {A} (op : store A) s :
  atomic op → (∀ s' a, op s = (s', Ok a) → keeps s s') → keeps s (op s).1.
Proof.
  intros Ha Hok. destruct (op s) as [s' [a|e]] eqn:Hr; simpl; [by eapply Hok|].
  by apply Ha in Hr as ->.
Qed.

Lemma atomic_marshal {A} op v (k : string → store A) : (∀ t, atomic (k t)) → atomic (marshal op v ≫= k).
Proof.
  intros Hk s s' e [Hr|(s1 & t & [-> _]%marshal_run & Hr)]%bind_run_err; [|by eapply Hk].
  unfold marshal in Hr. by run_inv.
Qed.

Lemma PublishSnapshot_atomic ctx i actor expected input : atomic (PublishSnapshot ctx i actor expected input).
Proof. unfold PublishSnapshot. do 3 (apply atomic_marshal; intros ?). apply atomic_transaction. Qed.

Lemma SetPublication_atomic ctx i actor expected p k : atomic (SetPublication ctx i actor expected p k).
Proof.
  unfold SetPublication. destruct p; [|apply atomic_transaction].
  intros s s' e Hr. by apply fail_run in Hr as [-> _].
Qed.

Lemma NewID_atomic : atomic NewID.
Proof.
  intros s s' e Hr. unfold NewID in Hr. cbv [mbind tx_bind gets id] in Hr.
  destruct (new_ids s); [by injection Hr as <-|done].
Qed.

Hint Resolve atomic_transaction PublishSnapshot_atomic SetPublication_atomic NewID_atomic : frames.

(** The requests that move a document through the saga; the others leave its
    tables calm. *)
Definition saga_request (r : request) : bool :=
  match r with
  | ReqCreateDocument _ _ _ | ReqSoftDelete _ _ _ _ | ReqRestoreDeleted _ _ _
  | ReqPublish _ _ _ _ _ | ReqSetPublication _ _ _ _ _ _ | ReqPurgeDocument _ _ => true
  | _ => false
  end.

Lemma transaction_calm {A} (op : store A) s :
  atomic op → (∀ s' a, op s = (s', Ok a) → calm s s') → calm s (op s).1.
Proof.
  intros Ha Hc. destruct (op s) as [s' [a|e]] eqn:Hr; simpl; [by eapply Hc|]. by apply Ha in Hr as ->.
Qed.

Lemma request_calm r s : saga_request r = false → calm s (run_request r s).
Proof.
  intros Hr. destruct r; try done; cbn [run_request];
    try apply outbox_update_calm; (apply transaction_calm; [first [apply NewID_atomic|apply atomic_transaction]|]);
    eauto using UpdateDocument_calm, PurgeDeletedDocument_calm, AddMember_calm,
      UpdateMember_calm, DeleteMember_calm, UpsertProjection_calm, CreateFolder_calm,
      UpdateFolder_calm, DeleteFolder_calm, CreateCommit_calm, RenameCommit_calm,
      RestoreCommit_calm, CreateDueHistoryCheckpoint_calm, PruneHistory_calm,
      PurgeMaintenanceData_calm, RedrivePublicationReferenceClear_calm, ClaimOutbox_calm,
      same_saga_calm, NewID_same.
Qed.

Lemma run_request_keeps r s : request_ok r → keeps s (run_request r s).
Proof.
  intros Hr. destruct (saga_request r) eqn:Hs; [|by apply calm_keeps, request_calm].
  destruct r; try done; cbn [run_request]; apply atomic_keeps; auto with frames;
    eauto using CreateDocument_keeps, SoftDeleteDocument_keeps, RestoreDeletedDocument_keeps,
      PublishSnapshot_keeps, SetPublication_keeps, PurgeDocument_keeps;
    apply atomic_transaction.
Qed.

(** ** Worlds *)

Record World := MkWorld { db : KDB; flight : list Job }.

Inductive step : World → World → Prop :=
| step_request r w :
    request_ok r → step w (MkWorld (run_request r (db w)) (flight w))
| step_claim ctx limit lease w s' vs :
    ClaimPublicationReferenceJobs ctx limit lease (db w) = (s', Ok vs) →
    step w (MkWorld s' (vs ++ flight w))
| step_stage ctx v w s' u :
    v ∈ flight w → jv_Action v ≠ "clear" → jv_State v = "pending" →
    MarkPublicationReferencesStaged ctx (jv_ID v) (db w) = (s', Ok u) →
    step w (MkWorld s' (set_jv_State "staged" v :: flight w))
| step_promote ctx v w s' u :
    v ∈ flight w → jv_Action v ≠ "clear" → jv_State v = "staged" →
    PromotePublication ctx v (db w) = (s', Ok u) →
    step w (MkWorld s' (set_jv_State "promoted" v :: flight w))
| step_finalize ctx v w :
    v ∈ flight w → jv_Action v ≠ "clear" → jv_State v = "promoted" →
    step w (MkWorld (CompletePublicationReferenceJob ctx (jv_ID v) false (db w)).1 (flight w))
| step_clear ctx v w :
    v ∈ flight w → jv_Action v = "clear" →
    step w (MkWorld (CompletePublicationReferenceJob ctx (jv_ID v) true (db w)).1 (flight w))
| step_retry ctx v w key :
    v ∈ flight w →
    step w (MkWorld (RetryPublicationReferenceJob ctx (jv_ID v) key (jv_Attempts v) (db w)).1 (flight w))
| step_park ctx v w key :
    v ∈ flight w →
    step w (MkWorld (ParkPublicationReferenceJob ctx (jv_ID v) key (jv_Action v =?= "publish") (db w)).1
              (flight w)).

Lemma complete_atomic ctx i clear : atomic (CompletePublicationReferenceJob ctx i clear).
Proof. apply atomic_transaction. Qed.

Lemma park_atomic ctx i key p : atomic (ParkPublicationReferenceJob ctx i key p).
Proof. apply atomic_transaction. Qed.

Lemma flight_staged s v : flight_ok s v → flight_ok s (set_jv_State "staged" v).
Proof. intros [Fu Fr _]. by split. Qed.

Lemma keeps_more s t F G :
  keeps s t → world_ok s F → (world_ok t F → ∀ v, v ∈ G → flight_ok t v) → world_ok t (G ++ F).
Proof.
  intros Hk Hw HG. pose proof (Hk F Hw) as Ht. pose proof Ht as [Hok Hf]. split; [done|].
  intros v [Hv|Hv]%elem_of_app; [by apply HG|by apply Hf].
Qed.

Lemma step_keeps w w' : world_ok (db w) (flight w) → step w w' → world_ok (db w') (flight w').
Proof.
  intros Hw Hs. pose proof Hw as [Hok Hf]. destruct Hs as
    [r w Hr|ctx limit lease w s' vs Hr|ctx v w s' u Hv Ha Hst Hr|ctx v w s' u Hv Ha Hst Hr
    |ctx v w Hv Ha Hst|ctx v w Hv Ha|ctx v w key Hv|ctx v w key Hv]; cbn [db flight] in *.
  - by apply run_request_keeps.
  - destruct (claim_run _ _ _ _ _ _ Hok Hr) as [Hc Hvs].
    apply (keeps_more (db w)); [by apply calm_keeps|done|auto].
  - pose proof (MarkStaged_calm ctx (jv_ID v) (db w)) as Hc. rewrite Hr in Hc. simpl in Hc.
    apply (keeps_more (db w) _ _ [_]); [by apply calm_by_keeps|done|].
    intros [_ Hf'] x ->%list_elem_of_singleton. by apply flight_staged, Hf'.
  - destruct (Hf v Hv) as [Fu Fr Fp].
    apply (keeps_more (db w) _ _ [_]); [|done|].
    + eapply promote_keeps; [|exact Hr]. intros j Hj. by destruct (Fr j Hj).
    + intros _ x ->%list_elem_of_singleton. eapply promote_flight; eauto.
  - destruct (Hf v Hv) as [Fu Fr Fp]. revert Hw. apply (atomic_keeps _ _ (complete_atomic _ _ _)).
    intros s' u Hr. apply (complete_keeps ctx (jv_ID v) false) in Hr; [done|done|]. intros j d Hj _ Hd Hg. by apply (Fp Hst j d).
  - destruct (Hf v Hv) as [Fu Fr Fp]. revert Hw. apply (atomic_keeps _ _ (complete_atomic _ _ _)).
    intros s' u Hr. apply (complete_keeps ctx (jv_ID v) true) in Hr; [done| |done]. intros j Hj _.
    destruct (Fr j Hj) as (_ & _ & ->). done.
  - eapply calm_keeps; [apply RetryPublicationReferenceJob_calm|done].
  - destruct (Hf v Hv) as [Fu Fr Fp]. revert Hw. apply (atomic_keeps _ _ (park_atomic _ _ _ _)).
    intros s' u Hr. eapply park_keeps; [|exact Hr]. intros j Hj. by destruct (Fr j Hj) as (_ & _ & ->).
Qed.

(** ** Reachable worlds *)

(** The empty database with a supply of distinct identifiers. *)
Definition empty_db (ids : list string) : KDB :=
  MkKDB ∅ ∅ ∅ ∅ ∅ ∅ ∅ ∅ ∅ ∅ ∅ ∅ ∅ ∅ ∅ ∅ ∅ [] ids.

Definition reachable (w : World) : Prop :=
  ∃ ids, NoDup ids ∧ rtc step (MkWorld (empty_db ids) []) w.

Lemma empty_ok ids : NoDup ids → world_ok (empty_db ids) [].
Proof.
  intros Hnd. split; [split|]; simpl; try done; try (intros ? ? Hx; by rewrite lookup_empty in Hx).
  - intros i [x Hx]. by rewrite lookup_empty in Hx.
  - intros i [x Hx]. by rewrite lookup_empty in Hx.
  - intros v ?%elem_of_nil. done.
Qed.

Lemma reachable_ok w : reachable w → world_ok (db w) (flight w).
Proof.
  intros (ids & Hnd & Hr). revert Hr. apply (rtc_keeps step (λ w, world_ok (db w) (flight w))).
  - intros a b Ha Hs. by eapply step_keeps.
  - by apply empty_ok.
Qed.

Lemma reach_step w w' : reachable w → step w w' → reachable w'.
Proof. intros (ids & Hn & Hr) Hs. exists ids. split; [done|]. by eapply rtc_r. Qed.

Lemma reach_request r s F s' :
  reachable (MkWorld s F) → request_ok r → run_request r s = s' → reachable (MkWorld s' F).
Proof. intros Hw Hr <-. eapply reach_step; [exact Hw|]. by apply (step_request r (MkWorld s F)). Qed.

End quiet.
