(* ===== verification/KSample.v ===== *)
(** A small concrete instance of the service: functions for the parameters
    (codecs, collation, UUIDs), a clock, and the database after a document has
    been created and its publication requested, staged, promoted and finalised.
    The examples of the other files evaluate the operations on these states. *)

From stdpp Require Import base gmap list sets strings relations.
From Stdlib Require Import ZArith Lia SpecFloat.
From S2P Require Import Prelude.
From S2P Require Import GoStrings.
From S2P Require Import KDomain.
From S2P Require Import RichText.
From S2P Require Import Json.
From S2P Require Import KSchema.
From S2P Require Import KTypes.
From S2P Require Import KStore.
From S2P Require Import KDocuments.
From S2P Require Import KHistory.
From S2P Require Import KPublication.
From S2P Require Import KSharing.
From S2P Require Import KOutbox.
From S2P Require Import KCommits.
From S2P Require Import KWorker.
From S2P Require Import KFrames.
From S2P Require Import KSaga.
From S2P Require Import KSagaSteps.
From S2P Require Import KWorld.

Open Scope Z_scope.

(** Every encoder writes an empty array, which every decoder reads back. *)
Definition toy_codec : Codec := {|
  json_decode := λ _, Some (JArr []);
  json_encode := λ _, Some empty_array;
  json_valid := λ _, true;
  decode_document := λ _, Some (MkDocument "doc" (Some []));
  decode_headers := λ _, Some [];
  std_decode := λ _, Some (JArr []);
  std_encode := λ _, empty_array;
  sha256_hex := λ text, text;
|}.

Definition toy_pg : Pg := {|
  sql_lower := λ text, text;
  text_compare := String.compare;
  ilike := λ text pattern, text =?= pattern;
  jsonb := λ text, Some text;
|}.

#[export] Existing Instance ascii_unicode | 100.
#[export] Existing Instance no_uuid | 100.
#[export] Existing Instance https_url | 100.
#[export] Existing Instance toy_codec | 100.
#[export] Existing Instance toy_pg | 100.

Definition at_time (t : Z) : Ctx := MkCtx t [].

Definition zero_float : float64 := S754_zero false.

Definition no_key (actor : Z) : Idempotency := MkIdempotency actor "op" EmptyString "hash".

Definition with_key (actor : Z) (key hash : string) : Idempotency := MkIdempotency actor "op" key hash.

Definition sample_document : Document :=
  MkDoc "doc-1" "Notes" EmptyString "notes" "en" [] None (MkPublicUser 7 "ada" EmptyString)
    AccessOwner false PublicationDraft None 0 EmptyString EmptyString EmptyString None zero_float zero_float
    1 0 1 None None None None 10 10.

Definition sample_input : PublicationSnapshotInput :=
  MkPublicationSnapshotInput "Notes" EmptyString "notes" "en" None (MkDocument "doc" (Some []))
    "text" 0 "hash" EmptyString None zero_float zero_float [] (no_key 7).

Definition sample_ids : list string := ["id-1"; "id-2"; "id-3"; "id-4"; "id-5"; "id-6"; "id-7"; "id-8"].

(** The states of the sample run. *)
Definition db_created : KDB :=
  Eval vm_compute in (CreateDocument (at_time 10) sample_document (no_key 7) (empty_db sample_ids)).1.

Definition db_requested : KDB :=
  Eval vm_compute in (PublishSnapshot (at_time 20) "doc-1" 7 1 sample_input db_created).1.

Definition sample_claim : KDB * result kerror (list Job) :=
  Eval vm_compute in ClaimPublicationReferenceJobs (at_time 30) 10 60 db_requested.

Definition db_claimed : KDB := Eval vm_compute in sample_claim.1.

Definition sample_job : Job := MkJob "id-1" "doc-1" 7 1 "publish" [] "pending" 1 [].

Definition db_staged : KDB :=
  Eval vm_compute in (MarkPublicationReferencesStaged (at_time 40) "id-1" db_claimed).1.

Definition db_promoted : KDB :=
  Eval vm_compute in (PromotePublication (at_time 50) (set_jv_State "staged" sample_job) db_staged).1.

Definition db_published : KDB :=
  Eval vm_compute in (CompletePublicationReferenceJob (at_time 60) "id-1" false db_promoted).1.

(** The value of a run that succeeds. *)
Definition value {A} (d : A) (r : result kerror A) : A := match r with Ok a => a | Err _ => d end.

Definition sample_changes : Changes :=
  MkChanges (Some "Better notes") None (Some "better-notes") None None None None None None None.

(** The document after an edit of its title and slug. *)
Definition sample_update : KDB * result kerror Document :=
  Eval vm_compute in UpdateDocument (at_time 15) "doc-1" 7 1 sample_changes db_created.

Definition db_updated : KDB := Eval vm_compute in sample_update.1.

(** ** The sample run is a run of the service *)

Lemma reach_empty ids : NoDup ids → reachable (MkWorld (empty_db ids) []).
Proof. intros Hn. exists ids. by split. Qed.

Lemma created_reachable : reachable (MkWorld db_created []).
Proof.
  apply (reach_request (ReqCreateDocument (at_time 10) sample_document (no_key 7)) (empty_db sample_ids)).
  - apply reach_empty. apply (bool_decide_unpack _). vm_compute. done.
  - vm_compute. by split.
  - vm_compute. reflexivity.
Defined.

Lemma requested_reachable : reachable (MkWorld db_requested []).
Proof.
  apply (reach_request (ReqPublish (at_time 20) "doc-1" 7 1 sample_input) db_created).
  - apply created_reachable.
  - done.
  - vm_compute. reflexivity.
Defined.

Lemma claimed_reachable : reachable (MkWorld db_claimed [sample_job]).
Proof.
  eapply reach_step; [apply requested_reachable|].
  apply (step_claim (at_time 30) 10 60 (MkWorld db_requested []) db_claimed [sample_job]).
  vm_compute. reflexivity.
Defined.

Lemma staged_reachable : reachable (MkWorld db_staged [set_jv_State "staged" sample_job; sample_job]).
Proof.
  eapply reach_step; [apply claimed_reachable|].
  apply (step_stage (at_time 40) sample_job (MkWorld db_claimed [sample_job]) db_staged tt).
  - left.
  - discriminate.
  - reflexivity.
  - vm_compute. reflexivity.
Defined.

Definition sample_flight : list Job :=
  [set_jv_State "promoted" sample_job; set_jv_State "staged" sample_job; sample_job].

Lemma promoted_reachable : reachable (MkWorld db_promoted sample_flight).
Proof.
  eapply reach_step; [apply staged_reachable|].
  apply (step_promote (at_time 50) (set_jv_State "staged" sample_job)
           (MkWorld db_staged [set_jv_State "staged" sample_job; sample_job]) db_promoted tt).
  - left.
  - discriminate.
  - reflexivity.
  - vm_compute. reflexivity.
Defined.

Lemma published_reachable : reachable (MkWorld db_published sample_flight).
Proof.
  eapply reach_step; [apply promoted_reachable|].
  assert (db_published = (CompletePublicationReferenceJob (at_time 60) "id-1" false db_promoted).1) as ->
    by (vm_compute; reflexivity).
  apply (step_finalize (at_time 60) (set_jv_State "promoted" sample_job) (MkWorld db_promoted sample_flight)).
  - left.
  - discriminate.
  - reflexivity.
Defined.
