(* ===== verification/KCalls.v ===== *)
(** What reaches the store: every call of the request logic runs at most one
    store operation, on validated arguments, and a call that fails leaves the
    database as it was. *)

From stdpp Require Import base gmap list sets strings relations.
From Stdlib Require Import ZArith Lia SpecFloat.
From S2P Require Import Prelude.
From S2P Require Import GoStrings.
From S2P Require Import KDomain.
From S2P Require Import RichText.
From S2P Require Import Json.
From S2P Require Import KSchema.
From S2P Require Import KTypes.
From S2P Require Import KStore.
From S2P Require Import KDocuments.
From S2P Require Import KHistory.
From S2P Require Import KPublication.
From S2P Require Import KSharing.
From S2P Require Import KCommits.
From S2P Require Import KListing.
From S2P Require Import KLogic.
From S2P Require Import KFrames.
From S2P Require Import KSaga.
From S2P Require Import KSagaSteps.
From S2P Require Import KWorld.
From S2P Require Import KSample.

Open Scope Z_scope.

(** The calls of the RPC interface that may write, with the answers the
    identity service gives them. *)
Inductive api_call :=
| CallCreate (identity : Identity) (ctx : Ctx) (input : CreateDocumentInput)
| CallUpdate (y_first : bool) (ctx : Ctx) (i : string) (actor expected : Z) (input : Changes)
| CallDelete (ctx : Ctx) (i : string) (actor expected : Z)
| CallRestore (ctx : Ctx) (i : string) (actor : Z)
| CallPurge (ctx : Ctx) (i : string) (actor expected : Z) (key : string)
| CallSetPublication (ctx : Ctx) (i : string) (actor expected : Z) (published : bool) (key : string)
| CallPublish (identity : Identity) (ctx : Ctx) (i : string) (actor expected : Z) (input : PublishSnapshotInput)
| CallCreateFolder (ctx : Ctx) (actor : Z) (name : string) (parent : option string) (key : string)
| CallUpdateFolder (ctx : Ctx) (actor : Z) (i : string) (expected : Z) (name parent : option string)
| CallDeleteFolder (ctx : Ctx) (actor : Z) (i : string) (expected : Z)
| CallCreateCommit (ctx : Ctx) (input : LogicCommitInput)
| CallRenameCommit (ctx : Ctx) (i : string) (actor : Z) (label description : string)
| CallRestoreCommit (ctx : Ctx) (i : string) (actor : Z) (key : string)
| CallAddMember (identity : Identity) (ctx : Ctx) (input : AddMemberInput)
| CallUpdateMember (ctx : Ctx) (i : string) (actor user expected : Z) (role : string)
| CallDeleteMember (ctx : Ctx) (i : string) (actor user expected : Z)
| CallProject (ctx : Ctx) (i : string) (sequence : Z) (content : RichTextDocument) (plainText : string).

(** The outcome of a computation without its value. *)
Definition outcome {A} (m : logic A) (s : KDB) : KDB * option lerror :=
  match m s with
  | (s', Ok _) => (s', None)
  | (s', Err e) => (s', Some e)
  end.

Section calls.
Context `{Unicode, Uuid, Url, Codec, Pg}.

Definition run_call (c : api_call) : KDB → KDB * option lerror :=
  match c with
  | CallCreate identity ctx input => outcome (Create identity ctx input)
  | CallUpdate y_first ctx i actor expected input => outcome (Update y_first ctx i actor expected input)
  | CallDelete ctx i actor expected => outcome (Delete ctx i actor expected)
  | CallRestore ctx i actor => outcome (Restore ctx i actor)
  | CallPurge ctx i actor expected key => outcome (PurgeDeleted ctx i actor expected key)
  | CallSetPublication ctx i actor expected p key =>
      outcome (LogicSetPublication ctx i actor expected p key)
  | CallPublish identity ctx i actor expected input =>
      outcome (LogicPublishSnapshot identity ctx i actor expected input)
  | CallCreateFolder ctx actor name parent key => outcome (LogicCreateFolder ctx actor name parent key)
  | CallUpdateFolder ctx actor i expected name parent =>
      outcome (LogicUpdateFolder ctx actor i expected name parent)
  | CallDeleteFolder ctx actor i expected => outcome (LogicDeleteFolder ctx actor i expected)
  | CallCreateCommit ctx input => outcome (LogicCreateCommit ctx input)
  | CallRenameCommit ctx i actor label description =>
      outcome (LogicRenameCommit ctx i actor label description)
  | CallRestoreCommit ctx i actor key => outcome (LogicRestoreCommit ctx i actor key)
  | CallAddMember identity ctx input => outcome (Add identity ctx input)
  | CallUpdateMember ctx i actor user expected role =>
      outcome (LogicUpdateMember ctx i actor user expected role)
  | CallDeleteMember ctx i actor user expected => outcome (LogicDeleteMember ctx i actor user expected)
  | CallProject ctx i sequence content plainText => outcome (Project ctx i sequence content plainText)
  end.

(** ** Valid requests *)

Definition key_ok (k : Idempotency) : Prop :=
  id_Key k = EmptyString ∨ idempotencyKeyPattern (id_Key k) = true.

Definition opt_ok {A} (P : A → Prop) (o : option A) : Prop := ∀ a, o = Some a → P a.

Definition title_valid (v : string) : Prop := ValidateTitle v = Ok tt.
Definition summary_valid (v : string) : Prop := ValidateSummary v = Ok tt.
Definition slug_valid (v : string) : Prop := NormalizeSlug v = Ok v.
Definition language_valid (v : string) : Prop := 2 <= len v <= 16.
Definition tags_valid (l : list string) : Prop := ∃ raw, NormalizeTags raw = Ok l.
Definition folder_name_valid (v : string) : Prop := 1 <= rune_count v <= 120.
Definition uuid_or_empty (v : string) : Prop := v = EmptyString ∨ is_uuid7 v = true.

Record changes_valid (ch : Changes) : Prop := {
  cv_title : opt_ok title_valid (ch_title ch);
  cv_summary : opt_ok summary_valid (ch_summary ch);
  cv_slug : opt_ok slug_valid (ch_slug ch);
  cv_language : opt_ok language_valid (ch_language ch);
  cv_tags : opt_ok tags_valid (ch_tags ch);
  cv_icon : opt_ok (λ v, rune_count v <= 8) (ch_icon ch);
  cv_cover : opt_ok uuid_or_empty (ch_coverAttachmentID ch);
  cv_focal : focal_ok (ch_coverFocalX ch) = true ∧ focal_ok (ch_coverFocalY ch) = true;
  cv_some : no_changes ch = false;
}.

(** What the store may rely on about a request of the interface. *)
Definition valid_request (r : request) : Prop :=
  match r with
  | ReqNewID => True
  | ReqCreateDocument _ v k =>
      title_valid (v_Title v) ∧ summary_valid (v_Summary v) ∧
      (slug_valid (v_Slug v) ∨ v_Slug v = SlugFromTitle (v_Title v) (v_ID v)) ∧
      0 < pu_ID (v_Owner v) ∧ key_ok k
  | ReqUpdateDocument _ i _ expected ch => is_uuid7 i = true ∧ 0 < expected ∧ changes_valid ch
  | ReqSoftDelete _ i _ expected => is_uuid7 i = true ∧ 0 < expected
  | ReqRestoreDeleted _ i _ => is_uuid7 i = true
  | ReqPurgeDeleted _ i actor expected k => is_uuid7 i = true ∧ 0 < actor ∧ 0 < expected ∧ key_ok k
  | ReqSetPublication _ i _ expected _ k => is_uuid7 i = true ∧ 0 < expected ∧ key_ok k
  | ReqPublish _ i _ expected input =>
      is_uuid7 i = true ∧ 0 < expected ∧ title_valid (in_Title input) ∧ summary_valid (in_Summary input) ∧
      slug_valid (in_Slug input) ∧ language_valid (in_Language input) ∧
      Validate (in_Content input) = Ok tt ∧ opt_ok (λ l, l ≠ [] ∧ tags_valid l) (in_Tags input) ∧
      len (in_PlainText input) <= MaxProjectionBytes ∧
      in_MediaIDs input = publicationMediaIDs (in_Content input) ∧ key_ok (in_Idempotency input)
  | ReqCreateFolder _ owner name parent k =>
      0 < owner ∧ folder_name_valid name ∧ opt_ok (λ p, is_uuid7 p = true) parent ∧ key_ok k
  | ReqUpdateFolder _ owner i expected name parent =>
      0 < owner ∧ is_uuid7 i = true ∧ 0 < expected ∧ opt_ok folder_name_valid name ∧
      opt_ok uuid_or_empty parent ∧ (is_Some name ∨ is_Some parent)
  | ReqDeleteFolder _ owner i expected => 0 < owner ∧ is_uuid7 i = true ∧ 0 < expected
  | ReqCreateCommit _ i actor input =>
      is_uuid7 i = true ∧ 0 < actor ∧ rune_count (ci_Label input) <= 160 ∧
      rune_count (ci_Description input) <= 2000 ∧ key_ok (ci_Idempotency input)
  | ReqRenameCommit _ i _ _ _ => is_uuid7 i = true
  | ReqRestoreCommit _ i _ k => is_uuid7 i = true ∧ key_ok k
  | ReqAddMember _ i _ user role k =>
      is_uuid7 i = true ∧ 0 < pu_ID user ∧ ValidateRole role = Ok tt ∧ key_ok k
  | ReqUpdateMember _ i _ user expected role =>
      is_uuid7 i = true ∧ 0 < user ∧ 0 < expected ∧ ValidateRole role = Ok tt
  | ReqDeleteMember _ i _ user expected => is_uuid7 i = true ∧ 0 < user ∧ 0 < expected
  | ReqUpsertProjection p =>
      is_uuid7 (pv_DocumentID p) = true ∧ 0 <= pv_Sequence p ∧ 0 < len (pv_Content p) <= MaxProjectionBytes
  | _ => False
  end.

(** ** Inverting calls *)

Lemma validated_bind {A B} (r : result kerror A) (k : A → logic B) s :
  (validated r ≫= k) s = match r with Ok a => k a s | Err e => (s, Err (mapError e)) end.
Proof. by destruct r. Qed.

Lemma mapped_state {A} (m : store A) s : (outcome (mapped m) s).1 = (m s).1.
Proof. unfold outcome, mapped, wrap. by destruct (m s) as [s' [a|e]]. Qed.

Lemma mapped_failed {A} (m : store A) s s' e :
  atomic m → outcome (mapped m) s = (s', Some e) → s' = s.
Proof.
  intros Ha. unfold outcome, mapped, wrap. destruct (m s) as [t [a|e']] eqn:Hm; intros [= <- _].
  by apply Ha in Hm.
Qed.

Lemma known_actor_ok a u : known_actor a = Ok u → 0 < a.
Proof. unfold known_actor. case_match; [done|lia]. Qed.

Lemma ValidateID_ok field i u : ValidateID field i = Ok u → is_uuid7 i = true.
Proof. destruct u. apply check_ok. Qed.

Lemma positive_revision_ok n u : positive_revision n = Ok u → 0 < n.
Proof. destruct u. unfold positive_revision. rewrite check_ok. lia. Qed.

Lemma validateMutation_ok i n u : validateMutation i n = Ok u → is_uuid7 i = true ∧ 0 < n.
Proof.
  unfold validateMutation. intros (v & Hi & Hn)%result_bind_ok.
  split; [by eapply ValidateID_ok|by eapply positive_revision_ok].
Qed.

Lemma idempotency_ok actor op key request k : idempotency actor op key request = Ok k → key_ok k.
Proof.
  unfold idempotency, key_ok, ValidateIdempotencyKey. intros (u & Hv & Hk)%result_bind_ok.
  case_bool_decide as He; [injection Hk as <-; by left|]. case_match; [|done]. injection Hk as <-.
  destruct u. apply check_ok in Hv. right. by apply andb_prop in Hv as [_ Hp].
Qed.

Lemma title_of_ok v t : title_of v = Ok t → title_valid t.
Proof. unfold title_of. by intros ([] & Hv & [= <-])%result_bind_ok. Qed.

Lemma summary_of_ok v t : summary_of v = Ok t → summary_valid t.
Proof. unfold summary_of. by intros ([] & Hv & [= <-])%result_bind_ok. Qed.

Lemma language_of_ok v t : language_of v = Ok t → language_valid t.
Proof.
  unfold language_of, language_valid. intros ([] & Hv%check_ok & [= <-])%result_bind_ok.
  apply andb_prop in Hv. lia.
Qed.

Lemma icon_of_ok v t : icon_of v = Ok t → rune_count t <= 8.
Proof. unfold icon_of. intros ([] & Hv%check_ok & [= <-])%result_bind_ok. lia. Qed.

Lemma folder_name_ok v t : folder_name v = Ok t → folder_name_valid t.
Proof.
  unfold folder_name, folder_name_valid. intros ([] & Hv%check_ok & [= <-])%result_bind_ok.
  apply andb_prop in Hv. lia.
Qed.

Lemma NormalizeSlug_ok v t : NormalizeSlug v = Ok t → slug_valid t.
Proof. apply NormalizeSlug_idem. Qed.

Lemma NormalizeTags_ok v t : NormalizeTags v = Ok t → tags_valid t.
Proof. by exists v. Qed.

Lemma normalize_opt_ok {A} (f : A → result kerror A) (P : A → Prop) o o' :
  (∀ a b, f a = Ok b → P b) → normalize_opt f o = Ok o' → opt_ok P o'.
Proof.
  intros Hf Ho a ->. unfold normalize_opt in Ho. destruct o as [b|]; [|done].
  apply result_bind_ok in Ho as (c & Hc & [= <-]). by eapply Hf.
Qed.

Lemma optional_id_ok field o u : validate_optional_id field o = Ok u → opt_ok uuid_or_empty o.
Proof.
  intros Ho v ->. unfold validate_optional_id in Ho. unfold uuid_or_empty.
  case_bool_decide; [by left|right; by eapply ValidateID_ok].
Qed.

Lemma parent_pointer_ok field o u :
  validate_optional_id field o = Ok u → opt_ok (λ p, is_uuid7 p = true) (parent_pointer o).
Proof.
  intros Ho v Hv. destruct o as [p|]; [|done]. simpl in *. case_bool_decide; [done|].
  injection Hv as <-. by eapply ValidateID_ok.
Qed.

Lemma directory_user_ok a u : directory_user a = Ok u → 0 < pu_ID u.
Proof. unfold directory_user. repeat case_match; try done. intros [= <-]. lia. Qed.

Lemma ValidateRole_ok role u : ValidateRole role = Ok u → ValidateRole role = Ok tt.
Proof. by destruct u. Qed.

Lemma focal_check_ok field v u : focal_check field v = Ok u → focal_ok v = true.
Proof. destruct u. apply check_ok. Qed.

Lemma validateMemberMutation_ok i user expected role u :
  validateMemberMutation i user expected role = Ok u →
  is_uuid7 i = true ∧ 0 < user ∧ 0 < expected ∧ ValidateRole role = Ok tt.
Proof.
  unfold validateMemberMutation.
  intros (? & Hi & (? & Hu & (? & He & Hr)%result_bind_ok)%result_bind_ok)%result_bind_ok.
  destruct u. destruct x0. apply check_ok in Hu.
  split_and!; [by eapply ValidateID_ok|lia|by eapply positive_revision_ok|done].
Qed.

Lemma normalize_changes_ok y_first input ch : normalize_changes y_first input = Ok ch → changes_valid ch.
Proof.
  unfold normalize_changes. intros Hn.
  repeat match type of Hn with _ ≫= _ = _ => apply result_bind_ok in Hn as (? & ? & Hn) end.
  injection Hn as <-. split; cbn [ch_title ch_summary ch_slug ch_language ch_tags ch_icon
    ch_coverAttachmentID ch_coverFocalX ch_coverFocalY].
  all: try (eapply normalize_opt_ok; [|eassumption];
            eauto using title_of_ok, summary_of_ok, NormalizeSlug_ok, language_of_ok, NormalizeTags_ok,
              icon_of_ok; fail).
  - by eapply optional_id_ok.
  - destruct y_first;
      match goal with Hf : focal_check _ _ ≫= _ = Ok _ |- _ => apply result_bind_ok in Hf as (? & ? & ?) end;
      split; by eapply focal_check_ok.
  - match goal with Hc : check (negb _) _ _ = Ok ?u |- _ => destruct u; apply check_ok in Hc; by apply negb_true_iff in Hc end.
Qed.

(** ** The calls *)

Definition run_requests (rs : list request) (s : KDB) : KDB := foldl (λ s r, run_request r s) s rs.

Definition acceptable (r : request) : Prop := request_ok r ∧ valid_request r.

Lemma run_requests_reachable rs s F :
  Forall acceptable rs → reachable (MkWorld s F) → reachable (MkWorld (run_requests rs s) F).
Proof.
  revert s. induction rs as [|r rs IH]; intros s Hrs Hw; [done|].
  apply Forall_cons in Hrs as [[Hr _] Hrs]. apply IH; [done|]. by eapply reach_request.
Qed.

(** [m] runs at most [n] requests, all acceptable. *)
Definition issues (n : nat) (m : KDB → KDB * option lerror) (s : KDB) : Prop :=
  ∃ rs, Forall acceptable rs ∧ (length rs <= n)%nat ∧ (m s).1 = run_requests rs s.

Lemma issues_mapped {A} (op : store A) r s :
  (∀ s, (op s).1 = run_request r s) → acceptable r → issues 1 (outcome (mapped op)) s.
Proof.
  intros Hop Hr. exists [r]. split_and!; [by apply Forall_singleton|simpl; lia|].
  rewrite mapped_state. apply Hop.
Qed.

Lemma issues_validated {A B} n (r : result kerror A) (k : A → logic B) s :
  (∀ a, r = Ok a → issues n (outcome (k a)) s) → issues n (outcome (validated r ≫= k)) s.
Proof.
  intros Hk. unfold issues, outcome in *. rewrite validated_bind. destruct r as [a|e]; [by apply Hk|].
  exists []. split_and!; [constructor|simpl; lia|done].
Qed.

Lemma issues_NewID {B} n (k : string → logic B) s :
  (∀ i s', issues n (outcome (k i)) s') → issues (S n) (outcome (mapped NewID ≫= k)) s.
Proof.
  intros Hk. unfold issues, outcome. cbv [mbind tx_bind mapped wrap].
  destruct (NewID s) as [s1 [i|e]] eqn:Hn.
  - destruct (Hk i s1) as (rs & Hrs & Hl & Hs). exists (ReqNewID :: rs).
    split_and!; [by constructor|simpl; lia|]. cbn [run_requests foldl run_request]. rewrite Hn. exact Hs.
  - exists []. split_and!; [constructor|simpl; lia|]. by apply NewID_atomic in Hn.
Qed.

(** Step through the validations of a call. *)
Ltac validations :=
  repeat match goal with
  | |- issues _ (outcome (mbind _ (validated _))) _ => apply issues_validated; intros ? ?
  end.

(** The operation of a call is the request [r]. *)
Ltac accept r := apply (issues_mapped _ r); [done|split; [done|]; cbn [valid_request]; split_and?].

Hint Resolve known_actor_ok ValidateID_ok positive_revision_ok idempotency_ok title_of_ok summary_of_ok
  language_of_ok folder_name_ok NormalizeSlug_ok NormalizeTags_ok optional_id_ok parent_pointer_ok
  directory_user_ok ValidateRole_ok normalize_changes_ok : calls.

Lemma issues_more m n (c : KDB → KDB * option lerror) s : (m <= n)%nat → issues m c s → issues n c s.
Proof. intros Hmn (rs & Hrs & Hl & Hs). exists rs. split_and!; [done|lia|done]. Qed.

Lemma Create_issues identity ctx input s : issues 2 (outcome (Create identity ctx input)) s.
Proof.
  unfold Create. validations. apply issues_NewID. intros i s'. validations.
  accept (ReqCreateDocument ctx (new_document ctx i a a0 a2 a1) a3); eauto with calls.
  cbn [new_document v_Slug v_Title v_ID]. destruct (cd_Slug input); [left; eauto with calls|right; congruence].
Qed.

Lemma Publish_issues identity ctx i actor expected input s :
  issues 1 (outcome (LogicPublishSnapshot identity ctx i actor expected input)) s.
Proof.
  unfold LogicPublishSnapshot. validations.
  match goal with |- issues _ (outcome (mapped (PublishSnapshot _ _ _ _ ?input))) _ =>
    accept (ReqPublish ctx i actor expected input) end;
    cbn [in_Title in_Summary in_Slug in_Language in_Content in_Tags in_PlainText in_MediaIDs in_Idempotency];
    eauto with calls.
  all: try match goal with Hm : validateMutation _ _ = Ok _ |- _ => by apply validateMutation_ok in Hm as [? ?] end.
  - match goal with Hl : Validate _ = Ok ?u |- _ => by destruct u end.
  - match goal with |- opt_ok _ (copied ?l) => destruct l as [|t l']; intros tags [= <-] end.
    destruct (ps_Tags input); [split; [done|eauto with calls]|congruence].
  - match goal with Hc : check _ "plain_text" _ = Ok ?u |- _ => destruct u; apply check_ok in Hc; lia end.
Qed.

Lemma Project_issues ctx i sequence content plainText s :
  issues 1 (outcome (Project ctx i sequence content plainText)) s.
Proof.
  unfold Project. validations.
  accept (ReqUpsertProjection (MkProjection i sequence a2 (TrimSpace plainText) (now ctx)));
    cbn [pv_DocumentID pv_Sequence pv_Content]; eauto with calls.
  - destruct a0. match goal with Hc : check _ "sequence" _ = Ok _ |- _ => apply check_ok in Hc; lia end.
  - match goal with Hp : ValidateProjection _ _ _ = Ok _ |- _ => unfold ValidateProjection in Hp;
      destruct (_ || _) eqn:Hb in Hp; [done|] end. apply orb_false_iff in Hb as [[Hz _]%orb_false_iff _].
    unfold len in *. lia.
  - match goal with Hp : ValidateProjection _ _ _ = Ok _ |- _ => unfold ValidateProjection in Hp;
      destruct (_ || _) eqn:Hb in Hp; [done|] end. apply orb_false_iff in Hb as [[_ Hz]%orb_false_iff _]. lia.
Qed.

Lemma CreateCommit_issues ctx input s : issues 1 (outcome (LogicCreateCommit ctx input)) s.
Proof.
  unfold LogicCreateCommit. validations.
  match goal with |- issues _ (outcome (mapped (CreateCommit _ ?i ?actor ?input))) _ =>
    accept (ReqCreateCommit ctx i actor input) end;
    cbn [ci_Label ci_Description ci_Idempotency]; eauto with calls.
  all: match goal with Hc : check _ "commit" _ = Ok ?u |- _ =>
         destruct u; apply check_ok in Hc; apply andb_prop in Hc as [? ?]; lia end.
Qed.

(** C31: only valid requests reach the store: every call of the interface,
    whatever its input and whatever the identity service answers, is a run of
    at most two store requests, each one the invariants allow, with normalised
    and validated arguments; so it leads from reachable states to reachable
    states. *)
Theorem calls_are_valid_requests c s :
  (∃ rs, Forall acceptable rs ∧ (length rs <= 2)%nat ∧ (run_call c s).1 = run_requests rs s) ∧
  ∀ F, reachable (MkWorld s F) → reachable (MkWorld (run_call c s).1 F).
Proof.
  cut (issues 2 (run_call c) s).
  { intros (rs & Hrs & Hl & Hs). split; [by eauto|]. intros F Hw. rewrite Hs. by apply run_requests_reachable. }
  destruct c; cbn [run_call];
    lazymatch goal with
    | |- issues _ (outcome (Create _ _ _)) _ => apply Create_issues
    | |- issues _ (outcome (LogicPublishSnapshot _ _ _ _ _ _)) _ =>
        apply (issues_more 1); [lia|apply Publish_issues]
    | |- issues _ (outcome (Project _ _ _ _ _)) _ => apply (issues_more 1); [lia|apply Project_issues]
    | |- issues _ (outcome (LogicCreateCommit _ _)) _ => apply (issues_more 1); [lia|apply CreateCommit_issues]
    | |- _ => apply (issues_more 1); [lia|]
    end;
    unfold Update, Delete, Restore, PurgeDeleted, LogicSetPublication, LogicCreateFolder, LogicUpdateFolder,
      LogicDeleteFolder, LogicRenameCommit, LogicRestoreCommit, Add, LogicUpdateMember, LogicDeleteMember;
    validations;
    repeat match goal with
    | Hm : validateMutation _ _ = Ok _ |- _ => apply validateMutation_ok in Hm as [? ?]
    | Hm : validateMemberMutation _ _ _ _ = Ok _ |- _ => apply validateMemberMutation_ok in Hm as (? & ? & ? & ?)
    end.
  - accept (ReqUpdateDocument ctx i actor expected a0); eauto with calls.
  - accept (ReqSoftDelete ctx i actor expected); eauto with calls.
  - accept (ReqRestoreDeleted ctx i actor); eauto with calls.
  - accept (ReqPurgeDeleted ctx i actor expected a1); eauto with calls.
  - accept (ReqSetPublication ctx i actor expected published a0); eauto with calls.
  - accept (ReqCreateFolder ctx actor a0 (parent_pointer parent) a2); eauto with calls.
  - accept (ReqUpdateFolder ctx actor i expected a2 parent); eauto with calls.
    + eapply normalize_opt_ok; [|eassumption]. eauto with calls.
    + destruct a4. match goal with Hc : check _ "folder" _ = Ok _ |- _ => apply check_ok in Hc as Hf end.
      destruct a2; [by left; eexists|]. destruct parent; [by right; eexists|done].
  - accept (ReqDeleteFolder ctx actor i expected); eauto with calls.
  - accept (ReqRenameCommit ctx i actor label description); eauto with calls.
  - accept (ReqRestoreCommit ctx i actor a0); eauto with calls.
  - accept (ReqAddMember ctx (am_DocumentID input) (am_ActorID input) a3 (am_Role input) a2); eauto with calls.
  - accept (ReqUpdateMember ctx i actor user expected role); eauto with calls.
  - accept (ReqDeleteMember ctx i actor user expected); eauto with calls.
Qed.

(** ** Failures *)

(** [s'] is [s], or [s] with one identifier drawn. *)
Definition at_most_drawn (s s' : KDB) : Prop :=
  s' = s ∨ ∃ i, new_ids s = i :: new_ids s' ∧ s' = set_new_ids (new_ids s') s.

(** A failing [m] changes the database within [R] and its error has a code. *)
Definition clean (R : KDB → KDB → Prop) (m : KDB → KDB * option lerror) : Prop :=
  ∀ s s' e, m s = (s', Some e) → R s s' ∧ ∃ code cause, e = App code cause.

Lemma clean_validated {A B} R (r : result kerror A) (k : A → logic B) :
  Reflexive R → (∀ a, r = Ok a → clean R (outcome (k a))) → clean R (outcome (validated r ≫= k)).
Proof.
  intros HR Hk s s' e. unfold outcome. rewrite validated_bind. destruct r as [a|x]; [by apply Hk|].
  intros [= <- <-]. split; [done|]. by do 2 eexists.
Qed.

Lemma clean_mapped {A} (m : store A) : atomic m → clean eq (outcome (mapped m)).
Proof.
  intros Ha s s' e Hm. split; [symmetry; by eapply mapped_failed|].
  unfold outcome, mapped, wrap in Hm. destruct (m s) as [t [a|x]]; [done|]. injection Hm as _ <-.
  by do 2 eexists.
Qed.

Lemma clean_NewID {B} (k : string → logic B) :
  (∀ i, clean eq (outcome (k i))) → clean at_most_drawn (outcome (mapped NewID ≫= k)).
Proof.
  intros Hk s s' e. unfold outcome. cbv [mbind tx_bind mapped wrap].
  destruct (NewID s) as [s1 [i|x]] eqn:Hn.
  - apply NewID_run in Hn as (rest & Hn & ->). intros Hr. destruct (Hk i _ _ _ Hr) as [<- Hc].
    split; [|done]. right. exists i. by destruct s.
  - apply NewID_atomic in Hn as ->. intros [= <- <-]. split; [by left|]. by do 2 eexists.
Qed.

Lemma clean_weaken m : clean eq m → clean at_most_drawn m.
Proof. intros Hm s s' e Hr. destruct (Hm _ _ _ Hr) as [<- Hc]. split; [by left|done]. Qed.

#[local] Instance at_most_drawn_refl : Reflexive at_most_drawn.
Proof. intros s. by left. Qed.

Ltac clean_validations :=
  repeat match goal with
  | |- clean _ (outcome (mbind _ (validated _))) => apply clean_validated; [apply _|]; intros ? ?
  end.

(** C33: a call that fails leaves no trace: the database is as it was,
    except that a failed creation may have drawn an identifier, and the caller
    gets an error of the catalogue. *)
Theorem failed_calls_leave_no_trace c s s' e :
  run_call c s = (s', Some e) →
  at_most_drawn s s' ∧ ∃ code cause, e = App code cause.
Proof.
  revert s s' e. change (clean at_most_drawn (run_call c)). destruct c.
  { unfold run_call, Create. clean_validations. apply clean_NewID. intros i. clean_validations.
    apply clean_mapped, atomic_transaction. }
  all: apply clean_weaken; cbn [run_call];
    unfold Update, Delete, Restore, PurgeDeleted, LogicSetPublication, LogicPublishSnapshot,
      LogicCreateFolder, LogicUpdateFolder, LogicDeleteFolder, LogicCreateCommit, LogicRenameCommit,
      LogicRestoreCommit, Add, LogicUpdateMember, LogicDeleteMember, Project;
    clean_validations; apply clean_mapped;
    first [apply PublishSnapshot_atomic|apply SetPublication_atomic|apply atomic_transaction].
Qed.

End calls.

(** ** Examples *)

Lemma failed_calls_leave_no_trace_witness :
  run_call (CallDelete (at_time 5) "doc-1" 7 1) db_created =
    (db_created, Some (mapError (EValidation [MkValidationError "document_id" "must be a UUIDv7"]))) ∧
  at_most_drawn db_created db_created.
Proof.
  split; [by vm_compute|].
  apply (failed_calls_leave_no_trace (CallDelete (at_time 5) "doc-1" 7 1) db_created db_created
           (mapError (EValidation [MkValidationError "document_id" "must be a UUIDv7"]))).
  by vm_compute.
Defined.

(** An encoder that keeps the strings of an object apart. *)
Definition field_text (m : string * json) : string :=
  (match m.2 with JStr s => s | _ => EmptyString end +:+ ";")%string.

Definition strings_encode (v : json) : option string :=
  match v with
  | JObj l => Some (foldr String.append EmptyString (field_text <$> l))
  | _ => Some empty_array
  end.

Definition strings_codec : Codec := {|
  json_decode := λ _, Some (JArr []);
  json_encode := strings_encode;
  json_valid := λ _, true;
  decode_document := λ _, Some (MkDocument "doc" (Some []));
  decode_headers := λ _, Some [];
  std_decode := λ _, Some (JArr []);
  std_encode := λ _, empty_array;
  sha256_hex := λ text, text;
|}.

Definition ada : Identity :=
  MkIdentity (Answer (Some (MkPublicUser 7 "ada" EmptyString))) (λ _, Answer None).

Definition create_with (slug : option string) (t : Z) : KDB → KDB * result lerror Document :=
  @Create ascii_unicode strings_codec toy_pg ada (at_time t)
    (MkCreateDocumentInput "Notes" None slug "key-1").

(** Creating a document is not idempotent when the slug is left to the
    service: the retry draws another identifier, which changes the generated
    slug and with it the hash of the request, so the same request under the
    same key is answered with a conflict.  With an explicit slug the retry
    answers with the first document. *)
Theorem create_retry_conflicts :
  let first := create_with None 10 (empty_db sample_ids) in
  let named := create_with (Some "my-notes") 10 (empty_db sample_ids) in
  (∃ v, first.2 = Ok v ∧ v_ID v = "id-1") ∧
  (create_with None 11 first.1).2 = Err (App Conflict (Some ErrConflict)) ∧
  (∃ v, (create_with (Some "my-notes") 11 named.1).2 = Ok v ∧ v_ID v = "id-1").
Proof. vm_compute. split_and!; [by eexists|done|by eexists]. Qed.
