(* ===== verification/KPages.v ===== *)
(** Listing in pages: following the cursors of the service enumerates exactly
    the documents that match, each once and in order; and the attachments a
    publication refers to. *)

From stdpp Require Import base gmap list sets strings sorting.
From Stdlib Require Import ZArith Lia.
From S2P Require Import Prelude.
From S2P Require Import GoStrings.
From S2P Require Import Base64.
From S2P Require Import KDomain.
From S2P Require Import RichText.
From S2P Require Import Json.
From S2P Require Import KSchema.
From S2P Require Import KTypes.
From S2P Require Import KStore.
From S2P Require Import KListing.
From S2P Require Import KLogic.
From S2P Require Import KWorld.
From S2P Require Import KSample.

Open Scope Z_scope.

(** ** The order of a listing *)

#[export] Instance ordered_nulls : Ordered compare_nulls.
Proof.
  split; unfold compare_nulls.
  - intros [x|] [y|]; simpl; try done. apply Z.compare_antisym.
  - intros [x|] [y|] [z|]; simpl; try done. rewrite !Z.compare_lt_iff. lia.
  - intros [x|] [y|] [z|]; simpl; try done. by intros ->%Z.compare_eq_iff.
Qed.

#[export] Instance ordered_listing o : Ordered (listing_order o).
Proof. unfold listing_order. apply _. Qed.

Lemma listing_order_id o d e : listing_order o d e = Eq → d_ID d = d_ID e.
Proof.
  unfold listing_order, then_by, descending, by_key. intros Hc.
  destruct (compare_nulls _ _); simpl in Hc; try done.
  apply String.compare_eq_iff. by destruct (String.compare _ _).
Qed.

(** The rows after a cursor are the rows the order puts after its row. *)
Lemma after_cursor_order o v d e t :
  order_column o d = Some t → is_Some (order_column o e) →
  after_cursor o (MkCursor v t (d_ID d)) e = true ↔ listing_order o d e = Lt.
Proof.
  intros Hd [u He]. unfold after_cursor, listing_order, then_by, descending, by_key. rewrite Hd, He.
  cbn [compare_nulls cu_Time cu_ID]. destruct (Z.compare_spec t u) as [->|Hlt|Hgt]; simpl.
  - rewrite Z.ltb_irrefl, Z.eqb_refl. simpl. rewrite (String.compare_antisym (d_ID d)).
    destruct (String.compare (d_ID e) (d_ID d)); simpl; naive_solver.
  - rewrite (proj2 (Z.ltb_ge _ _)), (proj2 (Z.eqb_neq _ _)) by lia. naive_solver.
  - rewrite (proj2 (Z.ltb_lt _ _)) by lia. naive_solver.
Qed.

Section pages.
Context `{Unicode, Uuid, Url, Codec, Pg, CursorCodec}.

(** The three collections of the interface. *)
Inductive collection := Drafts | Public | Trash.

Definition list_page (k : collection) : Ctx → ListDocumentsInput → logic DocumentPage :=
  match k with Drafts => ListDrafts | Public => ListPublished | Trash => ListDeleted end.

(** The options a call passes to the store. *)
Definition options_of (k : collection) (input : ListDocumentsInput) (cursor : option Cursor) : ListOptions :=
  let limit := effectiveLimit (li_Limit input) in
  let query := TrimSpace (li_Query input) in
  match k with
  | Drafts => MkListOptions (li_ActorID input) query cursor limit
                (li_Access input) (li_Publication input) (li_FolderID input) false false
  | Public => MkListOptions (li_ActorID input) query cursor limit EmptyString EmptyString EmptyString true false
  | Trash => MkListOptions (li_ActorID input) query cursor limit EmptyString EmptyString EmptyString false true
  end.

Definition order_time (k : collection) : Document → Z :=
  match k with Drafts => v_UpdatedAt | Public => published_time | Trash => deleted_time end.

(** The input names an actor where one is needed and its filters are valid. *)
Definition accepted (k : collection) (input : ListDocumentsInput) : Prop :=
  (k = Public ∨ 0 < li_ActorID input) ∧
  validateListInput input (match k with Public => true | _ => false end) = Ok tt.

(** Every matching document, in the order of the collection. *)
Definition full_listing (k : collection) (ctx : Ctx) (input : ListDocumentsInput) (s : KDB) : list DocumentRow :=
  let o := options_of k input None in
  order_by (listing_order o) (rows_where (listing_match ctx s o) (documents s)).

Definition next_input (cursor : string) (input : ListDocumentsInput) : ListDocumentsInput :=
  MkListDocumentsInput (li_ActorID input) (li_Query input) cursor (li_Limit input) (li_Access input)
    (li_Publication input) (li_FolderID input).

(** A client that follows the cursors, for at most [n] pages. *)
Fixpoint browse (n : nat) (k : collection) (ctx : Ctx) (input : ListDocumentsInput) (s : KDB)
  : option (list Document) :=
  match n with
  | O => None
  | S n' =>
    match list_page k ctx input s with
    | (_, Ok page) =>
      match NextCursor page with
      | None => Some (Items page)
      | Some cursor => app (Items page) <$> browse n' k ctx (next_input cursor input) s
      end
    | (_, Err _) => None
    end
  end.

(** What the cursor of a document needs: an instant in the ordering column, a
    UUIDv7 and a JSON text of at most 700 bytes. *)
Definition cursor_ready (o : ListOptions) (d : DocumentRow) : Prop :=
  ∃ t text, order_column o d = Some t ∧ t ≠ zero_time ∧ is_uuid7 (d_ID d) = true ∧
    marshal_cursor (MkCursor 1 t (d_ID d)) = Some text ∧ len text <= 700.

Lemma list_page_run k ctx input cursor s :
  accepted k input → page_cursor (li_Cursor input) = Ok cursor →
  list_page k ctx input s =
  match buildDocumentPage
          (listed_document s (options_of k input cursor)
             <$> list_rows ctx s (options_of k input cursor) (effectiveLimit (li_Limit input)))
          (effectiveLimit (li_Limit input)) (order_time k) with
  | Ok page => (s, Ok page)
  | Err e => (s, Err (Raw e))
  end.
Proof.
  intros [Ha Hv] Hc.
  assert (k ≠ Public → known_actor (li_ActorID input) = Ok tt) as Hk.
  { intros Hn. destruct Ha as [->|Ha]; [done|]. unfold known_actor.
    by rewrite (proj2 (Z.leb_gt _ _)) by lia. }
  assert (0 < effectiveLimit (li_Limit input)) as Hl by (unfold effectiveLimit; destruct (li_Limit input <=? 0) eqn:?; lia).
  assert ((effectiveLimit (li_Limit input) <=? 0) = false) as Hl' by lia.
  destruct k; unfold list_page, ListDrafts, ListPublished, ListDeleted;
    rewrite ?Hk by done; rewrite Hv, Hc; cbv [validated mapped wrap lift mbind tx_bind page_of ListDocuments gets mret tx_ret id];
    cbn [lo_Limit options_of order_time]; rewrite Hl'; by destruct (buildDocumentPage _ _ _).
Qed.

(** The options differ from page to page in the cursor only. *)
Lemma options_match k ctx s input c :
  listing_match ctx s (options_of k input c) = listing_match ctx s (options_of k input None).
Proof. by destruct k. Qed.

Lemma options_order k input c :
  listing_order (options_of k input c) = listing_order (options_of k input None).
Proof. by destruct k. Qed.

Lemma options_after k input c : after_cursor (options_of k input c) = after_cursor (options_of k input None).
Proof. by destruct k. Qed.

Lemma options_cursor k input c : lo_Cursor (options_of k input c) = c.
Proof. by destruct k. Qed.

Lemma options_listed k input c s :
  listed_document s (options_of k input c) = listed_document s (options_of k input None).
Proof. by destruct k. Qed.

Lemma options_next k input text : options_of k (next_input text input) None = options_of k input None.
Proof. by destruct k. Qed.

Lemma overlay_same p v :
  v_ID (overlay_publication p v) = v_ID v ∧ v_PublishedAt (overlay_publication p v) = v_PublishedAt v.
Proof. unfold overlay_publication. repeat case_match; done. Qed.

(** The time a page computes from a listed document is the one it is ordered
    by. *)
Lemma listed_time k input s d t :
  order_column (options_of k input None) d = Some t →
  order_time k (listed_document s (options_of k input None) d) = t ∧
  v_ID (listed_document s (options_of k input None) d) = d_ID d.
Proof.
  unfold listed_document. destruct k; cbn [options_of lo_Published lo_Deleted order_column order_time].
  - by intros [= <-].
  - unfold published_time. intros Ht. destruct (publications s !! d_ID d) as [p|].
    + destruct (overlay_same p (documentFromModel (set_d_PublicationHash EmptyString d)
        (listing_access s (options_of Public input None) d)
        (MkProjectionRow (d_ID d) (d_ContentRevision d) EmptyString EmptyString
           match projections s !! d_ID d with Some p => pr_ProjectedAt p | None => zero_time end))) as [Hi Hp].
      cbn [options_of] in Hi, Hp. rewrite Hi, Hp. cbn [documentFromModel v_PublishedAt v_ID set_d_PublicationHash].
      change (d_PublishedAt d = Some t) in Ht. simpl. by rewrite Ht.
    + change (d_PublishedAt d = Some t) in Ht. simpl. by rewrite Ht.
  - unfold deleted_time. intros Ht. change (d_DeletedAt d = Some t) in Ht. simpl. by rewrite Ht.
Qed.

Section walk.
Context (k : collection) (ctx : Ctx) (s : KDB).
Hypothesis keys : ∀ key d, documents s !! key = Some d → d_ID d = key.

Lemma full_no_ties input x y :
  x ∈ full_listing k ctx input s → y ∈ full_listing k ctx input s →
  listing_order (options_of k input None) x y = Eq → x = y.
Proof.
  unfold full_listing. rewrite !elem_of_order_by, !elem_of_rows_where.
  intros [_ [i Hx]] [_ [j Hy]] E%listing_order_id.
  assert (i = j) as -> by (rewrite <-(keys i x Hx), <-(keys j y Hy); done). congruence.
Qed.

Lemma full_NoDup input : NoDup (full_listing k ctx input s).
Proof. unfold full_listing. rewrite order_by_perm. by apply (rows_where_NoDup d_ID). Qed.

(** The rows a page reads: the rest of the listing after the row of its cursor. *)
Lemma page_rows input pre x rest v t limit :
  full_listing k ctx input s = pre ++ x :: rest →
  (∀ d, d ∈ full_listing k ctx input s → is_Some (order_column (options_of k input None) d)) →
  order_column (options_of k input None) x = Some t →
  list_rows ctx s (options_of k input (Some (MkCursor v t (d_ID x)))) limit = take (Z.to_nat (limit + 1)) rest.
Proof.
  intros HL Hcol Hx. unfold list_rows. f_equal.
  rewrite options_match, options_order, options_after, options_cursor.
  trans (order_by (listing_order (options_of k input None))
    (filter (λ d, after_cursor (options_of k input None) (MkCursor v t (d_ID x)) d = true)
       (rows_where (listing_match ctx s (options_of k input None)) (documents s)))).
  { f_equal. unfold rows_where. rewrite list_filter_filter. apply list_filter_iff.
    intros d. rewrite andb_true_iff. tauto. }
  rewrite order_by_filter; [|apply _|].
  - fold (full_listing k ctx input s). rewrite HL. apply (filter_after (listing_order (options_of k input None))).
    + rewrite <-HL. apply order_by_sorted. apply _.
    + rewrite <-HL. apply full_NoDup.
    + rewrite <-HL. apply full_no_ties.
    + intros d Hd. apply after_cursor_order; [done|]. apply Hcol. by rewrite HL.
  - intros y z Hy Hz. apply full_no_ties; unfold full_listing; by rewrite elem_of_order_by.
Qed.

End walk.

Lemma ValidatePage_ok limit cursor query :
  ValidatePage limit cursor query = Ok tt ↔
  0 <= limit <= 100 ∧ len cursor <= 1024 ∧ rune_count query <= 200.
Proof.
  unfold ValidatePage.
  destruct ((limit <? 0) || (100 <? limit)) eqn:Hl; destruct (1024 <? len cursor) eqn:Hc;
    destruct (200 <? rune_count query) eqn:Hq; simpl;
    (split; [intros; try done; apply orb_false_iff in Hl; lia|intros (? & ? & ?); try lia; try done]);
    apply orb_true_iff in Hl; lia.
Qed.

Lemma accepted_next k input text : accepted k input → len text <= 1024 → accepted k (next_input text input).
Proof.
  intros [Ha Hv] Hl. split; [done|]. unfold validateListInput in *.
  apply result_bind_ok in Hv as ([] & (Hlim & _ & Hq)%ValidatePage_ok & Hv).
  apply result_bind_ok. exists tt. split; [|done]. by apply ValidatePage_ok.
Qed.

(** A ready document gives a cursor that leads back to it. *)
Lemma ready_cursor o d t :
  cursor_ready o d → order_column o d = Some t →
  ∃ text, EncodeCursor (MkCursor 0 t (d_ID d)) = Ok text ∧ len text <= 1024 ∧
    page_cursor text = Ok (Some (MkCursor 1 t (d_ID d))).
Proof.
  intros (t' & text & Ht & Hz & Hi & Hm & Hl) Ht'. assert (t' = t) as -> by congruence.
  assert (EncodeCursor (MkCursor 0 t (d_ID d)) = Ok (EncodeToString text)) as He.
  { unfold EncodeCursor. cbn [set_cu_Version]. unfold set_cu_Version. cbn [cu_Time cu_ID]. by rewrite Hm. }
  exists (EncodeToString text). split; [done|]. split.
  - unfold len in *. rewrite bytes_EncodeToString. pose proof (encode64_length (bytes text)). lia.
  - unfold page_cursor. apply decode_encoded in He as [_ ->]; done.
Qed.

(** The cursor a page is asked with stands at the end of what was read. *)
Definition stands (o : ListOptions) (pre : list DocumentRow) (cursor : option Cursor) : Prop :=
  match cursor with
  | None => pre = []
  | Some c => ∃ pre' x t, pre = pre' ++ [x] ∧ order_column o x = Some t ∧ c = MkCursor 1 t (d_ID x)
  end.

Lemma browse_rest k ctx s n input cursor pre rest :
  (∀ key d, documents s !! key = Some d → d_ID d = key) →
  (∀ d, d ∈ full_listing k ctx input s → cursor_ready (options_of k input None) d) →
  accepted k input → page_cursor (li_Cursor input) = Ok cursor →
  full_listing k ctx input s = pre ++ rest → stands (options_of k input None) pre cursor →
  (length rest < n)%nat →
  browse n k ctx input s = Some (listed_document s (options_of k input None) <$> rest).
Proof.
  intros Hkeys. revert input cursor pre rest.
  induction n as [|n IH]; intros input cursor pre rest Hready Hacc Hcur HL Hpos Hn; [lia|].
  assert (list_rows ctx s (options_of k input cursor) (effectiveLimit (li_Limit input)) =
          take (Z.to_nat (effectiveLimit (li_Limit input) + 1)) rest) as Hrows.
  { destruct cursor as [c|].
    - destruct Hpos as (pre' & x & t & -> & Hx & ->). rewrite <-app_assoc in HL.
      eapply (page_rows k ctx s Hkeys); [exact HL| |done].
      intros d Hd. destruct (Hready d Hd) as (? & ? & ? & _). by eexists.
    - simpl in Hpos. subst pre. unfold list_rows. rewrite options_cursor. f_equal.
      unfold full_listing in HL. simpl in HL. rewrite <-HL. f_equal. unfold rows_where. apply list_filter_iff.
      intros d. by rewrite andb_true_r. }
  cbn [browse]. rewrite (list_page_run k ctx input cursor s Hacc Hcur), Hrows, options_listed.
  assert (0 < effectiveLimit (li_Limit input)) as Hl
    by (unfold effectiveLimit; destruct (li_Limit input <=? 0) eqn:?; lia).
  set (limit := effectiveLimit (li_Limit input)) in *.
  unfold buildDocumentPage. rewrite length_fmap, length_take, <-fmap_take, take_take.
  destruct (limit <? Z.of_nat _) eqn:Hmore.
  - (* there is a next page *)
    replace (Z.to_nat limit `min` Z.to_nat (limit + 1))%nat with (Z.to_nat limit) by lia.
    assert (Z.to_nat limit < length rest)%nat as Hlen by (apply Z.ltb_lt in Hmore; lia).
    destruct (last (take (Z.to_nat limit) rest)) as [x|] eqn:Hlast.
    2:{ apply last_None in Hlast. apply (f_equal length) in Hlast. rewrite length_take in Hlast.
        simpl in Hlast. lia. }
    rewrite fmap_last, Hlast. cbn [fmap option_fmap option_map].
    assert (x ∈ full_listing k ctx input s) as Hx.
    { rewrite HL. apply elem_of_app. right. apply last_Some in Hlast as [l' Hl'].
      rewrite <-(take_drop (Z.to_nat limit) rest), Hl'. set_solver. }
    pose proof (Hready x Hx) as Hrx. destruct Hrx as (t & _ & Ht & _).
    destruct (listed_time k input s x t Ht) as [-> ->].
    destruct (ready_cursor _ x t (Hready x Hx) Ht) as (text & -> & Htl & Htc).
    cbn [mbind result_bind NextCursor Items].
    rewrite (IH (next_input text input) (Some (MkCursor 1 t (d_ID x)))
               (pre ++ take (Z.to_nat limit) rest) (drop (Z.to_nat limit) rest)).
    + cbn [fmap option_fmap option_map]. rewrite options_next, <-fmap_app, take_drop. done.
    + unfold full_listing in *. rewrite options_next. done.
    + by apply accepted_next.
    + done.
    + unfold full_listing in *. rewrite options_next. by rewrite <-app_assoc, take_drop.
    + rewrite options_next. apply last_Some in Hlast as [l' ->].
      exists (pre ++ l'), x, t. split_and!; [by rewrite app_assoc|done|done].
    + rewrite length_drop. lia.
  - (* the last page *)
    cbn [NextCursor Items]. apply Z.ltb_ge in Hmore. rewrite take_ge by lia. done.
Qed.

(** C32: a client that starts without a cursor and follows the ones it gets,
    over a database that does not change meanwhile, receives exactly the
    documents that match its query, each once and in the order of the
    collection, within as many pages as there are documents and one. *)
Theorem pages_enumerate k ctx input s :
  (∀ key d, documents s !! key = Some d → d_ID d = key) →
  (∀ d, d ∈ full_listing k ctx input s → cursor_ready (options_of k input None) d) →
  accepted k input → li_Cursor input = EmptyString →
  browse (S (size (documents s))) k ctx input s =
    Some (listed_document s (options_of k input None) <$> full_listing k ctx input s) ∧
  NoDup (full_listing k ctx input s).
Proof.
  intros Hkeys Hready Hacc Hc. split; [|by apply full_NoDup].
  apply (browse_rest k ctx s _ input None []); try done.
  - unfold page_cursor. by rewrite Hc.
  - unfold full_listing. rewrite order_by_perm. unfold rows_where, rows.
    apply Nat.lt_succ_r. etrans; [apply length_filter|]. rewrite length_fmap. by rewrite <-length_map_to_list.
Qed.

End pages.

(** ** The attachments of a publication *)

(** The attachment a node refers to. *)
Definition refers (n : RichTextNode) (i : string) : Prop := ∃ a, node_Attrs n = Some a ∧ AttachmentID a = Some i.

Lemma visit_node_unfold n seen :
  visit_node n seen =
  visit (node_Content n) (match node_Attrs n ≫= AttachmentID with Some i => {[i]} ∪ seen | None => seen end).
Proof.
  destruct n as [ty at_ content txt marks]. cbn [visit_node node_Content node_Attrs].
  generalize (match at_ ≫= AttachmentID with Some i => {[i]} ∪ seen | None => seen end).
  induction content as [|[c|] content IH]; intros seen'; simpl; [done|apply IH|apply IH].
Qed.

Lemma visit_node_spec n : ∀ seen depth i,
  i ∈ visit_node n seen ↔ i ∈ seen ∨ ∃ m e, (Some m, e) ∈ node_walk n depth ∧ refers m i.
Proof.
  induction n as [ty at_ content txt marks IH] using node_ind. intros seen depth i.
  rewrite visit_node_unfold, node_walk_unfold. cbn [node_Content node_Attrs].
  assert (∀ seen', i ∈ visit content seen' ↔
    i ∈ seen' ∨ ∃ m e, (Some m, e) ∈ content_walk content (depth + 1) ∧ refers m i) as Hv.
  { clear seen. induction content as [|[c|] content IHc]; intros seen'; simpl.
    - split; [by left|intros [?|(? & ? & Hm & _)]; [done|by apply elem_of_nil in Hm]].
    - rewrite IHc by (intros; apply IH; by right). rewrite (IH c ltac:(left) seen' (depth + 1)).
      setoid_rewrite elem_of_app. naive_solver.
    - rewrite IHc by (intros; apply IH; by right). setoid_rewrite elem_of_cons. naive_solver. }
  rewrite Hv. setoid_rewrite elem_of_cons.
  assert (refers (Node ty at_ content txt marks) i ↔ at_ ≫= AttachmentID = Some i) as Hr.
  { unfold refers. cbn [node_Attrs]. destruct at_; simpl; naive_solver. }
  destruct (at_ ≫= AttachmentID) as [j|] eqn:Hj.
  - rewrite elem_of_union, elem_of_singleton. split; [|naive_solver].
    intros [[->|?]|(m & e & ? & ?)]; [|by left|by eauto 8].
    right. exists (Node ty at_ content txt marks), depth. split; [by left|by apply Hr].
  - split; [naive_solver|]. intros [?|(m & e & [[= -> ->]|?] & Hm)]; [by left| |by eauto 6].
    by apply Hr in Hm.
Qed.

Lemma visit_spec content seen depth i :
  i ∈ visit content seen ↔ i ∈ seen ∨ ∃ m e, (Some m, e) ∈ content_walk content depth ∧ refers m i.
Proof.
  revert seen. induction content as [|[c|] content IH]; intros seen; simpl.
  - split; [by left|intros [?|(? & ? & Hm & _)]; [done|by apply elem_of_nil in Hm]].
  - rewrite IH, (visit_node_spec c seen depth). setoid_rewrite elem_of_app. naive_solver.
  - rewrite IH. setoid_rewrite elem_of_cons. naive_solver.
Qed.

(** The attachments staged for a publication are exactly those some
    node of the document refers to, at whatever depth, each once and in byte
    order. *)
Theorem publicationMediaIDs_spec content :
  (∀ i, i ∈ publicationMediaIDs content ↔
     ∃ m e, (Some m, e) ∈ content_walk (default [] (doc_Content content)) 1 ∧ refers m i) ∧
  NoDup (publicationMediaIDs content) ∧
  StronglySorted (cmp_le String.compare) (publicationMediaIDs content).
Proof.
  unfold publicationMediaIDs. split_and!.
  - intros i. rewrite elem_of_order_by, elem_of_elements, (visit_spec _ _ 1). set_solver.
  - rewrite order_by_perm. apply NoDup_elements.
  - apply order_by_sorted. apply _.
Qed.

(** ** Examples *)

#[local] Existing Instance every_uuid.
#[local] Existing Instance binary_cursors.

Definition second_document : Document :=
  MkDoc "doc-2" "More notes" EmptyString "more-notes" "en" [] None (MkPublicUser 7 "ada" EmptyString)
    AccessOwner false PublicationDraft None 0 EmptyString EmptyString EmptyString None zero_float zero_float
    1 0 1 None None None None 20 20.

Definition db_two : KDB :=
  Eval vm_compute in (CreateDocument (at_time 20) second_document (no_key 7) db_created).1.

Definition two_input : ListDocumentsInput :=
  MkListDocumentsInput 7 EmptyString EmptyString 1 EmptyString EmptyString EmptyString.

Lemma pages_enumerate_witness :
  browse 3 Drafts (at_time 30) two_input db_two =
  Some (listed_document db_two (options_of Drafts two_input None)
          <$> full_listing Drafts (at_time 30) two_input db_two) ∧
  (d_ID <$> full_listing Drafts (at_time 30) two_input db_two) = ["doc-2"; "doc-1"].
Proof.
  split; [|by vm_compute].
  apply (pages_enumerate Drafts (at_time 30) two_input db_two).
  - apply (bool_decide_unpack (map_Forall (λ key d, d_ID d = key) (documents db_two))). by vm_compute.
  - intros d Hd. vm_compute in Hd. repeat (apply elem_of_cons in Hd as [->|Hd]); [..|by apply elem_of_nil in Hd];
      do 2 eexists; split_and!; by vm_compute.
  - split; [by right|by vm_compute].
  - done.
Defined.
