(* ===== verification/KClaims.v ===== *)
(** Properties of the publication saga over all runs of the service. *)

From stdpp Require Import base gmap list sets strings relations.
From Stdlib Require Import ZArith Lia.
From S2P Require Import Prelude.
From S2P Require Import GoStrings.
From S2P Require Import KDomain.
From S2P Require Import RichText.
From S2P Require Import Json.
From S2P Require Import KSchema.
From S2P Require Import KTypes.
From S2P Require Import KStore.
From S2P Require Import KDocuments.
From S2P Require Import KHistory.
From S2P Require Import KPublication.
From S2P Require Import KSharing.
From S2P Require Import KOutbox.
From S2P Require Import KCommits.
From S2P Require Import KWorker.
From S2P Require Import KFrames.
From S2P Require Import KSaga.
From S2P Require Import KSagaSteps.
From S2P Require Import KWorld.
From S2P Require Import KSample.

Open Scope Z_scope.

Section saga_claims.
Context `{Unicode, Uuid, Url, Codec, Pg}.

(** C1: in every state the service can reach, however requests, workers
    and crashes interleave, a published document has a live publication, a
    document in the trash has neither a publication nor a candidate, a
    candidate belongs to the current generation of a document being published,
    and a document that is publishing has a candidate and an unparked publish
    job of its generation, so it cannot be stuck without a retry. *)
Theorem publication_consistent w i d :
  reachable w → documents (db w) !! i = Some d →
  (d_PublicationStatus d = PublicationPublished →
     is_Some (publications (db w) !! i) ∧ is_Some (d_PublishedAt d) ∧ d_DeletedAt d = None) ∧
  (d_DeletedAt d ≠ None → publications (db w) !! i = None ∧ candidates (db w) !! i = None) ∧
  (∀ c, candidates (db w) !! i = Some c → pc_Generation c = d_PublicationGeneration d) ∧
  (d_PublicationStatus d = PublicationPublishing →
     is_Some (candidates (db w) !! i) ∧
     ∃ k j, jobs (db w) !! k = Some j ∧ runnable i (d_PublicationGeneration d) j).
Proof.
  intros Hw Hd. destruct (reachable_ok w Hw) as [Hok _].
  destruct (ok_documents _ Hok i d Hd) as [R1 R2 R3 R4 R5]. split_and!.
  - intros Hs. destruct (R2 Hs) as [Hp Ha]. split_and!; [done|done|].
    destruct (d_DeletedAt d) eqn:Hdel; [|done]. exfalso. apply R1; [done|]. by apply R3.
  - intros Hdel. specialize (R1 Hdel). split; apply eq_None_not_Some.
    + intros Hp. by apply R1, R3.
    + intros [c Hc]. destruct (R4 c Hc) as (_ & _ & Hs). apply R1. unfold live.
      destruct Hs as [-> | ->]; [right; left|do 2 right; left].
  - intros c Hc. by destruct (R4 c Hc) as (_ & ? & _).
  - done.
Qed.

(** What [GetPublishedDocument] answers when it answers. *)
Lemma publishedSnapshot_run p slug actor s s' v pr redirect :
  publishedSnapshot p slug actor s = (s', Ok (v, pr, redirect)) →
  s' = s ∧ ∃ d, documents s !! pb_DocumentID p = Some d ∧
    d_PublicationStatus d = PublicationPublished ∧ d_DeletedAt d = None ∧
    v_ID v = d_ID d ∧ v_Title v = pb_Title p ∧ v_Slug v = pb_Slug p ∧ pv_Content pr = pb_Content p ∧
    pv_PlainText pr = pb_PlainText p ∧ redirect = negb (EqualFold (pb_Slug p) slug).
Proof.
  unfold publishedSnapshot. intros Hr. store_inv. split_options. split; [done|].
  match goal with H : documents _ !! _ = Some ?d |- _ => exists d end.
  match goal with H : _ || _ = false |- _ => apply orb_false_iff in H as [Hd Hs] end.
  apply negb_false_iff, bool_decide_eq_true in Hs.
  match goal with H : documents _ !! _ = Some ?d |- _ => destruct (d_DeletedAt d) end; [done|].
  split_and!; done.
Qed.

(** The public reader only ever serves the live publication of a
    document that is published and not in the trash, with the content and
    metadata of that publication; reading changes nothing. *)
Theorem served_is_published ctx slug actor s s' v pr redirect :
  GetPublishedDocument ctx slug actor s = (s', Ok (v, pr, redirect)) →
  s' = s ∧ ∃ i p d, publications s !! i = Some p ∧ documents s !! pb_DocumentID p = Some d ∧
    d_PublicationStatus d = PublicationPublished ∧ d_DeletedAt d = None ∧
    v_ID v = d_ID d ∧ v_Title v = pb_Title p ∧ v_Slug v = pb_Slug p ∧
    pv_Content pr = pb_Content p ∧ pv_PlainText pr = pb_PlainText p.
Proof.
  unfold GetPublishedDocument. intros Hr. store_inv.
  destruct (first_where _ _ (publications s)) as [p|] eqn:Hp.
  - apply first_where_Some in Hp as [_ [i Hi]].
    apply publishedSnapshot_run in Hr as (-> & d & Hd & Hs & Hdel & Hv & Ht & Hsl & Hc & Hpl & _).
    split; [done|]. by exists i, p, d.
  - store_inv. split_options.
    match goal with H : publications s !! ?i = Some ?p |- _ => rename H into Hi end.
    apply publishedSnapshot_run in Hr as (-> & d & Hd & Hs & Hdel & Hv & Ht & Hsl & Hc & Hpl & _).
    split; [done|]. eexists _, _, d. by split_and!.
Qed.

(** ** Fencing *)

Lemma stale_promotion_fails ctx v s :
  (∀ j d, jobs s !! jv_ID v = Some j → documents s !! jv_DocumentID v = Some d →
     d_PublicationGeneration d ≠ jv_Generation v) → (PromotePublication ctx v s).1 = s.
Proof.
  intros Hg. destruct (PromotePublication ctx v s) as [s' [u|e]] eqn:Hr; simpl.
  - apply promote_run in Hr as [[-> _]|(stored & d' & c & tags & content & Hp)]; [done|].
    destruct Hp as [P1 P2 P3 P4 P5 P6 _ _ _ _ _ _ _ _ _ _ _ _]. by destruct (Hg stored d' P1 P4).
  - by apply atomic_transaction in Hr.
Qed.

(** C2: once a new publication of a document has been accepted, no worker
    can promote a job it claimed before: whatever it held in flight, in
    whatever state, its promotion leaves the database unchanged.  The request
    may carry an idempotency key or not; it is new when the key names no
    request already recorded (one that does is only answered again). *)
Theorem stale_jobs_are_fenced w ctx i actor expected input s' r v ctx' :
  reachable w →
  (idempotentResource ctx (in_Idempotency input) (db w)).2 = Ok None →
  PublishSnapshot ctx i actor expected input (db w) = (s', Ok r) →
  v ∈ flight w → jv_DocumentID v = i →
  (PromotePublication ctx' v s').1 = s'.
Proof.
  intros Hw Hkey Hpub Hv Hi. destruct (reachable_ok w Hw) as [Hok Hf].
  destruct (Hf v Hv) as [Fu Fr _].
  destruct (PublishSnapshot_run _ _ _ _ _ _ _ _ Hok Hpub)
    as [[_ [k Hne]]|(s0 & s1 & k & j & d & Hc0 & Hc1 & Hg & Hsp & _)]; [congruence|].
  apply stale_promotion_fails. rewrite Hi. intros j' e Hj' He Hgen.
  destruct (calm_document _ _ _ _ Hc1 He) as (e1 & He1 & _ & _ & Eg & _).
  rewrite (sp_documents _ _ _ _ _ _ _ Hsp), lookup_insert_eq in He1. injection He1 as <-.
  destruct (calm_job _ _ _ _ Hc1 Hj') as (j1 & Hj1 & _).
  destruct (supersede_job_cases _ _ _ _ _ _ _ _ _ Hsp Hj1) as [[Hk _]|(_ & Hj0 & _)].
  - destruct (supersede_ids _ _ _ _ _ _ _ (ok_ids _ (calm_saga_ok _ _ Hc0 Hok)) Hsp) as [_ Hin].
    apply (calm_no_id _ _ _ Hc0 Fu). by rewrite Hk.
  - destruct (calm_job _ _ _ _ Hc0 Hj0) as (j2 & Hj2 & (_ & _ & E2 & _) & _).
    destruct (Fr j2 Hj2) as (Edoc & Egen & _).
    destruct (ok_jobs _ Hok _ j2 Hj2) as (e2 & He2 & [G1 _ _ _ _]).
    destruct (calm_document _ _ _ _ Hc0 (sp_before _ _ _ _ _ _ _ Hsp)) as (e3 & He3 & _ & _ & Eg3 & _).
    assert (e2 = e3) as -> by congruence. simpl in Eg. lia.
Qed.

(** ** Where public content comes from *)

Lemma CreateDocument_publications ctx v k s s' w :
  CreateDocument ctx v k s = (s', Ok w) → publications s' = publications s ∧ candidates s' = candidates s.
Proof.
  unfold CreateDocument, insert_document, insert_alias, insert_projection. intros Hr. store_inv.
  split_options;
    repeat match goal with
    | H : idempotentResource _ _ _ = _ |- _ => apply idempotentResource_same in H as [_ _ E1 E2 _ _ _]
    | H : saveIdempotency _ _ _ _ = _ |- _ => apply saveIdempotency_same in H as [_ _ F1 F2 _ _ _]
    | H : getDocument _ _ _ _ = _ |- _ => apply getDocument_same in H; subst
    end; simpl in *; split; congruence.
Qed.

Lemma RestoreDeleted_publications ctx i actor s s' w :
  RestoreDeletedDocument ctx i actor s = (s', Ok w) →
  publications s' = publications s ∧ candidates s' = candidates s.
Proof.
  unfold RestoreDeletedDocument. intros Hr. store_inv.
  match goal with H : enqueuePermissionChanged _ _ _ = _ |- _ =>
    apply enqueuePermissionChanged_same in H as [_ _ E1 E2 _ _ _] end.
  match goal with H : update_document _ _ _ _ = _ |- _ =>
    apply update_document_run in H as [[-> _]|(d0 & _ & _ & _ & ->)] end; done.
Qed.

(** Retiring a publication removes it and its candidate. *)
Lemma retire_publications ctx i d g ids f s s1 s2 s3 s4 s5 u1 u2 u3 u4 u5 :
  delete_candidate i s = (s1, Ok u1) → delete_publication i s1 = (s2, Ok u2) →
  delete_jobs (unparked_of i) s2 = (s3, Ok u3) →
  enqueuePublicationReferenceJob ctx d g publicationActionClear ids s3 = (s4, Ok u4) →
  update_document i (λ _, true) f s4 = (s5, Ok u5) →
  publications s5 = delete i (publications s) ∧ candidates s5 = delete i (candidates s).
Proof.
  unfold delete_candidate, delete_publication, delete_jobs. intros H1' H2' H3' H4' H5'. store_inv.
  apply enqueueJob_run in H4' as (_ & k & rest & j & _ & _ & _ & _ & _ & _ & _ & _ & _ & _ & E8 & E9 & _).
  simpl in *. apply update_document_run in H5' as [[-> _]|(d0 & _ & _ & _ & ->)]; done.
Qed.

Lemma SoftDelete_publications ctx i actor expected s s' w :
  SoftDeleteDocument ctx i actor expected s = (s', Ok w) →
  publications s' = delete i (publications s) ∧ candidates s' = delete i (candidates s).
Proof.
  unfold SoftDeleteDocument. intros Hr. store_inv.
  match goal with H : enqueuePermissionChanged _ _ _ = _ |- _ =>
    apply enqueuePermissionChanged_same in H as [_ _ -> -> _ _ _] end.
  by eapply retire_publications.
Qed.

Lemma SetPublication_publications ctx i actor expected p k s s' w :
  SetPublication ctx i actor expected p k s = (s', Ok w) →
  publications s' ⊆ publications s ∧ candidates s' ⊆ candidates s.
Proof.
  unfold SetPublication, reply. intros Hr. destruct p; store_inv. split_options.
  - match goal with H : idempotentResource _ _ _ = _ |- _ =>
      apply idempotentResource_same in H as [_ _ E1 E2 _ _ _] end.
    match goal with H : getDocument _ _ _ _ = _ |- _ => apply getDocument_same in H; subst end.
    rewrite E1, E2. done.
  - match goal with H : idempotentResource _ _ _ = _ |- _ =>
      apply idempotentResource_same in H as [_ _ E1 E2 _ _ _] end.
    match goal with H : saveIdempotency _ _ _ _ = _ |- _ =>
      apply saveIdempotency_same in H as [_ _ F1 F2 _ _ _] end.
    match goal with H : update_document _ _ _ _ = _ |- _ =>
      eapply retire_publications in H as [G1 G2]; [|eassumption..] end.
    rewrite F1, F2, G1, G2, E1, E2. split; apply delete_subseteq.
Qed.

Lemma PurgeDocument_publications ctx i s s' u :
  PurgeDocument ctx i s = (s', Ok u) → publications s' ⊆ publications s ∧ candidates s' ⊆ candidates s.
Proof.
  unfold PurgeDocument, delete_document. intros Hr. store_inv.
  match goal with H : update_aliases _ _ _ = _ |- _ => apply update_aliases_same in H as [_ _ -> -> _ _ _] end.
  split; apply delete_subseteq.
Qed.

(** The candidate a request leaves. *)
Lemma PublishSnapshot_candidates ctx i actor expected input s s' w :
  PublishSnapshot ctx i actor expected input s = (s', Ok w) →
  publications s' = publications s ∧
  (candidates s' = candidates s ∧
     (∃ k, (idempotentResource ctx (in_Idempotency input) s).2 = Ok (Some k)) ∨
   ∃ d c, documents s !! i = Some d ∧ d_DeletedAt d = None ∧ CanEdit (accessFor s d actor) = true ∧
     d_MetadataRevision d = expected ∧ candidates s' = <[i := c]> (candidates s) ∧
     pc_Title c = in_Title input ∧ pc_Slug c = in_Slug input ∧ pc_PlainText c = in_PlainText input ∧
     (pc_Summary c = in_Summary input ∧ pc_Language c = in_Language input ∧
      pc_ContentSequence c = in_ContentSequence input ∧ pc_PublicationHash c = in_PublicationHash input) ∧
     json_encode (document_json (in_Content input)) ≫= jsonb = Some (pc_Content c)).
Proof.
  unfold PublishSnapshot, reply. intros Hr. store_inv. split_options.
  - match goal with H : idempotentResource _ _ _ = (_, Ok (Some ?k)) |- _ =>
      assert (∃ k, (idempotentResource ctx (in_Idempotency input) s).2 = Ok (Some k)) as Hk
        by (exists k; by rewrite H);
      apply idempotentResource_run in H as [H _]; destruct (H k eq_refl) as (-> & _) end.
    match goal with H : getDocument _ _ _ _ = _ |- _ => apply getDocument_same in H; subst end. auto.
  - match goal with H : idempotentResource _ _ _ = (_, Ok None) |- _ =>
      pose proof (idempotentResource_same _ _ _ _ _ H) as [E0 _ E1 E2 _ _ _];
      apply idempotentResource_members in H as [Em _] end.
    match goal with H : saveIdempotency _ _ _ _ = _ |- _ =>
      apply saveIdempotency_same in H as [_ _ F1 F2 _ _ _] end.
    match goal with H : save_candidate _ _ = _ |- _ =>
      apply save_candidate_run in H as (c' & -> & _ & Hsaved) end.
    unfold delete_jobs in *. store_inv.
    match goal with H : enqueuePublicationReferenceJob _ _ _ _ _ _ = _ |- _ =>
      apply enqueueJob_run in H as (_ & k & rest & j & _ & _ & _ & _ & _ & _ & _ & _ & _ & _ & E8 & E9 & _) end.
    match goal with H : update_document _ _ _ _ = _ |- _ =>
      apply update_document_run in H as [[-> Hno]|(? & _ & _ & _ & ->)] end; simpl in *;
    (split; [congruence|]; right; exists d, c'; rewrite <-E0, <-(accessFor_same _ _ _ _ Em);
     split_and!; [eassumption|auto|eassumption|by apply Z.eqb_eq|rewrite F2, E9, E2; reflexivity
       |apply Hsaved..|];
     simpl; match goal with H : json_encode (document_json _) = Some _ |- _ => rewrite H end; apply Hsaved).
Qed.

(** Publications and candidates only go away, except through [PublishSnapshot]. *)
Definition shrinks (s t : KDB) : Prop := publications t ⊆ publications s ∧ candidates t ⊆ candidates s.

Lemma atomic_shrinks {A} (op : store A) s :
  atomic op → (∀ s' a, op s = (s', Ok a) → shrinks s s') → shrinks s (op s).1.
Proof.
  intros Ha Hok. destruct (op s) as [s' [a|e]] eqn:E; simpl; [by eapply Hok|]. apply Ha in E as ->. done.
Qed.

Lemma calm_shrinks {R} s t : calm_by R s t → shrinks s t.
Proof. intros Hc. unfold shrinks. rewrite (calm_publications _ _ _ Hc), (calm_candidates _ _ _ Hc). done. Qed.

Lemma request_shrinks r s :
  (∀ ctx i actor expected input, r ≠ ReqPublish ctx i actor expected input) → shrinks s (run_request r s).
Proof.
  intros Hne. destruct (saga_request r) eqn:Hs; [|by eapply calm_shrinks, request_calm].
  destruct r; try done; cbn [run_request]; try (by edestruct Hne);
    (apply atomic_shrinks; [first [apply atomic_transaction|apply SetPublication_atomic]|]); intros s' a Hr.
  - apply CreateDocument_publications in Hr as [E1 E2]. unfold shrinks. rewrite E1, E2. done.
  - apply SoftDelete_publications in Hr as [E1 E2]. unfold shrinks. rewrite E1, E2.
    split; apply delete_subseteq.
  - apply RestoreDeleted_publications in Hr as [E1 E2]. unfold shrinks. rewrite E1, E2. done.
  - by apply SetPublication_publications in Hr.
  - by apply PurgeDocument_publications in Hr.
Qed.

Lemma complete_shrinks ctx i clear s : shrinks s (CompletePublicationReferenceJob ctx i clear s).1.
Proof.
  apply atomic_shrinks; [apply atomic_transaction|]. intros s' u Hr.
  unfold CompletePublicationReferenceJob, delete_jobs in Hr. store_inv. split_options; [|done].
  match goal with H : update_document _ _ _ _ = _ |- _ =>
    apply update_document_run in H as [[-> _]|(d0 & _ & _ & _ & ->)] end; done.
Qed.

Lemma park_shrinks ctx i key publish s : shrinks s (ParkPublicationReferenceJob ctx i key publish s).1.
Proof.
  apply atomic_shrinks; [apply atomic_transaction|]. intros s' u Hr.
  unfold ParkPublicationReferenceJob in Hr. store_inv.
  match goal with H : update_jobs _ _ _ = _ |- _ => apply update_jobs_run in H as (_ & -> & _) end.
  match goal with H : update_document _ _ _ _ = _ |- _ =>
    apply update_document_run in H as [[-> _]|(d0 & _ & _ & _ & ->)] end; done.
Qed.

(** C3: what the public sees of a document changes in two ways only:
    it goes away, or a worker promotes the candidate stored for it, and then
    the new publication is that candidate, of the document's current
    generation.  It is unchanged, but for gorm's defaults when the document had
    no publication before: a focal point coordinate of zero becomes 50 (and an
    empty language zh-CN). *)
Theorem publication_provenance w w' i p :
  reachable w → step w w' →
  publications (db w') !! i = Some p → publications (db w) !! i ≠ Some p →
  ∃ ctx v c tags content, v ∈ flight w ∧ candidates (db w) !! i = Some c ∧
    pc_Generation c = jv_Generation v ∧ jv_DocumentID v = i ∧
    (∀ d, documents (db w) !! i = Some d → d_PublicationGeneration d = pc_Generation c) ∧
    jsonb (pc_Tags c) = Some tags ∧ jsonb (pc_Content c) = Some content ∧
    p = with_json (saved_publication (db w) (publication_of ctx c)) tags content.
Proof.
  intros Hw Hs Hp Hnew. destruct (reachable_ok w Hw) as [Hok Hf].
  assert (∀ t, shrinks (db w) t → publications t !! i = Some p → False) as Hshrink.
  { intros t [Hsub _] Ht. apply Hnew. by eapply lookup_weaken. }
  destruct Hs as [r w Hr|ctx limit lease w s' vs Hr|ctx v w s' u Hv Ha Hst Hr|ctx v w s' u Hv Ha Hst Hr
    |ctx v w Hv Ha Hst|ctx v w Hv Ha|ctx v w key Hv|ctx v w key Hv]; cbn [db flight] in *.
  - exfalso. assert (shrinks (db w) (run_request r (db w)) → False) as Hsh by (intros Hsh; by eapply Hshrink).
    destruct r; try (apply Hsh, request_shrinks; done). cbn [run_request] in Hp.
    destruct (PublishSnapshot _ _ _ _ _ (db w)) as [s' [a|e]] eqn:E; simpl in Hp.
    + apply PublishSnapshot_candidates in E as [E _]. congruence.
    + apply PublishSnapshot_atomic in E as ->. done.
  - exfalso. destruct (claim_run _ _ _ _ _ _ Hok Hr) as [Hc _].
    eapply Hshrink; [by eapply calm_shrinks|done].
  - exfalso. pose proof (MarkStaged_calm ctx (jv_ID v) (db w)) as Hc. rewrite Hr in Hc.
    eapply Hshrink; [by eapply calm_shrinks|done].
  - apply promote_run in Hr as [[-> _]|(stored & d & c & tags & content & Hpm)]; [done|].
    pose proof (pm_document _ _ _ _ _ _ _ _ _ Hpm) as Hd.
    destruct (ok_documents _ Hok _ d Hd) as [_ _ _ R4 _].
    destruct (R4 c (pm_candidate _ _ _ _ _ _ _ _ _ Hpm)) as (Hcd & Hcg & _).
    rewrite (pm_publications _ _ _ _ _ _ _ _ _ Hpm), Hcd in Hp.
    destruct (decide (i = jv_DocumentID v)) as [->|Hne]; [|by rewrite lookup_insert_ne in Hp].
    rewrite lookup_insert_eq in Hp. injection Hp as <-. destruct Hpm.
    exists ctx, v, c, tags, content. split_and!; try done. intros d' Hd'. congruence.
  - exfalso. eapply Hshrink; [apply complete_shrinks|exact Hp].
  - exfalso. eapply Hshrink; [apply complete_shrinks|exact Hp].
  - exfalso. eapply Hshrink; [eapply calm_shrinks, RetryPublicationReferenceJob_calm|exact Hp].
  - exfalso. eapply Hshrink; [apply park_shrinks|exact Hp].
Qed.

(** A candidate appears only when an owner or editor who names the
    current revision of a document outside the trash asks to publish it, and it
    holds the title, slug, text and content of that request. *)
Theorem candidate_provenance r s i c :
  candidates (run_request r s) !! i = Some c → candidates s !! i ≠ Some c →
  ∃ ctx actor expected input d, r = ReqPublish ctx i actor expected input ∧
    documents s !! i = Some d ∧ d_DeletedAt d = None ∧ CanEdit (accessFor s d actor) = true ∧
    d_MetadataRevision d = expected ∧
    pc_Title c = in_Title input ∧ pc_Slug c = in_Slug input ∧ pc_PlainText c = in_PlainText input ∧
    json_encode (document_json (in_Content input)) ≫= jsonb = Some (pc_Content c).
Proof.
  intros Hc Hnew.
  assert (shrinks s (run_request r s) → False) as Hsh.
  { intros [_ Hsub]. apply Hnew. by eapply lookup_weaken. }
  destruct r; try (exfalso; apply Hsh, request_shrinks; done). cbn [run_request] in *.
  destruct (PublishSnapshot _ _ _ _ _ s) as [s' [a|e]] eqn:E; simpl in *.
  - apply PublishSnapshot_candidates in E as [_ [[E _]|(d & c' & Hd & Hdel & Ha & He & Ecand & Hrest)]].
    { exfalso. congruence. }
    rewrite Ecand in Hc. destruct (decide (i = i0)) as [->|Hne]; [|by rewrite lookup_insert_ne in Hc].
    rewrite lookup_insert_eq in Hc. injection Hc as ->.
    exists ctx, actor, expected, input, d. naive_solver.
  - apply PublishSnapshot_atomic in E as ->. done.
Qed.

End saga_claims.

(** ** Examples *)

Definition requested_document : DocumentRow :=
  Eval vm_compute in
    match documents db_requested !! "doc-1" with Some d => d | None => documentToModel sample_document end.

Lemma publication_consistent_witness :
  is_Some (candidates db_requested !! "doc-1") ∧
  ∃ k j, jobs db_requested !! k = Some j ∧ runnable "doc-1" 1 j.
Proof.
  apply (publication_consistent (MkWorld db_requested []) "doc-1" requested_document);
    [apply requested_reachable|vm_compute; reflexivity|reflexivity].
Defined.

Definition sample_view : KDB * result kerror (Document * Projection * bool) :=
  GetPublishedDocument (at_time 70) "notes" 0 db_published.

Definition no_projection : Projection := MkProjection EmptyString 0 EmptyString EmptyString 0.

Definition sample_answer : Document * Projection * bool :=
  Eval vm_compute in value (sample_document, no_projection, false) sample_view.2.

Lemma served_is_published_witness :
  db_published = db_published ∧ ∃ i p d, publications db_published !! i = Some p ∧
    documents db_published !! pb_DocumentID p = Some d ∧
    d_PublicationStatus d = PublicationPublished ∧ d_DeletedAt d = None ∧
    v_ID sample_answer.1.1 = d_ID d ∧ v_Title sample_answer.1.1 = pb_Title p ∧
    v_Slug sample_answer.1.1 = pb_Slug p ∧
    pv_Content sample_answer.1.2 = pb_Content p ∧ pv_PlainText sample_answer.1.2 = pb_PlainText p.
Proof.
  apply (served_is_published (at_time 70) "notes" 0 db_published db_published
           sample_answer.1.1 sample_answer.1.2 sample_answer.2).
  vm_compute. reflexivity.
Defined.

(** The sample request under an idempotency key. *)
Definition keyed_input : PublicationSnapshotInput :=
  MkPublicationSnapshotInput "Notes" EmptyString "notes" "en" None (MkDocument "doc" (Some []))
    "text" 0 "hash" EmptyString None zero_float zero_float [] (with_key 7 "key-1" "hash").

(** A worker holds the job of generation 1 when generation 2 is requested. *)
Lemma stale_jobs_are_fenced_witness :
  let s' := (PublishSnapshot (at_time 35) "doc-1" 7 2 keyed_input db_claimed).1 in
  (PromotePublication (at_time 50) sample_job s').1 = s'.
Proof.
  apply (stale_jobs_are_fenced (MkWorld db_claimed [sample_job]) (at_time 35) "doc-1" 7 2 keyed_input _
           (value sample_document (PublishSnapshot (at_time 35) "doc-1" 7 2 keyed_input db_claimed).2)).
  - apply claimed_reachable.
  - vm_compute. reflexivity.
  - vm_compute. reflexivity.
  - left.
  - reflexivity.
Defined.

Definition sample_publication : PublicationRow :=
  Eval vm_compute in
    match publications db_promoted !! "doc-1" with
    | Some p => p
    | None => MkPublicationRow EmptyString EmptyString EmptyString EmptyString EmptyString EmptyString 0
                EmptyString EmptyString EmptyString EmptyString 0 0 EmptyString EmptyString None
                zero_float zero_float
    end.

Lemma publication_provenance_witness :
  ∃ ctx v c tags content, v ∈ [set_jv_State "staged" sample_job; sample_job] ∧
    candidates db_staged !! "doc-1" = Some c ∧ pc_Generation c = jv_Generation v ∧
    jv_DocumentID v = "doc-1" ∧
    (∀ d, documents db_staged !! "doc-1" = Some d → d_PublicationGeneration d = pc_Generation c) ∧
    jsonb (pc_Tags c) = Some tags ∧ jsonb (pc_Content c) = Some content ∧
    sample_publication = with_json (saved_publication db_staged (publication_of ctx c)) tags content.
Proof.
  apply (publication_provenance (MkWorld db_staged [set_jv_State "staged" sample_job; sample_job])
           (MkWorld db_promoted sample_flight) "doc-1" sample_publication).
  - apply staged_reachable.
  - apply (step_promote (at_time 50) (set_jv_State "staged" sample_job)
             (MkWorld db_staged [set_jv_State "staged" sample_job; sample_job]) db_promoted tt);
      [left|discriminate|reflexivity|vm_compute; reflexivity].
  - vm_compute. reflexivity.
  - vm_compute. discriminate.
Defined.

Definition sample_candidate : CandidateRow :=
  Eval vm_compute in
    match candidates db_requested !! "doc-1" with
    | Some c => c
    | None => candidate_row (at_time 0) EmptyString (documentToModel sample_document) sample_input
                EmptyString EmptyString EmptyString
    end.

Lemma candidate_provenance_witness :
  ∃ ctx actor expected input d,
    ReqPublish (at_time 20) "doc-1" 7 1 sample_input = ReqPublish ctx "doc-1" actor expected input ∧
    documents db_created !! "doc-1" = Some d ∧ d_DeletedAt d = None ∧
    CanEdit (accessFor db_created d actor) = true ∧ d_MetadataRevision d = expected ∧
    pc_Title sample_candidate = in_Title input ∧ pc_Slug sample_candidate = in_Slug input ∧
    pc_PlainText sample_candidate = in_PlainText input ∧
    json_encode (document_json (in_Content input)) ≫= jsonb = Some (pc_Content sample_candidate).
Proof.
  apply (candidate_provenance (ReqPublish (at_time 20) "doc-1" 7 1 sample_input) db_created "doc-1"
           sample_candidate).
  - vm_compute. reflexivity.
  - vm_compute. discriminate.
Defined.
