(* ===== verification/KAccess.v ===== *)
(** Authorization, optimistic concurrency and idempotency of the document
    operations. *)

From stdpp Require Import base gmap list sets strings relations.
From Stdlib Require Import ZArith Lia.
From S2P Require Import Prelude.
From S2P Require Import GoStrings.
From S2P Require Import KDomain.
From S2P Require Import RichText.
From S2P Require Import Json.
From S2P Require Import KSchema.
From S2P Require Import KTypes.
From S2P Require Import KStore.
From S2P Require Import KDocuments.
From S2P Require Import KHistory.
From S2P Require Import KPublication.
From S2P Require Import KSharing.
From S2P Require Import KOutbox.
From S2P Require Import KCommits.
From S2P Require Import KWorker.
From S2P Require Import KFrames.
From S2P Require Import KSaga.
From S2P Require Import KSagaSteps.
From S2P Require Import KWorld.
From S2P Require Import KSample.

Open Scope Z_scope.

(** ** Who may do what *)

(** The document a request acts on, the actor, and whether only the owner may
    make it (otherwise editors may too). *)
Definition target (r : request) : option (string * Z * bool) :=
  match r with
  | ReqUpdateDocument _ i actor _ _ => Some (i, actor, false)
  | ReqPublish _ i actor _ _ => Some (i, actor, false)
  | ReqSetPublication _ i actor _ _ _ => Some (i, actor, false)
  | ReqCreateCommit _ i actor _ => Some (i, actor, false)
  | ReqSoftDelete _ i actor _ => Some (i, actor, true)
  | ReqRestoreDeleted _ i actor => Some (i, actor, true)
  | ReqPurgeDeleted _ i actor _ _ => Some (i, actor, true)
  | ReqAddMember _ i actor _ _ _ => Some (i, actor, true)
  | ReqUpdateMember _ i actor _ _ _ => Some (i, actor, true)
  | ReqDeleteMember _ i actor _ _ => Some (i, actor, true)
  | _ => None
  end.

Definition may (owner_only : bool) (access : string) : bool :=
  if owner_only then access =?= AccessOwner else CanEdit access.

Section access.
Context `{Unicode, Uuid, Url, Codec, Pg}.

#[local] Hint Resolve atomic_transaction PublishSnapshot_atomic SetPublication_atomic : frames.

#[local] Hint Extern 1 (atomic _) => apply atomic_transaction : frames.

(** Refute a run that passed a check its actor does not pass. *)
Ltac refuse :=
  repeat match goal with
  | H : idempotentResource _ _ _ = (_, Ok (Some _)) |- _ => apply replay_same in H; subst
  | H : idempotentResource _ _ _ = (_, Ok None) |- _ =>
      apply idempotentResource_members in H as [Hmem Hdoc]; rewrite ?Hdoc in *
  | H : _ && _ = true |- _ => apply andb_prop in H as [? ?]
  end;
  repeat match goal with
  | E : documents ?s !! ?i = Some ?a, E' : documents ?s !! ?i = Some ?b |- _ =>
      assert (a = b) as -> by congruence; clear E'
  end;
  unfold may in *;
  try match goal with Hmem : members _ = members _ |- _ =>
        rewrite (accessFor_same _ _ _ _ Hmem) in * end;
  try congruence.

Lemma refused_run {A} (op : store A) s :
  atomic op → (∀ s' a, op s = (s', Ok a) → s' = s) → (op s).1 = s.
Proof.
  intros Ha Hok. destruct (op s) as [s' [a|e]] eqn:Hr; simpl; [by eapply Hok|by apply Ha in Hr].
Qed.

(** C11: a request on a document by someone without the role it takes
    (owner or editor for edits, publication and commits; owner for members and
    the trash) leaves the whole database unchanged. *)
Theorem unauthorized_requests_change_nothing r s i actor owner_only d :
  target r = Some (i, actor, owner_only) → documents s !! i = Some d →
  may owner_only (accessFor s d actor) = false → run_request r s = s.
Proof.
  intros Ht Hd Hm. destruct r; cbn [target] in Ht; try done; injection Ht as -> -> <-;
    cbn [run_request]; (apply refused_run; [auto with frames|]);
    intros s' a Hr.
  all: unfold UpdateDocument, SoftDeleteDocument, RestoreDeletedDocument, PurgeDeletedDocument,
         PublishSnapshot, SetPublication, AddMember, UpdateMember, DeleteMember, CreateCommit in Hr;
       try (destruct published); store_inv.
  all: try (refuse; done).
  all: match goal with H : idempotentResource _ _ _ = (_, Ok ?o) |- _ => destruct o end; store_inv; refuse;
       repeat match goal with
       | H : getDocument _ _ _ _ = (_, Ok _) |- _ => apply getDocument_same in H; subst
       | H : commitFromModel _ _ = _ |- _ => apply commitFromModel_run in H; subst
       end; try done.
Qed.

(** ** Optimistic concurrency *)

Lemma optional_same {A} (o : option A) (f : A → store unit) (s s' : KDB) u :
  (∀ a s1 s2 v, f a s1 = (s2, Ok v) → same_saga s1 s2) →
  match o with Some a => f a | None => mret tt end s = (s', Ok u) → same_saga s s'.
Proof. intros Hf Hr. destruct o; [by eapply Hf|]. store_inv. done. Qed.

Lemma slug_change_same ctx i old (o : option string) s s' u :
  match o with
  | Some slug => if slug =?= old then mret tt else reserve_slug ctx i slug
  | None => mret tt
  end s = (s', Ok u) → same_saga s s'.
Proof.
  apply (optional_same o (λ slug, if slug =?= old then mret tt else reserve_slug ctx i slug)).
  intros a s1 s2 v Hr. case_match; store_inv; [done|by eapply reserve_slug_same].
Qed.

Lemma same_saga_trans_documents a b (m : gmap string DocumentRow) c :
  same_saga a b → same_saga (set_documents m b) c →
  documents c = m ∧ projections c = projections a ∧ publications c = publications a ∧
  candidates c = candidates a ∧ media_refs c = media_refs a ∧ jobs c = jobs a.
Proof. intros [A1 A2 A3 A4 A5 A6 _] [B1 B2 B3 B4 B5 B6 _]. simpl in *. split_and!; congruence. Qed.

(** What an edit of the metadata does: it is made by an owner or editor who saw
    the current revision, writes exactly the given columns under the next
    revision, and leaves the content, the publication, its candidate, the media
    references and the jobs alone. *)
Lemma UpdateDocument_run ctx i actor expected ch s s' v :
  UpdateDocument ctx i actor expected ch s = (s', Ok v) →
  ∃ d, documents s !! i = Some d ∧ d_DeletedAt d = None ∧
    CanEdit (accessFor s d actor) = true ∧ d_MetadataRevision d = expected ∧
    documents s' = <[i := apply_changes ctx ch d]> (documents s) ∧
    projections s' = projections s ∧ publications s' = publications s ∧
    candidates s' = candidates s ∧ media_refs s' = media_refs s ∧ jobs s' = jobs s.
Proof.
  unfold UpdateDocument. intros Hr. store_inv.
  repeat match goal with
  | H : match ch_slug _ with _ => _ end _ = _ |- _ => apply slug_change_same in H
  | H : match ch_folderID _ with _ => _ end _ = _ |- _ =>
      apply optional_same in H; [|intros; by eapply place_document_same]
  | H : match ch_tags _ with _ => _ end _ = _ |- _ =>
      apply optional_same in H; [|intros; by eapply replaceDocumentTags_same]
  end.
  match goal with H : update_document _ _ _ _ = _ |- _ =>
    apply update_document_run in H as [[-> Hno]|(e & He & _ & _ & ->)] end.
  { exfalso. naive_solver. }
  exists d.
  match goal with A : same_saga s ?x, B : same_saga ?x ?y, C : same_saga (set_documents _ ?y) _ |- _ =>
    assert (same_saga s y) as Hs by (by etrans);
    destruct (same_saga_trans_documents _ _ _ _ Hs C) as (E1 & E2 & E3 & E4 & E5 & E6) end.
  rewrite (same_documents _ _ Hs) in He. assert (e = d) as -> by congruence.
  rewrite (same_documents _ _ Hs) in E1.
  match goal with H : (_ =? _) = true |- _ => apply Z.eqb_eq in H end.
  split_and!; auto.
Qed.

Lemma apply_changes_revision ctx ch d :
  d_MetadataRevision (apply_changes ctx ch d) = d_MetadataRevision d + 1.
Proof. unfold apply_changes, bump_metadata. destruct ch as [[] [] [] [] ? ? [] [] [] []]; done. Qed.

(** A successful metadata edit was made by an owner or editor naming
    the current revision; it writes the given columns of that row only, under
    the next revision, and does not touch the content, the live publication, a
    candidate, a media reference or a job: a draft edit is never public before
    it is published. *)
Theorem UpdateDocument_spec ctx i actor expected ch s s' v :
  UpdateDocument ctx i actor expected ch s = (s', Ok v) →
  ∃ d, documents s !! i = Some d ∧ d_DeletedAt d = None ∧
    CanEdit (accessFor s d actor) = true ∧ d_MetadataRevision d = expected ∧
    documents s' = <[i := apply_changes ctx ch d]> (documents s) ∧
    d_MetadataRevision (apply_changes ctx ch d) = expected + 1 ∧
    projections s' = projections s ∧ publications s' = publications s ∧
    candidates s' = candidates s ∧ media_refs s' = media_refs s ∧ jobs s' = jobs s.
Proof.
  intros (d & Hd & Hdel & Ha & He & Hr)%UpdateDocument_run. exists d.
  rewrite apply_changes_revision, He. naive_solver.
Qed.

(** No update is lost: of two edits that saw the same revision of a
    document, in either order and by whichever users, at most one succeeds. *)
Theorem no_lost_update ctx1 ctx2 i actor1 actor2 expected ch1 ch2 s s1 v1 s2 r :
  UpdateDocument ctx1 i actor1 expected ch1 s = (s1, Ok v1) →
  UpdateDocument ctx2 i actor2 expected ch2 s1 = (s2, r) →
  s2 = s1 ∧ (r = Err ErrPrecondition ∨ r = Err ErrForbidden).
Proof.
  intros (d & Hd & Hdel & _ & He & Hdocs & _)%UpdateDocument_run Hr.
  assert (documents s1 !! i = Some (apply_changes ctx1 ch1 d)) as Hd1
    by (rewrite Hdocs; by rewrite lookup_insert_eq).
  destruct r as [v|e].
  - apply UpdateDocument_run in Hr as (d' & Hd' & _ & _ & He' & _).
    rewrite Hd1 in Hd'. injection Hd' as <-. rewrite apply_changes_revision in He'. lia.
  - unfold UpdateDocument in Hr. apply transaction_run_err in Hr as (-> & t & Hr). split; [done|].
    apply bind_run_err in Hr as [Hr|(t1 & [d' access] & Hl & Hr)].
    + exfalso. unfold lockDocument, first in Hr. cbv [mbind tx_bind gets id] in Hr.
      rewrite (proj2 (visible_document_Some i false s1 (apply_changes ctx1 ch1 d))) in Hr; [done|].
      split; [done|]. intros _. by destruct (apply_changes_same ctx1 ch1 d) as (_ & _ & _ & -> & _).
    + apply lockDocument_run in Hl as (-> & [Hv _]%visible_document_Some & ->).
      rewrite Hd1 in Hv. injection Hv as <-. cbv beta iota in Hr.
      apply bind_run_err in Hr as [Hr|(t2 & u2 & Hq & Hr)]; [apply require_run_err in Hr; naive_solver|].
      apply require_run_ok in Hq as [_ ->].
      apply bind_run_err in Hr as [Hr|(t2 & u3 & Hq & Hr)]; [apply require_run_err in Hr; naive_solver|].
      apply require_run_ok in Hq as [Hq _]. apply Z.eqb_eq in Hq. rewrite apply_changes_revision in Hq. lia.
Qed.

(** ** Idempotency *)

Definition key_of (v : Idempotency) : Z * string * string := (id_ActorID v, id_Operation v, id_Key v).

Lemma saveIdempotency_run ctx v i s s' u :
  id_Key v ≠ EmptyString → saveIdempotency ctx v i s = (s', Ok u) →
  s' = set_idempotency_keys
         (<[key_of v := MkIdempotencyRow (id_ActorID v) (id_Operation v) (id_Key v) i
                          (id_RequestHash v) (now ctx + 24 * Hour) (now ctx)]> (idempotency_keys s)) s.
Proof.
  unfold saveIdempotency, insert_idempotency. intros Hk Hr. rewrite bool_decide_false in Hr by done.
  store_inv. done.
Qed.

Lemma idempotentResource_hit ctx v k s :
  id_Key v ≠ EmptyString → idempotency_keys s !! key_of v = Some k →
  idempotentResource ctx v s =
    if ik_ExpiresAt k <=? now ctx
    then (set_idempotency_keys (delete (key_of v) (idempotency_keys s)) s, Ok None)
    else if ik_RequestHash k =?= id_RequestHash v then (s, Ok (Some (ik_ResourceID k)))
    else (s, Err ErrConflict).
Proof.
  intros Hk Hl. unfold idempotentResource. rewrite bool_decide_false by done.
  cbv [mbind tx_bind gets id]. unfold key_of in Hl. rewrite Hl. unfold after.
  rewrite Z.leb_antisym. destruct (now ctx <? ik_ExpiresAt k); simpl; [|done].
  by destruct (ik_RequestHash k =?= id_RequestHash v).
Qed.

(** Once an operation has recorded its idempotency key, a request with
    the key of the same actor and operation finds the recorded resource for
    twenty-four hours when it is the same request and is refused as a conflict
    when it is another one; afterwards the key is free again. *)
Theorem idempotency_window ctx v i s s1 u ctx' hash :
  id_Key v ≠ EmptyString → saveIdempotency ctx v i s = (s1, Ok u) →
  let v' := MkIdempotency (id_ActorID v) (id_Operation v) (id_Key v) hash in
  (now ctx' < now ctx + 24 * Hour → hash = id_RequestHash v →
     idempotentResource ctx' v' s1 = (s1, Ok (Some i))) ∧
  (now ctx' < now ctx + 24 * Hour → hash ≠ id_RequestHash v →
     idempotentResource ctx' v' s1 = (s1, Err ErrConflict)) ∧
  (now ctx + 24 * Hour <= now ctx' →
     idempotentResource ctx' v' s1 =
       (set_idempotency_keys (delete (key_of v) (idempotency_keys s1)) s1, Ok None)).
Proof.
  intros Hk Hs v'. apply saveIdempotency_run in Hs; [|done].
  assert (idempotency_keys s1 !! key_of v' =
    Some (MkIdempotencyRow (id_ActorID v) (id_Operation v) (id_Key v) i (id_RequestHash v)
            (now ctx + 24 * Hour) (now ctx))) as Hl
    by (subst s1; cbn [idempotency_keys set_idempotency_keys]; apply lookup_insert_eq).
  rewrite (idempotentResource_hit ctx' v' _ s1 Hk Hl).
  cbn [ik_ExpiresAt ik_RequestHash ik_ResourceID v' id_RequestHash]. split_and!.
  - intros Ht ->. rewrite (proj2 (Z.leb_gt _ _)) by lia. by rewrite bool_decide_true.
  - intros Ht Hh. rewrite (proj2 (Z.leb_gt _ _)) by lia. rewrite bool_decide_false; [done|]. congruence.
  - intros Ht. by rewrite (proj2 (Z.leb_le _ _)) by lia.
Qed.

Lemma loadDocumentStructure_id db v : v_ID (loadDocumentStructure db v) = v_ID v.
Proof. unfold loadDocumentStructure. by destruct (placements db !! _). Qed.

Lemma backfill_hash_id db d : d_ID (backfill_hash db d) = d_ID d.
Proof. unfold backfill_hash. case_match; [|done]. by destruct (_ ≫= _). Qed.

(** A visible document with a projection can be read by its identifier. *)
Lemma getDocument_ok i actor deleted s d p :
  visible_document i deleted s = Some d → projections s !! d_ID d = Some p →
  ∃ v, getDocument i actor deleted s = (s, Ok v) ∧ v_ID v = d_ID d.
Proof.
  intros Hd Hp. unfold getDocument, getProjection, first. cbv [mbind tx_bind gets id].
  rewrite Hd. cbn. rewrite backfill_hash_id, Hp. cbn. eexists. split; [done|].
  rewrite loadDocumentStructure_id. destruct (publications s !! d_ID d); simpl; apply backfill_hash_id.
Qed.

Lemma CreateDocument_run ctx doc idem s s1 v :
  idempotency_keys s !! key_of idem = None → CreateDocument ctx doc idem s = (s1, Ok v) →
  v_ID v = v_ID doc ∧ documents s !! v_ID doc = None ∧
  documents s1 = <[v_ID doc := document_defaults (documentToModel doc)]> (documents s) ∧
  is_Some (projections s1 !! v_ID doc) ∧
  (id_Key idem ≠ EmptyString →
     idempotency_keys s1 !! key_of idem =
       Some (MkIdempotencyRow (id_ActorID idem) (id_Operation idem) (id_Key idem) (v_ID doc)
               (id_RequestHash idem) (now ctx + 24 * Hour) (now ctx))).
Proof.
  unfold CreateDocument. intros Hn Hr. store_inv. split_options.
  { match goal with H : idempotentResource _ _ _ = _ |- _ =>
      apply idempotentResource_run in H as [Hs _]; destruct (Hs _ eq_refl) as (-> & _ & k & Hk & _) end.
    unfold key_of in Hn. congruence. }
  match goal with H : idempotentResource _ _ _ = _ |- _ =>
    pose proof (idempotentResource_members _ _ _ _ _ H) as [_ Hdocs] end.
  match goal with H : insert_document _ _ = _ |- _ => unfold insert_document in H end.
  match goal with H : insert_alias _ _ = _ |- _ => unfold insert_alias in H end.
  match goal with H : insert_projection _ _ = _ |- _ => unfold insert_projection in H end.
  store_inv.
  match goal with H : saveIdempotency _ _ _ _ = _ |- _ => rename H into Hsave end.
  pose proof (saveIdempotency_same _ _ _ _ _ _ Hsave) as [E1 E2 _ _ _ _ _]. simpl in *.
  split_and!; [done| | | |].
  - rewrite <-Hdocs. match goal with H : negb (has_document _ _) = true |- _ =>
      apply negb_true_iff in H; unfold has_document in H; simpl in H;
      destruct (documents _ !! v_ID doc) eqn:E in H; [done|exact E] end.
  - by rewrite E1, Hdocs.
  - rewrite E2. rewrite lookup_insert_eq. eauto.
  - intros Hk. apply saveIdempotency_run in Hsave; [|done]. rewrite Hsave. simpl. apply lookup_insert_eq.
Qed.

(** Creating a document is idempotent: while the key lives, a retry of
    the same request, whatever identifier it has drawn meanwhile, answers with
    the document created first and changes nothing. *)
Theorem CreateDocument_replay ctx doc idem s s1 v ctx' doc' :
  id_Key idem ≠ EmptyString → idempotency_keys s !! key_of idem = None → v_DeletedAt doc = None →
  CreateDocument ctx doc idem s = (s1, Ok v) → now ctx' < now ctx + 24 * Hour →
  ∃ v', CreateDocument ctx' doc' idem s1 = (s1, Ok v') ∧ v_ID v' = v_ID v.
Proof.
  intros Hk Hn Hdel Hr Ht.
  destruct (CreateDocument_run _ _ _ _ _ _ Hn Hr) as (Hv & _ & Hdocs & [p Hp] & Hkey).
  specialize (Hkey Hk).
  destruct (getDocument_ok (v_ID doc) (id_ActorID idem) false s1 (document_defaults (documentToModel doc)) p) as (v' & Hg & Hi).
  - apply visible_document_Some. rewrite Hdocs, lookup_insert_eq. done.
  - done.
  - exists v'. split; [|by rewrite Hi, Hv]. unfold CreateDocument, transaction. cbv [mbind tx_bind].
    rewrite (idempotentResource_hit ctx' idem _ s1 Hk Hkey). simpl.
    rewrite (proj2 (Z.leb_gt _ _)) by lia. rewrite bool_decide_true by done. by rewrite Hg.
Qed.

End access.

(** ** Examples *)

(** User 8 has no role on the document of user 7. *)
Lemma unauthorized_requests_change_nothing_witness :
  run_request (ReqUpdateDocument (at_time 15) "doc-1" 8 1 sample_changes) db_created = db_created.
Proof.
  eapply (unauthorized_requests_change_nothing _ db_created "doc-1" 8 false);
    [reflexivity|vm_compute; reflexivity|vm_compute; reflexivity].
Defined.

Lemma UpdateDocument_spec_witness :
  ∃ d, documents db_created !! "doc-1" = Some d ∧ d_DeletedAt d = None ∧
    CanEdit (accessFor db_created d 7) = true ∧ d_MetadataRevision d = 1 ∧
    documents db_updated = <["doc-1" := apply_changes (at_time 15) sample_changes d]> (documents db_created) ∧
    d_MetadataRevision (apply_changes (at_time 15) sample_changes d) = 1 + 1 ∧
    projections db_updated = projections db_created ∧ publications db_updated = publications db_created ∧
    candidates db_updated = candidates db_created ∧ media_refs db_updated = media_refs db_created ∧
    jobs db_updated = jobs db_created.
Proof.
  apply (UpdateDocument_spec (at_time 15) "doc-1" 7 1 sample_changes db_created db_updated
           (value sample_document sample_update.2)).
  vm_compute. reflexivity.
Defined.

Lemma no_lost_update_witness :
  let run := UpdateDocument (at_time 16) "doc-1" 7 1 sample_changes db_updated in
  run.1 = db_updated ∧ (run.2 = Err ErrPrecondition ∨ run.2 = Err ErrForbidden).
Proof.
  apply (no_lost_update (at_time 15) (at_time 16) "doc-1" 7 7 1 sample_changes sample_changes
           db_created db_updated (value sample_document sample_update.2)).
  - vm_compute. reflexivity.
  - vm_compute. reflexivity.
Defined.

Lemma idempotency_window_witness :
  let s1 := (saveIdempotency (at_time 10) (with_key 7 "k" "h") "doc-1" db_created).1 in
  idempotentResource (at_time 20) (with_key 7 "k" "h") s1 = (s1, Ok (Some "doc-1")) ∧
  idempotentResource (at_time 20) (with_key 7 "k" "other") s1 = (s1, Err ErrConflict).
Proof.
  intros s1. split.
  - apply (idempotency_window (at_time 10) (with_key 7 "k" "h") "doc-1" db_created s1 tt (at_time 20) "h");
      [done|vm_compute; reflexivity|vm_compute; reflexivity|reflexivity].
  - apply (idempotency_window (at_time 10) (with_key 7 "k" "h") "doc-1" db_created s1 tt (at_time 20) "other");
      [done|vm_compute; reflexivity|vm_compute; reflexivity|discriminate].
Defined.

Lemma CreateDocument_replay_witness :
  let run := CreateDocument (at_time 10) sample_document (with_key 7 "k" "h") (empty_db sample_ids) in
  ∃ v', CreateDocument (at_time 20) sample_document (with_key 7 "k" "h") run.1 = (run.1, Ok v')
        ∧ v_ID v' = v_ID (value sample_document run.2).
Proof.
  apply (CreateDocument_replay (at_time 10) sample_document (with_key 7 "k" "h") (empty_db sample_ids)
           _ _ (at_time 20) sample_document);
    [discriminate|vm_compute; reflexivity|reflexivity|vm_compute; reflexivity|vm_compute; reflexivity].
Defined.
