(* ===== verification/KDelivery.v ===== *)
(** The publication worker and the outbox over the transition system: what one
    pass of a worker does is a run of the steps of [KWorld], every job it
    handles is accounted for, and no event leaves the outbox unpublished. *)

From stdpp Require Import base gmap list sets strings relations.
From Stdlib Require Import ZArith Lia.
From S2P Require Import Prelude.
From S2P Require Import GoStrings.
From S2P Require Import KDomain.
From S2P Require Import RichText.
From S2P Require Import Json.
From S2P Require Import KSchema.
From S2P Require Import KTypes.
From S2P Require Import KStore.
From S2P Require Import KDocuments.
From S2P Require Import KHistory.
From S2P Require Import KPublication.
From S2P Require Import KSharing.
From S2P Require Import KOutbox.
From S2P Require Import KCommits.
From S2P Require Import KWorker.
From S2P Require Import KFrames.
From S2P Require Import KSaga.
From S2P Require Import KSagaSteps.
From S2P Require Import KWorld.
From S2P Require Import KSample.

Open Scope Z_scope.

Lemma count_where_zero {K V} `{Countable K} (P : V → bool) (m : gmap K V) :
  count_where P m = 0 → ∀ k v, m !! k = Some v → P v = false.
Proof.
  unfold count_where. intros Hn k v Hk. destruct (P v) eqn:HP; [|done].
  assert (v ∈ rows_where P m) as Hin by (apply elem_of_rows_where; eauto).
  destruct (rows_where P m); [by apply elem_of_nil in Hin|simpl in Hn; lia].
Qed.

Lemma update_where_none {K V} `{Countable K} (P : V → bool) f (m : gmap K V) :
  count_where P m = 0 → update_where P f m = m.
Proof.
  intros Hn. apply map_eq. intros k. rewrite lookup_update_where.
  destruct (m !! k) as [v|] eqn:Hk; [|done]. simpl. by rewrite (count_where_zero P m Hn k v Hk).
Qed.

Lemma set_jobs_same (s : KDB) : set_jobs (jobs s) s = s.
Proof. by destruct s. Qed.

Section worker_runs.
Context `{Unicode, Uuid, Url, Codec, Pg}.

Lemma MarkStaged_atomic ctx i : atomic (MarkPublicationReferencesStaged ctx i).
Proof.
  intros s s' e Hr. unfold MarkPublicationReferencesStaged, updatePublicationJob in Hr.
  apply bind_run_err in Hr as [Hr|(s1 & n & Hu & Hr)].
  - unfold sql in Hr. apply wrap_run_err in Hr as (e' & Hr & _). by apply update_jobs_err in Hr.
  - apply wrap_ok, update_jobs_run in Hu as (-> & -> & _).
    apply require_run_err in Hr as (Hn & -> & _). apply negb_false_iff, Z.eqb_eq in Hn.
    rewrite update_where_none by done. apply set_jobs_same.
Qed.

Definition reaches (w : World) (s : KDB) : Prop :=
  ∃ F, (∀ v, v ∈ flight w → v ∈ F) ∧ rtc step w (MkWorld s F).

Lemma reaches_refl w : reaches w (db w).
Proof. exists (flight w). split; [done|]. by destruct w. Qed.

Lemma reaches_step w w' s :
  step w w' → (∀ v, v ∈ flight w → v ∈ flight w') → reaches w' s → reaches w s.
Proof. intros Hs Hf (F & HF & Hr). exists F. split; [by auto|]. by eapply rtc_l. Qed.

Lemma finalize_reaches ext ctx v w :
  v ∈ flight w → jv_Action v ≠ "clear" → jv_State v = "promoted" →
  reaches w ((remote (Finalize ext v) ≫= λ _, CompletePublicationReferenceJob ctx (jv_ID v) false) (db w)).1.
Proof.
  intros Hv Ha Hst. unfold remote. destruct (Finalize ext v); [|apply reaches_refl].
  eapply reaches_step; [by apply (step_finalize ctx v)|done|]. apply (reaches_refl (MkWorld _ _)).
Qed.

(** [publish_steps] from each state of the claim. *)
Lemma publish_steps_promoted ext ctx v s :
  jv_State v = "promoted" →
  publish_steps ext ctx v s
  = (remote (Finalize ext v) ≫= λ _, CompletePublicationReferenceJob ctx (jv_ID v) false) s.
Proof. destruct v. simpl. intros ->. reflexivity. Qed.

Lemma publish_steps_staged ext ctx v s :
  jv_State v = "staged" →
  publish_steps ext ctx v s =
    match PromotePublication ctx v s with
    | (s', Ok _) => publish_steps ext ctx (set_jv_State "promoted" v) s'
    | (s', Err e) => (s', Err e)
    end.
Proof.
  destruct v. simpl. intros ->. cbv [publish_steps mbind tx_bind mret tx_ret].
  cbn [jv_State]. change ("staged" =?= "pending") with false. cbn [jv_State].
  change ("staged" =?= "staged") with true. cbv beta iota.
  destruct (PromotePublication _ _ s) as [s' [u|e]]; reflexivity.
Qed.

Lemma publish_steps_pending ext ctx v s :
  jv_State v = "pending" →
  publish_steps ext ctx v s =
    if Stage ext v then
      match MarkPublicationReferencesStaged ctx (jv_ID v) s with
      | (s', Ok _) => publish_steps ext ctx (set_jv_State "staged" v) s'
      | (s', Err e) => (s', Err e)
      end
    else (s, Err (EOther "remote call")).
Proof.
  destruct v. simpl. intros ->. cbv [publish_steps remote mbind tx_bind mret tx_ret require].
  cbn [jv_State]. change ("pending" =?= "pending") with true. cbv beta iota.
  destruct (Stage _ _); [|done].
  destruct (MarkPublicationReferencesStaged _ _ s) as [s' [u|e]]; reflexivity.
Qed.

Lemma publish_steps_unknown ext ctx v s :
  jv_State v ≠ "pending" → jv_State v ≠ "staged" → jv_State v ≠ "promoted" →
  publish_steps ext ctx v s = (s, Err (EOther "unknown publication job state")).
Proof.
  intros Hp Hs Hq. unfold publish_steps. cbv [mbind tx_bind mret tx_ret].
  by rewrite !bool_decide_false by done.
Qed.

Lemma publish_steps_reaches ext ctx v w :
  v ∈ flight w → jv_Action v ≠ "clear" → reaches w (publish_steps ext ctx v (db w)).1.
Proof.
  assert (∀ w v, v ∈ flight w → jv_Action v ≠ "clear" → jv_State v = "promoted" →
    reaches w (publish_steps ext ctx v (db w)).1) as Hpromoted.
  { clear v w. intros w v Hv Ha Hst. rewrite publish_steps_promoted by done. by apply finalize_reaches. }
  assert (∀ w v, v ∈ flight w → jv_Action v ≠ "clear" → jv_State v = "staged" →
    reaches w (publish_steps ext ctx v (db w)).1) as Hstaged.
  { clear v w. intros w v Hv Ha Hst. rewrite publish_steps_staged by done.
    destruct (PromotePublication ctx v (db w)) as [s' [u|e]] eqn:Hr.
    - eapply reaches_step; [by eapply (step_promote ctx v)|by right|].
      apply (Hpromoted (MkWorld s' _) (set_jv_State "promoted" v)); [left|done|done].
    - apply atomic_transaction in Hr as ->. apply reaches_refl. }
  intros Hv Ha. destruct (decide (jv_State v = "promoted")); [by apply Hpromoted|].
  destruct (decide (jv_State v = "staged")); [by apply Hstaged|].
  destruct (decide (jv_State v = "pending")) as [Hst|];
    [|rewrite publish_steps_unknown by done; apply reaches_refl].
  rewrite publish_steps_pending by done. destruct (Stage ext v); [|apply reaches_refl].
  destruct (MarkPublicationReferencesStaged ctx (jv_ID v) (db w)) as [s' [u|e]] eqn:Hr.
  - eapply reaches_step; [by eapply (step_stage ctx v)|by right|].
    apply (Hstaged (MkWorld s' _) (set_jv_State "staged" v)); [left|done|done].
  - apply MarkStaged_atomic in Hr as ->. apply reaches_refl.
Qed.

Lemma clear_steps_reaches ext ctx v w :
  v ∈ flight w → jv_Action v = "clear" → reaches w (clear_steps ext ctx v (db w)).1.
Proof.
  intros Hv Ha. unfold clear_steps, remote. destruct (Clear ext v); [|apply reaches_refl].
  eapply reaches_step; [by apply (step_clear ctx v)|done|]. apply (reaches_refl (MkWorld _ _)).
Qed.

Lemma reaches_trans w s t :
  reaches w s → (∀ F, (∀ v, v ∈ flight w → v ∈ F) → reaches (MkWorld s F) t) → reaches w t.
Proof.
  intros (F & HF & Hr) Hn. destruct (Hn F HF) as (G & HG & Hr2). exists G.
  split; [by auto|]. by etrans.
Qed.

(** What the handler does with the outcome of the steps. *)
Definition settle (ctx : Ctx) (v : Job) (outcome : result kerror unit) : store unit :=
  match outcome with
  | Ok _ => mret tt
  | Err _ =>
    if maxAttempts <=? jv_Attempts v then
      ParkPublicationReferenceJob ctx (jv_ID v) "publication_reference_retry_exhausted"
        (jv_Action v =?= "publish")
    else RetryPublicationReferenceJob ctx (jv_ID v) "publication_reference_unavailable" (jv_Attempts v)
  end.

Lemma handle_run ext ctx v s :
  handlePublicationReferenceJob ext ctx v s =
    let run := if jv_Action v =?= "clear" then clear_steps ext ctx v s else publish_steps ext ctx v s in
    settle ctx v run.2 run.1.
Proof.
  unfold handlePublicationReferenceJob. cbv [mbind tx_bind attempt].
  case_bool_decide; [destruct (clear_steps ext ctx v s)|destruct (publish_steps ext ctx v s)]; done.
Qed.

Lemma handle_reaches ext ctx v w :
  v ∈ flight w → reaches w (handlePublicationReferenceJob ext ctx v (db w)).1.
Proof.
  intros Hv. rewrite handle_run. cbv zeta.
  set (run := if jv_Action v =?= "clear" then _ else _).
  assert (reaches w run.1) as Hbody.
  { unfold run. case_bool_decide; [by apply clear_steps_reaches|by apply publish_steps_reaches]. }
  destruct run as [s [u|e]]; [done|]. cbn [fst snd settle] in *. eapply (reaches_trans _ _ _ Hbody).
  intros F HF. destruct (maxAttempts <=? jv_Attempts v).
  - eapply reaches_step;
      [apply (step_park ctx v (MkWorld s F) "publication_reference_retry_exhausted"); auto|by auto|].
    apply (reaches_refl (MkWorld _ _)).
  - eapply reaches_step;
      [apply (step_retry ctx v (MkWorld s F) "publication_reference_unavailable"); auto|by auto|].
    apply (reaches_refl (MkWorld _ _)).
Qed.

Lemma handle_all_reaches ext ctx vs w :
  (∀ v, v ∈ vs → v ∈ flight w) → reaches w (for_each vs (handlePublicationReferenceJob ext ctx) (db w)).1.
Proof.
  revert w. induction vs as [|v vs IH]; intros w Hin; [apply reaches_refl|].
  cbn [for_each]. cbv [mbind tx_bind].
  assert (reaches w (handlePublicationReferenceJob ext ctx v (db w)).1) as Hh
    by (apply handle_reaches, Hin; left).
  destruct (handlePublicationReferenceJob ext ctx v (db w)) as [s [u|e]]; [|done].
  eapply (reaches_trans _ _ _ Hh). intros F HF. apply (IH (MkWorld s F)).
  intros v' Hv'. apply HF, Hin. by right.
Qed.

(** C13: a pass of the publication worker, whatever the attachment service
    answers and wherever it fails, is a run of the atomic steps of the
    transition system: it claims jobs and then moves only jobs it holds. *)
Theorem worker_pass_refines_steps ext ctx timeout w :
  ∃ F, (∀ v, v ∈ flight w → v ∈ F) ∧
    rtc step w (MkWorld (processPublicationReferences ext ctx timeout (db w)).1 F).
Proof.
  change (reaches w (processPublicationReferences ext ctx timeout (db w)).1).
  unfold processPublicationReferences. cbv [mbind tx_bind].
  destruct (ClaimPublicationReferenceJobs ctx 10 timeout (db w)) as [s [vs|e]] eqn:Hc.
  - eapply reaches_step; [by eapply step_claim|..].
    + intros v Hv. cbn [flight]. apply elem_of_app. by right.
    + apply (handle_all_reaches ext ctx vs (MkWorld s _)). intros v Hv. cbn [flight].
      apply elem_of_app. by left.
  - apply atomic_transaction in Hc as ->. apply reaches_refl.
Qed.

(** ** No job is dropped *)

(** The row of a job is still there, with its identity and parking. *)
Definition row_kept (k : string) (j : JobRow) (s : KDB) : Prop :=
  ∃ j', jobs s !! k = Some j' ∧ j_ID j' = j_ID j ∧ j_ParkedAt j' = j_ParkedAt j ∧
    j_DocumentID j' = j_DocumentID j ∧ j_Generation j' = j_Generation j.

Lemma row_kept_here k j s : jobs s !! k = Some j → row_kept k j s.
Proof. intros Hj. by exists j. Qed.

Lemma row_kept_update k j s P f :
  row_kept k j s →
  (∀ j, j_ID (f j) = j_ID j ∧ j_ParkedAt (f j) = j_ParkedAt j ∧
        j_DocumentID (f j) = j_DocumentID j ∧ j_Generation (f j) = j_Generation j) →
  row_kept k j (set_jobs (update_where P f (jobs s)) s).
Proof.
  intros (j1 & Hj & E1 & E2 & E3 & E4) Hf. destruct (Hf j1) as (F1 & F2 & F3 & F4).
  exists (if P j1 then f j1 else j1). cbn [jobs set_jobs]. rewrite lookup_update_where, Hj.
  split; [done|]. destruct (P j1); split_and!; congruence.
Qed.

Lemma staged_row_kept ctx k j i s s' u :
  MarkPublicationReferencesStaged ctx i s = (s', Ok u) → row_kept k j s → row_kept k j s'.
Proof.
  unfold MarkPublicationReferencesStaged, updatePublicationJob. intros Hr Hj. store_inv.
  match goal with H : update_jobs _ _ _ = _ |- _ => apply update_jobs_run in H as (_ & -> & _) end.
  by apply row_kept_update.
Qed.

Lemma promoted_row_kept ctx k j v s s' u :
  PromotePublication ctx v s = (s', Ok u) → row_kept k j s → row_kept k j s'.
Proof.
  intros [[-> _]|(stored & d & c & tags & content & Hp)]%promote_run Hj; [done|].
  destruct (row_kept_update k j s (λ j0, j_ID j0 =?= j_ID stored)
    (λ j0, j0 |> set_j_State publicationJobPromoted |> set_j_LeaseUntil None
              |> set_j_NextAttemptAt (now ctx) |> set_j_UpdatedAt (now ctx)) Hj) as (j' & Hj' & Hrest);
    [done|]. exists j'. split; [|done]. by rewrite (pm_jobs _ _ _ _ _ _ _ _ _ Hp).
Qed.

(** A run of the steps that fails keeps the row; one that succeeds removes it. *)
Lemma complete_removes ctx k clear j s s' u :
  CompletePublicationReferenceJob ctx k clear s = (s', Ok u) → row_kept k j s → j_ID j = k → jobs s' !! k = None.
Proof.
  intros Hr (j' & Hj' & E & _) Hk. unfold CompletePublicationReferenceJob, delete_jobs in Hr. store_inv.
  cbn [jobs set_jobs]. rewrite lookup_delete_where.
  match goal with |- (jobs ?t !! _) ≫= _ = _ => assert (jobs t = jobs s) as -> end.
  { split_options; [|done]. match goal with H : update_document _ _ _ _ = _ |- _ =>
      apply update_document_run in H as [[-> _]|(? & _ & _ & _ & ->)] end; done. }
  rewrite Hj'. simpl. by rewrite E, bool_decide_true by done.
Qed.

(** The outcome of the steps of a claim for the row of its job. *)
Definition row_after (k : string) (j : JobRow) (run : KDB * result kerror unit) : Prop :=
  match run.2 with Ok _ => jobs run.1 !! k = None | Err _ => row_kept k j run.1 end.

Lemma remote_complete_row ok ctx k clear j s :
  j_ID j = k → row_kept k j s →
  row_after k j ((remote ok ≫= λ _, CompletePublicationReferenceJob ctx k clear) s).
Proof.
  intros Hk Hj. unfold remote, row_after. destruct ok; [|done]. unfold require.
  cbv [mbind tx_bind mret tx_ret].
  destruct (CompletePublicationReferenceJob ctx k clear s) as [s' [u|e]] eqn:E; cbn [fst snd].
  - by eapply complete_removes.
  - by apply complete_atomic in E as ->.
Qed.

Lemma publish_steps_row ext ctx v j s :
  j_ID j = jv_ID v → row_kept (jv_ID v) j s → row_after (jv_ID v) j (publish_steps ext ctx v s).
Proof.
  assert (∀ v s, jv_State v = "promoted" → j_ID j = jv_ID v → row_kept (jv_ID v) j s →
    row_after (jv_ID v) j (publish_steps ext ctx v s)) as Hpromoted.
  { clear v s. intros v s Hst Hk Hj. rewrite publish_steps_promoted by done. by apply remote_complete_row. }
  assert (∀ v s, jv_State v = "staged" → j_ID j = jv_ID v → row_kept (jv_ID v) j s →
    row_after (jv_ID v) j (publish_steps ext ctx v s)) as Hstaged.
  { clear v s. intros v s Hst Hk Hj. rewrite publish_steps_staged by done.
    destruct (PromotePublication ctx v s) as [s' [u|e]] eqn:Hr.
    - apply (Hpromoted (set_jv_State "promoted" v)); [done|done|]. by eapply promoted_row_kept.
    - by apply atomic_transaction in Hr as ->. }
  intros Hk Hj. destruct (decide (jv_State v = "promoted")); [by apply Hpromoted|].
  destruct (decide (jv_State v = "staged")); [by apply Hstaged|].
  destruct (decide (jv_State v = "pending")) as [Hst|]; [|by rewrite publish_steps_unknown].
  rewrite publish_steps_pending by done. destruct (Stage ext v); [|done].
  destruct (MarkPublicationReferencesStaged ctx (jv_ID v) s) as [s' [u|e]] eqn:Hr.
  - apply (Hstaged (set_jv_State "staged" v)); [done|done|]. by eapply staged_row_kept.
  - by apply MarkStaged_atomic in Hr as ->.
Qed.

(** C14: whatever happens while a worker handles a job, the job is
    accounted for: it is completed and gone, or it stays with a next attempt
    scheduled by the back-off, or, after eight attempts, it is parked and the
    document of its generation shows the failure. *)
Theorem handled_job_accounted ext ctx v j s s' u :
  jobs s !! jv_ID v = Some j → j_ID j = jv_ID v → j_ParkedAt j = None →
  handlePublicationReferenceJob ext ctx v s = (s', Ok u) →
  jobs s' !! jv_ID v = None ∨
  (∃ j', jobs s' !! jv_ID v = Some j' ∧ j_ParkedAt j' = None ∧ j_LeaseUntil j' = None ∧
     j_NextAttemptAt j' = now ctx + publicationRetryDelay (jv_Attempts v) ∧ jv_Attempts v < 8) ∨
  (∃ j', jobs s' !! jv_ID v = Some j' ∧ is_Some (j_ParkedAt j') ∧ 8 <= jv_Attempts v ∧
     ∀ d, documents s' !! j_DocumentID j = Some d → d_PublicationGeneration d = j_Generation j →
       d_PublicationStatus d =
         if jv_Action v =?= "publish" then PublicationPublishFailed else PublicationUnpublishFailed).
Proof.
  intros Hj Hk Hp Hr. rewrite handle_run in Hr. cbv zeta in Hr.
  set (run := if jv_Action v =?= "clear" then _ else _) in Hr.
  assert (row_after (jv_ID v) j run) as Hrow.
  { unfold run. case_bool_decide; [unfold clear_steps; apply remote_complete_row|apply publish_steps_row];
      auto using row_kept_here. }
  destruct run as [t [x|e]]; cbn [fst snd settle] in Hr; unfold row_after in Hrow; cbn [fst snd] in Hrow.
  { store_inv. by left. }
  right. destruct Hrow as (j1 & Hj1 & E1 & E2 & E3 & E4). unfold maxAttempts in Hr.
  destruct (8 <=? jv_Attempts v) eqn:Hn; [right|left].
  - unfold ParkPublicationReferenceJob in Hr. store_inv.
    match goal with H : jobs t !! _ = Some ?y |- _ => assert (y = j1) as -> by congruence end.
    match goal with H : update_jobs _ _ _ = _ |- _ => apply update_jobs_run in H as (_ & -> & _) end.
    match goal with H : update_document _ _ _ _ = _ |- _ => apply update_document_run in H as Hu end.
    exists (j1 |> set_j_ParkedAt (Some (now ctx)) |> set_j_LeaseUntil None
               |> set_j_LastErrorKey "publication_reference_retry_exhausted" |> set_j_UpdatedAt (now ctx)).
    assert (jobs s' = jobs (set_jobs (update_where (λ j0, j_ID j0 =?= jv_ID v)
      (λ j0, j0 |> set_j_ParkedAt (Some (now ctx)) |> set_j_LeaseUntil None
                |> set_j_LastErrorKey "publication_reference_retry_exhausted"
                |> set_j_UpdatedAt (now ctx)) (jobs t)) t)) as ->
      by (destruct Hu as [[-> _]|(? & _ & _ & _ & ->)]; done).
    split_and!.
    + cbn [jobs set_jobs]. rewrite lookup_update_where, Hj1. simpl. rewrite bool_decide_true by congruence. done.
    + by eexists.
    + by apply Z.leb_le.
    + intros d Hd Hg. rewrite <-E3 in Hd. destruct Hu as [[-> Hno]|(d1 & Hd1 & Hat & _ & ->)].
      * exfalso. specialize (Hno d Hd). unfold at_generation in Hno. apply Z.eqb_neq in Hno. congruence.
      * cbn [documents set_documents] in Hd. rewrite lookup_insert_eq in Hd. by injection Hd as <-.
  - unfold RetryPublicationReferenceJob in Hr. store_inv.
    match goal with H : update_jobs _ _ _ = _ |- _ => apply update_jobs_run in H as (_ & -> & _) end.
    eexists. split.
    + cbn [jobs set_jobs]. rewrite lookup_update_where, Hj1. simpl.
      unfold live_job. rewrite E1, Hk, E2, Hp, bool_decide_true by done. simpl. reflexivity.
    + simpl. rewrite E2. split_and!; try done. by apply Z.leb_gt.
Qed.

End worker_runs.

(** ** Back-off *)

Lemma clamp_cases n : clamp_attempt n ∈ [1; 2; 3; 4; 5; 6; 7; 8].
Proof.
  unfold clamp_attempt. destruct (n <? 1) eqn:E1; [by do 1 left|]. apply Z.ltb_ge in E1.
  destruct (8 <? n) eqn:E2; [do 7 right; left|]. apply Z.ltb_ge in E2.
  assert (n = 1 ∨ n = 2 ∨ n = 3 ∨ n = 4 ∨ n = 5 ∨ n = 6 ∨ n = 7 ∨ n = 8) as Hn by lia.
  rewrite !elem_of_cons. tauto.
Qed.

Lemma clamp_next n : clamp_attempt (n + 1) = clamp_attempt n ∨ clamp_attempt (n + 1) = clamp_attempt n + 1.
Proof.
  unfold clamp_attempt. destruct (Z.ltb_spec n 1), (Z.ltb_spec (n + 1) 1);
    repeat match goal with |- context [8 <? ?b] => destruct (Z.ltb_spec 8 b) end; lia.
Qed.

(** Both retry schedules are bounded between one second and about two
    minutes for any attempt count, never decrease with it, fit a Go duration,
    and the publication schedule adds less than a second of spread. *)
Theorem retry_delays_bounded n :
  Second <= boundedBackoff n <= 128 * Second ∧
  boundedBackoff n <= publicationRetryDelay n < boundedBackoff n + Second ∧
  boundedBackoff n <= boundedBackoff (n + 1) ∧ publicationRetryDelay n <= publicationRetryDelay (n + 1) ∧
  wrap64 (boundedBackoff n) = boundedBackoff n ∧ wrap64 (publicationRetryDelay n) = publicationRetryDelay n.
Proof.
  unfold boundedBackoff, publicationRetryDelay.
  destruct (clamp_next n) as [-> | ->];
    pose proof (clamp_cases n) as Hc; repeat setoid_rewrite elem_of_cons in Hc;
    destruct Hc as [-> |[-> |[-> |[-> |[-> |[-> |[-> |[-> |Hc]]]]]]]]; try (by apply elem_of_nil in Hc);
    vm_compute; intuition discriminate.
Qed.

(** ** Examples *)

(** Every remote call succeeds, or the attachment service is down. *)
Definition all_up : External := MkExternal (λ _, true) (λ _, true) (λ _, true) (λ _, true) (λ _, true).

Definition attachments_down : External :=
  MkExternal (λ _, false) (λ _, false) (λ _, false) (λ _, true) (λ _, true).

Definition sample_job_row : JobRow := Eval vm_compute in
  match jobs db_claimed !! "id-1" with
  | Some j => j
  | None => MkJobRow EmptyString EmptyString 0 0 EmptyString EmptyString EmptyString 0 0 None None
              EmptyString EmptyString 0 0
  end.

Lemma handled_job_accounted_witness :
  let s' := (handlePublicationReferenceJob attachments_down (at_time 40) sample_job db_claimed).1 in
  jobs s' !! "id-1" = None ∨
  (∃ j', jobs s' !! "id-1" = Some j' ∧ j_ParkedAt j' = None ∧ j_LeaseUntil j' = None ∧
     j_NextAttemptAt j' = 40 + publicationRetryDelay 1 ∧ 1 < 8) ∨
  (∃ j', jobs s' !! "id-1" = Some j' ∧ is_Some (j_ParkedAt j') ∧ 8 <= 1 ∧
     ∀ d, documents s' !! "doc-1" = Some d → d_PublicationGeneration d = 1 →
       d_PublicationStatus d = PublicationPublishFailed).
Proof.
  apply (handled_job_accounted attachments_down (at_time 40) sample_job sample_job_row db_claimed _ tt);
    vm_compute; reflexivity.
Defined.

(** A pass with everything up takes a requested publication to the reader. *)
Example pass_publishes :
  let s := (processPublicationReferences all_up (at_time 30) 60 db_requested).1 in
  jobs s = ∅ ∧ candidates s = ∅ ∧
  match (GetPublishedDocument (at_time 31) "notes" 0 s).2 with
  | Ok (v, _, redirect) => v_Title v = "Notes" ∧ redirect = false
  | Err _ => False
  end.
Proof. vm_compute. repeat split. Qed.

(** Staging works, finalising does not. *)
Definition finalize_down : External :=
  MkExternal (λ _, true) (λ _, false) (λ _, true) (λ _, true) (λ _, true).

(** Passes of the worker, ten minutes apart. *)
Fixpoint passes (ext : External) (n : nat) (t : Z) (s : KDB) : KDB :=
  match n with
  | O => s
  | S n' => passes ext n' (t + 10 * Minute) (processPublicationReferences ext (at_time t) 60 s).1
  end.

(** A publication that went live and is then parked because its references
    cannot be finalised is reported as failed and no longer served, although it
    is still the live publication. *)
Theorem finalize_outage_hides_live_page :
  let live := passes finalize_down 1 30 db_requested in
  let parked := passes finalize_down 8 30 db_requested in
  (∃ answer, GetPublishedDocument (at_time 31) "notes" 0 live = (live, Ok answer)) ∧
  publications parked = publications live ∧ is_Some (publications parked !! "doc-1") ∧
  GetPublishedDocument (at_time 9000000000000) "notes" 0 parked = (parked, Err ErrNotFound).
Proof. vm_compute. split_and!; by eauto. Qed.
