(* ===== verification/KOutboxFacts.v ===== *)
(** Events are not lost: an outbox row that has not been published survives
    every operation of the service with its content, until it is published. *)

From stdpp Require Import base gmap list sets strings relations.
From Stdlib Require Import ZArith Lia.
From S2P Require Import Prelude.
From S2P Require Import GoStrings.
From S2P Require Import KDomain.
From S2P Require Import RichText.
From S2P Require Import Json.
From S2P Require Import KSchema.
From S2P Require Import KTypes.
From S2P Require Import KStore.
From S2P Require Import KDocuments.
From S2P Require Import KHistory.
From S2P Require Import KPublication.
From S2P Require Import KSharing.
From S2P Require Import KOutbox.
From S2P Require Import KCommits.
From S2P Require Import KWorker.
From S2P Require Import KFrames.
From S2P Require Import KSaga.
From S2P Require Import KSagaSteps.
From S2P Require Import KWorld.
From S2P Require Import KSample.

Open Scope Z_scope.

(** The columns a consumer sees of an event. *)
Definition same_event (o p : OutboxRow) : Prop :=
  o_ID p = o_ID o ∧ o_Subject p = o_Subject o ∧ o_Payload p = o_Payload o ∧
  o_TraceHeaders p = o_TraceHeaders o.

(** Every unpublished event of a table is still in another, unpublished. *)
Definition rows_kept (m n : gmap string OutboxRow) : Prop :=
  ∀ k o, m !! k = Some o → o_PublishedAt o = None →
  ∃ p, n !! k = Some p ∧ o_PublishedAt p = None ∧ same_event o p.

#[export] Instance rows_kept_preorder : PreOrder rows_kept.
Proof.
  split.
  - intros s k o Ho Hp. by exists o.
  - intros s t u Hst Htu k o Ho Hp. destruct (Hst k o Ho Hp) as (p & Hk & Hp' & E1 & E2 & E3 & E4).
    destruct (Htu k p Hk Hp') as (q & Hq & Hq' & F1 & F2 & F3 & F4). exists q.
    split_and!; [done|done|]. split_and!; congruence.
Qed.

Definition events_kept (s t : KDB) : Prop := rows_kept (outbox s) (outbox t).

#[export] Instance events_kept_preorder : PreOrder events_kept.
Proof.
  split; [intros s|intros s t u]; unfold events_kept; [done|]. apply transitivity.
Qed.

Lemma events_update s P f :
  (∀ o, same_event o (f o) ∧ o_PublishedAt (f o) = o_PublishedAt o) →
  events_kept s (set_outbox (update_where P f (outbox s)) s).
Proof.
  intros Hf k o Ho Hp. exists (if P o then f o else o). cbn [outbox set_outbox].
  rewrite lookup_update_where, Ho. destruct (Hf o) as [He Hpub]. split; [done|].
  destruct (P o); split; try done. congruence.
Qed.

Section events.
Context `{Unicode, Uuid, Url, Codec, Pg}.

(** Close [events_kept s t] from the steps between them. *)
Ltac chain :=
  unfold events_kept in *; simpl in *;
  repeat first
    [ reflexivity
    | match goal with
      | H : rows_kept ?s ?x |- rows_kept ?s ?t => transitivity x; [exact H|clear H]
      | H : rows_kept ?x ?t |- rows_kept ?s ?t => transitivity x; [clear H|exact H]
      end ].

Ltac base := repeat (case_match; store_inv); chain.

Lemma NewID_events s s' i : NewID s = (s', Ok i) → events_kept s s'.
Proof. intros (rest & _ & ->)%NewID_run. chain. Qed.

Lemma notify_events p s s' u : notifyWorkers p s = (s', Ok u) → events_kept s s'.
Proof. unfold notifyWorkers. intros Hr. base. Qed.

Lemma idempotentResource_events ctx v s s' r : idempotentResource ctx v s = (s', Ok r) → events_kept s s'.
Proof. unfold idempotentResource. intros Hr. base. Qed.

Lemma saveIdempotency_events ctx v i s s' u : saveIdempotency ctx v i s = (s', Ok u) → events_kept s s'.
Proof. unfold saveIdempotency, insert_idempotency. intros Hr. base. Qed.

Lemma update_document_events i P f s s' u : update_document i P f s = (s', Ok u) → events_kept s s'.
Proof. intros [[-> _]|(d & _ & _ & _ & ->)]%update_document_run; chain. Qed.

Lemma update_jobs_events P f s s' n : update_jobs P f s = (s', Ok n) → events_kept s s'.
Proof. intros (_ & -> & _)%update_jobs_run. chain. Qed.

Lemma insert_alias_events a s s' u : insert_alias a s = (s', Ok u) → events_kept s s'.
Proof. unfold insert_alias. intros Hr. store_inv. chain. Qed.

Lemma update_aliases_events P f s s' u : update_aliases P f s = (s', Ok u) → events_kept s s'.
Proof. unfold update_aliases. intros Hr. store_inv. chain. Qed.

Lemma insert_history_events h s s' u : insert_history h s = (s', Ok u) → events_kept s s'.
Proof. unfold insert_history. intros Hr. store_inv. chain. Qed.

(** Facts about the bookkeeping steps of a run. *)
Ltac event_facts :=
  repeat match goal with
  | H : NewID _ = (_, Ok _) |- _ => apply NewID_events in H
  | H : notifyWorkers _ _ = (_, Ok _) |- _ => apply notify_events in H
  | H : idempotentResource _ _ _ = (_, Ok _) |- _ => apply idempotentResource_events in H
  | H : saveIdempotency _ _ _ _ = (_, Ok _) |- _ => apply saveIdempotency_events in H
  | H : update_document _ _ _ _ = (_, Ok _) |- _ => apply update_document_events in H
  | H : update_jobs _ _ _ = (_, Ok _) |- _ => apply update_jobs_events in H
  | H : insert_alias _ _ = (_, Ok _) |- _ => apply insert_alias_events in H
  | H : update_aliases _ _ _ = (_, Ok _) |- _ => apply update_aliases_events in H
  | H : insert_history _ _ = (_, Ok _) |- _ => apply insert_history_events in H
  | H : semantic_hash _ _ _ _ = _ |- _ => apply semantic_hash_run in H; subst
  | H : latestBlockDiff _ _ _ = _ |- _ => apply latestBlockDiff_run in H; subst
  | H : commitFromModel _ _ = _ |- _ => apply commitFromModel_run in H; subst
  | H : contentHash _ _ _ = _ |- _ => apply contentHash_run in H; subst
  | H : getDocument _ _ _ _ = (_, Ok _) |- _ => apply getDocument_same in H; subst
  end.

Lemma attach_tag_events ctx owner i name s s' u : attach_tag ctx owner i name s = (s', Ok u) → events_kept s s'.
Proof.
  unfold attach_tag, insert_document_tag, insert_tag. intros Hr. store_inv. split_options; event_facts; chain.
Qed.

Lemma replaceDocumentTags_events ctx owner i names s s' u :
  replaceDocumentTags ctx owner i names s = (s', Ok u) → events_kept s s'.
Proof.
  unfold replaceDocumentTags. intros Hr. store_inv.
  eapply (for_each_keeps (events_kept s)) in Hr; [exact Hr| |chain].
  intros name s1 s2 v _ Hs ?%attach_tag_events. by etrans.
Qed.

Lemma enqueuePermissionChanged_events ctx d s s' u :
  enqueuePermissionChanged ctx d s = (s', Ok u) → events_kept s s'.
Proof.
  unfold enqueuePermissionChanged, insert_outbox. intros Hr. store_inv. event_facts.
  match goal with H : events_kept s ?x |- _ => transitivity x; [exact H|clear H] end.
  match goal with H : events_kept ?x s' |- _ => transitivity x; [|exact H] end.
  intros k o Ho Hp. exists o. cbn [outbox set_outbox]. split_and!; try done.
  rewrite lookup_insert_ne; [done|]. intros <-.
  match goal with H : is_none _ = true |- _ => apply is_none_true in H end. simpl in *. congruence.
Qed.

Lemma reserve_slug_events ctx i slug s s' u : reserve_slug ctx i slug s = (s', Ok u) → events_kept s s'.
Proof. unfold reserve_slug. intros Hr. store_inv. split_options; event_facts; chain. Qed.

Lemma activate_slug_events ctx i slug s s' u : activate_slug ctx i slug s = (s', Ok u) → events_kept s s'.
Proof. unfold activate_slug. intros Hr. store_inv. split_options; event_facts; chain. Qed.

Lemma place_document_events ctx owner i f s s' u :
  place_document ctx owner i f s = (s', Ok u) → events_kept s s'.
Proof.
  unfold place_document. intros Hr. case_match; store_inv; [chain|].
  case_match; unfold update_placements, insert_placement in *; store_inv; chain.
Qed.

Lemma enqueueJob_events ctx d g action ids s s' u :
  enqueuePublicationReferenceJob ctx d g action ids s = (s', Ok u) → events_kept s s'.
Proof.
  unfold enqueuePublicationReferenceJob, insert_job. intros Hr. store_inv. event_facts. chain.
Qed.

Lemma createHistoryAnchor_events ctx d p kind metadata s s' u :
  createHistoryAnchor ctx d p kind metadata s = (s', Ok u) → events_kept s s'.
Proof. unfold createHistoryAnchor. intros Hr. store_inv. event_facts. split_options; event_facts; chain. Qed.

Lemma advancePermissionRevision_events ctx d s s' u :
  advancePermissionRevision ctx d s = (s', Ok u) → events_kept s s'.
Proof.
  unfold advancePermissionRevision. intros Hr. store_inv. event_facts.
  etrans; [eassumption|]. by eapply enqueuePermissionChanged_events.
Qed.

Ltac more_facts :=
  repeat (event_facts; match goal with
  | H : replaceDocumentTags _ _ _ _ _ = (_, Ok _) |- _ => apply replaceDocumentTags_events in H
  | H : enqueuePermissionChanged _ _ _ = (_, Ok _) |- _ => apply enqueuePermissionChanged_events in H
  | H : reserve_slug _ _ _ _ = (_, Ok _) |- _ => apply reserve_slug_events in H
  | H : activate_slug _ _ _ _ = (_, Ok _) |- _ => apply activate_slug_events in H
  | H : place_document _ _ _ _ _ = (_, Ok _) |- _ => apply place_document_events in H
  | H : enqueuePublicationReferenceJob _ _ _ _ _ _ = (_, Ok _) |- _ => apply enqueueJob_events in H
  | H : createHistoryAnchor _ _ _ _ _ _ = (_, Ok _) |- _ => apply createHistoryAnchor_events in H
  | H : advancePermissionRevision _ _ _ = (_, Ok _) |- _ => apply advancePermissionRevision_events in H
  end); event_facts.

(** The statements on tables other than the outbox, inlined. *)
Ltac statements :=
  unfold insert_document, delete_document, insert_projection, update_projection, insert_member,
    update_member, insert_folder, update_folders, delete_folder, update_placements, insert_placement,
    save_candidate, delete_candidate, delete_publication, delete_jobs, insert_commit, upsert_activity,
    markHistoryDirty, delete_activity, reply, depth_error, move_target in *;
  store_inv.

Ltac operation := store_inv; split_options; statements; split_options; more_facts; statements; chain.

Lemma CreateDocument_events ctx v k s s' w : CreateDocument ctx v k s = (s', Ok w) → events_kept s s'.
Proof. unfold CreateDocument. intros Hr. operation. Qed.

Lemma UpdateDocument_events ctx i actor expected ch s s' v :
  UpdateDocument ctx i actor expected ch s = (s', Ok v) → events_kept s s'.
Proof. unfold UpdateDocument. intros Hr. operation. Qed.

Lemma SoftDeleteDocument_events ctx i actor expected s s' v :
  SoftDeleteDocument ctx i actor expected s = (s', Ok v) → events_kept s s'.
Proof. unfold SoftDeleteDocument. intros Hr. operation. Qed.

Lemma RestoreDeletedDocument_events ctx i actor s s' v :
  RestoreDeletedDocument ctx i actor s = (s', Ok v) → events_kept s s'.
Proof. unfold RestoreDeletedDocument. intros Hr. operation. Qed.

Lemma PurgeDeletedDocument_events ctx i actor expected k s s' u :
  PurgeDeletedDocument ctx i actor expected k s = (s', Ok u) → events_kept s s'.
Proof. unfold PurgeDeletedDocument. intros Hr. operation. Qed.

Lemma PublishSnapshot_events ctx i actor expected input s s' v :
  PublishSnapshot ctx i actor expected input s = (s', Ok v) → events_kept s s'.
Proof. unfold PublishSnapshot. intros Hr. operation. Qed.

Lemma SetPublication_events ctx i actor expected p k s s' v :
  SetPublication ctx i actor expected p k s = (s', Ok v) → events_kept s s'.
Proof. unfold SetPublication. intros Hr. destruct p; operation. Qed.

Lemma AddMember_events ctx i actor user role k s s' v :
  AddMember ctx i actor user role k s = (s', Ok v) → events_kept s s'.
Proof. unfold AddMember. intros Hr. operation. Qed.

Lemma UpdateMember_events ctx i actor user expected role s s' v :
  UpdateMember ctx i actor user expected role s = (s', Ok v) → events_kept s s'.
Proof. unfold UpdateMember. intros Hr. operation. Qed.

Lemma DeleteMember_events ctx i actor user expected s s' v :
  DeleteMember ctx i actor user expected s = (s', Ok v) → events_kept s s'.
Proof. unfold DeleteMember. intros Hr. operation. Qed.

Lemma UpsertProjection_events p s s' u : UpsertProjection p s = (s', Ok u) → events_kept s s'.
Proof. unfold UpsertProjection. intros Hr. operation. Qed.

Lemma CreateFolder_events ctx owner name parent k s s' v :
  CreateFolder ctx owner name parent k s = (s', Ok v) → events_kept s s'.
Proof. unfold CreateFolder. intros Hr. operation. Qed.

Lemma UpdateFolder_events ctx owner i expected name parent s s' v :
  UpdateFolder ctx owner i expected name parent s = (s', Ok v) → events_kept s s'.
Proof. unfold UpdateFolder. intros Hr. operation. Qed.

Lemma DeleteFolder_events ctx owner i expected s s' u :
  DeleteFolder ctx owner i expected s = (s', Ok u) → events_kept s s'.
Proof. unfold DeleteFolder. intros Hr. operation. Qed.

Lemma CreateCommit_events ctx i actor input s s' v :
  CreateCommit ctx i actor input s = (s', Ok v) → events_kept s s'.
Proof. unfold CreateCommit. intros Hr. operation. Qed.

Lemma RenameCommit_events ctx i actor label desc s s' v :
  RenameCommit ctx i actor label desc s = (s', Ok v) → events_kept s s'.
Proof. unfold RenameCommit. intros Hr. operation. Qed.

Lemma RestoreCommit_events ctx i actor k s s' v :
  RestoreCommit ctx i actor k s = (s', Ok v) → events_kept s s'.
Proof. unfold RestoreCommit. intros Hr. operation. Qed.

Lemma CreateDueHistoryCheckpoint_events ctx s s' r :
  CreateDueHistoryCheckpoint ctx s = (s', Ok r) → events_kept s s'.
Proof. unfold CreateDueHistoryCheckpoint. intros Hr. operation. Qed.

Lemma PruneHistory_events ctx s s' u : PruneHistory ctx s = (s', Ok u) → events_kept s s'.
Proof. unfold PruneHistory. intros Hr. operation. Qed.

Lemma PurgeDocument_events ctx i s s' u : PurgeDocument ctx i s = (s', Ok u) → events_kept s s'.
Proof. unfold PurgeDocument. intros Hr. operation. Qed.

Lemma RedriveClear_events ctx i s s' u :
  RedrivePublicationReferenceClear ctx i s = (s', Ok u) → events_kept s s'.
Proof. unfold RedrivePublicationReferenceClear. intros Hr. operation. Qed.

(** Maintenance deletes published events only. *)
Lemma PurgeMaintenanceData_events ctx s s' u : PurgeMaintenanceData ctx s = (s', Ok u) → events_kept s s'.
Proof.
  unfold PurgeMaintenanceData. intros Hr. store_inv. intros k o Ho Hp. exists o.
  cbn [outbox set_outbox set_idempotency_keys]. split_and!; try done.
  apply lookup_delete_where_Some. split; [done|]. by rewrite Hp.
Qed.

Lemma update_outbox_run P f s s' n :
  update_outbox P f s = (s', Ok n) →
  n = count_where P (outbox s) ∧ s' = set_outbox (update_where P f (outbox s)) s.
Proof. unfold update_outbox. intros Hr. store_inv. done. Qed.

Lemma ClaimOutbox_events ctx limit lease s s' v :
  ClaimOutbox ctx limit lease s = (s', Ok v) → events_kept s s'.
Proof.
  unfold ClaimOutbox. intros Hr. store_inv.
  eapply (collect_keeps (events_kept s)) in Hr; [exact Hr| |done].
  intros o s1 s2 w _ Hs Hrun. etrans; [exact Hs|]. unfold claim_outbox in Hrun. store_inv.
  match goal with H : update_outbox _ _ _ = _ |- _ => apply update_outbox_run in H as [_ ->] end.
  by apply events_update.
Qed.

Lemma update_outbox_err P f s s' e : update_outbox P f s = (s', Err e) → s' = s.
Proof.
  unfold update_outbox. intros Hr.
  apply bind_run_err in Hr as [Hr|(s1 & db & Hg & Hr)]; [done|]. run_inv.
  apply bind_run_err in Hr as [Hr|(s1 & u & Hg & Hr)]; run_inv; [done|].
  apply bind_run_err in Hr as [Hr|(s1 & w & Hg' & Hr)]; [done|]. run_inv.
Qed.

(** The state after [outbox_update], whether it reached a row or not. *)
Lemma outbox_update_state op P f s :
  (outbox_update op P f s).1 = s ∨ (outbox_update op P f s).1 = set_outbox (update_where P f (outbox s)) s.
Proof.
  unfold outbox_update, sql, wrap. cbv [mbind tx_bind].
  destruct (update_outbox P f s) as [s1 [n|e]] eqn:Hr.
  - apply update_outbox_run in Hr as [_ ->]. right. unfold require. by case_match.
  - left. by apply update_outbox_err in Hr.
Qed.

Lemma outbox_update_events op P f s :
  (∀ o, same_event o (f o) ∧ o_PublishedAt (f o) = o_PublishedAt o) →
  events_kept s (outbox_update op P f s).1.
Proof.
  intros Hf. destruct (outbox_update_state op P f s) as [-> | ->]; [done|by apply events_update].
Qed.

Lemma atomic_events {A} (op : store A) s :
  atomic op → (∀ s' a, op s = (s', Ok a) → events_kept s s') → events_kept s (op s).1.
Proof.
  intros Ha Hc. destruct (op s) as [s' [a|e]] eqn:Hr; simpl; [by eapply Hc|]. by apply Ha in Hr as ->.
Qed.

(** C12: no event is lost: whatever the service does, an unpublished event
    stays in the outbox with its subject, payload and headers, and the only
    request after which it is no longer unpublished is the one that marks it
    published. *)
Theorem events_are_kept r s k o :
  outbox s !! k = Some o → o_PublishedAt o = None →
  ∃ p, outbox (run_request r s) !! k = Some p ∧ same_event o p ∧
    (o_PublishedAt p = None ∨ ∃ ctx, r = ReqMarkOutboxPublished ctx (o_ID o)).
Proof.
  intros Ho Hp.
  assert (events_kept s (run_request r s) → ∃ p, outbox (run_request r s) !! k = Some p ∧
    same_event o p ∧ (o_PublishedAt p = None ∨ ∃ ctx, r = ReqMarkOutboxPublished ctx (o_ID o))) as Hk.
  { intros He. destruct (He k o Ho Hp) as (p & ? & ? & ?). eauto 6. }
  destruct r; try (apply Hk; cbn [run_request]; apply atomic_events;
    [first [apply NewID_atomic|apply atomic_transaction|apply PublishSnapshot_atomic|apply SetPublication_atomic]
    |eauto using CreateDocument_events, UpdateDocument_events, SoftDeleteDocument_events,
       RestoreDeletedDocument_events, PurgeDeletedDocument_events, PublishSnapshot_events,
       SetPublication_events, AddMember_events, UpdateMember_events, DeleteMember_events,
       UpsertProjection_events, CreateFolder_events, UpdateFolder_events, DeleteFolder_events,
       CreateCommit_events, RenameCommit_events, RestoreCommit_events,
       CreateDueHistoryCheckpoint_events, PruneHistory_events, PurgeDocument_events,
       PurgeMaintenanceData_events, RedriveClear_events, ClaimOutbox_events, NewID_events]; fail).
  - cbn [run_request]. destruct (outbox_update_state "mark outbox message published" (unpublished i)
      (set_o_PublishedAt (Some (now ctx))) s) as [E|E];
      unfold MarkOutboxPublished; rewrite E; [by exists o; split_and!; auto|].
    exists (if unpublished i o then set_o_PublishedAt (Some (now ctx)) o else o).
    cbn [outbox set_outbox]. rewrite lookup_update_where, Ho. split; [done|].
    destruct (unpublished i o) eqn:Hu; [|by split_and!; auto]. split; [done|]. right. exists ctx.
    apply andb_prop in Hu as [Hu _]. apply bool_decide_eq_true in Hu. by rewrite Hu.
  - apply Hk. by apply outbox_update_events.
  - apply Hk. by apply outbox_update_events.
Qed.

(** ** Delivery *)

(** The row of a message after an update that reaches it. *)
Lemma outbox_update_row op P f s s' u k o :
  outbox_update op P f s = (s', Ok u) → outbox s !! k = Some o → P o = true → outbox s' !! k = Some (f o).
Proof.
  unfold outbox_update. intros Hr Ho HP. store_inv.
  match goal with H : update_outbox _ _ _ = _ |- _ => apply update_outbox_run in H as [_ ->] end.
  cbn [outbox set_outbox]. rewrite lookup_update_where, Ho. simpl. by rewrite HP.
Qed.

(** A claimed event is marked published when the broker took it; when
    it did not, the event is parked once eight attempts are used up and
    otherwise scheduled again after the back-off, still unpublished. *)
Theorem deliver_spec ext ctx m s s' u o :
  outbox s !! ov_ID m = Some o → o_ID o = ov_ID m → o_PublishedAt o = None → o_ParkedAt o = None →
  deliver ext ctx m s = (s', Ok u) →
  ∃ p, outbox s' !! ov_ID m = Some p ∧ same_event o p ∧
    if Publish ext m then o_PublishedAt p = Some (now ctx)
    else o_PublishedAt p = None ∧
      if 8 <=? ov_Attempts m then o_ParkedAt p = Some (now ctx)
      else o_ParkedAt p = None ∧ o_NextAttemptAt p = now ctx + boundedBackoff (ov_Attempts m).
Proof.
  intros Ho Hid Hpub Hpark Hr. unfold deliver, maxAttempts in Hr.
  assert (unpublished (ov_ID m) o = true) as Hu
    by (unfold unpublished; rewrite bool_decide_true by done; by rewrite Hpub).
  assert (retriable (ov_ID m) o = true) as Hret by (unfold retriable; rewrite Hu, Hpark; done).
  destruct (Publish ext m); [|destruct (8 <=? ov_Attempts m)].
  - eapply outbox_update_row in Hr; [|done|done]. eexists. by split_and!.
  - eapply outbox_update_row in Hr; [|done|done]. eexists. by split_and!.
  - eapply outbox_update_row in Hr; [|done|done]. eexists. by split_and!.
Qed.

(** ** Announcing permission changes *)

(** The member operations and the trash announce the new permission revision of
    the document in the same transaction: one fresh, unpublished event with the
    revision the row now has, and a hint to the workers. *)
Definition announced (i : string) (s t : KDB) : Prop :=
  ∃ d k o text, documents t !! i = Some d ∧ outbox s !! k = None ∧ outbox t = <[k := o]> (outbox s) ∧
    o_ID o = k ∧ o_Subject o = permissionChangedSubject ∧ o_PublishedAt o = None ∧ o_ParkedAt o = None ∧
    json_encode (permission_event d) = Some text ∧ jsonb text = Some (o_Payload o) ∧
    notifications t = notifications s ++ [WorkerWakePayloadOutbox].

Lemma enqueuePermissionChanged_run ctx d s s' u :
  enqueuePermissionChanged ctx d s = (s', Ok u) →
  documents s' = documents s ∧
  ∃ k o text, outbox s !! k = None ∧ outbox s' = <[k := o]> (outbox s) ∧
    o_ID o = k ∧ o_Subject o = permissionChangedSubject ∧ o_PublishedAt o = None ∧ o_ParkedAt o = None ∧
    json_encode (permission_event d) = Some text ∧ jsonb text = Some (o_Payload o) ∧
    notifications s' = notifications s ++ [WorkerWakePayloadOutbox].
Proof.
  unfold enqueuePermissionChanged, insert_outbox, notifyWorkers. intros Hr. store_inv.
  match goal with H : NewID _ = _ |- _ => apply NewID_run in H as (rest & _ & ->) end.
  simpl in *. store_inv. simpl.
  match goal with H : is_none _ = true |- _ => apply is_none_true in H end.
  split; [done|]. eexists _, _, _. split_and!; done.
Qed.

Lemma permission_event_eq d e :
  d_ID d = d_ID e → d_PermissionRevision d = d_PermissionRevision e → d_DeletedAt d = d_DeletedAt e →
  permission_event d = permission_event e.
Proof. unfold permission_event. by intros -> -> ->. Qed.

Lemma advancePermissionRevision_run ctx i d s s' u :
  documents s !! i = Some d → d_ID d = i → advancePermissionRevision ctx d s = (s', Ok u) →
  documents s' = <[i := d |> bump_permission |> set_d_UpdatedAt (now ctx)]> (documents s) ∧ announced i s s'.
Proof.
  intros Hd Hi Hr. unfold advancePermissionRevision in Hr. store_inv.
  match goal with H : update_document _ _ _ _ = _ |- _ =>
    apply update_document_run in H as [[-> Hno]|(e & He & _ & _ & ->)] end.
  { exfalso. by specialize (Hno d Hd). }
  assert (e = d) as -> by congruence.
  apply enqueuePermissionChanged_run in Hr as [E (k & o & text & Hrest)]. simpl in *.
  split; [done|]. eexists _, k, o, text. rewrite E, lookup_insert_eq. split; [done|]. naive_solver.
Qed.

(** The requests that change who may do what on a document. *)
Definition permission_request (r : request) : option string :=
  match r with
  | ReqAddMember _ i _ _ _ _ | ReqUpdateMember _ i _ _ _ _ | ReqDeleteMember _ i _ _ _ => Some i
  | _ => None
  end.

Lemma announced_through i s s1 t1 t :
  outbox s1 = outbox s → notifications s1 = notifications s →
  documents t = documents t1 → outbox t = outbox t1 → notifications t = notifications t1 →
  announced i s1 t1 → announced i s t.
Proof. unfold announced. by intros -> -> -> -> ->. Qed.

Lemma saveIdempotency_state ctx v i s s' u :
  saveIdempotency ctx v i s = (s', Ok u) →
  documents s' = documents s ∧ outbox s' = outbox s ∧ notifications s' = notifications s.
Proof. unfold saveIdempotency, insert_idempotency. intros Hr. case_match; store_inv; done. Qed.

Lemma idempotentResource_state ctx v s s' :
  idempotentResource ctx v s = (s', Ok None) →
  documents s' = documents s ∧ outbox s' = outbox s ∧ notifications s' = notifications s.
Proof.
  intros [_ Hn]%idempotentResource_run. by destruct (Hn eq_refl) as [[_ ->]|[->|[-> _]]].
Qed.

(** Every request that changes the members of a document raises its
    permission revision by one and, in the same transaction, queues exactly one
    event that carries the new revision. *)
Theorem member_changes_are_announced w r i d :
  reachable w → permission_request r = Some i → documents (db w) !! i = Some d →
  members (run_request r (db w)) ≠ members (db w) →
  announced i (db w) (run_request r (db w)) ∧
  ∃ d', documents (run_request r (db w)) !! i = Some d' ∧
    d_PermissionRevision d' = d_PermissionRevision d + 1.
Proof.
  intros Hw Hreq Hd Hne. destruct (reachable_ok w Hw) as [Hok _].
  assert (d_ID d = i) as Hi by by apply (ok_document_keys _ Hok).
  assert (∀ s1 t1 u t ctx, documents s1 = documents (db w) → outbox s1 = outbox (db w) →
    notifications s1 = notifications (db w) → advancePermissionRevision ctx d s1 = (t1, Ok u) →
    documents t = documents t1 → outbox t = outbox t1 → notifications t = notifications t1 →
    announced i (db w) t ∧ ∃ d', documents t !! i = Some d' ∧
      d_PermissionRevision d' = d_PermissionRevision d + 1) as Hadv.
  { intros s1 t1 u t ctx Ed Eo En Hr Fd Fo Fn.
    apply (advancePermissionRevision_run ctx i) in Hr as [Hdocs Ha]; [|congruence|done].
    split; [by eapply announced_through|]. rewrite Fd, Hdocs, lookup_insert_eq. by eexists. }
  clear Hi Hok. destruct r; cbn [permission_request] in Hreq; try done; injection Hreq as ->;
    cbn [run_request] in *.
  - destruct (AddMember _ _ _ _ _ _ (db w)) as [t [v|e]] eqn:Hr; cbn [fst] in *;
      [|by apply atomic_transaction in Hr as ->].
    unfold AddMember, insert_member in Hr. store_inv. split_options.
    { match goal with H : idempotentResource _ _ _ = _ |- _ => apply replay_same in H; by subst end. }
    match goal with H : idempotentResource _ _ _ = _ |- _ =>
      apply idempotentResource_state in H as (E1 & E2 & E3) end.
    match goal with H : saveIdempotency _ _ _ _ = _ |- _ =>
      apply saveIdempotency_state in H as (F1 & F2 & F3) end.
    match goal with H : documents (db w) !! i = Some ?e |- _ =>
      assert (e = d) as -> by congruence end.
    by eapply Hadv; [..|eassumption|exact F1|exact F2|exact F3].
  - destruct (UpdateMember _ _ _ _ _ _ (db w)) as [t [v|e]] eqn:Hr; cbn [fst] in *;
      [|by apply atomic_transaction in Hr as ->].
    unfold UpdateMember, update_member in Hr. store_inv.
    match goal with H : documents (db w) !! i = Some ?e |- _ =>
      assert (e = d) as -> by congruence end.
    split_options; by eapply Hadv; [..|eassumption|reflexivity|reflexivity|reflexivity].
  - destruct (DeleteMember _ _ _ _ _ (db w)) as [t [v|e]] eqn:Hr; cbn [fst] in *;
      [|by apply atomic_transaction in Hr as ->].
    unfold DeleteMember in Hr. store_inv. split_options.
    match goal with H : documents (db w) !! i = Some ?e |- _ =>
      assert (e = d) as -> by congruence end.
    by eapply Hadv; [..|eassumption|reflexivity|reflexivity|reflexivity].
Qed.

End events.

(** ** Examples *)

Definition sample_user : PublicUser := MkPublicUser 9 "grace" EmptyString.

Definition sample_add : request := ReqAddMember (at_time 12) "doc-1" 7 sample_user AccessEditor (no_key 7).

(** The database after a member was added: one event is queued. *)
Definition db_member : KDB := Eval vm_compute in run_request sample_add db_created.

Definition sample_event : OutboxRow := Eval vm_compute in
  match outbox db_member !! "id-1" with
  | Some o => o
  | None => MkOutboxRow EmptyString EmptyString EmptyString EmptyString 0 0 EmptyString None None 0
  end.

Lemma events_are_kept_witness :
  ∃ p, outbox (run_request (ReqPurgeMaintenance (at_time 99)) db_member) !! "id-1" = Some p ∧
    same_event sample_event p ∧
    (o_PublishedAt p = None ∨ ∃ ctx, ReqPurgeMaintenance (at_time 99) = ReqMarkOutboxPublished ctx "id-1").
Proof.
  apply (events_are_kept (ReqPurgeMaintenance (at_time 99)) db_member "id-1" sample_event);
    vm_compute; reflexivity.
Defined.

(** A broker that refuses everything. *)
Definition broker_down : External :=
  MkExternal (λ _, true) (λ _, true) (λ _, true) (λ _, false) (λ _, true).

Definition sample_message : OutboxMessage :=
  MkOutboxMessage "id-1" permissionChangedSubject empty_array [] 3.

Lemma deliver_spec_witness :
  ∃ p, outbox (deliver broker_down (at_time 20) sample_message db_member).1 !! "id-1" = Some p ∧
    same_event sample_event p ∧ o_PublishedAt p = None ∧ o_ParkedAt p = None ∧
    o_NextAttemptAt p = 20 + 4 * Second.
Proof.
  apply (deliver_spec broker_down (at_time 20) sample_message db_member _ tt sample_event);
    vm_compute; reflexivity.
Defined.

Lemma member_changes_are_announced_witness :
  announced "doc-1" db_created (run_request sample_add db_created) ∧
  ∃ d', documents (run_request sample_add db_created) !! "doc-1" = Some d' ∧ d_PermissionRevision d' = 1 + 1.
Proof.
  apply (member_changes_are_announced (MkWorld db_created []) sample_add "doc-1" (document_defaults (documentToModel sample_document))).
  - apply created_reachable.
  - reflexivity.
  - vm_compute. reflexivity.
  - intros E. apply (f_equal (λ m, is_some (m !! ("doc-1", 9)))) in E. vm_compute in E. discriminate.
Defined.
