(* ===== verification/KHistoryFacts.v ===== *)
(** What pruning the automatic history keeps and drops, who may read it, and
    that no newer projection of a document is ever stored. *)

From stdpp Require Import base gmap list sets strings sorting.
From Stdlib Require Import ZArith Lia.
From S2P Require Import Prelude.
From S2P Require Import GoStrings.
From S2P Require Import KDomain.
From S2P Require Import RichText.
From S2P Require Import Json.
From S2P Require Import KSchema.
From S2P Require Import KTypes.
From S2P Require Import KStore.
From S2P Require Import KDocuments.
From S2P Require Import KHistory.
From S2P Require Import KSharing.
From S2P Require Import KFrames.
From S2P Require Import KWorld.
From S2P Require Import KSample.

Open Scope Z_scope.

(** ** Newest first *)

#[export] Instance history_order_ordered : Ordered history_order.
Proof. apply _. Qed.

Lemma history_order_eq g h : history_order g h = Eq → h_ID g = h_ID h.
Proof.
  unfold history_order, then_by, descending, by_key.
  destruct (h_CreatedAt g ?= h_CreatedAt h); simpl; try done.
  destruct (String.compare (h_ID g) (h_ID h)) eqn:E; simpl; try done. by apply String.compare_eq_iff in E.
Qed.

(** A nonempty list has an oldest element. *)
Lemma oldest {A} (c : A → A → comparison) `{!Ordered c} (l : list A) :
  l ≠ [] → ∃ x, x ∈ l ∧ ∀ y, y ∈ l → cmp_le c y x.
Proof.
  induction l as [|a l IH]; [done|]. intros _. destruct l as [|b l].
  - exists a. split; [left|]. intros y ->%list_elem_of_singleton. unfold cmp_le. by rewrite ordered_refl.
  - destruct IH as (x & Hx & Hall); [done|]. destruct (total (cmp_le c) a x) as [Hax|Hxa].
    + exists x. split; [by right|]. intros y [->|Hy]%elem_of_cons; auto.
    + exists a. split; [left|]. intros y [->|Hy]%elem_of_cons; [unfold cmp_le; by rewrite ordered_refl|].
      etrans; [by apply Hall|done].
Qed.

Definition checkpoint_of (documentID : string) (h : HistoryRow) : bool :=
  negb (h_IsAnchor h) && (h_DocumentID h =?= documentID).

Section history_facts.
Context `{Unicode, Uuid, Codec, Pg}.

(** The rank of the oldest of [n] checkpoints of a document is at least [n]. *)
Lemma rank_bound (m n : gmap string HistoryRow) documentID :
  (∀ k h, m !! k = Some h → h_ID h = k) → n ⊆ m →
  (∀ k h, n !! k = Some h → checkpoint_of documentID h = true → history_rank m h <= 500) →
  count_where (checkpoint_of documentID) n <= 500.
Proof.
  intros Hkey Hsub Hrank. unfold count_where.
  destruct (decide (rows_where (checkpoint_of documentID) n = [])) as [->|Hne]; [simpl; lia|].
  destruct (oldest history_order _ Hne) as (x & Hx & Hall).
  apply elem_of_rows_where in Hx as [Px [k Hk]].
  specialize (Hrank k x Hk Px). unfold history_rank, count_where in Hrank.
  apply andb_prop in Px as [Ax Dx]. apply bool_decide_eq_true in Dx.
  set (newer := rows_where _ m) in Hrank.
  assert (filter (λ h, h_ID h ≠ h_ID x) (rows_where (checkpoint_of documentID) n) ⊆+ newer) as Hsubm.
  { apply NoDup_submseteq.
    - apply NoDup_filter, (rows_where_NoDup h_ID). intros k' v Hv. apply Hkey. by eapply lookup_weaken.
    - intros h [Hid Hin]%list_elem_of_filter. pose proof (Hall h Hin) as Hle.
      apply elem_of_rows_where in Hin as [Ph [k' Hk']]. apply andb_prop in Ph as [Ah Dh].
      apply bool_decide_eq_true in Dh. apply elem_of_rows_where. split; [|by eauto using lookup_weaken].
      rewrite Ah, Dh, Dx. rewrite bool_decide_true by done. simpl.
      destruct (history_order h x) eqn:E; [|done|done]. by apply history_order_eq in E. }
  apply submseteq_length in Hsubm.
  assert (rows_where (checkpoint_of documentID) n ≡ₚ
          x :: filter (λ h, h_ID h ≠ h_ID x) (rows_where (checkpoint_of documentID) n)) as Hperm.
  { apply NoDup_Permutation.
    - apply (rows_where_NoDup h_ID). intros k' v Hv. apply Hkey. by eapply lookup_weaken.
    - apply NoDup_cons. split; [intros [Hf _]%list_elem_of_filter; done|].
      apply NoDup_filter, (rows_where_NoDup h_ID). intros k' v Hv. apply Hkey. by eapply lookup_weaken.
    - intros h. rewrite elem_of_cons, list_elem_of_filter. split.
      + intros Hin. destruct (decide (h_ID h = h_ID x)) as [E|]; [left|by right].
        apply elem_of_rows_where in Hin as [_ [k' Hk']].
        assert (k' = k) as -> by (rewrite <-(Hkey k' h), <-(Hkey k x); eauto using lookup_weaken).
        congruence.
      + intros [->|[_ Hin]]; [|done]. apply elem_of_rows_where. split; [|by eauto].
        unfold checkpoint_of. by rewrite Ax, Dx, bool_decide_true. }
  apply Permutation_length in Hperm. simpl in Hperm. rewrite Hperm. lia.
Qed.

Lemma PruneHistory_run ctx s :
  PruneHistory ctx s = (set_history (prune_excess (prune_old ctx (history s))) s, Ok tt).
Proof. by destruct s. Qed.

(** Pruning never touches an anchor, adds nothing, drops every
    checkpoint older than 180 days and leaves at most 500 checkpoints per
    document; a younger one goes only if 500 newer checkpoints of its document
    are at hand. *)
Theorem PruneHistory_spec ctx s :
  (∀ k h, history s !! k = Some h → h_ID h = k) →
  let s' := (PruneHistory ctx s).1 in
  (∀ k h, history s !! k = Some h → h_IsAnchor h = true → history s' !! k = Some h) ∧
  history s' ⊆ history s ∧
  (∀ k h, history s' !! k = Some h → h_IsAnchor h = false →
     now ctx - history_retention <= h_CreatedAt h) ∧
  (∀ documentID, count_where (checkpoint_of documentID) (history s') <= 500) ∧
  (∀ k h, history s !! k = Some h → history s' !! k = None →
     h_CreatedAt h < now ctx - history_retention ∨
     500 <= count_where (λ g, checkpoint_of (h_DocumentID h) g
                              && match history_order g h with Lt => true | _ => false end)
              (prune_old ctx (history s))).
Proof.
  intros Hkey s'. unfold s'. rewrite PruneHistory_run. cbn [fst history set_history].
  set (m := history s) in *. unfold prune_excess. split_and!.
  - intros k h Hk Ha. apply lookup_delete_where_Some. split; [|by rewrite Ha].
    apply lookup_delete_where_Some. split; [done|]. by rewrite Ha.
  - etrans; apply delete_where_subseteq.
  - intros k h [[_ Ho]%lookup_delete_where_Some _]%lookup_delete_where_Some Ha.
    rewrite Ha in Ho. simpl in Ho. by apply Z.ltb_ge.
  - intros documentID. apply (rank_bound (prune_old ctx m)).
    + intros k h Hk. apply Hkey. eapply lookup_weaken; [exact Hk|apply delete_where_subseteq].
    + apply delete_where_subseteq.
    + intros k h [_ Hr]%lookup_delete_where_Some [Ha _]%andb_prop. rewrite Ha in Hr. simpl in Hr.
      by apply Z.ltb_ge in Hr.
  - intros k h Hk Hgone. rewrite lookup_delete_where in Hgone.
    destruct (negb (h_IsAnchor h) && (h_CreatedAt h <? now ctx - history_retention)) eqn:Ho.
    { left. apply andb_prop in Ho as [_ Ho]. by apply Z.ltb_lt. }
    right. assert (prune_old ctx m !! k = Some h) as Hm by by apply lookup_delete_where_Some.
    rewrite Hm in Hgone. cbn [mbind option_bind] in Hgone.
    destruct (negb (h_IsAnchor h) && (500 <? history_rank (prune_old ctx m) h)) eqn:Hr; [|done].
    apply andb_prop in Hr as [_ Hr]. apply Z.ltb_lt in Hr. unfold history_rank, checkpoint_of in *. lia.
Qed.

(** ** Block differences *)

Lemma elem_of_sorted_keys {V} (m : gmap string V) k : k ∈ sorted_keys m ↔ is_Some (m !! k).
Proof.
  unfold sorted_keys. rewrite elem_of_order_by, list_elem_of_fmap. split.
  - intros ([k' v] & -> & Hin%elem_of_map_to_list). by eexists.
  - intros [v Hv]. exists (k, v). split; [done|]. by apply elem_of_map_to_list.
Qed.

Lemma elem_of_entries {V} (m : gmap string V) (f : string → V → list json) e :
  e ∈ (sorted_keys m ≫= λ k, from_option (f k) [] (m !! k)) ↔ ∃ k v, m !! k = Some v ∧ e ∈ f k v.
Proof.
  rewrite list_elem_of_bind. split.
  - intros (k & He & [v Hv]%elem_of_sorted_keys). exists k, v. rewrite Hv in He. done.
  - intros (k & v & Hv & He). exists k. rewrite Hv. split; [done|]. apply elem_of_sorted_keys. by eexists.
Qed.

(** The recorded difference of two versions lists exactly the blocks that
    changed, under their stable identifiers: removed when only the earlier
    version has the block, added when only the later has it, modified when its
    encoding differs, moved when only its position does. *)
Theorem block_diff_spec before after e :
  let B := blocksByStableID before in let A := blocksByStableID after in
  e ∈ block_diff before after ↔
  ∃ k,
    (∃ p, B !! k = Some p ∧ A !! k = None ∧ e = diff_entry k "removed" [("from", p.1)]) ∨
    (∃ q, B !! k = None ∧ A !! k = Some q ∧ e = diff_entry k "added" [("to", q.1)]) ∨
    (∃ p q, B !! k = Some p ∧ A !! k = Some q ∧ std_encode (JObj p.2) ≠ std_encode (JObj q.2) ∧
       e = diff_entry k "modified" [("from", p.1); ("to", q.1)]) ∨
    (∃ p q, B !! k = Some p ∧ A !! k = Some q ∧ std_encode (JObj p.2) = std_encode (JObj q.2) ∧
       p.1 ≠ q.1 ∧ e = diff_entry k "moved" [("from", p.1); ("to", q.1)]).
Proof.
  intros B A. unfold block_diff. fold B A. rewrite elem_of_app, !elem_of_entries. split.
  - intros [(k & p & Hp & He)|(k & q & Hq & He)]; exists k.
    + unfold diff_before in He. destruct (A !! k) as [q|] eqn:Hq;
        [|apply list_elem_of_singleton in He; left; by eauto].
      destruct (bool_decide_reflect (std_encode (JObj p.2) = std_encode (JObj q.2))) as [E|E]; simpl in He.
      * destruct (p.1 =? q.1) eqn:Hpos; simpl in He; [by apply elem_of_nil in He|].
        apply list_elem_of_singleton in He. apply Z.eqb_neq in Hpos. do 3 right. by eauto 8.
      * apply list_elem_of_singleton in He. do 2 right. left. by eauto 8.
    + unfold diff_added in He. destruct (B !! k) as [p|] eqn:Hp; simpl in He; [by apply elem_of_nil in He|].
      apply list_elem_of_singleton in He. right. left. by eauto.
  - intros (k & [(p & Hp & Hq & ->)|[(q & Hp & Hq & ->)|[(p & q & Hp & Hq & E & ->)|(p & q & Hp & Hq & E & Hpos & ->)]]]).
    + left. exists k, p. split; [done|]. unfold diff_before. rewrite Hq. left.
    + right. exists k, q. split; [done|]. unfold diff_added. rewrite Hp. left.
    + left. exists k, p. split; [done|]. unfold diff_before. rewrite Hq, bool_decide_false by done. left.
    + left. exists k, p. split; [done|]. unfold diff_before. rewrite Hq, bool_decide_true by done. simpl.
      rewrite (proj2 (Z.eqb_neq _ _)) by done. left.
Qed.

(** The history of a document is answered to any caller: the caller's
    access is looked up and not used. *)
Theorem history_readable_by_anyone i a b limit s :
  ListHistory i a limit s = ListHistory i b limit s.
Proof.
  unfold ListHistory, getDocument, getProjection, first. cbv [mbind tx_bind gets id expect].
  destruct (visible_document i false s); [|done]. cbn. by destruct (projections s !! _).
Qed.

(** The statement that schedules a checkpoint names a column the table does not
    have. *)
Lemma upsert_activity_refused a s : upsert_activity a s = (s, Err undefined_column).
Proof. unfold upsert_activity. cbv [mbind tx_bind]. rewrite bool_decide_false; [done|]. set_solver. Qed.

(** So the transaction that stores a newer projection is always rolled back: a
    projection request changes nothing, and succeeds only when it repeats the
    stored projection. *)
Theorem newer_projections_refused p s :
  (UpsertProjection p s).1 = s ∧
  ∀ s' u, UpsertProjection p s = (s', Ok u) →
    ∃ current, projections s !! pv_DocumentID p = Some current ∧
      pr_Sequence current = pv_Sequence p ∧ pr_Content current = pv_Content p ∧
      pr_PlainText current = pv_PlainText p.
Proof.
  assert (∀ s' u, UpsertProjection p s = (s', Ok u) →
    s' = s ∧ ∃ current, projections s !! pv_DocumentID p = Some current ∧
      pr_Sequence current = pv_Sequence p ∧ pr_Content current = pv_Content p ∧
      pr_PlainText current = pv_PlainText p) as Hok.
  { intros s' u. unfold UpsertProjection, markHistoryDirty. intros Hr. store_inv.
    match type of Hr with (if ?b then _ else _) _ = _ => destruct b; store_inv end.
    match type of Hr with (if ?b then _ else _) _ = _ => destruct b eqn:Hs; store_inv end.
    - apply Z.eqb_eq in Hs. split; [done|]. eexists. split; [eassumption|].
      repeat match goal with H : _ && _ = true |- _ => apply andb_true_iff in H as [?%bool_decide_eq_true ?%bool_decide_eq_true] end.
      done.
    - match goal with H : upsert_activity _ _ = _ |- _ => by rewrite upsert_activity_refused in H end. }
  split; [|intros s' u Hr; by destruct (Hok s' u Hr)].
  destruct (UpsertProjection p s) as [s' [u|e]] eqn:Hr; [by destruct (Hok s' u eq_refl)|].
  by apply atomic_transaction in Hr.
Qed.

End history_facts.

(** ** Examples *)

Lemma PruneHistory_spec_witness :
  let s' := (PruneHistory (at_time 100) db_published).1 in
  history s' ⊆ history db_published ∧
  ∀ documentID, count_where (checkpoint_of documentID) (history s') <= 500.
Proof.
  assert (∀ k h, history db_published !! k = Some h → h_ID h = k) as Hkey.
  { apply (bool_decide_unpack (map_Forall (λ k h, h_ID h = k) (history db_published))). vm_compute. done. }
  split; apply (PruneHistory_spec (at_time 100) db_published Hkey).
Defined.
