(* ===== verification/KConditional.v ===== *)
(** Writes that name a revision.

    The calls that change a document on behalf of a client take the revision the
    client has seen.  Whatever such a call does, a row changes only if it is the
    row the call names, the caller may edit it, and it is at that revision. *)

From stdpp Require Import base gmap list sets strings.
From Stdlib Require Import ZArith Lia.
From S2P Require Import Prelude.
From S2P Require Import GoStrings.
From S2P Require Import KDomain.
From S2P Require Import RichText.
From S2P Require Import Json.
From S2P Require Import KSchema.
From S2P Require Import KTypes.
From S2P Require Import KStore.
From S2P Require Import KDocuments.
From S2P Require Import KHistory.
From S2P Require Import KPublication.
From S2P Require Import KListing.
From S2P Require Import KLogic.
From S2P Require Import KFrames.
From S2P Require Import KSaga.
From S2P Require Import KSagaSteps.
From S2P Require Import KWorld.
From S2P Require Import KAccess.

Open Scope Z_scope.

(** No row changes, or the one the caller may edit at the revision it named. *)
Definition writes_at (i : string) (actor expected : Z) (s t : KDB) : Prop :=
  documents t = documents s ∨
  ∃ d e, documents s !! i = Some d ∧ d_MetadataRevision d = expected ∧
    CanEdit (accessFor s d actor) = true ∧ documents t = <[i := e]> (documents s).

Lemma owner_edits access : (access =?= AccessOwner) = true → CanEdit access = true.
Proof. by intros ->%bool_decide_eq_true. Qed.

Section writes.
Context `{Unicode, Uuid, Url, Codec, Pg}.

(** The document rows a run leaves, from the statements of the run. *)
Ltac rows :=
  repeat match goal with
  | H : idempotentResource _ _ _ = (_, Ok (Some _)) |- _ => apply replay_same in H; subst
  | H : idempotentResource _ _ _ = (_, Ok None) |- _ => apply idempotentResource_members in H as [Hmem Hdoc]
  | H : enqueuePermissionChanged _ _ _ = _ |- _ => apply enqueuePermissionChanged_same, same_documents in H
  | H : saveIdempotency _ _ _ _ = _ |- _ => apply saveIdempotency_same, same_documents in H
  | H : getDocument _ _ _ _ = _ |- _ => apply getDocument_same in H; subst
  | H : enqueuePublicationReferenceJob _ _ _ _ _ _ = _ |- _ =>
      apply enqueueJob_run in H as (_ & ? & ? & ? & _ & _ & _ & _ & _ & _ & _ & _ & _ & Hjob & _)
  | H : update_document _ _ _ _ = _ |- _ =>
      apply update_document_run in H as [[-> ?]|(? & ? & _ & _ & ->)]
  | H : (_ =? _) = true |- _ => apply Z.eqb_eq in H
  | H : _ && _ = true |- _ => apply andb_prop in H as [? ?]
  | H : (?a =?= AccessOwner) = true |- _ => apply owner_edits in H
  end; simpl in *.

(** The rows after, followed back to the rows before. *)
Ltac followed :=
  repeat match goal with
  | E : documents ?x = _ |- documents ?x = <[_ := _]> _ => rewrite E
  | E : documents ?x = documents _ |- <[_ := _]> (documents ?x) = _ => rewrite E
  end; reflexivity.

Lemma UpdateDocument_writes ctx i actor expected ch s s' v :
  UpdateDocument ctx i actor expected ch s = (s', Ok v) → writes_at i actor expected s s'.
Proof. intros (d & ? & _ & ? & ? & ? & _)%UpdateDocument_run. right. by eexists d, _. Qed.

Lemma SoftDeleteDocument_writes ctx i actor expected s s' v :
  SoftDeleteDocument ctx i actor expected s = (s', Ok v) → writes_at i actor expected s s'.
Proof.
  unfold SoftDeleteDocument, delete_candidate, delete_publication, delete_jobs. intros Hr. store_inv. rows;
    [left; congruence|right].
  eexists _, _. split_and!; [eassumption|done|done|followed].
Qed.

Lemma SetPublication_writes ctx i actor expected published k s s' v :
  SetPublication ctx i actor expected published k s = (s', Ok v) → writes_at i actor expected s s'.
Proof.
  unfold SetPublication, reply, delete_candidate, delete_publication, delete_jobs. intros Hr.
  destruct published; store_inv. split_options; rows; [by left|left; congruence|right].
  rewrite Hdoc in *. eexists _, _. split_and!; [eassumption|done|by erewrite <-accessFor_same|followed].
Qed.

Lemma PurgeDeletedDocument_writes ctx i actor expected k s s' v :
  PurgeDeletedDocument ctx i actor expected k s = (s', Ok v) → writes_at i actor expected s s'.
Proof.
  unfold PurgeDeletedDocument. intros Hr. store_inv. split_options; rows; [by left|left; congruence|right].
  rewrite Hdoc in *.
  match goal with A : documents s !! i = Some ?a, B : documents s !! i = Some ?b |- _ =>
    tryif constr_eq a b then fail else assert (a = b) as -> by congruence end.
  eexists _, _. split_and!; [eassumption|done|by erewrite <-accessFor_same|followed].
Qed.

Lemma PublishSnapshot_writes ctx i actor expected input s s' v :
  PublishSnapshot ctx i actor expected input s = (s', Ok v) → writes_at i actor expected s s'.
Proof.
  unfold PublishSnapshot, reply, save_candidate, delete_jobs. intros Hr.
  store_inv. split_options; rows; [by left|left; congruence|right].
  rewrite Hdoc in *. eexists _, _. split_and!; [eassumption|done|by erewrite <-accessFor_same|followed].
Qed.

(** ** The calls of the request logic *)

(** A failed call writes nothing. *)
Lemma atomic_writes {A} (op : store A) i actor expected s :
  atomic op → (∀ s' v, op s = (s', Ok v) → writes_at i actor expected s s') →
  writes_at i actor expected s (mapped op s).1.
Proof.
  intros Ha Hok. unfold mapped, wrap. destruct (op s) as [s' [v|e]] eqn:E; simpl; [by eapply Hok|].
  apply Ha in E as ->. by left.
Qed.

(** A check before a call. *)
Lemma validated_writes {A B} (r : result kerror A) (k : A → logic B) i actor expected s :
  (∀ a, r = Ok a → writes_at i actor expected s (k a s).1) →
  writes_at i actor expected s ((validated r ≫= k) s).1.
Proof.
  intros Hk. unfold validated, mapped, wrap, lift. cbv [mbind tx_bind]. destruct r; [by apply Hk|by left].
Qed.

Lemma validated_ok {A B} (r : result kerror A) (k : A → logic B) s s' b :
  (validated r ≫= k) s = (s', Ok b) → ∃ a, r = Ok a ∧ k a s = (s', Ok b).
Proof. unfold validated, mapped, wrap, lift. cbv [mbind tx_bind]. destruct r; [by eauto|done]. Qed.

Lemma mapped_store_ok {A} (m : store A) s s' a : mapped m s = (s', Ok a) → m s = (s', Ok a).
Proof. apply wrap_ok. Qed.

Lemma Update_writes y_first ctx i actor expected input s :
  writes_at i actor expected s (Update y_first ctx i actor expected input s).1.
Proof.
  do 2 (apply validated_writes; intros ? _). apply atomic_writes; [apply atomic_transaction|].
  intros s' v. apply UpdateDocument_writes.
Qed.

Lemma Delete_writes ctx i actor expected s : writes_at i actor expected s (Delete ctx i actor expected s).1.
Proof.
  apply validated_writes; intros ? _. apply atomic_writes; [apply atomic_transaction|].
  intros s' v. apply SoftDeleteDocument_writes.
Qed.

Lemma LogicSetPublication_writes ctx i actor expected published key s :
  writes_at i actor expected s (LogicSetPublication ctx i actor expected published key s).1.
Proof.
  do 2 (apply validated_writes; intros ? _). apply atomic_writes; [apply SetPublication_atomic|].
  intros s' v. apply SetPublication_writes.
Qed.

Lemma PurgeDeleted_writes ctx i actor expected key s :
  writes_at i actor expected s (PurgeDeleted ctx i actor expected key s).1.
Proof.
  do 3 (apply validated_writes; intros ? _). apply atomic_writes; [apply atomic_transaction|].
  intros s' v. apply PurgeDeletedDocument_writes.
Qed.

(** ** A draft as it is read and published *)

(** The metadata of a document, wherever it is read from. *)
Definition metadata (v : Document) : string * string * string * string * Z :=
  (v_Title v, v_Summary v, v_Slug v, v_Language v, v_MetadataRevision v).

Definition row_metadata (d : DocumentRow) : string * string * string * string * Z :=
  (d_Title d, d_Summary d, d_Slug d, d_Language d, d_MetadataRevision d).

Lemma loaded_metadata db v : metadata (loadDocumentStructure db v) = metadata v.
Proof. unfold loadDocumentStructure. by case_match. Qed.

Lemma backfill_metadata db d : row_metadata (backfill_hash db d) = row_metadata d.
Proof. unfold backfill_hash. by repeat case_match. Qed.

Lemma GetDraft_run i actor s s' v :
  GetDraft i actor s = (s', Ok v) →
  s' = s ∧ ∃ d, documents s !! i = Some d ∧ metadata v = row_metadata d.
Proof.
  unfold GetDraft. intros (_ & _ & Hr)%validated_ok.
  apply bind_run_ok in Hr as (s1 & document & Hg%mapped_store_ok & Hr).
  apply bind_run_ok in Hr as (s2 & u & Hq%mapped_store_ok & Hr). apply require_run_ok in Hq as [_ ->].
  apply ret_run in Hr as [-> [= ->]]. pose proof (getDocument_same _ _ _ _ _ _ Hg) as ->. split; [done|].
  unfold getDocument in Hg. store_inv.
  match goal with E : visible_document i false ?s = Some ?x |- _ =>
    exists x; apply visible_document_Some in E as [E _]; split; [exact E|]; rewrite <-(backfill_metadata s) end.
  rewrite loaded_metadata. by case_match.
Qed.

Lemma title_of_trimmed v t : title_of v = Ok t → t = TrimSpace v.
Proof. unfold title_of. destruct (ValidateTitle _); naive_solver. Qed.

Lemma summary_of_trimmed v t : summary_of v = Ok t → t = TrimSpace v.
Proof. unfold summary_of. destruct (ValidateSummary _); naive_solver. Qed.

Lemma language_of_trimmed v t : language_of v = Ok t → t = TrimSpace v.
Proof. unfold language_of, check. case_match; naive_solver. Qed.

Lemma idempotency_key actor op key request value :
  idempotency actor op key request = Ok value → id_Key value = TrimSpace key.
Proof.
  unfold idempotency. destruct (ValidateIdempotencyKey _); simpl; [|done].
  case_bool_decide as E; [intros [= <-]; simpl; by rewrite E|]. destruct (json_encode request); naive_solver.
Qed.

(** What the store is asked to publish. *)
Lemma LogicPublishSnapshot_run identity ctx i actor expected input s s' v :
  LogicPublishSnapshot identity ctx i actor expected input s = (s', Ok v) →
  ∃ asked, PublishSnapshot ctx i actor expected asked s = (s', Ok v) ∧
    in_Title asked = TrimSpace (ps_Title input) ∧ in_Summary asked = TrimSpace (ps_Summary input) ∧
    NormalizeSlug (ps_Slug input) = Ok (in_Slug asked) ∧ in_Language asked = TrimSpace (ps_Language input) ∧
    in_Content asked = ps_Content input ∧ Validate (ps_Content input) = Ok tt ∧
    in_PlainText asked = ps_PlainText input ∧ in_ContentSequence asked = ps_ContentSequence input ∧
    in_PublicationHash asked = ps_PublicationHash input ∧
    id_Key (in_Idempotency asked) = TrimSpace (ps_IdempotencyKey input).
Proof.
  unfold LogicPublishSnapshot. intros (_ & _ & Hr)%validated_ok.
  apply validated_ok in Hr as (title & Ht%title_of_trimmed & Hr).
  apply validated_ok in Hr as (summary & Hs%summary_of_trimmed & Hr).
  apply validated_ok in Hr as (slug & Hslug & Hr).
  apply validated_ok in Hr as (language & Hl%language_of_trimmed & Hr).
  apply validated_ok in Hr as ([] & Hc & Hr). do 3 apply validated_ok in Hr as (? & _ & Hr).
  apply validated_ok in Hr as (value & Hk%idempotency_key & Hr).
  apply mapped_store_ok in Hr. eexists. split; [exact Hr|]. by split_and!.
Qed.

End writes.
