(* ===== verification/ISchema.v ===== *)
(** The identity service's tables and views: [services/identity/internal/model],
    [internal/domain/user.go], [session.go], [action.go] and the constraints of
    [internal/migration/migration.go].

    A database is one finite map per table with the next values of its two
    sequences.  A byte column that may be NULL is a string, empty for NULL.
    Cryptography, mail address parsing and token signing are parameters
    ([Crypto]). *)

From stdpp Require Import base gmap list sets strings.
From Stdlib Require Import ZArith Lia.
From S2P Require Import Prelude.
From S2P Require Import GoStrings.

Open Scope Z_scope.

(** ** Constants *)

Definition RoleUser := "user".
Definition StatusActive := "active".
Definition StatusPending := "pending_verification".
Definition StatusDisabled := "disabled".
Definition ActionEmailVerification := "email_verification".
Definition ActionPasswordReset := "password_reset".

(** ** Rows *)

(** [model.User] *)
Record UserRow := MkUserRow {
  u_ID : Z;
  u_Username : string;
  u_Email : string;
  u_PasswordHash : string;
  u_Role : string;
  u_Status : string;
  u_TokenVersion : Z;
  u_Avatar : string;
  u_AvatarAttachmentID : option string;
  u_Bio : string;
  u_FailedLoginAttempts : Z;
  u_LockedUntil : option Z;
  u_EmailVerifiedAt : option Z;
  u_CreatedAt : Z;
  u_UpdatedAt : Z;
}.

#[export] Instance UserRow_eq_dec : EqDecision UserRow.
Proof. solve_decision. Defined.

Definition set_u_ID (v : Z) (r : UserRow) : UserRow :=
  MkUserRow v (u_Username r) (u_Email r) (u_PasswordHash r) (u_Role r) (u_Status r)
    (u_TokenVersion r) (u_Avatar r) (u_AvatarAttachmentID r) (u_Bio r)
    (u_FailedLoginAttempts r) (u_LockedUntil r) (u_EmailVerifiedAt r) (u_CreatedAt r)
    (u_UpdatedAt r).

Definition set_u_PasswordHash (v : string) (r : UserRow) : UserRow :=
  MkUserRow (u_ID r) (u_Username r) (u_Email r) v (u_Role r) (u_Status r) (u_TokenVersion r)
    (u_Avatar r) (u_AvatarAttachmentID r) (u_Bio r) (u_FailedLoginAttempts r)
    (u_LockedUntil r) (u_EmailVerifiedAt r) (u_CreatedAt r) (u_UpdatedAt r).

Definition set_u_Status (v : string) (r : UserRow) : UserRow :=
  MkUserRow (u_ID r) (u_Username r) (u_Email r) (u_PasswordHash r) (u_Role r) v (u_TokenVersion r)
    (u_Avatar r) (u_AvatarAttachmentID r) (u_Bio r) (u_FailedLoginAttempts r)
    (u_LockedUntil r) (u_EmailVerifiedAt r) (u_CreatedAt r) (u_UpdatedAt r).

Definition set_u_TokenVersion (v : Z) (r : UserRow) : UserRow :=
  MkUserRow (u_ID r) (u_Username r) (u_Email r) (u_PasswordHash r) (u_Role r) (u_Status r) v
    (u_Avatar r) (u_AvatarAttachmentID r) (u_Bio r) (u_FailedLoginAttempts r)
    (u_LockedUntil r) (u_EmailVerifiedAt r) (u_CreatedAt r) (u_UpdatedAt r).

Definition set_u_FailedLoginAttempts (v : Z) (r : UserRow) : UserRow :=
  MkUserRow (u_ID r) (u_Username r) (u_Email r) (u_PasswordHash r) (u_Role r) (u_Status r)
    (u_TokenVersion r) (u_Avatar r) (u_AvatarAttachmentID r) (u_Bio r) v (u_LockedUntil r)
    (u_EmailVerifiedAt r) (u_CreatedAt r) (u_UpdatedAt r).

Definition set_u_LockedUntil (v : option Z) (r : UserRow) : UserRow :=
  MkUserRow (u_ID r) (u_Username r) (u_Email r) (u_PasswordHash r) (u_Role r) (u_Status r)
    (u_TokenVersion r) (u_Avatar r) (u_AvatarAttachmentID r) (u_Bio r)
    (u_FailedLoginAttempts r) v (u_EmailVerifiedAt r) (u_CreatedAt r) (u_UpdatedAt r).

Definition set_u_EmailVerifiedAt (v : option Z) (r : UserRow) : UserRow :=
  MkUserRow (u_ID r) (u_Username r) (u_Email r) (u_PasswordHash r) (u_Role r) (u_Status r)
    (u_TokenVersion r) (u_Avatar r) (u_AvatarAttachmentID r) (u_Bio r)
    (u_FailedLoginAttempts r) (u_LockedUntil r) v (u_CreatedAt r) (u_UpdatedAt r).

Definition set_u_UpdatedAt (v : Z) (r : UserRow) : UserRow :=
  MkUserRow (u_ID r) (u_Username r) (u_Email r) (u_PasswordHash r) (u_Role r) (u_Status r)
    (u_TokenVersion r) (u_Avatar r) (u_AvatarAttachmentID r) (u_Bio r)
    (u_FailedLoginAttempts r) (u_LockedUntil r) (u_EmailVerifiedAt r) (u_CreatedAt r) v.

(** [model.Session] *)
Record SessionRow := MkSessionRow {
  s_ID : string;
  s_UserID : Z;
  s_DeviceLabel : string;
  s_RefreshDigest : string;
  s_PreviousDigest : string;
  s_RefreshTokenCipher : string;
  s_CreatedAt : Z;
  s_LastSeenAt : Z;
  s_ExpiresAt : Z;
  s_RotatedAt : option Z;
  s_RevokedAt : option Z;
  s_RevokedReason : string;
}.

#[export] Instance SessionRow_eq_dec : EqDecision SessionRow.
Proof. solve_decision. Defined.

Definition set_s_RefreshDigest (v : string) (r : SessionRow) : SessionRow :=
  MkSessionRow (s_ID r) (s_UserID r) (s_DeviceLabel r) v (s_PreviousDigest r) (s_RefreshTokenCipher r)
    (s_CreatedAt r) (s_LastSeenAt r) (s_ExpiresAt r) (s_RotatedAt r) (s_RevokedAt r)
    (s_RevokedReason r).

Definition set_s_PreviousDigest (v : string) (r : SessionRow) : SessionRow :=
  MkSessionRow (s_ID r) (s_UserID r) (s_DeviceLabel r) (s_RefreshDigest r) v (s_RefreshTokenCipher r)
    (s_CreatedAt r) (s_LastSeenAt r) (s_ExpiresAt r) (s_RotatedAt r) (s_RevokedAt r)
    (s_RevokedReason r).

Definition set_s_RefreshTokenCipher (v : string) (r : SessionRow) : SessionRow :=
  MkSessionRow (s_ID r) (s_UserID r) (s_DeviceLabel r) (s_RefreshDigest r) (s_PreviousDigest r) v
    (s_CreatedAt r) (s_LastSeenAt r) (s_ExpiresAt r) (s_RotatedAt r) (s_RevokedAt r)
    (s_RevokedReason r).

Definition set_s_LastSeenAt (v : Z) (r : SessionRow) : SessionRow :=
  MkSessionRow (s_ID r) (s_UserID r) (s_DeviceLabel r) (s_RefreshDigest r) (s_PreviousDigest r)
    (s_RefreshTokenCipher r) (s_CreatedAt r) v (s_ExpiresAt r) (s_RotatedAt r)
    (s_RevokedAt r) (s_RevokedReason r).

Definition set_s_ExpiresAt (v : Z) (r : SessionRow) : SessionRow :=
  MkSessionRow (s_ID r) (s_UserID r) (s_DeviceLabel r) (s_RefreshDigest r) (s_PreviousDigest r)
    (s_RefreshTokenCipher r) (s_CreatedAt r) (s_LastSeenAt r) v (s_RotatedAt r)
    (s_RevokedAt r) (s_RevokedReason r).

Definition set_s_RotatedAt (v : option Z) (r : SessionRow) : SessionRow :=
  MkSessionRow (s_ID r) (s_UserID r) (s_DeviceLabel r) (s_RefreshDigest r) (s_PreviousDigest r)
    (s_RefreshTokenCipher r) (s_CreatedAt r) (s_LastSeenAt r) (s_ExpiresAt r) v
    (s_RevokedAt r) (s_RevokedReason r).

Definition set_s_RevokedAt (v : option Z) (r : SessionRow) : SessionRow :=
  MkSessionRow (s_ID r) (s_UserID r) (s_DeviceLabel r) (s_RefreshDigest r) (s_PreviousDigest r)
    (s_RefreshTokenCipher r) (s_CreatedAt r) (s_LastSeenAt r) (s_ExpiresAt r)
    (s_RotatedAt r) v (s_RevokedReason r).

Definition set_s_RevokedReason (v : string) (r : SessionRow) : SessionRow :=
  MkSessionRow (s_ID r) (s_UserID r) (s_DeviceLabel r) (s_RefreshDigest r) (s_PreviousDigest r)
    (s_RefreshTokenCipher r) (s_CreatedAt r) (s_LastSeenAt r) (s_ExpiresAt r)
    (s_RotatedAt r) (s_RevokedAt r) v.

(** [model.ActionToken] *)
Record ActionRow := MkActionRow {
  a_ID : string;
  a_UserID : Z;
  a_Kind : string;
  a_Digest : string;
  a_ExpiresAt : Z;
  a_UsedAt : option Z;
  a_CreatedAt : Z;
}.

#[export] Instance ActionRow_eq_dec : EqDecision ActionRow.
Proof. solve_decision. Defined.

Definition set_a_UsedAt (v : option Z) (r : ActionRow) : ActionRow :=
  MkActionRow (a_ID r) (a_UserID r) (a_Kind r) (a_Digest r) (a_ExpiresAt r) v (a_CreatedAt r).

(** [model.EmailOutbox] *)
Record EmailRow := MkEmailRow {
  e_ID : Z;
  e_MessageID : string;
  e_SchemaVersion : Z;
  e_Kind : string;
  e_Locale : string;
  e_Recipient : string;
  e_Subject : string;
  e_TokenCipher : string;
  e_Status : string;
  e_Attempts : Z;
  e_NextAttemptAt : Z;
  e_LeaseOwner : string;
  e_LeaseUntil : option Z;
  e_SentAt : option Z;
  e_ParkedAt : option Z;
  e_LastError : string;
  e_LastErrorCode : string;
  e_CreatedAt : Z;
  e_UpdatedAt : Z;
}.

#[export] Instance EmailRow_eq_dec : EqDecision EmailRow.
Proof. solve_decision. Defined.

Definition set_e_ID (v : Z) (r : EmailRow) : EmailRow :=
  MkEmailRow v (e_MessageID r) (e_SchemaVersion r) (e_Kind r) (e_Locale r) (e_Recipient r)
    (e_Subject r) (e_TokenCipher r) (e_Status r) (e_Attempts r) (e_NextAttemptAt r)
    (e_LeaseOwner r) (e_LeaseUntil r) (e_SentAt r) (e_ParkedAt r) (e_LastError r)
    (e_LastErrorCode r) (e_CreatedAt r) (e_UpdatedAt r).

Definition set_e_MessageID (v : string) (r : EmailRow) : EmailRow :=
  MkEmailRow (e_ID r) v (e_SchemaVersion r) (e_Kind r) (e_Locale r) (e_Recipient r) (e_Subject r)
    (e_TokenCipher r) (e_Status r) (e_Attempts r) (e_NextAttemptAt r) (e_LeaseOwner r)
    (e_LeaseUntil r) (e_SentAt r) (e_ParkedAt r) (e_LastError r) (e_LastErrorCode r)
    (e_CreatedAt r) (e_UpdatedAt r).

Definition set_e_Status (v : string) (r : EmailRow) : EmailRow :=
  MkEmailRow (e_ID r) (e_MessageID r) (e_SchemaVersion r) (e_Kind r) (e_Locale r) (e_Recipient r)
    (e_Subject r) (e_TokenCipher r) v (e_Attempts r) (e_NextAttemptAt r) (e_LeaseOwner r)
    (e_LeaseUntil r) (e_SentAt r) (e_ParkedAt r) (e_LastError r) (e_LastErrorCode r)
    (e_CreatedAt r) (e_UpdatedAt r).

Definition set_e_Attempts (v : Z) (r : EmailRow) : EmailRow :=
  MkEmailRow (e_ID r) (e_MessageID r) (e_SchemaVersion r) (e_Kind r) (e_Locale r) (e_Recipient r)
    (e_Subject r) (e_TokenCipher r) (e_Status r) v (e_NextAttemptAt r) (e_LeaseOwner r)
    (e_LeaseUntil r) (e_SentAt r) (e_ParkedAt r) (e_LastError r) (e_LastErrorCode r)
    (e_CreatedAt r) (e_UpdatedAt r).

Definition set_e_NextAttemptAt (v : Z) (r : EmailRow) : EmailRow :=
  MkEmailRow (e_ID r) (e_MessageID r) (e_SchemaVersion r) (e_Kind r) (e_Locale r) (e_Recipient r)
    (e_Subject r) (e_TokenCipher r) (e_Status r) (e_Attempts r) v (e_LeaseOwner r)
    (e_LeaseUntil r) (e_SentAt r) (e_ParkedAt r) (e_LastError r) (e_LastErrorCode r)
    (e_CreatedAt r) (e_UpdatedAt r).

Definition set_e_LeaseOwner (v : string) (r : EmailRow) : EmailRow :=
  MkEmailRow (e_ID r) (e_MessageID r) (e_SchemaVersion r) (e_Kind r) (e_Locale r) (e_Recipient r)
    (e_Subject r) (e_TokenCipher r) (e_Status r) (e_Attempts r) (e_NextAttemptAt r) v
    (e_LeaseUntil r) (e_SentAt r) (e_ParkedAt r) (e_LastError r) (e_LastErrorCode r)
    (e_CreatedAt r) (e_UpdatedAt r).

Definition set_e_LeaseUntil (v : option Z) (r : EmailRow) : EmailRow :=
  MkEmailRow (e_ID r) (e_MessageID r) (e_SchemaVersion r) (e_Kind r) (e_Locale r) (e_Recipient r)
    (e_Subject r) (e_TokenCipher r) (e_Status r) (e_Attempts r) (e_NextAttemptAt r)
    (e_LeaseOwner r) v (e_SentAt r) (e_ParkedAt r) (e_LastError r) (e_LastErrorCode r)
    (e_CreatedAt r) (e_UpdatedAt r).

Definition set_e_SentAt (v : option Z) (r : EmailRow) : EmailRow :=
  MkEmailRow (e_ID r) (e_MessageID r) (e_SchemaVersion r) (e_Kind r) (e_Locale r) (e_Recipient r)
    (e_Subject r) (e_TokenCipher r) (e_Status r) (e_Attempts r) (e_NextAttemptAt r)
    (e_LeaseOwner r) (e_LeaseUntil r) v (e_ParkedAt r) (e_LastError r) (e_LastErrorCode r)
    (e_CreatedAt r) (e_UpdatedAt r).

Definition set_e_ParkedAt (v : option Z) (r : EmailRow) : EmailRow :=
  MkEmailRow (e_ID r) (e_MessageID r) (e_SchemaVersion r) (e_Kind r) (e_Locale r) (e_Recipient r)
    (e_Subject r) (e_TokenCipher r) (e_Status r) (e_Attempts r) (e_NextAttemptAt r)
    (e_LeaseOwner r) (e_LeaseUntil r) (e_SentAt r) v (e_LastError r) (e_LastErrorCode r)
    (e_CreatedAt r) (e_UpdatedAt r).

Definition set_e_LastError (v : string) (r : EmailRow) : EmailRow :=
  MkEmailRow (e_ID r) (e_MessageID r) (e_SchemaVersion r) (e_Kind r) (e_Locale r) (e_Recipient r)
    (e_Subject r) (e_TokenCipher r) (e_Status r) (e_Attempts r) (e_NextAttemptAt r)
    (e_LeaseOwner r) (e_LeaseUntil r) (e_SentAt r) (e_ParkedAt r) v (e_LastErrorCode r)
    (e_CreatedAt r) (e_UpdatedAt r).

Definition set_e_LastErrorCode (v : string) (r : EmailRow) : EmailRow :=
  MkEmailRow (e_ID r) (e_MessageID r) (e_SchemaVersion r) (e_Kind r) (e_Locale r) (e_Recipient r)
    (e_Subject r) (e_TokenCipher r) (e_Status r) (e_Attempts r) (e_NextAttemptAt r)
    (e_LeaseOwner r) (e_LeaseUntil r) (e_SentAt r) (e_ParkedAt r) (e_LastError r) v
    (e_CreatedAt r) (e_UpdatedAt r).

Definition set_e_UpdatedAt (v : Z) (r : EmailRow) : EmailRow :=
  MkEmailRow (e_ID r) (e_MessageID r) (e_SchemaVersion r) (e_Kind r) (e_Locale r) (e_Recipient r)
    (e_Subject r) (e_TokenCipher r) (e_Status r) (e_Attempts r) (e_NextAttemptAt r)
    (e_LeaseOwner r) (e_LeaseUntil r) (e_SentAt r) (e_ParkedAt r) (e_LastError r)
    (e_LastErrorCode r) (e_CreatedAt r) v.

(** The schema [identity] *)
Record IDB := MkIDB {
  users : gmap Z UserRow;
  sessions : gmap string SessionRow;
  actions : gmap string ActionRow;
  emails : gmap Z EmailRow;
  next_user : Z;
  next_email : Z;
}.

#[export] Instance IDB_eq_dec : EqDecision IDB.
Proof. solve_decision. Defined.

Definition set_users (v : gmap Z UserRow) (r : IDB) : IDB :=
  MkIDB v (sessions r) (actions r) (emails r) (next_user r) (next_email r).

Definition set_sessions (v : gmap string SessionRow) (r : IDB) : IDB :=
  MkIDB (users r) v (actions r) (emails r) (next_user r) (next_email r).

Definition set_actions (v : gmap string ActionRow) (r : IDB) : IDB :=
  MkIDB (users r) (sessions r) v (emails r) (next_user r) (next_email r).

Definition set_emails (v : gmap Z EmailRow) (r : IDB) : IDB :=
  MkIDB (users r) (sessions r) (actions r) v (next_user r) (next_email r).

Definition set_next_user (v : Z) (r : IDB) : IDB :=
  MkIDB (users r) (sessions r) (actions r) (emails r) v (next_email r).

Definition set_next_email (v : Z) (r : IDB) : IDB :=
  MkIDB (users r) (sessions r) (actions r) (emails r) (next_user r) v.

(** ** Views *)

(** [domain.User] *)
Record User := MkUser {
  uv_ID : Z;
  uv_Username : string;
  uv_Email : string;
  uv_PasswordHash : string;
  uv_Role : string;
  uv_Status : string;
  uv_TokenVersion : Z;
  uv_Avatar : string;
  uv_AvatarAttachmentID : string;
  uv_Bio : string;
  uv_FailedLoginAttempts : Z;
  uv_LockedUntil : option Z;
  uv_EmailVerifiedAt : option Z;
  uv_CreatedAt : Z;
  uv_UpdatedAt : Z;
}.

#[export] Instance User_eq_dec : EqDecision User.
Proof. solve_decision. Defined.

Definition set_uv_PasswordHash (v : string) (r : User) : User :=
  MkUser (uv_ID r) (uv_Username r) (uv_Email r) v (uv_Role r) (uv_Status r) (uv_TokenVersion r)
    (uv_Avatar r) (uv_AvatarAttachmentID r) (uv_Bio r) (uv_FailedLoginAttempts r)
    (uv_LockedUntil r) (uv_EmailVerifiedAt r) (uv_CreatedAt r) (uv_UpdatedAt r).

(** [domain.Session] *)
Record Session := MkSession {
  sv_ID : string;
  sv_UserID : Z;
  sv_DeviceLabel : string;
  sv_RefreshDigest : string;
  sv_PreviousDigest : string;
  sv_CurrentRefreshToken : string;
  sv_CreatedAt : Z;
  sv_LastSeenAt : Z;
  sv_ExpiresAt : Z;
  sv_RotatedAt : option Z;
  sv_RevokedAt : option Z;
  sv_RevokedReason : string;
}.

#[export] Instance Session_eq_dec : EqDecision Session.
Proof. solve_decision. Defined.

Definition set_sv_CurrentRefreshToken (v : string) (r : Session) : Session :=
  MkSession (sv_ID r) (sv_UserID r) (sv_DeviceLabel r) (sv_RefreshDigest r) (sv_PreviousDigest r) v
    (sv_CreatedAt r) (sv_LastSeenAt r) (sv_ExpiresAt r) (sv_RotatedAt r) (sv_RevokedAt r)
    (sv_RevokedReason r).

(** [domain.ActionToken] *)
Record ActionToken := MkActionToken {
  av_ID : string;
  av_UserID : Z;
  av_Kind : string;
  av_Digest : string;
  av_ExpiresAt : Z;
  av_UsedAt : option Z;
  av_CreatedAt : Z;
}.

#[export] Instance ActionToken_eq_dec : EqDecision ActionToken.
Proof. solve_decision. Defined.

Definition set_av_UserID (v : Z) (r : ActionToken) : ActionToken :=
  MkActionToken (av_ID r) v (av_Kind r) (av_Digest r) (av_ExpiresAt r) (av_UsedAt r) (av_CreatedAt r).

(** [domain.EmailMessage] *)
Record EmailMessage := MkEmailMessage {
  em_Kind : string;
  em_To : string;
  em_Subject : string;
  em_Token : string;
  em_CreatedAt : Z;
}.

#[export] Instance EmailMessage_eq_dec : EqDecision EmailMessage.
Proof. solve_decision. Defined.

(** ** Parameters *)

(** What the service uses of bcrypt ([None]: an error), HMAC and SHA-256,
    AES-GCM with a nonce, net/mail and the token signer, and [lower(text)] of
    PostgreSQL. *)
Class Crypto := {
  bcrypt_hash : string → option string;
  bcrypt_compare : string → string → option bool;
  hmac_sha256 : string → string → string;
  sha256 : string → string;
  gcm_seal : string → string → string → option string;
  gcm_open : string → string → option string;
  mail_address : string → option (string * string);
  sign_token : Z → string → Z → string → option string;
  pg_lower : string → string;
}.

(** ** Errors *)

Inductive ierror :=
| ErrUserNotFound
| ErrUsernameConflict
| ErrEmailConflict
| ErrSessionNotFound
| ErrSessionInvalid
| ErrSessionReplay
| ErrActionNotFound
| ErrActionExpired
| ErrActionAlreadyUsed
| ErrOutboxEmpty
| EInvalid (field reason : string)
| EFailed (operation : string).

#[export] Instance ierror_eq_dec : EqDecision ierror.
Proof. solve_decision. Defined.

Definition istore (A : Type) : Type := tx IDB ierror A.

(** What a request draws from its environment: the clock and fresh random
    values (raw bytes for tokens and nonces, texts for UUIDs). *)
Record ICtx := MkICtx {
  inow : Z;
  session_bytes : string;
  secret_bytes : string;
  token_bytes : string;
  nonce_bytes : string;
  uuid_one : string;
  uuid_two : string;
}.
