(* ===== verification/IStore.v ===== *)
(** The identity service's repositories: [services/identity/internal/repository]
    ([users.go], [sessions.go], [actions.go], [outbox.go]) and
    [internal/security]'s tokens. *)

From stdpp Require Import base gmap list sets strings.
From Stdlib Require Import ZArith Lia.
From S2P Require Import Prelude.
From S2P Require Import GoStrings.
From S2P Require Import Base64.
From S2P Require Import ISchema.

Open Scope Z_scope.

(** ** Domain predicates *)

Definition IsLocked (u : User) (now : Z) : bool := opt_test (λ t, after t now) (uv_LockedUntil u).

Definition CanEstablishSession (u : User) : bool :=
  (uv_Status u =?= StatusActive) || (uv_Status u =?= StatusPending).

Definition SessionIsActive (s : Session) (now : Z) : bool :=
  is_none (sv_RevokedAt s) && after (sv_ExpiresAt s) now.

(** ** Mapping *)

Definition fromModel (r : UserRow) : User :=
  MkUser (u_ID r) (u_Username r) (u_Email r) (u_PasswordHash r) (u_Role r) (u_Status r)
    (u_TokenVersion r) (u_Avatar r) (default EmptyString (u_AvatarAttachmentID r)) (u_Bio r)
    (u_FailedLoginAttempts r) (u_LockedUntil r) (u_EmailVerifiedAt r) (u_CreatedAt r) (u_UpdatedAt r).

Definition toModel (u : User) : UserRow :=
  MkUserRow (uv_ID u) (uv_Username u) (uv_Email u) (uv_PasswordHash u) (uv_Role u) (uv_Status u)
    (uv_TokenVersion u) (uv_Avatar u)
    (if TrimSpace (uv_AvatarAttachmentID u) =?= EmptyString then None else Some (uv_AvatarAttachmentID u))
    (uv_Bio u) (uv_FailedLoginAttempts u) (uv_LockedUntil u) (uv_EmailVerifiedAt u)
    (uv_CreatedAt u) (uv_UpdatedAt u).

Definition fromSessionModel (r : SessionRow) : Session :=
  MkSession (s_ID r) (s_UserID r) (s_DeviceLabel r) (s_RefreshDigest r) (s_PreviousDigest r) EmptyString
    (s_CreatedAt r) (s_LastSeenAt r) (s_ExpiresAt r) (s_RotatedAt r) (s_RevokedAt r) (s_RevokedReason r).

Definition actionFromModel (r : ActionRow) : ActionToken :=
  MkActionToken (a_ID r) (a_UserID r) (a_Kind r) (a_Digest r) (a_ExpiresAt r) (a_UsedAt r) (a_CreatedAt r).

(** ** Tokens *)

Record RefreshToken := MkRefreshToken { SessionID : string; Secret : string }.

#[export] Instance RefreshToken_eq_dec : EqDecision RefreshToken.
Proof. solve_decision. Defined.

Definition refreshTokenPrefix := "kc1".
Definition refreshTokenBytes : Z := 32.
Definition maxRefreshLength : Z := 256.

Definition NewRefreshToken (ctx : ICtx) : RefreshToken :=
  MkRefreshToken (EncodeToString (session_bytes ctx)) (EncodeToString (secret_bytes ctx)).

Definition EncodeRefreshToken (t : RefreshToken) : result ierror string :=
  if (SessionID t =?= EmptyString) || (Secret t =?= EmptyString)
  then Err (EFailed "encode refresh token")
  else Ok (Join [refreshTokenPrefix; SessionID t; Secret t] ".").

Definition ParseRefreshToken (value : string) : result ierror RefreshToken :=
  if (value =?= EmptyString) || (maxRefreshLength <? len value) then Err (EFailed "parse refresh token")
  else match SplitByte value 46 with
       | [prefix; session; secret] =>
         if negb (prefix =?= refreshTokenPrefix) || (session =?= EmptyString) || (secret =?= EmptyString)
         then Err (EFailed "parse refresh token")
         else if is_none (DecodeString session) then Err (EFailed "parse refresh token: session ID")
         else match DecodeString secret with
              | Some bytes => if len bytes =? refreshTokenBytes then Ok (MkRefreshToken session secret)
                              else Err (EFailed "parse refresh token: secret")
              | None => Err (EFailed "parse refresh token: secret")
              end
       | _ => Err (EFailed "parse refresh token")
       end.

Section repositories.
Context `{Unicode, Crypto}.

Definition DigestRefreshSecret (secret pepper : string) : string := hmac_sha256 pepper secret.

Definition NewActionToken (ctx : ICtx) : string := ("ka1." +:+ EncodeToString (token_bytes ctx))%string.

Definition DigestActionToken (token pepper : string) : string :=
  sha256 (pepper +:+ String (Ascii.ascii_of_nat 0) (TrimSpace token))%string.

(** ** Users *)

(** The check constraints and the two unique indexes of [identity.users]. *)
Definition user_check (r : UserRow) : bool :=
  (3 <=? rune_count (u_Username r)) && (rune_count (u_Username r) <=? 32)
  && bool_decide (u_Role r ∈ ["admin"; "user"])
  && bool_decide (u_Status r ∈ [StatusActive; StatusPending; StatusDisabled])
  && (1 <=? u_TokenVersion r) && (0 <=? u_FailedLoginAttempts r).

Definition username_taken (db : IDB) (username : string) : bool :=
  exists_where (λ u, pg_lower (u_Username u) =?= pg_lower username) (users db).

Definition email_taken (db : IDB) (email : string) : bool :=
  exists_where (λ u, pg_lower (u_Email u) =?= pg_lower email) (users db).

(** [UserRepository.Create] with [mapCreateError]; the identifier comes from
    the sequence and a zero timestamp is filled in by GORM. *)
Definition CreateUser (ctx : ICtx) (user : User) : istore User :=
  db ← gets id;
  let stamp := λ t, if t =? zero_time then inow ctx else t in
  let record := toModel user |> set_u_ID (next_user db) in
  let record := MkUserRow (u_ID record) (u_Username record) (u_Email record) (u_PasswordHash record)
                  (u_Role record) (u_Status record) (u_TokenVersion record) (u_Avatar record)
                  (u_AvatarAttachmentID record) (u_Bio record) (u_FailedLoginAttempts record)
                  (u_LockedUntil record) (u_EmailVerifiedAt record)
                  (stamp (u_CreatedAt record)) (stamp (u_UpdatedAt record)) in
  require (user_check record) (EFailed "insert identity user") ≫= λ _,
  require (negb (username_taken db (u_Username record))) ErrUsernameConflict ≫= λ _,
  require (negb (email_taken db (u_Email record))) ErrEmailConflict ≫= λ _,
  modify (set_users (<[u_ID record := record]> (users db))) ≫= λ _,
  modify (set_next_user (next_user db + 1)) ≫= λ _,
  mret (fromModel record).

Definition find_user (f : IDB → option UserRow) : istore UserRow :=
  db ← gets id; expect ErrUserNotFound (f db).

Definition FindByID (i : Z) : istore User :=
  r ← find_user (λ db, users db !! i); mret (fromModel r).

Definition user_order : UserRow → UserRow → comparison := by_key u_ID Z.compare.

Definition FindByUsername (username : string) : istore User :=
  let username := ToLower (TrimSpace username) in
  r ← find_user (λ db, first_where (λ u, pg_lower (u_Username u) =?= username) user_order (users db));
  mret (fromModel r).

Definition FindByLogin (identifier : string) : istore User :=
  let identifier := ToLower (TrimSpace identifier) in
  r ← find_user (λ db, first_where (λ u, (pg_lower (u_Username u) =?= identifier)
                                          || (pg_lower (u_Email u) =?= identifier))
                         user_order (users db));
  mret (fromModel r).

(** [UPDATE identity.users ... WHERE id = i], checked against the constraints
    of the columns the code writes. *)
Definition save_user (operation : string) (r : UserRow) : istore unit :=
  require (user_check r) (EFailed operation) ≫= λ _,
  modify (λ db, set_users (<[u_ID r := r]> (users db)) db).

(** The row after one failed login. *)
Definition failure_row (failedAt lockUntil threshold : Z) (r : UserRow) : UserRow :=
  let locked := opt_test (λ t, after t failedAt) (u_LockedUntil r) in
  let expired := opt_test (λ t, negb (after t failedAt)) (u_LockedUntil r) in
  let attempts := if expired then 1 else u_FailedLoginAttempts r + 1 in
  r |> set_u_FailedLoginAttempts (if locked then u_FailedLoginAttempts r else attempts)
    |> set_u_LockedUntil (if locked then u_LockedUntil r
                          else if threshold <=? attempts then Some lockUntil else None)
    |> set_u_UpdatedAt failedAt.

Definition RecordLoginFailure (i failedAt lockUntil threshold : Z) : istore bool :=
  r ← find_user (λ db, users db !! i);
  let r := failure_row failedAt lockUntil threshold r in
  save_user "record identity login failure" r ≫= λ _,
  mret (opt_test (λ t, after t failedAt) (u_LockedUntil r)).

Definition success_row (completedAt : Z) (r : UserRow) : UserRow :=
  r |> set_u_FailedLoginAttempts 0 |> set_u_LockedUntil None |> set_u_UpdatedAt completedAt.

Definition CompleteLoginSuccess (i completedAt : Z) : istore User :=
  transaction (
    r ← find_user (λ db, users db !! i);
    if negb (CanEstablishSession (fromModel r)) || opt_test (λ t, after t completedAt) (u_LockedUntil r)
    then mret (fromModel r)
    else
      save_user "complete identity login success" (success_row completedAt r) ≫= λ _,
      mret (fromModel (success_row completedAt r))).

Definition verified_row (at_ : Z) (r : UserRow) : UserRow :=
  r |> set_u_EmailVerifiedAt (Some at_) |> set_u_Status StatusActive |> set_u_UpdatedAt at_.

Definition MarkEmailVerified (i verifiedAt : Z) : istore User :=
  transaction (
    r ← find_user (λ db, users db !! i);
    if is_none (u_EmailVerifiedAt r) then
      save_user "mark identity email verified" (verified_row verifiedAt r) ≫= λ _,
      mret (fromModel (verified_row verifiedAt r))
    else mret (fromModel r)).

Definition password_row (passwordHash : string) (at_ : Z) (r : UserRow) : UserRow :=
  r |> set_u_PasswordHash passwordHash |> set_u_TokenVersion (u_TokenVersion r + 1)
    |> set_u_FailedLoginAttempts 0 |> set_u_LockedUntil None |> set_u_UpdatedAt at_.

Definition UpdatePassword (i : Z) (passwordHash : string) (updatedAt : Z) : istore User :=
  transaction (
    r ← find_user (λ db, users db !! i);
    save_user "update identity password" (password_row passwordHash updatedAt r) ≫= λ _,
    mret (fromModel (password_row passwordHash updatedAt r))).

Definition disabled_row (at_ : Z) (r : UserRow) : UserRow :=
  r |> set_u_Status StatusDisabled |> set_u_TokenVersion (u_TokenVersion r + 1) |> set_u_UpdatedAt at_.

(** The user [i] unless it is disabled already. *)
Definition enabled_user (i : Z) (db : IDB) : option UserRow :=
  users db !! i ≫= λ r, if u_Status r =?= StatusDisabled then None else Some r.

Definition Deactivate (i at_ : Z) : istore unit :=
  r ← find_user (enabled_user i);
  save_user "deactivate identity user" (disabled_row at_ r).

(** [UPDATE identity.sessions SET revoked_at, revoked_reason WHERE user_id = i
    AND revoked_at IS NULL] *)
Definition revoke_row (reason : string) (at_ : Z) (r : SessionRow) : SessionRow :=
  r |> set_s_RevokedAt (Some at_) |> set_s_RevokedReason reason.

Definition revoke_user_sessions (i : Z) (reason : string) (at_ : Z) : istore unit :=
  modify (λ db, set_sessions
            (update_where (λ r, (s_UserID r =? i) && is_none (s_RevokedAt r)) (revoke_row reason at_)
               (sessions db)) db).

Definition DeactivateAndRevoke (i at_ : Z) : istore unit :=
  transaction (
    r ← find_user (enabled_user i);
    save_user "deactivate identity user" (disabled_row at_ r) ≫= λ _,
    revoke_user_sessions i "account_deactivated" at_).

(** ** Sessions *)

(** [security.SealEmailToken] *)
Definition SealEmailToken (ctx : ICtx) (token key : string) : option string :=
  gcm_seal (sha256 key) (nonce_bytes ctx) token.

Definition OpenEmailToken (payload key : string) : option string := gcm_open (sha256 key) payload.

(** The cipher text of a token, none without a key. *)
Definition sealed (operation : string) (ctx : ICtx) (token key : string) : istore string :=
  if key =?= EmptyString then mret EmptyString
  else expect (EFailed operation) (SealEmailToken ctx token key).

Definition CreateSession (key : string) (ctx : ICtx) (session : Session) : istore Session :=
  require (negb ((sv_ID session =?= EmptyString) || (sv_UserID session <=? 0)
                 || (len (sv_RefreshDigest session) =? 0)))
    (EFailed "create identity session") ≫= λ _,
  cipherText ← (if sv_CurrentRefreshToken session =?= EmptyString then mret EmptyString
                else sealed "seal identity refresh token" ctx (sv_CurrentRefreshToken session) key);
  let record := MkSessionRow (sv_ID session) (sv_UserID session) (sv_DeviceLabel session)
                  (sv_RefreshDigest session) EmptyString cipherText (sv_CreatedAt session)
                  (sv_LastSeenAt session) (sv_ExpiresAt session) None None EmptyString in
  db ← gets id;
  require (is_none (sessions db !! s_ID record)) (EFailed "insert identity session") ≫= λ _,
  modify (λ db, set_sessions (<[s_ID record := record]> (sessions db)) db) ≫= λ _,
  mret (fromSessionModel record).

Definition find_session (i : string) : istore SessionRow :=
  db ← gets id; expect ErrSessionNotFound (sessions db !! i).

Definition FindSession (i : string) : istore Session := r ← find_session i; mret (fromSessionModel r).

Definition save_session (r : SessionRow) : istore unit :=
  modify (λ db, set_sessions (<[s_ID r := r]> (sessions db)) db).

(** A session that may still be rotated. *)
Definition rotatable (now : Z) (r : SessionRow) : bool :=
  is_none (s_RevokedAt r) && after (s_ExpiresAt r) now.

(** The row after a rotation; [Rotate] leaves the cipher text alone. *)
Definition rotated_row (nextDigest : string) (now expires : Z) (r : SessionRow) : SessionRow :=
  r |> set_s_PreviousDigest (s_RefreshDigest r) |> set_s_RefreshDigest nextDigest
    |> set_s_LastSeenAt now |> set_s_ExpiresAt expires |> set_s_RotatedAt (Some now).

(** The previous token is accepted for [grace] after the rotation. *)
Definition in_grace (key currentDigest : string) (now grace : Z) (r : SessionRow) : bool :=
  opt_test (λ t, now - t <=? grace) (s_RotatedAt r) && (s_PreviousDigest r =?= currentDigest)
  && (0 <? len (s_RefreshTokenCipher r)) && negb (key =?= EmptyString).

Definition RotateWithGrace (key : string) (ctx : ICtx) (i currentDigest nextDigest nextToken : string)
  (now expires grace : Z) : istore Session :=
  transaction (
    record ← find_session i;
    require (rotatable now record) ErrSessionInvalid ≫= λ _,
    if s_RefreshDigest record =?= currentDigest then
      cipherText ← sealed "seal rotated identity refresh token" ctx nextToken key;
      let record := rotated_row nextDigest now expires record |> set_s_RefreshTokenCipher cipherText in
      save_session record ≫= λ _,
      mret (fromSessionModel record)
    else if in_grace key currentDigest now grace record then
      current ← expect (EFailed "open rotated identity refresh token")
                  (OpenEmailToken (s_RefreshTokenCipher record) key);
      mret (set_sv_CurrentRefreshToken current (fromSessionModel record))
    else
      save_session (revoke_row "refresh_replay" now record) ≫= λ _,
      fail ErrSessionReplay).

Definition Rotate (i currentDigest nextDigest : string) (now expires : Z) : istore Session :=
  transaction (
    record ← find_session i;
    require (rotatable now record) ErrSessionInvalid ≫= λ _,
    if s_RefreshDigest record =?= currentDigest then
      let record := rotated_row nextDigest now expires record in
      save_session record ≫= λ _,
      mret (fromSessionModel record)
    else
      save_session (revoke_row "refresh_replay" now record) ≫= λ _,
      fail ErrSessionReplay).

Definition Revoke (i reason : string) (now : Z) : istore unit :=
  db ← gets id;
  match sessions db !! i with
  | Some r => if is_none (s_RevokedAt r) then save_session (revoke_row reason now r)
              else fail ErrSessionNotFound
  | None => fail ErrSessionNotFound
  end.

Definition RevokeAll (userID : Z) (reason : string) (now : Z) : istore unit :=
  require (0 <? userID) (EFailed "revoke identity sessions") ≫= λ _,
  revoke_user_sessions userID reason now.

Definition session_order : SessionRow → SessionRow → comparison :=
  descending (by_key s_LastSeenAt Z.compare).

Definition ListSessions (userID now : Z) : istore (list Session) :=
  db ← gets id;
  mret (fromSessionModel <$>
        order_by session_order
          (rows_where (λ r, (s_UserID r =? userID) && rotatable now r) (sessions db))).

(** ** Action tokens *)

Definition classifyActionToken (action : ActionRow) (now : Z) : result ierror unit :=
  if is_some (a_UsedAt action) then Err ErrActionAlreadyUsed
  else if negb (after (a_ExpiresAt action) now) then Err ErrActionExpired
  else Ok tt.

Definition action_order : ActionRow → ActionRow → comparison := by_key a_ID String.compare.

Definition lockActionByDigest (kind digest : string) : istore ActionRow :=
  db ← gets id;
  expect ErrActionNotFound
    (first_where (λ a, (a_Kind a =?= kind) && (a_Digest a =?= digest)) action_order (actions db)).

Definition consumeLockedAction (action : ActionRow) (now : Z) : istore ActionRow :=
  lift (classifyActionToken action now) ≫= λ _,
  let action := set_a_UsedAt (Some now) action in
  modify (λ db, set_actions (<[a_ID action := action]> (actions db)) db) ≫= λ _,
  mret action.

(** The primary key and the unique index on the digest. *)
Definition insert_action (operation : string) (r : ActionRow) : istore unit :=
  db ← gets id;
  require (is_none (actions db !! a_ID r)
           && negb (exists_where (λ a, a_Digest a =?= a_Digest r) (actions db)))
    (EFailed operation) ≫= λ _,
  modify (λ db, set_actions (<[a_ID r := r]> (actions db)) db).

Definition insert_email (operation : string) (r : EmailRow) : istore unit :=
  db ← gets id;
  require (negb (exists_where (λ e, e_MessageID e =?= e_MessageID r) (emails db))) (EFailed operation)
  ≫= λ _,
  modify (set_emails (<[next_email db := set_e_ID (next_email db) r]> (emails db))) ≫= λ _,
  modify (set_next_email (next_email db + 1)).

Definition new_action (token : ActionToken) : ActionRow :=
  MkActionRow (av_ID token) (av_UserID token) (av_Kind token) (av_Digest token) (av_ExpiresAt token)
    None (av_CreatedAt token).

Definition new_email (ctx : ICtx) (message : EmailMessage) (ciphertext : string) (now : Z) : EmailRow :=
  MkEmailRow 0 (uuid_two ctx) 1 (em_Kind message) "zh-CN" (em_To message) (em_Subject message) ciphertext
    "pending" 0 now EmptyString None None None EmptyString EmptyString now now.

(** A token of the user and kind that could still be used. *)
Definition superseded (token : ActionToken) (now : Z) (a : ActionRow) : bool :=
  (a_UserID a =? av_UserID token) && (a_Kind a =?= av_Kind token) && is_none (a_UsedAt a)
  && after (a_ExpiresAt a) now.

Definition CreateAndEnqueue (key : string) (ctx : ICtx) (token : ActionToken) (message : EmailMessage)
  : istore unit :=
  require (negb (key =?= EmptyString)) (EFailed "create identity action email") ≫= λ _,
  ciphertext ← expect (EFailed "seal email token") (SealEmailToken ctx (em_Token message) key);
  let now := av_CreatedAt token in
  transaction (
    modify (λ db, set_actions (delete_where (superseded token now) (actions db)) db) ≫= λ _,
    insert_action "create identity action token" (new_action token) ≫= λ _,
    insert_email "enqueue identity email" (new_email ctx message ciphertext now)).

Definition CreateUserAndEnqueue (key : string) (ctx : ICtx) (user : User) (token : ActionToken)
  (message : EmailMessage) : istore User :=
  require (negb (key =?= EmptyString)) (EFailed "create identity user and email") ≫= λ _,
  ciphertext ← expect (EFailed "seal email token") (SealEmailToken ctx (em_Token message) key);
  let now := av_CreatedAt token in
  transaction (
    user ← CreateUser ctx user;
    insert_action "create identity action token" (new_action (set_av_UserID (uv_ID user) token)) ≫= λ _,
    insert_email "enqueue identity email" (new_email ctx message ciphertext now) ≫= λ _,
    mret user).

Definition ConsumeAndVerifyEmail (digest : string) (now : Z) : istore unit :=
  transaction (
    action ← lockActionByDigest ActionEmailVerification digest;
    action ← consumeLockedAction action now;
    user ← find_user (λ db, users db !! a_UserID action);
    if is_none (u_EmailVerifiedAt user)
    then save_user "mark identity email verified" (verified_row now user)
    else mret tt).

Definition ConsumeAndResetPassword (digest passwordHash : string) (now : Z) : istore unit :=
  transaction (
    action ← lockActionByDigest ActionPasswordReset digest;
    action ← consumeLockedAction action now;
    user ← find_user (λ db, users db !! a_UserID action);
    save_user "update identity password" (password_row passwordHash now user) ≫= λ _,
    revoke_user_sessions (a_UserID action) "password_reset" now).

Definition CreateAction (token : ActionToken) : istore unit :=
  require (negb ((av_ID token =?= EmptyString) || (av_UserID token <=? 0) || (av_Kind token =?= EmptyString)
                 || (len (av_Digest token) =? 0))) (EFailed "create identity action") ≫= λ _,
  insert_action "create identity action token" (set_a_UsedAt (av_UsedAt token) (new_action token)).

Definition recent_action : ActionRow → ActionRow → comparison :=
  then_by (descending (by_key a_CreatedAt Z.compare)) (by_key a_ID String.compare).

Definition LatestUnusedByKind (userID : Z) (kind : string) : istore ActionToken :=
  if (userID <=? 0) || (kind =?= EmptyString) then fail ErrActionNotFound
  else
    db ← gets id;
    r ← expect ErrActionNotFound
          (first_where (λ a, (a_UserID a =? userID) && (a_Kind a =?= kind) && is_none (a_UsedAt a))
             recent_action (actions db));
    mret (actionFromModel r).

Definition Consume (kind digest : string) (now : Z) : istore ActionToken :=
  transaction (
    action ← lockActionByDigest kind digest;
    action ← consumeLockedAction action now;
    mret (actionFromModel action)).

(** ** The e-mail outbox *)

Definition Enqueue (key : string) (ctx : ICtx) (message : EmailMessage) : istore unit :=
  ciphertext ← expect (EFailed "seal email token") (SealEmailToken ctx (em_Token message) key);
  insert_email "enqueue identity email" (new_email ctx message ciphertext (em_CreatedAt message)).

(** [WHERE sent_at IS NULL AND parked_at IS NULL AND next_attempt_at <= now AND
    (status = 'pending' OR (status = 'sending' AND lease_until < now))] *)
Definition email_due (now : Z) (e : EmailRow) : bool :=
  is_none (e_SentAt e) && is_none (e_ParkedAt e) && (e_NextAttemptAt e <=? now)
  && ((e_Status e =?= "pending")
      || ((e_Status e =?= "sending") && opt_test (λ t, t <? now) (e_LeaseUntil e))).

Definition email_order : EmailRow → EmailRow → comparison :=
  then_by (by_key e_CreatedAt Z.compare) (by_key e_ID Z.compare).

Definition claimed_email (ctx : ICtx) (e : EmailRow) : EmailRow :=
  let leaseUntil := inow ctx + 90 * Second in
  e |> set_e_MessageID (if e_MessageID e =?= EmptyString then uuid_one ctx else e_MessageID e)
    |> set_e_Attempts (e_Attempts e + 1) |> set_e_Status "sending" |> set_e_LeaseOwner (uuid_two ctx)
    |> set_e_LeaseUntil (Some leaseUntil) |> set_e_NextAttemptAt leaseUntil |> set_e_UpdatedAt (inow ctx).

Definition save_email (e : EmailRow) : istore unit :=
  modify (λ db, set_emails (<[e_ID e := e]> (emails db)) db).

Definition ClaimEmail (ctx : ICtx) : istore EmailRow :=
  transaction (
    db ← gets id;
    record ← expect ErrOutboxEmpty (first_where (email_due (inow ctx)) email_order (emails db));
    let record := claimed_email ctx record in
    save_email record ≫= λ _,
    mret record).

Definition MarkSent (i at_ : Z) : istore unit :=
  db ← gets id;
  match emails db !! i with
  | Some e =>
    if is_none (e_SentAt e) && is_none (e_ParkedAt e) then
      save_email (e |> set_e_Status "sent" |> set_e_SentAt (Some at_) |> set_e_LeaseOwner EmptyString
                    |> set_e_LeaseUntil None |> set_e_LastError EmptyString
                    |> set_e_LastErrorCode EmptyString |> set_e_UpdatedAt at_)
    else fail (EFailed "mark identity email sent")
  | None => fail (EFailed "mark identity email sent")
  end.

Definition MarkFailed (i : Z) (message : string) (now delay : Z) : istore unit :=
  db ← gets id;
  e ← expect (EFailed "load identity email failure") (emails db !! i);
  let parked := 8 <=? e_Attempts e in
  save_email (e |> set_e_Status (if parked then "parked" else "pending")
                |> set_e_ParkedAt (if parked then Some now else None)
                |> set_e_LastError message |> set_e_LastErrorCode "smtp_send_failed"
                |> set_e_LeaseOwner EmptyString |> set_e_LeaseUntil None
                |> set_e_NextAttemptAt (now + delay) |> set_e_UpdatedAt now).

(** [email.backoff] *)
Definition backoff (attempts : Z) : Z :=
  let attempts := Z.min 8 (Z.max 1 attempts) in
  let delay := Z.shiftl 1 (attempts - 1) * (30 * Second) in
  if Hour <? delay then Hour else delay.

(** One pass of the mail worker; [send] is the SMTP exchange, which sees the
    opened token, and a worker without a host does nothing. *)
Definition process (host key : string) (ctx : ICtx) (send : EmailRow → string → result string unit)
  : istore unit :=
  if host =?= EmptyString then mret tt
  else
    claimed ← attempt (ClaimEmail ctx);
    match claimed with
    | Err _ => mret tt
    | Ok record =>
      let outcome := match OpenEmailToken (e_TokenCipher record) key with
                     | None => Err "open email payload"
                     | Some token => send record token
                     end in
      attempt (match outcome with
               | Ok _ => MarkSent (e_ID record) (inow ctx)
               | Err message => MarkFailed (e_ID record) message (inow ctx) (backoff (e_Attempts record))
               end) ≫= λ (_ : result ierror unit), mret tt
    end.

End repositories.
