(* ===== verification/ILogic.v ===== *)
(** The identity service's request logic: [services/identity/internal/logic]
    ([register.go], [authenticate.go], [session.go], [action.go],
    [get_user.go]), [internal/domain/user.go] and [internal/errors/catalog.go].

    The type assertions by which the logic finds the atomic operations of the
    PostgreSQL repositories are the flag [atomic]: true for those repositories,
    false for a repository that only has the basic interface. *)

From stdpp Require Import base gmap list sets strings.
From Stdlib Require Import ZArith Lia.
From S2P Require Import Prelude.
From S2P Require Import GoStrings.
From S2P Require Import Base64.
From S2P Require Import ISchema.
From S2P Require Import IStore.

Open Scope Z_scope.

(** The definitions of [internal/errors/catalog.go] *)
Inductive icode :=
| IInvalidInput | IUsernameConflict | IEmailConflict | IInvalidCredentials | IAccountLocked
| IUserDisabled | IUserNotFound | IUnauthenticated | IForbidden | IEmailNotVerified
| IActionExpired | IActionAlreadyUsed | IVerificationCooldown | IUnimplemented | IInternal.

(** A definition, with the error it wraps and the retry hint it carries, or an
    error returned without a definition. *)
Inductive idlerror :=
| IApp (code : icode) (cause : option ierror)
| ICooldown (retryAfter : Z)
| IRaw (e : ierror).

#[export] Instance icode_eq_dec : EqDecision icode.
Proof. solve_decision. Defined.

#[export] Instance idlerror_eq_dec : EqDecision idlerror.
Proof. solve_decision. Defined.

Definition ilogic (A : Type) : Type := tx IDB idlerror A.

Definition refuse {A} (code : icode) : ilogic A := fail (IApp code None).

(** [if err != nil { return fmt.Errorf("...: %w", err) }] *)
Definition raw {A} (m : istore A) : ilogic A := wrap IRaw m.

Definition coded {A} (code : icode) (m : istore A) : ilogic A := wrap (λ e, IApp code (Some e)) m.

(** ** Domain *)

(** [^[A-Za-z0-9_-]+$] *)
Definition usernamePattern (s : string) : bool :=
  (0 <? len s)
  && forallb (λ b, in_range 65 90 b || in_range 97 122 b || in_range 48 57 b || (b =? 95) || (b =? 45)) (bytes s).

Definition iinvalid {A} (field reason : string) : result ierror A := Err (EInvalid field reason).

Definition ValidateUsername (username : string) : result ierror unit :=
  if (len username <? 3) || (32 <? len username)
  then iinvalid "username" "must contain between 3 and 32 characters"
  else if negb (usernamePattern username)
  then iinvalid "username" "may contain only letters, numbers, underscores, and hyphens"
  else Ok tt.

Definition ValidatePassword (password : string) : result ierror unit :=
  if (len password <? 8) || (72 <? len password)
  then iinvalid "password" "must contain between 8 and 72 bytes" else Ok tt.

(** What the logic is configured with. *)
Record IConfig := MkIConfig {
  pepper : string;
  tokenKey : string;
  absoluteTTL : Z;
  idleTTL : Z;
  actionTTL : Z;
  failureThreshold : Z;
  lockDuration : Z;
}.

Definition refreshGrace : Z := 10 * Second.

Record SessionAuthentication := MkSessionAuthentication {
  sa_User : User;
  sa_AccessToken : string;
  sa_RefreshToken : string;
  sa_SessionID : string;
}.

Section logic.
Context `{Unicode, Crypto}.

Definition ValidateEmail (email : string) : result ierror unit :=
  if (email =?= EmptyString) || (320 <? len email) then iinvalid "email" "must be a valid email address"
  else match mail_address email with
       | Some (name, address) =>
         if negb (name =?= EmptyString) || negb (EqualFold address email)
         then iinvalid "email" "must be a valid email address" else Ok tt
       | None => iinvalid "email" "must be a valid email address"
       end.

Definition NewUser (username email : string) : result ierror User :=
  let username := TrimSpace username in
  let email := ToLower (TrimSpace email) in
  ValidateUsername username ≫= λ _,
  ValidateEmail email ≫= λ _,
  Ok (MkUser 0 username email EmptyString RoleUser StatusPending 1 EmptyString EmptyString EmptyString
        0 None None zero_time zero_time).

(** ** Registration *)

Definition mapRegisterCreateError (e : ierror) : idlerror :=
  match e with
  | ErrUsernameConflict => IApp IUsernameConflict (Some e)
  | ErrEmailConflict => IApp IEmailConflict (Some e)
  | _ => IRaw e
  end.

(** [verification] tells whether registration sends a verification mail. *)
Definition Register (cfg : IConfig) (verification : bool) (ctx : ICtx) (username email password : string)
  : ilogic User :=
  coded IInvalidInput (lift (ValidatePassword password)) ≫= λ _,
  user ← coded IInvalidInput (lift (NewUser username email));
  hash ← raw (expect (EFailed "hash identity password") (bcrypt_hash password));
  let user := set_uv_PasswordHash hash user in
  if verification then
    let token := NewActionToken ctx in
    let now := inow ctx in
    let entry := MkActionToken (uuid_one ctx) (uv_ID user) ActionEmailVerification
                   (DigestActionToken token (pepper cfg)) (now + actionTTL cfg) None now in
    let message := MkEmailMessage ActionEmailVerification (uv_Email user) "Verify your email" token now in
    wrap mapRegisterCreateError (CreateUserAndEnqueue (tokenKey cfg) ctx user entry message)
  else wrap mapRegisterCreateError (CreateUser ctx user).

(** ** Sessions *)

Definition normalizeDeviceLabel (value : string) : string :=
  let value := TrimSpace value in
  if value =?= EmptyString then "Unknown device"
  else if 120 <? len value then slice_to 120 value else value.

Definition issue_access (operation : string) (user : User) (sessionID : string) : ilogic string :=
  raw (expect (EFailed operation) (sign_token (uv_ID user) (uv_Role user) (uv_TokenVersion user) sessionID)).

(** [SessionLogic.Create] *)
Definition EstablishSession (cfg : IConfig) (ctx : ICtx) (user : User) (deviceLabel : string)
  : ilogic SessionAuthentication :=
  if (uv_ID user <=? 0) || negb (CanEstablishSession user) then refuse IUserDisabled
  else
    let now := inow ctx in
    let refresh := NewRefreshToken ctx in
    encoded ← raw (lift (EncodeRefreshToken refresh));
    let expires := Z.min (now + absoluteTTL cfg) (now + idleTTL cfg) in
    let session := MkSession (SessionID refresh) (uv_ID user) (normalizeDeviceLabel deviceLabel)
                     (DigestRefreshSecret (Secret refresh) (pepper cfg)) EmptyString encoded
                     now now expires None None EmptyString in
    session ← raw (CreateSession (tokenKey cfg) ctx session);
    access ← issue_access "issue identity access token" user (sv_ID session);
    mret (MkSessionAuthentication user access encoded (sv_ID session)).

(** [SessionLogic.Refresh] *)
Definition Refresh (cfg : IConfig) (graceful : bool) (ctx : ICtx) (encoded : string)
  : ilogic SessionAuthentication :=
  refresh ← coded IUnauthenticated (lift (ParseRefreshToken (TrimSpace encoded)));
  let now := inow ctx in
  session ← coded IUnauthenticated (FindSession (SessionID refresh));
  require (negb ((sv_UserID session <=? 0) || negb (SessionIsActive session now)))
    (IApp IUnauthenticated None) ≫= λ _,
  user ← coded IUnauthenticated (FindByID (sv_UserID session));
  require (CanEstablishSession user) (IApp IUserDisabled None) ≫= λ _,
  let next := NewRefreshToken ctx in
  nextEncoded ← raw (lift (EncodeRefreshToken next));
  let nextExpires := Z.min (sv_CreatedAt session + absoluteTTL cfg) (now + idleTTL cfg) in
  let current := DigestRefreshSecret (Secret refresh) (pepper cfg) in
  let following := DigestRefreshSecret (Secret next) (pepper cfg) in
  rotated ← coded IUnauthenticated
              (if graceful
               then RotateWithGrace (tokenKey cfg) ctx (sv_ID session) current following nextEncoded
                      now nextExpires refreshGrace
               else Rotate (sv_ID session) current following now nextExpires);
  access ← issue_access "issue refreshed identity access token" user (sv_ID rotated);
  let refreshToken := if sv_CurrentRefreshToken rotated =?= EmptyString then nextEncoded
                      else sv_CurrentRefreshToken rotated in
  mret (MkSessionAuthentication user access refreshToken (sv_ID rotated)).

Definition LogicListSessions (ctx : ICtx) (userID : Z) : ilogic (list Session) :=
  if userID <=? 0 then refuse IInvalidInput else raw (ListSessions userID (inow ctx)).

(** [SessionLogic.Revoke] *)
Definition RevokeSession (ctx : ICtx) (userID : Z) (sessionID reason : string) : ilogic unit :=
  if (userID <=? 0) || (TrimSpace sessionID =?= EmptyString) then refuse IInvalidInput
  else
    found ← attempt (FindSession (TrimSpace sessionID));
    match found with
    | Ok session =>
      if sv_UserID session =? userID then coded IUserNotFound (Revoke (sv_ID session) reason (inow ctx))
      else refuse IUserNotFound
    | Err _ => refuse IUserNotFound
    end.

Definition RevokeAllSessions (ctx : ICtx) (userID : Z) (reason : string) : ilogic unit :=
  if userID <=? 0 then refuse IInvalidInput else raw (RevokeAll userID reason (inow ctx)).

(** ** Logging in *)

(** [AuthenticateLogic.Authenticate]; [with_sessions] tells whether a session
    logic is configured.  An unknown user costs a comparison too, whose outcome
    is not used. *)
Definition Authenticate (cfg : IConfig) (with_sessions : bool) (ctx : ICtx)
  (dummyHash identifier password : string) : ilogic SessionAuthentication :=
  let identifier := TrimSpace identifier in
  if (identifier =?= EmptyString) || (320 <? len identifier) || (password =?= EmptyString)
     || (72 <? len password)
  then refuse IInvalidCredentials
  else
    found ← attempt (FindByLogin identifier);
    match found with
    | Err ErrUserNotFound =>
      match bcrypt_compare dummyHash password with
      | None => fail (IRaw (EFailed "compare identity dummy password"))
      | Some _ => fail (IApp IInvalidCredentials (Some ErrUserNotFound))
      end
    | Err e => fail (IRaw e)
    | Ok user =>
      let now := inow ctx in
      match bcrypt_compare (uv_PasswordHash user) password with
      | None => fail (IRaw (EFailed "compare identity password"))
      | Some matched =>
        if IsLocked user now then refuse IAccountLocked
        else if negb matched then
          if negb (CanEstablishSession user) then refuse IInvalidCredentials
          else
            locked ← raw (RecordLoginFailure (uv_ID user) now (now + lockDuration cfg) (failureThreshold cfg));
            if locked : bool then refuse IAccountLocked else refuse IInvalidCredentials
        else
          user ← raw (CompleteLoginSuccess (uv_ID user) now);
          if negb (CanEstablishSession user) then refuse IUserDisabled
          else if IsLocked user now then refuse IAccountLocked
          else if with_sessions then EstablishSession cfg ctx user EmptyString
          else
            access ← issue_access "issue identity access token" user EmptyString;
            mret (MkSessionAuthentication user access EmptyString EmptyString)
      end
    end.

(** ** Actions *)

Definition mapActionTokenError (e : ierror) : idlerror :=
  match e with
  | ErrActionNotFound => IApp IInvalidInput (Some e)
  | ErrActionExpired => IApp IActionExpired (Some e)
  | ErrActionAlreadyUsed => IApp IActionAlreadyUsed (Some e)
  | _ => IRaw e
  end.

(** [ActionLogic.issue] *)
Definition issue_action (cfg : IConfig) (atomic : bool) (ctx : ICtx) (user : User) (kind subject : string)
  : ilogic unit :=
  if uv_ID user <=? 0 then refuse IUserNotFound
  else
    let token := NewActionToken ctx in
    let now := inow ctx in
    let entry := MkActionToken (uuid_one ctx) (uv_ID user) kind (DigestActionToken token (pepper cfg))
                   (now + actionTTL cfg) None now in
    let message := MkEmailMessage kind (uv_Email user) subject token now in
    if atomic then raw (CreateAndEnqueue (tokenKey cfg) ctx entry message)
    else raw (CreateAction entry) ≫= λ _, raw (Enqueue (tokenKey cfg) ctx message).

Inductive VerificationStatus :=
| Verified
| Pending (expiresAt retryAfterSeconds : Z)
| Idle.

#[export] Instance VerificationStatus_eq_dec : EqDecision VerificationStatus.
Proof. solve_decision. Defined.

(** [d.Round(time.Second) / time.Second] of a positive duration: halves round
    up. *)
Definition round_seconds (d : Z) : Z := (d + Second / 2) / Second.

Definition EmailVerificationStatus (ctx : ICtx) (user : User) : ilogic VerificationStatus :=
  if uv_ID user <=? 0 then refuse IInvalidInput
  else if is_some (uv_EmailVerifiedAt user) then mret Verified
  else
    found ← attempt (LatestUnusedByKind (uv_ID user) ActionEmailVerification);
    match found with
    | Err ErrActionNotFound => mret Idle
    | Err e => fail (IRaw e)
    | Ok token =>
      let now := inow ctx in
      if negb (after (av_ExpiresAt token) now) then mret Idle
      else mret (Pending (av_ExpiresAt token)
                   (Z.max 1 (wrap32 (round_seconds (av_ExpiresAt token - now)))))
    end.

Definition RequestEmailVerification (cfg : IConfig) (atomic : bool) (ctx : ICtx) (user : User)
  : ilogic VerificationStatus :=
  if uv_ID user <=? 0 then refuse IUnauthenticated
  else if uv_Status user =?= StatusDisabled then refuse IUserDisabled
  else
    status ← EmailVerificationStatus ctx user;
    match status with
    | Verified => mret Verified
    | Pending _ seconds => fail (ICooldown seconds)
    | Idle =>
      issue_action cfg atomic ctx user ActionEmailVerification "Verify your email" ≫= λ _,
      EmailVerificationStatus ctx user
    end.

(** The user lookup after [Consume] maps a missing user to invalid input. *)
Definition user_missing (e : ierror) : idlerror :=
  match e with ErrUserNotFound => IApp IInvalidInput (Some e) | _ => IRaw e end.

Definition VerifyEmail (cfg : IConfig) (atomic : bool) (ctx : ICtx) (token : string) : ilogic unit :=
  let token := TrimSpace token in
  if token =?= EmptyString then refuse IInvalidInput
  else
    let now := inow ctx in
    let digest := DigestActionToken token (pepper cfg) in
    if atomic then wrap mapActionTokenError (ConsumeAndVerifyEmail digest now)
    else
      entry ← wrap mapActionTokenError (Consume ActionEmailVerification digest now);
      wrap user_missing (MarkEmailVerified (av_UserID entry) now) ≫= λ _, mret tt.

(** Every failure of the lookup is answered with success. *)
Definition RequestPasswordReset (cfg : IConfig) (atomic : bool) (ctx : ICtx) (identifier : string)
  : ilogic unit :=
  found ← attempt (FindByLogin (TrimSpace identifier));
  match found with
  | Err _ => mret tt
  | Ok user =>
    if uv_Status user =?= StatusDisabled then mret tt
    else issue_action cfg atomic ctx user ActionPasswordReset "Reset your password"
  end.

Definition ResetPassword (cfg : IConfig) (atomic : bool) (ctx : ICtx) (token password : string) : ilogic unit :=
  coded IInvalidInput (lift (ValidatePassword password)) ≫= λ _,
  let token := TrimSpace token in
  if token =?= EmptyString then refuse IInvalidInput
  else
    hash ← raw (expect (EFailed "hash identity reset password") (bcrypt_hash password));
    let now := inow ctx in
    let digest := DigestActionToken token (pepper cfg) in
    if atomic then wrap mapActionTokenError (ConsumeAndResetPassword digest hash now)
    else
      entry ← wrap mapActionTokenError (Consume ActionPasswordReset digest now);
      wrap user_missing (UpdatePassword (av_UserID entry) hash now) ≫= λ _, mret tt.

(** [ActionLogic.Deactivate] *)
Definition DeactivateAccount (atomic : bool) (ctx : ICtx) (userID : Z) (password : string) : ilogic unit :=
  found ← attempt (FindByID userID);
  match found with
  | Err _ => refuse IUnauthenticated
  | Ok user =>
    match bcrypt_compare (uv_PasswordHash user) password with
    | None => fail (IRaw (EFailed "compare identity deactivation password"))
    | Some false => refuse IInvalidCredentials
    | Some true =>
      let at_ := inow ctx in
      if atomic then raw (DeactivateAndRevoke userID at_)
      else raw (Deactivate userID at_) ≫= λ _, raw (RevokeAll userID "account_deactivated" at_)
    end
  end.

(** ** Reading users *)

Definition user_not_found (e : ierror) : idlerror :=
  match e with ErrUserNotFound => IApp IUserNotFound (Some e) | _ => IRaw e end.

(** [GetUserLogic.ResolveUser] *)
Definition ResolveUsername (username : string) : ilogic User :=
  coded IInvalidInput (lift (ValidateUsername username)) ≫= λ _,
  wrap user_not_found (FindByUsername username).

Definition GetUser (i : Z) : ilogic User :=
  coded IInvalidInput (lift (if i <=? 0 then iinvalid "id" "must be positive" else Ok tt)) ≫= λ _,
  wrap user_not_found (FindByID i).

End logic.
