(* ===== verification/ITokens.v ===== *)
(** Refresh tokens are read back exactly as they were written. *)

From stdpp Require Import base gmap list sets strings.
From Stdlib Require Import ZArith Lia.
From S2P Require Import Prelude.
From S2P Require Import GoStrings.
From S2P Require Import Base64.
From S2P Require Import ISchema.
From S2P Require Import IStore.

Open Scope Z_scope.

(** ** Splitting and joining at a byte *)

(** The parts of a byte string joined again. *)
Fixpoint join_bytes (sep : Z) (parts : list (list Z)) : list Z :=
  match parts with
  | [] => []
  | [p] => p
  | p :: rest => p ++ sep :: join_bytes sep rest
  end.

Lemma split_bytes_nonempty sep bs cur : split_bytes sep bs cur ≠ [].
Proof. revert cur. induction bs as [|b bs IH]; intros cur; simpl; [done|]. case_match; [done|apply IH]. Qed.

Lemma join_split sep bs cur : join_bytes sep (split_bytes sep bs cur) = cur ++ bs.
Proof.
  revert cur. induction bs as [|b bs IH]; intros cur; simpl; [by rewrite app_nil_r|].
  destruct (b =? sep) eqn:E.
  - apply Z.eqb_eq in E as ->. specialize (IH []).
    destruct (split_bytes sep bs []) as [|p l] eqn:Hs; [by apply split_bytes_nonempty in Hs|].
    change (cur ++ sep :: join_bytes sep (p :: l) = cur ++ sep :: bs). by rewrite IH.
  - rewrite IH, <-app_assoc. done.
Qed.

Lemma split_plain sep p cur : sep ∉ p → split_bytes sep p cur = [cur ++ p].
Proof.
  revert cur. induction p as [|b p IH]; intros cur Hp; simpl; [by rewrite app_nil_r|].
  rewrite (proj2 (Z.eqb_neq b sep)) by set_solver. rewrite IH by set_solver. by rewrite <-app_assoc.
Qed.

Lemma split_first sep p rest cur :
  sep ∉ p → split_bytes sep (p ++ sep :: rest) cur = (cur ++ p) :: split_bytes sep rest [].
Proof.
  revert cur. induction p as [|b p IH]; intros cur Hp; simpl.
  - by rewrite Z.eqb_refl, app_nil_r.
  - rewrite (proj2 (Z.eqb_neq b sep)) by set_solver. rewrite IH by set_solver. by rewrite <-app_assoc.
Qed.

(** The base64 alphabet has no full stop. *)
Lemma enc_char_not_dot v : sextet v → enc_char v ≠ 46.
Proof. unfold sextet, enc_char. intros. repeat case_match; lia. Qed.

Lemma encode64_no_dot bs : Forall is_byte bs → 46 ∉ encode64 bs.
Proof.
  intros Hb.
  assert (Forall (λ c, c ≠ 46) (encode64 bs)) as Hf.
  { induction bs as [|a|a b|a b c l IH] using triple_ind; bytes_of Hb; cbn [encode64];
      repeat (constructor; [apply enc_char_not_dot; unfold sextet; euclid|]); auto. }
  rewrite Forall_forall in Hf. intros Hin. by apply (Hf 46 Hin).
Qed.

Lemma encoded_no_dot p : 46 ∉ bytes (EncodeToString p).
Proof. rewrite bytes_EncodeToString. apply encode64_no_dot, bytes_range. Qed.

(** A token as its three parts. *)
Lemma bytes_token t text :
  EncodeRefreshToken t = Ok text →
  bytes text = bytes refreshTokenPrefix ++ 46 :: bytes (SessionID t) ++ 46 :: bytes (Secret t).
Proof.
  unfold EncodeRefreshToken. case_match; [done|]. intros [= <-]. cbn [Join].
  rewrite !bytes_app. done.
Qed.

Lemma EncodeToString_length p : 3 * len (EncodeToString p) <= 4 * len p + 2.
Proof.
  unfold len. rewrite bytes_EncodeToString.
  pose proof (encode64_length (bytes p)). lia.
Qed.

Lemma of_bytes_parts a b c :
  46 ∉ a → 46 ∉ b → 46 ∉ c → split_bytes 46 (a ++ 46 :: b ++ 46 :: c) [] = [a; b; c].
Proof. intros Ha Hb Hc. by rewrite split_first, split_first, split_plain. Qed.

Lemma len_empty s : len s = 0 → s = EmptyString.
Proof.
  unfold len. intros Hl. rewrite <-(of_bytes_bytes s). destruct (bytes s); [done|simpl in Hl; lia].
Qed.

(** A fresh token of 16 and 32 random bytes is read back. *)
Lemma new_token_parsed ctx :
  len (session_bytes ctx) = 16 → len (secret_bytes ctx) = 32 →
  ∃ text, EncodeRefreshToken (NewRefreshToken ctx) = Ok text ∧
    ParseRefreshToken text = Ok (NewRefreshToken ctx).
Proof.
  intros Hs Hk.
  assert (EncodeToString (session_bytes ctx) ≠ EmptyString) as Hns
    by (intros E%EncodeToString_empty; rewrite E in Hs; done).
  assert (EncodeToString (secret_bytes ctx) ≠ EmptyString) as Hnk
    by (intros E%EncodeToString_empty; rewrite E in Hk; done).
  assert (∃ text, EncodeRefreshToken (NewRefreshToken ctx) = Ok text) as [text He].
  { unfold EncodeRefreshToken, NewRefreshToken. cbn [SessionID Secret].
    rewrite !bool_decide_false by done. by eexists. }
  exists text. split; [done|]. pose proof (bytes_token _ _ He) as Hb.
  cbn [NewRefreshToken SessionID Secret] in Hb.
  pose proof (EncodeToString_length (session_bytes ctx)) as Hls.
  pose proof (EncodeToString_length (secret_bytes ctx)) as Hlk.
  assert (len text = 5 + len (EncodeToString (session_bytes ctx)) + len (EncodeToString (secret_bytes ctx)))
    as Hlt.
  { unfold len at 1. rewrite Hb, !length_app. cbn [length]. rewrite length_app. cbn [length]. unfold len.
    change (length (bytes refreshTokenPrefix)) with 3%nat. lia. }
  unfold ParseRefreshToken, maxRefreshLength.
  rewrite bool_decide_false by (intros ->; unfold len at 1 in Hlt; simpl in Hlt; unfold len in *; lia).
  rewrite (proj2 (Z.ltb_ge 256 (len text))) by lia. cbn [orb].
  unfold SplitByte. rewrite Hb, of_bytes_parts by first [apply encoded_no_dot|by vm_compute; set_solver].
  cbn [fmap list_fmap]. rewrite !of_bytes_bytes.
  rewrite bool_decide_true, !bool_decide_false by done. cbn [negb orb].
  rewrite !DecodeString_EncodeToString. cbn [is_none is_some negb].
  rewrite Hk. done.
Qed.

(** Such a token is written with visible characters only. *)
Lemma new_token_trimmed ctx text :
  EncodeRefreshToken (NewRefreshToken ctx) = Ok text → TrimSpace text = text.
Proof.
  intros He. apply TrimSpace_visible. rewrite (bytes_token _ _ He). cbn [NewRefreshToken SessionID Secret].
  rewrite !bytes_EncodeToString. apply forallb_forall. intros b Hb%list_elem_of_In.
  pose proof (encode64_visible _ (bytes_range (session_bytes ctx))) as H1. rewrite Forall_forall in H1.
  pose proof (encode64_visible _ (bytes_range (secret_bytes ctx))) as H2. rewrite Forall_forall in H2.
  unfold in_range. apply andb_true_iff. rewrite !Z.leb_le.
  rewrite elem_of_app, !elem_of_cons, elem_of_app, elem_of_cons in Hb.
  destruct Hb as [Hb|[->|[Hb|[->|Hb]]]]; [|lia|by specialize (H1 b Hb); simpl in H1; lia|lia|by specialize (H2 b Hb); simpl in H2; lia].
  revert Hb. vm_compute (bytes refreshTokenPrefix). rewrite !elem_of_cons, elem_of_nil. lia.
Qed.

(** Refresh tokens round-trip in both directions: a fresh token of 16
    and 32 random bytes is encoded and parsed back to itself, and whatever text
    the service accepts as a refresh token is the encoding of the token it
    reads. *)
Theorem refresh_token_roundtrip ctx :
  (len (session_bytes ctx) = 16 → len (secret_bytes ctx) = 32 →
   ∃ text, EncodeRefreshToken (NewRefreshToken ctx) = Ok text ∧
     ParseRefreshToken text = Ok (NewRefreshToken ctx)) ∧
  (∀ text t, ParseRefreshToken text = Ok t → EncodeRefreshToken t = Ok text).
Proof.
  split.
  - apply new_token_parsed.
  - intros text t. unfold ParseRefreshToken. case_match; [done|].
    unfold SplitByte. destruct (split_bytes 46 (bytes text) []) as [|a [|b [|c [|]]]] eqn:Hsp; try done.
    pose proof (join_split 46 (bytes text) []) as Hj. rewrite Hsp in Hj. cbn [join_bytes app] in Hj.
    cbn [fmap list_fmap]. repeat (case_match; try done). intros [= <-].
    unfold EncodeRefreshToken. cbn [SessionID Secret].
    match goal with Hg : _ || _ || _ = false |- _ => apply orb_false_iff in Hg as [[Hp Hs]%orb_false_iff Hc] end.
    rewrite Hs, Hc. cbn [orb Join]. f_equal. rewrite <-(of_bytes_bytes text), <-Hj, of_bytes_app.
    apply negb_false_iff, bool_decide_eq_true in Hp. rewrite Hp.
    change (46 :: b ++ 46 :: c) with ([46] ++ b ++ [46] ++ c). by rewrite !of_bytes_app.
Qed.

Lemma refresh_token_roundtrip_witness :
  let ctx := MkICtx 0 "0123456789abcdef" "0123456789abcdef0123456789abcdef" EmptyString EmptyString
               EmptyString EmptyString in
  ∃ text, EncodeRefreshToken (NewRefreshToken ctx) = Ok text ∧
    ParseRefreshToken text = Ok (NewRefreshToken ctx).
Proof. intros ctx. apply (refresh_token_roundtrip ctx); by vm_compute. Defined.
