(* ===== verification/IWorld.v ===== *)
(** The identity service as a transition system, and what every one of its
    requests keeps: how sessions, accounts and action tokens may change
    ([life]). *)

From stdpp Require Import base gmap list sets strings relations.
From Stdlib Require Import ZArith Lia.
From S2P Require Import Prelude.
From S2P Require Import GoStrings.
From S2P Require Import Base64.
From S2P Require Import ISchema.
From S2P Require Import IStore.
From S2P Require Import ILogic.

Open Scope Z_scope.

(** The calls of the service and the passes of its mail worker.  The flags say
    which of the optional interfaces the repositories have. *)
Inductive irequest :=
| IReqRegister (verification : bool) (ctx : ICtx) (username email password : string)
| IReqLogin (with_sessions : bool) (ctx : ICtx) (dummy identifier password : string)
| IReqRefresh (graceful : bool) (ctx : ICtx) (encoded : string)
| IReqRevoke (ctx : ICtx) (userID : Z) (sessionID reason : string)
| IReqRevokeAll (ctx : ICtx) (userID : Z) (reason : string)
| IReqVerification (atomic : bool) (ctx : ICtx) (user : User)
| IReqVerifyEmail (atomic : bool) (ctx : ICtx) (token : string)
| IReqReset (atomic : bool) (ctx : ICtx) (identifier : string)
| IReqResetPassword (atomic : bool) (ctx : ICtx) (token password : string)
| IReqDeactivate (atomic : bool) (ctx : ICtx) (userID : Z) (password : string)
| IReqMail (host : string) (ctx : ICtx) (send : EmailRow → string → result string unit).

Section world.
Context `{Unicode, Crypto}.

Definition run_irequest (cfg : IConfig) (r : irequest) (s : IDB) : IDB :=
  match r with
  | IReqRegister v ctx username email password => (Register cfg v ctx username email password s).1
  | IReqLogin w ctx dummy identifier password => (Authenticate cfg w ctx dummy identifier password s).1
  | IReqRefresh g ctx encoded => (Refresh cfg g ctx encoded s).1
  | IReqRevoke ctx userID sessionID reason => (RevokeSession ctx userID sessionID reason s).1
  | IReqRevokeAll ctx userID reason => (RevokeAllSessions ctx userID reason s).1
  | IReqVerification a ctx user => (RequestEmailVerification cfg a ctx user s).1
  | IReqVerifyEmail a ctx token => (VerifyEmail cfg a ctx token s).1
  | IReqReset a ctx identifier => (RequestPasswordReset cfg a ctx identifier s).1
  | IReqResetPassword a ctx token password => (ResetPassword cfg a ctx token password s).1
  | IReqDeactivate a ctx userID password => (DeactivateAccount a ctx userID password s).1
  | IReqMail host ctx send => (process host (tokenKey cfg) ctx send s).1
  end.

Definition empty_idb : IDB := MkIDB ∅ ∅ ∅ ∅ 1 1.

Definition istep (cfg : IConfig) (s t : IDB) : Prop := ∃ r, t = run_irequest cfg r s.

Definition ireachable (cfg : IConfig) (s : IDB) : Prop := rtc (istep cfg) empty_idb s.

(** ** How rows change *)

Definition in_lifetime (cfg : IConfig) (r : SessionRow) : Prop :=
  s_ExpiresAt r <= s_CreatedAt r + absoluteTTL cfg.

(** A session keeps its identity and its start, stays within its lifetime, and
    does not change at all once it is revoked. *)
Record evolves (cfg : IConfig) (r r' : SessionRow) : Prop := {
  ev_id : s_ID r' = s_ID r;
  ev_user : s_UserID r' = s_UserID r;
  ev_created : s_CreatedAt r' = s_CreatedAt r;
  ev_final : is_Some (s_RevokedAt r) → r' = r;
  ev_lifetime : in_lifetime cfg r → in_lifetime cfg r';
}.

(** An account keeps its identity; the version of its tokens never decreases,
    and grows whenever the password changes or the account is disabled. *)
Record matures (r r' : UserRow) : Prop := {
  ma_id : u_ID r' = u_ID r;
  ma_username : u_Username r' = u_Username r;
  ma_email : u_Email r' = u_Email r;
  ma_role : u_Role r' = u_Role r;
  ma_version : u_TokenVersion r <= u_TokenVersion r';
  ma_password : u_PasswordHash r' ≠ u_PasswordHash r → u_TokenVersion r < u_TokenVersion r';
  ma_disabled : u_Status r ≠ StatusDisabled → u_Status r' = StatusDisabled →
                u_TokenVersion r < u_TokenVersion r';
  ma_verified : is_Some (u_EmailVerifiedAt r) → u_EmailVerifiedAt r' = u_EmailVerifiedAt r;
}.

#[export] Instance evolves_preorder cfg : PreOrder (evolves cfg).
Proof.
  split; [intros r; split; auto|]. intros a b c [] []. split; try congruence; [|auto].
  intros Ha. rewrite <-ev_final0 by done. apply ev_final1. by rewrite ev_final0.
Qed.

#[export] Instance matures_preorder : PreOrder matures.
Proof.
  split; [intros r; split; done|]. intros a b c [] []. split; try congruence; try lia.
  - intros Hp. destruct (decide (u_PasswordHash b = u_PasswordHash a)) as [E|E].
    + rewrite <-E in Hp. specialize (ma_password1 Hp). lia.
    + specialize (ma_password0 E). lia.
  - intros Ha Hc. destruct (decide (u_Status b = StatusDisabled)) as [E|E].
    + specialize (ma_disabled0 Ha E). lia.
    + specialize (ma_disabled1 E Hc). lia.
  - intros Ha. rewrite <-ma_verified0 by done. apply ma_verified1. by rewrite ma_verified0.
Qed.

(** ** How tables change *)

(** Rows are stored under their identifiers, the sequence of users is ahead of
    every user, the constraints of users hold, and digests are unique. *)
Record tidy (s : IDB) : Prop := {
  tidy_sessions : ∀ i r, sessions s !! i = Some r → s_ID r = i;
  tidy_users : ∀ i r, users s !! i = Some r → u_ID r = i ∧ i < next_user s ∧ user_check r = true;
  tidy_actions : ∀ i a, actions s !! i = Some a → a_ID a = i;
  tidy_digests : ∀ i j a b, actions s !! i = Some a → actions s !! j = Some b → a_Digest a = a_Digest b → i = j;
}.

(** From a tidy state: the next one is tidy, sessions and users are kept, new
    sessions are within their lifetime, and a used action token stays as it
    is. *)
Record grows (cfg : IConfig) (s t : IDB) : Prop := {
  gr_sessions : kept (evolves cfg) (sessions s) (sessions t);
  gr_fresh : ∀ i r, sessions t !! i = Some r → sessions s !! i = None → in_lifetime cfg r;
  gr_users : kept matures (users s) (users t);
  gr_actions : ∀ i a, actions s !! i = Some a → is_Some (a_UsedAt a) → actions t !! i = Some a;
}.

Definition life (cfg : IConfig) (s t : IDB) : Prop := tidy s → tidy t ∧ grows cfg s t.

#[export] Instance grows_preorder cfg : PreOrder (grows cfg).
Proof.
  split; [intros s; split; [done|congruence|done|done]|]. intros s t u [S1 F1 U1 A1] [S2 F2 U2 A2].
  split; [by etrans| |by etrans|auto].
  intros i r Hr Hn. destruct (sessions t !! i) as [r1|] eqn:Ht; [|by eapply F2].
  destruct (S2 i r1 Ht) as (r2 & Hr2 & [_ _ _ _ Hl]). assert (r2 = r) as -> by congruence.
  apply Hl. by eapply F1.
Qed.

#[export] Instance life_preorder cfg : PreOrder (life cfg).
Proof.
  split; [intros s Hs; by split|]. intros s t u Hst Htu Hs. destruct (Hst Hs) as [Ht G1].
  destruct (Htu Ht) as [Hu G2]. split; [done|]. by etrans.
Qed.

Lemma life_tidy cfg s t : (tidy s → life cfg s t) → life cfg s t.
Proof. intros Hst Hk. by apply Hst. Qed.

(** ** Writes to one table *)

Lemma life_emails cfg s t :
  sessions t = sessions s → users t = users s → next_user t = next_user s → actions t = actions s → life cfg s t.
Proof.
  intros Es Eu En Ea [T1 T2 T3 T4]. split; split; rewrite ?Es, ?Eu, ?En, ?Ea; try done. congruence.
Qed.

Lemma life_sessions cfg s m :
  (tidy s → (∀ i r, m !! i = Some r → s_ID r = i) ∧ kept (evolves cfg) (sessions s) m
            ∧ ∀ i r, m !! i = Some r → sessions s !! i = None → in_lifetime cfg r) →
  life cfg s (set_sessions m s).
Proof.
  intros Hm Hs. destruct (Hm Hs) as (K & E & F). destruct Hs as [T1 T2 T3 T4].
  split; split; cbn [sessions set_sessions users actions next_user]; done.
Qed.

Lemma life_users cfg s m n :
  (tidy s → (∀ i r, m !! i = Some r → u_ID r = i ∧ i < n ∧ user_check r = true) ∧ kept matures (users s) m) →
  life cfg s (set_next_user n (set_users m s)).
Proof.
  intros Hm Hs. destruct (Hm Hs) as (K & E). destruct Hs as [T1 T2 T3 T4].
  split; split; cbn [sessions set_users set_next_user users actions next_user]; try done. congruence.
Qed.

Lemma life_actions cfg s m :
  (tidy s → (∀ i a, m !! i = Some a → a_ID a = i)
            ∧ (∀ i j a b, m !! i = Some a → m !! j = Some b → a_Digest a = a_Digest b → i = j)
            ∧ (∀ i a, actions s !! i = Some a → is_Some (a_UsedAt a) → m !! i = Some a)) →
  life cfg s (set_actions m s).
Proof.
  intros Hm Hs. destruct (Hm Hs) as (K & D & E). destruct Hs as [T1 T2 T3 T4].
  split; split; cbn [sessions set_actions users actions next_user]; try done. congruence.
Qed.

(** One session is written. *)
Lemma life_save_session cfg s r r' :
  sessions s !! s_ID r' = Some r → evolves cfg r r' →
  life cfg s (set_sessions (<[s_ID r' := r']> (sessions s)) s).
Proof.
  intros Hr He. apply life_sessions. intros [T1 _ _ _]. split_and!.
  - intros i q. rewrite lookup_insert. case_decide; [naive_solver|]. apply T1.
  - apply kept_insert; [apply _|]. intros q Hq. by assert (q = r) as -> by congruence.
  - intros i q. rewrite lookup_insert. case_decide as Hi; intros Hq Hn; [subst i|]; congruence.
Qed.

Lemma revoke_evolves cfg reason t r : s_RevokedAt r = None → evolves cfg r (revoke_row reason t r).
Proof. intros Hr. split; try done. rewrite Hr. by intros [? ?]. Qed.

Lemma revoke_user_life cfg i reason t : within (life cfg) (revoke_user_sessions i reason t).
Proof.
  apply within_modify. intros s. apply life_sessions. intros [T1 _ _ _]. split_and!.
  - intros k r (q & Hq & ->)%lookup_update_where_Some. trans (s_ID q); [by case_match|by apply T1].
  - intros k r Hr. rewrite lookup_update_where, Hr. eexists. split; [done|]. simpl.
    case_match eqn:Hm; [|reflexivity]. apply andb_prop in Hm as [_ Hn]. apply revoke_evolves.
    by destruct (s_RevokedAt r).
  - intros k r (q & Hq & ->)%lookup_update_where_Some. congruence.
Qed.

Lemma rotate_evolves cfg next now expires r :
  s_RevokedAt r = None → expires <= s_CreatedAt r + absoluteTTL cfg →
  evolves cfg r (rotated_row next now expires r).
Proof. intros Hr He. split; try done. rewrite Hr. by intros [? ?]. Qed.

(** The next step of a computation at a known state. *)
Ltac step_at := cbv beta zeta; refine (within_bind_at (life _) _ _ _ _ _).

(** One user is written. *)
Lemma save_user_life cfg op r r' s :
  users s !! u_ID r = Some r → matures r r' → life cfg s (save_user op r' s).1.
Proof.
  intros Hr Hm. unfold save_user. step_at; [apply within_require, _|].
  intros s' [] [Hc ->]%require_run_ok. cbn [modify fst].
  replace (set_users _ s) with (set_next_user (next_user s) (set_users (<[u_ID r' := r']> (users s)) s))
    by by destruct s.
  apply life_users. intros [_ T2 _ _]. rewrite (ma_id _ _ Hm). split.
  - intros i q. rewrite lookup_insert. case_decide as Hi; [|apply T2]. intros [= <-].
    destruct (T2 _ _ Hr) as (Hi' & Hn & _). subst i. by rewrite (ma_id _ _ Hm).
  - apply kept_insert; [apply _|]. intros q Hq. by assert (q = r) as -> by congruence.
Qed.

(** Rows found in the table are stored under their identifiers. *)
Lemma with_user_life {A} cfg f (k : UserRow → istore A) :
  (∀ s r, f s = Some r → ∃ i, users s !! i = Some r) →
  (∀ s r, f s = Some r → users s !! u_ID r = Some r → life cfg s (k r s).1) →
  within (life cfg) (find_user f ≫= k).
Proof.
  intros Hf Hk s. apply life_tidy. intros Hs. step_at; [|].
  - unfold find_user. step_at; [done|]. intros ? ? [-> [= ->]]%gets_run. apply within_expect, _.
  - intros s' r Hr. unfold find_user in Hr. run_inv.
    match goal with Hx : f _ = Some r |- _ => destruct (Hf _ _ Hx) as [i Hi]; apply Hk; [exact Hx|] end.
    by rewrite (proj1 (tidy_users _ Hs _ _ Hi)).
Qed.

(** ** Operations that leave these tables alone *)

Create HintDb quiet.

(** Follow the structure of an operation; a write to the outbox is within [life]. *)
Ltac quiet_step :=
  first
  [ progress intros
  | match goal with |- PreOrder _ => apply _ end
  | solve [eauto 2 with quiet]
  | apply within_ret | apply within_fail | apply within_gets | apply within_lift | apply within_require
  | apply within_expect
  | apply within_transaction | apply within_wrap | apply within_attempt | apply within_bind
  | apply within_modify; intros; apply life_emails; reflexivity
  | progress cbv zeta
  | case_match ].

Ltac quiet := repeat quiet_step.

Section operations.
Context (cfg : IConfig).

Lemma CreateUser_life ctx u : within (life cfg) (CreateUser ctx u).
Proof.
  intros s. apply life_tidy. intros [_ T2 _ _]. unfold CreateUser.
  step_at; [done|]. intros s0 db [-> [= ->]]%gets_run. cbv beta zeta. unfold id.
  step_at; [apply within_require, _|]. intros s1 [] [Hc ->]%require_run_ok.
  do 2 (step_at; [apply within_require, _|]; intros ? [] [_ ->]%require_run_ok).
  cbn. apply life_users. intros _. split.
  - intros i q. rewrite lookup_insert. case_decide as Hi; [|intros Hq; destruct (T2 _ _ Hq) as (? & ? & ?); split_and!; [done|lia|done]].
    intros [= <-]. cbn. split_and!; [done|lia|exact Hc].
  - apply kept_insert; [apply _|]. intros q Hq. destruct (T2 _ _ Hq) as (_ & ? & _). lia.
Qed.

Lemma find_user_life f : within (life cfg) (find_user f).
Proof. unfold find_user. quiet. Qed.

Hint Resolve CreateUser_life find_user_life revoke_user_life : quiet.

Lemma FindByID_life i : within (life cfg) (FindByID i).
Proof. unfold FindByID. quiet. Qed.

Lemma FindByLogin_life i : within (life cfg) (FindByLogin i).
Proof. unfold FindByLogin. quiet. Qed.

(** A user is found and, unless the code stops there, its successor saved. *)
Ltac with_user :=
  apply with_user_life; [intros; simplify_option_eq; by eauto|];
  intros s r Hf Hr; cbv beta zeta; repeat case_match; try reflexivity;
  try (step_at; [|by intros]); try (apply (save_user_life cfg _ r); [exact Hr|]).

Lemma RecordLoginFailure_life i a b c : within (life cfg) (RecordLoginFailure i a b c).
Proof. unfold RecordLoginFailure. with_user. by split. Qed.

Lemma CompleteLoginSuccess_life i t : within (life cfg) (CompleteLoginSuccess i t).
Proof. apply within_transaction; [apply _|]. with_user. by split. Qed.

Lemma verified_matures t r : u_EmailVerifiedAt r = None → matures r (verified_row t r).
Proof. intros Hn. split; try done. rewrite Hn. by intros [? ?]. Qed.

Lemma password_matures h t r : matures r (password_row h t r).
Proof. split; try done; cbn; lia. Qed.

Lemma disabled_matures t r : matures r (disabled_row t r).
Proof. split; try done; cbn; lia. Qed.

Lemma MarkEmailVerified_life i t : within (life cfg) (MarkEmailVerified i t).
Proof.
  apply within_transaction; [apply _|]. with_user. apply verified_matures. by destruct (u_EmailVerifiedAt r).
Qed.

Lemma UpdatePassword_life i h t : within (life cfg) (UpdatePassword i h t).
Proof. apply within_transaction; [apply _|]. with_user. apply password_matures. Qed.

Lemma enabled_user_Some i s r : enabled_user i s = Some r → users s !! i = Some r.
Proof. unfold enabled_user. intros Hr. by simplify_option_eq. Qed.

Lemma Deactivate_life i t : within (life cfg) (Deactivate i t).
Proof.
  apply with_user_life; [intros; eexists; by eapply enabled_user_Some|]. intros s r _ Hr.
  apply (save_user_life cfg _ r); [done|]. apply disabled_matures.
Qed.

Lemma DeactivateAndRevoke_life i t : within (life cfg) (DeactivateAndRevoke i t).
Proof.
  apply within_transaction; [apply _|]. apply with_user_life; [intros; eexists; by eapply enabled_user_Some|]. intros s r _ Hr.
  step_at; [|intros s' [] _; apply revoke_user_life].
  apply (save_user_life cfg _ r); [done|]. apply disabled_matures.
Qed.

Lemma insert_action_life op r : within (life cfg) (insert_action op r).
Proof.
  intros s. unfold insert_action. step_at; [done|]. intros s0 db [-> [= ->]]%gets_run.
  step_at; [apply within_require, _|]. intros s1 [] [[Hn Hd]%andb_prop ->]%require_run_ok.
  unfold id in *. apply negb_true_iff in Hd. rewrite exists_where_false in Hd.
  assert (actions s !! a_ID r = None) as Hnone by by destruct (actions s !! a_ID r).
  assert (∀ i a, actions s !! i = Some a → a_Digest a ≠ a_Digest r) as Hne.
  { intros i a Ha He. specialize (Hd i a Ha). cbv beta in Hd. rewrite He in Hd. by rewrite bool_decide_true in Hd. }
  cbn [modify fst]. apply life_actions. intros [_ _ T3 T4]. split_and!.
  - intros i a. rewrite lookup_insert. case_decide; [naive_solver|apply T3].
  - intros i j a b. rewrite !lookup_insert. do 2 case_decide; try congruence; try apply T4;
      intros; simplify_eq; exfalso; by eapply Hne.
  - intros i a Ha _. rewrite lookup_insert_ne; [done|congruence].
Qed.

Lemma delete_superseded_life token now :
  within (life cfg) (E:=ierror) (modify (λ db, set_actions (delete_where (superseded token now) (actions db)) db)).
Proof.
  apply within_modify. intros s. apply life_actions. intros [_ _ T3 T4]. split_and!.
  - intros i a [Ha _]%lookup_delete_where_Some. by apply T3.
  - intros i j a b [Ha _]%lookup_delete_where_Some [Hb _]%lookup_delete_where_Some. by apply T4.
  - intros i a Ha [t Ht]. apply lookup_delete_where_Some. split; [done|]. unfold superseded. rewrite Ht. simpl.
    by rewrite andb_false_r.
Qed.

Lemma insert_email_life op r : within (life cfg) (insert_email op r).
Proof. unfold insert_email. quiet. Qed.

Lemma lockAction_life kind digest : within (life cfg) (lockActionByDigest kind digest).
Proof. unfold lockActionByDigest. quiet. Qed.

(** The token that was locked is marked as used. *)
Lemma consume_life {A} kind digest now (k : ActionRow → istore A) :
  (∀ a, within (life cfg) (k a)) →
  within (life cfg) (lockActionByDigest kind digest ≫= λ action, consumeLockedAction action now ≫= k).
Proof.
  intros Hk s. apply life_tidy. intros [_ _ T3 T4].
  step_at; [apply lockAction_life|]. intros s0 a Ha. unfold lockActionByDigest in Ha. run_inv.
  match goal with Hx : first_where _ _ _ = Some a |- _ => apply first_where_Some in Hx as [_ [i Hi]] end.
  step_at; [|intros s1 b _; apply Hk].
  unfold consumeLockedAction. step_at; [apply within_lift, _|].
  intros s1 [] [-> Hc]%lift_run. cbn. apply life_actions. intros _.
  assert (a_UsedAt a = None) as Hu. { unfold classifyActionToken in Hc. by destruct (a_UsedAt a). }
  assert (a_ID a = i) as <- by by apply T3. split_and!.
  - intros j b. rewrite lookup_insert. case_decide; [naive_solver|apply T3].
  - intros j j' b b'. rewrite !lookup_insert. do 2 case_decide; intros; simplify_eq; try done; by eapply T4.
  - intros j b Hb [t Ht]. rewrite lookup_insert_ne; [done|]. intros <-. congruence.
Qed.

Lemma save_email_life e : within (life cfg) (save_email e).
Proof. unfold save_email. quiet. Qed.

Hint Resolve FindByID_life FindByLogin_life RecordLoginFailure_life CompleteLoginSuccess_life
  MarkEmailVerified_life UpdatePassword_life Deactivate_life DeactivateAndRevoke_life
  insert_action_life insert_email_life delete_superseded_life save_email_life : quiet.

Lemma CreateAndEnqueue_life key ctx token message : within (life cfg) (CreateAndEnqueue key ctx token message).
Proof. unfold CreateAndEnqueue. quiet. Qed.

Lemma CreateUserAndEnqueue_life key ctx u token message :
  within (life cfg) (CreateUserAndEnqueue key ctx u token message).
Proof. unfold CreateUserAndEnqueue. quiet. Qed.

Lemma ConsumeAndVerifyEmail_life digest t : within (life cfg) (ConsumeAndVerifyEmail digest t).
Proof.
  apply within_transaction; [apply _|]. apply consume_life. intros a. with_user. apply verified_matures.
  by destruct (u_EmailVerifiedAt r).
Qed.

Lemma ConsumeAndResetPassword_life digest hash t : within (life cfg) (ConsumeAndResetPassword digest hash t).
Proof.
  apply within_transaction; [apply _|]. apply consume_life. intros a. apply with_user_life; [by eauto|]. intros s r _ Hr.
  step_at; [|intros s' [] _; apply revoke_user_life].
  apply (save_user_life cfg _ r); [done|]. apply password_matures.
Qed.

Lemma CreateAction_life token : within (life cfg) (CreateAction token).
Proof. unfold CreateAction. quiet. Qed.

Lemma Consume_life kind digest t : within (life cfg) (Consume kind digest t).
Proof. apply within_transaction; [apply _|]. apply consume_life. quiet. Qed.

Lemma LatestUnused_life i kind : within (life cfg) (LatestUnusedByKind i kind).
Proof. unfold LatestUnusedByKind. quiet. Qed.

Lemma Enqueue_life key ctx m : within (life cfg) (Enqueue key ctx m).
Proof. unfold Enqueue. quiet. Qed.

Lemma process_life host key ctx send : within (life cfg) (process host key ctx send).
Proof. unfold process, ClaimEmail, MarkSent, MarkFailed. quiet. Qed.

(** ** Operations on sessions *)

Lemma RevokeAll_life i reason t : within (life cfg) (RevokeAll i reason t).
Proof. unfold RevokeAll. quiet. Qed.

Lemma FindSession_run i s s' v :
  FindSession i s = (s', Ok v) → s' = s ∧ ∃ r, sessions s !! i = Some r ∧ v = fromSessionModel r.
Proof. unfold FindSession, find_session. intros Hr. run_inv. by eauto. Qed.

Lemma Revoke_life i reason t : within (life cfg) (Revoke i reason t).
Proof.
  intros s. apply life_tidy. intros Hk.
  unfold Revoke, save_session. cbv [mbind tx_bind gets id].
  destruct (sessions s !! i) as [r|] eqn:Hr; [|done]. destruct (is_none (s_RevokedAt r)) eqn:Hn; [|done].
  assert (s_ID r = i) as <- by by apply (tidy_sessions _ Hk).
  apply (life_save_session cfg s r (revoke_row reason t r)); [done|]. apply revoke_evolves.
  by destruct (s_RevokedAt r).
Qed.

Lemma CreateSession_life key ctx v :
  sv_ExpiresAt v <= sv_CreatedAt v + absoluteTTL cfg → within (life cfg) (CreateSession key ctx v).
Proof.
  intros Hl. unfold CreateSession. apply within_bind; [apply _|quiet|intros []].
  apply within_bind; [apply _|unfold sealed; quiet|intros cipherText]. cbv zeta.
  intros s. step_at; [done|]. intros s1 db Hd. apply gets_run in Hd as [-> [= ->]].
  step_at; [apply within_require, _|]. intros s2 u Hn. apply require_run_ok in Hn as [Hn ->].
  step_at; [|done]. cbn [modify fst s_ID]. apply life_sessions. intros Hk.
  cbn [s_ID] in Hn. unfold id in Hn.
  assert (sessions s !! sv_ID v = None) as Hnone by by destruct (sessions s !! sv_ID v).
  split_and!.
  - intros i r. rewrite lookup_insert. case_decide; [naive_solver|]. apply (tidy_sessions _ Hk).
  - apply kept_insert; [apply _|congruence].
  - intros i r. rewrite lookup_insert. case_decide as Hi; [|congruence]. by intros [= <-] _.
Qed.

(** A rotation whose new deadline is within the lifetime of the session. *)
Lemma rotate_life key ctx (graceful : bool) i current next token now expires grace s :
  (∀ r, sessions s !! i = Some r → expires <= s_CreatedAt r + absoluteTTL cfg) →
  life cfg s ((if graceful then RotateWithGrace key ctx i current next token now expires grace
               else Rotate i current next now expires) s).1.
Proof.
  intros He. apply life_tidy. intros Hk.
  assert (∀ r c, sessions s !! i = Some r → rotatable now r = true →
    life cfg s (set_sessions (<[s_ID r := set_s_RefreshTokenCipher c (rotated_row next now expires r)]> (sessions s)) s))
    as Hsave.
  { intros r c Hr Hrot. assert (s_ID r = i) as Hi by by apply (tidy_sessions _ Hk).
    apply (life_save_session cfg s r (set_s_RefreshTokenCipher c (rotated_row next now expires r))).
    - cbn. by rewrite Hi.
    - apply andb_prop in Hrot as [Hn _]. assert (s_RevokedAt r = None) as Hn' by by destruct (s_RevokedAt r).
      destruct (rotate_evolves cfg next now expires r Hn' (He r Hr)) as [H1 H2 H3 _ H5].
      split; try done. rewrite Hn'. by intros [? ?]. }
  destruct graceful; [unfold RotateWithGrace|unfold Rotate];
    (eapply (transaction_at (life cfg)); intros s' v Hr;
     unfold find_session, sealed, save_session in Hr; run_inv).
  - case_match; run_inv; case_match; run_inv; try done;
      match goal with Hx : sessions s !! i = Some ?r, Hy : rotatable now ?r = true |- _ =>
        exact (Hsave r _ Hx Hy) end.
  - case_match; run_inv.
    match goal with Hx : sessions s !! i = Some ?r, Hy : rotatable now ?r = true |- _ =>
      exact (Hsave r (s_RefreshTokenCipher r) Hx Hy) end.
Qed.

Lemma EstablishSession_life ctx user label : within (life cfg) (EstablishSession cfg ctx user label).
Proof.
  unfold EstablishSession, refuse, raw, issue_access. case_match; [quiet|]. cbv zeta.
  apply within_bind; [apply _|quiet|intros encoded].
  apply within_bind; [apply _|apply within_wrap, CreateSession_life|quiet].
  cbn [sv_ExpiresAt sv_CreatedAt]. lia.
Qed.

Lemma Refresh_life graceful ctx encoded : within (life cfg) (Refresh cfg graceful ctx encoded).
Proof.
  unfold Refresh, coded, raw, issue_access.
  apply within_bind; [apply _|quiet|intros refresh]. intros s. apply life_tidy. intros Hk.
  step_at; [refine (within_wrap _ _ _ _ s); unfold FindSession, find_session; quiet|].
  intros s1 v (-> & r & Hr & ->)%wrap_ok%FindSession_run.
  step_at; [apply within_require, _|]. intros s2 u [_ ->]%require_run_ok.
  step_at; [refine (within_wrap _ _ _ _ s); quiet|]. intros s3 user Hu%wrap_ok.
  assert (s3 = s) as -> by (unfold FindByID, find_user in Hu; by run_inv).
  step_at; [apply within_require, _|]. intros s4 u' [_ ->]%require_run_ok.
  step_at; [by destruct (EncodeRefreshToken _)|]. intros s5 next [-> _]%wrap_ok%lift_run.
  step_at; [|intros s6 w _; refine (within_bind _ _ _ _ _ s6); quiet].
  assert (∀ q, sessions s !! s_ID r = Some q → q = r) as Hq.
  { intros q. rewrite (tidy_sessions _ Hk _ _ Hr). congruence. }
  cbn [fromSessionModel sv_ID sv_CreatedAt]. apply wrap_at.
  apply rotate_life. intros q ->%Hq. lia.
Qed.

Lemma RevokeSession_life ctx userID sessionID reason : within (life cfg) (RevokeSession ctx userID sessionID reason).
Proof.
  unfold RevokeSession, refuse, coded. case_match; [quiet|].
  apply within_bind; [apply _|apply within_attempt; unfold FindSession, find_session; quiet|].
  intros [v|e]; [|quiet]. case_match; [apply within_wrap, Revoke_life|quiet].
Qed.

Hint Resolve EstablishSession_life RevokeAll_life CreateAndEnqueue_life CreateUserAndEnqueue_life
  ConsumeAndVerifyEmail_life ConsumeAndResetPassword_life CreateAction_life Consume_life LatestUnused_life
  Enqueue_life : quiet.

Lemma Authenticate_life w ctx dummy identifier password :
  within (life cfg) (Authenticate cfg w ctx dummy identifier password).
Proof. unfold Authenticate, refuse, raw, issue_access. quiet. Qed.

Lemma issue_action_life atomic ctx user kind subject : within (life cfg) (issue_action cfg atomic ctx user kind subject).
Proof. unfold issue_action, refuse, raw. quiet. Qed.

Lemma EmailVerificationStatus_life ctx user : within (life cfg) (EmailVerificationStatus ctx user).
Proof. unfold EmailVerificationStatus, refuse, raw. quiet. Qed.

Hint Resolve issue_action_life EmailVerificationStatus_life Authenticate_life Refresh_life RevokeSession_life
  process_life : quiet.

(** Every request keeps these rules. *)
Lemma request_life r s : life cfg s (run_irequest cfg r s).
Proof.
  destruct r; cbn [run_irequest];
    [unfold Register|..|unfold RevokeAllSessions|unfold RequestEmailVerification|unfold VerifyEmail
    |unfold RequestPasswordReset|unfold ResetPassword|unfold DeactivateAccount|]; unfold refuse, raw, coded;
    match goal with |- life _ ?s (?m ?s).1 => refine ((_ : within (life cfg) m) s) end; quiet.
Qed.

Lemma steps_life s t : rtc (istep cfg) s t → life cfg s t.
Proof. induction 1 as [|s t u (r & ->) _ IH]; [reflexivity|]. etrans; [apply request_life|exact IH]. Qed.

Lemma empty_tidy : tidy empty_idb.
Proof. split; cbn; intros; simplify_map_eq. Qed.

Lemma ireachable_tidy s : ireachable cfg s → tidy s.
Proof. intros Hs%steps_life. by destruct (Hs empty_tidy). Qed.

Lemma ireachable_lifetime s i r : ireachable cfg s → sessions s !! i = Some r → in_lifetime cfg r.
Proof. intros Hs%steps_life Hr. destruct (Hs empty_tidy) as [_ Hg]. by eapply gr_fresh. Qed.

(** A refresh is refused, and nothing is written, when the session it names is
    not active. *)
Lemma Refresh_inactive graceful ctx encoded token s r :
  ParseRefreshToken (TrimSpace encoded) = Ok token → sessions s !! SessionID token = Some r →
  rotatable (inow ctx) r = false →
  Refresh cfg graceful ctx encoded s = (s, Err (IApp IUnauthenticated None)).
Proof.
  intros Hp Hr Ha. unfold Refresh, coded, FindSession, find_session. rewrite Hp.
  cbv [mbind tx_bind wrap lift gets id expect]. rewrite Hr. cbn.
  unfold SessionIsActive. cbn. change (is_none _ && _) with (rotatable (inow ctx) r). rewrite Ha.
  by rewrite orb_true_r.
Qed.

End operations.

End world.
