(* ===== verification/IClaims.v ===== *)
(** What the identity service promises: sessions end, credentials that change
    invalidate the tokens issued before, a locked account stays locked, and a
    password is reset once per token.

    The first part is a small concrete instance for the witnesses: functions for
    the parameters, a configuration, a clock, and the database after an account
    has been registered, has logged in and has asked for a password reset. *)

From stdpp Require Import base gmap list sets strings relations.
From Stdlib Require Import ZArith Lia.
From S2P Require Import Prelude.
From S2P Require Import GoStrings.
From S2P Require Import Base64.
From S2P Require Import ISchema.
From S2P Require Import IStore.
From S2P Require Import ILogic.
From S2P Require Import IWorld.
From S2P Require Import ITokens.

Open Scope Z_scope.

(** A hash is its input with a mark, a sealed text is the text. *)
Definition toy_crypto : Crypto := {|
  bcrypt_hash := λ password, Some ("h:" +:+ password)%string;
  bcrypt_compare := λ hash password, Some (hash =?= "h:" +:+ password)%string;
  hmac_sha256 := λ key text, (key +:+ text)%string;
  sha256 := λ text, text;
  gcm_seal := λ _ _ text, Some text;
  gcm_open := λ _ text, Some text;
  mail_address := λ email, Some (EmptyString, email);
  sign_token := λ _ _ _ session, Some session;
  pg_lower := λ text, text;
|}.

#[export] Existing Instance ascii_unicode | 100.
#[export] Existing Instance toy_crypto | 100.

Definition toy_config : IConfig :=
  MkIConfig "pepper" "key" (1000 * Second) (100 * Second) (500 * Second) 3 (60 * Second).

(** The request at time [t] whose random values are written with [c]. *)
Definition iat (t : Z) (c : string) : ICtx :=
  MkICtx (t * Second) ("session 89 1234" +:+ c)%string ("secret 89 123456789 123456789 1" +:+ c)%string
    ("token " +:+ c)%string "nonce" ("one " +:+ c)%string ("two " +:+ c)%string.

(** The refresh token a request at this context hands out. *)
Definition handed (ctx : ICtx) : string :=
  match EncodeRefreshToken (NewRefreshToken ctx) with Ok t => t | Err _ => EmptyString end.

Definition iregistered : IDB :=
  run_irequest toy_config (IReqRegister true (iat 1 "a") "alice" "alice@example.org" "correct horse") empty_idb.

Definition iloggedin : IDB :=
  run_irequest toy_config (IReqLogin true (iat 2 "b") "h:" "alice" "correct horse") iregistered.

Definition iresetting : IDB :=
  run_irequest toy_config (IReqReset true (iat 3 "c") "alice") iloggedin.

Definition irotated : IDB :=
  run_irequest toy_config (IReqRefresh true (iat 5 "d") (handed (iat 2 "b"))) iloggedin.

Definition ideactivated : IDB :=
  run_irequest toy_config (IReqDeactivate true (iat 4 "c") 1 "correct horse") iregistered.

Lemma ireach_request cfg `{Unicode, Crypto} r s : ireachable cfg s → ireachable cfg (run_irequest cfg r s).
Proof. intros Hs. eapply rtc_r; [exact Hs|]. by exists r. Qed.

Lemma iregistered_reachable : ireachable toy_config iregistered.
Proof. apply ireach_request, rtc_refl. Qed.

Lemma iloggedin_reachable : ireachable toy_config iloggedin.
Proof. apply ireach_request, iregistered_reachable. Qed.

Lemma iresetting_reachable : ireachable toy_config iresetting.
Proof. apply ireach_request, iloggedin_reachable. Qed.

Lemma irotated_reachable : ireachable toy_config irotated.
Proof. apply ireach_request, iloggedin_reachable. Qed.

Lemma ideactivated_reachable : ireachable toy_config ideactivated.
Proof. apply ireach_request, iregistered_reachable. Qed.

(** ** The properties *)

Section claims.
Context `{Unicode, Crypto}.

(** ** Finding rows *)

(** A token is found by its digest. *)
Lemma lock_by_digest s k a :
  tidy s → actions s !! k = Some a →
  lockActionByDigest (a_Kind a) (a_Digest a) s = (s, Ok a).
Proof.
  intros Hs Ha. unfold lockActionByDigest. cbv [mbind tx_bind gets id].
  rewrite (first_where_least _ _ _ k a); [done|done| |].
  - by rewrite !bool_decide_true.
  - intros j w Hw [_ Hd]%andb_prop Hj. apply bool_decide_eq_true in Hd. destruct Hj. by eapply tidy_digests.
Qed.

(** The account a login names. *)
Definition named (identifier : string) (u : UserRow) : bool :=
  let identifier := ToLower (TrimSpace (TrimSpace identifier)) in
  (pg_lower (u_Username u) =?= identifier) || (pg_lower (u_Email u) =?= identifier).

Lemma FindByLogin_run identifier s :
  FindByLogin (TrimSpace identifier) s
  = (s, match first_where (named identifier) user_order (users s) with
        | Some r => Ok (fromModel r) | None => Err ErrUserNotFound end).
Proof.
  unfold FindByLogin, find_user. cbv [mbind tx_bind gets id]. fold (named identifier).
  by destruct (first_where (named identifier) user_order (users s)).
Qed.

(** It is still found when its row changes. *)
Lemma named_update identifier s r r' :
  tidy s → first_where (named identifier) user_order (users s) = Some r →
  u_ID r' = u_ID r → u_Username r' = u_Username r → u_Email r' = u_Email r →
  first_where (named identifier) user_order (<[u_ID r := r']> (users s)) = Some r'.
Proof.
  intros Hs Hf Hi Hu He. destruct (first_where_Some _ _ _ _ Hf) as [Hn _].
  eapply first_where_least; [apply _|apply lookup_insert_eq| |].
  - unfold named. by rewrite Hu, He.
  - intros j q. intros Hq HPq Hj. rewrite lookup_insert_ne in Hq by done.
    pose proof (first_where_le _ user_order _ _ _ _ Hf Hq HPq) as Hle.
    destruct (tidy_users s Hs _ _ Hq) as [Hqi _].
    unfold user_order, by_key in *. rewrite Hi. apply Z.compare_lt_iff. rewrite Z.compare_gt_iff in Hle. lia.
Qed.

(** What follows consuming a token. *)
Lemma consume_run {A} s k a now (f : ActionRow → istore A) :
  tidy s → actions s !! k = Some a →
  (lockActionByDigest (a_Kind a) (a_Digest a) ≫= λ action, consumeLockedAction action now ≫= f) s
  = match classifyActionToken a now with
    | Ok _ => f (set_a_UsedAt (Some now) a)
                (set_actions (<[k := set_a_UsedAt (Some now) a]> (actions s)) s)
    | Err e => (s, Err e)
    end.
Proof.
  intros Hs Ha. unfold mbind at 1, tx_bind at 1. rewrite (lock_by_digest s k a Hs Ha).
  unfold consumeLockedAction. cbn. destruct (classifyActionToken a now) as [[]|e]; [|done].
  cbn. by rewrite (tidy_actions s Hs k a Ha).
Qed.

Lemma password_checked hash t r : user_check r = true → user_check (password_row hash t r) = true.
Proof.
  unfold user_check. cbn. rewrite !andb_true_iff, !Z.leb_le. intros [[[[[] ] ] ] ]. split_and!; try done; lia.
Qed.

(** C15: In every reachable state, each session ends no later than the
    absolute lifetime after its creation, whatever refreshes it has seen.  From
    then on it stays in the database with its owner and its start, a revoked
    session is never touched again, and a refresh with any token of a session
    that is revoked, or older than the absolute lifetime, is refused and writes
    nothing. *)
Theorem sessions_end cfg s i r :
  ireachable cfg s → sessions s !! i = Some r →
  s_ExpiresAt r <= s_CreatedAt r + absoluteTTL cfg
  ∧ ∀ t, rtc (istep cfg) s t →
    ∃ r', sessions t !! i = Some r' ∧ s_UserID r' = s_UserID r ∧ s_CreatedAt r' = s_CreatedAt r
      ∧ (is_Some (s_RevokedAt r) → r' = r)
      ∧ ∀ graceful ctx encoded token,
          ParseRefreshToken (TrimSpace encoded) = Ok token → SessionID token = i →
          is_Some (s_RevokedAt r) ∨ s_CreatedAt r + absoluteTTL cfg <= inow ctx →
          Refresh cfg graceful ctx encoded t = (t, Err (IApp IUnauthenticated None)).
Proof.
  intros Hs Hr. pose proof (ireachable_lifetime cfg s i r Hs Hr) as Hl. split; [exact Hl|].
  intros t Hst. destruct (steps_life cfg s t Hst (ireachable_tidy cfg s Hs)) as [_ Hg].
  destruct (gr_sessions _ _ _ Hg i r Hr) as (r' & Hr' & [_ Hu Hc Hf He]). exists r'. split_and!; [done..|].
  intros graceful ctx encoded token Hp <- Hend. eapply Refresh_inactive; [done..|].
  apply andb_false_iff. destruct Hend as [Hrev|Hold].
  - left. rewrite Hf by done. by destruct Hrev as [x ->].
  - right. specialize (He Hl). unfold in_lifetime, after in *. apply Z.ltb_ge. lia.
Qed.

(** From a reachable state on, an account is never removed and keeps
    its identifier, its name, its address and its role; the version its access
    tokens carry never decreases, and is larger than before whenever the
    password hash differs or the account has been disabled since, so that no
    token issued before is current again; a verified address stays verified. *)
Theorem accounts_mature cfg s t i r :
  ireachable cfg s → users s !! i = Some r → rtc (istep cfg) s t →
  ∃ r', users t !! i = Some r'
    ∧ u_ID r' = u_ID r ∧ u_Username r' = u_Username r ∧ u_Email r' = u_Email r ∧ u_Role r' = u_Role r
    ∧ u_TokenVersion r <= u_TokenVersion r'
    ∧ (u_PasswordHash r' ≠ u_PasswordHash r → u_TokenVersion r < u_TokenVersion r')
    ∧ (u_Status r ≠ StatusDisabled → u_Status r' = StatusDisabled → u_TokenVersion r < u_TokenVersion r')
    ∧ (is_Some (u_EmailVerifiedAt r) → u_EmailVerifiedAt r' = u_EmailVerifiedAt r).
Proof.
  intros Hs Hr Hst. destruct (steps_life cfg s t Hst (ireachable_tidy cfg s Hs)) as [_ Hg].
  destruct (gr_users _ _ _ Hg i r Hr) as (r' & Hr' & []). exists r'. by split_and!.
Qed.

(** A reset that passes the checks on its input is the repository's step. *)
Lemma ResetPassword_step cfg ctx token password hash s :
  ValidatePassword password = Ok tt → TrimSpace token ≠ EmptyString → bcrypt_hash password = Some hash →
  ResetPassword cfg true ctx token password s
  = wrap mapActionTokenError
      (ConsumeAndResetPassword (DigestActionToken (TrimSpace token) (pepper cfg)) hash (inow ctx)) s.
Proof.
  intros Hp Ht Hh. unfold ResetPassword, coded, raw. rewrite Hp, Hh. by rewrite bool_decide_false.
Qed.

(** A used token is refused, whatever the state. *)
Lemma reset_used cfg s ctx token password k a :
  tidy s → ValidatePassword password = Ok tt → TrimSpace token ≠ EmptyString → is_Some (bcrypt_hash password) →
  actions s !! k = Some a → a_Kind a = ActionPasswordReset →
  a_Digest a = DigestActionToken (TrimSpace token) (pepper cfg) → is_Some (a_UsedAt a) →
  ResetPassword cfg true ctx token password s = (s, Err (IApp IActionAlreadyUsed (Some ErrActionAlreadyUsed))).
Proof.
  intros Hs Hp Ht [hash Hh] Ha Hk Hd [x Hu]. rewrite (ResetPassword_step _ _ _ _ hash) by done.
  unfold wrap, ConsumeAndResetPassword, transaction. rewrite <-Hk, <-Hd, (consume_run s k a) by done.
  unfold classifyActionToken. by rewrite Hu.
Qed.

(** A valid token: the account, its sessions and the token in one step. *)
Lemma reset_run s k a r hash now :
  tidy s → actions s !! k = Some a → a_Kind a = ActionPasswordReset → a_UsedAt a = None →
  now < a_ExpiresAt a → users s !! a_UserID a = Some r →
  ConsumeAndResetPassword (a_Digest a) hash now s
  = (MkIDB (<[a_UserID a := password_row hash now r]> (users s))
       (update_where (λ q, (s_UserID q =? a_UserID a) && is_none (s_RevokedAt q))
          (revoke_row "password_reset" now) (sessions s))
       (<[k := set_a_UsedAt (Some now) a]> (actions s)) (emails s) (next_user s) (next_email s), Ok tt).
Proof.
  intros Hs Ha Hk Hn He Hr. destruct (tidy_users s Hs _ _ Hr) as (Hi & _ & Hc).
  unfold ConsumeAndResetPassword, transaction. rewrite <-Hk, (consume_run s k a) by done.
  unfold classifyActionToken. rewrite Hn. unfold after. rewrite (proj2 (Z.ltb_lt now (a_ExpiresAt a))) by done.
  cbn. unfold find_user, save_user. cbv [mbind tx_bind gets id expect]. cbn. rewrite Hr. cbn.
  rewrite password_checked by done. cbn. by rewrite Hi.
Qed.

(** C18: A password reset with a valid token stores the new hash, raises the
    version of the account's tokens, lifts the lock and revokes every session of
    the account and no other, all in one step; from then on the same token is
    refused in every later state, without any effect. *)
Theorem password_reset_once cfg s ctx token password hash k a r :
  ireachable cfg s → ValidatePassword password = Ok tt → TrimSpace token ≠ EmptyString →
  bcrypt_hash password = Some hash →
  actions s !! k = Some a → a_Kind a = ActionPasswordReset →
  a_Digest a = DigestActionToken (TrimSpace token) (pepper cfg) →
  a_UsedAt a = None → inow ctx < a_ExpiresAt a → users s !! a_UserID a = Some r →
  ∃ t r', ResetPassword cfg true ctx token password s = (t, Ok tt)
    ∧ users t = <[a_UserID a := r']> (users s)
    ∧ u_PasswordHash r' = hash ∧ u_TokenVersion r' = u_TokenVersion r + 1 ∧ u_LockedUntil r' = None
    ∧ (∀ i q, sessions t !! i = Some q → s_UserID q = a_UserID a → is_Some (s_RevokedAt q))
    ∧ (∀ i q, sessions s !! i = Some q → s_UserID q ≠ a_UserID a → sessions t !! i = Some q)
    ∧ ∀ u ctx' password', rtc (istep cfg) t u → ValidatePassword password' = Ok tt →
        is_Some (bcrypt_hash password') →
        ResetPassword cfg true ctx' token password' u
        = (u, Err (IApp IActionAlreadyUsed (Some ErrActionAlreadyUsed))).
Proof.
  intros Hs Hp Ht Hh Ha Hk Hd Hn He Hr. pose proof (ireachable_tidy cfg s Hs) as Hty.
  pose proof (reset_run s k a r hash (inow ctx) Hty Ha Hk Hn He Hr) as Hrun. rewrite Hd in Hrun.
  assert (ResetPassword cfg true ctx token password s = (wrap mapActionTokenError (ConsumeAndResetPassword
    (DigestActionToken (TrimSpace token) (pepper cfg)) hash (inow ctx)) s)) as E by by apply ResetPassword_step.
  unfold wrap in E. rewrite Hrun in E. do 2 eexists. split; [exact E|]. cbn [users sessions].
  split_and!; [done..| | |].
  - intros i q (q0 & Hq & ->)%lookup_update_where_Some Hu.
    destruct (s_RevokedAt q0) eqn:Hq0; cbn; [rewrite andb_false_r; eauto|].
    assert (s_UserID q0 = a_UserID a) as ->. { revert Hu. by case_match. }
    by rewrite Z.eqb_refl.
  - intros i q Hq Hu. rewrite lookup_update_where, Hq. cbn. by rewrite (proj2 (Z.eqb_neq _ _)).
  - intros u ctx' password' Hu Hp' Hh'.
    assert (tidy (ResetPassword cfg true ctx token password s).1) as Hty'.
    { apply (ireachable_tidy cfg). eapply rtc_r; [exact Hs|]. by exists (IReqResetPassword true ctx token password). }
    rewrite E in Hty'. destruct (steps_life cfg _ u Hu Hty') as [Htu Hg].
    eapply (reset_used cfg u ctx' token password' k (set_a_UsedAt (Some (inow ctx)) a)); try done.
    apply (gr_actions _ _ _ Hg); [apply lookup_insert_eq|by eexists].
Qed.

(** ** Lockout *)

(** What the service accepts as input of a login. *)
Definition acceptable_login (identifier : string) : Prop :=
  TrimSpace identifier ≠ EmptyString ∧ len (TrimSpace identifier) <= 320.

Definition acceptable_password (password : string) : Prop := password ≠ EmptyString ∧ len password <= 72.

Definition wrong_password (hash password : string) : Prop :=
  acceptable_password password ∧ bcrypt_compare hash password = Some false.

(** Logins one after the other, whatever they answer. *)
Definition logins cfg (w : bool) (dummy identifier : string) (tries : list (ICtx * string)) (s : IDB) : IDB :=
  foldl (λ s '(ctx, password), (Authenticate cfg w ctx dummy identifier password s).1) s tries.

Lemma Authenticate_found cfg w ctx dummy identifier password s r :
  acceptable_login identifier → acceptable_password password →
  first_where (named identifier) user_order (users s) = Some r →
  Authenticate cfg w ctx dummy identifier password s
  = match bcrypt_compare (u_PasswordHash r) password with
    | None => (s, Err (IRaw (EFailed "compare identity password")))
    | Some matched =>
      if IsLocked (fromModel r) (inow ctx) then (s, Err (IApp IAccountLocked None))
      else (if negb matched then
              if negb (CanEstablishSession (fromModel r)) then refuse IInvalidCredentials
              else
                locked ← raw (RecordLoginFailure (u_ID r) (inow ctx) (inow ctx + lockDuration cfg)
                                (failureThreshold cfg));
                if locked : bool then refuse IAccountLocked else refuse IInvalidCredentials
            else
              user ← raw (CompleteLoginSuccess (u_ID r) (inow ctx));
              if negb (CanEstablishSession user) then refuse IUserDisabled
              else if IsLocked user (inow ctx) then refuse IAccountLocked
              else if w then EstablishSession cfg ctx user EmptyString
              else
                access ← issue_access "issue identity access token" user EmptyString;
                mret (MkSessionAuthentication user access EmptyString EmptyString)) s
    end.
Proof.
  intros [H1 H2] [H3 H4] Hf. unfold Authenticate.
  rewrite !bool_decide_false by done. rewrite !(proj2 (Z.ltb_ge _ _)) by done. cbn [orb].
  unfold attempt, mbind at 1, tx_bind at 1. rewrite FindByLogin_run, Hf.
  cbn [uv_PasswordHash fromModel uv_ID]. repeat case_match; done.
Qed.

Lemma failure_checked a b c r : user_check r = true → user_check (failure_row a b c r) = true.
Proof.
  unfold user_check, failure_row. cbn. rewrite !andb_true_iff, !Z.leb_le. intros [[[[[] ] ] ] ].
  split_and!; try done. repeat case_match; lia.
Qed.

(** A wrong password on an open account is counted. *)
Lemma wrong_password_run cfg w ctx dummy identifier password s r :
  tidy s → acceptable_login identifier → wrong_password (u_PasswordHash r) password →
  first_where (named identifier) user_order (users s) = Some r →
  u_LockedUntil r = None → CanEstablishSession (fromModel r) = true →
  (Authenticate cfg w ctx dummy identifier password s).1
  = set_users (<[u_ID r := failure_row (inow ctx) (inow ctx + lockDuration cfg) (failureThreshold cfg) r]>
                 (users s)) s.
Proof.
  intros Hs Hi [Hp Hc] Hf Hl Hcan. rewrite (Authenticate_found _ _ _ _ _ _ _ r), Hc by done.
  unfold IsLocked. cbn [fromModel uv_LockedUntil]. rewrite Hl. cbn [opt_test negb]. rewrite Hcan. cbn [negb].
  destruct (first_where_Some _ _ _ _ Hf) as [_ [k Hk]]. destruct (tidy_users s Hs _ _ Hk) as (Hid & _ & Hch).
  unfold RecordLoginFailure, find_user, save_user, raw, wrap. cbv [mbind tx_bind gets id expect].
  rewrite Hid, Hk. cbn. rewrite failure_checked by done. cbn. rewrite Hid. by case_match.
Qed.

(** The account as far as a login looks at it. *)
Definition open_account (identifier hash : string) (attempts : Z) (s : IDB) : Prop :=
  ∃ r, first_where (named identifier) user_order (users s) = Some r ∧ u_PasswordHash r = hash
    ∧ CanEstablishSession (fromModel r) = true ∧ u_LockedUntil r = None ∧ u_FailedLoginAttempts r = attempts.

(** Wrong passwords below the threshold leave the account open. *)
Lemma wrong_logins_counted cfg w dummy identifier hash tries s attempts :
  tidy s → acceptable_login identifier → open_account identifier hash attempts s →
  Forall (λ c, wrong_password hash c.2) tries →
  attempts + Z.of_nat (length tries) < failureThreshold cfg →
  tidy (logins cfg w dummy identifier tries s)
  ∧ open_account identifier hash (attempts + Z.of_nat (length tries)) (logins cfg w dummy identifier tries s).
Proof.
  revert s attempts. induction tries as [|[ctx password] tries IH]; intros s attempts Hs Hi Ho Hw Hn.
  { by rewrite Z.add_0_r. }
  apply Forall_cons in Hw as [Hw Hws]. cbn [length] in Hn. cbn [snd] in Hw.
  destruct Ho as (r & Hf & <- & Hcan & Hl & Hat).
  pose proof (wrong_password_run cfg w ctx dummy identifier password s r Hs Hi Hw Hf Hl Hcan) as Hrun.
  pose proof (Authenticate_life cfg w ctx dummy identifier password s Hs) as [Hs1 _].
  cbn [logins foldl length]. rewrite Hrun in *.
  replace (attempts + Z.of_nat (S (length tries))) with (attempts + 1 + Z.of_nat (length tries)) by lia.
  apply IH; [done|done| |done|lia].
  eexists. cbn [users set_users]. split; [by apply (named_update _ s r)|].
  unfold failure_row. rewrite Hl. cbn. rewrite Hat.
  split_and!; [done|done| |done]. by rewrite (proj2 (Z.leb_gt _ _)) by lia.
Qed.

(** C19: On an account that is open, with some failed logins counted, let
    as many wrong passwords be tried as are missing to the threshold.  Then,
    until the lock duration after the last of them, every login, with the right
    password as well, is refused as locked and changes nothing. *)
Theorem lockout cfg w s dummy identifier user tries ctx0 password0 :
  ireachable cfg s → acceptable_login identifier →
  (FindByLogin (TrimSpace identifier) s).2 = Ok user →
  CanEstablishSession user = true → uv_LockedUntil user = None →
  Forall (λ c, wrong_password (uv_PasswordHash user) c.2) (tries ++ [(ctx0, password0)]) →
  uv_FailedLoginAttempts user + Z.of_nat (length tries) + 1 = failureThreshold cfg →
  let t := logins cfg w dummy identifier (tries ++ [(ctx0, password0)]) s in
  ∀ ctx password,
    acceptable_password password → is_Some (bcrypt_compare (uv_PasswordHash user) password) →
    inow ctx < inow ctx0 + lockDuration cfg →
    Authenticate cfg w ctx dummy identifier password t = (t, Err (IApp IAccountLocked None)).
Proof.
  intros Hs Hi Hu Hcan Hl Hw Hn t ctx password Hp [b Hb] Hnow.
  rewrite FindByLogin_run in Hu. destruct (first_where _ _ _) as [r|] eqn:Hf; [|done]. injection Hu as <-.
  apply Forall_app in Hw as [Hws [Hw _]%Forall_cons]. cbn [snd fromModel uv_PasswordHash] in *.
  destruct (wrong_logins_counted cfg w dummy identifier (u_PasswordHash r) tries s (u_FailedLoginAttempts r))
    as (Hs1 & r1 & Hf1 & Hh & Hcan1 & Hl1 & Hat);
    [by eapply ireachable_tidy|done|by exists r|done|cbn in Hn; lia|].
  subst t. unfold logins. rewrite foldl_app. fold (logins cfg w dummy identifier tries s). cbn [foldl].
  rewrite (wrong_password_run cfg w ctx0 dummy identifier password0 _ r1) by (rewrite ?Hh; done).
  set (s2 := set_users _ _).
  assert (first_where (named identifier) user_order (users s2) = Some (failure_row (inow ctx0)
    (inow ctx0 + lockDuration cfg) (failureThreshold cfg) r1)) as Hf2 by by apply named_update.
  rewrite (Authenticate_found _ _ _ _ _ _ _ _ Hi Hp Hf2). cbn [u_PasswordHash failure_row]. cbn. rewrite Hh, Hb.
  unfold IsLocked. cbn. rewrite Hl1. cbn. rewrite Hat. cbn in Hn. rewrite (proj2 (Z.leb_le _ _)) by lia. cbn.
  unfold after. by rewrite (proj2 (Z.ltb_lt _ _)).
Qed.

(** ** Refreshing *)

(** A rotation starts no session. *)
Lemma rotate_keys key ctx (graceful : bool) k current next token now expires grace s t v i :
  tidy s →
  (if graceful then RotateWithGrace key ctx k current next token now expires grace
   else Rotate k current next now expires) s = (t, Ok v) →
  sessions s !! i = None → sessions t !! i = None.
Proof.
  intros Hs Hr Hn.
  assert (∀ r c, sessions s !! k = Some r →
    <[s_ID r := set_s_RefreshTokenCipher c (rotated_row next now expires r)]> (sessions s) !! i = None) as Hsave.
  { intros r c Hk. rewrite (tidy_sessions s Hs _ _ Hk). rewrite lookup_insert_ne; [done|congruence]. }
  destruct graceful; [unfold RotateWithGrace in Hr|unfold Rotate in Hr];
    unfold find_session, sealed, save_session in Hr; run_inv.
  - case_match; run_inv; case_match; run_inv; try done; cbn [sessions set_sessions];
      match goal with Hx : sessions s !! k = Some ?r |- _ => exact (Hsave r _ Hx) end.
  - case_match; run_inv.
    match goal with Hx : sessions s !! k = Some ?r |- _ => exact (Hsave r (s_RefreshTokenCipher r) Hx) end.
Qed.

Lemma Refresh_keys cfg graceful ctx encoded s t auth i :
  tidy s → Refresh cfg graceful ctx encoded s = (t, Ok auth) → sessions s !! i = None → sessions t !! i = None.
Proof.
  intros Hs Hr Hn.
  unfold Refresh, coded, raw, issue_access, raw, FindSession, FindByID, find_user, find_session in Hr. run_inv.
  by eapply rotate_keys.
Qed.

(** C39: The refresh token a rotation hands out cannot be used.  It is made
    with a session identifier of its own, while the session keeps the identifier
    it had: unless the new random identifier happens to be that of a stored
    session, every later refresh with the new token finds no session and is
    refused. *)
Theorem rotated_token_refused cfg graceful ctx encoded s t auth :
  ireachable cfg s → len (session_bytes ctx) = 16 → len (secret_bytes ctx) = 32 →
  sessions s !! EncodeToString (session_bytes ctx) = None →
  Refresh cfg graceful ctx encoded s = (t, Ok auth) →
  EncodeRefreshToken (NewRefreshToken ctx) = Ok (sa_RefreshToken auth) →
  ∀ graceful' ctx',
    Refresh cfg graceful' ctx' (sa_RefreshToken auth) t
    = (t, Err (IApp IUnauthenticated (Some ErrSessionNotFound))).
Proof.
  intros Hs H16 H32 Hn Hr He graceful' ctx'.
  destruct (new_token_parsed ctx H16 H32) as (text & He' & Hp). assert (text = sa_RefreshToken auth) as -> by congruence.
  unfold Refresh, coded. rewrite (new_token_trimmed _ _ He), Hp. unfold FindSession, find_session.
  cbv [mbind tx_bind wrap lift gets id expect]. cbn [NewRefreshToken SessionID].
  by rewrite (Refresh_keys _ _ _ _ _ _ _ _ (ireachable_tidy cfg s Hs) Hr Hn).
Qed.

(** The errors of the steps of a refresh. *)
Lemma parse_not_replay text : ParseRefreshToken text ≠ Err ErrSessionReplay.
Proof. unfold ParseRefreshToken. by repeat case_match. Qed.

Lemma FindSession_err i s s' : FindSession i s ≠ (s', Err ErrSessionReplay).
Proof. unfold FindSession, find_session. cbv [mbind tx_bind gets id expect]. by destruct (sessions s !! i). Qed.

Lemma FindByID_err i s s' : FindByID i s ≠ (s', Err ErrSessionReplay).
Proof. unfold FindByID, find_user. cbv [mbind tx_bind gets id expect]. by destruct (users s !! i). Qed.

Lemma rotate_failed key ctx (graceful : bool) k current next token now expires grace s t e :
  (if graceful then RotateWithGrace key ctx k current next token now expires grace
   else Rotate k current next now expires) s = (t, Err e) → t = s.
Proof. destruct graceful; by intros [-> _]%transaction_run_err. Qed.

(** A failed sequence fails in one of its parts. *)
Ltac run_err H := apply bind_run_err in H as [H|(? & ? & ? & H)]; cbv beta zeta in H.

(** A refresh that is refused as the replay of an old token changes
    nothing: the session it names is as it was and is not revoked, because the
    revocation is part of the transaction that the refusal rolls back. *)
Theorem replay_not_revoked cfg graceful ctx encoded s t :
  Refresh cfg graceful ctx encoded s = (t, Err (IApp IUnauthenticated (Some ErrSessionReplay))) →
  t = s ∧ ∃ token r, ParseRefreshToken (TrimSpace encoded) = Ok token
                     ∧ sessions t !! SessionID token = Some r ∧ s_RevokedAt r = None.
Proof.
  intros Hr. unfold Refresh, coded, raw, issue_access, raw in Hr.
  run_err Hr. { apply wrap_run_err in Hr as (e & [_ Hp]%lift_run & [= <-]). by destruct (parse_not_replay (TrimSpace encoded)). }
  run_err Hr. { apply wrap_run_err in Hr as (e & Hf & [= <-]). by apply FindSession_err in Hf. }
  match goal with Hx : wrap _ (FindSession _) _ = _ |- _ =>
    apply wrap_ok, FindSession_run in Hx as (-> & r & Hs & ->) end.
  run_err Hr. { apply require_run_err in Hr as (_ & _ & ?). done. }
  match goal with Hx : require _ _ _ = _ |- _ => apply require_run_ok in Hx as [Ha ->] end.
  run_err Hr. { apply wrap_run_err in Hr as (e & Hf & [= <-]). by apply FindByID_err in Hf. }
  run_inv. unfold FindByID, find_user in *. run_inv.
  run_err Hr. { apply require_run_err in Hr as (_ & _ & ?). done. } run_inv.
  run_err Hr. { by apply wrap_run_err in Hr as (e & _ & ?). } run_inv.
  run_err Hr.
  - apply wrap_run_err in Hr as (e & Hr & _). split; [by eapply rotate_failed|]. 
    assert (t = s) as -> by by eapply rotate_failed.
    do 2 eexists. split_and!; [by symmetry|exact Hs|].
    apply negb_true_iff, orb_false_iff in Ha as [_ [Hn _]%negb_false_iff%andb_prop]. cbn in Hn.
    by destruct (s_RevokedAt r).
  - by run_err Hr; [apply wrap_run_err in Hr as (e & _ & ?)|].
Qed.

(** ** Verifying an address *)

Lemma verified_checked now r : user_check r = true → user_check (verified_row now r) = true.
Proof. unfold user_check. cbn. rewrite !andb_true_iff. intros [[[[[] ] ] ] ]. by split_and!. Qed.

(** An outstanding verification token undoes a deactivation: used
    on a disabled account whose address was not verified, it succeeds and makes
    the account active, so that it can log in again. *)
Theorem verification_reactivates cfg s ctx token k a r :
  ireachable cfg s → TrimSpace token ≠ EmptyString →
  actions s !! k = Some a → a_Kind a = ActionEmailVerification →
  a_Digest a = DigestActionToken (TrimSpace token) (pepper cfg) →
  a_UsedAt a = None → inow ctx < a_ExpiresAt a →
  users s !! a_UserID a = Some r → u_Status r = StatusDisabled → u_EmailVerifiedAt r = None →
  ∃ t r', VerifyEmail cfg true ctx token s = (t, Ok tt) ∧ users t !! a_UserID a = Some r'
    ∧ u_Status r' = StatusActive ∧ CanEstablishSession (fromModel r') = true.
Proof.
  intros Hs Ht Ha Hk Hd Hn He Hr Hst Hv. pose proof (ireachable_tidy cfg s Hs) as Hty.
  destruct (tidy_users s Hty _ _ Hr) as (Hi & _ & Hc).
  unfold VerifyEmail. rewrite bool_decide_false by done. unfold wrap, ConsumeAndVerifyEmail, transaction.
  rewrite <-Hk, <-Hd, (consume_run s k a) by done.
  unfold classifyActionToken. rewrite Hn. unfold after. rewrite (proj2 (Z.ltb_lt (inow ctx) (a_ExpiresAt a))) by done.
  cbn. unfold find_user, save_user. cbv [mbind tx_bind gets id expect]. cbn. rewrite Hr. cbn. rewrite Hv. cbn.
  rewrite verified_checked by done. cbn. do 2 eexists. split; [done|]. cbn. rewrite Hi, lookup_insert_eq. by split_and!.
Qed.

End claims.

(** ** The claims on the sample *)

Lemma sessions_end_witness :
  ∃ r, sessions iloggedin !! (SessionID (NewRefreshToken (iat 2 "b"))) = Some r ∧ s_ExpiresAt r <= s_CreatedAt r + absoluteTTL toy_config.
Proof.
  eexists. split; [by vm_compute|].
  apply (sessions_end toy_config iloggedin (SessionID (NewRefreshToken (iat 2 "b")))); [apply iloggedin_reachable|by vm_compute].
Defined.

Lemma accounts_mature_witness :
  ∃ r r', users iloggedin !! 1 = Some r ∧ users iresetting !! 1 = Some r' ∧ u_TokenVersion r <= u_TokenVersion r'.
Proof.
  do 2 eexists. split_and!; [by vm_compute|by vm_compute|].
  edestruct (accounts_mature toy_config iloggedin iresetting 1) as (r' & Hr' & _ & _ & _ & _ & Hv & _);
    [apply iloggedin_reachable|by vm_compute|apply rtc_once; by eexists (IReqReset true (iat 3 "c") "alice")|].
  vm_compute in Hr'. injection Hr' as <-. exact Hv.
Defined.

Lemma password_reset_once_witness :
  ∃ t r', ResetPassword toy_config true (iat 4 "d") (NewActionToken (iat 3 "c")) "battery staple" iresetting
          = (t, Ok tt)
    ∧ users t = <[1 := r']> (users iresetting) ∧ u_PasswordHash r' = "h:battery staple".
Proof.
  edestruct (password_reset_once toy_config iresetting (iat 4 "d") (NewActionToken (iat 3 "c")) "battery staple"
    "h:battery staple" "one c") as (t & r' & Hr & Hu & Hh & _);
    [apply iresetting_reachable|by vm_compute|by vm_compute|by vm_compute|by vm_compute|by vm_compute
    |by vm_compute|by vm_compute|by vm_compute|by vm_compute|].
  exists t, r'. by split_and!.
Defined.

Lemma lockout_witness :
  let t := logins toy_config true "h:" "alice" ([(iat 3 "d", "one"); (iat 4 "e", "two")] ++ [(iat 5 "f", "three")])
             iloggedin in
  Authenticate toy_config true (iat 64 "g") "h:" "alice" "correct horse" t = (t, Err (IApp IAccountLocked None)).
Proof.
  eapply (lockout toy_config true iloggedin "h:" "alice");
    [apply iloggedin_reachable|by vm_compute|by vm_compute|by vm_compute|by vm_compute
    |by repeat constructor; vm_compute|by vm_compute|by vm_compute|by eexists; vm_compute|by vm_compute].
Defined.

Lemma rotated_token_refused_witness :
  ∃ t auth, Refresh toy_config true (iat 5 "d") (handed (iat 2 "b")) iloggedin = (t, Ok auth)
    ∧ Refresh toy_config true (iat 6 "e") (sa_RefreshToken auth) t
      = (t, Err (IApp IUnauthenticated (Some ErrSessionNotFound))).
Proof.
  do 2 eexists. split; [by vm_compute|].
  apply (rotated_token_refused toy_config true (iat 5 "d") (handed (iat 2 "b")) iloggedin);
    [apply iloggedin_reachable|by vm_compute..].
Defined.

Lemma replay_not_revoked_witness :
  ∃ t, Refresh toy_config true (iat 20 "e") (handed (iat 2 "b")) irotated
       = (t, Err (IApp IUnauthenticated (Some ErrSessionReplay))) ∧ t = irotated.
Proof.
  eexists. split; [by vm_compute|].
  apply (replay_not_revoked toy_config true (iat 20 "e") (handed (iat 2 "b"))). by vm_compute.
Defined.

Lemma verification_reactivates_witness :
  ∃ t r', VerifyEmail toy_config true (iat 9 "e") (NewActionToken (iat 1 "a")) ideactivated = (t, Ok tt)
    ∧ users t !! 1 = Some r' ∧ u_Status r' = StatusActive.
Proof.
  edestruct (verification_reactivates toy_config ideactivated (iat 9 "e") (NewActionToken (iat 1 "a")) "one a")
    as (t & r' & Hv & Hr & Hs & _);
    [apply ideactivated_reachable|by vm_compute..|].
  exists t, r'. by split_and!.
Defined.
