(* ===== verification/ASchema.v ===== *)
(** The attachment service's tables, views and constants:
    [services/attachment/internal/model/model.go], [internal/domain/attachment.go]
    and the constraints of [internal/migration/migrations/*.sql].

    A database is one finite map per table, under its primary key.  Columns of
    type uuid are compared as texts: identifiers are taken in canonical form. *)

From stdpp Require Import base gmap list sets strings.
From Stdlib Require Import ZArith Lia.
From S2P Require Import Prelude.
From S2P Require Import GoStrings.

Open Scope Z_scope.

(** ** Constants *)

Definition StatusPendingUpload := "pending_upload".
Definition StatusScanning := "scanning".
Definition StatusScanParked := "scan_parked".
Definition StatusReady := "ready".
Definition StatusRejected := "rejected".
Definition StatusTrashed := "trashed".
Definition CategoryImage := "image".
Definition CategoryAudio := "audio".
Definition CategoryVideo := "video".
Definition CategoryDocument := "document".
Definition CategoryArchive := "archive".
Definition CategoryFile := "file".
Definition PartSize : Z := 16 * 2 ^ 20.
Definition MaxParts : Z := 64.
Definition MaxUserBytes : Z := 10 * 2 ^ 30.
Definition MaxSizeBytes : Z := 2 ^ 30.
Definition publicationReferenceType := "document_publication".

(** ** Rows *)

(** [model.Attachment] *)
Record AttachmentRow := MkAttachmentRow {
  t_ID : string;
  t_OwnerID : Z;
  t_Filename : string;
  t_MediaType : string;
  t_Category : string;
  t_SizeBytes : Z;
  t_SHA256 : string;
  t_DetectedType : string;
  t_ObjectKey : string;
  t_UploadID : string;
  t_Status : string;
  t_PartSize : Z;
  t_PartCount : Z;
  t_IdempotencyKey : string;
  t_RequestHash : string;
  t_CreatedAt : Z;
  t_UpdatedAt : Z;
}.

#[export] Instance AttachmentRow_eq_dec : EqDecision AttachmentRow.
Proof. solve_decision. Defined.

Definition set_t_SHA256 (v : string) (r : AttachmentRow) : AttachmentRow :=
  MkAttachmentRow (t_ID r) (t_OwnerID r) (t_Filename r) (t_MediaType r) (t_Category r) (t_SizeBytes r) v
    (t_DetectedType r) (t_ObjectKey r) (t_UploadID r) (t_Status r) (t_PartSize r)
    (t_PartCount r) (t_IdempotencyKey r) (t_RequestHash r) (t_CreatedAt r) (t_UpdatedAt r).

Definition set_t_DetectedType (v : string) (r : AttachmentRow) : AttachmentRow :=
  MkAttachmentRow (t_ID r) (t_OwnerID r) (t_Filename r) (t_MediaType r) (t_Category r) (t_SizeBytes r)
    (t_SHA256 r) v (t_ObjectKey r) (t_UploadID r) (t_Status r) (t_PartSize r)
    (t_PartCount r) (t_IdempotencyKey r) (t_RequestHash r) (t_CreatedAt r) (t_UpdatedAt r).

Definition set_t_Status (v : string) (r : AttachmentRow) : AttachmentRow :=
  MkAttachmentRow (t_ID r) (t_OwnerID r) (t_Filename r) (t_MediaType r) (t_Category r) (t_SizeBytes r)
    (t_SHA256 r) (t_DetectedType r) (t_ObjectKey r) (t_UploadID r) v (t_PartSize r)
    (t_PartCount r) (t_IdempotencyKey r) (t_RequestHash r) (t_CreatedAt r) (t_UpdatedAt r).

Definition set_t_UpdatedAt (v : Z) (r : AttachmentRow) : AttachmentRow :=
  MkAttachmentRow (t_ID r) (t_OwnerID r) (t_Filename r) (t_MediaType r) (t_Category r) (t_SizeBytes r)
    (t_SHA256 r) (t_DetectedType r) (t_ObjectKey r) (t_UploadID r) (t_Status r)
    (t_PartSize r) (t_PartCount r) (t_IdempotencyKey r) (t_RequestHash r) (t_CreatedAt r) v.

(** [model.ScanJob] *)
Record ScanJobRow := MkScanJobRow {
  q_AttachmentID : string;
  q_Attempts : Z;
  q_NextAttemptAt : Z;
  q_LeaseUntil : option Z;
  q_ParkedAt : option Z;
  q_LastError : string;
  q_CreatedAt : Z;
  q_UpdatedAt : Z;
}.

#[export] Instance ScanJobRow_eq_dec : EqDecision ScanJobRow.
Proof. solve_decision. Defined.

Definition set_q_Attempts (v : Z) (r : ScanJobRow) : ScanJobRow :=
  MkScanJobRow (q_AttachmentID r) v (q_NextAttemptAt r) (q_LeaseUntil r) (q_ParkedAt r)
    (q_LastError r) (q_CreatedAt r) (q_UpdatedAt r).

Definition set_q_NextAttemptAt (v : Z) (r : ScanJobRow) : ScanJobRow :=
  MkScanJobRow (q_AttachmentID r) (q_Attempts r) v (q_LeaseUntil r) (q_ParkedAt r) (q_LastError r)
    (q_CreatedAt r) (q_UpdatedAt r).

Definition set_q_LeaseUntil (v : option Z) (r : ScanJobRow) : ScanJobRow :=
  MkScanJobRow (q_AttachmentID r) (q_Attempts r) (q_NextAttemptAt r) v (q_ParkedAt r) (q_LastError r)
    (q_CreatedAt r) (q_UpdatedAt r).

Definition set_q_ParkedAt (v : option Z) (r : ScanJobRow) : ScanJobRow :=
  MkScanJobRow (q_AttachmentID r) (q_Attempts r) (q_NextAttemptAt r) (q_LeaseUntil r) v
    (q_LastError r) (q_CreatedAt r) (q_UpdatedAt r).

Definition set_q_LastError (v : string) (r : ScanJobRow) : ScanJobRow :=
  MkScanJobRow (q_AttachmentID r) (q_Attempts r) (q_NextAttemptAt r) (q_LeaseUntil r) (q_ParkedAt r) v
    (q_CreatedAt r) (q_UpdatedAt r).

Definition set_q_UpdatedAt (v : Z) (r : ScanJobRow) : ScanJobRow :=
  MkScanJobRow (q_AttachmentID r) (q_Attempts r) (q_NextAttemptAt r) (q_LeaseUntil r) (q_ParkedAt r)
    (q_LastError r) (q_CreatedAt r) v.

(** [model.Reference] *)
Record ReferenceRow := MkReferenceRow {
  rf_AttachmentID : string;
  rf_RefType : string;
  rf_RefID : string;
  rf_Generation : Z;
  rf_CreatedAt : Z;
}.

#[export] Instance ReferenceRow_eq_dec : EqDecision ReferenceRow.
Proof. solve_decision. Defined.

(** [model.ReferenceHead] *)
Record HeadRow := MkHeadRow {
  hd_RefType : string;
  hd_RefID : string;
  hd_OwnerID : Z;
  hd_ActiveGeneration : Z;
  hd_ActiveHash : string;
  hd_StagedGeneration : option Z;
  hd_StagedHash : string;
  hd_UpdatedAt : Z;
}.

#[export] Instance HeadRow_eq_dec : EqDecision HeadRow.
Proof. solve_decision. Defined.

Definition set_hd_OwnerID (v : Z) (r : HeadRow) : HeadRow :=
  MkHeadRow (hd_RefType r) (hd_RefID r) v (hd_ActiveGeneration r) (hd_ActiveHash r)
    (hd_StagedGeneration r) (hd_StagedHash r) (hd_UpdatedAt r).

Definition set_hd_ActiveGeneration (v : Z) (r : HeadRow) : HeadRow :=
  MkHeadRow (hd_RefType r) (hd_RefID r) (hd_OwnerID r) v (hd_ActiveHash r) (hd_StagedGeneration r)
    (hd_StagedHash r) (hd_UpdatedAt r).

Definition set_hd_ActiveHash (v : string) (r : HeadRow) : HeadRow :=
  MkHeadRow (hd_RefType r) (hd_RefID r) (hd_OwnerID r) (hd_ActiveGeneration r) v
    (hd_StagedGeneration r) (hd_StagedHash r) (hd_UpdatedAt r).

Definition set_hd_StagedGeneration (v : option Z) (r : HeadRow) : HeadRow :=
  MkHeadRow (hd_RefType r) (hd_RefID r) (hd_OwnerID r) (hd_ActiveGeneration r) (hd_ActiveHash r) v
    (hd_StagedHash r) (hd_UpdatedAt r).

Definition set_hd_StagedHash (v : string) (r : HeadRow) : HeadRow :=
  MkHeadRow (hd_RefType r) (hd_RefID r) (hd_OwnerID r) (hd_ActiveGeneration r) (hd_ActiveHash r)
    (hd_StagedGeneration r) v (hd_UpdatedAt r).

Definition set_hd_UpdatedAt (v : Z) (r : HeadRow) : HeadRow :=
  MkHeadRow (hd_RefType r) (hd_RefID r) (hd_OwnerID r) (hd_ActiveGeneration r) (hd_ActiveHash r)
    (hd_StagedGeneration r) (hd_StagedHash r) v.

(** The schema [attachment] *)
Record ADB := MkADB {
  attachments : gmap string AttachmentRow;
  scan_jobs : gmap string ScanJobRow;
  references : gmap (string * string * string * Z) ReferenceRow;
  heads : gmap (string * string) HeadRow;
}.

#[export] Instance ADB_eq_dec : EqDecision ADB.
Proof. solve_decision. Defined.

Definition set_attachments (v : gmap string AttachmentRow) (r : ADB) : ADB :=
  MkADB v (scan_jobs r) (references r) (heads r).

Definition set_scan_jobs (v : gmap string ScanJobRow) (r : ADB) : ADB :=
  MkADB (attachments r) v (references r) (heads r).

Definition set_references (v : gmap (string * string * string * Z) ReferenceRow) (r : ADB) : ADB :=
  MkADB (attachments r) (scan_jobs r) v (heads r).

Definition set_heads (v : gmap (string * string) HeadRow) (r : ADB) : ADB :=
  MkADB (attachments r) (scan_jobs r) (references r) v.

(** ** Views *)

(** [domain.Attachment] *)
Record Attachment := MkAttachment {
  at_ID : string;
  at_OwnerID : Z;
  at_Filename : string;
  at_MediaType : string;
  at_Category : string;
  at_SizeBytes : Z;
  at_SHA256 : string;
  at_DetectedType : string;
  at_ObjectKey : string;
  at_UploadID : string;
  at_Status : string;
  at_PartSize : Z;
  at_PartCount : Z;
  at_CreatedAt : Z;
  at_UpdatedAt : Z;
}.

#[export] Instance Attachment_eq_dec : EqDecision Attachment.
Proof. solve_decision. Defined.

Definition set_at_Status (v : string) (r : Attachment) : Attachment :=
  MkAttachment (at_ID r) (at_OwnerID r) (at_Filename r) (at_MediaType r) (at_Category r)
    (at_SizeBytes r) (at_SHA256 r) (at_DetectedType r) (at_ObjectKey r) (at_UploadID r) v
    (at_PartSize r) (at_PartCount r) (at_CreatedAt r) (at_UpdatedAt r).

(** [domain.ScanResult] *)
Record ScanResult := MkScanResult {
  sc_Clean : bool;
  sc_SHA256 : string;
  sc_Size : Z;
  sc_DetectedType : string;
}.

#[export] Instance ScanResult_eq_dec : EqDecision ScanResult.
Proof. solve_decision. Defined.

(** ** Errors *)

Inductive aerror :=
| ErrNotFound
| ErrConflict
| ErrIdempotencyConflict
| ErrReferenced
| RecordNotFound
| AInvalid (reason : string)
| AFailed (operation : string).

#[export] Instance aerror_eq_dec : EqDecision aerror.
Proof. solve_decision. Defined.

Definition astore (A : Type) : Type := tx ADB aerror A.
