(* ===== verification/AStore.v ===== *)
(** The attachment service's repository: [services/attachment/internal/repository]
    ([store.go], [references.go]), and what it uses of
    [internal/domain/attachment.go].  The advisory and row locks make a
    transaction one step, but for staging references: what it counts it does not
    lock, so its two phases are definitions of their own ([stage_begin],
    [stage_write]). *)

From stdpp Require Import base gmap list sets strings.
From Stdlib Require Import ZArith Lia.
From S2P Require Import Prelude.
From S2P Require Import GoStrings.
From S2P Require Import ASchema.

Open Scope Z_scope.

(** ** Idempotency keys and hashes *)

(** [^[\x21-\x7e]{1,128}$] *)
Definition visible_key (value : string) : bool :=
  (1 <=? len value) && (len value <=? 128) && forallb (in_range 33 126) (bytes value).

Definition ValidateKey (value : string) : result aerror unit :=
  if value =?= EmptyString then Ok tt
  else if negb (value =?= TrimSpace value) || negb (visible_key value)
  then Err (AInvalid "idempotency key must contain 1-128 visible ASCII characters")
  else Ok tt.

Record Idempotency := MkIdempotency {
  ik_OwnerID : Z;
  ik_Key : string;
  ik_RequestHash : string;
}.

(** ** Rows and views *)

Definition toDomain (r : AttachmentRow) : Attachment :=
  MkAttachment (t_ID r) (t_OwnerID r) (t_Filename r) (t_MediaType r) (t_Category r) (t_SizeBytes r)
    (t_SHA256 r) (t_DetectedType r) (t_ObjectKey r) (t_UploadID r) (t_Status r) (t_PartSize r)
    (t_PartCount r) (t_CreatedAt r) (t_UpdatedAt r).

(** The row [Create] inserts; the detected type is left to its default. *)
Definition new_row (a : Attachment) (idempotency : Idempotency) : AttachmentRow :=
  MkAttachmentRow (at_ID a) (at_OwnerID a) (at_Filename a) (at_MediaType a) (at_Category a) (at_SizeBytes a)
    (at_SHA256 a) EmptyString (at_ObjectKey a) (at_UploadID a) (at_Status a) (at_PartSize a) (at_PartCount a)
    (ik_Key idempotency) (ik_RequestHash idempotency) (at_CreatedAt a) (at_UpdatedAt a).

(** The constraints of [attachment.attachments]: sizes and widths, the primary
    key, the unique object key, and the partial unique index on the owner's
    idempotency key. *)
Definition attachment_check (r : AttachmentRow) : bool :=
  (0 <? t_SizeBytes r) && (t_SizeBytes r <=? MaxSizeBytes) && (0 <? t_PartCount r) && (t_PartCount r <=? MaxParts)
  && (rune_count (t_Filename r) <=? 255) && (rune_count (t_MediaType r) <=? 127)
  && (rune_count (t_UploadID r) <=? 256) && (rune_count (t_ObjectKey r) <=? 512).

Definition same_key (owner : Z) (key : string) (r : AttachmentRow) : bool :=
  (t_OwnerID r =? owner) && (t_IdempotencyKey r =?= key).

Definition insert_attachment (r : AttachmentRow) : astore unit :=
  db ← gets id;
  require (attachment_check r && is_none (attachments db !! t_ID r)
           && negb (exists_where (λ q, t_ObjectKey q =?= t_ObjectKey r) (attachments db))
           && ((t_IdempotencyKey r =?= EmptyString)
               || negb (exists_where (same_key (t_OwnerID r) (t_IdempotencyKey r)) (attachments db))))
    (AFailed "create attachment") ≫= λ _,
  modify (λ db, set_attachments (<[t_ID r := r]> (attachments db)) db).

Definition save_attachment (r : AttachmentRow) : astore unit :=
  modify (λ db, set_attachments (<[t_ID r := r]> (attachments db)) db).

Definition save_job (j : ScanJobRow) : astore unit :=
  modify (λ db, set_scan_jobs (<[q_AttachmentID j := j]> (scan_jobs db)) db).

Definition delete_job (i : string) : astore unit :=
  modify (λ db, set_scan_jobs (delete i (scan_jobs db)) db).

(** The statuses that count against the quota. *)
Definition counted (status : string) : bool :=
  bool_decide (status ∈ [StatusPendingUpload; StatusScanning; StatusScanParked; StatusReady; StatusTrashed]).

(** [SELECT COALESCE(SUM(size_bytes), 0) ... WHERE owner_id = ? AND status IN ?] *)
Definition used_bytes (owner : Z) (db : ADB) : Z :=
  foldr (λ r n, t_SizeBytes r + n) 0
    (rows_where (λ r, (t_OwnerID r =? owner) && counted (t_Status r)) (attachments db)).

Definition row_order : AttachmentRow → AttachmentRow → comparison := by_key t_ID String.compare.

Definition CreateAttachment (a : Attachment) (idempotency : Idempotency) : astore Attachment :=
  (if ik_Key idempotency =?= EmptyString then mret tt
   else lift (ValidateKey (ik_Key idempotency)) ≫= λ _,
        require (len (ik_RequestHash idempotency) =? 64) (AFailed "idempotency request hash is invalid")) ≫= λ _,
  transaction (
    db ← gets id;
    let existing := if ik_Key idempotency =?= EmptyString then None
                    else first_where (same_key (ik_OwnerID idempotency) (ik_Key idempotency)) row_order
                           (attachments db) in
    match existing with
    | Some r =>
      if negb (t_RequestHash r =?= ik_RequestHash idempotency) then fail ErrIdempotencyConflict
      else mret (toDomain r)
    | None =>
      if MaxUserBytes <? used_bytes (at_OwnerID a) db + at_SizeBytes a then fail ErrConflict
      else
        insert_attachment (new_row a idempotency) ≫= λ _,
        mret (toDomain (new_row a idempotency))
    end).

(** The attachment [id] of [owner]. *)
Definition owned (i : string) (owner : Z) (db : ADB) : option AttachmentRow :=
  attachments db !! i ≫= λ r, if t_OwnerID r =? owner then Some r else None.

Definition GetAttachment (i : string) (owner : Z) : astore Attachment :=
  db ← gets id;
  r ← expect ErrNotFound (owned i owner db);
  mret (toDomain r).

Record ACursor := MkACursor { ac_Version : Z; ac_Time : Z; ac_ID : string }.

#[export] Instance ACursor_eq_dec : EqDecision ACursor.
Proof. solve_decision. Defined.

(** [ORDER BY created_at DESC, id DESC] *)
Definition page_order : AttachmentRow → AttachmentRow → comparison :=
  descending (then_by (by_key t_CreatedAt Z.compare) (by_key t_ID String.compare)).

(** [(created_at, id) < (?, ?)] *)
Definition before_cursor (c : ACursor) (r : AttachmentRow) : bool :=
  (t_CreatedAt r <? ac_Time c)
  || ((t_CreatedAt r =? ac_Time c) && bool_decide (String.compare (t_ID r) (ac_ID c) = Lt)).

Definition listed (owner : Z) (status category : string) (cursor : option ACursor) (r : AttachmentRow) : bool :=
  (t_OwnerID r =? owner)
  && ((status =?= EmptyString) || (t_Status r =?= status))
  && ((category =?= EmptyString) || (t_Category r =?= category))
  && match cursor with Some c => before_cursor c r | None => true end.

Definition effective_limit (limit : Z) : Z := if (limit <=? 0) || (100 <? limit) then 50 else limit.

Definition ListAttachments (owner : Z) (status category : string) (cursor : option ACursor) (limit : Z)
  : astore (list Attachment) :=
  db ← gets id;
  mret (toDomain <$> take (Z.to_nat (effective_limit limit + 1))
          (order_by page_order (rows_where (listed owner status category cursor) (attachments db)))).

(** ** Scanning *)

Definition scanLease : Z := 30 * Minute.
Definition maxScanAttempts : Z := 8.

(** The job a completed upload starts with; an old one is reset, keeping the
    time it was created. *)
Definition fresh_job (i : string) (now : Z) (old : option ScanJobRow) : ScanJobRow :=
  MkScanJobRow i 0 now None None EmptyString (match old with Some j => q_CreatedAt j | None => now end) now.

Definition MarkScanning (now : Z) (i : string) (owner : Z) : astore unit :=
  transaction (
    db ← gets id;
    r ← expect ErrNotFound (owned i owner db);
    require (t_Status r =?= StatusPendingUpload) ErrConflict ≫= λ _,
    save_attachment (r |> set_t_Status StatusScanning |> set_t_UpdatedAt now) ≫= λ _,
    save_job (fresh_job i now (scan_jobs db !! i))).

Section folding.
Context `{Unicode}.

(** The status a scan result leads to. *)
Definition scan_status (r : AttachmentRow) (result : ScanResult) (clean : bool) : string :=
  if negb (sc_Size result =? t_SizeBytes r)
     || (negb (t_SHA256 r =?= EmptyString) && negb (EqualFold (sc_SHA256 result) (t_SHA256 r)))
  then StatusRejected
  else if clean then StatusReady else StatusRejected.

Definition CompleteScan (now : Z) (i : string) (result : ScanResult) (clean : bool) : astore unit :=
  transaction (
    db ← gets id;
    r ← expect RecordNotFound (attachments db !! i);
    save_attachment (r |> set_t_Status (scan_status r result clean)
                       |> set_t_DetectedType (sc_DetectedType result) |> set_t_UpdatedAt now
                       |> set_t_SHA256 (if sc_SHA256 result =?= EmptyString then t_SHA256 r
                                        else ToLower (sc_SHA256 result))) ≫= λ _,
    delete_job i).

End folding.

(** [WHERE next_attempt_at <= now AND (lease_until IS NULL OR lease_until <= now)
    AND parked_at IS NULL] *)
Definition job_due (now : Z) (j : ScanJobRow) : bool :=
  (q_NextAttemptAt j <=? now) && negb (opt_test (λ t, now <? t) (q_LeaseUntil j)) && is_none (q_ParkedAt j).

Definition job_order : ScanJobRow → ScanJobRow → comparison :=
  then_by (by_key q_NextAttemptAt Z.compare) (by_key q_AttachmentID String.compare).

Definition leased_job (now : Z) (j : ScanJobRow) : ScanJobRow :=
  j |> set_q_Attempts (q_Attempts j + 1) |> set_q_LeaseUntil (Some (now + scanLease)) |> set_q_UpdatedAt now.

(** The attachment [i] while it is being scanned. *)
Definition in_scan (i : string) (db : ADB) : option AttachmentRow :=
  attachments db !! i ≫= λ r, if t_Status r =?= StatusScanning then Some r else None.

Definition Claim (now : Z) : astore Attachment :=
  transaction (
    db ← gets id;
    job ← expect RecordNotFound (first_where (job_due now) job_order (scan_jobs db));
    match in_scan (q_AttachmentID job) db with
    | None => delete_job (q_AttachmentID job) ≫= λ _, fail RecordNotFound
    | Some r => save_job (leased_job now job) ≫= λ _, mret (toDomain r)
    end).

Definition truncateError (message : string) : string :=
  let value := TrimSpace message in
  if 255 <? len value then slice_to 255 value else value.

(** [time.Second * time.Duration(1<<min(attempts, 7))] *)
Definition scan_backoff (attempts : Z) : Z := Second * Z.shiftl 1 (Z.min attempts 7).

Definition RetryScan (now : Z) (i message : string) : astore unit :=
  transaction (
    db ← gets id;
    r ← expect RecordNotFound (in_scan i db);
    job ← expect RecordNotFound (scan_jobs db !! i);
    let lastError := truncateError message in
    if maxScanAttempts <=? q_Attempts job then
      save_attachment (r |> set_t_Status StatusScanParked |> set_t_UpdatedAt now) ≫= λ _,
      save_job (job |> set_q_ParkedAt (Some now) |> set_q_LeaseUntil None |> set_q_LastError lastError
                    |> set_q_UpdatedAt now)
    else
      save_job (job |> set_q_NextAttemptAt (now + scan_backoff (q_Attempts job)) |> set_q_LeaseUntil None
                    |> set_q_LastError lastError |> set_q_UpdatedAt now)).

(** ** The trash *)

Definition trashable (status : string) : bool :=
  (status =?= StatusReady) || (status =?= StatusRejected) || (status =?= StatusScanParked).

Definition Trash (now : Z) (i : string) (owner : Z) : astore unit :=
  transaction (
    db ← gets id;
    r ← expect ErrNotFound (owned i owner db);
    require (negb (exists_where (λ f, rf_AttachmentID f =?= i) (references db))) ErrReferenced ≫= λ _,
    require (trashable (t_Status r)) ErrConflict ≫= λ _,
    save_attachment (r |> set_t_Status StatusTrashed |> set_t_UpdatedAt now)).

(** An update of no row is no error. *)
Definition RestoreAttachment (now : Z) (i : string) (owner : Z) : astore unit :=
  db ← gets id;
  match owned i owner db with
  | Some r => if t_Status r =?= StatusTrashed
              then save_attachment (r |> set_t_Status StatusReady |> set_t_UpdatedAt now)
              else mret tt
  | None => mret tt
  end.

(** ** Publication references *)

Record PublicationReferenceCommand := MkCommand {
  cm_DocumentID : string;
  cm_OwnerID : Z;
  cm_Generation : Z;
  cm_AttachmentIDs : list string;
  cm_RequestHash : string;
}.

#[export] Instance PublicationReferenceCommand_eq_dec : EqDecision PublicationReferenceCommand.
Proof. solve_decision. Defined.

Record PublicationReferenceState := MkReferenceState {
  rs_DocumentID : string;
  rs_ActiveGeneration : Z;
  rs_StagedGeneration : option Z;
}.

Definition head_key (documentID : string) : string * string := (publicationReferenceType, documentID).

Definition lockReferenceHead (documentID : string) : astore (option HeadRow) :=
  gets (λ db, heads db !! head_key documentID).

(** [latest]: the newest generation the head knows. *)
Definition latest (h : HeadRow) : Z :=
  match hd_StagedGeneration h with
  | Some g => if hd_ActiveGeneration h <? g then g else hd_ActiveGeneration h
  | None => hd_ActiveGeneration h
  end.

Definition of_document (documentID : string) (f : ReferenceRow) : bool :=
  (rf_RefType f =?= publicationReferenceType) && (rf_RefID f =?= documentID).

Definition delete_references (P : ReferenceRow → bool) : astore unit :=
  modify (λ db, set_references (delete_where P (references db)) db).

(** The primary key, the foreign key and the check of [attachment.references]. *)
Definition insert_reference (f : ReferenceRow) : astore unit :=
  db ← gets id;
  let key := (rf_AttachmentID f, rf_RefType f, rf_RefID f, rf_Generation f) in
  require (is_none (references db !! key) && is_some (attachments db !! rf_AttachmentID f)
           && (0 <? rf_Generation f)) (AFailed "stage publication reference") ≫= λ _,
  modify (λ db, set_references (<[key := f]> (references db)) db).

Definition head_check (h : HeadRow) : bool :=
  (0 <=? hd_ActiveGeneration h) && negb (opt_test (λ g, g <=? 0) (hd_StagedGeneration h)).

Definition save_head (operation : string) (h : HeadRow) : astore unit :=
  require (head_check h) (AFailed operation) ≫= λ _,
  modify (λ db, set_heads (<[(hd_RefType h, hd_RefID h) := h]> (heads db)) db).

(** The head of a document no command has reached before. *)
Definition new_head (command : PublicationReferenceCommand) (now : Z) : HeadRow :=
  MkHeadRow publicationReferenceType (cm_DocumentID command) (cm_OwnerID command) 0 EmptyString None EmptyString now.

(** The attachments of the command that its owner may publish. *)
Definition publishable (command : PublicationReferenceCommand) (r : AttachmentRow) : bool :=
  bool_decide (t_ID r ∈ cm_AttachmentIDs command) && (t_OwnerID r =? cm_OwnerID command)
  && (t_Status r =?= StatusReady).

Definition staged_head (command : PublicationReferenceCommand) (now : Z) (h : HeadRow) : HeadRow :=
  h |> set_hd_OwnerID (cm_OwnerID command) |> set_hd_StagedGeneration (Some (cm_Generation command))
    |> set_hd_StagedHash (cm_RequestHash command) |> set_hd_UpdatedAt now.

(** What [StagePublicationReferences] does about a head it finds: [Some r] when
    it returns [r] there. *)
Definition stage_early (command : PublicationReferenceCommand) (h : HeadRow) : option (result aerror unit) :=
  if cm_Generation command <? latest h then Some (Ok tt)
  else if opt_test (Z.eqb (cm_Generation command)) (hd_StagedGeneration h) then
    Some (if negb (hd_StagedHash h =?= cm_RequestHash command) || negb (hd_OwnerID h =? cm_OwnerID command)
          then Err ErrIdempotencyConflict else Ok tt)
  else if (cm_Generation command =? hd_ActiveGeneration h) && is_none (hd_StagedGeneration h) then
    Some (if negb (hd_ActiveHash h =?= cm_RequestHash command) || negb (hd_OwnerID h =? cm_OwnerID command)
          then Err ErrIdempotencyConflict else Ok tt)
  else None.

(** [StagePublicationReferences] runs in two phases.  It first reads the head
    and counts the attachments that may be published; it takes no lock on their
    rows.  [None]: the command returned there, [Some head]: it goes on. *)
Definition stage_begin (command : PublicationReferenceCommand) : astore (option (option HeadRow)) :=
  head ← lockReferenceHead (cm_DocumentID command);
  match head ≫= stage_early command with
  | Some r => lift r ≫= λ _, mret None
  | None =>
    db ← gets id;
    (if (0 <? Z.of_nat (length (cm_AttachmentIDs command)))
     then require (count_where (publishable command) (attachments db)
                   =? Z.of_nat (length (cm_AttachmentIDs command))) ErrConflict
     else mret tt) ≫= λ _,
    mret (Some head)
  end.

(** Then it writes, with the head it has read. *)
Definition stage_write (now : Z) (command : PublicationReferenceCommand) (head : option HeadRow) : astore unit :=
  (match head with
   | Some h =>
     match hd_StagedGeneration h with
     | Some g => if g =? hd_ActiveGeneration h then mret tt
                 else delete_references (λ f, of_document (cm_DocumentID command) f && (rf_Generation f =? g))
     | None => mret tt
     end
   | None => mret tt
   end) ≫= λ _,
  delete_references (λ f, of_document (cm_DocumentID command) f
                          && (rf_Generation f =? cm_Generation command)) ≫= λ _,
  for_each (cm_AttachmentIDs command)
    (λ i, insert_reference (MkReferenceRow i publicationReferenceType (cm_DocumentID command)
                              (cm_Generation command) now)) ≫= λ _,
  h ← (match head with
       | Some h => mret h
       | None => save_head "create publication reference head" (new_head command now) ≫= λ _,
                 mret (new_head command now)
       end);
  save_head "stage publication reference head" (staged_head command now h).

(** The call when nothing comes between its phases.  [AWorld] also has the
    phases as steps of their own. *)
Definition StagePublicationReferences (now : Z) (command : PublicationReferenceCommand) : astore unit :=
  transaction (
    begun ← stage_begin command;
    match begun with
    | Some head => stage_write now command head
    | None => mret tt
    end).

Definition finalized_head (command : PublicationReferenceCommand) (now : Z) (h : HeadRow) : HeadRow :=
  h |> set_hd_ActiveGeneration (cm_Generation command) |> set_hd_ActiveHash (cm_RequestHash command)
    |> set_hd_StagedGeneration None |> set_hd_StagedHash EmptyString |> set_hd_UpdatedAt now.

Definition FinalizePublicationReferences (now : Z) (command : PublicationReferenceCommand) : astore unit :=
  transaction (
    head ← lockReferenceHead (cm_DocumentID command);
    match head with
    | None => fail ErrNotFound
    | Some h =>
      if cm_Generation command <? hd_ActiveGeneration h then mret tt
      else if (hd_ActiveGeneration h =? cm_Generation command) && is_none (hd_StagedGeneration h) then
        if negb (hd_ActiveHash h =?= cm_RequestHash command) || negb (hd_OwnerID h =? cm_OwnerID command)
        then fail ErrIdempotencyConflict else mret tt
      else if negb (opt_test (Z.eqb (cm_Generation command)) (hd_StagedGeneration h))
              || negb (hd_StagedHash h =?= cm_RequestHash command) || negb (hd_OwnerID h =? cm_OwnerID command)
      then fail ErrConflict
      else
        delete_references (λ f, of_document (cm_DocumentID command) f
                                && (rf_Generation f <? cm_Generation command)) ≫= λ _,
        save_head "finalize publication reference head" (finalized_head command now h)
    end).

Definition cleared_head (command : PublicationReferenceCommand) (now : Z) (h : HeadRow) : HeadRow :=
  h |> set_hd_OwnerID (cm_OwnerID command) |> set_hd_ActiveGeneration (cm_Generation command)
    |> set_hd_ActiveHash (cm_RequestHash command) |> set_hd_StagedGeneration None
    |> set_hd_StagedHash EmptyString |> set_hd_UpdatedAt now.

Definition ClearPublicationReferences (now : Z) (command : PublicationReferenceCommand) : astore unit :=
  transaction (
    head ← lockReferenceHead (cm_DocumentID command);
    if opt_test (λ h, cm_Generation command <? latest h) head then mret tt
    else
      delete_references (of_document (cm_DocumentID command)) ≫= λ _,
      h ← (match head with
           | Some h => mret h
           | None => save_head "create cleared publication reference head" (new_head command now) ≫= λ _,
                     mret (new_head command now)
           end);
      save_head "clear publication reference head" (cleared_head command now h)).

Definition GetReferenceState (documentID : string) : astore PublicationReferenceState :=
  db ← gets id;
  mret (match heads db !! head_key documentID with
        | Some h => MkReferenceState documentID (hd_ActiveGeneration h) (hd_StagedGeneration h)
        | None => MkReferenceState documentID 0 None
        end).

(** A reference of the generation its head serves. *)
Definition current_reference (db : ADB) (f : ReferenceRow) : bool :=
  match heads db !! (rf_RefType f, rf_RefID f) with
  | Some h => (rf_Generation f =? hd_ActiveGeneration h)
              || opt_test (Z.eqb (rf_Generation f)) (hd_StagedGeneration h)
  | None => false
  end.

Definition GetPublished (i : string) : astore Attachment :=
  db ← gets id;
  r ← expect ErrNotFound (attachments db !! i);
  require ((t_Status r =?= StatusReady)
           && exists_where (λ f, (rf_AttachmentID f =?= i) && current_reference db f) (references db))
    ErrNotFound ≫= λ _,
  mret (toDomain r).
