(* ===== verification/AService.v ===== *)
(** The attachment service's calls: [services/attachment/internal/service],
    [internal/domain/attachment.go], [internal/scanner/clamav.go] as far as it
    judges an answer, and the cursors of [internal/repository/store.go].

    The object store answers through [Objects]; the uploads started and aborted
    there are kept in a log beside the database. *)

From stdpp Require Import base gmap list sets strings.
From Stdlib Require Import ZArith Lia.
From S2P Require Import Prelude.
From S2P Require Import GoStrings.
From S2P Require Import Base64.
From S2P Require Import KDomain.
From S2P Require Import Json.
From S2P Require Import ASchema.
From S2P Require Import AStore.

Open Scope Z_scope.

(** ** Errors *)

Inductive acode := AInvalidInput | ANotFound | AConflict | AUnavailable | AQuotaExceeded | AInternal.

#[export] Instance acode_eq_dec : EqDecision acode.
Proof. solve_decision. Defined.

(** An error of the catalogue with the error it wraps. *)
Record aapp := MkApp { app_Code : acode; app_Cause : option aerror }.

#[export] Instance aapp_eq_dec : EqDecision aapp.
Proof. solve_decision. Defined.

Definition mapRepositoryError (e : aerror) : aapp :=
  match e with
  | ErrNotFound => MkApp ANotFound None
  | ErrConflict | ErrIdempotencyConflict => MkApp AConflict None
  | _ => MkApp AInternal (Some e)
  end.

(** The JSON text of a cursor. *)
Class ACursorCodec := {
  marshal_acursor : ACursor → option string;
  unmarshal_acursor : string → option ACursor;
}.

(** ** The object store *)

Record Objects := MkObjects {
  StartMultipart : string → string → result string string;
  AbortMultipart : string → string → bool;
  PresignPart : string → string → Z → option (string * Z);
  CompleteMultipart : string → string → list (Z * string) → bool;
  OpenObject : string → result string string;
  PresignDownload : string → option (string * Z);
}.

Inductive object_call :=
| Started (key upload : string)
| Aborted (key upload : string).

#[export] Instance object_call_eq_dec : EqDecision object_call.
Proof. solve_decision. Defined.

Record ANode := MkANode { adb : ADB; log : list object_call }.

Definition svc (A : Type) : Type := tx ANode aapp A.

(** A repository call made by the service. *)
Definition on_db {A} (m : astore A) : tx ANode aerror A :=
  λ n, let '(db, r) := m (adb n) in (MkANode db (log n), r).

Definition note (c : object_call) : svc unit := modify (λ n, MkANode (adb n) (log n ++ [c])).

Definition refuse {A} (code : acode) : svc A := fail (MkApp code None).

Definition coded {A} (code : acode) (m : tx ANode aerror A) : svc A := wrap (λ e, MkApp code (Some e)) m.

Definition mapped {A} (m : astore A) : svc A := wrap mapRepositoryError (on_db m).

(** [s.objects.AbortMultipart]: whether the store confirmed. *)
Definition abort (objects : Objects) (key upload : string) : svc bool :=
  note (Aborted key upload) ≫= λ _, mret (AbortMultipart objects key upload).

(** ** Domain *)

Definition allowed : gmap string string := list_to_map
  [("image/jpeg", CategoryImage); ("image/png", CategoryImage); ("image/gif", CategoryImage);
   ("image/webp", CategoryImage); ("image/avif", CategoryImage);
   ("audio/mpeg", CategoryAudio); ("audio/ogg", CategoryAudio); ("audio/wav", CategoryAudio);
   ("audio/webm", CategoryAudio);
   ("video/mp4", CategoryVideo); ("video/webm", CategoryVideo); ("video/quicktime", CategoryVideo);
   ("application/pdf", CategoryDocument); ("application/zip", CategoryArchive);
   ("application/x-7z-compressed", CategoryArchive); ("application/x-rar-compressed", CategoryArchive);
   ("application/gzip", CategoryArchive); ("application/x-tar", CategoryArchive);
   ("text/plain", CategoryFile); ("text/markdown", CategoryFile); ("text/csv", CategoryFile);
   ("application/json", CategoryFile); ("application/octet-stream", CategoryFile);
   ("application/vnd.openxmlformats-officedocument.wordprocessingml.document", CategoryDocument);
   ("application/vnd.openxmlformats-officedocument.spreadsheetml.sheet", CategoryDocument);
   ("application/vnd.openxmlformats-officedocument.presentationml.presentation", CategoryDocument)].

(** [filepath.Base] on Unix *)
Definition filepath_Base (path : string) : string :=
  if path =?= EmptyString then "."
  else
    let stripped := rev (drop_while (Z.eqb 47) (rev (bytes path))) in
    let last := default [] (list.last (split_bytes 47 stripped [])) in
    if bool_decide (stripped = []) then "/" else of_bytes last.

(** [id[:2]] panics on a shorter identifier; identifiers are UUIDs. *)
Definition ObjectKey (i : string) : string := ("objects/" +:+ slice_to 2 i +:+ "/" +:+ i)%string.

(** [int32(math.Ceil(float64(size) / float64(partSize)))]: the part size is a
    power of two and the size below [2^53], so the quotient is exact. *)
Definition part_count (size : Z) : Z := wrap32 (- ((- size) / PartSize)).

Section service.
Context `{Unicode, Uuid, Codec}.

Definition ValidateUpload (filename mediaType : string) (size : Z) : result aerror string :=
  let filename := TrimSpace filename in
  let mediaType := ToLower (TrimSpace mediaType) in
  if (filename =?= EmptyString) || (255 <? len filename) then Err (AInvalid "filename is invalid")
  else if negb (filepath_Base filename =?= filename) then Err (AInvalid "filename must not contain a path")
  else match allowed !! mediaType with
       | None => Err (AInvalid "media type is not allowed")
       | Some category =>
         if (size <=? 0) || (MaxSizeBytes <? size)
         then Err (AInvalid "attachment size must be between 1 byte and 1 GiB")
         else Ok category
       end.

Definition hashCreateRequest (filename mediaType : string) (size : Z) : string :=
  sha256_hex (std_encode (JObj [("filename", JStr filename); ("media_type", JStr mediaType);
                                ("size_bytes", JInt size)])).

(** ** Messages *)

(** The message of an attachment; times are kept as instants. *)
Record AttachmentMessage := MkAttachmentMessage {
  msg_Id : string;
  msg_OwnerId : Z;
  msg_Filename : string;
  msg_MediaType : string;
  msg_Category : string;
  msg_SizeBytes : Z;
  msg_Sha256 : string;
  msg_Status : string;
  msg_PartSize : Z;
  msg_PartCount : Z;
  msg_CreatedAt : Z;
  msg_DetectedType : option string;
  msg_Download : option (string * Z);
}.

Definition optional (s : string) : option string := if s =?= EmptyString then None else Some s.

Definition toTransport (a : Attachment) (download : option (string * Z)) : AttachmentMessage :=
  MkAttachmentMessage (at_ID a) (at_OwnerID a) (at_Filename a) (at_MediaType a) (at_Category a) (at_SizeBytes a)
    (at_SHA256 a) (at_Status a) (wrap32 (at_PartSize a)) (at_PartCount a) (at_CreatedAt a)
    (optional (at_DetectedType a)) download.

Record UploadMessage := MkUploadMessage {
  up_Attachment : AttachmentMessage;
  up_UploadId : string;
  up_ExpiresAt : Z;
  up_Parts : list (Z * string * Z);
}.

(** ** Uploading *)

(** The presigned address of part [i]. *)
Definition presign (objects : Objects) (record : Attachment) (i : Z) : svc (Z * string * Z) :=
  part ← expect (MkApp AUnavailable (Some (AFailed "presign attachment part")))
           (PresignPart objects (at_ObjectKey record) (at_UploadID record) i);
  mret (i, part.1, part.2).

Definition uploadResult (objects : Objects) (record : Attachment) (expiresAt : Z) : svc UploadMessage :=
  if (at_UploadID record =?= EmptyString) || (at_PartCount record <=? 0) then refuse AConflict
  else
    parts ← collect (seqZ 1 (at_PartCount record)) (presign objects record);
    mret (MkUploadMessage (toTransport record None) (at_UploadID record) expiresAt parts).

(** [now] and [newID] are the clock and the identifier drawn. *)
Definition UploadAttachment (objects : Objects) (uploadTTL now : Z) (newID : string) (owner : Z)
  (filename mediaType : string) (size : Z) (idempotencyKey : string) : svc UploadMessage :=
  if owner <=? 0 then refuse AInvalidInput
  else
    category ← coded AInvalidInput (lift (ValidateUpload filename mediaType size));
    let parts := part_count size in
    if (parts <? 1) || (MaxParts <? parts) then refuse AInvalidInput
    else
      coded AInvalidInput (lift (ValidateKey idempotencyKey)) ≫= λ _,
      let name := TrimSpace filename in
      let media := ToLower (TrimSpace mediaType) in
      let requestHash := hashCreateRequest name media size in
      let key := ObjectKey newID in
      match StartMultipart objects key mediaType with
      | Err e => fail (MkApp AUnavailable (Some (AFailed e)))
      | Ok uploadID =>
        note (Started key uploadID) ≫= λ _,
        let record := MkAttachment newID owner name media category size EmptyString EmptyString key uploadID
                        StatusPendingUpload PartSize parts now now in
        created ← attempt (on_db (CreateAttachment record (MkIdempotency owner idempotencyKey requestHash)));
        match created with
        | Err e =>
          abort objects key uploadID ≫= λ _,
          match e with
          | ErrIdempotencyConflict => refuse AConflict
          | ErrConflict => refuse AQuotaExceeded
          | _ => fail (MkApp AInternal (Some e))
          end
        | Ok stored =>
          if at_ID stored =?= at_ID record then uploadResult objects record (now + uploadTTL)
          else if negb (at_Status stored =?= StatusPendingUpload) then
            abort objects key uploadID ≫= λ _, refuse AConflict
          else
            aborted ← abort objects key uploadID;
            if aborted : bool then uploadResult objects stored (now + uploadTTL)
            else fail (MkApp AUnavailable (Some (AFailed "abort multipart upload")))
        end
      end.

(** [strings.Trim] of quotes and spaces *)
Definition trim_etag (etag : string) : string :=
  of_bytes (trim_both (λ b, (b =? 34) || (b =? 32)) (bytes etag)).

(** The loop over the parts of a request: each has a number of the upload, not
    seen before, and a tag.  A nil part is [None]. *)
Fixpoint collect_parts (count : Z) (parts : list (option (Z * string))) (seen : list Z)
  : option (list (Z * string) * list Z) :=
  match parts with
  | [] => Some ([], seen)
  | None :: _ => None
  | Some (number, etag) :: rest =>
    if (number <? 1) || (count <? number) || bool_decide (number ∈ seen) || (TrimSpace etag =?= EmptyString)
    then None
    else '(collected, seen) ← collect_parts count rest (number :: seen);
         Some ((number, trim_etag etag) :: collected, seen)
  end.

Definition CompleteUpload (objects : Objects) (now owner : Z) (attachmentID uploadID : string)
  (parts : list (option (Z * string))) : svc AttachmentMessage :=
  if (owner <=? 0) || (attachmentID =?= EmptyString) || (uploadID =?= EmptyString) then refuse AInvalidInput
  else
    record ← mapped (GetAttachment attachmentID owner);
    if negb (at_Status record =?= StatusPendingUpload) || negb (at_UploadID record =?= uploadID)
       || negb (Z.of_nat (length parts) =? at_PartCount record)
    then refuse AConflict
    else
      match collect_parts (at_PartCount record) parts [] with
      | None => refuse AInvalidInput
      | Some (collected, seen) =>
        if negb (forallb (λ i, bool_decide (i ∈ seen)) (seqZ 1 (at_PartCount record))) then refuse AInvalidInput
        else if negb (CompleteMultipart objects (at_ObjectKey record) (at_UploadID record) collected)
        then fail (MkApp AConflict (Some (AFailed "complete multipart upload")))
        else
          mapped (MarkScanning now (at_ID record) owner) ≫= λ _,
          mret (toTransport (set_at_Status StatusScanning record) None)
      end.

(** ** Reading and the trash *)

Definition ReadAttachment (objects : Objects) (owner : Z) (i : string) : svc AttachmentMessage :=
  if (owner <=? 0) || (TrimSpace i =?= EmptyString) then refuse AInvalidInput
  else
    row ← mapped (GetAttachment i owner);
    if at_Status row =?= StatusReady then
      download ← expect (MkApp AUnavailable (Some (AFailed "presign download")))
                   (PresignDownload objects (at_ObjectKey row));
      mret (toTransport row (Some download))
    else mret (toTransport row None).

Definition TrashAttachment (now owner : Z) (i : string) : svc unit :=
  if (owner <=? 0) || (i =?= EmptyString) then refuse AInvalidInput
  else wrap (λ e, match e with ErrReferenced => MkApp AConflict (Some e) | _ => mapRepositoryError e end)
         (on_db (Trash now i owner)).

Definition UntrashAttachment (now owner : Z) (i : string) : svc unit :=
  if (owner <=? 0) || (i =?= EmptyString) then refuse AInvalidInput
  else mapped (RestoreAttachment now i owner).

(** ** Listing *)

(** The text of a cursor is that of package json over the given codec. *)
Definition EncodeACursor `{ACursorCodec} (value : ACursor) : result aerror string :=
  match marshal_acursor (MkACursor 1 (ac_Time value) (ac_ID value)) with
  | None => Err (AFailed "encode attachment cursor")
  | Some payload => Ok (EncodeToString payload)
  end.

Definition DecodeACursor `{ACursorCodec} (value : string) : result aerror (option ACursor) :=
  if TrimSpace value =?= EmptyString then Ok None
  else
    match DecodeString value with
    | None => Err (AFailed "decode attachment cursor")
    | Some payload =>
      match unmarshal_acursor payload with
      | None => Err (AFailed "decode attachment cursor: invalid cursor")
      | Some result =>
        if negb (ac_Version result =? 1) || (ac_Time result =? zero_time) || is_none (uuid_version (ac_ID result))
        then Err (AFailed "decode attachment cursor: invalid cursor")
        else Ok (Some result)
      end
    end.

Record AttachmentPage := MkAttachmentPage {
  pg_Items : list AttachmentMessage;
  pg_HasMore : bool;
  pg_NextCursor : option string;
}.

Definition ReadPage `{ACursorCodec} (owner : Z) (status category cursor : string) (limit : Z) : svc AttachmentPage :=
  if owner <=? 0 then refuse AInvalidInput
  else
    let limit := effective_limit limit in
    cursor ← coded AInvalidInput (lift (DecodeACursor cursor));
    rows ← coded AInternal (on_db (ListAttachments owner status category cursor limit));
    let hasMore := limit <? Z.of_nat (length rows) in
    let rows := if hasMore then take (Z.to_nat limit) rows else rows in
    let items := (λ row, toTransport row None) <$> rows in
    match (if hasMore then list.last rows else None) with
    | Some last =>
      next ← coded AInternal (lift (EncodeACursor (MkACursor 0 (at_CreatedAt last) (at_ID last))));
      mret (MkAttachmentPage items hasMore (Some next))
    | None => mret (MkAttachmentPage items hasMore None)
    end.

(** ** Publication references *)

Definition validUUIDv7 (value : string) : bool := bool_decide (uuid_version (TrimSpace value) = Some 7).

(** Valid identifiers, none equal to the one before it. *)
Fixpoint distinct_ids (previous : option string) (ids : list string) : bool :=
  match ids with
  | [] => true
  | i :: rest => validUUIDv7 i && negb (bool_decide (previous = Some i)) && distinct_ids (Some i) rest
  end.

(** [attachmentv1.PublicationReferenceCommand] *)
Record CommandMessage := MkCommandMessage {
  rq_MessageId : string;
  rq_DocumentId : string;
  rq_OwnerId : Z;
  rq_Generation : Z;
  rq_AttachmentIds : list string;
}.

Definition command_hash (documentID : string) (ownerID generation : Z) (ids : list string) : string :=
  sha256_hex (std_encode (JObj
    [("document_id", JStr documentID); ("owner_id", JInt ownerID); ("generation", JInt generation);
     ("attachment_ids", if bool_decide (ids = []) then JNull else JArr (JStr <$> ids))])).

Definition publicationCommand (req : CommandMessage) (requireEmpty : bool)
  : result aerror PublicationReferenceCommand :=
  if (rq_OwnerId req <=? 0) || (rq_Generation req <=? 0) || negb (validUUIDv7 (rq_MessageId req))
     || negb (validUUIDv7 (rq_DocumentId req))
  then Err (AInvalid "publication reference command is invalid")
  else
    let ids := order_by String.compare (rq_AttachmentIds req) in
    if negb (distinct_ids None ids) then Err (AInvalid "publication attachment IDs are invalid")
    else if requireEmpty && negb (bool_decide (ids = []))
    then Err (AInvalid "clear publication command must not contain attachments")
    else Ok (MkCommand (rq_DocumentId req) (rq_OwnerId req) (rq_Generation req) ids
               (command_hash (rq_DocumentId req) (rq_OwnerId req) (rq_Generation req) ids)).

Definition StageReferences (now : Z) (req : CommandMessage) : svc unit :=
  command ← coded AInvalidInput (lift (publicationCommand req false));
  mapped (StagePublicationReferences now command).

Definition FinalizeReferences (now : Z) (req : CommandMessage) : svc unit :=
  command ← coded AInvalidInput (lift (publicationCommand req false));
  mapped (FinalizePublicationReferences now command).

Definition ClearReferences (now : Z) (req : CommandMessage) : svc unit :=
  command ← coded AInvalidInput (lift (publicationCommand req true));
  mapped (ClearPublicationReferences now command).

Definition ReferenceState (documentID : string) : svc PublicationReferenceState :=
  if negb (validUUIDv7 documentID) then refuse AInvalidInput
  else coded AInternal (on_db (GetReferenceState documentID)).

Definition PublishedContent (objects : Objects) (attachmentID : string) : svc (string * Z) :=
  if negb (validUUIDv7 attachmentID) then refuse AInvalidInput
  else
    record ← mapped (GetPublished attachmentID);
    expect (MkApp AUnavailable (Some (AFailed "presign download"))) (PresignDownload objects (at_ObjectKey record)).

End service.

(** ** Scanning *)

(** [HasSuffix] *)
Definition has_suffix (suffix s : string) : bool :=
  bool_decide (of_bytes (drop (length (bytes s) - length (bytes suffix)) (bytes s)) = suffix).

(** [strings.TrimRight(response, "\x00\r\n")] *)
Definition trim_response (response : string) : string :=
  of_bytes (rev (drop_while (λ b, (b =? 0) || (b =? 13) || (b =? 10)) (rev (bytes response)))).

(** The judgement of [ClamAV.Scan] on an object, given what the daemon answers
    ([None]: a network error); [detect] is [http.DetectContentType] and [digest]
    the SHA-256 in hexadecimal. *)
Definition Scan (maximum : Z) (detect digest : string → string) (content : string) (response : option string)
  : result string ScanResult :=
  if maximum <? len content then Err "attachment exceeds scanner limit"
  else match response with
       | None => Err "scanner unavailable"
       | Some response =>
         let response := trim_response response in
         let clean := has_suffix ": OK" response in
         if negb clean && negb (has_suffix " FOUND" response) then Err "invalid ClamAV result"
         else Ok (MkScanResult clean (digest content) (len content) (detect content))
       end.

(** One pass of the scan worker.  Each call reads the clock; the failure of the
    object store or of the scanner is recorded and returned. *)
Definition scanOnce `{Unicode} (objects : Objects) (scan : string → result string ScanResult) (now : Z)
  : astore unit :=
  claimed ← attempt (Claim now);
  match claimed with
  | Err RecordNotFound => mret tt
  | Err e => fail e
  | Ok row =>
    match OpenObject objects (at_ObjectKey row) with
    | Err e => RetryScan now (at_ID row) e ≫= λ _, fail (AFailed e)
    | Ok content =>
      match scan content with
      | Err e => RetryScan now (at_ID row) e ≫= λ _, fail (AFailed e)
      | Ok result => CompleteScan now (at_ID row) result (sc_Clean result)
      end
    end
  end.
