(* ===== verification/AWorld.v ===== *)
(** The attachment service as a transition system: calls, and the scan workers,
    each of which claims, scans and reports in separate transactions.  The
    invariant [AInv] ties statuses to scan jobs, and references to the heads of
    their documents and to attachments that cannot be trashed. *)

From stdpp Require Import base gmap list sets strings relations.
From Stdlib Require Import ZArith Lia.
From S2P Require Import Prelude.
From S2P Require Import GoStrings.
From S2P Require Import KDomain.
From S2P Require Import Json.
From S2P Require Import ASchema.
From S2P Require Import AStore.
From S2P Require Import AService.

Open Scope Z_scope.

(** ** The invariant *)

(** An attachment whose scan is over, in use or in the trash. *)
Definition scan_over (status : string) : Prop :=
  status = StatusReady ∨ status = StatusRejected ∨ status = StatusTrashed.

Definition open_job (db : ADB) (i : string) : Prop :=
  ∃ j, scan_jobs db !! i = Some j ∧ q_ParkedAt j = None.

Record AInv (db : ADB) : Prop := {
  ai_rows : ∀ i r, attachments db !! i = Some r → t_ID r = i;
  ai_jobs : ∀ i j, scan_jobs db !! i = Some j → q_AttachmentID j = i ∧ is_Some (attachments db !! i);
  ai_scan : ∀ i r, attachments db !! i = Some r → t_Status r = StatusScanning ↔ open_job db i;
  ai_refs : ∀ k f, references db !! k = Some f →
    k = (rf_AttachmentID f, rf_RefType f, rf_RefID f, rf_Generation f)
    ∧ rf_RefType f = publicationReferenceType ∧ current_reference db f = true
    ∧ ∃ r, attachments db !! rf_AttachmentID f = Some r ∧ scan_over (t_Status r);
  ai_heads : ∀ k h, heads db !! k = Some h →
    k = (hd_RefType h, hd_RefID h) ∧ 0 <= hd_ActiveGeneration h
    ∧ ∀ g, hd_StagedGeneration h = Some g → hd_ActiveGeneration h < g;
}.

Definition empty_adb : ADB := MkADB ∅ ∅ ∅ ∅.

Lemma empty_ainv : AInv empty_adb.
Proof. split; cbn; intros; simplify_map_eq. Qed.

(** An attachment some document refers to. *)
Definition referenced (db : ADB) (i : string) : Prop :=
  ∃ k f, references db !! k = Some f ∧ rf_AttachmentID f = i.

(** One attachment and its job change. *)
Lemma ainv_row db i r' jobs :
  AInv db → t_ID r' = i →
  (∀ k, k ≠ i → jobs !! k = scan_jobs db !! k) →
  (∀ j, jobs !! i = Some j → q_AttachmentID j = i) →
  (t_Status r' = StatusScanning ↔ ∃ j, jobs !! i = Some j ∧ q_ParkedAt j = None) →
  (referenced db i → scan_over (t_Status r')) →
  AInv (set_scan_jobs jobs (set_attachments (<[i := r']> (attachments db)) db)).
Proof.
  intros [H1 H2 H3 H4 H5] Hi Hother Hkey Hscan Href.
  split; cbn [attachments scan_jobs references heads set_scan_jobs set_attachments].
  - intros k r. rewrite lookup_insert. case_decide; [naive_solver|apply H1].
  - intros k j Hj. rewrite lookup_insert. case_decide as Hk; [subst k; split; [by apply Hkey|done]|].
    rewrite Hother in Hj by done. by apply H2.
  - intros k r. rewrite lookup_insert. unfold open_job. cbn. case_decide as Hk; [subst k; by intros [= <-]|].
    intros Hr. rewrite Hother by done. by apply H3.
  - intros k f Hf. destruct (H4 k f Hf) as (Hk & Ht & Hc & r & Hr & Hs). split_and!; [done..|].
    rewrite lookup_insert. case_decide as Hfi; [|by exists r]. eexists. split; [done|].
    apply Href. by exists k, f.
  - done.
Qed.

(** A row changes, whose job stays. *)
Lemma ainv_status db i r r' :
  AInv db → attachments db !! i = Some r → t_ID r' = i →
  (t_Status r' = StatusScanning ↔ t_Status r = StatusScanning) →
  (referenced db i → scan_over (t_Status r')) →
  AInv (set_attachments (<[i := r']> (attachments db)) db).
Proof.
  intros Hdb Hr Hi Hs Href.
  replace (set_attachments _ db) with (set_scan_jobs (scan_jobs db) (set_attachments (<[i := r']> (attachments db)) db))
    by by destruct db.
  apply ainv_row; [done..| | |done].
  - intros j Hj. by apply (ai_jobs _ Hdb).
  - rewrite Hs. by apply (ai_scan _ Hdb).
Qed.

(** A job changes that stays open or stays parked. *)
Lemma ainv_job db j j' :
  AInv db → scan_jobs db !! q_AttachmentID j = Some j → q_AttachmentID j' = q_AttachmentID j →
  (q_ParkedAt j' = None ↔ q_ParkedAt j = None) →
  AInv (set_scan_jobs (<[q_AttachmentID j := j']> (scan_jobs db)) db).
Proof.
  intros Hdb Hj Hi Hp. destruct (ai_jobs _ Hdb _ _ Hj) as [_ [r Hr]].
  replace (set_scan_jobs _ db) with
    (set_scan_jobs (<[q_AttachmentID j := j']> (scan_jobs db)) (set_attachments (<[q_AttachmentID j := r]> (attachments db)) db))
    by (destruct db; unfold set_scan_jobs, set_attachments; cbn in *; by rewrite insert_id).
  apply ainv_row; [done|by apply (ai_rows _ Hdb)| | | |].
  - intros k Hk. by rewrite lookup_insert_ne.
  - intros j0. rewrite lookup_insert_eq. by intros [= <-].
  - rewrite (ai_scan _ Hdb _ _ Hr). unfold open_job. rewrite lookup_insert_eq, Hj. naive_solver.
  - intros (k & f & Hf & Hfi). destruct (ai_refs _ Hdb _ _ Hf) as (_ & _ & _ & r0 & Hr0 & Hs).
    rewrite Hfi in Hr0. by assert (r0 = r) as -> by congruence.
Qed.

(** ** The calls keep the invariant *)

Lemma owned_Some i owner db r : owned i owner db = Some r → attachments db !! i = Some r ∧ t_OwnerID r = owner.
Proof.
  unfold owned. destruct (attachments db !! i) as [q|]; [cbn|done]. destruct (t_OwnerID q =? owner) eqn:E; [|done].
  intros [= <-]. apply Z.eqb_eq in E. done.
Qed.

Lemma in_scan_Some i db r : in_scan i db = Some r → attachments db !! i = Some r ∧ t_Status r = StatusScanning.
Proof.
  unfold in_scan. destruct (attachments db !! i) as [q|]; [cbn|done]. case_bool_decide; [|done]. by intros [= <-].
Qed.

Lemma referenced_settled db i r :
  AInv db → attachments db !! i = Some r → referenced db i → scan_over (t_Status r).
Proof.
  intros Hdb Hr (k & f & Hf & Hi). destruct (ai_refs _ Hdb _ _ Hf) as (_ & _ & _ & r' & Hr' & Hs).
  rewrite Hi in Hr'. by assert (r' = r) as -> by congruence.
Qed.

(** An attachment whose scan is over is neither waiting for its upload, nor being scanned or parked. *)
Lemma settled_not status other :
  scan_over status → other ∈ [StatusPendingUpload; StatusScanning; StatusScanParked] → status ≠ other.
Proof.
  intros Hs Ho <-. rewrite !elem_of_cons, elem_of_nil in Ho.
  destruct Hs as [E|[E|E]]; rewrite E in Ho; by destruct Ho as [|[|[|]]].
Qed.

Lemma not_referenced db i r :
  AInv db → attachments db !! i = Some r →
  t_Status r ∈ [StatusPendingUpload; StatusScanning; StatusScanParked] → ¬ referenced db i.
Proof. intros Hdb Hr Hs Href. eapply settled_not; [by eapply referenced_settled|exact Hs|done]. Qed.

Section calls.
Context `{Unicode}.

(** A new row, which no job and no reference knows. *)
Lemma insert_inv r db db' u :
  AInv db → t_Status r = StatusPendingUpload → insert_attachment r db = (db', Ok u) → AInv db'.
Proof.
  intros Hdb Hst Hr. unfold insert_attachment in Hr. run_inv.
  match goal with Hg : _ && _ && _ && _ = true |- _ => rewrite !andb_true_iff in Hg; destruct Hg as [[[_ Hn] _] _] end.
  assert (attachments db !! t_ID r = None) as Hnone by by destruct (attachments db !! t_ID r).
  assert (¬ referenced db (t_ID r)) as Hnr.
  { intros (k & f & Hf & Hi). destruct (ai_refs _ Hdb _ _ Hf) as (_ & _ & _ & q & Hq & _). congruence. }
  assert (scan_jobs db !! t_ID r = None) as Hnj.
  { destruct (scan_jobs db !! t_ID r) eqn:Hj; [|done]. destruct (ai_jobs _ Hdb _ _ Hj) as [_ [? ?]]. congruence. }
  replace (set_attachments _ db)
    with (set_scan_jobs (scan_jobs db) (set_attachments (<[t_ID r := r]> (attachments db)) db)) by by destruct db.
  apply ainv_row; [done..| | |done].
  - congruence.
  - rewrite Hst, Hnj. split; [done|naive_solver].
Qed.

Lemma CreateAttachment_inv a ik db :
  AInv db → at_Status a = StatusPendingUpload → AInv (CreateAttachment a ik db).1.
Proof.
  intros Hdb Hst. unfold CreateAttachment. unfold mbind at 1, tx_bind at 1.
  match goal with |- AInv (match ?x with _ => _ end).1 => destruct x as [s1 [[]|e]] eqn:E end.
  - assert (s1 = db) as -> by (revert E; case_match; intros; run_inv; done).
    apply (transaction_keeps AInv); [done|]. intros s' v Hr. run_inv. clear E. case_match; [by case_match; run_inv|].
    destruct (MaxUserBytes <? _); run_inv. eapply insert_inv; [exact Hdb| |eassumption]. exact Hst.
  - assert (s1 = db) as ->; [|done]. case_match; [done|].
    apply bind_run_err in E as [E|(s2 & [] & E1 & E)]; run_inv; done.
Qed.

Lemma MarkScanning_inv now i owner db : AInv db → AInv (MarkScanning now i owner db).1.
Proof.
  intros Hdb. apply (transaction_keeps AInv); [done|]. intros s' v Hr. unfold save_attachment, save_job in Hr. run_inv.
  match goal with Hx : owned _ _ _ = Some _ |- _ => apply owned_Some in Hx as [Hrow _] end.
  match goal with Hx : (_ =?= _) = true |- _ => apply bool_decide_eq_true in Hx as Hst end.
  cbn [t_ID set_t_Status set_t_UpdatedAt q_AttachmentID fresh_job scan_jobs set_attachments].
  rewrite (ai_rows _ Hdb _ _ Hrow). apply ainv_row; [done|cbn; by apply (ai_rows _ Hdb)| | | |].
  - intros k Hk. by rewrite lookup_insert_ne.
  - intros j. rewrite lookup_insert_eq. by intros [= <-].
  - cbn. rewrite lookup_insert_eq. split; [by eexists|done].
  - intros Href. exfalso. eapply (not_referenced db i); [done|exact Hrow| |exact Href]. rewrite Hst. set_solver.
Qed.

Lemma scan_status_settled r result clean : scan_over (scan_status r result clean).
Proof. unfold scan_status, scan_over. repeat case_match; auto. Qed.

Lemma scan_status_not_trashed r result clean : scan_status r result clean ≠ StatusTrashed.
Proof. unfold scan_status. repeat case_match; discriminate. Qed.

Lemma CompleteScan_inv now i result clean db : AInv db → AInv (CompleteScan now i result clean db).1.
Proof.
  intros Hdb. apply (transaction_keeps AInv); [done|]. intros s' v Hr. unfold save_attachment, delete_job in Hr. run_inv.
  match goal with Hx : attachments _ !! i = Some ?r |- _ => rename Hx into Hrow; pose proof (ai_rows _ Hdb _ _ Hrow) as Hi end.
  cbn [t_ID set_t_Status set_t_UpdatedAt set_t_SHA256 set_t_DetectedType scan_jobs set_attachments]. rewrite Hi.
  apply ainv_row; [done|done| | | |].
  - intros k Hk. by rewrite lookup_delete_ne.
  - intros j. by rewrite lookup_delete_eq.
  - cbn. rewrite lookup_delete_eq. split; [|naive_solver].
    intros Hs. exfalso. eapply settled_not; [apply scan_status_settled| |exact Hs]. set_solver.
  - intros _. apply scan_status_settled.
Qed.

Lemma Claim_inv now db : AInv db → AInv (Claim now db).1.
Proof.
  intros Hdb. apply (transaction_keeps AInv); [done|]. intros s' v Hr. unfold save_job, delete_job in Hr. run_inv.
  match goal with Hx : first_where _ _ _ = Some _ |- _ => apply first_where_Some in Hx as [Hdue [i Hj]] end.
  destruct (ai_jobs _ Hdb _ _ Hj) as [Hi _]. case_match; run_inv.
  cbn [q_AttachmentID leased_job set_q_UpdatedAt set_q_LeaseUntil set_q_Attempts]. by apply ainv_job.
Qed.

Lemma RetryScan_inv now i message db : AInv db → AInv (RetryScan now i message db).1.
Proof.
  intros Hdb. apply (transaction_keeps AInv); [done|]. intros s' v Hr. unfold save_attachment, save_job in Hr. run_inv.
  match goal with Hx : in_scan _ _ = Some _ |- _ => apply in_scan_Some in Hx as [Hrow Hst] end.
  case_match; run_inv;
    match goal with Hx : scan_jobs _ !! i = Some ?j |- _ => rename Hx into Hjob; destruct (ai_jobs _ Hdb _ _ Hjob) as [Hi _] end.
  - cbn [t_ID set_t_Status set_t_UpdatedAt q_AttachmentID set_q_ParkedAt set_q_LeaseUntil set_q_LastError
         set_q_UpdatedAt scan_jobs set_attachments].
    rewrite (ai_rows _ Hdb _ _ Hrow), Hi. apply ainv_row; [done|cbn; by apply (ai_rows _ Hdb)| | | |].
    + intros k Hk. by rewrite lookup_insert_ne.
    + intros j. rewrite lookup_insert_eq. by intros [= <-].
    + cbn. rewrite lookup_insert_eq. split; [done|]. intros (j & [= <-] & Hp). done.
    + intros Href. exfalso. eapply (not_referenced db i); [done|exact Hrow| |exact Href]. rewrite Hst. set_solver.
  - cbn [q_AttachmentID set_q_NextAttemptAt set_q_LeaseUntil set_q_LastError set_q_UpdatedAt].
    apply ainv_job; [done|by rewrite Hi|done|done].
Qed.

Lemma Trash_inv now i owner db : AInv db → AInv (Trash now i owner db).1.
Proof.
  intros Hdb. apply (transaction_keeps AInv); [done|]. intros s' v Hr. unfold save_attachment in Hr. run_inv.
  match goal with Hx : owned _ _ _ = Some _ |- _ => apply owned_Some in Hx as [Hrow _] end.
  match goal with Hx : trashable _ = true |- _ => rename Hx into Htr end.
  cbn [t_ID set_t_Status set_t_UpdatedAt]. rewrite (ai_rows _ Hdb _ _ Hrow).
  eapply ainv_status; [done|exact Hrow|cbn; by apply (ai_rows _ Hdb)| |].
  - cbn. split; [done|]. intros Hs. rewrite Hs in Htr. by vm_compute in Htr.
  - intros _. by right; right.
Qed.

Lemma RestoreAttachment_inv now i owner db : AInv db → AInv (RestoreAttachment now i owner db).1.
Proof.
  intros Hdb. unfold RestoreAttachment, save_attachment. cbv [mbind tx_bind gets id].
  destruct (owned i owner db) as [r|] eqn:Hr; [|done]. apply owned_Some in Hr as [Hrow _].
  case_bool_decide as Hst; [|done]. cbn. rewrite (ai_rows _ Hdb _ _ Hrow).
  eapply ainv_status; [done|exact Hrow|cbn; by apply (ai_rows _ Hdb)| |].
  - rewrite Hst. done.
  - intros Href. by left.
Qed.

End calls.

(** ** Publication references *)

Definition reference_key (f : ReferenceRow) : string * string * string * Z :=
  (rf_AttachmentID f, rf_RefType f, rf_RefID f, rf_Generation f).

(** The reference a command creates for an attachment. *)
Definition new_reference (command : PublicationReferenceCommand) (now : Z) (i : string) : ReferenceRow :=
  MkReferenceRow i publicationReferenceType (cm_DocumentID command) (cm_Generation command) now.

(** The loop of inserts. *)
Lemma insert_references_run command now ids s t u :
  for_each ids (λ i, insert_reference (new_reference command now i)) s = (t, Ok u) →
  attachments t = attachments s ∧ scan_jobs t = scan_jobs s ∧ heads t = heads s
  ∧ NoDup ids ∧ (∀ i, i ∈ ids → references s !! reference_key (new_reference command now i) = None)
  ∧ ∀ k f, references t !! k = Some f ↔
      references s !! k = Some f ∨ ∃ i, i ∈ ids ∧ f = new_reference command now i ∧ k = reference_key f.
Proof.
  revert s. induction ids as [|i ids IH]; intros s Hr; cbn [for_each] in Hr.
  { run_inv. split_and!; try done; [constructor|set_solver|]. intros k f. set_solver. }
  apply bind_run_ok in Hr as (s1 & [] & Hi & Hr). unfold insert_reference in Hi. run_inv.
  match goal with Hg : _ && _ && _ = true |- _ => rewrite !andb_true_iff in Hg; destruct Hg as [[Hn _] _] end.
  set (key := reference_key (new_reference command now i)) in *.
  assert (references s !! key = None) as Hnone by (subst key; unfold reference_key; by destruct (references s !! _)).
  destruct (IH _ Hr) as (Ha & Hj & Hh & Hd & Hfree & Hrefs).
  cbn [attachments scan_jobs heads references set_references] in *.
  change (rf_AttachmentID _, _, _, _) with key in Hrefs, Hfree.
  assert (i ∉ ids) as Hni.
  { intros Hin. specialize (Hfree i Hin). by rewrite lookup_insert_eq in Hfree. }
  split_and!; [done..|by constructor| |].
  - intros j [->|Hj']%elem_of_cons; [done|]. specialize (Hfree j Hj').
    rewrite lookup_insert_ne in Hfree; [done|]. intros E. apply Hni. subst key. injection E as ->. done.
  - intros k f. rewrite Hrefs, lookup_insert. case_decide as Hk.
    + subst k. rewrite Hnone. set_solver.
    + split; [set_solver|]. intros [?|(j & [->|Hj']%elem_of_cons & -> & ->)]; [by left|done|right; eauto].
Qed.

(** When as many rows are publishable as the command names, each is. *)
Lemma publishable_all db command :
  (∀ i r, attachments db !! i = Some r → t_ID r = i) →
  count_where (publishable command) (attachments db) = Z.of_nat (length (cm_AttachmentIDs command)) →
  ∀ i, i ∈ cm_AttachmentIDs command →
    ∃ r, attachments db !! i = Some r ∧ t_OwnerID r = cm_OwnerID command ∧ t_Status r = StatusReady.
Proof.
  intros Hk Hc i Hi. unfold count_where in Hc. set (l := rows_where (publishable command) (attachments db)) in *.
  assert (NoDup (t_ID <$> l)) as Hnd.
  { apply NoDup_fmap_2_strong; [|by apply (rows_where_NoDup t_ID)].
    intros x y [_ [a Ha]]%elem_of_rows_where [_ [b Hb]]%elem_of_rows_where E.
    rewrite (Hk _ _ Ha), (Hk _ _ Hb) in E. congruence. }
  assert (t_ID <$> l ≡ₚ cm_AttachmentIDs command) as Hp.
  { apply submseteq_length_Permutation; [|rewrite length_fmap; lia]. apply NoDup_submseteq; [done|].
    intros x (r & -> & [Hr _]%elem_of_rows_where)%list_elem_of_fmap. unfold publishable in Hr.
    rewrite !andb_true_iff in Hr. destruct Hr as [[Hr _] _]. by apply bool_decide_eq_true in Hr. }
  rewrite <-Hp in Hi. apply list_elem_of_fmap in Hi as (r & -> & [Hr [k Hrow]]%elem_of_rows_where).
  unfold publishable in Hr. rewrite !andb_true_iff in Hr. destruct Hr as [[_ Ho] Hs].
  exists r. rewrite (Hk _ _ Hrow). split_and!; [done|by apply Z.eqb_eq|].
  by apply bool_decide_eq_true in Hs.
Qed.

(** The generation a new staging replaces. *)
Definition superseded (head : option HeadRow) (g : Z) : Prop :=
  ∃ h, head = Some h ∧ hd_StagedGeneration h = Some g ∧ g ≠ hd_ActiveGeneration h.

(** What a command that stages writes. *)
Record stages (now : Z) (command : PublicationReferenceCommand) (s t : ADB) : Prop := {
  sg_attachments : attachments t = attachments s;
  sg_jobs : scan_jobs t = scan_jobs s;
  sg_settled : ∀ i, i ∈ cm_AttachmentIDs command →
    ∃ r, attachments s !! i = Some r ∧ t_OwnerID r = cm_OwnerID command ∧ scan_over (t_Status r);
  sg_heads : heads t = <[head_key (cm_DocumentID command) :=
    staged_head command now (default (new_head command now) (heads s !! head_key (cm_DocumentID command)))]> (heads s);
  sg_positive : 0 < cm_Generation command;
  sg_references : ∀ k f, references t !! k = Some f ↔
    (references s !! k = Some f
     ∧ ¬ (of_document (cm_DocumentID command) f = true
          ∧ (rf_Generation f = cm_Generation command
             ∨ superseded (heads s !! head_key (cm_DocumentID command)) (rf_Generation f))))
    ∨ ∃ i, i ∈ cm_AttachmentIDs command ∧ f = new_reference command now i ∧ k = reference_key f;
}.

Lemma save_head_run op h s t u :
  save_head op h s = (t, Ok u) →
  head_check h = true ∧ t = set_heads (<[(hd_RefType h, hd_RefID h) := h]> (heads s)) s.
Proof. unfold save_head. intros Hr. run_inv. done. Qed.

(** The references left after dropping those of a document's generations. *)
Lemma lookup_drop (d : string) (P : Z → bool) (m : gmap (string * string * string * Z) ReferenceRow) k f :
  delete_where (λ f, of_document d f && P (rf_Generation f)) m !! k = Some f ↔
  m !! k = Some f ∧ ¬ (of_document d f = true ∧ P (rf_Generation f) = true).
Proof. rewrite lookup_delete_where_Some, andb_false_iff. destruct (of_document d f), (P (rf_Generation f)); naive_solver. Qed.

Lemma drop_superseded_run (d : string) (head : option HeadRow) (s t : ADB) u :
  (match head with
   | Some h =>
     match hd_StagedGeneration h with
     | Some g => if g =? hd_ActiveGeneration h then mret tt
                 else delete_references (λ f, of_document d f && (rf_Generation f =? g))
     | None => mret tt
     end
   | None => mret tt
   end : astore unit) s = (t, Ok u) →
  attachments t = attachments s ∧ scan_jobs t = scan_jobs s ∧ heads t = heads s
  ∧ ∀ k f, references t !! k = Some f ↔
      references s !! k = Some f ∧ ¬ (of_document d f = true ∧ superseded head (rf_Generation f)).
Proof.
  unfold superseded, delete_references. intros Hr.
  destruct head as [h|]; [|by run_inv; split_and!; [..|intros; naive_solver]].
  destruct (hd_StagedGeneration h) as [g|] eqn:Hg; [|by run_inv; split_and!; [..|intros; naive_solver]].
  destruct (g =? hd_ActiveGeneration h) eqn:E; run_inv; (split_and!; [done..|]); intros k f.
  - apply Z.eqb_eq in E. naive_solver.
  - apply Z.eqb_neq in E. cbn [references set_references].
    rewrite (lookup_drop d (λ n, n =? g)), Z.eqb_eq. naive_solver.
Qed.

(** The first phase returns early, or goes on with the head it read and every
    attachment ready. *)
Lemma begin_run command s t begun :
  AInv s → stage_begin command s = (t, Ok begun) →
  t = s ∧
  match begun with
  | None => ∃ h, heads s !! head_key (cm_DocumentID command) = Some h ∧ stage_early command h = Some (Ok tt)
  | Some head =>
    head = heads s !! head_key (cm_DocumentID command)
    ∧ (∀ h, heads s !! head_key (cm_DocumentID command) = Some h → stage_early command h = None)
    ∧ ∀ i, i ∈ cm_AttachmentIDs command →
        ∃ r, attachments s !! i = Some r ∧ t_OwnerID r = cm_OwnerID command ∧ t_Status r = StatusReady
  end.
Proof.
  intros Hs Hr. unfold stage_begin, lockReferenceHead in Hr. run_inv.
  destruct (heads s !! head_key (cm_DocumentID command) ≫= stage_early command) as [res|] eqn:He.
  { run_inv. split; [done|]. apply bind_Some in He as (h & Hh & He). exists h. split; [done|].
    match goal with u : unit |- _ => destruct u end. congruence. }
  apply bind_run_ok in Hr as (s1 & db & [-> [= ->]]%gets_run & Hr). unfold id in Hr.
  apply bind_run_ok in Hr as (s2 & [] & Hg & [-> [= ->]]%ret_run).
  assert (s2 = s ∧ ∀ i, i ∈ cm_AttachmentIDs command →
    ∃ r, attachments s !! i = Some r ∧ t_OwnerID r = cm_OwnerID command ∧ t_Status r = StatusReady) as [-> Hready].
  { destruct (0 <? _) eqn:E; run_inv; (split; [done|]).
    - apply publishable_all; [apply (ai_rows _ Hs)|]. by apply Z.eqb_eq.
    - intros i Hi. destruct (cm_AttachmentIDs command); [set_solver|done]. }
  split_and!; [done|done| |done]. intros h Hh. by rewrite Hh in He.
Qed.

(** The head that is staged, created when there was none. *)
Lemma stage_head_run command now head s t u :
  head = heads s !! head_key (cm_DocumentID command) →
  (∀ h, head = Some h → (hd_RefType h, hd_RefID h) = head_key (cm_DocumentID command)) →
  ((match head with
    | Some h => mret h
    | None => save_head "create publication reference head" (new_head command now) ≫= λ _, mret (new_head command now)
    end) ≫= λ h, save_head "stage publication reference head" (staged_head command now h)) s = (t, Ok u) →
  0 < cm_Generation command
  ∧ t = set_heads (<[head_key (cm_DocumentID command) :=
                     staged_head command now (default (new_head command now) head)]> (heads s)) s.
Proof.
  intros Hh Hk Hr. apply bind_run_ok in Hr as (s1 & h & H1 & [Hc ->]%save_head_run).
  assert (0 < cm_Generation command) as Hpos.
  { unfold head_check in Hc. cbn in Hc. apply andb_prop in Hc as [_ Hc]. apply negb_true_iff, Z.leb_gt in Hc. done. }
  split; [done|]. destruct head as [h'|]; run_inv.
  - cbn [default staged_head hd_RefType hd_RefID set_hd_OwnerID set_hd_StagedGeneration set_hd_StagedHash
         set_hd_UpdatedAt]. by rewrite (Hk _ eq_refl).
  - match goal with Hx : save_head _ _ _ = _ |- _ => apply save_head_run in Hx as [_ ->] end.
    destruct s. unfold set_heads. cbn. f_equal. apply insert_insert_eq.
Qed.

(** What a staging between its phases relies on: no other command reaches its
    document, and the attachments it counted can have been trashed since. *)
Record stage_open (db : ADB) (command : PublicationReferenceCommand) (head : option HeadRow) : Prop := {
  so_head : head = heads db !! head_key (cm_DocumentID command);
  so_late : ∀ h, heads db !! head_key (cm_DocumentID command) = Some h → stage_early command h = None;
  so_settled : ∀ i, i ∈ cm_AttachmentIDs command →
    ∃ r, attachments db !! i = Some r ∧ t_OwnerID r = cm_OwnerID command ∧ scan_over (t_Status r);
}.

Lemma begin_open command s t head :
  AInv s → stage_begin command s = (t, Ok (Some head)) → stage_open s command head.
Proof.
  intros Hs Hr. apply begin_run in Hr as (_ & -> & Hl & Hready); [|done]. split; [done|done|].
  intros i Hi. destruct (Hready i Hi) as (r & Hr & Ho & Hst). exists r. split_and!; [done|done|by left].
Qed.

Lemma write_run now command head s t u :
  AInv s → stage_open s command head → stage_write now command head s = (t, Ok u) → stages now command s t.
Proof.
  intros Hs [-> _ Hset] Hr. unfold stage_write in Hr.
  apply bind_run_ok in Hr as (s2 & [] & Hd & Hr). apply drop_superseded_run in Hd as (Ha2 & Hj2 & Hh2 & Hr2).
  apply bind_run_ok in Hr as (s3 & [] & [-> _]%modify_run & Hr).
  apply bind_run_ok in Hr as (s4 & [] & Hi & Hr).
  apply insert_references_run in Hi as (Ha4 & Hj4 & Hh4 & _ & _ & Hr4).
  cbn [attachments scan_jobs heads references set_references] in *.
  apply stage_head_run in Hr as [Hpos ->]; [|by rewrite Hh4, Hh2|].
  2:{ intros h Hh. by destruct (ai_heads _ Hs _ _ Hh). }
  split; cbn [attachments scan_jobs heads references set_heads]; [congruence|congruence|done|by rewrite Hh4, Hh2|done|].
  intros k f. rewrite Hr4, (lookup_drop _ (λ n, n =? cm_Generation command)), Hr2, Z.eqb_eq. naive_solver.
Qed.

(** With nothing between its phases. *)
Lemma stage_run now command s t u :
  AInv s → StagePublicationReferences now command s = (t, Ok u) →
  (t = s ∧ ∃ h, heads s !! head_key (cm_DocumentID command) = Some h ∧ stage_early command h = Some (Ok tt))
  ∨ (∀ h, heads s !! head_key (cm_DocumentID command) = Some h → stage_early command h = None)
    ∧ stages now command s t
    ∧ ∀ i, i ∈ cm_AttachmentIDs command → ∃ r, attachments s !! i = Some r ∧ t_Status r = StatusReady.
Proof.
  intros Hs Hr. unfold StagePublicationReferences in Hr. apply transaction_ok in Hr.
  apply bind_run_ok in Hr as (s1 & begun & Hb & Hr). pose proof (begin_run _ _ _ _ Hs Hb) as [-> Hbegun].
  destruct begun as [head|]; [right|left; by run_inv].
  pose proof (begin_open _ _ _ _ Hs Hb) as Ho. destruct Hbegun as (-> & Hl & Hready). split_and!; [done|by eapply write_run|].
  intros i Hi. destruct (Hready i Hi) as (r & ? & _ & ?). by exists r.
Qed.

Definition staging (h : HeadRow) : Prop := ∀ g, hd_StagedGeneration h = Some g → hd_ActiveGeneration h < g.

Lemma latest_bound h : staging h → hd_ActiveGeneration h <= latest h ∧ ∀ g, hd_StagedGeneration h = Some g → latest h = g.
Proof.
  unfold staging, latest. intros Hs. destruct (hd_StagedGeneration h) as [g|]; [|split; [lia|done]].
  specialize (Hs g eq_refl). rewrite (proj2 (Z.ltb_lt _ _)) by done. split; [lia|congruence].
Qed.

Lemma stage_early_None command h : staging h → stage_early command h = None → latest h < cm_Generation command.
Proof.
  intros Hs. destruct (latest_bound h Hs) as [Ha Hg]. unfold stage_early.
  destruct (cm_Generation command <? latest h) eqn:E1; [done|]. apply Z.ltb_ge in E1.
  destruct (hd_StagedGeneration h) as [g|] eqn:Hst; cbn [opt_test is_none is_some negb].
  - specialize (Hg g eq_refl). destruct (cm_Generation command =? g) eqn:E2; [done|]. apply Z.eqb_neq in E2. lia.
  - rewrite andb_true_r. unfold latest in *. rewrite Hst in *.
    destruct (cm_Generation command =? hd_ActiveGeneration h) eqn:E2; [done|]. apply Z.eqb_neq in E2. lia.
Qed.

Lemma of_document_spec d f :
  rf_RefType f = publicationReferenceType → of_document d f = true ↔ rf_RefID f = d.
Proof. intros Ht. unfold of_document. rewrite Ht, bool_decide_true by done. cbn. apply bool_decide_eq_true. Qed.

(** Heads and references change; the attachments they speak of stay. *)
Lemma ainv_references db db' :
  AInv db → attachments db' = attachments db → scan_jobs db' = scan_jobs db →
  (∀ k f, references db' !! k = Some f →
     k = reference_key f ∧ rf_RefType f = publicationReferenceType ∧ current_reference db' f = true
     ∧ ∃ r, attachments db !! rf_AttachmentID f = Some r ∧ scan_over (t_Status r)) →
  (∀ k h, heads db' !! k = Some h → k = (hd_RefType h, hd_RefID h) ∧ 0 <= hd_ActiveGeneration h ∧ staging h) →
  AInv db'.
Proof.
  intros [H1 H2 H3 H4 H5] Ha Hj Hr Hh. split.
  - rewrite Ha. done.
  - rewrite Ha, Hj. done.
  - rewrite Ha. unfold open_job. rewrite Hj. done.
  - rewrite Ha. exact Hr.
  - exact Hh.
Qed.

Lemma head_insert_inv db d h' k h :
  AInv db → (hd_RefType h', hd_RefID h') = head_key d → 0 <= hd_ActiveGeneration h' → staging h' →
  <[head_key d := h']> (heads db) !! k = Some h →
  k = (hd_RefType h, hd_RefID h) ∧ 0 <= hd_ActiveGeneration h ∧ staging h.
Proof.
  intros Hdb Hk Ha Hs. rewrite lookup_insert. case_decide as E; [|apply (ai_heads _ Hdb)].
  intros [= <-]. subst k. by split_and!.
Qed.

(** The head a command finds, or the one it makes. *)
Lemma default_head_inv db command now :
  AInv db → let h := default (new_head command now) (heads db !! head_key (cm_DocumentID command)) in
  (hd_RefType h, hd_RefID h) = head_key (cm_DocumentID command) ∧ 0 <= hd_ActiveGeneration h ∧ staging h.
Proof.
  intros Hdb. destruct (heads db !! head_key (cm_DocumentID command)) as [h|] eqn:Hh; cbn.
  - by destruct (ai_heads _ Hdb _ _ Hh) as (<- & ? & ?).
  - by split_and!; [|lia|].
Qed.

Lemma stages_inv now command s t :
  AInv s → (∀ h, heads s !! head_key (cm_DocumentID command) = Some h → stage_early command h = None) →
  stages now command s t → AInv t.
Proof.
  intros Hs Hearly [Ha Hj Hset Hheads Hpos Hrefs].
  destruct (default_head_inv s command now Hs) as (Hk & Hac & Hst).
  set (h0 := default (new_head command now) (heads s !! head_key (cm_DocumentID command))) in *.
  assert (hd_ActiveGeneration h0 < cm_Generation command) as Hlt.
  { subst h0. destruct (heads s !! head_key (cm_DocumentID command)) as [h|] eqn:Hh; [|done]. cbn in *.
    pose proof (stage_early_None _ _ Hst (Hearly h eq_refl)). destruct (latest_bound _ Hst). lia. }
  apply (ainv_references s); [done..| |].
  - intros k f [[Hf Hkeep]|(i & Hi & -> & ->)]%Hrefs.
    + destruct (ai_refs _ Hs _ _ Hf) as (Hkf & Ht & Hc & Hr). split_and!; [done..| |done].
      unfold current_reference in *. rewrite Hheads, Ht in *. rewrite lookup_insert.
      case_decide as E; [|done]. injection E as E. rewrite <-E in Hc. fold (head_key (cm_DocumentID command)) in Hc.
      rewrite of_document_spec in Hkeep by done.
      subst h0. destruct (heads s !! head_key (cm_DocumentID command)) as [h|] eqn:Hh; [|done]. cbn.
      apply orb_true_iff in Hc as [Hc|Hc]; [by rewrite Hc|].
      destruct (hd_StagedGeneration h) as [g|] eqn:Hg; [|done]. cbn in Hc. apply Z.eqb_eq in Hc.
      destruct (decide (rf_Generation f = hd_ActiveGeneration h)) as [->|Hne]; [by rewrite Z.eqb_refl|].
      exfalso. apply Hkeep. split; [done|]. right. exists h. rewrite Hc in *. done.
    + destruct (Hset i Hi) as (r & Hr & _ & Hrs). split_and!; [done..| |by exists r].
      unfold current_reference. rewrite Hheads. cbn. rewrite lookup_insert_eq. cbn. rewrite Z.eqb_refl.
      apply orb_true_r.
  - rewrite Hheads. intros k h. apply head_insert_inv; [done|done|done|].
    intros g [= <-]. done.
Qed.

Lemma StagePublicationReferences_inv now command s : AInv s → AInv (StagePublicationReferences now command s).1.
Proof.
  intros Hs. destruct (StagePublicationReferences now command s) as [t [u|e]] eqn:Hr.
  - apply stage_run in Hr as [[-> _]|(He & Hst & _)]; [done..|by eapply stages_inv|done].
  - unfold StagePublicationReferences in Hr. apply transaction_run_err in Hr as [-> _]. done.
Qed.

(** What finalising writes: the staged generation becomes the active one, and
    the references of older generations go. *)
Record finalizes (now : Z) (command : PublicationReferenceCommand) (h : HeadRow) (s t : ADB) : Prop := {
  fz_head : heads s !! head_key (cm_DocumentID command) = Some h;
  fz_staged : hd_StagedGeneration h = Some (cm_Generation command);
  fz_hash : hd_StagedHash h = cm_RequestHash command;
  fz_owner : hd_OwnerID h = cm_OwnerID command;
  fz_attachments : attachments t = attachments s;
  fz_jobs : scan_jobs t = scan_jobs s;
  fz_heads : heads t = <[head_key (cm_DocumentID command) := finalized_head command now h]> (heads s);
  fz_references : ∀ k f, references t !! k = Some f ↔
    references s !! k = Some f
    ∧ ¬ (of_document (cm_DocumentID command) f = true ∧ rf_Generation f < cm_Generation command);
}.

Lemma finalize_run now command s t u :
  AInv s → FinalizePublicationReferences now command s = (t, Ok u) →
  ∃ h, heads s !! head_key (cm_DocumentID command) = Some h ∧
  (t = s ∧ (cm_Generation command < hd_ActiveGeneration h
            ∨ cm_Generation command = hd_ActiveGeneration h ∧ hd_StagedGeneration h = None
              ∧ hd_ActiveHash h = cm_RequestHash command ∧ hd_OwnerID h = cm_OwnerID command)
   ∨ hd_ActiveGeneration h < cm_Generation command ∧ finalizes now command h s t).
Proof.
  intros Hs Hr. unfold FinalizePublicationReferences, lockReferenceHead in Hr. run_inv.
  destruct (heads s !! head_key (cm_DocumentID command)) as [h|] eqn:Hh; [|by run_inv]. exists h. split; [done|].
  destruct (cm_Generation command <? hd_ActiveGeneration h) eqn:E1; [apply Z.ltb_lt in E1; run_inv; by left; eauto|].
  apply Z.ltb_ge in E1.
  destruct ((hd_ActiveGeneration h =? cm_Generation command) && is_none (hd_StagedGeneration h)) eqn:E2.
  { apply andb_prop in E2 as [E2%Z.eqb_eq E3]. case_match eqn:E4; run_inv. left. split; [done|]. right.
    apply orb_false_iff in E4 as [E4%negb_false_iff E5%negb_false_iff]. apply bool_decide_eq_true in E4.
    apply Z.eqb_eq in E5. split_and!; [lia|by destruct (hd_StagedGeneration h)|done|done]. }
  destruct (negb _ || _ || _) eqn:E3; [by run_inv|]. right.
  apply orb_false_iff in E3 as [[E3%negb_false_iff E4%negb_false_iff]%orb_false_iff E5%negb_false_iff].
  apply bool_decide_eq_true in E4. apply Z.eqb_eq in E5.
  destruct (hd_StagedGeneration h) as [g|] eqn:Hg; [cbn in E3; apply Z.eqb_eq in E3 as <-|done].
  destruct (ai_heads _ Hs _ _ Hh) as (Hk & _ & Hst).
  split; [by apply Hst|]. apply bind_run_ok in Hr as (s1 & [] & [-> _]%modify_run & [_ ->]%save_head_run).
  split; cbn [attachments scan_jobs heads references set_heads set_references]; try done.
  - cbn. by rewrite <-Hk.
  - intros k f. rewrite (lookup_drop _ (λ n, n <? cm_Generation command)), Z.ltb_lt. done.
Qed.

Lemma finalizes_inv now command h s t :
  AInv s → hd_ActiveGeneration h < cm_Generation command → finalizes now command h s t → AInv t.
Proof.
  intros Hs Hlt [Hh Hg _ _ Ha Hj Hheads Hrefs]. destruct (ai_heads _ Hs _ _ Hh) as (Hk & Hac & Hst).
  apply (ainv_references s); [done..| |].
  - intros k f [Hf Hkeep]%Hrefs. destruct (ai_refs _ Hs _ _ Hf) as (Hkf & Ht & Hc & Hr). split_and!; [done..| |done].
    unfold current_reference in *. rewrite Hheads, Ht in *. rewrite lookup_insert. case_decide as E; [|done].
    injection E as E. rewrite <-E in Hc. fold (head_key (cm_DocumentID command)) in Hc. rewrite Hh in Hc.
    rewrite of_document_spec in Hkeep by done. rewrite Hg in Hc. cbn in *.
    apply orb_true_iff. left. apply Z.eqb_eq. apply orb_true_iff in Hc as [Hc|Hc]; apply Z.eqb_eq in Hc; [|done].
    exfalso. apply Hkeep. split; [done|lia].
  - rewrite Hheads. intros k h'. apply head_insert_inv; [done|by rewrite Hk|cbn; lia|by intros g].
Qed.

Lemma FinalizePublicationReferences_inv now command s : AInv s → AInv (FinalizePublicationReferences now command s).1.
Proof.
  intros Hs. destruct (FinalizePublicationReferences now command s) as [t [u|e]] eqn:Hr.
  - apply finalize_run in Hr as (h & _ & [[-> _]|[Hlt Hf]]); [done..|by eapply finalizes_inv|done].
  - unfold FinalizePublicationReferences in Hr. apply transaction_run_err in Hr as [-> _]. done.
Qed.

(** What clearing writes. *)
Record clears (now : Z) (command : PublicationReferenceCommand) (s t : ADB) : Prop := {
  cl_attachments : attachments t = attachments s;
  cl_jobs : scan_jobs t = scan_jobs s;
  cl_heads : heads t = <[head_key (cm_DocumentID command) :=
    cleared_head command now (default (new_head command now) (heads s !! head_key (cm_DocumentID command)))]> (heads s);
  cl_nonneg : 0 <= cm_Generation command;
  cl_references : ∀ k f, references t !! k = Some f ↔
    references s !! k = Some f ∧ of_document (cm_DocumentID command) f = false;
}.

Lemma clear_run now command s t u :
  AInv s → ClearPublicationReferences now command s = (t, Ok u) →
  (t = s ∧ ∃ h, heads s !! head_key (cm_DocumentID command) = Some h ∧ cm_Generation command < latest h)
  ∨ (∀ h, heads s !! head_key (cm_DocumentID command) = Some h → latest h <= cm_Generation command)
    ∧ clears now command s t.
Proof.
  intros Hs Hr. unfold ClearPublicationReferences, lockReferenceHead in Hr. run_inv.
  destruct (opt_test _ _) eqn:E.
  { run_inv. left. split; [done|]. destruct (heads s !! head_key (cm_DocumentID command)) as [h|]; [|done].
    exists h. split; [done|]. by apply Z.ltb_lt. }
  right. split.
  { intros h Hh. rewrite Hh in E. by apply Z.ltb_ge in E. }
  destruct (default_head_inv s command now Hs) as (Hk & _).
  apply bind_run_ok in Hr as (s1 & [] & [-> _]%modify_run & Hr).
  apply bind_run_ok in Hr as (s2 & h & Hm & [Hc ->]%save_head_run).
  unfold head_check in Hc. cbn in Hc. apply andb_prop in Hc as [Hc%Z.leb_le _].
  destruct (heads s !! head_key (cm_DocumentID command)) as [h'|] eqn:Hh.
  - apply ret_run in Hm as [-> [= <-]]. cbn in Hk.
    split; cbn [attachments scan_jobs heads references set_heads set_references]; try done.
    + rewrite Hh. cbn. by rewrite Hk.
    + intros k f. apply lookup_delete_where_Some.
  - apply bind_run_ok in Hm as (s3 & [] & [_ ->]%save_head_run & [-> [= ->]]%ret_run).
    split; cbn [attachments scan_jobs heads references set_heads set_references]; try done.
    + rewrite Hh. cbn. apply insert_insert_eq.
    + intros k f. apply lookup_delete_where_Some.
Qed.

Lemma clears_inv now command s t : AInv s → clears now command s t → AInv t.
Proof.
  intros Hs [Ha Hj Hheads Hn Hrefs]. destruct (default_head_inv s command now Hs) as (Hk & Hac & Hst).
  apply (ainv_references s); [done..| |].
  - intros k f [Hf Hkeep]%Hrefs. destruct (ai_refs _ Hs _ _ Hf) as (Hkf & Ht & Hc & Hr). split_and!; [done..| |done].
    unfold current_reference in *. rewrite Hheads, Ht in *. rewrite lookup_insert. case_decide as E; [|done].
    injection E as E. exfalso. apply not_true_iff_false in Hkeep. apply Hkeep. by apply of_document_spec.
  - rewrite Hheads. intros k h'. apply head_insert_inv; [done|done|done|by intros g].
Qed.

Lemma ClearPublicationReferences_inv now command s : AInv s → AInv (ClearPublicationReferences now command s).1.
Proof.
  intros Hs. destruct (ClearPublicationReferences now command s) as [t [u|e]] eqn:Hr.
  - apply clear_run in Hr as [[-> _]|[_ Hc]]; [done..|by eapply clears_inv|done].
  - unfold ClearPublicationReferences in Hr. apply transaction_run_err in Hr as [-> _]. done.
Qed.

(** ** What an upload keeps *)

(** The columns no call changes once a row is stored; and a scan that is over
    stays over. *)
Record same_upload (r r' : AttachmentRow) : Prop := {
  su_id : t_ID r' = t_ID r;
  su_owner : t_OwnerID r' = t_OwnerID r;
  su_key : t_ObjectKey r' = t_ObjectKey r;
  su_upload : t_UploadID r' = t_UploadID r;
  su_size : t_SizeBytes r' = t_SizeBytes r;
  su_parts : t_PartCount r' = t_PartCount r;
  su_idempotency : t_IdempotencyKey r' = t_IdempotencyKey r;
  su_hash : t_RequestHash r' = t_RequestHash r;
  su_settled : scan_over (t_Status r) → scan_over (t_Status r');
}.

#[export] Instance same_upload_preorder : PreOrder same_upload.
Proof. split; [intros r; by split|]. intros a b c [] []. split; [congruence..|auto]. Qed.

(** A step of the database: the invariant and the rows are kept. *)
Definition advances (db db' : ADB) : Prop :=
  AInv db → AInv db' ∧ kept same_upload (attachments db) (attachments db').

#[export] Instance advances_preorder : PreOrder advances.
Proof.
  split; [intros db Hdb; by split|]. intros a b c Hab Hbc Ha. destruct (Hab Ha) as [Hb K1].
  destruct (Hbc Hb) as [Hc K2]. split; [done|]. by etrans.
Qed.

(** A transaction whose successful runs write no more than one row. *)
Lemma kept_save db i r r' :
  AInv db → attachments db !! i = Some r → same_upload r r' → t_ID r' = i →
  kept same_upload (attachments db) (<[t_ID r' := r']> (attachments db)).
Proof.
  intros Hdb Hr Hs <-. apply kept_insert; [apply _|]. intros q Hq. by assert (q = r) as -> by congruence.
Qed.

Section advance.
Context `{Unicode}.

Lemma transaction_advances {A} (m : astore A) (db : ADB) :
  (AInv db → AInv (transaction m db).1) →
  (AInv db → ∀ db' a, m db = (db', Ok a) → kept same_upload (attachments db) (attachments db')) →
  advances db (transaction m db).1.
Proof.
  intros Hi Hk Hdb. split; [by apply Hi|].
  apply (transaction_keeps (λ db', kept same_upload (attachments db) (attachments db'))); [done|]. by apply Hk.
Qed.

(** One row is saved whose identity is that of the row found; [tac] sees to its
    status. *)
Ltac saved tac := match goal with
  | Hdb : AInv ?db, Hx : owned _ _ ?db = Some _ |- _ => apply owned_Some in Hx as [Hx _]
  | Hdb : AInv ?db, Hx : in_scan _ ?db = Some _ |- _ => apply in_scan_Some in Hx as [Hx ?]
  | _ => idtac end;
  match goal with Hdb : AInv ?db, Hx : attachments ?db !! _ = Some _ |- _ =>
    refine (kept_save db _ _ _ Hdb Hx _ _); [split; [done..|cbn; tac]|by apply (ai_rows _ Hdb _ _ Hx)] end.

Ltac unsettled := intros ?; exfalso;
  match goal with Hs : scan_over _, Hst : t_Status _ = _ |- _ => refine (settled_not _ _ Hs _ Hst); rewrite !elem_of_cons; tauto end.

Lemma MarkScanning_advances now i owner db : advances db (MarkScanning now i owner db).1.
Proof.
  apply transaction_advances; [apply MarkScanning_inv|]. intros Hdb db' a Hr.
  unfold save_attachment, save_job in Hr. run_inv.
  match goal with Hx : (_ =?= _) = true |- _ => apply bool_decide_eq_true in Hx end. saved unsettled.
Qed.

Lemma CompleteScan_advances now i result clean db : advances db (CompleteScan now i result clean db).1.
Proof.
  apply transaction_advances; [apply CompleteScan_inv|]. intros Hdb db' a Hr.
  unfold save_attachment, delete_job in Hr. run_inv. saved ltac:(intros _; apply scan_status_settled).
Qed.

Lemma Claim_advances now db : advances db (Claim now db).1.
Proof.
  apply transaction_advances; [apply Claim_inv|]. intros Hdb db' a Hr.
  unfold save_job, delete_job in Hr. run_inv. by case_match; run_inv.
Qed.

Lemma RetryScan_advances now i message db : advances db (RetryScan now i message db).1.
Proof.
  apply transaction_advances; [apply RetryScan_inv|]. intros Hdb db' a Hr.
  unfold save_attachment, save_job in Hr. run_inv. case_match; run_inv; [saved unsettled|done].
Qed.

Lemma Trash_advances now i owner db : advances db (Trash now i owner db).1.
Proof.
  apply transaction_advances; [apply Trash_inv|]. intros Hdb db' a Hr.
  unfold save_attachment in Hr. run_inv. saved ltac:(intros _; by right; right).
Qed.

Lemma RestoreAttachment_advances now i owner db : advances db (RestoreAttachment now i owner db).1.
Proof.
  intros Hdb. split; [by apply RestoreAttachment_inv|]. unfold RestoreAttachment, save_attachment.
  cbv [mbind tx_bind gets id]. destruct (owned i owner db) as [r|] eqn:Hr; [|done]. case_match; [|done]. cbn. saved ltac:(intros _; by left).
Qed.

Lemma Stage_advances now command db : advances db (StagePublicationReferences now command db).1.
Proof.
  intros Hdb. split; [by apply StagePublicationReferences_inv|].
  destruct (StagePublicationReferences now command db) as [t [u|e]] eqn:Hr.
  - apply stage_run in Hr as [[-> _]|(_ & [Ha _ _ _ _ _] & _)]; [done|cbn; by rewrite Ha|done].
  - unfold StagePublicationReferences in Hr. by apply transaction_run_err in Hr as [-> _].
Qed.

Lemma Finalize_advances now command db : advances db (FinalizePublicationReferences now command db).1.
Proof.
  intros Hdb. split; [by apply FinalizePublicationReferences_inv|].
  destruct (FinalizePublicationReferences now command db) as [t [u|e]] eqn:Hr.
  - apply finalize_run in Hr as (h & _ & [[-> _]|[_ []]]); [done|cbn; by rewrite fz_attachments0|done].
  - unfold FinalizePublicationReferences in Hr. by apply transaction_run_err in Hr as [-> _].
Qed.

Lemma Clear_advances now command db : advances db (ClearPublicationReferences now command db).1.
Proof.
  intros Hdb. split; [by apply ClearPublicationReferences_inv|].
  destruct (ClearPublicationReferences now command db) as [t [u|e]] eqn:Hr.
  - apply clear_run in Hr as [[-> _]|[_ []]]; [done|cbn; by rewrite cl_attachments0|done].
  - unfold ClearPublicationReferences in Hr. by apply transaction_run_err in Hr as [-> _].
Qed.

(** A creation stores the row it was given, returns the row of its key, or
    fails; nothing else is written. *)
Lemma CreateAttachment_run a ik db db' v :
  CreateAttachment a ik db = (db', Ok v) →
  (v = toDomain (new_row a ik) ∧ attachments db !! at_ID a = None
   ∧ db' = set_attachments (<[at_ID a := new_row a ik]> (attachments db)) db)
  ∨ (db' = db ∧ ∃ i r, attachments db !! i = Some r ∧ v = toDomain r
       ∧ same_key (ik_OwnerID ik) (ik_Key ik) r = true ∧ t_RequestHash r = ik_RequestHash ik).
Proof.
  intros Hr. unfold CreateAttachment in Hr. apply bind_run_ok in Hr as (s1 & [] & E & Hr).
  assert (s1 = db) as -> by (revert E; case_match; intros; run_inv; done). clear E. run_inv.
  case_match eqn:Hex.
  - right. case_match eqn:Hh; run_inv. apply negb_false_iff, bool_decide_eq_true in Hh.
    case_match; [done|]. apply first_where_Some in Hex as [Hk [i Hi]]. eauto 10.
  - left. destruct (MaxUserBytes <? _); run_inv. unfold insert_attachment in *. run_inv.
    match goal with Hg : _ && _ && _ && _ = true |- _ => rewrite !andb_true_iff in Hg; destruct Hg as [[[_ Hn] _] _] end.
    split_and!; [done| |done]. cbn in Hn. by destruct (attachments db !! at_ID a).
Qed.

Lemma CreateAttachment_advances a ik db :
  at_Status a = StatusPendingUpload → advances db (CreateAttachment a ik db).1.
Proof.
  intros Hst Hdb. split; [by apply CreateAttachment_inv|].
  destruct (CreateAttachment a ik db) as [t [v|e]] eqn:Hr.
  - apply CreateAttachment_run in Hr as [(_ & Hn & ->)|[-> _]]; [|done]. cbn.
    apply kept_insert; [apply _|]. congruence.
  - cbn. assert (t = db) as ->; [|done]. unfold CreateAttachment in Hr.
    apply bind_run_err in Hr as [Hr|(s1 & [] & E & [-> _]%transaction_run_err)].
    + revert Hr. case_match; intros; [done|]. apply bind_run_err in Hr as [Hr|(s2 & [] & E1 & E)]; run_inv; done.
    + revert E. case_match; intros; run_inv; done.
Qed.

End advance.

(** ** Uploads *)

(** Every upload the service started is aborted or belongs to a stored row. *)
Definition accounted (n : ANode) : Prop :=
  ∀ key upload, Started key upload ∈ log n →
    Aborted key upload ∈ log n
    ∨ ∃ i r, attachments (adb n) !! i = Some r ∧ t_ObjectKey r = key ∧ t_UploadID r = upload.

Definition serves (n n' : ANode) : Prop :=
  AInv (adb n) → AInv (adb n') ∧ kept same_upload (attachments (adb n)) (attachments (adb n'))
                 ∧ (accounted n → accounted n').

#[export] Instance serves_preorder : PreOrder serves.
Proof.
  split; [intros n Hn; by split_and!|]. intros a b c Hab Hbc Ha. destruct (Hab Ha) as (Hb & K1 & A1).
  destruct (Hbc Hb) as (Hc & K2 & A2). split_and!; [done|by etrans|auto].
Qed.

Lemma serves_inv n n' : (AInv (adb n) → serves n n') → serves n n'.
Proof. intros Hs Hi. by apply Hs. Qed.

(** The database advances, and the log gets no start. *)
Lemma serves_db n n' l :
  advances (adb n) (adb n') → log n' = log n ++ l → (∀ key upload, Started key upload ∉ l) → serves n n'.
Proof.
  intros Ha Hl Hn Hi. destruct (Ha Hi) as [Hi' Hk]. split_and!; [done..|].
  intros Hacc key upload Hs. rewrite Hl in *. apply elem_of_app in Hs as [Hs|Hs]; [|by destruct (Hn key upload)].
  destruct (Hacc key upload Hs) as [Hab|(i & r & Hr & <- & <-)]; [left; set_solver|].
  right. destruct (Hk i r Hr) as (r' & Hr' & []). by exists i, r'.
Qed.

Lemma on_db_serves {A} (m : astore A) : (∀ db, advances db (m db).1) → within serves (on_db m).
Proof.
  intros Hm n. unfold on_db. specialize (Hm (adb n)). destruct (m (adb n)) as [db r]. cbn in *.
  apply (serves_db _ _ []); [done|by rewrite app_nil_r|set_solver].
Qed.

Lemma abort_serves objects key upload : within serves (abort objects key upload).
Proof.
  intros n. apply (serves_db _ _ [Aborted key upload]); [reflexivity|done|]. intros k u.
  by intros [?|?%elem_of_nil]%elem_of_cons.
Qed.

(** ** What leaves the references alone *)

Definition in_trash (db : ADB) (i : string) : Prop :=
  ∃ r, attachments db !! i = Some r ∧ t_Status r = StatusTrashed.

(** The references and their heads stay, and nothing that is referenced goes to
    the trash. *)
Record same_references (s t : ADB) : Prop := {
  sr_references : references t = references s;
  sr_heads : heads t = heads s;
  sr_trash : ∀ i, in_trash t i → in_trash s i ∨ ¬ referenced s i;
}.

#[export] Instance same_references_preorder : PreOrder same_references.
Proof.
  split; [by split; auto|]. intros a b c [R1 H1 T1] [R2 H2 T2]. split; [congruence..|]. intros i [Hi|Hi]%T2; [by apply T1|].
  right. unfold referenced in *. by rewrite R1 in Hi.
Qed.

(** The same between nodes. *)
Definition node_references (n n' : ANode) : Prop := same_references (adb n) (adb n').

#[export] Instance node_references_preorder : PreOrder node_references.
Proof. split; [by intros n; unfold node_references|]. intros a b c ? ?. unfold node_references in *. by etrans. Qed.

Lemma on_db_at {A} (m : astore A) n :
  same_references (adb n) (m (adb n)).1 → node_references n (on_db m n).1.
Proof. unfold on_db. by destruct (m (adb n)). Qed.

Lemma on_db_references {A} (m : astore A) : within same_references m → within node_references (on_db m).
Proof. intros Hm n. by apply on_db_at. Qed.

Lemma save_attachment_apart r : t_Status r ≠ StatusTrashed → within same_references (save_attachment r).
Proof.
  intros Hr. apply within_modify. intros db. split; [done..|]. intros i (q & Hq & Hs). left.
  cbn in Hq. rewrite lookup_insert in Hq. case_decide; [congruence|by exists q].
Qed.

Lemma insert_attachment_apart r : t_Status r ≠ StatusTrashed → within same_references (insert_attachment r).
Proof.
  intros Hr. unfold insert_attachment. apply within_bind; [apply _|apply within_gets, _|]. intros db.
  apply within_bind; [apply _|apply within_require, _|]. intros _. by apply (save_attachment_apart r).
Qed.

(** What is referenced is not trashed. *)
Lemma Trash_apart now i owner db : AInv db → same_references db (Trash now i owner db).1.
Proof.
  intros Hdb. unfold Trash. apply transaction_at; [apply _|]. intros db' a Hr. unfold save_attachment in Hr. run_inv.
  match goal with Hx : owned _ _ _ = Some _ |- _ => apply owned_Some in Hx as [Hrow _] end.
  match goal with Hx : negb (exists_where _ _) = true |- _ => apply negb_true_iff in Hx as Hnone end.
  rewrite exists_where_false in Hnone. split; [done..|]. intros k (q & Hq & Hs). cbn in Hq.
  rewrite (ai_rows _ Hdb _ _ Hrow), lookup_insert in Hq. case_decide as Hk; [subst k; right|left; by exists q].
  intros (k & f & Hf & Hfi). specialize (Hnone k f Hf). cbv beta in Hnone. by rewrite bool_decide_true in Hnone.
Qed.

(** Walks through a call whose statements write other tables. *)
Ltac apart :=
  repeat first
    [ apply within_transaction; [apply _|]
    | apply within_bind; [apply _| |intros ?]
    | apply within_fail, _ | apply within_ret, _ | apply within_gets, _ | apply within_lift, _
    | apply within_require, _ | apply within_expect, _
    | apply save_attachment_apart; cbn; first [discriminate|apply scan_status_not_trashed]
    | apply insert_attachment_apart; discriminate
    | apply within_modify; intros ?; split; [done..|by left]
    | apply within_wrap | apply within_attempt | apply on_db_references
    | case_match ].

Section calls2.
Context `{Unicode, Uuid, Codec}.

Lemma collect_state {A B} (xs : list A) (f : A → svc B) :
  (∀ x n, (f x n).1 = n) → ∀ n, (collect xs f n).1 = n.
Proof.
  intros Hf. induction xs as [|x xs IH]; intros n; cbn [collect]; [done|].
  cbv [mbind tx_bind]. specialize (Hf x n). destruct (f x n) as [n1 [y|e]]; cbn in *; subst n1; [|done].
  specialize (IH n). destruct (collect xs f n) as [n2 [ys|e]]; by cbn in *; subst n2.
Qed.

Lemma uploadResult_state objects record expires n : (uploadResult objects record expires n).1 = n.
Proof.
  unfold uploadResult. case_match; [done|]. cbv [mbind tx_bind].
  pose proof (collect_state (seqZ 1 (at_PartCount record)) (presign objects record)) as Hc.
  destruct (collect _ _ n) as [n1 [ps|e]] eqn:E; cbn; specialize (Hc ltac:(intros x m; unfold presign; by destruct (PresignPart _ _ _ _)) n);
    by rewrite E in Hc.
Qed.

(** A new row leaves the store with the upload it was started for. *)
Lemma stored_accounted n key upload i r :
  accounted n → t_ObjectKey r = key → t_UploadID r = upload → attachments (adb n) !! i = None →
  accounted (MkANode (set_attachments (<[i := r]> (attachments (adb n))) (adb n)) (log n ++ [Started key upload])).
Proof.
  intros Hacc Hk Hu Hn key' upload'. cbn. rewrite !elem_of_app, !list_elem_of_singleton.
  intros [Hs|[= -> ->]]; [|right; exists i, r; by rewrite lookup_insert_eq].
  destruct (Hacc _ _ Hs) as [Hab|(j & q & Hq & ? & ?)]; [by left; left|right]. exists j, q.
  rewrite lookup_insert_ne by congruence. done.
Qed.

(** An upload that is started and aborted. *)
Lemma aborted_serves n db key upload :
  advances (adb n) db → serves n (MkANode db ((log n ++ [Started key upload]) ++ [Aborted key upload])).
Proof.
  intros Ha Hi. destruct (Ha Hi) as [Hi' Hk]. split_and!; [done..|]. intros Hacc key' upload'. cbn.
  rewrite !elem_of_app, !list_elem_of_singleton. intros [[Hs|[= -> ->]]|[=]]; [|by left; right].
  destruct (Hacc _ _ Hs) as [Hab|(i & r & Hr & <- & <-)]; [by left; left; left|right].
  destruct (Hk i r Hr) as (r' & Hr' & []). by exists i, r'.
Qed.

Lemma UploadAttachment_serves objects ttl now newID owner filename mediaType size key n :
  attachments (adb n) !! newID = None →
  serves n (UploadAttachment objects ttl now newID owner filename mediaType size key n).1.
Proof.
  intros Hfresh. apply serves_inv. intros Hi.
  unfold UploadAttachment, refuse, coded. case_match; [reflexivity|].
  refine (within_bind_at serves _ _ n _ _); [refine (within_wrap _ _ _ (within_lift _ _) n)|].
  intros n1 category [-> _]%wrap_ok%lift_run. cbv zeta. case_match; [reflexivity|].
  refine (within_bind_at serves _ _ n _ _); [refine (within_wrap _ _ _ (within_lift _ _) n)|].
  intros n1 [] [-> _]%wrap_ok%lift_run. destruct (StartMultipart _ _ _) as [upload|e]; [|reflexivity].
  cbv [mbind tx_bind note modify attempt on_db]. cbn [adb log].
  set (record := MkAttachment newID _ _ _ _ _ _ _ _ _ _ _ _ _ _).
  set (ik := MkIdempotency _ _ _).
  pose proof (CreateAttachment_advances record ik (adb n) eq_refl) as Hadv.
  destruct (CreateAttachment record ik (adb n)) as [db' [stored|e]] eqn:Hc; cbn [fst] in Hadv.
  - apply CreateAttachment_run in Hc as [(-> & Hn & ->)|(-> & i & r & Hr & -> & _)].
    + cbn [at_ID toDomain new_row t_ID]. rewrite bool_decide_true, uploadResult_state by done.
      destruct (Hadv Hi) as [Hi' Hk]. intros _. split_and!; [done..|]. intros Hacc.
      by apply (stored_accounted n (ObjectKey newID) upload newID).
    + cbn [at_ID toDomain]. rewrite (ai_rows _ Hi _ _ Hr). change (at_ID record) with newID.
      rewrite bool_decide_false by congruence.
      case_match; [by apply aborted_serves|]. cbv [abort note mbind tx_bind modify mret tx_ret]. cbn [adb log].
      case_match; [rewrite uploadResult_state|]; by apply aborted_serves.
  - destruct e; by apply aborted_serves.
Qed.

Lemma GetAttachment_state i owner db : (GetAttachment i owner db).1 = db.
Proof. unfold GetAttachment. cbv [mbind tx_bind gets id]. by destruct (owned i owner db). Qed.

Lemma CompleteUpload_serves objects now owner attachmentID uploadID parts :
  within serves (CompleteUpload objects now owner attachmentID uploadID parts).
Proof.
  unfold CompleteUpload, refuse, mapped. case_match; [apply within_fail, _|].
  apply within_bind; [apply _|apply within_wrap, on_db_serves|]. { intros db. by rewrite GetAttachment_state. }
  intros record. repeat (case_match; try apply within_fail, _).
  apply within_bind; [apply _|apply within_wrap, on_db_serves|intros; apply within_ret, _].
  intros db. apply MarkScanning_advances.
Qed.

(** ** Publication commands *)

Lemma command_fields req empty command :
  publicationCommand req empty = Ok command →
  cm_DocumentID command = rq_DocumentId req ∧ cm_Generation command = rq_Generation req ∧
  list_to_set (C := gset string) (cm_AttachmentIDs command) = list_to_set (rq_AttachmentIds req) ∧
  0 < rq_Generation req ∧ (empty = true → rq_AttachmentIds req = []).
Proof.
  unfold publicationCommand. destruct (_ || _) eqn:Hv; [done|]. rewrite !orb_false_iff in Hv.
  destruct Hv as [[[_ Hg%Z.leb_gt] _] _]. cbv zeta.
  destruct (negb (distinct_ids None _)); [done|].
  destruct (empty && _) eqn:He; [done|]. intros [= <-]. cbn. split_and!; [done|done| |done|].
  - apply set_eq. intros x. by rewrite !elem_of_list_to_set, elem_of_order_by.
  - intros ->. cbn in He. apply negb_false_iff, bool_decide_eq_true in He.
    apply Permutation_nil_r. by rewrite <-He, order_by_perm.
Qed.

(** A command service runs its command, or changes nothing. *)
Lemma command_run req empty (m : PublicationReferenceCommand → astore unit) n n' r :
  (∀ c db db' e, m c db = (db', Err e) → db' = db) →
  (coded AInvalidInput (lift (publicationCommand req empty)) ≫= λ command, mapped (m command)) n = (n', r) →
  (adb n' = adb n ∧ ∃ e, r = Err e) ∨
  ∃ command u, publicationCommand req empty = Ok command ∧ m command (adb n) = (adb n', Ok u) ∧ r = Ok u.
Proof.
  intros Hm. unfold coded, mapped, wrap, lift, on_db. cbv [mbind tx_bind].
  destruct (publicationCommand req empty) as [command|e]; [|intros [= <- <-]; left; eauto].
  destruct (m command (adb n)) as [db' [u|e]] eqn:Hr; intros [= <- <-]; [right; cbn; eauto|].
  left. cbn. by eauto using Hm.
Qed.

Lemma command_atomic {A} (m : astore A) db db' e : transaction m db = (db', Err e) → db' = db.
Proof. by intros [-> _]%transaction_run_err. Qed.

(** ** The transition system *)

(** The calls that write, and the two ways a scan ends. *)
Inductive arequest :=
| AReqUpload (objects : Objects) (ttl now : Z) (newID : string) (owner : Z) (filename mediaType : string)
    (size : Z) (key : string)
| AReqComplete (objects : Objects) (now owner : Z) (attachmentID uploadID : string)
    (parts : list (option (Z * string)))
| AReqTrash (now owner : Z) (i : string)
| AReqRestore (now owner : Z) (i : string)
| AReqStage (now : Z) (req : CommandMessage)
| AReqFinalize (now : Z) (req : CommandMessage)
| AReqClear (now : Z) (req : CommandMessage)
| AReqScanned (now : Z) (i : string) (result : ScanResult)
| AReqScanFailed (now : Z) (i message : string).

Definition run_arequest (r : arequest) (n : ANode) : ANode :=
  match r with
  | AReqUpload objects ttl now newID owner filename mediaType size key =>
    (UploadAttachment objects ttl now newID owner filename mediaType size key n).1
  | AReqComplete objects now owner attachmentID uploadID parts =>
    (CompleteUpload objects now owner attachmentID uploadID parts n).1
  | AReqTrash now owner i => (TrashAttachment now owner i n).1
  | AReqRestore now owner i => (UntrashAttachment now owner i n).1
  | AReqStage now req => (StageReferences now req n).1
  | AReqFinalize now req => (FinalizeReferences now req n).1
  | AReqClear now req => (ClearReferences now req n).1
  | AReqScanned now i result => (on_db (CompleteScan now i result (sc_Clean result)) n).1
  | AReqScanFailed now i message => (on_db (RetryScan now i message) n).1
  end.

(** A staging between its phases: the command and the head it read. *)
Definition Staging : Type := PublicationReferenceCommand * option HeadRow.

(** A node with the attachments its scan workers have claimed (a worker may be
    slow, so a claim is never given back) and the stagings that have counted
    their attachments and not yet written. *)
Record AWorld := MkAWorld { node : ANode; held : list string; opened : list Staging }.

(** No staging of the document is open: its advisory lock is free. *)
Definition free (w : AWorld) (documentID : string) : Prop :=
  ∀ c head, (c, head) ∈ opened w → cm_DocumentID c ≠ documentID.

(** Identifiers drawn are new; a scan ends for an attachment some worker holds;
    a command waits for the lock of its document. *)
Definition possible (w : AWorld) (r : arequest) : Prop :=
  match r with
  | AReqUpload _ _ _ newID _ _ _ _ _ => attachments (adb (node w)) !! newID = None
  | AReqScanned _ i _ | AReqScanFailed _ i _ => i ∈ held w
  | AReqStage _ req | AReqFinalize _ req | AReqClear _ req => free w (rq_DocumentId req)
  | _ => True
  end.

(** The stagings of the other documents. *)
Definition others (c : PublicationReferenceCommand) (l : list Staging) : list Staging :=
  filter (λ x, cm_DocumentID x.1 ≠ cm_DocumentID c) l.

(** The second phase, at its commit. *)
Definition stage_commit (now : Z) (c : PublicationReferenceCommand) (head : option HeadRow) : astore unit :=
  transaction (stage_write now c head).

Inductive astep : AWorld → AWorld → Prop :=
| astep_request w r : possible w r → astep w (MkAWorld (run_arequest r (node w)) (held w) (opened w))
| astep_claim w now n' claimed :
    on_db (Claim now) (node w) = (n', Ok claimed) → astep w (MkAWorld n' (at_ID claimed :: held w) (opened w))
| astep_open w req c db head :
    publicationCommand req false = Ok c → free w (cm_DocumentID c) →
    stage_begin c (adb (node w)) = (db, Ok (Some head)) →
    astep w (MkAWorld (node w) (held w) ((c, head) :: opened w))
| astep_commit w now c head :
    (c, head) ∈ opened w →
    astep w (MkAWorld (on_db (stage_commit now c head) (node w)).1 (held w) (others c (opened w)))
| astep_rollback w c : astep w (MkAWorld (node w) (held w) (others c (opened w))).

Definition empty_world : AWorld := MkAWorld (MkANode empty_adb []) [] [].

Definition areachable (w : AWorld) : Prop := rtc astep empty_world w.

Lemma mapped_serves {A} (m : astore A) : (∀ db, advances db (m db).1) → within serves (mapped m).
Proof. intros Hm. by apply within_wrap, on_db_serves. Qed.

Lemma command_serves req empty (m : PublicationReferenceCommand → astore unit) :
  (∀ c db, advances db (m c db).1) →
  within serves (coded AInvalidInput (lift (publicationCommand req empty)) ≫= λ command, mapped (m command)).
Proof.
  intros Hm. apply within_bind; [apply _|by apply within_wrap, within_lift, _|]. intros c. by apply mapped_serves.
Qed.

Lemma request_serves w r : possible w r → serves (node w) (run_arequest r (node w)).
Proof.
  destruct r; cbn [possible run_arequest]; intros Hp.
  - by apply UploadAttachment_serves.
  - apply CompleteUpload_serves.
  - unfold TrashAttachment, refuse. case_match; [reflexivity|].
    refine (within_wrap _ _ _ (on_db_serves _ _) _). intros db. apply Trash_advances.
  - unfold UntrashAttachment, refuse. case_match; [reflexivity|]. apply mapped_serves.
    intros db. apply RestoreAttachment_advances.
  - apply command_serves. intros c db. apply Stage_advances.
  - apply command_serves. intros c db. apply Finalize_advances.
  - apply command_serves. intros c db. apply Clear_advances.
  - apply on_db_serves. intros db. apply CompleteScan_advances.
  - apply on_db_serves. intros db. apply RetryScan_advances.
Qed.

(** ** What reaches the references of a document *)

(** The calls that carry no publication command. *)
Definition commands (r : arequest) : bool :=
  match r with AReqStage _ _ | AReqFinalize _ _ | AReqClear _ _ => true | _ => false end.

Lemma uploadResult_references objects record expires : within node_references (uploadResult objects record expires).
Proof. intros n. by rewrite uploadResult_state. Qed.

Lemma request_apart r n : AInv (adb n) → commands r = false → node_references n (run_arequest r n).
Proof.
  intros Hi Hc. destruct r; try done; cbn [run_arequest].
  3:{ unfold TrashAttachment, refuse. case_match; [done|]. by apply wrap_at, on_db_at, Trash_apart. }
  all: clear Hi; match goal with |- node_references ?x (?m ?x).1 => revert x; change (within node_references m) end.
  - unfold UploadAttachment, refuse, coded, note, abort, CreateAttachment.
    repeat first [apply uploadResult_references|progress apart].
  - unfold CompleteUpload, refuse, mapped, MarkScanning, GetAttachment, save_job. apart.
  - unfold UntrashAttachment, refuse, mapped, RestoreAttachment. apart.
  - unfold CompleteScan, delete_job. apart.
  - unfold RetryScan, save_job. apart.
Qed.

Lemma Claim_apart now n : node_references n (on_db (Claim now) n).1.
Proof. revert n. change (within node_references (on_db (Claim now))). unfold Claim, delete_job, save_job. apart. Qed.

Lemma head_key_inj d d' : d' ≠ d → head_key d ≠ head_key d'.
Proof. intros Hne [= ?]. congruence. Qed.

(** A command of a document: attachments and other heads stay, and what it newly
    refers to is ready. *)
Record commands_document (d : string) (s t : ADB) : Prop := {
  cd_attachments : attachments t = attachments s;
  cd_heads : ∀ d', d' ≠ d → heads t !! head_key d' = heads s !! head_key d';
  cd_references : ∀ i, referenced t i → referenced s i ∨ ∃ r, attachments s !! i = Some r ∧ t_Status r = StatusReady;
}.

Lemma commands_nothing d s : commands_document d s s.
Proof. split; auto. Qed.

Lemma stage_document now c s t u :
  AInv s → StagePublicationReferences now c s = (t, Ok u) → commands_document (cm_DocumentID c) s t.
Proof.
  intros Hs Hr. apply stage_run in Hr as [[-> _]|(_ & [Ha _ _ Hh _ Hf] & Hready)]; [apply commands_nothing| |done].
  split; [done|intros d Hd; rewrite Hh, lookup_insert_ne; [done|by apply head_key_inj]|].
  intros i (k & f & [[Hk _]|(j & Hj & -> & _)]%Hf & <-); [left; by exists k, f|right; by apply Hready].
Qed.

Lemma finalize_document now c s t u :
  AInv s → FinalizePublicationReferences now c s = (t, Ok u) → commands_document (cm_DocumentID c) s t.
Proof.
  intros Hs Hr. apply finalize_run in Hr as (h & _ & [[-> _]|[_ [_ _ _ _ Ha _ Hh Hf]]]); [apply commands_nothing| |done].
  split; [done|intros d Hd; rewrite Hh, lookup_insert_ne; [done|by apply head_key_inj]|].
  intros i (k & f & [Hk _]%Hf & <-). left. by exists k, f.
Qed.

Lemma clear_document now c s t u :
  AInv s → ClearPublicationReferences now c s = (t, Ok u) → commands_document (cm_DocumentID c) s t.
Proof.
  intros Hs Hr. apply clear_run in Hr as [[-> _]|[_ [Ha _ Hh _ Hf]]]; [apply commands_nothing| |done].
  split; [done|intros d Hd; rewrite Hh, lookup_insert_ne; [done|by apply head_key_inj]|].
  intros i (k & f & [Hk _]%Hf & <-). left. by exists k, f.
Qed.

(** A publication command of the service. *)
Lemma request_document w r :
  AInv (adb (node w)) → possible w r → commands r = true →
  ∃ d, free w d ∧ commands_document d (adb (node w)) (adb (run_arequest r (node w))).
Proof.
  intros Hi Hp Hc. assert (∀ (m : PublicationReferenceCommand → astore unit) empty req,
    (∀ c s t u, AInv s → m c s = (t, Ok u) → commands_document (cm_DocumentID c) s t) →
    (∀ c db db' e, m c db = (db', Err e) → db' = db) →
    commands_document (rq_DocumentId req) (adb (node w))
      (adb ((coded AInvalidInput (lift (publicationCommand req empty)) ≫= λ c, mapped (m c)) (node w)).1)) as Hrun.
  { intros m empty req Hm He. match goal with |- commands_document _ _ (adb (?c (node w)).1) => destruct (c (node w)) as [n' res] eqn:Hr end.
    cbn [fst].
    destruct (command_run _ _ _ _ _ _ He Hr) as [[-> _]|(c & u & Hc' & Hr' & _)]; [apply commands_nothing|].
    destruct (command_fields _ _ _ Hc') as (<- & _). by eapply Hm. }
  destruct r as [ | | | |now req|now req|now req| | ]; try done; exists (rq_DocumentId req); (split; [exact Hp|]).
  - apply (Hrun (StagePublicationReferences now)); intros; [by eapply stage_document|by eapply command_atomic].
  - apply (Hrun (FinalizePublicationReferences now)); intros; [by eapply finalize_document|by eapply command_atomic].
  - apply (Hrun (ClearPublicationReferences now)); intros; [by eapply clear_document|by eapply command_atomic].
Qed.

(** ** The invariant of the worlds *)

Record AWInv (w : AWorld) : Prop := {
  aw_db : AInv (adb (node w));
  aw_opened : ∀ c head, (c, head) ∈ opened w → stage_open (adb (node w)) c head;
}.

(** An open staging stays as it is while its document is left alone. *)
Lemma open_stable s t c head :
  stage_open s c head → kept same_upload (attachments s) (attachments t) →
  heads t !! head_key (cm_DocumentID c) = heads s !! head_key (cm_DocumentID c) → stage_open t c head.
Proof.
  intros [-> Hl Hs] Hk Hh. split; rewrite ?Hh; [done|done|]. intros i Hi. destruct (Hs i Hi) as (r & Hr & Ho & Hst).
  destruct (Hk i r Hr) as (r' & Hr' & []). exists r'. split_and!; [done|congruence|auto].
Qed.

Lemma commit_run now c head s t u :
  AInv s → stage_open s c head → stage_commit now c head s = (t, Ok u) → stages now c s t.
Proof. intros Hs Ho Hr%transaction_ok. by eapply write_run. Qed.

Lemma commit_advances now c head s :
  AInv s → stage_open s c head → advances s (stage_commit now c head s).1.
Proof.
  intros _ Ho Hs. destruct (stage_commit now c head s) as [t [u|e]] eqn:Hr; cbn [fst].
  - pose proof (commit_run _ _ _ _ _ _ Hs Ho Hr) as Hst. split; [eapply stages_inv; [done|by destruct Ho|done]|].
    destruct Hst as [-> _ _ _ _ _]. done.
  - by apply transaction_run_err in Hr as [-> _].
Qed.

Lemma commit_heads now c head s d :
  AInv s → stage_open s c head → d ≠ cm_DocumentID c →
  heads (stage_commit now c head s).1 !! head_key d = heads s !! head_key d.
Proof.
  intros Hs Ho Hd. destruct (stage_commit now c head s) as [t [u|e]] eqn:Hr; cbn [fst].
  - destruct (commit_run _ _ _ _ _ _ Hs Ho Hr) as [_ _ _ -> _ _]. rewrite lookup_insert_ne; [done|by apply head_key_inj].
  - by apply transaction_run_err in Hr as [-> _].
Qed.

Lemma elem_of_others c l x head :
  (x, head) ∈ others c l → (x, head) ∈ l ∧ cm_DocumentID x ≠ cm_DocumentID c.
Proof. by intros [? ?]%list_elem_of_filter. Qed.

Lemma on_db_adb {A} (m : astore A) n : adb (on_db m n).1 = (m (adb n)).1.
Proof. unfold on_db. by destruct (m (adb n)). Qed.

Lemma astep_serves w w' : AWInv w → astep w w' → serves (node w) (node w').
Proof.
  intros Hw Hs. destruct Hs as [w r Hp|w now n' claimed Hc|w req c db head Hc Hfr Hb|w now c head Hc|w c];
    cbn [node]; [by apply request_serves| |done| |done].
  - replace n' with (on_db (Claim now) (node w)).1 by by rewrite Hc.
    apply on_db_serves. intros db. apply Claim_advances.
  - pose proof (commit_advances now c head (adb (node w)) (aw_db _ Hw) (aw_opened _ Hw _ _ Hc)) as Ha.
    apply (serves_db _ _ []); [by rewrite on_db_adb| |set_solver].
    unfold on_db. destruct (stage_commit _ _ _ _). by rewrite app_nil_r.
Qed.

Lemma astep_inv w w' : AWInv w → astep w w' → AWInv w'.
Proof.
  intros Hw Hs. destruct (astep_serves w w' Hw Hs (aw_db _ Hw)) as (Hi' & Hk & _).
  pose proof Hw as [Hi Ho]. split; [done|].
  destruct Hs as [w r Hp|w now n' claimed Hc|w req c db head Hc Hfr Hb|w now c head Hc|w c];
    cbn [node opened] in *; intros x hx Hx.
  - eapply open_stable; [by apply Ho|done|]. destruct (commands r) eqn:Hcm.
    + destruct (request_document w r Hi Hp Hcm) as (d & Hfr & [_ Hh _]). apply Hh. by eapply Hfr.
    + by rewrite (sr_heads _ _ (request_apart r (node w) Hi Hcm)).
  - eapply open_stable; [by apply Ho|done|]. pose proof (Claim_apart now (node w)) as Hap. rewrite Hc in Hap.
    destruct Hap as [_ Hh _]. by rewrite <-Hh.
  - apply elem_of_cons in Hx as [[= -> ->]|Hx]; [by eapply begin_open|by apply Ho].
  - apply elem_of_others in Hx as [Hx Hne]. eapply open_stable; [by apply Ho|done|].
    rewrite on_db_adb. apply commit_heads; [done|by apply Ho|done].
  - apply elem_of_others in Hx as [Hx _]. by apply Ho.
Qed.

Lemma asteps_keep w w' : AWInv w → rtc astep w w' → AWInv w' ∧ serves (node w) (node w').
Proof.
  intros Hw Hs. revert Hw. induction Hs as [|w w1 w2 Hs _ IH]; intros Hw; [by split|].
  destruct IH as [Hw2 Hs2]; [by eapply astep_inv|]. split; [done|]. etrans; [by apply astep_serves|exact Hs2].
Qed.

Lemma empty_awinv : AWInv empty_world.
Proof. split; [apply empty_ainv|]. intros c head ?%elem_of_nil. done. Qed.

Lemma areachable_awinv w : areachable w → AWInv w.
Proof. intros Hw. by apply (asteps_keep _ _ empty_awinv). Qed.

Lemma areachable_inv w : areachable w → AInv (adb (node w)) ∧ accounted (node w).
Proof.
  intros Hw. destruct (asteps_keep _ _ empty_awinv Hw) as [[Hi _] Hs]. destruct (Hs empty_ainv) as (_ & _ & Ha).
  split; [done|]. apply Ha. intros key upload He. by apply elem_of_nil in He.
Qed.

(** ** The trash *)

(** A step trashes nothing that is referenced; the only references it makes to
    what is in the trash are those of a staging that counted it before. *)
Lemma astep_trash w w' :
  AWInv w → astep w w' → let s := adb (node w) in let t := adb (node w') in
  (∀ i, referenced s i → in_trash t i → in_trash s i) ∧
  (∀ i, referenced t i → in_trash t i → in_trash s i ∧
     (referenced s i ∨ ∃ now c head, (c, head) ∈ opened w ∧ i ∈ cm_AttachmentIDs c ∧ t = (stage_commit now c head s).1)).
Proof.
  intros Hw Hs s t. pose proof Hw as [Hi Ho].
  assert (∀ x, same_references s x → (∀ i, referenced s i → in_trash x i → in_trash s i) ∧
            (∀ i, referenced x i → in_trash x i → in_trash s i ∧ referenced s i)) as Hsame.
  { intros x [Hr _ Ht]. assert (∀ i, referenced x i → referenced s i) as Hrs by (unfold referenced; by rewrite Hr).
    split; [intros i Hi' [?|?]%Ht; done|]. intros i Hx%Hrs [?|?]%Ht; done. }
  destruct Hs as [w r Hp|w now n' claimed Hc|w req c db head Hc Hfr Hb|w now c head Hc|w c];
    cbn [node opened] in *; subst s t.
  - destruct (commands r) eqn:Hcm; [|destruct (Hsame _ (request_apart r (node w) Hi Hcm)) as [? Hb]; split; [done|];
      intros i ? ?; destruct (Hb i); auto].
    destruct (request_document w r Hi Hp Hcm) as (d & _ & [Ha _ Hr]).
    unfold in_trash. rewrite Ha. split; [done|]. intros i [?|(q & Hq & Hst)]%Hr Ht; [auto|].
    destruct Ht as (q' & Hq' & Hst'). rewrite Hq in Hq'. injection Hq' as <-. by rewrite Hst in Hst'.
  - pose proof (Claim_apart now (node w)) as Hap. rewrite Hc in Hap. destruct (Hsame _ Hap) as [? Hb]. split; [done|].
    intros i ? ?; destruct (Hb i); auto.
  - auto.
  - rewrite on_db_adb. destruct (stage_commit now c head (adb (node w))) as [t [u|e]] eqn:Hr; cbn [fst].
    + assert (t = (stage_commit now c head (adb (node w))).1) as Et by by rewrite Hr.
      destruct (commit_run _ _ _ _ _ _ Hi (Ho _ _ Hc) Hr) as [Ha _ _ _ _ Hf]. unfold in_trash. rewrite Ha. split; [done|].
      intros i (k & f & [[Hk _]|(j & Hj & -> & _)]%Hf & <-) Ht; (split; [done|]); [left; by exists k, f|right]. by exists now, c, head.
    + apply transaction_run_err in Hr as [-> _]. auto.
  - auto.
Qed.

End calls2.
