(* ===== verification/AClaims.v ===== *)
(** What the attachment service promises: references follow the publication
    protocol, held attachments stay, scans account for their jobs, uploads
    complete with every part.

    The first part is a small concrete instance for the witnesses: functions for
    the parameters, an object store that accepts everything, and the states the
    examples start from. *)

From stdpp Require Import base gmap list sets strings relations.
From Stdlib Require Import ZArith Lia.
From S2P Require Import Prelude.
From S2P Require Import GoStrings.
From S2P Require Import KDomain.
From S2P Require Import RichText.
From S2P Require Import Json.
From S2P Require Import ASchema.
From S2P Require Import AStore.
From S2P Require Import AService.
From S2P Require Import AWorld.

Open Scope Z_scope.

(** Every text is a UUIDv7 and has the same digest. *)
Definition all_uuid7 : Uuid := {| uuid_version := λ _, Some 7 |}.

Definition constant_codec : Codec := {|
  json_decode := λ _, Some (JArr []);
  json_encode := λ _, Some "[]";
  json_valid := λ _, true;
  decode_document := λ _, Some (MkDocument "doc" (Some []));
  decode_headers := λ _, Some [];
  std_decode := λ _, Some (JArr []);
  std_encode := λ _, "[]";
  sha256_hex := λ _, "0123456789abcdef0123456789abcdef0123456789abcdef0123456789abcdef";
|}.

#[export] Existing Instance ascii_unicode | 100.
#[export] Existing Instance all_uuid7 | 100.
#[export] Existing Instance constant_codec | 100.

Definition kind_store : Objects := MkObjects
  (λ _ _, Ok "upload-1") (λ _ _, true) (λ _ _ _, Some ("https://put", 0)) (λ _ _ _, true)
  (λ _, Ok "0123456789") (λ _, Some ("https://get", 0)).

Definition clean_scan (clean : bool) : ScanResult := MkScanResult clean "ab12" 10 "text/plain".

Definition after_request (r : arequest) (w : AWorld) : AWorld := MkAWorld (run_arequest r (node w)) (held w) (opened w).

Definition after_claim (now : Z) (w : AWorld) : AWorld :=
  match on_db (Claim now) (node w) with
  | (n', Ok claimed) => MkAWorld n' (at_ID claimed :: held w) (opened w)
  | (_, Err _) => w
  end.

Lemma areach_request r w : areachable w → possible w r → areachable (after_request r w).
Proof. intros Hw Hp. eapply rtc_r; [exact Hw|]. by constructor. Qed.

Lemma held_after_request i r w : i ∈ held w → i ∈ held (after_request r w).
Proof. done. Qed.

Lemma areach_claim now w : areachable w → areachable (after_claim now w).
Proof.
  intros Hw. unfold after_claim. destruct (on_db (Claim now) (node w)) as [n' [claimed|e]] eqn:E; [|done].
  eapply rtc_r; [exact Hw|]. by econstructor.
Qed.

(** An upload of ten bytes in one part, then complete and waiting for a scan. *)
Definition started : AWorld :=
  after_request (AReqUpload kind_store 60 1 "a1" 7 "notes.txt" "text/plain" 10 EmptyString) empty_world.

Definition waiting : AWorld :=
  after_request (AReqComplete kind_store 2 7 "a1" "upload-1" [Some (1, "tag")]) started.

(** A first worker claims it and is not heard of again. *)
Definition claimed_once : AWorld := after_claim 3 waiting.

(** A later worker claims it at [t] and fails. *)
Definition failed_again (t : Z) (w : AWorld) : AWorld :=
  after_request (AReqScanFailed (t * Hour) "a1" "clamd down") (after_claim (t * Hour) w).

Definition parked : AWorld :=
  failed_again 7 (failed_again 6 (failed_again 5 (failed_again 4 (failed_again 3 (failed_again 2
    (failed_again 1 claimed_once)))))).

Definition trashed : AWorld := after_request (AReqTrash (8 * Hour) 7 "a1") parked.

(** A scan that finds something. *)
Definition infected : AWorld := after_request (AReqScanned 4 "a1" (clean_scan false)) claimed_once.

(** A clean scan, and a publication that refers to the attachment. *)
Definition ready : AWorld := after_request (AReqScanned 4 "a1" (clean_scan true)) claimed_once.

Definition the_command : CommandMessage := MkCommandMessage "m1" "d1" 7 1 ["a1"].

Definition staged : AWorld := after_request (AReqStage 5 the_command) ready.

(** A staging begins, and the last one that began is written. *)
Definition after_open (req : CommandMessage) (w : AWorld) : AWorld :=
  match publicationCommand req false with
  | Ok c =>
    match stage_begin c (adb (node w)) with
    | (_, Ok (Some head)) => MkAWorld (node w) (held w) ((c, head) :: opened w)
    | _ => w
    end
  | Err _ => w
  end.

Definition after_commit (now : Z) (w : AWorld) : AWorld :=
  match opened w with
  | (c, head) :: _ => MkAWorld (on_db (stage_commit now c head) (node w)).1 (held w) (others c (opened w))
  | [] => w
  end.

(** The owner trashes the attachment between the two. *)
Definition overtaken : AWorld :=
  after_commit 7 (after_request (AReqTrash 6 7 "a1") (after_open the_command ready)).

Lemma waiting_reachable : areachable waiting.
Proof. apply areach_request; [|done]. apply areach_request; [apply rtc_refl|by vm_compute]. Qed.

Lemma claimed_once_reachable : areachable claimed_once.
Proof. apply areach_claim, waiting_reachable. Qed.

Lemma failed_again_reachable t w : areachable w → "a1" ∈ held w → areachable (failed_again t w).
Proof.
  intros Hw Hh. apply areach_request; [by apply areach_claim|]. cbn. unfold after_claim.
  destruct (on_db _ _) as [n' [c|e]]; [by right|done].
Qed.

Lemma failed_again_held t w : "a1" ∈ held w → "a1" ∈ held (failed_again t w).
Proof. intros Hh. cbn. unfold after_claim. destruct (on_db _ _) as [n' [c|e]]; [by right|done]. Qed.

Lemma claimed_once_held : "a1" ∈ held claimed_once.
Proof. apply (bool_decide_eq_true_1 ("a1" ∈ held claimed_once)). by vm_compute. Qed.

Lemma failed_again_fine t w :
  areachable w ∧ "a1" ∈ held w → areachable (failed_again t w) ∧ "a1" ∈ held (failed_again t w).
Proof. intros [Hw Hh]. split; [by apply failed_again_reachable|by apply failed_again_held]. Qed.

Lemma parked_fine : areachable parked ∧ "a1" ∈ held parked.
Proof.
  unfold parked. do 7 apply failed_again_fine. split; [apply claimed_once_reachable|apply claimed_once_held].
Qed.

Lemma trashed_reachable : areachable trashed.
Proof. apply areach_request; [apply parked_fine|done]. Qed.

Lemma trashed_held : "a1" ∈ held trashed.
Proof. apply held_after_request, parked_fine. Qed.

Lemma infected_reachable : areachable infected.
Proof. apply areach_request; [apply claimed_once_reachable|apply claimed_once_held]. Qed.

Lemma ready_reachable : areachable ready.
Proof. apply areach_request; [apply claimed_once_reachable|apply claimed_once_held]. Qed.

Lemma none_free w d : opened w = [] → free w d.
Proof. intros Ho c head. rewrite Ho. by intros ?%elem_of_nil. Qed.

Lemma astaged_reachable : areachable staged.
Proof. apply areach_request; [apply ready_reachable|by apply none_free]. Qed.

Lemma areach_open req w : areachable w → opened w = [] → areachable (after_open req w).
Proof.
  intros Hw Ho. unfold after_open. destruct (publicationCommand req false) as [c|] eqn:Hc; [|done].
  destruct (stage_begin _ _) as [db [[head|]|]] eqn:Hb; [|done..].
  eapply rtc_r; [exact Hw|]. eapply astep_open; [done|by apply none_free|done].
Qed.

Lemma areach_commit now w : areachable w → areachable (after_commit now w).
Proof.
  intros Hw. unfold after_commit. destruct (opened w) as [|[c head] l] eqn:Ho; [done|]. rewrite <-Ho.
  eapply rtc_r; [exact Hw|]. apply astep_commit. rewrite Ho. by left.
Qed.

Lemma overtaken_reachable : areachable overtaken.
Proof.
  apply areach_commit, areach_request; [|done]. apply areach_open; [apply ready_reachable|done].
Qed.

(** Staging counts without locking, so the reference it leaves can be to an
    attachment in the trash. *)
Example overtaken_reference :
  is_some (references (adb (node overtaken)) !! ("a1", publicationReferenceType, "d1", 1)) = true
  ∧ t_Status <$> attachments (adb (node overtaken)) !! "a1" = Some StatusTrashed.
Proof. by vm_compute. Qed.

(** ** The properties *)

(** ** The specification of publication references *)

(** What a document's publication refers to: the generation that is live with
    its attachments, and the one being prepared. *)
Record Refs := MkRefs {
  p_active : Z;
  p_active_ids : gset string;
  p_staged : option (Z * gset string);
}.

#[export] Instance Refs_eq_dec : EqDecision Refs.
Proof. solve_decision. Defined.

Definition newest (p : Refs) : Z := match p_staged p with Some (g, _) => g | None => p_active p end.

(** A newer generation is prepared; the live one stays. *)
Definition spec_stage (generation : Z) (ids : gset string) (p : Refs) : Refs :=
  if generation <=? newest p then p else MkRefs (p_active p) (p_active_ids p) (Some (generation, ids)).

(** The prepared generation becomes the live one. *)
Definition spec_finalize (generation : Z) (p : Refs) : Refs :=
  if generation <=? p_active p then p
  else MkRefs generation (match p_staged p with Some (_, ids) => ids | None => ∅ end) None.

(** Nothing is referred to any more. *)
Definition spec_clear (generation : Z) (p : Refs) : Refs :=
  if generation <? newest p then p else MkRefs generation ∅ None.

(** The attachments a document refers to at a generation. *)
Definition refs_at (db : ADB) (d : string) (g : Z) : gset string :=
  list_to_set (rf_AttachmentID <$> rows_where (λ f, of_document d f && (rf_Generation f =? g)) (references db)).

(** The abstraction of a database for a document. *)
Definition refs_of (db : ADB) (d : string) : Refs :=
  match heads db !! head_key d with
  | None => MkRefs 0 ∅ None
  | Some h => MkRefs (hd_ActiveGeneration h) (refs_at db d (hd_ActiveGeneration h))
                ((λ g, (g, refs_at db d g)) <$> hd_StagedGeneration h)
  end.

Lemma elem_of_refs_at db d g i :
  i ∈ refs_at db d g ↔
  ∃ k f, references db !! k = Some f ∧ of_document d f = true ∧ rf_Generation f = g ∧ rf_AttachmentID f = i.
Proof.
  unfold refs_at. rewrite elem_of_list_to_set, list_elem_of_fmap. split.
  - intros (f & -> & [[Hd Hg%Z.eqb_eq]%andb_prop [k Hk]]%elem_of_rows_where). eauto 10.
  - intros (k & f & Hk & Hd & Hg & <-). exists f. split; [done|]. apply elem_of_rows_where.
    split; [|by eauto]. by rewrite Hd, Hg, Z.eqb_refl.
Qed.

(** References of a document that change at no generation a head names. *)
Lemma refs_at_ext db db' d g :
  (∀ k f, of_document d f = true → rf_Generation f = g →
     references db' !! k = Some f ↔ references db !! k = Some f) →
  refs_at db' d g = refs_at db d g.
Proof.
  intros Hr. apply set_eq. intros i. rewrite !elem_of_refs_at.
  split; intros (k & f & Hk & Hd & Hg & Hi); exists k, f; (split_and!; [|done..]); by apply (Hr k f).
Qed.

Lemma of_document_other d d' f : of_document d f = true → d ≠ d' → of_document d' f = false.
Proof.
  unfold of_document. intros [Ht Hd]%andb_prop Hne. apply bool_decide_eq_true in Hd.
  apply andb_false_iff. right. apply bool_decide_eq_false. congruence.
Qed.

(** A document that a command does not name. *)
Lemma refs_of_other db db' d d' :
  d' ≠ d → heads db' !! head_key d' = heads db !! head_key d' →
  (∀ k f, of_document d' f = true → references db' !! k = Some f ↔ references db !! k = Some f) →
  refs_of db' d' = refs_of db d'.
Proof.
  intros Hne Hh Hr. unfold refs_of. rewrite Hh. destruct (heads db !! head_key d') as [h|]; [|done].
  f_equal; [apply refs_at_ext; naive_solver|]. destruct (hd_StagedGeneration h) as [g|]; [|done]. cbn.
  do 2 f_equal. apply refs_at_ext; naive_solver.
Qed.

Lemma newest_latest db d h : AInv db → heads db !! head_key d = Some h → newest (refs_of db d) = latest h.
Proof.
  intros Hdb Hh. destruct (ai_heads _ Hdb _ _ Hh) as (_ & _ & Hst). unfold refs_of, newest. rewrite Hh. cbn.
  unfold latest. destruct (hd_StagedGeneration h) as [g|]; [|done]. cbn. specialize (Hst g eq_refl).
  by rewrite (proj2 (Z.ltb_lt _ _)).
Qed.

Lemma stage_early_Some command h r : staging h → stage_early command h = Some r → cm_Generation command <= latest h.
Proof.
  intros Hs. destruct (latest_bound h Hs) as [Ha Hg]. unfold stage_early.
  destruct (cm_Generation command <? latest h) eqn:E1; [apply Z.ltb_lt in E1; lia|]. apply Z.ltb_ge in E1.
  destruct (hd_StagedGeneration h) as [g|] eqn:Hst; cbn [opt_test is_none is_some negb].
  - specialize (Hg g eq_refl). destruct (cm_Generation command =? g) eqn:E2; [apply Z.eqb_eq in E2; lia|].
    by rewrite andb_false_r.
  - destruct (cm_Generation command =? hd_ActiveGeneration h) eqn:E2; [apply Z.eqb_eq in E2; lia|done].
Qed.

(** A document without a head has no references. *)
Lemma no_head_no_refs db d k f :
  AInv db → heads db !! head_key d = None → references db !! k = Some f → of_document d f = false.
Proof.
  intros Hdb Hh Hf. destruct (ai_refs _ Hdb _ _ Hf) as (_ & Ht & Hc & _). apply not_true_iff_false.
  rewrite of_document_spec by done. intros <-. unfold current_reference in Hc. rewrite Ht in Hc.
  fold (head_key (rf_RefID f)) in Hc. by rewrite Hh in Hc.
Qed.

(** The new references of a command are of its document and generation. *)
Lemma new_reference_of command now i :
  of_document (cm_DocumentID command) (new_reference command now i) = true.
Proof. by apply of_document_spec. Qed.

Lemma stages_refs now command s t :
  AInv s → stages now command s t →
  (∀ h, heads s !! head_key (cm_DocumentID command) = Some h → latest h < cm_Generation command) →
  refs_of t (cm_DocumentID command)
  = MkRefs (p_active (refs_of s (cm_DocumentID command))) (p_active_ids (refs_of s (cm_DocumentID command)))
      (Some (cm_Generation command, list_to_set (cm_AttachmentIDs command))).
Proof.
  intros Hs [_ _ _ Hheads Hpos Hrefs] Hlt. unfold refs_of. rewrite Hheads, lookup_insert_eq. cbn.
  set (d := cm_DocumentID command) in *.
  assert (refs_at t d (cm_Generation command) = list_to_set (cm_AttachmentIDs command)) as ->.
  { apply set_eq. intros i. rewrite elem_of_refs_at, elem_of_list_to_set. split.
    - intros (k & f & [[_ Hn]|(j & Hj & -> & ->)]%Hrefs & Hd & Hg & <-); [|done]. exfalso. apply Hn. by split; [|left].
    - intros Hi. exists (reference_key (new_reference command now i)), (new_reference command now i).
      split_and!; [|apply new_reference_of|done..]. apply Hrefs. right. by exists i. }
  f_equal; [by destruct (heads s !! head_key d)|].
  destruct (heads s !! head_key d) as [h|] eqn:Hh; cbn [default hd_ActiveGeneration new_head p_active_ids].
  - apply refs_at_ext. intros k f Hd Hg. rewrite Hrefs.
    destruct (ai_heads _ Hs _ _ Hh) as (_ & _ & Hst). pose proof (Hlt h eq_refl). destruct (latest_bound h Hst).
    split; [|intros Hf; left; split; [done|]].
    + intros [[Hf _]|(i & _ & -> & ->)]; [done|]. cbn in Hg. lia.
    + intros [_ [E|(h' & [= <-] & E1 & E2)]]; [lia|congruence].
  - apply set_eq. intros i. rewrite elem_of_refs_at. split; [|set_solver].
    intros (k & f & [[Hf _]|(j & _ & -> & ->)]%Hrefs & Hd & Hg & _); [|cbn in Hg; lia].
    by rewrite (no_head_no_refs s d k f Hs Hh Hf) in Hd.
Qed.

Lemma stages_refine now command s t :
  AInv s → (∀ h, heads s !! head_key (cm_DocumentID command) = Some h → stage_early command h = None) →
  stages now command s t →
  refs_of t (cm_DocumentID command)
  = spec_stage (cm_Generation command) (list_to_set (cm_AttachmentIDs command)) (refs_of s (cm_DocumentID command))
  ∧ ∀ d, d ≠ cm_DocumentID command → refs_of t d = refs_of s d.
Proof.
  intros Hs He Hst.
  assert (∀ h, heads s !! head_key (cm_DocumentID command) = Some h → latest h < cm_Generation command) as Hlt.
  { intros h Hh. destruct (ai_heads _ Hs _ _ Hh) as (_ & _ & Hstg). apply stage_early_None; [done|by apply He]. }
  split.
  - rewrite (stages_refs now command s t Hs Hst Hlt). unfold spec_stage.
    rewrite (proj2 (Z.leb_gt _ _)); [done|].
    destruct (heads s !! head_key (cm_DocumentID command)) as [h|] eqn:Hh.
    + rewrite (newest_latest s _ h Hs Hh). by apply Hlt.
    + unfold newest, refs_of. rewrite Hh. cbn. by destruct Hst.
  - intros d Hd. destruct Hst as [_ _ _ Hheads _ Hrefs]. apply (refs_of_other s t (cm_DocumentID command)); [done| |].
    + rewrite Hheads, lookup_insert_ne; [done|]. by apply head_key_inj.
    + intros k f Hf. rewrite Hrefs. rewrite (of_document_other d (cm_DocumentID command) f) by done.
      split; [|intros; left; naive_solver].
      intros [[? _]|(i & _ & -> & ->)]; [done|]. exfalso.
      pose proof (new_reference_of command now i) as Hn.
      by rewrite (of_document_other _ (cm_DocumentID command) _ Hf) in Hn.
Qed.

Lemma stage_refines now command s t u :
  AInv s → StagePublicationReferences now command s = (t, Ok u) →
  refs_of t (cm_DocumentID command)
  = spec_stage (cm_Generation command) (list_to_set (cm_AttachmentIDs command)) (refs_of s (cm_DocumentID command))
  ∧ ∀ d, d ≠ cm_DocumentID command → refs_of t d = refs_of s d.
Proof.
  intros Hs Hr. apply stage_run in Hr as [(-> & h & Hh & He)|(He & Hst & _)]; [|by eapply stages_refine|done].
  split; [|done]. destruct (ai_heads _ Hs _ _ Hh) as (_ & _ & Hstg).
  pose proof (stage_early_Some _ _ _ Hstg He). unfold spec_stage.
  rewrite (newest_latest s _ h Hs Hh), (proj2 (Z.leb_le _ _)) by done. done.
Qed.

Lemma finalize_refines now command s t u :
  AInv s → FinalizePublicationReferences now command s = (t, Ok u) →
  refs_of t (cm_DocumentID command) = spec_finalize (cm_Generation command) (refs_of s (cm_DocumentID command))
  ∧ ∀ d, d ≠ cm_DocumentID command → refs_of t d = refs_of s d.
Proof.
  intros Hs Hr.
  apply finalize_run in Hr as (h & Hh & [[-> Hle]|[Hlt [_ Hg _ _ _ _ Hheads Hrefs]]]); [| |done].
  - split; [|done]. unfold spec_finalize, refs_of. rewrite Hh. cbn.
    by rewrite (proj2 (Z.leb_le _ _)) by (destruct Hle as [|[-> _]]; lia).
  - split.
    + unfold spec_finalize, refs_of. rewrite Hheads, lookup_insert_eq, Hh. cbn.
      rewrite (proj2 (Z.leb_gt _ _)) by done. rewrite Hg. cbn. f_equal. apply refs_at_ext.
      intros k f Hd Hgen. rewrite Hrefs. split; [naive_solver|]. intros Hf. split; [done|]. intros [_ ?]. lia.
    + intros d Hd. apply (refs_of_other s t (cm_DocumentID command)); [done| |].
      * rewrite Hheads, lookup_insert_ne; [done|]. by apply head_key_inj.
      * intros k f Hf. rewrite Hrefs, (of_document_other d (cm_DocumentID command) f) by done. naive_solver.
Qed.

Lemma clear_refines now command s t u :
  AInv s → ClearPublicationReferences now command s = (t, Ok u) →
  refs_of t (cm_DocumentID command) = spec_clear (cm_Generation command) (refs_of s (cm_DocumentID command))
  ∧ ∀ d, d ≠ cm_DocumentID command → refs_of t d = refs_of s d.
Proof.
  intros Hs Hr. apply clear_run in Hr as [(-> & h & Hh & Hlt)|[Hle [_ _ Hheads Hn Hrefs]]]; [| |done].
  - split; [|done]. unfold spec_clear. by rewrite (newest_latest s _ h Hs Hh), (proj2 (Z.ltb_lt _ _)).
  - split.
    + assert (newest (refs_of s (cm_DocumentID command)) <= cm_Generation command) as Hnew.
      { destruct (heads s !! head_key (cm_DocumentID command)) as [h|] eqn:Hh.
        - rewrite (newest_latest s _ h Hs Hh). by apply Hle.
        - unfold newest, refs_of. by rewrite Hh. }
      unfold spec_clear. rewrite (proj2 (Z.ltb_ge _ _)) by done. unfold refs_of.
      rewrite Hheads, lookup_insert_eq. cbn. f_equal. apply set_eq. intros i. rewrite elem_of_refs_at.
      split; [|set_solver]. intros (k & f & [_ Hf]%Hrefs & Hd & _). congruence.
    + intros d Hd. apply (refs_of_other s t (cm_DocumentID command)); [done| |].
      * rewrite Hheads, lookup_insert_ne; [done|]. by apply head_key_inj.
      * intros k f Hf. rewrite Hrefs. pose proof (of_document_other d (cm_DocumentID command) f Hf Hd). naive_solver.
Qed.

(** The attachments some document refers to. *)
Lemma refs_of_spec db i :
  AInv db →
  (∃ d, i ∈ p_active_ids (refs_of db d) ∨ ∃ g ids, p_staged (refs_of db d) = Some (g, ids) ∧ i ∈ ids)
  ↔ ∃ k f, references db !! k = Some f ∧ rf_AttachmentID f = i.
Proof.
  intros Hdb. split.
  - unfold refs_of. intros (d & Hd). destruct (heads db !! head_key d) as [h|]; [cbn in Hd|set_solver].
    destruct Hd as [(k & f & Hf & _ & _ & Hi)%elem_of_refs_at|(g & ids & Hg & Hi)]; [by eauto|].
    destruct (hd_StagedGeneration h) as [g'|]; [|done]. cbn in Hg. injection Hg as <- <-.
    apply elem_of_refs_at in Hi as (k & f & Hf & _ & _ & Hi). by eauto.
  - intros (k & f & Hf & <-). destruct (ai_refs _ Hdb _ _ Hf) as (_ & Ht & Hc & _). exists (rf_RefID f).
    unfold current_reference in Hc. rewrite Ht in Hc. unfold refs_of. fold (head_key (rf_RefID f)) in Hc.
    destruct (heads db !! head_key (rf_RefID f)) as [h|]; [cbn|done].
    assert (of_document (rf_RefID f) f = true) as Hd by by apply of_document_spec.
    apply orb_true_iff in Hc as [Hc%Z.eqb_eq|Hc].
    + left. apply elem_of_refs_at. eauto 10.
    + right. destruct (hd_StagedGeneration h) as [g|]; [cbn in *; apply Z.eqb_eq in Hc as <-|done].
      do 2 eexists. split; [done|]. apply elem_of_refs_at. eauto 10.
Qed.

Lemma served_spec db i :
  AInv db →
  (∃ a, (GetPublished i db).2 = Ok a) ↔
  (∃ r, attachments db !! i = Some r ∧ t_Status r = StatusReady)
  ∧ ∃ d, i ∈ p_active_ids (refs_of db d) ∨ ∃ g ids, p_staged (refs_of db d) = Some (g, ids) ∧ i ∈ ids.
Proof.
  intros Hdb. rewrite refs_of_spec by done. unfold GetPublished. cbv [mbind tx_bind gets id].
  destruct (attachments db !! i) as [r|]; cbn; [|naive_solver].
  unfold require. destruct (_ && _) eqn:E; cbn.
  - apply andb_prop in E as [E1 E2]. apply bool_decide_eq_true in E1.
    apply exists_where_true in E2 as (k & f & Hf & [Hi _]%andb_prop). apply bool_decide_eq_true in Hi.
    split; [intros _|intros _; eauto]. split; eauto.
  - split; [intros [a [=]]|]. intros ((q & [= <-] & Hs) & k & f & Hf & Hi). exfalso.
    apply not_true_iff_false in E. apply E. apply andb_true_iff. split; [by rewrite bool_decide_true|].
    apply exists_where_true. exists k, f. split; [done|]. rewrite bool_decide_true by done.
    by destruct (ai_refs _ Hdb _ _ Hf) as (_ & _ & -> & _).
Qed.

Section claims.
Context `{Unicode, Uuid, Codec}.

(** C20: On a reachable database, the three publication commands implement
    the specification above, a staging also when it is written some time after it
    counted its attachments: when one succeeds, the references of its document
    are those the specification gives and those of every other document are
    unchanged; when one fails, nothing changes.  An attachment is served to the
    public exactly when it is ready and the live or the prepared generation of
    some document refers to it. *)
Theorem references_refine w :
  areachable w → let db := adb (node w) in
  (∀ now command, let d := cm_DocumentID command in
     match StagePublicationReferences now command db with
     | (t, Ok _) => refs_of t d = spec_stage (cm_Generation command) (list_to_set (cm_AttachmentIDs command)) (refs_of db d)
                    ∧ ∀ d', d' ≠ d → refs_of t d' = refs_of db d'
     | (t, Err _) => t = db
     end)
  ∧ (∀ now command head, (command, head) ∈ opened w → let d := cm_DocumentID command in
     match stage_commit now command head db with
     | (t, Ok _) => refs_of t d = spec_stage (cm_Generation command) (list_to_set (cm_AttachmentIDs command)) (refs_of db d)
                    ∧ ∀ d', d' ≠ d → refs_of t d' = refs_of db d'
     | (t, Err _) => t = db
     end)
  ∧ (∀ now command, let d := cm_DocumentID command in
     match FinalizePublicationReferences now command db with
     | (t, Ok _) => refs_of t d = spec_finalize (cm_Generation command) (refs_of db d)
                    ∧ ∀ d', d' ≠ d → refs_of t d' = refs_of db d'
     | (t, Err _) => t = db
     end)
  ∧ (∀ now command, let d := cm_DocumentID command in
     match ClearPublicationReferences now command db with
     | (t, Ok _) => refs_of t d = spec_clear (cm_Generation command) (refs_of db d)
                    ∧ ∀ d', d' ≠ d → refs_of t d' = refs_of db d'
     | (t, Err _) => t = db
     end)
  ∧ (∀ i, (∃ a, (GetPublished i db).2 = Ok a) ↔
       (∃ r, attachments db !! i = Some r ∧ t_Status r = StatusReady)
       ∧ ∃ d, i ∈ p_active_ids (refs_of db d) ∨ ∃ g ids, p_staged (refs_of db d) = Some (g, ids) ∧ i ∈ ids).
Proof.
  intros Hw db. destruct (areachable_awinv w Hw) as [Hdb Hop]. split_and!.
  - intros now command d. destruct (StagePublicationReferences now command db) as [t [u|e]] eqn:Hr.
    + by eapply stage_refines.
    + by apply transaction_run_err in Hr as [-> _].
  - intros now command head Ho d. destruct (stage_commit now command head db) as [t [u|e]] eqn:Hr.
    + eapply stages_refine; [exact Hdb|apply (so_late _ _ _ (Hop _ _ Ho))|by eapply commit_run; [|apply Hop|]].
    + by apply transaction_run_err in Hr as [-> _].
  - intros now command d. destruct (FinalizePublicationReferences now command db) as [t [u|e]] eqn:Hr.
    + by eapply finalize_refines.
    + by apply transaction_run_err in Hr as [-> _].
  - intros now command d. destruct (ClearPublicationReferences now command db) as [t [u|e]] eqn:Hr.
    + by eapply clear_refines.
    + by apply transaction_run_err in Hr as [-> _].
  - intros i. by apply served_spec.
Qed.

(** ** Scanning *)

(** The first due job is that of an attachment being scanned, and is leased. *)
Lemma Claim_run db now j :
  AInv db → first_where (job_due now) job_order (scan_jobs db) = Some j →
  ∃ r, attachments db !! q_AttachmentID j = Some r ∧ t_Status r = StatusScanning
    ∧ scan_jobs db !! q_AttachmentID j = Some j
    ∧ Claim now db = (set_scan_jobs (<[q_AttachmentID j := leased_job now j]> (scan_jobs db)) db, Ok (toDomain r)).
Proof.
  intros Hdb Hj. destruct (first_where_Some _ _ _ _ Hj) as [Hdue [i Hi]].
  destruct (ai_jobs _ Hdb _ _ Hi) as [Hk [r Hr]]. rewrite <-Hk in *.
  assert (t_Status r = StatusScanning) as Hst.
  { apply (ai_scan _ Hdb _ _ Hr). exists j. split; [done|]. unfold job_due in Hdue.
    rewrite !andb_true_iff in Hdue. destruct Hdue as [_ Hp]. by destruct (q_ParkedAt j). }
  exists r. split_and!; [done..|]. unfold Claim, transaction. cbv [mbind tx_bind gets id expect]. rewrite Hj. cbn.
  unfold in_scan. rewrite Hr. cbn. by rewrite bool_decide_true.
Qed.

Lemma Claim_none db now :
  first_where (job_due now) job_order (scan_jobs db) = None → Claim now db = (db, Err RecordNotFound).
Proof. intros Hj. unfold Claim, transaction. cbv [mbind tx_bind gets id expect]. by rewrite Hj. Qed.

(** A failed attempt of a job, as its worker records it. *)
Definition after_failure (now : Z) (j j' : ScanJobRow) (r r' : AttachmentRow) : Prop :=
  q_Attempts j' = q_Attempts j ∧ q_LeaseUntil j' = None
  ∧ if maxScanAttempts <=? q_Attempts j
    then t_Status r' = StatusScanParked ∧ q_ParkedAt j' = Some now
    else r' = r ∧ q_ParkedAt j' = q_ParkedAt j ∧ q_NextAttemptAt j' = now + scan_backoff (q_Attempts j).

Lemma RetryScan_run db now i message r j :
  AInv db → attachments db !! i = Some r → t_Status r = StatusScanning → scan_jobs db !! i = Some j →
  ∃ r' j', RetryScan now i message db
    = (set_scan_jobs (<[i := j']> (scan_jobs db)) (set_attachments (<[i := r']> (attachments db)) db), Ok tt)
    ∧ after_failure now j j' r r'.
Proof.
  intros Hdb Hr Hs Hj. destruct (ai_jobs _ Hdb _ _ Hj) as [Hk _]. pose proof (ai_rows _ Hdb _ _ Hr) as Hi.
  unfold RetryScan, transaction. cbv [mbind tx_bind gets id expect]. unfold in_scan. rewrite Hr. cbn.
  rewrite bool_decide_true by done. rewrite Hj. cbn. unfold after_failure.
  destruct (maxScanAttempts <=? q_Attempts j); cbn; rewrite Hk, ?Hi.
  - do 2 eexists. split; [done|]. by split_and!.
  - eexists r, _. split.
    + do 2 f_equal. destruct db; cbn in *. by rewrite insert_id.
    + by split_and!.
Qed.

(** A pass of the scan worker on a reachable database does nothing when
    no job is due.  Otherwise the first due job belongs to an attachment that is
    being scanned, and after the pass either the scan is over (the attachment
    has the status its result gives and the job is gone) or the failure is
    recorded: the eighth attempt parks the attachment, an earlier one leaves
    it to be scanned again after the back-off.  No other attachment and no other
    job changes. *)
Theorem scan_pass_accounts w objects scan now :
  areachable w → let db := adb (node w) in
  match first_where (job_due now) job_order (scan_jobs db) with
  | None => scanOnce objects scan now db = (db, Ok tt)
  | Some j =>
    let i := q_AttachmentID j in
    ∃ r t res r', attachments db !! i = Some r ∧ t_Status r = StatusScanning
      ∧ scanOnce objects scan now db = (t, res)
      ∧ attachments t = <[i := r']> (attachments db)
      ∧ (∀ k, k ≠ i → scan_jobs t !! k = scan_jobs db !! k)
      ∧ match OpenObject objects (t_ObjectKey r) ≫= scan with
        | Ok result => res = Ok tt ∧ scan_jobs t !! i = None ∧ t_Status r' = scan_status r result (sc_Clean result)
        | Err e => res = Err (AFailed e)
                   ∧ ∃ j', scan_jobs t !! i = Some j' ∧ after_failure now (leased_job now j) j' r r'
        end
  end.
Proof.
  intros [Hdb _]%areachable_inv db. destruct (first_where _ _ _) as [j|] eqn:Hj.
  2:{ unfold scanOnce. cbv [mbind tx_bind attempt]. by rewrite Claim_none. }
  intros i. destruct (Claim_run db now j Hdb Hj) as (r & Hr & Hs & Hjob & Hc).
  pose proof (Claim_inv now db Hdb) as Hdb1. rewrite Hc in Hdb1. cbn [fst] in Hdb1.
  pose proof (ai_rows _ Hdb _ _ Hr) as Hi. fold i in Hr, Hjob, Hc, Hdb1, Hi.
  set (db1 := set_scan_jobs (<[i := leased_job now j]> (scan_jobs db)) db) in *.
  assert (attachments db1 !! i = Some r) as Hr1 by done.
  assert (scan_jobs db1 !! i = Some (leased_job now j)) as Hj1 by apply lookup_insert_eq.
  assert (∀ e, ∃ t r' j', (RetryScan now (at_ID (toDomain r)) e ≫= λ _, fail (AFailed e) : astore unit) db1 = (t, Err (AFailed e))
    ∧ attachments t = <[i := r']> (attachments db) ∧ (∀ k, k ≠ i → scan_jobs t !! k = scan_jobs db !! k)
    ∧ scan_jobs t !! i = Some j' ∧ after_failure now (leased_job now j) j' r r') as Hretry.
  { intros e. destruct (RetryScan_run db1 now i e r (leased_job now j) Hdb1 Hr1 Hs Hj1) as (r' & j' & Hrun & Ha).
    cbn [at_ID toDomain]. rewrite Hi. cbv [mbind tx_bind]. rewrite Hrun. do 3 eexists. split; [done|].
    split_and!; [done| |apply lookup_insert_eq|exact Ha]. intros k Hk. cbn. by rewrite !lookup_insert_ne. }
  unfold scanOnce. cbv [mbind tx_bind attempt result_bind]. rewrite Hc. cbn [at_ObjectKey toDomain].
  exists r.
  destruct (OpenObject objects (t_ObjectKey r)) as [content|e];
    [|destruct (Hretry e) as (t & r' & j' & Hrun & ? & ? & ? & ?); exists t, (Err (AFailed e)), r'; split_and!; eauto].
  destruct (scan content) as [result|e];
    [|destruct (Hretry e) as (t & r' & j' & Hrun & ? & ? & ? & ?); exists t, (Err (AFailed e)), r'; split_and!; eauto].
  cbn [at_ID toDomain]. rewrite Hi. unfold CompleteScan, transaction. cbv [mbind tx_bind gets id expect].
  rewrite Hr1. cbn. do 3 eexists. split; [done|]. split; [done|]. split; [done|].
  cbn. split; [by rewrite Hi|]. split; [|split; [done|split; [apply lookup_delete_eq|done]]].
  intros k Hk. by rewrite lookup_delete_ne, lookup_insert_ne.
Qed.

(** Whoever asks, what some document refers to is not trashed. *)
Lemma referenced_stays db i now owner : referenced db i → ∃ e, Trash now i owner db = (db, Err e).
Proof.
  intros (k & f & Hf & Hi). unfold Trash, transaction. cbv [mbind tx_bind gets id expect].
  destruct (owned i owner db) as [r|]; [|by eexists]. unfold require.
  rewrite (proj2 (exists_where_true _ (references db))); [by eexists|]. exists k, f. split; [done|].
  by rewrite bool_decide_true.
Qed.


(** ** Completing an upload *)

(** The parts a request may carry. *)
Definition sound_parts (count : Z) (seen : list Z) (ps : list (Z * string)) : Prop :=
  NoDup ps.*1 ∧ (∀ n, n ∈ ps.*1 → 1 <= n <= count ∧ n ∉ seen) ∧ Forall (λ p, TrimSpace p.2 ≠ EmptyString) ps.

Definition trimmed (ps : list (Z * string)) : list (Z * string) := (λ p, (p.1, trim_etag p.2)) <$> ps.

Lemma collect_parts_sound count parts seen collected seen' :
  collect_parts count parts seen = Some (collected, seen') →
  ∃ ps, parts = Some <$> ps ∧ collected = trimmed ps ∧ sound_parts count seen ps.
Proof.
  revert seen collected. induction parts as [|[[n tag]|] parts IH]; intros seen collected Hc; cbn in Hc; [| |done].
  { injection Hc as <- <-. exists []. unfold sound_parts. split_and!; [done|done|constructor|set_solver|constructor]. }
  destruct (_ || _ || _ || _) eqn:E; [done|].
  apply orb_false_iff in E as [[[E1%Z.ltb_ge E2%Z.ltb_ge]%orb_false_iff E3]%orb_false_iff E4].
  apply bool_decide_eq_false in E3, E4. apply bind_Some in Hc as ([collected0 s0] & Hc & [= <- <-]).
  destruct (IH _ _ Hc) as (ps & -> & -> & Hn & Hr & Hf). exists ((n, tag) :: ps). split_and!; [done..|].
  split_and!; cbn.
  - constructor; [|done]. intros Hin. destruct (Hr n Hin). set_solver.
  - intros m [->|Hm]%elem_of_cons; [done|]. destruct (Hr m Hm). set_solver.
  - by constructor.
Qed.

Lemma collect_parts_complete count ps seen :
  sound_parts count seen ps →
  ∃ seen', collect_parts count (Some <$> ps) seen = Some (trimmed ps, seen')
    ∧ ∀ n, n ∈ ps.*1 ++ seen → n ∈ seen'.
Proof.
  revert seen. induction ps as [|[n tag] ps IH]; intros seen (Hn & Hr & Hf); cbn.
  { exists seen. split; [done|]. set_solver. }
  apply NoDup_cons in Hn as [Hni Hn]. apply Forall_cons in Hf as [Ht Hf]. cbn in Hr, Ht, Hni.
  destruct (Hr n) as [Hrange Hns]; [set_solver|].
  destruct (IH (n :: seen)) as (seen' & Hc & Hs).
  { split_and!; [done| |done]. intros m Hm. destruct (Hr m); [set_solver|]. set_solver. }
  rewrite (proj2 (Z.ltb_ge n 1)), (proj2 (Z.ltb_ge count n)) by lia. rewrite !bool_decide_false by done. cbn.
  rewrite Hc. cbn. exists seen'. split; [done|]. intros m Hm. apply Hs. set_solver.
Qed.

(** Every part once: the numbers are those of the upload in some order. *)
Lemma sound_parts_perm count ps :
  Z.of_nat (length ps) = count → sound_parts count [] ps ↔
  ps.*1 ≡ₚ seqZ 1 count ∧ Forall (λ p, TrimSpace p.2 ≠ EmptyString) ps.
Proof.
  intros Hl. unfold sound_parts. split.
  - intros (Hn & Hr & Hf). split; [|done]. apply submseteq_length_Permutation.
    + apply NoDup_submseteq; [done|]. intros n Hin. apply elem_of_seqZ. destruct (Hr n Hin). lia.
    + rewrite length_fmap, length_seqZ. lia.
  - intros (Hp & Hf). split_and!; [|intros n Hin|done].
    + rewrite Hp. apply NoDup_seqZ.
    + rewrite Hp in Hin. apply elem_of_seqZ in Hin. split; [lia|set_solver].
Qed.

(** What a request to complete an upload must satisfy. *)
Record completable (objects : Objects) (db : ADB) (owner : Z) (i upload : string)
  (parts : list (option (Z * string))) (r : AttachmentRow) (ps : list (Z * string)) : Prop := {
  co_owner : 0 < owner;
  co_id : i ≠ EmptyString;
  co_upload : upload ≠ EmptyString;
  co_row : attachments db !! i = Some r;
  co_owned : t_OwnerID r = owner;
  co_status : t_Status r = StatusPendingUpload;
  co_started : t_UploadID r = upload;
  co_parts : parts = Some <$> ps;
  co_count : Z.of_nat (length ps) = t_PartCount r;
  co_numbers : ps.*1 ≡ₚ seqZ 1 (t_PartCount r);
  co_tags : Forall (λ p, TrimSpace p.2 ≠ EmptyString) ps;
  co_accepted : CompleteMultipart objects (t_ObjectKey r) upload (trimmed ps) = true;
}.

Lemma completable_run objects now owner i upload parts n r ps :
  AInv (adb n) → completable objects (adb n) owner i upload parts r ps →
  ∃ message, CompleteUpload objects now owner i upload parts n
    = (MkANode (set_scan_jobs (<[i := fresh_job i now (scan_jobs (adb n) !! i)]> (scan_jobs (adb n)))
                  (set_attachments (<[i := r |> set_t_Status StatusScanning |> set_t_UpdatedAt now]>
                                      (attachments (adb n))) (adb n))) (log n), Ok message).
Proof.
  intros Hdb [Ho Hi Hu Hr Hro Hst Hup -> Hc Hp Ht Hacc].
  destruct (collect_parts_complete (t_PartCount r) ps []) as (seen & Hcol & Hseen); [by apply sound_parts_perm|].
  assert (forallb (λ k, bool_decide (k ∈ seen)) (seqZ 1 (t_PartCount r)) = true) as Hall.
  { apply forallb_forall. intros k Hk%list_elem_of_In. apply bool_decide_eq_true, Hseen. rewrite app_nil_r, Hp. done. }
  pose proof (ai_rows _ Hdb _ _ Hr) as Hk.
  assert (owned i owner (adb n) = Some r) as Hown by (unfold owned; rewrite Hr; cbn; by rewrite Hro, Z.eqb_refl).
  unfold CompleteUpload. rewrite (proj2 (Z.leb_gt owner 0)), !bool_decide_false by done. cbn [orb].
  unfold mapped, wrap, on_db, GetAttachment. cbv [mbind tx_bind gets id expect]. rewrite Hown. cbn.
  rewrite !bool_decide_true, length_fmap, (proj2 (Z.eqb_eq _ _)) by done. cbn. rewrite Hcol. cbn. rewrite Hall. cbn.
  rewrite Hup, Hacc. cbn. unfold MarkScanning, transaction. cbv [mbind tx_bind gets id expect].
  rewrite Hk, Hown. cbn. rewrite bool_decide_true by done. cbn. rewrite Hk. by eexists.
Qed.

Lemma completed_sound objects now owner i upload parts n n' message :
  CompleteUpload objects now owner i upload parts n = (n', Ok message) →
  ∃ r ps, completable objects (adb n) owner i upload parts r ps.
Proof.
  unfold CompleteUpload, refuse, mapped. intros Hr.
  destruct (_ || _ || _) eqn:E; [by run_inv|].
  apply orb_false_iff in E as [[E1%Z.leb_gt E2]%orb_false_iff E3]. apply bool_decide_eq_false in E2, E3.
  apply bind_run_ok in Hr as (n1 & record & Hg%wrap_ok & Hr).
  unfold on_db, GetAttachment in Hg. cbv [mbind tx_bind gets id expect] in Hg.
  destruct (owned i owner (adb n)) as [r|] eqn:Hown; cbn in Hg; [|done]. injection Hg as <- <-.
  apply owned_Some in Hown as [Hrow Ho]. cbn in Hr.
  destruct (_ || _ || _) eqn:E; [by run_inv|].
  apply orb_false_iff in E as [[E4%negb_false_iff E5%negb_false_iff]%orb_false_iff E6%negb_false_iff%Z.eqb_eq].
  apply bool_decide_eq_true in E4, E5.
  destruct (collect_parts _ _ _) as [[collected seen]|] eqn:Hc; [|by run_inv].
  destruct (negb (forallb _ _)); [by run_inv|]. destruct (negb (CompleteMultipart _ _ _ _)) eqn:Hm; [by run_inv|].
  apply collect_parts_sound in Hc as (ps & -> & -> & Hs). rewrite length_fmap in E6.
  apply sound_parts_perm in Hs as [Hp Ht]; [|done]. exists r, ps. split; try done.
  rewrite <-E5. by apply negb_false_iff.
Qed.

(** C34: Completing an upload succeeds exactly when the caller owns the
    attachment, it waits for this upload, the request names every part of the
    upload once, in any order, each with a tag, and the object store accepts
    them.  Then, and only then, the attachment is being scanned, with a fresh
    job, and nothing else has changed. *)
Theorem upload_completes w objects now owner i upload parts :
  areachable w → let db := adb (node w) in
  match CompleteUpload objects now owner i upload parts (node w) with
  | (n', Ok _) =>
    ∃ r ps, completable objects db owner i upload parts r ps
      ∧ adb n' = set_scan_jobs (<[i := fresh_job i now (scan_jobs db !! i)]> (scan_jobs db))
                   (set_attachments (<[i := r |> set_t_Status StatusScanning |> set_t_UpdatedAt now]>
                                       (attachments db)) db)
  | (n', Err _) => ¬ ∃ r ps, completable objects db owner i upload parts r ps
  end.
Proof.
  intros [Hdb _]%areachable_inv db. destruct (CompleteUpload _ _ _ _ _ _ _) as [n' [message|e]] eqn:Hr.
  - destruct (completed_sound _ _ _ _ _ _ _ _ _ Hr) as (r & ps & Hc). exists r, ps. split; [done|].
    destruct (completable_run objects now owner i upload parts (node w) r ps Hdb Hc) as [m E].
    rewrite E in Hr. by injection Hr as <- <-.
  - intros (r & ps & Hc). destruct (completable_run objects now owner i upload parts (node w) r ps Hdb Hc) as [m E].
    congruence.
Qed.

(** ** What the trash forgets *)

Lemma owned_row db i r : attachments db !! i = Some r → owned i (t_OwnerID r) db = Some r.
Proof. intros Hr. unfold owned. rewrite Hr. cbn. by rewrite Z.eqb_refl. Qed.

Lemma Trash_run now i db r :
  AInv db → attachments db !! i = Some r → ¬ referenced db i → trashable (t_Status r) = true →
  Trash now i (t_OwnerID r) db
  = (set_attachments (<[i := r |> set_t_Status StatusTrashed |> set_t_UpdatedAt now]> (attachments db)) db, Ok tt).
Proof.
  intros Hdb Hr Href Hs. unfold Trash, transaction. cbv [mbind tx_bind gets id expect]. rewrite owned_row by done. cbn.
  assert (exists_where (λ f, rf_AttachmentID f =?= i) (references db) = false) as ->.
  { apply exists_where_false. intros k f Hf. apply bool_decide_eq_false. intros Hfi. apply Href. by exists k, f. }
  cbn. rewrite Hs. cbn. by rewrite (ai_rows _ Hdb _ _ Hr).
Qed.

Lemma Restore_run now i db r :
  AInv db → attachments db !! i = Some r → t_Status r = StatusTrashed →
  RestoreAttachment now i (t_OwnerID r) db
  = (set_attachments (<[i := r |> set_t_Status StatusReady |> set_t_UpdatedAt now]> (attachments db)) db, Ok tt).
Proof.
  intros Hdb Hr Hs. unfold RestoreAttachment. cbv [mbind tx_bind gets id]. rewrite owned_row, Hs by done.
  rewrite bool_decide_true by done. unfold save_attachment, modify. cbn. by rewrite (ai_rows _ Hdb _ _ Hr).
Qed.

(** An attachment that its scan rejected becomes ready again when its
    owner moves it to the trash and back: the restored attachment is offered for
    download, although nothing was scanned since. *)
Theorem rejected_restored w i r owner now now' objects url expires :
  areachable w → attachments (adb (node w)) !! i = Some r → t_OwnerID r = owner → t_Status r = StatusRejected →
  0 < owner → TrimSpace i ≠ EmptyString → i ≠ EmptyString → ¬ referenced (adb (node w)) i →
  PresignDownload objects (t_ObjectKey r) = Some (url, expires) →
  ∃ n1 n2 message, TrashAttachment now owner i (node w) = (n1, Ok tt) ∧ UntrashAttachment now' owner i n1 = (n2, Ok tt)
    ∧ ReadAttachment objects owner i n2 = (n2, Ok message)
    ∧ msg_Status message = StatusReady ∧ msg_Download message = Some (url, expires).
Proof.
  intros [Hdb _]%areachable_inv Hr Ho Hs Hpos Htrim Hne Href Hurl. pose proof (ai_rows _ Hdb _ _ Hr) as Hi.
  pose proof (Trash_run now i (adb (node w)) r Hdb Hr Href) as Ht. rewrite Hs in Ht. specialize (Ht eq_refl).
  pose proof (Trash_inv now i owner (adb (node w)) Hdb) as Hdb1. subst owner. rewrite Ht in Hdb1. cbn [fst] in Hdb1.
  set (r1 := r |> set_t_Status StatusTrashed |> set_t_UpdatedAt now) in *.
  set (db1 := set_attachments (<[i := r1]> (attachments (adb (node w)))) (adb (node w))) in *.
  assert (attachments db1 !! i = Some r1) as Hr1 by apply lookup_insert_eq.
  pose proof (Restore_run now' i db1 r1 Hdb1 Hr1 eq_refl) as Hrun. change (t_OwnerID r1) with (t_OwnerID r) in Hrun.
  set (r2 := r1 |> set_t_Status StatusReady |> set_t_UpdatedAt now') in *.
  set (db2 := set_attachments (<[i := r2]> (attachments db1)) db1) in *.
  assert (attachments db2 !! i = Some r2) as Hr2 by apply lookup_insert_eq.
  exists (MkANode db1 (log (node w))), (MkANode db2 (log (node w))), (toTransport (toDomain r2) (Some (url, expires))).
  unfold TrashAttachment, UntrashAttachment, ReadAttachment.
  rewrite (proj2 (Z.leb_gt (t_OwnerID r) 0)), !bool_decide_false by done. cbn [orb].
  unfold mapped, wrap, on_db. cbn [adb log]. rewrite Ht, Hrun. split_and!; [done..| |done|done].
  unfold GetAttachment. cbv [mbind tx_bind gets id expect]. cbn [adb].
  change (t_OwnerID r) with (t_OwnerID r2). rewrite (owned_row db2 i r2 Hr2). cbn [toDomain at_Status mret tx_ret].
  rewrite bool_decide_true by done. subst r2 r1. cbn. by rewrite Hurl.
Qed.

(** A worker that reports late overrides what happened since: its clean
    result makes an attachment ready that meanwhile was parked and moved to
    the trash. *)
Theorem late_scan_untrashes w i r now sha kind :
  areachable w → i ∈ held w → attachments (adb (node w)) !! i = Some r → t_Status r = StatusTrashed →
  t_SHA256 r = EmptyString →
  let result := MkScanResult true sha (t_SizeBytes r) kind in
  possible w (AReqScanned now i result)
  ∧ ∃ r', attachments (adb (run_arequest (AReqScanned now i result) (node w))) !! i = Some r'
      ∧ t_Status r' = StatusReady.
Proof.
  intros [Hdb _]%areachable_inv Hh Hr Hs Hsha result. split; [done|]. cbn. unfold on_db, CompleteScan, transaction.
  cbv [mbind tx_bind gets id expect]. rewrite Hr. cbn. rewrite (ai_rows _ Hdb _ _ Hr). eexists.
  split; [apply lookup_insert_eq|]. cbn. unfold scan_status. cbn. rewrite Z.eqb_refl, Hsha. done.
Qed.

End claims.

(** ** The claims on the sample *)

Lemma references_refine_witness :
  refs_of (adb (node staged)) "d1" = spec_stage 1 {["a1"]} (refs_of (adb (node ready)) "d1").
Proof.
  destruct (references_refine ready) as (Hst & _); [apply ready_reachable|].
  specialize (Hst 5 (MkCommand "d1" 7 1 ["a1"] (command_hash "d1" 7 1 ["a1"]))). cbv zeta in Hst.
  assert (StagePublicationReferences 5 (MkCommand "d1" 7 1 ["a1"] (command_hash "d1" 7 1 ["a1"]))
            (adb (node ready)) = (adb (node staged), Ok tt)) as E by (vm_compute; reflexivity).
  rewrite E in Hst. destruct Hst as [Hst _]. exact Hst.
Defined.

Lemma scan_pass_accounts_witness :
  ∃ t res r', scanOnce kind_store (λ _, Ok (clean_scan true)) 3 (adb (node waiting)) = (t, res)
    ∧ attachments t = <["a1" := r']> (attachments (adb (node waiting))) ∧ t_Status r' = StatusReady.
Proof.
  pose proof (scan_pass_accounts waiting kind_store (λ _, Ok (clean_scan true)) 3 waiting_reachable) as Hs.
  cbv zeta in Hs.
  assert (is_Some (first_where (job_due 3) job_order (scan_jobs (adb (node waiting))))) as [j E]
    by (vm_compute; by eexists).
  rewrite E in Hs. assert (q_AttachmentID j = "a1") as Hj by (vm_compute in E; by injection E as <-).
  rewrite Hj in Hs. destruct Hs as (r & t & res & r' & Hr & _ & Hrun & Ha & _ & Hm). cbn in Hm.
  destruct Hm as (_ & _ & Hst). exists t, res, r'. split; [exact Hrun|]. split; [exact Ha|].
  rewrite Hst. vm_compute in Hr. by injection Hr as <-.
Defined.


Lemma upload_completes_witness :
  ∃ n' message r ps,
    CompleteUpload kind_store 2 7 "a1" "upload-1" [Some (1, "tag")] (node started) = (n', Ok message)
    ∧ completable kind_store (adb (node started)) 7 "a1" "upload-1" [Some (1, "tag")] r ps.
Proof.
  pose proof (upload_completes started kind_store 2 7 "a1" "upload-1" [Some (1, "tag")]) as Hu.
  destruct (CompleteUpload _ _ _ _ _ _ _) as [n' [message|e]] eqn:E; [|by vm_compute in E].
  destruct Hu as (r & ps & Hc & _); [apply areach_request; [apply rtc_refl|by vm_compute]|].
  exists n', message, r, ps. split; [reflexivity|exact Hc].
Defined.

Lemma rejected_restored_witness :
  ∃ n1 n2 message, TrashAttachment 5 7 "a1" (node infected) = (n1, Ok tt)
    ∧ UntrashAttachment 6 7 "a1" n1 = (n2, Ok tt)
    ∧ ReadAttachment kind_store 7 "a1" n2 = (n2, Ok message) ∧ msg_Status message = StatusReady.
Proof.
  assert (is_Some (attachments (adb (node infected)) !! "a1")) as [r Hr] by (vm_compute; by eexists).
  destruct (rejected_restored infected "a1" r 7 5 6 kind_store "https://get" 0)
    as (n1 & n2 & message & H1 & H2 & H3 & H4 & _); [apply infected_reachable|exact Hr|..| |reflexivity|].
  1-2: vm_compute in Hr; by injection Hr as <-.
  1-3: by vm_compute.
  - intros (k & f & Hf & _). assert (references (adb (node infected)) = ∅) as E by by vm_compute.
    rewrite E, lookup_empty in Hf. discriminate Hf.
  - exists n1, n2, message. split_and!; [exact H1|exact H2|exact H3|exact H4].
Defined.

Lemma late_scan_untrashes_witness :
  ∃ r', attachments (adb (run_arequest (AReqScanned (9 * Hour) "a1" (clean_scan true)) (node trashed))) !! "a1" = Some r'
    ∧ t_Status r' = StatusReady.
Proof.
  assert (is_Some (attachments (adb (node trashed)) !! "a1")) as [r Hr] by (vm_compute; by eexists).
  assert (t_Status r = StatusTrashed ∧ t_SHA256 r = EmptyString) as [Hs Hsha]
    by (vm_compute in Hr; by injection Hr as <-).
  destruct (late_scan_untrashes trashed "a1" r (9 * Hour) "ab12" "text/plain" trashed_reachable trashed_held
    Hr Hs Hsha) as [_ Hx].
  replace (clean_scan true) with (MkScanResult true "ab12" (t_SizeBytes r) "text/plain"); [exact Hx|].
  vm_compute in Hr. by injection Hr as <-.
Defined.
