(* ===== verification/GoText.v ===== *)
(** Texts and numbers: how [strings.TrimSpace] acts on the runes of a text,
    which texts are well formed UTF-8, and the decimal integers of package
    strconv. *)

From Stdlib Require Import ZArith Lia Ascii DecimalFacts DecimalN DecimalString DecimalZ.
From stdpp Require Import base list sets strings.
From S2P Require Import Prelude.
From S2P Require Import GoStrings.
From S2P Require Import Base64.

Open Scope Z_scope.

(** ** Runes and trimming *)

Lemma chunks_elem b bs : b ∈ bs → b < 128 → (b, [b]) ∈ chunks bs.
Proof.
  assert (∀ n bs, (length bs <= n)%nat → b ∈ bs → b < 128 → (b, [b]) ∈ chunks bs) as Hn.
  { induction n as [|n IH]; intros [|b0 t0] Hlen Hin Hb; cbn [length] in Hlen; [set_solver|lia|set_solver|].
    apply elem_of_cons in Hin as [<-|Hin].
    - cbn [chunks]. rewrite (proj2 (Z.ltb_lt b 128)) by done. left.
    - cbn [chunks]. unfold second3, second4, cont, in_range.
      repeat case_match; simplify_eq; cbn [length] in *;
        repeat match goal with H : _ ∈ _ :: _ |- _ => apply elem_of_cons in H as [H|H]; [exfalso; lia|] end;
        right; apply IH; done || (cbn [length]; lia). }
  apply (Hn (length bs)). lia.
Qed.

Lemma drop_while_elem {A} (P : A → bool) l x : x ∈ l → P x = false → x ∈ drop_while P l.
Proof.
  induction l as [|y l IH]; [done|]. intros Hin Hp. cbn. destruct (P y) eqn:Hy; [|done].
  apply IH; [|done]. apply elem_of_cons in Hin as [->|]; [congruence|done].
Qed.

Lemma elem_of_rev {A} (l : list A) x : x ∈ rev l ↔ x ∈ l.
Proof. rewrite !list_elem_of_In. symmetry. apply in_rev. Qed.

Lemma trim_both_elem {A} (P : A → bool) l x : x ∈ l → P x = false → x ∈ trim_both P l.
Proof. intros Hx Hp. unfold trim_both. apply elem_of_rev, drop_while_elem; [apply elem_of_rev, drop_while_elem|]; done. Qed.

Lemma drop_while_sub {A} (P : A → bool) l x : x ∈ drop_while P l → x ∈ l.
Proof. induction l as [|y l IH]; [done|]. cbn. destruct (P y); [right; auto|done]. Qed.

Lemma trim_both_sub {A} (P : A → bool) l x : x ∈ trim_both P l → x ∈ l.
Proof. unfold trim_both. rewrite elem_of_rev. intros Hx%drop_while_sub. by apply elem_of_rev, drop_while_sub in Hx. Qed.

Lemma chunks_bytes bs c : c ∈ chunks bs → ∀ b, b ∈ c.2 → b ∈ bs.
Proof.
  assert (∀ n bs c, (length bs <= n)%nat → c ∈ chunks bs → ∀ b, b ∈ c.2 → b ∈ bs) as Hn.
  { clear bs c. induction n as [|n IH]; intros [|b0 t0] c Hlen Hin b Hb; cbn [length] in Hlen; [set_solver|lia|set_solver|].
    cbn [chunks] in Hin. repeat case_match; simplify_eq; cbn [length] in *;
      (apply elem_of_cons in Hin as [->|Hin]; [cbn in Hb; set_solver|]);
      match type of Hin with _ ∈ chunks ?t =>
        assert (b ∈ t) by (apply (IH t c); [cbn [length]; lia|done|done]) end; set_solver. }
  apply (Hn (length bs)). lia.
Qed.

Lemma trimmed_bytes P s : Forall is_byte (concat (trim_both P (chunks (bytes s))).*2).
Proof.
  apply Forall_concat, Forall_forall. intros l (c & -> & Hc%trim_both_sub)%list_elem_of_fmap.
  apply Forall_forall. intros x Hx. pose proof (bytes_range s) as Hs. rewrite Forall_forall in Hs.
  by apply Hs, (chunks_bytes _ c).
Qed.

Lemma TrimSpace_elem b s : b ∈ bytes s → in_range 33 126 b = true → b ∈ bytes (TrimSpace s).
Proof.
  intros Hb Hr. unfold TrimSpace. rewrite bytes_of_bytes.
  - apply list_elem_of_In, in_concat. exists [b]. split; [|by left]. apply list_elem_of_In, list_elem_of_fmap.
    exists (b, [b]). split; [done|].
    apply trim_both_elem; [apply chunks_elem; [done|]|]; unfold_ranges; cbn [fst]; lia.
  - apply trimmed_bytes.
Qed.

Lemma chunks_concat bs : concat (chunks bs).*2 = bs.
Proof.
  assert (∀ n bs, (length bs <= n)%nat → concat (chunks bs).*2 = bs) as Hn.
  { clear bs. induction n as [|n IH]; intros [|b0 t0] Hlen; cbn [length] in Hlen; [done|lia|done|].
    cbn [chunks]. repeat case_match; simplify_eq; cbn [fmap list_fmap concat snd app length] in *; rewrite IH;
      done || (cbn [length]; lia). }
  by apply (Hn (length bs)).
Qed.

(** The first rune takes [k] more bytes, whatever follows them. *)
Lemma chunks_head b0 t0 :
  ∃ r k, chunks (b0 :: t0) = (r, b0 :: take k t0) :: chunks (drop k t0)
    ∧ ∀ u, u `prefix_of` t0 → take k t0 `prefix_of` u → chunks (b0 :: u) = (r, b0 :: take k t0) :: chunks (drop k u).
Proof.
  cbn [chunks]. repeat case_match; simplify_eq;
    first [exists rune_error, 0%nat; split; [done|]|eexists _, 0%nat; split; [done|]|eexists _, 1%nat; split; [done|]
          |eexists _, 2%nat; split; [done|]|eexists _, 3%nat; split; [done|]];
    intros u [? Hu] [? Hv]; cbn [take drop app] in *; simplify_eq;
    repeat case_match; simplify_eq; try done; cbn [app] in *; simplify_eq; congruence.
Qed.

Lemma chunks_prefix cs1 cs2 bs : chunks bs = cs1 ++ cs2 → chunks (concat cs1.*2) = cs1.
Proof.
  revert cs2 bs. induction cs1 as [|c cs1 IH]; intros cs2 [|b0 t0]; try done.
  destruct (chunks_head b0 t0) as (r & k & -> & Hu). cbn [app]. intros [= <- Hc]. cbn [fmap list_fmap concat snd app].
  assert (drop k t0 = concat cs1.*2 ++ concat cs2.*2) as Hd.
  { rewrite <-concat_app, <-fmap_app, <-Hc. symmetry. apply chunks_concat. }
  rewrite (Hu (take k t0 ++ concat cs1.*2)).
  - f_equal. destruct (decide (length t0 <= k)%nat) as [Hk|Hk].
    + rewrite drop_ge in Hd by lia. symmetry in Hd. apply app_eq_nil in Hd as [Hd _]. rewrite Hd, app_nil_r, drop_ge; [|rewrite length_take; lia].
      specialize (IH _ _ Hc). by rewrite Hd in IH.
    + rewrite drop_app_length'; [by eapply IH|]. rewrite length_take. lia.
  - exists (concat cs2.*2). by rewrite <-(take_drop k t0) at 1; rewrite Hd, app_assoc.
  - by eexists.
Qed.

Lemma chunks_suffix cs1 cs2 bs : chunks bs = cs1 ++ cs2 → chunks (concat cs2.*2) = cs2.
Proof.
  revert bs. induction cs1 as [|c cs1 IH]; intros bs Hc; [cbn in Hc; subst; f_equal; apply chunks_concat|].
  destruct bs as [|b0 t0]; [done|]. destruct (chunks_head b0 t0) as (r & k & E & _). rewrite E in Hc.
  injection Hc as _ Hc. by eapply IH.
Qed.

Lemma drop_while_suffix {A} (P : A → bool) l : ∃ k, l = k ++ drop_while P l.
Proof. induction l as [|x l [k IH]]; [by exists []|]. cbn. destruct (P x); [exists (x :: k); cbn; by f_equal|by exists []]. Qed.

Lemma drop_while_idem {A} (P : A → bool) l : drop_while P (drop_while P l) = drop_while P l.
Proof. induction l as [|x l IH]; [done|]. cbn. destruct (P x) eqn:E; [done|]. cbn. by rewrite E. Qed.

Lemma drop_while_app_head {A} (P : A → bool) l k :
  drop_while P (l ++ k) = l ++ k → drop_while P l = l.
Proof. destruct l as [|x l]; [done|]. cbn. destruct (P x); [|done]. intros E. apply (f_equal length) in E.
  destruct (drop_while_suffix P (l ++ k)) as [j Hj]. rewrite Hj in E at 2. rewrite length_cons, length_app in E. lia. Qed.

Lemma trim_both_idem {A} (P : A → bool) l : trim_both P (trim_both P l) = trim_both P l.
Proof.
  unfold trim_both. set (m := drop_while P l). destruct (drop_while_suffix P (rev m)) as [k Hk].
  assert (m = rev (drop_while P (rev m)) ++ rev k) as Hm by (rewrite <-rev_app_distr, <-Hk; symmetry; apply rev_involutive).
  rewrite (drop_while_app_head P (rev (drop_while P (rev m))) (rev k)).
  - by rewrite rev_involutive, drop_while_idem.
  - rewrite <-Hm. apply drop_while_idem.
Qed.

Lemma chunks_TrimSpace s :
  chunks (bytes (TrimSpace s)) = trim_both (λ c, is_space c.1) (chunks (bytes s)).
Proof.
  unfold TrimSpace. set (cs := chunks (bytes s)). set (P := λ c : Z * list Z, is_space c.1).
  rewrite bytes_of_bytes by apply trimmed_bytes. unfold trim_both.
  destruct (drop_while_suffix P cs) as [j Hj]. set (m := drop_while P cs) in *.
  destruct (drop_while_suffix P (rev m)) as [k Hk].
  assert (m = rev (drop_while P (rev m)) ++ rev k) as Hm by (rewrite <-rev_app_distr, <-Hk; symmetry; apply rev_involutive).
  apply (chunks_prefix _ (rev k) (concat m.*2)). rewrite <-Hm. by eapply chunks_suffix.
Qed.

Lemma TrimSpace_idem s : TrimSpace (TrimSpace s) = TrimSpace s.
Proof. unfold TrimSpace at 1. by rewrite chunks_TrimSpace, trim_both_idem. Qed.

(** ** UTF-8 *)

(** [utf8.ValidString]: every rune is read from its own encoding. *)
Definition utf8 (s : string) : bool := forallb (λ c, bool_decide (c.2 = encode_rune c.1)) (chunks (bytes s)).

Lemma utf8_TrimSpace s : utf8 s = true → utf8 (TrimSpace s) = true.
Proof.
  unfold utf8. rewrite chunks_TrimSpace, !forallb_forall. intros Hs c Hc.
  apply Hs, list_elem_of_In. eapply trim_both_sub. by apply list_elem_of_In.
Qed.

Lemma utf8_ascii s : Forall (λ b, b < 128) (bytes s) → utf8 s = true.
Proof.
  intros Ha. unfold utf8. rewrite chunks_ascii.
  - apply forallb_forall. intros c (b & -> & Hb)%list_elem_of_In%list_elem_of_fmap. cbn [fst snd].
    pose proof (bytes_range s) as Hr. rewrite Forall_forall in Ha, Hr. specialize (Ha b Hb). specialize (Hr b Hb).
    unfold is_byte in Hr. apply bool_decide_eq_true. unfold encode_rune, valid_rune, in_range.
    rewrite !(proj2 (Z.leb_le _ _)) by lia. cbn [andb orb]. by rewrite (proj2 (Z.ltb_lt _ _)) by lia.
  - apply forallb_forall. intros b Hb%list_elem_of_In. rewrite Forall_forall in Ha. apply Z.ltb_lt. auto.
Qed.

Lemma utf8_StdEncode p : utf8 (StdEncode p) = true.
Proof.
  apply utf8_ascii. pose proof (StdEncode_visible p) as Hv. unfold StdEncode.
  rewrite bytes_of_bytes by (eapply Forall_impl; [exact Hv|]; unfold is_byte; cbn; lia).
  eapply Forall_impl; [exact Hv|]. cbn. lia.
Qed.

(** Decimal integers: what the gateway and the token package use of [strconv],
    [FormatInt] and [ParseInt] in base ten, and the pattern of a positive
    decimal.  [ParseInt] reads back what [FormatInt] writes, and on positive
    decimals the two are inverse. *)

(** [strconv.FormatInt(n, 10)] *)
Definition FormatInt (n : Z) : string := NilZero.string_of_int (Z.to_int n).

(** [strconv.ParseInt(s, 10, bits)]: [None] is a syntax or a range error. *)
Definition ParseInt (s : string) (bits : Z) : option Z :=
  match s with
  | EmptyString => None
  | String c rest =>
    let signed := (byte_of_ascii c =? 43) || (byte_of_ascii c =? 45) in
    d ← NilZero.uint_of_string (if signed then rest else s);
    let un := Z.of_uint d in
    if byte_of_ascii c =? 45
    then (if un <=? 2 ^ (bits - 1) then Some (- un) else None)
    else (if un <? 2 ^ (bits - 1) then Some un else None)
  end.

Definition digit (b : Z) : bool := in_range 48 57 b.

(** [^[1-9][0-9]*$] *)
Definition positiveDecimalPattern (s : string) : bool :=
  match bytes s with
  | b :: bs => in_range 49 57 b && forallb digit bs
  | [] => false
  end.

(** ** Digits *)

Lemma bytes_String c s : bytes (String c s) = byte_of_ascii c :: bytes s.
Proof. reflexivity. Qed.

Lemma uint_digits d : forallb digit (bytes (NilEmpty.string_of_uint d)) = true.
Proof. by induction d. Qed.

Lemma digits_uint s :
  forallb digit (bytes s) = true → ∃ d, NilEmpty.uint_of_string s = Some d.
Proof.
  induction s as [|c s IH]; [by eexists|]. rewrite bytes_String. simpl.
  intros [Hc [d ->]%IH]%andb_true_iff.
  assert (is_Some (uint_of_char c (Some d))) as [d' ?]; [|by exists d'].
  destruct c as [[] [] [] [] [] [] [] []]; vm_compute in Hc; try discriminate; by eexists.
Qed.

(** A numeral whose first digit is not zero. *)
Definition leads (d : Decimal.uint) : Prop :=
  match d with Decimal.Nil | Decimal.D0 _ => False | _ => True end.

Lemma leads_unorm d : leads d → Decimal.unorm d = d.
Proof. by destruct d. Qed.

Lemma unorm_leads d : Decimal.unorm d = d → d ≠ Decimal.zero → leads d.
Proof.
  intros E Hz. unfold Decimal.unorm in E. destruct (Decimal.nzhead d) eqn:N; try by destruct d.
  by apply nzhead_nonzero in N.
Qed.

Lemma to_uint_leads p : leads (N.to_uint (N.pos p)).
Proof.
  apply unorm_leads.
  - by rewrite <-Unsigned.to_of, Unsigned.of_to.
  - intros E. apply (f_equal N.of_uint) in E. by rewrite Unsigned.of_to in E.
Qed.

Lemma leads_string d :
  leads d → positiveDecimalPattern (NilEmpty.string_of_uint d) = true.
Proof.
  intros Hd. unfold positiveDecimalPattern.
  destruct d; try done; exact (uint_digits d).
Qed.

Lemma leads_NilZero d : leads d → NilZero.string_of_uint d = NilEmpty.string_of_uint d.
Proof. by destruct d. Qed.

Lemma FormatInt_pos p : FormatInt (Z.pos p) = NilEmpty.string_of_uint (N.to_uint (N.pos p)).
Proof. unfold FormatInt. simpl. apply leads_NilZero, (to_uint_leads p). Qed.

Lemma FormatInt_positive n : 0 < n → positiveDecimalPattern (FormatInt n) = true.
Proof.
  destruct n as [|p|p]; try lia. intros _. rewrite FormatInt_pos. apply leads_string, to_uint_leads.
Qed.

(** ** Reading back *)

Lemma pattern_head s :
  positiveDecimalPattern s = true → ∃ c rest, s = String c rest ∧ 49 <= byte_of_ascii c <= 57.
Proof.
  unfold positiveDecimalPattern. destruct s as [|c rest]; [done|]. rewrite bytes_String.
  intros [Hc _]%andb_true_iff. unfold in_range in Hc. exists c, rest. split; [done|]. lia.
Qed.

Lemma pattern_uint s :
  positiveDecimalPattern s = true → ∃ d, NilZero.uint_of_string s = Some d ∧ leads d.
Proof.
  intros Hs. destruct (pattern_head s Hs) as (c & rest & -> & Hc).
  unfold positiveDecimalPattern in Hs. rewrite bytes_String in Hs.
  apply andb_true_iff in Hs as [Hb Hr]. apply digits_uint in Hr as [d Hd].
  assert (∃ d', uint_of_char c (Some d) = Some d' ∧ leads d') as (d' & E & L).
  { clear -Hb. destruct c as [[] [] [] [] [] [] [] []]; vm_compute in Hb; try discriminate; by eexists. }
  exists d'. simpl. by rewrite Hd.
Qed.

Lemma ParseInt_positive s bits :
  positiveDecimalPattern s = true →
  ∃ n, 0 < n ∧ FormatInt n = s ∧ ParseInt s bits = (if n <? 2 ^ (bits - 1) then Some n else None).
Proof.
  intros Hs. destruct (pattern_uint s Hs) as (d & Hd & Hl).
  destruct (pattern_head s Hs) as (c & rest & -> & Hc).
  exists (Z.of_uint d). assert (N.to_uint (N.of_uint d) = d) as Hto.
  { by rewrite Unsigned.to_of, leads_unorm. }
  assert (∃ p, N.of_uint d = N.pos p) as [p Hp].
  { destruct (N.of_uint d) as [|p] eqn:E; [|by exists p]. rewrite <-Hto in Hl. by vm_compute in Hl. }
  assert (Z.of_uint d = Z.pos p) as Hz.
  { unfold Z.of_uint. unfold N.of_uint in Hp. by rewrite Hp. }
  split; [lia|]. split.
  - rewrite Hz, FormatInt_pos, <-Hp, Hto, <-leads_NilZero by done. by apply NilZero.sus.
  - unfold ParseInt. rewrite (proj2 (Z.eqb_neq _ 43)), (proj2 (Z.eqb_neq _ 45)) by lia.
    simpl orb. cbv iota. by rewrite Hd.
Qed.

Lemma ParseInt_FormatInt n bits :
  0 < n < 2 ^ (bits - 1) → ParseInt (FormatInt n) bits = Some n.
Proof.
  intros Hn. destruct (ParseInt_positive (FormatInt n) bits) as (m & Hm & E & ->).
  { apply FormatInt_positive. lia. }
  assert (m = n) as ->; [|by rewrite (proj2 (Z.ltb_lt _ _)) by lia].
  destruct m as [|p|p], n as [|q|q]; try lia. rewrite !FormatInt_pos in E.
  apply (f_equal NilEmpty.uint_of_string) in E. rewrite !NilEmpty.usu in E.
  assert (N.pos p = N.pos q); [|congruence]. apply Unsigned.to_uint_inj. congruence.
Qed.

Lemma positive_visible s :
  positiveDecimalPattern s = true → forallb (in_range 33 126) (bytes s) = true.
Proof.
  unfold positiveDecimalPattern. destruct (bytes s) as [|b bs]; [done|]. simpl.
  intros [Hb Hbs]%andb_true_iff. apply andb_true_iff. split; [unfold in_range in *; lia|].
  rewrite forallb_forall in *. intros x Hx. specialize (Hbs x Hx). unfold digit, in_range in *. lia.
Qed.

(** Distinct positive integers are written differently. *)
Lemma FormatInt_inj n m : 0 < n → 0 < m → FormatInt n = FormatInt m → n = m.
Proof.
  intros Hn Hm E.
  assert (0 < n < 2 ^ ((n + m + 1) - 1) ∧ 0 < m < 2 ^ ((n + m + 1) - 1)) as [H1 H2].
  { replace (n + m + 1 - 1) with (n + m) by lia.
    pose proof (Z.pow_gt_lin_r 2 (n + m) ltac:(lia) ltac:(lia)). lia. }
  apply ParseInt_FormatInt in H1, H2. rewrite E in H1. congruence.
Qed.
