(* ===== verification/Envelope.v ===== *)
(** Encrypted configuration documents: [pkg/configcenter/envelope.go].

    A document is sealed under a fresh data key, which is sealed under the
    configured key; the additional data bind the payload to where it is stored.
    AES-GCM and the text form of an envelope are parameters. *)

From stdpp Require Import base list sets strings.
From Stdlib Require Import ZArith Lia.
From S2P Require Import Prelude.
From S2P Require Import GoStrings.
From S2P Require Import Base64.
From S2P Require Import GoText.
From S2P Require Import Json.

Open Scope Z_scope.

Definition envelopeSchema := "knowledge-core.io/config-envelope/v1".
Definition keySize : Z := 32.
Definition maximumContent : Z := 2 ^ 20.

Record Binding := MkBinding { b_Namespace : string; b_Group : string; b_DataID : string }.

Record encryptedValue := MkEncrypted { ev_Nonce : string; ev_Ciphertext : string }.

Record Envelope := MkEnvelope {
  ev_Schema : string;
  ev_KeyID : string;
  ev_WrappedKey : encryptedValue;
  ev_Payload : encryptedValue;
}.

(** [cipher.NewGCM(aes.NewCipher(key))]: sealing and opening under a key, a nonce
    and additional data. *)
Class Gcm := {
  aes_seal : string → string → string → string → string;
  aes_open : string → string → string → string → option string;
}.

Definition nonceSize : Z := 12.
Definition overhead : Z := 16.

(** The package documents that [Open] undoes [Seal] when the nonce and the
    additional data match the values passed to [Seal] and fails otherwise, and
    that a sealed text holds at least the overhead. *)
Class GcmLaws `{Gcm} : Prop := {
  aes_open_seal : ∀ k n p a, aes_open k n (aes_seal k n p a) a = Some p;
  aes_open_match : ∀ k n p a n' a' q, aes_open k n' (aes_seal k n p a) a' = Some q → n' = n ∧ a' = a;
  aes_seal_len : ∀ k n p a, overhead <= len (aes_seal k n p a);
}.

(** [json.NewDecoder] with [DisallowUnknownFields] and no trailing content, into
    an [Envelope]. *)
Class EnvelopeCodec := { decode_envelope : string → option Envelope }.

Section envelope.
Context `{Gcm, Codec, EnvelopeCodec}.

(** [Binding.Validate]: each part is given and holds no line break or bar; which
    part is reported first is left to the order of a Go map. *)
Definition valid_part (value : string) : bool :=
  let value := TrimSpace value in
  negb (value =?= EmptyString) && negb (ContainsAny value [13; 10; 124]).

Definition ValidateBinding (b : Binding) : bool :=
  valid_part (b_Namespace b) && valid_part (b_Group b) && valid_part (b_DataID b).

Definition validateCryptoInputs (plaintext key keyID : string) (binding : Binding) : bool :=
  negb (len plaintext =? 0) && (len plaintext <=? maximumContent) && (len key =? keySize)
  && negb (TrimSpace keyID =?= EmptyString) && negb (ContainsAny keyID [13; 10; 124]) && ValidateBinding binding.

(** [aes.NewCipher] takes keys of 16, 24 or 32 bytes. *)
Definition newGCM (key : string) : bool := bool_decide (len key ∈ [16; 24; 32]).

Definition seal (nonce key plaintext additionalData : string) : option encryptedValue :=
  if newGCM key
  then Some (MkEncrypted (StdEncode nonce) (StdEncode (aes_seal key nonce plaintext additionalData)))
  else None.

Definition open (key : string) (value : encryptedValue) (additionalData : string) : option string :=
  if negb (newGCM key) then None
  else
    nonce ← StdDecode (ev_Nonce value);
    if negb (len nonce =? nonceSize) then None
    else
      ciphertext ← StdDecode (ev_Ciphertext value);
      if len ciphertext <? overhead then None
      else aes_open key nonce ciphertext additionalData.

Definition wrapAAD (keyID : string) : string := envelopeSchema +:+ "|keywrap|" +:+ keyID.

Definition payloadAAD (keyID : string) (b : Binding) : string :=
  envelopeSchema +:+ "|" +:+ "payload" +:+ "|" +:+ keyID +:+ "|" +:+ b_Namespace b
    +:+ "|" +:+ b_Group b +:+ "|" +:+ b_DataID b.

Definition encrypted_json (v : encryptedValue) : json :=
  JObj [("nonce", JStr (ev_Nonce v)); ("ciphertext", JStr (ev_Ciphertext v))].

Definition envelope_json (e : Envelope) : json :=
  JObj [("schema", JStr (ev_Schema e)); ("key_id", JStr (ev_KeyID e));
        ("wrapped_key", encrypted_json (ev_WrappedKey e)); ("payload", encrypted_json (ev_Payload e))].

(** [dek], [wrapNonce] and [payloadNonce] are the random bytes drawn. *)
Definition Encrypt (dek wrapNonce payloadNonce : string) (plaintext key keyID : string) (binding : Binding)
  : option string :=
  if negb (validateCryptoInputs plaintext key keyID binding) then None
  else
    wrapped ← seal wrapNonce key dek (wrapAAD keyID);
    payload ← seal payloadNonce dek plaintext (payloadAAD keyID binding);
    Some (std_encode (envelope_json (MkEnvelope envelopeSchema keyID wrapped payload)) +:+ of_bytes [10]).

Definition Decrypt (encoded key expectedKeyID : string) (binding : Binding) : option string :=
  if (len encoded =? 0) || (maximumContent * 2 <? len encoded) then None
  else if negb (len key =? keySize) then None
  else if negb (ValidateBinding binding) then None
  else
    envelope ← decode_envelope encoded;
    if negb (ev_Schema envelope =?= envelopeSchema) then None
    else if (ev_KeyID envelope =?= EmptyString) || negb (ev_KeyID envelope =?= expectedKeyID) then None
    else
      dek ← open key (ev_WrappedKey envelope) (wrapAAD (ev_KeyID envelope));
      if negb (len dek =? keySize) then None
      else
        plaintext ← open dek (ev_Payload envelope) (payloadAAD (ev_KeyID envelope) binding);
        if (len plaintext =? 0) || (maximumContent <? len plaintext) then None else Some plaintext.

Definition encrypted_utf8 (v : encryptedValue) : bool := utf8 (ev_Nonce v) && utf8 (ev_Ciphertext v).

Definition envelope_utf8 (e : Envelope) : bool :=
  utf8 (ev_Schema e) && utf8 (ev_KeyID e) && encrypted_utf8 (ev_WrappedKey e) && encrypted_utf8 (ev_Payload e).

(** The texts an envelope may be read back from: whatever decodes to the same
    fields, such as the text itself or its jsonb rendering.  The encoder keeps
    text that is UTF-8. *)
Class EnvelopeText (render : string → option string) : Prop := {
  decode_rendered : ∀ e text, envelope_utf8 e = true →
    render (std_encode (envelope_json e) +:+ of_bytes [10]) = Some text →
    decode_envelope text = Some e ∧ text ≠ EmptyString;
}.

Context `{!GcmLaws}.

Lemma open_seal nonce key p a v :
  len nonce = nonceSize → seal nonce key p a = Some v → open key v a = Some p.
Proof.
  intros Hn. unfold seal, open. destruct (newGCM key); [|done]. intros [= <-]. cbn [negb ev_Nonce ev_Ciphertext].
  rewrite !StdDecode_StdEncode. cbn [mbind option_bind]. rewrite Hn, Z.eqb_refl. cbn [negb].
  pose proof (aes_seal_len key nonce p a). rewrite (proj2 (Z.ltb_ge _ _)) by lia. apply aes_open_seal.
Qed.

Lemma open_match nonce key p a v a' q :
  seal nonce key p a = Some v → open key v a' = Some q → a' = a ∧ q = p.
Proof.
  unfold seal, open. destruct (newGCM key); [|done]. intros [= <-]. cbn [negb ev_Nonce ev_Ciphertext].
  rewrite !StdDecode_StdEncode. cbn [mbind option_bind]. destruct (negb _); [done|]. destruct (_ <? _); [done|].
  intros Ho. destruct (aes_open_match _ _ _ _ _ _ _ Ho) as [_ ->]. rewrite aes_open_seal in Ho. naive_solver.
Qed.

(** ** The additional data name the binding *)

(** A text before its first bar is determined by the whole. *)
Lemma bar_split (x y u v : list Z) :
  124 ∉ x → 124 ∉ y → x ++ 124 :: u = y ++ 124 :: v → x = y ∧ u = v.
Proof.
  revert y. induction x as [|a x IH]; intros [|b y] Hx Hy; cbn; [naive_solver|set_solver..|].
  intros [= -> Hxy]. destruct (IH y) as [-> ->]; set_solver.
Qed.

Lemma ContainsAny_bar s : ContainsAny s [13; 10; 124] = false → 124 ∉ bytes s.
Proof.
  unfold ContainsAny. intros Hc Hin. apply not_true_iff_false in Hc. apply Hc, existsb_exists.
  exists 124. split; [by apply list_elem_of_In|done].
Qed.

Lemma valid_part_bar s : valid_part s = true → 124 ∉ bytes s.
Proof.
  unfold valid_part. intros [_ Hc%negb_true_iff]%andb_true_iff Hin.
  apply (ContainsAny_bar _ Hc). by apply TrimSpace_elem.
Qed.

Lemma payloadAAD_inj k b b' :
  ValidateBinding b = true → ValidateBinding b' = true → payloadAAD k b = payloadAAD k b' → b = b'.
Proof.
  unfold ValidateBinding. rewrite !andb_true_iff. intros [[Hn Hg] Hd] [[Hn' Hg'] Hd'] Ha.
  apply valid_part_bar in Hn, Hg, Hn', Hg'. destruct b as [n g d], b' as [n' g' d']. unfold payloadAAD in Ha.
  cbn [b_Namespace b_Group b_DataID] in *. apply (f_equal bytes) in Ha. rewrite !bytes_app in Ha.
  change (bytes "|") with [124] in Ha. do 6 apply (inj (app _)) in Ha.
  apply bar_split in Ha as [->%bytes_inj Ha]; [|done..].
  by apply bar_split in Ha as [->%bytes_inj ->%bytes_inj].
Qed.

Lemma seal_utf8 nonce key p a v : seal nonce key p a = Some v → encrypted_utf8 v = true.
Proof.
  unfold seal. destruct (newGCM key); [|done]. intros [= <-]. unfold encrypted_utf8. cbn [ev_Nonce ev_Ciphertext].
  by rewrite !utf8_StdEncode.
Qed.

(** ** Envelopes *)

Lemma Encrypt_run dek wn pn plaintext key keyID binding :
  validateCryptoInputs plaintext key keyID binding = true → len dek = keySize →
  ∃ wrapped payload, seal wn key dek (wrapAAD keyID) = Some wrapped
    ∧ seal pn dek plaintext (payloadAAD keyID binding) = Some payload
    ∧ Encrypt dek wn pn plaintext key keyID binding
      = Some (std_encode (envelope_json (MkEnvelope envelopeSchema keyID wrapped payload)) +:+ of_bytes [10]).
Proof.
  intros Hv Hd. unfold Encrypt. rewrite Hv. cbn [negb].
  assert (len key = keySize) as Hk by (unfold validateCryptoInputs in Hv; rewrite !andb_true_iff in Hv; lia).
  unfold seal, newGCM. rewrite Hk, Hd, !bool_decide_true by set_solver. by do 2 eexists.
Qed.

Lemma sealed_utf8 wn key dek pn plaintext keyID binding w v :
  seal wn key dek (wrapAAD keyID) = Some w → seal pn dek plaintext (payloadAAD keyID binding) = Some v →
  utf8 keyID = true → envelope_utf8 (MkEnvelope envelopeSchema keyID w v) = true.
Proof.
  intros Hw Hp Hu. unfold envelope_utf8. cbn [ev_Schema ev_KeyID ev_WrappedKey ev_Payload].
  rewrite Hu, (seal_utf8 _ _ _ _ _ Hw), (seal_utf8 _ _ _ _ _ Hp). by vm_compute.
Qed.

Lemma envelope_opens render `{!EnvelopeText render} dek wn pn plaintext key keyID binding :
  validateCryptoInputs plaintext key keyID binding = true → utf8 keyID = true → len dek = keySize →
  len wn = nonceSize → len pn = nonceSize →
  ∃ encoded, Encrypt dek wn pn plaintext key keyID binding = Some encoded
    ∧ ∀ text, render encoded = Some text → len text <= maximumContent * 2 →
        Decrypt text key keyID binding = Some plaintext
        ∧ ∀ keyID' binding' q, Decrypt text key keyID' binding' = Some q →
            keyID' = keyID ∧ binding' = binding ∧ q = plaintext.
Proof.
  intros Hv Hu Hd Hwn Hpn. destruct (Encrypt_run dek wn pn plaintext key keyID binding Hv Hd) as (w & v & Hw & Hp & He).
  eexists. split; [exact He|]. intros text Ht Hlen.
  destruct (decode_rendered _ _ (sealed_utf8 _ _ _ _ _ _ _ _ _ Hw Hp Hu) Ht) as [Hdec Hne].
  unfold validateCryptoInputs in Hv. rewrite !andb_true_iff in Hv.
  destruct Hv as (((((Hp0 & Hp1) & Hk) & Hid) & Hbar) & Hb). apply negb_true_iff in Hp0, Hid, Hbar.
  assert (keyID ≠ EmptyString) as Hkid by (intros ->; by vm_compute in Hid).
  assert (len text =? 0 = false) as Ht0.
  { apply Z.eqb_neq. intros Hz. apply Hne. rewrite <-(of_bytes_bytes text). unfold len in Hz.
    by destruct (bytes text). }
  assert (∀ keyID' b, Decrypt text key keyID' b = if negb (ValidateBinding b) then None
      else if negb (keyID =?= keyID') then None
      else plaintext ← open dek v (payloadAAD keyID b);
           if (len plaintext =? 0) || (maximumContent <? len plaintext) then None else Some plaintext) as Hrun.
  { intros keyID' b. unfold Decrypt. rewrite Ht0, Hk, (proj2 (Z.ltb_ge _ _)) by done. cbn [orb negb].
    destruct (negb (ValidateBinding b)); [done|]. rewrite Hdec. cbn [mbind option_bind ev_Schema ev_KeyID ev_WrappedKey ev_Payload].
    rewrite bool_decide_true, bool_decide_false by done. cbn [negb orb]. destruct (negb _); [done|].
    rewrite (open_seal _ _ _ _ _ Hwn Hw). cbn [mbind option_bind]. rewrite Hd, Z.eqb_refl. done. }
  split.
  - rewrite Hrun, Hb, bool_decide_true by done. cbn [negb]. rewrite (open_seal _ _ _ _ _ Hpn Hp).
    cbn [mbind option_bind]. rewrite Hp0, (proj2 (Z.ltb_ge _ _)) by lia. done.
  - intros keyID' b q. rewrite Hrun. destruct (ValidateBinding b) eqn:Hb'; [|done]. cbn [negb].
    destruct (negb _) eqn:Hkk; [done|]. apply negb_false_iff, bool_decide_eq_true in Hkk as <-.
    destruct (open dek v _) as [q'|] eqn:Ho; [|done]. cbn [mbind option_bind]. destruct (_ || _); [done|]. intros [= ->].
    destruct (open_match _ _ _ _ _ _ _ Hp Ho) as [Ha ->]. split_and!; [done| |done]. by eapply payloadAAD_inj.
Qed.

(** C35: What is encrypted for a binding is decrypted there: with a key identifier in
    UTF-8, a key and a data key of 32 bytes and nonces of 12, the envelope, read back through any
    rendering that keeps its fields and stays within the limit, decrypts to the
    plaintext under the same key, key identifier and binding.  Under another
    binding or another key identifier it does not decrypt at all. *)
Theorem envelope_roundtrip render `{!EnvelopeText render} dek wn pn plaintext key keyID binding :
  validateCryptoInputs plaintext key keyID binding = true → utf8 keyID = true → len dek = keySize →
  len wn = nonceSize → len pn = nonceSize →
  ∃ encoded, Encrypt dek wn pn plaintext key keyID binding = Some encoded
    ∧ ∀ text, render encoded = Some text → len text <= maximumContent * 2 →
        Decrypt text key keyID binding = Some plaintext
        ∧ ∀ keyID' binding' q, Decrypt text key keyID' binding' = Some q →
            keyID' = keyID ∧ binding' = binding ∧ q = plaintext.
Proof. exact (envelope_opens render dek wn pn plaintext key keyID binding). Qed.

End envelope.
