(* ===== verification/PSchema.v ===== *)
(** The platform service's tables and views:
    [services/platform/internal/model/model.go], the types of
    [internal/domain/configuration.go] and [internal/repository/store.go], and the
    constraints of [internal/migration/migrations/*.sql].

    A database is one finite map per table, under its primary key.  A jsonb
    column holds the text PostgreSQL gives back for it. *)

From stdpp Require Import base gmap list sets strings.
From Stdlib Require Import ZArith Lia.
From S2P Require Import Prelude.
From S2P Require Import GoStrings.
From S2P Require Import Json.

Open Scope Z_scope.

(** What a timestamptz column keeps of an instant, in nanoseconds: whole
    microseconds, as pgx sends them. *)
Definition timestamptz (t : Z) : Z := t / 1000 * 1000.

(** ** Rows *)

(** [model.Configuration]; no secrets is a NULL envelope *)
Record ConfigurationRow := MkConfigurationRow {
  cf_Environment : string;
  cf_Namespace : string;
  cf_Revision : Z;
  cf_SchemaVersion : Z;
  cf_PublicValues : string;
  cf_SecretEnvelope : option string;
  cf_UpdatedBy : Z;
  cf_CreatedAt : Z;
  cf_UpdatedAt : Z;
}.

#[export] Instance ConfigurationRow_eq_dec : EqDecision ConfigurationRow.
Proof. solve_decision. Defined.

Definition set_cf_CreatedAt (v : Z) (r : ConfigurationRow) : ConfigurationRow :=
  MkConfigurationRow (cf_Environment r) (cf_Namespace r) (cf_Revision r) (cf_SchemaVersion r)
    (cf_PublicValues r) (cf_SecretEnvelope r) (cf_UpdatedBy r) v (cf_UpdatedAt r).

(** [model.ConfigurationRevision] *)
Record RevisionRow := MkRevisionRow {
  rv_Environment : string;
  rv_Namespace : string;
  rv_Revision : Z;
  rv_SchemaVersion : Z;
  rv_PublicValues : string;
  rv_SecretEnvelope : option string;
  rv_UpdatedBy : Z;
  rv_CreatedAt : Z;
  rv_UpdatedAt : Z;
}.

#[export] Instance RevisionRow_eq_dec : EqDecision RevisionRow.
Proof. solve_decision. Defined.

(** [model.ConfigAudit] *)
Record AuditRow := MkAuditRow {
  ad_ID : string;
  ad_Environment : string;
  ad_Namespace : string;
  ad_Revision : Z;
  ad_ActorID : Z;
  ad_PreviousDigest : string;
  ad_NextDigest : string;
  ad_ChangedKeys : string;
  ad_CreatedAt : Z;
}.

#[export] Instance AuditRow_eq_dec : EqDecision AuditRow.
Proof. solve_decision. Defined.

(** [model.ConfigIdempotency] *)
Record PIdempotencyRow := MkPIdempotencyRow {
  pk_Environment : string;
  pk_ActorID : Z;
  pk_Namespace : string;
  pk_Key : string;
  pk_RequestHash : string;
  pk_Revision : Z;
  pk_SchemaVersion : Z;
  pk_ResponsePublicValues : string;
  pk_ResponseSecretKeys : string;
  pk_ResponseUpdatedAt : Z;
  pk_ExpiresAt : Z;
  pk_CreatedAt : Z;
}.

#[export] Instance PIdempotencyRow_eq_dec : EqDecision PIdempotencyRow.
Proof. solve_decision. Defined.

(** [model.ConfigOutbox] *)
Record ConfigOutboxRow := MkConfigOutboxRow {
  cx_ID : string;
  cx_Environment : string;
  cx_Namespace : string;
  cx_Revision : Z;
  cx_Subject : string;
  cx_Payload : string;
  cx_TraceHeaders : string;
  cx_Attempts : Z;
  cx_NextAttemptAt : Z;
  cx_LastErrorKey : string;
  cx_ParkedAt : option Z;
  cx_PublishedAt : option Z;
  cx_CreatedAt : Z;
}.

#[export] Instance ConfigOutboxRow_eq_dec : EqDecision ConfigOutboxRow.
Proof. solve_decision. Defined.

Definition set_cx_Attempts (v : Z) (r : ConfigOutboxRow) : ConfigOutboxRow :=
  MkConfigOutboxRow (cx_ID r) (cx_Environment r) (cx_Namespace r) (cx_Revision r) (cx_Subject r)
    (cx_Payload r) (cx_TraceHeaders r) v (cx_NextAttemptAt r) (cx_LastErrorKey r)
    (cx_ParkedAt r) (cx_PublishedAt r) (cx_CreatedAt r).

Definition set_cx_NextAttemptAt (v : Z) (r : ConfigOutboxRow) : ConfigOutboxRow :=
  MkConfigOutboxRow (cx_ID r) (cx_Environment r) (cx_Namespace r) (cx_Revision r) (cx_Subject r)
    (cx_Payload r) (cx_TraceHeaders r) (cx_Attempts r) v (cx_LastErrorKey r)
    (cx_ParkedAt r) (cx_PublishedAt r) (cx_CreatedAt r).

Definition set_cx_LastErrorKey (v : string) (r : ConfigOutboxRow) : ConfigOutboxRow :=
  MkConfigOutboxRow (cx_ID r) (cx_Environment r) (cx_Namespace r) (cx_Revision r) (cx_Subject r)
    (cx_Payload r) (cx_TraceHeaders r) (cx_Attempts r) (cx_NextAttemptAt r) v
    (cx_ParkedAt r) (cx_PublishedAt r) (cx_CreatedAt r).

Definition set_cx_ParkedAt (v : option Z) (r : ConfigOutboxRow) : ConfigOutboxRow :=
  MkConfigOutboxRow (cx_ID r) (cx_Environment r) (cx_Namespace r) (cx_Revision r) (cx_Subject r)
    (cx_Payload r) (cx_TraceHeaders r) (cx_Attempts r) (cx_NextAttemptAt r)
    (cx_LastErrorKey r) v (cx_PublishedAt r) (cx_CreatedAt r).

Definition set_cx_PublishedAt (v : option Z) (r : ConfigOutboxRow) : ConfigOutboxRow :=
  MkConfigOutboxRow (cx_ID r) (cx_Environment r) (cx_Namespace r) (cx_Revision r) (cx_Subject r)
    (cx_Payload r) (cx_TraceHeaders r) (cx_Attempts r) (cx_NextAttemptAt r)
    (cx_LastErrorKey r) (cx_ParkedAt r) v (cx_CreatedAt r).

(** [model.ConfigDelivery] *)
Record DeliveryRow := MkDeliveryRow {
  dv_Environment : string;
  dv_Namespace : string;
  dv_Revision : Z;
  dv_Consumer : string;
  dv_MessageID : string;
  dv_Status : string;
  dv_Attempts : Z;
  dv_LastErrorKey : string;
  dv_AppliedAt : option Z;
  dv_UpdatedAt : Z;
}.

#[export] Instance DeliveryRow_eq_dec : EqDecision DeliveryRow.
Proof. solve_decision. Defined.

(** The schema [platform] *)
Record PDB := MkPDB {
  configurations : gmap (string * string) ConfigurationRow;
  revisions : gmap (string * string * Z) RevisionRow;
  audits : gmap string AuditRow;
  pkeys : gmap (string * Z * string * string) PIdempotencyRow;
  config_outbox : gmap string ConfigOutboxRow;
  deliveries : gmap (string * string * Z * string) DeliveryRow;
}.

#[export] Instance PDB_eq_dec : EqDecision PDB.
Proof. solve_decision. Defined.

Definition set_configurations (v : gmap (string * string) ConfigurationRow) (r : PDB) : PDB :=
  MkPDB v (revisions r) (audits r) (pkeys r) (config_outbox r) (deliveries r).

Definition set_revisions (v : gmap (string * string * Z) RevisionRow) (r : PDB) : PDB :=
  MkPDB (configurations r) v (audits r) (pkeys r) (config_outbox r) (deliveries r).

Definition set_audits (v : gmap string AuditRow) (r : PDB) : PDB :=
  MkPDB (configurations r) (revisions r) v (pkeys r) (config_outbox r) (deliveries r).

Definition set_pkeys (v : gmap (string * Z * string * string) PIdempotencyRow) (r : PDB) : PDB :=
  MkPDB (configurations r) (revisions r) (audits r) v (config_outbox r) (deliveries r).

Definition set_config_outbox (v : gmap string ConfigOutboxRow) (r : PDB) : PDB :=
  MkPDB (configurations r) (revisions r) (audits r) (pkeys r) v (deliveries r).

Definition set_deliveries (v : gmap (string * string * Z * string) DeliveryRow) (r : PDB) : PDB :=
  MkPDB (configurations r) (revisions r) (audits r) (pkeys r) (config_outbox r) v.

(** ** Views *)

(** [domain.Snapshot] *)
Record Snapshot := MkSnapshot {
  sn_Environment : string;
  sn_Namespace : string;
  sn_Revision : Z;
  sn_SchemaVersion : Z;
  sn_Public : gmap string string;
  sn_Secrets : gmap string string;
  sn_UpdatedBy : Z;
  sn_CreatedAt : Z;
  sn_UpdatedAt : Z;
}.

#[export] Instance Snapshot_eq_dec : EqDecision Snapshot.
Proof. solve_decision. Defined.

(** The snapshot as it reads back: its instants are those of the columns. *)
Definition read_back (r : Snapshot) : Snapshot :=
  MkSnapshot (sn_Environment r) (sn_Namespace r) (sn_Revision r) (sn_SchemaVersion r) (sn_Public r)
    (sn_Secrets r) (sn_UpdatedBy r) (timestamptz (sn_CreatedAt r)) (timestamptz (sn_UpdatedAt r)).

Definition set_sn_Environment (v : string) (r : Snapshot) : Snapshot :=
  MkSnapshot v (sn_Namespace r) (sn_Revision r) (sn_SchemaVersion r) (sn_Public r) (sn_Secrets r)
    (sn_UpdatedBy r) (sn_CreatedAt r) (sn_UpdatedAt r).

(** [domain.ConsumerState] *)
Record ConsumerStateView := MkConsumerState {
  cs_Environment : string;
  cs_Namespace : string;
  cs_Consumer : string;
  cs_DesiredRevision : Z;
  cs_AppliedRevision : Z;
  cs_Status : string;
  cs_LastErrorKey : string;
}.

#[export] Instance ConsumerStateView_eq_dec : EqDecision ConsumerStateView.
Proof. solve_decision. Defined.

Definition set_cs_AppliedRevision (v : Z) (r : ConsumerStateView) : ConsumerStateView :=
  MkConsumerState (cs_Environment r) (cs_Namespace r) (cs_Consumer r) (cs_DesiredRevision r) v
    (cs_Status r) (cs_LastErrorKey r).

Definition set_cs_Status (v : string) (r : ConsumerStateView) : ConsumerStateView :=
  MkConsumerState (cs_Environment r) (cs_Namespace r) (cs_Consumer r) (cs_DesiredRevision r)
    (cs_AppliedRevision r) v (cs_LastErrorKey r).

Definition set_cs_LastErrorKey (v : string) (r : ConsumerStateView) : ConsumerStateView :=
  MkConsumerState (cs_Environment r) (cs_Namespace r) (cs_Consumer r) (cs_DesiredRevision r)
    (cs_AppliedRevision r) (cs_Status r) v.

(** [domain.DeliveryUpdate] *)
Record DeliveryUpdate := MkDeliveryUpdate {
  du_MessageID : string;
  du_Namespace : string;
  du_Revision : Z;
  du_Consumer : string;
  du_Status : string;
  du_Attempts : Z;
  du_LastErrorKey : string;
}.

#[export] Instance DeliveryUpdate_eq_dec : EqDecision DeliveryUpdate.
Proof. solve_decision. Defined.

(** [domain.OutboxMessage] *)
Record ConfigMessage := MkConfigMessage {
  om_ID : string;
  om_Subject : string;
  om_Payload : string;
  om_Headers : list (string * string);
  om_Attempts : Z;
  om_Namespace : string;
  om_Revision : Z;
}.

#[export] Instance ConfigMessage_eq_dec : EqDecision ConfigMessage.
Proof. solve_decision. Defined.

(** [repository.PutRequest] *)
Record PutRequest := MkPutRequest {
  pr_ActorID : Z;
  pr_Namespace : string;
  pr_ExpectedRevision : Z;
  pr_IdempotencyKey : string;
  pr_RequestHash : string;
  pr_Values : gmap string string;
}.

#[export] Instance PutRequest_eq_dec : EqDecision PutRequest.
Proof. solve_decision. Defined.

(** [repository.Delivery] *)
Record Delivery := MkDelivery {
  de_MessageID : string;
  de_Namespace : string;
  de_Revision : Z;
  de_Status : string;
  de_Attempts : Z;
  de_LastErrorKey : string;
  de_PublishedAt : option Z;
}.

#[export] Instance Delivery_eq_dec : EqDecision Delivery.
Proof. solve_decision. Defined.

(** ** Errors *)

Inductive perror :=
| ErrInvalid (reason : string)
| ErrNotFound
| ErrConflict
| ErrPrecondition
| PFailed (operation : string).

#[export] Instance perror_eq_dec : EqDecision perror.
Proof. solve_decision. Defined.

Definition pstore (A : Type) : Type := tx PDB perror A.

(** The fields of [repository.Store]. *)
Record PConfig := MkPConfig {
  environment : string;
  subject : string;
  keyID : string;
  key : string;
}.

(** What a request draws from its environment: the clock, the identifiers and
    random bytes drawn, and the trace headers of the call. *)
Record PCtx := MkPCtx {
  pnow : Z;
  audit_id : string;
  message_id : string;
  data_key : string;
  wrap_nonce : string;
  payload_nonce : string;
  trace_headers : list (string * string);
}.
