(* ===== verification/PDomain.v ===== *)
(** Runtime configuration: [services/platform/internal/domain/configuration.go].

    The defaults of the three namespaces, their secret keys and the validation
    of submitted values.  A Go map is a finite map; the loop over the submitted
    values visits them in some order, on which its outcome does not depend
    ([apply_values_spec]). *)

From stdpp Require Import base gmap list sets strings.
From Stdlib Require Import ZArith Lia SpecFloat.
From S2P Require Import Prelude.
From S2P Require Import GoStrings.
From S2P Require Import GoText.
From S2P Require Import KDomain.
From S2P Require Import Json.
From S2P Require Import PSchema.

Open Scope Z_scope.

Definition SchemaVersion : Z := 1.

(** The fields of a parsed [url.URL] the validation looks at. *)
Record ParsedURL := MkParsedURL {
  url_Scheme : string;
  url_Host : string;
  url_User : bool;
  url_Path : string;
  url_RawQuery : string;
  url_Fragment : string;
}.

(** [strconv.ParseFloat(s, 64)], [mail.ParseAddress] and [url.Parse]; [None] and
    [false] are errors. *)
Class Parsers := {
  ParseFloat : string → option float64;
  ParseAddress : string → bool;
  ParseURL : string → option ParsedURL;
}.

(** [strconv.ParseBool] *)
Definition ParseBool (s : string) : option bool :=
  if bool_decide (s ∈ ["1"; "t"; "T"; "true"; "TRUE"; "True"]) then Some true
  else if bool_decide (s ∈ ["0"; "f"; "F"; "false"; "FALSE"; "False"]) then Some false
  else None.

(** [strconv.Atoi]: a sign, decimal digits, a value of 64 bits. *)
Fixpoint digits (bs : list Z) (acc : Z) : option Z :=
  match bs with
  | [] => Some acc
  | b :: rest => if in_range 48 57 b then digits rest (10 * acc + (b - 48)) else None
  end.

Definition Atoi (s : string) : option Z :=
  let '(sign, rest) := match bytes s with
                       | 45 :: rest => (-1, rest)
                       | 43 :: rest => (1, rest)
                       | bs => (1, bs)
                       end in
  if bool_decide (rest = []) then None
  else n ← digits rest 0;
       if (- 2 ^ 63 <=? sign * n) && (sign * n <? 2 ^ 63) then Some (sign * n) else None.

Definition no_secrets : gmap string string := ∅.

Definition site_defaults : gmap string string := list_to_map
  [("title", "HappyLadySauce"); ("tagline_zh", "把值得留下的想法，写成值得阅读的文章。");
   ("tagline_en", "Turn ideas worth keeping into pages worth reading.");
   ("hero_image_url", "/images/home-hero.png"); ("hero_focal_x", "50"); ("hero_focal_y", "50");
   ("hero_attachment_id", EmptyString)].

Definition email_defaults : gmap string string := list_to_map
  [("enabled", "false"); ("host", EmptyString); ("port", "587"); ("username", EmptyString);
   ("from", EmptyString); ("frontend_base_url", EmptyString)].

Definition ai_defaults : gmap string string := list_to_map
  [("enabled", "false"); ("provider", "openai-compatible"); ("base_url", EmptyString); ("model", EmptyString);
   ("request_timeout_ms", "30000"); ("max_tokens", "4096")].

Definition default_values (namespace : string) : option (gmap string string) :=
  if namespace =?= "site" then Some site_defaults
  else if namespace =?= "email" then Some email_defaults
  else if namespace =?= "ai" then Some ai_defaults
  else None.

Definition Default (namespace : string) : result perror Snapshot :=
  match default_values namespace with
  | Some public => Ok (MkSnapshot EmptyString namespace 0 SchemaVersion public no_secrets 0 zero_time zero_time)
  | None => Err (ErrInvalid "unsupported namespace")
  end.

Definition secretKeys (namespace : string) : list string :=
  if namespace =?= "email" then ["password"]
  else if namespace =?= "ai" then ["api_key"]
  else [].

(** [SecretKeys]: sorted, which lists of at most one key are. *)
Definition SecretKeys (namespace : string) : list string := order_by String.compare (secretKeys namespace).

(** [m[key]] of a Go map: the zero value when there is none *)
Definition at_key (m : gmap string string) (key : string) : string := default EmptyString (m !! key).

(** The loop of [Validate] over the submitted values. *)
Fixpoint apply_values (defaults : gmap string string) (allowed : list string) (values : list (string * string))
  (public secrets : gmap string string) : result perror (gmap string string * gmap string string) :=
  match values with
  | [] => Ok (public, secrets)
  | (key, value) :: rest =>
    if is_some (defaults !! key) then
      apply_values defaults allowed rest (<[key := TrimSpace value]> public) secrets
    else if bool_decide (key ∈ allowed) then
      let value := TrimSpace value in
      apply_values defaults allowed rest public
        (if value =?= EmptyString then delete key secrets else <[key := value]> secrets)
    else Err (ErrInvalid "unknown key")
  end.

(** [length(value, minimum, maximum) == nil] *)
Definition length_in (value : string) (minimum maximum : Z) : bool :=
  let n := rune_count (TrimSpace value) in (minimum <=? n) && (n <=? maximum).

Section validation.
Context `{Uuid, Parsers}.

Definition validHTTPOrigin (value : string) : bool :=
  match ParseURL value with
  | Some u => negb (url_Host u =?= EmptyString) && negb (url_User u)
              && ((url_Scheme u =?= "http") || (url_Scheme u =?= "https"))
              && ((url_Path u =?= EmptyString) || (url_Path u =?= "/"))
              && (url_RawQuery u =?= EmptyString) && (url_Fragment u =?= EmptyString)
  | None => false
  end.

Definition validHTTPSURL (value : string) : bool :=
  match ParseURL value with
  | Some u => (url_Scheme u =?= "https") && negb (url_Host u =?= EmptyString) && negb (url_User u)
              && (url_Fragment u =?= EmptyString)
  | None => false
  end.

Definition hundred : float64 := S754_finite false 100 0.

(** [err != nil || value < 0 || value > 100], negated *)
Definition focal_ok (text : string) : bool :=
  match ParseFloat text with
  | Some value => negb (SFltb value (S754_zero false)) && negb (SFltb hundred value)
  | None => false
  end.

Definition validate_site (public : gmap string string) : result perror unit :=
  if negb (length_in (at_key public "title") 1 120) || negb (length_in (at_key public "tagline_zh") 1 300)
     || negb (length_in (at_key public "tagline_en") 1 300) || negb (length_in (at_key public "hero_image_url") 1 2048)
  then Err (ErrInvalid "site text fields are invalid")
  else if negb (at_key public "hero_attachment_id" =?= EmptyString)
          && is_none (uuid_version (at_key public "hero_attachment_id"))
  then Err (ErrInvalid "hero_attachment_id must be a UUID")
  else if negb (focal_ok (at_key public "hero_focal_x")) || negb (focal_ok (at_key public "hero_focal_y"))
  then Err (ErrInvalid "focal point must be between 0 and 100")
  else Ok tt.

Definition validate_email (public secrets : gmap string string) : result perror unit :=
  match ParseBool (at_key public "enabled") with
  | None => Err (ErrInvalid "email.enabled must be boolean")
  | Some enabled =>
    if negb (bool_decide (Atoi (at_key public "port") ∈ [Some 465; Some 587]))
    then Err (ErrInvalid "email.port must be 465 or 587")
    else if enabled then
      if negb (length_in (at_key public "host") 1 253) || negb (length_in (at_key public "username") 1 320)
         || negb (length_in (at_key secrets "password") 1 4096)
      then Err (ErrInvalid "enabled email configuration requires host, username, and password")
      else if negb (ParseAddress (at_key public "from")) then Err (ErrInvalid "email.from is invalid")
      else if negb (validHTTPOrigin (at_key public "frontend_base_url"))
      then Err (ErrInvalid "email.frontend_base_url must be an HTTP origin")
      else Ok tt
    else Ok tt
  end.

(** [Atoi(text)] is between the bounds. *)
Definition number_in (text : string) (minimum maximum : Z) : bool :=
  match Atoi text with Some n => (minimum <=? n) && (n <=? maximum) | None => false end.

Definition validate_ai (public secrets : gmap string string) : result perror unit :=
  match ParseBool (at_key public "enabled") with
  | None => Err (ErrInvalid "ai.enabled must be boolean")
  | Some enabled =>
    if negb (at_key public "provider" =?= "openai-compatible") && negb (at_key public "provider" =?= "deepseek")
    then Err (ErrInvalid "ai.provider is unsupported")
    else if negb (number_in (at_key public "request_timeout_ms") 1000 300000)
            || negb (number_in (at_key public "max_tokens") 1 1048576)
    then Err (ErrInvalid "AI limits are invalid")
    else if enabled && (negb (validHTTPSURL (at_key public "base_url")) || negb (length_in (at_key public "model") 1 200)
                        || negb (length_in (at_key secrets "api_key") 1 8192))
    then Err (ErrInvalid "enabled AI configuration requires HTTPS URL, model, and API key")
    else Ok tt
  end.

Definition validateNamespace (namespace : string) (public secrets : gmap string string) : result perror unit :=
  if namespace =?= "site" then validate_site public
  else if namespace =?= "email" then validate_email public secrets
  else if namespace =?= "ai" then validate_ai public secrets
  else Err (ErrInvalid "unsupported namespace").

Definition Validate (namespace : string) (values existingSecrets : gmap string string)
  : result perror (gmap string string * gmap string string) :=
  defaults ← Default namespace;
  '(public, secrets) ← apply_values (sn_Public defaults) (secretKeys namespace) (map_to_list values)
                         (sn_Public defaults) existingSecrets;
  validateNamespace namespace public secrets ≫= λ _, Ok (public, secrets).

End validation.
