(* ===== verification/PStore.v ===== *)
(** The configuration store: [services/platform/internal/repository/store.go].

    A successful [Put] writes the configuration, its revision, an audit entry,
    the idempotency key and an event for the consumers in one transaction.
    Secrets are kept encrypted, bound to environment, namespace and revision. *)

From stdpp Require Import base gmap list sets strings.
From Stdlib Require Import ZArith Lia.
From S2P Require Import Prelude.
From S2P Require Import GoStrings.
From S2P Require Import KDomain.
From S2P Require Import Json.
From S2P Require Import Envelope.
From S2P Require Import PSchema.
From S2P Require Import PDomain.

Open Scope Z_scope.

Section store.
Context `{Unicode, Uuid, Parsers, Codec, Pg, Gcm, EnvelopeCodec} (cfg : PConfig).

(** ** Encoding *)

(** The members of a Go map, as the encoder writes them: sorted by key. *)
Definition sorted_members (m : gmap string string) : list (string * string) :=
  order_by (by_key fst String.compare) (map_to_list m).

Definition map_json (m : gmap string string) : json := headers_json (sorted_members m).

(** [Unmarshal] into a [map[string]string] *)
Definition decode_map (text : string) : option (gmap string string) := list_to_map <$> decode_headers text.

Definition marshal (operation : string) (v : json) : pstore string := expect (PFailed operation) (json_encode v).

(** What a jsonb column gives back for a text. *)
Definition stored (operation : string) (text : string) : pstore string := expect (PFailed operation) (jsonb text).

Definition binding (namespace : string) (revision : Z) : Binding :=
  MkBinding (environment cfg) namespace (format_int revision).

(** [decode] and [decodeRevision] read the same columns. *)
Definition decode_columns (operation : string) (environment namespace : string) (revision schema : Z)
  (publicValues : string) (envelope : option string) (updatedBy createdAt updatedAt : Z) : result perror Snapshot :=
  match decode_map publicValues with
  | None => Err (PFailed operation)
  | Some public =>
    match envelope with
    | None => Ok (MkSnapshot environment namespace revision schema public ∅ updatedBy createdAt updatedAt)
    | Some envelope =>
      if envelope =?= EmptyString
      then Ok (MkSnapshot environment namespace revision schema public ∅ updatedBy createdAt updatedAt)
      else
        match Decrypt envelope (key cfg) (keyID cfg) (binding namespace revision) ≫= decode_map with
        | None => Err (PFailed operation)
        | Some secrets => Ok (MkSnapshot environment namespace revision schema public secrets updatedBy createdAt updatedAt)
        end
    end
  end.

Definition decode (r : ConfigurationRow) : result perror Snapshot :=
  decode_columns "decode configuration" (cf_Environment r) (cf_Namespace r) (cf_Revision r) (cf_SchemaVersion r)
    (cf_PublicValues r) (cf_SecretEnvelope r) (cf_UpdatedBy r) (cf_CreatedAt r) (cf_UpdatedAt r).

Definition decodeRevision (r : RevisionRow) : result perror Snapshot :=
  decode_columns "decode configuration revision" (rv_Environment r) (rv_Namespace r) (rv_Revision r) (rv_SchemaVersion r)
    (rv_PublicValues r) (rv_SecretEnvelope r) (rv_UpdatedBy r) (rv_CreatedAt r) (rv_UpdatedAt r).

Definition snapshotDigest (public secrets : gmap string string) : pstore string :=
  text ← marshal "encode configuration digest" (JObj [("public", map_json public); ("secrets", map_json secrets)]);
  mret (sha256_hex text).

(** The value a key has, a secret over a public one. *)
Definition visible_value (public secrets : gmap string string) (k : string) : option string :=
  match secrets !! k with Some v => Some v | None => public !! k end.

Definition changedKeys (oldPublic oldSecrets nextPublic nextSecrets : gmap string string) : list string :=
  order_by String.compare
    (filter (λ k, visible_value oldPublic oldSecrets k ≠ visible_value nextPublic nextSecrets k)
       (elements (dom oldPublic ∪ dom oldSecrets ∪ dom nextPublic ∪ dom nextSecrets : gset string))).

Definition snapshotFromIdempotency (prior : PIdempotencyRow) : result perror Snapshot :=
  match decode_map (pk_ResponsePublicValues prior) with
  | None => Err (PFailed "decode idempotent configuration response")
  | Some public =>
    match json_decode (pk_ResponseSecretKeys prior) ≫= string_slice with
    | None => Err (PFailed "decode idempotent configuration secret keys")
    | Some keys => Ok (MkSnapshot (pk_Environment prior) (pk_Namespace prior) (pk_Revision prior) (pk_SchemaVersion prior)
                         public (list_to_map ((λ k, (k, "configured")) <$> keys)) (pk_ActorID prior)
                         (pk_CreatedAt prior) (pk_ResponseUpdatedAt prior))
    end
  end.

(** ** Statements *)

(** [CHECK] constraints common to the tables of configurations. *)
Definition row_check (environment namespace : string) (revision schema by_ : Z) : bool :=
  (0 <? revision) && (0 <? schema) && (0 <? by_) && (rune_count environment <=? 32) && (rune_count namespace <=? 32).

Definition known_namespace (namespace : string) : bool := bool_decide (namespace ∈ ["site"; "email"; "ai"]).

(** [INSERT ... ON CONFLICT (environment, namespace) DO UPDATE] of every column
    but the creation time *)
Definition upsert_configuration (r : ConfigurationRow) : pstore unit :=
  require (row_check (cf_Environment r) (cf_Namespace r) (cf_Revision r) (cf_SchemaVersion r) (cf_UpdatedBy r)
           && known_namespace (cf_Namespace r)) (PFailed "write configuration") ≫= λ _,
  modify (λ db,
    let k := (cf_Environment r, cf_Namespace r) in
    let r := match configurations db !! k with Some old => set_cf_CreatedAt (cf_CreatedAt old) r | None => r end in
    set_configurations (<[k := r]> (configurations db)) db).

Definition insert_revision (r : RevisionRow) : pstore unit :=
  db ← gets id;
  let k := (rv_Environment r, rv_Namespace r, rv_Revision r) in
  require (row_check (rv_Environment r) (rv_Namespace r) (rv_Revision r) (rv_SchemaVersion r) (rv_UpdatedBy r)
           && is_none (revisions db !! k)) (PFailed "write configuration revision") ≫= λ _,
  modify (λ db, set_revisions (<[k := r]> (revisions db)) db).

Definition insert_audit (r : AuditRow) : pstore unit :=
  db ← gets id;
  require ((0 <? ad_Revision r) && (0 <? ad_ActorID r) && is_none (audits db !! ad_ID r)
           && negb (exists_where (λ q, (ad_Environment q =?= ad_Environment r) && (ad_Namespace q =?= ad_Namespace r)
                                       && (ad_Revision q =? ad_Revision r)) (audits db)))
    (PFailed "write configuration audit") ≫= λ _,
  modify (λ db, set_audits (<[ad_ID r := r]> (audits db)) db).

Definition pkey_of (r : PIdempotencyRow) : string * Z * string * string :=
  (pk_Environment r, pk_ActorID r, pk_Namespace r, pk_Key r).

Definition insert_pkey (r : PIdempotencyRow) : pstore unit :=
  db ← gets id;
  require ((0 <? pk_ActorID r) && (0 <? pk_Revision r) && (0 <? pk_SchemaVersion r) && (rune_count (pk_Key r) <=? 128)
           && is_none (pkeys db !! pkey_of r)) (PFailed "write configuration idempotency key") ≫= λ _,
  modify (λ db, set_pkeys (<[pkey_of r := r]> (pkeys db)) db).

Definition insert_config_event (r : ConfigOutboxRow) : pstore unit :=
  db ← gets id;
  require ((0 <? cx_Revision r) && (rune_count (cx_Subject r) <=? 128) && is_none (config_outbox db !! cx_ID r)
           && negb (exists_where (λ q, (cx_Environment q =?= cx_Environment r) && (cx_Namespace q =?= cx_Namespace r)
                                       && (cx_Revision q =? cx_Revision r)) (config_outbox db)))
    (PFailed "enqueue configuration event") ≫= λ _,
  modify (λ db, set_config_outbox (<[cx_ID r := r]> (config_outbox db)) db).

(** ** Reading *)

Definition Get (namespace : string) : pstore Snapshot :=
  db ← gets id;
  match configurations db !! (environment cfg, namespace) with
  | None => lift (s ← Default namespace; Ok (set_sn_Environment (environment cfg) s))
  | Some r => lift (decode r)
  end.

Definition GetRevision (namespace : string) (revision : Z) : pstore Snapshot :=
  db ← gets id;
  r ← expect ErrNotFound (revisions db !! (environment cfg, namespace, revision));
  lift (decodeRevision r).

(** ** Writing *)

(** The event a consumer receives. *)
Definition config_event (ctx : PCtx) (request : PutRequest) (revision : Z) (digest occurred : string) : json :=
  let aggregate := environment cfg +:+ ":" +:+ pr_Namespace request in
  JObj [("aggregate_id", JStr aggregate); ("aggregate_version", JInt revision);
        ("causation_id", JStr (pr_IdempotencyKey request)); ("correlation_id", JStr (message_id ctx));
        ("environment", JStr (environment cfg)); ("idempotency_key", JStr (pr_IdempotencyKey request));
        ("message_id", JStr (message_id ctx)); ("message_type", JStr "platform.config.changed");
        ("namespace", JStr (pr_Namespace request)); ("occurred_at", JStr occurred);
        ("producer", JStr "knowledge-core.platform"); ("schema_version", JInt 1); ("value_digest", JStr digest)].

Definition config_headers (ctx : PCtx) (request : PutRequest) (revision : Z) : list (string * string) :=
  trace_headers ctx
    |> set_header "X-Message-Type" "platform.config.changed"
    |> set_header "X-Schema-Version" "1"
    |> set_header "X-Aggregate-ID" (environment cfg +:+ ":" +:+ pr_Namespace request)
    |> set_header "X-Aggregate-Version" (format_int revision)
    |> set_header "X-Causation-ID" (pr_IdempotencyKey request).

(** The snapshot the request replaces, when it names the current revision. *)
Definition previous_snapshot (request : PutRequest) (db : PDB) : result perror Snapshot :=
  match configurations db !! (environment cfg, pr_Namespace request) with
  | Some current =>
    if negb (pr_ExpectedRevision request =? cf_Revision current) then Err ErrPrecondition else decode current
  | None =>
    if negb (pr_ExpectedRevision request =? 0) then Err ErrPrecondition
    else s ← Default (pr_Namespace request); Ok (set_sn_Environment (environment cfg) s)
  end.

(** The envelope of the secrets, none when there are none. *)
Definition seal_secrets (ctx : PCtx) (namespace : string) (revision : Z) (secrets : gmap string string) (secretJSON : string)
  : pstore (option string) :=
  if bool_decide (secrets = ∅) then mret None
  else
    envelope ← expect (PFailed "encrypt secret configuration")
                 (Encrypt (data_key ctx) (wrap_nonce ctx) (payload_nonce ctx) secretJSON (key cfg) (keyID cfg)
                    (binding namespace revision));
    envelope ← stored "write configuration" envelope;
    mret (Some envelope).

(** [format] is [time.Time.Format(time.RFC3339Nano)].  The rows hold [at_], the
    instant to the microsecond; the answer holds [now]. *)
Definition Put (format : Z → string) (ctx : PCtx) (request : PutRequest) : pstore Snapshot :=
  transaction (
    db ← gets id;
    let namespace := pr_Namespace request in
    let now := pnow ctx in
    let at_ := timestamptz now in
    let prior := pkeys db !! (environment cfg, pr_ActorID request, namespace, pr_IdempotencyKey request) in
    match (prior ≫= λ p, if at_ <? pk_ExpiresAt p then Some p else None) with
    | Some p =>
      if negb (pk_RequestHash p =?= pr_RequestHash request) then fail ErrConflict
      else lift (snapshotFromIdempotency p)
    | None =>
      previous ← lift (previous_snapshot request db);
      '(public, secrets) ← lift (Validate namespace (pr_Values request) (sn_Secrets previous));
      let revision := wrap64 (sn_Revision previous + 1) in
      publicJSON ← marshal "encode public configuration" (map_json public);
      secretJSON ← marshal "encode secret configuration" (map_json secrets);
      publicStored ← stored "write configuration" publicJSON;
      envelope ← seal_secrets ctx namespace revision secrets secretJSON;
      let createdAt := if sn_CreatedAt previous =? zero_time then now else sn_CreatedAt previous in
      upsert_configuration (MkConfigurationRow (environment cfg) namespace revision SchemaVersion publicStored envelope
                              (pr_ActorID request) (timestamptz createdAt) at_) ≫= λ _,
      insert_revision (MkRevisionRow (environment cfg) namespace revision SchemaVersion publicStored envelope
                         (pr_ActorID request) (timestamptz createdAt) at_) ≫= λ _,
      previousDigest ← snapshotDigest (sn_Public previous) (sn_Secrets previous);
      nextDigest ← snapshotDigest public secrets;
      changedJSON ← marshal "encode changed configuration keys"
                      (JStrings (changedKeys (sn_Public previous) (sn_Secrets previous) public secrets));
      changedStored ← stored "write configuration audit" changedJSON;
      insert_audit (MkAuditRow (audit_id ctx) (environment cfg) namespace revision (pr_ActorID request) previousDigest
                      nextDigest changedStored at_) ≫= λ _,
      secretKeyJSON ← marshal "encode configured secret keys"
                        (JStrings (order_by String.compare (map_to_list secrets).*1));
      secretKeysStored ← stored "write configuration idempotency key" secretKeyJSON;
      insert_pkey (MkPIdempotencyRow (environment cfg) (pr_ActorID request) namespace (pr_IdempotencyKey request)
                     (pr_RequestHash request) revision SchemaVersion publicStored secretKeysStored at_
                     (timestamptz (now + 24 * Hour)) at_) ≫= λ _,
      payload ← marshal "encode configuration event" (config_event ctx request revision nextDigest (format now));
      headerJSON ← marshal "encode configuration event headers" (headers_json (config_headers ctx request revision));
      payload ← stored "enqueue configuration event" payload;
      headers ← stored "enqueue configuration event" headerJSON;
      insert_config_event (MkConfigOutboxRow (message_id ctx) (environment cfg) namespace revision (subject cfg) payload
                             headers 0 at_ EmptyString None None at_) ≫= λ _,
      mret (MkSnapshot (environment cfg) namespace revision SchemaVersion public secrets (pr_ActorID request) createdAt now)
    end).

(** ** Consumers *)

Definition delivery_of (namespace consumer : string) (d : DeliveryRow) : bool :=
  (dv_Environment d =?= environment cfg) && (dv_Namespace d =?= namespace) && (dv_Consumer d =?= consumer).

(** [ORDER BY revision DESC] *)
Definition newest_first : DeliveryRow → DeliveryRow → comparison := descending (by_key dv_Revision Z.compare).

Definition idleConsumerState (namespace consumer : string) (desired : Z) : ConsumerStateView :=
  MkConsumerState (environment cfg) namespace consumer desired 0 "pending" EmptyString.

Definition ConsumerState (namespace consumer : string) : pstore ConsumerStateView :=
  db ← gets id;
  let desired := match configurations db !! (environment cfg, namespace) with
                 | Some c => cf_Revision c | None => 0 end in
  let state := idleConsumerState namespace consumer desired in
  if desired <=? 0 then mret state
  else
    match first_where (delivery_of namespace consumer) newest_first (deliveries db) with
    | None => mret state
    | Some latest =>
      let state := if dv_Revision latest =? desired
                   then state |> set_cs_Status (dv_Status latest) |> set_cs_LastErrorKey (dv_LastErrorKey latest)
                   else if dv_Revision latest <? desired then set_cs_Status "pending" state
                   else state in
      match first_where (λ d, delivery_of namespace consumer d && (dv_Status d =?= "applied")) newest_first
              (deliveries db) with
      | Some applied => mret (set_cs_AppliedRevision (dv_Revision applied) state)
      | None => mret state
      end
    end.

Definition acceptDeliveryUpdate (current next : string) : bool :=
  if (current =?= "applied") || (current =?= "rejected") || (current =?= "parked") then current =?= next else true.

Definition update_invalid (u : DeliveryUpdate) : bool :=
  (du_Revision u <=? 0) || (TrimSpace (du_Namespace u) =?= EmptyString) || (TrimSpace (du_Consumer u) =?= EmptyString)
  || (TrimSpace (du_MessageID u) =?= EmptyString)
  || negb (bool_decide (du_Status u ∈ ["validating"; "retrying"; "applied"; "rejected"; "parked"]))
  || is_none (uuid_version (du_MessageID u)).

(** The row [ReportDelivery] writes over [current]. *)
Definition reported_row (u : DeliveryUpdate) (now : Z) (current : option DeliveryRow) : DeliveryRow :=
  MkDeliveryRow (environment cfg) (du_Namespace u) (du_Revision u) (du_Consumer u) (du_MessageID u) (du_Status u)
    (du_Attempts u) (du_LastErrorKey u)
    (if du_Status u =?= "applied" then Some (timestamptz now) else current ≫= dv_AppliedAt) (timestamptz now).

(** [ReportDelivery] reads and then writes, in no transaction: what it read
    decides what it writes, if anything. *)
Definition report_read (u : DeliveryUpdate) (now : Z) : pstore (option DeliveryRow) :=
  if update_invalid u then fail (ErrInvalid "delivery update")
  else
    db ← gets id;
    expect ErrNotFound (revisions db !! (environment cfg, du_Namespace u, du_Revision u)) ≫= λ _,
    let current := deliveries db !! (environment cfg, du_Namespace u, du_Revision u, du_Consumer u) in
    if negb (acceptDeliveryUpdate (match current with Some d => dv_Status d | None => EmptyString end) (du_Status u))
    then mret None
    else mret (Some (reported_row u now current)).

(** [Save]: update the row of the primary key or insert it *)
Definition report_save (d : DeliveryRow) : pstore unit :=
  require ((0 <? dv_Revision d) && (0 <=? dv_Attempts d) && (rune_count (dv_Consumer d) <=? 64)
           && (rune_count (dv_LastErrorKey d) <=? 128)) (PFailed "write configuration delivery") ≫= λ _,
  modify (λ db, set_deliveries
    (<[(dv_Environment d, dv_Namespace d, dv_Revision d, dv_Consumer d) := d]> (deliveries db)) db).

Definition ReportDelivery (u : DeliveryUpdate) (now : Z) : pstore unit :=
  d ← report_read u now;
  match d with Some d => report_save d | None => mret tt end.

(** ** The outbox *)

Definition event_of (namespace : string) (revision : Z) (r : ConfigOutboxRow) : bool :=
  (cx_Environment r =?= environment cfg) && (cx_Namespace r =?= namespace) && (cx_Revision r =? revision).

Definition GetDelivery (namespace : string) (revision : Z) : pstore Delivery :=
  db ← gets id;
  r ← expect ErrNotFound (first_where (event_of namespace revision) (by_key cx_ID String.compare) (config_outbox db));
  let status := if is_some (cx_ParkedAt r) then "parked" else if is_some (cx_PublishedAt r) then "published"
                else "pending" in
  mret (MkDelivery (cx_ID r) namespace revision status (cx_Attempts r) (cx_LastErrorKey r) (cx_PublishedAt r)).

Definition config_due (now : Z) (r : ConfigOutboxRow) : bool :=
  is_none (cx_PublishedAt r) && is_none (cx_ParkedAt r) && (cx_NextAttemptAt r <=? timestamptz now).

Definition config_order : ConfigOutboxRow → ConfigOutboxRow → comparison :=
  then_by (by_key cx_NextAttemptAt Z.compare) (then_by (by_key cx_CreatedAt Z.compare) (by_key cx_ID String.compare)).

Definition decodeHeaders (encoded : string) : list (string * string) :=
  if encoded =?= EmptyString then [] else default [] (decode_headers encoded).

Definition leased_event (now lease : Z) (r : ConfigOutboxRow) : ConfigOutboxRow :=
  r |> set_cx_Attempts (cx_Attempts r + 1) |> set_cx_NextAttemptAt (timestamptz (now + lease)).

Definition save_event (r : ConfigOutboxRow) : pstore unit :=
  modify (λ db, set_config_outbox (<[cx_ID r := r]> (config_outbox db)) db).

Definition ClaimConfigOutbox (now : Z) (limit lease : Z) : pstore (list ConfigMessage) :=
  let limit := if limit <? 1 then 50 else limit in
  transaction (
    db ← gets id;
    let due := take (Z.to_nat limit) (order_by config_order (rows_where (config_due now) (config_outbox db))) in
    collect due (λ r,
      save_event (leased_event now lease r) ≫= λ _,
      mret (MkConfigMessage (cx_ID r) (cx_Subject r) (cx_Payload r) (decodeHeaders (cx_TraceHeaders r))
              (cx_Attempts r + 1) (cx_Namespace r) (cx_Revision r)))).

(** [UPDATE platform.config_outbox SET f WHERE id = ? AND P]: the number of rows *)
Definition update_event (i : string) (P : ConfigOutboxRow → bool) (f : ConfigOutboxRow → ConfigOutboxRow) : pstore Z :=
  db ← gets id;
  match config_outbox db !! i with
  | Some r => if P r then save_event (f r) ≫= λ _, mret 1 else mret 0
  | None => mret 0
  end.

Definition open_event (r : ConfigOutboxRow) : bool := is_none (cx_PublishedAt r) && is_none (cx_ParkedAt r).

Definition MarkConfigPublished (now : Z) (i : string) : pstore unit :=
  n ← update_event i (λ r, is_none (cx_PublishedAt r)) (set_cx_PublishedAt (Some (timestamptz now)));
  if n =? 0 then fail ErrNotFound else mret tt.

Definition RetryConfigOutbox (now : Z) (i : string) (delay : Z) : pstore unit :=
  update_event i open_event (λ r, r |> set_cx_NextAttemptAt (timestamptz (now + delay)) |> set_cx_LastErrorKey "publish_failed")
    ≫= λ _, mret tt.

Definition ParkConfigOutbox (now : Z) (i : string) : pstore unit :=
  update_event i open_event (λ r, r |> set_cx_ParkedAt (Some (timestamptz now)) |> set_cx_LastErrorKey "publish_retry_exhausted")
    ≫= λ _, mret tt.

End store.
