(* ===== verification/PService.v ===== *)
(** The platform service: [services/platform/internal/service/service.go], the
    administrator's calls of [internal/transport/rpc/handler.go] and one pass of
    the outbox worker [internal/worker/outbox.go]. *)

From stdpp Require Import base gmap list sets strings.
From Stdlib Require Import ZArith Lia.
From S2P Require Import Prelude.
From S2P Require Import GoStrings.
From S2P Require Import KDomain.
From S2P Require Import Json.
From S2P Require Import Envelope.
From S2P Require Import PSchema.
From S2P Require Import PDomain.
From S2P Require Import PStore.

Open Scope Z_scope.

(** ** Messages *)

(** [platformv1.ConfigValue] *)
Record ConfigValue := MkConfigValue {
  va_Key : string;
  va_Value : string;
  va_Secret : bool;
  va_Redacted : bool;
}.

(** [platformv1.Configuration]; times are kept as instants, [None] for the empty
    text. *)
Record ConfigurationMessage := MkConfigurationMessage {
  co_Environment : string;
  co_Namespace : string;
  co_Revision : Z;
  co_SchemaVersion : Z;
  co_Values : list ConfigValue;
  co_UpdatedAt : option Z;
  co_UpdatedBy : Z;
}.

(** [platformv1.SiteProfile] *)
Record SiteProfileMessage := MkSiteProfile {
  sp_Title : string;
  sp_TaglineZh : string;
  sp_TaglineEn : string;
  sp_HeroImageUrl : string;
  sp_HeroFocalX : float64;
  sp_HeroFocalY : float64;
  sp_HeroAttachmentId : option string;
  sp_Revision : Z;
}.

(** What an administrator sees: secrets are named, never shown. *)
Definition toConfiguration (s : Snapshot) : ConfigurationMessage :=
  MkConfigurationMessage (sn_Environment s) (sn_Namespace s) (sn_Revision s) (sn_SchemaVersion s)
    (((λ k, MkConfigValue k (at_key (sn_Public s) k) false false)
        <$> order_by String.compare (map_to_list (sn_Public s)).*1)
     ++ ((λ k, MkConfigValue k EmptyString true (is_some (sn_Secrets s !! k))) <$> SecretKeys (sn_Namespace s)))
    (if sn_UpdatedAt s =? zero_time then None else Some (sn_UpdatedAt s)) (sn_UpdatedBy s).

(** What a consumer receives: secrets in clear. *)
Definition toConsumerConfiguration (s : Snapshot) : ConfigurationMessage :=
  MkConfigurationMessage (sn_Environment s) (sn_Namespace s) (sn_Revision s) (sn_SchemaVersion s)
    ((λ k, match sn_Secrets s !! k with
           | Some v => MkConfigValue k v true false
           | None => MkConfigValue k (at_key (sn_Public s) k) false false
           end)
       <$> order_by String.compare ((map_to_list (sn_Public s)).*1 ++ (map_to_list (sn_Secrets s)).*1))
    (Some (sn_UpdatedAt s)) (sn_UpdatedBy s).

Definition validConsumer (value : string) : bool := TrimSpace value =?= "identity.email".

Definition validIdempotencyKey (value : string) : bool :=
  negb ((value =?= EmptyString) || (128 <? len value) || negb (TrimSpace value =?= value))
  && forallb (λ r, negb ((r <? 33) || (126 <? r))) (runes value).

(** ** Calls *)

Section service.
Context `{Unicode, Uuid, Parsers, Codec, Pg, Gcm, EnvelopeCodec} (cfg : PConfig).

Definition requestHash (namespace : string) (revision : Z) (values : gmap string string) : result perror string :=
  match json_encode (JObj [("expected_revision", JInt revision); ("namespace", JStr namespace); ("values", map_json values)]) with
  | Some text => Ok (sha256_hex text)
  | None => Err (PFailed "encode configuration request hash")
  end.

(** The namespace of a call, trimmed and known. *)
Definition known (namespace : string) : pstore string :=
  lift (Default (TrimSpace namespace)) ≫= λ _, mret (TrimSpace namespace).

Definition GetConfiguration (namespace : string) : pstore ConfigurationMessage :=
  namespace ← known namespace;
  snapshot ← Get cfg namespace;
  mret (toConfiguration snapshot).

Definition PutConfiguration (format : Z → string) (ctx : PCtx) (actorID : Z) (namespace : string) (expected : Z)
  (idempotencyKey : string) (values : gmap string string) : pstore ConfigurationMessage :=
  if (actorID <=? 0) || (expected <? 0) || negb (validIdempotencyKey idempotencyKey)
     || (Z.of_nat (size values) =? 0) || (32 <? Z.of_nat (size values))
  then fail (ErrInvalid "put configuration")
  else
    namespace ← known namespace;
    hash ← lift (requestHash namespace expected values);
    snapshot ← Put cfg format ctx (MkPutRequest actorID namespace expected idempotencyKey hash values);
    mret (toConfiguration snapshot).

Definition SiteProfile : pstore SiteProfileMessage :=
  snapshot ← Get cfg "site";
  let public := sn_Public snapshot in
  x ← expect (PFailed "decode site hero focal X") (ParseFloat (at_key public "hero_focal_x"));
  y ← expect (PFailed "decode site hero focal Y") (ParseFloat (at_key public "hero_focal_y"));
  let attachmentID := at_key public "hero_attachment_id" in
  mret (MkSiteProfile (at_key public "title") (at_key public "tagline_zh") (at_key public "tagline_en")
          (at_key public "hero_image_url") x y (if attachmentID =?= EmptyString then None else Some attachmentID)
          (sn_Revision snapshot)).

Definition ConfigurationDelivery (namespace : string) (revision : Z) : pstore Delivery :=
  match Default (TrimSpace namespace) with
  | Ok _ => if revision <=? 0 then fail (ErrInvalid "delivery") else GetDelivery cfg (TrimSpace namespace) revision
  | Err _ => fail (ErrInvalid "delivery")
  end.

Definition ConsumerConfiguration (namespace : string) (revision : Z) (consumer : string) : pstore ConfigurationMessage :=
  if negb (validConsumer consumer) || (revision <=? 0) then fail (ErrInvalid "consumer configuration")
  else
    namespace ← known namespace;
    snapshot ← GetRevision cfg namespace revision;
    mret (toConsumerConfiguration snapshot).

Definition GetConsumerState (namespace consumer : string) : pstore ConsumerStateView :=
  if negb (validConsumer consumer) then fail (ErrInvalid "consumer")
  else
    namespace ← known namespace;
    ConsumerState cfg namespace consumer.

Definition apply_invalid (u : DeliveryUpdate) : bool :=
  negb (validConsumer (du_Consumer u)) || (du_Revision u <=? 0) || (du_MessageID u =?= EmptyString) || (du_Attempts u <? 0).

Definition set_du_Namespace (n : string) (u : DeliveryUpdate) : DeliveryUpdate :=
  MkDeliveryUpdate (du_MessageID u) n (du_Revision u) (du_Consumer u) (du_Status u) (du_Attempts u) (du_LastErrorKey u).

Definition ReportConsumerApply (u : DeliveryUpdate) (now : Z) : pstore unit :=
  if apply_invalid u then fail (ErrInvalid "report")
  else
    namespace ← known (du_Namespace u);
    ReportDelivery cfg (set_du_Namespace namespace u) now.

(** ** Administrators *)

Inductive pcode := PInvalidInput | PNotFound | PConflict | PForbidden | PUnauthenticated | PPreconditionFailed | PInternal.

#[export] Instance pcode_eq_dec : EqDecision pcode.
Proof. solve_decision. Defined.

Definition mapPlatformError (e : perror) : pcode :=
  match e with
  | ErrInvalid _ => PInvalidInput
  | ErrNotFound => PNotFound
  | ErrPrecondition => PPreconditionFailed
  | ErrConflict => PConflict
  | PFailed _ => PInternal
  end.

(** [verify] is [coreauth.Verifier.Verify]: the user and role of a token. *)
Definition admin (verify : string → option (Z * string)) (token : string) : result pcode Z :=
  let token := TrimSpace token in
  if token =?= EmptyString then Err PUnauthenticated
  else match verify token with
       | None => Err PUnauthenticated
       | Some (user, role) =>
         if user <=? 0 then Err PUnauthenticated
         else if negb (role =?= "admin") then Err PForbidden else Ok user
       end.

Definition as_admin {A} (verify : string → option (Z * string)) (token : string) (call : Z → pstore A) : tx PDB pcode A :=
  actor ← lift (admin verify token);
  wrap mapPlatformError (call actor).

(** ** The outbox worker *)

Definition config_backoff (attempt : Z) : Z :=
  let attempt := if attempt <? 1 then 1 else attempt in
  let attempt := if 8 <? attempt then 8 else attempt in
  Second * Z.shiftl 1 (attempt - 1).

(** One pass; [publish] says whether the broker took a message. *)
Definition relay_one (publish : ConfigMessage → bool) (maxAttempts now : Z) (m : ConfigMessage) : pstore unit :=
  if publish m then MarkConfigPublished now (om_ID m)
  else if maxAttempts <=? om_Attempts m then ParkConfigOutbox now (om_ID m)
  else RetryConfigOutbox now (om_ID m) (config_backoff (om_Attempts m)).

Definition relay (publish : ConfigMessage → bool) (maxAttempts lease now : Z) : pstore unit :=
  messages ← ClaimConfigOutbox now 50 lease;
  for_each messages (relay_one publish maxAttempts now).

End service.
