(* ===== verification/PWorld.v ===== *)
(** The platform service as a transition system, and what every reachable
    database satisfies.

    Requests, worker steps and consumer reports interleave at the grain of
    database transactions; a report is a read followed, at any later time, by
    its write. *)

From stdpp Require Import base gmap list sets strings relations.
From Stdlib Require Import ZArith Lia.
From S2P Require Import Prelude.
From S2P Require Import GoStrings.
From S2P Require Import GoText.
From S2P Require Import KDomain.
From S2P Require Import Json.
From S2P Require Import Envelope.
From S2P Require Import PSchema.
From S2P Require Import PDomain.
From S2P Require Import PStore.
From S2P Require Import PService.

Open Scope Z_scope.

(** ** The invariant *)

(** A revision row holds what the configuration row held when it was written. *)
Definition same_content (r : ConfigurationRow) (v : RevisionRow) : Prop :=
  cf_SchemaVersion r = rv_SchemaVersion v ∧ cf_PublicValues r = rv_PublicValues v
  ∧ cf_SecretEnvelope r = rv_SecretEnvelope v ∧ cf_UpdatedBy r = rv_UpdatedBy v ∧ cf_UpdatedAt r = rv_UpdatedAt v.

Definition audit_of (e n : string) (g : Z) (a : AuditRow) : Prop :=
  ad_Environment a = e ∧ ad_Namespace a = n ∧ ad_Revision a = g.

Definition message_of (e n : string) (g : Z) (m : ConfigOutboxRow) : Prop :=
  cx_Environment m = e ∧ cx_Namespace m = n ∧ cx_Revision m = g.

Record PInv (db : PDB) : Prop := {
  pi_conf : ∀ e n r, configurations db !! (e, n) = Some r →
    cf_Environment r = e ∧ cf_Namespace r = n ∧ 0 < cf_Revision r < 2 ^ 63
    ∧ ∃ v, revisions db !! (e, n, cf_Revision r) = Some v ∧ same_content r v;
  pi_revision : ∀ e n g v, revisions db !! (e, n, g) = Some v →
    rv_Environment v = e ∧ rv_Namespace v = n ∧ rv_Revision v = g
    ∧ ∃ r, configurations db !! (e, n) = Some r ∧ 0 < g <= cf_Revision r;
  pi_every : ∀ e n r g, configurations db !! (e, n) = Some r → 0 < g <= cf_Revision r →
    is_Some (revisions db !! (e, n, g))
    ∧ (∃ i a, audits db !! i = Some a ∧ audit_of e n g a)
    ∧ (∃ i m, config_outbox db !! i = Some m ∧ message_of e n g m);
  pi_audit : ∀ i a, audits db !! i = Some a →
    ad_ID a = i ∧ is_Some (revisions db !! (ad_Environment a, ad_Namespace a, ad_Revision a));
  pi_audit_one : ∀ i j a b e n g, audits db !! i = Some a → audits db !! j = Some b →
    audit_of e n g a → audit_of e n g b → i = j;
  pi_message : ∀ i m, config_outbox db !! i = Some m →
    cx_ID m = i ∧ is_Some (revisions db !! (cx_Environment m, cx_Namespace m, cx_Revision m));
  pi_message_one : ∀ i j a b e n g, config_outbox db !! i = Some a → config_outbox db !! j = Some b →
    message_of e n g a → message_of e n g b → i = j;
  pi_delivery : ∀ e n g c d, deliveries db !! (e, n, g, c) = Some d →
    dv_Environment d = e ∧ dv_Namespace d = n ∧ dv_Revision d = g ∧ dv_Consumer d = c
    ∧ is_Some (revisions db !! (e, n, g));
}.

Definition empty_pdb : PDB := MkPDB ∅ ∅ ∅ ∅ ∅ ∅.

Lemma empty_pinv : PInv empty_pdb.
Proof. split; cbn; intros *; rewrite ?lookup_empty; naive_solver. Qed.

(** What no request takes back: revisions stay as they were written, the current
    revision never decreases, events keep their content. *)
Definition same_event (m m' : ConfigOutboxRow) : Prop :=
  cx_ID m' = cx_ID m ∧ cx_Environment m' = cx_Environment m ∧ cx_Namespace m' = cx_Namespace m
  ∧ cx_Revision m' = cx_Revision m ∧ cx_Subject m' = cx_Subject m ∧ cx_Payload m' = cx_Payload m
  ∧ (is_Some (cx_PublishedAt m) → cx_PublishedAt m' = cx_PublishedAt m).

#[export] Instance same_event_preorder : PreOrder same_event.
Proof.
  split.
  - intros m. unfold same_event. naive_solver.
  - intros a b c (H1 & H2 & H3 & H4 & H5 & H6 & H7) (G1 & G2 & G3 & G4 & G5 & G6 & G7). unfold same_event.
    split_and!; try congruence. intros Hp. rewrite <-(H7 Hp). apply G7. by rewrite (H7 Hp).
Qed.

Record grows (s t : PDB) : Prop := {
  gr_revision : ∀ k v, revisions s !! k = Some v → revisions t !! k = Some v;
  gr_audit : ∀ i a, audits s !! i = Some a → audits t !! i = Some a;
  gr_conf : ∀ k r, configurations s !! k = Some r →
    ∃ r', configurations t !! k = Some r' ∧ cf_Revision r <= cf_Revision r';
  gr_message : kept same_event (config_outbox s) (config_outbox t);
}.

#[export] Instance grows_preorder : PreOrder grows.
Proof.
  split.
  - intros s. split; [done..| |reflexivity]. intros k r Hr. exists r. split; [done|lia].
  - intros a b c [R1 A1 C1 M1] [R2 A2 C2 M2]. split; [auto..| |by etrans].
    intros k r Hr. destruct (C1 k r Hr) as (r1 & Hr1 & ?). destruct (C2 k r1 Hr1) as (r2 & ? & ?).
    exists r2. split; [done|lia].
Qed.

(** ** What a successful [Put] does *)

Section world.
Context `{Unicode, Uuid, Parsers, Codec, Pg, Gcm, EnvelopeCodec} (cfg : PConfig) (format : Z → string).

(** A new revision: what it replaces, the columns it stores, the audit entry
    [a], the key [p] and the event [m] written with it. *)
Record fresh_put (ctx : PCtx) (request : PutRequest) (s t : PDB) (previous snap : Snapshot) (public : string)
  (envelope : option string) (a : AuditRow) (p : PIdempotencyRow) (m : ConfigOutboxRow) : Prop := FreshPut {
  fp_previous : previous_snapshot cfg request s = Ok previous;
  fp_valid : Validate (pr_Namespace request) (pr_Values request) (sn_Secrets previous)
             = Ok (sn_Public snap, sn_Secrets snap);
  fp_environment : sn_Environment snap = environment cfg;
  fp_namespace : sn_Namespace snap = pr_Namespace request;
  fp_revision : sn_Revision snap = wrap64 (sn_Revision previous + 1);
  fp_schema : sn_SchemaVersion snap = SchemaVersion;
  fp_by : sn_UpdatedBy snap = pr_ActorID request;
  fp_created : sn_CreatedAt snap = if sn_CreatedAt previous =? zero_time then pnow ctx else sn_CreatedAt previous;
  fp_updated : sn_UpdatedAt snap = pnow ctx;
  fp_public : json_encode (map_json (sn_Public snap)) ≫= jsonb = Some public;
  fp_envelope : ∃ text, json_encode (map_json (sn_Secrets snap)) = Some text
    ∧ seal_secrets cfg ctx (pr_Namespace request) (sn_Revision snap) (sn_Secrets snap) text s = (s, Ok envelope);
  fp_check : 0 < sn_Revision snap;
  fp_unwritten : revisions s !! (environment cfg, pr_Namespace request, sn_Revision snap) = None;
  fp_audit : audits s !! ad_ID a = None ∧ audit_of (environment cfg) (pr_Namespace request) (sn_Revision snap) a;
  fp_pkey : pkeys s !! pkey_of p = None
    ∧ pkey_of p = (environment cfg, pr_ActorID request, pr_Namespace request, pr_IdempotencyKey request)
    ∧ pk_RequestHash p = pr_RequestHash request ∧ pk_ExpiresAt p = timestamptz (pnow ctx + 24 * Hour)
    ∧ pk_Revision p = sn_Revision snap ∧ pk_ResponsePublicValues p = public
    ∧ (json_encode (JStrings (order_by String.compare (map_to_list (sn_Secrets snap)).*1)) ≫= jsonb
       = Some (pk_ResponseSecretKeys p))
    ∧ pk_SchemaVersion p = SchemaVersion ∧ pk_CreatedAt p = timestamptz (pnow ctx) ∧ pk_ResponseUpdatedAt p = timestamptz (pnow ctx);
  fp_message : config_outbox s !! cx_ID m = None
    ∧ message_of (environment cfg) (pr_Namespace request) (sn_Revision snap) m;
  fp_configurations : configurations t = <[(environment cfg, pr_Namespace request) :=
    MkConfigurationRow (environment cfg) (pr_Namespace request) (sn_Revision snap) SchemaVersion public envelope
      (pr_ActorID request)
      (match configurations s !! (environment cfg, pr_Namespace request) with
       | Some old => cf_CreatedAt old | None => timestamptz (sn_CreatedAt snap) end) (timestamptz (pnow ctx))]> (configurations s);
  fp_revisions : revisions t = <[(environment cfg, pr_Namespace request, sn_Revision snap) :=
    MkRevisionRow (environment cfg) (pr_Namespace request) (sn_Revision snap) SchemaVersion public envelope
      (pr_ActorID request) (timestamptz (sn_CreatedAt snap)) (timestamptz (pnow ctx))]> (revisions s);
  fp_audits : audits t = <[ad_ID a := a]> (audits s);
  fp_pkeys : pkeys t = <[pkey_of p := p]> (pkeys s);
  fp_messages : config_outbox t = <[cx_ID m := m]> (config_outbox s);
  fp_deliveries : deliveries t = deliveries s;
}.

(** The live idempotency key of a request. *)
Definition live_key (ctx : PCtx) (request : PutRequest) (db : PDB) : option PIdempotencyRow :=
  pkeys db !! (environment cfg, pr_ActorID request, pr_Namespace request, pr_IdempotencyKey request)
  ≫= λ p, if timestamptz (pnow ctx) <? pk_ExpiresAt p then Some p else None.

Lemma seal_secrets_state ctx n g secrets text s t r :
  seal_secrets cfg ctx n g secrets text s = (t, Ok r) →
  t = s ∧ ∀ s', seal_secrets cfg ctx n g secrets text s' = (s', Ok r).
Proof.
  unfold seal_secrets, stored. destruct (bool_decide _).
  - intros [-> [= ->]]%ret_run. done.
  - intros Hr. run_inv. split; [done|]. intros s'. cbv [mbind tx_bind].
    repeat match goal with H : ?x = Some _ |- context [?x] => rewrite H; cbn [expect mret tx_ret] end. done.
Qed.

Lemma upsert_run r s t u :
  upsert_configuration r s = (t, Ok u) →
  0 < cf_Revision r ∧ t = set_configurations (<[(cf_Environment r, cf_Namespace r) :=
    match configurations s !! (cf_Environment r, cf_Namespace r) with
    | Some old => set_cf_CreatedAt (cf_CreatedAt old) r | None => r end]> (configurations s)) s.
Proof. unfold upsert_configuration, row_check. intros Hr. run_inv. split; [lia|done]. Qed.

Lemma insert_revision_run r s t u :
  insert_revision r s = (t, Ok u) →
  revisions s !! (rv_Environment r, rv_Namespace r, rv_Revision r) = None
  ∧ t = set_revisions (<[(rv_Environment r, rv_Namespace r, rv_Revision r) := r]> (revisions s)) s.
Proof.
  unfold insert_revision. intros Hr. run_inv. split; [|done].
  apply is_none_true. by match goal with H : _ && _ = true |- _ => apply andb_true_iff in H as [_ H] end.
Qed.

Lemma insert_audit_run r s t u :
  insert_audit r s = (t, Ok u) → audits s !! ad_ID r = None ∧ t = set_audits (<[ad_ID r := r]> (audits s)) s.
Proof.
  unfold insert_audit. intros Hr. run_inv. split; [|done].
  match goal with H : _ && _ = true |- _ => rewrite !andb_true_iff in H; destruct H as [[_ H] _] end.
  by apply is_none_true.
Qed.

Lemma insert_pkey_run r s t u :
  insert_pkey r s = (t, Ok u) → pkeys s !! pkey_of r = None ∧ t = set_pkeys (<[pkey_of r := r]> (pkeys s)) s.
Proof.
  unfold insert_pkey. intros Hr. run_inv. split; [|done].
  match goal with H : _ && _ = true |- _ => rewrite !andb_true_iff in H; destruct H as [_ H] end.
  by apply is_none_true.
Qed.

Lemma insert_event_run r s t u :
  insert_config_event r s = (t, Ok u) →
  config_outbox s !! cx_ID r = None ∧ t = set_config_outbox (<[cx_ID r := r]> (config_outbox s)) s.
Proof.
  unfold insert_config_event. intros Hr. run_inv. split; [|done].
  match goal with H : _ && _ = true |- _ => rewrite !andb_true_iff in H; destruct H as [[_ H] _] end.
  by apply is_none_true.
Qed.

Lemma Put_run ctx request s t snap :
  Put cfg format ctx request s = (t, Ok snap) →
  (∃ p, live_key ctx request s = Some p ∧ pk_RequestHash p = pr_RequestHash request
        ∧ snapshotFromIdempotency p = Ok snap ∧ t = s)
  ∨ (live_key ctx request s = None
     ∧ ∃ previous public envelope a p m, fresh_put ctx request s t previous snap public envelope a p m).
Proof.
  unfold Put. intros Hr%transaction_ok. apply bind_run_ok in Hr as (s1 & db & Hg & Hr). apply gets_run in Hg as [-> [= ->]].
  unfold id in Hr. cbv beta zeta in Hr. fold (live_key ctx request s) in Hr.
  destruct (live_key ctx request s) as [p|] eqn:Hk.
  { left. exists p. destruct (negb _) eqn:Hh; [by apply fail_run in Hr as [_ ?]|].
    apply negb_false_iff, bool_decide_eq_true in Hh. apply lift_run in Hr as [-> Hr]. by rewrite <-Hr. }
  right. split; [done|].
  apply bind_run_ok in Hr as (s1 & previous & Hp & Hr). apply lift_run in Hp as [-> Hp].
  apply bind_run_ok in Hr as (s1 & [public secrets] & Hv & Hr). apply lift_run in Hv as [-> Hv]. cbv beta iota zeta in Hr.
  unfold marshal, stored, snapshotDigest, marshal in Hr.
  repeat first [progress run_tidy | match goal with
    | H : (_ ≫= _) _ = (_, Ok _) |- _ => apply bind_run_ok in H as (? & ? & ? & H); cbv beta in H
    | H : expect _ _ _ = (_, Ok _) |- _ => apply expect_run_ok in H as [H ?]
    | H : seal_secrets _ _ _ _ _ _ _ = (_, Ok _) |- _ => apply seal_secrets_state in H as [? H]
    | H : upsert_configuration _ _ = (_, Ok _) |- _ => apply upsert_run in H as (? & ?)
    | H : insert_revision _ _ = (_, Ok _) |- _ => apply insert_revision_run in H as (? & ?)
    | H : insert_audit _ _ = (_, Ok _) |- _ => apply insert_audit_run in H as (? & ?)
    | H : insert_pkey _ _ = (_, Ok _) |- _ => apply insert_pkey_run in H as (? & ?)
    | H : insert_config_event _ _ = (_, Ok _) |- _ => apply insert_event_run in H as (? & ?)
    | H : mret _ _ = (_, _) |- _ => apply ret_run in H as [? H]
    end].
  match goal with
  | Ha : audits _ !! ad_ID ?a = None, Hp : pkeys _ !! pkey_of ?p = None, Hm : config_outbox _ !! cx_ID ?m = None,
    He : ∀ s', _ = (s', Ok ?e) |- _ => exists previous; eexists; exists e, a, p, m; rename He into Hseal
  end.
  split; cbn in *; try done; try (by simplify_option_eq).
  - eexists. split; [eassumption|apply Hseal].
  - f_equal. by destruct (configurations s !! _).
Qed.

Lemma wrap64_next r : 0 <= r < 2 ^ 63 → 0 < wrap64 (r + 1) → wrap64 (r + 1) = r + 1 ∧ r + 1 < 2 ^ 63.
Proof.
  intros Hr Hw. destruct (decide (r + 1 < 2 ^ 63)); [rewrite wrap64_id by lia; lia|].
  assert (r = 2 ^ 63 - 1) as -> by lia. by vm_compute in Hw.
Qed.

Lemma decode_columns_ok operation e n g c public envelope b t u snap :
  decode_columns cfg operation e n g c public envelope b t u = Ok snap →
  sn_Environment snap = e ∧ sn_Namespace snap = n ∧ sn_Revision snap = g ∧ sn_SchemaVersion snap = c
  ∧ sn_UpdatedBy snap = b ∧ sn_CreatedAt snap = t ∧ sn_UpdatedAt snap = u ∧ decode_map public = Some (sn_Public snap).
Proof. unfold decode_columns. intros Hd. repeat case_match; simplify_eq/=; done. Qed.

(** The revision a request replaces is the current one, 0 when there is none. *)
Definition current_revision (n : string) (db : PDB) : Z :=
  match configurations db !! (environment cfg, n) with Some r => cf_Revision r | None => 0 end.

Lemma previous_revision request s previous :
  previous_snapshot cfg request s = Ok previous →
  pr_ExpectedRevision request = current_revision (pr_Namespace request) s
  ∧ sn_Revision previous = current_revision (pr_Namespace request) s.
Proof.
  unfold previous_snapshot, current_revision. destruct (configurations s !! _) as [r|].
  - destruct (negb _) eqn:E; [done|]. apply negb_false_iff, Z.eqb_eq in E.
    intros Hd%decode_columns_ok. naive_solver.
  - destruct (negb _) eqn:E; [done|]. apply negb_false_iff, Z.eqb_eq in E. unfold Default.
    destruct (default_values _); [|done]. cbn. intros [= <-]. done.
Qed.

Lemma fresh_revision ctx request s t previous snap public envelope a p m :
  PInv s → fresh_put ctx request s t previous snap public envelope a p m →
  sn_Revision snap = current_revision (pr_Namespace request) s + 1 ∧ 0 < sn_Revision snap < 2 ^ 63
  ∧ pr_ExpectedRevision request = current_revision (pr_Namespace request) s.
Proof.
  intros Hs Hf. destruct (previous_revision _ _ _ (fp_previous _ _ _ _ _ _ _ _ _ _ _ Hf)) as [He Hp].
  pose proof (fp_check _ _ _ _ _ _ _ _ _ _ _ Hf) as Hc. rewrite (fp_revision _ _ _ _ _ _ _ _ _ _ _ Hf), Hp in *.
  assert (0 <= current_revision (pr_Namespace request) s < 2 ^ 63) as Hr.
  { unfold current_revision. destruct (configurations s !! _) as [r|] eqn:Hr; [|lia].
    destruct (pi_conf _ Hs _ _ _ Hr) as (_ & _ & ? & _). lia. }
  destruct (wrap64_next _ Hr Hc) as [-> ?]. lia.
Qed.

Lemma fresh_inv ctx request s t previous snap public envelope a p m :
  PInv s → fresh_put ctx request s t previous snap public envelope a p m → PInv t.
Proof.
  intros Hs Hf. destruct (fresh_revision _ _ _ _ _ _ _ _ _ _ _ Hs Hf) as (Hg & Hpos & _).
  destruct Hf as [_ _ _ _ _ _ _ _ _ _ _ _ Hun [Ha0 Ha] _ [Hm0 Hm] Hc Hr Hau _ Hme Hde].
  set (e0 := environment cfg) in *. set (n0 := pr_Namespace request) in *. set (g0 := sn_Revision snap) in *.
  assert (∀ r, configurations s !! (e0, n0) = Some r → g0 = cf_Revision r + 1) as Hnext.
  { intros r Hr0. rewrite Hg. unfold current_revision. fold e0. by rewrite Hr0. }
  assert (∀ e n g v, revisions s !! (e, n, g) = Some v → revisions t !! (e, n, g) = Some v) as Hkeep.
  { intros e n g v Hv. rewrite Hr, lookup_insert_ne; [done|]. intros [= -> -> ->]. congruence. }
  assert (∀ e n g, revisions s !! (e, n, g) = None → (e, n, g) ≠ (e0, n0, g0) → revisions t !! (e, n, g) = None) as Hnone.
  { intros e n g Hv Hne. by rewrite Hr, lookup_insert_ne. }
  assert (is_Some (revisions t !! (e0, n0, g0))) as Hnew by (rewrite Hr, lookup_insert_eq; eauto).
  split.
  - intros e n r. rewrite Hc, lookup_insert. case_decide as Hk.
    + injection Hk as <- <-. intros [= <-]. cbn. split_and!; [done|done|lia|lia|]. rewrite Hr, lookup_insert_eq.
      eexists. split; [done|]. done.
    + intros Hr0. destruct (pi_conf _ Hs _ _ _ Hr0) as (? & ? & ? & v & Hv & ?). naive_solver.
  - intros e n g v. rewrite Hr, lookup_insert, Hc. case_decide as Hk.
    + injection Hk as <- <- <-. intros [= <-]. cbn. split_and!; [done..|]. rewrite lookup_insert_eq.
      eexists. split; [done|]. cbn. lia.
    + intros Hv. destruct (pi_revision _ Hs _ _ _ _ Hv) as (? & ? & ? & r & Hr0 & ?). split_and!; [done..|].
      rewrite lookup_insert. case_decide as Hk'; [|by exists r]. injection Hk' as <- <-.
      eexists. split; [done|]. cbn. specialize (Hnext _ Hr0). lia.
  - intros e n r g. rewrite Hc, lookup_insert, Hau, Hme.
    assert (∀ e n r g, configurations s !! (e, n) = Some r → 0 < g <= cf_Revision r →
      is_Some (revisions t !! (e, n, g)) ∧ (∃ i a0, <[ad_ID a:=a]> (audits s) !! i = Some a0 ∧ audit_of e n g a0)
      ∧ (∃ i m0, <[cx_ID m:=m]> (config_outbox s) !! i = Some m0 ∧ message_of e n g m0)) as Hold.
    { clear e n r g. intros e n r g Hr0 Hg0. destruct (pi_every _ Hs _ _ _ _ Hr0 Hg0) as ([v Hv] & (i & b & Hb & ?) & (j & b' & Hb' & ?)).
      split_and!; [eauto|exists i, b|exists j, b']; (split; [|done]); rewrite lookup_insert_ne; [done| |done|]; congruence. }
    case_decide as Hk; [|intros Hr0; by apply Hold]. injection Hk as <- <-. intros [= <-]. cbn. intros Hg0.
    destruct (decide (g = g0)) as [->|].
    + split_and!; [done|exists (ad_ID a), a|exists (cx_ID m), m]; (split; [apply lookup_insert_eq|done]).
    + destruct (configurations s !! (e0, n0)) as [r|] eqn:Hr0.
      * apply (Hold _ _ r); [done|]. specialize (Hnext _ eq_refl). lia.
      * exfalso. unfold current_revision in Hg. fold e0 in Hg. rewrite Hr0 in Hg. lia.
  - intros i b. rewrite Hau, lookup_insert. case_decide as Hk.
    + intros [= <-]. destruct Ha as (-> & -> & ->). done.
    + intros Hb. destruct (pi_audit _ Hs _ _ Hb) as [? [v Hv]]. eauto.
  - intros i j b b' e n g. rewrite Hau.
    assert (∀ i b, audits s !! i = Some b → audit_of e n g b → audit_of e n g a → False) as Hx.
    { intros i1 b1 Hb1 (E1 & E2 & E3) (F1 & F2 & F3). destruct Ha as (G1 & G2 & G3).
      destruct (pi_audit _ Hs _ _ Hb1) as [_ [v Hv]]. rewrite E1, E2, E3 in Hv. congruence. }
    rewrite !lookup_insert. repeat case_decide; intros ?? Hb Hb'; simplify_eq; try done; try (exfalso; by eauto).
    by eapply (pi_audit_one _ Hs).
  - intros i b. rewrite Hme, lookup_insert. case_decide as Hk.
    + intros [= <-]. destruct Hm as (-> & -> & ->). done.
    + intros Hb. destruct (pi_message _ Hs _ _ Hb) as [? [v Hv]]. eauto.
  - intros i j b b' e n g. rewrite Hme.
    assert (∀ i b, config_outbox s !! i = Some b → message_of e n g b → message_of e n g m → False) as Hx.
    { intros i1 b1 Hb1 (E1 & E2 & E3) (F1 & F2 & F3). destruct Hm as (G1 & G2 & G3).
      destruct (pi_message _ Hs _ _ Hb1) as [_ [v Hv]]. rewrite E1, E2, E3 in Hv. congruence. }
    rewrite !lookup_insert. repeat case_decide; intros ?? Hb Hb'; simplify_eq; try done; try (exfalso; by eauto).
    by eapply (pi_message_one _ Hs).
  - intros e n g c d. rewrite Hde. intros Hd. destruct (pi_delivery _ Hs _ _ _ _ _ Hd) as (? & ? & ? & ? & [v Hv]).
    split_and!; [done..|]. eauto.
Qed.

Lemma fresh_grows ctx request s t previous snap public envelope a p m :
  PInv s → fresh_put ctx request s t previous snap public envelope a p m → grows s t.
Proof.
  intros Hs Hf. destruct (fresh_revision _ _ _ _ _ _ _ _ _ _ _ Hs Hf) as (Hg & Hpos & _).
  destruct Hf as [_ _ _ _ _ _ _ _ _ _ _ _ Hun [Ha0 Ha] _ [Hm0 Hm] Hc Hr Hau _ Hme Hde]. split.
  - intros [[e n] g] v Hv. rewrite Hr, lookup_insert_ne; [done|]. intros [= <- <- <-]. congruence.
  - intros i b Hb. rewrite Hau, lookup_insert_ne; [done|congruence].
  - intros k r Hk. rewrite Hc, lookup_insert. case_decide as E; [|exists r; split; [done|lia]]. subst k.
    eexists. split; [done|]. cbn. rewrite Hg. unfold current_revision. rewrite Hk. lia.
  - rewrite Hme. apply kept_insert; [apply _|]. intros q Hq. congruence.
Qed.

(** ** The other requests *)

(** Changes of the outbox that keep the content of its rows. *)
Lemma outbox_inv s box :
  PInv s → kept same_event (config_outbox s) box → (∀ i, config_outbox s !! i = None → box !! i = None) →
  (∀ i m, box !! i = Some m → cx_ID m = i) → PInv (set_config_outbox box s) ∧ grows s (set_config_outbox box s).
Proof.
  intros Hs Hk Hno Hid.
  assert (∀ i m, box !! i = Some m → ∃ m0, config_outbox s !! i = Some m0 ∧ same_event m0 m) as Hold.
  { intros i m Hm. destruct (config_outbox s !! i) as [m0|] eqn:Hm0; [|rewrite Hno in Hm; done].
    destruct (Hk i m0 Hm0) as (m1 & Hm1 & ?). assert (m1 = m) as -> by congruence. by exists m0. }
  split; [|split; cbn; [done..| |done]; intros k r Hr; exists r; split; [done|lia]].
  destruct Hs as [H1' H2' H3' H4' H5' H6' H7' H8']. split; try done; cbn [set_config_outbox config_outbox configurations revisions audits].
  - intros e n r g Hr Hg. destruct (H3' e n r g Hr Hg) as (? & ? & i & m & Hm & Hof). split_and!; [done..|].
    destruct (Hk i m Hm) as (m' & Hm' & Hse).
    exists i, m'. split; [done|]. unfold message_of, same_event in *. naive_solver congruence.
  - intros i m Hm. split; [by apply Hid|]. destruct (Hold i m Hm) as (m0 & Hm0 & _ & -> & -> & -> & _).
    by apply (H6' i m0).
  - intros i j a b e n g Ha Hb (E1 & E2 & E3) (F1 & F2 & F3).
    destruct (Hold i a Ha) as (a0 & Ha0 & _ & A1 & A2 & A3 & _), (Hold j b Hb) as (b0 & Hb0 & _ & B1 & B2 & B3 & _).
    apply (H7' i j a0 b0 e n g); unfold message_of; split_and?; congruence.
Qed.

Lemma save_event_inv s m m' :
  PInv s → config_outbox s !! cx_ID m = Some m' → same_event m' m →
  PInv (set_config_outbox (<[cx_ID m := m]> (config_outbox s)) s)
  ∧ grows s (set_config_outbox (<[cx_ID m := m]> (config_outbox s)) s).
Proof.
  intros Hs Hm Hse. apply outbox_inv; [done|..].
  - apply kept_insert; [apply _|]. intros q Hq. assert (q = m') as -> by congruence. done.
  - intros i Hi. rewrite lookup_insert_ne; [done|congruence].
  - intros i q. rewrite lookup_insert. case_decide as E; [naive_solver|]. apply (pi_message _ Hs).
Qed.

(** What a request keeps. *)
Definition fair (s t : PDB) : Prop := PInv s → PInv t ∧ grows s t.

#[export] Instance fair_preorder : PreOrder fair.
Proof.
  split; [intros s Hs; split; [done|reflexivity]|].
  intros a b c Hab Hbc Ha. destruct (Hab Ha) as [Hb ?], (Hbc Hb) as [? ?]. split; [done|by etrans].
Qed.

Lemma Put_fair ctx request : within fair (Put cfg format ctx request).
Proof.
  intros s. apply (transaction_at fair). intros t snap Hr Hs.
  assert (Put cfg format ctx request s = (t, Ok snap)) as Hp by (unfold Put; by apply transaction_run_ok).
  apply Put_run in Hp as [(p & _ & _ & _ & ->)|(_ & pr & pu & en & a & p & m & Hf)]; [split; [done|reflexivity]|].
  split; [by eapply fresh_inv|by eapply fresh_grows].
Qed.

Lemma update_event_fair i P f :
  (∀ m, P m = true → same_event m (f m)) → within fair (update_event i P f).
Proof.
  intros Hf s Hs. unfold update_event. cbv [mbind tx_bind gets id].
  destruct (config_outbox s !! i) as [m|] eqn:Hm; [|split; [done|reflexivity]].
  destruct (P m) eqn:HP; [|split; [done|reflexivity]]. cbn.
  destruct (Hf m HP) as (Hi & Hrest). destruct (pi_message _ Hs _ _ Hm) as [Hmi _].
  apply (save_event_inv s (f m) m); [done|congruence|]. by apply Hf.
Qed.

Lemma leased_same now lease m : same_event m (leased_event now lease m).
Proof. by split_and!. Qed.

Lemma ClaimConfigOutbox_fair now limit lease : within fair (ClaimConfigOutbox now limit lease).
Proof.
  intros s. apply (transaction_at fair). intros t ms Hr Hs. run_inv.
  match goal with H : collect ?l _ _ = _ |- _ => set (due := l) in *; rename H into Hr end.
  assert (∀ r, r ∈ due → config_outbox s !! cx_ID r = Some r ∧ cx_PublishedAt r = None) as Hdue.
  { intros r Hin. subst due. apply elem_of_take in Hin as (y & Hin%list_elem_of_lookup_2 & _).
    apply elem_of_order_by, elem_of_rows_where in Hin as [Hd [k Hk]].
    destruct (pi_message _ Hs _ _ Hk) as [-> _]. split; [done|]. unfold config_due in Hd.
    rewrite !andb_true_iff in Hd. destruct Hd as [[Hp _] _]. by apply is_none_true. }
  enough ((PInv t ∧ grows s t) ∧ ∀ r, r ∈ due → ∃ m, config_outbox t !! cx_ID r = Some m ∧ same_event m r) by tauto.
  revert Hr. refine (collect_keeps (λ t, (PInv t ∧ grows s t) ∧ ∀ r, r ∈ due → ∃ m, config_outbox t !! cx_ID r = Some m ∧ same_event m r) _ _ _ _ _ _ _).
  - intros r s1 s2 v Hin [[Hs1 Hg1] Hm1] Hx. unfold save_event in Hx. run_inv.
    destruct (Hm1 r Hin) as (m & Hm & Hse).
    destruct (save_event_inv s1 (leased_event now lease r) m) as [Hs2 Hg2]; [done|done|etrans; [exact Hse|apply leased_same]|].
    split; [split; [done|by etrans]|]. intros q Hq. cbn. rewrite lookup_insert. case_decide as E; [|by apply Hm1].
    eexists. split; [done|]. destruct (Hdue r Hin) as [Hr0 Hp], (Hdue q Hq) as [Hq0 _]. assert (q = r) as -> by congruence.
    unfold same_event. cbn. rewrite Hp. by split_and!.
  - split; [split; [done|reflexivity]|]. intros r Hin. exists r. split; [by apply Hdue|reflexivity].
Qed.

Lemma then_fair {A B} (m : pstore A) (k : A → pstore B) :
  within fair m → (∀ a, within fair (k a)) → within fair (m ≫= k).
Proof. apply (within_bind fair). Qed.

Lemma MarkConfigPublished_fair now i : within fair (MarkConfigPublished now i).
Proof.
  apply then_fair; [|intros n; by destruct (n =? 0)]. apply update_event_fair.
  intros m Hm. unfold same_event. split_and!; try done. intros [x Hx]. apply is_none_true in Hm. congruence.
Qed.

Lemma RetryConfigOutbox_fair now i delay : within fair (RetryConfigOutbox now i delay).
Proof. apply then_fair; [|done]. by apply update_event_fair. Qed.

Lemma ParkConfigOutbox_fair now i : within fair (ParkConfigOutbox now i).
Proof. apply then_fair; [|done]. by apply update_event_fair. Qed.

(** A report writes a row of a revision that exists. *)
Definition writable (db : PDB) (d : DeliveryRow) : Prop :=
  is_Some (revisions db !! (dv_Environment d, dv_Namespace d, dv_Revision d)).

Lemma report_read_run u now s t r :
  report_read cfg u now s = (t, Ok r) →
  t = s ∧ is_Some (revisions s !! (environment cfg, du_Namespace u, du_Revision u))
  ∧ update_invalid u = false
  ∧ let current := deliveries s !! (environment cfg, du_Namespace u, du_Revision u, du_Consumer u) in
    r = if acceptDeliveryUpdate (match current with Some d => dv_Status d | None => EmptyString end) (du_Status u)
        then Some (reported_row cfg u now current) else None.
Proof.
  unfold report_read. destruct (update_invalid u); [by intros [_ ?]%fail_run|]. intros Hr. run_inv.
  destruct (negb _) eqn:E; run_inv; (split; [done|]); (split; [eauto|]); (split; [done|]); cbv zeta.
  - apply negb_true_iff in E. by rewrite E.
  - apply negb_false_iff in E. by rewrite E.
Qed.

Lemma report_save_fair d s : writable s d → fair s (report_save d s).1.
Proof.
  intros Hw Hs. unfold report_save, require. destruct (_ && _); [|split; [done|reflexivity]].
  cbv [mret tx_ret mbind tx_bind modify fst]. split.
  - destruct Hs. split; [done..|]. intros e n g c q. cbn [deliveries revisions set_deliveries]. rewrite lookup_insert.
    case_decide as E; [injection E as <- <- <- <-; naive_solver|by apply pi_delivery0].
  - split; cbn; [done..| |reflexivity]. intros k r Hr. exists r. split; [done|lia].
Qed.

Lemma ReportDelivery_fair u now : within fair (ReportDelivery cfg u now).
Proof.
  intros s. unfold ReportDelivery. apply (within_bind_at fair).
  - destruct (report_read cfg u now s) as [t [r|e]] eqn:E; [by apply report_read_run in E as [-> _]|].
    unfold report_read in E. destruct (update_invalid u); [by apply fail_run in E as [-> _]|].
    apply bind_run_err in E as [E|(s1 & db & E & E')]; [by apply gets_run in E as [_ ?]|].
    apply gets_run in E as [-> [= ->]]. apply bind_run_err in E' as [E|(s2 & v & E & E')].
    + by apply expect_run_err in E as (_ & -> & _).
    + apply expect_run_ok in E as [_ ->]. by destruct (negb _); apply ret_run in E' as [_ ?].
  - intros s' r Hr. apply report_read_run in Hr as (-> & Hrev & _ & ->). cbv zeta.
    destruct (acceptDeliveryUpdate _ _); [apply report_save_fair, Hrev|reflexivity].
Qed.

(** ** The transition system *)

Inductive prequest :=
| PReqPut (ctx : PCtx) (actor : Z) (namespace : string) (expected : Z) (idempotencyKey : string)
    (values : gmap string string)
| PReqClaim (now limit lease : Z)
| PReqPublished (now : Z) (i : string)
| PReqRetry (now : Z) (i : string) (delay : Z)
| PReqPark (now : Z) (i : string)
| PReqReport (u : DeliveryUpdate) (now : Z).

Definition run_prequest (r : prequest) (db : PDB) : PDB :=
  match r with
  | PReqPut ctx actor n expected k values => (PutConfiguration cfg format ctx actor n expected k values db).1
  | PReqClaim now limit lease => (ClaimConfigOutbox now limit lease db).1
  | PReqPublished now i => (MarkConfigPublished now i db).1
  | PReqRetry now i delay => (RetryConfigOutbox now i delay db).1
  | PReqPark now i => (ParkConfigOutbox now i db).1
  | PReqReport u now => (ReportConsumerApply cfg u now db).1
  end.

(** The random bytes of a request have the sizes the code draws. *)
Definition drawn (ctx : PCtx) : Prop :=
  len (data_key ctx) = keySize ∧ len (wrap_nonce ctx) = nonceSize ∧ len (payload_nonce ctx) = nonceSize.

(** The submitted values are UTF-8, as the strings of Thrift and JSON are. *)
Definition utf8_values (values : gmap string string) : Prop := map_Forall (λ _ v, utf8 v = true) values.

Definition sane (r : prequest) : Prop :=
  match r with PReqPut ctx _ _ _ _ values => drawn ctx ∧ utf8_values values | _ => True end.

(** The database and the rows that reports have read but not yet written. *)
Record PWorld := MkPWorld { pdb : PDB; pending : list DeliveryRow }.

Inductive pstep : PWorld → PWorld → Prop :=
| pstep_request r w : sane r → pstep w (MkPWorld (run_prequest r (pdb w)) (pending w))
| pstep_read u now db d w :
    apply_invalid u = false → known (du_Namespace u) (pdb w) = (pdb w, Ok (du_Namespace u)) →
    report_read cfg u now (pdb w) = (db, Ok (Some d)) → pstep w (MkPWorld db (d :: pending w))
| pstep_write d w : d ∈ pending w → pstep w (MkPWorld (report_save d (pdb w)).1 (pending w)).

Definition empty_pworld : PWorld := MkPWorld empty_pdb [].

Definition preachable (w : PWorld) : Prop := rtc pstep empty_pworld w.

Lemma known_state n : within fair (known n).
Proof. apply then_fair; [intros s; reflexivity|intros ? s; reflexivity]. Qed.

Lemma run_prequest_fair r db : fair db (run_prequest r db).
Proof.
  destruct r; cbn.
  - unfold PutConfiguration. destruct (_ || _ || _ || _ || _); [reflexivity|].
    apply then_fair; [apply known_state|]. intros n. apply then_fair; [intros s; reflexivity|]. intros h.
    apply then_fair; [apply Put_fair|]. intros ? s. reflexivity.
  - apply ClaimConfigOutbox_fair.
  - apply MarkConfigPublished_fair.
  - apply RetryConfigOutbox_fair.
  - apply ParkConfigOutbox_fair.
  - unfold ReportConsumerApply. destruct (apply_invalid u); [reflexivity|].
    apply then_fair; [apply known_state|]. intros n. apply ReportDelivery_fair.
Qed.

(** What every step keeps of a world. *)
Definition pworld_ok (w : PWorld) : Prop := PInv (pdb w) ∧ Forall (writable (pdb w)) (pending w).

Lemma writable_grows s t d : grows s t → writable s d → writable t d.
Proof. intros [Hr _ _ _] [v Hv]. exists v. by apply Hr. Qed.

Lemma pstep_ok w w' : pworld_ok w → pstep w w' → pworld_ok w' ∧ grows (pdb w) (pdb w').
Proof.
  intros [Hi Hp] Hst. destruct Hst as [r w _|u now db d w _ _ Hr|d w Hd]; cbn.
  - destruct (run_prequest_fair r (pdb w) Hi) as [? ?]. split; [split; [done|]|done].
    eapply Forall_impl; [exact Hp|]. intros q. by apply writable_grows.
  - apply report_read_run in Hr as (-> & Hrev & _ & Hd). split; [|reflexivity]. split; [done|]. cbn. constructor; [|done].
    cbv zeta in Hd. case_match; [|done]. injection Hd as ->. apply Hrev.
  - rewrite Forall_forall in Hp. destruct (report_save_fair d (pdb w) (Hp d Hd) Hi) as [? ?].
    split; [split; [done|]|done]. apply Forall_forall. intros q Hq. eapply writable_grows; [done|by apply Hp].
Qed.

Lemma psteps_ok w w' : rtc pstep w w' → pworld_ok w → pworld_ok w' ∧ grows (pdb w) (pdb w').
Proof.
  induction 1 as [|w1 w2 w3 Hst _ IH]; intros Hw; [split; [done|reflexivity]|].
  destruct (pstep_ok _ _ Hw Hst) as [Hw2 ?]. destruct (IH Hw2) as [? ?]. split; [done|by etrans].
Qed.

Lemma preachable_ok w : preachable w → pworld_ok w.
Proof. intros Hw. apply (psteps_ok _ _ Hw). split; [apply empty_pinv|constructor]. Qed.

End world.
