(* ===== verification/PSync.v ===== *)
(** A consumer of the platform's configuration:
    [services/identity/internal/configsync/worker.go], which keeps the SMTP
    configuration of the mail worker ([internal/email/worker.go],
    [internal/config/option.go]) in step with the namespace email.

    The model joins the platform's database and the configuration in force in
    the identity process.  A call to the platform is served, refused, or served
    with its answer lost ([fate]). *)

From stdpp Require Import base gmap list sets strings relations.
From Stdlib Require Import ZArith Lia.
From S2P Require Import Prelude.
From S2P Require Import GoStrings.
From S2P Require Import KDomain.
From S2P Require Import Json.
From S2P Require Import Envelope.
From S2P Require Import PSchema.
From S2P Require Import PDomain.
From S2P Require Import PStore.
From S2P Require Import PService.
From S2P Require Import PWorld.

Open Scope Z_scope.

(** [config.SMTPOptions] *)
Record SMTPOptions := MkSMTPOptions {
  so_Host : string;
  so_Port : Z;
  so_Username : string;
  so_Password : string;
  so_From : string;
  so_FrontendBaseURL : string;
}.

#[export] Instance SMTPOptions_eq_dec : EqDecision SMTPOptions.
Proof. solve_decision. Defined.

(** The platform's database and the configuration the mail worker uses. *)
Record Sync := MkSync { sync_db : PDB; sync_cfg : SMTPOptions }.

Inductive fate := Served | Refused | Lost.

Definition sync (A : Type) : Type := tx Sync perror A.

(** A call of the platform. *)
Definition rpc {A} (f : fate) (m : pstore A) : sync A :=
  λ s, match f with
       | Refused => (s, Err (PFailed "platform unavailable"))
       | Served => let '(db, r) := m (sync_db s) in (MkSync db (sync_cfg s), r)
       | Lost => let '(db, _) := m (sync_db s) in (MkSync db (sync_cfg s), Err (PFailed "platform unavailable"))
       end.

(** The body of a notification: message identifier, namespace and revision. *)
Record event := MkEvent { ev_MessageID : string; ev_Namespace : string; ev_Revision : Z }.

(** What the handler does with a delivery. *)
Inductive disposition := Ack | Nack (delay : Z) | Term (reason : string).

(** [json.Unmarshal] into an [event]. *)
Class EventCodec := { decode_event : string → option event }.

Section sync.
Context `{Unicode, Uuid, Parsers, Codec, Pg, Gcm, EnvelopeCodec} (cfg : PConfig).

(** ** The mail worker's configuration *)

Definition valid_frontend (text : string) : bool :=
  match ParseURL (TrimSpace text) with
  | Some u => negb (url_Host u =?= EmptyString) && negb (url_User u)
              && ((url_Scheme u =?= "http") || (url_Scheme u =?= "https"))
              && (url_RawQuery u =?= EmptyString) && (url_Fragment u =?= EmptyString)
  | None => false
  end.

Definition ValidateSMTP (o : SMTPOptions) : bool :=
  (so_Host o =?= EmptyString)
  || ((0 <? so_Port o) && (so_Port o <=? 65535) && negb (so_From o =?= EmptyString)
      && negb (so_FrontendBaseURL o =?= EmptyString)
      && ((so_Port o =? 465) || (so_Port o =? 587))
      && negb (so_Username o =?= EmptyString) && negb (so_Password o =?= EmptyString)
      && valid_frontend (so_FrontendBaseURL o)).

(** [probe] says whether the SMTP server accepts the credentials; no host needs
    no probe. *)
Definition ApplyConfig (probe : SMTPOptions → bool) (o : SMTPOptions) : sync unit :=
  if negb (ValidateSMTP o) then fail (PFailed "validate identity email configuration")
  else if negb ((so_Host o =?= EmptyString) || probe o) then fail (PFailed "probe identity SMTP")
  else modify (λ s, MkSync (sync_db s) o).

(** ** The synchronisation *)

Definition message_values (m : ConfigurationMessage) : gmap string string :=
  foldl (λ acc v, <[va_Key v := va_Value v]> acc) ∅ (co_Values m).

Definition smtpOptions (m : ConfigurationMessage) : result perror SMTPOptions :=
  if negb (co_Namespace m =?= "email") then Err (PFailed "configuration namespace is not email")
  else
    let values := message_values m in
    match Atoi (at_key values "port") with
    | None => Err (PFailed "parse SMTP port")
    | Some port => Ok (MkSMTPOptions (at_key values "host") port (at_key values "username") (at_key values "password")
                         (at_key values "from") (at_key values "frontend_base_url"))
    end.

Definition report (f : fate) (messageID : string) (revision : Z) (status : string) (attempts : Z) (errorKey : string)
  (now : Z) : sync unit :=
  rpc f (ReportConsumerApply cfg
           (MkDeliveryUpdate messageID "email" revision "identity.email" status attempts errorKey) now).

(** What becomes of the calls of one pass, the identifier it draws and its
    clock. *)
Record SyncCtx := MkSyncCtx { fates : nat → fate; sync_id : string; sync_now : Z }.

(** [reconcile]: apply the desired revision when it is newer than the last
    applied one. *)
Definition reconcile (probe : SMTPOptions → bool) (ctx : SyncCtx) : sync unit :=
  state ← rpc (fates ctx 0%nat) (GetConsumerState cfg "email" "identity.email");
  if (cs_DesiredRevision state <=? 0) || (cs_DesiredRevision state <=? cs_AppliedRevision state) then mret tt
  else
    let revision := cs_DesiredRevision state in
    configuration ← rpc (fates ctx 1%nat) (ConsumerConfiguration cfg "email" revision "identity.email");
    candidate ← lift (smtpOptions configuration);
    report (fates ctx 2%nat) (sync_id ctx) revision "validating" 0 EmptyString (sync_now ctx) ≫= λ _,
    applied ← attempt (ApplyConfig probe candidate);
    match applied with
    | Err e =>
      (attempt (E':=perror) (report (fates ctx 3%nat) (sync_id ctx) revision "retrying" 0 "smtp_validation_failed" (sync_now ctx)))
        ≫= λ _, fail e
    | Ok _ => report (fates ctx 3%nat) (sync_id ctx) revision "applied" 0 EmptyString (sync_now ctx)
    end.

Definition retryDelay (attempt : Z) : Z :=
  let attempt := if attempt <? 1 then 1 else attempt in
  let attempt := if 4 <? attempt then 4 else attempt in
  Z.shiftl 1 (attempt - 1) * 10 * Second.

Definition header (headers : list (string * string)) (k : string) : string :=
  default EmptyString ((list_to_map headers : gmap string string) !! k).

(** The identifier and revision a notification names, in the body or else in
    the envelope of the message. *)
Definition named_message (m : ConfigMessage) (n : event) : string :=
  if negb (ev_MessageID n =?= EmptyString) then ev_MessageID n
  else if negb (om_ID m =?= EmptyString) then om_ID m
  else header (om_Headers m) "X-Message-ID".

Definition named_revision (m : ConfigMessage) (n : event) : Z :=
  if ev_Revision n <=? 0
  then default (ev_Revision n) (Atoi (header (om_Headers m) "X-Aggregate-Version"))
  else ev_Revision n.

(** Fetch the revision a notification names and put it in force. *)
Definition install (probe : SMTPOptions → bool) (ctx : SyncCtx) (revision : Z) : sync unit :=
  configuration ← rpc (fates ctx 1%nat) (ConsumerConfiguration cfg "email" revision "identity.email");
  candidate ← lift (smtpOptions configuration);
  ApplyConfig probe candidate.

(** [handle]: one delivery of a notification, for the [attempt]th time. *)
Definition handle `{EventCodec} (probe : SMTPOptions → bool) (ctx : SyncCtx) (m : ConfigMessage) (attempt_no : Z)
  : tx Sync Empty_set disposition :=
  match decode_event (om_Payload m) with
  | None => mret (Term "invalid_configuration_event")
  | Some n =>
    if negb (ev_Namespace n =?= "email") then mret Ack
    else
      let messageID := named_message m n in
      let revision := named_revision m n in
      if (revision <=? 0) || (messageID =?= EmptyString) then mret (Term "invalid_configuration_event")
      else
        validating ← attempt (report (fates ctx 0%nat) messageID revision "validating" attempt_no EmptyString (sync_now ctx));
        match validating with
        | Err _ => mret (Nack (retryDelay attempt_no))
        | Ok _ =>
          installed ← attempt (install probe ctx revision);
          match installed with
          | Ok _ =>
            applied ← attempt (report (fates ctx 2%nat) messageID revision "applied" attempt_no EmptyString (sync_now ctx));
            match applied with
            | Err _ => mret (Nack (retryDelay attempt_no))
            | Ok _ => mret Ack
            end
          | Err _ =>
            if 8 <=? attempt_no then
              attempt (report (fates ctx 2%nat) messageID revision "parked" attempt_no "smtp_validation_failed" (sync_now ctx))
                ≫= λ _, mret (Term "smtp_validation_failed")
            else
              attempt (report (fates ctx 2%nat) messageID revision "retrying" attempt_no "smtp_validation_failed" (sync_now ctx))
                ≫= λ _, mret (Nack (retryDelay attempt_no))
          end
        end
  end.

(** The process starts with the configuration of its own options. *)
Definition restart (boot : SMTPOptions) (s : Sync) : Sync := MkSync (sync_db s) boot.

End sync.
