(* ===== verification/PClaims.v ===== *)
(** Properties of the platform service and of its consumer. *)

From stdpp Require Import base gmap list sets strings relations.
From Stdlib Require Import ZArith Lia.
From S2P Require Import Prelude.
From S2P Require Import GoStrings.
From S2P Require Import GoText.
From S2P Require Import KDomain.
From S2P Require Import Json.
From S2P Require Import Envelope.
From S2P Require Import PSchema.
From S2P Require Import PDomain.
From S2P Require Import PStore.
From S2P Require Import PService.
From S2P Require Import PWorld.
From S2P Require Import PSync.

Open Scope Z_scope.

(** A map all of whose keys and values are UTF-8. *)
Definition utf8_map (m : gmap string string) : Prop := map_Forall (λ k v, utf8 k = true ∧ utf8 v = true) m.

(** What the encoders and PostgreSQL document, of text in UTF-8: a map or list of
    strings written as JSON, and as the text its jsonb column gives back, reads
    as the same map or list; so do the fields of an envelope; and with a key
    identifier of at most 1024 bytes the jsonb text of an envelope stays within
    twice the limit of its content. *)
Class ConfigLaws `{Codec, Pg, Gcm, EnvelopeCodec} : Prop := {
  map_text : ∀ m text, utf8_map m → json_encode (map_json m) = Some text → decode_map text = Some m;
  map_stored : ∀ m text st, utf8_map m → json_encode (map_json m) = Some text → jsonb text = Some st →
    decode_map st = Some m;
  keys_stored : ∀ l text st, Forall (λ k, utf8 k = true) l → json_encode (JStrings l) = Some text → jsonb text = Some st →
    json_decode st ≫= string_slice = Some l;
  envelope_stored :: EnvelopeText jsonb;
  envelope_size : ∀ dek wn pn p k i b encoded text,
    len dek = keySize → len wn = nonceSize → len pn = nonceSize → len i <= 1024 →
    Encrypt dek wn pn p k i b = Some encoded → jsonb encoded = Some text → len text <= maximumContent * 2;
}.

(** The key identifier the service is configured with. *)
Definition sound_key (cfg : PConfig) : Prop := len (keyID cfg) <= 1024 ∧ utf8 (keyID cfg) = true.

Section claims.
Context `{Unicode, Uuid, Parsers, Codec, Pg, Gcm, EnvelopeCodec} (cfg : PConfig) (format : Z → string).
Context `{!GcmLaws, !ConfigLaws} (Hkey : sound_key cfg).

(** ** Reading back what was written *)

Lemma Encrypt_valid dek wn pn p k i b encoded :
  Encrypt dek wn pn p k i b = Some encoded → validateCryptoInputs p k i b = true.
Proof. unfold Encrypt. by destruct (validateCryptoInputs p k i b). Qed.

Lemma seal_secrets_open ctx n g secrets text s envelope :
  drawn ctx → utf8_map secrets → json_encode (map_json secrets) = Some text →
  seal_secrets cfg ctx n g secrets text s = (s, Ok envelope) →
  match envelope with
  | None => secrets = ∅
  | Some e => e ≠ EmptyString ∧ Decrypt e (key cfg) (keyID cfg) (binding cfg n g) ≫= decode_map = Some secrets
  end.
Proof.
  intros (Hd & Hw & Hp) Hu Ht. unfold seal_secrets, stored. destruct (bool_decide _) eqn:E.
  { intros [_ [= ->]]%ret_run. by apply bool_decide_eq_true in E. }
  intros Hr. run_inv.
  match goal with He : Encrypt _ _ _ _ _ _ _ = Some ?e, Hj : jsonb ?e = Some ?j |- _ =>
    destruct (envelope_opens jsonb _ _ _ _ _ _ _ (Encrypt_valid _ _ _ _ _ _ _ _ He) (proj2 Hkey) Hd Hw Hp) as (e' & He' & Hdec);
    assert (e' = e) as -> by congruence;
    destruct (Hdec j Hj (envelope_size _ _ _ _ _ _ _ _ _ Hd Hw Hp (proj1 Hkey) He Hj)) as [Hopen _];
    destruct (Encrypt_run (data_key ctx) (wrap_nonce ctx) (payload_nonce ctx) _ _ _ _ (Encrypt_valid _ _ _ _ _ _ _ _ He) Hd)
      as (wr & pl & Hs1 & Hs2 & He2); rewrite He2 in He; injection He as <-;
    destruct (decode_rendered _ _ (sealed_utf8 _ _ _ _ _ _ _ _ _ Hs1 Hs2 (proj2 Hkey)) Hj) as [_ Hne] end.
  split; [done|]. rewrite Hopen. cbn. by apply map_text.
Qed.

Lemma stored_decodes ctx request s t previous snap public envelope a p m :
  drawn ctx → utf8_map (sn_Public snap) → utf8_map (sn_Secrets snap) →
  fresh_put cfg ctx request s t previous snap public envelope a p m →
  ∀ operation c b u w, decode_columns cfg operation (environment cfg) (pr_Namespace request) (sn_Revision snap) c public
      envelope b u w
    = Ok (MkSnapshot (environment cfg) (pr_Namespace request) (sn_Revision snap) c (sn_Public snap) (sn_Secrets snap) b u w).
Proof.
  intros Hd Hpu Hse Hf operation c b u w. destruct (fp_envelope _ _ _ _ _ _ _ _ _ _ _ _ Hf) as (text & Ht & Hseal).
  pose proof (seal_secrets_open _ _ _ _ _ _ _ Hd Hse Ht Hseal) as Hopen.
  pose proof (fp_public _ _ _ _ _ _ _ _ _ _ _ _ Hf) as Hp. apply bind_Some in Hp as (text' & Ht' & Hj).
  unfold decode_columns. rewrite (map_stored _ _ _ Hpu Ht' Hj). destruct envelope as [e|].
  - destruct Hopen as [Hne Hopen]. by rewrite bool_decide_false, Hopen by done.
  - by rewrite Hopen.
Qed.

(** ** Stored configurations are valid *)

(** Only the secret keys of the namespace hold secrets, all in UTF-8. *)
Definition only_secrets (n : string) (secrets : gmap string string) : Prop :=
  map_Forall (λ k v, k ∈ secretKeys n ∧ utf8 v = true) secrets.

(** A revision that decodes to what [Validate] made of some submitted values. *)
Definition row_valid (v : RevisionRow) : Prop :=
  ∃ snap values old, decodeRevision cfg v = Ok snap ∧ sn_Revision snap = rv_Revision v
    ∧ sn_Namespace snap = rv_Namespace v ∧ only_secrets (rv_Namespace v) (sn_Secrets snap)
    ∧ Validate (rv_Namespace v) values old = Ok (sn_Public snap, sn_Secrets snap).

Definition all_valid (db : PDB) : Prop := ∀ k v, revisions db !! k = Some v → row_valid v.

Definition same_revisions (s t : PDB) : Prop := revisions t = revisions s.

#[local] Instance same_revisions_preorder : PreOrder same_revisions.
Proof. split; [done|]. intros a b c Hab Hbc. unfold same_revisions in *. congruence. Qed.

Lemma update_event_same i P f : within same_revisions (update_event i P f).
Proof.
  intros s. unfold update_event. cbv [mbind tx_bind gets id]. destruct (config_outbox s !! i); [|done]. by destruct (P _).
Qed.

Lemma claim_same now limit lease : within same_revisions (ClaimConfigOutbox now limit lease).
Proof.
  intros s. apply (transaction_at same_revisions). intros t ms Hr. run_inv.
  match goal with H : collect _ _ _ = _ |- _ => revert H end.
  apply (collect_keeps (λ t, same_revisions s t)); [|done].
  intros r s1 s2 v _ Hs1 Hx. unfold save_event in Hx. run_inv. done.
Qed.

Lemma report_save_same d : within same_revisions (report_save d).
Proof. intros s. unfold report_save, require. by destruct (_ && _). Qed.

Lemma report_same u now : within same_revisions (ReportDelivery cfg u now).
Proof.
  apply (within_bind same_revisions).
  - intros s. unfold report_read. destruct (update_invalid u); [done|]. cbv [mbind tx_bind gets id].
    destruct (revisions s !! _); cbn; [|done]. by destruct (negb _).
  - intros [d|] s; [apply report_save_same|done].
Qed.

Lemma Validate_valid n values old public secrets :
  Validate n values old = Ok (public, secrets) → validateNamespace n public secrets = Ok tt.
Proof.
  unfold Validate. intros (defaults & _ & ([pu se] & _ & Hv)%result_bind_ok)%result_bind_ok.
  cbn in Hv. apply result_then_ok in Hv as [Hv [= <- <-]]. done.
Qed.

Lemma apply_values_utf8 defaults allowed values public secrets public' secrets' :
  apply_values defaults allowed values public secrets = Ok (public', secrets') →
  Forall (λ kv, utf8 kv.2 = true) values → utf8_map defaults → utf8_map public →
  map_Forall (λ k v, k ∈ allowed ∧ utf8 v = true) secrets →
  utf8_map public' ∧ map_Forall (λ k v, k ∈ allowed ∧ utf8 v = true) secrets'.
Proof.
  intros Ha Hv Hd. revert public secrets Ha. induction Hv as [|[k0 v0] values Hv0 _ IH]; intros public secrets; cbn [apply_values].
  { by intros [= <- <-]. }
  destruct (defaults !! k0) as [w|] eqn:Hk; cbn [is_some].
  - intros Ha Hp Hs. apply (IH _ _ Ha); [|done]. apply map_Forall_insert_2; [|done].
    split; [by apply (Hd _ _ Hk)|by apply utf8_TrimSpace].
  - case_bool_decide as Hin; [|done]. intros Ha Hp Hs. apply (IH _ _ Ha); [done|].
    case_match; [by apply map_Forall_delete|]. apply map_Forall_insert_2; [|done]. split; [done|by apply utf8_TrimSpace].
Qed.

Lemma defaults_utf8 n snap : Default n = Ok snap → utf8_map (sn_Public snap).
Proof.
  unfold Default, default_values.
  destruct (n =?= "site"); [|destruct (n =?= "email"); [|destruct (n =?= "ai"); [|done]]]; intros [= <-]; cbn [sn_Public];
    apply (bool_decide_eq_true_1 (map_Forall _ _)); by vm_compute.
Qed.

Lemma Validate_utf8 n values old public secrets :
  Validate n values old = Ok (public, secrets) → utf8_values values → only_secrets n old →
  utf8_map public ∧ only_secrets n secrets.
Proof.
  unfold Validate. intros (defaults & Hd & ([pu se] & Ha & Hv)%result_bind_ok)%result_bind_ok Hu Ho.
  cbn in Hv. apply result_then_ok in Hv as [_ [= <- <-]]. pose proof (defaults_utf8 _ _ Hd).
  eapply apply_values_utf8; [exact Ha| |done|done|done]. apply Forall_forall. intros [k x] Hin%elem_of_map_to_list. by apply (Hu k).
Qed.

Lemma secrets_utf8 n secrets : only_secrets n secrets → utf8_map secrets.
Proof.
  intros Ho k v Hk. destruct (Ho k v Hk) as [Hin Hv]. split; [|done]. unfold secretKeys in Hin.
  repeat case_match; apply list_elem_of_In in Hin; cbn in Hin; naive_solver.
Qed.

Lemma decode_content r v snap :
  same_content r v → cf_Namespace r = rv_Namespace v → cf_Revision r = rv_Revision v →
  decodeRevision cfg v = Ok snap →
  ∃ snap', decode cfg r = Ok snap' ∧ sn_Public snap' = sn_Public snap ∧ sn_Secrets snap' = sn_Secrets snap.
Proof.
  intros (_ & Hp & He & _ & _) Hn Hg. unfold decode, decodeRevision, decode_columns. rewrite Hp, He, Hn, Hg.
  intros Hd. repeat case_match; simplify_eq/=; by eexists.
Qed.

(** The configuration in force reads as its revision. *)
Lemma current_valid s n r :
  PInv s → all_valid s → configurations s !! (environment cfg, n) = Some r →
  ∃ snap values old, decode cfg r = Ok snap ∧ only_secrets n (sn_Secrets snap)
    ∧ Validate n values old = Ok (sn_Public snap, sn_Secrets snap).
Proof.
  intros Hi Hv Hr. destruct (pi_conf _ Hi _ _ _ Hr) as (_ & Hrn & _ & v & Hrev & Hsame).
  destruct (pi_revision _ Hi _ _ _ _ Hrev) as (_ & Hvn & Hvg & _).
  destruct (Hv _ _ Hrev) as (snap & values & old & Hd & _ & _ & Ho & Hval).
  destruct (decode_content r v snap Hsame) as (snap' & ? & Hp & Hs); [congruence..|].
  exists snap', values, old. rewrite Hp, Hs, <-Hvn. done.
Qed.

Lemma previous_secrets s request previous :
  PInv s → all_valid s → previous_snapshot cfg request s = Ok previous →
  only_secrets (pr_Namespace request) (sn_Secrets previous).
Proof.
  intros Hi Hv. unfold previous_snapshot. destruct (configurations s !! _) as [r|] eqn:Hr; destruct (negb _); try done.
  - intros Hd. destruct (current_valid s _ r Hi Hv Hr) as (snap & ? & ? & Hs & ? & _). assert (previous = snap) as -> by congruence. done.
  - unfold Default. destruct (default_values _); [|done]. cbn. intros [= <-]. apply map_Forall_empty.
Qed.

Lemma fresh_texts ctx request s t previous snap public envelope a p m :
  fresh_put cfg ctx request s t previous snap public envelope a p m → utf8_values (pr_Values request) → PInv s →
  all_valid s → utf8_map (sn_Public snap) ∧ only_secrets (pr_Namespace request) (sn_Secrets snap).
Proof.
  intros Hf Hu Hi Hs. eapply Validate_utf8; [apply (fp_valid _ _ _ _ _ _ _ _ _ _ _ _ Hf)|done|].
  eapply previous_secrets; [done..|]. apply (fp_previous _ _ _ _ _ _ _ _ _ _ _ _ Hf).
Qed.

Lemma fresh_valid ctx request s t previous snap public envelope a p m :
  drawn ctx → fresh_put cfg ctx request s t previous snap public envelope a p m → utf8_values (pr_Values request) →
  PInv s → all_valid s → all_valid t.
Proof.
  intros Hd Hf Hu Hi Hs k v. rewrite (fp_revisions _ _ _ _ _ _ _ _ _ _ _ _ Hf), lookup_insert. case_decide; [|apply Hs].
  destruct (fresh_texts _ _ _ _ _ _ _ _ _ _ _ Hf Hu Hi Hs) as [Hpu Hse].
  intros [= <-]. exists (read_back snap), (pr_Values request), (sn_Secrets previous). unfold decodeRevision.
  cbn [rv_Environment rv_Namespace rv_Revision rv_SchemaVersion rv_PublicValues rv_SecretEnvelope rv_UpdatedBy
    rv_CreatedAt rv_UpdatedAt].
  rewrite (stored_decodes _ _ _ _ _ _ _ _ _ _ _ Hd Hpu (secrets_utf8 _ _ Hse) Hf). split_and!; [|done| |done|].
  - destruct Hf. destruct snap; unfold read_back; cbn in *; congruence.
  - apply (fp_namespace _ _ _ _ _ _ _ _ _ _ _ _ Hf).
  - apply (fp_valid _ _ _ _ _ _ _ _ _ _ _ _ Hf).
Qed.

Lemma Put_failed ctx request s t e : Put cfg format ctx request s = (t, Err e) → t = s.
Proof. unfold Put. by intros [-> _]%transaction_run_err. Qed.

Lemma run_prequest_valid r db : sane r → PInv db → all_valid db → all_valid (run_prequest cfg format r db).
Proof.
  assert (∀ s t, same_revisions s t → all_valid s → all_valid t) as Hsame.
  { intros s t Hst Hs k v. rewrite Hst. apply Hs. }
  destruct r; cbn; intros Hd Hi Hv; [destruct Hd as [Hd Hu]|..].
  - unfold PutConfiguration. destruct (_ || _ || _ || _ || _); [done|]. unfold known. cbv [mbind tx_bind lift mret tx_ret].
    destruct (Default _); [|done]. destruct (requestHash _ _ _); [|done].
    match goal with |- context [Put ?c ?f ?x ?r ?s] => destruct (Put c f x r s) as [t [snap|e]] eqn:Hp end; cbn.
    + apply Put_run in Hp as [(p & _ & _ & _ & ->)|(_ & pv & pu & en & au & p & m & Hf)]; [done|]. by apply (fresh_valid _ _ _ _ _ _ _ _ _ _ _ Hd Hf).
    + by apply Put_failed in Hp as ->.
  - eapply Hsame, Hv. apply claim_same.
  - eapply Hsame, Hv. apply (within_bind same_revisions); [apply update_event_same|]. intros n s. by destruct (n =? 0).
  - eapply Hsame, Hv. apply (within_bind same_revisions); [apply update_event_same|]. done.
  - eapply Hsame, Hv. apply (within_bind same_revisions); [apply update_event_same|]. done.
  - eapply Hsame, Hv. unfold ReportConsumerApply. destruct (apply_invalid u); [done|].
    apply (within_bind same_revisions); [intros s; unfold known; cbv [mbind tx_bind lift]; by destruct (Default _)|].
    intros n. apply report_same.
Qed.

Lemma psteps_valid w w' :
  rtc (pstep cfg format) w w' → pworld_ok w → all_valid (pdb w) → all_valid (pdb w').
Proof.
  induction 1 as [|w1 w2 w3 Hst _ IH]; [done|]. intros Hok Hv. apply IH; [by destruct (pstep_ok _ _ _ _ Hok Hst)|].
  destruct Hst as [r w Hr|u now db d w _ _ Hr|d w Hd]; cbn.
  - apply run_prequest_valid; [done|apply Hok|done].
  - by apply report_read_run in Hr as (-> & _).
  - intros k v. rewrite (report_save_same d (pdb w)). apply Hv.
Qed.

Lemma preachable_valid w : preachable cfg format w → all_valid (pdb w).
Proof.
  intros Hw. eapply psteps_valid; [exact Hw|split; [apply empty_pinv|constructor]|].
  intros k v Hv. cbn in Hv. by rewrite lookup_empty in Hv.
Qed.

(** ** Outcomes of [Put] *)

Lemma GetRevision_fresh ctx request s t previous snap public envelope a p m :
  drawn ctx → utf8_map (sn_Public snap) → utf8_map (sn_Secrets snap) →
  fresh_put cfg ctx request s t previous snap public envelope a p m →
  GetRevision cfg (pr_Namespace request) (sn_Revision snap) t = (t, Ok (read_back snap)).
Proof.
  intros Hd Hpu Hse Hf. unfold GetRevision. cbv [mbind tx_bind gets id].
  rewrite (fp_revisions _ _ _ _ _ _ _ _ _ _ _ _ Hf), lookup_insert_eq. cbn [expect mret tx_ret].
  unfold lift, decodeRevision. cbn [rv_Environment rv_Namespace rv_Revision rv_SchemaVersion rv_PublicValues
    rv_SecretEnvelope rv_UpdatedBy rv_CreatedAt rv_UpdatedAt].
  rewrite (stored_decodes _ _ _ _ _ _ _ _ _ _ _ Hd Hpu Hse Hf). destruct Hf. destruct snap; unfold read_back; cbn in *; congruence.
Qed.

(** The administrator's view depends on the values shown and on which secrets
    there are. *)
Lemma toConfiguration_ext s1 s2 :
  sn_Environment s1 = sn_Environment s2 → sn_Namespace s1 = sn_Namespace s2 → sn_Revision s1 = sn_Revision s2 →
  sn_SchemaVersion s1 = sn_SchemaVersion s2 → sn_Public s1 = sn_Public s2 → sn_UpdatedAt s1 = sn_UpdatedAt s2 →
  sn_UpdatedBy s1 = sn_UpdatedBy s2 → (∀ k, is_some (sn_Secrets s1 !! k) = is_some (sn_Secrets s2 !! k)) →
  toConfiguration s1 = toConfiguration s2.
Proof.
  intros E1 E2 E3 E4 E5 E6 E7 E8. unfold toConfiguration. rewrite E1, E2, E3, E4, E5, E6, E7. do 2 f_equal.
  apply list_fmap_ext. intros i k Hk. by rewrite E8.
Qed.

Lemma Get_fresh ctx request s t previous snap public envelope a p m :
  drawn ctx → utf8_map (sn_Public snap) → utf8_map (sn_Secrets snap) →
  fresh_put cfg ctx request s t previous snap public envelope a p m →
  ∃ view, Get cfg (pr_Namespace request) t = (t, Ok view) ∧ toConfiguration view = toConfiguration (read_back snap)
    ∧ sn_Public view = sn_Public snap ∧ sn_Secrets view = sn_Secrets snap.
Proof.
  intros Hd Hpu Hse Hf. unfold Get. cbv [mbind tx_bind gets id].
  rewrite (fp_configurations _ _ _ _ _ _ _ _ _ _ _ _ Hf), lookup_insert_eq. unfold lift, decode.
  cbn [cf_Environment cf_Namespace cf_Revision cf_SchemaVersion cf_PublicValues cf_SecretEnvelope cf_UpdatedBy
    cf_CreatedAt cf_UpdatedAt].
  rewrite (stored_decodes _ _ _ _ _ _ _ _ _ _ _ Hd Hpu Hse Hf). eexists. split; [done|]. split; [|done].
  destruct Hf. apply toConfiguration_ext; cbn; congruence.
Qed.

Lemma Put_live ctx request s p snap :
  live_key cfg ctx request s = Some p → pk_RequestHash p = pr_RequestHash request →
  snapshotFromIdempotency p = Ok snap → Put cfg format ctx request s = (s, Ok snap).
Proof.
  intros Hk Hh Hs. unfold Put, transaction. cbv [mbind tx_bind gets id]. cbv beta iota zeta.
  change (option_bind _ _ ?f ?x) with (x ≫= f). fold (live_key cfg ctx request s). rewrite Hk.
  by rewrite Hh, bool_decide_true, Hs by done.
Qed.

Lemma Put_stale ctx request s :
  live_key cfg ctx request s = None → pr_ExpectedRevision request ≠ current_revision cfg (pr_Namespace request) s →
  Put cfg format ctx request s = (s, Err ErrPrecondition).
Proof.
  intros Hk Hne. unfold Put, transaction. cbv [mbind tx_bind gets id]. cbv beta iota zeta.
  change (option_bind _ _ ?f ?x) with (x ≫= f). fold (live_key cfg ctx request s). rewrite Hk.
  unfold lift, previous_snapshot. unfold current_revision in Hne.
  destruct (configurations s !! _); by rewrite (proj2 (Z.eqb_neq _ _)).
Qed.

(** A key that expired still occupies its row. *)
Lemma Put_expired ctx request s p :
  pkeys s !! (environment cfg, pr_ActorID request, pr_Namespace request, pr_IdempotencyKey request) = Some p →
  pk_ExpiresAt p <= timestamptz (pnow ctx) → ∃ e, Put cfg format ctx request s = (s, Err e).
Proof.
  intros Hp He. destruct (Put cfg format ctx request s) as [t [snap|e]] eqn:Hr; [|apply Put_failed in Hr as ->; by exists e].
  exfalso. assert (live_key cfg ctx request s = None) as Hk.
  { unfold live_key. rewrite Hp. cbn. by rewrite (proj2 (Z.ltb_ge _ _)). }
  apply Put_run in Hr as [(q & Hq & _)|(_ & pv & pu & en & a & q & m & Hf)]; [congruence|].
  destruct (fp_pkey _ _ _ _ _ _ _ _ _ _ _ _ Hf) as (Hn & Hpk & _). rewrite Hpk in Hn. congruence.
Qed.

Lemma secret_keys_mark (secrets : gmap string string) k :
  is_some ((list_to_map ((λ k, (k, "configured")) <$> order_by String.compare (map_to_list secrets).*1) : gmap string string) !! k)
  = is_some (secrets !! k).
Proof.
  set (l := order_by _ _). assert (∀ x, x ∈ l ↔ is_Some (secrets !! x)) as Hl.
  { intros x. unfold l. rewrite elem_of_order_by, list_elem_of_fmap. split.
    - intros ([y v] & -> & Hin%elem_of_map_to_list). eauto.
    - intros [v Hv]. exists (x, v). split; [done|]. by apply elem_of_map_to_list. }
  clearbody l. destruct (list_to_map _ !! k) as [v|] eqn:E; cbn.
  - apply elem_of_list_to_map_2, list_elem_of_fmap in E as (x & [= -> _] & Hx). apply Hl in Hx as [w ->]. done.
  - apply not_elem_of_list_to_map in E. destruct (secrets !! k) as [w|] eqn:Hk; [|done]. exfalso. apply E.
    rewrite <-list_fmap_compose. apply list_elem_of_fmap. exists k. split; [done|]. apply Hl. eauto.
Qed.

Lemma utf8_keys (secrets : gmap string string) :
  utf8_map secrets → Forall (λ k, utf8 k = true) (order_by String.compare (map_to_list secrets).*1).
Proof.
  intros Hs. apply Forall_forall. intros k Hk%elem_of_order_by. apply list_elem_of_fmap in Hk as ([x v] & -> & Hin%elem_of_map_to_list).
  by apply (Hs x v).
Qed.

Lemma replay_fresh ctx request s t previous snap public envelope a p m ctx' :
  utf8_map (sn_Public snap) → utf8_map (sn_Secrets snap) →
  fresh_put cfg ctx request s t previous snap public envelope a p m →
  timestamptz (pnow ctx') < timestamptz (pnow ctx + 24 * Hour) →
  ∃ snap', Put cfg format ctx' request t = (t, Ok snap') ∧ toConfiguration snap' = toConfiguration (read_back snap).
Proof.
  intros Hpu Hse Hf Hnow. destruct (fp_pkey _ _ _ _ _ _ _ _ _ _ _ _ Hf) as (_ & Hpk & Hh & Hx & Hr & Hpub & Hks & Hsv & _ & Hu).
  apply bind_Some in Hks as (text & Ht & Hj). pose proof (fp_public _ _ _ _ _ _ _ _ _ _ _ _ Hf) as Hp.
  apply bind_Some in Hp as (text' & Ht' & Hj').
  eexists. split.
  - apply (Put_live _ _ _ p); [|done|].
    + unfold live_key. rewrite <-Hpk, (fp_pkeys _ _ _ _ _ _ _ _ _ _ _ _ Hf), lookup_insert_eq. cbn.
      by rewrite (proj2 (Z.ltb_lt _ _)) by lia.
    + unfold snapshotFromIdempotency. rewrite Hpub, (map_stored _ _ _ Hpu Ht' Hj'), (keys_stored _ _ _ (utf8_keys _ Hse) Ht Hj). done.
  - injection Hpk as He Ha Hn _. destruct Hf. apply toConfiguration_ext; cbn; try congruence.
    intros k. apply secret_keys_mark.
Qed.

(** C22: What [Put] does on a reachable database with values in UTF-8.  When it fails, nothing changes.  When
    it succeeds, it either answered a request recorded under the same key less
    than 24 hours ago, changing nothing, or it named the current revision, its
    values are valid, and it stored the next revision: reading that revision
    back gives the answer, secrets included, except that its two instants are
    cut to the microseconds the columns keep, and so does reading the
    configuration.  Then every other request that names the old revision
    fails, a retry under the same key within 24 hours (to the microsecond)
    gives the administrator the same answer, with the time of the change cut to
    the microsecond, and from then on every request under that key fails. *)
Theorem put_spec w ctx request :
  preachable cfg format w → drawn ctx → utf8_values (pr_Values request) → let s := pdb w in let n := pr_Namespace request in
  match Put cfg format ctx request s with
  | (t, Err _) => t = s
  | (t, Ok snap) =>
    (t = s ∧ ∃ p, live_key cfg ctx request s = Some p ∧ pk_RequestHash p = pr_RequestHash request
                  ∧ snapshotFromIdempotency p = Ok snap)
    ∨ (pr_ExpectedRevision request = current_revision cfg n s ∧ sn_Revision snap = current_revision cfg n s + 1
       ∧ (∃ old, Validate n (pr_Values request) old = Ok (sn_Public snap, sn_Secrets snap))
       ∧ GetRevision cfg n (sn_Revision snap) t = (t, Ok (read_back snap))
       ∧ (∃ view, Get cfg n t = (t, Ok view) ∧ toConfiguration view = toConfiguration (read_back snap)
                  ∧ sn_Public view = sn_Public snap ∧ sn_Secrets view = sn_Secrets snap)
       ∧ (∀ ctx' request', pr_Namespace request' = n → pr_ExpectedRevision request' = pr_ExpectedRevision request →
            live_key cfg ctx' request' t = None → Put cfg format ctx' request' t = (t, Err ErrPrecondition))
       ∧ (∀ ctx', timestamptz (pnow ctx') < timestamptz (pnow ctx + 24 * Hour) →
            ∃ snap', Put cfg format ctx' request t = (t, Ok snap')
                     ∧ toConfiguration snap' = toConfiguration (read_back snap))
       ∧ (∀ ctx' request', pr_ActorID request' = pr_ActorID request → pr_Namespace request' = n →
            pr_IdempotencyKey request' = pr_IdempotencyKey request →
            timestamptz (pnow ctx + 24 * Hour) <= timestamptz (pnow ctx') → ∃ e, Put cfg format ctx' request' t = (t, Err e)))
  end.
Proof.
  intros Hw Hd Hu s n. pose proof (preachable_ok _ _ _ Hw) as [Hs _]. fold s in Hs. destruct (Put cfg format ctx request s) as [t [snap|e]] eqn:Hr;
    [|by apply Put_failed in Hr].
  apply Put_run in Hr as [(p & Hp & Hh & Hsn & ->)|(_ & pv & pu & en & a & p & m & Hf)]; [left; eauto|right].
  destruct (fresh_revision _ _ _ _ _ _ _ _ _ _ _ _ Hs Hf) as (Hg & _ & He).
  destruct (fresh_texts _ _ _ _ _ _ _ _ _ _ _ Hf Hu Hs (preachable_valid _ Hw)) as [Hpu Hse%secrets_utf8].
  split_and!; [done|done|eexists; apply (fp_valid _ _ _ _ _ _ _ _ _ _ _ _ Hf)|by eapply GetRevision_fresh|by eapply Get_fresh| | |].
  - intros ctx' request' Hn Hx Hk. apply Put_stale; [done|]. rewrite Hn, Hx. unfold current_revision.
    rewrite (fp_configurations _ _ _ _ _ _ _ _ _ _ _ _ Hf), lookup_insert_eq. cbn. fold n in Hg, He. lia.
  - intros ctx' Hnow. by eapply replay_fresh.
  - intros ctx' request' Ha Hn Hk Hnow. destruct (fp_pkey _ _ _ _ _ _ _ _ _ _ _ _ Hf) as (_ & Hpk & _ & Hx & _).
    apply (Put_expired _ _ _ p); [|lia].
    rewrite Ha, Hn, Hk. fold n in Hpk. rewrite <-Hpk, (fp_pkeys _ _ _ _ _ _ _ _ _ _ _ _ Hf). apply lookup_insert_eq.
Qed.

(** C23: In every reachable database the revisions of a configuration are exactly
    the numbers from 1 to the current one, each with one audit entry and one
    event; the current revision holds what the configuration holds; and no
    revision, audit entry, event or report belongs to anything else.  From then
    on revisions and audit entries never change, the current revision never
    decreases, and an event keeps its content and, once published, its time. *)
Theorem config_history w :
  preachable cfg format w → let db := pdb w in
  (∀ e n r, configurations db !! (e, n) = Some r →
     (∀ g, is_Some (revisions db !! (e, n, g)) ↔ 0 < g <= cf_Revision r)
     ∧ (∃ v, revisions db !! (e, n, cf_Revision r) = Some v ∧ same_content r v)
     ∧ ∀ g, 0 < g <= cf_Revision r →
         (exists! i, ∃ a, audits db !! i = Some a ∧ audit_of e n g a)
         ∧ (exists! i, ∃ m, config_outbox db !! i = Some m ∧ message_of e n g m))
  ∧ (∀ e n g, is_Some (revisions db !! (e, n, g)) → is_Some (configurations db !! (e, n)))
  ∧ (∀ i a, audits db !! i = Some a → is_Some (revisions db !! (ad_Environment a, ad_Namespace a, ad_Revision a)))
  ∧ (∀ i m, config_outbox db !! i = Some m → is_Some (revisions db !! (cx_Environment m, cx_Namespace m, cx_Revision m)))
  ∧ (∀ e n g c, is_Some (deliveries db !! (e, n, g, c)) → is_Some (revisions db !! (e, n, g)))
  ∧ (∀ w', rtc (pstep cfg format) w w' → let db' := pdb w' in
       (∀ k v, revisions db !! k = Some v → revisions db' !! k = Some v)
       ∧ (∀ i a, audits db !! i = Some a → audits db' !! i = Some a)
       ∧ (∀ k r, configurations db !! k = Some r → ∃ r', configurations db' !! k = Some r' ∧ cf_Revision r <= cf_Revision r')
       ∧ (∀ i m, config_outbox db !! i = Some m → ∃ m', config_outbox db' !! i = Some m' ∧ same_event m m')).
Proof.
  intros Hw db. pose proof (preachable_ok _ _ _ Hw) as Hok. destruct Hok as [Hi Hp]. fold db in Hi. split_and!.
  - intros e n r Hr. split_and!.
    + intros g. split.
      * intros [v Hv]. destruct (pi_revision _ Hi _ _ _ _ Hv) as (_ & _ & _ & r' & Hr' & ?). by simplify_eq.
      * intros Hg. by apply (pi_every _ Hi _ _ _ _ Hr Hg).
    + by destruct (pi_conf _ Hi _ _ _ Hr) as (_ & _ & _ & ?).
    + intros g Hg. destruct (pi_every _ Hi _ _ _ _ Hr Hg) as (_ & (i & a & Ha & Hof) & (j & m & Hm & Hmf)). split.
      * exists i. split; [by exists a|]. intros i' (a' & Ha' & Hof'). by eapply (pi_audit_one _ Hi).
      * exists j. split; [by exists m|]. intros j' (m' & Hm' & Hmf'). by eapply (pi_message_one _ Hi).
  - intros e n g [v Hv]. destruct (pi_revision _ Hi _ _ _ _ Hv) as (_ & _ & _ & r & -> & _). eauto.
  - intros i a Ha. by apply (pi_audit _ Hi i).
  - intros i m Hm. by apply (pi_message _ Hi i).
  - intros e n g c [d Hd]. by destruct (pi_delivery _ Hi _ _ _ _ _ Hd) as (_ & _ & _ & _ & ?).
  - intros w' Hst. destruct (psteps_ok _ _ _ _ Hst (preachable_ok _ _ _ Hw)) as [_ [? ? ? Hk]]. split_and!; done.
Qed.

Lemma defaults_valid n snap :
  focal_ok "50" = true → Default n = Ok snap → validateNamespace n (sn_Public snap) (sn_Secrets snap) = Ok tt.
Proof.
  intros Hf. unfold Default, default_values, validateNamespace.
  destruct (n =?= "site"); [|destruct (n =?= "email"); [|destruct (n =?= "ai"); [|done]]]; intros [= <-]; cbn [sn_Public sn_Secrets].
  - unfold validate_site. change (at_key site_defaults "hero_focal_x") with "50".
    change (at_key site_defaults "hero_focal_y") with "50". rewrite Hf. by vm_compute.
  - by vm_compute.
  - by vm_compute.
Qed.

Lemma Get_valid w n :
  preachable cfg format w → focal_ok "50" = true → known_namespace n = true →
  ∃ snap, Get cfg n (pdb w) = (pdb w, Ok snap) ∧ validateNamespace n (sn_Public snap) (sn_Secrets snap) = Ok tt.
Proof.
  intros Hw Hf Hn. pose proof (preachable_valid _ Hw) as Hv. destruct (preachable_ok _ _ _ Hw) as [Hi _].
  unfold Get. cbv [mbind tx_bind gets id]. destruct (configurations (pdb w) !! _) as [r|] eqn:Hr.
  - destruct (current_valid _ n r Hi Hv Hr) as (snap & values & old & -> & _ & Hval%Validate_valid). by exists snap.
  - unfold lift. destruct (Default n) as [snap|e] eqn:Hd.
    + eexists. split; [done|]. cbn. by apply (defaults_valid n snap).
    + exfalso. unfold known_namespace in Hn. apply bool_decide_eq_true in Hn. unfold Default, default_values in Hd.
      repeat case_bool_decide; set_solver.
Qed.

(** C36: In every reachable database reading a known namespace succeeds and gives a
    valid configuration, secrets included; in particular the public site profile
    can always be read, with a focal point that was accepted. *)
Theorem configurations_valid w :
  preachable cfg format w → focal_ok "50" = true →
  (∀ n, known_namespace n = true →
     ∃ snap, Get cfg n (pdb w) = (pdb w, Ok snap) ∧ validateNamespace n (sn_Public snap) (sn_Secrets snap) = Ok tt)
  ∧ ∃ snap profile, Get cfg "site" (pdb w) = (pdb w, Ok snap) ∧ SiteProfile cfg (pdb w) = (pdb w, Ok profile)
      ∧ ParseFloat (at_key (sn_Public snap) "hero_focal_x") = Some (sp_HeroFocalX profile)
      ∧ ParseFloat (at_key (sn_Public snap) "hero_focal_y") = Some (sp_HeroFocalY profile)
      ∧ sp_Title profile = at_key (sn_Public snap) "title".
Proof.
  intros Hw Hf. split; [intros n Hn; by apply Get_valid|].
  destruct (Get_valid w "site" Hw Hf) as (snap & Hg & Hv); [done|]. exists snap.
  unfold validateNamespace in Hv. cbn in Hv. unfold validate_site in Hv.
  destruct (_ || _ || _ || _); [done|]. destruct (_ && _); [done|].
  destruct (negb (focal_ok _) || _) eqn:E; [done|]. apply orb_false_iff in E as [Ex%negb_false_iff Ey%negb_false_iff].
  unfold focal_ok in Ex, Ey. unfold SiteProfile. cbv [mbind tx_bind]. rewrite Hg.
  destruct (ParseFloat (at_key _ "hero_focal_x")) as [x|]; [|done].
  destruct (ParseFloat (at_key _ "hero_focal_y")) as [y|]; [|done]. eexists. by split_and!.
Qed.

End claims.
