(* ===== verification/PSyncFacts.v ===== *)
(** How the identity service follows the platform's configuration of the
    namespace email: convergence, and where it does not follow. *)

From stdpp Require Import base gmap list sets strings relations.
From Stdlib Require Import ZArith Lia.
From S2P Require Import Prelude.
From S2P Require Import GoStrings.
From S2P Require Import GoText.
From S2P Require Import KDomain.
From S2P Require Import Json.
From S2P Require Import Envelope.
From S2P Require Import PSchema.
From S2P Require Import PDomain.
From S2P Require Import PStore.
From S2P Require Import PService.
From S2P Require Import PWorld.
From S2P Require Import PSync.
From S2P Require Import PClaims.

Open Scope Z_scope.

(** The options a configuration of the namespace email stands for. *)
Definition value_of (snap : Snapshot) (k : string) : string :=
  default EmptyString (visible_value (sn_Public snap) (sn_Secrets snap) k).

Definition smtp_of (snap : Snapshot) : SMTPOptions :=
  MkSMTPOptions (value_of snap "host") (default 0 (Atoi (value_of snap "port"))) (value_of snap "username")
    (value_of snap "password") (value_of snap "from") (value_of snap "frontend_base_url").

Definition terminal (status : string) : bool := (status =?= "applied") || (status =?= "rejected") || (status =?= "parked").

(** An empty text is no address, and no URL with a host. *)
Class ParserLaws `{Parsers} : Prop := {
  ParseAddress_empty : ParseAddress EmptyString = false;
  ParseURL_empty : ∀ u, ParseURL EmptyString = Some u → url_Host u = EmptyString;
}.

Section facts.
Context `{Unicode, Uuid, Parsers, Codec, Pg, Gcm, EnvelopeCodec} (cfg : PConfig) (format : Z → string).

(** ** What a consumer receives *)

Lemma foldl_values (f : string → ConfigValue) l (m : gmap string string) k :
  (∀ k, va_Key (f k) = k) →
  foldl (λ acc v, <[va_Key v := va_Value v]> acc) m (f <$> l) !! k
  = if bool_decide (k ∈ l) then Some (va_Value (f k)) else m !! k.
Proof.
  intros Hf. revert m. induction l as [|x l IH]; intros m; cbn [fmap list_fmap foldl]; [by rewrite bool_decide_false by set_solver|].
  rewrite IH, Hf, lookup_insert. repeat case_bool_decide; repeat case_decide; subst; set_solver.
Qed.

Lemma message_value snap k :
  at_key (message_values (toConsumerConfiguration snap)) k = value_of snap k.
Proof.
  unfold message_values, toConsumerConfiguration. cbn [co_Values]. unfold at_key.
  rewrite foldl_values by (intros j; by destruct (sn_Secrets snap !! j)). unfold value_of, visible_value.
  rewrite lookup_empty. case_bool_decide as Hin.
  - destruct (sn_Secrets snap !! k); [done|]. cbn. unfold at_key. by destruct (sn_Public snap !! k).
  - rewrite elem_of_order_by, elem_of_app, !list_elem_of_fmap in Hin.
    destruct (sn_Secrets snap !! k) as [x|] eqn:Hs.
    { exfalso. apply Hin. right. exists (k, x). split; [done|]. by apply elem_of_map_to_list. }
    destruct (sn_Public snap !! k) as [x|] eqn:Hp; [|done].
    exfalso. apply Hin. left. exists (k, x). split; [done|]. by apply elem_of_map_to_list.
Qed.

(** A public key is not shadowed. *)
Lemma value_public snap k :
  only_secrets "email" (sn_Secrets snap) → k ≠ "password" → value_of snap k = at_key (sn_Public snap) k.
Proof.
  intros Ho Hk. unfold value_of, visible_value, at_key. destruct (sn_Secrets snap !! k) as [x|] eqn:E; [|done].
  exfalso. assert (k ∈ secretKeys "email") as Hin by (by apply (Ho k x)). set_solver.
Qed.

Lemma smtpOptions_of snap :
  sn_Namespace snap = "email" → only_secrets "email" (sn_Secrets snap) →
  validateNamespace "email" (sn_Public snap) (sn_Secrets snap) = Ok tt →
  smtpOptions (toConsumerConfiguration snap) = Ok (smtp_of snap).
Proof.
  intros Hn Ho Hv. unfold smtpOptions. rewrite !message_value.
  change (co_Namespace (toConsumerConfiguration snap)) with (sn_Namespace snap). rewrite Hn.
  rewrite bool_decide_true by done. cbn [negb]. unfold smtp_of.
  rewrite (value_public _ "port") by done. change (validate_email (sn_Public snap) (sn_Secrets snap) = Ok tt) in Hv.
  unfold validate_email in Hv. destruct (ParseBool _); [|done]. destruct (Atoi (at_key (sn_Public snap) "port")); [done|].
  rewrite bool_decide_false in Hv by set_solver. done.
Qed.

(** ** Configurations the platform accepts as enabled *)

Lemma apply_values_trimmed defaults allowed values public secrets public' secrets' :
  apply_values defaults allowed values public secrets = Ok (public', secrets') →
  map_Forall (λ _ v, TrimSpace v = v) public → map_Forall (λ _ v, TrimSpace v = v) public'.
Proof.
  revert public secrets. induction values as [|[k0 v0] values IH]; intros public secrets; cbn [apply_values].
  { by intros [= <- _]. }
  destruct (is_some _).
  - intros Hr Hp. apply (IH _ _ Hr). apply map_Forall_insert_2; [apply TrimSpace_idem|done].
  - case_bool_decide; [|done]. apply IH.
Qed.

Lemma email_trimmed values old public secrets k :
  Validate "email" values old = Ok (public, secrets) → TrimSpace (at_key public k) = at_key public k.
Proof.
  unfold Validate. intros (defaults & Hd & ([pu se] & Ha & Hv)%result_bind_ok)%result_bind_ok.
  cbn in Hv. apply result_then_ok in Hv as [_ [= <- <-]].
  apply apply_values_trimmed in Ha.
  - unfold at_key. destruct (pu !! k) eqn:E; [|done]. by apply (Ha k).
  - cbn in Hd. injection Hd as <-. cbn [sn_Public]. apply map_Forall_lookup. apply (bool_decide_unpack _). by vm_compute.
Qed.

Lemma length_in_nonempty v m : length_in v 1 m = true → (v =?= EmptyString) = false.
Proof. intros Hl. apply bool_decide_eq_false. intros ->. unfold length_in in Hl. change (rune_count (TrimSpace EmptyString)) with 0 in Hl. lia. Qed.

Lemma enabled_accepted `{!ParserLaws} snap values old :
  only_secrets "email" (sn_Secrets snap) →
  Validate "email" values old = Ok (sn_Public snap, sn_Secrets snap) →
  ParseBool (at_key (sn_Public snap) "enabled") = Some true → ValidateSMTP (smtp_of snap) = true.
Proof.
  intros Ho Hv He. pose proof (email_trimmed _ _ _ _ "frontend_base_url" Hv) as Ht. apply Validate_valid in Hv.
  change (validate_email (sn_Public snap) (sn_Secrets snap) = Ok tt) in Hv. unfold validate_email in Hv. rewrite He in Hv.
  destruct (negb (bool_decide _)) eqn:Hp; [done|]. apply negb_false_iff, bool_decide_eq_true in Hp.
  destruct (_ || _) eqn:E in Hv; [done|]. rewrite !orb_false_iff, !negb_false_iff in E. destruct E as [[Eh Eu] Ep].
  destruct (ParseAddress _) eqn:Ef in Hv; [|done]. cbn [negb] in Hv. destruct (validHTTPOrigin _) eqn:Eo in Hv; [|done].
  apply orb_true_iff. right. unfold smtp_of.
  cbn [so_Host so_Port so_Username so_Password so_From so_FrontendBaseURL]. rewrite !value_public by done.
  assert (value_of snap "password" = at_key (sn_Secrets snap) "password") as ->.
  { unfold value_of, visible_value, at_key in *. by destruct (sn_Secrets snap !! "password"). }
  rewrite (length_in_nonempty _ _ Eu), (length_in_nonempty _ _ Ep).
  assert ((at_key (sn_Public snap) "from" =?= EmptyString) = false) as ->.
  { apply bool_decide_eq_false. intros E. by rewrite E, ParseAddress_empty in Ef. }
  unfold validHTTPOrigin in Eo. unfold valid_frontend. rewrite Ht.
  destruct (ParseURL _) as [u|] eqn:Hu; [|done]. rewrite !andb_true_iff in Eo. destruct Eo as [[[[[E1 E2] E3] _] E5] E6].
  assert ((at_key (sn_Public snap) "frontend_base_url" =?= EmptyString) = false) as ->.
  { apply bool_decide_eq_false. intros E. rewrite E in Hu. apply ParseURL_empty in Hu. rewrite Hu in E1. done. }
  rewrite E1, E2, E3, E5, E6. destruct (Atoi _) as [p|]; [|exfalso; set_solver]. cbn [default].
  assert (p = 465 ∨ p = 587) as [-> | ->] by set_solver; done.
Qed.
(** ** The state of the consumer *)

Definition ckey (g : Z) : string * string * Z * string := (environment cfg, "email", g, "identity.email").

Definition applied_at (db : PDB) (g : Z) : Prop := ∃ d, deliveries db !! ckey g = Some d ∧ dv_Status d = "applied".

Lemma delivery_of_key db k d :
  PInv db → deliveries db !! k = Some d → delivery_of cfg "email" "identity.email" d = true → k = ckey (dv_Revision d).
Proof.
  intros Hi Hd. destruct k as [[[e n] g] c]. destruct (pi_delivery _ Hi _ _ _ _ _ Hd) as (<- & <- & <- & <- & _).
  unfold delivery_of. rewrite !andb_true_iff, !bool_decide_eq_true. intros [[-> ->] ->]. done.
Qed.

Lemma key_delivery db g d :
  PInv db → deliveries db !! ckey g = Some d → delivery_of cfg "email" "identity.email" d = true ∧ dv_Revision d = g.
Proof.
  intros Hi Hd. destruct (pi_delivery _ Hi _ _ _ _ _ Hd) as (E1 & E2 & E3 & E4 & _). split; [|done].
  unfold delivery_of. by rewrite E1, E2, E4, !bool_decide_true by done.
Qed.

(** Deliveries are of revisions up to the current one. *)
Lemma delivery_bound db r g d :
  PInv db → configurations db !! (environment cfg, "email") = Some r → deliveries db !! ckey g = Some d → 0 < g <= cf_Revision r.
Proof.
  intros Hi Hr Hd. destruct (pi_delivery _ Hi _ _ _ _ _ Hd) as (_ & _ & _ & _ & [v Hv]).
  destruct (pi_revision _ Hi _ _ _ _ Hv) as (_ & _ & _ & r' & Hr' & ?). assert (r' = r) as -> by congruence. done.
Qed.

(** A delivery of the current revision comes first. *)
Lemma newest_current (P : DeliveryRow → bool) db r d :
  PInv db → configurations db !! (environment cfg, "email") = Some r → deliveries db !! ckey (cf_Revision r) = Some d →
  P d = true → first_where (λ d, delivery_of cfg "email" "identity.email" d && P d) newest_first (deliveries db) = Some d.
Proof.
  intros Hi Hr Hd HP. destruct (key_delivery _ _ _ Hi Hd) as [Hof Hg].
  eapply first_where_least; [apply _|exact Hd|by rewrite Hof, HP|].
  intros j w Hw [Hof' _]%andb_true_iff Hne. pose proof (delivery_of_key _ _ _ Hi Hw Hof') as ->.
  pose proof (delivery_bound _ _ _ _ Hi Hr Hw) as [_ Hle].
  assert (dv_Revision w ≠ cf_Revision r) by congruence. unfold newest_first, descending, by_key. rewrite Hg.
  rewrite (proj2 (Z.compare_gt_iff _ _)); [done|lia].
Qed.

Lemma first_where_ext {K V} `{Countable K} (P Q : V → bool) c (m : gmap K V) :
  (∀ v, P v = Q v) → first_where P c m = first_where Q c m.
Proof.
  intros E. unfold first_where, rows_where. do 2 f_equal. apply list_filter_iff. intros v. by rewrite E.
Qed.

(** The newest applied revision. *)
Lemma applied_run db r :
  PInv db → configurations db !! (environment cfg, "email") = Some r →
  let a := first_where (λ d, delivery_of cfg "email" "identity.email" d && (dv_Status d =?= "applied")) newest_first
             (deliveries db) in
  match a with
  | Some d => dv_Revision d <= cf_Revision r ∧ (dv_Revision d = cf_Revision r ↔ applied_at db (cf_Revision r))
  | None => ¬ applied_at db (cf_Revision r)
  end.
Proof.
  intros Hi Hr a. destruct a as [d|] eqn:Ha; subst a.
  - destruct (first_where_Some _ _ _ _ Ha) as [[Hof Hs%bool_decide_eq_true]%andb_true_iff [k Hk]].
    pose proof (delivery_of_key _ _ _ Hi Hk Hof) as ->. pose proof (delivery_bound _ _ _ _ Hi Hr Hk) as [_ Hle].
    split; [done|]. split; [intros E; exists d; by rewrite <-E|]. intros (d' & Hd' & Hs').
    rewrite (newest_current (λ d, dv_Status d =?= "applied") db r d') in Ha by (done || by apply bool_decide_eq_true).
    injection Ha as <-. by apply (key_delivery db).
  - intros (d & Hd & Hs). rewrite first_where_None in Ha. specialize (Ha _ _ Hd).
    destruct (key_delivery _ _ _ Hi Hd) as [Hof _]. rewrite Hof, Hs in Ha. done.
Qed.

Lemma state_run db r :
  PInv db → configurations db !! (environment cfg, "email") = Some r →
  ∃ st, GetConsumerState cfg "email" "identity.email" db = (db, Ok st) ∧ cs_DesiredRevision st = cf_Revision r
    ∧ (cs_DesiredRevision st <= cs_AppliedRevision st ↔ applied_at db (cf_Revision r))
    ∧ cs_AppliedRevision st <= cs_DesiredRevision st
    ∧ ∀ d, deliveries db !! ckey (cf_Revision r) = Some d → cs_Status st = dv_Status d.
Proof.
  intros Hi Hr. destruct (pi_conf _ Hi _ _ _ Hr) as (_ & _ & [Hpos _] & _).
  unfold GetConsumerState. change (validConsumer "identity.email") with true. cbn [negb].
  cbv [mbind tx_bind]. change (known "email" db) with (db, @Ok perror string "email"). cbv beta iota.
  unfold ConsumerState. cbv [mbind tx_bind gets id]. rewrite Hr, (proj2 (Z.leb_gt _ _)) by done.
  destruct (first_where (delivery_of _ _ _) newest_first (deliveries db)) as [latest|] eqn:Hl.
  - pose proof (applied_run db r Hi Hr) as Ha. cbv zeta in Ha.
    assert (∀ d, deliveries db !! ckey (cf_Revision r) = Some d → latest = d ∧ dv_Revision d = cf_Revision r) as Hd.
    { intros d Hd. split; [|by apply (key_delivery db)].
      pose proof (newest_current (λ _, true) db r d Hi Hr Hd eq_refl) as Hn.
      rewrite (first_where_ext _ (delivery_of cfg "email" "identity.email")) in Hn by (intros v; apply andb_true_r). congruence. }
    destruct (first_where (λ d, _ && _) _ _) as [x|]; eexists; (split; [done|]).
    all: split_and!; [by repeat case_match| | |].
    all: try (intros d [-> E]%Hd; rewrite E, Z.eqb_refl; done).
    all: repeat case_match; cbn; try lia; try tauto; try (split; [lia|tauto]).
    all: split; [intros ?; apply Ha; lia|intros ?%Ha; lia].
  - eexists. split; [done|]. cbn. split_and!; [done| |lia|].
    + split; [lia|]. intros (d & Hd & _). rewrite first_where_None in Hl. specialize (Hl _ _ Hd).
      destruct (key_delivery _ _ _ Hi Hd). congruence.
    + intros d Hd. rewrite first_where_None in Hl. specialize (Hl _ _ Hd). destruct (key_delivery _ _ _ Hi Hd). congruence.
Qed.

(** ** Reports *)

Definition message_ok (i : string) : Prop := is_Some (uuid_version i) ∧ TrimSpace i ≠ EmptyString.

Definition status_at (db : PDB) (g : Z) : string :=
  match deliveries db !! ckey g with Some d => dv_Status d | None => EmptyString end.

Lemma accept_terminal current next :
  acceptDeliveryUpdate current next = if terminal current then current =?= next else true.
Proof. done. Qed.

(** What a served report changes: the status of its revision, unless that is
    final. *)
Record reported (g : Z) (status : string) (s t : PDB) : Prop := Reported {
  re_inv : PInv t;
  re_configurations : configurations t = configurations s;
  re_revisions : revisions t = revisions s;
  re_status : status_at t g = if terminal (status_at s g) then status_at s g else status;
  re_other : ∀ g', g' ≠ g → status_at t g' = status_at s g';
}.

Lemma save_run d db :
  0 < dv_Revision d → 0 <= dv_Attempts d → dv_Consumer d = "identity.email" → rune_count (dv_LastErrorKey d) <= 128 →
  report_save d db
  = (set_deliveries (<[(dv_Environment d, dv_Namespace d, dv_Revision d, dv_Consumer d) := d]> (deliveries db)) db, Ok tt).
Proof.
  intros Hg Hn Hc Hk. unfold report_save, require. rewrite Hc.
  rewrite (proj2 (Z.ltb_lt _ _)), !(proj2 (Z.leb_le _ _)) by (done || vm_compute; discriminate). done.
Qed.

Lemma saved_reported g status d db :
  dv_Status d = status → (terminal (status_at db g) = true → status = status_at db g) →
  PInv (set_deliveries (<[ckey g := d]> (deliveries db)) db) →
  reported g status db (set_deliveries (<[ckey g := d]> (deliveries db)) db).
Proof.
  intros Hs Ht Hi. split; [done..| |].
  - unfold status_at at 1. cbn [deliveries set_deliveries]. rewrite lookup_insert_eq.
    destruct (terminal _); [rewrite Hs; auto|done].
  - intros g' Hne. unfold status_at. cbn [deliveries set_deliveries]. rewrite lookup_insert_ne; [done|]. by intros [= ->].
Qed.

Section report.
Context (i : string) (g : Z) (status : string) (n : Z) (errorKey : string) (now : Z).
Context (Hid : message_ok i) (Hst : status ∈ ["validating"; "retrying"; "applied"; "rejected"; "parked"]).
Context (Hn : 0 <= n) (Hk : rune_count errorKey <= 128) (Hg : 0 < g).

Let u := MkDeliveryUpdate i "email" g "identity.email" status n errorKey.

Lemma update_valid : apply_invalid u = false ∧ update_invalid u = false.
Proof.
  destruct Hid as [[w Hw] Hne]. split.
  - unfold apply_invalid, u. cbn [du_Consumer du_Revision du_MessageID du_Attempts]. change (validConsumer "identity.email") with true.
    rewrite (proj2 (Z.leb_gt _ _)), (proj2 (Z.ltb_ge _ _)), bool_decide_false; [done|by intros ->|done|done].
  - unfold update_invalid, u. cbn [du_Consumer du_Revision du_MessageID du_Namespace du_Status].
    rewrite (proj2 (Z.leb_gt _ _)), (bool_decide_true (status ∈ _)), (bool_decide_false (TrimSpace i = _)), Hw by done. done.
Qed.

Lemma report_reads db :
  is_Some (revisions db !! (environment cfg, "email", g)) →
  report_read cfg u now db
  = (db, Ok (if acceptDeliveryUpdate (status_at db g) status then Some (reported_row cfg u now (deliveries db !! ckey g)) else None)).
Proof.
  intros [v Hv]. unfold report_read. rewrite (proj2 update_valid). cbv [mbind tx_bind gets id].
  change (du_Namespace u) with "email". change (du_Revision u) with g. change (du_Consumer u) with "identity.email".
  change (du_Status u) with status. rewrite Hv. cbn [expect mret tx_ret]. fold (ckey g). fold (status_at db g).
  by destruct (acceptDeliveryUpdate _ _).
Qed.

Lemma report_run db :
  PInv db → is_Some (revisions db !! (environment cfg, "email", g)) →
  ∃ db', ReportConsumerApply cfg u now db = (db', Ok tt) ∧ reported g status db db'.
Proof.
  intros Hi Hv. pose proof (ReportDelivery_fair cfg u now db Hi) as [Hfair _]. revert Hfair.
  unfold ReportConsumerApply. rewrite (proj1 update_valid). cbv [mbind tx_bind].
  change (known (du_Namespace u) db) with (db, @Ok perror string "email"). cbv beta iota.
  change (set_du_Namespace "email" u) with u. unfold ReportDelivery. cbv [mbind tx_bind]. rewrite report_reads by done.
  rewrite accept_terminal. destruct (if terminal _ then _ else _) eqn:E.
  - rewrite save_run by done. intros Hfair. eexists. split; [done|]. apply saved_reported; [done| |done].
    intros Ht. rewrite Ht in E. by apply bool_decide_eq_true in E.
  - intros _. eexists. split; [done|]. split; [done..| |done]. by destruct (terminal _).
Qed.

End report.

Lemma reported_then g a b s t u : terminal a = false → reported g a s t → reported g b t u → reported g b s u.
Proof.
  intros Ha [_ C1 R1 S1 O1] [Hi C2 R2 S2 O2]. split; [done|congruence..| |].
  - rewrite S2, S1. destruct (terminal (status_at s g)) eqn:E; [by rewrite E|by rewrite Ha].
  - intros g' Hne. by rewrite O2, O1.
Qed.

Lemma applied_status db g : applied_at db g ↔ status_at db g = "applied".
Proof.
  unfold applied_at, status_at. split; [by intros (d & -> & ->)|].
  destruct (deliveries db !! ckey g) as [d|]; [|done]. intros E. by exists d.
Qed.

Lemma reported_applied g status s t g' : reported g status s t → applied_at s g' → applied_at t g'.
Proof.
  intros [_ _ _ Hs Ho] Ha%applied_status. apply applied_status. destruct (decide (g' = g)) as [->|Hne].
  - by rewrite Hs, Ha.
  - by rewrite Ho.
Qed.

Lemma reported_valid g status s t : reported g status s t → all_valid cfg s → all_valid cfg t.
Proof. intros Hr Hv k v. rewrite (re_revisions _ _ _ _ Hr). apply Hv. Qed.

(** ** Following the platform *)

(** A revision of the namespace email and the options it stands for. *)
Record offers (db : PDB) (g : Z) (snap : Snapshot) : Prop := Offers {
  of_read : GetRevision cfg "email" g db = (db, Ok snap);
  of_namespace : sn_Namespace snap = "email";
  of_secrets : only_secrets "email" (sn_Secrets snap);
  of_valid : ∃ values old, Validate "email" values old = Ok (sn_Public snap, sn_Secrets snap);
}.

Lemma revision_offers db g :
  PInv db → all_valid cfg db → is_Some (revisions db !! (environment cfg, "email", g)) → ∃ snap, offers db g snap.
Proof.
  intros Hi Hv [v Hg]. destruct (pi_revision _ Hi _ _ _ _ Hg) as (_ & Hn & _ & _).
  destruct (Hv _ _ Hg) as (snap & values & old & Hd & _ & Hsn & Ho & Hval). rewrite Hn in *. exists snap. split; [|done..|by eauto].
  unfold GetRevision. cbv [mbind tx_bind gets id]. rewrite Hg. cbn [expect mret tx_ret]. unfold lift. by rewrite Hd.
Qed.

Lemma offers_det db g snap snap' : offers db g snap → offers db g snap' → snap' = snap.
Proof. intros [Hr _ _ _] [Hr' _ _ _]. rewrite Hr in Hr'. by injection Hr'. Qed.

Lemma offers_same s t g snap : revisions t = revisions s → offers s g snap → offers t g snap.
Proof.
  intros E [Hr ? ? ?]. split; [|done..]. unfold GetRevision in *. cbv [mbind tx_bind gets id] in *. rewrite E.
  destruct (revisions s !! _); cbn [expect mret tx_ret fail] in *; [|done]. unfold lift in *. congruence.
Qed.

Lemma offered db g snap o :
  0 < g → offers db g snap →
  rpc Served (ConsumerConfiguration cfg "email" g "identity.email") (MkSync db o)
  = (MkSync db o, Ok (toConsumerConfiguration snap)).
Proof.
  intros Hg [Hr _ _ _]. unfold rpc, ConsumerConfiguration. change (validConsumer "identity.email") with true.
  rewrite (proj2 (Z.leb_gt _ _)) by done. cbn [negb orb sync_db sync_cfg]. cbv [mbind tx_bind].
  change (known "email" db) with (db, @Ok perror string "email"). cbv beta iota. by rewrite Hr.
Qed.

Lemma offered_options db g snap : offers db g snap → smtpOptions (toConsumerConfiguration snap) = Ok (smtp_of snap).
Proof. intros [_ ? ? (values & old & Hv%Validate_valid)]. by apply smtpOptions_of. Qed.

Definition accepted (probe : SMTPOptions → bool) (o : SMTPOptions) : bool :=
  ValidateSMTP o && ((so_Host o =?= EmptyString) || probe o).

Lemma ApplyConfig_run probe o s :
  if accepted probe o then ApplyConfig probe o s = (MkSync (sync_db s) o, Ok tt)
  else ∃ e, ApplyConfig probe o s = (s, Err e).
Proof.
  unfold accepted, ApplyConfig. destruct (ValidateSMTP o); cbn [negb andb]; [|by eexists].
  destruct (_ || _); cbn [negb]; [done|by eexists].
Qed.

Lemma served_report ctx k i g status n errorKey db o :
  fates ctx k = Served → PInv db → is_Some (revisions db !! (environment cfg, "email", g)) → message_ok i →
  status ∈ ["validating"; "retrying"; "applied"; "rejected"; "parked"] → 0 <= n → rune_count errorKey <= 128 →
  ∃ db', report cfg (fates ctx k) i g status n errorKey (sync_now ctx) (MkSync db o) = (MkSync db' o, Ok tt)
    ∧ reported g status db db'.
Proof.
  intros Hf Hi Hg Hid Hst Hn Hk. pose proof Hg as [v Hv]. destruct (pi_revision _ Hi _ _ _ _ Hv) as (_ & _ & _ & r & _ & [Hpos _]).
  destruct (report_run i g status n errorKey (sync_now ctx) Hid Hst Hn Hk Hpos db Hi Hg) as (db' & Hr & ?).
  exists db'. split; [|done]. unfold report, rpc. rewrite Hf. cbn [sync_db sync_cfg]. by rewrite Hr.
Qed.

Lemma state_served ctx k db o r :
  fates ctx k = Served → PInv db → configurations db !! (environment cfg, "email") = Some r →
  ∃ st, rpc (fates ctx k) (GetConsumerState cfg "email" "identity.email") (MkSync db o) = (MkSync db o, Ok st)
    ∧ cs_DesiredRevision st = cf_Revision r ∧ (cs_DesiredRevision st <= cs_AppliedRevision st ↔ applied_at db (cf_Revision r)).
Proof.
  intros Hf Hi Hr. destruct (state_run db r Hi Hr) as (st & Hst & ? & ? & _). exists st. split; [|done].
  unfold rpc. rewrite Hf. cbn [sync_db sync_cfg]. by rewrite Hst.
Qed.

(** One pass that has something to apply. *)
Lemma reconcile_run probe ctx db o r :
  PInv db → all_valid cfg db → configurations db !! (environment cfg, "email") = Some r →
  ¬ applied_at db (cf_Revision r) → (∀ k, fates ctx k = Served) → message_ok (sync_id ctx) →
  let g := cf_Revision r in
  ∃ snap db', offers db g snap
    ∧ if accepted probe (smtp_of snap)
      then reconcile cfg probe ctx (MkSync db o) = (MkSync db' (smtp_of snap), Ok tt) ∧ reported g "applied" db db'
      else (∃ e, reconcile cfg probe ctx (MkSync db o) = (MkSync db' o, Err e)) ∧ reported g "retrying" db db'.
Proof.
  intros Hi Hv Hr Hna Hf Hid g. destruct (pi_conf _ Hi _ _ _ Hr) as (_ & _ & [Hpos _] & w & Hw & _).
  assert (is_Some (revisions db !! (environment cfg, "email", g))) as Hg by eauto.
  destruct (revision_offers db g Hi Hv Hg) as [snap Hof]. exists snap.
  destruct (state_served ctx 0 db o r (Hf _) Hi Hr) as (st & Hst & Hd & Hap).
  destruct (served_report ctx 2 (sync_id ctx) g "validating" 0 EmptyString db o (Hf _) Hi Hg Hid) as (db1 & Hr1 & Hre1);
    [set_solver|done|by vm_compute|]. pose proof (re_inv _ _ _ _ Hre1) as Hi1.
  assert (∀ status e o', status ∈ ["retrying"; "applied"] → rune_count e <= 128 → ∃ db2,
      report cfg (fates ctx 3) (sync_id ctx) g status 0 e (sync_now ctx) (MkSync db1 o') = (MkSync db2 o', Ok tt)
      ∧ reported g status db db2) as Hlast.
  { intros status e o' Hin He.
    destruct (served_report ctx 3 (sync_id ctx) g status 0 e db1 o' (Hf _) Hi1) as (db2 & ? & Hre2);
      [by rewrite (re_revisions _ _ _ _ Hre1)|done|set_solver|done|done|].
    exists db2. split; [done|]. by apply (reported_then g "validating" status db db1 db2). }
  unfold reconcile. cbv [mbind tx_bind]. rewrite Hst.
  rewrite (proj2 (orb_false_iff _ _)) by (split; apply Z.leb_gt; [lia|]; rewrite <-Hap in Hna; lia).
  rewrite Hd, (Hf 1%nat). fold g. rewrite (offered db g snap o Hpos Hof). unfold lift. rewrite (offered_options _ _ _ Hof), Hr1.
  unfold attempt. pose proof (ApplyConfig_run probe (smtp_of snap) (MkSync db1 o)) as Hac.
  destruct (accepted probe (smtp_of snap)).
  - destruct (Hlast "applied" EmptyString (smtp_of snap)) as (db2 & Hlr & ?); [set_solver|by vm_compute|].
    exists db2. split_and!; [done| |done]. rewrite Hac. cbn [sync_db]. by rewrite Hlr.
  - destruct Hac as [e Hac]. destruct (Hlast "retrying" "smtp_validation_failed" o) as (db2 & Hlr & ?); [set_solver|by vm_compute|].
    exists db2. split_and!; [done| |done]. exists e. rewrite Hac. cbv beta iota. by rewrite Hlr.
Qed.

(** A pass that finds the desired revision applied, or no platform, does nothing. *)
Lemma reconcile_idle probe ctx db o r :
  PInv db → configurations db !! (environment cfg, "email") = Some r → applied_at db (cf_Revision r) →
  (reconcile cfg probe ctx (MkSync db o)).1 = MkSync db o.
Proof.
  intros Hi Hr Ha. destruct (state_run db r Hi Hr) as (st & Hst & Hd & Hap & _). apply Hap in Ha.
  unfold reconcile. cbv [mbind tx_bind]. unfold rpc at 1. cbn [sync_db sync_cfg]. destruct (fates ctx 0); rewrite ?Hst; [|done..].
  rewrite (proj2 (orb_true_iff _ _)); [done|]. right. by apply Z.leb_le.
Qed.

(** A delivery whose revision is accepted. *)
Lemma handle_served `{EventCodec} probe ctx m n attempt_no db o snap :
  PInv db → decode_event (om_Payload m) = Some n → ev_Namespace n = "email" → message_ok (named_message m n) →
  is_Some (revisions db !! (environment cfg, "email", named_revision m n)) → offers db (named_revision m n) snap →
  accepted probe (smtp_of snap) = true → (∀ k, fates ctx k = Served) → 0 <= attempt_no →
  ∃ db', handle cfg probe ctx m attempt_no (MkSync db o) = (MkSync db' (smtp_of snap), Ok Ack)
    ∧ reported (named_revision m n) "applied" db db'.
Proof.
  intros Hi Hev Hns Hid Hg Hof Hacc Hf Hn. set (g := named_revision m n) in *.
  pose proof Hg as [v Hv]. destruct (pi_revision _ Hi _ _ _ _ Hv) as (_ & _ & _ & r & _ & [Hpos _]).
  destruct (served_report ctx 0 (named_message m n) g "validating" attempt_no EmptyString db o (Hf _) Hi Hg Hid) as (db1 & Hr1 & Hre1);
    [set_solver|done|by vm_compute|].
  destruct (served_report ctx 2 (named_message m n) g "applied" attempt_no EmptyString db1 (smtp_of snap) (Hf _)) as (db2 & Hr2 & Hre2);
    [apply Hre1|by rewrite (re_revisions _ _ _ _ Hre1)|done|set_solver|done|by vm_compute|].
  exists db2. split; [|by apply (reported_then g "validating" "applied" db db1 db2)].
  unfold handle. rewrite Hev, Hns. cbn [negb]. change (negb ("email" =?= "email")) with false. cbv iota. fold g.
  rewrite (proj2 (orb_false_iff _ _)).
  2:{ split; [by apply Z.leb_gt|]. apply bool_decide_eq_false. destruct Hid as [_ Hne]. intros E. by rewrite E in Hne. }
  cbv [mbind tx_bind]. unfold attempt. rewrite Hr1. cbv iota beta. unfold install. cbv [mbind tx_bind].
  rewrite (Hf 1%nat), (offered db1 g snap o Hpos) by (eapply offers_same; [apply Hre1|done]).
  unfold lift. rewrite (offered_options _ _ _ Hof). pose proof (ApplyConfig_run probe (smtp_of snap) (MkSync db1 o)) as Hac.
  rewrite Hacc in Hac. rewrite Hac. cbn [sync_db]. by rewrite Hr2.
Qed.

(** ** The claims *)

Lemma rpc_cfg {A} f (m : pstore A) s : sync_cfg (rpc f m s).1 = sync_cfg s.
Proof. unfold rpc. destruct f; [|done|]; by destruct (m (sync_db s)). Qed.

(** Whatever becomes of its calls, a pass puts in force the desired revision or
    nothing. *)
Lemma reconcile_cfg probe ctx db o r snap :
  PInv db → configurations db !! (environment cfg, "email") = Some r → offers db (cf_Revision r) snap →
  sync_cfg (reconcile cfg probe ctx (MkSync db o)).1 ∈ [o; smtp_of snap].
Proof.
  intros Hi Hr Hof. destruct (pi_conf _ Hi _ _ _ Hr) as (_ & _ & [Hpos _] & _).
  destruct (state_run db r Hi Hr) as (st & Hst & Hd & _). unfold reconcile. cbv [mbind tx_bind].
  unfold rpc at 1. cbn [sync_db sync_cfg]. destruct (fates ctx 0); rewrite ?Hst; cbn [fst sync_cfg]; [|left..].
  destruct (_ || _); [left|]. rewrite Hd. pose proof (offered db _ snap o Hpos Hof) as Hoff.
  destruct (fates ctx 1); unfold rpc at 1; cbn [sync_db sync_cfg] in *; unfold rpc in Hoff; cbn [sync_db sync_cfg] in Hoff;
    [rewrite Hoff|left|by destruct (ConsumerConfiguration _ _ _ _ _); left].
  unfold lift. rewrite (offered_options _ _ _ Hof).
  match goal with |- context [report cfg (fates ctx 2) ?a ?b ?c ?d ?e ?f ?s] =>
    pose proof (rpc_cfg (fates ctx 2) (ReportConsumerApply cfg (MkDeliveryUpdate a "email" b "identity.email" c d e) f) s) as Hc;
    fold (report cfg (fates ctx 2) a b c d e f) in Hc; destruct (report cfg (fates ctx 2) a b c d e f s) as [s1 [[]|e1]] end;
    cbn [fst] in *; [|rewrite Hc; left].
  unfold attempt. pose proof (ApplyConfig_run probe (smtp_of snap) s1) as Hac. destruct (accepted probe (smtp_of snap)).
  - rewrite Hac. cbv beta iota. unfold report. rewrite rpc_cfg. right. left.
  - destruct Hac as [e ->]. cbv beta iota. unfold report.
    match goal with |- context [rpc ?f ?m s1] => pose proof (rpc_cfg f m s1) as Hc2; destruct (rpc f m s1) as [s2 [[]|e2]] end;
    cbn [fst fail] in *; rewrite Hc2, Hc; left.
Qed.

(** One report never replaces a final status. *)
Lemma report_keeps_final u now db k d :
  PInv db → deliveries db !! k = Some d → terminal (dv_Status d) = true →
  ∃ d', deliveries (ReportDelivery cfg u now db).1 !! k = Some d' ∧ dv_Status d' = dv_Status d.
Proof.
  intros Hi Hd Ht. unfold ReportDelivery. cbv [mbind tx_bind]. destruct (report_read cfg u now db) as [t [o|e]] eqn:Hr.
  - apply report_read_run in Hr as (-> & _ & _ & ->). cbv zeta. destruct (acceptDeliveryUpdate _ _) eqn:Ha; [|by exists d].
    unfold report_save, require. destruct (_ && _); [|by exists d]. cbv [mret tx_ret mbind tx_bind modify fst].
    cbn [deliveries set_deliveries]. rewrite lookup_insert. case_decide as E; [|by exists d].
    eexists. split; [done|]. cbn [dv_Status reported_row]. cbn in E. rewrite E, Hd in Ha. rewrite accept_terminal, Ht in Ha.
    by apply bool_decide_eq_true in Ha.
  - assert (t = db) as ->; [|by exists d]. unfold report_read in Hr. destruct (update_invalid u); [by apply fail_run in Hr as [-> _]|].
    cbv [mbind tx_bind gets id] in Hr. destruct (revisions db !! _); cbn in Hr; [by destruct (negb _)|congruence].
Qed.

(** A report whose read and write are steps of their own. *)
Lemma read_step i g status w :
  is_Some (revisions (pdb w) !! (environment cfg, "email", g)) → 0 < g → message_ok i →
  status ∈ ["validating"; "retrying"; "applied"; "rejected"; "parked"] → terminal (status_at (pdb w) g) = false →
  ∃ d, pstep cfg format w (MkPWorld (pdb w) (d :: pending w)) ∧ dv_Status d = status ∧ dv_Revision d = g
    ∧ ∀ db, report_save d db = (set_deliveries (<[ckey g := d]> (deliveries db)) db, Ok tt).
Proof.
  intros Hg Hpos Hid Hst Hnt.
  assert (rune_count EmptyString <= 128) as Hk by (by vm_compute).
  set (u := MkDeliveryUpdate i "email" g "identity.email" status 1 EmptyString).
  exists (reported_row cfg u 0 (deliveries (pdb w) !! ckey g)). split_and!; [|done|done|intros db; by rewrite save_run].
  apply (pstep_read _ _ u 0); [by apply update_valid|done|].
  unfold u. rewrite report_reads by done. by rewrite accept_terminal, Hnt.
Qed.

Lemma write_step d g w :
  d ∈ pending w → (∀ db, report_save d db = (set_deliveries (<[ckey g := d]> (deliveries db)) db, Ok tt)) →
  pstep cfg format w (MkPWorld (set_deliveries (<[ckey g := d]> (deliveries (pdb w))) (pdb w)) (pending w)).
Proof. intros Hin Hs. pose proof (pstep_write cfg format d w Hin) as Hp. by rewrite Hs in Hp. Qed.

Lemma status_saved d g db : status_at (set_deliveries (<[ckey g := d]> (deliveries db)) db) g = dv_Status d.
Proof. unfold status_at. cbn [deliveries set_deliveries]. by rewrite lookup_insert_eq. Qed.

(** A report on its own never replaces a final status.  But its read and its
    write are separate: when two reports of a revision whose status is not final
    interleave, a status already recorded as applied turns back into retrying,
    and the platform then counts the revision as not applied. *)
Theorem delivery_race w g i j :
  preachable cfg format w → is_Some (revisions (pdb w) !! (environment cfg, "email", g)) →
  terminal (status_at (pdb w) g) = false → message_ok i → message_ok j →
  (∀ u now k d, deliveries (pdb w) !! k = Some d → terminal (dv_Status d) = true →
     ∃ d', deliveries (ReportDelivery cfg u now (pdb w)).1 !! k = Some d' ∧ dv_Status d' = dv_Status d)
  ∧ ∃ w1 w2, rtc (pstep cfg format) w w1 ∧ applied_at (pdb w1) g
      ∧ rtc (pstep cfg format) w1 w2 ∧ status_at (pdb w2) g = "retrying"
      ∧ (current_revision cfg "email" (pdb w) = g →
         ∃ st, GetConsumerState cfg "email" "identity.email" (pdb w2) = (pdb w2, Ok st)
               ∧ cs_DesiredRevision st = g ∧ cs_AppliedRevision st < g).
Proof.
  intros Hw Hg Hnt Hid Hjd. pose proof (preachable_ok _ _ _ Hw) as [Hi _]. split; [intros; by eapply report_keeps_final|].
  pose proof Hg as [v Hv]. destruct (pi_revision _ Hi _ _ _ _ Hv) as (_ & _ & _ & r & Hr & Hpos).
  destruct (read_step i g "applied" w) as (d1 & S1 & E1 & _ & W1); [done|lia|done|set_solver|done|].
  set (wa := MkPWorld (pdb w) (d1 :: pending w)) in *.
  destruct (read_step j g "retrying" wa) as (d2 & S2 & E2 & _ & W2); [done|lia|done|set_solver|done|].
  set (wb := MkPWorld (pdb wa) (d2 :: pending wa)) in *.
  pose proof (write_step d1 g wb ltac:(set_solver) W1) as S3. set (w1 := MkPWorld _ (pending wb)) in S3.
  pose proof (write_step d2 g w1 ltac:(set_solver) W2) as S4. set (w2 := MkPWorld _ (pending w1)) in S4.
  exists w1, w2. assert (status_at (pdb w2) g = "retrying") as Hlast by (by etrans; [apply status_saved|]).
  assert (rtc (pstep cfg format) w w1) as Hw1 by (eapply rtc_l; [exact S1|]; eapply rtc_l; [exact S2|]; by apply rtc_once).
  split_and!; [done| |by apply rtc_once|done|].
  - apply applied_status. by etrans; [apply status_saved|].
  - intros Hc. assert (cf_Revision r = g) as Hrg by (unfold current_revision in Hc; by rewrite Hr in Hc).
    assert (preachable cfg format w2) as [Hi2 _]%preachable_ok by (unfold preachable; etrans; [exact Hw|]; eapply rtc_r; [exact Hw1|exact S4]).
    destruct (state_run (pdb w2) r Hi2) as (st & ? & Hd & Hap & Hle & _); [done|]. exists st.
    assert (¬ applied_at (pdb w2) g) as Hna by (rewrite applied_status, Hlast; done).
    rewrite Hrg in *. split_and!; [done|done|]. destruct (decide (cs_DesiredRevision st <= cs_AppliedRevision st)); [|lia].
    exfalso. by apply Hna, Hap.
Qed.

Context `{!GcmLaws, !ConfigLaws} (Hkey : sound_key cfg).

(** C24: The identity service follows the platform.  On a reachable database with a
    configuration of the namespace email, its current revision reads as options
    for the mail worker, which pass the worker's own validation whenever the
    platform accepted the configuration as enabled.  A pass of the
    synchronisation puts these options in force or leaves the old ones, whatever
    becomes of its calls.  Two conditions are needed for more: the platform has
    not recorded the revision as applied (a revision it has is skipped, whatever
    options are in force), and the pass runs alone, no other step of the
    platform between its calls, which are all served, with a UUID drawn for its
    report.  Then an accepted
    configuration is put in force, and a configuration that is not accepted
    leaves the old one and the pass fails.  When the platform has not recorded
    the revision as rejected or parked either, it reports an accepted one as
    applied afterwards, and further passes change nothing. *)
Theorem sync_converges `{!ParserLaws} w r :
  preachable cfg format w → configurations (pdb w) !! (environment cfg, "email") = Some r →
  let g := cf_Revision r in
  ∃ snap, GetRevision cfg "email" g (pdb w) = (pdb w, Ok snap)
    ∧ (ParseBool (at_key (sn_Public snap) "enabled") = Some true → ValidateSMTP (smtp_of snap) = true)
    ∧ (∀ probe ctx o, sync_cfg (reconcile cfg probe ctx (MkSync (pdb w) o)).1 ∈ [o; smtp_of snap])
    ∧ ∀ probe ctx o, ¬ applied_at (pdb w) g → (∀ k, fates ctx k = Served) → message_ok (sync_id ctx) →
        if accepted probe (smtp_of snap)
        then ∃ db', reconcile cfg probe ctx (MkSync (pdb w) o) = (MkSync db' (smtp_of snap), Ok tt)
               ∧ (status_at (pdb w) g ∉ ["rejected"; "parked"] →
                   (∃ st, GetConsumerState cfg "email" "identity.email" db' = (db', Ok st) ∧ cs_DesiredRevision st = g
                          ∧ cs_AppliedRevision st = g ∧ cs_Status st = "applied")
                   ∧ ∀ probe' ctx', (reconcile cfg probe' ctx' (MkSync db' (smtp_of snap))).1 = MkSync db' (smtp_of snap))
        else ∃ db' e, reconcile cfg probe ctx (MkSync (pdb w) o) = (MkSync db' o, Err e).
Proof.
  intros Hw Hr g. pose proof (preachable_ok _ _ _ Hw) as [Hi _]. pose proof (preachable_valid _ _ Hkey _ Hw) as Hv.
  assert (is_Some (revisions (pdb w) !! (environment cfg, "email", g))) as Hg.
  { destruct (pi_conf _ Hi _ _ _ Hr) as (_ & _ & _ & v & ? & _). eauto. }
  destruct (revision_offers _ _ Hi Hv Hg) as [snap Hof]. exists snap. split_and!; [apply Hof| |intros; by eapply reconcile_cfg|].
  { destruct Hof as [_ _ Ho (values & old & Hval)]. by eapply enabled_accepted. }
  intros probe ctx o Hna Hf Hid. destruct (reconcile_run probe ctx _ o r Hi Hv Hr Hna Hf Hid) as (snap' & db' & Hof' & Hrun).
  assert (snap' = snap) as -> by (by eapply offers_det).
  destruct (accepted probe (smtp_of snap)); [|destruct Hrun as [[e He] _]; by exists db', e].
  destruct Hrun as [Hrun Hre]. exists db'. split; [done|]. intros Hst.
  assert (configurations db' !! (environment cfg, "email") = Some r) as Hr' by (by rewrite (re_configurations _ _ _ _ Hre)).
  assert (applied_at db' g) as Ha.
  { apply applied_status. unfold g. rewrite (re_status _ _ _ _ Hre). destruct (terminal _) eqn:E; [|done]. exfalso.
    unfold terminal in E. rewrite !orb_true_iff, !bool_decide_eq_true in E. rewrite applied_status in Hna. set_solver. }
  split; [|intros; by eapply reconcile_idle; [apply Hre|..]].
  destruct (state_run db' r (re_inv _ _ _ _ Hre) Hr') as (st & ? & Hd & Hap & Hle & Hs). exists st.
  destruct Ha as (d & Hd' & Hs'). split_and!; [done|done| |by rewrite (Hs d)].
  assert (cs_DesiredRevision st <= cs_AppliedRevision st) by (apply Hap; by exists d). subst g. lia.
Qed.

(** Where it does not follow.  Once the platform records the current revision
    as applied, no pass changes anything, so a process that starts again with
    other options keeps them.  And a redelivered notification of any older
    revision puts that revision in force and acknowledges it, after which no pass
    brings the current one back. *)
Theorem sync_keeps_stale `{EventCodec} w r :
  preachable cfg format w → configurations (pdb w) !! (environment cfg, "email") = Some r →
  applied_at (pdb w) (cf_Revision r) →
  (∀ boot o probe ctx, (reconcile cfg probe ctx (restart boot (MkSync (pdb w) o))).1 = MkSync (pdb w) boot)
  ∧ ∀ m n attempt_no ctx o, decode_event (om_Payload m) = Some n → ev_Namespace n = "email" →
      message_ok (named_message m n) → 0 < named_revision m n <= cf_Revision r →
      (∀ k, fates ctx k = Served) → 0 <= attempt_no →
      ∃ snap, GetRevision cfg "email" (named_revision m n) (pdb w) = (pdb w, Ok snap)
        ∧ ∀ probe, accepted probe (smtp_of snap) = true →
            ∃ db', handle cfg probe ctx m attempt_no (MkSync (pdb w) o) = (MkSync db' (smtp_of snap), Ok Ack)
              ∧ ∀ probe' ctx', (reconcile cfg probe' ctx' (MkSync db' (smtp_of snap))).1 = MkSync db' (smtp_of snap).
Proof.
  intros Hw Hr Ha. pose proof (preachable_ok _ _ _ Hw) as [Hi _]. pose proof (preachable_valid _ _ Hkey _ Hw) as Hv.
  split; [intros; by eapply reconcile_idle|]. intros m n attempt_no ctx o Hev Hns Hid Hg Hf Hn.
  assert (is_Some (revisions (pdb w) !! (environment cfg, "email", named_revision m n))) as Hrev
    by (by apply (pi_every _ Hi _ _ _ _ Hr Hg)).
  destruct (revision_offers _ _ Hi Hv Hrev) as [snap Hof]. exists snap. split; [apply Hof|]. intros probe Hacc.
  destruct (handle_served probe ctx m n attempt_no _ o snap Hi Hev Hns Hid Hrev Hof Hacc Hf Hn) as (db' & ? & Hre).
  exists db'. split; [done|]. intros. eapply reconcile_idle; [apply Hre|by rewrite (re_configurations _ _ _ _ Hre)|].
  by eapply reported_applied.
Qed.

End facts.
