(* ===== verification/PSample.v ===== *)
(** A small concrete instance of the platform service: a text format for the
    encoders, a cipher that keeps its inputs, parsers, and the states the
    examples start from; and the theorems on it. *)

From stdpp Require Import base gmap list sets strings relations.
From Stdlib Require Import ZArith Lia SpecFloat Ascii.
From S2P Require Import Prelude.
From S2P Require Import GoStrings.
From S2P Require Import GoText.
From S2P Require Import KDomain.
From S2P Require Import RichText.
From S2P Require Import Json.
From S2P Require Import Envelope.
From S2P Require Import PSchema.
From S2P Require Import PDomain.
From S2P Require Import PStore.
From S2P Require Import PService.
From S2P Require Import PWorld.
From S2P Require Import PSync.
From S2P Require Import PClaims.
From S2P Require Import PSyncFacts.

Open Scope Z_scope.

(** ** Texts of lists of strings: each string after its length in unary *)

Fixpoint units (n : nat) (rest : string) : string :=
  match n with O => String ","%char rest | S n => String "x"%char (units n rest) end.

Definition flat (l : list string) : string := foldr (λ s acc, units (String.length s) (s +:+ acc)) EmptyString l.

Fixpoint count (s : string) : option (nat * string) :=
  match s with
  | EmptyString => None
  | String c rest =>
    if bool_decide (c = ","%char) then Some (O, rest)
    else if bool_decide (c = "x"%char) then '(n, rest) ← count rest; Some (S n, rest) else None
  end.

Fixpoint split_at (n : nat) (s : string) : option (string * string) :=
  match n, s with
  | O, _ => Some (EmptyString, s)
  | S n, String c rest => '(a, b) ← split_at n rest; Some (String c a, b)
  | S _, EmptyString => None
  end.

Fixpoint unflat_from (fuel : nat) (s : string) : option (list string) :=
  match fuel with
  | O => None
  | S fuel =>
    match count s with
    | None => Some []
    | Some (n, rest) => '(a, rest) ← split_at n rest; l ← unflat_from fuel rest; Some (a :: l)
    end
  end.

Definition unflat (s : string) : option (list string) := unflat_from (S (String.length s)) s.

Lemma count_units n rest : count (units n rest) = Some (n, rest).
Proof. induction n as [|n IH]; [done|]. cbn. by rewrite IH. Qed.

Lemma split_at_app a b : split_at (String.length a) (a +:+ b) = Some (a, b).
Proof. induction a as [|c a IH]; [done|]. change (String c a +:+ b) with (String c (a +:+ b)). cbn. by rewrite IH. Qed.

Lemma length_units n rest : String.length (units n rest) = S (n + String.length rest).
Proof. induction n as [|n IH]; [done|]. cbn. by rewrite IH. Qed.

Lemma string_app_length a b : String.length (a +:+ b) = (String.length a + String.length b)%nat.
Proof. induction a as [|c a IH]; [done|]. change (String c a +:+ b) with (String c (a +:+ b)). cbn. by rewrite IH. Qed.

Lemma string_app_assoc a b c : (a +:+ b) +:+ c = a +:+ (b +:+ c).
Proof. induction a as [|x a IH]; [done|]. change (String x ((a +:+ b) +:+ c) = String x (a +:+ (b +:+ c))). by rewrite IH. Qed.

Lemma units_app n a b : units n a +:+ b = units n (a +:+ b).
Proof. induction n as [|n IH]; [done|]. change (String "x" (units n a +:+ b) = String "x" (units n (a +:+ b))). by rewrite IH. Qed.

Lemma flat_cons s l tail : flat (s :: l) +:+ tail = units (String.length s) (s +:+ (flat l +:+ tail)).
Proof. cbn [flat foldr]. by rewrite units_app, string_app_assoc. Qed.

Lemma unflat_flat l tail : count tail = None → unflat (flat l +:+ tail) = Some l.
Proof.
  intros Ht. unfold unflat. assert (∀ fuel, (String.length (flat l +:+ tail) < fuel)%nat →
    unflat_from fuel (flat l +:+ tail) = Some l) as Hf; [|apply Hf; lia].
  induction l as [|s l IH]; intros [|fuel]; [lia| |lia|].
  - intros _. change (flat [] +:+ tail) with tail. cbn [unflat_from]. by rewrite Ht.
  - rewrite flat_cons, length_units, string_app_length. intros Hlen. cbn [unflat_from]. rewrite count_units, split_at_app.
    cbn [mbind option_bind]. rewrite IH by lia. done.
Qed.

Lemma string_app_nil s : s +:+ EmptyString = s.
Proof. induction s as [|c s IH]; [done|]. change (String c (s +:+ EmptyString) = String c s). by rewrite IH. Qed.

Lemma unflat_flat_nil l : unflat (flat l) = Some l.
Proof. rewrite <-(string_app_nil (flat l)). by apply unflat_flat. Qed.

(** ** The parameters *)

Definition string_members (v : json) : option (list (string * string)) :=
  match v with
  | JObj members => mapM (λ kv, match kv.2 with JStr s => Some (kv.1, s) | _ => None end) members
  | _ => None
  end.

Definition unpair (l : list (string * string)) : list string := l ≫= λ kv, [kv.1; kv.2].

Fixpoint pairs (l : list string) : option (list (string * string)) :=
  match l with
  | [] => Some []
  | k :: v :: rest => ((k, v) ::.) <$> pairs rest
  | [_] => None
  end.

(** Objects and arrays of strings keep their content, anything else becomes a
    constant text. *)
Definition flat_encode (v : json) : option string :=
  match v with
  | JArr items => (λ l, String "A" (flat l)) <$> strings_of items
  | _ => Some (match string_members v with Some l => String "O" (flat (unpair l)) | None => "J" end)
  end.

Definition flat_decode (text : string) : option json :=
  match text with String "A" rest => JStrings <$> unflat rest | _ => Some JNull end.

Definition flat_headers (text : string) : option (list (string * string)) :=
  match text with String "O" rest => unflat rest ≫= pairs | _ => None end.

(** The strings of an object, one level deep. *)
Definition leaves (v : json) : list string :=
  match v with
  | JObj members =>
    members ≫= λ kv, match kv.2 with
                     | JStr s => [s]
                     | JObj inner => inner ≫= λ kv, match kv.2 with JStr s => [s] | _ => [] end
                     | _ => []
                     end
  | _ => []
  end.

Definition flat_codec : Codec := {|
  json_decode := flat_decode;
  json_encode := flat_encode;
  json_valid := λ _, true;
  decode_document := λ _, None;
  decode_headers := flat_headers;
  std_decode := λ _, None;
  std_encode := λ v, flat (leaves v);
  sha256_hex := λ text, text;
|}.

Definition flat_envelope : EnvelopeCodec := {|
  decode_envelope := λ text,
    match unflat text with
    | Some [s; k; a; b; c; d] => Some (MkEnvelope s k (MkEncrypted a b) (MkEncrypted c d))
    | _ => None
    end;
|}.

(** A column takes texts up to the limit of an envelope. *)
Definition bounded_pg : Pg := {|
  sql_lower := λ text, text;
  text_compare := String.compare;
  ilike := λ text pattern, text =?= pattern;
  jsonb := λ text, if len text <=? maximumContent * 2 then Some text else None;
|}.

(** The sealed text holds the nonce, the additional data and the plaintext. *)
Definition tag := "0123456789abcdef".

Definition open_cipher : Gcm := {|
  aes_seal := λ k n p a, tag +:+ flat [n; a; p];
  aes_open := λ k n c a,
    match split_at 16 c with
    | Some (_, body) =>
      match unflat body with
      | Some [n'; a'; p] => if (n' =?= n) && (a' =?= a) then Some p else None
      | _ => None
      end
    | None => None
    end;
|}.

Definition some_parsers : Parsers := {|
  ParseFloat := λ s, if s =?= "50" then Some (S754_finite false 50 0) else None;
  ParseAddress := λ s, negb (s =?= EmptyString);
  ParseURL := λ s, if s =?= EmptyString then None
                   else Some (MkParsedURL "https" "example.com" false EmptyString EmptyString EmptyString);
|}.

Definition any_uuid : Uuid := {| uuid_version := λ _, Some 4 |}.

(** Every body names revision 1 of the namespace email. *)
Definition first_event : EventCodec := {| decode_event := λ _, Some (MkEvent "m1" "email" 1) |}.

#[export] Existing Instance ascii_unicode | 100.
#[export] Existing Instance any_uuid | 100.
#[export] Existing Instance some_parsers | 100.
#[export] Existing Instance flat_codec | 100.
#[export] Existing Instance bounded_pg | 100.
#[export] Existing Instance open_cipher | 100.
#[export] Existing Instance flat_envelope | 100.
#[export] Existing Instance first_event | 100.

(** ** Their laws *)

Lemma open_cipher_split b : split_at 16 (tag +:+ b) = Some (tag, b).
Proof. apply (split_at_app tag b). Qed.

#[export] Instance open_cipher_laws : GcmLaws.
Proof.
  split; cbn [aes_seal aes_open open_cipher].
  - intros k n p a. rewrite open_cipher_split, unflat_flat_nil, !bool_decide_true by done. done.
  - intros k n p a n' a' q. rewrite open_cipher_split, unflat_flat_nil.
    destruct (_ && _) eqn:E; [|done]. apply andb_true_iff in E as [E1%bool_decide_eq_true E2%bool_decide_eq_true]. done.
  - intros k n p a. unfold len, overhead. rewrite bytes_app, length_app. change (length (bytes tag)) with 16%nat. lia.
Qed.

Lemma pairs_unpair l : pairs (unpair l) = Some l.
Proof. induction l as [|[k v] l IH]; [done|]. cbn. unfold unpair in IH. by rewrite IH. Qed.

Lemma members_headers l : string_members (headers_json l) = Some l.
Proof. unfold headers_json, string_members. induction l as [|[k v] l IH]; [done|]. cbn. cbn in IH. by rewrite IH. Qed.

Lemma sorted_map m : (list_to_map (sorted_members m) : gmap string string) = m.
Proof.
  etrans; [|apply list_to_map_to_list]. apply list_to_map_proper; [|by apply order_by_perm].
  unfold sorted_members. rewrite order_by_perm. apply NoDup_fst_map_to_list.
Qed.

Lemma flat_map_text m text : flat_encode (map_json m) = Some text → decode_map text = Some m.
Proof.
  intros E. assert (text = String "O" (flat (unpair (sorted_members m)))) as ->.
  { unfold flat_encode in E. unfold map_json in E. rewrite members_headers in E. by injection E. }
  unfold decode_map. cbn [decode_headers flat_codec flat_headers]. rewrite unflat_flat_nil. cbn [mbind option_bind].
  rewrite pairs_unpair. cbn. by rewrite sorted_map.
Qed.

Lemma bounded_same text st : jsonb text = Some st → st = text ∧ len text <= maximumContent * 2.
Proof. cbn [jsonb bounded_pg]. destruct (_ <=? _) eqn:E; [|done]. intros [= <-]. split; [done|]. by apply Z.leb_le. Qed.

Lemma envelope_leaves e :
  decode_envelope (std_encode (envelope_json e) +:+ of_bytes [10]) = Some e
  ∧ std_encode (envelope_json e) +:+ of_bytes [10] ≠ EmptyString.
Proof.
  destruct e as [s k [a b] [c d]]. split.
  - cbn [decode_envelope flat_envelope std_encode flat_codec].
    change (leaves (envelope_json _)) with [s; k; a; b; c; d]. by rewrite unflat_flat by done.
  - cbn [std_encode flat_codec]. destruct (flat _); done.
Qed.

#[export] Instance flat_render : EnvelopeText Some.
Proof. split. intros e text _ [= <-]. apply envelope_leaves. Qed.

#[export] Instance flat_laws : ConfigLaws.
Proof.
  split.
  - intros m text _. apply flat_map_text.
  - intros m text st _ E [-> _]%bounded_same. by apply flat_map_text.
  - intros l text st _ E [-> _]%bounded_same. cbn [json_encode flat_codec flat_encode JStrings] in E.
    pose proof (string_slice_JStrings l) as Hs. cbn [string_slice JStrings] in Hs. rewrite Hs in E. injection E as <-.
    cbn [json_decode flat_codec flat_decode]. rewrite unflat_flat_nil. cbn [fmap option_fmap option_map mbind option_bind].
    apply string_slice_JStrings.
  - split. intros e text _ [-> _]%bounded_same. apply envelope_leaves.
  - intros dek wn pn p k i b encoded text _ _ _ _ _ [-> ?]%bounded_same. done.
Qed.

#[export] Instance some_parser_laws : ParserLaws.
Proof. split; [done|]. by intros u. Qed.

(** ** A configuration of the namespace email *)

Definition sample_cfg : PConfig :=
  MkPConfig "dev" "platform.config.changed.v1" "k1" "0123456789abcdef0123456789abcdef".

Definition sample_ctx (now : Z) (a m : string) : PCtx :=
  MkPCtx now a m "fedcba9876543210fedcba9876543210" "0123456789ab" "ba9876543210" [].

Definition no_format (t : Z) : string := "2026-01-01T00:00:00Z".

Definition email_values (password : string) : gmap string string := list_to_map
  [("enabled", "true"); ("host", "smtp.example.com"); ("port", "465"); ("username", "mailer"); ("password", password);
   ("from", "noreply@example.com"); ("frontend_base_url", "https://example.com")].

Definition email_put (password : string) : PutRequest := MkPutRequest 7 "email" 0 "key-1" "J" (email_values password).

Definition email_request (password : string) : prequest :=
  PReqPut (sample_ctx 10 "a1" "m1") 7 "email" 0 "key-1" (email_values password).

Definition after_prequest (r : prequest) (w : PWorld) : PWorld :=
  MkPWorld (run_prequest sample_cfg no_format r (pdb w)) (pending w).

Definition stored_once : PWorld := after_prequest (email_request "secret") empty_pworld.

(** The consumer reports it as applied. *)
Definition applied_once : PWorld :=
  after_prequest (PReqReport (MkDeliveryUpdate "m1" "email" 1 "identity.email" "applied" 1 EmptyString) 20) stored_once.

Lemma sample_drawn now a m : drawn (sample_ctx now a m).
Proof. by vm_compute. Qed.

Lemma email_utf8 : utf8_values (email_values "secret").
Proof. apply (bool_decide_eq_true_1 (map_Forall _ _)). by vm_compute. Qed.

Lemma sample_key : sound_key sample_cfg.
Proof. split; vm_compute; [discriminate|reflexivity]. Qed.

Lemma preach_request r w :
  preachable sample_cfg no_format w → sane r → preachable sample_cfg no_format (after_prequest r w).
Proof. intros Hw Hs. eapply rtc_r; [exact Hw|]. by constructor. Qed.

Lemma stored_once_reachable : preachable sample_cfg no_format stored_once.
Proof. apply preach_request; [apply rtc_refl|]. split; [apply sample_drawn|apply email_utf8]. Qed.

Lemma applied_once_reachable : preachable sample_cfg no_format applied_once.
Proof. apply preach_request; [apply stored_once_reachable|exact I]. Qed.

Example stored_revision : current_revision sample_cfg "email" (pdb stored_once) = 1.
Proof. vm_compute. reflexivity. Qed.

Example applied_status_once : status_at sample_cfg (pdb applied_once) 1 = "applied".
Proof. vm_compute. reflexivity. Qed.

(** The properties of the platform part at a concrete configuration. *)

Definition here : Binding := MkBinding "dev" "email" "1".

(** What is sealed for one binding opens there and nowhere else. *)
Lemma envelope_roundtrip_witness :
  ∃ encoded, Encrypt "fedcba9876543210fedcba9876543210" "0123456789ab" "ba9876543210" "secret" (key sample_cfg) "k1" here
             = Some encoded
    ∧ (len encoded <= maximumContent * 2 → Decrypt encoded (key sample_cfg) "k1" here = Some "secret"
       ∧ Decrypt encoded (key sample_cfg) "k1" (MkBinding "dev" "email" "2") ≠ Some "secret").
Proof.
  destruct (envelope_roundtrip Some "fedcba9876543210fedcba9876543210" "0123456789ab" "ba9876543210" "secret"
    (key sample_cfg) "k1" here) as (encoded & He & Hd); [vm_compute; reflexivity..|].
  exists encoded. split; [exact He|]. intros Hl. destruct (Hd encoded eq_refl Hl) as [Ho Hx]. split; [exact Ho|].
  intros Hq. destruct (Hx _ _ _ Hq) as (_ & Hb & _). discriminate Hb.
Defined.

(** The first configuration is stored as revision 1 and reads back, with its
    time cut from 10123 to 10000 nanoseconds. *)
Lemma put_spec_witness :
  match Put sample_cfg no_format (sample_ctx 10123 "a1" "m1") (email_put "secret") empty_pdb with
  | (t, Err _) => False
  | (t, Ok snap) => GetRevision sample_cfg "email" (sn_Revision snap) t = (t, Ok (read_back snap)) ∧ sn_Revision snap = 1
  end.
Proof.
  pose proof (put_spec sample_cfg no_format sample_key empty_pworld (sample_ctx 10123 "a1" "m1") (email_put "secret")
    (rtc_refl _ _) (sample_drawn _ _ _) email_utf8) as Hs. cbv zeta in Hs.
  assert (∀ p, live_key sample_cfg (sample_ctx 10123 "a1" "m1") (email_put "secret") empty_pdb = Some p → False) as Hno
    by (intros p Hp; vm_compute in Hp; discriminate Hp).
  assert (match (Put sample_cfg no_format (sample_ctx 10123 "a1" "m1") (email_put "secret") empty_pdb).2 with
          | Ok _ => true | Err _ => false end = true) as Hok by (vm_compute; reflexivity).
  change (pdb empty_pworld) with empty_pdb in Hs.
  destruct (Put sample_cfg no_format (sample_ctx 10123 "a1" "m1") (email_put "secret") empty_pdb) as [t [snap|e]];
    [|discriminate Hok].
  destruct Hs as [(_ & p & Hp & _)|(_ & Hg & _ & Hr & _)]; [destruct (Hno p Hp)|].
  split; [exact Hr|exact Hg].
Defined.

(** The row of the stored configuration. *)
Lemma stored_row : ∃ r, configurations (pdb stored_once) !! (environment sample_cfg, "email") = Some r ∧ cf_Revision r = 1.
Proof.
  destruct (configurations (pdb stored_once) !! (environment sample_cfg, "email")) as [r|] eqn:E;
    [|vm_compute in E; discriminate E].
  exists r. split; [reflexivity|]. pose proof stored_revision as Hr. unfold current_revision in Hr. rewrite E in Hr. exact Hr.
Qed.

Lemma config_history_witness :
  is_Some (revisions (pdb stored_once) !! (environment sample_cfg, "email", 1))
  ∧ ¬ is_Some (revisions (pdb stored_once) !! (environment sample_cfg, "email", 2)).
Proof.
  destruct stored_row as (r & Hr & Hg).
  pose proof (config_history sample_cfg no_format stored_once stored_once_reachable) as Hh. cbv zeta in Hh.
  destruct Hh as [Hh _]. destruct (Hh _ _ _ Hr) as [Hx _]. rewrite Hg in Hx.
  split; [apply Hx; lia|]. intros Hs. apply Hx in Hs. lia.
Defined.

Lemma configurations_valid_witness :
  ∃ snap, Get sample_cfg "email" (pdb stored_once) = (pdb stored_once, Ok snap)
    ∧ validateNamespace "email" (sn_Public snap) (sn_Secrets snap) = Ok tt.
Proof.
  destruct (configurations_valid sample_cfg no_format sample_key stored_once stored_once_reachable) as [Hv _];
    [vm_compute; reflexivity|]. apply (Hv "email"). vm_compute. reflexivity.
Defined.

Definition served : SyncCtx := MkSyncCtx (λ _, Served) "s1" 30.

Definition boot : SMTPOptions := MkSMTPOptions EmptyString 587 EmptyString EmptyString EmptyString EmptyString.

Lemma served_ok : message_ok (sync_id served).
Proof. split; [exists 4; reflexivity|vm_compute; discriminate]. Qed.

Lemma named_ok i : i = "m1" ∨ i = "s1" → message_ok i.
Proof. intros [-> | ->]; (split; [exists 4; reflexivity|vm_compute; discriminate]). Qed.

(** One pass puts the stored configuration in force. *)
Lemma sync_converges_witness :
  ∃ snap db', GetRevision sample_cfg "email" 1 (pdb stored_once) = (pdb stored_once, Ok snap)
    ∧ if accepted (λ _, true) (smtp_of snap)
      then reconcile sample_cfg (λ _, true) served (MkSync (pdb stored_once) boot) = (MkSync db' (smtp_of snap), Ok tt)
      else ∃ e, reconcile sample_cfg (λ _, true) served (MkSync (pdb stored_once) boot) = (MkSync db' boot, Err e).
Proof.
  destruct stored_row as (r & Hr & Hg).
  destruct (sync_converges sample_cfg no_format sample_key stored_once r stored_once_reachable Hr) as (snap & Hs & _ & _ & Hx).
  rewrite Hg in Hs, Hx. exists snap. specialize (Hx (λ _, true) served boot).
  assert (¬ applied_at sample_cfg (pdb stored_once) 1) as Hna.
  { intros E. apply (applied_status sample_cfg) in E; vm_compute in E. discriminate E. }
  specialize (Hx Hna (λ _, eq_refl) served_ok). destruct (accepted (λ _, true) (smtp_of snap)).
  - destruct Hx as (db' & Hx & _). exists db'. split; [exact Hs|exact Hx].
  - destruct Hx as (db' & e & Hx). exists db'. split; [exact Hs|exists e; exact Hx].
Defined.

Lemma applied_row : ∃ r, configurations (pdb applied_once) !! (environment sample_cfg, "email") = Some r ∧ cf_Revision r = 1.
Proof.
  destruct (configurations (pdb applied_once) !! (environment sample_cfg, "email")) as [r|] eqn:E;
    [|vm_compute in E; discriminate E].
  exists r. split; [reflexivity|]. assert (current_revision sample_cfg "email" (pdb applied_once) = 1) as Hr by (vm_compute; reflexivity).
  unfold current_revision in Hr. rewrite E in Hr. exact Hr.
Qed.

(** A process that starts again stays on the options it starts with. *)
Lemma sync_keeps_stale_witness :
  (reconcile sample_cfg (λ _, true) served (restart boot (MkSync (pdb applied_once) boot))).1 = MkSync (pdb applied_once) boot.
Proof.
  destruct applied_row as (r & Hr & Hg).
  assert (applied_at sample_cfg (pdb applied_once) (cf_Revision r)) as Ha.
  { rewrite Hg. apply applied_status. exact applied_status_once. }
  destruct (sync_keeps_stale sample_cfg no_format sample_key applied_once r applied_once_reachable Hr Ha) as [Hx _].
  apply Hx.
Defined.

Lemma delivery_race_witness :
  ∃ w1 w2, rtc (pstep sample_cfg no_format) stored_once w1 ∧ applied_at sample_cfg (pdb w1) 1
    ∧ rtc (pstep sample_cfg no_format) w1 w2 ∧ status_at sample_cfg (pdb w2) 1 = "retrying".
Proof.
  destruct (delivery_race sample_cfg no_format stored_once 1 "m1" "s1" stored_once_reachable)
    as (_ & w1 & w2 & Hx1 & Hx2 & Hx3 & Hx4 & _).
  - destruct (revisions (pdb stored_once) !! (environment sample_cfg, "email", 1)) as [v|] eqn:E;
      [exists v; reflexivity|vm_compute in E; discriminate E].
  - vm_compute. reflexivity.
  - apply named_ok. left. reflexivity.
  - apply named_ok. right. reflexivity.
  - exists w1, w2. split; [exact Hx1|]. split; [exact Hx2|]. split; [exact Hx3|exact Hx4].
Defined.
