(* ===== verification/CDrift.v ===== *)
(** What the calls of the knowledge service do to the columns another service
    depends on.

    [drift c n s t] says that from [s] to [t] no document becomes published or a
    draft again, no publication changes its media, no job gets other work or moves on, at most
    one document, [c], is new, and at most one job, [n], which is of a generation
    its document has not had before.
    Every request and every step of the publication worker drifts, except the
    two that stage and promote a job. *)

From stdpp Require Import base gmap list sets strings.
From Stdlib Require Import ZArith Lia.
From S2P Require Import Prelude.
From S2P Require Import GoStrings.
From S2P Require Import KDomain.
From S2P Require Import RichText.
From S2P Require Import Json.
From S2P Require Import KSchema.
From S2P Require Import KTypes.
From S2P Require Import KStore.
From S2P Require Import KDocuments.
From S2P Require Import KHistory.
From S2P Require Import KPublication.
From S2P Require Import KSharing.
From S2P Require Import KWorker.
From S2P Require Import KFrames.
From S2P Require Import KSaga.
From S2P Require Import KSagaSteps.
From S2P Require Import KWorld.

Open Scope Z_scope.

(** ** The relation *)

(** The statuses the attachment service's answers settle. *)
Definition settled (d : DocumentRow) : Prop :=
  d_PublicationStatus d = PublicationPublished ∨ d_PublicationStatus d = PublicationDraft.

(** A document that goes on: its generation grows, and it is published or a
    draft after only if it was before, at the same generation; its metadata
    changes with its revision only. *)
Definition goes_on (d e : DocumentRow) : Prop :=
  d_PublicationGeneration d <= d_PublicationGeneration e ∧
  (settled e → d_PublicationStatus e = d_PublicationStatus d ∧
               d_PublicationGeneration e = d_PublicationGeneration d) ∧
  revised d e.

(** A document as it is created. *)
Definition newborn (e : DocumentRow) : Prop :=
  d_PublicationStatus e ≠ PublicationPublished ∧
  (d_PublicationStatus e = PublicationDraft → d_PublicationGeneration e = 0).

(** The work of a job and how far it came. *)
Definition same_order (j k : JobRow) : Prop :=
  j_DocumentID k = j_DocumentID j ∧ j_Generation k = j_Generation j ∧
  j_AttachmentIDs k = j_AttachmentIDs j ∧ j_State k = j_State j.

(** A job of a generation the document did not have in [s]. *)
Definition new_order (s : KDB) (j : JobRow) : Prop :=
  j_State j = publicationJobPending ∧
  ∃ d, documents s !! j_DocumentID j = Some d ∧ d_PublicationGeneration d < j_Generation j.

Record drift (c n : option string) (s t : KDB) : Prop := {
  dr_documents : ∀ i e, documents t !! i = Some e →
    (∃ d, documents s !! i = Some d ∧ goes_on d e) ∨
    c = Some i ∧ newborn e;
  dr_jobs : ∀ k j', jobs t !! k = Some j' →
    (∃ j, jobs s !! k = Some j ∧ same_order j j') ∨ n = Some k ∧ new_order s j';
  dr_media : media_refs t ⊆ media_refs s;
  dr_ids : ∃ used, new_ids s = used ++ new_ids t;
}.

#[export] Instance goes_on_preorder : PreOrder goes_on.
Proof.
  split; [by intros d; split_and!|]. intros a b c (Hab & Pab & Rab) (Hbc & Pbc & Rbc).
  split_and!; [lia| |by etrans]. intros Hc.
  destruct (Pbc Hc) as [Hb Gb]. destruct Pab as [Ha Ga]; [|split; congruence].
  unfold settled in *. by rewrite Hb in Hc.
Qed.

Lemma goes_on_unsettled d e :
  d_PublicationGeneration d <= d_PublicationGeneration e → ¬ settled e → revised d e → goes_on d e.
Proof. intros ???. by split_and!. Qed.

Lemma newborn_goes_on d e : newborn d → goes_on d e → newborn e.
Proof.
  intros [Hp Hd] (_ & Hg & _). split.
  - intros He. destruct Hg as [E _]; [by left|]. congruence.
  - intros He. destruct Hg as [E ->]; [by right|]. apply Hd. congruence.
Qed.

#[export] Instance same_order_preorder : PreOrder same_order.
Proof. split; [by split|]. intros a b c (?&?&?&?) (?&?&?&?). split_and!; congruence. Qed.

#[export] Instance drift_preorder : PreOrder (drift None None).
Proof.
  split.
  - intros s. split; [intros i d Hd; left; by exists d|intros k j Hj; left; by exists j|done|by exists []].
  - intros s t u [Ad Aj Am Ai] [Bd Bj Bm Bi]. split.
    + intros i e [(d & Hd & Hde)|[[=] _]]%Bd. destruct (Ad i d Hd) as [(d0 & Hd0 & H0)|[[=] _]].
      left. exists d0. split; [done|by etrans].
    + intros k j' [(j & Hj & Hjj)|[[=] _]]%Bj. destruct (Aj k j Hj) as [(j0 & Hj0 & H0)|[[=] _]].
      left. exists j0. split; [done|by etrans].
    + by etrans.
    + destruct Ai as [a Ha], Bi as [b Hb]. exists (a ++ b). by rewrite Ha, Hb, app_assoc.
Qed.

(** A new document or job between two stretches without one. *)
Lemma drift_around c n s0 s t t0 :
  drift None None s0 s → drift c n s t → drift None None t t0 → drift c n s0 t0.
Proof.
  intros [Ad Aj Am Ai] [Bd Bj Bm Bi] [Cd Cj Cm Ci]. split.
  - intros i e [(d & Hd & Hde)|[[=] _]]%Cd. destruct (Bd i d Hd) as [(d1 & Hd1 & H1)|[-> Hst]].
    + destruct (Ad i d1 Hd1) as [(d0 & Hd0 & H0)|[[=] _]]. left. exists d0. split; [done|].
      by do 2 (etrans; [eassumption|]).
    + right. split; [done|]. by eapply newborn_goes_on.
  - intros k j' [(j & Hj & Hjj)|[[=] _]]%Cj. destruct (Bj k j Hj) as [(j1 & Hj1 & H1)|[-> [Hst (d & Hd & Hg)]]].
    + destruct (Aj k j1 Hj1) as [(j0 & Hj0 & H0)|[[=] _]]. left. exists j0. split; [done|].
      by do 2 (etrans; [eassumption|]).
    + right. split; [done|]. destruct Hjj as (E1 & E2 & _ & E4). split; [by rewrite E4|].
      destruct (Ad _ d Hd) as [(d0 & Hd0 & [H0 _])|[[=] _]]. exists d0. rewrite E1, E2. split; [done|lia].
  - by do 2 (etrans; [eassumption|]).
  - destruct Ai as [a Ha], Bi as [b Hb], Ci as [z Hz]. exists (a ++ b ++ z). by rewrite Ha, Hb, Hz, !app_assoc.
Qed.

Lemma calm_drift s t : calm s t → drift None None s t.
Proof.
  intros Hc. split.
  - intros i e He. destruct (calm_document _ _ _ _ Hc He) as (d & Hd & _ & Hst & Hg & _ & _ & Hrev).
    left. exists d. split; [done|]. split_and!; [lia| |done]. intros Hp. split; congruence.
  - intros k j' Hj'. destruct (calm_job _ _ _ _ Hc Hj') as (j & Hj & (_ & E1 & E2 & _) & E3 & E4).
    left. exists j. split; [done|]. by split_and!.
  - by destruct Hc.
  - by destruct Hc.
Qed.

(** A document and some jobs change within a generation. *)
Lemma drift_local i d d' s t :
  documents s !! i = Some d → documents t = <[i := d']> (documents s) → goes_on d d' →
  (∀ k j', jobs t !! k = Some j' → ∃ j, jobs s !! k = Some j ∧ same_order j j') →
  media_refs t ⊆ media_refs s → new_ids t = new_ids s → drift None None s t.
Proof.
  intros Hd Ed Hgo Hj Hm Hi. split; [|by left; auto|done|by exists []; rewrite Hi].
  intros x e. rewrite Ed, lookup_insert_Some. intros [[<- <-]|[_ He]]; left; [by eauto|]. by exists e.
Qed.

Lemma supersede_drift i k j d d' s t :
  supersede i k j d d' s t → ¬ settled d' →
  media_refs t ⊆ media_refs s → drift None (Some k) s t.
Proof.
  intros Hsp Hst Hm. pose proof (λ x j', supersede_job_cases _ _ _ _ _ _ _ x j' Hsp) as Hcases.
  destruct Hsp as [Hb Hds Hid Hg _ _ _ _ Hjd Hjg Hjst _ (u & Hu & _) Hrev]. split.
  - intros x e. rewrite Hds, lookup_insert_Some. intros [[<- <-]|[_ He]]; left; [|by exists e].
    exists d. split; [done|]. apply goes_on_unsettled; [lia|done|done].
  - intros x j' [[-> ->]|(_ & Hx & _)]%Hcases; [right|left; by exists j'].
    split; [done|]. split; [done|]. exists d. rewrite Hjd. split; [done|lia].
  - done.
  - by exists u.
Qed.

(** ** Calls that drift *)

Section calls.
Context `{Unicode, Uuid, Url, Codec, Pg}.

Lemma retires_drift i s t : retires i s t → ∃ n, drift None n s t.
Proof.
  intros (s0 & s1 & k & j & d & d' & Hc0 & Hc1 & Hsp & _ & Hst & _ & _ & Hm). exists (Some k).
  eapply drift_around; [by apply calm_drift| |by apply calm_drift].
  eapply supersede_drift; [done|by unfold settled; rewrite Hst; intros [|]|done].
Qed.

Lemma PublishSnapshot_drift ctx i actor expected input s s' v :
  saga_ok s → PublishSnapshot ctx i actor expected input s = (s', Ok v) → ∃ n, drift None n s s'.
Proof.
  intros Hok Hr.
  destruct (PublishSnapshot_run _ _ _ _ _ _ _ _ Hok Hr)
    as [[Hc _]|(s0 & s1 & k & j & d & Hc0 & Hc1 & _ & Hsp & _ & _ & _ & _ & Hm)];
    [exists None; by apply calm_drift|].
  exists (Some k). eapply drift_around; [by apply calm_drift| |by apply calm_drift].
  eapply supersede_drift; [done|by intros [|]|by rewrite Hm].
Qed.

Lemma RestoreDeletedDocument_drift ctx i actor s s' v :
  RestoreDeletedDocument ctx i actor s = (s', Ok v) → drift None None s s'.
Proof.
  unfold RestoreDeletedDocument. intros Hr. store_inv. frame_facts.
  etrans; [|apply calm_drift; eassumption].
  match goal with H : update_document _ _ _ _ = _ |- _ =>
    apply update_document_run in H as [[-> _]|(d0 & Hd0 & _ & _ & ->)] end; [done|].
  eapply (drift_local i d0); [done|done|by split_and!; [..|apply revised_next]|intros k j Hj; by exists j|done|done].
Qed.

Lemma PurgeDocument_drift ctx i s s' u : PurgeDocument ctx i s = (s', Ok u) → drift None None s s'.
Proof.
  unfold PurgeDocument. intros Hr. store_inv.
  match goal with H : update_aliases _ _ _ = _ |- _ => apply update_aliases_same, same_saga_calm in H end.
  etrans; [apply calm_drift; eassumption|]. unfold delete_document in *. store_inv. split; simpl.
  - intros x e [_ He]%lookup_delete_Some. left. by exists e.
  - intros k j [Hj _]%lookup_delete_where_Some. left. by exists j.
  - apply delete_where_subseteq.
  - by exists [].
Qed.

(** Every request but a creation. *)
Lemma request_drift r s :
  saga_ok s → (∀ ctx v k, r ≠ ReqCreateDocument ctx v k) → ∃ n, drift None n s (run_request r s).
Proof.
  intros Hok Hne. destruct (saga_request r) eqn:Hs; [|exists None; by apply calm_drift, request_calm].
  assert (∀ A (op : store A), atomic op → (∀ s' a, op s = (s', Ok a) → ∃ n, drift None n s s') →
            ∃ n, drift None n s (op s).1) as Hop.
  { intros A op Ha Hop. destruct (op s) as [s' [a|e]] eqn:Hr; simpl; [by eapply Hop|].
    apply Ha in Hr as ->. by exists None. }
  destruct r; try done; cbn [run_request]; try (by edestruct Hne);
    (apply Hop; [first [apply atomic_transaction|apply PublishSnapshot_atomic|apply SetPublication_atomic]|]);
    intros s' a Hr.
  - by eapply retires_drift, SoftDeleteDocument_run.
  - exists None. by eapply RestoreDeletedDocument_drift.
  - by eapply PublishSnapshot_drift.
  - destruct (SetPublication_run _ _ _ _ _ _ _ _ _ Hok Hr); [exists None; by apply calm_drift|by eapply retires_drift].
  - exists None. by eapply PurgeDocument_drift.
Qed.

Lemma complete_drift ctx k s :
  saga_ok s → drift None None s (CompletePublicationReferenceJob ctx k false s).1.
Proof.
  intros Hok. destruct (CompletePublicationReferenceJob ctx k false s) as [s' [u|e]] eqn:Hr; cbn [fst];
    [|by apply complete_atomic in Hr as ->].
  unfold CompletePublicationReferenceJob, delete_jobs in Hr. store_inv.
  match goal with H : jobs s !! k = Some ?x |- _ => rename x into j, H into Hj end.
  destruct (ok_jobs _ Hok k j Hj) as (d & Hd & _).
  eapply (drift_local _ d d); simpl; eauto; [by rewrite insert_id|done|].
  intros x j' [Hx _]%lookup_delete_where_Some. by exists j'.
Qed.

(** A clear that completes: its document becomes a draft, if the job is of its
    generation. *)
Lemma clear_drift ctx k s :
  saga_ok s → drift None None s (CompletePublicationReferenceJob ctx k true s).1 ∨
  ∃ j d, jobs s !! k = Some j ∧ documents s !! j_DocumentID j = Some d ∧
    d_PublicationGeneration d = j_Generation j ∧
    documents (CompletePublicationReferenceJob ctx k true s).1
      = <[j_DocumentID j := cleared_row ctx d]> (documents s) ∧
    jobs (CompletePublicationReferenceJob ctx k true s).1 ⊆ jobs s ∧
    media_refs (CompletePublicationReferenceJob ctx k true s).1 ⊆ media_refs s ∧
    new_ids (CompletePublicationReferenceJob ctx k true s).1 = new_ids s.
Proof.
  intros Hok. destruct (CompletePublicationReferenceJob ctx k true s) as [s' [u|e]] eqn:Hr; cbn [fst];
    [|left; by apply complete_atomic in Hr as ->].
  unfold CompletePublicationReferenceJob, delete_jobs in Hr. store_inv.
  match goal with H : jobs s !! k = Some ?x |- _ => rename x into j, H into Hj end.
  destruct (ok_jobs _ Hok k j Hj) as (d & Hd & _).
  match goal with H : update_document _ _ _ _ = _ |- _ =>
    apply update_document_run in H as [[-> Hno]|(d0 & Hd0 & Hat & _ & ->)] end; simpl in *.
  - left. eapply (drift_local _ d d); simpl; eauto using delete_where_subseteq; [by rewrite insert_id|done|].
    intros x j' [Hx _]%lookup_delete_where_Some. by exists j'.
  - right. exists j, d0. split_and!; eauto using delete_where_subseteq. by apply Z.eqb_eq in Hat.
Qed.

Lemma park_drift ctx k key publish s :
  saga_ok s → drift None None s (ParkPublicationReferenceJob ctx k key publish s).1.
Proof.
  intros Hok. destruct (ParkPublicationReferenceJob ctx k key publish s) as [s' [u|e]] eqn:Hr; cbn [fst];
    [|by apply park_atomic in Hr as ->].
  unfold ParkPublicationReferenceJob in Hr. store_inv.
  match goal with H : jobs s !! k = Some ?x |- _ => rename x into j, H into Hj end.
  destruct (ok_jobs _ Hok k j Hj) as (d & Hd & _).
  match goal with H : update_jobs _ _ _ = _ |- _ => apply update_jobs_run in H as (_ & -> & _) end.
  apply update_document_run in Hr as [[-> Hno]|(d0 & Hd0 & Hat & _ & ->)]; simpl in *.
  - eapply (drift_local _ d d); simpl; eauto; [by rewrite insert_id|done|].
    intros x j' (j0 & Hx & ->)%lookup_update_where_Some. exists j0. split; [done|]. by case_match.
  - eapply (drift_local _ d0); simpl; eauto; [by apply goes_on_unsettled; [simpl; lia|destruct publish; intros [|]|apply revised_same]|].
    intros x j' (j0 & Hx & ->)%lookup_update_where_Some. exists j0. split; [done|]. by case_match.
Qed.

(** A creation adds at most one document, a draft under the identifier given. *)
Lemma CreateDocument_drift ctx v idem s :
  fresh_document v → v_PublicationGeneration v = 0 → drift (Some (v_ID v)) None s (CreateDocument ctx v idem s).1.
Proof.
  intros [Hst Hdel] Hg.
  assert (∀ t, drift None None s t → drift (Some (v_ID v)) None s t) as Hnone.
  { intros t [Hd Hj Hm Hi]. split; [|done..]. intros i e [?|[[=] _]]%Hd. by left. }
  destruct (CreateDocument ctx v idem s) as [s' [w|e]] eqn:Hr; cbn [fst];
    [|apply atomic_transaction in Hr as ->; by apply Hnone].
  unfold CreateDocument in Hr. store_inv. split_options; frame_facts; [by apply Hnone, calm_drift|].
  eapply drift_around; [apply calm_drift; eassumption| |apply calm_drift; eassumption].
  unfold insert_document, insert_alias, insert_projection in *. store_inv. split; simpl.
  - intros i e. rewrite lookup_insert_Some. intros [[<- <-]|[_ He]]; [right|left; by exists e].
    split; [done|]. split; simpl; [by rewrite Hst|done].
  - intros k j Hj. left. by exists j.
  - done.
  - by exists [].
Qed.

End calls.
