(* ===== verification/CReferences.v ===== *)
(** What the publication commands do to the newest generation of a document's
    references: a command either leaves it or makes its own generation the
    newest, also when staging is written some time after it counted. *)

From stdpp Require Import base gmap list sets strings relations.
From Stdlib Require Import ZArith Lia.
From S2P Require Import Prelude.
From S2P Require Import GoStrings.
From S2P Require Import KDomain.
From S2P Require Import Json.
From S2P Require Import ASchema.
From S2P Require Import AStore.
From S2P Require Import AService.
From S2P Require Import AWorld.
From S2P Require Import AClaims.

Open Scope Z_scope.

(** The attachments of the newest generation. *)
Definition newest_ids (p : Refs) : gset string :=
  match p_staged p with Some (_, ids) => ids | None => p_active_ids p end.

(** The newest generation stays, or generation [g] with [ids] takes its place. *)
Definition moves_to (g : Z) (ids : gset string) (p q : Refs) : Prop :=
  (newest q = newest p ∧ newest_ids q = newest_ids p) ∨
  (newest p <= g ∧ newest q = g ∧ newest_ids q = ids).

Lemma moves_newest g ids p q : moves_to g ids p q → newest p <= newest q.
Proof. intros [[-> _]|(? & -> & _)]; lia. Qed.

Lemma stage_moves g ids p : moves_to g ids p (spec_stage g ids p) ∧ g <= newest (spec_stage g ids p).
Proof.
  unfold spec_stage. destruct (g <=? newest p) eqn:E.
  - apply Z.leb_le in E. split; [by left|done].
  - apply Z.leb_gt in E. split; [right; split_and!; [lia|done|done]|cbn; lia].
Qed.

Lemma clear_moves g p : moves_to g ∅ p (spec_clear g p).
Proof.
  unfold spec_clear. destruct (g <? newest p) eqn:E; [by left|]. apply Z.ltb_ge in E. right. by split_and!.
Qed.

(** A document with no references left. *)
Definition emptied (g : Z) : Refs := MkRefs g ∅ None.

(** It stays so until a newer generation comes. *)
Definition stays_empty (p q : Refs) : Prop := ∀ k, p = emptied k → q = p ∨ k < newest q.

Lemma stage_empty g ids p : stays_empty p (spec_stage g ids p).
Proof.
  intros k ->. unfold spec_stage, newest. cbn. destruct (g <=? k) eqn:E; [by left|]. apply Z.leb_gt in E.
  right. cbn. lia.
Qed.

Lemma finalize_empty g p : stays_empty p (spec_finalize g p).
Proof.
  intros k ->. unfold spec_finalize, newest. cbn. destruct (g <=? k) eqn:E; [by left|]. apply Z.leb_gt in E.
  right. cbn. lia.
Qed.

Lemma clear_empty g p : stays_empty p (spec_clear g p).
Proof.
  intros k ->. unfold spec_clear, newest. cbn. destruct (g <? k) eqn:E; [by left|]. apply Z.ltb_ge in E.
  destruct (decide (g = k)) as [->|]; [by left|right]. cbn. lia.
Qed.

(** ** Commands *)

(** What a command of a document's generation does to the references of all
    documents. *)
Definition references_move (d : string) (g : Z) (ids : gset string) (s t : ADB) : Prop :=
  moves_to g ids (refs_of s d) (refs_of t d) ∧ stays_empty (refs_of s d) (refs_of t d) ∧
  ∀ d', d' ≠ d → refs_of t d' = refs_of s d'.

Lemma references_stay d g ids s : references_move d g ids s s.
Proof. split_and!; [by left|by left|done]. Qed.

(** A finalized generation was the newest before. *)
Lemma finalize_moves now command ids s t u :
  AInv s → FinalizePublicationReferences now command s = (t, Ok u) →
  references_move (cm_DocumentID command) (cm_Generation command) ids s t.
Proof.
  intros Hs Hr. destruct (finalize_refines _ _ _ _ _ Hs Hr) as [Hrefs Hother].
  split_and!; [|rewrite Hrefs; apply finalize_empty|done].
  apply finalize_run in Hr as (h & Hh & [[-> Hle]|[Hlt [_ Hg _ _ _ _ _ _]]]); [by left| |done].
  left. rewrite Hrefs. unfold spec_finalize, refs_of, newest, newest_ids. rewrite Hh, Hg. cbn.
  by rewrite (proj2 (Z.leb_gt _ _)).
Qed.

Section calls.
Context `{Unicode, Uuid, Codec}.

Lemma StageReferences_moves now req n n' r :
  AInv (adb n) → StageReferences now req n = (n', r) →
  references_move (rq_DocumentId req) (rq_Generation req) (list_to_set (rq_AttachmentIds req)) (adb n) (adb n') ∧
  (r = Ok tt → 0 < rq_Generation req <= newest (refs_of (adb n') (rq_DocumentId req))).
Proof.
  intros Hi Hr. apply command_run in Hr as [[-> [e ->]]|(command & [] & Hc & Hr & ->)];
    [split; [apply references_stay|done]| |intros; by eapply command_atomic].
  destruct (command_fields _ _ _ Hc) as (<- & <- & <- & Hpos & _).
  destruct (stage_refines _ _ _ _ _ Hi Hr) as [Hrefs Hother].
  destruct (stage_moves (cm_Generation command) (list_to_set (cm_AttachmentIDs command))
    (refs_of (adb n) (cm_DocumentID command))) as [Hm Hle]. rewrite <-Hrefs in Hm, Hle.
  split; [|done]. split_and!; [done|rewrite Hrefs; apply stage_empty|done].
Qed.

(** The second phase, for a staging that is open. *)
Lemma stage_commit_moves now command head s t r :
  AInv s → stage_open s command head → stage_commit now command head s = (t, r) →
  references_move (cm_DocumentID command) (cm_Generation command) (list_to_set (cm_AttachmentIDs command)) s t ∧
  (r = Ok tt → 0 < cm_Generation command <= newest (refs_of t (cm_DocumentID command))).
Proof.
  intros Hs Ho Hr. destruct r as [[]|e]; [|apply transaction_run_err in Hr as [-> _]; split; [apply references_stay|done]].
  pose proof (commit_run _ _ _ _ _ _ Hs Ho Hr) as Hst.
  destruct (stages_refine _ _ _ _ Hs (so_late _ _ _ Ho) Hst) as [Hrefs Hother].
  destruct (stage_moves (cm_Generation command) (list_to_set (cm_AttachmentIDs command))
    (refs_of s (cm_DocumentID command))) as [Hm Hle]. rewrite <-Hrefs in Hm, Hle.
  split; [|intros _; split; [by destruct Hst|done]].
  split_and!; [done|rewrite Hrefs; apply stage_empty|done].
Qed.

Lemma FinalizeReferences_moves now req ids n n' r :
  AInv (adb n) → FinalizeReferences now req n = (n', r) →
  references_move (rq_DocumentId req) (rq_Generation req) ids (adb n) (adb n').
Proof.
  intros Hi Hr. apply command_run in Hr as [[-> _]|(command & [] & Hc & Hr & ->)];
    [apply references_stay| |intros; by eapply command_atomic].
  destruct (command_fields _ _ _ Hc) as (<- & <- & _). by eapply finalize_moves.
Qed.

Lemma ClearReferences_moves now req n n' r :
  AInv (adb n) → ClearReferences now req n = (n', r) →
  references_move (rq_DocumentId req) (rq_Generation req) (list_to_set (rq_AttachmentIds req)) (adb n) (adb n') ∧
  (r = Ok tt → rq_Generation req < newest (refs_of (adb n') (rq_DocumentId req))
               ∨ refs_of (adb n') (rq_DocumentId req) = emptied (rq_Generation req)).
Proof.
  intros Hi Hr. apply command_run in Hr as [[-> [e ->]]|(command & [] & Hc & Hr & ->)];
    [split; [apply references_stay|done]| |intros; by eapply command_atomic].
  destruct (command_fields _ _ _ Hc) as (<- & <- & _ & _ & He). rewrite He by done.
  destruct (clear_refines _ _ _ _ _ Hi Hr) as [Hrefs Hother].
  split; [split_and!; [rewrite Hrefs; apply clear_moves|rewrite Hrefs; apply clear_empty|done]|].
  intros _. rewrite Hrefs. unfold spec_clear. destruct (_ <? _) eqn:E; [|by right]. left. by apply Z.ltb_lt.
Qed.

End calls.

Lemma same_references_refs s t d : same_references s t → refs_of t d = refs_of s d.
Proof. intros [Hr Hh _]. unfold refs_of, refs_at. by rewrite Hr, Hh. Qed.
