(* ===== verification/CWorld.v ===== *)
(** The knowledge and the attachment service together.

    A knowledge worker that holds a publication job sends the attachment
    service the command of the job, and records the step in its own database
    once the call has returned without error.  The two services share nothing
    but these calls: a call may take effect and its answer be lost or late, a
    worker may act on a claim long after it took it, and several may hold the
    same job.  A staging may also write some time after it counted its
    attachments, with anything but commands of its document in between.  [cstep]
    has all these interleavings; [CInv] is what they keep. *)

From stdpp Require Import base gmap list sets strings relations.
From Stdlib Require Import ZArith Lia.
From S2P Require Import Prelude.
From S2P Require Import GoStrings.
From S2P Require Import KDomain.
From S2P Require Import RichText.
From S2P Require Import Json.
From S2P Require Import KSchema.
From S2P Require Import KTypes.
From S2P Require Import KStore.
From S2P Require Import KDocuments.
From S2P Require Import KHistory.
From S2P Require Import KPublication.
From S2P Require Import KSharing.
From S2P Require Import KWorker.
From S2P Require Import KFrames.
From S2P Require Import KSaga.
From S2P Require Import KSagaSteps.
From S2P Require Import KWorld.
From S2P Require Import ASchema.
From S2P Require Import AStore.
From S2P Require Import AService.
From S2P Require Import AWorld.
From S2P Require Import AClaims.
From S2P Require Import CDrift.
From S2P Require Import CReferences.

Open Scope Z_scope.

(** ** The client *)

Inductive ref_call := CallStage | CallFinalize | CallClear.

#[export] Instance ref_call_eq_dec : EqDecision ref_call.
Proof. solve_decision. Defined.

(** [Attachment.command]: the message a job is sent as. *)
Definition command (job : Job) : CommandMessage :=
  MkCommandMessage (jv_ID job) (jv_DocumentID job) (jv_OwnerID job) (jv_Generation job) (jv_AttachmentIDs job).

Section world.
Context `{Unicode, Uuid, Url, Codec, Pg}.

(** The calls of [client/attachment.go], as the attachment service serves them. *)
Definition send (c : ref_call) (now : Z) (job : Job) : svc unit :=
  match c with
  | CallStage => StageReferences now (command job)
  | CallFinalize => FinalizeReferences now (command job)
  | CallClear => ClearReferences now (command job)
  end.

(** When the worker sends a call. *)
Definition sends (c : ref_call) (job : Job) : Prop :=
  match c with
  | CallStage => jv_Action job ≠ "clear" ∧ jv_State job = "pending"
  | CallFinalize => jv_Action job ≠ "clear" ∧ jv_State job = "promoted"
  | CallClear => jv_Action job = "clear"
  end.

(** ** The transition system *)

(** The two services, and the calls that were answered without error. *)
Record CWorld := MkCWorld {
  knowledge : World;
  attachment : AWorld;
  answered : list (ref_call * Job);
}.

Definition creates (r : request) : bool := match r with ReqCreateDocument _ _ _ => true | _ => false end.

Definition with_db (s : KDB) (F : list Job) (w : CWorld) : CWorld :=
  MkCWorld (MkWorld s F) (attachment w) (answered w).

Inductive cstep : CWorld → CWorld → Prop :=
| c_request r w :
    creates r = false →
    cstep w (with_db (run_request r (db (knowledge w))) (flight (knowledge w)) w)
| c_create ctx v k w s1 :
    NewID (db (knowledge w)) = (s1, Ok (v_ID v)) → fresh_document v → v_PublicationGeneration v = 0 →
    cstep w (with_db (CreateDocument ctx v k s1).1 (flight (knowledge w)) w)
| c_claim ctx limit lease w s' vs :
    ClaimPublicationReferenceJobs ctx limit lease (db (knowledge w)) = (s', Ok vs) →
    cstep w (with_db s' (vs ++ flight (knowledge w)) w)
| c_call c now v w n' r :
    v ∈ flight (knowledge w) → sends c v → free (attachment w) (jv_DocumentID v) →
    send c now v (node (attachment w)) = (n', r) →
    cstep w (MkCWorld (knowledge w) (MkAWorld n' (held (attachment w)) (opened (attachment w)))
               (if r is Ok _ then (c, v) :: answered w else answered w))
| c_open v cmd w db head :
    v ∈ flight (knowledge w) → sends CallStage v → publicationCommand (command v) false = Ok cmd →
    free (attachment w) (cm_DocumentID cmd) →
    stage_begin cmd (adb (node (attachment w))) = (db, Ok (Some head)) →
    cstep w (MkCWorld (knowledge w)
               (MkAWorld (node (attachment w)) (held (attachment w)) ((cmd, head) :: opened (attachment w)))
               (answered w))
| c_commit now v cmd head w n' r :
    v ∈ flight (knowledge w) → sends CallStage v → publicationCommand (command v) false = Ok cmd →
    (cmd, head) ∈ opened (attachment w) →
    on_db (stage_commit now cmd head) (node (attachment w)) = (n', r) →
    cstep w (MkCWorld (knowledge w) (MkAWorld n' (held (attachment w)) (others cmd (opened (attachment w))))
               (if r is Ok _ then (CallStage, v) :: answered w else answered w))
| c_rollback cmd w :
    cstep w (MkCWorld (knowledge w)
               (MkAWorld (node (attachment w)) (held (attachment w)) (others cmd (opened (attachment w))))
               (answered w))
| c_stage ctx v w s' u :
    (CallStage, v) ∈ answered w →
    MarkPublicationReferencesStaged ctx (jv_ID v) (db (knowledge w)) = (s', Ok u) →
    cstep w (with_db s' (set_jv_State "staged" v :: flight (knowledge w)) w)
| c_promote ctx v w s' u :
    v ∈ flight (knowledge w) → jv_Action v ≠ "clear" → jv_State v = "staged" →
    PromotePublication ctx v (db (knowledge w)) = (s', Ok u) →
    cstep w (with_db s' (set_jv_State "promoted" v :: flight (knowledge w)) w)
| c_finalize ctx v w :
    (CallFinalize, v) ∈ answered w →
    cstep w (with_db (CompletePublicationReferenceJob ctx (jv_ID v) false (db (knowledge w))).1
               (flight (knowledge w)) w)
| c_clear ctx v w :
    (CallClear, v) ∈ answered w →
    cstep w (with_db (CompletePublicationReferenceJob ctx (jv_ID v) true (db (knowledge w))).1
               (flight (knowledge w)) w)
| c_retry ctx v w key :
    v ∈ flight (knowledge w) →
    cstep w (with_db (RetryPublicationReferenceJob ctx (jv_ID v) key (jv_Attempts v) (db (knowledge w))).1
               (flight (knowledge w)) w)
| c_park ctx v w key :
    v ∈ flight (knowledge w) →
    cstep w (with_db (ParkPublicationReferenceJob ctx (jv_ID v) key (jv_Action v =?= "publish")
                        (db (knowledge w))).1 (flight (knowledge w)) w)
| c_attachment r w :
    possible (attachment w) r → commands r = false →
    cstep w (MkCWorld (knowledge w)
               (MkAWorld (run_arequest r (node (attachment w))) (held (attachment w)) (opened (attachment w)))
               (answered w))
| c_scan now w n' claimed :
    on_db (Claim now) (node (attachment w)) = (n', Ok claimed) →
    cstep w (MkCWorld (knowledge w) (MkAWorld n' (at_ID claimed :: held (attachment w)) (opened (attachment w)))
               (answered w)).

Definition empty_cworld (ids : list string) : CWorld := MkCWorld (MkWorld (empty_db ids) []) empty_world [].

Definition creachable (w : CWorld) : Prop := ∃ ids, NoDup ids ∧ rtc cstep (empty_cworld ids) w.

(** ** The invariant *)

(** The references of a document in the attachment service. *)
Definition refs (w : CWorld) (i : string) : Refs := refs_of (adb (node (attachment w))) i.

(** A job that was claimed with the work of a row. *)
Definition order_of (v : Job) (j : JobRow) : Prop :=
  jv_DocumentID v = j_DocumentID j ∧ jv_Generation v = j_Generation j ∧
  json_decode (j_AttachmentIDs j) ≫= string_slice = Some (jv_AttachmentIDs v).

(** The claims: what their documents and generations can be, and that the
    document and the generation settle the attachments. *)
Record claims_ok (s : KDB) (F : list Job) : Prop := {
  cl_born : ∀ i, is_Some (documents s !! i) → i ∉ new_ids s;
  cl_unborn : ∀ v, v ∈ F → jv_DocumentID v ∉ new_ids s;
  cl_generation : ∀ v, v ∈ F → 0 < jv_Generation v ∧
    ∀ d, documents s !! jv_DocumentID v = Some d → jv_Generation v <= d_PublicationGeneration d;
  cl_claims : ∀ v v', v ∈ F → v' ∈ F → jv_DocumentID v = jv_DocumentID v' → jv_Generation v = jv_Generation v' →
    jv_AttachmentIDs v = jv_AttachmentIDs v';
  cl_rows : ∀ v k j, v ∈ F → jobs s !! k = Some j → jv_DocumentID v = j_DocumentID j →
    jv_Generation v = j_Generation j → order_of v j;
  cl_unique : ∀ k k' j j', jobs s !! k = Some j → jobs s !! k' = Some j' → j_DocumentID j = j_DocumentID j' →
    j_Generation j = j_Generation j' → j_AttachmentIDs j = j_AttachmentIDs j';
}.

(** The references: their newest generation is one the document had, with the
    attachments of its job; a job that left the pending state and a document
    that is published have theirs in place; a draft has none. *)
Record refs_ok (s : KDB) (F : list Job) (f : string → Refs) : Prop := {
  rf_fresh : ∀ i, i ∈ new_ids s → f i = emptied 0;
  rf_bound : ∀ i d, documents s !! i = Some d → newest (f i) <= Z.max 0 (d_PublicationGeneration d);
  rf_content : ∀ i, 0 < newest (f i) → ∃ v, v ∈ F ∧ jv_DocumentID v = i ∧ jv_Generation v = newest (f i) ∧
    newest_ids (f i) = list_to_set (jv_AttachmentIDs v);
  rf_staged : ∀ k j, jobs s !! k = Some j → j_State j ≠ publicationJobPending →
    j_Generation j <= newest (f (j_DocumentID j));
  rf_published : ∀ i d, documents s !! i = Some d → d_PublicationStatus d = PublicationPublished →
    ∃ v, v ∈ F ∧ jv_DocumentID v = i ∧ jv_Generation v = d_PublicationGeneration d ∧
      jv_Generation v <= newest (f i) ∧
      ∀ k r, media_refs s !! k = Some r → mr_DocumentID r = i → mr_AttachmentID r ∈ jv_AttachmentIDs v;
  rf_draft : ∀ i d, documents s !! i = Some d → d_PublicationStatus d = PublicationDraft →
    f i = emptied (d_PublicationGeneration d);
}.

(** What an answer without error says about the references of the job. *)
Definition answer_ok (c : ref_call) (v : Job) (p : Refs) : Prop :=
  match c with
  | CallStage => jv_Generation v <= newest p
  | CallFinalize => True
  | CallClear => jv_Generation v < newest p ∨ p = emptied (jv_Generation v)
  end.

Record CInv (w : CWorld) : Prop := {
  ci_knowledge : world_ok (db (knowledge w)) (flight (knowledge w));
  ci_attachment : AWInv (attachment w);
  ci_claims : claims_ok (db (knowledge w)) (flight (knowledge w));
  ci_refs : refs_ok (db (knowledge w)) (flight (knowledge w)) (refs w);
  ci_answered : ∀ c v, (c, v) ∈ answered w → v ∈ flight (knowledge w) ∧ sends c v ∧
    answer_ok c v (refs w (jv_DocumentID v));
}.

(** ** Steps of the knowledge service *)

Lemma drift_claims c n s t F :
  saga_ok s → claims_ok s F → drift c n s t → (∀ i, c = Some i → i ∈ new_ids s ∧ i ∉ new_ids t) →
  claims_ok t F.
Proof.
  intros Hok [C1 C2 C3 C4 C5 C6] [Dd Dj Dm Di] Hc.
  assert (∀ x, x ∉ new_ids s → x ∉ new_ids t) as Hids by (intros x; by apply suffix_no_id).
  split.
  - intros i [e [(d & Hd & _)|[-> _]]%Dd]; [by apply Hids, C1|by apply Hc].
  - intros v Hv. by apply Hids, C2.
  - intros v Hv. destruct (C3 v Hv) as [Hpos Hle]. split; [done|].
    intros e [(d & Hd & [Hg _])|[-> _]]%Dd; [specialize (Hle d Hd); lia|].
    destruct (Hc _ eq_refl) as [Hin _]. by destruct (C2 v Hv).
  - done.
  - intros v k j' Hv Hj' Hdoc Hgen. destruct (Dj k j' Hj') as [(j & Hj & E1 & E2 & E3 & _)|[_ [_ (d & Hd & Hlt)]]].
    + destruct (C5 v k j Hv Hj) as (? & ? & ?); [congruence..|]. split_and!; congruence.
    + exfalso. rewrite <-Hdoc in Hd. destruct (C3 v Hv) as [_ Hle]. specialize (Hle d Hd). lia.
  - intros k k' j j' Hj Hj' Hdoc Hgen.
    assert (∀ x y a b, jobs s !! x = Some a → same_order a y → new_order s b → j_DocumentID y = j_DocumentID b →
              j_Generation y = j_Generation b → False) as Hnew.
    { intros x y a b Hx (E1 & E2 & _) [_ (d & Hd & Hlt)] Ed Eg.
      destruct (ok_jobs _ Hok x a Hx) as (e & He & [Hr _ _ _ _]). rewrite <-Ed, E1 in Hd.
      assert (e = d) as -> by congruence. lia. }
    destruct (Dj k j Hj) as [(a & Ha & Sa)|[Ek Na]], (Dj k' j' Hj') as [(b & Hb & Sb)|[Ek' Nb]].
    + pose proof Sa as (A1 & A2 & A3 & _). pose proof Sb as (B1 & B2 & B3 & _).
      rewrite A3, B3. eapply C6; eauto; congruence.
    + exfalso. by eapply (Hnew k j a j').
    + exfalso. by eapply (Hnew k' j' b j).
    + assert (k = k') as -> by congruence. by assert (j = j') as -> by congruence.
Qed.

Lemma drift_refs c n s t F f :
  claims_ok s F → refs_ok s F f → drift c n s t → (∀ i, c = Some i → i ∈ new_ids s) → refs_ok t F f.
Proof.
  intros HC [R1 R2 R3 R4 R5 R6] [Dd Dj Dm Di] Hc. split.
  - intros i Hi. apply R1. destruct Di as [u Hu]. rewrite Hu. set_solver.
  - intros i e [(d & Hd & [Hg _])|[-> _]]%Dd; [specialize (R2 i d Hd); lia|].
    rewrite R1 by by apply Hc. cbn. lia.
  - done.
  - intros k j' Hj' Hst. destruct (Dj k j' Hj') as [(j & Hj & E1 & E2 & _ & E4)|[_ [? _]]]; [|done].
    rewrite E1, E2. apply (R4 k j Hj). congruence.
  - intros i e He Hst. destruct (Dd i e He) as [(d & Hd & _ & Hp & _)|[_ [? _]]]; [|done].
    destruct Hp as [Hst' Eg]; [by left|]. rewrite Hst in Hst'. symmetry in Hst'. destruct (R5 i d Hd Hst') as (v & Hv & E1 & E2 & E3 & E4).
    exists v. rewrite Eg. split_and!; try done. intros k r Hr. eapply E4. by eapply lookup_weaken.
  - intros i e He Hst. destruct (Dd i e He) as [(d & Hd & _ & Hp & _)|[-> [_ Hg]]].
    + destruct Hp as [Hst' ->]; [by right|]. apply R6; [done|congruence].
    + rewrite Hg by done. by apply R1, Hc.
Qed.

Lemma drift_step c n w t :
  CInv w → world_ok t (flight (knowledge w)) → drift c n (db (knowledge w)) t →
  (∀ i, c = Some i → i ∈ new_ids (db (knowledge w)) ∧ i ∉ new_ids t) →
  CInv (with_db t (flight (knowledge w)) w).
Proof.
  intros [Hk Ha Hcl Hr Han] Ht Hd Hc. split; [done|done| | |done].
  - eapply drift_claims; eauto. by destruct Hk.
  - eapply drift_refs; eauto. naive_solver.
Qed.

(** ** More claims *)

(** Claims with the work of others. *)
Lemma claims_alike s F G :
  (∀ x, x ∈ G → ∃ v, v ∈ F ∧ jv_DocumentID x = jv_DocumentID v ∧ jv_Generation x = jv_Generation v ∧
     jv_AttachmentIDs x = jv_AttachmentIDs v) →
  claims_ok s F → claims_ok s G.
Proof.
  intros HG [C1 C2 C3 C4 C5 C6]. split; [done| | | | |done].
  - intros x (v & Hv & -> & _)%HG. by apply C2.
  - intros x (v & Hv & -> & -> & _)%HG. by apply C3.
  - intros x y (v & Hv & E1 & E2 & E3)%HG (z & Hz & F1 & F2 & F3)%HG Ed Eg. rewrite E3, F3. apply C4; congruence.
  - intros x k j (v & Hv & E1 & E2 & E3)%HG Hj Ed Eg.
    destruct (C5 v k j Hv Hj) as (? & ? & ?); [congruence..|]. split_and!; congruence.
Qed.

(** Claims of rows. *)
Lemma claims_rows s F G :
  saga_ok s → claims_ok s F → (∀ x, x ∈ G → ∃ k j, jobs s !! k = Some j ∧ order_of x j) →
  claims_ok s (G ++ F).
Proof.
  intros Hok [C1 C2 C3 C4 C5 C6] HG.
  assert (∀ x y, x ∈ G → y ∈ G ++ F → jv_DocumentID x = jv_DocumentID y → jv_Generation x = jv_Generation y →
            jv_AttachmentIDs x = jv_AttachmentIDs y) as Hpair.
  { intros x y (k & j & Hj & E1 & E2 & E3)%HG [(k' & j' & Hj' & F1 & F2 & F3)%HG|Hy]%elem_of_app Ed Eg.
    - rewrite (C6 k k' j j' Hj Hj') in E3 by congruence. congruence.
    - destruct (C5 y k j Hy Hj) as (_ & _ & Hy3); [congruence..|]. congruence. }
  split; [done| | | | |done].
  - intros x [(k & j & Hj & -> & _)%HG|Hx]%elem_of_app; [|by apply C2].
    destruct (ok_jobs _ Hok k j Hj) as (d & Hd & _). apply C1. eauto.
  - intros x [(k & j & Hj & -> & -> & _)%HG|Hx]%elem_of_app; [|by apply C3].
    destruct (ok_jobs _ Hok k j Hj) as (d & Hd & [Hr _ _ _ _]). split; [lia|]. intros e He.
    assert (e = d) as -> by congruence. lia.
  - intros x y Hx Hy Ed Eg. pose proof Hx as [Hx1|Hx1]%elem_of_app; [by apply Hpair|].
    pose proof Hy as [Hy1|Hy1]%elem_of_app; [symmetry; by apply Hpair|by apply C4].
  - intros x k j [Hx|Hx]%elem_of_app Hj Ed Eg; [|by apply (C5 x k j)].
    apply HG in Hx as (k' & j' & Hj' & E1 & E2 & E3). split_and!; [done..|].
    by rewrite (C6 k k' j j' Hj Hj') by congruence.
Qed.

Lemma refs_more s F G f : (∀ v, v ∈ F → v ∈ G) → refs_ok s F f → refs_ok s G f.
Proof.
  intros Hsub [R1 R2 R3 R4 R5 R6]. split; [done|done| |done| |done].
  - intros i (v & ? & ?)%R3. exists v. by split; [apply Hsub|].
  - intros i d Hd Hst. destruct (R5 i d Hd Hst) as (v & ? & ?). exists v. by split; [apply Hsub|].
Qed.

(** The jobs of a claim are rows. *)
Lemma claim_orders ctx limit lease s s' vs :
  saga_ok s → ClaimPublicationReferenceJobs ctx limit lease s = (s', Ok vs) →
  ∀ v, v ∈ vs → ∃ k j, jobs s' !! k = Some j ∧ order_of v j.
Proof.
  intros Hok Hr. destruct (claim_run _ _ _ _ _ _ Hok Hr) as [Hcalm _].
  unfold ClaimPublicationReferenceJobs in Hr. store_inv.
  assert (∀ js s1 vs, (∀ j, j ∈ js → jobs s !! j_ID j = Some j) → collect js (claim_job ctx lease) s1 = (s', Ok vs) →
            ∀ v, v ∈ vs → ∃ j, jobs s !! j_ID j = Some j ∧ order_of v j) as Hcollect.
  { clear Hr. intros js. induction js as [|j js IH]; intros s1 ws Hin Hr v Hv; cbn [collect] in Hr; store_inv.
    - by apply elem_of_nil in Hv.
    - apply elem_of_cons in Hv as [->|Hv]; [|eapply IH; [|eassumption|done]; intros j' Hj'; apply Hin; by right].
      unfold claim_job in *. store_inv. exists j. split; [apply Hin; left|]. by split_and!. }
  intros v Hv. eapply Hcollect in Hr as (j & Hj & E1 & E2 & E3); [|clear v Hv|exact Hv].
  - destruct (calm_job_fwd _ _ _ _ Hcalm Hj) as (j' & Hj' & (_ & F1 & F2 & _) & _ & F4).
    exists (j_ID j), j'. split; [done|]. split_and!; congruence.
  - intros j (y & Hj & _)%elem_of_take. apply list_elem_of_lookup_2 in Hj.
    apply elem_of_order_by, elem_of_rows_where in Hj as [_ [k Hk]].
    destruct (ok_job_keys _ Hok k j Hk) as [-> _]. done.
Qed.

Lemma claims_state s F v st : v ∈ F → claims_ok s F → claims_ok s (set_jv_State st v :: F).
Proof. intros Hv. apply claims_alike. intros x [->|Hx]%elem_of_cons; [by exists v|by exists x]. Qed.

(** ** Staging and promoting *)

(** No document and no job is new; jobs keep their work. *)
Lemma claims_kept s t F :
  (∀ i e, documents t !! i = Some e →
     ∃ d, documents s !! i = Some d ∧ d_PublicationGeneration d <= d_PublicationGeneration e) →
  (∀ k j', jobs t !! k = Some j' → ∃ j, jobs s !! k = Some j ∧ j_DocumentID j' = j_DocumentID j ∧
     j_Generation j' = j_Generation j ∧ j_AttachmentIDs j' = j_AttachmentIDs j) →
  (∃ used, new_ids s = used ++ new_ids t) → claims_ok s F → claims_ok t F.
Proof.
  intros Dd Dj Di [C1 C2 C3 C4 C5 C6]. split.
  - intros i [e (d & Hd & _)%Dd]. eapply suffix_no_id; [done|]. eauto.
  - intros v Hv. eapply suffix_no_id; [done|]. eauto.
  - intros v Hv. destruct (C3 v Hv) as [Hpos Hle]. split; [done|].
    intros e (d & Hd & Hg)%Dd. specialize (Hle d Hd). lia.
  - done.
  - intros v k j' Hv (j & Hj & E1 & E2 & E3)%Dj Ed Eg.
    destruct (C5 v k j Hv Hj) as (? & ? & ?); [congruence..|]. split_and!; congruence.
  - intros k k' j' z' (j & Hj & E1 & E2 & E3)%Dj (z & Hz & F1 & F2 & F3)%Dj Ed Eg.
    rewrite E3, F3. eapply C6; eauto; congruence.
Qed.

(** What staging writes: the state of one row. *)
Lemma staged_run ctx i s s' u :
  MarkPublicationReferencesStaged ctx i s = (s', Ok u) →
  documents s' = documents s ∧ media_refs s' = media_refs s ∧ new_ids s' = new_ids s ∧
  ∀ k j', jobs s' !! k = Some j' → ∃ j, jobs s !! k = Some j ∧ j_DocumentID j' = j_DocumentID j ∧
    j_Generation j' = j_Generation j ∧ j_AttachmentIDs j' = j_AttachmentIDs j ∧
    (j_ID j = i ∨ j_State j' = j_State j).
Proof.
  unfold MarkPublicationReferencesStaged, updatePublicationJob. intros Hr. store_inv.
  match goal with H : update_jobs _ _ _ = _ |- _ => apply update_jobs_run in H as (_ & -> & _) end.
  split_and!; try done. intros k j' (j & Hj & ->)%lookup_update_where_Some. exists j. split; [done|].
  destruct (live_job i j) eqn:Hl; [|split_and!; try done; by right].
  unfold live_job in Hl. apply andb_prop in Hl as [Hl _]. apply bool_decide_eq_true in Hl.
  split_and!; try done. by left.
Qed.

Lemma stage_step ctx v w s' u :
  CInv w → (CallStage, v) ∈ answered w →
  MarkPublicationReferencesStaged ctx (jv_ID v) (db (knowledge w)) = (s', Ok u) →
  CInv (with_db s' (set_jv_State "staged" v :: flight (knowledge w)) w).
Proof.
  intros [Hk Ha Hcl Hr Han] Hv Hm. destruct (Han _ _ Hv) as (Hf & [Hac Hst] & Hle).
  pose proof (staged_run _ _ _ _ _ Hm) as (Ed & Em & Ei & Hj). pose proof Hk as [Hok Hfl].
  split; cbn [knowledge db flight attachment answered with_db].
  - eapply (step_keeps (knowledge w) (MkWorld s' _)); [done|]. by eapply step_stage.
  - done.
  - apply claims_state; [done|]. revert Hcl. apply claims_kept.
    + intros i e. rewrite Ed. intros He. exists e. split; [done|lia].
    + intros k j' (j & Hj' & ? & ? & ? & _)%Hj. by exists j.
    + exists []. by rewrite Ei.
  - eapply (refs_more _ (flight (knowledge w))); [intros x; by right|].
    destruct Hr as [R1 R2 R3 R4 R5 R6]. split; rewrite ?Ei, ?Ed, ?Em; [done|done|done| |done|done].
    intros k j' Hj' Hp. destruct (Hj k j' Hj') as (j & Hj0 & E1 & E2 & _ & [Hid|Es]); rewrite E1, E2.
    + destruct (ok_job_keys _ Hok k j Hj0) as [Hkey _]. rewrite <-Hkey, Hid in Hj0.
      destruct (flight_row _ _ (Hfl v Hf) j Hj0) as (-> & -> & _). done.
    + apply (R4 k j Hj0). congruence.
  - intros c x Hx. destruct (Han c x Hx) as (? & ? & ?). split; [by right|done].
Qed.

Lemma promote_step ctx v w s' u :
  CInv w → v ∈ flight (knowledge w) → jv_Action v ≠ "clear" → jv_State v = "staged" →
  PromotePublication ctx v (db (knowledge w)) = (s', Ok u) →
  CInv (with_db s' (set_jv_State "promoted" v :: flight (knowledge w)) w).
Proof.
  intros [Hk Ha Hcl Hr Han] Hf Hac Hst Hp. pose proof Hk as [Hok Hfl].
  assert (world_ok s' (set_jv_State "promoted" v :: flight (knowledge w))) as Hk'.
  { eapply (step_keeps (knowledge w) (MkWorld s' _)); [done|]. by eapply step_promote. }
  assert (∀ c x, (c, x) ∈ answered w → x ∈ set_jv_State "promoted" v :: flight (knowledge w) ∧ sends c x ∧
            answer_ok c x (refs w (jv_DocumentID x))) as Han'.
  { intros c x Hx. destruct (Han c x Hx) as (? & ? & ?). split; [by right|done]. }
  apply promote_run in Hp as [[-> _]|(stored & d & c & tags & content & Hp)].
  { split; [done|done|by apply claims_state| |done]. eapply refs_more; [|done]. intros x. by right. }
  pose proof Hp as [P1 P2 P3 P4 P5 P6 P7 P8 P9 _ _ (e & P10 & P11) P12 P13 P14 P15 P16 P17].
  rewrite (ok_document_keys _ Hok _ d P4) in P10, P11. assert (e = d) as -> by congruence.
  destruct (flight_row _ _ (Hfl v Hf) stored P1) as (E1 & E2 & _).
  assert (∀ k j', jobs s' !! k = Some j' → ∃ j, jobs (db (knowledge w)) !! k = Some j ∧
            j_DocumentID j' = j_DocumentID j ∧ j_Generation j' = j_Generation j ∧
            j_AttachmentIDs j' = j_AttachmentIDs j ∧ (j_ID j = j_ID stored ∨ j_State j' = j_State j)) as Hj.
  { intros k j'. rewrite P15. intros (j & Hj & ->)%lookup_update_where_Some. exists j. split; [done|].
    case_bool_decide; split_and!; try done; [by left|by right]. }
  split; cbn [knowledge db flight attachment answered with_db]; [done|done| | |done].
  - apply claims_state; [done|]. revert Hcl. apply claims_kept; [|intros k j' (j & Hj' & ? & ? & ? & _)%Hj; by exists j|done].
    intros i x. rewrite P11, lookup_insert_Some. intros [[<- <-]|[_ Hx]]; [exists d|exists x]; (split; [done|]); simpl; lia.
  - eapply (refs_more _ (flight (knowledge w))); [intros x; by right|].
    destruct Hr as [R1 R2 R3 R4 R5 R6].
    assert (jv_Generation v <= newest (refs w (jv_DocumentID v))) as Hle.
    { rewrite <-E1, <-P3. apply (R4 _ stored P1). by rewrite P2. }
    cbn [knowledge db flight attachment answered with_db].
    split.
    + intros i Hi. apply R1. destruct P17 as [us Hu]. rewrite Hu. set_solver.
    + intros i x. rewrite P11, lookup_insert_Some. intros [[<- <-]|[_ Hx]]; [by apply (R2 _ d)|by apply R2].
    + done.
    + intros k j' Hj' Hpend. destruct (Hj k j' Hj') as (j & Hj0 & F1 & F2 & _ & [Hid|Es]); rewrite F1, F2.
      * destruct (ok_job_keys _ Hok k j Hj0) as [Hkey _], (ok_job_keys _ Hok _ stored P1) as [Hkey' _].
        rewrite <-Hkey, Hid, Hkey' in Hj0. assert (j = stored) as -> by congruence. by rewrite E1, E2.
      * apply (R4 k j Hj0). congruence.
    + intros i x. rewrite P11, lookup_insert_Some. intros [[<- <-]|[Hne Hx]] Hpub.
      * exists v. simpl. split_and!; try done. intros [y z] r. rewrite P14. simpl. case_decide as Hin.
        { intros [= <-] _. simpl. tauto. }
        intros [Hr0 Hd0]%lookup_delete_where_Some Heq. by apply bool_decide_eq_false in Hd0.
      * destruct (R5 i x Hx Hpub) as (y & Hy & F1 & F2 & F3 & F4). exists y. split_and!; try done.
        intros [a b] r. rewrite P14. simpl. case_decide as Hin.
        { intros [= <-] Heq. simpl in Heq. destruct Hin as [<- _]. congruence. }
        intros [Hr0 _]%lookup_delete_where_Some. by eapply F4.
    + intros i x. rewrite P11, lookup_insert_Some. intros [[<- <-]|[Hne Hx]] Hpub; [done|by apply R6].
Qed.

(** ** Steps of the attachment service *)

(** A job's command makes its generation the newest, or changes nothing. *)
Lemma send_moves c now v n n' r :
  AInv (adb n) → sends c v → send c now v n = (n', r) →
  references_move (jv_DocumentID v) (jv_Generation v) (list_to_set (jv_AttachmentIDs v)) (adb n) (adb n') ∧
  (r = Ok tt → answer_ok c v (refs_of (adb n') (jv_DocumentID v))).
Proof.
  intros Hi Hs Hr. destruct c; cbn [send] in Hr.
  - apply StageReferences_moves in Hr as [Hm Hle]; [|done]. split; [done|]. intros Ho. by apply Hle.
  - apply (FinalizeReferences_moves _ _ (list_to_set (jv_AttachmentIDs v))) in Hr; done.
  - apply ClearReferences_moves in Hr as [Hm Hle]; [|done]. by split.
Qed.

(** The request a call is to the service. *)
Definition call_request (c : ref_call) (now : Z) (v : Job) : arequest :=
  match c with
  | CallStage => AReqStage now (command v)
  | CallFinalize => AReqFinalize now (command v)
  | CallClear => AReqClear now (command v)
  end.

Lemma call_astep c now v w n' r :
  free w (jv_DocumentID v) → send c now v (node w) = (n', r) → astep w (MkAWorld n' (held w) (opened w)).
Proof.
  intros Hf Hr. replace n' with (run_arequest (call_request c now v) (node w)) by (destruct c; cbn in *; by rewrite Hr).
  apply astep_request. by destruct c.
Qed.

(** The references after a command of a claim. *)
Lemma moved_refs s F v a a' :
  v ∈ F → claims_ok s F →
  references_move (jv_DocumentID v) (jv_Generation v) (list_to_set (jv_AttachmentIDs v)) a a' →
  refs_ok s F (refs_of a) → refs_ok s F (refs_of a').
Proof.
  intros Hv [_ C2 C3 _ _ _] (Hm & He & Ho) [R1 R2 R3 R4 R5 R6].
  assert (∀ i, newest (refs_of a i) <= newest (refs_of a' i)) as Hmono.
  { intros i. destruct (decide (i = jv_DocumentID v)) as [->|Hne]; [by eapply moves_newest|by rewrite Ho]. }
  destruct (C3 v Hv) as [Hpos Hgen].
  assert (∀ i d, documents s !! i = Some d → newest (refs_of a' i) <= Z.max 0 (d_PublicationGeneration d)) as Hbound.
  { intros i d Hd. destruct (decide (i = jv_DocumentID v)) as [->|Hne]; [|rewrite Ho by done; by apply R2].
    specialize (R2 _ d Hd). specialize (Hgen d Hd). destruct Hm as [[-> _]|(_ & -> & _)]; lia. }
  split; [|done|..].
  - intros i Hi. rewrite Ho; [by apply R1|]. intros ->. by apply (C2 v Hv).
  - intros i Hi. destruct (decide (i = jv_DocumentID v)) as [->|Hne]; [|rewrite Ho in * by done; by apply R3].
    destruct Hm as [[E1 E2]|(_ & -> & ->)]; [|by exists v]. rewrite E1, E2 in *. by apply R3.
  - intros k j Hj Hst. etrans; [by eapply R4|apply Hmono].
  - intros i d Hd Hst. destruct (R5 i d Hd Hst) as (x & Hx & E1 & E2 & E3 & E4). exists x.
    split_and!; try done. etrans; [exact E3|apply Hmono].
  - intros i d Hd Hst. specialize (R6 i d Hd Hst). specialize (Hbound i d Hd).
    destruct (decide (i = jv_DocumentID v)) as [->|Hne]; [|by rewrite Ho]. specialize (Hgen d Hd).
    destruct (He _ R6) as [->|Hlt]; [done|lia].
Qed.

(** An answer stays true. *)
Lemma answer_stays c x v ids a a' :
  references_move (jv_DocumentID v) (jv_Generation v) ids a a' →
  answer_ok c x (refs_of a (jv_DocumentID x)) → answer_ok c x (refs_of a' (jv_DocumentID x)).
Proof.
  intros (Hm & He & Ho). destruct (decide (jv_DocumentID x = jv_DocumentID v)) as [Eq|Hne]; [|by rewrite Ho].
  rewrite Eq. pose proof (moves_newest _ _ _ _ Hm). destruct c; cbn [answer_ok]; [lia|done|].
  intros [Hlt|E]; [left; lia|]. destruct (He _ E) as [->|Hlt]; [by right|by left].
Qed.

(** The service moves by a command of a claim, and may answer. *)
Lemma answer_step {E} c v w a' (r : result E unit) :
  CInv w → v ∈ flight (knowledge w) → sends c v → AWInv a' →
  references_move (jv_DocumentID v) (jv_Generation v) (list_to_set (jv_AttachmentIDs v))
    (adb (node (attachment w))) (adb (node a')) →
  (r = Ok tt → answer_ok c v (refs_of (adb (node a')) (jv_DocumentID v))) →
  CInv (MkCWorld (knowledge w) a' (if r is Ok _ then (c, v) :: answered w else answered w)).
Proof.
  intros [Hk Ha Hcl Hr Han] Hv Hs Ha' Hm Hle.
  split; cbn [knowledge attachment answered node]; [done|done|done|by eapply moved_refs|].
  assert (∀ c0 x, (c0, x) ∈ answered w → x ∈ flight (knowledge w) ∧ sends c0 x ∧
            answer_ok c0 x (refs_of (adb (node a')) (jv_DocumentID x))) as Hold.
  { intros c0 x Hx. destruct (Han c0 x Hx) as (? & ? & Hl). split_and!; [done|done|]. by eapply answer_stays. }
  intros c0 x. destruct r as [[]|e]; [|by apply Hold].
  intros [[= -> ->]|Hx]%elem_of_cons; [|by apply Hold]. split_and!; auto.
Qed.

Lemma apart_step w a' :
  CInv w → AWInv a' → (∀ d, refs_of (adb (node a')) d = refs_of (adb (node (attachment w))) d) →
  CInv (MkCWorld (knowledge w) a' (answered w)).
Proof.
  intros [Hk Ha Hcl [R1 R2 R3 R4 R5 R6] Han] Ha' Hs.
  assert (∀ i, refs_of (adb (node a')) i = refs w i) as He by done.
  split; cbn [knowledge attachment answered]; [done|done|done| |].
  - unfold refs. cbn [attachment]. split.
    + intros i Hi. rewrite He. by apply R1.
    + intros i d Hd. rewrite He. by apply R2.
    + intros i. rewrite !He. apply R3.
    + intros k j Hj Hst. rewrite He. by eapply R4.
    + intros i d Hd Hst. rewrite He. by apply R5.
    + intros i d Hd Hst. rewrite He. by apply R6.
  - intros c v Hv. unfold refs. cbn [attachment]. rewrite He. by apply Han.
Qed.

(** ** Every step *)

(** A step of the knowledge service alone. *)
Lemma own_step c n w t :
  CInv w → step (knowledge w) (MkWorld t (flight (knowledge w))) → drift c n (db (knowledge w)) t →
  (∀ i, c = Some i → i ∈ new_ids (db (knowledge w)) ∧ i ∉ new_ids t) →
  CInv (with_db t (flight (knowledge w)) w).
Proof.
  intros Hw Hs Hd Hc. eapply drift_step; [done| |done|done].
  by apply (step_keeps (knowledge w) (MkWorld t (flight (knowledge w)))); [apply Hw|].
Qed.

(** A clear that completes has nothing left to hold. *)
Lemma clear_step ctx v w :
  CInv w → (CallClear, v) ∈ answered w →
  CInv (with_db (CompletePublicationReferenceJob ctx (jv_ID v) true (db (knowledge w))).1 (flight (knowledge w)) w).
Proof.
  intros Hw Hv. pose proof (ci_knowledge _ Hw) as [Hok Hfl].
  destruct (ci_answered _ Hw _ _ Hv) as (Hf & Hac & Hans).
  destruct (clear_drift ctx (jv_ID v) _ Hok) as [Hd|(j & d & Hj & Hd & Hg & Ed & Ej & Em & Ei)].
  { eapply own_step; [done|by apply step_clear|exact Hd|done]. }
  set (t := (CompletePublicationReferenceJob _ _ _ _).1) in *.
  destruct (flight_row _ _ (Hfl v Hf) j Hj) as (Edoc & Egen & _).
  pose proof Hw as [Hk Ha Hcl [R1 R2 R3 R4 R5 R6] Han].
  assert (∀ i e, documents t !! i = Some e → ∃ x, documents (db (knowledge w)) !! i = Some x ∧
    d_PublicationGeneration x = d_PublicationGeneration e ∧
    ((e = x ∧ i ≠ j_DocumentID j) ∨ i = j_DocumentID j ∧ e = cleared_row ctx d ∧ x = d)) as Hdocs.
  { intros i e. rewrite Ed, lookup_insert_Some. intros [[<- <-]|[Hne He]]; [exists d; split_and!; [done|done|by right]|].
    exists e. split_and!; [done|done|left; done]. }
  split; cbn [knowledge db flight attachment answered with_db]; [|done| | |done].
  - by apply (step_keeps (knowledge w) (MkWorld t _)), step_clear.
  - revert Hcl. apply claims_kept; [|intros k j' Hj'; exists j'; split; [by eapply lookup_weaken|done]|by exists []; rewrite Ei].
    intros i e (x & Hx & Eg & _)%Hdocs. exists x. split; [done|lia].
  - split; [by rewrite Ei| |done|intros k j' Hj'; apply (R4 k); by eapply lookup_weaken|..].
    + intros i e (x & Hx & Eg & _)%Hdocs. rewrite <-Eg. by apply R2.
    + intros i e (x & Hx & Eg & [[-> _]|(_ & -> & _)])%Hdocs Hst; [|done].
      destruct (R5 i x Hx Hst) as (y & Hy & F1 & F2 & F3 & F4). exists y. split_and!; try done.
      intros k r Hr. eapply F4. by eapply lookup_weaken.
    + intros i e (x & Hx & Eg & [[-> _]|(-> & -> & _)])%Hdocs Hst; [by apply R6|]. simpl.
      specialize (R2 _ d Hd). rewrite Edoc in R2 |- *. rewrite Hg, Egen in R2 |- *.
      destruct (cl_generation _ _ Hcl v Hf) as [Hpos _]. change (refs_of _ _) with (refs w (jv_DocumentID v)) in *.
      destruct Hans as [Hlt|]; [lia|done].
Qed.

Lemma create_step ctx v k w s1 :
  CInv w → NewID (db (knowledge w)) = (s1, Ok (v_ID v)) → fresh_document v → v_PublicationGeneration v = 0 →
  CInv (with_db (CreateDocument ctx v k s1).1 (flight (knowledge w)) w).
Proof.
  intros Hw Hn Hv Hg. pose proof (ci_knowledge _ Hw) as Hk. pose proof Hk as [Hok _].
  pose proof Hn as Hsame%NewID_same%same_saga_calm.
  pose proof (CreateDocument_drift ctx v k s1 Hv Hg) as Hd.
  eapply (drift_step (Some (v_ID v)) None); [done| | |].
  - eapply (run_request_keeps (ReqCreateDocument ctx v k) s1); [done|]. by apply (calm_keeps _ _ Hsame).
  - eapply drift_around; [by apply calm_drift|exact Hd|reflexivity].
  - intros i [= <-]. apply NewID_run in Hn as (rest & Hids & ->). pose proof (ok_ids _ Hok) as Hnd.
    rewrite Hids in Hnd |- *. apply NoDup_cons in Hnd as [Hni _]. split; [left|].
    intros Hin. apply Hni. destruct Hd as [_ _ _ [u Hu]]. cbn in Hu. rewrite Hu. set_solver.
Qed.

Lemma commit_step now v cmd head w n' r :
  CInv w → v ∈ flight (knowledge w) → sends CallStage v → publicationCommand (command v) false = Ok cmd →
  (cmd, head) ∈ opened (attachment w) → on_db (stage_commit now cmd head) (node (attachment w)) = (n', r) →
  CInv (MkCWorld (knowledge w) (MkAWorld n' (held (attachment w)) (others cmd (opened (attachment w))))
          (if r is Ok _ then (CallStage, v) :: answered w else answered w)).
Proof.
  intros Hw Hv Hs Hc Ho Hr. pose proof (ci_attachment _ Hw) as Ha.
  pose proof (astep_inv _ _ Ha (astep_commit _ now _ _ Ho)) as Ha'. rewrite Hr in Ha'. cbn [fst] in Ha'.
  assert (stage_commit now cmd head (adb (node (attachment w))) = (adb n', r)) as Hrun.
  { unfold on_db in Hr. destruct (stage_commit _ _ _ _). by injection Hr as <- <-. }
  destruct (stage_commit_moves _ _ _ _ _ _ (aw_db _ Ha) (aw_opened _ Ha _ _ Ho) Hrun) as [Hm Hle].
  destruct (command_fields _ _ _ Hc) as (E1 & E2 & E3 & _). rewrite E1, E2, E3 in Hm. rewrite E1, E2 in Hle.
  eapply (answer_step CallStage v w (MkAWorld n' _ _)); [done|done|done|exact Ha'|exact Hm|].
  intros ?. by apply Hle.
Qed.

(** A step of the attachment service that leaves the references alone. *)
Lemma aside_step w a' :
  CInv w → astep (attachment w) a' →
  same_references (adb (node (attachment w))) (adb (node a')) → CInv (MkCWorld (knowledge w) a' (answered w)).
Proof.
  intros Hw Hs Hr. apply apart_step; [done|eapply astep_inv; [apply Hw|done]|].
  intros d. by apply same_references_refs.
Qed.

Lemma cstep_keeps w w' : CInv w → cstep w w' → CInv w'.
Proof.
  intros Hw Hs. pose proof (ci_knowledge _ Hw) as Hk. pose proof Hk as [Hok Hfl].
  pose proof (ci_attachment _ Hw) as Hat. destruct Hs as
    [r w Hr|ctx v k w s1 Hn Hv Hg|ctx limit lease w s' vs Hr|c now v w n' r Hv Hs Hf Hr
    |v cmd w d head Hv Hs Hc Hf Hb|now v cmd head w n' r Hv Hs Hc Ho Hr|cmd w|ctx v w s' u Hv Hr
    |ctx v w s' u Hv Ha Hst Hr|ctx v w Hv|ctx v w Hv|ctx v w key Hv|ctx v w key Hv|r w Hp Hc|now w n' claimed Hr].
  - destruct (request_drift r (db (knowledge w)) Hok) as [n Hd]; [by intros ? ? ? ->|].
    eapply own_step; [exact Hw| |exact Hd|intros ? [=]]. apply step_request. by destruct r.
  - by eapply create_step.
  - pose proof (claim_run _ _ _ _ _ _ Hok Hr) as [Hc _].
    pose proof (drift_step None None w s' Hw) as Hw'.
    destruct Hw' as [Hk' Ha' Hcl' Hr' Han']; [by apply (calm_keeps _ _ Hc)|by apply calm_drift|done|].
    split; cbn [knowledge db flight attachment answered with_db] in *; [|done| | |].
    + eapply (step_keeps (knowledge w) (MkWorld s' _)); [done|]. by eapply step_claim.
    + apply claims_rows; [by destruct Hk'|done|by eapply claim_orders].
    + eapply refs_more; [|exact Hr']. set_solver.
    + intros c v Hv. destruct (Han' c v Hv) as (? & ? & ?). split; [set_solver|done].
  - destruct (send_moves _ _ _ _ _ _ (aw_db _ Hat) Hs Hr) as [Hm Hle].
    eapply (answer_step c v w (MkAWorld n' _ _)); [done|done|done| |exact Hm|exact Hle].
    eapply astep_inv; [exact Hat|]. by eapply call_astep.
  - apply aside_step; [done| |done]. by eapply astep_open.
  - by eapply commit_step.
  - apply aside_step; [done|by apply astep_rollback|done].
  - by eapply stage_step.
  - by eapply promote_step.
  - destruct (ci_answered _ Hw _ _ Hv) as (Hf & [Hac Hst] & _).
    eapply own_step; [done|by apply step_finalize|by apply complete_drift|done].
  - by apply clear_step.
  - apply (own_step None None); [done|by apply step_retry| |done]. apply calm_drift, RetryPublicationReferenceJob_calm.
  - eapply own_step; [done|by apply step_park|by apply park_drift|done].
  - apply aside_step; [done|by apply astep_request|]. by apply request_apart; [apply Hat|].
  - apply aside_step; [done|by eapply astep_claim|].
    pose proof (Claim_apart now (node (attachment w))) as Hap. by rewrite Hr in Hap.
Qed.

(** A step leaves the attachment service as it is, or is one of its steps. *)
Lemma cstep_attachment w w' : cstep w w' → attachment w' = attachment w ∨ astep (attachment w) (attachment w').
Proof.
  intros Hs. destruct Hs; try (by left); right; cbn [attachment].
  - by eapply call_astep.
  - by eapply astep_open.
  - match goal with Hc : on_db (stage_commit ?now _ _) _ = (?n', _) |- _ =>
      pose proof (astep_commit (attachment w) now cmd head) as Ha; rewrite Hc in Ha; by apply Ha end.
  - apply astep_rollback.
  - by apply astep_request.
  - by eapply astep_claim.
Qed.

Lemma empty_cinv ids : NoDup ids → CInv (empty_cworld ids).
Proof.
  intros Hn. split; cbn [knowledge db flight attachment answered empty_cworld]; [by apply empty_ok|apply empty_awinv| | |].
  - split; cbn; try (intros v; set_solver). intros i [d Hd]. by rewrite lookup_empty in Hd.
  - split; cbn; intros; by simplify_map_eq.
  - intros c v ?%elem_of_nil. done.
Qed.

Lemma creachable_inv w : creachable w → CInv w.
Proof.
  intros (ids & Hnd & Hr). revert Hr. apply (rtc_keeps cstep CInv); [|by apply empty_cinv].
  intros a b Ha Hs. by eapply cstep_keeps.
Qed.

End world.
