(* ===== verification/CClaims.v ===== *)
(** What the knowledge and the attachment service promise together: the media
    of a published document are held, those of a draft are not. *)

From stdpp Require Import base gmap list sets strings relations.
From Stdlib Require Import ZArith Lia SpecFloat.
From S2P Require Import Prelude.
From S2P Require Import GoStrings.
From S2P Require Import KDomain.
From S2P Require Import RichText.
From S2P Require Import Json.
From S2P Require Import KSchema.
From S2P Require Import KTypes.
From S2P Require Import KStore.
From S2P Require Import KPublication.
From S2P Require Import KSaga.
From S2P Require Import KSagaSteps.
From S2P Require Import KWorld.
From S2P Require Import ASchema.
From S2P Require Import AStore.
From S2P Require Import AService.
From S2P Require Import AWorld.
From S2P Require Import AClaims.
From S2P Require Import CDrift.
From S2P Require Import CReferences.
From S2P Require Import CWorld.
From S2P Require Import KSample.

Open Scope Z_scope.

Section claims.
Context `{Unicode, Uuid, Url, Codec, Pg}.

Lemma IsMediaPublished_spec a s :
  (IsMediaPublished a s).2 = Ok true →
  ∃ k r d, media_refs s !! k = Some r ∧ mr_AttachmentID r = a ∧ documents s !! mr_DocumentID r = Some d ∧
    d_PublicationStatus d = PublicationPublished.
Proof.
  unfold IsMediaPublished, gets. cbn. intros [= E]. apply exists_where_true in E as (k & r & Hr & E).
  apply andb_prop in E as [Ea Ed]. apply bool_decide_eq_true in Ea.
  destruct (documents s !! mr_DocumentID r) as [d|] eqn:Hd; [|done]. cbn in Ed.
  apply andb_prop in Ed as [Ed _]. apply bool_decide_eq_true in Ed. by exists k, r, d.
Qed.

(** The reference rows of the newest generation. *)
Lemma newest_reference db i a :
  AInv db → a ∈ newest_ids (refs_of db i) →
  ∃ f, references db !! (a, publicationReferenceType, i, newest (refs_of db i)) = Some f ∧ rf_AttachmentID f = a.
Proof.
  intros Hdb. unfold refs_of, newest, newest_ids. destruct (heads db !! head_key i) as [h|]; [cbn|set_solver].
  assert (∀ g, a ∈ refs_at db i g → ∃ f, references db !! (a, publicationReferenceType, i, g) = Some f ∧ rf_AttachmentID f = a) as Hat.
  { intros g (k & f & Hf & Hof & <- & <-)%elem_of_refs_at. destruct (ai_refs _ Hdb _ _ Hf) as (-> & Ht & _).
    apply of_document_spec in Hof as <-; [|done]. rewrite <-Ht. by exists f. }
  destruct (hd_StagedGeneration h) as [g|]; cbn; apply Hat.
Qed.

(** An authorised attachment is referenced for the publishing document at its
    current generation. *)
Lemma media_reference w a :
  creachable w → (IsMediaPublished a (db (knowledge w))).2 = Ok true →
  let store := adb (node (attachment w)) in
  AInv store ∧
  ∃ i d f, documents (db (knowledge w)) !! i = Some d ∧ d_PublicationStatus d = PublicationPublished ∧
    references store !! (a, publicationReferenceType, i, d_PublicationGeneration d) = Some f ∧
    rf_AttachmentID f = a.
Proof.
  intros [Hk [Ha _] Hcl [_ R2 R3 _ R5 _] _]%creachable_inv (k & m & d & Hm & <- & Hd & Hst)%IsMediaPublished_spec store.
  destruct (R5 _ d Hd Hst) as (v & Hv & E1 & E2 & Hle & Hin). specialize (R2 _ d Hd).
  destruct (cl_generation _ _ Hcl v Hv) as [Hpos _].
  assert (newest (refs w (mr_DocumentID m)) = d_PublicationGeneration d) as Hnew by lia.
  destruct (R3 (mr_DocumentID m)) as (v' & Hv' & F1 & F2 & F3); [lia|].
  assert (jv_AttachmentIDs v' = jv_AttachmentIDs v) as Hids by (apply (cl_claims _ _ Hcl); congruence).
  destruct (newest_reference store (mr_DocumentID m) (mr_AttachmentID m) Ha) as (f & Hf & Hfa).
  { change (refs_of store _) with (refs w (mr_DocumentID m)). rewrite F3, Hids. apply elem_of_list_to_set. by eapply Hin. }
  change (refs_of store _) with (refs w (mr_DocumentID m)) in Hf. rewrite Hnew in Hf. split; [done|].
  exists (mr_DocumentID m), d, f. by split_and!.
Qed.

(** A referenced attachment exists, its scan is over, and it is public once it is ready. *)
Lemma referenced_served store a i g f :
  AInv store → references store !! (a, publicationReferenceType, i, g) = Some f → rf_AttachmentID f = a →
  ∃ r, attachments store !! a = Some r ∧ scan_over (t_Status r) ∧
     (t_Status r = StatusReady → ∃ x, (GetPublished a store).2 = Ok x).
Proof.
  intros Ha Hf Hfa. destruct (ai_refs _ Ha _ _ Hf) as (_ & _ & _ & r & Hr & Hs). rewrite Hfa in Hr.
  exists r. split_and!; [done|done|].
  intros Hready. apply served_spec; [done|]. split; [by eauto|]. apply refs_of_spec; [done|]. by eauto.
Qed.


(** C5: Conversely, a document that is a draft, never published or taken
    offline and cleared, holds no attachment: the attachment service has no
    reference row that names it, whatever late commands of its earlier
    generations still arrive. *)
Theorem draft_holds_nothing w i d :
  creachable w → documents (db (knowledge w)) !! i = Some d → d_PublicationStatus d = PublicationDraft →
  ∀ k f, references (adb (node (attachment w))) !! k = Some f → rf_RefID f ≠ i.
Proof.
  intros [Hk [Ha _] Hcl [_ _ _ _ _ R6] _]%creachable_inv Hd Hst k f Hf <-.
  specialize (R6 _ d Hd Hst). destruct (ai_refs _ Ha _ _ Hf) as (_ & Ht & Hc & _).
  unfold current_reference in Hc. rewrite Ht in Hc. fold (head_key (rf_RefID f)) in Hc.
  unfold refs, refs_of, emptied in R6. destruct (heads _ !! head_key (rf_RefID f)) as [h|]; [|done].
  injection R6 as E1 E2 E3. destruct (hd_StagedGeneration h) as [g|]; [done|].
  apply orb_true_iff in Hc as [Hg%Z.eqb_eq|[=]].
  assert (rf_AttachmentID f ∈ refs_at (adb (node (attachment w))) (rf_RefID f) (hd_ActiveGeneration h)) as Hin.
  { apply elem_of_refs_at. exists k, f. split_and!; [done|by apply of_document_spec|done|done]. }
  rewrite E2 in Hin. set_solver.
Qed.

End claims.

(** A concrete run of the two services: an attachment is uploaded and scanned,
    a document that shows it is published, and taken offline again. *)

(** Arrays of at most one text are written as that text. *)
Definition one_codec : Codec := {|
  json_decode := λ t, Some (JArr (if t =?= EmptyString then [] else [JStr t]));
  json_encode := λ j, Some (match j with JArr [JStr t] => t | _ => EmptyString end);
  json_valid := λ _, true;
  decode_document := λ _, Some (MkDocument "doc" (Some []));
  decode_headers := λ _, Some [];
  std_decode := λ _, Some (JArr []);
  std_encode := λ _, "[]";
  sha256_hex := λ _, "0123456789abcdef0123456789abcdef0123456789abcdef0123456789abcdef";
|}.

#[export] Existing Instance all_uuid7 | 10.
#[export] Existing Instance one_codec | 10.

Definition shown_input : PublicationSnapshotInput :=
  MkPublicationSnapshotInput "Notes" EmptyString "notes" "en" None (MkDocument "doc" (Some []))
    "text" 0 "hash" EmptyString None zero_float zero_float ["a1"] (no_key 7).

Definition shown_ids : list string := ["doc-1"; "id-1"; "id-2"; "id-3"; "id-4"; "id-5"; "id-6"; "id-7"; "id-8"].

(** The steps of the run as functions of the world. *)
Definition after_att (r : arequest) (w : CWorld) : CWorld :=
  MkCWorld (knowledge w) (MkAWorld (run_arequest r (node (attachment w))) (held (attachment w)) (opened (attachment w)))
    (answered w).

Definition after_scan (now : Z) (w : CWorld) : CWorld :=
  match on_db (Claim now) (node (attachment w)) with
  | (n', Ok claimed) => MkCWorld (knowledge w) (MkAWorld n' (at_ID claimed :: held (attachment w)) (opened (attachment w))) (answered w)
  | _ => w
  end.

Definition after_req (r : request) (w : CWorld) : CWorld :=
  with_db (run_request r (db (knowledge w))) (flight (knowledge w)) w.

Definition after_create (ctx : Ctx) (v : Document) (k : KTypes.Idempotency) (w : CWorld) : CWorld :=
  match NewID (db (knowledge w)) with
  | (s1, Ok i) => with_db (CreateDocument ctx v k s1).1 (flight (knowledge w)) w
  | _ => w
  end.

Definition after_jobs (ctx : Ctx) (w : CWorld) : CWorld :=
  match ClaimPublicationReferenceJobs ctx 10 60 (db (knowledge w)) with
  | (s', Ok vs) => with_db s' (vs ++ flight (knowledge w)) w
  | _ => w
  end.

Definition after_call (c : ref_call) (now : Z) (v : Job) (w : CWorld) : CWorld :=
  let '(n', r) := send c now v (node (attachment w)) in
  MkCWorld (knowledge w) (MkAWorld n' (held (attachment w)) (opened (attachment w)))
    (if r is Ok _ then (c, v) :: answered w else answered w).

(** The two phases of a staging. *)
Definition after_open_job (v : Job) (w : CWorld) : CWorld :=
  match publicationCommand (command v) false with
  | Ok cmd =>
    match stage_begin cmd (adb (node (attachment w))) with
    | (_, Ok (Some head)) =>
      MkCWorld (knowledge w)
        (MkAWorld (node (attachment w)) (held (attachment w)) ((cmd, head) :: opened (attachment w))) (answered w)
    | _ => w
    end
  | Err _ => w
  end.

Definition after_commit_job (now : Z) (v : Job) (w : CWorld) : CWorld :=
  match publicationCommand (command v) false, opened (attachment w) with
  | Ok cmd, (cmd', head) :: l =>
    if bool_decide (cmd' = cmd) then
      let '(n', r) := on_db (stage_commit now cmd head) (node (attachment w)) in
      MkCWorld (knowledge w) (MkAWorld n' (held (attachment w)) (others cmd (opened (attachment w))))
        (if r is Ok _ then (CallStage, v) :: answered w else answered w)
    else w
  | _, _ => w
  end.

Definition after_staged (ctx : Ctx) (v : Job) (w : CWorld) : CWorld :=
  match MarkPublicationReferencesStaged ctx (jv_ID v) (db (knowledge w)) with
  | (s', Ok _) => with_db s' (set_jv_State "staged" v :: flight (knowledge w)) w
  | _ => w
  end.

Definition after_promoted (ctx : Ctx) (v : Job) (w : CWorld) : CWorld :=
  match PromotePublication ctx v (db (knowledge w)) with
  | (s', Ok _) => with_db s' (set_jv_State "promoted" v :: flight (knowledge w)) w
  | _ => w
  end.

Definition after_complete (ctx : Ctx) (v : Job) (clear : bool) (w : CWorld) : CWorld :=
  with_db (CompletePublicationReferenceJob ctx (jv_ID v) clear (db (knowledge w))).1 (flight (knowledge w)) w.

(** ** They are steps *)

Lemma creach_step w w' : creachable w → cstep w w' → creachable w'.
Proof. intros (ids & Hn & Hr) Hs. exists ids. split; [done|]. by eapply rtc_r. Qed.

Lemma creach_att r w :
  creachable w → possible (attachment w) r → AWorld.commands r = false → creachable (after_att r w).
Proof. intros Hw Hp Hc. eapply creach_step; [exact Hw|]. by apply c_attachment. Qed.

Lemma creach_scan now w : creachable w → creachable (after_scan now w).
Proof.
  intros Hw. unfold after_scan. destruct (on_db _ _) as [n' [claimed|e]] eqn:E; [|done].
  eapply creach_step; [exact Hw|]. by apply (c_scan now).
Qed.

Lemma creach_req r w : creachable w → creates r = false → creachable (after_req r w).
Proof. intros Hw Hc. eapply creach_step; [exact Hw|]. by apply c_request. Qed.

Lemma creach_create ctx v k w :
  creachable w → fresh_document v → v_PublicationGeneration v = 0 →
  (NewID (db (knowledge w))).2 = Ok (v_ID v) → creachable (after_create ctx v k w).
Proof.
  intros Hw Hv Hg Hn. unfold after_create. destruct (NewID _) as [s1 [i|e]] eqn:E; [|done]. cbn in Hn.
  injection Hn as ->. eapply creach_step; [exact Hw|]. by apply c_create.
Qed.

Lemma creach_jobs ctx w : creachable w → creachable (after_jobs ctx w).
Proof.
  intros Hw. unfold after_jobs. destruct (ClaimPublicationReferenceJobs _ _ _ _) as [s' [vs|e]] eqn:E; [|done].
  eapply creach_step; [exact Hw|]. by eapply c_claim.
Qed.

Lemma creach_call c now v w :
  creachable w → v ∈ flight (knowledge w) → sends c v → opened (attachment w) = [] →
  creachable (after_call c now v w).
Proof.
  intros Hw Hv Hs Ho. unfold after_call. destruct (send _ _ _ _) as [n' r] eqn:E.
  eapply creach_step; [exact Hw|]. eapply c_call; [done|done|by apply none_free|done].
Qed.

Lemma creach_open v w :
  creachable w → v ∈ flight (knowledge w) → sends CallStage v → opened (attachment w) = [] →
  creachable (after_open_job v w).
Proof.
  intros Hw Hv Hs Ho. unfold after_open_job. destruct (publicationCommand _ _) as [cmd|] eqn:Hc; [|done].
  destruct (stage_begin _ _) as [d [[head|]|]] eqn:Hb; [|done..].
  eapply creach_step; [exact Hw|]. eapply c_open; [done|done|done|by apply none_free|done].
Qed.

Lemma creach_commit now v w :
  creachable w → v ∈ flight (knowledge w) → sends CallStage v → creachable (after_commit_job now v w).
Proof.
  intros Hw Hv Hs. unfold after_commit_job. destruct (publicationCommand _ _) as [cmd|] eqn:Hc; [|done].
  destruct (opened (attachment w)) as [|[cmd' head] l] eqn:Ho; [done|]. case_bool_decide as E; [subst cmd'|done].
  destruct (on_db _ _) as [n' r] eqn:Hr. rewrite <-Ho. eapply creach_step; [exact Hw|].
  eapply c_commit; [done|done|done| |exact Hr]. rewrite Ho. by left.
Qed.

Lemma creach_staged ctx v w :
  creachable w → (CallStage, v) ∈ answered w → creachable (after_staged ctx v w).
Proof.
  intros Hw Hv. unfold after_staged. destruct (MarkPublicationReferencesStaged _ _ _) as [s' [u|e]] eqn:E; [|done].
  eapply creach_step; [exact Hw|]. by eapply c_stage.
Qed.

Lemma creach_promoted ctx v w :
  creachable w → v ∈ flight (knowledge w) → jv_Action v ≠ "clear" → jv_State v = "staged" →
  creachable (after_promoted ctx v w).
Proof.
  intros Hw Hv Ha Hs. unfold after_promoted. destruct (PromotePublication _ _ _) as [s' [u|e]] eqn:E; [|done].
  eapply creach_step; [exact Hw|]. by eapply c_promote.
Qed.

Lemma creach_finalized ctx v w :
  creachable w → (CallFinalize, v) ∈ answered w → creachable (after_complete ctx v false w).
Proof. intros Hw Hv. eapply creach_step; [exact Hw|]. by apply c_finalize. Qed.

Lemma creach_cleared ctx v w :
  creachable w → (CallClear, v) ∈ answered w → creachable (after_complete ctx v true w).
Proof. intros Hw Hv. eapply creach_step; [exact Hw|]. by apply c_clear. Qed.

(** ** The run *)

Definition shown_ready : CWorld :=
  after_att (AReqScanned 4 "a1" (clean_scan true))
    (after_scan 3
      (after_att (AReqComplete kind_store 2 7 "a1" "upload-1" [Some (1, "tag")])
        (after_att (AReqUpload kind_store 60 1 "a1" 7 "notes.txt" "text/plain" 10 EmptyString)
          (empty_cworld shown_ids)))).

Definition shown_claimed : CWorld :=
  after_jobs (at_time 30)
    (after_req (ReqPublish (at_time 20) "doc-1" 7 1 shown_input)
      (after_create (at_time 10) sample_document (no_key 7) shown_ready)).

Definition shown_job : Job := MkJob "id-1" "doc-1" 7 1 "publish" ["a1"] "pending" 1 [].

Definition shown_staged : CWorld :=
  after_staged (at_time 40) shown_job (after_call CallStage 5 shown_job shown_claimed).

(** The document is public; the attachment service has not been told to
    finalize yet. *)
Definition shown_published : CWorld :=
  after_promoted (at_time 50) (set_jv_State "staged" shown_job) shown_staged.

Definition shown_final : CWorld :=
  after_complete (at_time 60) (set_jv_State "promoted" shown_job) false
    (after_call CallFinalize 6 (set_jv_State "promoted" shown_job) shown_published).

Definition hidden_claimed : CWorld :=
  after_jobs (at_time 80) (after_req (ReqSetPublication (at_time 70) "doc-1" 7 2 false (no_key 7)) shown_final).

Definition hidden_job : Job := MkJob "id-3" "doc-1" 7 2 "clear" [] "pending" 1 [].

(** The clear completes, and a worker that slept since the first claim stages
    the first generation once more. *)
Definition hidden : CWorld :=
  after_call CallStage 9 shown_job
    (after_complete (at_time 90) hidden_job true (after_call CallClear 8 hidden_job hidden_claimed)).

(** The owner trashes the attachment after the staging has counted it. *)
Definition shown_overtaken : CWorld :=
  after_promoted (at_time 50) (set_jv_State "staged" shown_job)
    (after_staged (at_time 40) shown_job
      (after_commit_job 7 shown_job
        (after_att (AReqTrash 6 7 "a1") (after_open_job shown_job shown_claimed)))).

(** Memberships of the run, by evaluation. *)
Ltac in_run := cbn [possible]; apply (bool_decide_unpack _); vm_compute; exact I.

Lemma shown_ready_reachable : creachable shown_ready.
Proof.
  apply creach_att; [|in_run|done]. apply creach_scan. apply creach_att; [|done|done].
  apply creach_att; [|by vm_compute|done]. exists shown_ids. split; [in_run|done].
Qed.

Lemma shown_claimed_reachable : creachable shown_claimed.
Proof.
  apply creach_jobs. apply creach_req; [|done]. apply creach_create; [apply shown_ready_reachable|by split|done|].
  by vm_compute.
Qed.

Lemma shown_published_reachable : creachable shown_published.
Proof.
  apply creach_promoted; [|in_run|done|done]. apply creach_staged; [|in_run].
  apply creach_call; [apply shown_claimed_reachable|in_run|by split|by vm_compute].
Qed.

Lemma shown_final_reachable : creachable shown_final.
Proof.
  apply creach_finalized; [|in_run]. apply creach_call; [apply shown_published_reachable|in_run|by split|by vm_compute].
Qed.

Lemma hidden_reachable : creachable hidden.
Proof.
  apply creach_call; [|in_run|by split|by vm_compute]. apply creach_cleared; [|in_run].
  apply creach_call; [|in_run|done|by vm_compute]. apply creach_jobs, creach_req; [apply shown_final_reachable|done].
Qed.

Lemma shown_overtaken_reachable : creachable shown_overtaken.
Proof.
  apply creach_promoted; [|in_run|done|done]. apply creach_staged; [|in_run].
  apply creach_commit; [|in_run|by split]. apply creach_att; [|done|done].
  apply creach_open; [apply shown_claimed_reachable|in_run|by split|by vm_compute].
Qed.

(** The document is published, and what it shows is in the trash and not served. *)
Example overtaken_publication :
  (IsMediaPublished "a1" (db (knowledge shown_overtaken))).2 = Ok true
  ∧ t_Status <$> attachments (adb (node (attachment shown_overtaken))) !! "a1" = Some StatusTrashed
  ∧ (GetPublished "a1" (adb (node (attachment shown_overtaken)))).2 = Err ErrNotFound.
Proof. by vm_compute. Qed.


(** The document that was taken offline holds nothing, although its first
    generation was staged again since. *)
Lemma draft_holds_nothing_witness :
  (CallStage, shown_job) ∈ answered hidden ∧ d_PublicationGeneration <$> documents (db (knowledge hidden)) !! "doc-1" = Some 2 ∧
  ∀ k f, references (adb (node (attachment hidden))) !! k = Some f → rf_RefID f ≠ "doc-1".
Proof.
  split; [in_run|]. split; [vm_compute; reflexivity|].
  destruct (documents (db (knowledge hidden)) !! "doc-1") as [d|] eqn:Hd.
  - apply (draft_holds_nothing hidden "doc-1" d hidden_reachable Hd).
    assert ((d_PublicationStatus <$> documents (db (knowledge hidden)) !! "doc-1") = Some PublicationDraft) as Hs
      by (vm_compute; reflexivity).
    rewrite Hd in Hs. injection Hs as Hs. exact Hs.
  - exfalso. assert (is_some (documents (db (knowledge hidden)) !! "doc-1") = true) as Hs by (vm_compute; reflexivity).
    rewrite Hd in Hs. discriminate Hs.
Defined.
