(* ===== verification/CRevisions.v ===== *)
(** What may happen to the metadata of a document while a request is under way.

    A request of the gateway makes several calls; between two of them the
    services may take any number of steps ([cstep]).  A document that exists
    keeps its metadata unless its revision grows, and its identifier is not
    given to another document after it is purged. *)

From stdpp Require Import base gmap list sets strings relations.
From Stdlib Require Import ZArith Lia.
From S2P Require Import Prelude.
From S2P Require Import GoStrings.
From S2P Require Import KDomain.
From S2P Require Import RichText.
From S2P Require Import Json.
From S2P Require Import KSchema.
From S2P Require Import KTypes.
From S2P Require Import KStore.
From S2P Require Import KDocuments.
From S2P Require Import KPublication.
From S2P Require Import KFrames.
From S2P Require Import KSaga.
From S2P Require Import KSagaSteps.
From S2P Require Import KWorld.
From S2P Require Import AWorld.
From S2P Require Import CDrift.
From S2P Require Import CReferences.
From S2P Require Import CWorld.

Open Scope Z_scope.

(** A document after is one before, revised, or bears an identifier that was
    not given out before. *)
Record follows (s t : KDB) : Prop := {
  fo_documents : ∀ i e, documents t !! i = Some e →
    (∃ d, documents s !! i = Some d ∧ revised d e) ∨ i ∈ new_ids s;
  fo_ids : ∃ used, new_ids s = used ++ new_ids t;
}.

#[export] Instance follows_preorder : PreOrder follows.
Proof.
  split.
  - intros s. split; [|by exists []]. intros i e He. left. by exists e.
  - intros s t u [Ad [a Ai]] [Bd [b Bi]]. split; [|exists (a ++ b); by rewrite Ai, Bi, app_assoc].
    intros i e [(d & Hd & Hde)|Hi]%Bd; [|right; rewrite Ai; apply elem_of_app; by right].
    destruct (Ad i d Hd) as [(d0 & Hd0 & H0)|Hi]; [|by right]. left. exists d0. split; [done|by etrans].
Qed.

Lemma follows_document s t i e :
  follows s t → i ∉ new_ids s → documents t !! i = Some e → ∃ d, documents s !! i = Some d ∧ revised d e.
Proof. intros [Hf _] Hi He. by destruct (Hf i e He). Qed.

Lemma drift_follows c n s t :
  drift c n s t → (∀ i, c = Some i → i ∈ new_ids s) → follows s t.
Proof.
  intros [Hd _ _ Hi] Hc. split; [|done].
  intros i e [(d & ? & _ & _ & ?)|[-> _]]%Hd; [left; by exists d|right; by apply Hc].
Qed.

Lemma calm_by_follows R s t : calm_by R s t → follows s t.
Proof.
  intros Hc. split; [|by destruct Hc]. intros i e He.
  destruct (calm_document _ _ _ _ Hc He) as (d & ? & _ & _ & _ & _ & _ & ?). left. by exists d.
Qed.

(** One row is revised. *)
Lemma row_follows i d d' s t :
  documents s !! i = Some d → revised d d' → documents t = <[i := d']> (documents s) →
  (∃ used, new_ids s = used ++ new_ids t) → follows s t.
Proof.
  intros Hd Hr Ed Hi. split; [|done]. intros x e. rewrite Ed, lookup_insert_Some.
  intros [[<- <-]|[_ He]]; left; [by exists d|by exists e].
Qed.

Section steps.
Context `{Unicode, Uuid, Url, Codec, Pg}.

Lemma promote_follows ctx v s s' u : PromotePublication ctx v s = (s', Ok u) → follows s s'.
Proof.
  intros [[-> _]|(stored & d & c & tags & content & Hp)]%promote_run; [done|].
  destruct (pm_documents _ _ _ _ _ _ _ _ _ Hp) as (e & He & Ed).
  eapply row_follows; [exact He| |exact Ed|by eapply pm_ids]. by apply revised_same.
Qed.

Lemma clear_follows ctx k s : saga_ok s → follows s (CompletePublicationReferenceJob ctx k true s).1.
Proof.
  intros Hok. destruct (clear_drift ctx k s Hok) as [Hd|(j & d & _ & Hd & _ & Ed & _ & _ & Ei)];
    [by eapply drift_follows|].
  eapply row_follows; [exact Hd| |exact Ed|exists []; by rewrite Ei]. by apply revised_same.
Qed.

Lemma create_follows ctx v k s s1 :
  NewID s = (s1, Ok (v_ID v)) → fresh_document v → v_PublicationGeneration v = 0 →
  follows s (CreateDocument ctx v k s1).1.
Proof.
  intros Hn Hv Hg. pose proof Hn as Hs%NewID_same%same_saga_calm.
  eapply drift_follows.
  - eapply drift_around; [by apply calm_drift|by apply CreateDocument_drift|reflexivity].
  - intros i [= <-]. apply NewID_run in Hn as (rest & -> & _). left.
Qed.

Lemma cstep_follows w w' : CInv w → cstep w w' → follows (db (knowledge w)) (db (knowledge w')).
Proof.
  intros Hw Hs. pose proof (ci_knowledge _ Hw) as [Hok _]. destruct Hs as
    [r w Hr|ctx v k w s1 Hn Hv Hg|ctx limit lease w s' vs Hr|c now v w n' r Hv Hs Hfr Hr|v cmd w d head Hv Hs Hcm Hfr Hb
    |now v cmd head w n' r Hv Hs Hcm Ho Hr|cmd w|ctx v w s' u Hv Hr|ctx v w s' u Hv Ha Hst Hr|ctx v w Hv|ctx v w Hv|ctx v w key Hv|ctx v w key Hv|r w Hp Hc|now w n' claimed Hr];
    cbn [knowledge db with_db]; try done.
  - destruct (request_drift r (db (knowledge w)) Hok) as [n Hd]; [by intros ? ? ? ->|].
    by eapply drift_follows.
  - by eapply create_follows.
  - eapply calm_by_follows. by apply (claim_run _ _ _ _ _ _ Hok Hr).
  - pose proof (MarkStaged_calm ctx (jv_ID v) (db (knowledge w))) as Hc. rewrite Hr in Hc. by eapply calm_by_follows.
  - by eapply promote_follows.
  - by eapply drift_follows; [apply complete_drift|].
  - by apply clear_follows.
  - eapply calm_by_follows, RetryPublicationReferenceJob_calm.
  - by eapply drift_follows; [apply park_drift|].
Qed.

Lemma csteps_follow w w' :
  creachable w → rtc cstep w w' → creachable w' ∧ follows (db (knowledge w)) (db (knowledge w')).
Proof.
  intros Hw Hr. induction Hr as [w|w1 w2 w3 Hs _ IH]; [done|].
  assert (creachable w2) as H2'.
  { destruct Hw as (ids & Hn & Hr). exists ids. split; [done|]. by eapply rtc_r. }
  destruct (IH H2') as [Hw3 Hf]. split; [done|]. etrans; [|exact Hf].
  apply cstep_follows; [by apply creachable_inv|done].
Qed.

(** A document of a reachable state does not bear an identifier that is still
    to be given out. *)
Lemma document_given w i d : creachable w → documents (db (knowledge w)) !! i = Some d → i ∉ new_ids (db (knowledge w)).
Proof. intros Hw%creachable_inv Hd. apply (cl_born _ _ (ci_claims _ Hw)). eauto. Qed.

(** Through any run, a document that is still there is a revision of the one it was. *)
Lemma revised_through w w' i d e :
  creachable w → rtc cstep w w' → documents (db (knowledge w)) !! i = Some d →
  documents (db (knowledge w')) !! i = Some e → revised d e.
Proof.
  intros Hw Hr Hd He. destruct (csteps_follow w w' Hw Hr) as [_ Hf].
  destruct (follows_document _ _ i e Hf (document_given w i d Hw Hd) He) as (d' & Hd' & ?). congruence.
Qed.

End steps.
