(* ===== verification/AppError.v ===== *)
(** Application errors: package apperror (pkg/error/error.go, hertz.go,
    kitex.go) and the request metadata of pkg/metadata/context.go.

    A catalog entry is a [Definition]; [Define] validates one, [New], [Wrap]
    and [NewWithExtra] raise it, [ToBizStatus] and [FromKitexBizStatus] carry it
    over an RPC and [ToHTTPError] and [ToHTTPProblem] turn it into the problem
    document of a response.  [errors.As] walks the tree of wrapped errors. *)

From stdpp Require Import base gmap list sets strings.
From Stdlib Require Import ZArith Lia Ascii.
From S2P Require Import Prelude.
From S2P Require Import GoStrings.
From S2P Require Import GoText.

Open Scope Z_scope.

(** ** Kinds and definitions *)

Definition KindInvalidArgument : string := "invalid_argument".
Definition KindUnauthenticated : string := "unauthenticated".
Definition KindPermissionDenied : string := "permission_denied".
Definition KindNotFound : string := "not_found".
Definition KindConflict : string := "conflict".
Definition KindRateLimited : string := "rate_limited".
Definition KindDeadlineExceeded : string := "deadline_exceeded".
Definition KindUnavailable : string := "unavailable".
Definition KindUnimplemented : string := "unimplemented".
Definition KindInternal : string := "internal".

Definition ExtraErrorKey : string := "error_key".
Definition ExtraErrorKind : string := "error_kind".
Definition ExtraRequestID : string := "request_id".
Definition ExtraTraceID : string := "trace_id".
Definition ExtraRetryAfter : string := "retry_after".
Definition unknownCode : Z := 20999.
Definition maxSafeMsgBytes : Z := 256.

Definition validKind (kind : string) : bool :=
  bool_decide (kind ∈ [KindInvalidArgument; KindUnauthenticated; KindPermissionDenied;
    KindNotFound; KindConflict; KindRateLimited; KindDeadlineExceeded; KindUnavailable;
    KindUnimplemented; KindInternal]).

(** The automaton of [^[a-z][a-z0-9]*(?:[._-][a-z0-9]+)*$] after its first
    letter: [word] says whether the last byte belongs to a word. *)
Fixpoint key_from (word : bool) (bs : list Z) : bool :=
  match bs with
  | [] => word
  | b :: bs' =>
    if alnum b then key_from true bs'
    else if (b =? 46) || (b =? 95) || (b =? 45) then word && key_from false bs'
    else false
  end.

Definition keyPattern (key : string) : bool :=
  match bytes key with
  | b :: bs => in_range 97 122 b && key_from true bs
  | [] => false
  end.

Record Definition_ := MkDefinition {
  d_Code : Z;
  d_Key : string;
  d_Kind : string;
  d_Message : string;
}.

#[export] Instance Definition_eq_dec : EqDecision Definition_.
Proof. solve_decision. Defined.

(** The five refusals of [Define], in its order. *)
Inductive define_error :=
| CodeNotPositive | InvalidKey | InvalidKind | MessageRequired | MessageNotOneLine.

Definition one_line (message : string) : bool :=
  (len message <=? maxSafeMsgBytes) && negb (ContainsAny message [13; 10]).

Definition Define (code : Z) (key kind safeMessage : string) : result define_error Definition_ :=
  let key := TrimSpace key in
  let safeMessage := TrimSpace safeMessage in
  if code <=? 0 then Err CodeNotPositive
  else if negb (keyPattern key) then Err InvalidKey
  else if negb (validKind kind) then Err InvalidKind
  else if bool_decide (safeMessage = EmptyString) then Err MessageRequired
  else if negb (one_line safeMessage) then Err MessageNotOneLine
  else Ok (MkDefinition code key kind safeMessage).

Definition valid (d : Definition_) : bool :=
  (0 <? d_Code d) && keyPattern (d_Key d) && validKind (d_Kind d) &&
  negb (bool_decide (d_Message d = EmptyString)) && one_line (d_Message d).

Definition InternalError : Definition_ :=
  MkDefinition unknownCode "common.internal" KindInternal "internal server error".

(** ** Errors *)

(** A Go error: a definition used as an error, an application error, a nil
    [*Error] behind the interface, the business status a service returns with
    its local cause, or any other error with what it unwraps to. *)
Inductive error :=
| EDefinition (d : Definition_)
| EError (d : Definition_) (cause : option error) (extra : option (gmap string string))
| ENilError
| EBizError (code : Z) (message : string) (extra : gmap string string) (cause : error)
| EOther (message : string) (wrapped : list error).

(** The first answer along a list. *)
Definition first_of {A B} (f : A → option B) : list A → option B :=
  fix go l := match l with
              | [] => None
              | x :: l' => match f x with Some b => Some b | None => go l' end
              end.

(** [errors.As(err, &definition)] with [(e *Error) As]. *)
Fixpoint As_definition (err : error) : option Definition_ :=
  match err with
  | EDefinition d => Some d
  | EError d _ _ => Some d
  | ENilError => None
  | EBizError _ _ _ cause => As_definition cause
  | EOther _ wrapped => first_of As_definition wrapped
  end.

(** [errors.As(err, &appError)] for a [*Error]: the extras of what is found. *)
Fixpoint As_error (err : error) : option (option (gmap string string)) :=
  match err with
  | EDefinition _ => None
  | EError _ _ extra => Some extra
  | ENilError => Some None
  | EBizError _ _ _ cause => As_error cause
  | EOther _ wrapped => first_of As_error wrapped
  end.

(** A read of a Go map, nil included. *)
Definition map_get (m : option (gmap string string)) (key : string) : string :=
  default EmptyString (m ≫= λ m, m !! key).

Definition New (d : Definition_) : error := EError d None None.

Definition Wrap (d : Definition_) (cause : error) : error := EError d (Some cause) None.

Definition copySafeExtra (src : option (gmap string string)) : option (gmap string string) :=
  match src with
  | None => None
  | Some _ =>
    let value := TrimSpace (map_get src ExtraRetryAfter) in
    if bool_decide (value = EmptyString) then None else Some {[ExtraRetryAfter := value]}
  end.

Definition NewWithExtra (d : Definition_) (extra : option (gmap string string)) : error :=
  EError d None (copySafeExtra extra).

Definition Details (err : error) : option Definition_ :=
  d ← As_definition err; if valid d then Some d else None.

Definition KindOf (err : error) : string := from_option d_Kind EmptyString (Details err).

Definition Extra (err : error) (key : string) : string :=
  match As_error err with Some extra => map_get extra key | None => EmptyString end.

(** ** Request metadata *)

(** What the code reads of a context: the request identifier (empty when it
    carries none), the trace identifier of the active span (empty when there is
    no valid one) and the user. *)
Record Context_ := MkContext { c_RequestID : string; c_TraceID : string; c_UserID : Z }.

Definition MaxRequestIDLength : Z := 128.

Definition ValidRequestID (requestID : string) : bool :=
  negb (bool_decide (requestID = EmptyString)) && (len requestID <=? MaxRequestIDLength) &&
  forallb (in_range 33 126) (bytes requestID).

Definition WithRequestID (ctx : Context_) (requestID : string) : Context_ :=
  let requestID := TrimSpace requestID in
  if ValidRequestID requestID then MkContext requestID (c_TraceID ctx) (c_UserID ctx) else ctx.

(** [fresh] is the identifier [NewRequestID] draws. *)
Definition EnsureRequestID (fresh : string) (ctx : Context_) : Context_ :=
  if bool_decide (c_RequestID ctx = EmptyString) then WithRequestID ctx fresh else ctx.

Definition WithUserID (ctx : Context_) (userID : Z) : Context_ :=
  if userID <=? 0 then ctx else MkContext (c_RequestID ctx) (c_TraceID ctx) userID.

Definition hex_digit (n : Z) : Z := if n <? 10 then 48 + n else 87 + n.

(** [hex.EncodeToString] *)
Definition hex_encode (bs : list Z) : string :=
  of_bytes (bs ≫= λ b, [hex_digit (b / 16); hex_digit (b mod 16)]).

(** [random] is what [rand.Read] filled in, [sum] the SHA-256 of the seed used
    when it fails. *)
Definition NewRequestID (random : option (list Z)) (sum : list Z) : string :=
  hex_encode (match random with Some value => take 16 value | None => take 16 sum end).

(** ** Business statuses *)

(** What Kitex serialises of an error: code, message and extras. *)
Record BizStatus := MkBizStatus {
  b_Code : Z;
  b_Message : string;
  b_Extra : option (gmap string string);
}.

(** [extra[key] = value] when [value] is not empty. *)
Definition set_nonempty (key value : string) (m : gmap string string) : gmap string string :=
  if bool_decide (value = EmptyString) then m else <[key := value]> m.

Definition status_extra (ctx : Context_) (err : error) (d : Definition_) : gmap string string :=
  let extra := <[ExtraErrorKind := d_Kind d]> {[ExtraErrorKey := d_Key d]} in
  let extra := set_nonempty ExtraRequestID (c_RequestID ctx) extra in
  let extra := set_nonempty ExtraTraceID (c_TraceID ctx) extra in
  match As_error err with Some (Some own) => own ∪ extra | _ => extra end.

Definition ToBizStatus (ctx : Context_) (err : error) : BizStatus :=
  let definition := default InternalError (Details err) in
  MkBizStatus (d_Code definition) (d_Message definition) (Some (status_extra ctx err definition)).

(** [FromKitexBizStatus] once Kitex found the business status in the error. *)
Definition FromKitexBizStatus (business : BizStatus) : option Definition_ :=
  match Define (b_Code business) (map_get (b_Extra business) ExtraErrorKey)
          (map_get (b_Extra business) ExtraErrorKind) (b_Message business) with
  | Ok definition => Some definition
  | Err _ => None
  end.

(** ** Problem documents *)

Record HTTPProblem := MkHTTPProblem {
  p_Type : string;
  p_Title : string;
  p_Status : Z;
  p_Detail : string;
  p_Code : Z;
  p_Key : string;
  p_RequestID : string;
  p_TraceID : string;
  p_RetryAfter : string;
}.

#[export] Instance HTTPProblem_eq_dec : EqDecision HTTPProblem.
Proof. solve_decision. Defined.

Definition set_RetryAfter (v : string) (p : HTTPProblem) : HTTPProblem :=
  MkHTTPProblem (p_Type p) (p_Title p) (p_Status p) (p_Detail p) (p_Code p) (p_Key p)
    (p_RequestID p) (p_TraceID p) v.

Definition set_TraceID (v : string) (p : HTTPProblem) : HTTPProblem :=
  MkHTTPProblem (p_Type p) (p_Title p) (p_Status p) (p_Detail p) (p_Code p) (p_Key p)
    (p_RequestID p) v (p_RetryAfter p).

(** [http.StatusText] for the statuses of the error responses. *)
Definition StatusText (status : Z) : string :=
  match status with
  | 400 => "Bad Request" | 401 => "Unauthorized" | 403 => "Forbidden" | 404 => "Not Found"
  | 405 => "Method Not Allowed" | 409 => "Conflict" | 410 => "Gone"
  | 412 => "Precondition Failed" | 423 => "Locked" | 429 => "Too Many Requests"
  | 500 => "Internal Server Error" | 501 => "Not Implemented" | 502 => "Bad Gateway"
  | 503 => "Service Unavailable" | 504 => "Gateway Timeout"
  | _ => EmptyString
  end.

Definition httpStatus (kind : string) : Z :=
  if bool_decide (kind = KindInvalidArgument) then 400
  else if bool_decide (kind = KindUnauthenticated) then 401
  else if bool_decide (kind = KindPermissionDenied) then 403
  else if bool_decide (kind = KindNotFound) then 404
  else if bool_decide (kind = KindConflict) then 409
  else if bool_decide (kind = KindRateLimited) then 429
  else if bool_decide (kind = KindDeadlineExceeded) then 504
  else if bool_decide (kind = KindUnavailable) then 503
  else if bool_decide (kind = KindUnimplemented) then 501
  else 500.

Definition problem (ctx : Context_) (status : Z) (d : Definition_) : HTTPProblem :=
  MkHTTPProblem ("urn:knowledge-core:problem:" +:+ d_Key d) (StatusText status) status
    (d_Message d) (d_Code d) (d_Key d) (c_RequestID ctx) (c_TraceID ctx) EmptyString.

Definition with_retry (err : error) (payload : HTTPProblem) : HTTPProblem :=
  let retryAfter := Extra err ExtraRetryAfter in
  if bool_decide (retryAfter = EmptyString) then payload else set_RetryAfter retryAfter payload.

Definition ToHTTPError (ctx : Context_) (err : error) : Z * HTTPProblem :=
  let definition := default InternalError (Details err) in
  let status := httpStatus (d_Kind definition) in
  (status, with_retry err (problem ctx status definition)).

Definition ToHTTPProblem (ctx : Context_) (status : Z) (err : error) : HTTPProblem :=
  match Details err with
  | Some definition => with_retry err (problem ctx status definition)
  | None => with_retry err (problem ctx 500 InternalError)
  end.

(** ** What [Define] guarantees *)

Lemma key_from_visible word bs : key_from word bs = true → forallb (in_range 33 126) bs = true.
Proof.
  revert word. induction bs as [|b bs IH]; intros word Hm; [done|]. simpl in *.
  apply andb_true_iff. unfold_ranges. split_and?; repeat case_match; try done.
  all: try (by eapply IH). all: try lia.
  all: apply andb_true_iff in Hm as [_ Hm]; by eapply IH.
Qed.

Lemma keyPattern_visible key : keyPattern key = true → forallb (in_range 33 126) (bytes key) = true.
Proof.
  unfold keyPattern. destruct (bytes key) as [|b bs]; [done|].
  intros [Hb Hm]%andb_true_iff. apply key_from_visible in Hm. simpl. rewrite Hm, andb_true_r.
  unfold in_range in *. lia.
Qed.

Lemma keyPattern_trimmed key : keyPattern key = true → TrimSpace key = key.
Proof. intros. by apply TrimSpace_visible, keyPattern_visible. Qed.

Lemma Define_ok code key kind message d :
  Define code key kind message = Ok d ↔
  valid d = true ∧ d = MkDefinition code (TrimSpace key) kind (TrimSpace message).
Proof.
  unfold Define, valid. split.
  - intros Hd. repeat case_match; try done. injection Hd as <-. split; [|done]. simpl.
    repeat match goal with H : negb _ = false |- _ => apply negb_false_iff in H; rewrite H end.
    match goal with H : bool_decide _ = false |- _ => rewrite H end.
    by rewrite (proj2 (Z.ltb_lt _ _)) by lia.
  - intros [Hv ->]. simpl in Hv. repeat (apply andb_true_iff in Hv as [Hv ?]).
    rewrite (proj2 (Z.leb_gt _ _)) by lia.
    repeat match goal with H : _ = true |- _ => rewrite H end. simpl.
    by destruct (bool_decide (TrimSpace message = EmptyString)).
Qed.

(** A definition as [Define] leaves it: valid, its message trimmed. *)
Definition defined (d : Definition_) : Prop :=
  valid d = true ∧ TrimSpace (d_Message d) = d_Message d.

Lemma Define_defined code key kind message d : Define code key kind message = Ok d → defined d.
Proof. intros [Hv ->]%Define_ok. split; [done|]. apply TrimSpace_idem. Qed.

Lemma defined_Define d :
  defined d → Define (d_Code d) (d_Key d) (d_Kind d) (d_Message d) = Ok d.
Proof.
  intros [Hv Hm]. apply Define_ok. split; [done|]. rewrite Hm.
  rewrite keyPattern_trimmed; [by destruct d|].
  unfold valid in Hv. by repeat (apply andb_true_iff in Hv as [Hv ?]).
Qed.

Lemma InternalError_defined : defined InternalError.
Proof. split; vm_compute; reflexivity. Qed.

(** ** Errors the package can make *)

(** The extras a [*Error] can carry: its fields are private, so [New], [Wrap]
    and [NewWithExtra] made it. *)
Definition safe_extra (extra : option (gmap string string)) : Prop := ∃ src, extra = copySafeExtra src.

Fixpoint made (err : error) : Prop :=
  match err with
  | EDefinition _ | ENilError => True
  | EError _ cause extra =>
    safe_extra extra ∧ match cause with Some c => made c | None => True end
  | EBizError _ _ _ cause => made cause
  | EOther _ wrapped =>
    (fix all l := match l with [] => True | e :: l' => made e ∧ all l' end) wrapped
  end.

Lemma copySafeExtra_shape src m :
  copySafeExtra src = Some m → ∃ v, v ≠ EmptyString ∧ TrimSpace v = v ∧ m = {[ExtraRetryAfter := v]}.
Proof.
  unfold copySafeExtra. destruct src; [|done]. case_bool_decide; [done|].
  intros [= <-]. eexists. split; [done|]. split; [apply TrimSpace_idem|done].
Qed.

Lemma As_error_safe : ∀ err extra, made err → As_error err = Some extra → safe_extra extra.
Proof.
  fix IH 1. intros [d|d cause own| |code message own cause|message wrapped] extra Hm Ha; simpl in *.
  - done.
  - injection Ha as <-. by destruct Hm as [Hs _].
  - injection Ha as <-. by exists None.
  - by apply (IH cause).
  - induction wrapped as [|e l IHl]; [done|]. destruct Hm as [He Hl]. simpl in Ha.
    destruct (As_error e) as [own|] eqn:E; [|exact (IHl Hl Ha)].
    injection Ha as <-. exact (IH e own He E).
Qed.

Lemma safe_extra_get extra key :
  safe_extra extra → key ≠ ExtraRetryAfter → map_get extra key = EmptyString.
Proof.
  intros [src ->] Hk. destruct (copySafeExtra src) as [m|] eqn:E; [|done].
  apply copySafeExtra_shape in E as (v & _ & _ & ->). unfold map_get. simpl.
  by rewrite lookup_singleton_ne by done.
Qed.

Lemma safe_extra_trimmed extra :
  safe_extra extra → TrimSpace (map_get extra ExtraRetryAfter) = map_get extra ExtraRetryAfter.
Proof.
  intros [src ->]. destruct (copySafeExtra src) as [m|] eqn:E; [|done].
  apply copySafeExtra_shape in E as (v & _ & Hv & ->). unfold map_get. simpl.
  by rewrite lookup_singleton_eq.
Qed.

Lemma set_nonempty_get key key' value m :
  key ≠ key' → set_nonempty key value m !! key' = m !! key'.
Proof. intros. unfold set_nonempty. case_bool_decide; [done|]. by rewrite lookup_insert_ne. Qed.

(** What the extras of a status say: key and kind of the definition and the
    delay of the error. *)
Lemma status_extra_get ctx err d :
  made err →
  map_get (Some (status_extra ctx err d)) ExtraErrorKey = d_Key d ∧
  map_get (Some (status_extra ctx err d)) ExtraErrorKind = d_Kind d ∧
  map_get (Some (status_extra ctx err d)) ExtraRetryAfter = Extra err ExtraRetryAfter.
Proof.
  intros Hm. unfold status_extra, Extra.
  set (base := set_nonempty _ _ _).
  assert (base !! ExtraErrorKey = Some (d_Key d) ∧ base !! ExtraErrorKind = Some (d_Kind d) ∧
    base !! ExtraRetryAfter = None) as (B1 & B2 & B3).
  { subst base. rewrite !set_nonempty_get by done.
    rewrite lookup_insert_ne, lookup_singleton_eq by done. rewrite lookup_insert_eq.
    by rewrite lookup_insert_ne, lookup_singleton_ne by done. }
  destruct (As_error err) as [[own|]|] eqn:E.
  - apply As_error_safe in E as [src E]; [|done]. symmetry in E.
    apply copySafeExtra_shape in E as (v & _ & _ & ->). unfold map_get. simpl.
    rewrite !lookup_union, !lookup_singleton_ne, lookup_singleton_eq, B1, B2, B3 by done. done.
  - unfold map_get. simpl. by rewrite B1, B2, B3.
  - unfold map_get. simpl. by rewrite B1, B2, B3.
Qed.

(** A definition crosses the RPC unchanged. *)
Lemma status_roundtrip ctx err :
  made err → (∀ d, Details err = Some d → TrimSpace (d_Message d) = d_Message d) →
  FromKitexBizStatus (ToBizStatus ctx err) = Some (default InternalError (Details err)).
Proof.
  intros Hm Ht. unfold FromKitexBizStatus, ToBizStatus. simpl.
  set (d := default InternalError (Details err)).
  destruct (status_extra_get ctx err d Hm) as (-> & -> & _).
  rewrite defined_Define; [done|]. subst d. destruct (Details err) as [d|] eqn:E; simpl.
  - split; [|by apply Ht]. unfold Details in E. destruct (As_definition err); [|done]. simpl in E.
    by case_match; simplify_eq.
  - apply InternalError_defined.
Qed.

Lemma Details_New d : valid d = true → Details (New d) = Some d.
Proof. intros Hv. unfold Details. simpl. by rewrite Hv. Qed.

Lemma Details_NewWithExtra d extra : valid d = true → Details (NewWithExtra d extra) = Some d.
Proof. intros Hv. unfold Details. simpl. by rewrite Hv. Qed.

Lemma Details_valid err d : Details err = Some d → valid d = true.
Proof.
  unfold Details. destruct (As_definition err); [|done]. simpl. by case_match; intros; simplify_eq.
Qed.

(** ** Request identifiers *)

Lemma hex_digit_visible n : 0 <= n < 16 → in_range 33 126 (hex_digit n) = true.
Proof. unfold hex_digit, in_range. intros. case_match; lia. Qed.

Lemma hex_encode_bytes bs :
  Forall is_byte bs →
  bytes (hex_encode bs) = bs ≫= λ b, [hex_digit (b / 16); hex_digit (b mod 16)].
Proof.
  intros Hbs. unfold hex_encode. apply bytes_of_bytes.
  apply Forall_bind. eapply Forall_impl; [exact Hbs|]. intros b Hb. unfold is_byte in Hb.
  assert (0 <= b / 16 < 16) by (split; [apply Z.div_pos; lia|apply Z.div_lt_upper_bound; lia]).
  pose proof (Z.mod_pos_bound b 16 ltac:(lia)).
  repeat constructor; unfold is_byte, hex_digit; case_match; lia.
Qed.

(** A drawn identifier is 32 hexadecimal digits, so it is accepted. *)
Lemma hex_encode_valid bs :
  Forall is_byte bs → length bs = 16%nat → ValidRequestID (hex_encode bs) = true.
Proof.
  intros Hbs Hl. unfold ValidRequestID, len. rewrite hex_encode_bytes by done.
  assert (length (bs ≫= λ b, [hex_digit (b / 16); hex_digit (b mod 16)]) = 32%nat) as Hlen.
  { transitivity (2 * length bs)%nat; [|by rewrite Hl]. clear. induction bs as [|b bs IH]; [done|].
    rewrite bind_cons, length_app, IH. simpl. lia. }
  rewrite Hlen, !andb_true_iff, negb_true_iff, bool_decide_eq_false. split_and!; [|done|].
  - intros E. assert (bytes (hex_encode bs) = []) as Hnil by by rewrite E.
    rewrite hex_encode_bytes in Hnil by done. by rewrite Hnil in Hlen.
  - apply forallb_forall. intros x Hx. apply list_elem_of_In, list_elem_of_bind in Hx as (b & Hx & Hb).
    rewrite Forall_forall in Hbs. specialize (Hbs b Hb). unfold is_byte in Hbs.
    assert (0 <= b / 16 < 16) by (split; [apply Z.div_pos; lia|apply Z.div_lt_upper_bound; lia]).
    pose proof (Z.mod_pos_bound b 16 ltac:(lia)).
    rewrite !elem_of_cons, elem_of_nil in Hx. destruct Hx as [->|[->|[]]]; by apply hex_digit_visible.
Qed.

Lemma NewRequestID_valid random sum :
  Forall is_byte sum → (16 <= length sum)%nat →
  (∀ value, random = Some value → Forall is_byte value ∧ (16 <= length value)%nat) →
  ValidRequestID (NewRequestID random sum) = true.
Proof.
  intros Hs Hl Hr. unfold NewRequestID. destruct random as [value|].
  - destruct (Hr value eq_refl). apply hex_encode_valid; [by apply Forall_take|].
    rewrite length_take. lia.
  - apply hex_encode_valid; [by apply Forall_take|]. rewrite length_take. lia.
Qed.

Lemma ValidRequestID_trimmed s : ValidRequestID s = true → TrimSpace s = s.
Proof. unfold ValidRequestID. intros [_ Hv]%andb_true_iff. by apply TrimSpace_visible. Qed.

Lemma ValidRequestID_nonempty s : ValidRequestID s = true → s ≠ EmptyString.
Proof. by intros Hv ->. Qed.

Lemma WithRequestID_valid ctx s :
  ValidRequestID s = true → WithRequestID ctx s = MkContext s (c_TraceID ctx) (c_UserID ctx).
Proof. intros Hv. unfold WithRequestID. by rewrite ValidRequestID_trimmed, Hv. Qed.
