(* ===== verification/AuthToken.v ===== *)
(** Access tokens: pkg/auth/token.go.

    [Issue] signs the claims of a principal and [Verify] reads a principal from
    a token.  The JWT library and Ed25519 are a parameter ([Jwt]) whose laws say
    what their documentation promises: a signed token is visible text that
    decodes, under the public key of the signer, to the claims it was made of;
    [ParseWithClaims] accepts what decodes and passes the options of the call
    and the [Validate] method of the claims. *)

From stdpp Require Import base countable list sets strings.
From Stdlib Require Import ZArith Lia Ascii DecimalN DecimalString.
From S2P Require Import Prelude.
From S2P Require Import GoStrings.
From S2P Require Import GoText.
From S2P Require Import Base64.

Open Scope Z_scope.

Definition IssuerName : string := "knowledge-core.identity".
Definition AudienceName : string := "knowledge-core.api".
Definition MaxTokenLength : Z := 4096.
Definition SubjectTypeUser : string := "user".
Definition SubjectTypeAgent : string := "agent".

Record Principal := MkPrincipal {
  pr_UserID : Z;
  pr_SubjectType : string;
  pr_Role : string;
  pr_TokenVersion : Z;
  pr_SessionID : string;
  pr_ExpiresAt : Z;
}.

#[export] Instance Principal_eq_dec : EqDecision Principal.
Proof. solve_decision. Defined.

Record Claims := MkClaims {
  cl_Role : string;
  cl_SubjectType : string;
  cl_TokenVersion : Z;
  cl_SessionID : string;
  cl_Issuer : string;
  cl_Subject : string;
  cl_Audience : list string;
  cl_ExpiresAt : option Z;
  cl_NotBefore : option Z;
  cl_IssuedAt : option Z;
  cl_ID : string;
}.

#[export] Instance Claims_eq_dec : EqDecision Claims.
Proof. solve_decision. Defined.

Inductive auth_error :=
| SubjectInvalid | RoleInvalid | SubjectTypeInvalid | VersionInvalid | TimestampsRequired
| TokenIDInvalid | PrincipalInvalid | RandomFailed | SigningFailed | TokenInvalid.

(** [(c Claims) Validate] *)
Definition Validate (c : Claims) : result auth_error unit :=
  if negb (opt_test (Z.ltb 0) (ParseInt (cl_Subject c) 64)) then Err SubjectInvalid
  else if bool_decide (cl_Role c = EmptyString) || (32 <? len (cl_Role c)) then Err RoleInvalid
  else if negb (bool_decide (cl_SubjectType c = EmptyString))
          && negb (bool_decide (cl_SubjectType c = SubjectTypeUser))
          && negb (bool_decide (cl_SubjectType c = SubjectTypeAgent)) then Err SubjectTypeInvalid
  else if cl_TokenVersion c <=? 0 then Err VersionInvalid
  else if is_none (cl_ExpiresAt c) || is_none (cl_NotBefore c) || is_none (cl_IssuedAt c)
  then Err TimestampsRequired
  else if bool_decide (cl_ID c = EmptyString) || (128 <? len (cl_ID c)) then Err TokenIDInvalid
  else Ok tt.

Definition SubjectTypeOrUser (c : Claims) : string :=
  if bool_decide (cl_SubjectType c = EmptyString) then SubjectTypeUser else cl_SubjectType c.

(** ** The JWT library *)

(** The options [Verify] passes: the algorithm, issuer and audience asked for,
    whether an expiry must be present and the issue time is checked, the leeway
    and the clock. *)
Record ParserOptions := MkParserOptions {
  o_Method : string;
  o_Issuer : string;
  o_Audience : string;
  o_ExpirationRequired : bool;
  o_CheckIssuedAt : bool;
  o_Leeway : Z;
  o_Now : Z;
}.

(** The checks the library documents for registered claims. *)
Definition registered_ok (o : ParserOptions) (c : Claims) : bool :=
  match cl_ExpiresAt c with
  | Some exp => o_Now o <? exp + o_Leeway o
  | None => negb (o_ExpirationRequired o)
  end &&
  match cl_NotBefore c with Some nbf => nbf - o_Leeway o <=? o_Now o | None => true end &&
  match cl_IssuedAt c with
  | Some iat => negb (o_CheckIssuedAt o) || (iat - o_Leeway o <=? o_Now o)
  | None => true
  end &&
  bool_decide (cl_Issuer c = o_Issuer o) && bool_decide (o_Audience o ∈ cl_Audience c).

Definition validates (c : Claims) : bool := match Validate c with Ok _ => true | Err _ => false end.

(** Dates that survive the numeric dates of a token: whole seconds. *)
Definition whole_seconds (t : option Z) : Prop := ∀ s, t = Some s → s mod Second = 0.

(** Claims that survive the JSON of a token. *)
Definition encodable (c : Claims) : Prop :=
  utf8 (cl_Role c) = true ∧ utf8 (cl_SubjectType c) = true ∧ utf8 (cl_SessionID c) = true ∧
  utf8 (cl_Subject c) = true ∧ utf8 (cl_ID c) = true ∧
  whole_seconds (cl_ExpiresAt c) ∧ whole_seconds (cl_NotBefore c) ∧ whole_seconds (cl_IssuedAt c).

Definition EdDSA : string := "EdDSA".

(** Keys are their bytes; [public] is the public half of a private key.
    [decoded pk m tok] are the claims of a well-formed token signed with method
    [m] under [pk]. *)
Class Jwt := {
  public : string → string;
  SignedString : string → Claims → option string;
  decoded : string → string → string → option Claims;
  ParseWithClaims : ParserOptions → string → string → option Claims;
}.

Class JwtLaws `{Jwt} : Prop := {
  signed_visible sk c tok :
    SignedString sk c = Some tok → tok ≠ EmptyString ∧ forallb (in_range 33 126) (bytes tok) = true;
  signed_decodes sk c tok :
    SignedString sk c = Some tok → encodable c → decoded (public sk) EdDSA tok = Some c;
  parse_spec o pk tok c :
    ParseWithClaims o pk tok = Some c ↔
    decoded pk (o_Method o) tok = Some c ∧ registered_ok o c = true ∧ validates c = true;
}.

Section tokens.
Context `{Jwt}.

(** [jwt.NewNumericDate] keeps whole seconds. *)
Definition NewNumericDate (t : Z) : option Z := Some (t / Second * Second).

(** [random] are the sixteen bytes read for the token identifier. *)
Definition randomID (random : option (list Z)) : option string :=
  EncodeToString ∘ of_bytes <$> random.

Definition claims_of (principal : Principal) (subjectType tokenID : string) (now expiresAt : Z) : Claims :=
  MkClaims (pr_Role principal) subjectType (pr_TokenVersion principal) (pr_SessionID principal)
    IssuerName (FormatInt (pr_UserID principal)) [AudienceName]
    (NewNumericDate expiresAt) (NewNumericDate now) (NewNumericDate now) tokenID.

(** The value of a token and when it expires. *)
Definition Issue (privateKey : string) (ttl now : Z) (random : option (list Z)) (principal : Principal)
  : result auth_error (string * Z) :=
  if (pr_UserID principal <=? 0) || bool_decide (pr_Role principal = EmptyString)
     || (32 <? len (pr_Role principal)) || (pr_TokenVersion principal <=? 0)
  then Err PrincipalInvalid
  else
    let subjectType :=
      if bool_decide (pr_SubjectType principal = EmptyString) then SubjectTypeUser
      else pr_SubjectType principal in
    if negb (bool_decide (subjectType = SubjectTypeUser)) && negb (bool_decide (subjectType = SubjectTypeAgent))
    then Err SubjectTypeInvalid
    else
      match randomID random with
      | None => Err RandomFailed
      | Some tokenID =>
        let expiresAt := now + ttl in
        match SignedString privateKey (claims_of principal subjectType tokenID now expiresAt) with
        | None => Err SigningFailed
        | Some value => Ok (value, expiresAt)
        end
      end.

Definition verify_options (now : Z) : ParserOptions :=
  MkParserOptions EdDSA IssuerName AudienceName true true (30 * Second) now.

Definition Verify (publicKey : string) (now : Z) (value : string) : result auth_error Principal :=
  let value := TrimSpace value in
  if bool_decide (value = EmptyString) || (MaxTokenLength <? len value) then Err TokenInvalid
  else
    match ParseWithClaims (verify_options now) publicKey value with
    | None => Err TokenInvalid
    | Some claims =>
      match ParseInt (cl_Subject claims) 64 with
      | None => Err SubjectInvalid
      | Some userID =>
        Ok (MkPrincipal userID (SubjectTypeOrUser claims) (cl_Role claims) (cl_TokenVersion claims)
              (cl_SessionID claims) (default zero_time (cl_ExpiresAt claims)))
      end
    end.

(** ** What the two promise each other *)

Context `{!JwtLaws}.

Lemma validates_spec c :
  validates c = true →
  ∃ userID, ParseInt (cl_Subject c) 64 = Some userID ∧ 0 < userID ∧
    cl_Role c ≠ EmptyString ∧ len (cl_Role c) <= 32 ∧ 0 < cl_TokenVersion c ∧
    SubjectTypeOrUser c ∈ [SubjectTypeUser; SubjectTypeAgent] ∧ is_Some (cl_ExpiresAt c).
Proof.
  unfold validates, Validate, SubjectTypeOrUser. intros Hv.
  destruct (ParseInt (cl_Subject c) 64) as [userID|]; [|done]. simpl in Hv.
  exists userID. split; [done|].
  destruct (0 <? userID) eqn:E1; [|done]. simpl in Hv.
  destruct (bool_decide (cl_Role c = EmptyString) || (32 <? len (cl_Role c))) eqn:E2; [done|].
  destruct (_ && _) eqn:E3 in Hv; [done|].
  destruct (cl_TokenVersion c <=? 0) eqn:E4; [done|].
  destruct (is_none (cl_ExpiresAt c)) eqn:E5; [done|]. clear Hv.
  apply orb_false_iff in E2 as [E2 E2']. apply bool_decide_eq_false in E2.
  split_and!; try lia; [done| |].
  - rewrite !elem_of_cons. repeat case_bool_decide; naive_solver.
  - unfold is_none in E5. apply negb_false_iff, is_some_true in E5. done.
Qed.

(** A principal comes from a token signed for this issuer and audience that has
    not expired. *)
Lemma Verify_sound pk now value p :
  Verify pk now value = Ok p →
  0 < pr_UserID p ∧ pr_Role p ≠ EmptyString ∧ 0 < pr_TokenVersion p ∧
  pr_SubjectType p ∈ [SubjectTypeUser; SubjectTypeAgent] ∧ now < pr_ExpiresAt p + 30 * Second ∧
  ∃ c, decoded pk EdDSA (TrimSpace value) = Some c ∧ cl_Issuer c = IssuerName ∧
       AudienceName ∈ cl_Audience c ∧ cl_Role c = pr_Role p.
Proof.
  unfold Verify. intros Hv. destruct (_ || _); [done|].
  destruct (ParseWithClaims _ _ _) as [c|] eqn:E; [|done].
  apply parse_spec in E as (Hd & Hr & Hc).
  apply validates_spec in Hc as (userID & Hs & ? & ? & ? & ? & ? & [exp He]).
  rewrite Hs in Hv. injection Hv as <-. simpl.
  unfold registered_ok in Hr. rewrite He in *. simpl in Hr.
  repeat (apply andb_true_iff in Hr as [Hr ?]).
  repeat match goal with H : bool_decide _ = true |- _ => apply bool_decide_eq_true in H end.
  split_and!; try done; [simpl; lia|]. by exists c.
Qed.

Lemma whole_seconds_date t : whole_seconds (NewNumericDate t).
Proof. intros s [= <-]. apply Z.mod_mul. unfold Second, Millisecond. lia. Qed.

Lemma utf8_visible s : forallb (in_range 33 126) (bytes s) = true → utf8 s = true.
Proof.
  intros Hs. apply utf8_ascii. rewrite forallb_forall in Hs. apply Forall_forall. intros b Hb.
  apply list_elem_of_In in Hb. specialize (Hs b Hb). unfold in_range in Hs. lia.
Qed.

(** The claims [Issue] signs are valid and survive the token. *)
Lemma claims_of_ok p subjectType tokenID now expiresAt :
  0 < pr_UserID p < 2 ^ 63 → pr_Role p ≠ EmptyString → len (pr_Role p) <= 32 → 0 < pr_TokenVersion p →
  subjectType = SubjectTypeUser ∨ subjectType = SubjectTypeAgent →
  tokenID ≠ EmptyString → len tokenID <= 128 → utf8 tokenID = true →
  utf8 (pr_Role p) = true → utf8 (pr_SessionID p) = true →
  let c := claims_of p subjectType tokenID now expiresAt in
  validates c = true ∧ encodable c ∧ ParseInt (cl_Subject c) 64 = Some (pr_UserID p) ∧
  SubjectTypeOrUser c = subjectType.
Proof.
  intros Hu Hr Hl Hv Ht Hi Hil Hiu Hru Hsu c.
  assert (ParseInt (cl_Subject c) 64 = Some (pr_UserID p)) as Hp by by apply ParseInt_FormatInt.
  assert (utf8 subjectType = true ∧ subjectType ≠ EmptyString) as [? ?] by by destruct Ht as [-> | ->].
  split_and!; try done.
  - unfold validates, Validate. rewrite Hp. simpl.
    rewrite (proj2 (Z.ltb_lt 0 (pr_UserID p))), (proj2 (Z.ltb_ge 32 _)), (proj2 (Z.leb_gt _ 0)) by lia.
    rewrite (proj2 (Z.ltb_ge 128 _)) by lia.
    rewrite (bool_decide_false (pr_Role p = _)), (bool_decide_false (tokenID = _)) by done.
    by destruct Ht as [-> | ->].
  - unfold encodable. split_and!; try done; try apply whole_seconds_date.
    apply utf8_visible, positive_visible, FormatInt_positive. lia.
  - unfold SubjectTypeOrUser. simpl. by rewrite bool_decide_false.
Qed.

Lemma token_id_ok bs :
  Forall is_byte bs → length bs = 16%nat →
  let id := EncodeToString (of_bytes bs) in
  id ≠ EmptyString ∧ len id <= 128 ∧ utf8 id = true.
Proof.
  intros Hb Hl id. assert (bytes id = encode64 bs) as Hid.
  { unfold id. by rewrite bytes_EncodeToString, bytes_of_bytes. }
  split_and!.
  - intros E%EncodeToString_empty. apply (f_equal bytes) in E.
    rewrite bytes_of_bytes in E by done. by destruct bs.
  - unfold len. rewrite Hid. pose proof (encode64_length bs). lia.
  - apply utf8_ascii. rewrite Hid. eapply Forall_impl; [by apply encode64_visible|]. simpl. lia.
Qed.

(** The principal a token of [Issue] stands for. *)
Definition normal_principal (p : Principal) (expiresAt : Z) : Principal :=
  MkPrincipal (pr_UserID p)
    (if bool_decide (pr_SubjectType p = EmptyString) then SubjectTypeUser else pr_SubjectType p)
    (pr_Role p) (pr_TokenVersion p) (pr_SessionID p) (expiresAt / Second * Second).

(** C28: a token issued for a principal verifies, under the public
    key of the issuer, to that principal (a missing subject type read as user,
    the expiry in whole seconds) exactly from thirty seconds before the second
    of its issue until thirty seconds after its expiry, and is refused at every
    other time. *)
Theorem token_roundtrip sk ttl t bs p tok exp u :
  Issue sk ttl t (Some bs) p = Ok (tok, exp) →
  Forall is_byte bs → length bs = 16%nat → pr_UserID p < 2 ^ 63 →
  utf8 (pr_Role p) = true → utf8 (pr_SessionID p) = true → len tok <= MaxTokenLength →
  exp = t + ttl ∧
  Verify (public sk) u tok =
    if (t / Second * Second - 30 * Second <=? u) && (u <? exp / Second * Second + 30 * Second)
    then Ok (normal_principal p exp) else Err TokenInvalid.
Proof.
  intros Hi Hb Hl Hu Hr Hs Ht. unfold Issue in Hi. destruct (_ || _) eqn:E1 in Hi; [done|].
  apply orb_false_iff in E1 as [[[E1 Er]%orb_false_iff E2]%orb_false_iff E3].
  apply bool_decide_eq_false in Er.
  set (st := if bool_decide _ then _ else _) in Hi.
  assert (st = SubjectTypeUser ∨ st = SubjectTypeAgent) as Hst.
  { destruct (decide (st = SubjectTypeUser)); [by left|]. destruct (decide (st = SubjectTypeAgent)); [by right|].
    by rewrite !bool_decide_false in Hi. }
  destruct (_ && _) in Hi; [done|]. simpl in Hi.
  destruct (SignedString _ _) as [value|] eqn:Sg; [|done]. injection Hi as -> <-.
  split; [done|]. destruct (token_id_ok bs Hb Hl) as (T1 & T2 & T3).
  destruct (claims_of_ok p st (EncodeToString (of_bytes bs)) t (t + ttl)) as (Hv & He & Hp & Hsub); try done; [lia..|].
  destruct (signed_visible _ _ _ Sg) as [Hne Hvis]. pose proof (signed_decodes _ _ _ Sg He) as Hd.
  unfold Verify. rewrite TrimSpace_visible, bool_decide_false, (proj2 (Z.ltb_ge _ _)) by (done || lia).
  simpl orb. cbv iota.
  set (c := claims_of _ _ _ _ _) in *.
  assert (registered_ok (verify_options u) c =
    ((u <? (t + ttl) / Second * Second + 30 * Second) && (t / Second * Second - 30 * Second <=? u))) as Hreg.
  { unfold registered_ok. simpl.
    destruct (u <? _), (_ <=? u); done. }
  destruct (ParseWithClaims (verify_options u) (public sk) tok) as [c'|] eqn:Q.
  - apply parse_spec in Q as (Hd' & Hreg' & _). simpl in Hd'. rewrite Hd in Hd'. injection Hd' as <-.
    rewrite Hreg in Hreg'. rewrite andb_comm, Hreg'. by rewrite Hp, Hsub.
  - rewrite andb_comm, <-Hreg. destruct (registered_ok _ c) eqn:R; [|done].
    by rewrite (proj2 (parse_spec _ _ _ c)) in Q.
Qed.

End tokens.

(** ** A concrete signer *)

Definition claims_fields (c : Claims) : list positive :=
  [encode (cl_Role c); encode (cl_SubjectType c); encode (cl_TokenVersion c); encode (cl_SessionID c);
   encode (cl_Issuer c); encode (cl_Subject c); encode (cl_Audience c); encode (cl_ExpiresAt c);
   encode (cl_NotBefore c); encode (cl_IssuedAt c); encode (cl_ID c)].

Definition claims_read (l : list positive) : option Claims :=
  match l with
  | [a; b; c; d; e; f; g; h; i; j; k] =>
    a ← decode a; b ← decode b; c ← decode c; d ← decode d; e ← decode e; f ← decode f;
    g ← decode g; h ← decode h; i ← decode i; j ← decode j; k ← decode k;
    Some (MkClaims a b c d e f g h i j k)
  | _ => None
  end.

#[export] Instance Claims_countable : Countable Claims.
Proof.
  refine (inj_countable claims_fields claims_read _).
  intros []. unfold claims_fields, claims_read. cbn [cl_Role cl_SubjectType cl_TokenVersion cl_SessionID
    cl_Issuer cl_Subject cl_Audience cl_ExpiresAt cl_NotBefore cl_IssuedAt cl_ID].
  rewrite !countable.decode_encode. reflexivity.
Defined.

(** A token is the number of its key and claims, in decimal. *)
Definition toy_decoded (pk m tok : string) : option Claims :=
  match NilZero.uint_of_string tok ≫= λ d, match Z.of_uint d with Z.pos n => decode (A:=string * Claims) n | _ => None end with
  | Some (key, c) => if bool_decide (key = pk ∧ m = EdDSA) then Some c else None
  | None => None
  end.

#[export] Instance toy_jwt : Jwt := {|
  public sk := sk;
  SignedString sk c := Some (FormatInt (Z.pos (encode (sk, c))));
  decoded := toy_decoded;
  ParseWithClaims o pk tok :=
    c ← toy_decoded pk (o_Method o) tok; if registered_ok o c && validates c then Some c else None;
|}.

Lemma uint_FormatInt p :
  ∃ d, NilZero.uint_of_string (FormatInt (Z.pos p)) = Some d ∧ Z.of_uint d = Z.pos p.
Proof.
  exists (N.to_uint (N.pos p)). split.
  - unfold FormatInt. apply NilZero.usu. intros E.
    apply (f_equal N.of_uint) in E. by rewrite Unsigned.of_to in E.
  - unfold Z.of_uint. pose proof (Unsigned.of_to (N.pos p)) as E. unfold N.of_uint in E. by rewrite E.
Qed.

#[export] Instance toy_jwt_laws : JwtLaws.
Proof.
  split.
  - intros sk c tok [= <-]. pose proof (FormatInt_positive (Z.pos (encode (sk, c))) ltac:(lia)) as Hp.
    split; [|by apply positive_visible]. intros E. by rewrite E in Hp.
  - intros sk c tok [= <-] _. simpl. unfold toy_decoded.
    destruct (uint_FormatInt (encode (sk, c))) as (d & -> & E). simpl. rewrite E, countable.decode_encode.
    by rewrite bool_decide_true.
  - intros o pk tok c. simpl. destruct (toy_decoded pk (o_Method o) tok) as [c'|]; simpl.
    + split.
      * intros E. destruct (_ && _) eqn:A in E; [|done]. injection E as <-. by apply andb_true_iff in A.
      * intros (E & E1 & E2). injection E as ->. by rewrite E1, E2.
    + split; [done|]. by intros (E & _).
Qed.

Definition sample_principal : Principal := MkPrincipal 7 EmptyString "admin" 3 "s1" 0.

Definition sample_token : string :=
  match Issue "k" (15 * Minute) (1000 * Second + 5) (Some (replicate 16 1)) sample_principal with
  | Ok (tok, _) => tok | Err _ => EmptyString
  end.

Lemma token_roundtrip_witness :
  Verify "k" (1500 * Second) sample_token = Ok (normal_principal sample_principal (1900 * Second + 5)) ∧
  Verify "k" (1930 * Second) sample_token = Err TokenInvalid.
Proof.
  assert (∀ u, 1900 * Second + 5 = 1000 * Second + 5 + 15 * Minute ∧ Verify "k" u sample_token =
    if (1000 * Second - 30 * Second <=? u) && (u <? 1900 * Second + 30 * Second)
    then Ok (normal_principal sample_principal (1900 * Second + 5)) else Err TokenInvalid) as Hw.
  { intros u. apply (token_roundtrip (H:=toy_jwt) "k" (15 * Minute) (1000 * Second + 5) (replicate 16 1)
      sample_principal sample_token (1900 * Second + 5) u).
    - vm_compute. reflexivity.
    - by repeat constructor.
    - reflexivity.
    - vm_compute. reflexivity.
    - reflexivity.
    - reflexivity.
    - apply Z.leb_le. vm_compute. reflexivity. }
  split; [exact (proj2 (Hw (1500 * Second)))|exact (proj2 (Hw (1930 * Second)))].
Defined.
