(* ===== verification/GResponse.v ===== *)
(** The error responses of the gateway: services/gateway/internal/middleware/response.go.

    A request in flight is an [Exchange]: what the chain of handlers stored in
    the request context and the response written so far.  [writeRPCError] turns
    the error of an upstream call into a problem document.  The RPC library is
    a parameter ([Rpc]) that says what it recognises in an error, with the law
    that a business status returned by a service is found in the error its
    caller sees; the JSON encoder is a parameter too ([ProblemCodec]). *)

From stdpp Require Import base gmap list sets strings.
From Stdlib Require Import ZArith Lia Ascii.
From S2P Require Import Prelude.
From S2P Require Import GoStrings.
From S2P Require Import GoText.
From S2P Require Import AppError.
From S2P Require Import AuthToken.

Open Scope Z_scope.

(** ** The request in flight *)

(** [x_Pending] says whether handlers of the chain are still to be called: they
    are until [Abort], or until a handler ran them through [Next]. *)
Record Exchange := MkExchange {
  x_Pending : bool;
  x_Dependencies : bool;
  x_Principal : option Principal;
  x_AccessToken : option string;
  x_ClientIP : option string;
  x_Headers : gmap string string;
  x_Status : Z;
  x_Body : option (string * string);
}.

Definition set_Pending (v : bool) (x : Exchange) : Exchange :=
  MkExchange v (x_Dependencies x) (x_Principal x) (x_AccessToken x) (x_ClientIP x) (x_Headers x)
    (x_Status x) (x_Body x).

Definition set_Dependencies (v : bool) (x : Exchange) : Exchange :=
  MkExchange (x_Pending x) v (x_Principal x) (x_AccessToken x) (x_ClientIP x) (x_Headers x)
    (x_Status x) (x_Body x).

Definition set_Principal (p : Principal) (token : string) (x : Exchange) : Exchange :=
  MkExchange (x_Pending x) (x_Dependencies x) (Some p) (Some token) (x_ClientIP x) (x_Headers x)
    (x_Status x) (x_Body x).

Definition set_ClientIP (ip : string) (x : Exchange) : Exchange :=
  MkExchange (x_Pending x) (x_Dependencies x) (x_Principal x) (x_AccessToken x) (Some ip)
    (x_Headers x) (x_Status x) (x_Body x).

(** [request.Header(key, value)]: an empty value removes the header. *)
Definition Header (key value : string) (x : Exchange) : Exchange :=
  MkExchange (x_Pending x) (x_Dependencies x) (x_Principal x) (x_AccessToken x) (x_ClientIP x)
    (if bool_decide (value = EmptyString) then delete key (x_Headers x)
     else <[key := value]> (x_Headers x)) (x_Status x) (x_Body x).

(** [request.Status] *)
Definition Status (status : Z) (x : Exchange) : Exchange :=
  MkExchange (x_Pending x) (x_Dependencies x) (x_Principal x) (x_AccessToken x) (x_ClientIP x)
    (x_Headers x) status (x_Body x).

(** [request.Data] *)
Definition Data (status : Z) (contentType body : string) (x : Exchange) : Exchange :=
  MkExchange (x_Pending x) (x_Dependencies x) (x_Principal x) (x_AccessToken x) (x_ClientIP x)
    (x_Headers x) status (Some (contentType, body)).

(** [request.Abort()] *)
Definition Abort (x : Exchange) : Exchange := set_Pending false x.

(** ** The catalogue of the gateway *)

Record ResponseError := MkResponseError {
  re_Code : Z;
  re_HTTPStatus : Z;
  re_Definition : Definition_;
}.

(** [MustDefine] panics when the definition is refused, at start-up; the lemma
    [catalogue_defined] shows that no entry is. *)
Definition MustDefine (code : Z) (key kind message : string) : Definition_ :=
  match Define code key kind message with
  | Ok d => d
  | Err _ => MkDefinition 0 EmptyString EmptyString EmptyString
  end.

Definition Background : Context_ := MkContext EmptyString EmptyString 0.

Definition responseError (code : Z) (key kind message : string) : ResponseError :=
  let definition := MustDefine code key kind message in
  MkResponseError code (ToHTTPError Background (New definition)).1 definition.

Definition responseErrorWithStatus (code status : Z) (key kind message : string) : ResponseError :=
  MkResponseError code status (MustDefine code key kind message).

Definition ErrNotReady := responseError 10001 "gateway.not_ready" KindUnavailable "service unavailable".
Definition ErrInvalidRequest := responseError 10002 "gateway.invalid_request" KindInvalidArgument "invalid request".
Definition ErrAuthenticationRequired := responseError 10003 "gateway.authentication_required" KindUnauthenticated "authentication required".
Definition ErrPermissionDenied := responseError 10005 "gateway.permission_denied" KindPermissionDenied "permission denied".
Definition ErrDependencyUnavailable := responseError 10007 "gateway.dependency_unavailable" KindUnavailable "service unavailable".
Definition ErrRouteNotFound := responseError 10008 "gateway.route_not_found" KindNotFound "route not found".
Definition ErrResourceNotFound := responseError 10008 "gateway.resource_not_found" KindNotFound "resource not found".
Definition ErrMethodNotAllowed := responseErrorWithStatus 10009 405 "gateway.method_not_allowed" KindInvalidArgument "method not allowed".
Definition ErrRateLimited := responseError 10010 "gateway.rate_limited" KindRateLimited "rate limit exceeded".
Definition ErrUpstreamTimeout := responseError 10011 "gateway.upstream_timeout" KindDeadlineExceeded "upstream request timed out".
Definition ErrInvalidUpstreamResponse := responseErrorWithStatus 10012 502 "gateway.invalid_upstream_response" KindUnavailable "invalid upstream response".
Definition ErrPreconditionFailed := responseErrorWithStatus 10013 412 "gateway.precondition_failed" KindConflict "resource revision does not match".
Definition ErrInternal := responseError 10999 "gateway.internal" KindInternal "internal server error".

Definition catalogHTTPStatus : gmap string Z :=
  {["identity.account_locked" := 423; "knowledge.gone" := 410; "knowledge.precondition_failed" := 412;
    "collaboration.precondition_failed" := 412; "platform.precondition_failed" := 412]}.

(** ** Writing a problem *)

Definition RequestIDHeader : string := "X-Request-ID".
Definition TraceIDHeader : string := "X-Trace-ID".
Definition ProblemContentType : string := "application/problem+json; charset=utf-8".

(** [jsoncodec.Marshal] of a problem; [None] when it fails. *)
Class ProblemCodec := { MarshalProblem : HTTPProblem → option string }.

Definition quoted (s : string) : string := of_bytes [34] +:+ s +:+ of_bytes [34].

Definition member (name value : string) : string := quoted name +:+ ":" +:+ value.

(** The document written when the encoder fails. *)
Definition fallback_problem : string :=
  "{" +:+ Join [member "type" (quoted "urn:knowledge-core:problem:common.internal");
    member "title" (quoted "Internal Server Error"); member "status" "500";
    member "detail" (quoted "internal server error"); member "code" "1";
    member "key" (quoted "common.internal")] "," +:+ "}".

(** What the RPC library recognises in an error: the business status of the
    callee, a deadline of the context, a timeout of its own, a [Timeout] method
    that answers true somewhere in the chain. *)
Class Rpc := {
  rpc_error : Type;
  FromBizStatusError : rpc_error → option BizStatus;
  is_DeadlineExceeded : rpc_error → bool;
  IsTimeoutError : rpc_error → bool;
  has_Timeout : rpc_error → bool;
}.

(** The error a caller sees when the handler of the callee returned a status. *)
Class RpcLaws `{Rpc} := {
  delivered : BizStatus → rpc_error;
  delivered_status b : FromBizStatusError (delivered b) = Some b;
}.

Section responses.
Context `{ProblemCodec}.

Definition writeProblem (status : Z) (value : HTTPProblem) (x : Exchange) : Exchange :=
  match MarshalProblem value with
  | None => Data 500 ProblemContentType fallback_problem x
  | Some payload => Data status ProblemContentType payload x
  end.

(** [fresh] is the identifier drawn when the context carries none. *)
Definition responseMetadata (fresh : string) (ctx : Context_) (x : Exchange)
  : string * option string * Exchange :=
  let ctx := EnsureRequestID fresh ctx in
  let requestID := c_RequestID ctx in
  let x := Header RequestIDHeader requestID x in
  if bool_decide (c_TraceID ctx = EmptyString) then (requestID, None, x)
  else (requestID, Some (c_TraceID ctx), Header TraceIDHeader (c_TraceID ctx) x).

Definition put_trace (traceID : option string) (p : HTTPProblem) : HTTPProblem :=
  match traceID with Some t => set_TraceID t p | None => p end.

Definition WriteError (fresh : string) (ctx : Context_) (re : ResponseError) (x : Exchange) : Exchange :=
  let '(requestID, traceID, x) := responseMetadata fresh ctx x in
  let problemContext := WithRequestID ctx requestID in
  let payload := put_trace traceID (ToHTTPProblem problemContext (re_HTTPStatus re) (New (re_Definition re))) in
  writeProblem (re_HTTPStatus re) payload (Abort x).

Definition writeCatalogError (fresh : string) (ctx : Context_) (err : error) (x : Exchange) : Exchange :=
  let '(requestID, traceID, x) := responseMetadata fresh ctx x in
  let problemContext := WithRequestID ctx requestID in
  let '(status, payload) :=
    match Details err ≫= λ definition, catalogHTTPStatus !! d_Key definition with
    | Some override => (override, ToHTTPProblem problemContext override err)
    | None => ToHTTPError problemContext err
    end in
  let payload := put_trace traceID payload in
  let x := if bool_decide (p_RetryAfter payload = EmptyString) then x
           else Header "Retry-After" (p_RetryAfter payload) x in
  writeProblem status payload (Abort x).

Context `{Rpc}.

Definition isTimeout (err : rpc_error) : bool :=
  is_DeadlineExceeded err || IsTimeoutError err || has_Timeout err.

Definition writeRPCError (fresh : string) (ctx : Context_) (err : rpc_error) (x : Exchange) : Exchange :=
  match FromBizStatusError err with
  | Some business =>
    match FromKitexBizStatus business with
    | Some definition =>
      let retryAfter := map_get (b_Extra business) ExtraRetryAfter in
      let appErr :=
        if bool_decide (retryAfter = EmptyString) then New definition
        else NewWithExtra definition (Some {[ExtraRetryAfter := retryAfter]}) in
      writeCatalogError fresh ctx appErr x
    | None => WriteError fresh ctx ErrInvalidUpstreamResponse x
    end
  | None =>
    if isTimeout err then WriteError fresh ctx ErrUpstreamTimeout x
    else WriteError fresh ctx ErrDependencyUnavailable x
  end.

End responses.

(** Every entry of the catalogue is a valid definition. *)
Lemma catalogue_defined :
  Forall (λ re, defined (re_Definition re) ∧ re_Code re = d_Code (re_Definition re))
    [ErrNotReady; ErrInvalidRequest; ErrAuthenticationRequired; ErrPermissionDenied;
     ErrDependencyUnavailable; ErrRouteNotFound; ErrResourceNotFound; ErrMethodNotAllowed;
     ErrRateLimited; ErrUpstreamTimeout; ErrInvalidUpstreamResponse; ErrPreconditionFailed; ErrInternal].
Proof. repeat constructor. Qed.

(** ** What a client sees *)

(** The status a definition is answered with: the override of its key, or what
    its kind stands for. *)
Definition client_status (d : Definition_) : Z :=
  default (httpStatus (d_Kind d)) (catalogHTTPStatus !! d_Key d).

(** The problem document of a definition. *)
Definition client_problem (requestID traceID : string) (status : Z) (d : Definition_) (retry : string)
  : HTTPProblem :=
  MkHTTPProblem ("urn:knowledge-core:problem:" +:+ d_Key d) (StatusText status) status
    (d_Message d) (d_Code d) (d_Key d) requestID traceID retry.

(** The response: identifiers and delay in the headers, the document in the
    body, and no further handler of the chain runs. *)
Definition answer `{ProblemCodec} (requestID traceID : string) (status : Z) (d : Definition_)
  (retry : string) (x : Exchange) : Exchange :=
  let x := Header RequestIDHeader requestID x in
  let x := if bool_decide (traceID = EmptyString) then x else Header TraceIDHeader traceID x in
  let x := if bool_decide (retry = EmptyString) then x else Header "Retry-After" retry x in
  writeProblem status (client_problem requestID traceID status d retry) (Abort x).

(** The request identifier a response carries. *)
Definition client_id (fresh : string) (ctx : Context_) : string :=
  if bool_decide (c_RequestID ctx = EmptyString) then fresh else c_RequestID ctx.

(** What contexts and identifiers look like: [WithRequestID] is the only way in. *)
Definition request_ids (fresh : string) (ctx : Context_) : Prop :=
  ValidRequestID fresh = true ∧ (c_RequestID ctx = EmptyString ∨ ValidRequestID (c_RequestID ctx) = true).

Section promises.
Context `{ProblemCodec}.

Lemma client_id_valid fresh ctx : request_ids fresh ctx → ValidRequestID (client_id fresh ctx) = true.
Proof. intros [? ?]. unfold client_id. case_bool_decide; naive_solver. Qed.

Lemma Ensure_client_id fresh ctx :
  request_ids fresh ctx →
  EnsureRequestID fresh ctx = MkContext (client_id fresh ctx) (c_TraceID ctx) (c_UserID ctx).
Proof.
  intros [Hf _]. unfold EnsureRequestID, client_id. case_bool_decide; [by apply WithRequestID_valid|].
  by destruct ctx.
Qed.

Lemma responseMetadata_spec fresh ctx x :
  request_ids fresh ctx →
  responseMetadata fresh ctx x =
    (client_id fresh ctx,
     if bool_decide (c_TraceID ctx = EmptyString) then None else Some (c_TraceID ctx),
     let x := Header RequestIDHeader (client_id fresh ctx) x in
     if bool_decide (c_TraceID ctx = EmptyString) then x else Header TraceIDHeader (c_TraceID ctx) x).
Proof.
  intros Hi. unfold responseMetadata. rewrite Ensure_client_id by done. simpl. by case_bool_decide.
Qed.

Lemma put_trace_same p (t : string) :
  p_TraceID p = t → put_trace (if bool_decide (t = EmptyString) then None else Some t) p = p.
Proof. intros <-. destruct p; simpl. by case_bool_decide. Qed.

Lemma with_retry_problem ctx err status d :
  with_retry err (problem ctx status d) =
  client_problem (c_RequestID ctx) (c_TraceID ctx) status d (Extra err ExtraRetryAfter).
Proof. unfold with_retry, client_problem, problem, set_RetryAfter. case_bool_decide as E; simpl; by rewrite ?E. Qed.

Lemma WriteError_spec fresh ctx re x :
  request_ids fresh ctx → valid (re_Definition re) = true →
  WriteError fresh ctx re x =
  answer (client_id fresh ctx) (c_TraceID ctx) (re_HTTPStatus re) (re_Definition re) EmptyString x.
Proof.
  intros Hi Hv. unfold WriteError. rewrite responseMetadata_spec by done.
  rewrite WithRequestID_valid by by apply client_id_valid.
  unfold ToHTTPProblem. rewrite Details_New, with_retry_problem by done. simpl.
  by rewrite put_trace_same.
Qed.

Lemma writeCatalogError_spec fresh ctx err d x :
  request_ids fresh ctx → Details err = Some d →
  writeCatalogError fresh ctx err x =
  answer (client_id fresh ctx) (c_TraceID ctx) (client_status d) d (Extra err ExtraRetryAfter) x.
Proof.
  intros Hi Hd. unfold writeCatalogError, client_status. rewrite responseMetadata_spec by done.
  rewrite WithRequestID_valid by by apply client_id_valid.
  unfold ToHTTPProblem, ToHTTPError. rewrite Hd. simpl.
  destruct (catalogHTTPStatus !! d_Key d); simpl; rewrite with_retry_problem; simpl;
    by rewrite put_trace_same.
Qed.

Lemma Extra_resent d retry :
  TrimSpace retry = retry →
  Extra (if bool_decide (retry = EmptyString) then New d
         else NewWithExtra d (Some {[ExtraRetryAfter := retry]})) ExtraRetryAfter = retry.
Proof.
  intros Ht. case_bool_decide as E; [by rewrite E|]. unfold Extra, NewWithExtra, copySafeExtra, map_get.
  simpl. rewrite lookup_singleton_eq. simpl. rewrite Ht, bool_decide_false by done. simpl.
  by rewrite lookup_singleton_eq.
Qed.

Context `{!Rpc, !RpcLaws}.

(** The answer to an error a service raised. *)
Lemma rpc_error_answer fresh ctx sctx err x :
  request_ids fresh ctx → made err →
  (∀ d, Details err = Some d → TrimSpace (d_Message d) = d_Message d) →
  let d := default InternalError (Details err) in
  writeRPCError fresh ctx (delivered (ToBizStatus sctx err)) x =
  answer (client_id fresh ctx) (c_TraceID ctx) (client_status d) d (Extra err ExtraRetryAfter) x.
Proof.
  intros Hi Hm Ht d. unfold writeRPCError. rewrite delivered_status, status_roundtrip by done.
  destruct (status_extra_get sctx err d Hm) as (_ & _ & Hr). simpl. fold d. rewrite Hr.
  assert (TrimSpace (Extra err ExtraRetryAfter) = Extra err ExtraRetryAfter) as Htr.
  { unfold Extra. destruct (As_error err) as [extra|] eqn:E; [|done].
    by apply safe_extra_trimmed, As_error_safe with err. }
  assert (valid d = true) as Hv.
  { unfold d. destruct (Details err) eqn:E; [by apply Details_valid in E|]. apply InternalError_defined. }
  rewrite (writeCatalogError_spec _ _ _ d); [by rewrite Extra_resent|done|].
  case_bool_decide; [by apply Details_New|by apply Details_NewWithExtra].
Qed.

(** C26: an error a service raises reaches the client as the
    problem document of its catalog entry: code, key, message, the status of
    its kind or the override of its key, the retry delay of the error in body
    and header, the identifiers of the gateway's request, and the chain is
    stopped.  An error without a valid entry is answered as the common internal
    error, whatever it wraps.  A status without a readable entry is a 502, an
    upstream timeout a 504, any other failure of the call a 503. *)
Theorem error_reaches_client fresh ctx sctx err x :
  request_ids fresh ctx → made err →
  (∀ d, Details err = Some d → TrimSpace (d_Message d) = d_Message d) →
  (let d := default InternalError (Details err) in
   writeRPCError fresh ctx (delivered (ToBizStatus sctx err)) x =
   answer (client_id fresh ctx) (c_TraceID ctx) (client_status d) d (Extra err ExtraRetryAfter) x) ∧
  (∀ e re,
    match FromBizStatusError e with
    | Some b => FromKitexBizStatus b = None ∧ re = ErrInvalidUpstreamResponse
    | None => re = if isTimeout e then ErrUpstreamTimeout else ErrDependencyUnavailable
    end →
    writeRPCError fresh ctx e x =
    answer (client_id fresh ctx) (c_TraceID ctx) (re_HTTPStatus re) (re_Definition re) EmptyString x).
Proof.
  intros Hi Hm Ht. split.
  - by apply rpc_error_answer.
  - intros e re Hre. unfold writeRPCError. destruct (FromBizStatusError e) as [b|].
    + destruct Hre as [-> ->]. by rewrite WriteError_spec.
    + subst re. destruct (isTimeout e); by rewrite WriteError_spec.
Qed.

End promises.
