(* ===== verification/GLimit.v ===== *)
(** The rate limiter of the gateway: services/gateway/internal/ratelimit/redis.go,
    and the address of a client: [ClientIP] of middleware/http.go.

    The counters live in Redis, here a map of values with deadlines in
    milliseconds; the script of the limiter runs on it as one step.  Package net
    is a parameter ([Net]). *)

From stdpp Require Import base gmap list sets strings.
From Stdlib Require Import ZArith Lia Ascii DecimalN DecimalString.
From S2P Require Import Prelude.
From S2P Require Import GoStrings.
From S2P Require Import GoText.

Open Scope Z_scope.

(** ** Redis *)

Record Entry := MkEntry { en_Value : Z; en_Deadline : option Z }.

Notation Redis := (gmap string Entry).

(** A key with a deadline is gone once the clock has passed it. *)
Definition redis_get (clock : Z) (key : string) (db : Redis) : option Entry :=
  e ← db !! key;
  match en_Deadline e with
  | Some deadline => if deadline <? clock then None else Some e
  | None => Some e
  end.

(** [INCR]: a missing key counts as zero; an overflow is an error. *)
Definition INCR (clock : Z) (key : string) (db : Redis) : option (Z * Redis) :=
  let e := default (MkEntry 0 None) (redis_get clock key db) in
  if en_Value e =? 2 ^ 63 - 1 then None
  else Some (en_Value e + 1, <[key := MkEntry (en_Value e + 1) (en_Deadline e)]> db).

(** [PEXPIRE] of a key that exists. *)
Definition PEXPIRE (clock : Z) (key : string) (millis : Z) (db : Redis) : Redis :=
  match redis_get clock key db with
  | Some e => <[key := MkEntry (en_Value e) (Some (clock + millis))]> db
  | None => db
  end.

Definition incrementScript (clock : Z) (key : string) (millis : Z) (db : Redis) : Redis * option Z :=
  match INCR clock key db with
  | None => (db, None)
  | Some (value, db) => (if value =? 1 then PEXPIRE clock key millis db else db, Some value)
  end.

(** ** Addresses *)

(** What the code uses of package net: hosts, addresses and networks. *)
Class Net := {
  ip : Type;
  ParseIP : string → option ip;
  ip_string : ip → string;
  SplitHostPort : string → option string;
  ip_net : Type;
  net_contains : ip_net → ip → bool;
}.

(** [strings.Trim(s, "[]")] *)
Definition TrimBrackets (s : string) : string :=
  of_bytes (trim_both (λ b, (b =? 91) || (b =? 93)) (bytes s)).

(** [strings.CutPrefix] *)
Definition CutPrefix (s prefix : string) : option string :=
  let n := length (bytes prefix) in
  if bool_decide (take n (bytes s) = bytes prefix) then Some (of_bytes (drop n (bytes s))) else None.

Section limiter.
Context `{Net}.

Definition normalizeIP (raw : string) : string :=
  let raw := TrimSpace raw in
  let raw := default raw (SplitHostPort raw) in
  match ParseIP (TrimBrackets raw) with None => "unknown" | Some a => ip_string a end.

(** [None]: the subject names no user. *)
Definition normalizeSubject (raw : string) : option string :=
  let raw := TrimSpace raw in
  match CutPrefix raw "user:" with
  | Some value =>
    id ← ParseInt value 64;
    if (0 <? id) && bool_decide (FormatInt id = value) then Some ("user:" +:+ value)%string else None
  | None => Some (normalizeIP raw)
  end.

Inductive limit_error := ArgumentsInvalid | ScopeRequired | UserSubjectInvalid | RedisFailed.

Definition UnixMilli (t : Z) : Z := t / Millisecond.

(** [d.Milliseconds()] *)
Definition Milliseconds (d : Z) : Z := Z.quot d Millisecond.

Definition bucket_of (window now : Z) : Z := Z.quot (UnixMilli now) (Milliseconds window).

Definition bucket_end (window now : Z) : Z :=
  (bucket_of window now + 1) * Milliseconds window * Millisecond.

Definition limit_key (keyPrefix scope : string) (bucket : Z) (subject : string) : string :=
  (keyPrefix +:+ ":" +:+ scope +:+ ":" +:+ FormatInt bucket +:+ ":" +:+ subject)%string.

(** [clock] is the time of the Redis server when it runs the script; the answer
    says whether the request is admitted and when the next window begins. *)
Definition Consume (keyPrefix : string) (clock : Z) (scope subject : string) (now window limit : Z)
  (db : Redis) : Redis * result limit_error (bool * Z) :=
  if (window <? Millisecond) || (limit <=? 0) then (db, Err ArgumentsInvalid)
  else
    let scope := TrimSpace scope in
    if bool_decide (scope = EmptyString) then (db, Err ScopeRequired)
    else
      let retryAfter := bucket_end window now - now in
      match normalizeSubject subject with
      | None => (db, Err UserSubjectInvalid)
      | Some normalizedSubject =>
        let key := limit_key keyPrefix scope (bucket_of window now) normalizedSubject in
        let expiryMillis := Z.max 1 (Milliseconds retryAfter) in
        match incrementScript clock key expiryMillis db with
        | (db, None) => (db, Err RedisFailed)
        | (db, Some count) => (db, Ok (count <=? limit, retryAfter))
        end
      end.

(** ** The client *)

Definition addressIP (address : string) : option ip :=
  ParseIP (TrimBrackets (default address (SplitHostPort address))).

Definition containsIP (networks : list ip_net) (a : ip) : bool := existsb (λ n, net_contains n a) networks.

(** The loop over the forwarded entries from the last: [Some (inl a)] is the
    first untrusted address, [Some (inr a)] the last trusted one seen. *)
Fixpoint forwarded_loop (trusted : list ip_net) (entries : list string) (leftmost : option ip)
  : option (ip + ip) :=
  match entries with
  | [] => inr <$> leftmost
  | entry :: rest =>
    match ParseIP (TrimSpace entry) with
    | None => forwarded_loop trusted rest leftmost
    | Some candidate =>
      if containsIP trusted candidate then forwarded_loop trusted rest (Some candidate)
      else Some (inl candidate)
    end
  end.

(** [peek] reads a request header, empty when it is absent. *)
Definition ClientIP (remoteAddr : option string) (peek : string → string) (trusted : list ip_net) : string :=
  match remoteAddr ≫= addressIP with
  | None => "unknown"
  | Some peer =>
    if negb (containsIP trusted peer) then ip_string peer
    else
      match forwarded_loop trusted (rev (SplitByte (peek "X-Forwarded-For") 44)) None with
      | Some (inl candidate) => ip_string candidate
      | Some (inr leftmost) => ip_string leftmost
      | None =>
        match ParseIP (TrimSpace (peek "X-Real-IP")) with
        | Some realIP => ip_string realIP
        | None => ip_string peer
        end
      end
  end.

End limiter.

(** What the rate limiter and the client address promise. *)

(** ** Keys *)

Lemma split_unique {A} (sep : A) a b a' b' :
  sep ∉ a → sep ∉ a' → a ++ sep :: b = a' ++ sep :: b' → a = a' ∧ b = b'.
Proof.
  revert a'. induction a as [|x a IH]; intros [|x' a'] Ha Ha' E; simpl in *; simplify_eq; try set_solver.
  destruct (IH a') as [-> ->]; set_solver.
Qed.

Lemma FormatInt_digits n : 0 <= n → 58 ∉ bytes (FormatInt n).
Proof.
  intros Hn Hin. assert (forallb digit (bytes (FormatInt n)) = true) as Hd.
  { destruct n as [|p|p]; [done| |lia]. rewrite FormatInt_pos. apply uint_digits. }
  rewrite forallb_forall in Hd. apply list_elem_of_In in Hin. by specialize (Hd 58 Hin).
Qed.

Lemma FormatInt_inj_nonneg n m : 0 <= n → 0 <= m → FormatInt n = FormatInt m → n = m.
Proof.
  intros Hn Hm E. assert (∀ q, 0 < q → FormatInt q ≠ FormatInt 0) as Hz.
  { intros q Hq Eq. pose proof (FormatInt_positive q Hq) as P. by rewrite Eq in P. }
  destruct (decide (n = 0)) as [->|], (decide (m = 0)) as [->|]; try done.
  - by destruct (Hz m ltac:(lia)).
  - by destruct (Hz n ltac:(lia)).
  - apply FormatInt_inj; [lia..|done].
Qed.

(** Keys of one limiter tell scope, window and subject apart. *)
Lemma limit_key_inj prefix scope scope' bucket bucket' subject subject' :
  58 ∉ bytes scope → 58 ∉ bytes scope' → 0 <= bucket → 0 <= bucket' →
  limit_key prefix scope bucket subject = limit_key prefix scope' bucket' subject' →
  scope = scope' ∧ bucket = bucket' ∧ subject = subject'.
Proof.
  intros Hs Hs' Hb Hb' E. apply (f_equal bytes) in E. unfold limit_key in E.
  rewrite !bytes_app in E. apply app_inv_head in E. injection E as E.
  apply split_unique in E as [E1 E]; [|done..].
  apply split_unique in E as [E2 E]; [|by apply FormatInt_digits..].
  apply (f_equal of_bytes) in E1, E2, E. rewrite !of_bytes_bytes in E1, E2, E.
  apply FormatInt_inj_nonneg in E2; done.
Qed.

(** ** Counting *)

Lemma script_first clock key millis db :
  redis_get clock key db = None → 0 < millis →
  incrementScript clock key millis db = (<[key := MkEntry 1 (Some (clock + millis))]> db, Some 1).
Proof.
  intros Hg Hm.
  unfold incrementScript, INCR. rewrite Hg.
  cbn [default from_option id en_Value en_Deadline]. change (0 =? 2 ^ 63 - 1) with false. cbv iota.
  change (0 + 1) with 1. change (1 =? 1) with true. cbv iota. unfold PEXPIRE, redis_get.
  rewrite lookup_insert_eq. cbn [mbind option_bind en_Deadline en_Value].
  by rewrite insert_insert_eq.
Qed.

Lemma script_next clock key millis db n deadline :
  db !! key = Some (MkEntry n (Some deadline)) → clock <= deadline → 0 < n < 2 ^ 63 - 1 →
  incrementScript clock key millis db = (<[key := MkEntry (n + 1) (Some deadline)]> db, Some (n + 1)).
Proof.
  intros Hk Hc Hn. unfold incrementScript, INCR, redis_get. rewrite Hk. cbn [option_bind mbind en_Deadline].
  rewrite (proj2 (Z.ltb_ge _ _)) by lia. cbn [default from_option en_Value en_Deadline id].
  rewrite (proj2 (Z.eqb_neq n _)), (proj2 (Z.eqb_neq (n + 1) 1)) by lia. done.
Qed.

Lemma script_other clock key key' millis db :
  key ≠ key' → (incrementScript clock key' millis db).1 !! key = db !! key.
Proof.
  intros Hk. unfold incrementScript, INCR, PEXPIRE. destruct (_ =? _); [done|]. simpl.
  destruct (_ =? 1); [|by rewrite lookup_insert_ne].
  destruct (redis_get _ _ (<[_:=_]> _)); by rewrite !lookup_insert_ne by done.
Qed.

Section limiter_facts.
Context `{Net}.
Variables (keyPrefix : string) (window : Z).

(** One call of [Consume]: the Redis clock, the clock of the gateway, and what
    is limited. *)
Record Call := MkCall {
  ca_Clock : Z; ca_Now : Z; ca_Scope : string; ca_Subject : string; ca_Limit : Z }.

Definition consume (c : Call) : Redis → Redis * result limit_error (bool * Z) :=
  Consume keyPrefix (ca_Clock c) (ca_Scope c) (ca_Subject c) (ca_Now c) window (ca_Limit c).

(** The store after a sequence of calls. *)
Definition consume_all (cs : list Call) (db : Redis) : Redis := foldl (λ db c, (consume c db).1) db cs.

(** What a call is counted under: its scope, window and subject. *)
Definition counted (c : Call) : option (string * Z * string) :=
  if bool_decide (TrimSpace (ca_Scope c) = EmptyString) || (ca_Limit c <=? 0) then None
  else subject ← normalizeSubject (ca_Subject c);
       Some (TrimSpace (ca_Scope c), bucket_of window (ca_Now c), subject).

(** The call is made after 1970 and its scope has no colon. *)
Definition well_keyed (c : Call) : Prop := 0 <= ca_Now c ∧ 58 ∉ bytes (TrimSpace (ca_Scope c)).

(** It reaches Redis within its window, by a clock not behind that of the
    gateway. *)
Definition in_window (c : Call) : Prop :=
  UnixMilli (ca_Now c) <= ca_Clock c < (bucket_of window (ca_Now c) + 1) * Milliseconds window.

Definition same_count (id : string * Z * string) (c : Call) : bool := bool_decide (counted c = Some id).

Definition earlier (id : string * Z * string) (cs : list Call) : Z :=
  Z.of_nat (length (filter (λ c, same_count id c = true) cs)).

(** The milliseconds a counter made by [c] lives. *)
Definition expiry (c : Call) : Z := Z.max 1 (Milliseconds (bucket_end window (ca_Now c) - ca_Now c)).

(** A counter, as its count and its deadline: it runs until the clock of Redis
    passes the deadline; a call that finds none running starts one. *)
Definition running_at (clock : Z) (o : option (Z * Z)) : option (Z * Z) :=
  '(n, deadline) ← o; if deadline <? clock then None else Some (n, deadline).

Definition count_call (id : string * Z * string) (o : option (Z * Z)) (c : Call) : option (Z * Z) :=
  if same_count id c then
    match running_at (ca_Clock c) o with
    | Some (n, deadline) => Some (n + 1, deadline)
    | None => Some (1, ca_Clock c + expiry c)
    end
  else o.

Definition counter_after (id : string * Z * string) (cs : list Call) : option (Z * Z) := foldl (count_call id) None cs.

(** The calls the counter that runs at [clock] has counted. *)
Definition counted_before (id : string * Z * string) (clock : Z) (cs : list Call) : Z :=
  match running_at clock (counter_after id cs) with Some (n, _) => n | None => 0 end.

Definition key_of (id : string * Z * string) : string := limit_key keyPrefix id.1.1 id.1.2 id.2.

Hypothesis Hwindow : Millisecond <= window.

Lemma window_millis : 1 <= Milliseconds window.
Proof.
  unfold Milliseconds. rewrite Z.quot_div_nonneg by (unfold Millisecond in *; lia).
  apply Z.div_le_lower_bound; unfold Millisecond in *; lia.
Qed.

Lemma bucket_nonneg now : 0 <= now → 0 <= bucket_of window now.
Proof.
  intros. unfold bucket_of. apply Z.quot_pos; [|pose proof window_millis; lia].
  unfold UnixMilli. apply Z.div_pos; unfold Millisecond; lia.
Qed.

(** Times of a window: it ends after the present moment and not later than one
    window. *)
Lemma bucket_bounds now :
  0 <= now → bucket_of window now * Milliseconds window * Millisecond <= now < bucket_end window now.
Proof.
  intros Hn. pose proof window_millis. unfold bucket_end, bucket_of.
  assert (0 <= UnixMilli now) by (apply Z.div_pos; unfold Millisecond; lia).
  rewrite Z.quot_div_nonneg by lia.
  pose proof (Z.mul_div_le (UnixMilli now) (Milliseconds window) ltac:(lia)).
  pose proof (Z.mul_succ_div_gt (UnixMilli now) (Milliseconds window) ltac:(lia)).
  assert (UnixMilli now * Millisecond <= now < (UnixMilli now + 1) * Millisecond).
  { unfold UnixMilli. pose proof (Z.mul_div_le now Millisecond ltac:(unfold Millisecond; lia)).
    pose proof (Z.mul_succ_div_gt now Millisecond ltac:(unfold Millisecond; lia)). lia. }
  unfold Millisecond in *. nia.
Qed.

(** A key made in time lives until the last millisecond of its window. *)
Lemma expiry_covers c :
  0 <= ca_Now c → in_window c →
  (bucket_of window (ca_Now c) + 1) * Milliseconds window - 1 <= ca_Clock c + expiry c.
Proof.
  unfold expiry. intros Hn [Hc _]. pose proof (bucket_bounds _ Hn) as [_ Hb].
  unfold Milliseconds at 2. rewrite Z.quot_div_nonneg by (unfold Millisecond; lia).
  unfold bucket_end in *. set (E := (_ + 1) * Milliseconds window) in *.
  assert (E - UnixMilli (ca_Now c) - 1 <= (E * Millisecond - ca_Now c) / Millisecond); [|lia].
  apply Z.div_le_lower_bound; [unfold Millisecond; lia|]. unfold UnixMilli in *.
  pose proof (Z.mul_succ_div_gt (ca_Now c) Millisecond ltac:(unfold Millisecond; lia)).
  unfold Millisecond in *. lia.
Qed.

(** What the store holds of a counter. *)
Definition stored (id : string * Z * string) (o : option (Z * Z)) (db : Redis) : Prop :=
  db !! key_of id = (λ '(n, deadline), MkEntry n (Some deadline)) <$> o.

(** Counts of at most [k] calls. *)
Definition count_within (k : Z) (o : option (Z * Z)) : Prop := from_option (λ '(n, _), 0 < n <= k) True o.

Lemma consume_counted c id db :
  counted c = Some id →
  consume c db =
    match incrementScript (ca_Clock c) (key_of id) (expiry c) db with
    | (db, None) => (db, Err RedisFailed)
    | (db, Some count) => (db, Ok (count <=? ca_Limit c, bucket_end window (ca_Now c) - ca_Now c))
    end.
Proof.
  unfold counted, consume, Consume. intros Hc. destruct (_ || _) eqn:E in Hc; [done|].
  apply orb_false_iff in E as [E1 E2]. rewrite (proj2 (Z.ltb_ge _ _)) by lia.
  rewrite E1, E2. simpl. destruct (normalizeSubject (ca_Subject c)); [|done]. by injection Hc as <-.
Qed.

Lemma consume_uncounted c db : counted c = None → (consume c db).1 = db.
Proof.
  unfold counted, consume, Consume. intros Hc. destruct (_ || _) eqn:E in Hc.
  - apply orb_true_iff in E as [E|E]; rewrite E; [by destruct (_ || _)|]. by rewrite orb_true_r.
  - destruct (normalizeSubject (ca_Subject c)); [done|].
    simpl. by repeat case_match.
Qed.

Lemma counted_bucket c id : counted c = Some id → id.1.2 = bucket_of window (ca_Now c).
Proof.
  unfold counted. destruct (_ || _); [done|]. destruct (normalizeSubject _); [|done]. by intros [= <-].
Qed.

Lemma counted_keyed c id : well_keyed c → counted c = Some id → 58 ∉ bytes id.1.1 ∧ 0 <= id.1.2.
Proof.
  intros [Hn Hs]. unfold counted. destruct (_ || _); [done|]. destruct (normalizeSubject _); [|done].
  intros [= <-]. split; [done|by apply bucket_nonneg].
Qed.

(** A call of the same scope, window and subject is answered by the counter that
    runs, and counts. *)
Lemma consume_same c id o k db :
  counted c = Some id → stored id o db → count_within k o → k < 2 ^ 63 - 1 →
  let n := match running_at (ca_Clock c) o with Some (n, _) => n | None => 0 end in
  (consume c db).2 = Ok (n + 1 <=? ca_Limit c, bucket_end window (ca_Now c) - ca_Now c) ∧
  stored id (count_call id o c) (consume c db).1.
Proof.
  intros Hc Hs Hk Hlim. rewrite (consume_counted c id db Hc). unfold stored, count_call, same_count in *.
  rewrite bool_decide_true by done.
  assert (0 < expiry c) as He by (unfold expiry; lia).
  destruct o as [[n deadline]|]; simpl in *.
  - destruct (deadline <? ca_Clock c) eqn:Hd.
    + rewrite script_first; [simpl; by rewrite lookup_insert_eq| |done].
      unfold redis_get. rewrite Hs. simpl. by rewrite Hd.
    + apply Z.ltb_ge in Hd. rewrite (script_next _ _ _ _ n deadline) by (done || lia). simpl. by rewrite lookup_insert_eq.
  - rewrite script_first; [simpl; by rewrite lookup_insert_eq| |done]. unfold redis_get. by rewrite Hs.
Qed.

Lemma consume_other c id o db :
  well_keyed c → counted c ≠ Some id → 58 ∉ bytes id.1.1 → 0 <= id.1.2 →
  stored id o db → stored id o (consume c db).1.
Proof.
  intros Ht Hc Hid Hb Hs. destruct (counted c) as [id'|] eqn:E; [|by rewrite consume_uncounted].
  destruct (counted_keyed c id' Ht E) as [Hid' Hb'].
  assert (key_of id ≠ key_of id') as Hk.
  { intros Ek. apply Hc. f_equal. destruct id as [[sc b] su], id' as [[sc' b'] su'].
    unfold key_of in Ek. simpl in *. apply limit_key_inj in Ek as (-> & -> & ->); done. }
  rewrite (consume_counted c id' db E).
  pose proof (script_other (ca_Clock c) (key_of id) (key_of id') (expiry c) db Hk) as Hl.
  destruct (incrementScript _ _ _ db) as [db' [count|]]; simpl in *; unfold stored in *; by rewrite Hl.
Qed.

Lemma count_call_within id o c k : count_within k o → 0 <= k → count_within (k + 1) (count_call id o c).
Proof.
  unfold count_call. destruct (same_count id c); [|destruct o as [[n d]|]; simpl; lia].
  destruct o as [[n d]|]; simpl; [|lia]. destruct (d <? ca_Clock c); simpl; lia.
Qed.

Lemma consume_all_stored cs id o k db :
  Forall well_keyed cs → 58 ∉ bytes id.1.1 → 0 <= id.1.2 → stored id o db → count_within k o → 0 <= k →
  k + Z.of_nat (length cs) < 2 ^ 63 - 1 →
  stored id (foldl (count_call id) o cs) (consume_all cs db) ∧
  count_within (k + Z.of_nat (length cs)) (foldl (count_call id) o cs).
Proof.
  intros Ht Hid Hb. revert o k db. induction Ht as [|c cs Hc Ht IH]; intros o k db Hs Hn Hk Hl; simpl in *.
  { split; [done|]. by rewrite Z.add_0_r. }
  replace (k + Z.of_nat (S (length cs))) with ((k + 1) + Z.of_nat (length cs)) by lia.
  apply IH; [|by apply count_call_within|lia|lia].
  destruct (decide (counted c = Some id)) as [E|E].
  - apply (consume_same c id o k db); [done..|lia].
  - unfold count_call, same_count. rewrite bool_decide_false by done. by apply consume_other.
Qed.

(** A counter never counts more than the calls made. *)
Lemma counter_at_most id cs o k :
  count_within k o → 0 <= k → count_within (k + earlier id cs) (foldl (count_call id) o cs).
Proof.
  revert o k. induction cs as [|c cs IH]; intros o k Ho Hk; unfold earlier in *; simpl.
  { by rewrite Z.add_0_r. }
  rewrite filter_cons. case_decide as E.
  - simpl. replace (k + Z.of_nat (S _)) with ((k + 1) + Z.of_nat (length (filter (λ c, same_count id c = true) cs))) by lia.
    apply IH; [by apply count_call_within|lia].
  - unfold count_call at 2. destruct (same_count id c); [done|]. by apply IH.
Qed.

(** One counter counts all calls that reach Redis in their window. *)
Lemma counter_in_window id cs o :
  Forall (λ c, same_count id c = true → well_keyed c ∧ in_window c) cs →
  match o with Some (n, deadline) => (id.1.2 + 1) * Milliseconds window - 1 <= deadline | None => True end →
  match foldl (count_call id) o cs with
  | Some (n, deadline) => (id.1.2 + 1) * Milliseconds window - 1 <= deadline
      ∧ n = from_option fst 0 o + earlier id cs
  | None => o = None ∧ earlier id cs = 0
  end.
Proof.
  intros Hcs. revert o. induction Hcs as [|c cs Hc _ IH]; intros o Ho; unfold earlier in *; simpl.
  { destruct o as [[n d]|]; simpl; [split; [done|lia]|done]. }
  rewrite filter_cons. unfold count_call at 2. destruct (same_count id c) eqn:E.
  - rewrite decide_True by done. destruct (Hc eq_refl) as [[Hn _] Hw]. apply bool_decide_eq_true in E.
    pose proof (counted_bucket c id E) as Hb. pose proof (expiry_covers c Hn Hw) as Hx. rewrite <-Hb in Hx.
    assert (∃ n d, (match running_at (ca_Clock c) o with
        | Some (n, deadline) => Some (n + 1, deadline) | None => Some (1, ca_Clock c + expiry c) end) = Some (n, d)
        ∧ (id.1.2 + 1) * Milliseconds window - 1 <= d ∧ n = from_option fst 0 o + 1) as (n & d & -> & Hd & Hnn).
    { destruct o as [[n d]|]; simpl; [|by eexists _, _]. destruct Hw as [_ Hw]. rewrite <-Hb in Hw.
      rewrite (proj2 (Z.ltb_ge _ _)) by lia. by eexists _, _. }
    specialize (IH (Some (n, d)) Hd). simpl in IH. destruct (foldl _ _ _) as [[m e]|]; [|by destruct IH].
    destruct IH as [? ->]. split; [done|]. simpl. lia.
  - rewrite decide_False by done. apply IH. done.
Qed.

(** C27: however the calls of all scopes and subjects interleave, a call is
    admitted exactly when fewer than its limit were counted by the counter that
    runs when it reaches Redis: the counter of its scope, window and subject is
    started by a call that finds none running, and runs for the rest of that
    call's window.  A counter never counts more than the calls made before for
    the same scope, window and subject, so none is refused too early; and it
    counts all of them when these calls and this one reach Redis within their
    window, on a clock not behind the gateway's (one that reaches it after the
    counter ran out starts another).  The delay told is more than nothing, at
    most one window, and ends when the next window begins.  Calls are made after
    1970, under scopes without a colon, on a store that does not hold the key
    yet. *)
Theorem limiter_exact cs c id db :
  Forall well_keyed cs → well_keyed c → counted c = Some id → db !! key_of id = None →
  Z.of_nat (length cs) < 2 ^ 63 - 1 →
  (consume c (consume_all cs db)).2 =
    Ok (counted_before id (ca_Clock c) cs <? ca_Limit c, bucket_end window (ca_Now c) - ca_Now c) ∧
  counted_before id (ca_Clock c) cs <= earlier id cs ∧
  (Forall (λ c, same_count id c = true → in_window c) (c :: cs) →
     counted_before id (ca_Clock c) cs = earlier id cs) ∧
  0 < bucket_end window (ca_Now c) - ca_Now c <= window ∧
  bucket_of window (bucket_end window (ca_Now c)) = bucket_of window (ca_Now c) + 1.
Proof.
  intros Ht Hc Hid Hdb Hl. destruct (counted_keyed c id Hc Hid) as [Hs Hb0]. destruct Hc as [Hnow Hsc].
  destruct (consume_all_stored cs id None 0 db Ht Hs Hb0 Hdb I ltac:(lia) ltac:(lia)) as [Hst Hwi].
  fold (counter_after id cs) in Hst, Hwi.
  destruct (consume_same c id _ _ _ Hid Hst Hwi ltac:(lia)) as [-> _].
  pose proof (bucket_bounds _ Hnow) as Hb. pose proof window_millis as Hw.
  assert (count_within (earlier id cs) (counter_after id cs)) as Hmost.
  { unfold counter_after. rewrite <-(Z.add_0_l (earlier id cs)). by apply counter_at_most. }
  assert (0 <= earlier id cs) as He by (unfold earlier; lia).
  split_and!.
  - fold (counted_before id (ca_Clock c) cs). set (k := counted_before _ _ _). f_equal. f_equal.
    destruct (Z.leb_spec (k + 1) (ca_Limit c)), (Z.ltb_spec k (ca_Limit c)); done || lia.
  - unfold counted_before. destruct (counter_after id cs) as [[n d]|]; simpl in *; [|lia].
    destruct (d <? ca_Clock c); simpl; lia.
  - intros [Hcw Hcs]%Forall_cons. assert (in_window c) as [_ Hw'] by by apply Hcw, bool_decide_true.
    rewrite <-(counted_bucket c id Hid) in Hw'.
    pose proof (counter_in_window id cs None) as Hin. fold (counter_after id cs) in Hin. simpl in Hin.
    unfold counted_before. destruct (counter_after id cs) as [[n d]|]; simpl.
    + destruct Hin as [Hd ->]; [|done|]. { apply Forall_forall. intros x Hx E. rewrite Forall_forall in Ht, Hcs. eauto. }
      by rewrite (proj2 (Z.ltb_ge _ _)) by lia.
    + symmetry. apply Hin; [|done]. apply Forall_forall. intros x Hx E. rewrite Forall_forall in Ht, Hcs. eauto.
  - lia.
  - assert (Milliseconds window * Millisecond <= window).
    { unfold Milliseconds. rewrite Z.quot_div_nonneg by (unfold Millisecond in *; lia).
      rewrite Z.mul_comm. apply Z.mul_div_le. unfold Millisecond. lia. }
    unfold bucket_end in *. unfold Millisecond in *. nia.
  - unfold bucket_of at 1, UnixMilli, bucket_end. rewrite Z.div_mul by (unfold Millisecond; lia).
    apply Z.quot_mul. lia.
Qed.

End limiter_facts.

(** ** The client address *)

Lemma split_bytes_app sep a b cur :
  split_bytes sep (a ++ sep :: b) cur = split_bytes sep a cur ++ split_bytes sep b [].
Proof.
  revert cur. induction a as [|x a IH]; intros cur; simpl; [by rewrite Z.eqb_refl|].
  destruct (x =? sep); [by rewrite IH|]. apply IH.
Qed.

Lemma split_bytes_one sep a cur : sep ∉ a → split_bytes sep a cur = [cur ++ a].
Proof.
  revert cur. induction a as [|x a IH]; intros cur Ha; simpl; [by rewrite app_nil_r|].
  rewrite (proj2 (Z.eqb_neq x sep)) by set_solver. rewrite IH by set_solver. by rewrite <-app_assoc.
Qed.

Lemma SplitByte_app s t : SplitByte (s +:+ "," +:+ t) 44 = SplitByte s 44 ++ SplitByte t 44.
Proof. unfold SplitByte. rewrite !bytes_app. change (bytes ",") with [44]. simpl. by rewrite split_bytes_app, fmap_app. Qed.

Lemma SplitByte_one s : 44 ∉ bytes s → SplitByte s 44 = [s].
Proof. intros Hs. unfold SplitByte. rewrite split_bytes_one by done. simpl. by rewrite of_bytes_bytes. Qed.

Lemma SplitByte_Join s ss :
  Forall (λ s, 44 ∉ bytes s) (s :: ss) → SplitByte (Join (s :: ss) ",") 44 = s :: ss.
Proof.
  revert s. induction ss as [|t ss IH]; intros s [Hs Hss]%Forall_cons; [by apply SplitByte_one|].
  change (Join (s :: t :: ss) ",") with (s +:+ "," +:+ Join (t :: ss) ",").
  by rewrite SplitByte_app, SplitByte_one, IH.
Qed.

Section client.
Context `{Net}.

(** An entry a proxy of the deployment wrote, or one that is no address. *)
Definition proxy_entry (trusted : list ip_net) (entry : string) : Prop :=
  44 ∉ bytes entry ∧
  match ParseIP (TrimSpace entry) with Some a => containsIP trusted a = true | None => True end.

Lemma forwarded_skip trusted proxies rest leftmost :
  Forall (proxy_entry trusted) proxies →
  ∃ leftmost', forwarded_loop trusted (proxies ++ rest) leftmost = forwarded_loop trusted rest leftmost'.
Proof.
  intros Hp. revert leftmost. induction Hp as [|e es [_ He] Hes IH]; intros leftmost; [by eexists|].
  simpl. destruct (ParseIP (TrimSpace e)); [rewrite He|]; apply IH.
Qed.

(** A client cannot choose the address it is limited under.
    Unless its connection comes from a trusted proxy its address is that of the
    connection, whatever headers it sends; behind trusted proxies it is the
    address [client] the outermost of them saw and appended, whatever forwarded
    entries the client sent before. *)
Theorem client_address trusted remote peer :
  addressIP remote = Some peer →
  (containsIP trusted peer = false → ∀ peek, ClientIP (Some remote) peek trusted = ip_string peer) ∧
  (containsIP trusted peer = true →
   ∀ peek sent client entry proxies,
     44 ∉ bytes entry → ParseIP (TrimSpace entry) = Some client → containsIP trusted client = false →
     Forall (proxy_entry trusted) proxies →
     let appended := Join (entry :: proxies) "," in
     peek "X-Forwarded-For" = appended ∨ peek "X-Forwarded-For" = sent +:+ "," +:+ appended →
     ClientIP (Some remote) peek trusted = ip_string client).
Proof.
  intros Hr. split.
  - intros Hc peek. unfold ClientIP. simpl. by rewrite Hr, Hc.
  - intros Hc peek sent client entry proxies He Hp Hu Hps appended Hx.
    assert (∃ before, SplitByte (peek "X-Forwarded-For") 44 = before ++ entry :: proxies) as [before Hs].
    { assert (SplitByte appended 44 = entry :: proxies) as Ha.
      { apply SplitByte_Join. constructor; [done|]. eapply Forall_impl; [exact Hps|]. by intros ? [? _]. }
      destruct Hx as [-> | ->]; [by exists []|]. exists (SplitByte sent 44). by rewrite SplitByte_app, Ha. }
    unfold ClientIP. simpl. rewrite Hr, Hc, Hs. simpl.
    rewrite rev_app_distr. simpl. rewrite <-!app_assoc.
    destruct (forwarded_skip trusted (rev proxies) ([entry] ++ rev before) None) as [left ->].
    { apply Forall_rev, Hps. }
    simpl. by rewrite Hp, Hu.
Qed.

End client.

(** ** A concrete instance *)

(** Addresses by name: the networks list their members. *)
Definition toy_hosts : list string := ["10.0.0.1"; "10.0.0.2"; "203.0.113.9"; "198.51.100.7"].

#[export] Instance toy_net : Net := {|
  ip := string;
  ParseIP s := if bool_decide (s ∈ toy_hosts) then Some s else None;
  ip_string s := s;
  SplitHostPort s := CutPrefix s "tcp:";
  ip_net := list string;
  net_contains n a := bool_decide (a ∈ n);
|}.

Definition toy_call (clock : Z) (subject : string) : Call :=
  MkCall clock (clock * Millisecond + 500000) "global" subject 2.

Definition toy_id : string * Z * string := ("global", 1, "203.0.113.9").

(** The third call of a window is refused; when it reaches Redis after the window,
    it is admitted. *)
Definition toy_calls : list Call :=
  [toy_call 10000 "203.0.113.9"; toy_call 10003 "198.51.100.7"; toy_call 10007 "203.0.113.9"].

Definition toy_late : Call := MkCall 20010 (10009 * Millisecond) "global" "203.0.113.9" 2.

Lemma toy_well_keyed clock subject : 0 <= clock → well_keyed (toy_call clock subject).
Proof. intros Hc. split; simpl; [unfold Millisecond; lia|vm_compute; set_solver]. Qed.

Lemma limiter_exact_witness :
  (consume "gw" (10 * Second) (toy_call 10009 "203.0.113.9")
     (consume_all "gw" (10 * Second) toy_calls ∅)).2 = Ok (false, 9990500000) ∧
  (consume "gw" (10 * Second) toy_late (consume_all "gw" (10 * Second) toy_calls ∅)).2 = Ok (true, 9991000000).
Proof.
  assert (Forall well_keyed toy_calls) as Hcs by (repeat constructor; apply toy_well_keyed; lia).
  split.
  - exact (proj1 (limiter_exact "gw" (10 * Second) ltac:(by vm_compute) toy_calls (toy_call 10009 "203.0.113.9") toy_id ∅
      Hcs ltac:(apply toy_well_keyed; lia) ltac:(by vm_compute) ltac:(reflexivity) ltac:(by vm_compute))).
  - exact (proj1 (limiter_exact "gw" (10 * Second) ltac:(by vm_compute) toy_calls toy_late toy_id ∅
      Hcs ltac:(split; simpl; [unfold Millisecond; lia|vm_compute; set_solver])
      ltac:(by vm_compute) ltac:(reflexivity) ltac:(by vm_compute))).
Defined.

Lemma client_address_witness :
  ClientIP (Some "tcp:10.0.0.1") (λ _, "198.51.100.7,203.0.113.9,10.0.0.2") [["10.0.0.1"; "10.0.0.2"]]
    = "203.0.113.9" ∧
  ClientIP (Some "tcp:198.51.100.7") (λ _, "10.0.0.2") [["10.0.0.1"; "10.0.0.2"]] = "198.51.100.7".
Proof.
  split.
  - apply (proj2 (client_address (H:=toy_net) [["10.0.0.1"; "10.0.0.2"]] "tcp:10.0.0.1" "10.0.0.1" eq_refl) eq_refl
      (λ _, "198.51.100.7,203.0.113.9,10.0.0.2") "198.51.100.7" "203.0.113.9" "203.0.113.9" ["10.0.0.2"]);
      try reflexivity; [vm_compute; set_solver| |by right].
    repeat constructor. vm_compute. set_solver.
  - exact (proj1 (client_address (H:=toy_net) [["10.0.0.1"; "10.0.0.2"]] "tcp:198.51.100.7" "198.51.100.7" eq_refl) eq_refl _).
Defined.
