(* ===== verification/GServer.v ===== *)
(** The public server of the gateway: the middlewares of
    services/gateway/internal/middleware/http.go, their order in
    internal/transport/http/server.go and the routes of biz/router/gateway.

    A handler gets [Next], which runs the rest of the chain.  The handler chain
    of the HTTP framework is a parameter ([Hertz]) with its documented laws: the
    handlers run in order, [Next] runs the pending ones, [Abort] keeps them from
    running.  The token verifier and the rate limiter are the interfaces the
    source declares ([Backends]).  Endpoints are named; what an endpoint does is
    an argument of the server, and the server records each call it makes. *)

From stdpp Require Import base gmap list sets strings.
From Stdlib Require Import ZArith Lia Ascii.
From S2P Require Import Prelude.
From S2P Require Import GoStrings.
From S2P Require Import GoText.
From S2P Require Import AppError.
From S2P Require Import AuthToken.
From S2P Require Import GResponse.
From S2P Require Import GLimit.

Open Scope Z_scope.

(** ** Endpoints and middlewares by name *)

Inductive endpoint :=
| ListMediaAttachments | CreateMediaAttachment | ListPublishedDocuments | GetEmailVerificationStatus
| RequestEmailVerification | VerifyEmail | RequestPasswordReset | ResetPassword | RevokeAllSessions
| ListSessions | Login | GetSiteProfile | Register | GetConfiguration | PutConfiguration
| GetConfigurationDelivery | DeleteMediaAttachment | GetMediaAttachment | CompleteMediaAttachment
| GetAttachmentContent | RestoreMediaAttachment | GetPublishedDocument | Logout | RefreshSession
| RevokeSession | ListDocuments | CreateDocument | ListFolders | CreateFolder | ListDeletedDocuments
| DeleteDocument | GetDocument | UpdateDocument | CreateCollaborationSession | ListCommits | CreateCommit
| ListHistory | ListMembers | AddMember | UnpublishDocument | PublishDocument | GetCommit | RenameCommit
| RestoreCommit | GetHistory | DeleteMember | UpdateMember | DeleteFolder | UpdateFolder
| PermanentlyDeleteDocument | RestoreDeletedDocument | CurrentUser | DeactivateAccount | Live | Ready.

#[export] Instance endpoint_eq_dec : EqDecision endpoint.
Proof. solve_decision. Defined.

Inductive middleware :=
| MRequireAuthenticated | MRequireAdmin | MAuthRateLimit | MActionRateLimit
| MCollaborationSessionRateLimit.

#[export] Instance middleware_eq_dec : EqDecision middleware.
Proof. solve_decision. Defined.

(** ** Routes *)

Record Route := MkRoute {
  ro_Method : string;
  ro_Path : string;
  ro_Middlewares : list middleware;
  ro_Endpoint : endpoint;
}.

#[export] Instance Route_eq_dec : EqDecision Route.
Proof. solve_decision. Defined.

(** A group of routes: its path and the middlewares of its routes. *)
Record RouterGroup := MkRouterGroup { g_Path : string; g_Middlewares : list middleware }.

(** [group.Group(path, mws...)] *)
Definition Group (g : RouterGroup) (path : string) (mws : list middleware) : RouterGroup :=
  MkRouterGroup (g_Path g +:+ path) (g_Middlewares g ++ mws).

(** [group.GET(path, append(mws, endpoint)...)] and the like *)
Definition Handle (g : RouterGroup) (method path : string) (mws : list middleware) (e : endpoint) : Route :=
  MkRoute method (g_Path g +:+ path) (g_Middlewares g ++ mws) e.

Definition _studioMw : list middleware := [MRequireAuthenticated].
Definition _loginMw : list middleware := [MAuthRateLimit].
Definition _registerMw : list middleware := [MAuthRateLimit].
Definition _currentuserMw : list middleware := [MRequireAuthenticated].
Definition _createcollaborationsessionMw : list middleware := [MCollaborationSessionRateLimit].
Definition _requestemailverificationMw : list middleware := [MRequireAuthenticated; MActionRateLimit].
Definition _verifyemailMw : list middleware := [MActionRateLimit].
Definition _requestpasswordresetMw : list middleware := [MActionRateLimit].
Definition _resetpasswordMw : list middleware := [MActionRateLimit].
Definition _revokeallsessionsMw : list middleware := [MRequireAuthenticated].
Definition _listsessionsMw : list middleware := [MRequireAuthenticated].
Definition _logoutMw : list middleware := [MRequireAuthenticated].
Definition _revokesessionMw : list middleware := [MRequireAuthenticated].
Definition _deactivateaccountMw : list middleware := [MRequireAuthenticated].
Definition _listmediaattachmentsMw : list middleware := [MRequireAuthenticated].
Definition _createmediaattachmentMw : list middleware := [MRequireAuthenticated].
Definition _deletemediaattachmentMw : list middleware := [MRequireAuthenticated].
Definition _getmediaattachmentMw : list middleware := [MRequireAuthenticated].
Definition _completemediaattachmentMw : list middleware := [MRequireAuthenticated].
Definition _restoremediaattachmentMw : list middleware := [MRequireAuthenticated].
Definition _getconfigurationMw : list middleware := [MRequireAuthenticated; MRequireAdmin].
Definition _putconfigurationMw : list middleware := [MRequireAuthenticated; MRequireAdmin].
Definition _getconfigurationdeliveryMw : list middleware := [MRequireAuthenticated; MRequireAdmin].
Definition _getemailverificationstatusMw : list middleware := [MRequireAuthenticated; MActionRateLimit].

(** [Register] of biz/router/gateway/gateway.go.  The middleware functions that
    return nil are written [[]]; joining a path to the root group [/] leaves it
    as it is. *)
Definition RegisterRoutes : list Route :=
  let root := MkRouterGroup EmptyString [] in
  let _api := Group root "/api" [] in
  let _v1 := Group _api "/v1" [] in
  let _admin := Group _v1 "/admin" [] in
  let _configuration := Group _admin "/configuration" [] in
  let _namespace := Group _configuration "/:namespace" [] in
  let _deliveries := Group _namespace "/deliveries" [] in
  let _attachments := Group _v1 "/attachments" [] in
  let _attachment_id := Group _attachments "/:attachment_id" [] in
  let _documents := Group _v1 "/documents" [] in
  let _sessions := Group _v1 "/sessions" [] in
  let _studio := Group _v1 "/studio" _studioMw in
  let _documents0 := Group _studio "/documents" [] in
  let _document_id := Group _documents0 "/:document_id" [] in
  let _commits := Group _document_id "/commits" [] in
  let _commit_id := Group _commits "/:commit_id" [] in
  let _history := Group _document_id "/history" [] in
  let _members := Group _document_id "/members" [] in
  let _folders := Group _studio "/folders" [] in
  let _trash := Group _studio "/trash" [] in
  let _document_id0 := Group _trash "/:document_id" [] in
  let _users := Group _v1 "/users" [] in
  let _me := Group _users "/me" [] in
  let _health := Group root "/health" [] in
  [ Handle _v1 "GET" "/attachments" _listmediaattachmentsMw ListMediaAttachments;
    Handle _v1 "POST" "/attachments" _createmediaattachmentMw CreateMediaAttachment;
    Handle _v1 "GET" "/documents" [] ListPublishedDocuments;
    Handle _v1 "GET" "/email-verification-requests" _getemailverificationstatusMw GetEmailVerificationStatus;
    Handle _v1 "POST" "/email-verification-requests" _requestemailverificationMw RequestEmailVerification;
    Handle _v1 "POST" "/email-verifications" _verifyemailMw VerifyEmail;
    Handle _v1 "POST" "/password-reset-requests" _requestpasswordresetMw RequestPasswordReset;
    Handle _v1 "POST" "/password-resets" _resetpasswordMw ResetPassword;
    Handle _v1 "DELETE" "/sessions" _revokeallsessionsMw RevokeAllSessions;
    Handle _v1 "GET" "/sessions" _listsessionsMw ListSessions;
    Handle _v1 "POST" "/sessions" _loginMw Login;
    Handle _v1 "GET" "/site-profile" [] GetSiteProfile;
    Handle _v1 "POST" "/users" _registerMw Register;
    Handle _configuration "GET" "/:namespace" _getconfigurationMw GetConfiguration;
    Handle _configuration "PUT" "/:namespace" _putconfigurationMw PutConfiguration;
    Handle _deliveries "GET" "/:revision" _getconfigurationdeliveryMw GetConfigurationDelivery;
    Handle _attachments "DELETE" "/:attachment_id" _deletemediaattachmentMw DeleteMediaAttachment;
    Handle _attachments "GET" "/:attachment_id" _getmediaattachmentMw GetMediaAttachment;
    Handle _attachment_id "POST" "/complete" _completemediaattachmentMw CompleteMediaAttachment;
    Handle _attachment_id "GET" "/content" [] GetAttachmentContent;
    Handle _attachment_id "POST" "/restore" _restoremediaattachmentMw RestoreMediaAttachment;
    Handle _documents "GET" "/:slug" [] GetPublishedDocument;
    Handle _sessions "DELETE" "/current" _logoutMw Logout;
    Handle _sessions "POST" "/refresh" [] RefreshSession;
    Handle _sessions "DELETE" "/:session_id" _revokesessionMw RevokeSession;
    Handle _studio "GET" "/documents" [] ListDocuments;
    Handle _studio "POST" "/documents" [] CreateDocument;
    Handle _studio "GET" "/folders" [] ListFolders;
    Handle _studio "POST" "/folders" [] CreateFolder;
    Handle _studio "GET" "/trash" [] ListDeletedDocuments;
    Handle _documents0 "DELETE" "/:document_id" [] DeleteDocument;
    Handle _documents0 "GET" "/:document_id" [] GetDocument;
    Handle _documents0 "PATCH" "/:document_id" [] UpdateDocument;
    Handle _document_id "POST" "/collaboration-sessions" _createcollaborationsessionMw CreateCollaborationSession;
    Handle _document_id "GET" "/commits" [] ListCommits;
    Handle _document_id "POST" "/commits" [] CreateCommit;
    Handle _document_id "GET" "/history" [] ListHistory;
    Handle _document_id "GET" "/members" [] ListMembers;
    Handle _document_id "POST" "/members" [] AddMember;
    Handle _document_id "DELETE" "/publication" [] UnpublishDocument;
    Handle _document_id "PUT" "/publication" [] PublishDocument;
    Handle _commits "GET" "/:commit_id" [] GetCommit;
    Handle _commits "PATCH" "/:commit_id" [] RenameCommit;
    Handle _commit_id "POST" "/restore" [] RestoreCommit;
    Handle _history "GET" "/:revision_id" [] GetHistory;
    Handle _members "DELETE" "/:user_id" [] DeleteMember;
    Handle _members "PATCH" "/:user_id" [] UpdateMember;
    Handle _folders "DELETE" "/:folder_id" [] DeleteFolder;
    Handle _folders "PATCH" "/:folder_id" [] UpdateFolder;
    Handle _trash "DELETE" "/:document_id" [] PermanentlyDeleteDocument;
    Handle _document_id0 "POST" "/restore" [] RestoreDeletedDocument;
    Handle _users "GET" "/me" _currentuserMw CurrentUser;
    Handle _me "POST" "/deactivation" _deactivateaccountMw DeactivateAccount;
    Handle _health "GET" "/live" [] Live;
    Handle _health "GET" "/ready" [] Ready ].

(** ** The chain *)

(** Configuration in force: allowed origins, trusted proxies and limits, as
    [Dynamic] returns them, whether the server is behind TLS and whether
    health checks are logged. *)
Record RateLimitOptions := MkRateLimitOptions { rl_Window : Z; rl_GlobalLimit : Z; rl_AuthLimit : Z }.

Record Dependencies `{Net} := MkDependencies {
  dp_AllowedOrigins : list string;
  dp_TrustedProxies : list ip_net;
  dp_RateLimit : RateLimitOptions;
  dp_Secure : bool;
  dp_HealthCheckRequests : bool;
}.

Arguments MkDependencies {_} _ _ _ _ _.

(** What arrives: method, matched path (empty without one), headers by name,
    peer address; the time, and the request identifier that would be drawn. *)
Record Incoming := MkIncoming {
  in_Method : string;
  in_FullPath : string;
  in_PeekAll : string → list string;
  in_RemoteAddr : option string;
  in_Now : Z;
  in_Fresh : string;
}.

(** [request.GetHeader]: the first value, empty when there is none. *)
Definition peek (inc : Incoming) (name : string) : string := default EmptyString (head (in_PeekAll inc name)).

(** [Verifier.Verify] and [Limiter.Consume]; [None] is an error. *)
Class Backends := {
  limiter : Type;
  Verifier_Verify : string → option Principal;
  Limiter_Consume : string → string → Z → Z → Z → limiter → limiter * option (bool * Z);
}.

(** A call of an endpoint: with which context and which request state. *)
Record Served := MkServed { s_Endpoint : endpoint; s_Context : Context_; s_Exchange : Exchange }.

Record World `{Backends} := MkWorld { w_Exchange : Exchange; w_Limiter : limiter; w_Served : list Served }.

Arguments MkWorld {_} _ _ _.

Definition panic : Type := string.

Notation chain := (tx World panic).

(** A handler, given [request.Next]. *)
Definition handler `{Backends} : Type := (Context_ → chain unit) → Context_ → chain unit.

Definition on_exchange `{Backends} (f : Exchange → Exchange) (w : World) : World :=
  MkWorld (f (w_Exchange w)) (w_Limiter w) (w_Served w).

Definition update `{Backends} (f : Exchange → Exchange) : chain unit := modify (on_exchange f).

(** [run_chain hs ctx] is [Next] with the handlers [hs] pending. *)
Class Hertz `{Backends} := {
  run_chain : list handler → Context_ → chain unit;
  run_stopped hs ctx w : x_Pending (w_Exchange w) = false → run_chain hs ctx w = (w, Ok tt);
  run_nil ctx w : run_chain [] ctx w = (w, Ok tt);
  run_cons h hs ctx w :
    x_Pending (w_Exchange w) = true →
    run_chain (h :: hs) ctx w =
    (h (λ ctx, run_chain hs ctx ≫= λ _, update (set_Pending false)) ctx ≫= λ _, run_chain hs ctx) w;
}.

Section middlewares.
Context `{Unicode, ProblemCodec, Net, Backends}.
Variables (dep : Dependencies) (inc : Incoming).

Notation skip := (mret tt : chain unit).

(** [WriteError(ctx, request, e)] *)
Definition refuse (ctx : Context_) (re : ResponseError) : chain unit :=
  update (WriteError (in_Fresh inc) ctx re).

(** [FromRequest(request)] finds the dependencies once [Inject] stored them. *)
Definition from_request (missing : chain unit) (k : chain unit) : chain unit :=
  gets (λ w : World, x_Dependencies (w_Exchange w)) ≫= λ found : bool, if found then k else missing.

Definition stored_principal (x : Exchange) : option Principal :=
  match x_Principal x with
  | Some p => if 0 <? pr_UserID p then Some p else None
  | None => None
  end.

Definition stored_token (x : Exchange) : option string :=
  match x_AccessToken x with
  | Some t => if bool_decide (t = EmptyString) then None else Some t
  | None => None
  end.

(** [coretrace.HertzServerMiddleware]: the request identifier of the caller, or
    a drawn one; [c_TraceID] of the incoming context stands for the span. *)
Definition TraceMiddleware : handler := λ next ctx,
  let ctx := WithRequestID ctx (TrimSpace (peek inc RequestIDHeader)) in
  let ctx := EnsureRequestID (in_Fresh inc) ctx in
  update (Header RequestIDHeader (c_RequestID ctx)) ≫= λ _,
  (if bool_decide (c_TraceID ctx = EmptyString) then skip
   else update (Header TraceIDHeader (c_TraceID ctx))) ≫= λ _,
  next ctx.

Definition Inject : handler := λ next ctx, update (set_Dependencies true) ≫= λ _, next ctx.

Definition Recovery : handler := λ next ctx,
  recovered ← (attempt (next ctx) : chain (result panic unit));
  match recovered with
  | Ok _ => skip
  | Err _ => refuse ctx ErrInternal
  end.

(** [ClientIP(request, trustedProxies)], which also stores the peer address. *)
Definition client_ip : chain string :=
  match in_RemoteAddr inc ≫= addressIP with
  | None => mret "unknown"
  | Some peer =>
    update (set_ClientIP (ip_string peer)) ≫= λ _,
    mret (ClientIP (in_RemoteAddr inc) (peek inc) (dp_TrustedProxies dep))
  end.

(** A health check that succeeded and is not to be logged. *)
Definition unlogged (x : Exchange) : bool :=
  (200 <=? x_Status x) && (x_Status x <? 300) &&
  (bool_decide (in_FullPath inc = "/health/live") || bool_decide (in_FullPath inc = "/health/ready")) &&
  negb (dp_HealthCheckRequests dep).

(** The log record itself is left out; writing it asks for the client address. *)
Definition AccessLog : handler := λ next ctx,
  next ctx ≫= λ _,
  from_request skip
    (gets (λ w : World, unlogged (w_Exchange w)) ≫= λ quiet : bool,
     if quiet then skip else client_ip ≫= λ _, skip).

Definition SecurityHeaders : handler := λ next ctx,
  update (Header "Content-Security-Policy" "default-src 'none'; frame-ancestors 'none'") ≫= λ _,
  update (Header "Permissions-Policy" "camera=(), geolocation=(), microphone=()") ≫= λ _,
  update (Header "Referrer-Policy" "no-referrer") ≫= λ _,
  update (Header "X-Content-Type-Options" "nosniff") ≫= λ _,
  update (Header "X-Frame-Options" "DENY") ≫= λ _,
  from_request skip
    (if dp_Secure dep then update (Header "Strict-Transport-Security" "max-age=31536000; includeSubDomains")
     else skip) ≫= λ _,
  next ctx.

Definition preflight : bool :=
  bool_decide (in_Method inc = "OPTIONS") && negb (bool_decide (in_PeekAll inc "Access-Control-Request-Method" = [])).

Definition CORS : handler := λ next ctx,
  match in_PeekAll inc "Origin" with
  | [] => next ctx
  | [origin] =>
    if negb (bool_decide (TrimSpace origin = origin)) || bool_decide (origin = EmptyString)
    then refuse ctx ErrInvalidRequest
    else
      from_request (refuse ctx ErrInternal)
        (if negb (bool_decide (origin ∈ dp_AllowedOrigins dep)) then refuse ctx ErrPermissionDenied
         else
           update (Header "Access-Control-Allow-Origin" origin) ≫= λ _,
           update (Header "Access-Control-Expose-Headers" "ETag, Location, X-Request-ID, X-Trace-ID") ≫= λ _,
           update (Header "Vary" "Origin") ≫= λ _,
           if preflight
           then
             update (Header "Access-Control-Allow-Headers" "Authorization, Content-Type, Idempotency-Key, If-Match, X-Confirm-Permanent-Delete, X-Request-ID, traceparent, tracestate") ≫= λ _,
             update (Header "Access-Control-Allow-Methods" "GET, POST, PUT, PATCH, DELETE, OPTIONS") ≫= λ _,
             update (Header "Access-Control-Max-Age" "600") ≫= λ _,
             update Abort ≫= λ _,
             update (Status 204)
           else next ctx)
  | _ => refuse ctx ErrInvalidRequest
  end.

(** [strings.Cut(header, " ")] *)
Fixpoint cut_space (bs : list Z) : option (list Z * list Z) :=
  match bs with
  | [] => None
  | b :: bs' =>
    if b =? 32 then Some ([], bs')
    else match cut_space bs' with Some (l, r) => Some (b :: l, r) | None => None end
  end.

(** The token of an Authorization header. *)
Definition bearer_token (header : string) : option string :=
  match cut_space (bytes header) with
  | None => None
  | Some (scheme, token) =>
    let token := of_bytes token in
    if negb (EqualFold (of_bytes scheme) "Bearer") || bool_decide (token = EmptyString)
       || ContainsAny token [32; 9; 13; 10] || (MaxTokenLength <? len token)
    then None else Some token
  end.

Definition unauthenticated (ctx : Context_) : chain unit :=
  update (Header "WWW-Authenticate" "Bearer") ≫= λ _, refuse ctx ErrAuthenticationRequired.

Definition OptionalAuthentication : handler := λ next ctx,
  match in_PeekAll inc "Authorization" with
  | [] => next ctx
  | [header] =>
    match bearer_token header with
    | None => unauthenticated ctx
    | Some token =>
      from_request (refuse ctx ErrInternal)
        (match Verifier_Verify token with
         | None => unauthenticated ctx
         | Some principal =>
           update (set_Principal principal token) ≫= λ _,
           next (WithUserID ctx (pr_UserID principal))
         end)
    end
  | _ => unauthenticated ctx
  end.

Definition RequireAuthenticated : handler := λ next ctx,
  p ← (gets (λ w : World, stored_principal (w_Exchange w)) : chain (option Principal));
  match p with None => unauthenticated ctx | Some _ => next ctx end.

Definition RequireAdmin : handler := λ next ctx,
  p ← (gets (λ w : World, stored_principal (w_Exchange w)) : chain (option Principal));
  match p with
  | None => refuse ctx ErrAuthenticationRequired
  | Some principal =>
    if negb (bool_decide (pr_Role principal = "admin")) then refuse ctx ErrPermissionDenied else next ctx
  end.

(** Seconds until a retry, rounded up, at least one. *)
Definition retry_seconds (retryAfter : Z) : Z := Z.max 1 (Z.quot (retryAfter + Second - 1) Second).

Definition consumeRateLimit (ctx : Context_) (scope subject : string) (limit : Z) : chain bool :=
  w ← (gets id : chain World);
  let '(l, answer) :=
    Limiter_Consume scope subject (in_Now inc) (rl_Window (dp_RateLimit dep)) limit (w_Limiter w) in
  modify (λ w, MkWorld (w_Exchange w) l (w_Served w)) ≫= λ _,
  match answer with
  | None => refuse ctx ErrDependencyUnavailable ≫= λ _, mret false
  | Some (true, _) => mret true
  | Some (false, retryAfter) =>
    update (Header "Retry-After" (FormatInt (retry_seconds retryAfter))) ≫= λ _,
    refuse ctx ErrRateLimited ≫= λ _, mret false
  end.

Definition rateLimit (scope : string) (limit : RateLimitOptions → Z) : handler := λ next ctx,
  from_request (refuse ctx ErrInternal)
    (subject ← client_ip;
     allowed ← consumeRateLimit ctx scope subject (limit (dp_RateLimit dep));
     if (allowed : bool) then next ctx else skip).

Definition GlobalRateLimit : handler := rateLimit "global" rl_GlobalLimit.
Definition AuthRateLimit : handler := rateLimit "auth" rl_AuthLimit.
Definition ActionRateLimit : handler := rateLimit "auth_action" rl_AuthLimit.

Definition CollaborationSessionRateLimit : handler := λ next ctx,
  from_request (refuse ctx ErrInternal)
    (p ← (gets (λ w : World, stored_principal (w_Exchange w)) : chain (option Principal));
     match p with
     | None => refuse ctx ErrInternal
     | Some principal =>
       subject ← client_ip;
       allowed ← consumeRateLimit ctx "collaboration_session_ip" subject (rl_AuthLimit (dp_RateLimit dep));
       if (allowed : bool) then
         allowed ← consumeRateLimit ctx "collaboration_session_user"
                     ("user:" +:+ FormatInt (pr_UserID principal)) (rl_AuthLimit (dp_RateLimit dep));
         if (allowed : bool) then next ctx else skip
       else skip
     end).

Definition denote (m : middleware) : handler :=
  match m with
  | MRequireAuthenticated => RequireAuthenticated
  | MRequireAdmin => RequireAdmin
  | MAuthRateLimit => AuthRateLimit
  | MActionRateLimit => ActionRateLimit
  | MCollaborationSessionRateLimit => CollaborationSessionRateLimit
  end.

(** The endpoint: the call is recorded, then it runs. *)
Definition call_endpoint (serve : endpoint → Context_ → tx Exchange panic unit) (e : endpoint) : handler :=
  λ next ctx w,
  let w := MkWorld (w_Exchange w) (w_Limiter w) (w_Served w ++ [MkServed e ctx (w_Exchange w)]) in
  let '(x, r) := serve e ctx (w_Exchange w) in
  (MkWorld x (w_Limiter w) (w_Served w), r).

(** The handlers of every request; the one that counts requests is left out. *)
Definition server_middlewares : list handler :=
  [TraceMiddleware; Inject; Recovery; AccessLog; SecurityHeaders; CORS; GlobalRateLimit; OptionalAuthentication].

(** The chain of a matched route; without one the request ends in [NoRoute] or
    [NoMethod]. *)
Definition handle_route `{!Hertz} (serve : endpoint → Context_ → tx Exchange panic unit) (r : Route)
  : Context_ → chain unit :=
  run_chain (server_middlewares ++ (denote <$> ro_Middlewares r) ++ [call_endpoint serve (ro_Endpoint r)]).

Definition NoRoute : handler := λ next ctx, refuse ctx ErrRouteNotFound.
Definition NoMethod : handler := λ next ctx, refuse ctx ErrMethodNotAllowed.

End middlewares.

(** The state a request starts in. *)
Definition new_exchange : Exchange := MkExchange true false None None None ∅ 200 None.

(** The chain of the framework, as a function. *)
Fixpoint chain_run `{Backends} (hs : list handler) (ctx : Context_) : chain unit := λ w,
  if negb (x_Pending (w_Exchange w)) then (w, Ok tt)
  else match hs with
       | [] => (w, Ok tt)
       | h :: hs' =>
         (h (λ ctx, chain_run hs' ctx ≫= λ _, update (set_Pending false)) ctx ≫= λ _, chain_run hs' ctx) w
       end.

#[export] Instance chain_hertz `{Backends} : Hertz.
Proof.
  refine {| run_chain := chain_run |}.
  - intros hs ctx w Hp. by destruct hs; simpl; rewrite Hp.
  - intros ctx w. simpl. by destruct (x_Pending _).
  - intros h hs ctx w Hp. simpl. by rewrite Hp.
Defined.
