(* ===== verification/GServerFacts.v ===== *)
(** What the public server of the gateway promises: which requests reach an
    endpoint, and with which principal. *)

From stdpp Require Import base gmap list sets strings.
From Stdlib Require Import ZArith Lia Ascii.
From S2P Require Import Prelude.
From S2P Require Import GoStrings.
From S2P Require Import GoText.
From S2P Require Import AppError.
From S2P Require Import AuthToken.
From S2P Require Import GResponse.
From S2P Require Import GLimit.
From S2P Require Import GServer.

Open Scope Z_scope.

Section chain_facts.
Context `{Unicode, ProblemCodec, Net, Backends, !Hertz}.

Definition pending (w : World) : bool := x_Pending (w_Exchange w).

(** The handler does its work and runs the rest of the chain last. *)
Definition passes (h : handler) (ctx : Context_) (w : World) (ctx' : Context_) (w' : World) : Prop :=
  ∀ next, h next ctx w = next ctx' w'.

(** The handler answers the request itself and aborts the chain. *)
Definition stops (h : handler) (ctx : Context_) (w : World) : Prop :=
  ∃ w', (∀ next, h next ctx w = (w', Ok tt)) ∧ pending w' = false ∧ w_Served w' = w_Served w.

(** The calls a run makes. *)
Definition calls (m : chain unit) (w : World) : list Served := w_Served (m w).1.

(** After [Next] no handler is pending. *)
Lemma next_then_rest hs ctx ctx' w :
  ((run_chain hs ctx' ≫= λ _, update (set_Pending false)) ≫= λ _, run_chain hs ctx) w =
  (run_chain hs ctx' ≫= λ _, update (set_Pending false)) w.
Proof.
  cbv [mbind tx_bind]. destruct (run_chain hs ctx' w) as [w1 [[]|e]]; [|done].
  cbv [update modify on_exchange]. by rewrite run_stopped.
Qed.

Lemma next_calls hs ctx w :
  w_Served ((run_chain hs ctx ≫= λ _, update (set_Pending false)) w).1 = calls (run_chain hs ctx) w.
Proof. cbv [mbind tx_bind calls]. by destruct (run_chain hs ctx w) as [w1 [[]|e]]. Qed.

Lemma run_pass h hs ctx w ctx' w' :
  pending w = true → passes h ctx w ctx' w' →
  run_chain (h :: hs) ctx w = (run_chain hs ctx' ≫= λ _, update (set_Pending false)) w'.
Proof.
  intros Hp Hh. rewrite run_cons by done. rewrite <-(next_then_rest hs ctx ctx' w').
  cbv [mbind tx_bind]. by rewrite (Hh (λ ctx, _)).
Qed.

Lemma calls_pass h hs ctx w ctx' w' :
  pending w = true → passes h ctx w ctx' w' →
  calls (run_chain (h :: hs) ctx) w = calls (run_chain hs ctx') w'.
Proof. intros Hp Hh. unfold calls at 1. by rewrite (run_pass h hs ctx w ctx' w'), next_calls. Qed.

Lemma calls_stop h hs ctx w :
  pending w = true → stops h ctx w → calls (run_chain (h :: hs) ctx) w = w_Served w.
Proof.
  intros Hp (w' & Hh & Hp' & Hs). unfold calls. rewrite run_cons by done.
  cbv [mbind tx_bind]. by rewrite Hh, run_stopped.
Qed.

Variables (dep : Dependencies) (inc : Incoming).

Lemma WriteError_stops fresh ctx re x : x_Pending (WriteError fresh ctx re x) = false.
Proof.
  unfold WriteError, responseMetadata, writeProblem. repeat case_match; simplify_eq; done.
Qed.

Lemma refuse_run ctx re w :
  ∃ w', refuse inc ctx re w = (w', Ok tt) ∧ pending w' = false ∧ w_Served w' = w_Served w.
Proof. eexists. split; [done|]. split; [apply WriteError_stops|done]. Qed.

(** What the handlers before the endpoint leave of the state they found. *)
Record state_is (injected : bool) (principal : option Principal) (token : option string) (l : limiter)
  (w : World) : Prop := MkStateIs {
  si_pending : pending w = true;
  si_injected : x_Dependencies (w_Exchange w) = injected;
  si_principal : x_Principal (w_Exchange w) = principal;
  si_token : x_AccessToken (w_Exchange w) = token;
  si_limiter : w_Limiter w = l;
  si_served : w_Served w = [];
}.

(** A change of the response or of the stored peer address. *)
Definition quiet (f : Exchange → Exchange) : Prop :=
  ∀ x, x_Pending (f x) = x_Pending x ∧ x_Dependencies (f x) = x_Dependencies x ∧
       x_Principal (f x) = x_Principal x ∧ x_AccessToken (f x) = x_AccessToken x.

Lemma quiet_Header key value : quiet (Header key value).
Proof. done. Qed.

Lemma quiet_ClientIP a : quiet (set_ClientIP a).
Proof. done. Qed.

Lemma state_quiet f i p t l w : quiet f → state_is i p t l w → state_is i p t l (on_exchange f w).
Proof.
  intros Hf []. destruct (Hf (w_Exchange w)) as (? & ? & ? & ?). unfold pending in *.
  split; simpl; unfold pending; simpl; congruence.
Qed.

Lemma client_ip_run i p t l w :
  state_is i p t l w →
  ∃ w', client_ip dep inc w = (w', Ok (ClientIP (in_RemoteAddr inc) (peek inc) (dp_TrustedProxies dep))) ∧
        state_is i p t l w'.
Proof.
  intros Hw. unfold client_ip, ClientIP. destruct (in_RemoteAddr inc ≫= addressIP) as [peer|].
  - exists (on_exchange (set_ClientIP (ip_string peer)) w). split; [done|].
    apply state_quiet; [apply quiet_ClientIP|done].
  - exists w. done.
Qed.

(** ** The conditions of admission *)

(** The caller of a request: the token and its principal, if it carries one. *)
Notation caller := (option (string * Principal)).

Definition user_of (c : caller) : option Principal :=
  match c with
  | Some (_, p) => if 0 <? pr_UserID p then Some p else None
  | None => None
  end.

(** No Authorization header, or one bearer token that verifies. *)
Definition credentials : option caller :=
  match in_PeekAll inc "Authorization" with
  | [] => Some None
  | [header] => token ← bearer_token header; p ← Verifier_Verify token; Some (Some (token, p))
  | _ => None
  end.

(** No Origin header, or one allowed origin on a request that is no preflight. *)
Definition origin_ok : bool :=
  match in_PeekAll inc "Origin" with
  | [] => true
  | [origin] =>
    bool_decide (TrimSpace origin = origin) && negb (bool_decide (origin = EmptyString)) &&
    bool_decide (origin ∈ dp_AllowedOrigins dep) && negb (preflight inc)
  | _ => false
  end.

Definition client_address_of : string := ClientIP (in_RemoteAddr inc) (peek inc) (dp_TrustedProxies dep).

(** The limiter admits a request, and its state then. *)
Definition admits (scope subject : string) (limit : Z) (l : limiter) : option limiter :=
  match Limiter_Consume scope subject (in_Now inc) (rl_Window (dp_RateLimit dep)) limit l with
  | (l', Some (true, _)) => Some l'
  | _ => None
  end.

Definition guard (m : middleware) (c : caller) (l : limiter) : option limiter :=
  let auth := rl_AuthLimit (dp_RateLimit dep) in
  match m with
  | MRequireAuthenticated => if is_some (user_of c) then Some l else None
  | MRequireAdmin => p ← user_of c; if bool_decide (pr_Role p = "admin") then Some l else None
  | MAuthRateLimit => admits "auth" client_address_of auth l
  | MActionRateLimit => admits "auth_action" client_address_of auth l
  | MCollaborationSessionRateLimit =>
    p ← user_of c; l ← admits "collaboration_session_ip" client_address_of auth l;
    admits "collaboration_session_user" ("user:" +:+ FormatInt (pr_UserID p)) auth l
  end.

Fixpoint guards (ms : list middleware) (c : caller) (l : limiter) : option limiter :=
  match ms with [] => Some l | m :: ms' => l ← guard m c l; guards ms' c l end.

(** The caller a route admits. *)
Definition admission (r : Route) (l : limiter) : option caller :=
  if origin_ok then
    l ← admits "global" client_address_of (rl_GlobalLimit (dp_RateLimit dep)) l;
    c ← credentials; _ ← guards (ro_Middlewares r) c l; Some c
  else None.

(** ** Each handler *)

(** The answer of [lem] ends the request. *)
Ltac stop_with lem :=
  let w' := fresh "w" in let E := fresh "E" in
  destruct lem as (w' & E & ?); exists w'; split; [intros _; exact E|assumption].

Notation known c l := (state_is true (snd <$> c) (fst <$> c) l).

Lemma stored_user c l w : known c l w → stored_principal (w_Exchange w) = user_of c.
Proof. intros []. unfold stored_principal, user_of. rewrite si_principal0. by destruct c as [[]|]. Qed.

Lemma unauthenticated_stops ctx w :
  ∃ w', unauthenticated inc ctx w = (w', Ok tt) ∧ pending w' = false ∧ w_Served w' = w_Served w.
Proof. eexists. split; [done|]. split; [apply WriteError_stops|done]. Qed.

Lemma limiter_run ctx scope subject limit i p t l w :
  state_is i p t l w →
  match admits scope subject limit l with
  | Some l' => ∃ w', consumeRateLimit dep inc ctx scope subject limit w = (w', Ok true) ∧ state_is i p t l' w'
  | None => ∃ w', consumeRateLimit dep inc ctx scope subject limit w = (w', Ok false) ∧
                  pending w' = false ∧ w_Served w' = w_Served w
  end.
Proof.
  intros []. subst l. unfold admits, consumeRateLimit. cbv [mbind tx_bind gets id].
  destruct (Limiter_Consume _ _ _ _ _ _) as [l' [[[] d]|]].
  - eexists. split; [done|]. by split.
  - eexists. split; [done|]. split; [apply WriteError_stops|done].
  - eexists. split; [done|]. split; [apply WriteError_stops|done].
Qed.

Lemma rateLimit_run scope limit ctx p t l w :
  state_is true p t l w →
  match admits scope client_address_of (limit (dp_RateLimit dep)) l with
  | Some l' => ∃ w', passes (rateLimit dep inc scope limit) ctx w ctx w' ∧ state_is true p t l' w'
  | None => stops (rateLimit dep inc scope limit) ctx w
  end.
Proof.
  intros Hw. destruct (client_ip_run _ _ _ _ _ Hw) as (w1 & E1 & J1).
  pose proof (limiter_run ctx scope client_address_of (limit (dp_RateLimit dep)) _ _ _ _ _ J1) as Hc.
  pose proof (si_injected _ _ _ _ _ Hw) as Hi.
  destruct (admits _ _ _ l) as [l'|]; destruct Hc as (w2 & E2 & J2); [exists w2; split; [|done]|exists w2].
  - intros next. unfold rateLimit, from_request. cbv [mbind tx_bind gets]. rewrite Hi, E1.
    fold client_address_of. by rewrite E2.
  - split; [|destruct J2 as [? ->]; split; [done|]; destruct J1, Hw; congruence].
    intros next. unfold rateLimit, from_request. cbv [mbind tx_bind gets]. rewrite Hi, E1.
    fold client_address_of. by rewrite E2.
Qed.

Lemma collaboration_run ctx c l w :
  known c l w →
  match guard MCollaborationSessionRateLimit c l with
  | Some l' => ∃ w', passes (CollaborationSessionRateLimit dep inc) ctx w ctx w' ∧ known c l' w'
  | None => stops (CollaborationSessionRateLimit dep inc) ctx w
  end.
Proof.
  intros Hw. pose proof (stored_user _ _ _ Hw) as Hu. pose proof (si_injected _ _ _ _ _ Hw) as Hi.
  simpl. unfold passes, stops, CollaborationSessionRateLimit, from_request. cbv [mbind tx_bind gets].
  rewrite Hi, Hu. destruct (user_of c) as [u|]; simpl; [|stop_with (refuse_run ctx ErrInternal w)].
  destruct (client_ip_run _ _ _ _ _ Hw) as (w1 & E1 & J1). rewrite E1. fold client_address_of.
  pose proof (limiter_run ctx "collaboration_session_ip" client_address_of
    (rl_AuthLimit (dp_RateLimit dep)) _ _ _ _ _ J1) as Hc.
  destruct (admits _ _ _ l) as [l2|]; destruct Hc as (w2 & -> & J2); simpl.
  2:{ exists w2. split; [done|]. destruct J2 as [? ->]. split; [done|]. destruct J1, Hw; congruence. }
  pose proof (limiter_run ctx "collaboration_session_user" ("user:" +:+ FormatInt (pr_UserID u))
    (rl_AuthLimit (dp_RateLimit dep)) _ _ _ _ _ J2) as Hc.
  destruct (admits _ _ _ l2) as [l3|]; destruct Hc as (w3 & -> & J3); [by exists w3|].
  exists w3. split; [done|]. destruct J3 as [? ->]. split; [done|]. destruct J2, Hw; congruence.
Qed.

Lemma middleware_run m ctx c l w :
  known c l w →
  match guard m c l with
  | Some l' => ∃ w', passes (denote dep inc m) ctx w ctx w' ∧ known c l' w'
  | None => stops (denote dep inc m) ctx w
  end.
Proof.
  intros Hw. pose proof (stored_user _ _ _ Hw) as Hu. destruct m; simpl.
  - unfold passes, stops, RequireAuthenticated. cbv [mbind tx_bind gets]. rewrite Hu.
    destruct (user_of c); simpl; [by exists w|stop_with (unauthenticated_stops ctx w)].
  - unfold passes, stops, RequireAdmin. cbv [mbind tx_bind gets option_bind]. rewrite Hu.
    destruct (user_of c); simpl; [|stop_with (refuse_run ctx ErrAuthenticationRequired w)].
    case_bool_decide; simpl; [by exists w|stop_with (refuse_run ctx ErrPermissionDenied w)].
  - by apply (rateLimit_run "auth" rl_AuthLimit).
  - by apply (rateLimit_run "auth_action" rl_AuthLimit).
  - by apply collaboration_run.
Qed.

(** The context an endpoint is called with. *)
Definition traced (ctx : Context_) : Context_ :=
  EnsureRequestID (in_Fresh inc) (WithRequestID ctx (TrimSpace (peek inc RequestIDHeader))).

Definition endpoint_context (ctx : Context_) (c : caller) : Context_ :=
  match c with Some (_, p) => WithUserID (traced ctx) (pr_UserID p) | None => traced ctx end.

Lemma TraceMiddleware_run i p t l ctx w :
  state_is i p t l w →
  ∃ w', passes (TraceMiddleware inc) ctx w (traced ctx) w' ∧ state_is i p t l w'.
Proof.
  intros Hw. unfold passes, TraceMiddleware. cbv [mbind tx_bind]. fold (traced ctx).
  case_bool_decide; eexists; (split; [intros next; reflexivity|]); repeat apply state_quiet; done.
Qed.

Lemma Inject_run i p t l ctx w :
  state_is i p t l w → ∃ w', passes Inject ctx w ctx w' ∧ state_is true p t l w'.
Proof. intros []. eexists. split; [intros next; reflexivity|]. by split. Qed.

Lemma SecurityHeaders_run p t l ctx w :
  state_is true p t l w →
  ∃ w', passes (SecurityHeaders dep) ctx w ctx w' ∧ state_is true p t l w'.
Proof.
  intros Hw. pose proof (si_injected _ _ _ _ _ Hw) as Hi.
  unfold passes, SecurityHeaders, from_request. cbv [mbind tx_bind gets update modify].
  cbn [w_Exchange on_exchange x_Dependencies Header]. rewrite Hi.
  destruct (dp_Secure dep); eexists; (split; [intros next; reflexivity|]); repeat apply state_quiet; done.
Qed.

Lemma CORS_run p t l ctx w :
  state_is true p t l w →
  if origin_ok then ∃ w', passes (CORS dep inc) ctx w ctx w' ∧ state_is true p t l w'
  else stops (CORS dep inc) ctx w.
Proof.
  intros Hw. pose proof (si_injected _ _ _ _ _ Hw) as Hi.
  unfold origin_ok, passes, stops, CORS, from_request. cbv [mbind tx_bind gets].
  destruct (in_PeekAll inc "Origin") as [|origin [|]]; [by exists w| |stop_with (refuse_run ctx ErrInvalidRequest w)].
  case_bool_decide; simpl; [|stop_with (refuse_run ctx ErrInvalidRequest w)].
  case_bool_decide; simpl; [stop_with (refuse_run ctx ErrInvalidRequest w)|].
  rewrite Hi. case_bool_decide; simpl; [|stop_with (refuse_run ctx ErrPermissionDenied w)].
  destruct (preflight inc); simpl.
  - eexists. split; [intros next; reflexivity|]. done.
  - eexists. split; [intros next; reflexivity|]. repeat apply state_quiet; done.
Qed.

Lemma OptionalAuthentication_run l ctx w :
  state_is true None None l w →
  match credentials with
  | Some c =>
    ∃ w', passes (OptionalAuthentication inc) ctx w
            (match c with Some (_, p) => WithUserID ctx (pr_UserID p) | None => ctx end) w' ∧ known c l w'
  | None => stops (OptionalAuthentication inc) ctx w
  end.
Proof.
  intros Hw. pose proof (si_injected _ _ _ _ _ Hw) as Hi.
  unfold credentials, passes, stops, OptionalAuthentication, from_request. cbv [mbind tx_bind gets].
  destruct (in_PeekAll inc "Authorization") as [|header [|]];
    [by exists w| |stop_with (unauthenticated_stops ctx w)].
  destruct (bearer_token header) as [token|]; simpl; [|stop_with (unauthenticated_stops ctx w)].
  rewrite Hi. destruct (Verifier_Verify token) as [p|]; simpl; [|stop_with (unauthenticated_stops ctx w)].
  eexists. split; [intros next; reflexivity|]. destruct Hw. by split.
Qed.

Lemma client_ip_quiet w : ∃ w' a, client_ip dep inc w = (w', Ok a) ∧ pending w' = pending w ∧ w_Served w' = w_Served w.
Proof.
  unfold client_ip. destruct (in_RemoteAddr inc ≫= addressIP); [|by exists w, "unknown"].
  eexists _, _. split; [reflexivity|done].
Qed.

Lemma Recovery_run hs ctx w :
  pending w = true →
  calls (run_chain (Recovery inc :: hs) ctx) w = calls (run_chain hs ctx) w ∧
  (run_chain (Recovery inc :: hs) ctx w).2 = Ok tt.
Proof.
  intros Hp. unfold calls. rewrite run_cons by done. unfold Recovery, attempt. cbv [mbind tx_bind].
  destruct (run_chain hs ctx w) as [w1 [[]|e]].
  - cbv [update modify mret tx_ret]. by rewrite run_stopped.
  - destruct (refuse_run ctx ErrInternal w1) as (w2 & -> & Hp2 & Hs). by rewrite run_stopped.
Qed.

Lemma AccessLog_run hs ctx w :
  pending w = true → calls (run_chain (AccessLog dep inc :: hs) ctx) w = calls (run_chain hs ctx) w.
Proof.
  intros Hp. unfold calls. rewrite run_cons by done. unfold AccessLog, from_request. cbv [mbind tx_bind gets].
  destruct (run_chain hs ctx w) as [w1 [[]|e]]; [|done]. cbv [update modify mret tx_ret].
  destruct (x_Dependencies _); [|by rewrite run_stopped]. destruct (unlogged _ _ _); [by rewrite run_stopped|].
  destruct (client_ip_quiet (on_exchange (set_Pending false) w1)) as (w2 & a & -> & Hp2 & Hs).
  by rewrite run_stopped.
Qed.

(** The middlewares of a route and its endpoint. *)
Lemma guards_run serve e ms ctx c l w :
  known c l w →
  match guards ms c l with
  | Some _ => ∃ x, calls (run_chain ((denote dep inc <$> ms) ++ [call_endpoint serve e]) ctx) w =
                     [MkServed e ctx x] ∧
                   x_Principal x = snd <$> c ∧ x_AccessToken x = fst <$> c
  | None => calls (run_chain ((denote dep inc <$> ms) ++ [call_endpoint serve e]) ctx) w = []
  end.
Proof.
  revert l w. induction ms as [|m ms IH]; intros l w Hw; simpl.
  - exists (w_Exchange w). destruct Hw. split; [|done]. unfold calls. rewrite run_cons by done.
    unfold call_endpoint. cbv [mbind tx_bind]. cbn [w_Exchange w_Limiter w_Served]. rewrite si_served0.
    destruct (serve e ctx (w_Exchange w)) as [x [[]|]]; [|done]. by rewrite run_nil.
  - pose proof (middleware_run m ctx c l w Hw) as Hg. cbv [mbind option_bind].
    destruct (guard m c l) as [l'|].
    + destruct Hg as (w' & Hpass & Hw'). rewrite (calls_pass _ _ _ w ctx w'); [by apply IH| |done].
      by destruct Hw.
    + destruct Hw. by rewrite calls_stop.
Qed.

(** ** The whole chain *)

Notation start l := (MkWorld new_exchange l []).

Lemma start_state l : state_is false None None l (start l).
Proof. done. Qed.

Lemma result_pass h hs ctx w ctx' w' :
  pending w = true → passes h ctx w ctx' w' →
  (run_chain (h :: hs) ctx w).2 = (run_chain hs ctx' w').2.
Proof.
  intros Hp Hh. rewrite (run_pass h hs ctx w ctx' w') by done. cbv [mbind tx_bind].
  by destruct (run_chain hs ctx' w') as [w1 [[]|e]].
Qed.

Lemma route_calls serve r ctx l :
  match admission r l with
  | Some c => ∃ x, calls (handle_route dep inc serve r ctx) (start l) =
                     [MkServed (ro_Endpoint r) (endpoint_context ctx c) x] ∧
                   x_Principal x = snd <$> c ∧ x_AccessToken x = fst <$> c
  | None => calls (handle_route dep inc serve r ctx) (start l) = []
  end.
Proof.
  unfold handle_route, server_middlewares, admission. cbn [app].
  destruct (TraceMiddleware_run _ _ _ _ ctx _ (start_state l)) as (w1 & P1 & S1).
  rewrite (calls_pass _ _ _ (start l) (traced ctx) w1) by done.
  destruct (Inject_run _ _ _ _ (traced ctx) _ S1) as (w2 & P2 & S2).
  rewrite (calls_pass _ _ _ w1 (traced ctx) w2) by (done || apply S1).
  rewrite (proj1 (Recovery_run _ _ w2 (si_pending _ _ _ _ _ S2))), AccessLog_run by apply S2.
  destruct (SecurityHeaders_run _ _ _ (traced ctx) _ S2) as (w3 & P3 & S3).
  rewrite (calls_pass _ _ _ w2 (traced ctx) w3) by (done || apply S2).
  pose proof (CORS_run _ _ _ (traced ctx) _ S3) as Hc. destruct origin_ok.
  2:{ rewrite calls_stop by (done || apply S3). apply S3. }
  destruct Hc as (w4 & P4 & S4). rewrite (calls_pass _ _ _ w3 (traced ctx) w4) by (done || apply S3).
  pose proof (rateLimit_run "global" rl_GlobalLimit (traced ctx) _ _ _ _ S4) as Hl.
  fold (GlobalRateLimit dep inc) in Hl.
  destruct (admits "global" _ _ l) as [l5|]; cbv [mbind option_bind].
  2:{ rewrite calls_stop by (done || apply S4). apply S4. }
  destruct Hl as (w5 & P5 & S5). rewrite (calls_pass _ _ _ w4 (traced ctx) w5) by (done || apply S4).
  pose proof (OptionalAuthentication_run _ (traced ctx) _ S5) as Ha. destruct credentials as [c|].
  2:{ rewrite calls_stop by (done || apply S5). apply S5. }
  destruct Ha as (w6 & P6 & S6). rewrite (calls_pass _ _ _ w5 _ w6 (si_pending _ _ _ _ _ S5) P6).
  fold (endpoint_context ctx c).
  pose proof (guards_run serve (ro_Endpoint r) (ro_Middlewares r) (endpoint_context ctx c) c l5 w6 S6) as Hg.
  destruct (guards (ro_Middlewares r) c l5) as [l7|]; simpl in *; [|done]. by destruct c as [[]|].
Qed.

(** C25: a request reaches the endpoint of its route exactly
    when it carries no Origin or an allowed one and is no preflight, the global
    limiter admits its client address, it carries no Authorization or one bearer
    token that verifies, and every middleware of the route lets it pass; then
    the endpoint is called once, with the request identifier of the caller and
    the verified principal.  Whatever the endpoint does, a panic included, the
    chain returns normally. *)
Theorem gateway_admission serve r ctx l :
  (handle_route dep inc serve r ctx (start l)).2 = Ok tt ∧
  match admission r l with
  | Some c => ∃ x, w_Served (handle_route dep inc serve r ctx (start l)).1 =
                     [MkServed (ro_Endpoint r) (endpoint_context ctx c) x] ∧
                   x_Principal x = snd <$> c ∧ x_AccessToken x = fst <$> c
  | None => w_Served (handle_route dep inc serve r ctx (start l)).1 = []
  end.
Proof.
  split; [|exact (route_calls serve r ctx l)].
  unfold handle_route, server_middlewares. cbn [app].
  destruct (TraceMiddleware_run _ _ _ _ ctx _ (start_state l)) as (w1 & P1 & S1).
  rewrite (result_pass _ _ _ (start l) (traced ctx) w1) by done.
  destruct (Inject_run _ _ _ _ (traced ctx) _ S1) as (w2 & P2 & S2).
  rewrite (result_pass _ _ _ w1 (traced ctx) w2) by (done || apply S1).
  apply Recovery_run, S2.
Qed.

(** ** Protected endpoints *)

Lemma guards_user ms c l l' :
  guards ms c l = Some l' → MRequireAuthenticated ∈ ms → is_Some (user_of c).
Proof.
  revert l. induction ms as [|m ms IH]; intros l Hg Hm; [set_solver|].
  cbn [guards] in Hg. destruct (guard m c l) as [l1|] eqn:E; [|done].
  apply elem_of_cons in Hm as [<-|Hm]; [|by eapply IH]. simpl in E.
  by destruct (user_of c).
Qed.

Lemma guards_admin ms c l l' p :
  guards ms c l = Some l' → MRequireAdmin ∈ ms → user_of c = Some p → pr_Role p = "admin".
Proof.
  intros Hg Hm Hu. revert l Hg. induction ms as [|m ms IH]; intros l Hg; [set_solver|].
  cbn [guards] in Hg. destruct (guard m c l) as [l1|] eqn:E; [|done].
  apply elem_of_cons in Hm as [<-|Hm]; [|by eapply IH]. unfold guard in E. rewrite Hu in E. simpl in E.
  by case_bool_decide.
Qed.

(** Who may call what, independently of the routes: everything needs a user but
    reading what is published, signing in and up, e-mailed actions, and the
    health checks; configuration needs an administrator. *)
Definition public_endpoints : list endpoint :=
  [ListPublishedDocuments; GetPublishedDocument; GetAttachmentContent; GetSiteProfile; Login; Register;
   RefreshSession; VerifyEmail; RequestPasswordReset; ResetPassword; Live; Ready].

Definition admin_endpoints : list endpoint := [GetConfiguration; PutConfiguration; GetConfigurationDelivery].

(** What guards guessing: credentials and e-mailed codes. *)
Definition guessing_endpoints : list endpoint :=
  [Login; Register; VerifyEmail; RequestPasswordReset; ResetPassword].

Definition route_guarded (r : Route) : bool :=
  (bool_decide (ro_Endpoint r ∈ public_endpoints) || bool_decide (MRequireAuthenticated ∈ ro_Middlewares r)) &&
  (negb (bool_decide (ro_Endpoint r ∈ admin_endpoints)) || bool_decide (MRequireAdmin ∈ ro_Middlewares r)) &&
  (negb (bool_decide (ro_Endpoint r ∈ guessing_endpoints)) ||
   bool_decide (ro_Middlewares r = [MAuthRateLimit]) || bool_decide (ro_Middlewares r = [MActionRateLimit])).

Lemma routes_guarded : forallb route_guarded RegisterRoutes = true.
Proof. vm_compute. reflexivity. Qed.

(** C7: an endpoint of the API that is not public is called
    only for a request with one bearer token that verifies to a user, and it
    finds that user; configuration only for an administrator.  Signing in, up
    and e-mailed actions are called only when a limiter for them admitted the
    client address after the global one. *)
Theorem protected_endpoints serve r ctx l s :
  r ∈ RegisterRoutes → s ∈ w_Served (handle_route dep inc serve r ctx (start l)).1 →
  s_Endpoint s = ro_Endpoint r ∧
  (s_Endpoint s ∉ public_endpoints →
   ∃ header token p,
     in_PeekAll inc "Authorization" = [header] ∧ bearer_token header = Some token ∧
     Verifier_Verify token = Some p ∧ 0 < pr_UserID p ∧
     x_Principal (s_Exchange s) = Some p ∧ x_AccessToken (s_Exchange s) = Some token ∧
     c_UserID (s_Context s) = pr_UserID p ∧
     (s_Endpoint s ∈ admin_endpoints → pr_Role p = "admin")) ∧
  (s_Endpoint s ∈ guessing_endpoints →
   ∃ scope l1 l2, scope ∈ ["auth"; "auth_action"] ∧
     admits "global" client_address_of (rl_GlobalLimit (dp_RateLimit dep)) l = Some l1 ∧
     admits scope client_address_of (rl_AuthLimit (dp_RateLimit dep)) l1 = Some l2).
Proof.
  intros Hr Hs. pose proof (route_calls serve r ctx l) as Hc. unfold calls in Hc.
  destruct (admission r l) as [c|] eqn:Ha; [|rewrite Hc in Hs; by apply elem_of_nil in Hs].
  destruct Hc as (x & Hc & Hp & Ht). rewrite Hc in Hs. apply list_elem_of_singleton in Hs as ->. simpl.
  split; [done|]. unfold admission in Ha. destruct origin_ok; [|done].
  destruct (admits "global" _ _ l) as [l1|]; [|done]. cbn [mbind option_bind] in Ha.
  destruct credentials as [c'|] eqn:Ec; [|done]. cbn [mbind option_bind] in Ha.
  destruct (guards _ c' l1) as [l2|] eqn:Eg; [|done]. injection Ha as ->.
  pose proof routes_guarded as Hall. rewrite forallb_forall in Hall.
  specialize (Hall r (proj1 (list_elem_of_In _ _) Hr)). unfold route_guarded in Hall.
  apply andb_true_iff in Hall as [[Hu Hadm]%andb_true_iff Hlim]. split.
  - intros Hpub. rewrite bool_decide_false in Hu by done. simpl in Hu. apply bool_decide_eq_true in Hu.
    destruct (guards_user _ _ _ _ Eg Hu) as [p Hup].
    destruct c as [[token p']|]; [|done]. simpl in Hup, Hp, Ht. destruct (0 <? pr_UserID p') eqn:Ep; [|done].
    injection Hup as ->. unfold credentials in Ec.
    destruct (in_PeekAll inc "Authorization") as [|header [|]]; [done| |done].
    destruct (bearer_token header) as [token'|] eqn:Eb; [|done]. simpl in Ec.
    destruct (Verifier_Verify token') as [p'|] eqn:Ev; [|done]. simpl in Ec. injection Ec as -> ->.
    exists header, token, p. split_and!; try done; [lia| |].
    + simpl. unfold WithUserID. by rewrite (proj2 (Z.leb_gt _ _)) by lia.
    + intros Hin. rewrite bool_decide_true in Hadm by done. simpl in Hadm. apply bool_decide_eq_true in Hadm.
      eapply guards_admin; [exact Eg|done|]. simpl. by rewrite Ep.
  - intros Hin. rewrite bool_decide_true in Hlim by done. simpl in Hlim.
    apply orb_true_iff in Hlim as [Hm|Hm]; apply bool_decide_eq_true in Hm; rewrite Hm in Eg;
      cbn [guards guard] in Eg; destruct (admits _ _ _ l1) as [l3|] eqn:E; try done.
    + exists "auth", l1, l3. split_and!; [left|done..].
    + exists "auth_action", l1, l3. split_and!; [right; left|done..].
Qed.

End chain_facts.

(** Concrete instances for the gateway: an encoder that writes the key and the
    code of a problem, an RPC error that is a status or a timeout, a verifier
    that knows one administrator, the Redis limiter at a fixed clock; and the
    theorems at a concrete request. *)

#[local] Existing Instance ascii_unicode.

#[export] Instance toy_problem_codec : ProblemCodec := {|
  MarshalProblem p := Some (p_Key p +:+ " " +:+ FormatInt (p_Code p) +:+ " " +:+ p_RetryAfter p);
|}.

#[export] Instance toy_rpc : Rpc := {|
  rpc_error := BizStatus + bool;
  FromBizStatusError e := match e with inl b => Some b | inr _ => None end;
  is_DeadlineExceeded e := match e with inr b => b | inl _ => false end;
  IsTimeoutError _ := false;
  has_Timeout _ := false;
|}.

#[export] Instance toy_rpc_laws : RpcLaws := {| delivered := inl; delivered_status b := eq_refl |}.

(** ** An error on its way *)

Definition locked : Definition_ :=
  MkDefinition 20004 "identity.account_locked" KindPermissionDenied "account is locked".

Definition locked_error : error := NewWithExtra locked (Some {[ExtraRetryAfter := " 900 "]}).

Definition gateway_ctx : Context_ := MkContext "req-1" EmptyString 0.

Lemma error_reaches_client_witness :
  writeRPCError "fresh" gateway_ctx (delivered (ToBizStatus Background locked_error)) new_exchange =
  answer "req-1" EmptyString 423 locked "900" new_exchange.
Proof.
  exact (proj1 (error_reaches_client "fresh" gateway_ctx Background locked_error new_exchange
    ltac:(split; [reflexivity|by right]) ltac:(split; [by eexists|done])
    ltac:(intros d [= <-]; reflexivity))).
Defined.

(** An error outside the catalogue says nothing about itself. *)
Example unknown_error_hidden :
  x_Body (writeRPCError "fresh" gateway_ctx
    (delivered (ToBizStatus Background (EOther "dial tcp 10.0.0.3: password wrong" []))) new_exchange) =
  Some (ProblemContentType, "common.internal 20999 ").
Proof. vm_compute. reflexivity. Qed.

(** ** A request *)

Definition root_principal : Principal := MkPrincipal 1 SubjectTypeUser "admin" 1 "s" 0.

#[export] Instance toy_backends : Backends := {|
  limiter := Redis;
  Verifier_Verify token := if bool_decide (token = "root-token") then Some root_principal else None;
  Limiter_Consume scope subject now window limit db :=
    match Consume "gw" 10009 scope subject now window limit db with
    | (db, Ok a) => (db, Some a)
    | (db, Err _) => (db, None)
    end;
|}.

Definition toy_dependencies : Dependencies :=
  MkDependencies ["https://kc.example"] [["10.0.0.1"; "10.0.0.2"]]
    (MkRateLimitOptions (10 * Second) 300 20) true false.

Definition toy_incoming (authorization : list string) : Incoming :=
  MkIncoming "PUT" "/api/v1/admin/configuration/:namespace"
    (λ name, if bool_decide (name = "Authorization") then authorization else [])
    (Some "tcp:203.0.113.9") (10009 * Millisecond) "fresh".

Definition put_configuration : Route :=
  MkRoute "PUT" "/api/v1/admin/configuration/:namespace" [MRequireAuthenticated; MRequireAdmin] PutConfiguration.

Definition toy_serve (e : endpoint) (ctx : Context_) : tx Exchange panic unit := fail "boom".

(** The endpoint panics and the client gets the internal error. *)
Example admin_request_served :
  let '(w, r) := handle_route toy_dependencies (toy_incoming ["bearer root-token"]) toy_serve put_configuration
                   Background (MkWorld new_exchange ∅ []) in
  r = Ok tt ∧ s_Endpoint <$> w_Served w = [PutConfiguration] ∧
  x_Body (w_Exchange w) = Some (ProblemContentType, "gateway.internal 10999 ").
Proof. vm_compute. repeat split. Qed.

Example anonymous_request_refused :
  let '(w, r) := handle_route toy_dependencies (toy_incoming []) toy_serve put_configuration
                   Background (MkWorld new_exchange ∅ []) in
  r = Ok tt ∧ w_Served w = [] ∧ x_Status (w_Exchange w) = 401.
Proof. vm_compute. repeat split. Qed.

Lemma protected_endpoints_witness :
  ∃ s, s ∈ w_Served (handle_route toy_dependencies (toy_incoming ["bearer root-token"]) toy_serve
             put_configuration Background (MkWorld new_exchange ∅ [])).1 ∧
       c_UserID (s_Context s) = 1.
Proof.
  set (m := w_Served _). assert (∃ s, m = [s]) as [s Hm].
  { eexists. vm_compute. reflexivity. }
  exists s. assert (s ∈ m) as Hs by (rewrite Hm; apply list_elem_of_here). split; [exact Hs|].
  assert (put_configuration ∈ RegisterRoutes) as Hr by (apply (bool_decide_unpack _); vm_compute; exact I).
  destruct (protected_endpoints toy_dependencies (toy_incoming ["bearer root-token"]) toy_serve
    put_configuration Background ∅ s Hr Hs) as (He & Hp & _).
  destruct Hp as (header & token & p & Hh & Hb & Hv & _ & _ & _ & Hc & _).
  { rewrite He. apply (bool_decide_unpack _). vm_compute. exact I. }
  rewrite Hc. simpl in Hv. case_bool_decide; [|done]. by injection Hv as <-.
Defined.
