(* ===== verification/GInput.v ===== *)
(** Reading a request: services/gateway/biz/handler/gateway/input.go.

    Headers, path parameters and query values are checked before a handler calls
    a service.  Query strings are parsed by package net/url and UUIDs by
    github.com/google/uuid, parameters of the model ([Query], [UuidText]). *)

From stdpp Require Import base gmap list sets strings.
From Stdlib Require Import ZArith Lia Ascii.
From S2P Require Import Prelude.
From S2P Require Import GoStrings.
From S2P Require Import GoText.
From S2P Require Import KDomain.

Open Scope Z_scope.

(** What a handler reads of a request. *)
Record Input := MkInput {
  q_PeekAll : string → list string;
  q_Param : string → string;
  q_QueryString : string;
  q_Body : string;
}.

(** [url.ParseQuery]: the values by name, each name once. *)
Class Query := { ParseQuery : string → option (list (string * list string)) }.

(** [uuid.Parse]: the version and the canonical text. *)
Class UuidText := { uuid_parse : string → option (Z * string) }.

Inductive header := Absent | Once (value : string) | Repeated.

Definition singleHeader (r : Input) (name : string) : header :=
  match q_PeekAll r name with [] => Absent | [v] => Once v | _ => Repeated end.

(** [None] is an error throughout; no key at all is the empty key. *)
Definition idempotencyKey (r : Input) : option string :=
  match singleHeader r "Idempotency-Key" with
  | Absent => Some EmptyString
  | Repeated => None
  | Once value =>
    if (len value <? 1) || (128 <? len value) || negb (bool_decide (TrimSpace value = value)) then None
    else if forallb (in_range 33 126) (runes value) then Some value else None
  end.

Definition permanentDeleteConfirmation (r : Input) : bool :=
  match singleHeader r "X-Confirm-Permanent-Delete" with Once v => bool_decide (v = "true") | _ => false end.

Definition formatETag (revision : Z) : string := of_bytes [34] +:+ FormatInt revision +:+ of_bytes [34].

(** The text between the quotes of an entity tag of at least three bytes. *)
Definition unquote (value : string) : option string :=
  let bs := bytes value in
  if (len value <? 3) || negb (bool_decide (head bs = Some 34)) || negb (bool_decide (last bs = Some 34))
  then None else Some (of_bytes (take (length bs - 2) (drop 1 bs))).

Definition expectedRevision (r : Input) : option Z :=
  match singleHeader r "If-Match" with
  | Once value =>
    decimal ← unquote value;
    if negb (positiveDecimalPattern decimal) then None
    else revision ← ParseInt decimal 64;
         if bool_decide (formatETag revision = value) then Some revision else None
  | _ => None
  end.

Definition expectedConfigurationRevision (r : Input) : option Z :=
  match singleHeader r "If-Match" with
  | Once value =>
    decimal ← unquote value;
    if bool_decide (decimal = "0") then Some 0
    else if negb (positiveDecimalPattern decimal) then None
    else revision ← ParseInt decimal 64;
         if bool_decide (formatETag revision = value) then Some revision else None
  | _ => None
  end.

Definition parseVersionLimit (value : option string) : option Z :=
  match value with
  | None => Some 0
  | Some value =>
    if bool_decide (value = EmptyString) then Some 0
    else if negb (positiveDecimalPattern value) then None
    else parsed ← ParseInt value 32; if 100 <? parsed then None else Some parsed
  end.

Definition configurationNamespace (r : Input) : option string :=
  let value := q_Param r "namespace" in
  if bool_decide (value ∈ ["site"; "email"; "ai"]) then Some value else None.

(** A path parameter that is a positive decimal integer. *)
Definition path_integer (value : string) : option Z :=
  if negb (positiveDecimalPattern value) then None
  else parsed ← ParseInt value 64; if bool_decide (FormatInt parsed = value) then Some parsed else None.

Definition configurationRevision (r : Input) : option Z := path_integer (q_Param r "revision").

Definition pathUserID (r : Input) : option Z := path_integer (q_Param r "user_id").

Definition pathSlug (r : Input) : option string :=
  let value := q_Param r "slug" in
  if (len value <? 3) || (80 <? len value) || negb (slugPattern value) then None else Some value.

(** [unicode.IsControl] *)
Definition is_control (r : Z) : bool := in_range 0 31 r || in_range 127 159 r.

Definition containsControl (value : string) : bool := existsb is_control (runes value).

Section requests.
Context `{Query, UuidText}.

Definition pathUUID (r : Input) (name : string) : option string :=
  let value := q_Param r name in
  match uuid_parse value with
  | Some (version, text) =>
    if (version =? 7) && bool_decide (text = value) then Some value else None
  | None => None
  end.

Definition strictQuery (r : Input) (allowed : list string) : option (list (string * list string)) :=
  values ← ParseQuery (q_QueryString r);
  if forallb (λ '(name, entries),
       bool_decide (name ∈ allowed) && negb (bool_decide (name = EmptyString)) &&
       (length entries =? 1)%nat) values
  then Some values else None.

Definition requireNoQuery (r : Input) : bool := is_some (strictQuery r []).

Definition requireNoBody (r : Input) : bool := bool_decide (q_Body r = EmptyString).

Definition queryPointer (values : list (string * list string)) (name : string) : option string :=
  match list_find (λ kv, kv.1 = name) values with
  | Some (_, (_, [value])) => Some value
  | _ => None
  end.

Record listInput := MkListInput {
  ls_query : option string;
  ls_cursor : option string;
  ls_limit : option Z;
  ls_access : option string;
  ls_publication : option string;
  ls_folderID : option string;
}.

(** A check of an optional value: an absent one passes. *)
Definition present (ok : string → bool) (value : option string) : bool :=
  match value with Some v => ok v | None => true end.

Definition list_limit (raw : option string) : option (option Z) :=
  match raw with
  | None => Some None
  | Some raw =>
    if negb (positiveDecimalPattern raw) then None
    else parsed ← ParseInt raw 32; if 100 <? parsed then None else Some (Some parsed)
  end.

Definition decodeListInput (r : Input) (studio : bool) : option listInput :=
  let allowed := ["q"; "cursor"; "limit"] ++ (if studio then ["access"; "publication"; "folder_id"] else []) in
  values ← strictQuery r allowed;
  let query := queryPointer values "q" in
  let cursor := queryPointer values "cursor" in
  let access := queryPointer values "access" in
  let publication := queryPointer values "publication" in
  let folderID := queryPointer values "folder_id" in
  if negb (present (λ v, utf8 v && (rune_count v <=? 200) && negb (containsControl v)) query) then None
  else if negb (present (λ v, (len v <=? 1024) && negb (containsControl v)) cursor) then None
  else
    limit ← list_limit (queryPointer values "limit");
    if negb (present (λ v, bool_decide (v = "owner") || bool_decide (v = "shared")) access) then None
    else if negb (present (λ v, bool_decide (v = "published") || bool_decide (v = "draft")) publication) then None
    else if negb (present (λ v, is_some (uuid_parse v)) folderID) then None
    else Some (MkListInput query cursor limit access publication folderID).

End requests.

(** ** Entity tags *)

Lemma bytes_formatETag r : bytes (formatETag r) = 34 :: bytes (FormatInt r) ++ [34].
Proof. unfold formatETag. by rewrite !bytes_app. Qed.

Lemma unquote_Some value decimal :
  unquote value = Some decimal ↔ value = of_bytes [34] +:+ decimal +:+ of_bytes [34] ∧ decimal ≠ EmptyString.
Proof.
  unfold unquote, len. split.
  - intros Hu. destruct (_ || _) eqn:E in Hu; [done|].
    apply orb_false_iff in E as [[El Eh]%orb_false_iff Et].
    apply negb_false_iff, bool_decide_eq_true in Eh, Et. injection Hu as <-.
    destruct (bytes value) as [|b bs] eqn:Eb; [done|]. simpl in Eh. injection Eh as ->.
    destruct bs as [|c bs] using rev_ind; [done|]. clear IHbs.
    rewrite app_comm_cons, last_snoc in Et. injection Et as ->.
    simpl in *. rewrite length_app in *. simpl in *. rewrite drop_0.
    replace (length bs + 1 - 1)%nat with (length bs) by lia. rewrite take_app_length.
    assert (Forall is_byte (34 :: bs ++ [34])) as Hb by (rewrite <-Eb; apply bytes_range).
    apply Forall_cons in Hb as [_ [Hb _]%Forall_app].
    split.
    + rewrite <-(of_bytes_bytes value), Eb. change (34 :: bs ++ [34]) with ([34] ++ bs ++ [34]).
      by rewrite !of_bytes_app.
    + intros En. apply (f_equal bytes) in En. rewrite bytes_of_bytes in En by done. destruct bs; [|done].
      discriminate El.
  - intros [-> Hne]. rewrite !bytes_app. change (bytes (of_bytes [34])) with [34].
    assert (1 <= length (bytes decimal))%nat.
    { destruct (bytes decimal) eqn:E; [|simpl; lia]. destruct Hne. by rewrite <-(of_bytes_bytes decimal), E. }
    rewrite !length_app. simpl length. rewrite (proj2 (Z.ltb_ge _ _)) by lia.
    simpl. rewrite app_comm_cons, last_snoc. simpl. rewrite drop_0.
    replace (length (bytes decimal) + 1 - 1)%nat with (length (bytes decimal)) by lia.
    by rewrite take_app_length, of_bytes_bytes.
Qed.

Lemma formatETag_unquote r : 0 < r → unquote (formatETag r) = Some (FormatInt r).
Proof.
  intros Hr. apply unquote_Some. split; [done|]. intros E.
  pose proof (FormatInt_positive r Hr) as Hp. by rewrite E in Hp.
Qed.

Lemma parse_tag value decimal r :
  unquote value = Some decimal → positiveDecimalPattern decimal = true →
  ((revision ← ParseInt decimal 64; if bool_decide (formatETag revision = value) then Some revision else None)
     = Some r ↔ value = formatETag r ∧ 0 < r < 2 ^ 63).
Proof.
  intros [-> _]%unquote_Some Hp. destruct (ParseInt_positive decimal 64 Hp) as (n & Hn & <- & ->).
  change (64 - 1) with 63. destruct (n <? 2 ^ 63) eqn:E; cbv [mbind option_bind].
  - rewrite bool_decide_true by done. split; [intros [= <-]; split; [done|lia]|].
    intros [Hv Hr]. apply (f_equal bytes) in Hv. rewrite !bytes_app, bytes_formatETag in Hv.
    change (bytes (of_bytes [34])) with [34] in Hv. simpl in Hv. injection Hv as Hv.
    apply app_inj_tail in Hv as [Hv _]. apply (f_equal of_bytes) in Hv. rewrite !of_bytes_bytes in Hv.
    f_equal. by apply FormatInt_inj; [..|done]; lia.
  - split; [done|]. intros [Hv Hr]. apply (f_equal bytes) in Hv. rewrite !bytes_app, bytes_formatETag in Hv.
    change (bytes (of_bytes [34])) with [34] in Hv. simpl in Hv. injection Hv as Hv.
    apply app_inj_tail in Hv as [Hv _]. apply (f_equal of_bytes) in Hv. rewrite !of_bytes_bytes in Hv.
    apply FormatInt_inj in Hv; lia.
Qed.

(** The revision an If-Match header names is read exactly from
    the entity tag the gateway writes for it: a request is accepted with a
    revision if and only if it carries one If-Match header that is the tag of
    that revision, a positive 64-bit integer.  For configurations the tag of
    revision zero, which is not stored yet, is accepted too. *)
Theorem etag_roundtrip r revision :
  (expectedRevision r = Some revision ↔
   q_PeekAll r "If-Match" = [formatETag revision] ∧ 0 < revision < 2 ^ 63) ∧
  (expectedConfigurationRevision r = Some revision ↔
   q_PeekAll r "If-Match" = [formatETag revision] ∧ 0 <= revision < 2 ^ 63).
Proof.
  unfold expectedRevision, expectedConfigurationRevision, singleHeader.
  destruct (q_PeekAll r "If-Match") as [|value [|]]; [naive_solver| |naive_solver].
  assert (∀ x, [value] = [formatETag x] ↔ value = formatETag x) as Hone by naive_solver.
  rewrite Hone. clear Hone. split.
  - split.
    + intros Hr. destruct (unquote value) as [decimal|] eqn:Eu; [|done]. cbv [mbind option_bind] in Hr.
      destruct (positiveDecimalPattern decimal) eqn:Ep; [|done]. by apply (parse_tag value decimal).
    + intros [Hv Hr]. subst value. rewrite formatETag_unquote by lia. cbv [mbind option_bind].
      rewrite FormatInt_positive by lia. simpl.
      apply (parse_tag (formatETag revision) (FormatInt revision));
        [apply formatETag_unquote; lia|apply FormatInt_positive; lia|done].
  - split.
    + intros Hr. destruct (unquote value) as [decimal|] eqn:Eu; [|done]. cbv [mbind option_bind] in Hr.
      case_bool_decide as Ez.
      * injection Hr as <-. apply unquote_Some in Eu as [-> _]. subst. split; [reflexivity|lia].
      * destruct (positiveDecimalPattern decimal) eqn:Ep; [|done].
        apply (parse_tag value decimal) in Hr as [-> ?]; [|done..]. split; [done|lia].
    + intros [Hv Hr]. subst value. destruct (decide (revision = 0)) as [->|Hz]; [reflexivity|].
      rewrite formatETag_unquote by lia. cbv [mbind option_bind].
      rewrite bool_decide_false, FormatInt_positive by (lia || (intros E; pose proof (FormatInt_positive revision ltac:(lia)) as P; by rewrite E in P)).
      simpl. apply (parse_tag (formatETag revision) (FormatInt revision));
        [apply formatETag_unquote; lia|apply FormatInt_positive; lia|]. split; [done|lia].
Qed.
