(* ===== verification/GContent.v ===== *)
(** The content of an attachment: [handleGetAttachmentContent] of
    services/gateway/biz/handler/gateway/knowledge_handlers.go.

    The only endpoint that hands out attachments to anybody: it asks the
    knowledge service whether the attachment is part of a publication and the
    attachment service for an address to redirect to.  The calls, made with the
    token of the request, are arguments. *)

From stdpp Require Import base gmap list sets strings.
From Stdlib Require Import ZArith Lia Ascii.
From S2P Require Import Prelude.
From S2P Require Import GoStrings.
From S2P Require Import AppError.
From S2P Require Import AuthToken.
From S2P Require Import GResponse.
From S2P Require Import GLimit.
From S2P Require Import GServer.
From S2P Require Import GInput.

Open Scope Z_scope.

(** What [url.Parse] says of an address. *)
Record UrlParts := MkUrlParts {
  u_IsAbs : bool; u_Host : string; u_User : bool; u_Scheme : string; u_Fragment : string }.

(** [url.Parse], and whether [time.Parse(time.RFC3339Nano, v)] succeeds. *)
Class Redirects := {
  url_Parse : string → option UrlParts;
  validRFC3339 : string → bool;
}.

Definition validRedirectURL `{Redirects} (value : string) : bool :=
  match url_Parse value with
  | None => false
  | Some u =>
    u_IsAbs u && negb (bool_decide (u_Host u = EmptyString)) && negb (u_User u) &&
    (bool_decide (u_Scheme u = "http") || bool_decide (u_Scheme u = "https")) &&
    bool_decide (u_Fragment u = EmptyString)
  end.

(** What the attachment service says of an attachment. *)
Record AttachmentReply := MkAttachmentReply {
  ar_Status : string; ar_DownloadUrl : option string; ar_DownloadExpiresAt : option string }.

(** The calls of the endpoint; [Ok None] is a nil answer. *)
Record Upstream `{Rpc} := MkUpstream {
  up_IsMediaPublished : string → result rpc_error (option bool);
  up_GetPublishedAttachmentContent : string → result rpc_error (option (string * string));
  up_GetAttachment : string → result rpc_error (option AttachmentReply);
}.

Arguments MkUpstream {_} _ _ _.

Section content.
Context `{ProblemCodec, Query, UuidText, Redirects, !Rpc}.
Variables (up : Upstream) (fresh : string).

(** [ResponseMetadata], the headers and the status 303 *)
Definition redirect (ctx : Context_) (cache url : string) (x : Exchange) : Exchange :=
  let '(_, _, x) := responseMetadata fresh ctx x in
  Status 303 (Header "Location" url (Header "Cache-Control" cache x)).

Definition handleGetAttachmentContent (r : Input) (ctx : Context_) (x : Exchange) : Exchange :=
  match pathUUID r "attachment_id" with
  | None => WriteError fresh ctx ErrInvalidRequest x
  | Some attachmentID =>
    if negb (requireNoQuery r) || negb (requireNoBody r) then WriteError fresh ctx ErrInvalidRequest x
    else if negb (x_Dependencies x) then WriteError fresh ctx ErrInternal x
    else
      match up_IsMediaPublished up attachmentID with
      | Err authErr => writeRPCError fresh ctx authErr x
      | Ok (Some true) =>
        match up_GetPublishedAttachmentContent up attachmentID with
        | Err contentErr => writeRPCError fresh ctx contentErr x
        | Ok None => WriteError fresh ctx ErrInvalidUpstreamResponse x
        | Ok (Some (url, expiresAt)) =>
          if negb (validRFC3339 expiresAt) || negb (validRedirectURL url)
          then WriteError fresh ctx ErrInvalidUpstreamResponse x
          else redirect ctx "public, max-age=60" url x
        end
      | Ok _ =>
        match stored_principal x with
        | None => WriteError fresh ctx ErrResourceNotFound x
        | Some _ =>
          match up_GetAttachment up attachmentID with
          | Err attachmentErr => writeRPCError fresh ctx attachmentErr x
          | Ok (Some (MkAttachmentReply status (Some url) (Some expiresAt))) =>
            if negb (bool_decide (status = "ready")) || negb (validRFC3339 expiresAt) || negb (validRedirectURL url)
            then WriteError fresh ctx ErrInvalidUpstreamResponse x
            else redirect ctx "private, no-store" url x
          | Ok _ => WriteError fresh ctx ErrInvalidUpstreamResponse x
          end
        end
      end
  end.

(** ** What is disclosed *)

(** The address a response redirects to. *)
Definition location (x : Exchange) : option string := x_Headers x !! "Location".

Lemma Header_other key key' value x : key ≠ key' → x_Headers (Header key' value x) !! key = x_Headers x !! key.
Proof. intros Hk. simpl. case_bool_decide; [by rewrite lookup_delete_ne|by rewrite lookup_insert_ne]. Qed.

Lemma responseMetadata_location ctx x : location (responseMetadata fresh ctx x).2 = location x.
Proof.
  unfold responseMetadata, location. case_bool_decide; simpl snd; by rewrite ?Header_other.
Qed.

Lemma writeProblem_location status p x : location (writeProblem status p x) = location x.
Proof. unfold writeProblem, location. by case_match. Qed.

Lemma WriteError_location ctx re x : location (WriteError fresh ctx re x) = location x.
Proof.
  unfold WriteError. pose proof (responseMetadata_location ctx x) as Hm.
  destruct (responseMetadata fresh ctx x) as [[id t] x']. by rewrite writeProblem_location.
Qed.

Lemma writeCatalogError_location ctx err x : location (writeCatalogError fresh ctx err x) = location x.
Proof.
  unfold writeCatalogError. pose proof (responseMetadata_location ctx x) as Hm.
  destruct (responseMetadata fresh ctx x) as [[id t] x']. destruct (match _ with Some _ => _ | None => _ end) as [s p].
  rewrite writeProblem_location. simpl in Hm. rewrite <-Hm. unfold location.
  case_bool_decide; [done|]. change (x_Headers (Abort ?y)) with (x_Headers y). by rewrite Header_other.
Qed.

Lemma writeRPCError_location ctx e x : location (writeRPCError fresh ctx e x) = location x.
Proof.
  unfold writeRPCError. repeat case_match; rewrite ?WriteError_location, ?writeCatalogError_location; done.
Qed.

Lemma redirect_location ctx cache url x :
  location (redirect ctx cache url x) = if bool_decide (url = EmptyString) then None else Some url.
Proof.
  unfold redirect, location. destruct (responseMetadata fresh ctx x) as [[id t] x']. simpl.
  case_bool_decide; [by rewrite lookup_delete_eq|by rewrite lookup_insert_eq].
Qed.

(** An address leaves the gateway for a published attachment, or for the
    attachment service's own answer to an authenticated caller. *)
Lemma content_location r ctx x url :
  location x = None → location (handleGetAttachmentContent r ctx x) = Some url →
  ∃ a, pathUUID r "attachment_id" = Some a ∧
   ((up_IsMediaPublished up a = Ok (Some true) ∧
     ∃ e, up_GetPublishedAttachmentContent up a = Ok (Some (url, e))) ∨
    (∃ p e, stored_principal x = Some p ∧
       up_GetAttachment up a = Ok (Some (MkAttachmentReply "ready" (Some url) (Some e))))).
Proof.
  intros Hx. unfold handleGetAttachmentContent.
  destruct (pathUUID r "attachment_id") as [a|]; [|by rewrite WriteError_location, Hx].
  destruct (_ || _); [by rewrite WriteError_location, Hx|].
  destruct (negb (x_Dependencies x)); [by rewrite WriteError_location, Hx|].
  destruct (up_IsMediaPublished up a) as [published|e] eqn:Ep; [|by rewrite writeRPCError_location, Hx].
  assert (location (match stored_principal x with
        | None => WriteError fresh ctx ErrResourceNotFound x
        | Some _ =>
          match up_GetAttachment up a with
          | Err attachmentErr => writeRPCError fresh ctx attachmentErr x
          | Ok (Some (MkAttachmentReply status (Some url) (Some expiresAt))) =>
            if negb (bool_decide (status = "ready")) || negb (validRFC3339 expiresAt) || negb (validRedirectURL url)
            then WriteError fresh ctx ErrInvalidUpstreamResponse x
            else redirect ctx "private, no-store" url x
          | Ok _ => WriteError fresh ctx ErrInvalidUpstreamResponse x
          end
        end) = Some url →
    ∃ p e, stored_principal x = Some p ∧
       up_GetAttachment up a = Ok (Some (MkAttachmentReply "ready" (Some url) (Some e)))) as Howner.
  { destruct (stored_principal x) as [p|]; [|by rewrite WriteError_location, Hx].
    destruct (up_GetAttachment up a) as [[[st [u|] [e|]]|]|]; rewrite ?WriteError_location, ?writeRPCError_location, ?Hx; try done.
    case_bool_decide as Est; simpl; [|by rewrite WriteError_location, Hx].
    destruct (_ || _); [by rewrite WriteError_location, Hx|].
    rewrite redirect_location. case_bool_decide; intros [= <-]. subst st. by eauto. }
  destruct published as [[|]|]; [|intros Hl; exists a; split; [done|right]; by apply Howner..].
  destruct (up_GetPublishedAttachmentContent up a) as [[[u e]|]|] eqn:Ec;
    rewrite ?WriteError_location, ?writeRPCError_location, ?Hx; try done.
  destruct (_ || _); [by rewrite WriteError_location, Hx|].
  rewrite redirect_location. case_bool_decide; intros [= <-]. exists a. split; [done|]. left. by eauto.
Qed.

End content.
