(* ===== verification/GCatalog.v ===== *)
(** The services behind the gateway, as far as their errors and callers are
    concerned: the catalogues of the knowledge and attachment services
    (internal/errors), the error boundary of their RPC handlers and how these
    find the caller of a request (internal/transport/rpc/handler.go). *)

From stdpp Require Import base gmap list sets strings.
From Stdlib Require Import ZArith Lia Ascii.
From S2P Require Import Prelude.
From S2P Require Import GoStrings.
From S2P Require Import KDomain.
From S2P Require Import KLogic.
From S2P Require Import ASchema.
From S2P Require Import AStore.
From S2P Require Import AService.
From S2P Require Import AppError.
From S2P Require Import AuthToken.
From S2P Require Import GResponse.

Open Scope Z_scope.

(** ** The knowledge service *)

Definition knowledge_definition (code : app_code) : Definition_ :=
  match code with
  | InvalidInput => MustDefine 30001 "knowledge.invalid_input" KindInvalidArgument "invalid knowledge input"
  | NotFound => MustDefine 30002 "knowledge.not_found" KindNotFound "document not found"
  | Conflict => MustDefine 30003 "knowledge.conflict" KindConflict "resource conflict"
  | Forbidden => MustDefine 30004 "knowledge.forbidden" KindPermissionDenied "permission denied"
  | Unauthenticated => MustDefine 30005 "knowledge.unauthenticated" KindUnauthenticated "authentication required"
  | Unavailable => MustDefine 30006 "knowledge.unavailable" KindUnavailable "dependency unavailable"
  | Precondition => MustDefine 30007 "knowledge.precondition_failed" KindConflict "resource revision does not match"
  | Gone => MustDefine 30008 "knowledge.gone" KindNotFound "resource is permanently unavailable"
  | QuotaExceeded => MustDefine 30009 "knowledge.quota_exceeded" KindConflict "storage quota exceeded"
  | Internal => MustDefine 30999 "knowledge.internal" KindInternal "internal server error"
  end.

(** The Go error behind an error of the request logic; errors of the store and
    of the domain carry no definition. *)
Definition plain_error (e : kerror) : error := AppError.EOther "knowledge" [].

Definition logic_error (e : lerror) : error :=
  match e with
  | App code None => New (knowledge_definition code)
  | App code (Some cause) => Wrap (knowledge_definition code) (plain_error cause)
  | Raw cause => plain_error cause
  end.

(** [transportError] without the log record: an error outside the catalogue is
    wrapped as the internal one. *)
Definition transportError (err : error) : error :=
  match Details err with Some _ => err | None => Wrap (knowledge_definition Internal) err end.

(** The code a call of the service answers with. *)
Definition answered_code (e : lerror) : app_code := match e with App code _ => code | Raw _ => Internal end.

(** What a client of the gateway is told. *)
Definition knowledge_status (code : app_code) : Z :=
  match code with
  | InvalidInput => 400 | Unauthenticated => 401 | Forbidden => 403 | NotFound => 404
  | Conflict | QuotaExceeded => 409 | Gone => 410 | Precondition => 412 | Internal => 500
  | Unavailable => 503
  end.

Lemma transportError_details e :
  Details (transportError (logic_error e)) = Some (knowledge_definition (answered_code e)).
Proof. destruct e as [[] []|]; vm_compute; reflexivity. Qed.

Lemma transportError_made e : made (transportError (logic_error e)).
Proof. destruct e as [[] []|]; split; try done; by exists None. Qed.

Lemma transportError_no_delay e : Extra (transportError (logic_error e)) ExtraRetryAfter = EmptyString.
Proof. destruct e as [[] []|]; vm_compute; reflexivity. Qed.

(** ** The attachment service *)

Definition attachment_definition (code : acode) : Definition_ :=
  match code with
  | AInvalidInput => MustDefine 31001 "attachment.invalid_input" KindInvalidArgument "attachment input is invalid"
  | ANotFound => MustDefine 31002 "attachment.not_found" KindNotFound "attachment not found"
  | AConflict => MustDefine 31003 "attachment.conflict" KindConflict "attachment state conflict"
  | AUnavailable => MustDefine 31006 "attachment.unavailable" KindUnavailable "attachment service is unavailable"
  | AQuotaExceeded => MustDefine 31009 "attachment.quota_exceeded" KindRateLimited "attachment quota exceeded"
  | AInternal => MustDefine 31999 "attachment.internal" KindInternal "internal server error"
  end.

Definition AttachmentUnauthenticated : Definition_ :=
  MustDefine 31005 "attachment.unauthenticated" KindUnauthenticated "authentication is required".

Definition service_error (e : aapp) : error :=
  match app_Cause e with
  | None => New (attachment_definition (app_Code e))
  | Some _ => Wrap (attachment_definition (app_Code e)) (AppError.EOther "attachment" [])
  end.

(** [mapError] of the handler *)
Definition attachment_mapError (err : error) : error :=
  match Details err with Some _ => err | None => Wrap (attachment_definition AInternal) err end.

(** [owner]: the user of the token that came with the call, empty when there is
    none. *)
Definition owner (verify : string → option Principal) (token : string) : result error Z :=
  let token := TrimSpace token in
  if bool_decide (token = EmptyString) then Err (New AttachmentUnauthenticated)
  else match verify token with
       | None => Err (Wrap AttachmentUnauthenticated (AppError.EOther "verify" []))
       | Some principal =>
         if pr_UserID principal <=? 0 then Err (New AttachmentUnauthenticated) else Ok (pr_UserID principal)
       end.

(** ** What a client of the gateway sees of the knowledge service *)

Section statuses.
Context `{ProblemCodec, !Rpc, !RpcLaws}.

(** A failed call of the knowledge service reaches the
    client of the gateway with the entry of its catalogue and the status of that
    entry: 404 for what the caller may not know of, 410 for what is gone, 412
    for a stale revision, 409 for conflicts and quotas, and so on; an error
    outside the catalogue is the internal error of the service. *)
Theorem knowledge_error_status fresh ctx sctx e x :
  request_ids fresh ctx →
  writeRPCError fresh ctx (delivered (ToBizStatus sctx (transportError (logic_error e)))) x =
  answer (client_id fresh ctx) (c_TraceID ctx) (knowledge_status (answered_code e))
    (knowledge_definition (answered_code e)) EmptyString x.
Proof.
  intros Hi. rewrite (rpc_error_answer fresh ctx sctx _ x Hi (transportError_made e)).
  - rewrite transportError_details, transportError_no_delay. simpl. f_equal.
    by destruct (answered_code e).
  - intros d. rewrite transportError_details. intros [= <-]. by destruct (answered_code e).
Qed.

End statuses.
