(* ===== verification/CContent.v ===== *)
(** Three services at one request: the content endpoint of the gateway over the
    joint state of the knowledge and the attachment service ([CWorld]).

    The RPC handlers of the two services answer from their databases; the
    gateway turns what they say into a redirect or a problem document. *)

From stdpp Require Import base gmap list sets strings.
From Stdlib Require Import ZArith Lia.
From S2P Require Import Prelude.
From S2P Require Import GoStrings.
From S2P Require Import KDomain.
From S2P Require Import RichText.
From S2P Require Import Json.
From S2P Require Import KSchema.
From S2P Require Import KTypes.
From S2P Require Import KStore.
From S2P Require Import KPublication.
From S2P Require Import KLogic.
From S2P Require Import KWorld.
From S2P Require Import ASchema.
From S2P Require Import AStore.
From S2P Require Import AService.
From S2P Require Import AWorld.
From S2P Require Import CWorld.
From S2P Require Import CClaims.
From S2P Require Import AppError.
From S2P Require Import AuthToken.
From S2P Require Import GResponse.
From S2P Require Import GServer.
From S2P Require Import GInput.
From S2P Require Import GContent.
From S2P Require Import GCatalog.
From S2P Require Import KSample.
From S2P Require Import AClaims.
From S2P Require Import GServerFacts.

Open Scope Z_scope.

(** The gateway and the services parse identifiers with the same package, and a
    canonical identifier has no space. *)
Class UuidAgrees `{Uuid, UuidText} : Prop := {
  uuid_same v n text : uuid_parse v = Some (n, text) → uuid_version v = Some n;
  uuid_canonical v n : uuid_parse v = Some (n, v) → TrimSpace v = v;
}.

Section disclosure.
Context `{Unicode, Uuid, Url, Codec, Pg}.
Context `{ProblemCodec, Query, UuidText, !UuidAgrees, Redirects, !Rpc, !RpcLaws}.
Variables (objects : Objects) (verify : string → option Principal) (format : Z → string).
Variables (sctx : Context_) (fresh : string).

(** The error a caller of the service sees. *)
Definition failed {A} (err : error) : result rpc_error A := Err (delivered (ToBizStatus sctx err)).

(** [Handler.IsMediaPublished] of the knowledge service *)
Definition serve_IsMediaPublished (w : CWorld) (a : string) : result rpc_error (option bool) :=
  match (LogicIsMediaPublished a (db (knowledge w))).2 with
  | Ok published => Ok (Some published)
  | Err e => failed (transportError (logic_error e))
  end.

(** [Handler.GetPublishedAttachmentContent] of the attachment service *)
Definition serve_PublishedContent (w : CWorld) (a : string) : result rpc_error (option (string * string)) :=
  match (PublishedContent objects a (node (attachment w))).2 with
  | Ok (url, expires) => Ok (Some (url, format expires))
  | Err e => failed (attachment_mapError (service_error e))
  end.

(** [Handler.GetAttachment] of the attachment service, called with [token] *)
Definition serve_GetAttachment (w : CWorld) (token a : string) : result rpc_error (option AttachmentReply) :=
  match owner verify token with
  | Err e => failed e
  | Ok user =>
    match (ReadAttachment objects user a (node (attachment w))).2 with
    | Ok m => Ok (Some (MkAttachmentReply (msg_Status m) (fst <$> msg_Download m) (format ∘ snd <$> msg_Download m)))
    | Err e => failed (attachment_mapError (service_error e))
    end
  end.

(** [upstreamContext]: the token of the request goes along with the calls. *)
Definition upstream (w : CWorld) (x : Exchange) : Upstream :=
  MkUpstream (serve_IsMediaPublished w) (serve_PublishedContent w)
    (serve_GetAttachment w (default EmptyString (stored_token x))).

Lemma serve_published_true w a :
  serve_IsMediaPublished w a = Ok (Some true) ↔
  is_uuid7 a = true ∧ (IsMediaPublished a (db (knowledge w))).2 = Ok true.
Proof.
  unfold serve_IsMediaPublished, LogicIsMediaPublished, validated, KLogic.mapped, lift, ValidateID, check, wrap.
  cbv [mbind tx_bind]. destruct (is_uuid7 a); [|by split; [|intros []]].
  unfold IsMediaPublished, gets. simpl. split; [intros [= E]|intros [_ [= E]]]; by rewrite E.
Qed.

Lemma GetPublished_row a store store' rec :
  AStore.GetPublished a store = (store', Ok rec) →
  ∃ row, attachments store !! a = Some row ∧ t_Status row = StatusReady ∧ rec = toDomain row.
Proof.
  unfold AStore.GetPublished. intros Hg. run_inv.
  match goal with E : _ && _ = true |- _ => apply andb_true_iff in E as [Hs%bool_decide_eq_true _] end.
  by eexists.
Qed.

(** A call of the repository that succeeded. *)
Lemma mapped_ok {A} (m : astore A) n n' (v : A) :
  AService.mapped m n = (n', Ok v) → ∃ store, m (adb n) = (store, Ok v).
Proof.
  unfold AService.mapped, on_db. intros Hm%wrap_ok. destruct (m (adb n)) as [store r]. simplify_eq. by eexists.
Qed.

Lemma mapped_run {A} (m : astore A) n store (v : A) :
  m (adb n) = (store, Ok v) → AService.mapped m n = (MkANode store (log n), Ok v).
Proof. intros Hm. unfold AService.mapped, on_db, wrap. by rewrite Hm. Qed.

Lemma serve_content w a url e :
  serve_PublishedContent w a = Ok (Some (url, e)) →
  ∃ row exp, attachments (adb (node (attachment w))) !! a = Some row ∧ t_Status row = StatusReady ∧
    PresignDownload objects (t_ObjectKey row) = Some (url, exp).
Proof.
  unfold serve_PublishedContent. destruct (PublishedContent _ _ _) as [n' [[u exp]|]] eqn:E; [|done].
  simpl. intros [= -> _]. unfold PublishedContent in E. destruct (validUUIDv7 a); [|done]. simpl in E.
  run_inv. match goal with M : AService.mapped _ _ = _ |- _ => destruct (mapped_ok _ _ _ _ M) as [store Hread] end.
  destruct (GetPublished_row _ _ _ _ Hread) as (row & ? & ? & ->). by eauto.
Qed.

Lemma serve_owned w token a url e :
  serve_GetAttachment w token a = Ok (Some (MkAttachmentReply "ready" (Some url) (Some e))) →
  ∃ p row exp, verify (TrimSpace token) = Some p ∧
    attachments (adb (node (attachment w))) !! a = Some row ∧ t_Status row = StatusReady ∧
    t_OwnerID row = pr_UserID p ∧ PresignDownload objects (t_ObjectKey row) = Some (url, exp).
Proof.
  unfold serve_GetAttachment, owner. case_bool_decide; [done|].
  destruct (verify (TrimSpace token)) as [p|]; [|done]. destruct (pr_UserID p <=? 0) eqn:Eu; [done|].
  destruct (ReadAttachment _ _ _ _) as [n' [m|]] eqn:E; [|done]. simpl. intros [= Hst Hu He].
  unfold ReadAttachment in E. destruct (_ || _); [done|]. run_inv.
  match goal with M : AService.mapped _ _ = _ |- _ => destruct (mapped_ok _ _ _ _ M) as [store Hread] end.
  unfold GetAttachment in Hread. run_inv.
  match goal with M : owned _ _ _ = Some ?r |- _ => rename M into Ho; rename r into row end.
  unfold owned in Ho. destruct (attachments _ !! a) as [row'|] eqn:Ea; [|done]. simpl in Ho.
  destruct (t_OwnerID row' =? pr_UserID p) eqn:Eo; [|done]. injection Ho as ->. simpl in E.
  case_bool_decide as Es; [|by run_inv]. run_inv.
  match goal with M : PresignDownload _ _ = Some ?d |- _ => destruct d as [u exp] end.
  simpl in Hu. injection Hu as ->. exists p, row, exp. split_and!; try done. lia.
Qed.

(** C6: the content endpoint discloses the address of an
    attachment only while it is ready and either some published document outside
    the trash has it among its media, whoever asks, or the caller's token
    verifies to its owner.  Conversely, in every joint state of the two services,
    every reader is redirected to a ready attachment of a published document
    when the object store signs its address. *)
Theorem attachment_disclosure w r ctx x :
  location x = None →
  (∀ url, location (handleGetAttachmentContent (upstream w x) fresh r ctx x) = Some url →
   ∃ a row exp,
     pathUUID r "attachment_id" = Some a ∧ attachments (adb (node (attachment w))) !! a = Some row ∧
     t_Status row = StatusReady ∧ PresignDownload objects (t_ObjectKey row) = Some (url, exp) ∧
     ((IsMediaPublished a (db (knowledge w))).2 = Ok true ∨
      ∃ token p, stored_token x = Some token ∧ verify (TrimSpace token) = Some p ∧
                 t_OwnerID row = pr_UserID p)) ∧
  (∀ a row url exp,
     creachable w → x_Dependencies x = true → pathUUID r "attachment_id" = Some a →
     requireNoQuery r = true → requireNoBody r = true →
     (IsMediaPublished a (db (knowledge w))).2 = Ok true →
     attachments (adb (node (attachment w))) !! a = Some row → t_Status row = StatusReady →
     PresignDownload objects (t_ObjectKey row) = Some (url, exp) →
     validRFC3339 (format exp) = true → validRedirectURL url = true → url ≠ EmptyString →
     location (handleGetAttachmentContent (upstream w x) fresh r ctx x) = Some url ∧
     x_Status (handleGetAttachmentContent (upstream w x) fresh r ctx x) = 303).
Proof.
  intros Hx. split.
  - intros url (a & Ha & [[Hp [e Hc]]|(p & e & Hp & Hg)])%content_location; [|  |done].
    + apply serve_published_true in Hp as [_ Hp]. destruct (serve_content _ _ _ _ Hc) as (row & exp & ? & ? & ?).
      exists a, row, exp. by split_and!; [..|left].
    + destruct (serve_owned _ _ _ _ _ Hg) as (p' & row & exp & Hv & ? & ? & ? & ?).
      exists a, row, exp. split_and!; try done. right.
      destruct (stored_token x) as [token|] eqn:Et; [by exists token, p'|].
      unfold serve_GetAttachment, upstream, owner in Hg. by rewrite Et in Hg.
  - intros a row url exp Hw Hd Ha Hq Hb Hp Hr Hs Hu Ht Hl Hne.
    assert (uuid_parse a = Some (7, a)) as Hid.
    { unfold pathUUID in Ha. destruct (uuid_parse _) as [[n text]|] eqn:E in Ha; [|done].
      destruct (n =? 7) eqn:E7; [|done]. case_bool_decide; [|done]. injection Ha as <-. rewrite E.
      apply Z.eqb_eq in E7. congruence. }
    assert (uuid_version (TrimSpace a) = Some 7) as Hv.
    { rewrite (uuid_canonical a 7) by done. by eapply uuid_same. }
    assert (serve_IsMediaPublished w a = Ok (Some true)) as Epub.
    { apply serve_published_true. split; [|done]. by apply bool_decide_eq_true. }
    assert (serve_PublishedContent w a = Ok (Some (url, format exp))) as Econ.
    { destruct (media_reference w a Hw Hp) as (HA & i & d & f & _ & _ & Hf & Hfa).
      destruct (referenced_served _ _ _ _ _ HA Hf Hfa) as (row' & Hr' & _ & Hserved).
      rewrite Hr in Hr'. injection Hr' as <-. destruct (Hserved Hs) as [rec Hrec].
      destruct (GetPublished a (adb (node (attachment w)))) as [store' res] eqn:EG. simpl in Hrec. subst res.
      assert (rec = toDomain row) as ->.
      { destruct (GetPublished_row _ _ _ _ EG) as (row' & Hrow & _ & ->). congruence. }
      unfold serve_PublishedContent, PublishedContent, validUUIDv7. rewrite bool_decide_true by done.
      cbv [negb mbind tx_bind]. rewrite (mapped_run _ _ _ _ EG). unfold expect.
      change (at_ObjectKey (toDomain row)) with (t_ObjectKey row). by rewrite Hu. }
    unfold handleGetAttachmentContent. rewrite Ha, Hq, Hb, Hd. simpl. rewrite Epub, Econ, Ht, Hl. simpl.
    split; [by rewrite redirect_location, bool_decide_false|].
    unfold redirect. by destruct (responseMetadata fresh ctx x) as [[] ?].
Qed.

End disclosure.

(** A reader without a token asks for the attachment of the document published
    in the sample run of the services, and a failed call of the knowledge
    service on its way to the client. *)

(** Texts without space around them are identifiers. *)
#[export] Instance trimmed_uuid : UuidText := {|
  uuid_parse v := if bool_decide (TrimSpace v = v) then Some (7, v) else None;
|}.

#[export] Instance trimmed_agrees : UuidAgrees.
Proof.
  split.
  - intros v n text. simpl. case_bool_decide; [|done]. by intros [= <- _].
  - intros v n. simpl. by case_bool_decide.
Qed.

#[export] Instance no_query : Query := {| ParseQuery _ := Some [] |}.

#[export] Instance https_only : Redirects := {|
  url_Parse v := if bool_decide (v = "https://get") then Some (MkUrlParts true "get" false "https" EmptyString) else None;
  validRFC3339 _ := true;
|}.

Definition reader : Input := MkInput (λ _, []) (λ _, "a1") EmptyString EmptyString.

Definition asked : Exchange := set_Dependencies true new_exchange.

Definition shown_upstream : Upstream :=
  upstream kind_store (λ _, None) (λ _, "2026-01-01T00:00:00Z") Background shown_published asked.

Lemma attachment_disclosure_witness :
  stored_token asked = None ∧
  location (handleGetAttachmentContent shown_upstream "fresh" reader gateway_ctx asked) = Some "https://get" ∧
  x_Status (handleGetAttachmentContent shown_upstream "fresh" reader gateway_ctx asked) = 303.
Proof.
  split; [reflexivity|].
  destruct (attachments (adb (node (attachment shown_published))) !! "a1") as [row|] eqn:Hrow.
  - apply (proj2 (attachment_disclosure kind_store (λ _, None) (λ _, "2026-01-01T00:00:00Z") Background "fresh"
      shown_published reader gateway_ctx asked eq_refl) "a1" row "https://get" 0);
      try (vm_compute; reflexivity); [apply shown_published_reachable|exact Hrow| |done].
    assert (t_Status <$> attachments (adb (node (attachment shown_published))) !! "a1" = Some StatusReady) as Hs
      by (vm_compute; reflexivity).
    rewrite Hrow in Hs. injection Hs as Hs. exact Hs.
  - exfalso. assert (is_some (attachments (adb (node (attachment shown_published))) !! "a1") = true) as Hs
      by (vm_compute; reflexivity).
    rewrite Hrow in Hs. discriminate Hs.
Defined.

(** A stale revision: the precondition of the store becomes a 412. *)
Definition stale : lerror := App Precondition None.

Lemma knowledge_error_status_witness :
  writeRPCError "fresh" gateway_ctx (delivered (ToBizStatus Background (transportError (logic_error stale)))) new_exchange =
  answer "req-1" EmptyString 412 (knowledge_definition Precondition) EmptyString new_exchange.
Proof.
  exact (knowledge_error_status "fresh" gateway_ctx Background stale new_exchange
    ltac:(split; [reflexivity|by right])).
Defined.
