(* ===== verification/AppRuntime.v ===== *)
(** The life of a service process: [Runtime] of pkg/app/runner.go.

    Registration is a pair of functions.  [run] is a state machine: the main
    goroutine at a program point, the channels it reads, and the calls into
    components that have not returned.  A step is one move of the main goroutine
    or an event outside it: a component's [Serve], [Ready] or [Shutdown]
    returns, the context is cancelled, a deadline passes. *)

From stdpp Require Import base list sets strings relations well_founded.
From Stdlib Require Import ZArith Lia.
From S2P Require Import Prelude.

(** ** Registration *)

Record Runtime := MkRuntime {
  rt_components : list string;
  rt_cleanups : list string;
  rt_running : bool;
  rt_stopped : bool;
  rt_stopUnsafe : bool;
  rt_isClosed : bool;
}.

Definition newRuntime : Runtime := MkRuntime [] [] false false false false.

Inductive register_error := NameRequired | AlreadyStarted | DuplicateName.

Definition AddComponent (name : string) (r : Runtime) : result register_error Runtime :=
  if bool_decide (name = EmptyString) then Err NameRequired
  else if rt_running r || rt_isClosed r then Err AlreadyStarted
  else if bool_decide (name ∈ rt_components r) then Err DuplicateName
  else Ok (MkRuntime (rt_components r ++ [name]) (rt_cleanups r) (rt_running r) (rt_stopped r)
             (rt_stopUnsafe r) (rt_isClosed r)).

Definition AddCleanup (name : string) (r : Runtime) : result register_error Runtime :=
  if bool_decide (name = EmptyString) then Err NameRequired
  else if rt_running r || rt_isClosed r then Err AlreadyStarted
  else if bool_decide (name ∈ rt_cleanups r) then Err DuplicateName
  else Ok (MkRuntime (rt_components r) (rt_cleanups r ++ [name]) (rt_running r) (rt_stopped r)
             (rt_stopUnsafe r) (rt_isClosed r)).

Definition set_running (r : Runtime) : Runtime :=
  MkRuntime (rt_components r) (rt_cleanups r) true (rt_stopped r) (rt_stopUnsafe r) (rt_isClosed r).
Definition set_stopped (r : Runtime) : Runtime :=
  MkRuntime (rt_components r) (rt_cleanups r) (rt_running r) true (rt_stopUnsafe r) (rt_isClosed r).
Definition set_stopUnsafe (v : bool) (r : Runtime) : Runtime :=
  MkRuntime (rt_components r) (rt_cleanups r) (rt_running r) (rt_stopped r) v (rt_isClosed r).
Definition set_isClosed (r : Runtime) : Runtime :=
  MkRuntime (rt_components r) (rt_cleanups r) (rt_running r) (rt_stopped r) (rt_stopUnsafe r) true.

(** ** A process *)

(** How a [Serve] or [Shutdown] call ended: without error, with one of the
    errors of an orderly stop, or with another one. *)
Inductive stop_result := SNil | SExpected | SFailed.

Definition isExpectedStopError (r : stop_result) : bool := match r with SFailed => false | _ => true end.

(** How a [Ready] call ended; [RErr true] is the error of the context. *)
Inductive ready_result := ROk | RErr (of_context : bool).

(** The errors [run] joins. *)
Inductive failure :=
| FStart (name : string) | FStartup | FServe (name : string) | FShutdown (name : string)
| FWait | FResourcesOpen | FCleanup (name : string).

(** What the process does to its surroundings, in order. *)
Inductive event :=
| EReady (name : string) | EServing (on : bool) | EShutdown (name : string) | ECleanup (name : string).

(** Program points of [run]; [remaining] counts the results still expected. *)
Inductive point :=
| PIdle
| PStarting (readyCount remaining : nat)
| PStarted (remaining : nat)
| PServing (remaining : nat)
| PDraining (remaining : nat)
| PShutdown (todo : list string) (allReturned : bool) (remaining : nat)
| PShutdownCall (name : string) (todo : list string) (allReturned : bool) (remaining : nat)
| PWait (shutdownReturned : bool) (remaining : nat)
| PClose (hooks : list string)
| PDone.

Record Process := MkProcess {
  p_runtime : Runtime;
  p_point : point;
  p_live : list string;
  p_results : list (string * stop_result);
  p_unready : list string;
  p_readiness : list (string * ready_result);
  p_stopping : list string;
  p_returned : list (string * stop_result);
  p_cancelled : bool;
  p_startup : bool;
  p_deadline : bool;
  p_joined : list failure;
  p_log : list event;
}.

Definition at_point (v : point) (p : Process) : Process :=
  MkProcess (p_runtime p) v (p_live p) (p_results p) (p_unready p) (p_readiness p) (p_stopping p)
    (p_returned p) (p_cancelled p) (p_startup p) (p_deadline p) (p_joined p) (p_log p).

Definition with_runtime (f : Runtime → Runtime) (p : Process) : Process :=
  MkProcess (f (p_runtime p)) (p_point p) (p_live p) (p_results p) (p_unready p) (p_readiness p)
    (p_stopping p) (p_returned p) (p_cancelled p) (p_startup p) (p_deadline p) (p_joined p) (p_log p).

Definition with_serves (live : list string) (results : list (string * stop_result)) (p : Process) : Process :=
  MkProcess (p_runtime p) (p_point p) live results (p_unready p) (p_readiness p) (p_stopping p)
    (p_returned p) (p_cancelled p) (p_startup p) (p_deadline p) (p_joined p) (p_log p).

Definition with_readies (unready : list string) (readiness : list (string * ready_result)) (p : Process) : Process :=
  MkProcess (p_runtime p) (p_point p) (p_live p) (p_results p) unready readiness (p_stopping p)
    (p_returned p) (p_cancelled p) (p_startup p) (p_deadline p) (p_joined p) (p_log p).

Definition with_stops (stopping : list string) (returned : list (string * stop_result)) (p : Process) : Process :=
  MkProcess (p_runtime p) (p_point p) (p_live p) (p_results p) (p_unready p) (p_readiness p) stopping
    returned (p_cancelled p) (p_startup p) (p_deadline p) (p_joined p) (p_log p).

Definition with_signals (cancelled startup deadline : bool) (p : Process) : Process :=
  MkProcess (p_runtime p) (p_point p) (p_live p) (p_results p) (p_unready p) (p_readiness p) (p_stopping p)
    (p_returned p) cancelled startup deadline (p_joined p) (p_log p).

Definition join (fs : list failure) (p : Process) : Process :=
  MkProcess (p_runtime p) (p_point p) (p_live p) (p_results p) (p_unready p) (p_readiness p) (p_stopping p)
    (p_returned p) (p_cancelled p) (p_startup p) (p_deadline p) (p_joined p ++ fs) (p_log p).

Definition emit (e : event) (p : Process) : Process :=
  MkProcess (p_runtime p) (p_point p) (p_live p) (p_results p) (p_unready p) (p_readiness p) (p_stopping p)
    (p_returned p) (p_cancelled p) (p_startup p) (p_deadline p) (p_joined p) (p_log p ++ [e]).

(** [if ctx.Err() == nil || !isExpectedStopError(result.err)] *)
Definition serve_failure (p : Process) (name : string) (r : stop_result) : list failure :=
  if negb (p_cancelled p) || negb (isExpectedStopError r) then [FServe name] else [].

(** [if ctx.Err() == nil || !errors.Is(result.err, ctx.Err())] *)
Definition ready_failure (p : Process) (name : string) (of_context : bool) : list failure :=
  if negb (p_cancelled p) || negb of_context then [FStart name] else [].

(** [if err != nil && !isExpectedStopError(err)] *)
Definition late_failure (f : failure) (r : stop_result) : list failure :=
  if isExpectedStopError r then [] else [f].

(** The components shut down in reverse order of registration. *)
Definition shutdown_order (r : Runtime) : list string := rev (rt_components r).

Inductive step : Process → Process → Prop :=
(* outside the main goroutine *)
| serve_returns p pre n post r :
    p_live p = pre ++ n :: post →
    step p (with_serves (pre ++ post) (p_results p ++ [(n, r)]) p)
| ready_returns p pre n post r :
    p_unready p = pre ++ n :: post →
    step p (with_readies (pre ++ post) (p_readiness p ++ [(n, r)]) p)
| shutdown_returns p pre n post r :
    p_stopping p = pre ++ n :: post →
    step p (with_stops (pre ++ post) (p_returned p ++ [(n, r)]) p)
| cancelled p :
    p_cancelled p = false → step p (with_signals true true (p_deadline p) p)
| startup_over p :
    p_startup p = false → step p (with_signals (p_cancelled p) true (p_deadline p) p)
| deadline_over p :
    rt_stopped (p_runtime p) = true → p_deadline p = false →
    step p (with_signals (p_cancelled p) (p_startup p) true p)
(* run: the goroutines start; a runtime that was used or has no component is
   refused without a step *)
| run_starts p :
    p_point p = PIdle → rt_running (p_runtime p) = false → rt_isClosed (p_runtime p) = false →
    rt_components (p_runtime p) ≠ [] →
    let cs := rt_components (p_runtime p) in
    step p (with_runtime set_running p |> with_serves cs [] |> with_readies cs []
              |> at_point (PStarting 0 (length cs)))
(* run: the start-up loop *)
| start_ready p k m n q :
    p_point p = PStarting k m → (k < length (rt_components (p_runtime p)))%nat →
    p_readiness p = (n, ROk) :: q →
    step p (with_readies (p_unready p) q p |> emit (EReady n) |> at_point (PStarting (S k) m))
| start_unready p k m n c q :
    p_point p = PStarting k m → (k < length (rt_components (p_runtime p)))%nat →
    p_readiness p = (n, RErr c) :: q →
    step p (with_readies (p_unready p) q p |> join (ready_failure p n c) |> at_point (PDraining m))
| start_exit p k m n r q :
    p_point p = PStarting k (S m) → (k < length (rt_components (p_runtime p)))%nat →
    p_results p = (n, r) :: q →
    step p (with_serves (p_live p) q p |> join (serve_failure p n r) |> at_point (PDraining m))
| start_timeout p k m :
    p_point p = PStarting k m → (k < length (rt_components (p_runtime p)))%nat → p_startup p = true →
    step p (join (if p_cancelled p then [] else [FStartup]) p |> at_point (PDraining m))
| start_cancelled p k m :
    p_point p = PStarting k m → (k < length (rt_components (p_runtime p)))%nat → p_cancelled p = true →
    step p (at_point (PDraining m) p)
| start_complete p k m :
    p_point p = PStarting k m → k = length (rt_components (p_runtime p)) →
    step p (at_point (PStarted m) p)
(* run: a result that is already there goes before readiness *)
| started_exit p m n r q :
    p_point p = PStarted (S m) → p_results p = (n, r) :: q →
    step p (with_serves (p_live p) q p |> join [FServe n] |> at_point (PDraining m))
| started_serving p m :
    p_point p = PStarted m → p_results p = [] →
    step p (emit (EServing true) p |> at_point (PServing m))
(* run: serving *)
| serving_exit p m n r q :
    p_point p = PServing (S m) → p_results p = (n, r) :: q →
    step p (with_serves (p_live p) q p |> join (serve_failure p n r) |> at_point (PDraining m))
| serving_cancelled p m :
    p_point p = PServing m → p_cancelled p = true →
    step p (at_point (PDraining m) p)
(* run: draining, then shutdownComponents *)
| draining p m :
    p_point p = PDraining m →
    step p (with_runtime set_stopped p |> emit (EServing false)
              |> at_point (PShutdown (shutdown_order (p_runtime p)) true m))
| shutdown_call p n todo ok m :
    p_point p = PShutdown (n :: todo) ok m →
    step p (with_stops (n :: p_stopping p) (p_returned p) p |> emit (EShutdown n)
              |> at_point (PShutdownCall n todo ok m))
| shutdown_returned p n todo ok m r pre post :
    p_point p = PShutdownCall n todo ok m → p_returned p = pre ++ (n, r) :: post →
    step p (with_stops (p_stopping p) (pre ++ post) p |> join (late_failure (FShutdown n) r)
              |> at_point (PShutdown todo ok m))
| shutdown_late p n todo ok m :
    p_point p = PShutdownCall n todo ok m → n ∉ (p_returned p).*1 → p_deadline p = true →
    step p (join [FShutdown n] p |> at_point (PShutdown todo false m))
| shutdown_over p ok m :
    p_point p = PShutdown [] ok m →
    step p (with_runtime (set_stopUnsafe (negb ok)) p |> at_point (PWait ok m))
(* run: waitForComponents *)
| wait_exit p ok m n r q :
    p_point p = PWait ok (S m) → p_results p = (n, r) :: q →
    step p (with_serves (p_live p) q p |> join (late_failure (FServe n) r) |> at_point (PWait ok m))
| wait_deadline p ok m :
    p_point p = PWait ok (S m) → p_results p = [] → p_deadline p = true →
    step p (join [FWait; FResourcesOpen] p |> with_runtime set_isClosed |> at_point PDone)
| wait_unsafe p :
    p_point p = PWait false 0 →
    step p (join [FResourcesOpen] p |> with_runtime set_isClosed |> at_point PDone)
(* run: close, where the components count as stopped already *)
| wait_over p :
    p_point p = PWait true 0 → rt_isClosed (p_runtime p) = false →
    step p (with_runtime set_isClosed p |> at_point (PClose (rev (rt_cleanups (p_runtime p)))))
| close_hook p h hs (failed : bool) :
    p_point p = PClose (h :: hs) →
    step p (emit (ECleanup h) p |> join (if failed then [FCleanup h] else []) |> at_point (PClose hs))
| close_over p :
    p_point p = PClose [] → step p (at_point PDone p).

(** A process that registered its components and cleanups and has not run. *)
Definition fresh (r : Runtime) : Process :=
  MkProcess r PIdle [] [] [] [] [] [] false false false [] [].

(** What bootstrap can register. *)
Inductive registered : Runtime → Prop :=
| registered_new : registered newRuntime
| registered_component r r' n : registered r → AddComponent n r = Ok r' → registered r'
| registered_cleanup r r' n : registered r → AddCleanup n r = Ok r' → registered r'.

Definition reachable (r : Runtime) (p : Process) : Prop := rtc step (fresh r) p.

(** What the life of a process guarantees. *)

(** ** Reading the log *)

Definition readies (log : list event) : list string :=
  omap (λ e, match e with EReady n => Some n | _ => None end) log.

Definition shutdowns (log : list event) : list string :=
  omap (λ e, match e with EShutdown n => Some n | _ => None end) log.

Definition cleanups (log : list event) : list string :=
  omap (λ e, match e with ECleanup n => Some n | _ => None end) log.

(** The readiness the health checks report. *)
Definition serving (log : list event) : bool :=
  foldl (λ b e, match e with EServing on => on | _ => b end) false log.

Lemma serving_snoc log e :
  serving (log ++ [e]) = match e with EServing on => on | _ => serving log end.
Proof. unfold serving. by rewrite foldl_app. Qed.

(** ** Invariants *)

(** What has started: the results expected, the calls of [Shutdown] and the
    cleanups still to make. *)
Definition expected_results (pt : point) : nat :=
  match pt with
  | PStarting _ m | PStarted m | PServing m | PDraining m | PShutdown _ _ m | PShutdownCall _ _ _ m
  | PWait _ m => m
  | _ => 0
  end.

(** Results are counted: an expected one is in the channel or its component
    still serves. *)
Definition counted_results (p : Process) : Prop :=
  match p_point p with
  | PDone => cleanups (p_log p) ≠ [] → p_live p = []
  | pt => expected_results pt = (length (p_live p) + length (p_results p))%nat
  end.

(** Calls of [Shutdown] that have not returned. *)
Definition stops_tracked (p : Process) : Prop :=
  match p_point p with
  | PShutdown _ false _ | PShutdownCall _ _ false _ | PWait false _ => True
  | PShutdownCall n _ true _ =>
    (p_stopping p = [n] ∧ p_returned p = []) ∨ (p_stopping p = [] ∧ ∃ r, p_returned p = [(n, r)])
  | PDone => cleanups (p_log p) ≠ [] → p_stopping p = []
  | _ => p_stopping p = [] ∧ p_returned p = []
  end.

(** Where the calls of [Shutdown] and of the cleanups stand. *)
Definition in_order (r : Runtime) (p : Process) : Prop :=
  match p_point p with
  | PIdle | PStarting _ _ | PStarted _ | PServing _ | PDraining _ =>
    shutdowns (p_log p) = [] ∧ cleanups (p_log p) = []
  | PShutdown todo _ _ | PShutdownCall _ todo _ _ =>
    shutdowns (p_log p) ++ todo = shutdown_order r ∧ cleanups (p_log p) = []
  | PWait _ _ => shutdowns (p_log p) = shutdown_order r ∧ cleanups (p_log p) = []
  | PClose hooks =>
    shutdowns (p_log p) = shutdown_order r ∧ cleanups (p_log p) ++ hooks = rev (rt_cleanups r)
  | PDone =>
    shutdowns (p_log p) = shutdown_order r ∧
    (cleanups (p_log p) = rev (rt_cleanups r) ∨ cleanups (p_log p) = [] ∧ FResourcesOpen ∈ p_joined p)
  end.

(** Who is ready. *)
Definition ready_tracked (r : Runtime) (p : Process) : Prop :=
  match p_point p with
  | PIdle => readies (p_log p) = []
  | PStarting k _ =>
    k = length (readies (p_log p)) ∧
    p_unready p ++ (p_readiness p).*1 ++ readies (p_log p) ≡ₚ rt_components r
  | PStarted _ => readies (p_log p) ≡ₚ rt_components r
  | _ => True
  end ∧
  (serving (p_log p) = true →
   readies (p_log p) ≡ₚ rt_components r ∧
   match p_point p with PServing _ | PDraining _ => True | _ => False end).

(** Why the process stops. *)
Definition stop_explained (p : Process) : Prop :=
  match p_point p with
  | PIdle | PStarting _ _ | PStarted _ | PServing _ => True
  | _ => p_joined p = [] → p_cancelled p = true
  end.

Definition same_registration (r : Runtime) (p : Process) : Prop :=
  rt_components (p_runtime p) = rt_components r ∧ rt_cleanups (p_runtime p) = rt_cleanups r.

(** One case per rule: the facts about the state before are used in the goal. *)
Ltac by_rule :=
  intros []; simpl in *;
  repeat match goal with
  | E : p_point _ = _ |- _ => rewrite E in *; clear E
  | E : p_results _ = _ |- _ => rewrite E in *; clear E
  | E : p_live _ = _ |- _ => rewrite E in *; clear E
  | E : p_readiness _ = _ |- _ => rewrite E in *; clear E
  | E : p_unready _ = _ |- _ => rewrite E in *; clear E
  | E : p_returned _ = _ |- _ => rewrite E in *; clear E
  | E : p_stopping _ = _ |- _ => rewrite E in *; clear E
  end; simpl in *.

Lemma readies_snoc log e : readies (log ++ [e]) = readies log ++ match e with EReady n => [n] | _ => [] end.
Proof. unfold readies. rewrite omap_app. by destruct e. Qed.

Lemma shutdowns_snoc log e :
  shutdowns (log ++ [e]) = shutdowns log ++ match e with EShutdown n => [n] | _ => [] end.
Proof. unfold shutdowns. rewrite omap_app. by destruct e. Qed.

Lemma cleanups_snoc log e :
  cleanups (log ++ [e]) = cleanups log ++ match e with ECleanup n => [n] | _ => [] end.
Proof. unfold cleanups. rewrite omap_app. by destruct e. Qed.

Ltac read_log := rewrite ?serving_snoc, ?readies_snoc, ?shutdowns_snoc, ?cleanups_snoc, ?app_nil_r in *.

Lemma step_registration r p p' : step p p' → same_registration r p → same_registration r p'.
Proof. by intros [] [? ?]; split; simpl. Qed.

(** An event outside the main goroutine comes at any point. *)
Ltac any_point := match goal with |- context [p_point ?q] => destruct (p_point q) end; simpl in *.

Lemma step_counted p p' : step p p' → counted_results p → in_order (p_runtime p) p → counted_results p'.
Proof.
  unfold counted_results, in_order. by_rule; intros Hc Ho; simpl in *; try done; try lia.
  - any_point; rewrite ?length_app in *; simpl in *; try lia.
    intros Hn. destruct (app_cons_not_nil _ _ _ (eq_sym (Hc Hn))).
  - intros Hn. by destruct Ho.
  - intros Hn. by destruct Ho.
  - intros _. destruct (p_live _); [done|]. simpl in Hc. lia.
Qed.

Lemma step_stops p p' : step p p' → stops_tracked p → in_order (p_runtime p) p → stops_tracked p'.
Proof.
  unfold stops_tracked, in_order. by_rule; intros Hc Ho; simpl in *; try done.
  - assert (∀ l : list string, l = pre ++ n :: post → l ≠ []) as Hne.
    { intros l ->. by destruct pre. }
    any_point; repeat case_match; try done;
      try (by destruct Hc as [Hc _]; destruct (Hne _ eq_refl)); try (by intros Hn; destruct (Hne _ eq_refl (Hc Hn))).
    destruct Hc as [[Hc Hr]|[Hc _]]; [|by destruct (Hne _ eq_refl)].
    destruct pre as [|? [|]]; simplify_eq/=. right. rewrite Hr. split; [done|by eexists].
  - destruct ok; [|done]. destruct Hc as [-> ?]. by left.
  - destruct ok; [|done]. destruct Hc as [[_ Hc]|[? [? Hc]]]; [by destruct pre|].
    destruct pre as [|? [|]]; simplify_eq/=. done.
  - intros Hn. by destruct Ho.
  - intros Hn. by destruct Ho.
  - by intros _; destruct Hc.
Qed.

Lemma step_order r p p' :
  step p p' → same_registration r p → in_order r p → in_order r p'.
Proof.
  unfold in_order, shutdown_order. by_rule; intros [Hrc Hrk] Ho; simpl in *; read_log; try done.
  all: destruct Ho as [Ho1 Ho2]; rewrite ?Ho1, ?Ho2, ?Hrc, ?Hrk, <-?app_assoc in *; simpl; try done.
  - unfold shutdown_order. by rewrite Hrc.
  - split; [done|]. right. set_solver.
  - split; [done|]. right. set_solver.
  - split; [done|]. by left.
Qed.

Lemma step_ready r p p' :
  step p p' → same_registration r p → ready_tracked r p → ready_tracked r p'.
Proof.
  unfold ready_tracked. by_rule; intros [Hrc Hrk] [Ho Hs]; simpl in *; read_log; try done.
  - split; [|done]. any_point; try done. destruct Ho as [-> Ho]. split; [done|]. rewrite <-Ho, fmap_app.
    simpl. solve_Permutation.
  - rewrite Ho. split; [|naive_solver]. subst cs. simpl. by rewrite app_nil_r, Hrc.
  - destruct Ho as [-> Ho]. split; [|naive_solver]. rewrite length_app, <-Ho. simpl.
    split; [lia|]. solve_Permutation.
  - naive_solver.
  - naive_solver.
  - naive_solver.
  - naive_solver.
  - destruct Ho as [Hk Ho]. split; [|naive_solver]. subst k. rewrite Hrc in Hk.
    assert (p_unready p0 ++ (p_readiness p0).*1 = []) as E.
    { apply Permutation_length in Ho. rewrite !length_app in Ho. apply nil_length_inv. rewrite length_app. lia. }
    by rewrite app_assoc, E in Ho.
Qed.

Lemma step_explained p p' : step p p' → stop_explained p → stop_explained p'.
Proof.
  unfold stop_explained. by_rule; intros Ho; simpl in *; try done.
  1: by any_point.
  all: intros [E1 E2]%app_nil; try done; try by apply Ho.
  all: unfold serve_failure, ready_failure in E2; by destruct (p_cancelled p0).
Qed.

(** Flags of the runtime. *)
Definition flags_tracked (p : Process) : Prop :=
  match p_point p with
  | PIdle => rt_running (p_runtime p) = false ∧ rt_isClosed (p_runtime p) = false
  | PShutdown _ _ _ | PShutdownCall _ _ _ _ | PWait _ _ =>
    rt_stopped (p_runtime p) = true ∧ rt_isClosed (p_runtime p) = false
  | PClose _ | PDone => True
  | _ => rt_isClosed (p_runtime p) = false
  end.

Lemma step_flags p p' : step p p' → flags_tracked p → flags_tracked p'.
Proof. unfold flags_tracked. by_rule; intros Ho; simpl in *; naive_solver. Qed.

(** ** Reachable processes *)

Record tracked (r : Runtime) (p : Process) : Prop := MkTracked {
  tr_registration : same_registration r p;
  tr_counted : counted_results p;
  tr_stops : stops_tracked p;
  tr_order : in_order r p;
  tr_ready : ready_tracked r p;
  tr_explained : stop_explained p;
  tr_flags : flags_tracked p;
}.

Lemma in_order_same r p : same_registration r p → in_order r p → in_order (p_runtime p) p.
Proof. unfold in_order, shutdown_order. intros [-> ->]. done. Qed.

Lemma step_tracked r p p' : step p p' → tracked r p → tracked r p'.
Proof.
  intros Hs []. pose proof (in_order_same r p tr_registration0 tr_order0). split.
  - by eapply step_registration.
  - by eapply step_counted.
  - by eapply step_stops.
  - by eapply step_order.
  - by eapply step_ready.
  - by eapply step_explained.
  - by eapply step_flags.
Qed.

Lemma registered_idle r : registered r → rt_running r = false ∧ rt_isClosed r = false.
Proof.
  induction 1 as [|r r' n _ [IH1 IH2] Ha|r r' n _ [IH1 IH2] Ha]; [done|..];
    unfold AddComponent, AddCleanup in Ha; repeat case_match; simplify_eq; done.
Qed.

Lemma reachable_tracked r p : registered r → reachable r p → tracked r p.
Proof.
  intros Hr Hp. refine (rtc_keeps step (tracked r) _ _ _ _ Hp).
  - intros x y Hx Hxy. by eapply step_tracked.
  - destruct (registered_idle r Hr). split; try done.
Qed.

(** C29: whatever the components do, at any moment of the life
    of a process: it reports itself ready only when every component said it is
    ready and before any is shut down; components are shut down in reverse order
    of registration, every one of them before the process ends; resources are
    released in reverse order, only once every component has returned from its
    service and from its shutdown.  At the end either all were released or, with
    an error, none was; and the process ends without an error only when it was
    asked to stop. *)
Theorem orderly_lifecycle r p :
  registered r → reachable r p →
  let log := p_log p in
  (serving log = true →
   readies log ≡ₚ rt_components r ∧ shutdowns log = [] ∧ cleanups log = []) ∧
  shutdowns log `prefix_of` rev (rt_components r) ∧
  cleanups log `prefix_of` rev (rt_cleanups r) ∧
  (cleanups log ≠ [] →
   p_live p = [] ∧ p_stopping p = [] ∧ shutdowns log = rev (rt_components r)) ∧
  (p_point p = PDone →
   shutdowns log = rev (rt_components r) ∧
   (cleanups log = rev (rt_cleanups r) ∨ cleanups log = [] ∧ FResourcesOpen ∈ p_joined p) ∧
   (p_joined p = [] → p_cancelled p = true ∧ cleanups log = rev (rt_cleanups r))).
Proof.
  intros Hr Hp log. destruct (reachable_tracked r p Hr Hp) as [_ Hc Hst Ho [_ Hs] He _].
  unfold counted_results, stops_tracked, in_order, stop_explained, shutdown_order in *.
  split_and!.
  - intros [? Hpt]%Hs. split; [done|]. by destruct (p_point p).
  - destruct (p_point p); destruct Ho as [Ho _]; subst log; rewrite ?Ho; try apply prefix_nil; try done;
      rewrite <-Ho; by eexists.
  - destruct (p_point p); destruct Ho as [_ Ho]; subst log; try (rewrite Ho; by apply prefix_nil).
    + rewrite <-Ho. by eexists.
    + destruct Ho as [-> | [-> _]]; [done|apply prefix_nil].
  - intros Hn. subst log. destruct (p_point p); try (by destruct Ho).
    + destruct Hst as [? _], Ho as [? _]. split_and!; try done. apply nil_length_inv. simpl in Hc. lia.
    + destruct Ho as [? _]. auto.
  - intros Hd. rewrite Hd in *. destruct Ho as [Ho1 Ho2]. split; [done|]. split; [done|].
    intros Hj. split; [auto|]. destruct Ho2 as [?|[_ Hj']]; [done|]. rewrite Hj in Hj'. set_solver.
Qed.

(** ** Termination *)

Definition weight (r : Runtime) (pt : point) : nat :=
  let n := length (rt_components r) in
  let c := length (rt_cleanups r) in
  match pt with
  | PIdle => c + 9 + 8 * n
  | PStarting _ _ => c + 8 + 4 * n
  | PStarted _ => c + 7 + 4 * n
  | PServing _ => c + 6 + 4 * n
  | PDraining _ => c + 5 + 4 * n
  | PShutdownCall _ todo _ _ => c + 5 + 4 * length todo
  | PShutdown todo _ _ => c + 4 + 4 * length todo
  | PWait _ _ => c + 3
  | PClose hooks => 1 + length hooks
  | PDone => 0
  end.

Definition unset (b : bool) : nat := if b then 0 else 1.

Definition measure (p : Process) : nat :=
  weight (p_runtime p) (p_point p) + 2 * length (p_live p) + length (p_results p) +
  2 * length (p_unready p) + length (p_readiness p) + 2 * length (p_stopping p) + length (p_returned p) +
  unset (p_cancelled p) + unset (p_startup p) + unset (p_deadline p).

Lemma step_decreases p p' : step p p' → (measure p' < measure p)%nat.
Proof.
  unfold measure. intros []; simpl;
    repeat match goal with
    | E : p_point _ = _ |- _ => rewrite E; clear E
    | E : p_results _ = _ |- _ => rewrite E; clear E
    | E : p_live _ = _ |- _ => rewrite E; clear E
    | E : p_readiness _ = _ |- _ => rewrite E; clear E
    | E : p_unready _ = _ |- _ => rewrite E; clear E
    | E : p_returned _ = _ |- _ => rewrite E; clear E
    | E : p_stopping _ = _ |- _ => rewrite E; clear E
    | E : p_cancelled _ = false |- _ => rewrite E; clear E
    | E : p_startup _ = false |- _ => rewrite E; clear E
    | E : p_deadline _ = false |- _ => rewrite E; clear E
    | cs := _ : list string |- _ => subst cs
    end; simpl; unfold shutdown_order in *; rewrite ?length_app, ?length_rev; simpl; try lia.
Qed.

Lemma step_terminates p : Acc (flip step) p.
Proof.
  induction p as [p IH] using (well_founded_induction (well_founded_ltof _ measure)).
  constructor. intros p' Hs. apply IH. by apply step_decreases.
Qed.

Lemma returned_split n (l : list (string * stop_result)) :
  n ∈ l.*1 → ∃ pre r post, l = pre ++ (n, r) :: post.
Proof.
  intros ([n' r] & -> & Hin)%list_elem_of_fmap. apply list_elem_of_split in Hin as (pre & post & ->).
  by exists pre, r, post.
Qed.

(** No process runs for ever, and one that cannot move has
    reached the end of [run]: start-up, serving, shutdown and waiting are left as
    soon as the context is cancelled and the shutdown deadline passes, whatever
    component hangs. *)
Theorem lifecycle_ends r p :
  registered r → rt_components r ≠ [] → reachable r p →
  Acc (flip step) p ∧ ((∀ p', ¬ step p p') → p_point p = PDone).
Proof.
  intros Hr Hne Hp. split; [apply step_terminates|]. intros Hno.
  destruct (reachable_tracked r p Hr Hp) as [[Hcs Hcl] Hc _ _ [Hrd _] _ Hf].
  unfold counted_results, flags_tracked in *.
  destruct (p_point p) as [|k m|m|m|m|[|n todo] ok m|n todo ok m|ok [|m]|[|h hs]|] eqn:Ept; try done; exfalso.
  - destruct Hf. eapply Hno, run_starts; [done..|]. by rewrite Hcs.
  - destruct Hrd as [Hk Hrd]. apply Permutation_length in Hrd. rewrite !length_app in Hrd.
    destruct (decide (k = length (rt_components (p_runtime p)))); [by eapply Hno, start_complete|].
    destruct (p_cancelled p) eqn:Ec; [|by eapply Hno, cancelled].
    eapply Hno, start_cancelled; [done| |done]. rewrite Hcs in *. lia.
  - destruct (p_results p) as [|[n s] q] eqn:Er; [by eapply Hno, started_serving|].
    destruct m; simpl in Hc; [lia|]. by eapply Hno, started_exit.
  - destruct (p_cancelled p) eqn:Ec; [by eapply Hno, serving_cancelled|by eapply Hno, cancelled].
  - by eapply Hno, draining.
  - by eapply Hno, shutdown_over.
  - by eapply Hno, shutdown_call.
  - destruct Hf. destruct (decide (n ∈ (p_returned p).*1)) as [(pre & s & post & E)%returned_split|Hn].
    + by eapply Hno, shutdown_returned.
    + destruct (p_deadline p) eqn:Ed; [by eapply Hno, shutdown_late|by eapply Hno, deadline_over].
  - destruct Hf. destruct ok; [by eapply Hno, wait_over|by eapply Hno, wait_unsafe].
  - destruct Hf. destruct (p_results p) as [|[n s] q] eqn:Er; [|by eapply Hno, wait_exit].
    destruct (p_deadline p) eqn:Ed; [by eapply Hno, wait_deadline|by eapply Hno, deadline_over].
  - by eapply Hno, close_over.
  - by eapply Hno, (close_hook p h hs false).
Qed.

(** ** A process with one server and one resource *)

Definition sample_runtime : Runtime := MkRuntime ["http"] ["db"] false false false false.

Lemma sample_registered : registered sample_runtime.
Proof.
  apply (registered_cleanup (MkRuntime ["http"] [] false false false false) _ "db"); [|done].
  by apply (registered_component newRuntime _ "http"); [constructor|].
Qed.

Definition sample_end : Process :=
  MkProcess (MkRuntime ["http"] ["db"] true true false true) PDone [] [] [] [] [] [] true true false []
    [EReady "http"; EServing true; EServing false; EShutdown "http"; ECleanup "db"].

Lemma sample_run : reachable sample_runtime sample_end.
Proof.
  unfold reachable.
  eapply rtc_l; [by apply run_starts|]. eapply rtc_l; [by apply (ready_returns _ [] "http" [] ROk)|].
  eapply rtc_l; [by eapply start_ready; [reflexivity|simpl; lia|reflexivity]|].
  eapply rtc_l; [by eapply start_complete|]. eapply rtc_l; [by eapply started_serving|].
  eapply rtc_l; [by apply cancelled|]. eapply rtc_l; [by eapply serving_cancelled|].
  eapply rtc_l; [by eapply draining|]. eapply rtc_l; [by eapply shutdown_call|].
  eapply rtc_l; [by apply (shutdown_returns _ [] "http" [] SNil)|].
  eapply rtc_l; [by apply (serve_returns _ [] "http" [] SExpected)|].
  eapply rtc_l; [by apply (shutdown_returned _ "http" [] true 1 SNil [] [])|].
  eapply rtc_l; [by eapply shutdown_over|]. eapply rtc_l; [by eapply wait_exit|].
  eapply rtc_l; [by eapply wait_over|]. eapply rtc_l; [by apply (close_hook _ "db" [] false)|].
  eapply rtc_l; [by apply close_over|]. apply rtc_refl.
Qed.

Lemma orderly_lifecycle_witness : cleanups (p_log sample_end) = ["db"] ∧ p_live sample_end = [].
Proof.
  destruct (orderly_lifecycle sample_runtime sample_end sample_registered sample_run) as (_ & _ & _ & Hc & Hd).
  split; [|by apply Hc]. by destruct (Hd eq_refl) as (_ & _ & Hj); destruct (Hj eq_refl).
Defined.

Lemma lifecycle_ends_witness : Acc (flip step) (fresh sample_runtime).
Proof.
  exact (proj1 (lifecycle_ends sample_runtime (fresh sample_runtime) sample_registered
    ltac:(discriminate) (rtc_refl _ _))).
Defined.
