(* ===== verification/WRichText.v ===== *)
(** Rich text between the services: the conversions of the knowledge service
    (services/knowledge/internal/transport/rpc/handler.go) between its trees and
    the RPC types, and those of the gateway
    (services/gateway/biz/handler/gateway/knowledge_conversion.go) between the
    RPC types and the HTTP types.

    The types of the two interface definitions have the same fields, so one set
    of records stands for both; a converted tree is built anew, field by field,
    as the code does. *)

From stdpp Require Import base gmap list sets strings.
From Stdlib Require Import ZArith Lia.
From S2P Require Import Prelude.
From S2P Require Import GoStrings.
From S2P Require Import KDomain.
From S2P Require Import RichText.

Open Scope Z_scope.

(** ** The types of the interfaces *)

Record WireAttrs := MkWireAttrs {
  wa_Level : option Z;
  wa_Start : option Z;
  wa_Checked : option bool;
  wa_Language : option string;
  wa_Href : option string;
  wa_AttachmentId : option string;
  wa_Alt : option string;
  wa_Title : option string;
  wa_TextAlign : option string;
  wa_Colspan : option Z;
  wa_Rowspan : option Z;
  wa_Colwidth : list Z;
  wa_BlockId : option string;
}.

Record WireMark := MkWireMark { wm_Type : string; wm_Attrs : option WireAttrs }.

(** Children and marks are pointers; the two slices may be nil. *)
Inductive WireNode := MkWireNode {
  wn_Type : string;
  wn_Attrs : option WireAttrs;
  wn_Content : option (list (option WireNode));
  wn_Text : option string;
  wn_Marks : option (list (option WireMark));
}.

Record WireRichText := MkWireRichText { wd_Type : string; wd_Content : list (option WireNode) }.

(** ** The knowledge service *)

Definition toTransportRichTextAttrs (value : RichTextAttrs) : WireAttrs :=
  MkWireAttrs (Level value) (Start value) (Checked value) (Language value) (Href value)
    (AttachmentID value) (Alt value) (Title value) (TextAlign value) (Colspan value) (Rowspan value)
    (Colwidth value) (BlockID value).

Definition to_mark (mark : RichTextMark) : option WireMark :=
  Some (MkWireMark (mark_Type mark) (toTransportRichTextAttrs <$> mark_Attrs mark)).

Fixpoint toTransportRichTextNode (value : RichTextNode) : WireNode :=
  MkWireNode (node_Type value) (toTransportRichTextAttrs <$> node_Attrs value)
    (Some ((fix go (l : list (option RichTextNode)) :=
              match l with
              | [] => []
              | None :: l' => None :: go l'
              | Some c :: l' => Some (toTransportRichTextNode c) :: go l'
              end) (node_Content value)))
    (node_Text value) (Some (to_mark <$> node_Marks value)).

Definition toTransportRichText (value : RichTextDocument) : WireRichText :=
  MkWireRichText (doc_Type value) (fmap (M:=option) toTransportRichTextNode <$> default [] (doc_Content value)).

Definition fromTransportRichTextAttrs (value : WireAttrs) : RichTextAttrs :=
  MkAttrs (wa_Level value) (wa_Start value) (wa_Checked value) (wa_Language value) (wa_Href value)
    (wa_AttachmentId value) (wa_Alt value) (wa_Title value) (wa_TextAlign value) None
    (wa_Colspan value) (wa_Rowspan value) (wa_Colwidth value) (wa_BlockId value).

Definition from_mark (mark : option WireMark) : RichTextMark :=
  match mark with
  | None => MkMark EmptyString None
  | Some m => MkMark (wm_Type m) (fromTransportRichTextAttrs <$> wm_Attrs m)
  end.

(** The result carries the counter after the subtree. *)
Fixpoint fromTransportRichTextNode (value : WireNode) (depth count : Z) : result kerror (RichTextNode * Z) :=
  if 64 <? depth then invalid "content" "structure is invalid"
  else if 100000 <? count + 1 then invalid "content" "contains too many nodes"
  else
    match wn_Content value with
    | None => Ok ([], count + 1)
    | Some l =>
      (fix children (content : list (option WireNode)) (count : Z) : result kerror (list (option RichTextNode) * Z) :=
         match content with
         | [] => Ok ([], count)
         | None :: _ => invalid "content" "structure is invalid"
         | Some child :: rest =>
           fromTransportRichTextNode child (depth + 1) count ≫= λ '(converted, count),
           children rest count ≫= λ '(content, count), Ok (Some converted :: content, count)
         end) l (count + 1)
    end ≫= λ '(content, count),
    Ok (Node (wn_Type value) (fromTransportRichTextAttrs <$> wn_Attrs value) content (wn_Text value)
          (from_mark <$> default [] (wn_Marks value)), count).

Fixpoint fromTransportChildren (content : list (option WireNode)) (depth count : Z)
  : result kerror (list (option RichTextNode) * Z) :=
  match content with
  | [] => Ok ([], count)
  | None :: _ => invalid "content" "structure is invalid"
  | Some child :: rest =>
    fromTransportRichTextNode child depth count ≫= λ '(converted, count),
    fromTransportChildren rest depth count ≫= λ '(content, count), Ok (Some converted :: content, count)
  end.

Definition fromTransportRichText (value : option WireRichText) : result kerror RichTextDocument :=
  match value with
  | None => invalid "content" "is required"
  | Some d =>
    fromTransportChildren (wd_Content d) 1 0 ≫= λ '(content, _), Ok (MkDocument (wd_Type d) (Some content))
  end.

(** ** The gateway *)

Definition maximumRichTextDepth : Z := 100.

Definition toRichTextAttrsData (value : WireAttrs) : WireAttrs :=
  MkWireAttrs (wa_Level value) (wa_Start value) (wa_Checked value) (wa_Language value) (wa_Href value)
    (wa_AttachmentId value) (wa_Alt value) (wa_Title value) (wa_TextAlign value) (wa_Colspan value)
    (wa_Rowspan value) (wa_Colwidth value) (wa_BlockId value).

Definition blank (s : string) : bool := bool_decide (TrimSpace s = EmptyString).

(** The loop over the marks. *)
Fixpoint marks_data (marks : list (option WireMark)) : option (list (option WireMark)) :=
  match marks with
  | [] => Some []
  | None :: _ => None
  | Some mark :: rest =>
    if blank (wm_Type mark) then None
    else (Some (MkWireMark (wm_Type mark) (toRichTextAttrsData <$> wm_Attrs mark)) ::.) <$> marks_data rest
  end.

(** [toRichTextNodeData] and [fromRichTextNodeData]: the same code for the two
    directions; [None] is an error. *)
Fixpoint richTextNodeData (value : WireNode) (depth : Z) : option WireNode :=
  if blank (wn_Type value) || (maximumRichTextDepth <? depth) then None
  else
    content ← match wn_Content value with
              | None => Some None
              | Some l =>
                Some <$> (fix children (l : list (option WireNode)) : option (list (option WireNode)) :=
                  match l with
                  | [] => Some []
                  | None :: _ => None
                  | Some child :: rest =>
                    converted ← richTextNodeData child (depth + 1);
                    (Some converted ::.) <$> children rest
                  end) l
              end;
    marks ← match wn_Marks value with None => Some None | Some l => Some <$> marks_data l end;
    Some (MkWireNode (wn_Type value) (toRichTextAttrsData <$> wn_Attrs value) content (wn_Text value) marks).

Fixpoint children_data (l : list (option WireNode)) (depth : Z) : option (list (option WireNode)) :=
  match l with
  | [] => Some []
  | None :: _ => None
  | Some child :: rest =>
    converted ← richTextNodeData child depth; (Some converted ::.) <$> children_data rest depth
  end.

(** [toRichTextDocumentData] and [fromRichTextDocumentData] *)
Definition richTextDocumentData (value : option WireRichText) : option WireRichText :=
  match value with
  | None => None
  | Some d =>
    if negb (bool_decide (wd_Type d = "doc")) then None
    else MkWireRichText (wd_Type d) <$> children_data (wd_Content d) 1
  end.

(** ** What survives *)

Definition plain_attrs (a : RichTextAttrs) : RichTextAttrs :=
  MkAttrs (Level a) (Start a) (Checked a) (Language a) (Href a) (AttachmentID a) (Alt a) (Title a)
    (TextAlign a) None (Colspan a) (Rowspan a) (Colwidth a) (BlockID a).

Definition plain_mark (m : RichTextMark) : RichTextMark := MkMark (mark_Type m) (plain_attrs <$> mark_Attrs m).

(** The tree without the variants of its attributes. *)
Fixpoint plain_node (n : RichTextNode) : RichTextNode :=
  Node (node_Type n) (plain_attrs <$> node_Attrs n)
    ((fix go (l : list (option RichTextNode)) :=
        match l with
        | [] => []
        | None :: l' => None :: go l'
        | Some c :: l' => Some (plain_node c) :: go l'
        end) (node_Content n))
    (node_Text n) (plain_mark <$> node_Marks n).

Definition plain_document (d : RichTextDocument) : RichTextDocument :=
  MkDocument (doc_Type d) (fmap (M:=list) (fmap (M:=option) plain_node) <$> doc_Content d).

Lemma plain_node_unfold n :
  plain_node n = Node (node_Type n) (plain_attrs <$> node_Attrs n) (fmap (M:=option) plain_node <$> node_Content n)
    (node_Text n) (plain_mark <$> node_Marks n).
Proof.
  destruct n as [ty at_ content txt marks]. simpl. f_equal.
  induction content as [|[c|] content IH]; [done| |]; rewrite fmap_cons; simpl; by f_equal.
Qed.

Lemma toTransportRichTextNode_unfold n :
  toTransportRichTextNode n = MkWireNode (node_Type n) (toTransportRichTextAttrs <$> node_Attrs n)
    (Some (fmap (M:=option) toTransportRichTextNode <$> node_Content n)) (node_Text n) (Some (to_mark <$> node_Marks n)).
Proof.
  destruct n as [ty at_ content txt marks]. simpl. do 2 f_equal.
  induction content as [|[c|] content IH]; [done| |]; rewrite fmap_cons; simpl; by f_equal.
Qed.

Lemma fromTransportRichTextNode_unfold v depth count :
  fromTransportRichTextNode v depth count =
  if 64 <? depth then invalid "content" "structure is invalid"
  else if 100000 <? count + 1 then invalid "content" "contains too many nodes"
  else fromTransportChildren (default [] (wn_Content v)) (depth + 1) (count + 1) ≫= λ '(content, count),
       Ok (Node (wn_Type v) (fromTransportRichTextAttrs <$> wn_Attrs v) content (wn_Text v)
             (from_mark <$> default [] (wn_Marks v)), count).
Proof.
  destruct v as [ty at_ content txt marks]. cbn [fromTransportRichTextNode wn_Type wn_Attrs wn_Content wn_Text wn_Marks].
  repeat (case_match; [done|]). destruct content as [content|]; [|done]. f_equal. simpl.
  generalize (count + 1). induction content as [|[c|] l IH]; intros k; simpl; [done| |done].
  destruct (fromTransportRichTextNode c (depth + 1) k) as [[n k']|]; simpl; [|done]. by rewrite IH.
Qed.

Lemma richTextNodeData_unfold v depth :
  richTextNodeData v depth =
  if blank (wn_Type v) || (maximumRichTextDepth <? depth) then None
  else
    content ← match wn_Content v with None => Some None | Some l => Some <$> children_data l (depth + 1) end;
    marks ← match wn_Marks v with None => Some None | Some l => Some <$> marks_data l end;
    Some (MkWireNode (wn_Type v) (toRichTextAttrsData <$> wn_Attrs v) content (wn_Text v) marks).
Proof.
  destruct v as [ty at_ content txt marks]. cbn [richTextNodeData wn_Type wn_Attrs wn_Content wn_Text wn_Marks].
  case_match; [done|]. f_equal. destruct content as [l|]; [|done]. f_equal.
  induction l as [|[c|] l IH]; simpl; [done| |done].
  destruct (richTextNodeData c (depth + 1)); simpl; [|done]. by rewrite IH.
Qed.

Lemma attrs_roundtrip a : fromTransportRichTextAttrs (toTransportRichTextAttrs a) = plain_attrs a.
Proof. done. Qed.

Lemma marks_roundtrip (marks : list RichTextMark) : from_mark <$> (to_mark <$> marks) = plain_mark <$> marks.
Proof. rewrite <-list_fmap_compose. apply list_fmap_ext. intros _ [ty [a|]] _; done. Qed.

Lemma attrs_data_same (o : option WireAttrs) : toRichTextAttrsData <$> o = o.
Proof. by destruct o as [[]|]. Qed.

Section survives.
Context `{Unicode, Uuid, Url}.

(** What holds of every node of a tree the service accepts. *)
Definition accepted (content : list (option RichTextNode)) (depth : Z) : Prop :=
  Forall visit_ok (content_walk content depth).

Lemma node_content_accepted n depth : Forall visit_ok (node_walk n depth) →
  depth <= 64 ∧ fields_ok n ∧ accepted (node_Content n) (depth + 1).
Proof.
  rewrite node_walk_unfold, Forall_cons. intros [[Hd (m & [= <-] & Hf)] Hc]. done.
Qed.

Lemma allowed_not_blank t : t ∈ allowedNodeTypes → blank t = false.
Proof.
  intros Ht. apply bool_decide_eq_false. intros Hb. unfold allowedNodeTypes in Ht.
  repeat (apply elem_of_cons in Ht as [->|Ht]; [by vm_compute in Hb|]). by apply elem_of_nil in Ht.
Qed.

Lemma allowed_mark_not_blank t : t ∈ allowedMarkTypes → blank t = false.
Proof.
  intros Ht. apply bool_decide_eq_false. intros Hb. unfold allowedMarkTypes in Ht.
  repeat (apply elem_of_cons in Ht as [->|Ht]; [by vm_compute in Hb|]). by apply elem_of_nil in Ht.
Qed.

Lemma marks_pass marks : Forall mark_ok marks → marks_data (to_mark <$> marks) = Some (to_mark <$> marks).
Proof.
  induction 1 as [|m marks [Ht _] _ IH]; [done|]. rewrite fmap_cons. simpl.
  rewrite allowed_mark_not_blank by done. by rewrite IH, attrs_data_same.
Qed.

(** A walk over the children, where the statement is known of each child. *)
Lemma children_pass content depth :
  (∀ c, Some c ∈ content → Forall visit_ok (node_walk c depth) →
     richTextNodeData (toTransportRichTextNode c) depth = Some (toTransportRichTextNode c)) →
  accepted content depth →
  children_data (fmap (M:=option) toTransportRichTextNode <$> content) depth =
  Some (fmap (M:=option) toTransportRichTextNode <$> content).
Proof.
  unfold accepted. induction content as [|[c|] content IH]; intros Hc Hw; [done| |].
  - simpl in Hw. apply Forall_app in Hw as [Hn Hw]. rewrite fmap_cons. cbn [children_data fmap option_fmap option_map].
    rewrite Hc by (done || left). simpl. rewrite IH; [done| |done]. intros d Hd. apply Hc. by right.
  - simpl in Hw. by apply Forall_cons in Hw as [[_ (n & ? & _)] _].
Qed.

Lemma node_pass n : ∀ depth,
  Forall visit_ok (node_walk n depth) →
  richTextNodeData (toTransportRichTextNode n) depth = Some (toTransportRichTextNode n).
Proof.
  induction n as [ty at_ content txt marks IH] using node_ind. intros depth Hw.
  apply node_content_accepted in Hw as (Hd & (Hty & _ & _ & Hm & _) & Hc). cbn [node_Content node_Type node_Marks] in *.
  rewrite toTransportRichTextNode_unfold, richTextNodeData_unfold.
  cbn [wn_Type wn_Content wn_Marks wn_Attrs wn_Text node_Type node_Content node_Marks node_Attrs node_Text].
  rewrite allowed_not_blank by done. unfold maximumRichTextDepth. rewrite (proj2 (Z.ltb_ge 100 depth)) by lia.
  cbn [orb]. rewrite children_pass by (done || (intros c Hin; by apply IH)).
  simpl. rewrite marks_pass by done. simpl. by rewrite attrs_data_same.
Qed.

Lemma children_back content depth count :
  (∀ c, Some c ∈ content → ∀ count, Forall visit_ok (node_walk c depth) →
     count + Z.of_nat (length (node_walk c depth)) <= 100000 →
     fromTransportRichTextNode (toTransportRichTextNode c) depth count =
     Ok (plain_node c, count + Z.of_nat (length (node_walk c depth)))) →
  accepted content depth → count + Z.of_nat (length (content_walk content depth)) <= 100000 →
  fromTransportChildren (fmap (M:=option) toTransportRichTextNode <$> content) depth count =
  Ok (fmap (M:=option) plain_node <$> content, count + Z.of_nat (length (content_walk content depth))).
Proof.
  unfold accepted. revert count. induction content as [|[c|] content IH]; intros count Hc Hw Hl.
  - simpl. do 2 f_equal. lia.
  - rewrite !fmap_cons. cbn [content_walk] in *. rewrite length_app in *. apply Forall_app in Hw as [Hn Hw].
    change (fmap (M:=option) toTransportRichTextNode (Some c)) with (Some (toTransportRichTextNode c)).
    cbn [fromTransportChildren]. rewrite (Hc c ltac:(left) count) by (done || lia). cbn [mbind result_bind].
    rewrite (IH (count + Z.of_nat (length (node_walk c depth)))) by (try done; try lia; intros d Hd; apply Hc; by right).
    simpl. do 2 f_equal. lia.
  - simpl in Hw. by apply Forall_cons in Hw as [[_ (n & ? & _)] _].
Qed.

Lemma node_back n : ∀ depth count,
  Forall visit_ok (node_walk n depth) → count + Z.of_nat (length (node_walk n depth)) <= 100000 →
  fromTransportRichTextNode (toTransportRichTextNode n) depth count =
  Ok (plain_node n, count + Z.of_nat (length (node_walk n depth))).
Proof.
  induction n as [ty at_ content txt marks IH] using node_ind. intros depth count Hw Hl.
  rewrite node_walk_unfold in Hl |- *. apply node_content_accepted in Hw as (Hd & _ & Hc).
  rewrite length_cons in *. cbn [node_Content] in *.
  rewrite toTransportRichTextNode_unfold, fromTransportRichTextNode_unfold, plain_node_unfold.
  cbn [wn_Type wn_Content wn_Marks wn_Attrs wn_Text node_Type node_Content node_Marks node_Attrs node_Text from_option id].
  rewrite (proj2 (Z.ltb_ge 64 depth)), (proj2 (Z.ltb_ge 100000 (count + 1))) by lia.
  rewrite (children_back content (depth + 1) (count + 1)) by (try done; try lia; intros c Hin k; by apply IH).
  cbn [mbind result_bind]. rewrite marks_roundtrip. do 2 f_equal; [|lia].
  f_equal. by destruct at_.
Qed.

(** ** The plain tree *)

Lemma plain_fields n : fields_ok n → fields_ok (plain_node n).
Proof.
  intros (Hty & Ht & Hnt & Hm & Ha). rewrite plain_node_unfold. unfold fields_ok.
  cbn [node_Type node_Content node_Marks node_Attrs node_Text]. split_and!; [done| |done| |].
  - intros E. destruct (Ht E) as (? & Hc & Hat). by rewrite Hc, Hat.
  - apply Forall_fmap. eapply Forall_impl; [exact Hm|]. intros m [Hmt Hl]. split; [done|].
    intros E. destruct (Hl E) as (a & href & Hat & Hh & Hok). exists (plain_attrs a), href.
    split_and!; [|done|done]. simpl. by rewrite Hat.
  - intros a. destruct (node_Attrs n) as [b|]; [|done]. intros [= <-]. specialize (Ha b eq_refl).
    destruct Ha as (? & ? & ? & ? & ? & ? & _ & ? & ?). by split_and!.
Qed.

Definition plain_visit (v : option RichTextNode * Z) : option RichTextNode * Z := (plain_node <$> v.1, v.2).

Lemma plain_content_walk content depth :
  (∀ c, Some c ∈ content → node_walk (plain_node c) depth = plain_visit <$> node_walk c depth) →
  content_walk (fmap (M:=option) plain_node <$> content) depth = plain_visit <$> content_walk content depth.
Proof.
  induction content as [|[c|] content IH]; intros Hc; [done| |].
  - rewrite fmap_cons. cbn [content_walk fmap option_fmap option_map].
    assert (∀ d, Some d ∈ content → node_walk (plain_node d) depth = plain_visit <$> node_walk d depth) as Hd
      by (intros d Hd; apply Hc; by right).
    rewrite (Hc c ltac:(left)), (IH Hd). by rewrite fmap_app.
  - rewrite fmap_cons. cbn [content_walk fmap option_fmap option_map].
    rewrite IH by (intros d Hd; apply Hc; by right). done.
Qed.

Lemma plain_node_walk n : ∀ depth, node_walk (plain_node n) depth = plain_visit <$> node_walk n depth.
Proof.
  induction n as [ty at_ content txt marks IH] using node_ind. intros depth.
  rewrite !node_walk_unfold, fmap_cons. f_equal. rewrite plain_node_unfold. cbn [node_Content].
  apply plain_content_walk. intros c Hin. by apply IH.
Qed.

Lemma plain_visit_ok v : visit_ok v → visit_ok (plain_visit v).
Proof.
  intros [Hd (n & Hv & Hf)]. split; [done|]. exists (plain_node n). split; [|by apply plain_fields].
  simpl. by rewrite Hv.
Qed.

(** No attribute of the node names a variant. *)
Definition without_variant (v : option RichTextNode * Z) : Prop :=
  ∀ n, v.1 = Some n →
    (∀ a, node_Attrs n = Some a → Variant a = None) ∧
    Forall (λ m, ∀ a, mark_Attrs m = Some a → Variant a = None) (node_Marks n).

Lemma plain_attrs_same (o : option RichTextAttrs) :
  plain_attrs <$> o = o ↔ ∀ a, o = Some a → Variant a = None.
Proof.
  destruct o as [[]|]; simpl; [|by split]. split; [intros [= <-]; by intros ? [= <-]|].
  intros Hv. specialize (Hv _ eq_refl). simpl in Hv. by subst.
Qed.

Lemma plain_marks_same (marks : list RichTextMark) :
  plain_mark <$> marks = marks ↔ Forall (λ m, ∀ a, mark_Attrs m = Some a → Variant a = None) marks.
Proof.
  induction marks as [|[ty o] marks IH]; [by split|]. rewrite fmap_cons, Forall_cons, <-IH.
  cbn [mark_Attrs]. rewrite <-plain_attrs_same. unfold plain_mark at 1. simpl. split; [|by intros [-> ->]].
  by intros [= Ha ->].
Qed.

Lemma plain_content_same content depth :
  (∀ c, Some c ∈ content → plain_node c = c ↔ Forall without_variant (node_walk c depth)) →
  fmap (M:=option) plain_node <$> content = content ↔ Forall without_variant (content_walk content depth).
Proof.
  induction content as [|[c|] content IH]; intros Hc; [by split| |].
  - cbn [content_walk]. rewrite fmap_cons, Forall_app, <-(Hc c ltac:(left)),
      <-IH by (intros d Hd; apply Hc; by right). simpl. split; [by intros [= -> ->]|by intros [-> ->]].
  - cbn [content_walk]. rewrite fmap_cons, Forall_cons, <-IH by (intros d Hd; apply Hc; by right). simpl.
    split; [intros [= ->]; by split|by intros [_ ->]].
Qed.

Lemma plain_node_same n : ∀ depth, plain_node n = n ↔ Forall without_variant (node_walk n depth).
Proof.
  induction n as [ty at_ content txt marks IH] using node_ind. intros depth.
  rewrite node_walk_unfold, Forall_cons, plain_node_unfold. cbn [node_Content node_Type node_Attrs node_Text node_Marks].
  rewrite <-plain_content_same by (intros c Hin; by apply IH). unfold without_variant. cbn [fst].
  trans (plain_attrs <$> at_ = at_ ∧ plain_mark <$> marks = marks ∧ fmap (M:=option) plain_node <$> content = content).
  - split; [by intros [= -> -> ->]|by intros (-> & -> & ->)].
  - rewrite plain_attrs_same, plain_marks_same. split; [intros (? & ? & ?); split; [by intros ? [= <-]|done]|].
    intros [Hn ?]. destruct (Hn _ eq_refl). by split_and!.
Qed.

(** C30: the content of every document the knowledge service
    accepts can be served by the gateway, and when a client sends it back it
    arrives at the knowledge service, and is accepted there, as the same tree
    but for the variants of its callouts, which neither interface carries: it
    is unchanged exactly when no attribute names one. *)
Theorem richtext_survives d content :
  Validate d = Ok tt → doc_Content d = Some content →
  let served := richTextDocumentData (Some (toTransportRichText d)) in
  is_Some served ∧
  fromTransportRichText (richTextDocumentData served) = Ok (plain_document d) ∧
  Validate (plain_document d) = Ok tt ∧
  (plain_document d = d ↔ Forall without_variant (content_walk content 1)).
Proof.
  intros (Ht & content' & Hc & Hw & Hl)%Validate_walk Hcontent served. rewrite Hcontent in Hc. injection Hc as <-.
  assert (served = Some (toTransportRichText d)) as Hserved.
  { unfold served, richTextDocumentData, toTransportRichText. cbn [wd_Type wd_Content].
    rewrite bool_decide_true by done. cbn [negb]. rewrite Hcontent. cbn [from_option id].
    rewrite children_pass; [done| |done]. intros c _. apply node_pass. }
  rewrite Hserved. fold served. rewrite Hserved. split_and!; [by eexists| | |].
  - unfold fromTransportRichText, toTransportRichText. cbn [wd_Type wd_Content]. rewrite Hcontent. cbn [from_option id].
    rewrite children_back; [|by intros c _; apply node_back|done|lia].
    unfold plain_document. by rewrite Hcontent.
  - apply Validate_walk. unfold plain_document. cbn [doc_Type doc_Content]. split; [done|]. eexists.
    rewrite Hcontent. split; [done|]. rewrite plain_content_walk by (intros c _; apply plain_node_walk).
    rewrite Forall_fmap, length_fmap. split; [|done]. eapply Forall_impl; [exact Hw|]. apply plain_visit_ok.
  - rewrite <-plain_content_same by (intros c _; apply plain_node_same).
    unfold plain_document. destruct d as [ty o]. cbn [doc_Type doc_Content] in *. subst o. simpl.
    split; [by intros [= ->]|by intros ->].
Qed.

End survives.

(** A callout with a variant. *)
Definition callout_document : RichTextDocument :=
  MkDocument "doc" (Some [Some (Node "callout"
    (Some (MkAttrs None None None None None None None None None (Some "warning") None None [] (Some "b1")))
    [Some (Node "paragraph" None [Some (Node "text" None [] (Some "Mind the gap") [])] None [])] None [])]).

#[local] Existing Instance ascii_unicode.
#[local] Existing Instance no_uuid.
#[local] Existing Instance https_url.

(** The warning comes back as a callout without a variant. *)
Lemma richtext_survives_witness :
  Validate callout_document = Ok tt ∧
  fromTransportRichText (richTextDocumentData (richTextDocumentData (Some (toTransportRichText callout_document)))) =
    Ok (plain_document callout_document) ∧
  plain_document callout_document ≠ callout_document.
Proof.
  split; [vm_compute; reflexivity|].
  split; [exact (proj1 (proj2 (richtext_survives callout_document _ ltac:(vm_compute; reflexivity) eq_refl)))|].
  by vm_compute.
Defined.
