(* ===== verification/WKnowledge.v ===== *)
(** Documents, commits, history, folders and members between the services: the
    RPC messages of the knowledge service, how its handler fills them
    (services/knowledge/internal/transport/rpc/handler.go), and how the gateway
    checks and converts them
    (services/gateway/biz/handler/gateway/knowledge_conversion.go,
    folder_handlers.go).

    The HTTP types have the fields of the RPC types but for the users, whose
    identifiers are texts, so the messages are parametric in the user. *)

From stdpp Require Import base gmap list sets strings.
From Stdlib Require Import ZArith Lia SpecFloat.
From S2P Require Import Prelude.
From S2P Require Import GoStrings.
From S2P Require Import GoText.
From S2P Require Import KDomain.
From S2P Require Import RichText.
From S2P Require Import Json.
From S2P Require Import KSchema.
From S2P Require Import KTypes.
From S2P Require Import KStore.
From S2P Require Import KHistory.
From S2P Require Import KLogic.
From S2P Require Import WRichText.
From S2P Require Import AppError.
From S2P Require Import AuthToken.
From S2P Require Import GResponse.
From S2P Require Import GInput.
From S2P Require Import GContent.

Open Scope Z_scope.

(** [t.UTC().Format(time.RFC3339Nano)] *)
Class TimeText := { format_time : Z → string }.

(** ** Messages *)

Record WireUser := MkWireUser { wu_Id : Z; wu_Username : string; wu_Avatar : string }.

(** [PublicUserData] of the HTTP interface *)
Record UserData := MkUserData { ud_ID : string; ud_Username : string; ud_Avatar : string }.

Record WireDocument (U : Type) := MkWireDocument {
  wk_Id : string;
  wk_Title : string;
  wk_Summary : string;
  wk_Slug : string;
  wk_Owner : U;
  wk_Access : string;
  wk_Published : bool;
  wk_MetadataRevision : Z;
  wk_ContentRevision : Z;
  wk_PublishedAt : option string;
  wk_DeletedAt : option string;
  wk_ProjectedAt : option string;
  wk_CreatedAt : string;
  wk_UpdatedAt : string;
  wk_Language : option string;
  wk_Tags : list string;
  wk_FolderId : option string;
  wk_PublicationStatus : string;
  wk_PublicationError : option string;
  wk_PublicationHash : option string;
  wk_Icon : option string;
  wk_CoverAttachmentId : option string;
  wk_CoverFocalX : option float64;
  wk_CoverFocalY : option float64;
  wk_PublicationGeneration : Z;
  wk_ActivePublicationHash : option string;
}.

Arguments MkWireDocument {U}.
Arguments wk_Id {U}.
Arguments wk_Title {U}.
Arguments wk_Summary {U}.
Arguments wk_Slug {U}.
Arguments wk_Owner {U}.
Arguments wk_Access {U}.
Arguments wk_Published {U}.
Arguments wk_MetadataRevision {U}.
Arguments wk_ContentRevision {U}.
Arguments wk_PublishedAt {U}.
Arguments wk_DeletedAt {U}.
Arguments wk_ProjectedAt {U}.
Arguments wk_CreatedAt {U}.
Arguments wk_UpdatedAt {U}.
Arguments wk_Language {U}.
Arguments wk_Tags {U}.
Arguments wk_FolderId {U}.
Arguments wk_PublicationStatus {U}.
Arguments wk_PublicationError {U}.
Arguments wk_PublicationHash {U}.
Arguments wk_Icon {U}.
Arguments wk_CoverAttachmentId {U}.
Arguments wk_CoverFocalX {U}.
Arguments wk_CoverFocalY {U}.
Arguments wk_PublicationGeneration {U}.
Arguments wk_ActivePublicationHash {U}.

Notation RpcDocument := (WireDocument (option WireUser)).
Notation DocumentData := (WireDocument UserData).

(** A page; [pg_Page] of a message may be nil. *)
Record WirePage (A : Type) := MkWirePage { pg_Items : list A; pg_NextCursor : option string; pg_HasMore : bool }.

Arguments MkWirePage {A}.
Arguments pg_Items {A}.
Arguments pg_NextCursor {A}.
Arguments pg_HasMore {A}.

Record WireDetail (D : Type) := MkWireDetail { wt_Document : D; wt_Content : option WireRichText; wt_PlainText : string }.

Arguments MkWireDetail {D}.
Arguments wt_Document {D}.
Arguments wt_Content {D}.
Arguments wt_PlainText {D}.

(** [CommitKind] is a number; the HTTP type has a text. *)
Record WireCommit (K : Type) := MkWireCommit {
  wc_Id : string;
  wc_DocumentId : string;
  wc_Kind : K;
  wc_Label : string;
  wc_Description : option string;
  wc_Contributor : string;
  wc_Sequence : Z;
  wc_ContentHash : string;
  wc_Content : option WireRichText;
  wc_PlainText : string;
  wc_CreatedAt : string;
  wc_UpdatedAt : string;
}.

Arguments MkWireCommit {K}.
Arguments wc_Id {K}.
Arguments wc_DocumentId {K}.
Arguments wc_Kind {K}.
Arguments wc_Label {K}.
Arguments wc_Description {K}.
Arguments wc_Contributor {K}.
Arguments wc_Sequence {K}.
Arguments wc_ContentHash {K}.
Arguments wc_Content {K}.
Arguments wc_PlainText {K}.
Arguments wc_CreatedAt {K}.
Arguments wc_UpdatedAt {K}.

Record WireHistory := MkWireHistory {
  wh_Id : string;
  wh_DocumentId : string;
  wh_Kind : string;
  wh_Sequence : Z;
  wh_MetadataRevision : Z;
  wh_SemanticHash : string;
  wh_Content : option WireRichText;
  wh_PlainText : string;
  wh_MetadataJson : string;
  wh_ContributorsJson : string;
  wh_BlockDiffJson : string;
  wh_IsAnchor : bool;
  wh_CreatedAt : string;
}.

Record WireFolder := MkWireFolder {
  wf_Id : string;
  wf_ParentId : option string;
  wf_Name : string;
  wf_Depth : Z;
  wf_Revision : Z;
  wf_CreatedAt : string;
  wf_UpdatedAt : string;
}.

Record WireMember (U : Type) := MkWireMember {
  we_User : U; we_Role : string; we_Revision : Z; we_CreatedAt : string; we_UpdatedAt : string }.

Arguments MkWireMember {U}.
Arguments we_User {U}.
Arguments we_Role {U}.
Arguments we_Revision {U}.
Arguments we_CreatedAt {U}.
Arguments we_UpdatedAt {U}.

(** ** Filled by the knowledge service *)

Definition stringValue (value : option string) : string := default EmptyString value.

Definition int32Value (value : option Z) : Z := default 0 value.

Definition nonEmptyStringPointer (value : string) : option string :=
  if bool_decide (value = EmptyString) then None else Some value.


Definition floatValue (value : option float64) : float64 := default float_fifty value.

(** [value == 0] holds of both zeroes. *)
Definition optionalFloat (value : float64) : option float64 :=
  match value with S754_zero _ => None | _ => Some value end.

(** [append([]string(nil), l...)]: nil when there is nothing to append. *)
Definition appended {A} (value : option (list A)) : option (list A) :=
  match value with Some [] => None | _ => value end.

Definition CommitKind_MANUAL : Z := 1.
Definition CommitKind_LEAVE : Z := 2.
Definition CommitKind_SAFETY : Z := 3.
Definition CommitKind_PUBLISH : Z := 4.
Definition CommitKind_REVISION_MERGE : Z := 5.
Definition CommitKind_AGENT_EDIT : Z := 6.
Definition CommitKind_RESTORE : Z := 7.

Definition commitKindName (value : Z) : string :=
  if value =? CommitKind_MANUAL then "manual"
  else if value =? CommitKind_LEAVE then "leave"
  else if value =? CommitKind_SAFETY then "safety"
  else if value =? CommitKind_PUBLISH then "publish"
  else if value =? CommitKind_REVISION_MERGE then "revision_merge"
  else if value =? CommitKind_AGENT_EDIT then "agent_edit"
  else if value =? CommitKind_RESTORE then "restore"
  else "manual".

Definition commitKindValue (value : string) : Z :=
  if value =?= "leave" then CommitKind_LEAVE
  else if value =?= "safety" then CommitKind_SAFETY
  else if value =?= "publish" then CommitKind_PUBLISH
  else if value =?= "revision_merge" then CommitKind_REVISION_MERGE
  else if value =?= "agent_edit" then CommitKind_AGENT_EDIT
  else if value =?= "restore" then CommitKind_RESTORE
  else CommitKind_MANUAL.

Definition toTransportUser (value : PublicUser) : option WireUser :=
  Some (MkWireUser (pu_ID value) (pu_Username value) (pu_Avatar value)).

Section transport.
Context `{TimeText, Codec}.

Definition toTransportDocument (value : Document) : RpcDocument :=
  MkWireDocument (v_ID value) (v_Title value) (v_Summary value) (v_Slug value)
    (toTransportUser (v_Owner value)) (v_Access value) (v_Published value)
    (v_MetadataRevision value) (v_ContentRevision value)
    (format_time <$> v_PublishedAt value) (format_time <$> v_DeletedAt value)
    (format_time <$> v_ProjectedAt value) (format_time (v_CreatedAt value)) (format_time (v_UpdatedAt value))
    (nonEmptyStringPointer (v_Language value)) (v_Tags value) (v_FolderID value)
    (v_PublicationStatus value) (v_PublicationError value)
    (nonEmptyStringPointer (v_PublicationHash value)) (nonEmptyStringPointer (v_Icon value))
    (v_CoverAttachmentID value) (optionalFloat (v_CoverFocalX value)) (optionalFloat (v_CoverFocalY value))
    (v_PublicationGeneration value) (nonEmptyStringPointer (v_ActivePublicationHash value)).

Definition toTransportDocumentPage (page : DocumentPage) : WirePage (option RpcDocument) :=
  MkWirePage (Some ∘ toTransportDocument <$> Items page) (NextCursor page) (HasMore page).

Definition toTransportDocumentDetail (value : DocumentDetail) : WireDetail (option RpcDocument) :=
  MkWireDetail (Some (toTransportDocument (dd_Document value)))
    (Some (toTransportRichText (dd_Content value))) (dd_PlainText value).

Definition toTransportCommit (value : Commit) : WireCommit Z :=
  MkWireCommit (cv_ID value) (cv_DocumentID value) (commitKindValue (cv_Kind value)) (cv_Label value)
    (nonEmptyStringPointer (cv_Description value)) (cv_Contributor value) (cv_Sequence value)
    (cv_ContentHash value) (Some (toTransportRichText (cv_Content value))) (cv_PlainText value)
    (format_time (cv_CreatedAt value)) (format_time (cv_UpdatedAt value)).

(** [None]: the stored content does not decode. *)
Definition toTransportHistory (value : HistoryCheckpoint) : option WireHistory :=
  content ← decode_document (hc_Content value);
  Some (MkWireHistory (hc_ID value) (hc_DocumentID value) (hc_Kind value) (hc_Sequence value)
          (hc_MetadataRevision value) (hc_SemanticHash value) (Some (toTransportRichText content))
          (hc_PlainText value) (hc_Metadata value) (hc_Contributors value) (hc_BlockDiff value)
          (hc_IsAnchor value) (format_time (hc_CreatedAt value))).

Definition toTransportFolder (value : Folder) : WireFolder :=
  MkWireFolder (fv_ID value) (fv_ParentID value) (fv_Name value) (fv_Depth value) (fv_Revision value)
    (format_time (fv_CreatedAt value)) (format_time (fv_UpdatedAt value)).

Definition toTransportMember (value : Member) : WireMember (option WireUser) :=
  MkWireMember (toTransportUser (mv_User value)) (mv_Role value) (mv_Revision value)
    (format_time (mv_CreatedAt value)) (format_time (mv_UpdatedAt value)).

End transport.

(** ** Checked by the gateway *)

(** The loop of a conversion over a slice of pointers. *)
Fixpoint convert_all {A B} (convert : A → option B) (items : list A) : option (list B) :=
  match items with
  | [] => Some []
  | item :: rest => converted ← convert item; (converted ::.) <$> convert_all convert rest
  end.

Definition validPublicationStatus (value : string) : bool :=
  bool_decide (value ∈ ["draft"; "publishing"; "published"; "publish_failed"; "unpublishing"; "unpublish_failed"]).

Definition validDocumentAccess (value : string) : bool :=
  bool_decide (value ∈ ["none"; "viewer"; "editor"; "owner"]).

Definition commitKindText (value : Z) : string :=
  if value =? CommitKind_LEAVE then "leave"
  else if value =? CommitKind_SAFETY then "safety"
  else if value =? CommitKind_PUBLISH then "publish"
  else if value =? CommitKind_REVISION_MERGE then "revision_merge"
  else if value =? CommitKind_AGENT_EDIT then "agent_edit"
  else if value =? CommitKind_RESTORE then "restore"
  else if value =? CommitKind_MANUAL then "manual"
  else EmptyString.

Section gateway.
Context `{UuidText, Redirects}.

(** [validUUIDv7] of the gateway *)
Definition canonicalUUIDv7 (value : string) : bool := bool_decide (uuid_parse value = Some (7, value)).

Definition validOptionalTime (value : option string) : bool := match value with None => true | Some v => validRFC3339 v end.

Definition toPublicUserData (value : option WireUser) : option UserData :=
  user ← value;
  if (wu_Id user <=? 0) || blank (wu_Username user) then None
  else Some (MkUserData (FormatInt (wu_Id user)) (wu_Username user) (wu_Avatar user)).

Definition toDocumentData (value : option RpcDocument) : option DocumentData :=
  v ← value;
  if negb (canonicalUUIDv7 (wk_Id v)) || blank (wk_Title v) || negb (slugPattern (wk_Slug v))
     || (wk_MetadataRevision v <=? 0) || (wk_ContentRevision v <? 0) || negb (validDocumentAccess (wk_Access v))
     || negb (validRFC3339 (wk_CreatedAt v)) || negb (validRFC3339 (wk_UpdatedAt v))
     || negb (validPublicationStatus (wk_PublicationStatus v)) || negb (validOptionalTime (wk_PublishedAt v))
     || negb (validOptionalTime (wk_DeletedAt v)) || negb (validOptionalTime (wk_ProjectedAt v))
  then None
  else
    owner ← toPublicUserData (wk_Owner v);
    Some (MkWireDocument (wk_Id v) (wk_Title v) (wk_Summary v) (wk_Slug v) owner (wk_Access v)
            (wk_Published v) (wk_MetadataRevision v) (wk_ContentRevision v) (wk_PublishedAt v)
            (wk_DeletedAt v) (wk_ProjectedAt v) (wk_CreatedAt v) (wk_UpdatedAt v) (wk_Language v)
            (wk_Tags v) (wk_FolderId v) (wk_PublicationStatus v) (wk_PublicationError v)
            (wk_PublicationHash v) (wk_Icon v) (wk_CoverAttachmentId v) (wk_CoverFocalX v)
            (wk_CoverFocalY v) (wk_PublicationGeneration v) (wk_ActivePublicationHash v)).

(** A page without its page info is refused; that info is never left out by the
    service, so a page here has it. *)
Definition toDocumentPageData (value : option (WirePage (option RpcDocument))) : option (WirePage DocumentData) :=
  v ← value;
  if negb (bool_decide (pg_HasMore v = is_some (pg_NextCursor v))) then None
  else if opt_test (λ c, (len c =? 0) || (1024 <? len c)) (pg_NextCursor v) then None
  else
    items ← convert_all toDocumentData (pg_Items v);
    Some (MkWirePage items (pg_NextCursor v) (pg_HasMore v)).

Definition toDocumentDetailData (value : option (WireDetail (option RpcDocument))) : option (WireDetail DocumentData) :=
  v ← value;
  if is_none (wt_Content v) then None
  else
    document ← toDocumentData (wt_Document v);
    content ← richTextDocumentData (wt_Content v);
    Some (MkWireDetail document (Some content) (wt_PlainText v)).

Definition toCommitData (value : option (WireCommit Z)) : option (WireCommit string) :=
  v ← value;
  if negb (canonicalUUIDv7 (wc_Id v)) || negb (canonicalUUIDv7 (wc_DocumentId v))
     || blank (commitKindText (wc_Kind v)) || blank (wc_Label v) || blank (wc_Contributor v)
     || (wc_Sequence v <? 0) || blank (wc_ContentHash v) || negb (validRFC3339 (wc_CreatedAt v))
     || negb (validRFC3339 (wc_UpdatedAt v))
  then None
  else
    content ← richTextDocumentData (wc_Content v);
    Some (MkWireCommit (wc_Id v) (wc_DocumentId v) (commitKindText (wc_Kind v)) (wc_Label v)
            (wc_Description v) (wc_Contributor v) (wc_Sequence v) (wc_ContentHash v) (Some content)
            (wc_PlainText v) (wc_CreatedAt v) (wc_UpdatedAt v)).

Definition toCommitPageData (value : option (WirePage (option (WireCommit Z)))) : option (WirePage (WireCommit string)) :=
  v ← value;
  items ← convert_all toCommitData (pg_Items v);
  Some (MkWirePage items (pg_NextCursor v) (pg_HasMore v)).

Definition toHistoryRevisionData (value : option WireHistory) : option WireHistory :=
  v ← value;
  if negb (canonicalUUIDv7 (wh_Id v)) || negb (canonicalUUIDv7 (wh_DocumentId v)) || (wh_Sequence v <? 0)
     || (wh_MetadataRevision v <? 1) || blank (wh_SemanticHash v) || negb (validRFC3339 (wh_CreatedAt v))
  then None
  else
    content ← richTextDocumentData (wh_Content v);
    Some (MkWireHistory (wh_Id v) (wh_DocumentId v) (wh_Kind v) (wh_Sequence v) (wh_MetadataRevision v)
            (wh_SemanticHash v) (Some content) (wh_PlainText v) (wh_MetadataJson v) (wh_ContributorsJson v)
            (wh_BlockDiffJson v) (wh_IsAnchor v) (wh_CreatedAt v)).

Definition toHistoryPageData (value : option (WirePage (option WireHistory))) : option (WirePage WireHistory) :=
  v ← value;
  items ← convert_all toHistoryRevisionData (pg_Items v);
  Some (MkWirePage items (pg_NextCursor v) (pg_HasMore v)).

Definition toFolderData (value : option WireFolder) : option WireFolder :=
  v ← value;
  if negb (canonicalUUIDv7 (wf_Id v)) || blank (wf_Name v) || (wf_Depth v <? 1) || (8 <? wf_Depth v)
     || (wf_Revision v <? 1) || negb (validRFC3339 (wf_CreatedAt v)) || negb (validRFC3339 (wf_UpdatedAt v))
  then None
  else if opt_test (negb ∘ canonicalUUIDv7) (wf_ParentId v) then None
  else Some (MkWireFolder (wf_Id v) (wf_ParentId v) (wf_Name v) (wf_Depth v) (wf_Revision v)
               (wf_CreatedAt v) (wf_UpdatedAt v)).

Definition toFolderListData (value : option (list (option WireFolder))) : option (list WireFolder) :=
  v ← value; convert_all toFolderData v.

Definition toMemberData (value : option (WireMember (option WireUser))) : option (WireMember UserData) :=
  v ← value;
  if (we_Revision v <=? 0) || negb (bool_decide (we_Role v ∈ ["viewer"; "editor"]))
     || negb (validRFC3339 (we_CreatedAt v)) || negb (validRFC3339 (we_UpdatedAt v))
  then None
  else
    user ← toPublicUserData (we_User v);
    Some (MkWireMember user (we_Role v) (we_Revision v) (we_CreatedAt v) (we_UpdatedAt v)).

Definition toMemberListData (value : option (list (option (WireMember (option WireUser))))) : option (list (WireMember UserData)) :=
  v ← value; convert_all toMemberData v.

(** ** A converted message says the same *)

Lemma toDocumentData_same v d :
  toDocumentData (Some v) = Some d →
  wk_Id d = wk_Id v ∧ wk_Title d = wk_Title v ∧ wk_Slug d = wk_Slug v ∧
  wk_MetadataRevision d = wk_MetadataRevision v ∧ canonicalUUIDv7 (wk_Id v) = true ∧ blank (wk_Title v) = false.
Proof.
  unfold toDocumentData. simpl. destruct (_ || _) eqn:E; [done|].
  destruct (toPublicUserData _); [|done]. simpl. intros [= <-].
  rewrite !orb_false_iff, !negb_false_iff in E. naive_solver.
Qed.

Lemma toCommitData_document v c : toCommitData (Some v) = Some c → wc_DocumentId c = wc_DocumentId v.
Proof.
  unfold toCommitData. simpl. destruct (_ || _); [done|].
  destruct (richTextDocumentData _); [|done]. simpl. by intros [= <-].
Qed.

End gateway.
