(* ===== verification/IServe.v ===== *)
(** The RPC handlers of the identity service:
    services/identity/internal/transport/rpc/handler.go, with the catalogue of
    services/identity/internal/errors/catalog.go.

    A handler finds its caller by the token that came with the call: the token
    must verify, its user must exist and may hold sessions, and its version must
    be the one of the account.  Log records and span attributes are left out.
    The generated server hands over requests that are not nil. *)

From stdpp Require Import base gmap list sets strings.
From Stdlib Require Import ZArith Lia.
From S2P Require Import Prelude.
From S2P Require Import GoStrings.
From S2P Require Import GoText.
From S2P Require Import AppError.
From S2P Require Import AuthToken.
From S2P Require Import GResponse.
From S2P Require Import WKnowledge.
From S2P Require Import ISchema.
From S2P Require Import IStore.
From S2P Require Import ILogic.
From S2P Require Import IWorld.

Open Scope Z_scope.

(** ** Errors *)

Definition identity_definition (code : icode) : Definition_ :=
  match code with
  | IInvalidInput => MustDefine 20001 "identity.invalid_input" KindInvalidArgument "invalid identity input"
  | IUsernameConflict => MustDefine 20002 "identity.username_conflict" KindConflict "username already exists"
  | IEmailConflict => MustDefine 20002 "identity.email_conflict" KindConflict "email already exists"
  | IInvalidCredentials => MustDefine 20003 "identity.invalid_credentials" KindUnauthenticated "invalid credentials"
  | IAccountLocked => MustDefine 20004 "identity.account_locked" KindPermissionDenied "account is locked"
  | IUserDisabled => MustDefine 20005 "identity.user_disabled" KindPermissionDenied "user is disabled"
  | IUserNotFound => MustDefine 20006 "identity.user_not_found" KindNotFound "user not found"
  | IUnauthenticated => MustDefine 20007 "identity.unauthenticated" KindUnauthenticated "authentication is required"
  | IForbidden => MustDefine 20008 "identity.forbidden" KindPermissionDenied "access is forbidden"
  | IEmailNotVerified =>
    MustDefine 20010 "identity.email_not_verified" KindPermissionDenied "email verification is required"
  | IActionExpired => MustDefine 20011 "identity.action_expired" KindInvalidArgument "action token has expired"
  | IActionAlreadyUsed =>
    MustDefine 20012 "identity.action_already_used" KindConflict "action token has already been used"
  | IVerificationCooldown =>
    MustDefine 20013 "identity.verification_cooldown" KindRateLimited "verification email was recently sent"
  | IUnimplemented =>
    MustDefine 20009 "identity.unimplemented" KindUnimplemented "identity operation is not implemented"
  | IInternal => MustDefine 20999 "identity.internal" KindInternal "internal identity service error"
  end.

(** The Go error behind an error of the request logic; errors of the store and
    of the domain carry no definition. *)
Definition identity_plain (e : ierror) : error := AppError.EOther "identity" [].

Definition identity_error (e : idlerror) : error :=
  match e with
  | IApp code None => New (identity_definition code)
  | IApp code (Some cause) => Wrap (identity_definition code) (identity_plain cause)
  | ICooldown seconds =>
    NewWithExtra (identity_definition IVerificationCooldown) (Some {[ExtraRetryAfter := FormatInt seconds]})
  | IRaw cause => identity_plain cause
  end.

(** [errors.As(err, &validationError)] *)
Definition is_validation (e : idlerror) : bool :=
  match e with IRaw (EInvalid _ _) | IApp _ (Some (EInvalid _ _)) => true | _ => false end.

Definition mapServiceError (e : idlerror) : error :=
  match Details (identity_error e) with
  | Some _ => identity_error e
  | None =>
    if is_validation e then Wrap (identity_definition IInvalidInput) (identity_error e)
    else Wrap (identity_definition IInternal) (identity_error e)
  end.

(** ** Messages *)

Record IdentityUser := MkIdentityUser {
  iu_Id : Z;
  iu_Username : string;
  iu_Email : string;
  iu_Role : string;
  iu_Status : string;
  iu_TokenVersion : Z;
  iu_Avatar : string;
  iu_AvatarAttachmentId : option string;
  iu_Bio : string;
  iu_CreatedAt : string;
  iu_UpdatedAt : string;
  iu_EmailVerifiedAt : option string;
}.

Record Authentication := MkAuthentication {
  at_User : option IdentityUser;
  at_AccessToken : string;
  at_ExpiresAt : string;
  at_RefreshToken : option string;
  at_SessionId : option string;
  at_TokenType : option string;
}.

Record WireVerification := MkWireVerification {
  wv_State : string; wv_ExpiresAt : option string; wv_RetryAfterSeconds : option Z }.

Record WireSession := MkWireSession {
  wn_Id : string; wn_DeviceLabel : string; wn_CreatedAt : string; wn_LastSeenAt : string;
  wn_ExpiresAt : string; wn_Current : bool }.

Record PublicUser_ := MkPublicUser_ {
  pb_Id : Z; pb_Username : string; pb_Avatar : string; pb_AvatarAttachmentId : option string }.

(** What the service is put together from: the settings of the logic, which of
    the optional operations the repositories have, and which of the optional
    use cases the handler was given. *)
Record Service := MkService {
  sv_Config : IConfig;
  sv_Verification : bool;
  sv_Atomic : bool;
  sv_Graceful : bool;
  sv_LoginSessions : bool;
  sv_DummyHash : string;
  sv_HasSessions : bool;
  sv_HasActions : bool;
}.

Definition optional_text (value : string) : option string := if value =?= EmptyString then None else Some value.

Section handlers.
Context `{Unicode, Crypto, TimeText}.
(** [verify] is the verifier of access tokens and [expiry] the expiry the issuer
    returns with a token. *)
Variables (verify : string → option Principal) (expiry : string → Z) (svc : Service) (ctx : ICtx).

Notation irpc := (tx IDB error).

Definition toIdentityUser (user : User) : IdentityUser :=
  MkIdentityUser (uv_ID user) (uv_Username user) (uv_Email user) (uv_Role user) (uv_Status user)
    (uv_TokenVersion user) (uv_Avatar user) (optional_text (uv_AvatarAttachmentID user)) (uv_Bio user)
    (format_time (uv_CreatedAt user)) (format_time (uv_UpdatedAt user))
    (format_time <$> uv_EmailVerifiedAt user).

Definition toTransportVerification (status : VerificationStatus) : WireVerification :=
  match status with
  | Verified => MkWireVerification "verified" None None
  | Pending expiresAt seconds =>
    MkWireVerification "pending" (Some (format_time expiresAt)) (if 0 <? seconds then Some seconds else None)
  | Idle => MkWireVerification "idle" None None
  end.

(** A call of the request logic behind [transportError]. *)
Definition iserved {A} (m : ilogic A) : irpc A := wrap mapServiceError m.

Definition deny {A} (code : icode) : irpc A := fail (New (identity_definition code)).

(** ** Callers *)

Definition authenticateRequest (token : string) : irpc (Principal * User) :=
  match verify token with
  | None => fail (Wrap (identity_definition IUnauthenticated) (AppError.EOther "verify" []))
  | Some principal =>
    found ← attempt (GetUser (pr_UserID principal));
    match found with
    | Err e =>
      if KindOf (identity_error e) =?= KindNotFound
      then fail (Wrap (identity_definition IUnauthenticated) (identity_error e))
      else fail (mapServiceError e)
    | Ok user =>
      if negb (CanEstablishSession user) || negb (uv_TokenVersion user =? pr_TokenVersion principal)
      then deny IUnauthenticated else mret (principal, user)
    end
  end.

(** A handler that needs a caller, and one of the optional use cases. *)
Definition as_caller {A} (present : bool) (token : string) (k : Principal → User → irpc A) : irpc A :=
  if present then '(principal, user) ← authenticateRequest token; k principal user
  else deny IInvalidInput.

(** A handler that needs a text and one of the optional use cases. *)
Definition with_text {A} (present : bool) (texts : list string) (k : irpc A) : irpc A :=
  if negb (bool_decide (EmptyString ∈ texts)) && present then k else deny IInvalidInput.

(** ** The handlers *)

Definition ServeRegister (username email password : string) : irpc IdentityUser :=
  user ← iserved (Register (sv_Config svc) (sv_Verification svc) ctx username email password);
  mret (toIdentityUser user).

Definition toAuthentication (a : SessionAuthentication) : Authentication :=
  MkAuthentication (Some (toIdentityUser (sa_User a))) (sa_AccessToken a) (format_time (expiry (sa_AccessToken a)))
    (optional_text (sa_RefreshToken a)) (optional_text (sa_SessionID a)) (Some "Bearer").

(** A result that lacks one of [texts] or the expiry of its token. *)
Definition incomplete (a : SessionAuthentication) (texts : list string) : bool :=
  bool_decide (EmptyString ∈ texts) || (expiry (sa_AccessToken a) =? zero_time).

Definition ServeAuthenticate (identifier password : string) : irpc Authentication :=
  a ← iserved (Authenticate (sv_Config svc) (sv_LoginSessions svc) ctx (sv_DummyHash svc) identifier password);
  if incomplete a [sa_AccessToken a]
  then fail (mapServiceError (IRaw (EFailed "identity authentication returned an incomplete result")))
  else mret (toAuthentication a).

Definition ServeRefreshSession (refreshToken : string) : irpc Authentication :=
  with_text (sv_HasSessions svc) [refreshToken] (
    a ← iserved (Refresh (sv_Config svc) (sv_Graceful svc) ctx refreshToken);
    if incomplete a [sa_AccessToken a; sa_RefreshToken a; sa_SessionID a]
    then fail (mapServiceError (IRaw (EFailed "identity refresh returned an incomplete result")))
    else mret (toAuthentication a)).

Definition ServeGetEmailVerificationStatus (token : string) : irpc WireVerification :=
  as_caller (sv_HasActions svc) token (λ _ user,
    status ← iserved (EmailVerificationStatus ctx user);
    mret (toTransportVerification status)).

Definition ServeRequestEmailVerification (token : string) : irpc WireVerification :=
  as_caller (sv_HasActions svc) token (λ _ user,
    status ← iserved (RequestEmailVerification (sv_Config svc) (sv_Atomic svc) ctx user);
    mret (toTransportVerification status)).

Definition ServeVerifyEmail (actionToken : string) : irpc unit :=
  with_text (sv_HasActions svc) [actionToken]
    (iserved (VerifyEmail (sv_Config svc) (sv_Atomic svc) ctx actionToken)).

Definition ServeRequestPasswordReset (identifier : string) : irpc unit :=
  with_text (sv_HasActions svc) [identifier]
    (iserved (RequestPasswordReset (sv_Config svc) (sv_Atomic svc) ctx identifier)).

Definition ServeResetPassword (actionToken password : string) : irpc unit :=
  with_text (sv_HasActions svc) [actionToken; password]
    (iserved (ResetPassword (sv_Config svc) (sv_Atomic svc) ctx actionToken password)).

Definition toWireSession (current : string) (s : Session) : WireSession :=
  MkWireSession (sv_ID s) (sv_DeviceLabel s) (format_time (sv_CreatedAt s)) (format_time (sv_LastSeenAt s))
    (format_time (sv_ExpiresAt s)) (sv_ID s =?= current).

Definition ServeListSessions (token : string) : irpc (list (option WireSession)) :=
  as_caller (sv_HasSessions svc) token (λ principal _,
    found ← iserved (LogicListSessions ctx (pr_UserID principal));
    mret (Some ∘ toWireSession (pr_SessionID principal) <$> found)).

Definition ServeRevokeSession (token sessionID : string) : irpc unit :=
  with_text (sv_HasSessions svc) [sessionID] (as_caller true token (λ principal _,
    iserved (RevokeSession ctx (pr_UserID principal) sessionID "user_revoked"))).

Definition ServeRevokeAllSessions (token : string) : irpc unit :=
  as_caller (sv_HasSessions svc) token (λ principal _,
    iserved (RevokeAllSessions ctx (pr_UserID principal) "user_revoked_all")).

Definition ServeDeactivateAccount (token password : string) : irpc unit :=
  with_text (sv_HasActions svc) [password] (as_caller true token (λ principal _,
    iserved (DeactivateAccount (sv_Atomic svc) ctx (pr_UserID principal) password))).

Definition ServeGetCurrentUser (token : string) : irpc IdentityUser :=
  as_caller true token (λ principal user,
    if uv_ID user =? pr_UserID principal then mret (toIdentityUser user) else deny IUnauthenticated).

Definition ServeResolveUser (token username : string) : irpc PublicUser_ :=
  as_caller true token (λ _ _,
    user ← iserved (ResolveUsername username);
    if uv_Status user =?= StatusActive
    then mret (MkPublicUser_ (uv_ID user) (uv_Username user) (uv_Avatar user)
                 (optional_text (uv_AvatarAttachmentID user)))
    else deny IUserNotFound).

End handlers.
