(* ===== verification/IAccess.v ===== *)
(** What the handlers of the identity service promise about access tokens: who a
    call acts for, how long a token is accepted, and which rows a caller can
    change. *)

From stdpp Require Import base gmap list sets strings relations.
From Stdlib Require Import ZArith Lia.
From S2P Require Import Prelude.
From S2P Require Import GoStrings.
From S2P Require Import AppError.
From S2P Require Import AuthToken.
From S2P Require Import GResponse.
From S2P Require Import WKnowledge.
From S2P Require Import ISchema.
From S2P Require Import IStore.
From S2P Require Import ILogic.
From S2P Require Import IWorld.
From S2P Require Import IClaims.
From S2P Require Import IServe.

Open Scope Z_scope.

(** ** Calls *)

Inductive icall :=
| CallRegister (username email password : string)
| CallAuthenticate (identifier password : string)
| CallRefreshSession (refreshToken : string)
| CallVerifyEmail (actionToken : string)
| CallRequestPasswordReset (identifier : string)
| CallResetPassword (actionToken password : string)
| CallGetEmailVerificationStatus (token : string)
| CallRequestEmailVerification (token : string)
| CallListSessions (token : string)
| CallRevokeSession (token sessionID : string)
| CallRevokeAllSessions (token : string)
| CallDeactivateAccount (token password : string)
| CallGetCurrentUser (token : string)
| CallResolveUser (token username : string).

(** The access token of a call that needs one. *)
Definition call_token (c : icall) : option string :=
  match c with
  | CallGetEmailVerificationStatus token | CallRequestEmailVerification token | CallListSessions token
  | CallRevokeSession token _ | CallRevokeAllSessions token | CallDeactivateAccount token _
  | CallGetCurrentUser token | CallResolveUser token _ => Some token
  | _ => None
  end.

(** Follow the structure of an operation up to its writes. *)
Create HintDb frame.

Ltac frame_step :=
  first
  [ progress intros
  | match goal with |- PreOrder _ => apply _ end
  | solve [eauto 2 with frame]
  | apply within_ret | apply within_fail | apply within_gets | apply within_lift | apply within_require
  | apply within_expect | apply within_transaction | apply within_wrap | apply within_attempt | apply within_bind
  | progress cbv zeta
  | match goal with |- within _ _ => case_match end ].

Ltac frame := repeat frame_step.

Section access.
Context `{Unicode, Crypto, TimeText}.
Variables (verify : string → option Principal) (expiry : string → Z) (svc : Service).

Notation cfg := (sv_Config svc).
Notation irpc := (tx IDB error).

(** A call, without its answer. *)
Definition serve (ctx : ICtx) (c : icall) : irpc unit :=
  let quietly {A} (m : irpc A) : irpc unit := m ≫= λ _, mret tt in
  match c with
  | CallRegister u e p => quietly (ServeRegister svc ctx u e p)
  | CallAuthenticate i p => quietly (ServeAuthenticate expiry svc ctx i p)
  | CallRefreshSession t => quietly (ServeRefreshSession expiry svc ctx t)
  | CallVerifyEmail t => ServeVerifyEmail svc ctx t
  | CallRequestPasswordReset i => ServeRequestPasswordReset svc ctx i
  | CallResetPassword t p => ServeResetPassword svc ctx t p
  | CallGetEmailVerificationStatus t => quietly (ServeGetEmailVerificationStatus verify svc ctx t)
  | CallRequestEmailVerification t => quietly (ServeRequestEmailVerification verify svc ctx t)
  | CallListSessions t => quietly (ServeListSessions verify svc ctx t)
  | CallRevokeSession t i => ServeRevokeSession verify svc ctx t i
  | CallRevokeAllSessions t => ServeRevokeAllSessions verify svc ctx t
  | CallDeactivateAccount t p => ServeDeactivateAccount verify svc ctx t p
  | CallGetCurrentUser t => quietly (ServeGetCurrentUser verify t)
  | CallResolveUser t u => quietly (ServeResolveUser verify t u)
  end.

(** ** Who a call acts for *)

Lemma identity_details code : Details (New (identity_definition code)) = Some (identity_definition code).
Proof. destruct code; vm_compute; reflexivity. Qed.

Lemma identity_details_wrap code e : Details (Wrap (identity_definition code) e) = Some (identity_definition code).
Proof. destruct code; vm_compute; reflexivity. Qed.

Lemma GetUser_run i s :
  0 < i →
  GetUser i s = (s, match users s !! i with
                    | Some r => Ok (fromModel r) | None => Err (IApp IUserNotFound (Some ErrUserNotFound)) end).
Proof.
  intros Hi. unfold GetUser, coded. rewrite (proj2 (Z.leb_gt i 0)) by done.
  unfold FindByID, find_user. cbv [mbind tx_bind wrap lift gets id expect]. by destruct (users s !! i).
Qed.

(** The account a principal speaks for, while its tokens are current. *)
Definition speaks_for (p : Principal) (s : IDB) : option UserRow :=
  r ← users s !! pr_UserID p;
  if CanEstablishSession (fromModel r) && (u_TokenVersion r =? pr_TokenVersion p) then Some r else None.

(** A caller is known, or the call ends there and nothing is written. *)
Lemma authenticateRequest_run token p s :
  verify token = Some p → 0 < pr_UserID p →
  match speaks_for p s with
  | Some r => authenticateRequest verify token s = (s, Ok (p, fromModel r))
  | None => ∃ e, authenticateRequest verify token s = (s, Err e)
                 ∧ Details e = Some (identity_definition IUnauthenticated)
  end.
Proof.
  intros Hv Hp. unfold authenticateRequest, speaks_for. rewrite Hv. unfold attempt. cbv [mbind tx_bind].
  rewrite GetUser_run by done. destruct (users s !! pr_UserID p) as [r|]; simpl.
  - destruct (CanEstablishSession (fromModel r)); simpl; [|eexists; split; [done|apply identity_details]].
    destruct (u_TokenVersion r =? pr_TokenVersion p); simpl; [done|]. eexists. split; [done|apply identity_details].
  - eexists. split; [done|]. vm_compute. reflexivity.
Qed.

Lemma authenticateRequest_ok token s s' p u :
  authenticateRequest verify token s = (s', Ok (p, u)) →
  s' = s ∧ verify token = Some p ∧ ∃ r, speaks_for p s = Some r ∧ u = fromModel r.
Proof.
  unfold authenticateRequest. destruct (verify token) as [q|]; [|done]. intros Hr. run_inv.
  match goal with Hx : GetUser _ _ = (_, ?f) |- _ => destruct f as [user|e]; [|by case_match] end.
  case_match eqn:Hc; [done|]. run_inv. unfold GetUser, coded, FindByID, find_user in *. run_inv. split_and!; [done..|].
  match goal with Hx : users _ !! _ = Some ?r |- _ => exists r; unfold speaks_for; rewrite Hx end. simpl in *.
  apply orb_false_iff in Hc as [->%negb_false_iff ->%negb_false_iff]. done.
Qed.

Lemma speaks_for_row p s r : speaks_for p s = Some r → users s !! pr_UserID p = Some r.
Proof. unfold speaks_for. destruct (users s !! _) as [q|]; simpl; [|done]. case_match; [by intros [= ->]|done]. Qed.

(** The state after a call that needs a caller. *)
Lemma as_caller_state {A} present token (k : Principal → User → irpc A) s :
  (as_caller verify present token k s).1 = s ∨
  ∃ p r, verify token = Some p ∧ speaks_for p s = Some r ∧
    (as_caller verify present token k s).1 = (k p (fromModel r) s).1.
Proof.
  unfold as_caller. destruct present; [|by left]. cbv [mbind tx_bind].
  assert ((authenticateRequest verify token s).1 = s) as Hs.
  { unfold authenticateRequest. destruct (verify token) as [p|]; [|done]. cbv [mbind tx_bind]. unfold attempt.
    unfold GetUser, coded, FindByID, find_user. cbv [mbind tx_bind wrap lift gets id expect].
    destruct (pr_UserID p <=? 0); simpl; [done|]. destruct (users s !! pr_UserID p); simpl; [|done]. by case_match. }
  destruct (authenticateRequest verify token s) as [s1 [[p u]|e]] eqn:E; simpl in *; [|by left].
  apply authenticateRequest_ok in E as (-> & Hv & r & Hr & ->). right. by exists p, r.
Qed.

Lemma with_text_state {A} present texts (k : irpc A) s :
  (with_text present texts k s).1 = s ∨ with_text present texts k s = k s.
Proof. unfold with_text. case_match; [by right|by left]. Qed.

Lemma iserved_state {A} (m : ilogic A) s : (iserved m s).1 = (m s).1.
Proof. unfold iserved, wrap. by destruct (m s) as [s' [a|e]]. Qed.

Lemma returned_state {A B} (m : irpc A) (f : A → B) s : ((m ≫= λ a, mret (f a)) s).1 = (m s).1.
Proof. cbv [mbind tx_bind]. by destruct (m s) as [s' [a|e]]. Qed.

(** A pure end of a computation. *)
Lemma ended_state {A B} (m : irpc A) (k : A → irpc B) s : (∀ a s', (k a s').1 = s') → ((m ≫= k) s).1 = (m s).1.
Proof. intros Hk. cbv [mbind tx_bind]. by destruct (m s) as [s' [a|e]]; [rewrite Hk|]. Qed.

(** Reads: nothing is written. *)
Lemma ResolveUsername_state name s : (ResolveUsername name s).1 = s.
Proof.
  symmetry. refine ((_ : within eq (ResolveUsername name)) s).
  unfold ResolveUsername, coded, FindByUsername, find_user. frame.
Qed.

Lemma EmailVerificationStatus_state ctx u s : (EmailVerificationStatus ctx u s).1 = s.
Proof.
  symmetry. refine ((_ : within eq (EmailVerificationStatus ctx u)) s).
  unfold EmailVerificationStatus, LatestUnusedByKind, refuse. frame.
Qed.

Lemma LogicListSessions_state ctx i s : (LogicListSessions ctx i s).1 = s.
Proof.
  symmetry. refine ((_ : within eq (LogicListSessions ctx i)) s).
  unfold LogicListSessions, refuse, raw, ListSessions. frame.
Qed.

(** ** Calls are steps of the service *)

(** Every call of a handler is a step of the transition system of the logic, or
    writes nothing. *)
Lemma serve_step ctx c s : (serve ctx c s).1 = s ∨ istep cfg s (serve ctx c s).1.
Proof.
  destruct c; cbn [serve];
    unfold ServeRegister, ServeAuthenticate, ServeRefreshSession, ServeVerifyEmail, ServeRequestPasswordReset,
      ServeResetPassword, ServeGetEmailVerificationStatus, ServeRequestEmailVerification, ServeListSessions,
      ServeRevokeSession, ServeRevokeAllSessions, ServeDeactivateAccount, ServeGetCurrentUser, ServeResolveUser;
    rewrite ?returned_state;
    repeat match goal with
    | |- (with_text ?b ?ts ?k ?s).1 = _ ∨ _ => destruct (with_text_state b ts k s) as [->| ->]; [by left|]
    | |- (as_caller _ ?b ?t ?k ?s).1 = _ ∨ _ =>
        destruct (as_caller_state b t k s) as [->|(p & r & _ & _ & ->)]; [by left|]
    end;
    rewrite ?ended_state by (intros; by case_match); rewrite ?iserved_state, ?returned_state, ?iserved_state.
  - right. by exists (IReqRegister (sv_Verification svc) ctx username email password).
  - right. by exists (IReqLogin (sv_LoginSessions svc) ctx (sv_DummyHash svc) identifier password).
  - right. by exists (IReqRefresh (sv_Graceful svc) ctx refreshToken).
  - right. by exists (IReqVerifyEmail (sv_Atomic svc) ctx actionToken).
  - right. by exists (IReqReset (sv_Atomic svc) ctx identifier).
  - right. by exists (IReqResetPassword (sv_Atomic svc) ctx actionToken password).
  - left. apply EmailVerificationStatus_state.
  - right. by exists (IReqVerification (sv_Atomic svc) ctx (fromModel r)).
  - left. apply LogicListSessions_state.
  - right. by exists (IReqRevoke ctx (pr_UserID p) sessionID "user_revoked").
  - right. by exists (IReqRevokeAll ctx (pr_UserID p) "user_revoked_all").
  - right. by exists (IReqDeactivate (sv_Atomic svc) ctx (pr_UserID p) password).
  - left. by case_match.
  - left. apply ResolveUsername_state.
Qed.

(** ** Tokens that are no longer current *)

(** A call with a token whose account is gone, closed or at another version. *)
Lemma stale_token_refused ctx c token p s :
  call_token c = Some token → verify token = Some p → 0 < pr_UserID p → speaks_for p s = None →
  ∃ e, serve ctx c s = (s, Err e).
Proof.
  intros Hc Hv Hp Hn. pose proof (authenticateRequest_run token p s Hv Hp) as Ha. rewrite Hn in Ha.
  destruct Ha as (e & Ha & _).
  assert (∀ A present (k : Principal → User → irpc A), ∃ e', as_caller verify present token k s = (s, Err e')) as Hk.
  { intros A present k. unfold as_caller. destruct present; [|by eexists]. cbv [mbind tx_bind]. rewrite Ha. by eexists. }
  assert (∀ A present (k : Principal → User → irpc A) texts b, ∃ e',
    with_text b texts (as_caller verify present token k) s = (s, Err e')) as Ht.
  { intros A present k texts b. unfold with_text. case_match; [apply Hk|by eexists]. }
  assert (∀ A B present (k : Principal → User → irpc A) (f : A → irpc B), ∃ e',
    (as_caller verify present token k ≫= f) s = (s, Err e')) as Hb.
  { intros A B present k f. destruct (Hk A present k) as [e' He]. exists e'. cbv [mbind tx_bind]. by rewrite He. }
  destruct c; cbn [call_token] in Hc; simplify_eq; cbn [serve];
    unfold ServeGetEmailVerificationStatus, ServeRequestEmailVerification, ServeListSessions,
      ServeRevokeSession, ServeRevokeAllSessions, ServeDeactivateAccount, ServeGetCurrentUser, ServeResolveUser;
    first [apply Hk|apply Ht|apply Hb].
Qed.

(** Accounts from one state to a later one. *)
Lemma account_later s t i r :
  tidy s → users s !! i = Some r → rtc (istep cfg) s t →
  tidy t ∧ ∃ r', users t !! i = Some r' ∧ matures r r'.
Proof.
  intros Hs Hr Hst. destruct (steps_life cfg s t Hst Hs) as [Ht Hg]. split; [done|].
  destruct (gr_users _ _ _ Hg i r Hr) as (r' & ? & ?). by exists r'.
Qed.

Lemma old_version_silent s i r p :
  users s !! i = Some r → pr_UserID p = i → pr_TokenVersion p < u_TokenVersion r → speaks_for p s = None.
Proof.
  intros Hr Hi Hv. unfold speaks_for. rewrite Hi, Hr. simpl.
  rewrite (proj2 (Z.eqb_neq _ _)) by lia. by rewrite andb_false_r.
Qed.

(** After a change of the password or a deactivation, the tokens issued before
    speak for nobody, for ever. *)
Lemma changed_account_silent s t u i r r' p :
  tidy s → users s !! i = Some r → rtc (istep cfg) s t → users t !! i = Some r' →
  u_PasswordHash r' ≠ u_PasswordHash r ∨ u_Status r ≠ StatusDisabled ∧ u_Status r' = StatusDisabled →
  rtc (istep cfg) t u → pr_UserID p = i → pr_TokenVersion p <= u_TokenVersion r →
  speaks_for p u = None.
Proof.
  intros Hs Hr Hst Hr' Hc Htu Hi Hv. destruct (account_later s t i r Hs Hr Hst) as (Ht & q & Hq & Hm).
  assert (q = r') as -> by congruence.
  assert (u_TokenVersion r < u_TokenVersion r') as Hlt.
  { destruct Hc as [Hc|[Hc Hd]]; [by apply (ma_password _ _ Hm)|by apply (ma_disabled _ _ Hm)]. }
  destruct (account_later t u i r' Ht Hr' Htu) as (_ & w & Hw & Hmw).
  pose proof (ma_version _ _ Hmw). apply (old_version_silent u i w); [done|done|lia].
Qed.

(** ** Tokens that were handed out *)

Lemma rotate_users key ctx (graceful : bool) k current next token now expires grace s t v :
  (if graceful then RotateWithGrace key ctx k current next token now expires grace
   else Rotate k current next now expires) s = (t, Ok v) → users t = users s.
Proof.
  destruct graceful; intros Hr; [unfold RotateWithGrace in Hr|unfold Rotate in Hr];
    unfold find_session, sealed, save_session in Hr; run_inv; repeat (case_match; run_inv); done.
Qed.

(** The token of an answer is signed for an account that is open, as it is
    stored then. *)
Definition issued_for (t : IDB) (a : SessionAuthentication) (r : UserRow) : Prop :=
  users t !! u_ID r = Some r ∧ sa_User a = fromModel r ∧ CanEstablishSession (fromModel r) = true ∧
  ∃ session, sign_token (u_ID r) (u_Role r) (u_TokenVersion r) session = Some (sa_AccessToken a).

Lemma EstablishSession_issued ctx r label s t a :
  users s !! u_ID r = Some r → EstablishSession cfg ctx (fromModel r) label s = (t, Ok a) → issued_for t a r.
Proof.
  intros Hr. unfold EstablishSession. case_match eqn:Hc; [done|]. intros Hx.
  unfold raw, CreateSession, issue_access, sealed, raw in Hx. run_inv.
  apply orb_false_iff in Hc as [_ Hc%negb_false_iff].
  assert (∀ b, users (set_sessions b s) = users s) as Hu by done.
  repeat (case_match; run_inv); split_and!; try done; by eexists.
Qed.

Lemma CompleteLoginSuccess_stored i now s t u :
  tidy s → CompleteLoginSuccess i now s = (t, Ok u) → ∃ r, u = fromModel r ∧ users t !! u_ID r = Some r.
Proof.
  intros Hs Hr. unfold CompleteLoginSuccess, find_user, save_user in Hr. run_inv. case_match; run_inv.
  - eexists. split; [done|]. match goal with Hx : users _ !! _ = Some _ |- _ => by destruct (tidy_users _ Hs _ _ Hx) as [-> _] end.
  - eexists. split; [done|]. apply lookup_insert_eq.
Qed.

Lemma Authenticate_issued w ctx dummy identifier password s t a :
  tidy s → Authenticate cfg w ctx dummy identifier password s = (t, Ok a) → ∃ r, issued_for t a r.
Proof.
  intros Hs. unfold Authenticate, refuse. case_match; [done|]. intros Hx. run_inv.
  match goal with Hx : FindByLogin _ _ = (?x, _) |- _ => assert (x = s) as -> end.
  { match goal with Hx : FindByLogin _ _ = _ |- _ => rewrite FindByLogin_run in Hx; by injection Hx as <- _ end. }
  case_match; [|by repeat case_match]. case_match; [|done].
  case_match; [done|]. case_match; [repeat (case_match; run_inv; try done)|]. run_inv.
  unfold raw in *. run_inv.
  match goal with Hx : CompleteLoginSuccess _ _ _ = _ |- _ =>
    apply CompleteLoginSuccess_stored in Hx as (r & -> & Hr); [|done] end.
  exists r. case_match eqn:Hc; [done|]. case_match; [done|]. apply negb_false_iff in Hc.
  case_match; [by eapply EstablishSession_issued|]. unfold issue_access, raw in *. run_inv.
  split_and!; try done. by eexists.
Qed.

Lemma Refresh_issued graceful ctx encoded s t a :
  tidy s → Refresh cfg graceful ctx encoded s = (t, Ok a) → ∃ r, issued_for t a r.
Proof.
  intros Hs Hr. unfold Refresh, coded, raw, issue_access, raw in Hr. run_inv.
  match goal with Hx : FindSession _ _ = _ |- _ => apply FindSession_run in Hx as [-> _] end.
  unfold FindByID, find_user in *. run_inv.
  match goal with Hx : (if graceful then _ else _) _ = _ |- _ => apply rotate_users in Hx as Hu end.
  match goal with Hx : users s !! _ = Some ?r |- _ => exists r; destruct (tidy_users _ Hs _ _ Hx) as [Hi _];
    split_and!; [by rewrite Hu, Hi|done|done|by eexists] end.
Qed.

(** An answer to a login or a refresh. *)
Definition session_answer (ctx : ICtx) (s t : IDB) (a : Authentication) : Prop :=
  (∃ identifier password, ServeAuthenticate expiry svc ctx identifier password s = (t, Ok a)) ∨
  ∃ refreshToken, ServeRefreshSession expiry svc ctx refreshToken s = (t, Ok a).

Lemma session_answer_issued ctx s t a :
  tidy s → session_answer ctx s t a →
  ∃ r session, users t !! u_ID r = Some r ∧ at_User a = Some (toIdentityUser (fromModel r))
    ∧ CanEstablishSession (fromModel r) = true
    ∧ sign_token (u_ID r) (u_Role r) (u_TokenVersion r) session = Some (at_AccessToken a).
Proof.
  intros Hs [(i & q & Hr)|(q & Hr)].
  - unfold ServeAuthenticate, iserved in Hr. run_inv. case_match; run_inv.
    match goal with Hx : Authenticate _ _ _ _ _ _ _ = _ |- _ =>
      apply Authenticate_issued in Hx as (r & Ha & Hb & Hc & session & Hd); [|done] end.
    exists r, session. split_and!; try done. unfold toAuthentication. cbn. by rewrite Hb.
  - unfold ServeRefreshSession, with_text, iserved in Hr. case_match; [|done]. run_inv. case_match; run_inv.
    match goal with Hx : Refresh _ _ _ _ _ = _ |- _ =>
      apply Refresh_issued in Hx as (r & Ha & Hb & Hc & session & Hd); [|done] end.
    exists r, session. split_and!; try done. unfold toAuthentication. cbn. by rewrite Hb.
Qed.

Lemma session_answer_steps ctx s t a : session_answer ctx s t a → rtc (istep cfg) s t.
Proof.
  intros [(i & q & Hr)|(q & Hr)].
  - destruct (serve_step ctx (CallAuthenticate i q) s) as [Hx|Hx]; cbn [serve] in Hx; rewrite returned_state, Hr in Hx;
      cbn in Hx; [subst; done|by apply rtc_once].
  - destruct (serve_step ctx (CallRefreshSession q) s) as [Hx|Hx]; cbn [serve] in Hx; rewrite returned_state, Hr in Hx;
      cbn in Hx; [subst; done|by apply rtc_once].
Qed.

(** An account whose version has not moved since is still open. *)
Lemma unmoved_open r r' :
  matures r r' → user_check r' = true → CanEstablishSession (fromModel r) = true →
  u_TokenVersion r' = u_TokenVersion r → CanEstablishSession (fromModel r') = true.
Proof.
  intros Hm Hc Ho Hv. unfold user_check in Hc. repeat (apply andb_prop in Hc as [Hc ?]).
  match goal with Hx : bool_decide (u_Status r' ∈ _) = true |- _ => apply bool_decide_eq_true in Hx; rename Hx into Hst end.
  unfold CanEstablishSession in *. cbn in *.
  rewrite !elem_of_cons in Hst. destruct Hst as [->|[->|[Hd|Hn]]]; [done|done| |by apply elem_of_nil in Hn].
  assert (u_Status r ≠ StatusDisabled) as Ha by (intros E; rewrite E in Ho; done).
  pose proof (ma_disabled _ _ Hm Ha Hd). lia.
Qed.

(** C16: the access token that a login or a refresh
    hands out stands for the account of the answer.  As long as it verifies, it
    is accepted in every later state exactly while the account has the version
    the token was issued at: then the current user is that account, open and as
    it is stored; at any other version every call with the token is refused and
    writes nothing.  The version has moved whenever the password hash differs or
    the account was closed. *)
Theorem token_lifetime ctx s t u a p :
  (∀ i role version session, sign_token i role version session = Some (at_AccessToken a) →
     verify (at_AccessToken a) = Some p → pr_UserID p = i ∧ pr_TokenVersion p = version) →
  ireachable cfg s → session_answer ctx s t a →
  verify (at_AccessToken a) = Some p → 0 < pr_UserID p → rtc (istep cfg) t u →
  ∃ r r', users t !! pr_UserID p = Some r ∧ at_User a = Some (toIdentityUser (fromModel r))
    ∧ users u !! pr_UserID p = Some r'
    ∧ (u_TokenVersion r' = u_TokenVersion r →
         ServeGetCurrentUser verify (at_AccessToken a) u = (u, Ok (toIdentityUser (fromModel r'))))
    ∧ (u_TokenVersion r' ≠ u_TokenVersion r → ∀ ctx' c, call_token c = Some (at_AccessToken a) →
         ∃ e, serve ctx' c u = (u, Err e))
    ∧ (u_PasswordHash r' ≠ u_PasswordHash r ∨ u_Status r' = StatusDisabled → u_TokenVersion r' ≠ u_TokenVersion r).
Proof.
  intros Hsign Hs Ha Hv Hp Htu. pose proof (ireachable_tidy cfg s Hs) as Hts.
  destruct (session_answer_issued ctx s t a Hts Ha) as (r & session & Hr & Hu & Ho & Hk).
  destruct (Hsign _ _ _ _ Hk Hv) as [Hi Hver]. rewrite Hi.
  destruct (steps_life cfg s t (session_answer_steps _ _ _ _ Ha) Hts) as [Htt _].
  destruct (account_later t u (u_ID r) r Htt Hr Htu) as (Htu' & r' & Hr' & Hm).
  destruct (tidy_users u Htu' _ _ Hr') as (Hid & _ & Hc).
  exists r, r'. split_and!; [done..| | |].
  - intros Hq. pose proof (authenticateRequest_run (at_AccessToken a) p u Hv Hp) as Hx.
    unfold speaks_for in Hx. rewrite Hi, Hr' in Hx. cbn in Hx.
    rewrite (unmoved_open r r' Hm Hc Ho Hq), Hq, Hver, Z.eqb_refl in Hx. cbn in Hx.
    unfold ServeGetCurrentUser, as_caller. cbv [mbind tx_bind]. rewrite Hx. cbn.
    by rewrite Hi, Hid, Z.eqb_refl.
  - intros Hq ctx' c Hcall. eapply stale_token_refused; [done|exact Hv|done|].
    unfold speaks_for. rewrite Hi, Hr'. cbn. rewrite Hver, (proj2 (Z.eqb_neq _ _)) by done. by rewrite andb_false_r.
  - intros [Hq|Hq]; [pose proof (ma_password _ _ Hm Hq); lia|].
    assert (u_Status r ≠ StatusDisabled) as Hn.
    { intros E. unfold CanEstablishSession in Ho. cbn in Ho. rewrite E in Ho. done. }
    pose proof (ma_disabled _ _ Hm Hn Hq). lia.
Qed.

(** ** What a caller can change *)

End access.

(** Only rows of the user [i] differ: its account, its sessions and its action
    tokens. *)
Record own (i : Z) (s t : IDB) : Prop := {
  own_users : ∀ j, j ≠ i → users t !! j = users s !! j;
  own_sessions : ∀ k q, s_UserID q ≠ i → sessions t !! k = Some q ↔ sessions s !! k = Some q;
  own_actions : ∀ k a, a_UserID a ≠ i → actions t !! k = Some a ↔ actions s !! k = Some a;
}.

#[export] Instance own_preorder i : PreOrder (own i).
Proof.
  split; [by intros s|]. intros s t u [U1 S1 A1] [U2 S2 A2]. split.
  - intros j Hj. by rewrite U2, U1.
  - intros k q Hq. by rewrite S2, S1.
  - intros k a Ha. by rewrite A2, A1.
Qed.

Section ownership.
Context `{Unicode, Crypto, TimeText}.

Lemma own_set_user i r s : u_ID r = i → own i s (set_users (<[u_ID r := r]> (users s)) s).
Proof. intros <-. split; [|done..]. intros j Hj. by apply lookup_insert_ne. Qed.

Lemma save_user_own i op r s : u_ID r = i → own i s (save_user op r s).1.
Proof.
  intros Hi. unfold save_user. refine (within_bind_at (own i) _ _ _ (within_require _ _ _ _) _).
  intros s' [] [_ ->]%require_run_ok. by apply own_set_user.
Qed.

Lemma revoke_user_own i reason t : within (own i) (revoke_user_sessions i reason t).
Proof.
  apply within_modify. intros s. split; [done| |done]. intros k q Hq. cbn [sessions set_sessions].
  rewrite lookup_update_where. destruct (sessions s !! k) as [q0|]; cbn; [|done].
  case_match eqn:Hm; [|done]. apply andb_prop in Hm as [Hm%Z.eqb_eq _].
  split; intros [= <-]; [|done]. cbn in Hq. congruence.
Qed.

Lemma save_session_own i r r' s :
  tidy s → sessions s !! s_ID r = Some r → s_ID r' = s_ID r → s_UserID r = i → s_UserID r' = i →
  own i s (save_session r' s).1.
Proof.
  intros Hs Hr Hid Hi Hi'. split; [done| |done]. intros k q Hq. cbn. rewrite Hid, lookup_insert.
  case_decide as Hk; [|done]. subst k. rewrite Hr. split; intros [= <-]; congruence.
Qed.

Lemma Revoke_own i k reason t s r :
  tidy s → sessions s !! k = Some r → s_UserID r = i → own i s (Revoke k reason t s).1.
Proof.
  intros Hs Hr Hi. unfold Revoke. cbv [mbind tx_bind gets id]. rewrite Hr. case_match; [|done].
  eapply (save_session_own i r); try done. by rewrite (tidy_sessions s Hs _ _ Hr).
Qed.

Lemma RevokeAll_own i reason t : within (own i) (RevokeAll i reason t).
Proof. unfold RevokeAll. frame. apply revoke_user_own. Qed.

Lemma insert_action_own i op r : a_UserID r = i → within (own i) (insert_action op r).
Proof.
  intros Hi s. unfold insert_action. refine (within_bind_at (own i) _ _ _ _ _); [done|].
  intros s1 db [-> [= ->]]%gets_run. refine (within_bind_at (own i) _ _ _ (within_require _ _ _ _) _).
  intros s2 [] [[Hn _]%andb_prop ->]%require_run_ok. unfold id in Hn.
  split; [done..|]. intros k a Ha. cbn. rewrite lookup_insert. case_decide as Hk; [|done]. subst k.
  destruct (actions s !! a_ID r) eqn:E; [done|]. split; [|done]. intros [= <-]. congruence.
Qed.

Lemma delete_superseded_own token now :
  within (own (av_UserID token)) (E:=ierror)
    (modify (λ db, set_actions (delete_where (superseded token now) (actions db)) db)).
Proof.
  apply within_modify. intros s. split; [done..|]. intros k a Ha. cbn.
  rewrite lookup_delete_where_Some. split; [by intros [? _]|]. intros Hk. split; [done|].
  unfold superseded. by rewrite (proj2 (Z.eqb_neq _ _)).
Qed.

Lemma insert_email_own i op r : within (own i) (insert_email op r).
Proof. unfold insert_email. frame; apply within_modify; by intros s. Qed.

Hint Resolve insert_email_own : frame.
Hint Extern 1 (within _ (insert_action _ _)) => by apply insert_action_own : frame.

Lemma issue_action_own cfg atomic ctx user kind subject :
  within (own (uv_ID user)) (issue_action cfg atomic ctx user kind subject).
Proof.
  unfold issue_action, refuse, raw, CreateAndEnqueue, CreateAction, Enqueue. frame.
  apply (delete_superseded_own (MkActionToken _ (uv_ID user) _ _ _ _ _)).
Qed.

Lemma RequestEmailVerification_own cfg atomic ctx user :
  within (own (uv_ID user)) (RequestEmailVerification cfg atomic ctx user).
Proof.
  assert (within (own (uv_ID user)) (EmailVerificationStatus ctx user)) as He.
  { intros s. by rewrite EmailVerificationStatus_state. }
  pose proof (issue_action_own cfg atomic ctx user). unfold RequestEmailVerification, refuse. frame.
Qed.

Lemma RevokeSession_own ctx i sessionID reason s :
  tidy s → own i s (RevokeSession ctx i sessionID reason s).1.
Proof.
  intros Hs. unfold RevokeSession, refuse, coded. case_match; [done|].
  refine (within_bind_at (own i) _ _ _ _ _).
  { unfold attempt, FindSession, find_session. cbv [mbind tx_bind gets id expect]. by destruct (sessions s !! _). }
  intros s1 [v|e] Hf; [|].
  2: { apply attempt_ok in Hf. unfold FindSession, find_session in Hf. cbv [mbind tx_bind gets id expect] in Hf.
       destruct (sessions s !! _); by simplify_eq/=. }
  apply attempt_ok, FindSession_run in Hf as (-> & r & Hr & ->). cbn [fromSessionModel sv_UserID sv_ID].
  case_match eqn:Hi; [|done]. apply Z.eqb_eq in Hi. apply wrap_at.
  eapply Revoke_own; [done| |done]. by rewrite (tidy_sessions s Hs _ _ Hr).
Qed.

(** The account of the caller is found under its identifier. *)
Lemma with_account_own {A} i (k : UserRow → istore A) s :
  tidy s → (∀ r s, u_ID r = i → own i s (k r s).1) → own i s ((find_user (enabled_user i) ≫= k) s).1.
Proof.
  intros Hs Hk. refine (within_bind_at (own i) _ _ _ _ _).
  { unfold find_user. cbv [mbind tx_bind gets id expect]. by destruct (enabled_user i s). }
  intros s1 r Hf. unfold find_user in Hf. run_inv.
  match goal with Hx : enabled_user i _ = Some r |- _ => apply enabled_user_Some in Hx as Hr end.
  apply Hk. by destruct (tidy_users _ Hs _ _ Hr).
Qed.

Lemma DeactivateAccount_own atomic ctx i password s :
  tidy s → own i s (DeactivateAccount atomic ctx i password s).1.
Proof.
  intros Hs. unfold DeactivateAccount, refuse, raw. refine (within_bind_at (own i) _ _ _ _ _).
  { unfold attempt, FindByID, find_user. cbv [mbind tx_bind gets id expect]. by destruct (users s !! i). }
  intros s1 found Hf. apply attempt_ok in Hf.
  assert (s1 = s) as ->.
  { assert ((FindByID i s).1 = s) as E by (unfold FindByID, find_user; cbv [mbind tx_bind gets id expect]; by destruct (users s !! i)).
    by rewrite Hf in E. }
  destruct found as [user|]; [|done]. destruct (bcrypt_compare _ _) as [[]|]; [|done..].
  destruct atomic; cbv zeta.
  - apply wrap_at. unfold DeactivateAndRevoke.
    assert (own i s ((find_user (enabled_user i) ≫= λ r,
      save_user "deactivate identity user" (disabled_row (inow ctx) r) ≫= λ _,
      revoke_user_sessions i "account_deactivated" (inow ctx)) s).1) as Ho.
    { apply with_account_own; [done|]. intros r s' Hr. refine (within_bind_at (own i) _ _ _ _ _); [by apply save_user_own|].
      intros s2 [] _. apply revoke_user_own. }
    eapply (transaction_at (own i)). intros s' v Hx. by rewrite Hx in Ho.
  - refine (within_bind_at (own i) _ _ _ _ _).
    + apply wrap_at. apply with_account_own; [done|]. intros. by apply save_user_own.
    + intros s2 [] _. apply wrap_at, RevokeAll_own.
Qed.

(** C10: a call that needs an access token
    writes nothing unless the token verifies and its account exists, is open and
    has the version of the token; and then it changes no account, no session and
    no action token but those of that account, whatever the call holds: in
    particular a session identifier of another user revokes nothing. *)
Theorem callers_touch_their_own verify expiry svc ctx c token s :
  ireachable (sv_Config svc) s → call_token c = Some token →
  (serve verify expiry svc ctx c s).1 = s ∨
  ∃ p r, verify token = Some p ∧ speaks_for p s = Some r ∧ own (pr_UserID p) s (serve verify expiry svc ctx c s).1.
Proof.
  intros Hs Hc. pose proof (ireachable_tidy _ s Hs) as Hty.
  destruct c; cbn [call_token] in Hc; simplify_eq; cbn [serve];
    unfold ServeGetEmailVerificationStatus, ServeRequestEmailVerification, ServeListSessions,
      ServeRevokeSession, ServeRevokeAllSessions, ServeDeactivateAccount, ServeGetCurrentUser, ServeResolveUser;
    rewrite ?returned_state;
    repeat match goal with
    | |- (with_text ?b ?ts ?k ?s).1 = _ ∨ _ => destruct (with_text_state b ts k s) as [->| ->]; [by left|]
    | |- (as_caller _ ?b ?t ?k ?s).1 = _ ∨ _ =>
        destruct (as_caller_state verify b t k s) as [->|(p & r & Hv & Hr & ->)]; [by left|right]
    end; exists p, r;
    (destruct (tidy_users s Hty _ _ (speaks_for_row _ _ _ Hr)) as [Hid _]; split_and!; [done|done|];
    rewrite ?ended_state by (intros; by case_match); rewrite ?iserved_state, ?returned_state, ?iserved_state).
  - by rewrite EmailVerificationStatus_state.
  - rewrite <-Hid. apply (RequestEmailVerification_own _ _ _ (fromModel r)).
  - by rewrite LogicListSessions_state.
  - by apply RevokeSession_own.
  - unfold RevokeAllSessions, refuse, raw. case_match; [done|]. apply wrap_at, RevokeAll_own.
  - by apply DeactivateAccount_own.
  - by case_match.
  - by rewrite ResolveUsername_state.
Qed.

End ownership.
