(* ===== verification/KServe.v ===== *)
(** The RPC handlers of the knowledge service:
    services/knowledge/internal/transport/rpc/handler.go.

    A handler finds its caller by the token that came with the call, converts
    the request, makes one call of the request logic and converts the answer;
    every error crosses the boundary as an application error.  The generated
    server hands over requests that are not nil. *)

From stdpp Require Import base gmap list sets strings.
From Stdlib Require Import ZArith Lia.
From S2P Require Import Prelude.
From S2P Require Import GoStrings.
From S2P Require Import KDomain.
From S2P Require Import RichText.
From S2P Require Import Json.
From S2P Require Import KSchema.
From S2P Require Import KTypes.
From S2P Require Import KStore.
From S2P Require Import KDocuments.
From S2P Require Import KHistory.
From S2P Require Import KListing.
From S2P Require Import KLogic.
From S2P Require Import AppError.
From S2P Require Import AuthToken.
From S2P Require Import GCatalog.
From S2P Require Import WRichText.
From S2P Require Import WKnowledge.

Open Scope Z_scope.

(** A handler as a computation over the database that fails with a Go error. *)
Notation rpc := (tx KDB error).

(** ** Requests *)

Record ListDocumentsRequest := MkListDocumentsRequest {
  lr_Query : option string;
  lr_Cursor : option string;
  lr_Limit : option Z;
  lr_Access : option string;
  lr_Publication : option string;
  lr_FolderId : option string;
}.

Record CreateDocumentRequest := MkCreateDocumentRequest {
  cr_Title : string; cr_Summary : option string; cr_Slug : option string; cr_IdempotencyKey : option string }.

(** The fields of an update are those of [Changes]; [Tags] may be nil. *)
Record UpdateDocumentRequest := MkUpdateDocumentRequest {
  ur_DocumentId : string; ur_ExpectedRevision : Z; ur_Changes : Changes }.

Record PublishSnapshotRequest := MkPublishSnapshotRequest {
  pq_DocumentId : string;
  pq_ExpectedMetadataRevision : Z;
  pq_Title : string;
  pq_Summary : string;
  pq_Slug : string;
  pq_Language : string;
  pq_Tags : option (list string);
  pq_Content : option WireRichText;
  pq_PlainText : string;
  pq_IdempotencyKey : option string;
  pq_PublicationHash : option string;
  pq_Icon : option string;
  pq_CoverAttachmentId : option string;
  pq_CoverFocalX : option float64;
  pq_CoverFocalY : option float64;
  pq_ContentSequence : Z;
}.

Record CreateCommitRequest := MkCreateCommitRequest {
  mq_DocumentId : string;
  mq_Kind : Z;
  mq_Label : option string;
  mq_Description : option string;
  mq_ContentHash : option string;
  mq_Content : option WireRichText;
  mq_PlainText : option string;
  mq_IdempotencyKey : option string;
}.

Record CollaborationAuthorization := MkCollaborationAuthorization {
  ca_DocumentId : string;
  ca_Actor : option WireUser;
  ca_Access : string;
  ca_PermissionRevision : Z;
  ca_TokenExpiresAt : string;
}.

(** [time.Time{}] *)
Definition zero_time : Z := -62135596800 * Second.

Definition listInput (request : ListDocumentsRequest) (actorID : Z) : ListDocumentsInput :=
  MkListDocumentsInput actorID (stringValue (lr_Query request)) (stringValue (lr_Cursor request))
    (int32Value (lr_Limit request)) (stringValue (lr_Access request)) (stringValue (lr_Publication request))
    (stringValue (lr_FolderId request)).

(** [transportInvalidInput] *)
Definition transportInvalidInput (err : error) : error :=
  match Details err with Some _ => err | None => Wrap (knowledge_definition InvalidInput) err end.

(** A call of the request logic behind [transportError]. *)
Definition served {A} (m : logic A) : rpc A := wrap (transportError ∘ logic_error) m.

Section callers.
Variables (verify : string → option Principal) (token : string).

Definition requirePrincipal : result error Principal :=
  let token := TrimSpace token in
  if bool_decide (token = EmptyString) then Err (New (knowledge_definition Unauthenticated))
  else match verify token with
       | None => Err (Wrap (knowledge_definition Unauthenticated) (AppError.EOther "verify" []))
       | Some principal =>
         if (pr_UserID principal <=? 0) || (pr_ExpiresAt principal =? zero_time)
         then Err (New (knowledge_definition Unauthenticated)) else Ok principal
       end.

Definition requireActor : result error Z := requirePrincipal ≫= λ principal, Ok (pr_UserID principal).

Definition optionalActor : result error Z :=
  let token := TrimSpace token in
  if bool_decide (token = EmptyString) then Ok 0
  else match verify token with
       | None => Err (Wrap (knowledge_definition Unauthenticated) (AppError.EOther "verify" []))
       | Some principal =>
         if pr_UserID principal <=? 0 then Err (New (knowledge_definition Unauthenticated))
         else Ok (pr_UserID principal)
       end.

(** The handler of a call that needs a user. *)
Definition as_actor {A} (call : Z → rpc A) : rpc A := lift requireActor ≫= call.

Lemma as_actor_state {A} (call : Z → rpc A) s :
  (as_actor call s).1 = match requireActor with Ok actor => (call actor s).1 | Err _ => s end.
Proof. unfold as_actor, lift. cbv [mbind tx_bind]. by destruct requireActor. Qed.

Lemma requireActor_ok actor :
  requireActor = Ok actor ↔
  ∃ p, verify (TrimSpace token) = Some p ∧ TrimSpace token ≠ EmptyString ∧ pr_UserID p = actor ∧
       0 < actor ∧ pr_ExpiresAt p ≠ zero_time.
Proof.
  unfold requireActor, requirePrincipal. case_bool_decide as He; simpl; [naive_solver|].
  destruct (verify _) as [p|]; simpl; [|naive_solver].
  destruct (pr_UserID p <=? 0) eqn:E1; simpl; [split; [done|intros (?&[= <-]&?&?&?&?); lia]|].
  destruct (pr_ExpiresAt p =? zero_time) eqn:E2; simpl; [split; [done|intros (?&[= <-]&?&?&?&?); lia]|].
  split; [intros [= <-]; exists p; split_and!; (done || lia)|]. by intros (?&[= <-]&?&->&?&?).
Qed.

End callers.

(** ** The handlers *)

Section handlers.
Context `{Unicode, Uuid, Url, Codec, Pg, CursorCodec, TimeText}.
Variables (identity : Identity) (verify : string → option Principal) (y_first : bool) (ctx : Ctx).

Notation as_actor := (as_actor verify).

Definition ServeListPublishedDocuments (token : string) (request : ListDocumentsRequest)
  : rpc (WirePage (option RpcDocument)) :=
  actorID ← lift (optionalActor verify token);
  page ← served (ListPublished ctx (listInput request actorID));
  mret (toTransportDocumentPage page).

Definition ServeGetPublishedDocument (token slug : string) : rpc (WireDetail (option RpcDocument)) :=
  actorID ← lift (optionalActor verify token);
  detail ← served (KLogic.GetPublished ctx slug actorID);
  mret (toTransportDocumentDetail detail).

Definition ServeListDocuments (token : string) (request : ListDocumentsRequest)
  : rpc (WirePage (option RpcDocument)) :=
  as_actor token (λ actorID,
    page ← served (ListDrafts ctx (listInput request actorID));
    mret (toTransportDocumentPage page)).

Definition ServeListDeletedDocuments (token : string) (request : ListDocumentsRequest)
  : rpc (WirePage (option RpcDocument)) :=
  as_actor token (λ actorID,
    page ← served (ListDeleted ctx (listInput request actorID));
    mret (toTransportDocumentPage page)).

(** The owner of the document is the user the identity service names. *)
Definition ServeCreateDocument (token : string) (request : CreateDocumentRequest) : rpc RpcDocument :=
  as_actor token (λ _,
    document ← served (Create identity ctx
      (MkCreateDocumentInput (cr_Title request) (cr_Summary request) (cr_Slug request)
         (stringValue (cr_IdempotencyKey request))));
    mret (toTransportDocument document)).

Definition ServeGetDocument (token documentID : string) : rpc RpcDocument :=
  as_actor token (λ actorID,
    document ← served (GetDraft documentID actorID);
    mret (toTransportDocument document)).

(** [Tags: append([]string(nil), request.Tags...)] *)
Definition with_appended_tags (ch : Changes) : Changes :=
  MkChanges (ch_title ch) (ch_summary ch) (ch_slug ch) (ch_language ch) (appended (ch_tags ch))
    (ch_folderID ch) (ch_icon ch) (ch_coverAttachmentID ch) (ch_coverFocalX ch) (ch_coverFocalY ch).

Definition ServeUpdateDocument (token : string) (request : UpdateDocumentRequest) : rpc RpcDocument :=
  as_actor token (λ actorID,
    document ← served (Update y_first ctx (ur_DocumentId request) actorID (ur_ExpectedRevision request)
                         (with_appended_tags (ur_Changes request)));
    mret (toTransportDocument document)).

Definition ServeSetPublication (token documentID : string) (expected : Z) (published : bool) (key : option string)
  : rpc RpcDocument :=
  as_actor token (λ actorID,
    document ← served (LogicSetPublication ctx documentID actorID expected published (stringValue key));
    mret (toTransportDocument document)).

Definition publish_input (request : PublishSnapshotRequest) (content : RichTextDocument) : PublishSnapshotInput :=
  MkPublishSnapshotInput (pq_Title request) (pq_Summary request) (pq_Slug request) (pq_Language request)
    (appended (pq_Tags request)) content (pq_PlainText request) (pq_ContentSequence request)
    (stringValue (pq_PublicationHash request)) (stringValue (pq_Icon request)) (pq_CoverAttachmentId request)
    (floatValue (pq_CoverFocalX request)) (floatValue (pq_CoverFocalY request))
    (stringValue (pq_IdempotencyKey request)).

(** A tree that does not convert, behind [transportInvalidInput]. *)
Definition parsed (content : option WireRichText) : result error RichTextDocument :=
  match fromTransportRichText content with
  | Ok d => Ok d
  | Err e => Err (transportInvalidInput (plain_error e))
  end.

Definition ServePublishSnapshot (token : string) (request : PublishSnapshotRequest) : rpc RpcDocument :=
  as_actor token (λ actorID,
    content ← lift (parsed (pq_Content request));
    document ← served (LogicPublishSnapshot identity ctx (pq_DocumentId request) actorID
                         (pq_ExpectedMetadataRevision request) (publish_input request content));
    mret (toTransportDocument document)).

Definition ServeCreateCommit (token : string) (request : CreateCommitRequest) : rpc (WireCommit Z) :=
  as_actor token (λ actorID,
    content ← match mq_Content request with
              | None => mret None
              | Some c => lift (parsed (Some c)) ≫= λ d, mret (Some d)
              end;
    commit ← served (LogicCreateCommit ctx
      (MkLogicCommitInput (mq_DocumentId request) actorID (commitKindName (mq_Kind request))
         (stringValue (mq_Label request)) (stringValue (mq_Description request)) content
         (stringValue (mq_PlainText request)) (stringValue (mq_ContentHash request))
         (stringValue (mq_IdempotencyKey request))));
    mret (toTransportCommit commit)).

Definition ServeListCommits (token documentID : string) (limit : option Z) : rpc (WirePage (option (WireCommit Z))) :=
  as_actor token (λ actorID,
    items ← served (LogicListCommits documentID actorID (int32Value limit));
    mret (MkWirePage (Some ∘ toTransportCommit <$> items) None false)).

Definition ServeGetCommit (token commitID : string) : rpc (WireCommit Z) :=
  as_actor token (λ actorID,
    commit ← served (LogicGetCommit commitID actorID);
    mret (toTransportCommit commit)).

Definition ServeRenameCommit (token commitID label : string) (description : option string) : rpc (WireCommit Z) :=
  as_actor token (λ actorID,
    commit ← served (LogicRenameCommit ctx commitID actorID label (stringValue description));
    mret (toTransportCommit commit)).

Definition ServeRestoreCommit (token commitID : string) (key : option string) : rpc RpcDocument :=
  as_actor token (λ actorID,
    document ← served (LogicRestoreCommit ctx commitID actorID (stringValue key));
    mret (toTransportDocument document)).

(** Stored content that does not decode is an internal error. *)
Definition transport_history (value : HistoryCheckpoint) : result error WireHistory :=
  match toTransportHistory value with
  | Some v => Ok v
  | None => Err (transportError (AppError.EOther "decode history content" []))
  end.

Definition ServeListHistory (token documentID : string) (limit : option Z) : rpc (WirePage (option WireHistory)) :=
  as_actor token (λ actorID,
    items ← served (LogicListHistory documentID actorID (int32Value limit));
    result ← collect items (λ item, lift (transport_history item));
    mret (MkWirePage (Some <$> result) None false)).

Definition ServeGetHistory (token documentID revisionID : string) : rpc WireHistory :=
  as_actor token (λ actorID,
    item ← served (LogicGetHistory documentID revisionID actorID);
    lift (transport_history item)).

Definition ServeListFolders (token : string) (parentID : option string) : rpc (list (option WireFolder)) :=
  as_actor token (λ actorID,
    items ← served (LogicListFolders actorID parentID);
    mret (Some ∘ toTransportFolder <$> items)).

Definition ServeCreateFolder (token name : string) (parentID key : option string) : rpc WireFolder :=
  as_actor token (λ actorID,
    folder ← served (LogicCreateFolder ctx actorID name parentID (stringValue key));
    mret (toTransportFolder folder)).

Definition ServeUpdateFolder (token folderID : string) (expected : Z) (name parentID : option string)
  : rpc WireFolder :=
  as_actor token (λ actorID,
    folder ← served (LogicUpdateFolder ctx actorID folderID expected name parentID);
    mret (toTransportFolder folder)).

Definition ServeDeleteFolder (token folderID : string) (expected : Z) : rpc unit :=
  as_actor token (λ actorID, served (LogicDeleteFolder ctx actorID folderID expected)).

Definition ServeDeleteDocument (token documentID : string) (expected : Z) : rpc RpcDocument :=
  as_actor token (λ actorID,
    document ← served (Delete ctx documentID actorID expected);
    mret (toTransportDocument document)).

Definition ServeRestoreDeletedDocument (token documentID : string) : rpc RpcDocument :=
  as_actor token (λ actorID,
    document ← served (Restore ctx documentID actorID);
    mret (toTransportDocument document)).

Definition ServePurgeDeletedDocument (token documentID : string) (expected : Z) (key : option string) : rpc unit :=
  as_actor token (λ actorID, served (PurgeDeleted ctx documentID actorID expected (stringValue key))).

Definition ServeListMembers (token documentID : string) : rpc (list (option (WireMember (option WireUser)))) :=
  as_actor token (λ actorID,
    members ← served (LogicListMembers documentID actorID);
    mret (Some ∘ toTransportMember <$> members)).

Definition ServeAddMember (token documentID username role : string) (key : option string)
  : rpc (WireMember (option WireUser)) :=
  as_actor token (λ actorID,
    member ← served (Add identity ctx (MkAddMemberInput documentID actorID username role (stringValue key)));
    mret (toTransportMember member)).

Definition ServeUpdateMember (token documentID : string) (userID expected : Z) (role : string)
  : rpc (WireMember (option WireUser)) :=
  as_actor token (λ actorID,
    member ← served (LogicUpdateMember ctx documentID actorID userID expected role);
    mret (toTransportMember member)).

Definition ServeDeleteMember (token documentID : string) (userID expected : Z) : rpc unit :=
  as_actor token (λ actorID, served (LogicDeleteMember ctx documentID actorID userID expected)).

Definition ServeIsMediaPublished (attachmentID : string) : rpc bool := served (LogicIsMediaPublished attachmentID).

Definition ServeAuthorizeCollaboration (token documentID : string) : rpc CollaborationAuthorization :=
  principal ← lift (requirePrincipal verify token);
  '(document, user) ← served (Authorize identity documentID (pr_UserID principal));
  if negb (v_ID document =?= documentID) || negb (pu_ID user =? pr_UserID principal)
     || negb (bool_decide (v_Access document ∈ [AccessOwner; AccessEditor; AccessViewer]))
  then fail (transportError (AppError.EOther "knowledge returned incomplete collaboration authorization" []))
  else mret (MkCollaborationAuthorization (v_ID document) (toTransportUser user) (v_Access document)
               (v_PermissionRevision document) (format_time (pr_ExpiresAt principal))).

(** The collaboration service reports without a user's token. *)
Definition ServeProjectCollaboration (documentID : string) (sequence : Z) (content : option WireRichText)
  (plainText : string) : rpc unit :=
  content ← lift (parsed content);
  served (Project ctx documentID sequence content plainText).

End handlers.
