(* ===== verification/GKnowledge.v ===== *)
(** The endpoints of the gateway over the knowledge service:
    services/gateway/biz/handler/gateway/knowledge_handlers.go and
    folder_handlers.go.

    An endpoint reads its input, calls the knowledge service with the token of
    the request, and writes the converted answer.  The clients are records of
    computations over a state [W] of whatever is behind the gateway; what
    [decodeJSONBody] makes of a body is an argument, [None] when it fails. *)

From stdpp Require Import base gmap list sets strings.
From Stdlib Require Import ZArith Lia.
From S2P Require Import Prelude.
From S2P Require Import GoStrings.
From S2P Require Import GoText.
From S2P Require Import Base64.
From S2P Require Import KDomain.
From S2P Require Import RichText.
From S2P Require Import Json.
From S2P Require Import KSchema.
From S2P Require Import KTypes.
From S2P Require Import KStore.
From S2P Require Import KDocuments.
From S2P Require Import KLogic.
From S2P Require Import AppError.
From S2P Require Import AuthToken.
From S2P Require Import GResponse.
From S2P Require Import GServer.
From S2P Require Import GInput.
From S2P Require Import GContent.
From S2P Require Import WRichText.
From S2P Require Import WKnowledge.
From S2P Require Import KServe.

Open Scope Z_scope.

(** ** The clients *)

(** The generated client of the knowledge service; the first argument is the
    token of [upstreamContext], and a nil answer is [None]. *)
Record KnowledgeClient (W E : Type) := MkKnowledgeClient {
  api_ListPublishedDocuments : string → ListDocumentsRequest → tx W E (option (WirePage (option RpcDocument)));
  api_GetPublishedDocument : string → string → tx W E (option (WireDetail (option RpcDocument)));
  api_ListDocuments : string → ListDocumentsRequest → tx W E (option (WirePage (option RpcDocument)));
  api_ListDeletedDocuments : string → ListDocumentsRequest → tx W E (option (WirePage (option RpcDocument)));
  api_CreateDocument : string → CreateDocumentRequest → tx W E (option RpcDocument);
  api_GetDocument : string → string → tx W E (option RpcDocument);
  api_UpdateDocument : string → UpdateDocumentRequest → tx W E (option RpcDocument);
  api_DeleteDocument : string → string → Z → tx W E (option RpcDocument);
  api_SetPublication : string → string → Z → bool → option string → tx W E (option RpcDocument);
  api_PublishSnapshot : string → PublishSnapshotRequest → tx W E (option RpcDocument);
  api_RestoreDeletedDocument : string → string → tx W E (option RpcDocument);
  api_PurgeDeletedDocument : string → string → Z → option string → tx W E unit;
  api_ListCommits : string → string → option Z → tx W E (option (WirePage (option (WireCommit Z))));
  api_CreateCommit : string → CreateCommitRequest → tx W E (option (WireCommit Z));
  api_GetCommit : string → string → tx W E (option (WireCommit Z));
  api_RenameCommit : string → string → string → option string → tx W E (option (WireCommit Z));
  api_RestoreCommit : string → string → option string → tx W E (option RpcDocument);
  api_ListHistory : string → string → option Z → tx W E (option (WirePage (option WireHistory)));
  api_GetHistory : string → string → string → tx W E (option WireHistory);
  api_ListMembers : string → string → tx W E (option (list (option (WireMember (option WireUser)))));
  api_AddMember : string → string → string → string → option string → tx W E (option (WireMember (option WireUser)));
  api_UpdateMember : string → string → Z → Z → string → tx W E (option (WireMember (option WireUser)));
  api_DeleteMember : string → string → Z → Z → tx W E unit;
  api_ListFolders : string → option string → tx W E (option (list (option WireFolder)));
  api_CreateFolder : string → string → option string → option string → tx W E (option WireFolder);
  api_UpdateFolder : string → string → Z → option string → option string → tx W E (option WireFolder);
  api_DeleteFolder : string → string → Z → tx W E unit;
}.

Arguments MkKnowledgeClient {W E}.
Arguments api_ListPublishedDocuments {W E}.
Arguments api_GetPublishedDocument {W E}.
Arguments api_ListDocuments {W E}.
Arguments api_ListDeletedDocuments {W E}.
Arguments api_CreateDocument {W E}.
Arguments api_GetDocument {W E}.
Arguments api_UpdateDocument {W E}.
Arguments api_DeleteDocument {W E}.
Arguments api_SetPublication {W E}.
Arguments api_PublishSnapshot {W E}.
Arguments api_RestoreDeletedDocument {W E}.
Arguments api_PurgeDeletedDocument {W E}.
Arguments api_ListCommits {W E}.
Arguments api_CreateCommit {W E}.
Arguments api_GetCommit {W E}.
Arguments api_RenameCommit {W E}.
Arguments api_RestoreCommit {W E}.
Arguments api_ListHistory {W E}.
Arguments api_GetHistory {W E}.
Arguments api_ListMembers {W E}.
Arguments api_AddMember {W E}.
Arguments api_UpdateMember {W E}.
Arguments api_DeleteMember {W E}.
Arguments api_ListFolders {W E}.
Arguments api_CreateFolder {W E}.
Arguments api_UpdateFolder {W E}.
Arguments api_DeleteFolder {W E}.

(** What [CapturePublicationSnapshot] of the collaboration service answers. *)
Record PublicationSnapshot := MkPublicationSnapshot {
  sn_Sequence : Z; sn_Content : option WireRichText; sn_PlainText : string; sn_ContentHash : string }.

(** The bodies of responses, and [jsoncodec.Marshal] of them. *)
Inductive response_data :=
| DDocument (d : DocumentData)
| DDocuments (p : WirePage DocumentData)
| DDetail (d : WireDetail DocumentData)
| DCommit (c : WireCommit string)
| DCommits (p : WirePage (WireCommit string))
| DHistory (h : WireHistory)
| DHistories (p : WirePage WireHistory)
| DMember (m : WireMember UserData)
| DMembers (l : list (WireMember UserData))
| DFolder (f : WireFolder)
| DFolders (l : list WireFolder).

Class DataCodec := { MarshalData : response_data → option string }.

(** [url.PathEscape] and [PublicBaseURL] of the configuration. *)
Class Paths := { PathEscape : string → string; PublicBaseURL : string }.

(** ** Bodies *)

Record CreateBody := MkCreateBody { bc_Title : string; bc_Summary : option string; bc_Slug : option string }.

Record PublishBody := MkPublishBody {
  bp_StateVector : string; bp_Icon : string; bp_CoverAttachmentID : string;
  bp_CoverFocalX : option float64; bp_CoverFocalY : option float64 }.

Record CommitBody := MkCommitBody {
  bm_Kind : string; bm_Label : option string; bm_Description : option string;
  bm_ContentHash : option string; bm_Content : option WireRichText; bm_PlainText : option string }.

Definition optionalString (value : string) : option string := nonEmptyStringPointer value.

Definition optionalInt32 (value : Z) : option Z := if value =? 0 then None else Some value.

Definition listRequest (input : GInput.listInput) : ListDocumentsRequest :=
  MkListDocumentsRequest (ls_query input) (ls_cursor input) (ls_limit input) (ls_access input)
    (ls_publication input) (ls_folderID input).

(** [tags] of the hash: a document without tags has a nil slice. *)
Definition slice_json (tags : list string) : json := match tags with [] => JNull | _ => JStrings tags end.

Definition pointer_float (value : option float64) : json := match value with Some f => JFloat f | None => JNull end.

Definition languageOrDefault (value : option string) : string :=
  let trimmed := TrimSpace (stringValue value) in if bool_decide (trimmed = EmptyString) then "zh-CN" else trimmed.

Definition commitKindFromHTTP `{Unicode} (value : string) : option Z :=
  let kind := ToLower (TrimSpace value) in
  if kind =?= "manual" then Some CommitKind_MANUAL
  else if kind =?= "leave" then Some CommitKind_LEAVE
  else if kind =?= "safety" then Some CommitKind_SAFETY
  else if kind =?= "publish" then Some CommitKind_PUBLISH
  else if kind =?= "revision_merge" then Some CommitKind_REVISION_MERGE
  else if kind =?= "agent_edit" then Some CommitKind_AGENT_EDIT
  else if kind =?= "restore" then Some CommitKind_RESTORE
  else None.

Section endpoints.
Context `{Unicode, Codec, ProblemCodec, Query, UuidText, Redirects, !Rpc, DataCodec, Paths}.
Context {W : Type} (api : KnowledgeClient W rpc_error).
(** [Collaboration.CapturePublicationSnapshot] *)
Variable capture : string → string → list Z → tx W rpc_error (option PublicationSnapshot).
Variables (fresh : string) (r : Input) (ctx : Context_).

(** An endpoint acts on what is behind the gateway and on the exchange. *)
Notation act := (W * Exchange → W * Exchange).

Definition respond (f : Exchange → Exchange) : act := λ '(w, x), (w, f x).

Definition reject (re : ResponseError) : act := respond (WriteError fresh ctx re).

(** Input that must be there; [None] is an error of its reader. *)
Definition need {A} (o : option A) (k : A → act) : act :=
  match o with Some a => k a | None => reject ErrInvalidRequest end.

Definition guarded (ok : bool) (k : act) : act := if ok then k else reject ErrInvalidRequest.

(** [FromRequest] *)
Definition with_dependencies (k : act) : act := λ '(w, x),
  if x_Dependencies x then k (w, x) else reject ErrInternal (w, x).

(** A call with [upstreamContext]; its error goes to the client. *)
Definition calling {A} (call : string → tx W rpc_error A) (k : A → act) : act := λ '(w, x),
  match call (stringValue (stored_token x)) w with
  | (w, Ok a) => k a (w, x)
  | (w, Err e) => (w, writeRPCError fresh ctx e x)
  end.

(** A conversion of the answer. *)
Definition converted {A} (o : option A) (k : A → act) : act :=
  match o with Some a => k a | None => reject ErrInvalidUpstreamResponse end.

Definition ResponseMetadata (x : Exchange) : Exchange := (responseMetadata fresh ctx x).2.

Definition WriteJSON (status : Z) (value : response_data) (x : Exchange) : Exchange :=
  match MarshalData value with
  | None => Data 500 ProblemContentType fallback_problem x
  | Some payload => Data status "application/json; charset=utf-8" payload x
  end.

Definition writeJSON (status : Z) (value : response_data) : act := respond (λ x, WriteJSON status value (ResponseMetadata x)).

Definition writeDocument (status : Z) (document : DocumentData) : act := λ s,
  writeJSON status (DDocument document) (respond (Header "ETag" (formatETag (wk_MetadataRevision document))) s).

Definition writeMember (status : Z) (member : WireMember UserData) : act := λ s,
  writeJSON status (DMember member) (respond (Header "ETag" (formatETag (we_Revision member))) s).

Definition writeNoContent : act := respond (λ x, GResponse.Status 204 (ResponseMetadata x)).

Definition endpointURL (path : string) : string := TrimRightByte 47 PublicBaseURL +:+ path.

(** ** Documents *)

Definition handleListPublishedDocuments : act :=
  need (decodeListInput r false) (λ input, guarded (requireNoBody r) (with_dependencies (
  calling (λ token, api_ListPublishedDocuments api token (listRequest input)) (λ page,
  converted (toDocumentPageData page) (λ data, writeJSON 200 (DDocuments data)))))).

Definition handleGetPublishedDocument : act :=
  need (pathSlug r) (λ slug, guarded (requireNoQuery r && requireNoBody r) (with_dependencies (
  calling (λ token, api_GetPublishedDocument api token slug) (λ detail,
  converted (toDocumentDetailData detail) (λ data, λ s,
    writeJSON 200 (DDetail data)
      (respond (Header "ETag" (formatETag (wk_MetadataRevision (wt_Document data)))) s)))))).

Definition listDocuments (deleted : bool) : act :=
  need (decodeListInput r true) (λ input, guarded (requireNoBody r) (with_dependencies (
  calling (λ token, if deleted then api_ListDeletedDocuments api token (listRequest input)
                    else api_ListDocuments api token (listRequest input)) (λ page,
  converted (toDocumentPageData page) (λ data, writeJSON 200 (DDocuments data)))))).

Definition handleCreateDocument (body : option CreateBody) : act :=
  need body (λ body, need (idempotencyKey r) (λ key,
  guarded (requireNoQuery r && negb (blank (bc_Title body))) (with_dependencies (
  calling (λ token, api_CreateDocument api token
             (MkCreateDocumentRequest (bc_Title body) (bc_Summary body) (bc_Slug body) (optionalString key))) (λ document,
  converted (toDocumentData document) (λ data, λ s,
    writeDocument 201 data
      (respond (Header "Location" (endpointURL ("/api/v1/studio/documents/" +:+ PathEscape (wk_Id data)))) s))))))).

Definition handleGetDocument : act :=
  need (pathUUID r "document_id") (λ documentID, guarded (requireNoQuery r && requireNoBody r) (with_dependencies (
  calling (λ token, api_GetDocument api token documentID) (λ document,
  converted (toDocumentData document) (writeDocument 200))))).

(** [body.Tags == nil] and the like: nothing to change is refused; the tags are
    appended to a nil slice. *)
Definition handleUpdateDocument (body : option Changes) : act :=
  need (pathUUID r "document_id") (λ documentID, need (expectedRevision r) (λ revision,
  need body (λ body, guarded (requireNoQuery r && negb (no_changes body)) (with_dependencies (
  calling (λ token, api_UpdateDocument api token
             (MkUpdateDocumentRequest documentID revision (with_appended_tags body))) (λ document,
  converted (toDocumentData document) (writeDocument 200))))))).

Definition handleDeleteDocument : act :=
  need (pathUUID r "document_id") (λ documentID, need (expectedRevision r) (λ revision,
  guarded (requireNoQuery r && requireNoBody r) (with_dependencies (
  calling (λ token, api_DeleteDocument api token documentID revision) (λ _, writeNoContent))))).

Definition canonicalPublicationHash (title summary slug language : string) (tags : list string)
  (contentHash icon cover : string) (focalX focalY : option float64) : string :=
  sha256_hex (std_encode (JObj [
    ("content_hash", JStr contentHash);
    ("cover_attachment_id", JStr cover);
    ("cover_focal_x", pointer_float focalX);
    ("cover_focal_y", pointer_float focalY);
    ("icon", JStr icon);
    ("language", JStr language);
    ("slug", JStr slug);
    ("summary", JStr summary);
    ("tags", slice_json tags);
    ("title", JStr title)])).

(** The message a publication is requested with. *)
Definition publish_request (documentID : string) (revision : Z) (key : string) (body : PublishBody)
  (draft : RpcDocument) (captured : PublicationSnapshot) : PublishSnapshotRequest :=
  let language := languageOrDefault (wk_Language draft) in
  let summary := publicationSummary (wk_Summary draft) (sn_PlainText captured) in
  let hash := canonicalPublicationHash (wk_Title draft) summary (wk_Slug draft) language (wk_Tags draft)
                (sn_ContentHash captured) (bp_Icon body) (bp_CoverAttachmentID body)
                (bp_CoverFocalX body) (bp_CoverFocalY body) in
  MkPublishSnapshotRequest documentID revision (wk_Title draft) summary (wk_Slug draft) language
    (appended (Some (wk_Tags draft))) (sn_Content captured) (sn_PlainText captured) (optionalString key)
    (Some hash) (optionalString (bp_Icon body)) (optionalString (bp_CoverAttachmentID body))
    (bp_CoverFocalX body) (bp_CoverFocalY body) (sn_Sequence captured).

(** The state vector of the request body. *)
Definition state_vector (body : PublishBody) : option (list Z) :=
  vector ← DecodeString (TrimSpace (bp_StateVector body));
  if (len vector =? 0) || (64 * 1024 <? len vector) then None else Some (bytes vector).

(** The draft is read without a check for nil: the generated client returns a
    document whenever it returns no error. *)
Definition handlePublishDocument (body : option PublishBody) : act :=
  need (pathUUID r "document_id") (λ documentID, need (expectedRevision r) (λ revision,
  need (idempotencyKey r) (λ key, need body (λ body, guarded (requireNoQuery r) (
  need (state_vector body) (λ vector, with_dependencies (
  calling (λ token, api_GetDocument api token documentID) (λ answer,
  converted answer (λ draft,
  calling (λ token, capture token documentID vector) (λ answer,
  converted answer (λ captured,
  converted (sn_Content captured) (λ _,
  calling (λ token, api_PublishSnapshot api token (publish_request documentID revision key body draft captured)) (λ published,
  converted (toDocumentData published) (writeDocument 202)))))))))))))).

Definition setPublication (published : bool) : act :=
  need (pathUUID r "document_id") (λ documentID, need (expectedRevision r) (λ revision,
  need (idempotencyKey r) (λ key, guarded (requireNoQuery r && requireNoBody r) (with_dependencies (
  calling (λ token, api_SetPublication api token documentID revision published (optionalString key)) (λ document,
  if published then converted (toDocumentData document) (writeDocument 200) else writeNoContent)))))).

Definition handleRestoreDeletedDocument : act :=
  need (pathUUID r "document_id") (λ documentID, guarded (requireNoQuery r && requireNoBody r) (with_dependencies (
  calling (λ token, api_RestoreDeletedDocument api token documentID) (λ document,
  converted (toDocumentData document) (writeDocument 200))))).

Definition handlePermanentlyDeleteDocument : act :=
  need (pathUUID r "document_id") (λ documentID, need (expectedRevision r) (λ revision,
  need (idempotencyKey r) (λ key,
  guarded (permanentDeleteConfirmation r && requireNoQuery r && requireNoBody r) (with_dependencies (
  calling (λ token, api_PurgeDeletedDocument api token documentID revision (optionalString key)) (λ _,
  respond (λ x, GResponse.Status 202 (ResponseMetadata x)))))))).

(** ** Commits and history *)

(** The commit is looked up by its own identifier; that it belongs to the
    document of the path is checked on the answer. *)
Definition of_document {A} (documentID : string) (document_of : A → string) (o : option A) (k : A → act) : act :=
  match o with
  | Some a => if bool_decide (document_of a = documentID) then k a else reject ErrResourceNotFound
  | None => reject ErrResourceNotFound
  end.

(** [strictQuery] with [limit], and [parseVersionLimit] *)
Definition version_limit : option Z :=
  values ← strictQuery r ["limit"];
  parseVersionLimit (queryPointer values "limit").

Definition handleListCommits : act :=
  need (pathUUID r "document_id") (λ documentID, need version_limit (λ limit,
  guarded (requireNoBody r) (with_dependencies (
  calling (λ token, api_ListCommits api token documentID (optionalInt32 limit)) (λ page,
  converted (toCommitPageData page) (λ data, writeJSON 200 (DCommits data))))))).

Definition handleListHistory : act :=
  need (pathUUID r "document_id") (λ documentID, need version_limit (λ limit,
  guarded (requireNoBody r) (with_dependencies (
  calling (λ token, api_ListHistory api token documentID (optionalInt32 limit)) (λ page,
  converted (toHistoryPageData page) (λ data, writeJSON 200 (DHistories data))))))).

Definition handleGetHistory : act :=
  need (pathUUID r "document_id") (λ documentID, need (pathUUID r "revision_id") (λ revisionID,
  guarded (requireNoQuery r && requireNoBody r) (with_dependencies (
  calling (λ token, api_GetHistory api token documentID revisionID) (λ item,
  converted (toHistoryRevisionData item) (λ data, writeJSON 200 (DHistory data))))))).

Definition handleCreateCommit (body : option CommitBody) : act :=
  need (pathUUID r "document_id") (λ documentID, need (idempotencyKey r) (λ key,
  need body (λ body, guarded (requireNoQuery r && negb (blank (bm_Kind body))) (
  need (commitKindFromHTTP (bm_Kind body)) (λ kind,
  need (match bm_Content body with
        | None => Some None
        | Some c => Some <$> richTextDocumentData (Some c)
        end) (λ content, with_dependencies (
  calling (λ token, api_CreateCommit api token
             (MkCreateCommitRequest documentID kind (bm_Label body) (bm_Description body)
                (bm_ContentHash body) content (bm_PlainText body) (optionalString key))) (λ commit,
  converted (toCommitData commit) (λ data, writeJSON 201 (DCommit data)))))))))).

Definition handleGetCommit : act :=
  need (pathUUID r "document_id") (λ documentID, need (pathUUID r "commit_id") (λ commitID,
  guarded (requireNoQuery r && requireNoBody r) (with_dependencies (
  calling (λ token, api_GetCommit api token commitID) (λ commit,
  of_document documentID wc_DocumentId (toCommitData commit) (λ data, writeJSON 200 (DCommit data))))))).

(** The body: a label and a description. *)
Definition handleRenameCommit (body : option (string * option string)) : act :=
  need (pathUUID r "document_id") (λ documentID, need (pathUUID r "commit_id") (λ commitID,
  need body (λ '(label, description), guarded (requireNoQuery r && negb (blank label)) (with_dependencies (
  calling (λ token, api_RenameCommit api token commitID label description) (λ commit,
  of_document documentID wc_DocumentId (toCommitData commit) (λ data, writeJSON 200 (DCommit data)))))))).

Definition handleRestoreCommit : act :=
  need (pathUUID r "document_id") (λ documentID, need (pathUUID r "commit_id") (λ commitID,
  need (idempotencyKey r) (λ key, guarded (requireNoQuery r && requireNoBody r) (with_dependencies (
  calling (λ token, api_RestoreCommit api token commitID (optionalString key)) (λ document,
  of_document documentID wk_Id (toDocumentData document) (writeDocument 200))))))).

(** ** Members *)

Definition member_role (role : string) : bool := bool_decide (role = "viewer") || bool_decide (role = "editor").

Definition handleListMembers : act :=
  need (pathUUID r "document_id") (λ documentID, guarded (requireNoQuery r && requireNoBody r) (with_dependencies (
  calling (λ token, api_ListMembers api token documentID) (λ members,
  converted (toMemberListData members) (λ data, writeJSON 200 (DMembers data)))))).

(** The body: a username and a role. *)
Definition handleAddMember (body : option (string * string)) : act :=
  need (pathUUID r "document_id") (λ documentID, need (idempotencyKey r) (λ key,
  need body (λ '(username, role),
  guarded (requireNoQuery r && negb (blank username) && member_role role) (with_dependencies (
  calling (λ token, api_AddMember api token documentID username role (optionalString key)) (λ member,
  converted (toMemberData member) (λ data, λ s,
    writeMember 201 data
      (respond (Header "Location" (endpointURL ("/api/v1/studio/documents/" +:+ PathEscape documentID
                  +:+ "/members/" +:+ ud_ID (we_User data)))) s)))))))).

Definition handleUpdateMember (body : option string) : act :=
  need (pathUUID r "document_id") (λ documentID, need (pathUserID r) (λ userID,
  need (expectedRevision r) (λ revision, need body (λ role,
  guarded (requireNoQuery r && member_role role) (with_dependencies (
  calling (λ token, api_UpdateMember api token documentID userID revision role) (λ member,
  converted (toMemberData member) (writeMember 200)))))))).

Definition handleDeleteMember : act :=
  need (pathUUID r "document_id") (λ documentID, need (pathUserID r) (λ userID,
  need (expectedRevision r) (λ revision, guarded (requireNoQuery r && requireNoBody r) (with_dependencies (
  calling (λ token, api_DeleteMember api token documentID userID revision) (λ _, writeNoContent)))))).

(** ** Folders *)

Definition handleListFolders : act :=
  need (strictQuery r ["parent_id"]) (λ values, guarded (requireNoBody r) (with_dependencies (
  calling (λ token, api_ListFolders api token (optionalString (stringValue (queryPointer values "parent_id")))) (λ page,
  converted (toFolderListData page) (λ data, writeJSON 200 (DFolders data)))))).

Definition handleCreateFolder (body : option (string * option string)) : act :=
  need (idempotencyKey r) (λ key, need body (λ '(name, parentID),
  guarded (requireNoQuery r && negb (blank name)) (with_dependencies (
  calling (λ token, api_CreateFolder api token name parentID (optionalString key)) (λ folder,
  converted (toFolderData folder) (λ data, writeJSON 201 (DFolder data))))))).

Definition handleUpdateFolder (body : option (option string * option string)) : act :=
  need (pathUUID r "folder_id") (λ folderID, need (expectedRevision r) (λ revision,
  need body (λ '(name, parentID),
  guarded (requireNoQuery r && negb (is_none name && is_none parentID)) (with_dependencies (
  calling (λ token, api_UpdateFolder api token folderID revision name parentID) (λ folder,
  converted (toFolderData folder) (λ data, writeJSON 200 (DFolder data)))))))).

Definition handleDeleteFolder : act :=
  need (pathUUID r "folder_id") (λ folderID, need (expectedRevision r) (λ revision,
  guarded (requireNoQuery r && requireNoBody r) (with_dependencies (
  calling (λ token, api_DeleteFolder api token folderID revision) (λ _, writeNoContent))))).

(** ** How endpoints end *)

Lemma WriteError_status re x : x_Status (WriteError fresh ctx re x) = re_HTTPStatus re ∨ x_Status (WriteError fresh ctx re x) = 500.
Proof.
  unfold WriteError. destruct (responseMetadata fresh ctx x) as [[id t] x'].
  unfold writeProblem. destruct (MarshalProblem _); [by left|by right].
Qed.

End endpoints.

(** How the endpoints over the knowledge service end: an answer below 400 means
    that every check passed and every call was answered without error. *)

(** ** Statuses of errors *)

Lemma httpStatus_error kind : 400 <= httpStatus kind.
Proof. unfold httpStatus. repeat case_match; lia. Qed.

Lemma override_error key status : catalogHTTPStatus !! key = Some status → 400 <= status.
Proof.
  unfold catalogHTTPStatus. rewrite !lookup_insert_Some, lookup_singleton_Some.
  intuition (simplify_eq; lia).
Qed.

Section statuses.
Context `{ProblemCodec}.

Lemma writeProblem_status status p x : 400 <= status → 400 <= x_Status (writeProblem status p x).
Proof. intros Hs. unfold writeProblem. destruct (MarshalProblem p); simpl; lia. Qed.

Lemma WriteError_error fresh ctx re x : 400 <= re_HTTPStatus re → 400 <= x_Status (WriteError fresh ctx re x).
Proof.
  intros Hs. unfold WriteError. destruct (responseMetadata fresh ctx x) as [[id t] x']. by apply writeProblem_status.
Qed.

Lemma writeCatalogError_error fresh ctx err x : 400 <= x_Status (writeCatalogError fresh ctx err x).
Proof.
  unfold writeCatalogError. destruct (responseMetadata fresh ctx x) as [[id t] x'].
  destruct (Details err ≫= _) as [o|] eqn:Eo.
  - destruct (Details err) as [d|]; [|done]. apply writeProblem_status. by eapply override_error.
  - unfold ToHTTPError. destruct (Details err); apply writeProblem_status, httpStatus_error.
Qed.

Lemma writeRPCError_error `{!Rpc} fresh ctx e x : 400 <= x_Status (writeRPCError fresh ctx e x).
Proof.
  unfold writeRPCError. repeat case_match;
    first [apply writeCatalogError_error|apply WriteError_error; vm_compute; done].
Qed.

End statuses.

(** ** Answers without error *)

Section endings.
Context `{ProblemCodec, !Rpc, DataCodec}.
Context {W : Type} (fresh : string) (ctx : Context_).

Notation need := (need fresh ctx (W := W)).
Notation guarded := (guarded fresh ctx (W := W)).
Notation reject := (reject fresh ctx (W := W)).
Notation calling := (calling fresh ctx (W := W)).
Notation converted := (converted fresh ctx (W := W)).

(** The run ended in [z] with a status below 400. *)
Definition fine (z : W * Exchange) : Prop := x_Status z.2 < 400.

Lemma reject_fine re s z : 400 <= re_HTTPStatus re → reject re s = z → fine z → False.
Proof.
  destruct s as [w x]. intros Hs <- Hf. unfold fine in Hf. simpl in Hf.
  pose proof (WriteError_error fresh ctx re x Hs). lia.
Qed.

Lemma need_fine {A} (o : option A) k s z :
  need o k s = z → fine z → ∃ a, o = Some a ∧ k a s = z.
Proof.
  destruct o as [a|]; [by eauto|]. intros Hz Hf. exfalso. by eapply reject_fine; [| |exact Hf]; [|exact Hz].
Qed.

Lemma guarded_fine ok k s z : guarded ok k s = z → fine z → ok = true ∧ k s = z.
Proof. destruct ok; [done|]. intros Hz Hf. exfalso. by eapply reject_fine; [| |exact Hf]; [|exact Hz]. Qed.

Lemma converted_fine {A} (o : option A) k s z :
  converted o k s = z → fine z → ∃ a, o = Some a ∧ k a s = z.
Proof.
  destruct o as [a|]; [by eauto|]. intros Hz Hf. exfalso. by eapply reject_fine; [| |exact Hf]; [|exact Hz].
Qed.

Lemma with_dependencies_fine k w x z :
  with_dependencies fresh ctx k (w, x) = z → fine z → x_Dependencies x = true ∧ k (w, x) = z.
Proof.
  unfold with_dependencies. destruct (x_Dependencies x); [done|]. intros Hz Hf. exfalso.
  by eapply reject_fine; [| |exact Hf]; [|exact Hz].
Qed.

Lemma calling_fine {A} (call : string → tx W rpc_error A) k w x z :
  calling call k (w, x) = z → fine z →
  ∃ w1 a, call (stringValue (stored_token x)) w = (w1, Ok a) ∧ k a (w1, x) = z.
Proof.
  simpl. destruct (call _ w) as [w1 [a|e]]; [by eauto|]. intros <- Hf. exfalso. unfold fine in Hf. simpl in Hf.
  pose proof (writeRPCError_error fresh ctx e x). lia.
Qed.

(** ** Where the state comes from *)

Lemma reject_state re s : (reject re s).1 = s.1.
Proof. by destruct s. Qed.

Lemma writeJSON_state status v s : (writeJSON fresh ctx (W := W) status v s).1 = s.1.
Proof. by destruct s. Qed.

Lemma writeDocument_state status v s : (writeDocument fresh ctx (W := W) status v s).1 = s.1.
Proof. by destruct s. Qed.

Lemma writeNoContent_state s : (writeNoContent fresh ctx (W := W) s).1 = s.1.
Proof. by destruct s. Qed.

Lemma need_state {A} (o : option A) k (s : W * Exchange) :
  (need o k s).1 = s.1 ∨ ∃ a, o = Some a ∧ need o k s = k a s.
Proof. destruct o as [a|]; [right; by exists a|left; apply reject_state]. Qed.

Lemma guarded_state ok k (s : W * Exchange) : (guarded ok k s).1 = s.1 ∨ ok = true ∧ guarded ok k s = k s.
Proof. destruct ok; [by right|left; apply reject_state]. Qed.

Lemma with_dependencies_state k (s : W * Exchange) :
  (with_dependencies fresh ctx k s).1 = s.1 ∨ with_dependencies fresh ctx k s = k s.
Proof. destruct s as [w x]. simpl. destruct (x_Dependencies x); [by right|by left]. Qed.

(** After the call the state stays. *)
Lemma calling_state {A} (call : string → tx W rpc_error A) k (s : W * Exchange) :
  (∀ a s', (k a s').1 = s'.1) →
  (calling call k s).1 = (call (stringValue (stored_token s.2)) s.1).1.
Proof. intros Hk. destruct s as [w x]. simpl. destruct (call _ w) as [w1 [a|e]]; [by rewrite Hk|done]. Qed.

Lemma converted_state {A} (o : option A) k (s : W * Exchange) :
  (∀ a, (k a s).1 = s.1) → (converted o k s).1 = s.1.
Proof. intros Hk. destruct o as [a|]; [apply Hk|apply reject_state]. Qed.

End endings.

(** [endpoint_inv H Hf] follows an endpoint that ended in an answer below 400. *)
Ltac endpoint_inv H Hf :=
  repeat lazymatch type of H with
  | need _ _ _ _ _ = _ => apply need_fine in H as (? & ? & H); [|exact Hf]
  | guarded _ _ _ _ _ = _ => apply guarded_fine in H as [? H]; [|exact Hf]
  | converted _ _ _ _ _ = _ => apply converted_fine in H as (? & ? & H); [|exact Hf]
  | with_dependencies _ _ _ _ = _ => apply with_dependencies_fine in H as [? H]; [|exact Hf]
  | calling _ _ _ _ _ = _ => apply calling_fine in H as (? & ? & ? & H); [|exact Hf]
  end.
