(* ===== verification/CEndpoints.v ===== *)
(** Requests of a client at the documents of the knowledge service: the
    endpoints of the gateway ([GKnowledge]) over the RPC handlers of the
    knowledge service ([KServe]) in the joint state of the services ([CWorld]). *)

From stdpp Require Import base gmap list sets strings relations.
From Stdlib Require Import ZArith Lia.
From S2P Require Import Prelude.
From S2P Require Import GoStrings.
From S2P Require Import GoText.
From S2P Require Import Base64.
From S2P Require Import KDomain.
From S2P Require Import RichText.
From S2P Require Import Json.
From S2P Require Import KSchema.
From S2P Require Import KTypes.
From S2P Require Import KStore.
From S2P Require Import KDocuments.
From S2P Require Import KHistory.
From S2P Require Import KPublication.
From S2P Require Import KCommits.
From S2P Require Import KListing.
From S2P Require Import KLogic.
From S2P Require Import KFrames.
From S2P Require Import KSaga.
From S2P Require Import KWorld.
From S2P Require Import KClaims.
From S2P Require Import KConditional.
From S2P Require Import CWorld.
From S2P Require Import CRevisions.
From S2P Require Import AppError.
From S2P Require Import AuthToken.
From S2P Require Import GResponse.
From S2P Require Import GServer.
From S2P Require Import GInput.
From S2P Require Import GContent.
From S2P Require Import GCatalog.
From S2P Require Import WRichText.
From S2P Require Import WKnowledge.
From S2P Require Import KServe.
From S2P Require Import GKnowledge.
From S2P Require Import KSample.
From S2P Require Import CClaims.
From S2P Require Import GServerFacts.
From S2P Require Import CContent.

Open Scope Z_scope.

Section endpoints.
Context `{Unicode, Uuid, Url, Codec, Pg, CursorCodec, TimeText}.
Context `{ProblemCodec, Query, UuidText, Redirects, !Rpc, !RpcLaws, DataCodec, Paths}.
Variables (identity : Identity) (verify : string → option Principal) (y_first : bool) (kctx : Ctx).
Variables (sctx : Context_) (fresh : string) (r : Input) (ctx : Context_).

(** ** The client of the knowledge service *)

(** A call of a handler over the network. *)
Definition remote {A} (m : rpc A) : tx CWorld rpc_error A := λ w,
  let '(s, result) := m (db (knowledge w)) in
  (with_db s (flight (knowledge w)) w,
   match result with Ok a => Ok a | Err e => Err (delivered (ToBizStatus sctx e)) end).

(** A message as the generated client returns it. *)
Definition message {A} (m : rpc A) : tx CWorld rpc_error (option A) := remote (m ≫= λ a, mret (Some a)).

Definition knowledge_api : KnowledgeClient CWorld rpc_error := MkKnowledgeClient
  (λ token q, message (ServeListPublishedDocuments verify kctx token q))
  (λ token slug, message (ServeGetPublishedDocument verify kctx token slug))
  (λ token q, message (ServeListDocuments verify kctx token q))
  (λ token q, message (ServeListDeletedDocuments verify kctx token q))
  (λ token q, message (ServeCreateDocument identity verify kctx token q))
  (λ token i, message (ServeGetDocument verify token i))
  (λ token q, message (ServeUpdateDocument verify y_first kctx token q))
  (λ token i n, message (ServeDeleteDocument verify kctx token i n))
  (λ token i n b k, message (ServeSetPublication verify kctx token i n b k))
  (λ token q, message (ServePublishSnapshot identity verify kctx token q))
  (λ token i, message (ServeRestoreDeletedDocument verify kctx token i))
  (λ token i n k, remote (ServePurgeDeletedDocument verify kctx token i n k))
  (λ token i l, message (ServeListCommits verify token i l))
  (λ token q, message (ServeCreateCommit verify kctx token q))
  (λ token i, message (ServeGetCommit verify token i))
  (λ token i l d, message (ServeRenameCommit verify kctx token i l d))
  (λ token i k, message (ServeRestoreCommit verify kctx token i k))
  (λ token i l, message (ServeListHistory verify token i l))
  (λ token i n, message (ServeGetHistory verify token i n))
  (λ token i, message (ServeListMembers verify token i))
  (λ token i u n k, message (ServeAddMember identity verify kctx token i u n k))
  (λ token i u n l, message (ServeUpdateMember verify kctx token i u n l))
  (λ token i u n, remote (ServeDeleteMember verify kctx token i u n))
  (λ token p, message (ServeListFolders verify token p))
  (λ token n p k, message (ServeCreateFolder verify kctx token n p k))
  (λ token i n l p, message (ServeUpdateFolder verify kctx token i n l p))
  (λ token i n, remote (ServeDeleteFolder verify kctx token i n)).

(** ** What a call does *)

Lemma remote_db {A} (m : rpc A) w : db (knowledge (remote m w).1) = (m (db (knowledge w))).1.
Proof. unfold remote. by destruct (m (db (knowledge w))) as [s [a|e]]. Qed.

Lemma return_state {A B} (m : rpc A) (f : A → B) s : ((m ≫= λ a, mret (f a)) s).1 = (m s).1.
Proof. cbv [mbind tx_bind]. by destruct (m s) as [s' [a|e]]. Qed.

Lemma message_db {A} (m : rpc A) w : db (knowledge (message m w).1) = (m (db (knowledge w))).1.
Proof. unfold message. by rewrite remote_db, return_state. Qed.

Lemma served_state {A} (m : logic A) s : (served m s).1 = (m s).1.
Proof. unfold served, wrap. by destruct (m s) as [s' [a|e]]. Qed.

Lemma message_ok {A} (m : rpc A) w w1 o :
  message m w = (w1, Ok o) →
  ∃ s a, m (db (knowledge w)) = (s, Ok a) ∧ o = Some a ∧ w1 = with_db s (flight (knowledge w)) w.
Proof.
  unfold message, remote. cbv [mbind tx_bind]. destruct (m _) as [s [a|e]]; simpl; [|done]. intros [= <- <-]. eauto.
Qed.

Lemma as_actor_ok {A} token (call : Z → rpc A) s s' a :
  as_actor verify token call s = (s', Ok a) →
  ∃ p, verify (TrimSpace token) = Some p ∧ call (pr_UserID p) s = (s', Ok a).
Proof.
  unfold as_actor, lift. cbv [mbind tx_bind]. destruct (requireActor verify token) as [actor|] eqn:E; [|done].
  apply requireActor_ok in E as (p & Hp & _ & <- & _). eauto.
Qed.

(** A call on behalf of the user of the token. *)
Lemma as_actor_writes {A B} token (call : Z → logic A) (f : A → B) i expected s :
  (∀ actor, writes_at i actor expected s (call actor s).1) →
  documents (as_actor verify token (λ actor, served (call actor) ≫= λ a, mret (f a)) s).1 = documents s ∨
  ∃ p, verify (TrimSpace token) = Some p ∧
    writes_at i (pr_UserID p) expected s
      (as_actor verify token (λ actor, served (call actor) ≫= λ a, mret (f a)) s).1.
Proof.
  intros Hw. rewrite as_actor_state. destruct (requireActor verify token) as [actor|] eqn:E; [right|by left].
  apply requireActor_ok in E as (p & Hp & _ & <- & _). exists p. split; [done|].
  rewrite return_state, served_state. apply Hw.
Qed.

(** ** Conditional requests *)

(** The endpoints that change a document a client has seen. *)
Definition conditional_endpoints (body : option Changes) (published : bool)
  : list (CWorld * Exchange → CWorld * Exchange) :=
  [handleUpdateDocument knowledge_api fresh r ctx body;
   handleDeleteDocument knowledge_api fresh r ctx;
   GKnowledge.setPublication knowledge_api fresh r ctx published;
   handlePermanentlyDeleteDocument knowledge_api fresh r ctx].

(** The rows of the knowledge service in [w'] differ from those in [w] only
    where the request of [x] says so. *)
Definition conditionally (w w' : CWorld) (x : Exchange) : Prop :=
  documents (db (knowledge w')) = documents (db (knowledge w)) ∨
  ∃ i d e p, pathUUID r "document_id" = Some i ∧ documents (db (knowledge w)) !! i = Some d ∧
    q_PeekAll r "If-Match" = [formatETag (d_MetadataRevision d)] ∧
    verify (TrimSpace (stringValue (stored_token x))) = Some p ∧
    CanEdit (accessFor (db (knowledge w)) d (pr_UserID p)) = true ∧
    documents (db (knowledge w')) = <[i := e]> (documents (db (knowledge w))).

Lemma conditionally_call i expected w w' x :
  pathUUID r "document_id" = Some i → expectedRevision r = Some expected →
  (documents (db (knowledge w')) = documents (db (knowledge w)) ∨
   ∃ p, verify (TrimSpace (stringValue (stored_token x))) = Some p ∧
     writes_at i (pr_UserID p) expected (db (knowledge w)) (db (knowledge w'))) →
  conditionally w w' x.
Proof.
  intros Hi He [Hs|(p & Hp & [Hs|(d & e & Hd & Hr & Ha & Hs)])]; [by left|by left|right].
  apply etag_roundtrip in He as [Hh _]. exists i, d, e, p. rewrite Hr. by split_and!.
Qed.

(** Follow an endpoint to its call. *)
Ltac to_call :=
  repeat match goal with
  | |- conditionally _ (need _ _ ?o ?k ?s).1 _ =>
      destruct (need_state fresh ctx o k s) as [->|(? & ? & ->)]; [by left|]
  | |- conditionally _ (guarded _ _ ?ok ?k ?s).1 _ =>
      destruct (guarded_state fresh ctx ok k s) as [->|[? ->]]; [by left|]
  | |- conditionally _ (with_dependencies _ _ ?k ?s).1 _ =>
      destruct (with_dependencies_state fresh ctx k s) as [->| ->]; [by left|]
  end.

(** C9: a request to update, delete, unpublish or purge a
    document changes a row of the knowledge service only if the row is the one
    of the path, its one If-Match header is the entity tag of the revision the
    row is at, and the token of the request verifies to a user who may edit the
    document; no other row changes, whatever the request holds and whatever it
    is answered. *)
Theorem conditional_writes body published endpoint w x :
  endpoint ∈ conditional_endpoints body published → conditionally w (endpoint (w, x)).1 x.
Proof.
  intros He. unfold conditional_endpoints in He.
  repeat (apply elem_of_cons in He as [->|He]); [..|by apply elem_of_nil in He];
    unfold handleUpdateDocument, handleDeleteDocument, GKnowledge.setPublication, handlePermanentlyDeleteDocument; to_call;
    (eapply conditionally_call; [eassumption|eassumption|]);
    (rewrite calling_state; [cbn [fst snd knowledge_api api_UpdateDocument api_DeleteDocument api_SetPublication
       api_PurgeDeletedDocument]; rewrite ?message_db, ?remote_db|]).
  - apply as_actor_writes. intros actor. apply Update_writes.
  - intros a s'. apply converted_state. intros d. apply writeDocument_state.
  - apply as_actor_writes. intros actor. apply Delete_writes.
  - intros a s'. apply writeNoContent_state.
  - apply as_actor_writes. intros actor. apply LogicSetPublication_writes.
  - intros a s'. destruct published; [|apply writeNoContent_state].
    apply converted_state. intros d. apply writeDocument_state.
  - unfold ServePurgeDeletedDocument. rewrite as_actor_state. destruct (requireActor _ _) as [actor|] eqn:E; [right|by left].
    apply requireActor_ok in E as (p & Hp & _ & <- & _). exists p. split; [done|].
    rewrite served_state. apply PurgeDeleted_writes.
  - by intros a [].
Qed.

(** ** Publishing *)

Lemma served_run {A} (m : logic A) s s' a : served m s = (s', Ok a) → m s = (s', Ok a).
Proof. apply wrap_ok. Qed.

Lemma ServeGetDocument_run token i s s' v :
  ServeGetDocument verify token i s = (s', Ok v) →
  s' = s ∧ ∃ d, documents s !! i = Some d ∧ wk_Title v = d_Title d ∧ wk_Summary v = d_Summary d ∧
    wk_Slug v = d_Slug d ∧ wk_Language v = nonEmptyStringPointer (d_Language d).
Proof.
  unfold ServeGetDocument. intros (p & _ & Hr)%as_actor_ok. apply bind_run_ok in Hr as (s1 & a & Hg%served_run & Hr).
  apply ret_run in Hr as [-> [= ->]]. apply GetDraft_run in Hg as (-> & d & Hd & Hm). split; [done|].
  exists d. unfold metadata, row_metadata in Hm. injection Hm as ? ? ? Hl ?. simpl. by rewrite Hl.
Qed.

Lemma ServePublishSnapshot_run token request s s' v :
  ServePublishSnapshot identity verify kctx token request s = (s', Ok v) →
  ∃ p content result, verify (TrimSpace token) = Some p ∧
    fromTransportRichText (pq_Content request) = Ok content ∧
    LogicPublishSnapshot identity kctx (pq_DocumentId request) (pr_UserID p)
      (pq_ExpectedMetadataRevision request) (publish_input request content) s = (s', Ok result).
Proof.
  unfold ServePublishSnapshot. intros (p & Hp & Hr)%as_actor_ok.
  apply bind_run_ok in Hr as (s1 & content & Hc & Hr). unfold lift, parsed in Hc.
  destruct (fromTransportRichText (pq_Content request)) as [c|] eqn:E; [|done]. injection Hc as <- <-.
  apply bind_run_ok in Hr as (s2 & a & Hl%served_run & Hr). apply ret_run in Hr as [-> _].
  by exists p, c, a.
Qed.

(** What a candidate holds of a row and of a captured content. *)
Record published_as (c : CandidateRow) (e : DocumentRow) (captured : PublicationSnapshot) : Prop := {
  pa_title : pc_Title c = TrimSpace (d_Title e);
  pa_summary : pc_Summary c = TrimSpace (publicationSummary (d_Summary e) (sn_PlainText captured));
  pa_slug : NormalizeSlug (d_Slug e) = Ok (pc_Slug c);
  pa_language : pc_Language c = TrimSpace (languageOrDefault (nonEmptyStringPointer (d_Language e)));
  pa_text : pc_PlainText c = sn_PlainText captured;
  pa_sequence : pc_ContentSequence c = sn_Sequence captured;
  pa_content : ∃ content, fromTransportRichText (sn_Content captured) = Ok content ∧ RichText.Validate content = Ok tt ∧
    json_encode (document_json content) ≫= jsonb = Some (pc_Content c);
}.

(** The call that publishes, on a draft read earlier. *)
Lemma publish_call token i revision key body draft captured s s' v d :
  wk_Title draft = d_Title d → wk_Summary draft = d_Summary d → wk_Slug draft = d_Slug d →
  wk_Language draft = nonEmptyStringPointer (d_Language d) →
  (∀ e, documents s !! i = Some e → revised d e) →
  ServePublishSnapshot identity verify kctx token
    (publish_request i revision key body draft captured) s = (s', Ok v) →
  candidates s' = candidates s ∧ TrimSpace key ≠ EmptyString ∨
  ∃ e c p, documents s !! i = Some e ∧ verify (TrimSpace token) = Some p ∧
    CanEdit (accessFor s e (pr_UserID p)) = true ∧
    d_MetadataRevision e = revision ∧ candidates s' = <[i := c]> (candidates s) ∧
    d_MetadataRevision d <= d_MetadataRevision e ∧ published_as c d captured ∧
    (d_MetadataRevision e <= d_MetadataRevision d → published_as c e captured).
Proof.
  intros Ht Hs Hg Hl Hrev (p & content & res & Hp & Hc & Hr)%ServePublishSnapshot_run.
  apply LogicPublishSnapshot_run in Hr
    as (asked & Hr & A1 & A2 & A3 & A4 & A5 & A6 & A7 & A8 & _ & A9). cbn [publish_input publish_request] in *.
  assert (TrimSpace (stringValue (optionalString key)) = TrimSpace key) as Hkey.
  { unfold optionalString, nonEmptyStringPointer. case_bool_decide as Hk; [by rewrite Hk|done]. }
  apply PublishSnapshot_candidates in Hr as [_ [[Ec Hk]|(e & c & He & _ & Ha & Hat & Ec & C1 & C2 & C3 & C4 & C5)]].
  - left. split; [done|]. intros He. assert (id_Key (in_Idempotency asked) = EmptyString) as Hn
      by (rewrite A9; simpl; by rewrite Hkey).
    destruct Hk as [k Hk]. unfold idempotentResource in Hk. by rewrite Hn in Hk.
  - right. simpl in He, Hat. destruct (Hrev e He) as [Hle Hsame]. destruct C4 as (C41 & C42 & C43 & _).
    assert (published_as c d captured) as Hpd.
    { split; [by rewrite C1, A1, <-Ht|by rewrite C41, A2, <-Hs|by rewrite C2, <-Hg|by rewrite C42, A4, <-Hl
        |by rewrite C3, A7|by rewrite C43, A8|].
      exists content. split_and!; [done|done|]. rewrite A5 in C5. exact C5. }
    exists e, c, p. split_and!; [done|done|done|lia|done|done|done|].
    intros Hn. destruct Hsame as (E1 & E2 & E3 & E4); [lia|]. destruct Hpd as [P1 P2 P3 P4 P5 P6 P7].
    split; rewrite ?E1, ?E2, ?E3, ?E4; done.
Qed.


(** ** Commits of another document *)

Lemma other_document_missing {A} i (document_of : A → string) o k (u : CWorld * Exchange) :
  (∀ a, o = Some a → document_of a ≠ i) →
  of_document fresh ctx i document_of o k u = reject fresh ctx ErrResourceNotFound u.
Proof. intros Ho. destruct o as [a|]; [|done]. simpl. rewrite bool_decide_false; [done|by apply Ho]. Qed.

(** A commit [row] of the document [d], which the user [actor] may edit; the
    stored rows satisfy the constraints of their tables, and the content of the
    commit decodes. *)
Record editable_commit (actor : Z) (commit : string) (row : CommitRow) (d : DocumentRow) (content : string)
  (s : KDB) : Prop := {
  ec_commit : commits s !! commit = Some row;
  ec_document : documents s !! c_DocumentID row = Some d;
  ec_id : d_ID d = c_DocumentID row;
  ec_live : d_DeletedAt d = None;
  ec_editor : CanEdit (accessFor s d actor) = true;
  ec_check : document_check d = true;
  ec_slug : slug_taken (c_DocumentID row) (d_Slug d) s = false;
  ec_json : jsonb (c_Content row) = Some content;
  ec_decodes : is_Some (decode_document (c_Content row));
}.

Lemma editable_locked actor commit row d content s :
  editable_commit actor commit row d content s →
  lockDocument (c_DocumentID row) actor false s = (s, Ok (d, accessFor s d actor)).
Proof.
  intros [_ Hd _ Hl _ _ _ _ _]. apply lockDocument_run. split_and!; [done| |done].
  by apply visible_document_Some.
Qed.

(** The row a commit gets when it is renamed. *)
Definition renamed_row (label description content : string) (row : CommitRow) : CommitRow :=
  set_c_Content content
    (row |> set_c_Label (TrimSpace label) |> set_c_Description (TrimSpace description) |> set_c_UpdatedAt (now kctx)).

Lemma RenameCommit_ok actor commit row d content label description s :
  editable_commit actor commit row d content s →
  blank label = false → rune_count label <= 160 → rune_count description <= 2000 →
  ∃ v, KCommits.RenameCommit kctx commit actor label description s =
       (set_commits (<[commit := renamed_row label description content row]> (commits s)) s, Ok v) ∧
       cv_DocumentID v = c_DocumentID row.
Proof.
  intros Hec Hb Hl Hd. pose proof (editable_locked _ _ _ _ _ _ Hec) as Hlock.
  destruct Hec as [Hc _ _ _ He _ _ Hj [doc Hdoc]].
  eexists. split.
  - unfold KCommits.RenameCommit, transaction, first. cbv [mbind tx_bind gets id expect]. rewrite Hc. cbn.
    rewrite Hlock. cbn. rewrite He. cbn.
    unfold blank in Hb. rewrite Hb. rewrite (proj2 (Z.ltb_ge _ _)), (proj2 (Z.ltb_ge _ _)) by lia. cbn.
    unfold sql_write, wrap, to_jsonb. cbv [expect]. rewrite Hj. cbn.
    unfold commitFromModel. cbv [mbind tx_bind expect]. cbn. rewrite Hdoc. cbn. reflexivity.
  - done.
Qed.

(** The projection of a document restored to a commit. *)
Definition restored_projection (row : CommitRow) (content : string) (before : ProjectionRow) : ProjectionRow :=
  MkProjectionRow (c_DocumentID row) (pr_Sequence before + 1) content (c_PlainText row) (now kctx).

(** The row of a document restored to a commit *)
Definition restored_row (d : DocumentRow) : DocumentRow :=
  d |> set_d_ContentRevision (d_ContentRevision d + 1) |> set_d_UpdatedAt (now kctx).

Lemma restored_check d : document_check d = true → document_check (restored_row d) = true.
Proof.
  unfold document_check, restored_row. cbn. rewrite !andb_true_iff. intros H'. split_and!; try apply H'.
  destruct H' as [[[[[[[[_ Hc] _] _] _] _] _] _] _]. lia.
Qed.

Lemma RestoreCommit_ok actor commit row d content before new rest s :
  editable_commit actor commit row d content s →
  projections s !! c_DocumentID row = Some before → 0 <= pr_Sequence before →
  new_ids s = new :: rest → commits s !! new = None →
  ∃ s' v, KCommits.RestoreCommit kctx commit actor (MkIdempotency 0 EmptyString EmptyString EmptyString) s = (s', Ok v) ∧
    v_ID v = c_DocumentID row ∧
    projections s' = <[c_DocumentID row := restored_projection row content before]> (projections s) ∧
    documents s' = <[c_DocumentID row := restored_row d]> (documents s).
Proof.
  intros Hec Hp Hseq Hnew Hfree. pose proof (editable_locked _ _ _ _ _ _ Hec) as Hlock.
  destruct Hec as [Hc Hd Hi _ He Hck Hs Hj [doc Hdoc]]. apply restored_check in Hck.
  eexists _, _. split; [|split_and!].
  - unfold KCommits.RestoreCommit, transaction, idempotentResource, first. cbv [mbind tx_bind gets id expect].
    cbn [id_Key]. rewrite bool_decide_true by done. cbn. rewrite Hc. cbn. rewrite Hlock. cbn. rewrite He. cbn.
    rewrite Hp. cbn. unfold sql, sql_write, wrap, update_projection, to_jsonb. cbv [mbind tx_bind expect].
    cbn. rewrite Hj. cbn. rewrite (proj2 (Z.leb_le 0 (pr_Sequence before + 1))) by lia. cbn.
    unfold update_document. cbv [mbind tx_bind gets id]. cbn. rewrite Hi, Hd. cbn.
    fold (restored_row d). rewrite Hck. cbn.
    match goal with |- context [slug_taken ?i ?g ?db] => change (slug_taken i g db) with (slug_taken i g s) end.
    rewrite Hs. cbn. unfold NewID. cbv [mbind tx_bind gets id]. cbn. rewrite Hnew. cbn.
    unfold insert_commit, to_jsonb. cbv [mbind tx_bind gets id expect]. cbn. rewrite Hj. cbn.
    rewrite Hfree. cbn. unfold has_document. cbn. rewrite lookup_insert_eq. cbn. reflexivity.
  - exact Hi.
  - cbn. apply map_eq. intros k. destruct (decide (k = c_DocumentID row)) as [->|Hk].
    + by rewrite lookup_alter_eq, Hp, lookup_insert_eq.
    + by rewrite lookup_alter_ne, lookup_insert_ne by done.
  - done.
Qed.

(** A request names a commit under the document [i] of its path. *)
Record names_commit (i commit : string) (actor : Z) (x : Exchange) : Prop := {
  nc_document : pathUUID r "document_id" = Some i;
  nc_commit : pathUUID r "commit_id" = Some commit;
  nc_id : ValidateID "commit_id" commit = Ok tt;
  nc_query : requireNoQuery r = true;
  nc_ready : x_Dependencies x = true;
  nc_actor : requireActor verify (stringValue (stored_token x)) = Ok actor;
}.

(** C40: the document of the path is compared with the
    answer only: when a commit belongs to another document the caller may edit,
    a request without a key to restore it puts its content and text in place of
    that document's, and a request to rename it renames it; both are then
    answered as not found. *)
Theorem commit_of_another_document i commit actor row d content w x :
  names_commit i commit actor x → editable_commit actor commit row d content (db (knowledge w)) →
  c_DocumentID row ≠ i →
  (∀ before new rest, requireNoBody r = true → idempotencyKey r = Some EmptyString →
     projections (db (knowledge w)) !! c_DocumentID row = Some before → 0 <= pr_Sequence before →
     new_ids (db (knowledge w)) = new :: rest → commits (db (knowledge w)) !! new = None →
     let after := handleRestoreCommit knowledge_api fresh r ctx (w, x) in
     after.2 = WriteError fresh ctx ErrResourceNotFound x ∧
     projections (db (knowledge after.1)) =
       <[c_DocumentID row := restored_projection row content before]> (projections (db (knowledge w))) ∧
     documents (db (knowledge after.1)) = <[c_DocumentID row := restored_row d]> (documents (db (knowledge w)))) ∧
  (∀ label description, blank label = false → rune_count label <= 160 →
     rune_count (stringValue description) <= 2000 →
     let after := handleRenameCommit knowledge_api fresh r ctx (Some (label, description)) (w, x) in
     after.2 = WriteError fresh ctx ErrResourceNotFound x ∧
     commits (db (knowledge after.1)) =
       <[commit := renamed_row label (stringValue description) content row]> (commits (db (knowledge w)))).
Proof.
  intros [Ni Nc Nv Nq Nd Na] Hec Hne. split.
  - intros before new rest Hb Hk Hp Hseq Hnew Hfree.
    assert (∀ a v, idempotency a "restore_commit" (stringValue (optionalString EmptyString)) v =
              Ok (MkIdempotency 0 EmptyString EmptyString EmptyString)) as Hidem by (intros; vm_compute; reflexivity).
    destruct (RestoreCommit_ok _ _ _ _ _ _ _ _ _ Hec Hp Hseq Hnew Hfree) as (s' & v & Hr & Hv & Hps & Hds).
    unfold handleRestoreCommit. rewrite Ni, Nc, Hk, Nq, Hb. simpl. rewrite Nd.
    unfold message, remote, ServeRestoreCommit, as_actor, lift. cbv [mbind tx_bind]. rewrite Na.
    unfold served, LogicRestoreCommit, validated, mapped, wrap, lift. cbv [mbind tx_bind]. rewrite Nv.
    cbn. rewrite (Hidem actor (JObj [("commit_id", JStr commit)])). rewrite Hr. cbn. rewrite other_document_missing; [done|].
    intros a Ha. change (toDocumentData (Some (toTransportDocument v)) = Some a) in Ha.
    apply toDocumentData_same in Ha as [-> _]. simpl. by rewrite Hv.
  - intros label description Hb Hl Hd.
    destruct (RenameCommit_ok _ _ _ _ _ _ _ _ Hec Hb Hl Hd) as (v & Hr & Hv).
    unfold handleRenameCommit. rewrite Ni, Nc, Nq. simpl. rewrite Hb. simpl. rewrite Nd.
    unfold message, remote, ServeRenameCommit, as_actor, lift. cbv [mbind tx_bind]. rewrite Na.
    unfold served, LogicRenameCommit, validated, mapped, wrap, lift. cbv [mbind tx_bind]. rewrite Nv.
    cbn. rewrite Hr. cbn. rewrite other_document_missing; [done|].
    intros a Ha. change (toCommitData (Some (toTransportCommit v)) = Some a) in Ha.
    apply toCommitData_document in Ha as ->. simpl. by rewrite Hv.
Qed.

End endpoints.


(** Requests at the endpoints of the gateway over the sample run: an update, a
    publication with a step of the services in between, and a commit asked for
    under the wrong document. *)

#[local] Existing Instance binary_cursors.

#[export] Instance constant_time : TimeText := {| format_time _ := "2026-01-01T00:00:00Z" |}.

#[export] Instance constant_data : DataCodec := {| MarshalData _ := Some "{}" |}.

#[export] Instance plain_paths : Paths := {| PathEscape v := v; PublicBaseURL := "https://kc.example" |}.

(** A document of user 7, with a commit. *)
Definition written : CWorld :=
  after_create (at_time 10) sample_document (no_key 7) shown_ready.

Definition writer : Principal := MkPrincipal 7 SubjectTypeUser "user" 1 "s" 100.

Definition knows_writer (token : string) : option Principal :=
  if bool_decide (token = "writer-token") then Some writer else None.

Definition writer_identity : Identity :=
  MkIdentity (Answer (Some (MkPublicUser 7 "ada" EmptyString))) (λ _, CallFailed).

Definition signed_in : Exchange := set_Principal writer "writer-token" asked.

(** A request that names the first revision. *)
Definition conditional_request (document : string) : Input :=
  MkInput (λ name, if bool_decide (name = "If-Match") then [formatETag 1] else [])
    (λ name, if bool_decide (name = "document_id") then document else "id-1") EmptyString EmptyString.

Definition retitled : Changes := MkChanges (Some "Better notes") None None None None None None None None None.

Definition after_update : CWorld * Exchange :=
  handleUpdateDocument (knowledge_api writer_identity knows_writer false (at_time 20) Background) "fresh"
    (conditional_request "doc-1") gateway_ctx (Some retitled) (written, signed_in).

Lemma written_reachable : creachable written.
Proof. apply creach_create; [apply shown_ready_reachable|by split|done|]. by vm_compute. Qed.

(** The update is made: the row has the next revision, and so has the answer. *)
Lemma conditional_writes_witness :
  (d_MetadataRevision <$> documents (db (knowledge after_update.1)) !! "doc-1") = Some 2 ∧
  x_Status after_update.2 = 200 ∧ x_Headers after_update.2 !! "ETag" = Some (formatETag 2) ∧
  conditionally knows_writer (conditional_request "doc-1") written after_update.1 signed_in.
Proof.
  split; [vm_compute; reflexivity|]. split; [vm_compute; reflexivity|]. split; [vm_compute; reflexivity|].
  exact (conditional_writes writer_identity knows_writer false (at_time 20) Background "fresh"
    (conditional_request "doc-1") gateway_ctx (Some retitled) false _ written signed_in
    ltac:(apply list_elem_of_here)).
Defined.

(** ** Publishing *)

Definition captured_text : RichTextDocument :=
  MkDocument "doc" (Some [Some (Node "paragraph" None [Some (Node "text" None [] (Some "text") [])] None [])]).

Definition captured_snapshot : PublicationSnapshot :=
  MkPublicationSnapshot 3 (Some (toTransportRichText captured_text)) "text" "hash".

(** While the content is captured, a maintenance pass runs. *)
Definition capture_meanwhile (token i : string) (vector : list Z) : tx CWorld rpc_error (option PublicationSnapshot) :=
  λ u, (after_req (ReqPruneHistory (at_time 15)) u, Ok (Some captured_snapshot)).

Definition publish_body : option PublishBody :=
  Some (MkPublishBody "AQ" EmptyString EmptyString None None).

Definition after_publish : CWorld * Exchange :=
  handlePublishDocument (knowledge_api writer_identity knows_writer false (at_time 20) Background) capture_meanwhile
    "fresh" (conditional_request "doc-1") gateway_ctx publish_body (written, signed_in).

Example publish_answer :
  x_Status after_publish.2 = 202 ∧
  (pc_Title <$> candidates (db (knowledge after_publish.1)) !! "doc-1") = Some "Notes".
Proof. vm_compute. done. Qed.

Lemma written_document : ∃ d, documents (db (knowledge written)) !! "doc-1" = Some d ∧ d_MetadataRevision d = 1.
Proof. eexists. split; vm_compute; reflexivity. Qed.


(** A request that names revision 2 while the document is at revision 1; its
    title is changed while the content is captured.  The old title is
    published. *)
Definition capture_retitling (token i : string) (vector : list Z) : tx CWorld rpc_error (option PublicationSnapshot) :=
  λ u, (after_req (ReqUpdateDocument (at_time 15) "doc-1" 7 1 retitled) u, Ok (Some captured_snapshot)).

Definition early_request : Input :=
  MkInput (λ name, if bool_decide (name = "If-Match") then [formatETag 2] else [])
    (λ name, if bool_decide (name = "document_id") then "doc-1" else "id-1") EmptyString EmptyString.

Example early_tag_publishes_the_old_title :
  let after := handlePublishDocument (knowledge_api writer_identity knows_writer false (at_time 20) Background)
                 capture_retitling "fresh" early_request gateway_ctx publish_body (written, signed_in) in
  x_Status after.2 = 202 ∧
  (d_Title <$> documents (db (knowledge after.1)) !! "doc-1") = Some "Better notes" ∧
  (pc_Title <$> candidates (db (knowledge after.1)) !! "doc-1") = Some "Notes".
Proof. vm_compute. done. Qed.

(** ** A commit under another document *)

Definition with_commit : CWorld :=
  after_req (ReqCreateCommit (at_time 12) "doc-1" 7
    (MkCommitInput "manual" "first" EmptyString (Some captured_text) "text" EmptyString (no_key 7))) written.

Definition elsewhere : CWorld * Exchange :=
  handleRestoreCommit (knowledge_api writer_identity knows_writer false (at_time 20) Background) "fresh"
    (conditional_request "doc-2") gateway_ctx (with_commit, signed_in).

Definition sample_commit : CommitRow :=
  Eval vm_compute in
    match commits (db (knowledge with_commit)) !! "id-1" with
    | Some c => c
    | None => MkCommitRow EmptyString EmptyString EmptyString EmptyString EmptyString 0 EmptyString 0
                EmptyString EmptyString EmptyString false 0 0
    end.

Definition committed_document : DocumentRow :=
  Eval vm_compute in
    match documents (db (knowledge with_commit)) !! "doc-1" with
    | Some d => d
    | None => documentToModel sample_document
    end.

Definition committed_projection : ProjectionRow :=
  Eval vm_compute in
    match projections (db (knowledge with_commit)) !! "doc-1" with
    | Some p => p
    | None => MkProjectionRow EmptyString 0 EmptyString EmptyString 0
    end.

Lemma sample_commit_editable :
  editable_commit 7 "id-1" sample_commit committed_document (c_Content sample_commit) (db (knowledge with_commit)).
Proof. split; [vm_compute; done..|]. eexists. vm_compute. done. Qed.

(** There is no document doc-2; doc-1 is restored to the commit. *)
Lemma commit_of_another_document_witness :
  pr_PlainText committed_projection = EmptyString ∧
  elsewhere.2 = WriteError "fresh" gateway_ctx ErrResourceNotFound signed_in ∧
  (pr_PlainText <$> projections (db (knowledge elsewhere.1)) !! "doc-1") = Some "text".
Proof.
  split; [reflexivity|].
  destruct (proj1 (commit_of_another_document writer_identity knows_writer false (at_time 20) Background "fresh"
    (conditional_request "doc-2") gateway_ctx "doc-2" "id-1" 7 sample_commit committed_document
    (c_Content sample_commit) with_commit signed_in
    ltac:(split; vm_compute; reflexivity) sample_commit_editable ltac:(discriminate))
    committed_projection "id-2" (tail (new_ids (db (knowledge with_commit))))
    ltac:(vm_compute; reflexivity) ltac:(vm_compute; reflexivity) ltac:(vm_compute; reflexivity)
    ltac:(vm_compute; discriminate) ltac:(vm_compute; reflexivity) ltac:(vm_compute; reflexivity)) as (Ha & Hp & _).
  split; [exact Ha|]. unfold elsewhere. rewrite Hp, lookup_insert_eq. reflexivity.
Defined.
