(* ===== verification/GIdentity.v ===== *)
(** The endpoints of the gateway over the identity service:
    services/gateway/biz/handler/gateway/gateway_service.go; and these endpoints
    over the RPC handlers of that service ([IServe]).

    They are written with the pieces of [GKnowledge]: input that must be there,
    the injected dependencies, a call whose error goes to the client, a checked
    conversion of the answer.  What [decodeJSONBody] makes of a body is an
    argument, [None] when it fails.  The generated client implements every
    interface the handlers ask it for. *)

From stdpp Require Import base gmap list sets strings relations.
From Stdlib Require Import ZArith Lia DecimalString.
From S2P Require Import Prelude.
From S2P Require Import GoStrings.
From S2P Require Import GoText.
From S2P Require Import AppError.
From S2P Require Import AuthToken.
From S2P Require Import GResponse.
From S2P Require Import GServer.
From S2P Require Import GServerFacts.
From S2P Require Import GInput.
From S2P Require Import GContent.
From S2P Require Import CContent.
From S2P Require Import WKnowledge.
From S2P Require Import GKnowledge.
From S2P Require Import ISchema.
From S2P Require Import IStore.
From S2P Require Import ILogic.
From S2P Require Import IWorld.
From S2P Require Import IClaims.
From S2P Require Import IServe.
From S2P Require Import IAccess.

Open Scope Z_scope.

(** ** The client *)

(** The generated client of the identity service; where a call is made with
    [authenticatedIdentityContext] the first argument is the token. *)
Record IdentityClient (W E : Type) := MkIdentityClient {
  api_Register : string → string → string → tx W E (option IdentityUser);
  api_Authenticate : string → string → tx W E (option Authentication);
  api_RefreshSession : string → tx W E (option Authentication);
  api_GetCurrentUser : string → tx W E (option IdentityUser);
  api_ListSessions : string → tx W E (option (list (option WireSession)));
  api_RevokeSession : string → string → tx W E unit;
  api_RevokeAllSessions : string → tx W E unit;
  api_GetEmailVerificationStatus : string → tx W E (option WireVerification);
  api_RequestEmailVerification : string → tx W E (option WireVerification);
  api_VerifyEmail : string → tx W E unit;
  api_RequestPasswordReset : string → tx W E unit;
  api_ResetPassword : string → string → tx W E unit;
  api_DeactivateAccount : string → string → tx W E unit;
}.

Arguments MkIdentityClient {W E}.
Arguments api_Register {W E}.
Arguments api_Authenticate {W E}.
Arguments api_RefreshSession {W E}.
Arguments api_GetCurrentUser {W E}.
Arguments api_ListSessions {W E}.
Arguments api_RevokeSession {W E}.
Arguments api_RevokeAllSessions {W E}.
Arguments api_GetEmailVerificationStatus {W E}.
Arguments api_RequestEmailVerification {W E}.
Arguments api_VerifyEmail {W E}.
Arguments api_RequestPasswordReset {W E}.
Arguments api_ResetPassword {W E}.
Arguments api_DeactivateAccount {W E}.

(** ** Bodies of responses *)

(** [gatewaymodel.UserData] *)
Record AccountData := MkAccountData {
  ad_ID : string;
  ad_Username : string;
  ad_Email : string;
  ad_Role : string;
  ad_Status : string;
  ad_Avatar : string;
  ad_AvatarAttachmentID : option string;
  ad_Bio : string;
  ad_CreatedAt : string;
  ad_UpdatedAt : string;
  ad_EmailVerifiedAt : option string;
}.

Record SessionData := MkSessionData {
  sd_User : AccountData;
  sd_AccessToken : string;
  sd_TokenType : string;
  sd_ExpiresAt : string;
  sd_RefreshToken : option string;
  sd_SessionID : option string;
}.

Inductive identity_data :=
| IAccount (d : AccountData)
| ISession (d : SessionData)
| ISessions (l : list WireSession)
| IVerification (d : WireVerification)
| IHealth (status service : string)
| IEmpty.

(** [jsoncodec.Marshal] *)
Class IdentityCodec := { MarshalIdentity : identity_data → option string }.

Section conversions.
Context `{Redirects}.

Definition toUserData (user : option IdentityUser) : option AccountData :=
  u ← user;
  if (iu_Id u <=? 0)
     || bool_decide (EmptyString ∈ [iu_Username u; iu_Email u; iu_Role u; iu_Status u])
     || (iu_TokenVersion u <=? 0) || negb (validRFC3339 (iu_CreatedAt u)) || negb (validRFC3339 (iu_UpdatedAt u))
  then None
  else if match iu_EmailVerifiedAt u with
          | Some t => negb (bool_decide (t = EmptyString)) && negb (validRFC3339 t)
          | None => false
          end
  then None
  else Some (MkAccountData (FormatInt (iu_Id u)) (iu_Username u) (iu_Email u) (iu_Role u) (iu_Status u)
               (iu_Avatar u) (iu_AvatarAttachmentId u) (iu_Bio u) (iu_CreatedAt u) (iu_UpdatedAt u)
               (iu_EmailVerifiedAt u)).

(** The answer to a login. *)
Definition toLoginData (value : option Authentication) : option SessionData :=
  a ← value;
  if bool_decide (at_AccessToken a = EmptyString) || negb (validRFC3339 (at_ExpiresAt a)) then None
  else user ← toUserData (at_User a);
       Some (MkSessionData user (at_AccessToken a) "Bearer" (at_ExpiresAt a) (at_RefreshToken a) (at_SessionId a)).

(** The answer to a refresh, which must name its session. *)
Definition toRefreshData (value : option Authentication) : option SessionData :=
  a ← value;
  if bool_decide (at_AccessToken a = EmptyString) || bool_decide (stringValue (at_RefreshToken a) = EmptyString)
     || bool_decide (stringValue (at_SessionId a) = EmptyString) || negb (validRFC3339 (at_ExpiresAt a))
  then None
  else user ← toUserData (at_User a);
       Some (MkSessionData user (at_AccessToken a) "Bearer" (at_ExpiresAt a) (at_RefreshToken a) (at_SessionId a)).

Definition toEmailVerificationStatusData (value : option WireVerification) : option WireVerification :=
  status ← value;
  if bool_decide (wv_State status = EmptyString) then None
  else match wv_ExpiresAt status with
       | Some t => if validRFC3339 t then Some status else None
       | None => Some status
       end.

End conversions.

(** ** The endpoints *)

Section endpoints.
Context `{ProblemCodec, Redirects, !Rpc, IdentityCodec}.
Context {W : Type} (api : IdentityClient W rpc_error).
Variables (fresh : string) (r : Input) (ctx : Context_).

Notation act := (W * Exchange → W * Exchange).
Notation need := (need fresh ctx (W := W)).
Notation guarded := (guarded fresh ctx (W := W)).
Notation reject := (reject fresh ctx (W := W)).
Notation calling := (calling fresh ctx (W := W)).
Notation converted := (converted fresh ctx (W := W)).
Notation with_dependencies := (with_dependencies fresh ctx (W := W)).

(** [ResponseMetadata] and [WriteJSON] *)
Definition writeIdentity (status : Z) (value : identity_data) : act := respond (λ x,
  let x := ResponseMetadata fresh ctx x in
  match MarshalIdentity value with
  | None => Data 500 ProblemContentType fallback_problem x
  | Some payload => Data status "application/json; charset=utf-8" payload x
  end).

Definition writeEmpty : act := writeIdentity 200 IEmpty.

(** The texts of a body that may not be empty. *)
Definition given (texts : list string) : bool := negb (bool_decide (EmptyString ∈ texts)).

(** [Live] and [Ready]; [healthy] is the answer of the check. *)
Definition health (healthy : bool) (status : string) : act := with_dependencies (
  if healthy then writeIdentity 200 (IHealth status "gateway") else reject ErrNotReady).

Definition handleRegister (body : option (string * string * string)) : act :=
  need body (λ '(username, email, password), guarded (given [username; email; password]) (with_dependencies (
  calling (λ _, api_Register api username email password) (λ user,
  converted (toUserData user) (λ data, writeIdentity 201 (IAccount data)))))).

Definition handleLogin (body : option (string * string)) : act :=
  need body (λ '(identifier, password), guarded (given [identifier; password]) (with_dependencies (
  calling (λ _, api_Authenticate api identifier password) (λ answer,
  converted (toLoginData answer) (λ data, writeIdentity 200 (ISession data)))))).

(** The user must be the one the middleware saw, at the version it saw. *)
Definition of_principal (principal : Principal) (user : option IdentityUser) : option AccountData :=
  u ← user;
  if negb (iu_Id u =? pr_UserID principal) || negb (iu_TokenVersion u =? pr_TokenVersion principal) then None
  else toUserData user.

Definition handleCurrentUser : act := λ s,
  match stored_principal s.2, stored_token s.2 with
  | Some principal, Some _ =>
    with_dependencies (
      calling (λ token, api_GetCurrentUser api token) (λ user,
      converted (of_principal principal user) (λ data, writeIdentity 200 (IAccount data)))) s
  | _, _ => reject ErrAuthenticationRequired s
  end.

Definition handleRefreshSession (body : option string) : act :=
  need body (λ refreshToken, guarded (given [refreshToken]) (with_dependencies (
  calling (λ _, api_RefreshSession api refreshToken) (λ answer,
  converted (toRefreshData answer) (λ data, writeIdentity 200 (ISession data)))))).

Definition handleLogout : act := with_dependencies (λ s,
  match stored_principal s.2 with
  | Some principal =>
    if bool_decide (pr_SessionID principal = EmptyString) then reject ErrAuthenticationRequired s
    else calling (λ token, api_RevokeSession api token (pr_SessionID principal)) (λ _, writeEmpty) s
  | None => reject ErrAuthenticationRequired s
  end).

Definition handleListSessions : act := with_dependencies (
  calling (λ token, api_ListSessions api token) (λ found,
  converted found (λ items, writeIdentity 200 (ISessions (omap id items))))).

Definition handleRevokeSession : act :=
  let sessionID := q_Param r "session_id" in
  guarded (given [sessionID]) (with_dependencies (
  calling (λ token, api_RevokeSession api token sessionID) (λ _, writeEmpty))).

Definition handleRevokeAllSessions : act := with_dependencies (
  calling (λ token, api_RevokeAllSessions api token) (λ _, writeEmpty)).

Definition writeEmailVerification (resend : bool) : act := with_dependencies (
  calling (λ token, if resend then api_RequestEmailVerification api token
                    else api_GetEmailVerificationStatus api token) (λ status,
  converted (toEmailVerificationStatusData status) (λ data, writeIdentity 200 (IVerification data)))).

Definition handleVerifyEmail (body : option string) : act :=
  need body (λ token, guarded (given [token]) (with_dependencies (
  calling (λ _, api_VerifyEmail api token) (λ _, writeEmpty)))).

Definition handleRequestPasswordReset (body : option string) : act :=
  need body (λ identifier, guarded (given [identifier]) (with_dependencies (
  calling (λ _, api_RequestPasswordReset api identifier) (λ _, writeEmpty)))).

Definition handleResetPassword (body : option (string * string)) : act :=
  need body (λ '(token, password), guarded (given [token; password]) (with_dependencies (
  calling (λ _, api_ResetPassword api token password) (λ _, writeEmpty)))).

Definition handleDeactivateAccount (body : option string) : act :=
  need body (λ password, guarded (given [password]) (with_dependencies (
  calling (λ token, api_DeactivateAccount api token password) (λ _, writeEmpty)))).

(** The endpoints that act for the user of an access token. *)
Definition account_endpoints (body : option string) (resend : bool) : list act :=
  [handleCurrentUser; handleLogout; handleListSessions; handleRevokeSession; handleRevokeAllSessions;
   writeEmailVerification resend; handleDeactivateAccount body].

End endpoints.

(** ** Requests that are turned away *)

Section refusals.
Context `{ProblemCodec, !Rpc}.
Context {W : Type} (fresh : string) (ctx : Context_).

(** Nothing behind the gateway changed, and the answer is an error. *)
Definition turned_away (w : W) (z : W * Exchange) : Prop := z.1 = w ∧ 400 <= x_Status z.2.

Lemma reject_away re w x : 400 <= re_HTTPStatus re → turned_away w (reject fresh ctx re (w, x)).
Proof. intros Hs. split; [done|]. by apply WriteError_error. Qed.

Lemma need_away {A} (o : option A) k w x :
  (∀ a, turned_away w (k a (w, x))) → turned_away w (need fresh ctx o k (w, x)).
Proof. intros Hk. destruct o as [a|]; [apply Hk|]. by apply reject_away. Qed.

Lemma guarded_away ok k w x : turned_away w (k (w, x)) → turned_away w (guarded fresh ctx ok k (w, x)).
Proof. intros Hk. destruct ok; [done|]. by apply reject_away. Qed.

Lemma with_dependencies_away k w x : turned_away w (k (w, x)) → turned_away w (with_dependencies fresh ctx k (w, x)).
Proof. intros Hk. simpl. destruct (x_Dependencies x); [done|]. by apply reject_away. Qed.

Lemma calling_away {A} (call : string → tx W rpc_error A) k w x :
  (∃ e, call (stringValue (stored_token x)) w = (w, Err e)) → turned_away w (calling fresh ctx call k (w, x)).
Proof. intros [e He]. simpl. rewrite He. split; [done|]. apply writeRPCError_error. Qed.

End refusals.

(** ** The endpoints over the identity service *)

Section accounts.
Context `{Unicode, Crypto, TimeText, ProblemCodec, Redirects, !Rpc, !RpcLaws, IdentityCodec}.
Variables (verify : string → option Principal) (expiry : string → Z) (svc : Service) (ictx : ICtx).
Variables (sctx : Context_) (fresh : string) (r : Input) (ctx : Context_).

(** A call of a handler over the network. *)
Definition identity_remote {A} (m : tx IDB error A) : tx IDB rpc_error A :=
  wrap (λ e, delivered (ToBizStatus sctx e)) m.

Definition identity_message {A} (m : tx IDB error A) : tx IDB rpc_error (option A) :=
  identity_remote (m ≫= λ a, mret (Some a)).

(** [WithAccessToken] trims the token. *)
Definition identity_api : IdentityClient IDB rpc_error := MkIdentityClient
  (λ u e p, identity_message (ServeRegister svc ictx u e p))
  (λ i p, identity_message (ServeAuthenticate expiry svc ictx i p))
  (λ t, identity_message (ServeRefreshSession expiry svc ictx t))
  (λ token, identity_message (ServeGetCurrentUser verify (TrimSpace token)))
  (λ token, identity_message (ServeListSessions verify svc ictx (TrimSpace token)))
  (λ token i, identity_remote (ServeRevokeSession verify svc ictx (TrimSpace token) i))
  (λ token, identity_remote (ServeRevokeAllSessions verify svc ictx (TrimSpace token)))
  (λ token, identity_message (ServeGetEmailVerificationStatus verify svc ictx (TrimSpace token)))
  (λ token, identity_message (ServeRequestEmailVerification verify svc ictx (TrimSpace token)))
  (λ t, identity_remote (ServeVerifyEmail svc ictx t))
  (λ i, identity_remote (ServeRequestPasswordReset svc ictx i))
  (λ t p, identity_remote (ServeResetPassword svc ictx t p))
  (λ token p, identity_remote (ServeDeactivateAccount verify svc ictx (TrimSpace token) p)).

Lemma remote_refused {A} (m : tx IDB error A) s :
  (∃ e, m s = (s, Err e)) → ∃ e, identity_remote m s = (s, Err e).
Proof. intros [e He]. unfold identity_remote, wrap. rewrite He. by eexists. Qed.

Lemma message_refused {A} (m : tx IDB error A) s :
  (∃ e, (m ≫= λ _, mret tt) s = (s, Err e)) → ∃ e, identity_message m s = (s, Err e).
Proof.
  intros [e He]. apply remote_refused. exists e. cbv [mbind tx_bind] in *.
  destruct (m s) as [s' [a|e']]; [done|]. by injection He as -> ->.
Qed.

(** C17: once the password of an account has
    changed or the account has been closed, an access token issued before is
    good for nothing at the endpoints of an account, in every later state: the
    current user, the sessions and their revocation, logging out, the state of
    the verification and its mail, closing the account.  Whatever the request
    holds, the answer is an error and nothing behind the gateway changes. *)
Theorem old_tokens_refused s t u i row row' x token p body resend endpoint :
  ireachable (sv_Config svc) s → users s !! i = Some row →
  rtc (istep (sv_Config svc)) s t → users t !! i = Some row' →
  u_PasswordHash row' ≠ u_PasswordHash row ∨ u_Status row ≠ StatusDisabled ∧ u_Status row' = StatusDisabled →
  rtc (istep (sv_Config svc)) t u →
  stored_token x = Some token → verify (TrimSpace token) = Some p → pr_UserID p = i → 0 < i →
  pr_TokenVersion p <= u_TokenVersion row →
  endpoint ∈ account_endpoints identity_api fresh r ctx body resend →
  turned_away u (endpoint (u, x)).
Proof.
  intros Hs Hrow Hst Hrow' Hc Htu Hx Hv Hi Hpos Hver He.
  assert (speaks_for p u = None) as Hn
    by (eapply (changed_account_silent svc s t u); by eauto using ireachable_tidy).
  assert (∀ c, call_token c = Some (TrimSpace (stringValue (stored_token x))) →
    ∃ e, serve verify expiry svc ictx c u = (u, Err e)) as Hr.
  { intros c Hcall. eapply stale_token_refused; [exact Hcall|by rewrite Hx|lia|done]. }
  unfold account_endpoints in He.
  repeat (apply elem_of_cons in He as [->|He]); [..|by apply elem_of_nil in He];
    unfold handleCurrentUser, handleLogout, handleListSessions, handleRevokeSession, handleRevokeAllSessions,
      writeEmailVerification, handleDeactivateAccount.
  - cbn [snd]. rewrite Hx. destruct (stored_principal x); [|by apply reject_away].
    apply with_dependencies_away, calling_away, message_refused. exact (Hr (CallGetCurrentUser _) eq_refl).
  - apply with_dependencies_away. cbn [snd]. destruct (stored_principal x) as [q|]; [|by apply reject_away].
    case_bool_decide; [by apply reject_away|]. apply calling_away, remote_refused.
    exact (Hr (CallRevokeSession _ _) eq_refl).
  - apply with_dependencies_away, calling_away, message_refused. exact (Hr (CallListSessions _) eq_refl).
  - apply guarded_away, with_dependencies_away, calling_away, remote_refused.
    exact (Hr (CallRevokeSession _ _) eq_refl).
  - apply with_dependencies_away, calling_away, remote_refused. exact (Hr (CallRevokeAllSessions _) eq_refl).
  - apply with_dependencies_away, calling_away. destruct resend; apply message_refused;
      [exact (Hr (CallRequestEmailVerification _) eq_refl)|exact (Hr (CallGetEmailVerificationStatus _) eq_refl)].
  - apply need_away. intros password. apply guarded_away, with_dependencies_away, calling_away, remote_refused.
    exact (Hr (CallDeactivateAccount _ _) eq_refl).
Qed.

End accounts.

(** ** A concrete account *)

(** A token is the number of its account and version, in decimal. *)
Definition account_crypto : Crypto := {|
  bcrypt_hash := @bcrypt_hash toy_crypto;
  bcrypt_compare := @bcrypt_compare toy_crypto;
  hmac_sha256 := @hmac_sha256 toy_crypto;
  sha256 := @sha256 toy_crypto;
  gcm_seal := @gcm_seal toy_crypto;
  gcm_open := @gcm_open toy_crypto;
  mail_address := @mail_address toy_crypto;
  sign_token := λ i _ version _, Some (FormatInt (Z.pos (encode (i, version))));
  pg_lower := @pg_lower toy_crypto;
|}.

#[local] Existing Instance account_crypto.
#[local] Existing Instance ascii_unicode.

#[local] Instance fixed_time : TimeText := {| format_time _ := "2026-01-01T00:00:00Z" |}.

#[local] Instance empty_bodies : IdentityCodec := {| MarshalIdentity _ := Some "{}" |}.

Definition account_verify (token : string) : option Principal :=
  d ← NilZero.uint_of_string token;
  match Z.of_uint d with
  | Z.pos n => '(i, version) ← decode (A:=Z * Z) n; Some (MkPrincipal i "user" "user" version "s" (1000 * Second))
  | _ => None
  end.

Lemma account_signed i version :
  account_verify (FormatInt (Z.pos (encode (i, version)))) = Some (MkPrincipal i "user" "user" version "s" (1000 * Second)).
Proof.
  unfold account_verify. destruct (uint_FormatInt (encode (i, version))) as (d & -> & E). cbn. rewrite E.
  by rewrite countable.decode_encode.
Qed.

Definition whole_service : Service := MkService toy_config true true true true "h:" true true.

Definition no_account : Authentication := MkAuthentication None EmptyString EmptyString None None None.

Definition registered_db : IDB :=
  run_irequest toy_config (IReqRegister true (iat 1 "a") "alice" "alice@example.org" "correct horse") empty_idb.

Definition login_run := ServeAuthenticate (λ _, 9) whole_service (iat 2 "b") "alice" "correct horse" registered_db.

Definition account_db : IDB := login_run.1.

Definition account_answer : Authentication := match login_run.2 with Ok a => a | Err _ => no_account end.

Definition account_token : string := at_AccessToken account_answer.

Definition closed_db : IDB :=
  run_irequest toy_config (IReqDeactivate true (iat 4 "c") 1 "correct horse") account_db.

Lemma registered_reachable : ireachable toy_config registered_db.
Proof. apply ireach_request, rtc_refl. Qed.

Lemma account_login : session_answer (λ _, 9) whole_service (iat 2 "b") registered_db account_db account_answer.
Proof. left. exists "alice", "correct horse". vm_compute. reflexivity. Qed.

Lemma account_reachable : ireachable toy_config account_db.
Proof.
  unfold ireachable. etrans; [apply registered_reachable|]. exact (session_answer_steps account_verify (λ _, 9) whole_service _ _ _ _ account_login).
Qed.

Lemma closed_step : rtc (istep toy_config) account_db closed_db.
Proof. apply rtc_once. by exists (IReqDeactivate true (iat 4 "c") 1 "correct horse"). Qed.

Definition account_principal : Principal := MkPrincipal 1 "user" "user" 1 "s" (1000 * Second).

Lemma token_lifetime_witness :
  (∃ user, ServeGetCurrentUser account_verify account_token account_db = (account_db, Ok user)) ∧
  ∃ e, serve account_verify (λ _, 9) whole_service (iat 6 "d") (CallListSessions account_token) closed_db = (closed_db, Err e).
Proof.
  assert (∀ i role version session, sign_token i role version session = Some account_token →
    account_verify account_token = Some account_principal → 1 = i ∧ 1 = version) as Hsign.
  { intros i role version session [= <-]. rewrite account_signed. intros E. by injection E as -> ->. }
  assert (account_verify account_token = Some account_principal) as Hv by (vm_compute; reflexivity).
  pose proof (λ u, token_lifetime account_verify (λ _, 9) whole_service (iat 2 "b") registered_db account_db u
    account_answer account_principal Hsign registered_reachable account_login Hv eq_refl) as Hw.
  destruct (Hw account_db (rtc_refl _ _)) as (a & b & Ha & _ & Hb & Hok & _).
  destruct (Hw closed_db closed_step) as (c & d & Hc & _ & Hd & _ & Hno & Hmv).
  assert (a = b) as -> by congruence. assert (b = c) as -> by congruence.
  split; [exists (toIdentityUser (fromModel c)); by apply Hok|]. apply Hno; [|done].
  apply Hmv. right. revert Hd. vm_compute (users closed_db !! _). intros [= <-]. reflexivity.
Defined.

Lemma callers_touch_their_own_witness :
  ∃ p r, account_verify account_token = Some p ∧ speaks_for p account_db = Some r ∧
    own (pr_UserID p) account_db
      (serve account_verify (λ _, 9) whole_service (iat 6 "d") (CallRevokeAllSessions account_token) account_db).1.
Proof.
  destruct (callers_touch_their_own account_verify (λ _, 9) whole_service (iat 6 "d")
    (CallRevokeAllSessions account_token) account_token account_db account_reachable eq_refl) as [E|Hw]; [|exact Hw].
  exfalso. apply (f_equal (λ s, existsb (λ q, is_none (s_RevokedAt q.2)) (map_to_list (sessions s)))) in E.
  revert E. vm_compute. discriminate.
Defined.

Definition closing_exchange : Exchange :=
  set_Principal account_principal account_token (set_Dependencies true new_exchange).

Lemma old_tokens_refused_witness :
  turned_away closed_db
    (handleListSessions (identity_api account_verify (λ _, 9) whole_service (iat 6 "d") Background)
       "fresh" Background (closed_db, closing_exchange)).
Proof.
  eapply (old_tokens_refused account_verify (λ _, 9) whole_service (iat 6 "d") Background "fresh"
    (MkInput (λ _, []) (λ _, EmptyString) EmptyString EmptyString) Background account_db closed_db closed_db 1
    _ _ closing_exchange account_token account_principal None false).
  - exact account_reachable.
  - vm_compute. reflexivity.
  - exact closed_step.
  - vm_compute. reflexivity.
  - right. split; [vm_compute; discriminate|vm_compute; reflexivity].
  - apply rtc_refl.
  - reflexivity.
  - vm_compute. reflexivity.
  - reflexivity.
  - reflexivity.
  - vm_compute. discriminate.
  - unfold account_endpoints. rewrite !elem_of_cons. right. right. by left.
Defined.
